(* ===== verification/_CoqProject ===== *)
-Q . S2P
Prelude.v
Machine.v
FlexioDev.v
WrapperDevice.v
PacketHdr.v
DevCommon.v
RingProtocol.v
Reflector.v
DpaRefactor.v
PacketLoop.v
SmallBankCommon.v
SmallBankServer.v
SmallBankClient.v
SmallBankSystem.v
KvAggregation.v
DpaRefactorMt.v
NetworkFunction.v
Dhrystone.v
Roofline.v
BenchCache.v
MemoryBench.v
DpaSend.v
DpaSendMt.v
ScanReflect.v
HostRoofline.v
CacheProbe.v
SpinMutex.v
XXHash.v
Binary64.v
HostBank.v
HostBankClient.v
HostFlexio.v
HostMains.v
HexDump.v
Dpdk.v
OffloadRules.v
DpdkUtils.v
MempoolShadow.v
ReceiveControl.v
ReceiveMain.v
SyncEvent.v
ChannelDma.v
Doca.v
DmaCopy.v
TaskWindow.v
RdmaReceive.v
DmaLocal.v
DmaExport.v
BenchRunner.v
