(* ===== verification/Prelude.v ===== *)
(** * Verification of the BlueField-3 DPA benchmarks

    The repository measures the datapath accelerator (DPA) of the BlueField-3
    SmartNIC.  Its core is C code that runs on the DPA: device programs under
    [flexio/*/device], each with an initialisation RPC and an event handler, over
    the wrapper [wrapper_flexio/wrapper_flexio_device.h] and the structures of
    [wrapper_flexio/common_cross.h]; and the compute and memory benchmarks under
    [flexio/bench] and [flexio/roofline].  Host programs in C++ create the queues
    through [wrapper_flexio/wrapper_flexio.cpp], call the RPCs and report; there is
    also a port of the small bank to host threads ([test_suite/small_bank]).

    ** How the parts interact

    The host program creates completion, receive and send queues, copies the initial
    rings to the device, adds the flow rules of its MAC address and hands an
    initialisation RPC a [queue_config_data] (rings, buffers,
    keys).  The RPC fills a static device context and formats the send ring.  The
    NIC then writes completions into the completion ring; the event handler polls
    the owner bit of the current completion, finds the packet through the receive
    ring, changes memory, posts a send entry, rings a doorbell and advances the
    rings.  Buffers may lie in device memory or in host memory behind a window.

    ** Foundations

    - [Prelude]: machine integers ([wrapu], [wraps], the scope [cint]), tactics
      ([mlia], [decide_lia]), sums over lists and tables.
    - [Machine]: byte-addressed memory (a finite map, unwritten bytes are zero) with
      little-endian loads and stores.
    - [FlexioDev]: the FlexIO library, which is not in the repository, as the class
      [FlexioDev] of its operations and the class [FlexioDevLaws] of the documented
      facts the proofs use; [ref_flexio] is a concrete instance, used by every
      witness.  The [World] is memory, the rings, the window, the number of counter
      reads so far and the trace of library calls.
    - [WrapperDevice]: [wrapper_flexio_device.h], [wrapper_flexio_device.c] and the
      queue structures of [common_cross.h].
    - [PacketHdr]: the packet headers of [common_cross.h] in memory.
    - [DevCommon]: what every device program repeats (queue initialisers, the common
      fields of the contexts, the polling loops [drain], [poll], [poll_until], the
      MAC swap), with the ring depths as parameters.

    ** Protocol and loop theory

    - [RingProtocol]: the completion ring refines a FIFO queue ([completion_ring_fifo],
      C1, for all interleavings of NIC and device steps), the send ring a cursor over
      preformatted entries ([send_ring_entries], C2).  [cq_rep] and [sq_rep] are the
      representation relations the other files use.
    - [Reflector], [PacketLoop]: draining a queue with a reflecting body, and with an
      arbitrary packet function that answers in place; [HasQueues] is the interface a
      device context offers to these loops.

    ** Device programs

    - [DpaRefactor] ([flexio/dpa_refactor]), [DpaRefactorMt] ([dpa_refactor_mt]),
      [NetworkFunction] ([dpa_network_function]): reflectors; C3, C24 and
      [mt_packets_counted] give the bytes, posted entries, doorbells and counters of a
      packet and of a burst; [RSHash_polynomial] and [check_ipheader_spec] the hash and the
      header check.
    - [SmallBankCommon], [SmallBankServer], [SmallBankClient], [SmallBankSystem]
      ([dpa_small_bank]): the lock server, its tables, the transaction client and a
      whole transaction across both; C5, C7, C10, C12,
      [get_lock_refusal] and [finish_get_data].
    - [KvAggregation] ([dpa_kv_aggregation]): C15, C16.
    - [DpaSend] ([dpa_send], [dpa_send_ntp]), [DpaSendMt] ([dpa_send_mt]): packet
      generators; C37 (one packet from device memory), C39 (any threads, send buffers in
      device or host memory) and [sender_pingpong].
    - [ScanReflect] ([dpa_refactor_random_access], [dpa_refactor_workingset]):
      [scan_handler_burst].
    - [CacheProbe] ([dpa_refactor_ddio], [dpa_refactor_test_hostrq]):
      [probe_handler_batch].

    ** Benchmarks

    - [Dhrystone] ([flexio/bench/compute/dhrystone]): C25.
    - [Roofline] ([flexio/roofline]) and [HostRoofline] ([test_suite/roofline], the
      port to host threads): closed forms of all 32 kernels (C26),
      [host_roofline_agrees].
    - [BenchCache] ([flexio/bench/memory], cache), [MemoryBench] ([flexio/bench/memory]
      and [flexio/bench/mt_memory]): [init_pchase_cycle],
      [bucket_cycles_count_partition].

    ** Host programs

    - [HostFlexio] ([wrapper_flexio/wrapper_flexio.cpp], [.hpp]): the classes that
      create contexts, queues, rules and command queues.  Operations are in a monad of
      state and exceptions; [wp] is their logic.  A call of libflexio, libibverbs or
      mlx5dv is a value of [hcall], answered by the class [FlexioHost] under the laws
      [FlexioHostLaws]; [wait_run_terminates] (C17).
    - [HostMains] ([flexio/*/main.cpp], [dpa_small_bank/server.cpp] and [client.cpp]):
      the mains of the packet programs.  [refactor_end_to_end] (C4) and [mt_end_to_end]
      (C18) run a main and then the device handler on the queues it made;
      [single_main_starts] gives the order of the set-up.
    - [SpinMutex] ([utils/spinlock_mutex.h]): the spin locks, by atomic step of any
      number of threads; C29, C32, and [rw_reader_with_writer], which shows what the
      readers-writer lock does not exclude.
    - [XXHash] ([xxhash64.h]): the streaming hash against the one-shot reference, C27;
      the table of hashed identifiers.
    - [Binary64]: doubles as their 64 bits, with the rounding of the Standard Library's
      specification of floating point.
    - [HostBank], [HostBankClient] ([test_suite/small_bank]): tables, request handlers,
      client handlers and callbacks; type soundness (C9), locks taken all or none
      (C21), a transaction across client and server (C13), the buffers of concurrent
      requests (C33).
    - [HexDump] ([hex_dump] of [utils/utils_common.cpp]): C36.

    ** DPDK utilities

    - [Dpdk]: the calls of DPDK and DOCA as data ([rte_call]), answered by the class
      [DpdkLib] under the laws [DpdkLaws]; the monad and its logic [wp]; [live], the
      resources a list of calls has acquired and not handed back.
    - [OffloadRules] ([utils/dpdk/offload_rules.c]): flow rules and their counters, C19.
    - [DpdkUtils] ([utils/dpdk/dpdk_utils.c]): ports, queues, hairpin queues; set-up with
      every failure of every call (C14) and release (C11).
    - [MempoolShadow] (the rest of [dpdk_utils.c]): a DOCA memory map per chunk of a pool;
      C22, C35.

    ** Host benchmarks over DOCA and DPDK

    - [ReceiveControl], [ReceiveMain] ([test_suite/rdma_bench/receive_control.cpp]): the
      receiver of queue measurements.  The first holds the statistics, the receive loop
      (C34), the check of the links ([link_check_reports]) and the merge of the results
      (C31); the second [main] over the class [L2Lib] of DPDK calls, from the command line
      to the rows of the result file (C23); refused reservations of the result vectors and
      an undefined shift by the number of ports end it.
    - [SyncEvent] ([test_suite/channel_bench/sync_event.cpp]): two processes that
      alternate through synchronisation events; every interleaving, with refused and failed
      jobs, and termination under fairness when no job fails (C38).
    - [ChannelDma] ([send_dma_reqs] and [receive_dma_reqs] of [channel_bench.cpp]): a step
      relation of sender, receiver, DMA engine and event, with queues of depth 128 that
      refuse jobs and polls that fail; the flow-control invariant, and what a refused
      copy leads to (C30).
    - [Doca] ([wrapper/]): the calls of DOCA as data ([doca_call]), answered by the class
      [DocaLib] under the laws [DocaLaws]; the monad of the C++ wrappers and every wrapper
      class; [live], [in_flight] and [completed] as functions of the calls made; the logic
      [wp] and, over it, [runs], which also says which calls a program makes.  C20 is the
      search for a device.  [ref_doca] is a library that always succeeds.
    - [DmaCopy] ([test_suite/dma_copy_bench/importer.cpp]): a batch of copies that are
      submitted again (C6).
    - [TaskWindow] ([test_suite/gdr_bench/importer.cpp], [rdma_bench/sender.cpp]): sliding
      windows of tasks, for completions in any order ([gdr_window_routine]) and for a loop
      that relies on their order (C40, and [send_spins] for what happens without it).
    - [RdmaReceive] ([rdma_bench/receiver.cpp]): [receiver_releases_under_way].
    - [DmaLocal] ([test_suite/dma_local_to_local_sample], [program_core_objects] of
      [utils/utils_common.cpp]): a copy with the memory it changes, C28.
    - [DmaExport] ([dma_copy_bench/exporter.cpp], [doca_conn_info] of
      [utils/utils_common.h]): what the importer learns is what the exporter mapped
      ([export_reaches_importer], [conn_info_round_trip]).
    - [BenchRunner] ([utils/hs_clock.h], [utils/bench], [utils/numautil.cpp]): timers,
      counters, reports (C8), the worker threads and their cores
      ([runner_binds_workers]), huge pages ([huge_mem_pages]).

    ** Conventions

    A C integer is a [Z] reduced at each operation to the width of its type; signed
    overflow, which C leaves undefined, wraps.  A pointer is a [Z]; a ring element is the pair of the ring's base
    and an index.  A static variable is a field of the state a handler takes and
    returns.  A C function that divides by zero or leaves a local array returns
    [None]; a fixed-size global array out of its range gives [OutOfBounds] or [None].
    [Assert] of a device program returns [(uint64_t)-1]; [Assert] and [rt_assert] of
    the host throw, which is [None] in the monad of [HostFlexio] and [Thrown] in the
    type [result] of [HostBank].  A theorem about a host program says that it completes
    or that one of the library calls it made was refused ([call_refused]): it failed, or gave
    a null pointer or no key where the program checks for that.  The growth of a container of
    the C++ library is taken to succeed, except for the explicit reservations.  [flexio_dev_thread_reschedule] does not return.

    Programs that are the same text with other constants share their definitions:
    [payload], [program] and [variant] are the constants, and the modules [Send],
    [Ntp], [RandomAccess], [WorkingSet], [Ddio], [HostRq] are the programs.

    ** Bounds and fuel

    Event handlers poll for ever.  A handler takes one element of [env] per turn of
    its outer loop, a function that says what the NIC (and, for [is_stop], another
    thread) did before that turn, and is [Polling] when [env] is used up.  The inner
    loops take [fuel]; the theorems ask for one unit per completion waiting, which is
    at most the ring's size, and prove that the loop ends.  The scan of [ScanReflect]
    needs 128 units, the words of a packet.  The memory benchmarks' strided loops
    take one unit per index.  The programs of [DmaCopy] and [TaskWindow] take the number of
    turns of their main loop and, for the loop that waits for the last tasks, a number of
    polls; the theorems say what it means that these were not enough ([still_waiting]).
    Long measured loops ([LOOP_TOTAL], the walk of the transmit buffer) have their length as
    a parameter of a [*_with] definition.
    [wait_run] needs 1000 units per second of its limit; the rejection loop of a random
    second account takes one unit per draw, and theorems about it assume that the
    draws given contain another account.

    The NIC acts between the turns of the outer loop, not inside an inner loop.
    Other threads of the multi-threaded programs act on their own contexts only.

    ** Not modelled

    Printing ([flexio_dev_print], [flexio_dev_msg], [LOG_I]) and the counting loop
    [sleep_] have no effect on the state.  Of the mains: flag parsing, signals, idle
    loops and the mains of the benchmarks.  Of the host small bank: thread start-up, the
    eRPC library (a round trip is the server's handler followed by the client's
    callback) and several server threads at once.  Of the DOCA programs: the
    UDP sockets, the text of reports, the exporter of GPU memory, and the drivers of the
    compression, erasure coding and regular expression engines, whose effect is in the
    library; the printing of packet headers in [utils/dpdk] has no effect; the rest of [utils] is
    logging, flags and sockets.  [third_party], [utils/proto] (generated) and [scripts] are
    outside the development.  Code that a configuration macro removes is not translated,
    except the receiving halves of [dpa_send_mt].

    ** What could be added

    End-to-end theorems for the senders and the device small bank like those of the
    reflectors, host small bank servers of several threads, and the drivers of the other
    engines, once what these engines compute is specified. *)

From stdpp Require Import base gmap list numbers tactics.
From Stdlib Require Export ZArith Lia.
From stdpp Require Export base gmap list numbers tactics.

#[global] Open Scope Z_scope.

(** ** Integers of the C code, kept at their width *)

Declare Scope cint_scope.
Delimit Scope cint_scope with cint.

(** [wrapu w x] is the conversion of [x] to a [w]-bit unsigned type. *)
Definition wrapu (w x : Z) : Z := x mod 2 ^ w.

Abbreviation u8 := (wrapu 8).
Abbreviation u16 := (wrapu 16).
Abbreviation u32 := (wrapu 32).
Abbreviation u64 := (wrapu 64).

(** [wraps w x] is the conversion of [x] to a [w]-bit two's complement type. *)
Definition wraps (w x : Z) : Z := (x + 2 ^ (w - 1)) mod 2 ^ w - 2 ^ (w - 1).

Abbreviation s8 := (wraps 8).
Abbreviation s32 := (wraps 32).
Abbreviation s64 := (wraps 64).

Notation "x '+64' y" := (wrapu 64 (x + y)) (at level 50, left associativity, only parsing) : cint_scope.
Notation "x '-64' y" := (wrapu 64 (x - y)) (at level 50, left associativity, only parsing) : cint_scope.
Notation "x '*64' y" := (wrapu 64 (x * y)) (at level 40, left associativity, only parsing) : cint_scope.
Notation "x '+32' y" := (wrapu 32 (x + y)) (at level 50, left associativity, only parsing) : cint_scope.
Notation "x '-32' y" := (wrapu 32 (x - y)) (at level 50, left associativity, only parsing) : cint_scope.
Notation "x '*32' y" := (wrapu 32 (x * y)) (at level 40, left associativity, only parsing) : cint_scope.

(** C truth values: a scalar is true when it is not zero. *)
Definition truthy (x : Z) : bool := negb (x =? 0).

(** The value of a C comparison. *)
Definition c_bool (b : bool) : Z := if b then 1 else 0.

Create HintDb cint.

Lemma wrapu_range w x : 0 <= w -> 0 <= wrapu w x < 2 ^ w.
Proof. intros Hw. apply Z.mod_pos_bound. lia. Qed.

Lemma wrapu_small w x : 0 <= x < 2 ^ w -> wrapu w x = x.
Proof. apply Z.mod_small. Qed.

Lemma wrapu_wrapu w x : wrapu w (wrapu w x) = wrapu w x.
Proof. apply Zmod_mod. Qed.

(** A wrapped operand may be replaced by the operand itself. *)
Lemma wrapu_add_l w x y : wrapu w (wrapu w x + y) = wrapu w (x + y).
Proof. apply Zplus_mod_idemp_l. Qed.

Lemma wrapu_add_r w x y : wrapu w (x + wrapu w y) = wrapu w (x + y).
Proof. apply Zplus_mod_idemp_r. Qed.

Lemma wrapu_sub_l w x y : wrapu w (wrapu w x - y) = wrapu w (x - y).
Proof. apply Zminus_mod_idemp_l. Qed.

Lemma wrapu_sub_r w x y : wrapu w (x - wrapu w y) = wrapu w (x - y).
Proof. apply Zminus_mod_idemp_r. Qed.

Lemma wrapu_mul_l w x y : wrapu w (wrapu w x * y) = wrapu w (x * y).
Proof. apply Zmult_mod_idemp_l. Qed.

Lemma wrapu_mul_r w x y : wrapu w (x * wrapu w y) = wrapu w (x * y).
Proof. apply Zmult_mod_idemp_r. Qed.

#[export] Hint Rewrite wrapu_wrapu wrapu_add_l wrapu_add_r wrapu_sub_l wrapu_sub_r
  wrapu_mul_l wrapu_mul_r : cint.

Lemma wraps_small w x : 0 < w -> - 2 ^ (w - 1) <= x < 2 ^ (w - 1) -> wraps w x = x.
Proof.
  intros Hw Hx. unfold wraps. rewrite Z.mod_small; [lia|].
  replace (2 ^ w) with (2 * 2 ^ (w - 1)); [lia|].
  rewrite <- Z.pow_succ_r by lia. f_equal. lia.
Qed.

Lemma wraps_range w x : 0 < w -> - 2 ^ (w - 1) <= wraps w x < 2 ^ (w - 1).
Proof.
  intros Hw. unfold wraps.
  assert (2 ^ w = 2 * 2 ^ (w - 1)) as E.
  { rewrite <- Z.pow_succ_r by lia. f_equal. lia. }
  pose proof (Z.mod_pos_bound (x + 2 ^ (w - 1)) (2 ^ w)). lia.
Qed.

(** Conversion to a signed type depends on the remainder only. *)
Lemma wraps_cong w x y : 0 < w -> (2 ^ w | x - y) -> wraps w x = wraps w y.
Proof.
  intros Hw [q Hq]. unfold wraps. f_equal.
  replace (x + 2 ^ (w - 1)) with (y + 2 ^ (w - 1) + q * 2 ^ w) by lia.
  apply Z_mod_plus_full.
Qed.

Lemma wraps_div w x : 0 < w -> (2 ^ w | x - wraps w x).
Proof.
  intros Hw. unfold wraps. exists ((x + 2 ^ (w - 1)) / 2 ^ w).
  pose proof (Z_div_mod_eq_full (x + 2 ^ (w - 1)) (2 ^ w)). lia.
Qed.

(** Masking with [2^k - 1] takes the remainder modulo [2^k]. *)
Lemma land_mask x k : 0 <= k -> Z.land x (2 ^ k - 1) = x mod 2 ^ k.
Proof.
  intros Hk. rewrite <- Z.land_ones by done. f_equal.
  rewrite Z.ones_equiv. lia.
Qed.

(** Reducing first modulo a larger power of two changes nothing. *)
Lemma mod_pow2_mod x a b : 0 <= a <= b -> (x mod 2 ^ b) mod 2 ^ a = x mod 2 ^ a.
Proof.
  intros Hab. apply Z.mod_mod_divide.
  exists (2 ^ (b - a)). rewrite <- Z.pow_add_r by lia. f_equal. lia.
Qed.

Lemma c_bool_truthy b : truthy (c_bool b) = b.
Proof. by destruct b. Qed.

(** [lia] for goals with [/] and [mod] by constants. *)
Ltac mlia := Z.to_euclidean_division_equations; lia.

(** Settles every [decide] of a goal whose outcome is linear arithmetic. *)
Ltac decide_lia :=
  repeat match goal with
  | |- context [decide ?P] =>
      first [rewrite (decide_False (P := P)) by lia | rewrite (decide_True (P := P)) by lia]
  end.

(** ** Sums of lists *)

Definition zsum (xs : list Z) : Z := foldr Z.add 0 xs.

Lemma zsum_permutation xs ys : xs ≡ₚ ys -> zsum xs = zsum ys.
Proof. unfold zsum. induction 1; cbn; lia. Qed.

Lemma zsum_insert xs i x v : xs !! i = Some x -> zsum (<[i := v]> xs) = zsum xs - x + v.
Proof.
  revert i. induction xs as [|y xs IH]; intros [|i] H; [done|done|..].
  - injection H as ->. change (v + zsum xs = x + zsum xs - x + v). lia.
  - change (y + zsum (<[i := v]> xs) = y + zsum xs - x + v). rewrite (IH i) by done. lia.
Qed.

Lemma zsum_replicate n x : zsum (replicate n x) = Z.of_nat n * x.
Proof.
  induction n as [|n IH]; [done|]. change (x + zsum (replicate n x) = Z.of_nat (S n) * x). lia.
Qed.

(** The loop [for (i = 0; i < n; i++) result += table[i];] over a table of
    64-bit counters; [None] is an access beyond the table. *)
Fixpoint sum_table_loop (table : list Z) (i n : nat) (result : Z) : option Z :=
  match n with
  | O => Some result
  | S n =>
      match table !! i with
      | Some v => sum_table_loop table (S i) n (result +64 v)%cint
      | None => None
      end
  end.

Definition sum_table (table : list Z) (n : Z) : option Z := sum_table_loop table 0 (Z.to_nat n) 0.

Lemma sum_table_loop_spec vs pre post acc :
  sum_table_loop (pre ++ vs ++ post) (length pre) (length vs) (u64 acc) = Some (u64 (acc + zsum vs)).
Proof.
  revert pre acc. induction vs as [|v vs IH]; intros pre acc; cbn [length sum_table_loop].
  { cbn. by rewrite Z.add_0_r. }
  cbn [app]. rewrite list_lookup_middle by done. rewrite wrapu_add_l.
  specialize (IH (pre ++ [v]) (acc + v)). rewrite length_app, <- app_assoc in IH. cbn in IH.
  rewrite Nat.add_1_r in IH. rewrite IH. unfold zsum. cbn. do 2 f_equal. lia.
Qed.

Lemma sum_table_prefix vs post : sum_table (vs ++ post) (Z.of_nat (length vs)) = Some (u64 (zsum vs)).
Proof. unfold sum_table. rewrite Nat2Z.id. exact (sum_table_loop_spec vs [] post 0). Qed.
