(* ===== verification/Machine.v ===== *)
(** * Machine: byte-addressed memory and little-endian accesses

    The DPA cores are little-endian RISC-V ([common_cross.h] selects them with
    [__riscv]); the device code reads and writes packet buffers through casts
    such as [*(size_t * )(p + 6)].  A memory is a finite map from addresses to
    byte values, an address that was never written reads as zero, and an
    access of [n] bytes is a little-endian number. *)

From S2P Require Import Prelude.

Abbreviation mem := (gmap Z Z).

(** One byte of memory. *)
Definition rd8 (m : mem) (a : Z) : Z := u8 (default 0 (m !! a)).
Definition wr8 (m : mem) (a v : Z) : mem := <[a := u8 v]> m.

(** [loadle m a n]: the little-endian number in the [n] bytes at [a]. *)
Fixpoint loadle (m : mem) (a : Z) (n : nat) : Z :=
  match n with
  | O => 0
  | S n => rd8 m a + 256 * loadle m (a + 1) n
  end.

(** [storele m a n v]: the low [n] bytes of [v] stored at [a]. *)
Fixpoint storele (m : mem) (a : Z) (n : nat) (v : Z) : mem :=
  match n with
  | O => m
  | S n => storele (wr8 m a v) (a + 1) n (v / 256)
  end.

Definition ld16 m a := loadle m a 2.
Definition ld32 m a := loadle m a 4.
Definition ld64 m a := loadle m a 8.
Definition st8 m a v := storele m a 1 v.
Definition st16 m a v := storele m a 2 v.
Definition st32 m a v := storele m a 4 v.
Definition st64 m a v := storele m a 8 v.

(** [rdbytes m a n]: the [n] bytes at [a], first byte first; [wrbytes] is the
    store of a list of bytes ([memcpy] from a list). *)
Fixpoint rdbytes (m : mem) (a : Z) (n : nat) : list Z :=
  match n with
  | O => []
  | S n => rd8 m a :: rdbytes m (a + 1) n
  end.

Fixpoint wrbytes (m : mem) (a : Z) (bs : list Z) : mem :=
  match bs with
  | [] => m
  | b :: bs => wrbytes (wr8 m a b) (a + 1) bs
  end.

(** ** Bytes *)

Lemma rd8_range m a : 0 <= rd8 m a < 256.
Proof. apply (wrapu_range 8). lia. Qed.

Lemma rd8_wr8_eq m a v : rd8 (wr8 m a v) a = u8 v.
Proof. unfold rd8, wr8. rewrite lookup_insert_eq. apply wrapu_wrapu. Qed.

Lemma rd8_wr8_ne m a b v : a <> b -> rd8 (wr8 m a v) b = rd8 m b.
Proof. intros H. unfold rd8, wr8. by rewrite lookup_insert_ne. Qed.

(** ** Loads *)

Lemma loadle_range m a n : 0 <= loadle m a n < 256 ^ Z.of_nat n.
Proof.
  revert a. induction n as [|n IH]; intros a; cbn [loadle]; [lia|].
  pose proof (rd8_range m a). specialize (IH (a + 1)).
  rewrite Nat2Z.inj_succ, Z.pow_succ_r by lia. lia.
Qed.

(** Two memories that agree on the bytes read give the same number. *)
Lemma loadle_ext m m' a n :
  (forall b, a <= b < a + Z.of_nat n -> rd8 m b = rd8 m' b) ->
  loadle m a n = loadle m' a n.
Proof.
  revert a. induction n as [|n IH]; intros a H; cbn [loadle]; [done|].
  rewrite (H a) by lia. f_equal. f_equal. apply IH. intros b Hb. apply H. lia.
Qed.

(** The [i]-th byte of a loaded number is the [i]-th byte of memory. *)
Lemma loadle_byte m a n i :
  0 <= i < Z.of_nat n -> (loadle m a n / 256 ^ i) mod 256 = rd8 m (a + i).
Proof.
  revert a i. induction n as [|n IH]; intros a i Hi; [lia|].
  cbn [loadle]. pose proof (rd8_range m a) as Hr.
  destruct (decide (i = 0)) as [->|Hne].
  - rewrite Z.pow_0_r, Z.div_1_r, Z.add_0_r.
    replace (rd8 m a + 256 * loadle m (a + 1) n)
      with (rd8 m a + loadle m (a + 1) n * 256) by lia.
    rewrite Z_mod_plus_full. apply Z.mod_small. lia.
  - replace i with (Z.succ (i - 1)) at 1 by lia.
    assert (0 < 256 ^ (i - 1)) by (apply Z.pow_pos_nonneg; lia).
    rewrite Z.pow_succ_r by lia. rewrite <- Z.div_div by lia.
    replace (rd8 m a + 256 * loadle m (a + 1) n)
      with (rd8 m a + loadle m (a + 1) n * 256) by lia.
    rewrite Z.div_add by lia. rewrite (Z.div_small (rd8 m a)) by lia. rewrite Z.add_0_l.
    rewrite IH by lia. f_equal. lia.
Qed.

(** ** Stores *)

Lemma rd8_storele m a n v b :
  rd8 (storele m a n v) b =
  if decide (a <= b < a + Z.of_nat n) then (v / 256 ^ (b - a)) mod 256 else rd8 m b.
Proof.
  revert m a v. induction n as [|n IH]; intros m a v; cbn [storele].
  { case_decide; [lia|done]. }
  rewrite IH. destruct (decide (b = a)) as [->|Hne].
  - rewrite decide_False by lia. rewrite decide_True by lia.
    rewrite rd8_wr8_eq, Z.sub_diag, Z.pow_0_r, Z.div_1_r. done.
  - destruct (decide (a <= b < a + Z.of_nat (S n))).
    + rewrite decide_True by lia. rewrite Z.div_div by lia.
      f_equal. f_equal. rewrite <- Z.pow_succ_r by lia. f_equal. lia.
    + rewrite decide_False by lia. by apply rd8_wr8_ne.
Qed.

Lemma rd8_storele_in m a n v b :
  a <= b < a + Z.of_nat n -> rd8 (storele m a n v) b = (v / 256 ^ (b - a)) mod 256.
Proof. intros H. rewrite rd8_storele. by rewrite decide_True. Qed.

Lemma rd8_storele_out m a n v b :
  b < a \/ a + Z.of_nat n <= b -> rd8 (storele m a n v) b = rd8 m b.
Proof. intros H. rewrite rd8_storele. rewrite decide_False by lia. done. Qed.

(** A load of a region disjoint from a store sees the old bytes. *)
Lemma loadle_storele_out m a n v b k :
  b + Z.of_nat k <= a \/ a + Z.of_nat n <= b ->
  loadle (storele m a n v) b k = loadle m b k.
Proof. intros H. apply loadle_ext. intros c Hc. apply rd8_storele_out. lia. Qed.

(** A number is determined by its bytes. *)
Lemma loadle_bytes_of m a n v :
  (forall i, 0 <= i < Z.of_nat n -> rd8 m (a + i) = (v / 256 ^ i) mod 256) ->
  loadle m a n = v mod 256 ^ Z.of_nat n.
Proof.
  revert a v. induction n as [|n IH]; intros a v H; cbn [loadle].
  { by rewrite Z.mod_1_r. }
  rewrite (IH (a + 1) (v / 256)).
  - pose proof (H 0 ltac:(lia)) as H0. rewrite Z.add_0_r, Z.pow_0_r, Z.div_1_r in H0.
    rewrite H0, Nat2Z.inj_succ, Z.pow_succ_r by lia.
    rewrite Z.rem_mul_r by lia. done.
  - intros i Hi. replace (a + 1 + i) with (a + (i + 1)) by lia.
    rewrite H by lia. rewrite Z.div_div by lia. f_equal. f_equal.
    rewrite Z.add_1_r, Z.pow_succ_r by lia. done.
Qed.

(** Reading back what was stored. *)
Lemma loadle_storele_eq m a n v : loadle (storele m a n v) a n = v mod 256 ^ Z.of_nat n.
Proof.
  apply loadle_bytes_of. intros i Hi. rewrite rd8_storele_in by lia.
  do 3 f_equal. lia.
Qed.

(** ** Lists of bytes *)

Lemma length_rdbytes m a n : length (rdbytes m a n) = n.
Proof. revert a. induction n as [|n IH]; intros a; cbn; [done|]. by rewrite IH. Qed.

Lemma rdbytes_ext m m' a n :
  (forall b, a <= b < a + Z.of_nat n -> rd8 m b = rd8 m' b) ->
  rdbytes m a n = rdbytes m' a n.
Proof.
  revert a. induction n as [|n IH]; intros a H; cbn [rdbytes]; [done|].
  rewrite (H a) by lia. f_equal. apply IH. intros b Hb. apply H. lia.
Qed.

Lemma rd8_wrbytes m a bs b :
  rd8 (wrbytes m a bs) b =
  if decide (a <= b < a + Z.of_nat (length bs))
  then u8 (default 0 (bs !! Z.to_nat (b - a))) else rd8 m b.
Proof.
  revert m a. induction bs as [|x bs IH]; intros m a; cbn [wrbytes length].
  { case_decide; [lia|done]. }
  rewrite IH. destruct (decide (b = a)) as [->|Hne].
  - rewrite decide_False by lia. rewrite decide_True by lia.
    rewrite rd8_wr8_eq, Z.sub_diag. done.
  - destruct (decide (a <= b < a + Z.of_nat (S (length bs)))).
    + rewrite decide_True by lia.
      replace (Z.to_nat (b - a)) with (S (Z.to_nat (b - (a + 1)))) by lia. done.
    + rewrite decide_False by lia. by apply rd8_wr8_ne.
Qed.

#[export] Hint Rewrite rd8_storele_in rd8_storele_out loadle_storele_out loadle_storele_eq
  using lia : cint.

#[global] Arguments loadle : simpl never.
#[global] Arguments storele : simpl never.
#[global] Arguments rdbytes : simpl never.
#[global] Arguments wrbytes : simpl never.
