(* ===== verification/FlexioDev.v ===== *)
(** * FlexioDev: the interface of the FlexIO device library

    [libflexio-dev], [dpaintrin.h] and the NIC are not part of the repository.
    They enter the model as the class [FlexioDev], whose members stand for the
    library calls the device code makes, and [FlexioDevLaws], the documented
    behaviour some theorems rely on.  [ref_flexio] is one concrete instance,
    used by the witnesses.

    The queue rings (completion, receive, send) are arrays of elements the
    library owns, so an element is addressed by the ring's base address and its
    index; packet buffers live in byte memory.  Calls whose effect is outside
    the device program (doorbells, fences, arming a queue, copies to the host)
    are recorded in order in [w_trace]; messages ([flexio_dev_print], [LOG_I],
    ...) are not modelled. *)

From S2P Require Import Prelude Machine.

(** Byte reversal of the low [n] bytes of a number. *)
Fixpoint bswap (n : nat) (v : Z) : Z :=
  match n with
  | O => 0
  | S k => (v mod 256) * 256 ^ Z.of_nat k + bswap k (v / 256)
  end.

Class FlexioDev := {
  (** [struct flexio_dev_cqe64] and its accessors *)
  cqe64 : Type;
  flexio_dev_cqe_get_owner : cqe64 -> Z;
  flexio_dev_cqe_get_wqe_counter : cqe64 -> Z;
  flexio_dev_cqe_get_byte_cnt : cqe64 -> Z;
  (** the content of a completion entry nobody wrote yet *)
  cqe64_init : cqe64;
  (** [struct flexio_dev_wqe_rcv_data_seg] *)
  rwqe : Type;
  flexio_dev_rwqe_get_addr : rwqe -> Z;
  rwqe_init : rwqe;
  (** [union flexio_dev_sqe_seg]: the segment setters, and the fields of its
      [mem_ptr_send_data] member *)
  sqe_seg : Type;
  sqe_seg_init : sqe_seg;
  flexio_dev_swqe_seg_ctrl_set : Z -> Z -> Z -> Z -> sqe_seg -> sqe_seg;
  flexio_dev_swqe_seg_eth_set : Z -> Z -> Z -> Z -> sqe_seg -> sqe_seg;
  flexio_dev_swqe_seg_mem_ptr_data_set : Z -> Z -> Z -> sqe_seg -> sqe_seg;
  mem_ptr_byte_count : sqe_seg -> Z;
  mem_ptr_lkey : sqe_seg -> Z;
  mem_ptr_addr : sqe_seg -> Z;
  set_mem_ptr_byte_count : Z -> sqe_seg -> sqe_seg;
  set_mem_ptr_addr : Z -> sqe_seg -> sqe_seg;
  MLX5_CTRL_SEG_CE_CQE_ON_CQE_ERROR : Z;
  FLEXIO_CTRL_SEG_SEND_EN : Z;
  LOG_SQE_NUM_SEGS : Z;
  (** [flexio_dev_endianity.h] *)
  cpu_to_be16 : Z -> Z;
  cpu_to_be32 : Z -> Z;
  cpu_to_be64 : Z -> Z;
  (** [flexio_dev_get_thread_ctx]: the status it returns and the pointer it sets *)
  flexio_dev_get_thread_ctx : Z * Z;
  (** windows: whether configuring window [id] with [mkey] succeeds, and the
      address a host address is mapped to under the current configuration *)
  window_config_ok : Z -> Z -> bool;
  window_ptr : option (Z * Z) -> Z -> option Z;
  (** the location an access at an address reaches: an address of the window
      range is redirected by the window's current configuration *)
  window_view : option (Z * Z) -> Z -> Z;
  (** the values successive reads of the cycle and instruction counters give *)
  cycles_at : nat -> Z;
  inst_ret_at : nat -> Z;
}.

(** What the theorems use of the library's documentation. *)
Class FlexioDevLaws (F : FlexioDev) : Prop := {
  be16_bswap v : cpu_to_be16 v = bswap 2 v;
  be32_bswap v : cpu_to_be32 v = bswap 4 v;
  be64_bswap v : cpu_to_be64 v = bswap 8 v;
  log_sqe_num_segs : LOG_SQE_NUM_SEGS = 2;
  mem_ptr_data_set_byte_count sz lk ad s :
    mem_ptr_byte_count (flexio_dev_swqe_seg_mem_ptr_data_set sz lk ad s) = cpu_to_be32 sz;
  mem_ptr_data_set_lkey sz lk ad s :
    mem_ptr_lkey (flexio_dev_swqe_seg_mem_ptr_data_set sz lk ad s) = cpu_to_be32 lk;
  mem_ptr_data_set_addr sz lk ad s :
    mem_ptr_addr (flexio_dev_swqe_seg_mem_ptr_data_set sz lk ad s) = cpu_to_be64 ad;
  byte_count_set_byte_count v s : mem_ptr_byte_count (set_mem_ptr_byte_count v s) = v;
  lkey_set_byte_count v s : mem_ptr_lkey (set_mem_ptr_byte_count v s) = mem_ptr_lkey s;
  byte_count_set_addr v s : mem_ptr_byte_count (set_mem_ptr_addr v s) = mem_ptr_byte_count s;
  lkey_set_addr v s : mem_ptr_lkey (set_mem_ptr_addr v s) = mem_ptr_lkey s;
  addr_set_addr v s : mem_ptr_addr (set_mem_ptr_addr v s) = v;
}.

(** ** A concrete library for the witnesses *)

Record ref_cqe := RefCqe { rc_owner : Z; rc_counter : Z; rc_byte_cnt : Z }.
Record ref_seg := RefSeg { rs_byte_count : Z; rs_lkey : Z; rs_addr : Z }.

Definition ref_flexio : FlexioDev := {|
  cqe64 := ref_cqe;
  flexio_dev_cqe_get_owner := rc_owner;
  flexio_dev_cqe_get_wqe_counter := rc_counter;
  flexio_dev_cqe_get_byte_cnt := rc_byte_cnt;
  cqe64_init := RefCqe 1 0 0;
  rwqe := Z;
  flexio_dev_rwqe_get_addr := fun a => a;
  rwqe_init := 0;
  sqe_seg := ref_seg;
  sqe_seg_init := RefSeg 0 0 0;
  flexio_dev_swqe_seg_ctrl_set i n ce op _ := RefSeg i n ce;
  flexio_dev_swqe_seg_eth_set _ _ _ _ _ := RefSeg 0 0 0;
  flexio_dev_swqe_seg_mem_ptr_data_set sz lk ad _ := RefSeg (bswap 4 sz) (bswap 4 lk) (bswap 8 ad);
  mem_ptr_byte_count := rs_byte_count;
  mem_ptr_lkey := rs_lkey;
  mem_ptr_addr := rs_addr;
  set_mem_ptr_byte_count v s := RefSeg v (rs_lkey s) (rs_addr s);
  set_mem_ptr_addr v s := RefSeg (rs_byte_count s) (rs_lkey s) v;
  MLX5_CTRL_SEG_CE_CQE_ON_CQE_ERROR := 0;
  FLEXIO_CTRL_SEG_SEND_EN := 10;
  LOG_SQE_NUM_SEGS := 2;
  cpu_to_be16 := bswap 2;
  cpu_to_be32 := bswap 4;
  cpu_to_be64 := bswap 8;
  flexio_dev_get_thread_ctx := (0, 4096);
  window_config_ok _ _ := true;
  window_ptr c a := match c with Some _ => Some (a + 2 ^ 40) | None => None end;
  window_view c a := if 2 ^ 40 <=? a then a - 2 ^ 40 else a;
  cycles_at n := u32 (1000 * Z.of_nat n);
  inst_ret_at n := 7 * Z.of_nat n;
|}.

#[export] Instance ref_flexio_laws : FlexioDevLaws ref_flexio.
Proof. by split. Qed.

(** ** The world the device program acts on *)

Inductive event :=
| EvSqRingDb (sq_pi sq_number : Z)        (* flexio_dev_qp_sq_ring_db *)
| EvRqIncPi (rq_dbr : Z)                  (* flexio_dev_dbr_rq_inc_pi *)
| EvCqSetCi (cq_dbr ci : Z)               (* flexio_dev_dbr_cq_set_ci *)
| EvCqArm (ci cq_number : Z)              (* flexio_dev_cq_arm *)
| EvMemoryWriteback                       (* __dpa_thread_memory_writeback *)
| EvWindowWriteback                       (* __dpa_thread_window_writeback *)
| EvFence                                 (* __dpa_thread_fence *)
| EvMemoryFence                           (* __dpa_thread_memory_fence *)
| EvSystemFence                           (* __dpa_thread_system_fence *)
| EvWindowConfig (window_id mkey : Z)     (* flexio_dev_window_config *)
| EvWindowMkeyConfig (mkey : Z)           (* flexio_dev_window_mkey_config *)
| EvCopyToHost (haddr : Z) (bs : list Z). (* flexio_dev_window_copy_to_host *)

#[export] Instance event_eq_dec : EqDecision event.
Proof. solve_decision. Defined.

Section World.
Context {F : FlexioDev}.

Record World := MkWorld {
  w_mem : mem;                      (* packet and data buffers *)
  w_cq : gmap (Z * Z) cqe64;        (* completion rings, by base and index *)
  w_rq : gmap (Z * Z) rwqe;         (* receive rings *)
  w_sq : gmap (Z * Z) sqe_seg;      (* send rings *)
  w_tick : nat;                     (* reads of the counters so far *)
  w_window : option (Z * Z);        (* this thread's window configuration *)
  w_trace : list event;             (* library calls so far, oldest first *)
}.

Definition set_mem (m : mem) (w : World) : World :=
  MkWorld m (w_cq w) (w_rq w) (w_sq w) (w_tick w) (w_window w) (w_trace w).
Definition set_cq (c : gmap (Z * Z) cqe64) (w : World) : World :=
  MkWorld (w_mem w) c (w_rq w) (w_sq w) (w_tick w) (w_window w) (w_trace w).
Definition set_sq (s : gmap (Z * Z) sqe_seg) (w : World) : World :=
  MkWorld (w_mem w) (w_cq w) (w_rq w) s (w_tick w) (w_window w) (w_trace w).
Definition set_window (c : option (Z * Z)) (w : World) : World :=
  MkWorld (w_mem w) (w_cq w) (w_rq w) (w_sq w) (w_tick w) c (w_trace w).
Definition tick (w : World) : World :=
  MkWorld (w_mem w) (w_cq w) (w_rq w) (w_sq w) (S (w_tick w)) (w_window w) (w_trace w).

(** A library call that is only recorded. *)
Definition emit (e : event) (w : World) : World :=
  MkWorld (w_mem w) (w_cq w) (w_rq w) (w_sq w) (w_tick w) (w_window w) (w_trace w ++ [e]).

(** Reading an element of a ring. *)
Definition cqe_at (w : World) (p : Z * Z) : cqe64 := default cqe64_init (w_cq w !! p).
Definition rwqe_at (w : World) (p : Z * Z) : rwqe := default rwqe_init (w_rq w !! p).
Definition sqe_at (w : World) (p : Z * Z) : sqe_seg := default sqe_seg_init (w_sq w !! p).

(** Updating a send segment in place. *)
Definition upd_sqe (p : Z * Z) (f : sqe_seg -> sqe_seg) (w : World) : World :=
  set_sq (<[p := f (sqe_at w p)]> (w_sq w)) w.

(** [__dpa_thread_cycles] and [__dpa_thread_inst_ret]. *)
Definition thread_cycles (w : World) : Z * World := (cycles_at (w_tick w), tick w).
Definition thread_inst_ret (w : World) : Z * World := (inst_ret_at (w_tick w), tick w).

(** [flexio_dev_window_config]: true when it returns [FLEXIO_DEV_STATUS_SUCCESS]. *)
Definition window_config (window_id mkey : Z) (w : World) : bool * World :=
  let w := emit (EvWindowConfig window_id mkey) w in
  if window_config_ok window_id mkey then (true, set_window (Some (window_id, mkey)) w)
  else (false, w).

(** [flexio_dev_window_mkey_config]: only the key of the window changes; the
    callers ignore its status. *)
Definition window_mkey_config (mkey : Z) (w : World) : World :=
  let w' := emit (EvWindowMkeyConfig mkey) w in
  match w_window w with
  | Some (id, _) => if window_config_ok id mkey then set_window (Some (id, mkey)) w' else w'
  | None => w'
  end.

(** The location an access through address [a] reaches. *)
Definition via (w : World) (a : Z) : Z := window_view (w_window w) a.

Definition empty_world : World := MkWorld ∅ ∅ ∅ ∅ 0%nat None [].

Lemma sqe_at_upd_eq p f w : sqe_at (upd_sqe p f w) p = f (sqe_at w p).
Proof. unfold sqe_at, upd_sqe, set_sq. cbn. by rewrite lookup_insert_eq. Qed.

Lemma sqe_at_upd_ne p q f w : p <> q -> sqe_at (upd_sqe p f w) q = sqe_at w q.
Proof. intros H. unfold sqe_at, upd_sqe, set_sq. cbn. by rewrite lookup_insert_ne. Qed.

End World.

Arguments World : clear implicits.
