(* ===== verification/WrapperDevice.v ===== *)
(** * WrapperDevice: the device-side wrapper of the FlexIO queues

    Translation of [wrapper_flexio/wrapper_flexio_device.h],
    [wrapper_flexio/wrapper_flexio_device.c] and the structures of
    [wrapper_flexio/common_cross.h].  A context structure is a record with the
    structure's fields; a function that updates a context through a pointer
    returns the new context, and one that touches the rings or calls the library
    also takes and returns the [World].  A pointer into a ring is the pair of
    the ring's base address and an element index. *)

From S2P Require Import Prelude Machine FlexioDev.

(** ** common_cross.h *)

Definition L2V (l : Z) : Z := u64 (Z.shiftl 1 l).
Definition L2M (l : Z) : Z := u64 (L2V l - 1).
Definition LOG2VALUE (l : Z) : Z := u64 (Z.shiftl 1 l).

Record app_transfer_cq := {
  cq_num : Z;
  log_cq_depth : Z;
  cq_ring_daddr : Z;
  cq_dbr_daddr : Z;
}.

Record app_transfer_wq := {
  wq_num : Z;
  wqd_mkey_id : Z;
  wq_ring_daddr : Z;
  wq_dbr_daddr : Z;
  wqd_daddr : Z;
  daddr_on_host : Z;
}.

Record queue_config_data := {
  rq_cq_data : app_transfer_cq;
  rq_data : app_transfer_wq;
  sq_cq_data : app_transfer_cq;
  sq_data : app_transfer_wq;
  thread_index : Z;
  new_buffer_addr : Z;
  new_buffer_mkey_id : Z;
}.

(** [addr_to_num] on the six bytes of [struct ether_addr]. *)
Definition addr_to_num (addr_bytes : list Z) : Z :=
  let b i := default 0 (addr_bytes !! i) in
  u64 (Z.lor (Z.lor (Z.lor (Z.lor (Z.lor
    (Z.shiftl (b 0%nat) 40) (Z.shiftl (b 1%nat) 32)) (Z.shiftl (b 2%nat) 24))
    (Z.shiftl (b 3%nat) 16)) (Z.shiftl (b 4%nat) 8)) (b 5%nat)).

(** ** The queue contexts *)

Record cq_ctx_t := MkCq {
  cq_number : Z;
  cq_ring : Z;
  cqe : Z * Z;
  cq_idx : Z;
  cq_hw_owner_bit : Z;
  cq_dbr : Z;
  cq_idx_mask : Z;
}.

Record rq_ctx_t := MkRq {
  rq_number : Z;
  rq_ring : Z;
  rq_dbr : Z;
  rq_idx_mask : Z;
}.

Record sq_ctx_t := MkSq {
  sq_number : Z;
  sq_wqe_seg_idx : Z;
  sq_ring : Z;
  sq_dbr : Z;
  sq_pi : Z;
  sq_idx_mask : Z;
}.

Record dt_ctx_t := MkDt {
  sq_tx_buff : Z;
  tx_buff_idx : Z;
  data_idx_mask : Z;
}.

Record host_rq_ctx_t := MkHostRq {
  hrq_rkey : Z;
  rq_window_id : Z;
  host_rx_buff : Z;
  dpa_rx_buff : Z;
}.

Record host_sq_ctx_t := MkHostSq {
  hsq_rkey : Z;
  sq_window_id : Z;
  host_tx_buff : Z;
  dpa_tx_buff : Z;
}.

(** The contexts before initialisation: static storage is zero. *)
Definition zero_cq : cq_ctx_t := MkCq 0 0 (0, 0) 0 0 0 0.
Definition zero_rq : rq_ctx_t := MkRq 0 0 0 0.
Definition zero_sq : sq_ctx_t := MkSq 0 0 0 0 0 0.
Definition zero_dt : dt_ctx_t := MkDt 0 0 0.
Definition zero_host_rq : host_rq_ctx_t := MkHostRq 0 0 0 0.
Definition zero_host_sq : host_sq_ctx_t := MkHostSq 0 0 0 0.

Definition set_dpa_rx_buff (v : Z) (h : host_rq_ctx_t) : host_rq_ctx_t :=
  MkHostRq (hrq_rkey h) (rq_window_id h) (host_rx_buff h) v.
Definition set_dpa_tx_buff (v : Z) (h : host_sq_ctx_t) : host_sq_ctx_t :=
  MkHostSq (hsq_rkey h) (sq_window_id h) (host_tx_buff h) v.

(** ** Address translation *)

Definition host_rq_addr_to_dpa_addr (host_addr : Z) (c : host_rq_ctx_t) : Z :=
  u64 (u64 (host_addr - host_rx_buff c) + dpa_rx_buff c).

Definition host_sq_addr_to_dpa_addr (host_addr : Z) (c : host_sq_ctx_t) : Z :=
  u64 (u64 (host_addr - host_tx_buff c) + dpa_tx_buff c).

(** The next entry of the transmit buffer; the index is a 32-bit counter.  The sum is one of a
    pointer and an offset: C defines it inside the buffer only, where it needs no reduction,
    and the theorems take buffers that end below [2 ^ 64]. *)
Definition get_next_send_buf (c : dt_ctx_t) (log_dt_entry_sz : Z) : Z * dt_ctx_t :=
  let mask := u32 (Z.shiftl (Z.land (tx_buff_idx c) (data_idx_mask c)) log_dt_entry_sz) in
  (sq_tx_buff c + mask, MkDt (sq_tx_buff c) (u32 (tx_buff_idx c + 1)) (data_idx_mask c)).

(** ** Send ring cursors *)

Definition set_sq_wqe_seg_idx (v : Z) (c : sq_ctx_t) : sq_ctx_t :=
  MkSq (sq_number c) v (sq_ring c) (sq_dbr c) (sq_pi c) (sq_idx_mask c).
Definition set_sq_pi (v : Z) (c : sq_ctx_t) : sq_ctx_t :=
  MkSq (sq_number c) (sq_wqe_seg_idx c) (sq_ring c) (sq_dbr c) v (sq_idx_mask c).

Definition get_next_sqe (c : sq_ctx_t) : (Z * Z) * sq_ctx_t :=
  ((sq_ring c, Z.land (sq_wqe_seg_idx c) (sq_idx_mask c)),
   set_sq_wqe_seg_idx (u32 (sq_wqe_seg_idx c + 1)) c).

Definition get_next_data_sqe (c : sq_ctx_t) : (Z * Z) * sq_ctx_t :=
  ((sq_ring c, Z.land (u32 (sq_wqe_seg_idx c + 2)) (sq_idx_mask c)),
   set_sq_wqe_seg_idx (u32 (sq_wqe_seg_idx c + 4)) c).

Section Wrapper.
Context {F : FlexioDev}.

(** ** Receiving *)

(** The buffer address and the length of the packet of the current completion. *)
Definition receive_packet (cq : cq_ctx_t) (rq : rq_ctx_t) (w : World F) : Z * Z :=
  let e := cqe_at w (cqe cq) in
  let rq_wqe_idx := flexio_dev_cqe_get_wqe_counter e in
  let len := flexio_dev_cqe_get_byte_cnt e in
  (flexio_dev_rwqe_get_addr (rwqe_at w (rq_ring rq, Z.land rq_wqe_idx (rq_idx_mask rq))), len).

Definition receive_packet_host (cq : cq_ctx_t) (rq : rq_ctx_t) (h : host_rq_ctx_t)
    (w : World F) : Z * Z :=
  let e := cqe_at w (cqe cq) in
  let rq_wqe_idx := flexio_dev_cqe_get_wqe_counter e in
  let len := flexio_dev_cqe_get_byte_cnt e in
  let addr := flexio_dev_rwqe_get_addr
                (rwqe_at w (rq_ring rq, Z.land rq_wqe_idx (rq_idx_mask rq))) in
  (u64 (u64 (addr - host_rx_buff h) + dpa_rx_buff h), len).

(** ** Sending *)

(** One turn of the loop of [init_send_sq]: the four segments of entry [i]. *)
Definition init_send_sq_entry (i lkey : Z) (c : sq_ctx_t) (w : World F) : sq_ctx_t * World F :=
  let '(swqe, c) := get_next_sqe c in
  let w := upd_sqe swqe (flexio_dev_swqe_seg_ctrl_set i (sq_number c)
             MLX5_CTRL_SEG_CE_CQE_ON_CQE_ERROR FLEXIO_CTRL_SEG_SEND_EN) w in
  let '(swqe, c) := get_next_sqe c in
  let w := upd_sqe swqe (flexio_dev_swqe_seg_eth_set 0 0 0 0) w in
  let '(swqe, c) := get_next_sqe c in
  let w := upd_sqe swqe (flexio_dev_swqe_seg_mem_ptr_data_set 0 lkey 0) w in
  let '(_, c) := get_next_sqe c in
  (c, w).

Fixpoint init_send_sq_loop (n : nat) (i lkey : Z) (c : sq_ctx_t) (w : World F)
    : sq_ctx_t * World F :=
  match n with
  | O => (c, w)
  | S n => let '(c, w) := init_send_sq_entry i lkey c w in
           init_send_sq_loop n (i + 1) lkey c w
  end.

Definition init_send_sq (c : sq_ctx_t) (entry_size lkey : Z) (w : World F)
    : sq_ctx_t * World F :=
  let '(c, w) := init_send_sq_loop (Z.to_nat entry_size) 0 lkey c w in
  (set_sq_wqe_seg_idx 0 c, w).

Definition prepare_send_packet (c : sq_ctx_t) (data_addr data_sz : Z) (w : World F)
    : sq_ctx_t * World F :=
  let '(swqe, c) := get_next_data_sqe c in
  let w := upd_sqe swqe (set_mem_ptr_byte_count (cpu_to_be32 data_sz)) w in
  let w := upd_sqe swqe (set_mem_ptr_addr (cpu_to_be64 data_addr)) w in
  (c, w).

Definition finish_send_packet (c : sq_ctx_t) (w : World F) : sq_ctx_t * World F :=
  let c := set_sq_pi (u32 (sq_pi c + 1)) c in
  let w := emit EvMemoryWriteback w in
  (c, emit (EvSqRingDb (sq_pi c) (sq_number c)) w).

Definition finish_send_packet_batch (c : sq_ctx_t) (batch_size : Z) (w : World F)
    : sq_ctx_t * World F :=
  let c := set_sq_pi (u32 (sq_pi c + batch_size)) c in
  let w := emit EvMemoryWriteback w in
  (c, emit (EvSqRingDb (sq_pi c) (sq_number c)) w).

Definition finish_send_packet_host (c : sq_ctx_t) (w : World F) : sq_ctx_t * World F :=
  let c := set_sq_pi (u32 (sq_pi c + 1)) c in
  let w := emit EvWindowWriteback (emit EvMemoryWriteback w) in
  (c, emit (EvSqRingDb (sq_pi c) (sq_number c)) w).

Definition finish_send_packet_host_batch (c : sq_ctx_t) (batch_size : Z) (w : World F)
    : sq_ctx_t * World F :=
  let c := set_sq_pi (u32 (sq_pi c + batch_size)) c in
  let w := emit EvWindowWriteback (emit EvMemoryWriteback w) in
  (c, emit (EvSqRingDb (sq_pi c) (sq_number c)) w).

(** ** Stepping the queues *)

Definition step_rq (c : rq_ctx_t) (w : World F) : World F := emit (EvRqIncPi (rq_dbr c)) w.

Definition step_cq (c : cq_ctx_t) (w : World F) : cq_ctx_t * World F :=
  let idx := u32 (cq_idx c + 1) in
  let at_start := Z.land idx (cq_idx_mask c) =? 0 in
  let owner := if at_start then c_bool (negb (truthy (cq_hw_owner_bit c)))
               else cq_hw_owner_bit c in
  (MkCq (cq_number c) (cq_ring c) (cq_ring c, Z.land idx (cq_idx_mask c)) idx owner
        (cq_dbr c) (cq_idx_mask c),
   emit (EvCqSetCi (cq_dbr c) idx) w).

(** The guard of every polling loop:
    [flexio_dev_cqe_get_owner(cqe) != cq_hw_owner_bit]. *)
Definition cqe_ready (c : cq_ctx_t) (w : World F) : bool :=
  negb (flexio_dev_cqe_get_owner (cqe_at w (cqe c)) =? cq_hw_owner_bit c).

(** ** wrapper_flexio_device.c *)

(** [Assert] in a function that returns [flexio_uintptr_t] returns [-1] on
    failure, which is the largest 64-bit value. *)
Definition assert_failed : Z := u64 (-1).

Definition window_ptr_acquire (haddr : Z) (w : World F) : option Z :=
  window_ptr (w_window w) haddr.

Definition get_host_buffer_with_dtctx (window_id mkey haddr : Z) (w : World F) : Z * World F :=
  let '(ok, w) := window_config (u16 window_id) mkey w in
  if ok then
    match window_ptr_acquire haddr w with
    | Some host_buffer => (host_buffer, w)
    | None => (assert_failed, w)
    end
  else (assert_failed, w).

Definition get_host_buffer (window_id mkey haddr : Z) (w : World F) : Z * World F :=
  if 0 <=? fst flexio_dev_get_thread_ctx then
    let '(ok, w) := window_config (u16 window_id) mkey w in
    if ok then
      match window_ptr_acquire haddr w with
      | Some host_buffer => (host_buffer, w)
      | None => (assert_failed, w)
      end
    else (assert_failed, w)
  else (assert_failed, w).

Definition get_double (a : Z) : Z := s32 (a * 2).

(** The cycles between two readings as [timer_benchmark] and [timer_elapsed]
    compute them: a second reading that is not larger is taken for a wrap of the
    32-bit counter. *)
Definition cycles_between (t0 t1 : Z) : Z :=
  if t0 <? t1 then u64 (t1 - t0) else u64 (2 ^ 32 - 1 + t1 - t0).

(** The loop of [timer_benchmark]: total cycles and the number of overflows. *)
Fixpoint timer_benchmark_loop (n : nat) (total_cycles overflow_times : Z) (w : World F)
    : (Z * Z) * World F :=
  match n with
  | O => ((total_cycles, overflow_times), w)
  | S n =>
      let '(t0, w) := thread_cycles w in
      let '(t1, w) := thread_cycles w in
      timer_benchmark_loop n (u64 (total_cycles + cycles_between t0 t1))
        (if t0 <? t1 then overflow_times else s32 (overflow_times + 1)) w
  end.

Definition timer_benchmark (times : Z) (w : World F) : Z * World F :=
  let '((total_cycles, _), w) := timer_benchmark_loop (Z.to_nat times) 0 0 w in
  (total_cycles, w).

End Wrapper.
