(* ===== verification/PacketHdr.v ===== *)
(** * PacketHdr: the packet headers of [common_cross.h]

    The structures are packed, so a header is its fields one after the other;
    multi-byte fields are read as the program reads them, as little-endian
    numbers of the bytes in memory. *)

From S2P Require Import Prelude Machine FlexioDev.

Record ether_hdr := MkEther { eth_dst_addr : list Z; eth_src_addr : list Z; ether_type : Z }.

Record ipv4_hdr := MkIp {
  version_ihl : Z; type_of_service : Z; total_length : Z; packet_id : Z; fragment_offset : Z;
  time_to_live : Z; next_proto_id : Z; hdr_checksum : Z; ip_src_addr : Z; ip_dst_addr : Z;
}.

Record udp_hdr := MkUdp { src_port : Z; dst_port : Z; dgram_len : Z; dgram_cksum : Z }.

Record udp_packet := MkUdpPacket { p_eth : ether_hdr; p_ip : ipv4_hdr; p_udp : udp_hdr }.

Definition sizeof_ether_hdr : Z := 14.
Definition sizeof_ipv4_hdr : Z := 20.
Definition sizeof_udp_hdr : Z := 8.
Definition sizeof_udp_packet : Z := 42.

(** Offsets of the fields of [struct udp_packet]. *)
Definition o_eth_dst : Z := 0.
Definition o_eth_src : Z := 6.
Definition o_ether_type : Z := 12.
Definition o_version_ihl : Z := 14.
Definition o_type_of_service : Z := 15.
Definition o_total_length : Z := 16.
Definition o_packet_id : Z := 18.
Definition o_fragment_offset : Z := 20.
Definition o_time_to_live : Z := 22.
Definition o_next_proto_id : Z := 23.
Definition o_hdr_checksum : Z := 24.
Definition o_ip_src_addr : Z := 26.
Definition o_ip_dst_addr : Z := 30.
Definition o_src_port : Z := 34.
Definition o_dst_port : Z := 36.
Definition o_dgram_len : Z := 38.
Definition o_dgram_cksum : Z := 40.

Definition read_udp_packet (m : mem) (a : Z) : udp_packet :=
  MkUdpPacket
    (MkEther (rdbytes m (a + o_eth_dst) 6) (rdbytes m (a + o_eth_src) 6) (ld16 m (a + o_ether_type)))
    (MkIp (rd8 m (a + o_version_ihl)) (rd8 m (a + o_type_of_service)) (ld16 m (a + o_total_length))
       (ld16 m (a + o_packet_id)) (ld16 m (a + o_fragment_offset)) (rd8 m (a + o_time_to_live))
       (rd8 m (a + o_next_proto_id)) (ld16 m (a + o_hdr_checksum)) (ld32 m (a + o_ip_src_addr))
       (ld32 m (a + o_ip_dst_addr)))
    (MkUdp (ld16 m (a + o_src_port)) (ld16 m (a + o_dst_port)) (ld16 m (a + o_dgram_len))
       (ld16 m (a + o_dgram_cksum))).

(** Fields read back through stores at other offsets. *)
Lemma rd8_storele_hd m a v : rd8 (storele m a 1 v) a = v mod 256.
Proof. rewrite rd8_storele_in by lia. by rewrite Z.sub_diag, Z.pow_0_r, Z.div_1_r. Qed.

Lemma loadle_storele_small m a n v :
  0 <= v < 256 ^ Z.of_nat n -> loadle (storele m a n v) a n = v.
Proof. intros H. rewrite loadle_storele_eq. by apply Z.mod_small. Qed.

Lemma loadle_st16 m a v : loadle (storele m a 2 v) a 2 = u16 v.
Proof. apply (loadle_storele_eq m a 2 v). Qed.

Lemma loadle_st32 m a v : loadle (storele m a 4 v) a 4 = u32 v.
Proof. apply (loadle_storele_eq m a 4 v). Qed.

Lemma rdbytes_storele_out m a n v b k :
  b + Z.of_nat k <= a \/ a + Z.of_nat n <= b -> rdbytes (storele m a n v) b k = rdbytes m b k.
Proof. intros H. apply rdbytes_ext. intros c Hc. apply rd8_storele_out. lia. Qed.

(** The same for lists of bytes. *)
Lemma rd8_wrbytes_out m a bs b :
  b < a \/ a + Z.of_nat (length bs) <= b -> rd8 (wrbytes m a bs) b = rd8 m b.
Proof. intros H. rewrite rd8_wrbytes. by rewrite decide_False by lia. Qed.

Lemma loadle_wrbytes_out m a bs b n :
  b + Z.of_nat n <= a \/ a + Z.of_nat (length bs) <= b -> loadle (wrbytes m a bs) b n = loadle m b n.
Proof. intros H. apply loadle_ext. intros c Hc. apply rd8_wrbytes_out. lia. Qed.

Lemma rdbytes_wrbytes_out m a bs b n :
  b + Z.of_nat n <= a \/ a + Z.of_nat (length bs) <= b -> rdbytes (wrbytes m a bs) b n = rdbytes m b n.
Proof. intros H. apply rdbytes_ext. intros c Hc. apply rd8_wrbytes_out. lia. Qed.

Lemma rdbytes_wrbytes m a bs :
  Forall (fun b => 0 <= b < 256) bs -> rdbytes (wrbytes m a bs) a (length bs) = bs.
Proof.
  intros H. revert m a. induction H as [|b bs Hb _ IH]; intros m a; [done|].
  cbn [length]. unfold rdbytes; fold rdbytes. unfold wrbytes; fold wrbytes. rewrite IH. f_equal.
  rewrite rd8_wrbytes, decide_False, rd8_wr8_eq by lia. by apply wrapu_small.
Qed.

Lemma rdbytes_lookup m a n k : (k < n)%nat -> rdbytes m a n !! k = Some (rd8 m (a + Z.of_nat k)).
Proof.
  revert a k. induction n as [|n IH]; intros a [|k] H; [lia|lia| |]; unfold rdbytes; fold rdbytes.
  - cbn. do 2 f_equal. lia.
  - cbn. rewrite IH by lia. do 2 f_equal. lia.
Qed.

(** Swapping the bytes of a 16-bit number gives a 16-bit number. *)
Lemma bswap2_range v : 0 <= bswap 2 v < 2 ^ 16.
Proof. cbn [bswap]. change (256 ^ Z.of_nat 1) with 256. change (256 ^ Z.of_nat 0) with 1. mlia. Qed.

Lemma u16_be16 `{!FlexioDevLaws F} v : u16 (cpu_to_be16 v) = bswap 2 v.
Proof. rewrite be16_bswap. apply wrapu_small, bswap2_range. Qed.

Lemma u32_be16 `{!FlexioDevLaws F} v : u32 (cpu_to_be16 v) = bswap 2 v.
Proof. rewrite be16_bswap. apply wrapu_small. pose proof (bswap2_range v). lia. Qed.

Ltac unfold_offsets :=
  unfold o_eth_dst, o_eth_src, o_ether_type, o_version_ihl, o_type_of_service, o_total_length,
    o_packet_id, o_fragment_offset, o_time_to_live, o_next_proto_id, o_hdr_checksum, o_ip_src_addr,
    o_ip_dst_addr, o_src_port, o_dst_port, o_dgram_len, o_dgram_cksum in *.

(** Evaluates the reads of fields after a sequence of stores of fields. *)
Ltac hdr_fields :=
  unfold_offsets; unfold st8, st16, st32, st64, ld16, ld32, ld64;
  repeat first
    [ rewrite rd8_storele_hd | rewrite loadle_st16 | rewrite loadle_st32
    | rewrite loadle_storele_out by lia | rewrite rd8_storele_out by lia
    | rewrite rdbytes_storele_out by lia
    | rewrite loadle_wrbytes_out by (cbn; lia) | rewrite rd8_wrbytes_out by (cbn; lia)
    | rewrite rdbytes_wrbytes_out by (cbn; lia) ].

(** Reads one field of a message back through the stores of the others. *)
Ltac msg_field :=
  unfold st8, st16, st32, st64, ld16, ld32, ld64;
  repeat first
    [ rewrite rd8_storele_hd
    | rewrite loadle_storele_small by (cbn; lia)
    | rewrite loadle_storele_out by lia
    | rewrite rd8_storele_out by lia ];
  try (apply Z.mod_small; lia); try done.
