(* ===== verification/DevCommon.v ===== *)
(** * DevCommon: the code every device program repeats

    Each program under [flexio/*/device] carries its own copy of [init_cq],
    [init_rq] and [init_sq] (with its own ring depths), starts its device context
    with the same seven fields, and ends its event handler with the same polling
    loop.  The copies are translated here once, with the depths as arguments, and
    each device file instantiates them. *)

From S2P Require Import Prelude Machine FlexioDev WrapperDevice.

(** ** Initialisers of the queue contexts *)

Definition init_cq_with (log_cq_ring_depth : Z) (app_cq : app_transfer_cq) : cq_ctx_t :=
  MkCq (cq_num app_cq) (cq_ring_daddr app_cq) (cq_ring_daddr app_cq, 0) 0 1
       (cq_dbr_daddr app_cq) (Z.shiftl 1 log_cq_ring_depth - 1).

Definition init_rq_with (log_rq_ring_depth : Z) (app_rq : app_transfer_wq) : rq_ctx_t :=
  MkRq (wq_num app_rq) (wq_ring_daddr app_rq) (wq_dbr_daddr app_rq)
       (Z.shiftl 1 log_rq_ring_depth - 1).

(** [sq_dbr] is a [uint32_t *], so [sq_dbr++] advances it by four bytes; the
    producer index [sq_pi] keeps the value it had. *)
Definition init_sq_with {F : FlexioDev} (log_sq_ring_depth : Z) (app_sq : app_transfer_wq)
    (ctx : sq_ctx_t) : sq_ctx_t :=
  MkSq (wq_num app_sq) 0 (wq_ring_daddr app_sq) (wq_dbr_daddr app_sq + 4) (sq_pi ctx)
       (Z.shiftl 1 (log_sq_ring_depth + LOG_SQE_NUM_SEGS) - 1).

(** ** The common initial sequence of the device contexts *)

Record dev_queues := MkQueues {
  lkey : Z;
  is_initalized : Z;
  rqcq_ctx : cq_ctx_t;
  sqcq_ctx : cq_ctx_t;
  rq_ctx : rq_ctx_t;
  sq_ctx : sq_ctx_t;
  dt_ctx : dt_ctx_t;
}.

Definition zero_queues : dev_queues := MkQueues 0 0 zero_cq zero_cq zero_rq zero_sq zero_dt.

Definition set_rqcq (v : cq_ctx_t) (q : dev_queues) : dev_queues :=
  MkQueues (lkey q) (is_initalized q) v (sqcq_ctx q) (rq_ctx q) (sq_ctx q) (dt_ctx q).
Definition set_sq_ctx (v : sq_ctx_t) (q : dev_queues) : dev_queues :=
  MkQueues (lkey q) (is_initalized q) (rqcq_ctx q) (sqcq_ctx q) (rq_ctx q) v (dt_ctx q).
Definition set_dt_ctx (v : dt_ctx_t) (q : dev_queues) : dev_queues :=
  MkQueues (lkey q) (is_initalized q) (rqcq_ctx q) (sqcq_ctx q) (rq_ctx q) (sq_ctx q) v.

Section Common.
Context {F : FlexioDev}.

(** The part of a [*_device_init] handler that fills the common fields:
    the local key, the four queue contexts, the preformatted send ring and the
    transmit buffer, ending with the initialisation flag. *)
Definition init_queues (log_cq log_rq log_sq : Z) (shared_data : queue_config_data)
    (q : dev_queues) (w : World F) : dev_queues * World F :=
  let lkey := wqd_mkey_id (sq_data shared_data) in
  let sq := init_sq_with log_sq (sq_data shared_data) (sq_ctx q) in
  let '(sq, w) := init_send_sq sq (LOG2VALUE log_sq) lkey w in
  (MkQueues lkey 1
     (init_cq_with log_cq (rq_cq_data shared_data))
     (init_cq_with log_cq (sq_cq_data shared_data))
     (init_rq_with log_rq (rq_data shared_data))
     sq
     (MkDt (wqd_daddr (sq_data shared_data)) 0 (Z.shiftl 1 log_sq - 1)), w).

(** [step_rq(&rq_ctx); step_cq(&rqcq_ctx);] at the end of every loop body. *)
Definition step_queues (q : dev_queues) (w : World F) : dev_queues * World F :=
  let w := step_rq (rq_ctx q) w in
  let '(cq, w) := step_cq (rqcq_ctx q) w in
  (set_rqcq cq q, w).

(** [prepare_send_packet] followed by one of the [finish_send_packet] variants. *)
Definition send_packet (finish : sq_ctx_t -> World F -> sq_ctx_t * World F)
    (q : dev_queues) (data_addr data_sz : Z) (w : World F) : dev_queues * World F :=
  let '(sq, w) := prepare_send_packet (sq_ctx q) data_addr data_sz w in
  let '(sq, w) := finish sq w in
  (set_sq_ctx sq q, w).

(** ** The polling loop

    [drain] is the inner loop [while (owner != cq_hw_owner_bit) body], with the
    number of turns bounded by [fuel].  The outer loop [while (dtctx != NULL)]
    never ends by itself: [poll] runs one outer turn per element of [env], each
    element being what the NIC does to the world before that turn. *)
Section Poll.
Context {D : Type} (cq_of : D -> cq_ctx_t) (body : D -> World F -> D * World F).

Fixpoint drain (fuel : nat) (d : D) (w : World F) : option (D * World F) :=
  if cqe_ready (cq_of d) w then
    match fuel with
    | O => None
    | S fuel => let '(d, w) := body d w in drain fuel d w
    end
  else Some (d, w).

Fixpoint poll (fuel : nat) (env : list (World F -> World F)) (d : D) (w : World F)
    : option (D * World F) :=
  match env with
  | [] => Some (d, w)
  | nic :: env =>
      match drain fuel d (nic w) with
      | Some (d, w) => poll fuel env d w
      | None => None
      end
  end.

(** The same loops for a body that can reach an access outside a local array:
    the inner [None] is running out of fuel, [Some None] that access. *)
Section MayFault.
Variable fbody : D -> World F -> option (D * World F).

Fixpoint drain_f (fuel : nat) (d : D) (w : World F) : option (option (D * World F)) :=
  if cqe_ready (cq_of d) w then
    match fuel with
    | O => None
    | S fuel => match fbody d w with
                | Some (d, w) => drain_f fuel d w
                | None => Some None
                end
    end
  else Some (Some (d, w)).

Fixpoint poll_f (fuel : nat) (env : list (World F -> World F)) (d : D) (w : World F)
    : option (option (D * World F)) :=
  match env with
  | [] => Some (Some (d, w))
  | nic :: env =>
      match drain_f fuel d (nic w) with
      | Some (Some (d, w)) => poll_f fuel env d w
      | r => r
      end
  end.
End MayFault.

(** The outer loop [while (!is_stop)]: the flag is set by an RPC that runs on
    another thread, so each element of [env] also gives the value this turn reads. *)
Fixpoint poll_until (fuel : nat) (env : list (Z * (World F -> World F))) (d : D) (w : World F)
    : option (bool * (D * World F)) :=
  match env with
  | [] => Some (false, (d, w))
  | (is_stop, nic) :: env =>
      if truthy is_stop then Some (true, (d, w))
      else
        match drain fuel d (nic w) with
        | Some (d, w) => poll_until fuel env d w
        | None => None
        end
  end.
End Poll.

(** How an event handler ends: rescheduled by [flexio_dev_thread_reschedule],
    returned from the handler function, still polling after the observed outer
    turns, outside the context array, stopped by an access outside a local array,
    or out of fuel. *)
Inductive handler_result (D : Type) : Type :=
| Rescheduled (d : D) (w : World F)
| Returned (d : D) (w : World F)
| Polling (d : D) (w : World F)
| OutOfBounds
| Faulted
| NoFuel.

(** [while (dtctx != NULL) { ... }] and the code after it. *)
Definition poll_or_exit {D : Type} (cq_of : D -> cq_ctx_t)
    (body : D -> World F -> D * World F) (fuel : nat) (env : list (World F -> World F))
    (dtctx : Z) (d : D) (w : World F) : handler_result D :=
  if dtctx =? 0 then
    Rescheduled D d
      (emit (EvCqArm (cq_idx (cq_of d)) (cq_number (cq_of d))) (emit EvFence w))
  else
    match poll cq_of body fuel env d w with
    | Some (d, w) => Polling D d w
    | None => NoFuel D
    end.

End Common.

Arguments Rescheduled {F D}.
Arguments Returned {F D}.
Arguments Polling {F D}.
Arguments OutOfBounds {F D}.
Arguments Faulted {F D}.
Arguments NoFuel {F D}.

(** The same outcome seen from the array of contexts. *)
Definition map_result {F : FlexioDev} {D E : Type} (g : D -> E) (r : handler_result D)
    : handler_result E :=
  match r with
  | Rescheduled d w => Rescheduled (g d) w
  | Returned d w => Returned (g d) w
  | Polling d w => Polling (g d) w
  | OutOfBounds => OutOfBounds
  | Faulted => Faulted
  | NoFuel => NoFuel
  end.

(** ** Swapping the MAC addresses

    The statement sequence every reflector applies to the first fourteen bytes
    of a packet: two overlapping eight-byte loads and stores. *)
Definition swap_mac (m : mem) (sq_data : Z) : mem :=
  let src_mac := ld64 m sq_data in
  let dst_mac := ld64 m (sq_data + 6) in
  let m := st64 m sq_data dst_mac in
  st64 m (sq_data + 6) (Z.lor (Z.land src_mac 0x0000FFFFFFFFFFFF) (Z.shiftl 0x0008 48)).

(** The context of the single-queue reflectors ([dpa_refactor] and its
    variants all declare these fields in this order). *)
Record refl_context := MkRefl {
  rc_q : dev_queues;
  host_rq_ctx : host_rq_ctx_t;
  packets_count : Z;
  rq_on_host : Z;
  sq_on_host : Z;
}.

Definition zero_refl : refl_context := MkRefl zero_queues zero_host_rq 0 0 0.

Definition set_q (q : dev_queues) (d : refl_context) : refl_context :=
  MkRefl q (host_rq_ctx d) (packets_count d) (rq_on_host d) (sq_on_host d).
Definition set_host_rq (h : host_rq_ctx_t) (d : refl_context) : refl_context :=
  MkRefl (rc_q d) h (packets_count d) (rq_on_host d) (sq_on_host d).
Definition set_packets_count (n : Z) (d : refl_context) : refl_context :=
  MkRefl (rc_q d) (host_rq_ctx d) n (rq_on_host d) (sq_on_host d).

Section Reflector.
Context {F : FlexioDev}.

(** The host-buffer fields a [*_device_init] handler copies from the shared data. *)
Definition init_refl (log_cq log_rq log_sq : Z) (shared_data : queue_config_data)
    (d : refl_context) (w : World F) : refl_context * World F :=
  let '(q, w) := init_queues log_cq log_rq log_sq shared_data (rc_q d) w in
  (MkRefl q
     (MkHostRq (wqd_mkey_id (rq_data shared_data)) (new_buffer_mkey_id shared_data)
               (wqd_daddr (rq_data shared_data)) (dpa_rx_buff (host_rq_ctx d)))
     (packets_count d) (daddr_on_host (rq_data shared_data))
     (daddr_on_host (sq_data shared_data)), w).

(** The choice of [dpa_rx_buff] at the start of an event handler. *)
Definition map_rx_buff (on_host : Z) (h : host_rq_ctx_t) (w : World F)
    : host_rq_ctx_t * World F :=
  if truthy on_host then
    let '(b, w) := get_host_buffer_with_dtctx (rq_window_id h) (hrq_rkey h) (host_rx_buff h) w in
    (set_dpa_rx_buff b h, w)
  else (set_dpa_rx_buff (host_rx_buff h) h, w).

(** Configuring the window touches no ring and no memory. *)
Lemma get_host_buffer_frame window_id mkey haddr (w w' : World F) b :
  get_host_buffer_with_dtctx window_id mkey haddr w = (b, w') ->
  w_cq w' = w_cq w /\ w_sq w' = w_sq w /\ w_rq w' = w_rq w /\ w_mem w' = w_mem w /\
  w_tick w' = w_tick w.
Proof.
  intros E. unfold get_host_buffer_with_dtctx, window_config, window_ptr_acquire in E.
  repeat case_match; simplify_eq; done.
Qed.

Lemma map_rx_buff_frame on_host h h' (w w' : World F) :
  map_rx_buff on_host h w = (h', w') ->
  w_cq w' = w_cq w /\ w_sq w' = w_sq w /\ w_rq w' = w_rq w /\ w_mem w' = w_mem w.
Proof.
  intros E. unfold map_rx_buff in E. destruct (truthy on_host); [|by simplify_eq].
  destruct (get_host_buffer_with_dtctx _ _ _ _) as [b w1] eqn:Eb.
  apply get_host_buffer_frame in Eb. by simplify_eq; destruct_and!.
Qed.

End Reflector.
