(* ===== verification/RingProtocol.v ===== *)
(** * RingProtocol: the completion ring is a FIFO queue, the send ring a cursor

    The device decides that a completion entry is new by comparing its owner bit
    with [cq_hw_owner_bit], which [step_cq] flips each time the 32-bit consumer
    index passes the end of the ring.  [cq_rep] relates a queue context and the
    ring's memory to the list of completions the NIC has written and the device
    has not yet consumed; the lemmas show that initialisation, delivery and
    consumption implement the operations of a queue on that list.  [sq_rep] does
    the same for the send ring, whose entries are preformatted once by
    [init_send_sq]. *)

From S2P Require Import Prelude Machine FlexioDev WrapperDevice DevCommon.

Section CompletionRing.
Context {F : FlexioDev}.
Variable log : Z.
Hypothesis Hlog : 0 <= log <= 31.

Let depth : Z := 2 ^ log.

(** [c] completions were consumed so far and [pend] are waiting. *)
Record cq_rep (c : Z) (pend : list cqe64) (ctx : cq_ctx_t) (w : World F) : Prop := MkCqRep {
  rep_mask : cq_idx_mask ctx = 2 ^ log - 1;
  rep_idx : cq_idx ctx = u32 c;
  rep_cqe : cqe ctx = (cq_ring ctx, c mod 2 ^ log);
  rep_owner : cq_hw_owner_bit ctx = (1 + c / 2 ^ log) mod 2;
  rep_len : Z.of_nat (length pend) <= 2 ^ log;
  rep_pend : forall i e, pend !! i = Some e ->
    cqe_at w (cq_ring ctx, (c + Z.of_nat i) mod 2 ^ log) = e /\
    flexio_dev_cqe_get_owner e = ((c + Z.of_nat i) / 2 ^ log) mod 2;
  rep_free : forall i, Z.of_nat (length pend) <= i < 2 ^ log ->
    flexio_dev_cqe_get_owner (cqe_at w (cq_ring ctx, (c + i) mod 2 ^ log)) =
    (1 + (c + i) / 2 ^ log) mod 2;
}.

Lemma depth_pos : 0 < depth.
Proof. unfold depth. apply Z.pow_pos_nonneg; lia. Qed.

(** The ring index [step_cq] computes from the 32-bit counter. *)
Lemma ring_index c : Z.land (u32 (u32 c + 1)) (depth - 1) = (c + 1) mod depth.
Proof.
  unfold depth. rewrite wrapu_add_l, land_mask by lia. apply mod_pow2_mod. lia.
Qed.

(** [(c + 1) mod depth] is zero exactly when the quotient increases. *)
Lemma div_succ c :
  (c + 1) / depth = if (c + 1) mod depth =? 0 then c / depth + 1 else c / depth.
Proof.
  pose proof depth_pos as Hd.
  pose proof (Z.div_mod c depth ltac:(lia)) as E.
  pose proof (Z.mod_pos_bound c depth Hd) as B.
  destruct (decide (c mod depth = depth - 1)) as [L|L].
  - assert (c + 1 = (c / depth + 1) * depth) as -> by lia.
    rewrite Z.div_mul, Z.mod_mul by lia. done.
  - assert (c + 1 = c mod depth + 1 + c / depth * depth) as -> by lia.
    rewrite Z.div_add, Z_mod_plus_full by lia.
    rewrite Z.div_small, Z.mod_small by lia.
    rewrite (proj2 (Z.eqb_neq _ _)) by lia. lia.
Qed.

(** Indices of two entries of the current window differ. *)
Lemma mod_window_inj c i j :
  0 <= i < depth -> 0 <= j < depth -> (c + i) mod depth = (c + j) mod depth -> i = j.
Proof.
  intros Hi Hj E. pose proof depth_pos as Hd.
  pose proof (Z.div_mod (c + i) depth ltac:(lia)) as Ei.
  pose proof (Z.div_mod (c + j) depth ltac:(lia)) as Ej.
  assert ((c + i) / depth = (c + j) / depth) as Eq by nia. rewrite E, Eq in Ei. lia.
Qed.

(** ** The queue operations *)

Lemma cq_rep_init app w :
  (forall i, 0 <= i < depth ->
     flexio_dev_cqe_get_owner (cqe_at w (cq_ring_daddr app, i)) = 1) ->
  cq_rep 0 [] (init_cq_with log app) w.
Proof.
  intros H. pose proof depth_pos as Hd. unfold depth in *.
  split; cbn; try done.
  - by rewrite Z.shiftl_mul_pow2, Z.mul_1_l by lia.
  - lia.
  - intros i Hi. rewrite Z.mod_small by lia. rewrite H by lia.
    by rewrite Z.div_small by lia.
Qed.

(** The polling guard tells whether the queue is empty. *)
Lemma cq_rep_ready c pend ctx w :
  cq_rep c pend ctx w -> cqe_ready ctx w = match pend with [] => false | _ => true end.
Proof.
  intros R. unfold cqe_ready. rewrite (rep_cqe _ _ _ _ R), (rep_owner _ _ _ _ R).
  pose proof depth_pos as Hd. unfold depth in Hd.
  destruct pend as [|e pend].
  - pose proof (rep_free _ _ _ _ R 0) as H. cbn in H. rewrite Z.add_0_r in H.
    rewrite H by lia. by rewrite Z.eqb_refl.
  - destruct (rep_pend _ _ _ _ R 0%nat e eq_refl) as [E O].
    rewrite Z.add_0_r in E, O. rewrite E, O. apply negb_true_iff, Z.eqb_neq. clear. mlia.
Qed.

(** The current entry is the head of the queue. *)
Lemma cq_rep_head c e pend ctx w :
  cq_rep c (e :: pend) ctx w -> cqe_at w (cqe ctx) = e.
Proof.
  intros R. rewrite (rep_cqe _ _ _ _ R).
  destruct (rep_pend _ _ _ _ R 0%nat e eq_refl) as [E _]. by rewrite Z.add_0_r in E.
Qed.

(** A change of the world that keeps the completion rings keeps the queue. *)
(** Only the elements of the context's own ring matter. *)
Lemma cq_rep_frame_at c pend ctx w w' :
  (forall i, w_cq w' !! (cq_ring ctx, i) = w_cq w !! (cq_ring ctx, i)) ->
  cq_rep c pend ctx w -> cq_rep c pend ctx w'.
Proof.
  intros E []. unfold cqe_at in *. split; unfold cqe_at; try done; intros; rewrite E; auto.
Qed.

Lemma cq_rep_frame c pend ctx w w' :
  w_cq w' = w_cq w -> cq_rep c pend ctx w -> cq_rep c pend ctx w'.
Proof. intros E. apply cq_rep_frame_at. by rewrite E. Qed.

(** [step_cq] removes the head. *)
Lemma cq_rep_step c e pend ctx w ctx' w' :
  cq_rep c (e :: pend) ctx w -> step_cq ctx w = (ctx', w') -> cq_rep (c + 1) pend ctx' w'.
Proof.
  intros R S. pose proof depth_pos as Hd. unfold step_cq in S. injection S as <- <-.
  pose proof (ring_index c) as RI. pose proof (div_succ c) as DS. unfold depth in *.
  split; cbn; rewrite ?(rep_mask _ _ _ _ R), ?(rep_idx _ _ _ _ R), ?RI.
  - done.
  - apply wrapu_add_l.
  - done.
  - rewrite DS, (rep_owner _ _ _ _ R).
    destruct ((c + 1) mod 2 ^ log =? 0); [|done].
    assert ((1 + c / 2 ^ log) mod 2 = 0 \/ (1 + c / 2 ^ log) mod 2 = 1) as [E|E] by mlia;
      rewrite E; cbn; mlia.
  - pose proof (rep_len _ _ _ _ R). cbn in *. lia.
  - intros i x Hx. pose proof (rep_pend _ _ _ _ R (Datatypes.S i) x Hx) as [E O].
    replace (c + 1 + Z.of_nat i) with (c + Z.of_nat (Datatypes.S i)) by lia. done.
  - intros i Hi. pose proof (rep_len _ _ _ _ R) as Hl. cbn in Hl.
    destruct (decide (i = 2 ^ log - 1)) as [->|Hne].
    + destruct (rep_pend _ _ _ _ R 0%nat e eq_refl) as [E O]. rewrite Z.add_0_r in E, O.
      replace (c + 1 + (2 ^ log - 1)) with (c + 1 * 2 ^ log) by lia.
      rewrite Z_mod_plus_full. unfold cqe_at in *. cbn. rewrite E, O.
      rewrite Z.div_add by lia. clear. mlia.
    + replace (c + 1 + i) with (c + (i + 1)) by lia.
      apply (rep_free _ _ _ _ R). cbn. lia.
Qed.

(** The NIC writes completion number [p] of the ring. *)
Definition nic_write (ring p : Z) (e : cqe64) (w : World F) : World F :=
  set_cq (<[(ring, p mod 2 ^ log) := e]> (w_cq w)) w.

Lemma w_sq_nic_write ring p e w : w_sq (nic_write ring p e w) = w_sq w.
Proof. done. Qed.

Lemma cqe_at_nic_write ring p e w i :
  cqe_at (nic_write ring p e w) (ring, i) =
  if decide (p mod 2 ^ log = i) then e else cqe_at w (ring, i).
Proof.
  unfold cqe_at, nic_write, set_cq. cbn. case_decide as E.
  - subst. by rewrite lookup_insert_eq.
  - rewrite lookup_insert_ne by congruence. done.
Qed.

(** Delivery of a completion appends it, as long as the ring is not full. *)
Lemma cq_rep_deliver c pend ctx w e :
  Z.of_nat (length pend) < 2 ^ log ->
  flexio_dev_cqe_get_owner e = ((c + Z.of_nat (length pend)) / 2 ^ log) mod 2 ->
  cq_rep c pend ctx w ->
  cq_rep c (pend ++ [e]) ctx (nic_write (cq_ring ctx) (c + Z.of_nat (length pend)) e w).
Proof.
  intros Hl Ho R. pose proof mod_window_inj as Inj. unfold depth in Inj.
  split; try apply R.
  - rewrite length_app. cbn. lia.
  - intros i x Hx. rewrite cqe_at_nic_write.
    destruct (decide (i = length pend)) as [->|Hne].
    + rewrite lookup_app_r, Nat.sub_diag in Hx by lia. injection Hx as <-.
      rewrite decide_True by done. done.
    + pose proof (lookup_lt_Some _ _ _ Hx) as Hi. rewrite length_app in Hi. cbn in Hi.
      rewrite lookup_app_l in Hx by lia.
      rewrite decide_False by (intros E; apply Inj in E; lia).
      by apply (rep_pend _ _ _ _ R).
  - intros i Hi. rewrite length_app in Hi. cbn in Hi. rewrite cqe_at_nic_write.
    rewrite decide_False by (intros E; apply Inj in E; lia).
    apply (rep_free _ _ _ _ R). lia.
Qed.

(** ** Runs of the device and the NIC

    [sys_delivered] and [sys_consumed] are the completions the NIC wrote and the
    device consumed since initialisation, oldest first; [sys_prod] is the NIC's
    producer counter. *)
Record cq_sys := MkSys {
  sys_ctx : cq_ctx_t;
  sys_w : World F;
  sys_prod : Z;
  sys_delivered : list cqe64;
  sys_consumed : list cqe64;
}.

Definition cq_sys_init (app : app_transfer_cq) (w : World F) : cq_sys :=
  MkSys (init_cq_with log app) w 0 [] [].

Inductive cq_sys_step : cq_sys -> cq_sys -> Prop :=
| nic_deliver s e :
    (* the NIC respects the ring size and writes the pass number's parity *)
    sys_prod s - Z.of_nat (length (sys_consumed s)) < 2 ^ log ->
    flexio_dev_cqe_get_owner e = (sys_prod s / 2 ^ log) mod 2 ->
    cq_sys_step s
      (MkSys (sys_ctx s) (nic_write (cq_ring (sys_ctx s)) (sys_prod s) e (sys_w s))
             (sys_prod s + 1) (sys_delivered s ++ [e]) (sys_consumed s))
| dev_consume s ctx' w' :
    cqe_ready (sys_ctx s) (sys_w s) = true ->
    step_cq (sys_ctx s) (sys_w s) = (ctx', w') ->
    cq_sys_step s
      (MkSys ctx' w' (sys_prod s) (sys_delivered s)
             (sys_consumed s ++ [cqe_at (sys_w s) (cqe (sys_ctx s))]))
| dev_other s w' :
    (* anything else the device does leaves the completion rings alone *)
    w_cq w' = w_cq (sys_w s) ->
    cq_sys_step s (MkSys (sys_ctx s) w' (sys_prod s) (sys_delivered s) (sys_consumed s)).

(** The simulation relation to an abstract queue holding [pend]. *)
Record cq_sim (s : cq_sys) (pend : list cqe64) : Prop := MkSim {
  sim_rep : cq_rep (Z.of_nat (length (sys_consumed s))) pend (sys_ctx s) (sys_w s);
  sim_fifo : sys_delivered s = sys_consumed s ++ pend;
  sim_prod : sys_prod s = Z.of_nat (length (sys_delivered s));
}.

Lemma cq_sim_step s s' pend : cq_sim s pend -> cq_sys_step s s' -> exists pend', cq_sim s' pend'.
Proof.
  intros [R Hf Hp] Hs. destruct Hs as [s e Hn Ho|s ctx' w' Hr St|s w' E].
  - exists (pend ++ [e]). rewrite Hf, length_app in Hp.
    assert (sys_prod s = Z.of_nat (length (sys_consumed s)) + Z.of_nat (length pend)) as Hq by lia.
    split; cbn.
    + rewrite Hq in *. apply cq_rep_deliver; [lia|done|done].
    + rewrite Hf. by rewrite <- app_assoc.
    + rewrite length_app, Hf, length_app. cbn. lia.
  - rewrite (cq_rep_ready _ _ _ _ R) in Hr. destruct pend as [|e pend]; [done|].
    exists pend. rewrite (cq_rep_head _ _ _ _ _ R). split; cbn.
    + rewrite length_app. cbn. rewrite Nat2Z.inj_add. by eapply cq_rep_step.
    + rewrite Hf. by rewrite <- app_assoc.
    + done.
  - exists pend. split; cbn; [by eapply cq_rep_frame|done|done].
Qed.

Lemma cq_sim_run app w s :
  (forall i, 0 <= i < 2 ^ log -> flexio_dev_cqe_get_owner (cqe_at w (cq_ring_daddr app, i)) = 1) ->
  rtc cq_sys_step (cq_sys_init app w) s -> exists pend, cq_sim s pend.
Proof.
  intros H0 Hr.
  assert (exists pend, cq_sim (cq_sys_init app w) pend) as Hi.
  { exists []. split; [by apply cq_rep_init|done|done]. }
  revert Hi. induction Hr as [|x y z Hxy _ IH]; [done|].
  intros [pend Hs]. apply IH. by eapply cq_sim_step.
Qed.

End CompletionRing.

Arguments MkSys {F}.

(** C1.  The completion ring is a FIFO queue.  From the ring the host prepares
    (every owner bit 1) and the context [init_cq] builds, whatever the
    interleaving of NIC deliveries and device steps, the entries the device has
    consumed are exactly a prefix of the entries delivered, in order and without
    loss or repetition; the polling guard is true exactly when an entry is
    waiting, and then the current entry is the oldest one waiting.  This holds
    across wrap-around of the ring and of the 32-bit consumer index. *)
Theorem completion_ring_fifo {F : FlexioDev} (log : Z) (app : app_transfer_cq) (w : World F)
    (s : cq_sys (F := F)) :
  0 <= log <= 31 ->
  (forall i, 0 <= i < 2 ^ log -> flexio_dev_cqe_get_owner (cqe_at w (cq_ring_daddr app, i)) = 1) ->
  rtc (cq_sys_step log) (cq_sys_init log app w) s ->
  exists pend,
    sys_delivered s = sys_consumed s ++ pend /\
    cqe_ready (sys_ctx s) (sys_w s) = (match pend with [] => false | _ => true end) /\
    (forall e rest, pend = e :: rest -> cqe_at (sys_w s) (cqe (sys_ctx s)) = e).
Proof.
  intros Hl H0 Hr. destruct (cq_sim_run log Hl app w s H0 Hr) as [pend [R Hf _]].
  exists pend. split; [done|]. split; [by eapply cq_rep_ready|].
  intros e rest ->. by eapply cq_rep_head.
Qed.

(** A ring of two entries after one delivery. *)
Definition fifo_app : app_transfer_cq :=
  {| cq_num := 3; log_cq_depth := 1; cq_ring_daddr := 4096; cq_dbr_daddr := 64 |}.

Definition fifo_s1 : cq_sys (F := ref_flexio) :=
  MkSys (init_cq_with 1 fifo_app)
        (nic_write (F := ref_flexio) 1 4096 0 (RefCqe 0 5 60) (empty_world (F := ref_flexio)))
        1 [RefCqe 0 5 60] [].

Lemma completion_ring_fifo_witness :
  exists pend, sys_delivered fifo_s1 = sys_consumed fifo_s1 ++ pend /\
    cqe_ready (sys_ctx fifo_s1) (sys_w fifo_s1) = match pend with [] => false | _ => true end /\
    (forall e rest, pend = e :: rest -> cqe_at (sys_w fifo_s1) (cqe (sys_ctx fifo_s1)) = e).
Proof.
  apply (completion_ring_fifo (F := ref_flexio) 1 fifo_app (empty_world (F := ref_flexio)) fifo_s1).
  - lia.
  - intros i Hi. reflexivity.
  - eapply rtc_l; [|apply rtc_refl].
    apply (nic_deliver (F := ref_flexio) 1
             (cq_sys_init (F := ref_flexio) 1 fifo_app (empty_world (F := ref_flexio)))
             (RefCqe 0 5 60)); cbn; [lia|reflexivity].
Defined.

(** ** The send ring *)

Section SendRing.
Context {F : FlexioDev} `{!FlexioDevLaws F}.
Variable log : Z.
Hypothesis Hlog : 0 <= log <= 30.

(** [n] send entries were prepared since initialisation, and the data segment
    of every entry carries the local key [lk]. *)
Record sq_rep (n lk : Z) (c : sq_ctx_t) (w : World F) : Prop := MkSqRep {
  sq_mask : sq_idx_mask c = 2 ^ (log + 2) - 1;
  sq_seg : sq_wqe_seg_idx c = u32 (4 * n);
  sq_key : forall k, 0 <= k < 2 ^ log ->
    mem_ptr_lkey (sqe_at w (sq_ring c, 4 * k + 2)) = cpu_to_be32 lk;
}.

Lemma sq_rep_frame_at n lk c w w' :
  (forall i, w_sq w' !! (sq_ring c, i) = w_sq w !! (sq_ring c, i)) ->
  sq_rep n lk c w -> sq_rep n lk c w'.
Proof.
  intros E [A B C]. split; [done|done|]. intros k Hk. rewrite <- (C k Hk).
  unfold sqe_at. by rewrite E.
Qed.

Lemma sq_rep_frame n lk c w w' : w_sq w' = w_sq w -> sq_rep n lk c w -> sq_rep n lk c w'.
Proof. intros E. apply sq_rep_frame_at. by rewrite E. Qed.

Lemma pow_log2 : 2 ^ (log + 2) = 4 * 2 ^ log.
Proof. rewrite Z.pow_add_r by lia. lia. Qed.

Lemma pow_log2_bound : 0 < 2 ^ log <= 2 ^ 30.
Proof.
  split; [apply Z.pow_pos_nonneg; lia|]. apply Z.pow_le_mono_r; lia.
Qed.

(** The segment index [4 n + j] in the ring. *)
Lemma seg_slot n j : 0 <= j < 4 ->
  Z.land (u32 (u32 (4 * n) + j)) (2 ^ (log + 2) - 1) = 4 * (n mod 2 ^ log) + j.
Proof.
  intros Hj. pose proof pow_log2_bound as B.
  rewrite wrapu_add_l, land_mask by lia. unfold wrapu.
  rewrite mod_pow2_mod by lia. rewrite pow_log2.
  rewrite Z.rem_mul_r by lia.
  replace ((4 * n + j) mod 4) with j by mlia.
  replace ((4 * n + j) / 4) with n by mlia. lia.
Qed.

Definition data_slot (c : sq_ctx_t) (n : Z) : Z * Z := (sq_ring c, 4 * (n mod 2 ^ log) + 2).

(** Preparing entry [n] writes the address and the length, big-endian, in the
    data segment of entry [n mod depth], keeps the key, and leaves every other
    segment of every ring as it was. *)
Lemma sq_rep_prepare n lk c w addr sz c' w' :
  sq_rep n lk c w -> prepare_send_packet c addr sz w = (c', w') ->
  sq_rep (n + 1) lk c' w' /\
  c' = set_sq_wqe_seg_idx (u32 (4 * (n + 1))) c /\
  mem_ptr_byte_count (sqe_at w' (data_slot c n)) = cpu_to_be32 sz /\
  mem_ptr_addr (sqe_at w' (data_slot c n)) = cpu_to_be64 addr /\
  mem_ptr_lkey (sqe_at w' (data_slot c n)) = cpu_to_be32 lk /\
  (forall p, p <> data_slot c n -> sqe_at w' p = sqe_at w p) /\
  w' = set_sq (w_sq w') w.
Proof.
  intros R P. unfold prepare_send_packet, get_next_data_sqe in P. injection P as <- <-.
  rewrite (sq_mask _ _ _ _ R), (sq_seg _ _ _ _ R), seg_slot by lia.
  fold (data_slot c n). pose proof pow_log2_bound as B.
  set (w1 := upd_sqe (data_slot c n) _ w). set (w2 := upd_sqe _ _ w1).
  assert (forall p, p <> data_slot c n -> sqe_at w2 p = sqe_at w p) as Hne.
  { intros p Hp. unfold w2, w1. by rewrite !sqe_at_upd_ne. }
  assert (mem_ptr_lkey (sqe_at w2 (data_slot c n)) = cpu_to_be32 lk) as Hk.
  { unfold w2, w1. rewrite !sqe_at_upd_eq, lkey_set_addr, lkey_set_byte_count.
    apply (sq_key _ _ _ _ R), Z.mod_pos_bound. lia. }
  assert (set_sq_wqe_seg_idx (u32 (u32 (4 * n) + 4)) c =
          set_sq_wqe_seg_idx (u32 (4 * (n + 1))) c) as ->.
  { rewrite wrapu_add_l. do 2 f_equal. lia. }
  split; [split|]; cbn.
  - apply R.
  - done.
  - intros k Hk'. destruct (decide ((sq_ring c, 4 * k + 2) = data_slot c n)) as [->|Hp]; [done|].
    rewrite Hne by done. by apply (sq_key _ _ _ _ R).
  - split; [done|]. split.
    { unfold w2, w1. by rewrite !sqe_at_upd_eq, byte_count_set_addr, byte_count_set_byte_count. }
    split; [unfold w2; by rewrite sqe_at_upd_eq, addr_set_addr|]. done.
Qed.

(** One turn of [init_send_sq]. *)
Lemma init_send_sq_entry_spec i lk c w c' w' :
  0 <= i < 2 ^ log -> sq_idx_mask c = 2 ^ (log + 2) - 1 -> sq_wqe_seg_idx c = u32 (4 * i) ->
  init_send_sq_entry i lk c w = (c', w') ->
  c' = set_sq_wqe_seg_idx (u32 (4 * (i + 1))) c /\
  mem_ptr_lkey (sqe_at w' (sq_ring c, 4 * i + 2)) = cpu_to_be32 lk /\
  (forall k j, k <> i -> 0 <= j < 4 ->
     sqe_at w' (sq_ring c, 4 * k + j) = sqe_at w (sq_ring c, 4 * k + j)) /\
  w' = set_sq (w_sq w') w.
Proof.
  intros Hi Hm Hs E. unfold init_send_sq_entry, get_next_sqe, set_sq_wqe_seg_idx in E.
  cbn in E. rewrite Hm, Hs in E.
  pose proof (seg_slot i 0 ltac:(lia)) as S0. rewrite Z.add_0_r, wrapu_wrapu in S0.
  pose proof (seg_slot i 1 ltac:(lia)) as S1. pose proof (seg_slot i 2 ltac:(lia)) as S2.
  rewrite wrapu_add_l in S1, S2.
  repeat first [rewrite wrapu_add_l in E | rewrite <- Z.add_assoc in E].
  change (1 + 1) with 2 in E. change (1 + (1 + 2)) with 4 in E.
  rewrite S0, S1, S2 in E. rewrite (Z.mod_small i) in E by lia.
  injection E as <- <-. split; [|split; [|split]].
  - unfold set_sq_wqe_seg_idx. rewrite Hm. do 2 f_equal. lia.
  - rewrite sqe_at_upd_eq. apply mem_ptr_data_set_lkey.
  - intros k j Hk Hj. rewrite !sqe_at_upd_ne by (intros [=]; lia). done.
  - done.
Qed.

Lemma init_send_sq_loop_spec m i lk c w c' w' :
  0 <= i -> i + Z.of_nat m <= 2 ^ log ->
  sq_idx_mask c = 2 ^ (log + 2) - 1 -> sq_wqe_seg_idx c = u32 (4 * i) ->
  (forall k, 0 <= k < i -> mem_ptr_lkey (sqe_at w (sq_ring c, 4 * k + 2)) = cpu_to_be32 lk) ->
  init_send_sq_loop m i lk c w = (c', w') ->
  c' = set_sq_wqe_seg_idx (u32 (4 * (i + Z.of_nat m))) c /\
  (forall k, 0 <= k < i + Z.of_nat m ->
     mem_ptr_lkey (sqe_at w' (sq_ring c, 4 * k + 2)) = cpu_to_be32 lk) /\
  w' = set_sq (w_sq w') w.
Proof.
  revert i c w. induction m as [|m IH]; intros i c w Hi Hl Hm Hs Hk E; cbn [init_send_sq_loop] in E.
  - injection E as <- <-. rewrite Z.add_0_r. split; [|split].
    + destruct c; unfold set_sq_wqe_seg_idx; cbn in *. by rewrite Hs.
    + intros k Hk'. apply Hk. lia.
    + by destruct w.
  - destruct (init_send_sq_entry i lk c w) as [c1 w1] eqn:E1.
    pose proof (init_send_sq_entry_spec i lk c w c1 w1 ltac:(lia) Hm Hs E1) as (-> & K & O & Hw).
    eapply IH in E as (-> & K' & Hw'); cbn; try lia; try done.
    + split; [|split].
      * unfold set_sq_wqe_seg_idx. cbn. do 3 f_equal. lia.
      * intros k Hk'. apply K'. lia.
      * etransitivity; [exact Hw'|]. rewrite Hw at 1. done.
    + intros k Hk'. destruct (decide (k = i)) as [->|Hne]; [done|].
      rewrite O by lia. apply Hk. lia.
Qed.

(** Other rings are left alone. *)
Lemma init_send_sq_loop_other m i lk c w c' w' b j :
  init_send_sq_loop m i lk c w = (c', w') -> b <> sq_ring c ->
  w_sq w' !! (b, j) = w_sq w !! (b, j).
Proof.
  revert i c w. induction m as [|m IH]; intros i c w E Hb; cbn [init_send_sq_loop] in E.
  - by injection E as <- <-.
  - destruct (init_send_sq_entry i lk c w) as [c1 w1] eqn:E1.
    unfold init_send_sq_entry, get_next_sqe in E1. injection E1 as <- <-.
    rewrite (IH _ _ _ E) by done. unfold upd_sqe, set_sq. cbn.
    by rewrite !lookup_insert_ne by congruence.
Qed.

Lemma init_send_sq_other c n lk w c' w' b j :
  init_send_sq c n lk w = (c', w') -> b <> sq_ring c -> w_sq w' !! (b, j) = w_sq w !! (b, j).
Proof.
  unfold init_send_sq. destruct (init_send_sq_loop _ _ _ _ _) as [c1 w1] eqn:E.
  intros [= <- <-]. by eapply init_send_sq_loop_other.
Qed.

(** [init_send_sq] formats the whole ring: afterwards no entry is in use and
    every data segment carries the local key. *)
Lemma sq_rep_init lk app c w c' w' :
  init_send_sq (init_sq_with log app c) (LOG2VALUE log) lk w = (c', w') ->
  sq_rep 0 lk c' w' /\ sq_pi c' = sq_pi c /\ sq_number c' = wq_num app /\
  sq_ring c' = wq_ring_daddr app /\ w' = set_sq (w_sq w') w.
Proof.
  intros E. unfold init_send_sq in E. pose proof pow_log2_bound as B.
  assert (LOG2VALUE log = 2 ^ log) as L.
  { unfold LOG2VALUE. rewrite Z.shiftl_mul_pow2, Z.mul_1_l by lia. apply wrapu_small. lia. }
  rewrite L in E. set (c0 := init_sq_with log app c) in *.
  assert (sq_idx_mask c0 = 2 ^ (log + 2) - 1) as Hm.
  { unfold c0, init_sq_with. cbn. rewrite log_sqe_num_segs, Z.shiftl_mul_pow2 by lia. lia. }
  destruct (init_send_sq_loop (Z.to_nat (2 ^ log)) 0 lk c0 w) as [c1 w1] eqn:E1.
  injection E as <- <-.
  eapply init_send_sq_loop_spec in E1 as (-> & K & Hw); try lia; try done.
  split; [split|]; cbn; try done.
  intros k Hk. apply K. lia.
Qed.

(** A batch of packets prepared one after the other, before one doorbell. *)
Fixpoint prepare_all (ps : list (Z * Z)) (c : sq_ctx_t) (w : World F) : sq_ctx_t * World F :=
  match ps with
  | [] => (c, w)
  | (addr, sz) :: ps => let '(c, w) := prepare_send_packet c addr sz w in prepare_all ps c w
  end.

(** What the NIC reads in the data segment at [p]. *)
Definition posted (w : World F) (p : Z * Z) (addr sz lk : Z) : Prop :=
  mem_ptr_byte_count (sqe_at w p) = cpu_to_be32 sz /\
  mem_ptr_addr (sqe_at w p) = cpu_to_be64 addr /\
  mem_ptr_lkey (sqe_at w p) = cpu_to_be32 lk.

Lemma prepare_all_spec ps n lk c w c' w' :
  Z.of_nat (length ps) <= 2 ^ log ->
  sq_rep n lk c w -> prepare_all ps c w = (c', w') ->
  sq_rep (n + Z.of_nat (length ps)) lk c' w' /\ sq_pi c' = sq_pi c /\ sq_ring c' = sq_ring c /\
  (forall k addr sz, ps !! k = Some (addr, sz) ->
     posted w' (data_slot c (n + Z.of_nat k)) addr sz lk) /\
  (forall p, (forall k, 0 <= k < Z.of_nat (length ps) -> p <> data_slot c (n + k)) ->
     sqe_at w' p = sqe_at w p).
Proof.
  revert n c w. induction ps as [|[a z] ps IH]; intros n c w Hl R E; cbn [prepare_all length] in *.
  - injection E as <- <-. rewrite Z.add_0_r. repeat split; try apply R; done.
  - destruct (prepare_send_packet c a z w) as [c1 w1] eqn:E1.
    destruct (sq_rep_prepare _ _ _ _ _ _ _ _ R E1) as (R1 & -> & Hb & Ha & Hk & Ho & _).
    destruct (IH (n + 1) _ w1 ltac:(lia) R1 E) as (R' & Hpi & Hr & Hp & Hu). clear IH E.
    cbn in Hpi, Hr.
    replace (n + Z.of_nat (S (length ps))) with (n + 1 + Z.of_nat (length ps)) by lia.
    split; [done|]. split; [done|]. split; [done|]. split.
    + intros [|k] addr sz Hk'; cbn in Hk'.
      * injection Hk' as <- <-. rewrite Z.add_0_r. unfold posted.
        rewrite Hu; [done|]. intros k Hk' Heq. unfold data_slot in Heq. injection Heq as Heq.
        pose proof (mod_window_inj log ltac:(lia) n 0 (k + 1)) as Inj.
        rewrite Z.add_0_r in Inj. replace (n + (k + 1)) with (n + 1 + k) in Inj by lia. lia.
      * replace (n + Z.of_nat (S k)) with (n + 1 + Z.of_nat k) by lia. by apply (Hp k).
    + intros p Hne. rewrite Hu.
      * apply Ho. specialize (Hne 0). rewrite Z.add_0_r in Hne. apply Hne. lia.
      * intros k Hk'. specialize (Hne (k + 1) ltac:(lia)).
        by replace (n + (k + 1)) with (n + 1 + k) in Hne by lia.
Qed.

End SendRing.

(** C2.  The send ring hands the NIC what the program posted.  After
    [init_send_sq] has formatted a ring of [2^log] entries, a batch of at most
    [2^log] packets prepared with [prepare_send_packet] leaves entry [k] of the
    ring with the [k]-th packet's address and length in big-endian order and the
    queue's local key, and the segment cursor on the next free entry; a segment
    that belongs to no posted entry keeps what [init_send_sq] wrote. *)
Theorem send_ring_entries {F : FlexioDev} `{!FlexioDevLaws F} (log lk : Z)
    (app : app_transfer_wq) (c0 c1 c2 : sq_ctx_t) (w0 w1 w2 : World F) (ps : list (Z * Z)) :
  0 <= log <= 30 -> Z.of_nat (length ps) <= 2 ^ log ->
  init_send_sq (init_sq_with log app c0) (LOG2VALUE log) lk w0 = (c1, w1) ->
  prepare_all ps c1 w1 = (c2, w2) ->
  (forall k addr sz, ps !! k = Some (addr, sz) ->
     posted w2 (wq_ring_daddr app, 4 * Z.of_nat k + 2) addr sz lk) /\
  sq_wqe_seg_idx c2 = u32 (4 * Z.of_nat (length ps)) /\ sq_pi c2 = sq_pi c0 /\
  (forall k j, 0 <= k < 2 ^ log -> 0 <= j < 4 -> j <> 2 \/ Z.of_nat (length ps) <= k ->
     sqe_at w2 (wq_ring_daddr app, 4 * k + j) = sqe_at w1 (wq_ring_daddr app, 4 * k + j)).
Proof.
  intros Hlog Hl E1 E2. destruct (sq_rep_init log Hlog _ _ _ _ _ _ E1) as (R0 & Hpi & _ & Hr & _).
  destruct (prepare_all_spec log Hlog _ _ _ _ _ _ _ Hl R0 E2) as (R & Hpi' & Hr' & Hp & Hu).
  pose proof (pow_log2_bound log Hlog) as B.
  split; [|split; [|split]].
  - intros k addr sz Hk. pose proof (lookup_lt_Some _ _ _ Hk).
    specialize (Hp k addr sz Hk). unfold data_slot in Hp. rewrite Hr in Hp.
    rewrite Z.add_0_l, Z.mod_small in Hp by lia. done.
  - by rewrite (sq_seg _ _ _ _ _ R), Z.add_0_l.
  - congruence.
  - intros k j Hk Hj Hd. apply Hu. intros k' Hk' Heq. unfold data_slot in Heq.
    injection Heq as _ Heq. rewrite Z.add_0_l, Z.mod_small in Heq by lia. lia.
Qed.

Definition ring_wq : app_transfer_wq :=
  {| wq_num := 9; wqd_mkey_id := 77; wq_ring_daddr := 8192; wq_dbr_daddr := 256;
     wqd_daddr := 65536; daddr_on_host := 0 |}.

Lemma send_ring_entries_witness :
  let '(c1, w1) := init_send_sq (F := ref_flexio) (init_sq_with (F := ref_flexio) 1 ring_wq zero_sq)
                     (LOG2VALUE 1) 77 (empty_world (F := ref_flexio)) in
  let '(c2, w2) := prepare_all [(65536, 60); (66560, 1024)] c1 w1 in
  posted w2 (8192, 6) 66560 1024 77.
Proof.
  destruct (init_send_sq (F := ref_flexio) (init_sq_with (F := ref_flexio) 1 ring_wq zero_sq)
              (LOG2VALUE 1) 77 (empty_world (F := ref_flexio))) as [c1 w1] eqn:E1.
  destruct (prepare_all [(65536, 60); (66560, 1024)] c1 w1) as [c2 w2] eqn:E2.
  exact (proj1 (send_ring_entries (F := ref_flexio) 1 77 ring_wq zero_sq c1 c2 (empty_world (F := ref_flexio)) w1 w2
           [(65536, 60); (66560, 1024)] ltac:(lia) ltac:(cbn; lia) E1 E2) 1%nat 66560 1024 eq_refl).
Defined.

(** The ring initialiser is reasoned about through [sq_rep_init] only. *)
#[global] Opaque init_send_sq.
