(* ===== verification/Reflector.v ===== *)
(** * Reflector: what the packet reflectors have in common

    [dpa_refactor], [dpa_refactor_mt] and [dpa_network_function] process a
    packet in the same way: swap the MAC addresses in place, post the buffer on
    the send queue, ring the doorbell, and give the receive buffer back.  This
    file proves the byte-level effect of the swap and the effect of draining a
    completion queue with such a body, once for all of them. *)

From S2P Require Import Prelude Machine FlexioDev WrapperDevice DevCommon RingProtocol.

(** ** The MAC swap, byte by byte *)

(** The word the second store writes. *)
Lemma mac_word x :
  Z.lor (Z.land x 0x0000FFFFFFFFFFFF) (Z.shiftl 0x0008 48) = x mod 2 ^ 48 + 8 * 2 ^ 48.
Proof.
  change 0x0000FFFFFFFFFFFF with (2 ^ 48 - 1). rewrite land_mask by lia.
  change (Z.shiftl 0x0008 48) with (8 * 2 ^ 48).
  pose proof (Z.mod_pos_bound x (2 ^ 48) ltac:(lia)) as B.
  rewrite Z.add_nocarry_lxor; [|]; [rewrite <- Z.lxor_lor; [done|]|];
    apply Z.bits_inj'; intros i Hi; rewrite Z.land_spec, Z.bits_0;
    change (8 * 2 ^ 48) with (Z.shiftl 8 48); destruct (decide (i < 48));
    [rewrite Z.shiftl_spec_low by lia; apply andb_false_r| |
     rewrite Z.shiftl_spec_low by lia; apply andb_false_r|];
    rewrite Z.mod_pow2_bits_high by lia; done.
Qed.

Lemma mac_word_byte x i :
  0 <= i < 8 ->
  ((x mod 2 ^ 48 + 8 * 2 ^ 48) / 256 ^ i) mod 256 =
  if decide (i < 6) then (x / 256 ^ i) mod 256 else if decide (i = 6) then 8 else 0.
Proof.
  intros Hi.
  assert (i = 0 \/ i = 1 \/ i = 2 \/ i = 3 \/ i = 4 \/ i = 5 \/ i = 6 \/ i = 7) as Hc by lia.
  destruct Hc as [->|[->|[->|[->|[->|[->|[->| ->]]]]]]]; repeat case_decide; try lia;
    cbn [Z.pow Z.pow_pos Pos.iter Z.mul Pos.mul]; mlia.
Qed.

(** Bytes 0-5 and 6-11 are exchanged, the EtherType becomes [0x0800], and
    nothing else changes. *)
Lemma rd8_swap_mac m a b :
  rd8 (swap_mac m a) b =
  if decide (a <= b < a + 6) then rd8 m (b + 6)
  else if decide (a + 6 <= b < a + 12) then rd8 m (b - 6)
  else if decide (b = a + 12) then 8
  else if decide (b = a + 13) then 0
  else rd8 m b.
Proof.
  unfold swap_mac, st64, ld64. rewrite mac_word, !rd8_storele.
  destruct (decide (a + 6 <= b < a + 6 + Z.of_nat 8)) as [H|H].
  - rewrite mac_word_byte by lia. rewrite (decide_False (P := a <= b < a + 6)) by lia.
    destruct (decide (a + 6 <= b < a + 12)).
    + rewrite decide_True by lia. rewrite loadle_byte by lia. f_equal. lia.
    + rewrite decide_False by lia. repeat case_decide; lia.
  - destruct (decide (a <= b < a + Z.of_nat 8)).
    + rewrite decide_True by lia. rewrite loadle_byte by lia. f_equal. lia.
    + rewrite !decide_False by lia. done.
Qed.

Lemma rd8_swap_mac_out m a b : b < a \/ a + 14 <= b -> rd8 (swap_mac m a) b = rd8 m b.
Proof. intros H. rewrite rd8_swap_mac. by rewrite !decide_False by lia. Qed.

(** ** Draining a queue: the general argument *)

Section Drain.
Context {F : FlexioDev} {D : Type} (cq_of : D -> cq_ctx_t) (body : D -> World F -> D * World F).
Variable Inv : list cqe64 -> D -> World F -> Prop.
Hypothesis Inv_ready : forall pend d w, Inv pend d w ->
  cqe_ready (cq_of d) w = match pend with [] => false | _ => true end.
Hypothesis Inv_step : forall e pend d w, Inv (e :: pend) d w ->
  Inv pend (fst (body d w)) (snd (body d w)).

(** With no delivery in between, the inner loop ends after one turn per waiting
    completion. *)
Lemma drain_inv fuel pend d w :
  (length pend <= fuel)%nat -> Inv pend d w ->
  exists d' w', drain cq_of body fuel d w = Some (d', w') /\ Inv [] d' w'.
Proof.
  revert fuel d w. induction pend as [|e pend IH]; intros fuel d w Hf HI.
  - exists d, w. split; [|done]. destruct fuel; cbn; by rewrite (Inv_ready _ _ _ HI).
  - destruct fuel as [|fuel]; [cbn in Hf; lia|]. cbn [drain]. rewrite (Inv_ready _ _ _ HI).
    pose proof (Inv_step _ _ _ _ HI) as HI'. destruct (body d w) as [d1 w1].
    apply IH; [cbn in Hf; lia|done].
Qed.
End Drain.

(** The same for a body that can fault. *)
Section DrainF.
Context {F : FlexioDev} {D : Type} (cq_of : D -> cq_ctx_t)
  (fbody : D -> World F -> option (D * World F)) (Inv : list cqe64 -> D -> World F -> Prop).
Hypothesis Inv_ready : forall pend d w, Inv pend d w ->
  cqe_ready (cq_of d) w = match pend with [] => false | _ => true end.
Hypothesis Inv_step : forall e pend d w, Inv (e :: pend) d w ->
  exists d' w', fbody d w = Some (d', w') /\ Inv pend d' w'.

(** The inner loop ends, without a fault, after one turn per completion. *)
Lemma drain_f_inv fuel pend d w :
  (length pend <= fuel)%nat -> Inv pend d w ->
  exists d' w', drain_f cq_of fbody fuel d w = Some (Some (d', w')) /\ Inv [] d' w'.
Proof.
  revert fuel d w. induction pend as [|e pend IH]; intros fuel d w Hf HI.
  - exists d, w. split; [|done]. destruct fuel; cbn; by rewrite (Inv_ready _ _ _ HI).
  - destruct fuel as [|fuel]; [cbn in Hf; lia|]. cbn [drain_f]. rewrite (Inv_ready _ _ _ HI).
    destruct (Inv_step _ _ _ _ HI) as (d' & w' & -> & HI'). apply IH; [cbn in Hf; lia|done].
Qed.
End DrainF.

(** An invariant of the loop body holds after any number of turns, whatever the
    NIC does in between. *)
Section Preserve.
Context {F : FlexioDev} {D : Type} (cq_of : D -> cq_ctx_t)
  (body : D -> World F -> D * World F) (I : D -> Prop).
Hypothesis body_inv : forall d w, I d -> I (fst (body d w)).

Lemma drain_preserves fuel d w d' w' :
  drain cq_of body fuel d w = Some (d', w') -> I d -> I d'.
Proof.
  revert d w. induction fuel as [|fuel IH]; intros d w E Hd; cbn [drain] in E;
    (destruct (cqe_ready _ _); [|by injection E as <- <-]); [done|].
  pose proof (body_inv d w Hd) as H1. destruct (body d w) as [d1 w1]. by eapply IH.
Qed.

Lemma poll_preserves fuel env d w d' w' :
  poll cq_of body fuel env d w = Some (d', w') -> I d -> I d'.
Proof.
  revert d w. induction env as [|nic env IH]; intros d w E Hd; cbn [poll] in E.
  - by injection E as <- <-.
  - destruct (drain cq_of body fuel d (nic w)) as [[d1 w1]|] eqn:E1; [|done].
    eapply IH; [exact E|]. by eapply drain_preserves.
Qed.
End Preserve.

(** ** Reflecting *)

(** What a client of the common loop needs of a device context. *)
Class HasQueues (D : Type) := {
  dq : D -> dev_queues;
  set_dq : dev_queues -> D -> D;
  dq_set_dq q d : dq (set_dq q d) = q;
  set_dq_dq q d : set_dq q (set_dq (dq d) d) = set_dq q d;
}.

Section Reflect.
Context {F : FlexioDev} `{!FlexioDevLaws F}.

(** The body of the reflectors: [to_dpa] is the address translation applied
    before touching the packet, [finish] the doorbell variant. *)
Definition reflect_packet (to_dpa : Z -> Z)
    (finish : sq_ctx_t -> World F -> sq_ctx_t * World F)
    (q : dev_queues) (w : World F) : dev_queues * World F :=
  let '(rq_data, data_sz) := receive_packet (rqcq_ctx q) (rq_ctx q) w in
  let w := set_mem (swap_mac (w_mem w) (to_dpa rq_data)) w in
  send_packet finish q rq_data data_sz w.

(** The two doorbell variants differ in the writebacks they issue. *)
Definition is_finish (wb : list event) (finish : sq_ctx_t -> World F -> sq_ctx_t * World F) : Prop :=
  forall c w, let c' := set_sq_pi (u32 (sq_pi c + 1)) c in
    finish c w =
    (c', MkWorld (w_mem w) (w_cq w) (w_rq w) (w_sq w) (w_tick w) (w_window w)
           (w_trace w ++ wb ++ [EvSqRingDb (sq_pi c') (sq_number c')])).

Lemma is_finish_dpa : is_finish [EvMemoryWriteback] finish_send_packet.
Proof.
  intros c w. unfold finish_send_packet, emit. cbn. by rewrite <- app_assoc.
Qed.

Lemma is_finish_host : is_finish [EvMemoryWriteback; EvWindowWriteback] finish_send_packet_host.
Proof.
  intros c w. unfold finish_send_packet_host, emit. cbn. by rewrite <- !app_assoc.
Qed.

(** The buffer address of a completion's packet. *)
Definition pkt_addr (rq : rq_ctx_t) (rqs : gmap (Z * Z) rwqe) (e : cqe64) : Z :=
  flexio_dev_rwqe_get_addr (default rwqe_init
    (rqs !! (rq_ring rq, Z.land (flexio_dev_cqe_get_wqe_counter e) (rq_idx_mask rq)))).

(** The library calls one packet causes, the [k]-th after [pi] sends and [c]
    consumed completions. *)
Definition turn_events (wb : list event) (q : dev_queues) (pi c k : Z) : list event :=
  wb ++ [EvSqRingDb (u32 (pi + k + 1)) (sq_number (sq_ctx q));
         EvRqIncPi (rq_dbr (rq_ctx q));
         EvCqSetCi (cq_dbr (rqcq_ctx q)) (u32 (c + k + 1))].

Fixpoint burst_events (wb : list event) (q : dev_queues) (pi c : Z) (n : nat) : list event :=
  match n with
  | O => []
  | S n => burst_events wb q pi c n ++ turn_events wb q pi c (Z.of_nat n)
  end.

Definition swap_all (acc : cqe64 -> Z) (es : list cqe64) (m : mem) : mem :=
  fold_left (fun m e => swap_mac m (acc e)) es m.

Variables (log_cq log_sq : Z).
Hypothesis Hcq : 0 <= log_cq <= 31.
Hypothesis Hsq : 0 <= log_sq <= 30.

Section Burst.
Variables (to_dpa : Z -> Z) (finish : sq_ctx_t -> World F -> sq_ctx_t * World F)
  (wb : list event) (q0 : dev_queues) (w0 : World F) (c0 n0 lk : Z) (all : list cqe64).
Hypothesis Hfin : is_finish wb finish.

(** The queues keep their identity while packets are processed. *)
Record same_queues (q : dev_queues) : Prop := MkSame {
  same_rq : rq_ctx q = rq_ctx q0;
  same_sqn : sq_number (sq_ctx q) = sq_number (sq_ctx q0);
  same_sqr : sq_ring (sq_ctx q) = sq_ring (sq_ctx q0);
  same_cqd : cq_dbr (rqcq_ctx q) = cq_dbr (rqcq_ctx q0);
  same_dt : dt_ctx q = dt_ctx q0;
  same_lkey : lkey q = lkey q0;
}.

(** After the completions [dn] of the burst, with [pend] still waiting. *)
Record burst_inv (dn pend : list cqe64) (q : dev_queues) (w : World F) : Prop := MkBurst {
  bi_all : all = dn ++ pend;
  bi_cq : cq_rep log_cq (c0 + Z.of_nat (length dn)) pend (rqcq_ctx q) w;
  bi_sq : sq_rep log_sq (n0 + Z.of_nat (length dn)) lk (sq_ctx q) w;
  bi_pi : sq_pi (sq_ctx q) = u32 (sq_pi (sq_ctx q0) + Z.of_nat (length dn));
  bi_same : same_queues q;
  bi_rq : w_rq w = w_rq w0;
  bi_mem : w_mem w =
    swap_all (fun e => to_dpa (pkt_addr (rq_ctx q0) (w_rq w0) e)) dn (w_mem w0);
  bi_trace : w_trace w =
    w_trace w0 ++ burst_events wb q0 (sq_pi (sq_ctx q0)) c0 (length dn);
}.

Lemma burst_step dn e pend q w q1 w1 q2 w2 :
  burst_inv dn (e :: pend) q w ->
  reflect_packet to_dpa finish q w = (q1, w1) -> step_queues q1 w1 = (q2, w2) ->
  burst_inv (dn ++ [e]) pend q2 w2.
Proof.
  intros [Hall Rc Rs Hpi [Hrq Hsqn Hsqr Hcqd Hdt Hlk] Hwrq Hm Ht] E1 E2.
  unfold reflect_packet, receive_packet in E1.
  rewrite (cq_rep_head _ _ _ _ _ _ Rc) in E1.
  unfold rwqe_at in E1. rewrite Hrq, Hwrq in E1. fold (pkt_addr (rq_ctx q0) (w_rq w0) e) in E1.
  set (a := pkt_addr (rq_ctx q0) (w_rq w0) e) in *.
  unfold send_packet in E1.
  set (wm := set_mem (swap_mac (w_mem w) (to_dpa a)) w) in *.
  destruct (prepare_send_packet (sq_ctx q) a (flexio_dev_cqe_get_byte_cnt e) wm)
    as [sq1 wp] eqn:Ep.
  assert (sq_rep log_sq (n0 + Z.of_nat (length dn)) lk (sq_ctx q) wm) as Rs'.
  { by eapply sq_rep_frame; [|exact Rs]. }
  destruct (sq_rep_prepare _ Hsq _ _ _ _ _ _ _ _ Rs' Ep) as (Rp & -> & _ & _ & _ & _ & Hwp).
  rewrite Hfin in E1. cbn in E1. injection E1 as <- <-.
  unfold step_queues, step_rq in E2. cbn [rq_ctx rqcq_ctx set_sq_ctx] in E2.
  set (we := emit _ _) in E2. destruct (step_cq (rqcq_ctx q) we) as [cq' w'] eqn:Ec.
  injection E2 as <- <-.
  assert (cq_rep log_cq (c0 + Z.of_nat (length dn)) (e :: pend) (rqcq_ctx q) we) as Rc'.
  { eapply cq_rep_frame; [|exact Rc]. unfold we. cbn. rewrite Hwp. done. }
  pose proof (cq_rep_step _ Hcq _ _ _ _ _ _ _ Rc' Ec) as Rc2.
  unfold step_cq in Ec. injection Ec as <- <-.
  split; rewrite ?length_app; cbn [length]; rewrite ?Nat2Z.inj_add, ?Z.add_assoc.
  - rewrite Hall. by rewrite <- app_assoc.
  - exact Rc2.
  - destruct Rp as [Rm Rg Rk]. split; [exact Rm|exact Rg|exact Rk].
  - cbn. rewrite Hpi, wrapu_add_l. done.
  - split; cbn; done.
  - cbn. rewrite Hwp. done.
  - cbn. rewrite Hwp. cbn. unfold swap_all. rewrite fold_left_app. cbn.
    rewrite Hm. done.
  - cbn. rewrite Hwp. cbn. rewrite Ht, Nat.add_1_r. cbn [burst_events]. unfold turn_events.
    rewrite Hsqn, Hcqd, Hrq, Hpi, wrapu_add_l.
    rewrite (rep_idx _ _ _ _ _ Rc), wrapu_add_l. by rewrite <- !app_assoc.
Qed.

Section DrainBurst.
Context {D : Type} `{!HasQueues D}.
Variables (body : D -> World F -> D * World F) (P : D -> Prop).
Hypothesis body_reflects : forall d w, P d ->
  P (fst (body d w)) /\
  (dq (fst (body d w)), snd (body d w)) =
  (let '(q, w) := reflect_packet to_dpa finish (dq d) w in step_queues q w).

(** Draining a queue in which [all] is waiting reflects all of it. *)
Lemma reflect_drain fuel d :
  (length all <= fuel)%nat -> P d -> dq d = q0 ->
  cq_rep log_cq c0 all (rqcq_ctx q0) w0 -> sq_rep log_sq n0 lk (sq_ctx q0) w0 ->
  0 <= sq_pi (sq_ctx q0) < 2 ^ 32 ->
  exists d' w', drain (fun d => rqcq_ctx (dq d)) body fuel d w0 = Some (d', w') /\
    P d' /\ burst_inv all [] (dq d') w'.
Proof.
  intros Hf HP Hq Rc Rs Hpi.
  set (Inv := fun pend d w => P d /\ exists dn, burst_inv dn pend (dq d) w).
  assert (exists d' w', drain (fun d => rqcq_ctx (dq d)) body fuel d w0 = Some (d', w') /\
            Inv [] d' w') as (d' & w' & E & HP' & dn & HB).
  { apply (drain_inv _ _ Inv) with (pend := all); [| |done|].
    - intros pend d1 w1 [_ [dn HB]]. by apply (cq_rep_ready _ Hcq _ _ _ _ (bi_cq _ _ _ _ HB)).
    - intros e pend d1 w1 [HP1 [dn HB]]. destruct (body_reflects d1 w1 HP1) as [HP2 E].
      split; [done|]. exists (dn ++ [e]).
      destruct (reflect_packet to_dpa finish (dq d1) w1) as [q1 w2] eqn:E1.
      eapply burst_step; [done|done|]. by rewrite <- E.
    - split; [done|]. exists []. rewrite Hq. split; cbn; rewrite ?Z.add_0_r, ?app_nil_r; try done.
      by rewrite wrapu_small. }
  exists d', w'. split; [done|]. split; [done|].
  pose proof (bi_all _ _ _ _ HB) as Ha. rewrite app_nil_r in Ha. by rewrite Ha.
Qed.
End DrainBurst.
End Burst.

End Reflect.

(** ** A burst of completions written by the NIC *)

Fixpoint nic_burst {F : FlexioDev} (log ring p : Z) (es : list cqe64) (w : World F) : World F :=
  match es with
  | [] => w
  | e :: es => nic_burst log ring (p + 1) es (nic_write log ring p e w)
  end.

Lemma nic_burst_frame {F : FlexioDev} log ring p es (w : World F) :
  w_mem (nic_burst log ring p es w) = w_mem w /\ w_rq (nic_burst log ring p es w) = w_rq w /\
  w_sq (nic_burst log ring p es w) = w_sq w /\ w_trace (nic_burst log ring p es w) = w_trace w /\
  w_window (nic_burst log ring p es w) = w_window w.
Proof. revert p w. induction es as [|e es IH]; intros p w; cbn [nic_burst]; [done|].
  exact (IH (p + 1) (nic_write log ring p e w)). Qed.

Lemma cq_rep_burst {F : FlexioDev} log (Hlog : 0 <= log <= 31) c pend es ctx (w : World F) :
  Z.of_nat (length pend + length es) <= 2 ^ log ->
  (forall i e, es !! i = Some e -> flexio_dev_cqe_get_owner e =
     ((c + Z.of_nat (length pend) + Z.of_nat i) / 2 ^ log) mod 2) ->
  cq_rep log c pend ctx w ->
  cq_rep log c (pend ++ es) ctx
    (nic_burst log (cq_ring ctx) (c + Z.of_nat (length pend)) es w).
Proof.
  revert pend w. induction es as [|e es IH]; intros pend w Hl Ho R; cbn [nic_burst].
  - by rewrite app_nil_r.
  - assert (cq_rep log c (pend ++ [e]) ctx
       (nic_write log (cq_ring ctx) (c + Z.of_nat (length pend)) e w)) as R1.
    { apply cq_rep_deliver; [done|cbn in Hl; lia| |done].
      rewrite (Ho 0%nat e eq_refl). by rewrite Z.add_0_r. }
    apply IH in R1.
    + rewrite <- app_assoc, length_app, Nat2Z.inj_add, Z.add_assoc in R1. exact R1.
    + rewrite length_app. cbn in *. lia.
    + intros i x Hx. rewrite (Ho (S i) x Hx), length_app. cbn. do 2 f_equal. lia.
Qed.

(** When the packets lie in disjoint buffers, each ends with its addresses
    swapped once. *)
Lemma rd8_swap_all_out {F : FlexioDev} acc (es : list cqe64) m b :
  (forall e, e ∈ es -> b < acc e \/ acc e + 14 <= b) -> rd8 (swap_all acc es m) b = rd8 m b.
Proof.
  revert m. induction es as [|e es IH]; intros m H; [done|].
  change (swap_all acc (e :: es) m) with (swap_all acc es (swap_mac m (acc e))).
  rewrite IH by set_solver. apply rd8_swap_mac_out, H. set_solver.
Qed.

Lemma rd8_swap_all {F : FlexioDev} acc (es : list cqe64) m i e b :
  es !! i = Some e ->
  (forall j e', es !! j = Some e' -> j <> i -> acc e' + 14 <= acc e \/ acc e + 14 <= acc e') ->
  acc e <= b < acc e + 14 ->
  rd8 (swap_all acc es m) b = rd8 (swap_mac m (acc e)) b.
Proof.
  revert m i. induction es as [|x es IH]; intros m i Hi Hd Hb; [done|].
  change (swap_all acc (x :: es) m) with (swap_all acc es (swap_mac m (acc x))).
  destruct i as [|i]; cbn in Hi.
  - injection Hi as ->. apply rd8_swap_all_out. intros e' He'.
    apply list_elem_of_lookup in He' as [j Hj]. specialize (Hd (S j) e' Hj). lia.
  - pose proof (Hd 0%nat x eq_refl ltac:(lia)) as Hx.
    rewrite (IH _ i Hi) by (done || intros j e' Hj Hne; apply (Hd (S j) e' Hj); lia).
    rewrite (rd8_swap_mac (swap_mac m (acc x))), (rd8_swap_mac m (acc e)).
    repeat case_decide; try done; rewrite rd8_swap_mac_out by lia; done.
Qed.

(** A sample queue configuration for thread [t], used by the witnesses. *)
Definition demo_shared (t : Z) : queue_config_data :=
  {| rq_cq_data := {| cq_num := 3; log_cq_depth := 7; cq_ring_daddr := 4096; cq_dbr_daddr := 64 |};
     rq_data := {| wq_num := 5; wqd_mkey_id := 11; wq_ring_daddr := 16384; wq_dbr_daddr := 128;
                   wqd_daddr := 70000; daddr_on_host := 0 |};
     sq_cq_data := {| cq_num := 4; log_cq_depth := 7; cq_ring_daddr := 32768; cq_dbr_daddr := 72 |};
     sq_data := {| wq_num := 6; wqd_mkey_id := 77; wq_ring_daddr := 8192; wq_dbr_daddr := 256;
                   wqd_daddr := 70000; daddr_on_host := 0 |};
     thread_index := t; new_buffer_addr := 0; new_buffer_mkey_id := 1 |}.
