(* ===== verification/DpaRefactor.v ===== *)
(** * DpaRefactor: the single-thread L2 reflector

    Translation of [flexio/dpa_refactor/device/dpa_refactor_device.c] with the
    ring depths of [flexio/dpa_refactor/common/dpa_refactor_common.h].  The static
    [dev_ctx] is the [refl_context] passed from handler to handler. *)

From S2P Require Import Prelude Machine FlexioDev WrapperDevice DevCommon RingProtocol Reflector.

Definition LOG_SQ_RING_DEPTH : Z := 7.
Definition LOG_RQ_RING_DEPTH : Z := 7.
Definition LOG_CQ_RING_DEPTH : Z := 7.
Definition LOG_WQ_DATA_ENTRY_BSIZE : Z := 10.

(** The device context and its static initial value. *)
Definition dev_ctx_t : Type := refl_context.
Definition dev_ctx_zero : dev_ctx_t := zero_refl.

#[export] Instance refl_has_queues : HasQueues refl_context.
Proof. refine {| dq := rc_q; set_dq := set_q |}; by intros q []. Defined.

Definition init_cq : app_transfer_cq -> cq_ctx_t := init_cq_with LOG_CQ_RING_DEPTH.
Definition init_rq : app_transfer_wq -> rq_ctx_t := init_rq_with LOG_RQ_RING_DEPTH.

Section Device.
Context {F : FlexioDev}.

Definition init_sq : app_transfer_wq -> sq_ctx_t -> sq_ctx_t := init_sq_with LOG_SQ_RING_DEPTH.

Definition process_packet (d : refl_context) (w : World F) : refl_context * World F :=
  let '(rq_data, data_sz) := receive_packet (rqcq_ctx (rc_q d)) (rq_ctx (rc_q d)) w in
  let sq_data := rq_data in
  let w := set_mem (swap_mac (w_mem w) sq_data) w in
  let '(sq, w) := prepare_send_packet (sq_ctx (rc_q d)) sq_data data_sz w in
  let '(sq, w) := finish_send_packet sq w in
  (set_q (set_sq_ctx sq (rc_q d)) d, w).

Definition process_packet_host (d : refl_context) (w : World F) : refl_context * World F :=
  let '(rq_data, data_sz) := receive_packet (rqcq_ctx (rc_q d)) (rq_ctx (rc_q d)) w in
  let rq_data_dpa := host_rq_addr_to_dpa_addr rq_data (host_rq_ctx d) in
  let sq_data := rq_data in
  let sq_data_dpa := rq_data_dpa in
  let w := set_mem (swap_mac (w_mem w) sq_data_dpa) w in
  let '(sq, w) := prepare_send_packet (sq_ctx (rc_q d)) sq_data data_sz w in
  let '(sq, w) := finish_send_packet_host sq w in
  (set_q (set_sq_ctx sq (rc_q d)) d, w).

Definition dpa_refactor_device_init (shared_data : queue_config_data) (d : refl_context)
    (w : World F) : Z * refl_context * World F :=
  let h := MkHostRq (wqd_mkey_id (rq_data shared_data)) (new_buffer_mkey_id shared_data)
             (wqd_daddr (rq_data shared_data)) (dpa_rx_buff (host_rq_ctx d)) in
  let lk := wqd_mkey_id (sq_data shared_data) in
  let rqcq := init_cq (rq_cq_data shared_data) in
  let rq := init_rq (rq_data shared_data) in
  let sqcq := init_cq (sq_cq_data shared_data) in
  let sq := init_sq (sq_data shared_data) (sq_ctx (rc_q d)) in
  let '(sq, w) := init_send_sq sq (LOG2VALUE LOG_SQ_RING_DEPTH) lk w in
  let dt := MkDt (wqd_daddr (sq_data shared_data)) 0 (Z.shiftl 1 LOG_SQ_RING_DEPTH - 1) in
  (0, MkRefl (MkQueues lk 1 rqcq sqcq rq sq dt) h (packets_count d)
        (daddr_on_host (rq_data shared_data)) (daddr_on_host (sq_data shared_data)), w).

(** One turn of the inner loop of the event handler. *)
Definition handler_turn (on_host : Z) (d : refl_context) (w : World F)
    : refl_context * World F :=
  let '(d, w) := if truthy on_host then process_packet_host d w else process_packet d w in
  let w := step_rq (rq_ctx (rc_q d)) w in
  let '(cq, w) := step_cq (rqcq_ctx (rc_q d)) w in
  (set_q (set_rqcq cq (rc_q d)) d, w).

Definition dpa_refactor_device_event_handler (fuel : nat) (env : list (World F -> World F))
    (d : refl_context) (w : World F) : handler_result refl_context :=
  let dtctx := snd flexio_dev_get_thread_ctx in
  if is_initalized (rc_q d) =? 0 then Rescheduled d w
  else
    let on_host := rq_on_host d in
    let '(h, w) :=
      if truthy on_host then
        let '(b, w) := get_host_buffer_with_dtctx (rq_window_id (host_rq_ctx d))
                         (hrq_rkey (host_rq_ctx d)) (host_rx_buff (host_rq_ctx d)) w in
        (set_dpa_rx_buff b (host_rq_ctx d), w)
      else (set_dpa_rx_buff (host_rx_buff (host_rq_ctx d)) (host_rq_ctx d), w) in
    let d := set_host_rq h d in
    poll_or_exit (fun d => rqcq_ctx (rc_q d)) (handler_turn on_host) fuel env dtctx d w.

(** ** Lemmas *)

(** The address at which the program touches a packet posted at [a]. *)
Definition touch_addr (d : refl_context) (a : Z) : Z :=
  if truthy (rq_on_host d) then host_rq_addr_to_dpa_addr a (host_rq_ctx d) else a.

Definition writebacks (d : refl_context) : list event :=
  if truthy (rq_on_host d) then [EvMemoryWriteback; EvWindowWriteback] else [EvMemoryWriteback].

Definition finish_of (d : refl_context) : sq_ctx_t -> World F -> sq_ctx_t * World F :=
  if truthy (rq_on_host d) then finish_send_packet_host else finish_send_packet.

Lemma finish_of_is_finish d : is_finish (writebacks d) (finish_of d).
Proof.
  unfold writebacks, finish_of. destruct (truthy (rq_on_host d));
    [apply is_finish_host|apply is_finish_dpa].
Qed.

Lemma handler_turn_reflects d0 d w :
  host_rq_ctx d = host_rq_ctx d0 /\ rq_on_host d = rq_on_host d0 ->
  let d' := fst (handler_turn (rq_on_host d0) d w) in
  (host_rq_ctx d' = host_rq_ctx d0 /\ rq_on_host d' = rq_on_host d0) /\
  (dq d', snd (handler_turn (rq_on_host d0) d w)) =
  (let '(q, w) := reflect_packet (touch_addr d0) (finish_of d0) (dq d) w in step_queues q w).
Proof.
  intros [Hh Hr]. unfold handler_turn, process_packet_host, process_packet, reflect_packet,
    touch_addr, finish_of, send_packet, step_queues. rewrite <- Hh, <- Hr.
  destruct (receive_packet _ _ _) as [a sz].
  destruct (truthy (rq_on_host d)); cbn -[step_cq prepare_send_packet finish_send_packet_host
    finish_send_packet];
    destruct (prepare_send_packet _ _ _ _) as [s1 w1];
    [destruct (finish_send_packet_host _ _) as [s2 w2]|destruct (finish_send_packet _ _) as [s2 w2]];
    cbn -[step_cq]; destruct (step_cq _ _) as [c3 w3]; done.
Qed.

(** What initialisation leaves behind. *)
Lemma device_init_rep `{!FlexioDevLaws F} shared d w ret d1 w1 :
  (forall i, 0 <= i < 128 ->
     flexio_dev_cqe_get_owner (cqe_at w (cq_ring_daddr (rq_cq_data shared), i)) = 1) ->
  dpa_refactor_device_init shared d w = (ret, d1, w1) ->
  ret = 0 /\ is_initalized (rc_q d1) = 1 /\
  cq_rep 7 0 [] (rqcq_ctx (rc_q d1)) w1 /\
  sq_rep 7 0 (wqd_mkey_id (sq_data shared)) (sq_ctx (rc_q d1)) w1 /\
  sq_pi (sq_ctx (rc_q d1)) = sq_pi (sq_ctx (rc_q d)) /\
  rqcq_ctx (rc_q d1) = init_cq (rq_cq_data shared) /\
  rq_on_host d1 = daddr_on_host (rq_data shared) /\ w1 = set_sq (w_sq w1) w.
Proof.
  intros H E. unfold dpa_refactor_device_init in E.
  destruct (init_send_sq _ _ _ _) as [sq w'] eqn:Es. injection E as <- <- <-.
  apply sq_rep_init in Es as (R & Hpi & _ & _ & Hw); [|unfold LOG_SQ_RING_DEPTH; lia].
  split; [done|]. split; [done|]. split; [|done].
  eapply cq_rep_frame; [|by apply cq_rep_init]. by rewrite Hw.
Qed.

(** The packet found at the current completion. *)
Definition current_packet (d : refl_context) (w : World F) : Z * Z :=
  receive_packet (rqcq_ctx (rc_q d)) (rq_ctx (rc_q d)) w.

End Device.

(** C3.  Processing a packet reflects it.  On both buffer placements, the bytes
    of the packet the program touches end with destination and source MAC
    exchanged and EtherType IPv4, no other byte of memory changes, the buffer is
    posted with the packet's own address and length in the next send entry, and
    exactly one doorbell is rung, after the writebacks and with the incremented
    producer index. *)
Theorem process_packet_reflects {F : FlexioDev} `{!FlexioDevLaws F} (d d' : refl_context)
    (w w' : World F) (n lk a sz : Z) :
  sq_rep 7 n lk (sq_ctx (rc_q d)) w ->
  current_packet d w = (a, sz) ->
  (if truthy (rq_on_host d) then process_packet_host d w else process_packet d w) = (d', w') ->
  let t := touch_addr d a in
  (forall i, 0 <= i < 6 -> rd8 (w_mem w') (t + i) = rd8 (w_mem w) (t + 6 + i) /\
                           rd8 (w_mem w') (t + 6 + i) = rd8 (w_mem w) (t + i)) /\
  rd8 (w_mem w') (t + 12) = 8 /\ rd8 (w_mem w') (t + 13) = 0 /\
  (forall b, b < t \/ t + 14 <= b -> rd8 (w_mem w') b = rd8 (w_mem w) b) /\
  posted w' (data_slot 7 (sq_ctx (rc_q d)) n) a sz lk /\
  w_trace w' = w_trace w ++ writebacks d ++
    [EvSqRingDb (u32 (sq_pi (sq_ctx (rc_q d)) + 1)) (sq_number (sq_ctx (rc_q d)))].
Proof.
  intros R Hc E t. unfold current_packet in Hc.
  assert ((let '(sq, w1) := prepare_send_packet (sq_ctx (rc_q d)) a sz
             (set_mem (swap_mac (w_mem w) t) w) in
           let '(sq, w2) := finish_of d sq w1 in
           (set_q (set_sq_ctx sq (rc_q d)) d, w2)) = (d', w')) as E'.
  { unfold t, touch_addr, finish_of, process_packet_host, process_packet in *.
    rewrite Hc in E. by destruct (truthy (rq_on_host d)). }
  destruct (prepare_send_packet (sq_ctx (rc_q d)) a sz (set_mem (swap_mac (w_mem w) t) w))
    as [sq1 w1] eqn:Ep.
  assert (sq_rep 7 n lk (sq_ctx (rc_q d)) (set_mem (swap_mac (w_mem w) t) w)) as R'.
  { by eapply sq_rep_frame; [|exact R]. }
  destruct (sq_rep_prepare 7 ltac:(lia) _ _ _ _ _ _ _ _ R' Ep) as (_ & -> & Hb & Ha & Hk & _ & Hw).
  rewrite finish_of_is_finish in E'. cbn in E'. injection E' as <- <-.
  assert (w_mem w1 = swap_mac (w_mem w) t /\ w_trace w1 = w_trace w) as [Hm Ht]
    by (rewrite Hw; done).
  cbn. rewrite Hm, Ht. split; [|split; [|split; [|split; [|done]]]];
    intros; rewrite ?rd8_swap_mac; repeat case_decide; try lia; try split; f_equal; lia.
Qed.

(** A sample configuration: one initialised reflector with a packet waiting in
    the buffer at 70000. *)
Definition demo_w0 : World ref_flexio :=
  MkWorld (F := ref_flexio) (wrbytes ∅ 70000 [1;2;3;4;5;6;7;8;9;10;11;12;8;6]) ∅
    (<[(16384, 0) := 70000]> (<[(16384, 1) := 71024]> ∅)) ∅ 0%nat None [].

Definition demo_init : Z * refl_context * World ref_flexio :=
  dpa_refactor_device_init (F := ref_flexio) (demo_shared 0) dev_ctx_zero demo_w0.
Definition demo_d : refl_context := snd (fst demo_init).
Definition demo_w : World ref_flexio := snd demo_init.
Definition demo_w1 : World ref_flexio := nic_write (F := ref_flexio) 7 4096 0 (RefCqe 0 0 60) demo_w.

Lemma demo_init_eq :
  dpa_refactor_device_init (F := ref_flexio) (demo_shared 0) dev_ctx_zero demo_w0 =
  (fst (fst demo_init), demo_d, demo_w).
Proof. unfold demo_d, demo_w, demo_init. by destruct (dpa_refactor_device_init _ _ _) as [[? ?] ?]. Qed.

Lemma demo_sq_rep : sq_rep (F := ref_flexio) 7 0 77 (sq_ctx (rc_q demo_d)) demo_w1.
Proof.
  pose proof (device_init_rep (F := ref_flexio) (demo_shared 0) dev_ctx_zero demo_w0 _ _ _
    ltac:(done) demo_init_eq) as (_ & _ & _ & R & _).
  eapply sq_rep_frame; [apply w_sq_nic_write|exact R].
Qed.

Lemma process_packet_reflects_witness :
  rd8 (w_mem (snd (process_packet (F := ref_flexio) demo_d demo_w1))) (70000 + 12) = 8.
Proof.
  destruct (process_packet demo_d demo_w1) as [d' w'] eqn:E.
  refine (proj1 (proj2 (process_packet_reflects demo_d d' demo_w1 w' 0 77 70000 60
    demo_sq_rep _ _))); [vm_compute; reflexivity|exact E].
Defined.

(** The event handler reflects every packet of a burst.  Start from an
    initialised device whose completion ring the host has prepared, let the NIC
    write up to 128 completions, and run the handler: with at least one unit of
    fuel per completion the inner loop drains the queue and the handler keeps
    polling; memory is the result of swapping the addresses of each packet in
    turn, so that packets in disjoint buffers each end swapped once; the library
    calls are, per packet and in order, the writebacks, the doorbell with the
    next producer index, the receive doorbell and the new consumer index; and
    nothing is left waiting. *)
Theorem refactor_handler_burst {F : FlexioDev} `{!FlexioDevLaws F} (shared : queue_config_data)
    (d0 d1 : refl_context) (w0 w1 : World F) (ret : Z) (es : list cqe64) (fuel : nat) :
  (forall i, 0 <= i < 128 ->
     flexio_dev_cqe_get_owner (cqe_at w0 (cq_ring_daddr (rq_cq_data shared), i)) = 1) ->
  0 <= sq_pi (sq_ctx (rc_q d0)) < 2 ^ 32 ->
  dpa_refactor_device_init shared d0 w0 = (ret, d1, w1) ->
  snd flexio_dev_get_thread_ctx <> 0 ->
  (length es <= 128)%nat -> (length es <= fuel)%nat ->
  (forall e, e ∈ es -> flexio_dev_cqe_get_owner e = 0) ->
  exists d2 w2 h w1',
    map_rx_buff (rq_on_host d1) (host_rq_ctx d1) w1 = (h, w1') /\
    dpa_refactor_device_event_handler fuel
      [nic_burst 7 (cq_ring_daddr (rq_cq_data shared)) 0 es] d1 w1 = Polling d2 w2 /\
    cqe_ready (rqcq_ctx (rc_q d2)) w2 = false /\
    w_trace w2 = w_trace w1' ++
      burst_events (writebacks d1) (rc_q d1) (sq_pi (sq_ctx (rc_q d0))) 0 (length es) /\
    (let acc e := touch_addr (set_host_rq h d1)
                    (pkt_addr (rq_ctx (rc_q d1)) (w_rq w1) e) in
     w_mem w2 = swap_all acc es (w_mem w1) /\
     forall i e b, es !! i = Some e ->
       (forall j e', es !! j = Some e' -> j <> i -> acc e' + 14 <= acc e \/ acc e + 14 <= acc e') ->
       acc e <= b < acc e + 14 ->
       rd8 (w_mem w2) b = rd8 (swap_mac (w_mem w1) (acc e)) b).
Proof.
  intros H0 Hpi E Hth Hle Hfu Hes.
  destruct (device_init_rep _ _ _ _ _ _ H0 E) as (_ & Hin & Rc & Rs & Hpi1 & Hcqi & Hon & _).
  destruct (map_rx_buff (rq_on_host d1) (host_rq_ctx d1) w1) as [h w1'] eqn:Em.
  destruct (map_rx_buff_frame _ _ _ _ _ Em) as (Fc & Fs & Fr & Fm).
  set (d' := set_host_rq h d1). set (ring := cq_ring_daddr (rq_cq_data shared)).
  set (wn := nic_burst 7 ring 0 es w1').
  destruct (nic_burst_frame 7 ring 0 es w1') as (Nm & Nr & Ns & Nt & _).
  assert (cq_rep 7 0 es (rqcq_ctx (rc_q d1)) wn) as Rn.
  { assert (ring = cq_ring (rqcq_ctx (rc_q d1))) as Hring by (by rewrite Hcqi).
    unfold wn. rewrite Hring.
    refine (cq_rep_burst 7 _ 0 [] es (rqcq_ctx (rc_q d1)) w1' _ _ _).
    - lia.
    - cbn. lia.
    - intros i e Hi. pose proof (lookup_lt_Some _ _ _ Hi). cbn [length].
      rewrite Z.div_small by lia. apply Hes, list_elem_of_lookup. eauto.
    - by eapply cq_rep_frame. }
  assert (sq_rep 7 0 (wqd_mkey_id (sq_data shared)) (sq_ctx (rc_q d1)) wn) as Rsn.
  { eapply sq_rep_frame; [|exact Rs]. unfold wn. by rewrite Ns, Fs. }
  clear E H0.
  pose proof (reflect_drain 7 7 ltac:(lia) ltac:(lia) (touch_addr d') (finish_of d')
    (writebacks d') (rc_q d1) wn 0 0 (wqd_mkey_id (sq_data shared)) es (finish_of_is_finish d')
    (handler_turn (rq_on_host d'))
    (fun d => host_rq_ctx d = host_rq_ctx d' /\ rq_on_host d = rq_on_host d')
    (handler_turn_reflects d') fuel d' Hfu (conj eq_refl eq_refl) eq_refl Rn Rsn) as HD.
  destruct HD as (d2 & w2 & Ed & _ & HB); [lia|].
  exists d2, w2, h, w1'. split; [done|]. split.
  { unfold dpa_refactor_device_event_handler. rewrite Hin. cbn [Z.eqb Pos.eqb].
    change (if truthy (rq_on_host d1) then _ else _) with
      (map_rx_buff (rq_on_host d1) (host_rq_ctx d1) w1). rewrite Em.
    unfold poll_or_exit. rewrite (proj2 (Z.eqb_neq _ _) Hth). cbn [poll].
    fold ring wn d'. change (rq_on_host d1) with (rq_on_host d').
    change (fun d : refl_context => rqcq_ctx (rc_q d)) with
      (fun d : refl_context => rqcq_ctx (dq d)). by rewrite Ed. }
  destruct HB as [_ HBc _ _ _ _ Hm HBt].
  split; [exact (cq_rep_ready 7 ltac:(lia) _ _ _ _ HBc)|].
  split; [rewrite HBt, Hpi1; unfold wn; by rewrite Nt|].
  unfold wn in Hm. rewrite Nm, Nr, Fm, Fr in Hm.
  split; [exact Hm|]. intros i e b Hi Hd Hb. rewrite Hm.
  exact (rd8_swap_all _ es (w_mem w1) i e b Hi Hd Hb).
Qed.

Lemma refactor_handler_burst_witness :
  exists d2 w2, dpa_refactor_device_event_handler (F := ref_flexio) 5
    [nic_burst (F := ref_flexio) 7 4096 0 [RefCqe 0 0 60; RefCqe 0 1 64]] demo_d demo_w = Polling d2 w2.
Proof.
  destruct (refactor_handler_burst (demo_shared 0) dev_ctx_zero demo_d demo_w0 demo_w
    (fst (fst demo_init)) [RefCqe 0 0 60; RefCqe 0 1 64] 5) as (d2 & w2 & h & w1' & _ & H & _).
  - intros i Hi. reflexivity.
  - cbn. lia.
  - exact demo_init_eq.
  - cbn. lia.
  - cbn. lia.
  - cbn. lia.
  - intros e He. by repeat (apply elem_of_cons in He as [->|He]; [reflexivity|]);
      apply elem_of_nil in He.
  - exists d2, w2. exact H.
Defined.
