(* ===== verification/PacketLoop.v ===== *)
(** * PacketLoop: draining a completion queue with an arbitrary packet function

    The servers of the repository ([dpa_small_bank_server],
    [dpa_kv_aggregation], [dpa_network_function], ...) answer each packet in its
    own receive buffer: they read the packet, update state of their own, write
    the answer over it and post the same buffer with the answer's length.  For a
    program of that shape, given by the function that maps the program's state,
    the memory, the buffer's address and the packet's length to the new state,
    memory and length, this file proves what a handler does with a burst of
    packets. *)

From S2P Require Import Prelude Machine FlexioDev WrapperDevice DevCommon RingProtocol Reflector.

Section Serve.
Context {F : FlexioDev} `{!FlexioDevLaws F} {X : Type}.
Variable f : X -> mem -> Z -> Z -> X * mem * Z.

(** One packet: receive, compute, send the answer from the same buffer. *)
Definition serve_packet (finish : sq_ctx_t -> World F -> sq_ctx_t * World F)
    (x : X) (q : dev_queues) (w : World F) : X * dev_queues * World F :=
  let '(rq_data, data_sz) := receive_packet (rqcq_ctx q) (rq_ctx q) w in
  let '(x, m, out_sz) := f x (w_mem w) rq_data data_sz in
  let '(q, w) := send_packet finish q rq_data out_sz (set_mem m w) in
  (x, q, w).

(** The abstract meaning of a burst: the state and memory after answering the
    packets in order, and the buffers posted. *)
Fixpoint serve_all (addr : cqe64 -> Z) (es : list cqe64) (x : X) (m : mem)
    : X * mem * list (Z * Z) :=
  match es with
  | [] => (x, m, [])
  | e :: es =>
      let '(x, m, sz) := f x m (addr e) (flexio_dev_cqe_get_byte_cnt e) in
      let '(x, m, posts) := serve_all addr es x m in
      (x, m, (addr e, sz) :: posts)
  end.

Lemma serve_all_app addr es e x m x1 m1 posts x2 m2 sz :
  serve_all addr es x m = (x1, m1, posts) ->
  f x1 m1 (addr e) (flexio_dev_cqe_get_byte_cnt e) = (x2, m2, sz) ->
  serve_all addr (es ++ [e]) x m = (x2, m2, posts ++ [(addr e, sz)]).
Proof.
  revert x m posts. induction es as [|e0 es IH]; intros x m posts E1 E2; cbn in *.
  - injection E1 as -> -> <-. by rewrite E2.
  - destruct (f x m _ _) as [[x' m'] sz'].
    destruct (serve_all addr es x' m') as [[x'' m''] ps] eqn:E. injection E1 as -> -> <-.
    by rewrite (IH _ _ _ E E2).
Qed.

Lemma serve_all_length addr es x m x' m' posts :
  serve_all addr es x m = (x', m', posts) -> length posts = length es.
Proof.
  revert x m posts. induction es as [|e es IH]; intros x m posts E; cbn in E; [by simplify_eq|].
  destruct (f x m _ _) as [[x1 m1] sz]. destruct (serve_all addr es x1 m1) as [[? ?] ps] eqn:E1.
  injection E as <- <- <-. cbn. by rewrite (IH _ _ _ E1).
Qed.

Variables (log_cq log_sq : Z).
Hypothesis Hcq : 0 <= log_cq <= 31.
Hypothesis Hsq : 0 <= log_sq <= 30.
Variables (finish : sq_ctx_t -> World F -> sq_ctx_t * World F)
  (wb : list event) (x0 : X) (q0 : dev_queues) (w0 : World F) (c0 n0 lk : Z) (all : list cqe64).
Hypothesis Hfin : is_finish wb finish.
Hypothesis Hall : Z.of_nat (length all) <= 2 ^ log_sq.

Let addr := pkt_addr (rq_ctx q0) (w_rq w0).

Record serve_inv (dn pend : list cqe64) (x : X) (q : dev_queues) (w : World F) : Prop := MkServe {
  si_all : all = dn ++ pend;
  si_cq : cq_rep log_cq (c0 + Z.of_nat (length dn)) pend (rqcq_ctx q) w;
  si_sq : sq_rep log_sq (n0 + Z.of_nat (length dn)) lk (sq_ctx q) w;
  si_pi : sq_pi (sq_ctx q) = u32 (sq_pi (sq_ctx q0) + Z.of_nat (length dn));
  si_same : same_queues q0 q;
  si_rq : w_rq w = w_rq w0;
  si_state : exists posts, serve_all addr dn x0 (w_mem w0) = (x, w_mem w, posts) /\
    forall k a sz, posts !! k = Some (a, sz) ->
      posted w (data_slot log_sq (sq_ctx q0) (n0 + Z.of_nat k)) a sz lk;
  si_trace : w_trace w =
    w_trace w0 ++ burst_events wb q0 (sq_pi (sq_ctx q0)) c0 (length dn);
}.

(** The parts of the invariant a packet's send and the ring steps decide,
    whatever the packet function did to memory. *)
Lemma send_step_frame dn e pend x q w m sz q1 w1 q2 w2 :
  serve_inv dn (e :: pend) x q w ->
  send_packet finish q (addr e) sz (set_mem m w) = (q1, w1) -> step_queues q1 w1 = (q2, w2) ->
  cq_rep log_cq (c0 + Z.of_nat (length (dn ++ [e]))) pend (rqcq_ctx q2) w2 /\
  sq_rep log_sq (n0 + Z.of_nat (length (dn ++ [e]))) lk (sq_ctx q2) w2 /\
  sq_pi (sq_ctx q2) = u32 (sq_pi (sq_ctx q0) + Z.of_nat (length (dn ++ [e]))) /\
  same_queues q0 q2 /\ w_rq w2 = w_rq w0 /\ w_mem w2 = m /\
  posted w2 (data_slot log_sq (sq_ctx q0) (n0 + Z.of_nat (length dn))) (addr e) sz lk /\
  (forall p, p <> data_slot log_sq (sq_ctx q0) (n0 + Z.of_nat (length dn)) ->
     sqe_at w2 p = sqe_at w p) /\
  w_trace w2 = w_trace w0 ++ burst_events wb q0 (sq_pi (sq_ctx q0)) c0 (length (dn ++ [e])).
Proof.
  intros [_ Rc Rs Hpi [Hrq Hsqn Hsqr Hcqd Hdt Hlk] Hwrq _ Ht] E1 E2.
  unfold send_packet in E1. set (wm := set_mem m w) in *.
  destruct (prepare_send_packet (sq_ctx q) (addr e) sz wm) as [sq1 wp] eqn:Ep.
  assert (sq_rep log_sq (n0 + Z.of_nat (length dn)) lk (sq_ctx q) wm) as Rs'
    by (by eapply sq_rep_frame; [|exact Rs]).
  destruct (sq_rep_prepare _ Hsq _ _ _ _ _ _ _ _ Rs' Ep) as (Rp & -> & Pb & Pa & Pk & Pf & Hwp).
  rewrite Hfin in E1. cbn in E1. injection E1 as <- <-.
  unfold step_queues, step_rq in E2. cbn [rq_ctx rqcq_ctx set_sq_ctx] in E2.
  set (we := emit _ _) in E2. destruct (step_cq (rqcq_ctx q) we) as [cq' w'] eqn:Ec.
  injection E2 as <- <-.
  assert (cq_rep log_cq (c0 + Z.of_nat (length dn)) (e :: pend) (rqcq_ctx q) we) as Rc'.
  { eapply cq_rep_frame; [|exact Rc]. unfold we. cbn. by rewrite Hwp. }
  pose proof (cq_rep_step _ Hcq _ _ _ _ _ _ _ Rc' Ec) as Rc2.
  unfold step_cq in Ec. injection Ec as <- <-. unfold data_slot in *. rewrite Hsqr in *.
  rewrite length_app; cbn [length]; rewrite Nat2Z.inj_add, !Z.add_assoc.
  split; [exact Rc2|]. split; [destruct Rp as [Rm Rg Rk]; split; [exact Rm|exact Rg|]|].
  { intros k Hk. cbn in Rk. cbn [sq_ring sq_ctx set_rqcq set_sq_ctx set_sq_pi set_sq_wqe_seg_idx].
    exact (Rk k Hk). }
  split; [cbn; by rewrite Hpi, wrapu_add_l|]. split; [split; cbn; done|].
  split; [cbn; by rewrite Hwp|]. split; [cbn; by rewrite Hwp|].
  split; [done|]. split; [exact Pf|].
  cbn. rewrite Hwp. cbn. rewrite Ht, Nat.add_1_r. cbn [burst_events]. unfold turn_events.
  rewrite Hsqn, Hcqd, Hrq, Hpi, wrapu_add_l.
  rewrite (rep_idx _ _ _ _ _ Rc), wrapu_add_l. by rewrite <- !app_assoc.
Qed.

Lemma serve_step dn e pend x q w x1 q1 w1 q2 w2 :
  serve_inv dn (e :: pend) x q w ->
  serve_packet finish x q w = (x1, q1, w1) -> step_queues q1 w1 = (q2, w2) ->
  serve_inv (dn ++ [e]) pend x1 q2 w2.
Proof.
  intros HI E1 E2. pose proof HI as [Ha Rc _ _ [Hrq _ _ _ _ _] Hwrq (posts & Es & Hp) _].
  unfold serve_packet, receive_packet in E1. rewrite (cq_rep_head _ _ _ _ _ _ Rc) in E1.
  unfold rwqe_at in E1. rewrite Hrq, Hwrq in E1. fold (pkt_addr (rq_ctx q0) (w_rq w0) e) in E1.
  fold (addr e) in E1. destruct (f x (w_mem w) (addr e) _) as [[x' m'] sz] eqn:Ef.
  destruct (send_packet finish q (addr e) sz (set_mem m' w)) as [q' w'] eqn:Ep.
  injection E1 as -> -> ->.
  destruct (send_step_frame _ _ _ _ _ _ _ _ _ _ _ _ HI Ep E2)
    as (C & S & P & Q & R & M & O & U & T).
  split; try done; [by rewrite Ha, <- app_assoc|].
  exists (posts ++ [(addr e, sz)]). split; [rewrite M; by eapply serve_all_app|].
  intros k a s Hk. pose proof (serve_all_length _ _ _ _ _ _ _ Es) as Hl.
  apply lookup_app_Some in Hk as [Hk|[Hge Hk]].
  - unfold posted. rewrite U; [by apply Hp|]. unfold data_slot. intros [= Hs].
    pose proof (lookup_lt_Some _ _ _ Hk). pose proof Hall as Hb.
    rewrite Ha, length_app in Hb. cbn in Hb.
    assert (Z.of_nat k = Z.of_nat (length dn)); [|lia].
    eapply (mod_window_inj log_sq ltac:(lia) n0); lia.
  - assert (k = length dn) as -> by (apply lookup_lt_Some in Hk; cbn in Hk; lia).
    rewrite <- Hl, Nat.sub_diag in Hk. cbn in Hk. injection Hk as <- <-. exact O.
Qed.

Section DrainServe.
Context {D : Type} `{!HasQueues D}.
Variables (ext : D -> X) (body : D -> World F -> D * World F) (P : D -> Prop).
Hypothesis body_serves : forall d w, P d ->
  P (fst (body d w)) /\
  (ext (fst (body d w)), dq (fst (body d w)), snd (body d w)) =
  (let '(x, q, w) := serve_packet finish (ext d) (dq d) w in
   let '(q, w) := step_queues q w in (x, q, w)).

(** Draining a queue in which [all] is waiting answers all of it, in order. *)
Lemma serve_drain fuel d :
  (length all <= fuel)%nat -> P d -> dq d = q0 -> ext d = x0 ->
  cq_rep log_cq c0 all (rqcq_ctx q0) w0 -> sq_rep log_sq n0 lk (sq_ctx q0) w0 ->
  0 <= sq_pi (sq_ctx q0) < 2 ^ 32 ->
  exists d' w', drain (fun d => rqcq_ctx (dq d)) body fuel d w0 = Some (d', w') /\
    P d' /\ serve_inv all [] (ext d') (dq d') w'.
Proof.
  intros Hf HP Hq Hx Rc Rs Hpi.
  set (Inv := fun pend d w => P d /\ exists dn, serve_inv dn pend (ext d) (dq d) w).
  assert (exists d' w', drain (fun d => rqcq_ctx (dq d)) body fuel d w0 = Some (d', w') /\
            Inv [] d' w') as (d' & w' & E & HP' & dn & HB).
  { apply (drain_inv _ _ Inv) with (pend := all); [| |done|].
    - intros pend d1 w1 [_ [dn HB]]. by apply (cq_rep_ready _ Hcq _ _ _ _ (si_cq _ _ _ _ _ HB)).
    - intros e pend d1 w1 [HP1 [dn HB]]. destruct (body_serves d1 w1 HP1) as [HP2 E].
      split; [done|]. exists (dn ++ [e]).
      destruct (serve_packet finish (ext d1) (dq d1) w1) as [[x1 q1] w2] eqn:E1.
      destruct (step_queues q1 w2) as [q3 w3] eqn:E3. injection E as -> -> ->.
      eapply serve_step; done.
    - split; [done|]. exists []. rewrite Hq, Hx.
      split; cbn; rewrite ?Z.add_0_r, ?app_nil_r; try done; [by rewrite wrapu_small|].
      exists []. done. }
  exists d', w'. split; [done|]. split; [done|].
  pose proof (si_all _ _ _ _ _ HB) as Ha. rewrite app_nil_r in Ha. by rewrite Ha.
Qed.
End DrainServe.
End Serve.

(** ** The transmit buffers *)

(** After [j] calls the next buffer is entry [j] modulo the number of entries. *)
Lemma next_send_buf base log lsz j :
  0 <= log -> 0 <= lsz -> log + lsz <= 32 ->
  get_next_send_buf (MkDt base (u32 j) (2 ^ log - 1)) lsz =
  (base + (j mod 2 ^ log) * 2 ^ lsz, MkDt base (u32 (j + 1)) (2 ^ log - 1)).
Proof.
  intros Hl Hs Hb. unfold get_next_send_buf. cbn [sq_tx_buff tx_buff_idx data_idx_mask].
  rewrite land_mask, wrapu_add_l by done. unfold wrapu at 2. rewrite mod_pow2_mod by lia.
  rewrite Z.shiftl_mul_pow2 by done. do 2 f_equal. apply wrapu_small.
  pose proof (Z.mod_pos_bound j (2 ^ log) ltac:(apply Z.pow_pos_nonneg; lia)) as B.
  assert (0 < 2 ^ lsz) by (apply Z.pow_pos_nonneg; lia).
  assert (2 ^ log * 2 ^ lsz <= 2 ^ 32)
    by (rewrite <- Z.pow_add_r by lia; apply Z.pow_le_mono_r; lia).
  nia.
Qed.

(** ** One send *)

(** Sending touches no packet memory, posts the buffer in the next entry and
    rings the doorbell once. *)
Lemma send_packet_posts {F : FlexioDev} `{!FlexioDevLaws F} log (Hlog : 0 <= log <= 30)
    finish wb n lk a sz (q q' : dev_queues) (w w' : World F) :
  is_finish wb finish -> sq_rep log n lk (sq_ctx q) w ->
  send_packet finish q a sz w = (q', w') ->
  q' = set_sq_ctx (sq_ctx q') q /\ sq_rep log (n + 1) lk (sq_ctx q') w' /\
  sq_pi (sq_ctx q') = u32 (sq_pi (sq_ctx q) + 1) /\
  w_mem w' = w_mem w /\ w_tick w' = w_tick w /\ w_cq w' = w_cq w /\ w_rq w' = w_rq w /\
  posted w' (data_slot log (sq_ctx q) n) a sz lk /\
  w_trace w' = w_trace w ++ wb ++
    [EvSqRingDb (u32 (sq_pi (sq_ctx q) + 1)) (sq_number (sq_ctx q))].
Proof.
  intros Hfin R E. unfold send_packet in E.
  destruct (prepare_send_packet (sq_ctx q) a sz w) as [sq1 w1] eqn:Ep.
  destruct (sq_rep_prepare _ Hlog _ _ _ _ _ _ _ _ R Ep) as (Rp & -> & Pb & Pa & Pk & _ & Hw).
  rewrite Hfin in E. cbn in E. injection E as <- <-. rewrite Hw.
  split; [done|]. split; [|by split_and!]. destruct Rp as [A B C]. rewrite Hw in C. by split.
Qed.

(** ** From initialisation to the end of a burst *)

Section Burst.
Context {F : FlexioDev} `{!FlexioDevLaws F}.
Variables (log_cq log_rq log_sq : Z).
Hypothesis Hcq : 0 <= log_cq <= 31.
Hypothesis Hsq : 0 <= log_sq <= 30.

(** Freshly initialised queues: nothing consumed, nothing sent. *)
Record fresh_queues (shared : queue_config_data) (pi : Z) (q : dev_queues) (w : World F) : Prop :=
  MkFresh {
  fq_init : is_initalized q = 1;
  fq_cq : cq_rep log_cq 0 [] (rqcq_ctx q) w;
  fq_sq : sq_rep log_sq 0 (wqd_mkey_id (sq_data shared)) (sq_ctx q) w;
  fq_pi : sq_pi (sq_ctx q) = pi;
  fq_ring : cq_ring (rqcq_ctx q) = cq_ring_daddr (rq_cq_data shared);
  fq_sqring : sq_ring (sq_ctx q) = wq_ring_daddr (sq_data shared);
}.

(** The host prepared the completion ring: every entry carries owner bit 1. *)
Definition cq_prepared (shared : queue_config_data) (w : World F) : Prop :=
  forall i, 0 <= i < 2 ^ log_cq ->
    flexio_dev_cqe_get_owner (cqe_at w (cq_ring_daddr (rq_cq_data shared), i)) = 1.

Lemma init_queues_fresh shared q w q1 w1 :
  cq_prepared shared w -> init_queues log_cq log_rq log_sq shared q w = (q1, w1) ->
  fresh_queues shared (sq_pi (sq_ctx q)) q1 w1 /\ w1 = set_sq (w_sq w1) w.
Proof.
  intros H E. unfold init_queues in E.
  destruct (init_send_sq _ _ _ _) as [sq w'] eqn:Es. injection E as <- <-.
  apply sq_rep_init in Es as (R & Hpi & _ & Hr & Hw); [|done].
  split; [|done]. split; try done. eapply cq_rep_frame; [|by apply cq_rep_init]. by rewrite Hw.
Qed.

Section ServeBurst.
Context {X D : Type} `{!HasQueues D}.
Variable f : X -> mem -> Z -> Z -> X * mem * Z.
Variables (finish : sq_ctx_t -> World F -> sq_ctx_t * World F) (wb : list event)
  (ext : D -> X) (body : D -> World F -> D * World F) (P : D -> Prop).
Hypothesis Hfin : is_finish wb finish.
Hypothesis body_serves : forall d w, P d ->
  P (fst (body d w)) /\
  (ext (fst (body d w)), dq (fst (body d w)), snd (body d w)) =
  (let '(x, q, w) := serve_packet f finish (ext d) (dq d) w in
   let '(q, w) := step_queues q w in (x, q, w)).

(** What a handler reaches after a burst [es]: the state and memory of answering
    the packets in order, one posted buffer per packet, the expected library
    calls, and an empty queue. *)
Definition burst_served (shared : queue_config_data) (es : list cqe64) (d1 : D) (w1 : World F)
    (d2 : D) (w2 : World F) : Prop :=
  let addr := pkt_addr (rq_ctx (dq d1)) (w_rq w1) in
  exists posts,
    serve_all f addr es (ext d1) (w_mem w1) = (ext d2, w_mem w2, posts) /\
    (forall k a sz, posts !! k = Some (a, sz) ->
       posted w2 (wq_ring_daddr (sq_data shared), 4 * Z.of_nat k + 2) a sz
         (wqd_mkey_id (sq_data shared))) /\
    w_trace w2 = w_trace w1 ++
      burst_events wb (dq d1) (sq_pi (sq_ctx (dq d1))) 0 (length es) /\
    cqe_ready (rqcq_ctx (dq d2)) w2 = false.

Lemma serve_burst fuel shared pi es d w :
  fresh_queues shared pi (dq d) w -> 0 <= pi < 2 ^ 32 -> P d ->
  (length es <= fuel)%nat -> Z.of_nat (length es) <= 2 ^ log_cq ->
  Z.of_nat (length es) <= 2 ^ log_sq ->
  (forall e, e ∈ es -> flexio_dev_cqe_get_owner e = 0) ->
  exists d2 w2,
    poll (fun d => rqcq_ctx (dq d)) body fuel
      [nic_burst log_cq (cq_ring_daddr (rq_cq_data shared)) 0 es] d w = Some (d2, w2) /\
    P d2 /\ burst_served shared es d w d2 w2.
Proof.
  intros [Hin Rc Rs Hpi Hr Hsr] Hp HP Hf Hl1 Hl2 Ho.
  set (wn := nic_burst log_cq (cq_ring_daddr (rq_cq_data shared)) 0 es w).
  destruct (nic_burst_frame log_cq (cq_ring_daddr (rq_cq_data shared)) 0 es w)
    as (Nm & Nr & Ns & Nt & _). fold wn in Nm, Nr, Ns, Nt.
  assert (cq_rep log_cq 0 es (rqcq_ctx (dq d)) wn) as Rn.
  { unfold wn. rewrite <- Hr.
    refine (cq_rep_burst log_cq _ 0 [] es (rqcq_ctx (dq d)) w _ _ Rc); [lia|cbn; lia|].
    intros i e Hi. pose proof (lookup_lt_Some _ _ _ Hi). cbn [length].
    rewrite Z.div_small by lia. apply Ho, list_elem_of_lookup. eauto. }
  assert (sq_rep log_sq 0 (wqd_mkey_id (sq_data shared)) (sq_ctx (dq d)) wn) as Rsn
    by (by eapply sq_rep_frame; [|exact Rs]).
  destruct (serve_drain f log_cq log_sq Hcq Hsq finish wb (ext d) (dq d) wn 0 0
    (wqd_mkey_id (sq_data shared)) es Hfin Hl2 ext body P body_serves fuel d Hf HP eq_refl eq_refl
    Rn Rsn ltac:(by rewrite Hpi)) as (d2 & w2 & E & HP2 & HI).
  destruct HI as [_ Cq _ _ _ _ (posts & Es & Hps) Ht].
  exists d2, w2. cbn [poll]. fold wn. rewrite E. split; [done|]. split; [done|].
  rewrite Nr, Nm in Es. rewrite Nt in Ht. exists posts. split; [done|]. split; [|split; [done|]].
  - intros k a sz Hk. specialize (Hps k a sz Hk). unfold data_slot in Hps.
    pose proof (lookup_lt_Some _ _ _ Hk). pose proof (serve_all_length _ _ _ _ _ _ _ _ Es).
    rewrite Z.add_0_l, Z.mod_small, Hsr in Hps by lia. done.
  - by rewrite (cq_rep_ready _ Hcq _ _ _ _ Cq).
Qed.
End ServeBurst.
End Burst.

(** ** Reflectors as servers *)

Section ReflectServe.
Context {F : FlexioDev}.

(** A reflector keeps no state, swaps the addresses and answers with the
    packet's own length. *)
Definition reflect_fn (to_dpa : Z -> Z) (x : unit) (m : mem) (a sz : Z) : unit * mem * Z :=
  (x, swap_mac m (to_dpa a), sz).

Lemma serve_reflect to_dpa finish q (w : World F) :
  serve_packet (reflect_fn to_dpa) finish tt q w =
  (let '(q, w) := reflect_packet to_dpa finish q w in (tt, q, w)).
Proof.
  unfold serve_packet, reflect_packet, reflect_fn. by destruct (receive_packet _ _ _).
Qed.

Lemma serve_all_reflect to_dpa addr es m :
  serve_all (reflect_fn to_dpa) addr es tt m =
  (tt, swap_all (fun e => to_dpa (addr e)) es m,
   map (fun e => (addr e, flexio_dev_cqe_get_byte_cnt e)) es).
Proof.
  revert m. induction es as [|e es IH]; intros m; cbn; [done|]. by rewrite IH.
Qed.
End ReflectServe.
