(* ===== verification/SmallBankCommon.v ===== *)
(** * SmallBankCommon: the messages of the SmallBank RPC protocol

    Translation of [flexio/dpa_small_bank/common/dpa_small_bank_common.h].  A
    message is a C structure laid over packet memory; [read_*] gives the value of
    its fields and [write_*] stores them, at the offsets of the 64-bit RISC-V
    layout (padding bytes keep what memory held). *)

From S2P Require Import Prelude Machine PacketHdr.

Definition LOG_SQ_RING_DEPTH : Z := 7.
Definition LOG_RQ_RING_DEPTH : Z := 7.
Definition LOG_CQ_RING_DEPTH : Z := 7.
Definition LOG_WQ_DATA_ENTRY_BSIZE : Z := 10.
Definition NUM_ACCOUNTS : Z := 1000000.
Definition NUM_SCALE : Z := 1.

Definition CLIENT_ADDR : list Z := [0x02; 0x01; 0x01; 0x01; 0x01; 0x01].
Definition SERVER_ADDR : list Z := [0x01; 0x01; 0x01; 0x01; 0x01; 0x01].

Definition RPC_PING : Z := 0.
Definition RPC_GET_DATA : Z := 1.
Definition RPC_GET_LOCK : Z := 2.
Definition RPC_FINISH : Z := 3.

Definition NO_LOCK : Z := 0.
Definition READ_LOCK : Z := 1.
Definition WRITE_LOCK : Z := 2.

Definition Amalgamate : Z := 0.
Definition Balance : Z := 1.
Definition DepositChecking : Z := 2.
Definition SendPayment : Z := 3.
Definition TransactSavings : Z := 4.
Definition WriteCheck : Z := 5.

(** ** Ping *)

Record PingRPCReq := { pq_type : Z; pq_req_number : Z; pq_timestamp : Z }.
Record PingRPCResp := { pr_type : Z; pr_req_number : Z; pr_status : Z; pr_timestamp : Z }.

Definition sizeof_PingRPCReq : Z := 16.
Definition sizeof_PingRPCResp : Z := 24.

Definition read_PingRPCReq (m : mem) (a : Z) : PingRPCReq :=
  {| pq_type := rd8 m a; pq_req_number := ld32 m (a + 4); pq_timestamp := ld64 m (a + 8) |}.
Definition write_PingRPCResp (m : mem) (a : Z) (r : PingRPCResp) : mem :=
  let m := st8 m a (pr_type r) in
  let m := st32 m (a + 4) (pr_req_number r) in
  let m := st32 m (a + 8) (pr_status r) in
  st64 m (a + 16) (pr_timestamp r).

(** ** Get data *)

Record GetDataReq := {
  dq_type : Z; dq_req_number : Z; dq_user1_id : Z; dq_user2_id : Z;
  get_user1_checking : Z; get_user1_saving : Z; get_user2_checking : Z; get_user2_saving : Z;
}.
Record GetDataResp := {
  dr_type : Z; dr_req_number : Z; dr_status : Z;
  dr_user1_checking : Z; dr_user1_saving : Z; dr_user2_checking : Z; dr_user2_saving : Z;
}.

Definition sizeof_GetDataReq : Z := 32.
Definition sizeof_GetDataResp : Z := 48.

Definition read_GetDataReq (m : mem) (a : Z) : GetDataReq :=
  {| dq_type := rd8 m a; dq_req_number := ld32 m (a + 4);
     dq_user1_id := ld64 m (a + 8); dq_user2_id := ld64 m (a + 16);
     get_user1_checking := rd8 m (a + 24); get_user1_saving := rd8 m (a + 25);
     get_user2_checking := rd8 m (a + 26); get_user2_saving := rd8 m (a + 27) |}.
Definition write_GetDataReq (m : mem) (a : Z) (r : GetDataReq) : mem :=
  let m := st8 m a (dq_type r) in
  let m := st32 m (a + 4) (dq_req_number r) in
  let m := st64 m (a + 8) (dq_user1_id r) in
  let m := st64 m (a + 16) (dq_user2_id r) in
  let m := st8 m (a + 24) (get_user1_checking r) in
  let m := st8 m (a + 25) (get_user1_saving r) in
  let m := st8 m (a + 26) (get_user2_checking r) in
  st8 m (a + 27) (get_user2_saving r).
Definition read_GetDataResp (m : mem) (a : Z) : GetDataResp :=
  {| dr_type := rd8 m a; dr_req_number := ld32 m (a + 4); dr_status := s32 (ld32 m (a + 8));
     dr_user1_checking := ld64 m (a + 16); dr_user1_saving := ld64 m (a + 24);
     dr_user2_checking := ld64 m (a + 32); dr_user2_saving := ld64 m (a + 40) |}.
Definition write_GetDataResp (m : mem) (a : Z) (r : GetDataResp) : mem :=
  let m := st8 m a (dr_type r) in
  let m := st32 m (a + 4) (dr_req_number r) in
  let m := st32 m (a + 8) (dr_status r) in
  let m := st64 m (a + 16) (dr_user1_checking r) in
  let m := st64 m (a + 24) (dr_user1_saving r) in
  let m := st64 m (a + 32) (dr_user2_checking r) in
  st64 m (a + 40) (dr_user2_saving r).

(** ** Get lock *)

Record GetLockReq := {
  lq_type : Z; lq_req_number : Z; lq_user1_id : Z; lq_user2_id : Z;
  lock_user1_checking : Z; lock_user1_saving : Z; lock_user2_checking : Z; lock_user2_saving : Z;
}.
Record GetLockResp := { lr_type : Z; lr_req_number : Z; lr_status : Z; lr_success : Z }.

Definition sizeof_GetLockReq : Z := 32.
Definition sizeof_GetLockResp : Z := 16.

Definition read_GetLockReq (m : mem) (a : Z) : GetLockReq :=
  {| lq_type := rd8 m a; lq_req_number := ld32 m (a + 4);
     lq_user1_id := ld64 m (a + 8); lq_user2_id := ld64 m (a + 16);
     lock_user1_checking := rd8 m (a + 24); lock_user1_saving := rd8 m (a + 25);
     lock_user2_checking := rd8 m (a + 26); lock_user2_saving := rd8 m (a + 27) |}.
Definition write_GetLockReq (m : mem) (a : Z) (r : GetLockReq) : mem :=
  let m := st8 m a (lq_type r) in
  let m := st32 m (a + 4) (lq_req_number r) in
  let m := st64 m (a + 8) (lq_user1_id r) in
  let m := st64 m (a + 16) (lq_user2_id r) in
  let m := st8 m (a + 24) (lock_user1_checking r) in
  let m := st8 m (a + 25) (lock_user1_saving r) in
  let m := st8 m (a + 26) (lock_user2_checking r) in
  st8 m (a + 27) (lock_user2_saving r).
Definition read_GetLockResp (m : mem) (a : Z) : GetLockResp :=
  {| lr_type := rd8 m a; lr_req_number := ld32 m (a + 4); lr_status := s32 (ld32 m (a + 8));
     lr_success := rd8 m (a + 12) |}.
Definition write_GetLockResp (m : mem) (a : Z) (r : GetLockResp) : mem :=
  let m := st8 m a (lr_type r) in
  let m := st32 m (a + 4) (lr_req_number r) in
  let m := st32 m (a + 8) (lr_status r) in
  st8 m (a + 12) (lr_success r).

(** ** Finish *)

Record FinishReq := {
  fq_type : Z; fq_req_number : Z; fq_user1_id : Z; fq_user2_id : Z;
  fq_user1_checking : Z; fq_user1_saving : Z; fq_user2_checking : Z; fq_user2_saving : Z;
  changed_user1_checking : Z; changed_user1_saving : Z;
  changed_user2_checking : Z; changed_user2_saving : Z;
  unlock_user1_checking : Z; unlock_user1_saving : Z;
  unlock_user2_checking : Z; unlock_user2_saving : Z;
}.
Record FinishResp := { fr_type : Z; fr_req_number : Z; fr_status : Z; fr_success : Z }.

Definition sizeof_FinishReq : Z := 64.
Definition sizeof_FinishResp : Z := 16.

Definition read_FinishReq (m : mem) (a : Z) : FinishReq :=
  {| fq_type := rd8 m a; fq_req_number := ld32 m (a + 4);
     fq_user1_id := ld64 m (a + 8); fq_user2_id := ld64 m (a + 16);
     fq_user1_checking := ld64 m (a + 24); fq_user1_saving := ld64 m (a + 32);
     fq_user2_checking := ld64 m (a + 40); fq_user2_saving := ld64 m (a + 48);
     changed_user1_checking := rd8 m (a + 56); changed_user1_saving := rd8 m (a + 57);
     changed_user2_checking := rd8 m (a + 58); changed_user2_saving := rd8 m (a + 59);
     unlock_user1_checking := rd8 m (a + 60); unlock_user1_saving := rd8 m (a + 61);
     unlock_user2_checking := rd8 m (a + 62); unlock_user2_saving := rd8 m (a + 63) |}.
Definition read_FinishResp (m : mem) (a : Z) : FinishResp :=
  {| fr_type := rd8 m a; fr_req_number := ld32 m (a + 4); fr_status := s32 (ld32 m (a + 8));
     fr_success := rd8 m (a + 12) |}.
Definition write_FinishResp (m : mem) (a : Z) (r : FinishResp) : mem :=
  let m := st8 m a (fr_type r) in
  let m := st32 m (a + 4) (fr_req_number r) in
  let m := st32 m (a + 8) (fr_status r) in
  st8 m (a + 12) (fr_success r).

(** ** Round trips *)

(** A lock request in the ranges of its C fields. *)
Definition wf_GetLockReq (r : GetLockReq) : Prop :=
  0 <= lq_type r < 2 ^ 8 /\ 0 <= lq_req_number r < 2 ^ 32 /\
  0 <= lq_user1_id r < 2 ^ 64 /\ 0 <= lq_user2_id r < 2 ^ 64 /\
  0 <= lock_user1_checking r < 2 ^ 8 /\ 0 <= lock_user1_saving r < 2 ^ 8 /\
  0 <= lock_user2_checking r < 2 ^ 8 /\ 0 <= lock_user2_saving r < 2 ^ 8.

Definition wf_GetDataReq (r : GetDataReq) : Prop :=
  0 <= dq_type r < 2 ^ 8 /\ 0 <= dq_req_number r < 2 ^ 32 /\
  0 <= dq_user1_id r < 2 ^ 64 /\ 0 <= dq_user2_id r < 2 ^ 64 /\
  0 <= get_user1_checking r < 2 ^ 8 /\ 0 <= get_user1_saving r < 2 ^ 8 /\
  0 <= get_user2_checking r < 2 ^ 8 /\ 0 <= get_user2_saving r < 2 ^ 8.

Lemma read_write_GetLockReq m a r :
  wf_GetLockReq r -> read_GetLockReq (write_GetLockReq m a r) a = r.
Proof.
  intros H. destruct r. unfold wf_GetLockReq in H. cbn in H. destruct_and! H.
  unfold read_GetLockReq, write_GetLockReq. cbn. f_equal; msg_field.
Qed.

Lemma read_write_GetDataReq m a r :
  wf_GetDataReq r -> read_GetDataReq (write_GetDataReq m a r) a = r.
Proof.
  intros H. destruct r. unfold wf_GetDataReq in H. cbn in H. destruct_and! H.
  unfold read_GetDataReq, write_GetDataReq. cbn. f_equal; msg_field.
Qed.
