(* ===== verification/SmallBankServer.v ===== *)
(** * SmallBankServer: the SmallBank transaction server on the DPA

    Translation of [flexio/dpa_small_bank/device/dpa_small_bank_server_device.c].
    The account tables are two arrays of 32-byte structures laid one after the
    other in a buffer the host allocated; an access computes an address, so that
    an identifier outside a table reaches whatever lies there.  Spin locks
    belong to the FlexIO library and enter as the class [SpinLock].

    [dev_ctx->thread], which the FINISH case reads, is not a member of the
    structure the file declares: it is the argument [thread] here. *)

From S2P Require Import Prelude Machine FlexioDev WrapperDevice DevCommon RingProtocol Reflector.
From S2P Require Import PacketLoop SmallBankCommon.

(** ** Spin locks *)

Class SpinLock := {
  spinlock_s : Type;
  spinlock_zero : spinlock_s;
  spin_init : spinlock_s -> spinlock_s;
  spin_trylock : spinlock_s -> Z * spinlock_s;
  spin_unlock : spinlock_s -> spinlock_s;
  spin_held : spinlock_s -> bool;
}.

(** [spin_trylock] returns zero when it takes the lock, and leaves the lock
    taken either way. *)
Class SpinLockLaws (S : SpinLock) : Prop := {
  held_init l : spin_held (spin_init l) = false;
  trylock_free l : spin_held l = false -> fst (spin_trylock l) = 0;
  trylock_held l : spin_held l = true -> 0 < fst (spin_trylock l) < 2 ^ 32;
  held_trylock l : spin_held (snd (spin_trylock l)) = true;
  held_unlock l : spin_held (spin_unlock l) = false;
}.

(** A lock word exchanged atomically with 1. *)
Definition ref_spinlock : SpinLock := {|
  spinlock_s := Z;
  spinlock_zero := 0;
  spin_init _ := 0;
  spin_trylock l := (c_bool (truthy l), 1);
  spin_unlock _ := 0;
  spin_held l := truthy l;
|}.

#[export] Instance ref_spinlock_laws : SpinLockLaws ref_spinlock.
Proof. split; cbn; try done; intros l ->; done. Qed.

Section Server.
Context {SL : SpinLock}.

(** ** The account tables *)

Record account := MkAccount { custom_id : Z; balance : Z; mutex : spinlock_s }.

Definition Savings : Type := account.
Definition Checking : Type := account.
Definition sizeof_account : Z := 32.

Record bank := MkBank {
  savings_global : Z;
  checking_global : Z;
  accounts : gmap Z account;
}.

Definition account_zero : account := MkAccount 0 0 spinlock_zero.
Definition account_at (b : bank) (p : Z) : account := default account_zero (accounts b !! p).
Definition upd_account (p : Z) (g : account -> account) (b : bank) : bank :=
  MkBank (savings_global b) (checking_global b) (<[p := g (account_at b p)]> (accounts b)).

Definition set_balance (v : Z) (a : account) : account := MkAccount (custom_id a) v (mutex a).
Definition set_mutex (l : spinlock_s) (a : account) : account :=
  MkAccount (custom_id a) (balance a) l.

(** [&savings_global[id * NUM_SCALE]] and [&checking_global[id * NUM_SCALE]]. *)
Definition savings_ptr (b : bank) (id : Z) : Z :=
  u64 (savings_global b + sizeof_account * u64 (id * NUM_SCALE)).
Definition checking_ptr (b : bank) (id : Z) : Z :=
  u64 (checking_global b + sizeof_account * u64 (id * NUM_SCALE)).

Definition SIZE_MAX : Z := 2 ^ 64 - 1.

(** One turn of the initialisation loops, for the table given by [ptr]. *)
Definition init_account (i : Z) (a : account) : account :=
  MkAccount i (SIZE_MAX / 2) (spin_init (mutex a)).

Fixpoint init_accounts_loop (ptr : bank -> Z -> Z) (n : nat) (i : Z) (b : bank) : bank :=
  match n with
  | O => b
  | S n => init_accounts_loop ptr n (i + 1) (upd_account (ptr b i) (init_account i) b)
  end.

Definition init_saving_and_checking (global_addr_ptr : Z) (b : bank) : bank :=
  let b := MkBank global_addr_ptr (checking_global b) (accounts b) in
  let b := init_accounts_loop savings_ptr (Z.to_nat NUM_ACCOUNTS) 0 b in
  let b := MkBank (savings_global b)
             (u64 (savings_global b + sizeof_account * NUM_ACCOUNTS)) (accounts b) in
  init_accounts_loop checking_ptr (Z.to_nat NUM_ACCOUNTS) 0 b.

(** ** The request handlers

    Each takes the fields of the request and returns the fields of the reply;
    [junk] stands for the reply fields the code leaves uninitialised. *)

Definition serve_ping (junk : Z) (req : PingRPCReq) : PingRPCResp :=
  {| pr_type := RPC_PING; pr_req_number := pq_req_number req; pr_status := 0;
     pr_timestamp := junk |}.

Definition serve_get_data (junk : GetDataResp) (req : GetDataReq) (b : bank) : GetDataResp :=
  let user1_id := dq_user1_id req in
  let user2_id := dq_user2_id req in
  {| dr_type := RPC_GET_DATA;
     dr_req_number := dq_req_number req;
     dr_status := 0;
     dr_user1_checking := if truthy (get_user1_checking req)
       then balance (account_at b (checking_ptr b user1_id)) else dr_user1_checking junk;
     dr_user1_saving := if truthy (get_user1_saving req)
       then balance (account_at b (savings_ptr b user1_id)) else dr_user1_saving junk;
     dr_user2_checking := if truthy (get_user2_checking req)
       then balance (account_at b (checking_ptr b user2_id)) else dr_user2_checking junk;
     dr_user2_saving := if truthy (get_user2_saving req)
       then balance (account_at b (savings_ptr b user2_id)) else dr_user2_saving junk |}.

(** One of the four [if (!lock_failed && req->lock_...)] blocks: the state is
    [lock_flag], [lock_failed] and the tables. *)
Definition try_lock (want p bit : Z) (s : Z * bool * bank) : Z * bool * bank :=
  let '(lock_flag, lock_failed, b) := s in
  if negb lock_failed && truthy want then
    let '(r, l) := spin_trylock (mutex (account_at b p)) in
    let b := upd_account p (set_mutex l) b in
    let lock_flag := u32 r in
    if negb (lock_flag =? 0) then (lock_flag, true, b)
    else (u32 (lock_flag + Z.shiftl 1 bit), false, b)
  else s.

Definition unlock (p : Z) (b : bank) : bank :=
  upd_account p (fun a => set_mutex (spin_unlock (mutex a)) a) b.

(** [if (cond) spin_unlock(...)] *)
Definition unlock_if (cond : Z) (p : Z) (b : bank) : bank :=
  if truthy cond then unlock p b else b.

Definition serve_get_lock (req : GetLockReq) (b : bank) : GetLockResp * bool * bank :=
  let user1_id := lq_user1_id req in
  let user2_id := lq_user2_id req in
  let s := (0, false, b) in
  let s := try_lock (lock_user1_checking req) (checking_ptr b user1_id) 0 s in
  let s := try_lock (lock_user1_saving req) (savings_ptr b user1_id) 1 s in
  let s := try_lock (lock_user2_checking req) (checking_ptr b user2_id) 2 s in
  let '(lock_flag, lock_failed, b) :=
    try_lock (lock_user2_saving req) (savings_ptr b user2_id) 3 s in
  let b :=
    if lock_failed then
      let b := unlock_if (Z.land lock_flag (Z.shiftl 1 0)) (checking_ptr b user1_id) b in
      let b := unlock_if (Z.land lock_flag (Z.shiftl 1 1)) (savings_ptr b user1_id) b in
      let b := unlock_if (Z.land lock_flag (Z.shiftl 1 2)) (checking_ptr b user2_id) b in
      unlock_if (Z.land lock_flag (Z.shiftl 1 3)) (savings_ptr b user2_id) b
    else b in
  ({| lr_type := RPC_GET_LOCK; lr_req_number := lq_req_number req; lr_status := 0;
      lr_success := c_bool (negb lock_failed) |}, lock_failed, b).

(** [if (cond) ...balance = v] *)
Definition store_if (cond v p : Z) (b : bank) : bank :=
  if truthy cond then upd_account p (set_balance v) b else b.

(** The store of [user2_saving] is commented out in the source. *)
Definition serve_finish (req : FinishReq) (b : bank) : FinishResp * bank :=
  let user1_id := fq_user1_id req in
  let user2_id := fq_user2_id req in
  let b := store_if (changed_user1_checking req) (fq_user1_checking req)
             (checking_ptr b user1_id) b in
  let b := store_if (changed_user1_saving req) (fq_user1_saving req) (savings_ptr b user1_id) b in
  let b := store_if (changed_user2_checking req) (fq_user2_checking req)
             (checking_ptr b user2_id) b in
  let b := unlock_if (unlock_user1_checking req) (checking_ptr b user1_id) b in
  let b := unlock_if (unlock_user1_saving req) (savings_ptr b user1_id) b in
  let b := unlock_if (unlock_user2_checking req) (checking_ptr b user2_id) b in
  let b := unlock_if (unlock_user2_saving req) (savings_ptr b user2_id) b in
  ({| fr_type := RPC_FINISH; fr_req_number := fq_req_number req; fr_status := 0;
      fr_success := 1 |}, b).

(** ** The packet handler *)

Definition MAX_THREADS : Z := 190.

(** [struct device_context] *)
Record server_context := MkServer {
  sv_q : dev_queues;
  finish_count : Z;
  abort_count : Z;
}.

Definition zero_server : server_context := MkServer zero_queues 0 0.

(** The globals of the program. *)
Record server := MkProgram {
  dev_ctxs : list server_context;
  tables : bank;
}.

Definition server_zero : server :=
  MkProgram (replicate (Z.to_nat MAX_THREADS) zero_server) (MkBank 0 0 ∅).

(** [junk_timestamp] and [junk_data] are what the stack holds where [process_packet] leaves
    fields of its replies unset.  One value stands for all the packets of a run; no theorem
    depends on it. *)
Section Packet.
Variables (thread junk_timestamp : Z) (junk_data : GetDataResp).

(** What [process_packet] changes besides the queues. *)
Definition server_state : Type := Z * Z * bank.

(** The FINISH case resets both counters when a report is due. *)
Definition count_finish (fc ac : Z) : Z * Z :=
  let fc := u32 (fc + 1) in
  if (fc =? 1000000) && truthy thread then (0, 0) else (fc, ac).

(** From the swap of the addresses to the end of the [switch]: the new state,
    the memory with the reply, and the length to send. *)
Definition serve_request (x : server_state) (m : mem) (sq_data data_sz : Z)
    : server_state * mem * Z :=
  let '(fc, ac, b) := x in
  let m := swap_mac m sq_data in
  let p := sq_data + 14 in
  let type := rd8 m p in
  if type =? RPC_PING then
    let resp := serve_ping junk_timestamp (read_PingRPCReq m p) in
    ((fc, ac, b), write_PingRPCResp m p resp, 14 + sizeof_PingRPCResp)
  else if type =? RPC_GET_DATA then
    let resp := serve_get_data junk_data (read_GetDataReq m p) b in
    ((fc, ac, b), write_GetDataResp m p resp, 14 + sizeof_GetDataResp)
  else if type =? RPC_GET_LOCK then
    let '(resp, lock_failed, b) := serve_get_lock (read_GetLockReq m p) b in
    let ac := if lock_failed then u32 (ac + 1) else ac in
    ((fc, ac, b), write_GetLockResp m p resp, 14 + sizeof_GetLockResp)
  else if type =? RPC_FINISH then
    let '(resp, b) := serve_finish (read_FinishReq m p) b in
    let '(fc, ac) := count_finish fc ac in
    ((fc, ac, b), write_FinishResp m p resp, 14 + sizeof_FinishResp)
  else ((fc, ac, b), m, data_sz).

Context {F : FlexioDev}.

Definition process_packet (s : server_context * bank) (w : World F)
    : (server_context * bank) * World F :=
  let '(c, b) := s in
  let '(rq_data, data_sz) := receive_packet (rqcq_ctx (sv_q c)) (rq_ctx (sv_q c)) w in
  let '((fc, ac, b), m, data_sz) :=
    serve_request (finish_count c, abort_count c, b) (w_mem w) rq_data data_sz in
  let w := set_mem m w in
  let '(sq, w) := prepare_send_packet (sq_ctx (sv_q c)) rq_data data_sz w in
  let '(sq, w) := finish_send_packet sq w in
  ((MkServer (set_sq_ctx sq (sv_q c)) fc ac, b), w).

Definition server_turn (s : server_context * bank) (w : World F)
    : (server_context * bank) * World F :=
  let '((c, b), w) := process_packet s w in
  let w := step_rq (rq_ctx (sv_q c)) w in
  let '(cq, w) := step_cq (rqcq_ctx (sv_q c)) w in
  ((MkServer (set_rqcq cq (sv_q c)) (finish_count c) (abort_count c), b), w).

(** After the loop, which a null thread context alone ends, the handler returns. *)
Definition dpa_small_bank_server_device_event_handler (fuel : nat)
    (env : list (World F -> World F)) (index : Z) (s : server) (w : World F)
    : handler_result server :=
  match dev_ctxs s !! Z.to_nat index with
  | None => OutOfBounds
  | Some c =>
      let dtctx := snd flexio_dev_get_thread_ctx in
      if is_initalized (sv_q c) =? 0 then Rescheduled s w
      else if dtctx =? 0 then Returned s w
      else
        match poll (fun s => rqcq_ctx (sv_q (fst s))) server_turn fuel env (c, tables s) w with
        | Some ((c, b), w) => Polling (MkProgram (<[Z.to_nat index := c]> (dev_ctxs s)) b) w
        | None => NoFuel
        end
  end.

End Packet.

(** ** Initialisation *)

Section Init.
Context {F : FlexioDev}.

Definition init_cq : app_transfer_cq -> cq_ctx_t := init_cq_with LOG_CQ_RING_DEPTH.
Definition init_rq : app_transfer_wq -> rq_ctx_t := init_rq_with LOG_RQ_RING_DEPTH.
Definition init_sq : app_transfer_wq -> sq_ctx_t -> sq_ctx_t := init_sq_with LOG_SQ_RING_DEPTH.

Definition dpa_small_bank_server_device_init (shared_data : queue_config_data) (s : server)
    (w : World F) : Z * server * World F :=
  if negb (thread_index shared_data <? MAX_THREADS) then (assert_failed, s, w)
  else
    let b := if thread_index shared_data =? 0
             then init_saving_and_checking (new_buffer_addr shared_data) (tables s)
             else tables s in
    let i := Z.to_nat (thread_index shared_data) in
    let c := default zero_server (dev_ctxs s !! i) in
    let lk := wqd_mkey_id (sq_data shared_data) in
    let rqcq := init_cq (rq_cq_data shared_data) in
    let rq := init_rq (rq_data shared_data) in
    let sqcq := init_cq (sq_cq_data shared_data) in
    let sq := init_sq (sq_data shared_data) (sq_ctx (sv_q c)) in
    let '(sq, w) := init_send_sq sq (LOG2VALUE LOG_SQ_RING_DEPTH) lk w in
    let dt := MkDt (wqd_daddr (sq_data shared_data)) 0 (Z.shiftl 1 LOG_SQ_RING_DEPTH - 1) in
    let c := MkServer (MkQueues lk 1 rqcq sqcq rq sq dt) (finish_count c) (abort_count c) in
    (0, MkProgram (<[i := c]> (dev_ctxs s)) b, w).

End Init.

(** ** Lemmas on the tables *)

Definition held (b : bank) (p : Z) : bool := spin_held (mutex (account_at b p)).
Definition bal (b : bank) (p : Z) : Z := balance (account_at b p).

Lemma account_at_upd p g b q :
  account_at (upd_account p g b) q = if decide (p = q) then g (account_at b q) else account_at b q.
Proof.
  unfold account_at, upd_account. cbn. case_decide as E.
  - subst. by rewrite lookup_insert_eq.
  - by rewrite lookup_insert_ne.
Qed.

Lemma bal_set_mutex p g b q :
  bal (upd_account p (fun a => set_mutex (g a) a) b) q = bal b q.
Proof. unfold bal. rewrite account_at_upd. by case_decide. Qed.

Lemma bal_unlock_if c p b q : bal (unlock_if c p b) q = bal b q.
Proof. unfold unlock_if, unlock. destruct (truthy c); [apply bal_set_mutex|done]. Qed.

Lemma held_set_balance p v b q : held (upd_account p (set_balance v) b) q = held b q.
Proof. unfold held. rewrite account_at_upd. by case_decide. Qed.

Lemma held_store_if c v p b q : held (store_if c v p b) q = held b q.
Proof. unfold store_if. destruct (truthy c); [apply held_set_balance|done]. Qed.

Lemma bal_store_if c v p b q :
  bal (store_if c v p b) q = if truthy c && bool_decide (p = q) then v else bal b q.
Proof.
  unfold store_if, bal. destruct (truthy c); [|done]. rewrite account_at_upd.
  cbn. by repeat case_decide; case_bool_decide.
Qed.

(** The tables do not move. *)
Lemma checking_ptr_store_if c v p b id : checking_ptr (store_if c v p b) id = checking_ptr b id.
Proof. unfold store_if. by destruct (truthy c). Qed.
Lemma savings_ptr_store_if c v p b id : savings_ptr (store_if c v p b) id = savings_ptr b id.
Proof. unfold store_if. by destruct (truthy c). Qed.
Lemma checking_ptr_unlock_if c p b id : checking_ptr (unlock_if c p b) id = checking_ptr b id.
Proof. unfold unlock_if. by destruct (truthy c). Qed.
Lemma savings_ptr_unlock_if c p b id : savings_ptr (unlock_if c p b) id = savings_ptr b id.
Proof. unfold unlock_if. by destruct (truthy c). Qed.

Create HintDb bank.
#[local] Hint Rewrite checking_ptr_store_if savings_ptr_store_if checking_ptr_unlock_if
  savings_ptr_unlock_if : bank.

Section Laws.
Context `{!SpinLockLaws SL}.

Lemma held_unlock_if c p b q :
  held (unlock_if c p b) q = held b q && negb (truthy c && bool_decide (p = q)).
Proof.
  unfold unlock_if, unlock, held. destruct (truthy c); cbn; [|by rewrite andb_true_r].
  rewrite account_at_upd. case_decide as E; case_bool_decide; try done; cbn.
  - by rewrite held_unlock, andb_false_r.
  - by rewrite andb_true_r.
Qed.

(** ** Taking a list of locks

    [try_all] is the reference for the four blocks: it tries the pointers of a
    list in order, each with the bit of its block. *)
Definition take (p : Z) (b : bank) : bank :=
  upd_account p (set_mutex (snd (spin_trylock (mutex (account_at b p))))) b.

Fixpoint try_all (l : list (Z * Z)) (s : Z * bool * bank) : Z * bool * bank :=
  match l with
  | [] => s
  | (p, bit) :: l => try_all l (try_lock 1 p bit s)
  end.

(** The pointers a request asks for, in the order of the blocks. *)
Definition requested (b : bank) (req : GetLockReq) : list (Z * Z) :=
  let want c p bit := if truthy c then [(p, bit)] else [] in
  want (lock_user1_checking req) (checking_ptr b (lq_user1_id req)) 0 ++
  want (lock_user1_saving req) (savings_ptr b (lq_user1_id req)) 1 ++
  want (lock_user2_checking req) (checking_ptr b (lq_user2_id req)) 2 ++
  want (lock_user2_saving req) (savings_ptr b (lq_user2_id req)) 3.

Lemma try_all_app l1 l2 s : try_all (l1 ++ l2) s = try_all l2 (try_all l1 s).
Proof. revert s. induction l1 as [|[p bit] l1 IH]; intros s; cbn; [done|]. apply IH. Qed.

Lemma try_lock_want c p bit s :
  try_lock c p bit s = try_all (if truthy c then [(p, bit)] else []) s.
Proof.
  destruct s as [[fl fd] b]. unfold try_lock. destruct (truthy c) eqn:E; cbn -[spin_trylock].
  - done.
  - by rewrite andb_false_r.
Qed.

Lemma try_blocks req b s :
  try_lock (lock_user2_saving req) (savings_ptr b (lq_user2_id req)) 3
    (try_lock (lock_user2_checking req) (checking_ptr b (lq_user2_id req)) 2
       (try_lock (lock_user1_saving req) (savings_ptr b (lq_user1_id req)) 1
          (try_lock (lock_user1_checking req) (checking_ptr b (lq_user1_id req)) 0 s))) =
  try_all (requested b req) s.
Proof. unfold requested. by rewrite !try_all_app, <- !try_lock_want. Qed.

Lemma try_all_failed l fl b : try_all l (fl, true, b) = (fl, true, b).
Proof. induction l as [|[p bit] l IH]; cbn; done. Qed.

Lemma held_take p b q : held (take p b) q = held b q || bool_decide (p = q).
Proof.
  unfold take, held. rewrite account_at_upd. case_decide as E; case_bool_decide; try done; cbn.
  - by rewrite held_trylock, orb_true_r.
  - by rewrite orb_false_r.
Qed.

Lemma bal_take p b q : bal (take p b) q = bal b q.
Proof. unfold take, bal. rewrite account_at_upd. by case_decide as E; [subst|]. Qed.

Lemma try_lock_free p bit fl b :
  held b p = false ->
  try_lock 1 p bit (fl, false, b) = (u32 (0 + Z.shiftl 1 bit), false, take p b).
Proof.
  intros H. unfold try_lock. cbn -[Z.shiftl]. pose proof (trylock_free _ H) as E.
  unfold take. destruct (spin_trylock _) as [r l]. cbn in E. subst r. done.
Qed.

Lemma try_lock_busy p bit fl b :
  held b p = true ->
  exists v, 0 < v < 2 ^ 32 /\ v = fst (spin_trylock (mutex (account_at b p))) /\
    try_lock 1 p bit (fl, false, b) = (v, true, take p b).
Proof.
  intros H. pose proof (trylock_held _ H) as Hv. unfold try_lock, take. cbn -[Z.shiftl].
  destruct (spin_trylock _) as [v l] eqn:E. cbn in *. exists v. split; [done|]. split; [done|].
  rewrite wrapu_small by lia. destruct (Z.eqb_spec v 0); [lia|done].
Qed.

(** Either every pointer was free and distinct, and exactly they are taken, or
    the first busy one stops the search: the locks before it stay taken, and
    the flag is what the failed [spin_trylock] returned. *)
Lemma try_all_spec l fl b :
  (NoDup l.*1 /\ Forall (fun p => held b p = false) l.*1 /\
   exists fl' b', try_all l (fl, false, b) = (fl', false, b') /\
     (forall q, held b' q = held b q || bool_decide (q ∈ l.*1)) /\
     (forall q, bal b' q = bal b q)) \/
  (exists l1 p bit l2 v b',
     l = l1 ++ (p, bit) :: l2 /\ NoDup l1.*1 /\ Forall (fun q => held b q = false) l1.*1 /\
     (held b p = true \/ p ∈ l1.*1) /\ 0 < v < 2 ^ 32 /\
     (exists lk, spin_held lk = true /\ v = fst (spin_trylock lk)) /\
     try_all l (fl, false, b) = (v, true, b') /\
     (forall q, held b' q = held b q || bool_decide (q ∈ l1.*1)) /\
     (forall q, bal b' q = bal b q)).
Proof.
  revert fl b. induction l as [|[p bit] l IH]; intros fl b; cbn [try_all].
  { left. split; [constructor|]. split; [constructor|]. exists fl, b.
    split; [done|]. split; [|done]. intros q. cbn. by rewrite orb_false_r. }
  destruct (held b p) eqn:Hp.
  - right. destruct (try_lock_busy p bit fl b Hp) as (v & Hv & Ev & E). rewrite E, try_all_failed.
    exists [], p, bit, l, v, (take p b). split_and!; try done; try lia; try apply NoDup_nil_2;
      try apply Forall_nil_2; try by left.
    + by exists (mutex (account_at b p)).
    + intros q. cbn. rewrite held_take, orb_false_r. case_bool_decide as Eq; [subst|].
      * by rewrite Hp.
      * by rewrite orb_false_r.
    + apply bal_take.
  - rewrite (try_lock_free _ _ _ _ Hp).
    destruct (IH (u32 (0 + Z.shiftl 1 bit)) (take p b)) as
      [(Hnd & Hf & fl' & b' & E & Hh & Hb)|(l1 & p' & bit' & l2 & v & b' & -> & Hnd & Hf & Hor & Hv & Hlk & E & Hh & Hb)].
    + left. rewrite list.Forall_forall in Hf. split_and!; cbn.
      * constructor; [|done]. intros Hin. apply Hf in Hin. rewrite held_take in Hin.
        by rewrite bool_decide_true, orb_true_r in Hin.
      * constructor; [done|]. apply list.Forall_forall. intros q Hq. apply Hf in Hq.
        rewrite held_take in Hq. by apply orb_false_iff in Hq as [? _].
      * exists fl', b'. split; [done|]. split; [|intros q; by rewrite Hb, bal_take].
        intros q. rewrite Hh, held_take, <- orb_assoc. f_equal.
        by rewrite (bool_decide_ext (q ∈ p :: l.*1) (p = q \/ q ∈ l.*1)), bool_decide_or by set_solver.
    + right. rewrite list.Forall_forall in Hf. exists ((p, bit) :: l1), p', bit', l2, v, b'.
      split_and!; cbn; try done; try lia.
      * constructor; [|done]. intros Hin. apply Hf in Hin. rewrite held_take in Hin.
        by rewrite bool_decide_true, orb_true_r in Hin.
      * constructor; [done|]. apply list.Forall_forall. intros q Hq. apply Hf in Hq.
        rewrite held_take in Hq. by apply orb_false_iff in Hq as [? _].
      * rewrite held_take in Hor. destruct Hor as [Hor|Hor]; [|set_solver].
        apply orb_true_iff in Hor as [?|Hor]; [by left|]. apply bool_decide_eq_true in Hor. set_solver.
      * intros q. rewrite Hh, held_take, <- orb_assoc. f_equal.
        by rewrite (bool_decide_ext (q ∈ p :: l1.*1) (p = q \/ q ∈ l1.*1)), bool_decide_or by set_solver.
      * intros q. by rewrite Hb, bal_take.
Qed.

(** The four pointers of a request, each kept when [sel] holds of its bit. *)
Definition lock_ptrs (b : bank) (req : GetLockReq) (sel : Z -> bool) : list Z :=
  let pick bit p := if sel bit then [p] else [] in
  pick 0 (checking_ptr b (lq_user1_id req)) ++ pick 1 (savings_ptr b (lq_user1_id req)) ++
  pick 2 (checking_ptr b (lq_user2_id req)) ++ pick 3 (savings_ptr b (lq_user2_id req)).

Lemma truthy_land_bit v k : 0 <= k -> truthy (Z.land v (Z.shiftl 1 k)) = Z.testbit v k.
Proof.
  intros Hk. rewrite Z.shiftl_1_l. unfold truthy. destruct (Z.testbit v k) eqn:E.
  - destruct (Z.eqb_spec (Z.land v (2 ^ k)) 0) as [Z0|]; [|done].
    assert (Z.testbit (Z.land v (2 ^ k)) k = true) as T.
    { by rewrite Z.land_spec, E, Z.pow2_bits_true. }
    by rewrite Z0, Z.bits_0 in T.
  - destruct (Z.eqb_spec (Z.land v (2 ^ k)) 0) as [|N]; [done|]. exfalso. apply N.
    apply Z.bits_inj'. intros j Hj. rewrite Z.land_spec, Z.bits_0, Z.pow2_bits_eqb by done.
    destruct (Z.eqb_spec k j); [subst; by rewrite E|apply andb_false_r].
Qed.

Lemma try_all_globals l s :
  let b := snd s in let b' := snd (try_all l s) in
  savings_global b' = savings_global b /\ checking_global b' = checking_global b.
Proof.
  revert s. induction l as [|[p bit] l IH]; intros s; cbn [try_all]; [done|].
  destruct (IH (try_lock 1 p bit s)) as [-> ->]. destruct s as [[fl fd] b]. unfold try_lock.
  destruct (negb fd && truthy 1); [|done]. destruct (spin_trylock _). by destruct (negb _).
Qed.

Lemma elem_of_pick (c : bool) (p q : Z) l :
  bool_decide (q ∈ (if c then [p] else []) ++ l) =
  (c && bool_decide (p = q)) || bool_decide (q ∈ l).
Proof.
  destruct c; cbn; [|done]. rewrite <- bool_decide_or. apply bool_decide_ext. set_solver.
Qed.

Lemma elem_of_pick_last (c : bool) (p q : Z) :
  bool_decide (q ∈ (if c then [p] else [])) = c && bool_decide (p = q).
Proof. destruct c; [|done]. apply bool_decide_ext. set_solver. Qed.

(** [serve_get_lock] tries the requested locks in order and, on failure,
    releases the locks whose bits are set in the flag. *)
Lemma serve_get_lock_eq req b fl fd b1 :
  try_all (requested b req) (0, false, b) = (fl, fd, b1) ->
  exists b',
    serve_get_lock req b =
      ({| lr_type := RPC_GET_LOCK; lr_req_number := lq_req_number req; lr_status := 0;
          lr_success := c_bool (negb fd) |}, fd, b') /\
    (fd = false -> b' = b1) /\ (forall q, bal b' q = bal b1 q) /\
    (fd = true -> forall q, held b' q =
       held b1 q && negb (bool_decide (q ∈ lock_ptrs b req (Z.testbit fl)))).
Proof.
  intros E. unfold serve_get_lock. rewrite try_blocks.
  pose proof (try_all_globals (requested b req) (0, false, b)) as G. rewrite E in *. cbn in G.
  eexists. split; [done|]. destruct fd; [|split_and!; done]. split; [done|].
  split; [intros q; by rewrite !bal_unlock_if|]. intros _ q.
  rewrite !held_unlock_if.
  autorewrite with bank. rewrite !truthy_land_bit by lia.
  assert (forall id, checking_ptr b1 id = checking_ptr b id) as Hc
    by (intros; unfold checking_ptr; by rewrite (proj2 G)).
  assert (forall id, savings_ptr b1 id = savings_ptr b id) as Hs
    by (intros; unfold savings_ptr; by rewrite (proj1 G)).
  rewrite !Hc, !Hs. unfold lock_ptrs.
  rewrite !elem_of_pick, elem_of_pick_last, !negb_orb, !andb_assoc. done.
Qed.

End Laws.
End Server.

(** ** Locking *)

(** C5.  GET_LOCK grants a request exactly when the locks it names are distinct
    and free; it then takes these locks and no other, and whatever the outcome it
    changes no balance and answers with the request's number. *)
Theorem get_lock_grants {SL : SpinLock} `{!SpinLockLaws SL} (req : GetLockReq) (b b' : bank)
    (resp : GetLockResp) (lock_failed : bool) :
  serve_get_lock req b = (resp, lock_failed, b') ->
  let ps := (requested b req).*1 in
  lr_req_number resp = lq_req_number req /\
  (lr_success resp = 1 <-> NoDup ps /\ forall p, p ∈ ps -> held b p = false) /\
  (lr_success resp = 1 -> forall q, held b' q = held b q || bool_decide (q ∈ ps)) /\
  (forall q, bal b' q = bal b q).
Proof.
  intros E ps. destruct (try_all_spec (requested b req) 0 b) as
    [(Hnd & Hf & fl & b1 & T & Hh & Hb)|(l1 & p & bit & l2 & v & b1 & Hl & Hnd & Hf & Hor & Hv & Hlk & T & Hh & Hb)];
    destruct (serve_get_lock_eq _ _ _ _ _ T) as (b2 & E2 & Ef & Eb & _);
    rewrite E in E2; injection E2 as -> -> ->; cbn [lr_req_number lr_success negb c_bool]; split; [done| |done|].
  - split; [|split; [by rewrite Ef|intros q; by rewrite Eb]].
    split; [|done]. intros _. split; [done|]. by apply list.Forall_forall.
  - split; [|split; [done|intros q; by rewrite Eb]]. split; [done|]. intros [Hd Hfr].
    unfold ps in *. rewrite Hl in Hd, Hfr. rewrite fmap_app in Hd, Hfr. cbn in Hd, Hfr.
    destruct Hor as [Hp|Hp]; [by rewrite Hfr in Hp by set_solver|].
    apply list.NoDup_app in Hd as (_ & Hd & _). destruct (Hd p Hp). set_solver.
Qed.

(** What a refused GET_LOCK leaves behind.  The locks named before the busy
    one were taken; then the flag holds only what the last [spin_trylock]
    returned, so the locks released are those its bits select among the four
    account pointers of the request, whether or not the request took them. *)
Theorem get_lock_refusal {SL : SpinLock} `{!SpinLockLaws SL} (req : GetLockReq) (b b' : bank)
    (resp : GetLockResp) :
  serve_get_lock req b = (resp, true, b') ->
  exists taken p bit rest v l,
    requested b req = taken ++ (p, bit) :: rest /\
    (held b p = true \/ p ∈ taken.*1) /\ (forall q, q ∈ taken.*1 -> held b q = false) /\
    spin_held l = true /\ v = fst (spin_trylock l) /\
    lr_success resp = 0 /\
    (forall q, held b' q = (held b q || bool_decide (q ∈ taken.*1)) &&
                           negb (bool_decide (q ∈ lock_ptrs b req (Z.testbit v)))).
Proof.
  intros E. destruct (try_all_spec (requested b req) 0 b) as
    [(_ & _ & fl & b1 & T & _)|(l1 & p & bit & l2 & v & b1 & Hl & _ & Hf & Hor & Hv & (l & Hl1 & Hl2) & T & Hh & _)];
    destruct (serve_get_lock_eq _ _ _ _ _ T) as (b2 & E2 & _ & _ & Er);
    rewrite E in E2; [done|]; injection E2 as -> ->.
  exists l1, p, bit, l2, v, l. split_and!; try done; [by apply list.Forall_forall|].
  intros q. by rewrite Er, Hh.
Qed.

(** A request for the checking lock of one account. *)
Definition lock_checking (u n : Z) : GetLockReq :=
  {| lq_type := RPC_GET_LOCK; lq_req_number := n; lq_user1_id := u; lq_user2_id := 0;
     lock_user1_checking := 1; lock_user1_saving := 0;
     lock_user2_checking := 0; lock_user2_saving := 0 |}.

Lemma lock_checking_outcome {SL : SpinLock} `{!SpinLockLaws SL} u n b :
  (forall l, spin_held l = true -> fst (spin_trylock l) = 1) ->
  exists resp fd b', serve_get_lock (lock_checking u n) b = (resp, fd, b') /\
    lr_success resp = c_bool (negb (held b (checking_ptr b u))) /\
    checking_global b' = checking_global b /\
    held b' (checking_ptr b u) = negb (held b (checking_ptr b u)).
Proof.
  intros Hone. destruct (serve_get_lock (lock_checking u n) b) as [[resp fd] b'] eqn:E.
  exists resp, fd, b'. split; [done|].
  assert (checking_global b' = checking_global b) as Hg.
  { revert E. unfold serve_get_lock, lock_checking. cbn -[Z.land try_lock].
    unfold try_lock. cbn -[Z.land]. destruct (spin_trylock _) as [r l]. cbn -[Z.land].
    destruct (negb (u32 r =? 0)); cbn -[Z.land]; intros [= <- <- <-]; [|done].
    unfold unlock_if. by repeat destruct (truthy _). }
  unfold requested in *.
  destruct (held b (checking_ptr b u)) eqn:Hh.
  - destruct (try_lock_busy (checking_ptr b u) 0 0 b Hh) as (v & _ & Hv & T).
    rewrite Hone in Hv by exact Hh. subst v.
    destruct (serve_get_lock_eq (lock_checking u n) b 1 true (take (checking_ptr b u) b) T)
      as (b2 & E2 & _ & _ & Er). rewrite E in E2. injection E2 as -> -> ->.
    split_and!; [done|done|]. rewrite Er by done. rewrite bool_decide_true; [apply andb_false_r|].
    cbn. set_solver.
  - pose proof (try_lock_free (checking_ptr b u) 0 0 b Hh) as T.
    destruct (serve_get_lock_eq (lock_checking u n) b _ false (take (checking_ptr b u) b) T)
      as (b2 & E2 & Ef & _ & _). rewrite E in E2. injection E2 as -> -> ->.
    split_and!; [done|done|]. rewrite Ef by done. by rewrite held_take, bool_decide_true, orb_true_r.
Qed.

(** C7.  Mutual exclusion is lost after a refused request.  When
    [spin_trylock] returns 1 on a held lock, a client that was granted the
    checking lock of an account loses it as soon as a second client is refused
    it: a third client is granted the same lock, with no FINISH in between. *)
Theorem get_lock_exclusion_lost {SL : SpinLock} `{!SpinLockLaws SL} (u : Z) (b : bank) :
  (forall l, spin_held l = true -> fst (spin_trylock l) = 1) ->
  held b (checking_ptr b u) = false ->
  exists r1 r2 r3 f1 f2 f3 b1 b2 b3,
    serve_get_lock (lock_checking u 1) b = (r1, f1, b1) /\ lr_success r1 = 1 /\
    serve_get_lock (lock_checking u 2) b1 = (r2, f2, b2) /\ lr_success r2 = 0 /\
    serve_get_lock (lock_checking u 3) b2 = (r3, f3, b3) /\ lr_success r3 = 1.
Proof.
  intros Hone H0.
  destruct (lock_checking_outcome u 1 b Hone) as (r1 & f1 & b1 & E1 & S1 & G1 & H1).
  destruct (lock_checking_outcome u 2 b1 Hone) as (r2 & f2 & b2 & E2 & S2 & G2 & H2).
  destruct (lock_checking_outcome u 3 b2 Hone) as (r3 & f3 & b3 & E3 & S3 & _ & _).
  unfold checking_ptr in *. rewrite G2, G1 in *. rewrite H0 in *. rewrite H1 in *. rewrite H2 in *.
  exists r1, r2, r3, f1, f2, f3, b1, b2, b3. by rewrite S1, S2, S3.
Qed.


Lemma get_lock_grants_witness :
  let b := MkBank (SL := ref_spinlock) 0 32000000 ∅ in
  let '(resp, fd, b') := serve_get_lock (lock_checking 7 1) b in
  lr_success resp = 1 -> held b' (checking_ptr b 7) = true.
Proof.
  intros b. destruct (serve_get_lock (lock_checking 7 1) b) as [[resp fd] b'] eqn:E. intros Hs.
  destruct (get_lock_grants (lock_checking 7 1) b b' resp fd E) as (_ & _ & Hh & _).
  rewrite (Hh Hs). vm_compute. reflexivity.
Defined.

(** Two accounts of which the second client's savings lock is busy. *)
Definition busy_bank : bank (SL := ref_spinlock) :=
  MkBank (SL := ref_spinlock) 0 32000000
    {[ 32000000 + 32 * 5 := MkAccount (SL := ref_spinlock) 5 10 1 ]}.

Lemma get_lock_refusal_witness :
  exists taken p bit rest v (l : spinlock_s (SpinLock := ref_spinlock)),
    requested busy_bank (lock_checking 5 2) = taken ++ (p, bit) :: rest /\
    (held busy_bank p = true \/ p ∈ taken.*1) /\ spin_held l = true /\ v = fst (spin_trylock l).
Proof.
  destruct (serve_get_lock (lock_checking 5 2) busy_bank) as [[resp fd] b'] eqn:E.
  assert (fd = true) as -> by (vm_compute in E; congruence).
  destruct (get_lock_refusal (lock_checking 5 2) busy_bank b' resp E)
    as (taken & p & bit & rest & v & l & H1 & H2 & _ & H3 & H4 & _).
  exists taken, p, bit, rest, v, l. done.
Defined.

Lemma get_lock_exclusion_lost_witness :
  let b := MkBank (SL := ref_spinlock) 0 32000000 ∅ in
  exists r1 r2 r3 f1 f2 f3 b1 b2 b3,
    serve_get_lock (lock_checking 7 1) b = (r1, f1, b1) /\ lr_success r1 = 1 /\
    serve_get_lock (lock_checking 7 2) b1 = (r2, f2, b2) /\ lr_success r2 = 0 /\
    serve_get_lock (lock_checking 7 3) b2 = (r3, f3, b3) /\ lr_success r3 = 1.
Proof.
  apply (get_lock_exclusion_lost (SL := ref_spinlock) 7).
  - cbn. intros l ->. reflexivity.
  - vm_compute. reflexivity.
Defined.

(** ** The layout of the tables *)

Section Layout.
Context {SL : SpinLock}.

(** The tables as [init_saving_and_checking] lays them out. *)
Definition laid_out (b : bank) : Prop :=
  checking_global b = u64 (savings_global b + sizeof_account * NUM_ACCOUNTS).

Definition valid_id (u : Z) : Prop := 0 <= u < NUM_ACCOUNTS.

(** Addresses by position in the whole buffer. *)
Lemma savings_ptr_pos b u : savings_ptr b u = u64 (savings_global b + 32 * u).
Proof.
  unfold savings_ptr, sizeof_account, NUM_SCALE. rewrite Z.mul_1_r.
  unfold wrapu. mlia.
Qed.

Lemma checking_ptr_pos b u :
  laid_out b -> checking_ptr b u = u64 (savings_global b + 32 * (NUM_ACCOUNTS + u)).
Proof.
  intros H. unfold checking_ptr, sizeof_account, NUM_SCALE. rewrite Z.mul_1_r, H.
  unfold wrapu, sizeof_account, NUM_ACCOUNTS. mlia.
Qed.

Lemma pos_inj base i j :
  0 <= i < 2 ^ 59 -> 0 <= j < 2 ^ 59 -> u64 (base + 32 * i) = u64 (base + 32 * j) -> i = j.
Proof. unfold wrapu. intros Hi Hj H. mlia. Qed.

(** Valid accounts do not overlap. *)
Lemma ptrs_distinct b u v :
  laid_out b -> valid_id u -> valid_id v ->
  (savings_ptr b u = savings_ptr b v <-> u = v) /\
  (checking_ptr b u = checking_ptr b v <-> u = v) /\
  savings_ptr b u <> checking_ptr b v.
Proof.
  intros H Hu Hv. unfold valid_id, NUM_ACCOUNTS in *. rewrite !savings_ptr_pos.
  rewrite !checking_ptr_pos by done. unfold NUM_ACCOUNTS.
  split_and!; [split; intros E|split; intros E|intros E]; subst; try done;
    apply pos_inj in E; lia.
Qed.

Section Eqb.
Variables (b : bank) (u v : Z).
Hypotheses (HL : laid_out b) (Hu : valid_id u) (Hv : valid_id v).

Lemma savings_eqb : bool_decide (savings_ptr b u = savings_ptr b v) = bool_decide (u = v).
Proof. apply bool_decide_ext. by apply ptrs_distinct. Qed.
Lemma checking_eqb : bool_decide (checking_ptr b u = checking_ptr b v) = bool_decide (u = v).
Proof. apply bool_decide_ext. by apply ptrs_distinct. Qed.
Lemma savings_checking_eqb : bool_decide (savings_ptr b u = checking_ptr b v) = false.
Proof. apply bool_decide_false. by apply ptrs_distinct. Qed.
Lemma checking_savings_eqb : bool_decide (checking_ptr b u = savings_ptr b v) = false.
Proof. apply bool_decide_false. apply not_eq_sym. by apply ptrs_distinct. Qed.
End Eqb.

(** The locks a FINISH releases. *)
Definition unlocked (b : bank) (req : FinishReq) : list Z :=
  let pick c p := if truthy c then [p] else [] in
  pick (unlock_user1_checking req) (checking_ptr b (fq_user1_id req)) ++
  pick (unlock_user1_saving req) (savings_ptr b (fq_user1_id req)) ++
  pick (unlock_user2_checking req) (checking_ptr b (fq_user2_id req)) ++
  pick (unlock_user2_saving req) (savings_ptr b (fq_user2_id req)).

Context `{!SpinLockLaws SL}.

Lemma serve_finish_spec req b resp b' :
  serve_finish req b = (resp, b') ->
  savings_global b' = savings_global b /\ checking_global b' = checking_global b /\
  (forall q, held b' q = held b q && negb (bool_decide (q ∈ unlocked b req))) /\
  (forall q, bal b' q =
     if truthy (changed_user2_checking req) && bool_decide (checking_ptr b (fq_user2_id req) = q)
     then fq_user2_checking req
     else if truthy (changed_user1_saving req) && bool_decide (savings_ptr b (fq_user1_id req) = q)
     then fq_user1_saving req
     else if truthy (changed_user1_checking req) && bool_decide (checking_ptr b (fq_user1_id req) = q)
     then fq_user1_checking req else bal b q).
Proof.
  intros E. unfold serve_finish in E. injection E as <- <-.
  split; [unfold unlock_if, store_if; by repeat destruct (truthy _)|].
  split; [unfold unlock_if, store_if; by repeat destruct (truthy _)|].
  rewrite ?checking_ptr_unlock_if, ?savings_ptr_unlock_if, ?checking_ptr_store_if,
    ?savings_ptr_store_if, ?checking_ptr_unlock_if, ?savings_ptr_unlock_if, ?checking_ptr_store_if,
    ?savings_ptr_store_if.
  split; intros q.
  - rewrite !held_unlock_if, !held_store_if. unfold unlocked.
    by rewrite !elem_of_pick, elem_of_pick_last, !negb_orb, !andb_assoc.
  - by rewrite !bal_unlock_if, !bal_store_if.
Qed.

End Layout.

(** FINISH publishes balances that GET_DATA then returns.  For two
    different valid accounts, a read of all four balances after a FINISH returns
    each value the FINISH declared changed and the old value otherwise, with one
    exception the source documents: the savings balance of the second account is
    never stored. *)
Theorem finish_get_data {SL : SpinLock} `{!SpinLockLaws SL} (junk : GetDataResp) (req : FinishReq)
    (get : GetDataReq) (b b' : bank) (resp : FinishResp) :
  laid_out b -> valid_id (fq_user1_id req) -> valid_id (fq_user2_id req) ->
  fq_user1_id req <> fq_user2_id req ->
  serve_finish req b = (resp, b') ->
  dq_user1_id get = fq_user1_id req -> dq_user2_id get = fq_user2_id req ->
  truthy (get_user1_checking get) = true -> truthy (get_user1_saving get) = true ->
  truthy (get_user2_checking get) = true -> truthy (get_user2_saving get) = true ->
  let data := serve_get_data junk get b' in
  fr_success resp = 1 /\
  dr_user1_checking data = (if truthy (changed_user1_checking req) then fq_user1_checking req
                            else bal b (checking_ptr b (fq_user1_id req))) /\
  dr_user1_saving data = (if truthy (changed_user1_saving req) then fq_user1_saving req
                          else bal b (savings_ptr b (fq_user1_id req))) /\
  dr_user2_checking data = (if truthy (changed_user2_checking req) then fq_user2_checking req
                            else bal b (checking_ptr b (fq_user2_id req))) /\
  dr_user2_saving data = bal b (savings_ptr b (fq_user2_id req)).
Proof.
  intros HL V1 V2 Hne E D1 D2 G1 G2 G3 G4 data.
  destruct (serve_finish_spec _ _ _ _ E) as (Hs & Hc & _ & Hb).
  unfold data, serve_get_data. cbn. rewrite D1, D2, G1, G2, G3, G4.
  fold (bal b' (checking_ptr b' (fq_user1_id req))) (bal b' (savings_ptr b' (fq_user1_id req)))
    (bal b' (checking_ptr b' (fq_user2_id req))) (bal b' (savings_ptr b' (fq_user2_id req))).
  assert (forall id, checking_ptr b' id = checking_ptr b id) as Pc
    by (intros; unfold checking_ptr; by rewrite Hc).
  assert (forall id, savings_ptr b' id = savings_ptr b id) as Ps
    by (intros; unfold savings_ptr; by rewrite Hs).
  rewrite !Pc, !Ps, !Hb, !savings_eqb, !checking_eqb, !savings_checking_eqb,
    !checking_savings_eqb by done.
  rewrite (bool_decide_true (fq_user1_id req = fq_user1_id req)),
    (bool_decide_true (fq_user2_id req = fq_user2_id req)),
    (bool_decide_false (fq_user1_id req = fq_user2_id req)),
    (bool_decide_false (fq_user2_id req = fq_user1_id req)), !andb_false_r, !andb_true_r by done.
  unfold serve_finish in E. injection E as <- _. done.
Qed.

(** A granted GET_LOCK followed by the FINISH that releases the same locks
    leaves every lock of both tables as it was, whatever balances the FINISH
    changed. *)
Lemma lock_finish_restores {SL : SpinLock} `{!SpinLockLaws SL} (lreq : GetLockReq)
    (freq : FinishReq) (b b1 b2 : bank) (lresp : GetLockResp) (fresp : FinishResp) (fd : bool) :
  serve_get_lock lreq b = (lresp, fd, b1) -> lr_success lresp = 1 ->
  fq_user1_id freq = lq_user1_id lreq -> fq_user2_id freq = lq_user2_id lreq ->
  unlock_user1_checking freq = lock_user1_checking lreq ->
  unlock_user1_saving freq = lock_user1_saving lreq ->
  unlock_user2_checking freq = lock_user2_checking lreq ->
  unlock_user2_saving freq = lock_user2_saving lreq ->
  serve_finish freq b1 = (fresp, b2) ->
  forall q, held b2 q = held b q.
Proof.
  intros E Hs U1 U2 K1 K2 K3 K4 Ef q.
  destruct (try_all_spec (requested b lreq) 0 b) as
    [(_ & Hf & fl & b' & T & Hh & _)|(? & ? & ? & ? & ? & b' & _ & _ & _ & _ & _ & _ & T & _)];
    destruct (serve_get_lock_eq _ _ _ _ _ T) as (b'' & E2 & E1 & _ & _);
    rewrite E in E2; injection E2 as -> -> ->; [|done].
  rewrite (E1 eq_refl) in *. destruct (serve_finish_spec _ _ _ _ Ef) as (_ & _ & Hh2 & _).
  pose proof (try_all_globals (requested b lreq) (0, false, b)) as [Gs Gc].
  rewrite T in Gs, Gc. cbn in Gs, Gc. rewrite Hh2, Hh.
  assert (unlocked b' freq = (requested b lreq).*1) as ->.
  { unfold unlocked, requested, savings_ptr, checking_ptr. rewrite Gs, Gc, U1, U2, K1, K2, K3, K4.
    by destruct (truthy (lock_user1_checking lreq)), (truthy (lock_user1_saving lreq)),
      (truthy (lock_user2_checking lreq)), (truthy (lock_user2_saving lreq)). }
  rewrite list.Forall_forall in Hf. case_bool_decide as Hq; [rewrite (Hf q Hq)|]; cbn.
  - done.
  - by rewrite orb_false_r, andb_true_r.
Qed.

(** A transfer between accounts 7 and 8 on fresh tables. *)
Definition demo_bank : bank (SL := ref_spinlock) := MkBank (SL := ref_spinlock) 0 32000000 ∅.
Definition demo_finish : FinishReq :=
  {| fq_type := RPC_FINISH; fq_req_number := 4; fq_user1_id := 7; fq_user2_id := 8;
     fq_user1_checking := 100; fq_user1_saving := 200; fq_user2_checking := 300;
     fq_user2_saving := 400;
     changed_user1_checking := 1; changed_user1_saving := 0; changed_user2_checking := 1;
     changed_user2_saving := 1;
     unlock_user1_checking := 1; unlock_user1_saving := 0; unlock_user2_checking := 0;
     unlock_user2_saving := 0 |}.
Definition demo_get : GetDataReq :=
  {| dq_type := RPC_GET_DATA; dq_req_number := 5; dq_user1_id := 7; dq_user2_id := 8;
     get_user1_checking := 1; get_user1_saving := 1; get_user2_checking := 1;
     get_user2_saving := 1 |}.
Definition no_junk : GetDataResp :=
  {| dr_type := 0; dr_req_number := 0; dr_status := 0; dr_user1_checking := 0;
     dr_user1_saving := 0; dr_user2_checking := 0; dr_user2_saving := 0 |}.

Lemma finish_get_data_witness :
  dr_user2_checking (serve_get_data no_junk demo_get (snd (serve_finish demo_finish demo_bank)))
  = 300.
Proof.
  destruct (serve_finish demo_finish demo_bank) as [resp b'] eqn:E.
  destruct (finish_get_data no_junk demo_finish demo_get demo_bank b' resp)
    as (_ & _ & _ & H & _); try done; exact E.
Defined.

(** ** Initial tables *)

Section InitTables.
Context {SL : SpinLock}.

(** A loop over a table whose addresses the updates do not move. *)
Section Loop.
Variable ptr : bank -> Z -> Z.
Hypothesis ptr_upd : forall p g b i, ptr (upd_account p g b) i = ptr b i.

Lemma init_loop_out n i b q :
  (forall k, i <= k < i + Z.of_nat n -> ptr b k <> q) ->
  account_at (init_accounts_loop ptr n i b) q = account_at b q.
Proof.
  revert i b. induction n as [|n IH]; intros i b H; cbn [init_accounts_loop]; [done|].
  rewrite IH, account_at_upd, decide_False; [done|apply H; lia|].
  intros k Hk. rewrite ptr_upd. apply H. lia.
Qed.

Lemma init_loop_in n i b k :
  (forall j j', i <= j < i + Z.of_nat n -> i <= j' < i + Z.of_nat n ->
     ptr b j = ptr b j' -> j = j') ->
  i <= k < i + Z.of_nat n ->
  account_at (init_accounts_loop ptr n i b) (ptr b k) = init_account k (account_at b (ptr b k)).
Proof.
  revert i b. induction n as [|n IH]; intros i b Hinj Hk; [lia|]. cbn [init_accounts_loop].
  destruct (decide (k = i)) as [->|Hne].
  - rewrite init_loop_out, account_at_upd, decide_True; [done|done|].
    intros j Hj. rewrite ptr_upd. intros E. apply Hinj in E; lia.
  - rewrite <- (ptr_upd (ptr b i) (init_account i) b k). rewrite IH.
    + rewrite ptr_upd, account_at_upd, decide_False; [done|]. intros E. apply Hinj in E; lia.
    + intros j j' Hj Hj'. rewrite !ptr_upd. apply Hinj; lia.
    + lia.
Qed.

Lemma init_loop_globals n i b :
  savings_global (init_accounts_loop ptr n i b) = savings_global b /\
  checking_global (init_accounts_loop ptr n i b) = checking_global b.
Proof. revert i b. induction n as [|n IH]; intros i b; cbn [init_accounts_loop]; [done|].
  destruct (IH (i + 1) (upd_account (ptr b i) (init_account i) b)) as [-> ->]. done. Qed.
End Loop.

Lemma savings_ptr_upd p g b i : savings_ptr (upd_account p g b) i = savings_ptr b i.
Proof. done. Qed.
Lemma checking_ptr_upd p g b i : checking_ptr (upd_account p g b) i = checking_ptr b i.
Proof. done. Qed.

(** [init_saving_and_checking] with the number of accounts as an argument. *)
Definition init_tables_of (n : nat) (base : Z) (b : bank) : bank :=
  let b1 := init_accounts_loop savings_ptr n 0 (MkBank base (checking_global b) (accounts b)) in
  init_accounts_loop checking_ptr n 0
    (MkBank (savings_global b1) (u64 (savings_global b1 + sizeof_account * NUM_ACCOUNTS))
            (accounts b1)).

Lemma init_saving_and_checking_eq base b :
  init_saving_and_checking base b = init_tables_of (Z.to_nat NUM_ACCOUNTS) base b.
Proof. unfold init_saving_and_checking, init_tables_of. reflexivity. Qed.

Lemma init_tables_of_spec n base b i :
  Z.of_nat n = NUM_ACCOUNTS -> valid_id i ->
  let b' := init_tables_of n base b in
  laid_out b' /\
  exists a a', account_at b' (savings_ptr b' i) = init_account i a /\
               account_at b' (checking_ptr b' i) = init_account i a'.
Proof.
  intros Hn Hi b'. unfold valid_id in Hi.
  set (b0 := MkBank base (checking_global b) (accounts b)).
  set (b1 := init_accounts_loop savings_ptr n 0 b0).
  set (b2 := MkBank (savings_global b1)
               (u64 (savings_global b1 + sizeof_account * NUM_ACCOUNTS)) (accounts b1)).
  assert (b' = init_accounts_loop checking_ptr n 0 b2) as Eb by done. clearbody b'.
  destruct (init_loop_globals checking_ptr n 0 b2) as [Gs Gc]. rewrite <- Eb in Gs, Gc.
  assert (laid_out b2) as L2 by done.
  assert (forall u, savings_ptr b' u = savings_ptr b2 u) as Ps
    by (intros; unfold savings_ptr; by rewrite Gs).
  assert (forall u, checking_ptr b' u = checking_ptr b2 u) as Pc
    by (intros; unfold checking_ptr; by rewrite Gc).
  split; [unfold laid_out; by rewrite Gs, Gc|]. do 2 eexists. split.
  - rewrite Ps, Eb, (init_loop_out checking_ptr checking_ptr_upd).
    + destruct (init_loop_globals savings_ptr n 0 b0) as [Gs1 _]. fold b1 in Gs1.
      assert (savings_ptr b2 i = savings_ptr b0 i) as ->
        by (unfold savings_ptr, b2; cbn; by rewrite Gs1).
      change (account_at b2) with (account_at b1).
      apply (init_loop_in savings_ptr savings_ptr_upd); [|lia].
      intros j j' Hj Hj'. rewrite !savings_ptr_pos. unfold NUM_ACCOUNTS in *. apply pos_inj; lia.
    + intros k Hk. apply not_eq_sym, ptrs_distinct; unfold valid_id; lia || done.
  - rewrite Pc, Eb. apply (init_loop_in checking_ptr checking_ptr_upd); [|lia].
    intros j j' Hj Hj'. apply ptrs_distinct; unfold valid_id; lia || done.
Qed.
End InitTables.

(** Table initialisation lays the checking table right after the savings
    table and leaves every account of both with its own number, half of
    [SIZE_MAX] as balance and a free lock. *)
Theorem init_tables {SL : SpinLock} `{!SpinLockLaws SL} (base i : Z) (b : bank) :
  valid_id i ->
  let b' := init_saving_and_checking base b in
  laid_out b' /\
  custom_id (account_at b' (savings_ptr b' i)) = i /\
  custom_id (account_at b' (checking_ptr b' i)) = i /\
  bal b' (savings_ptr b' i) = 2 ^ 63 - 1 /\ bal b' (checking_ptr b' i) = 2 ^ 63 - 1 /\
  held b' (savings_ptr b' i) = false /\ held b' (checking_ptr b' i) = false.
Proof.
  intros Hi. cbv zeta.
  pose proof (init_tables_of_spec (Z.to_nat NUM_ACCOUNTS) base b i
    (Z2Nat.id NUM_ACCOUNTS ltac:(done)) Hi) as H. cbv zeta in H.
  rewrite init_saving_and_checking_eq. revert H.
  generalize (init_tables_of (Z.to_nat NUM_ACCOUNTS) base b) as b'.
  intros b' (HL & a & a' & As & Ac). split; [exact HL|].
  unfold bal, held. rewrite As, Ac. cbn [custom_id balance mutex init_account].
  by rewrite !held_init.
Qed.

Lemma init_tables_witness :
  let b' := init_saving_and_checking (SL := ref_spinlock) 4096 (MkBank 0 0 ∅) in
  bal b' (checking_ptr b' 999999) = 2 ^ 63 - 1.
Proof.
  apply (init_tables (SL := ref_spinlock) 4096 999999 (MkBank 0 0 ∅)).
  unfold valid_id, NUM_ACCOUNTS. lia.
Defined.

(** ** The event handler *)

#[global] Opaque init_saving_and_checking.

Section Handler.
Context {SL : SpinLock} {F : FlexioDev} `{!FlexioDevLaws F}.

#[export] Instance server_has_queues : HasQueues (server_context * bank).
Proof.
  refine {| dq := fun s => sv_q (fst s);
            set_dq := fun q s => (MkServer q (finish_count (fst s)) (abort_count (fst s)), snd s) |};
    by intros q [[] ?].
Defined.

Definition server_ext (s : server_context * bank) : server_state :=
  (finish_count (fst s), abort_count (fst s), snd s).

Lemma server_turn_serves thread ts jd (s : server_context * bank) (w : World F) :
  True ->
  True /\
  (server_ext (fst (server_turn thread ts jd s w)), dq (fst (server_turn thread ts jd s w)),
   snd (server_turn thread ts jd s w)) =
  (let '(x, q, w) := serve_packet (serve_request thread ts jd) finish_send_packet
                       (server_ext s) (dq s) w in
   let '(q, w) := step_queues q w in (x, q, w)).
Proof.
  intros _. split; [done|]. destruct s as [c b].
  unfold server_turn, process_packet, serve_packet, send_packet, step_queues, server_ext.
  cbn [fst snd dq server_has_queues].
  destruct (receive_packet _ _ _) as [a sz].
  destruct (serve_request _ _ _ _ _ _ _) as [[[[fc ac] b'] m] sz'].
  destruct (prepare_send_packet _ _ _ _) as [s1 w1]. destruct (finish_send_packet _ _) as [s2 w2].
  cbn -[step_cq]. destruct (step_cq _ _) as [c3 w3]. done.
Qed.

(** What initialisation does to the context of its thread. *)
Lemma server_init_fresh shared s w ret s1 w1 c0 :
  thread_index shared < MAX_THREADS ->
  dev_ctxs s !! Z.to_nat (thread_index shared) = Some c0 ->
  cq_prepared 7 shared w ->
  dpa_small_bank_server_device_init shared s w = (ret, s1, w1) ->
  ret = 0 /\ exists c1, dev_ctxs s1 !! Z.to_nat (thread_index shared) = Some c1 /\
    fresh_queues 7 7 shared (sq_pi (sq_ctx (sv_q c0))) (sv_q c1) w1.
Proof.
  intros Hi Hc Hp E. unfold dpa_small_bank_server_device_init in E.
  rewrite (proj2 (Z.ltb_lt _ _) Hi), Hc in E. cbn [negb default] in E.
  destruct (init_queues 7 7 7 shared (sv_q c0) w) as [q w'] eqn:Eq.
  destruct (init_queues_fresh 7 7 7 ltac:(lia) ltac:(lia) _ _ _ _ _ Hp Eq) as [Hf _].
  unfold init_queues in Eq. cbv zeta in E, Eq.
  change LOG_SQ_RING_DEPTH with 7 in E. unfold init_sq, init_cq, init_rq in E.
  change LOG_SQ_RING_DEPTH with 7 in E. unfold default, id in E.
  destruct (init_send_sq _ _ _ _) as [sq w2]. injection Eq as <- <-.
  injection E as <- <- <-. split; [done|]. eexists. split.
  { cbn [dev_ctxs]. apply list_lookup_insert_eq. by eapply lookup_lt_Some. }
  exact Hf.
Qed.

End Handler.

(** C10.  The server answers a burst of requests in order.  After
    initialisation for its thread, with at most 128 completions delivered and
    one unit of fuel per completion, the event handler drains the queue and
    keeps polling; tables, counters and packet memory are those obtained by
    applying [serve_request] to the packets in arrival order; each reply is
    posted from the request's buffer with the length of its type; and the
    contexts of the other threads are untouched. *)
Theorem server_handler_burst {SL : SpinLock} {F : FlexioDev} `{!FlexioDevLaws F}
    (thread ts : Z) (jd : GetDataResp) (shared : queue_config_data) (s0 s1 : server)
    (w0 w1 : World F) (ret : Z) (c0 : server_context) (es : list cqe64) (fuel : nat) :
  let i := Z.to_nat (thread_index shared) in
  thread_index shared < MAX_THREADS -> dev_ctxs s0 !! i = Some c0 ->
  0 <= sq_pi (sq_ctx (sv_q c0)) < 2 ^ 32 -> cq_prepared 7 shared w0 ->
  dpa_small_bank_server_device_init shared s0 w0 = (ret, s1, w1) ->
  snd flexio_dev_get_thread_ctx <> 0 ->
  (length es <= 128)%nat -> (length es <= fuel)%nat ->
  (forall e, e ∈ es -> flexio_dev_cqe_get_owner e = 0) ->
  exists s2 w2 c1 c2,
    dpa_small_bank_server_device_event_handler thread ts jd fuel
      [nic_burst 7 (cq_ring_daddr (rq_cq_data shared)) 0 es] (thread_index shared) s1 w1
      = Polling s2 w2 /\
    dev_ctxs s1 !! i = Some c1 /\ dev_ctxs s2 = <[i := c2]> (dev_ctxs s1) /\
    burst_served (serve_request thread ts jd) [EvMemoryWriteback] server_ext shared es
      (c1, tables s1) w1 (c2, tables s2) w2.
Proof.
  intros i Hi Hc Hpi Hp E Hth Hl Hf Ho.
  destruct (server_init_fresh _ _ _ _ _ _ _ Hi Hc Hp E) as (_ & c1 & Hc1 & Hq). clear E.
  destruct (serve_burst 7 7 ltac:(lia) ltac:(lia) (serve_request thread ts jd) finish_send_packet
    [EvMemoryWriteback] server_ext (server_turn thread ts jd) (fun _ => True) is_finish_dpa
    (server_turn_serves thread ts jd) fuel shared _ es (c1, tables s1) w1 Hq Hpi I Hf
    ltac:(lia) ltac:(lia) Ho) as ([c2 b2] & w2 & Epoll & _ & HB).
  exists (MkProgram (<[i := c2]> (dev_ctxs s1)) b2), w2, c1, c2.
  unfold dpa_small_bank_server_device_event_handler. rewrite Hc1.
  pose proof (fq_init _ _ _ _ _ _ Hq) as Hin. cbn [dq server_has_queues fst] in Hin.
  rewrite Hin. cbn [Z.eqb]. rewrite (proj2 (Z.eqb_neq _ _) Hth).
  cbn [dq server_has_queues] in Epoll. rewrite Epoll. done.
Qed.

(** Thread 1 with a ping request waiting. *)
Definition demo_ping_w : World ref_flexio :=
  MkWorld (F := ref_flexio) ∅ ∅ {[ (16384, 0) := 70000 ]} ∅ 0%nat None [].

Lemma server_handler_burst_witness :
  exists s2 w2,
    dpa_small_bank_server_device_event_handler (SL := ref_spinlock) (F := ref_flexio) 1 0 no_junk 1
      [nic_burst (F := ref_flexio) 7 4096 0 [RefCqe 0 0 60]] 1
      (snd (fst (dpa_small_bank_server_device_init (SL := ref_spinlock) (F := ref_flexio) (demo_shared 1) server_zero
         demo_ping_w)))
      (snd (dpa_small_bank_server_device_init (SL := ref_spinlock) (F := ref_flexio) (demo_shared 1) server_zero
         demo_ping_w)) = Polling s2 w2 /\ cqe_ready (rqcq_ctx (sv_q (default zero_server
            (dev_ctxs s2 !! 1%nat)))) w2 = false.
Proof.
  destruct (dpa_small_bank_server_device_init (SL := ref_spinlock) (F := ref_flexio) (demo_shared 1) server_zero
    demo_ping_w) as [[ret s1] w1] eqn:E.
  destruct (server_handler_burst (SL := ref_spinlock) (F := ref_flexio) 1 0 no_junk (demo_shared 1)
    server_zero s1 demo_ping_w w1 ret zero_server [RefCqe 0 0 60] 1 eq_refl eq_refl
    (conj (Z.le_refl 0) eq_refl) (fun _ _ => eq_refl) E
    ltac:(discriminate) ltac:(apply Nat.leb_le; reflexivity) (le_n 1)
    (fun e He => ltac:(apply list_elem_of_singleton in He; rewrite He; reflexivity)))
    as (s2 & w2 & c1 & c2 & H & Hc1 & Hc2 & HB).
  exists s2, w2. split; [exact H|]. destruct HB as (posts & _ & _ & _ & Hr).
    rewrite Hc2, list_lookup_insert_eq; [exact Hr|]. by eapply lookup_lt_Some.
Defined.
