(* ===== verification/SmallBankClient.v ===== *)
(** * SmallBankClient: the SmallBank load generator on the DPA

    Translation of [flexio/dpa_small_bank/device/dpa_small_bank_client_device.c]:
    64 transactions per thread, each driven through GET_DATA, GET_LOCK and FINISH
    by the server's replies. *)

From S2P Require Import Prelude Machine FlexioDev WrapperDevice DevCommon RingProtocol Reflector.
From S2P Require Import PacketHdr PacketLoop SmallBankCommon.

Definition MAX_THREADS : Z := 190.
Definition CONCURRENCY : Z := 64.

Record Transition := MkTrans {
  t_user1_id : Z; t_user2_id : Z;
  t_lock_user1_checking : Z; t_lock_user1_saving : Z;
  t_lock_user2_checking : Z; t_lock_user2_saving : Z;
  t_changed_user1_checking : Z; t_changed_user1_saving : Z;
  t_changed_user2_checking : Z; t_changed_user2_saving : Z;
  t_req_id : Z; transmit_type : Z; now_type : Z;
  user1_checking_balance : Z; user1_saving_balance : Z;
  user2_checking_balance : Z; user2_saving_balance : Z;
}.

Definition zero_trans : Transition := MkTrans 0 0 0 0 0 0 0 0 0 0 0 0 0 0 0 0 0.

Definition set_t_users (u1 u2 : Z) (t : Transition) : Transition :=
  let 'MkTrans _ _ a b c d e f g h r ty n p q x y := t in
  MkTrans u1 u2 a b c d e f g h r ty n p q x y.
Definition set_t_locks (a b c d : Z) (t : Transition) : Transition :=
  let 'MkTrans u1 u2 _ _ _ _ e f g h r ty n p q x y := t in
  MkTrans u1 u2 a b c d e f g h r ty n p q x y.
Definition set_t_changed (e f g h : Z) (t : Transition) : Transition :=
  let 'MkTrans u1 u2 a b c d _ _ _ _ r ty n p q x y := t in
  MkTrans u1 u2 a b c d e f g h r ty n p q x y.
Definition set_t_req_id (r : Z) (t : Transition) : Transition :=
  let 'MkTrans u1 u2 a b c d e f g h _ ty n p q x y := t in
  MkTrans u1 u2 a b c d e f g h r ty n p q x y.
Definition set_t_type (ty : Z) (t : Transition) : Transition :=
  let 'MkTrans u1 u2 a b c d e f g h r _ n p q x y := t in
  MkTrans u1 u2 a b c d e f g h r ty n p q x y.
Definition set_t_balances (p q x y : Z) (t : Transition) : Transition :=
  let 'MkTrans u1 u2 a b c d e f g h r ty n _ _ _ _ := t in
  MkTrans u1 u2 a b c d e f g h r ty n p q x y.

Record client_context := MkClient {
  cl_q : dev_queues;
  cl_packets_count : Z;
  cl_req_id : Z;
  transitions : list Transition;
}.

Definition zero_client : client_context :=
  MkClient zero_queues 0 0 (replicate (Z.to_nat CONCURRENCY) zero_trans).

Definition set_cl_q (q : dev_queues) (c : client_context) : client_context :=
  MkClient q (cl_packets_count c) (cl_req_id c) (transitions c).
Definition set_transitions (ts : list Transition) (c : client_context) : client_context :=
  MkClient (cl_q c) (cl_packets_count c) (cl_req_id c) ts.

(** The globals: the contexts and the stop flag. *)
Record client := MkClients { cl_ctxs : list client_context; is_stop : Z }.

Definition client_zero : client :=
  MkClients (replicate (Z.to_nat MAX_THREADS) zero_client) 0.

(** [dev_ctx->transitions + (req_number % CONCURRENCY)] *)
Definition trans_slot (req_number : Z) : nat := Z.to_nat (req_number mod CONCURRENCY).
Definition trans_at (c : client_context) (i : nat) : Transition :=
  default zero_trans (transitions c !! i).
Definition upd_trans (i : nat) (g : Transition -> Transition) (c : client_context)
    : client_context := set_transitions (alter g i (transitions c)) c.

Section Client.
Context {F : FlexioDev}.

Definition init_cq : app_transfer_cq -> cq_ctx_t := init_cq_with LOG_CQ_RING_DEPTH.
Definition init_rq : app_transfer_wq -> rq_ctx_t := init_rq_with LOG_RQ_RING_DEPTH.
Definition init_sq : app_transfer_wq -> sq_ctx_t -> sq_ctx_t := init_sq_with LOG_SQ_RING_DEPTH.

Definition dpa_small_bank_client_device_init (shared_data : queue_config_data) (s : client)
    (w : World F) : Z * client * World F :=
  if negb (thread_index shared_data <? MAX_THREADS) then (assert_failed, s, w)
  else
    let i := Z.to_nat (thread_index shared_data) in
    let c := default zero_client (cl_ctxs s !! i) in
    let lk := wqd_mkey_id (sq_data shared_data) in
    let rqcq := init_cq (rq_cq_data shared_data) in
    let rq := init_rq (rq_data shared_data) in
    let sqcq := init_cq (sq_cq_data shared_data) in
    let sq := init_sq (sq_data shared_data) (sq_ctx (cl_q c)) in
    let '(sq, w) := init_send_sq sq (LOG2VALUE LOG_SQ_RING_DEPTH) lk w in
    let dt := MkDt (wqd_daddr (sq_data shared_data)) 0 (Z.shiftl 1 LOG_SQ_RING_DEPTH - 1) in
    let c := set_cl_q (MkQueues lk 1 rqcq sqcq rq sq dt) c in
    (0, MkClients (<[i := c]> (cl_ctxs s)) (is_stop s), w).

(** ** The ping RPC *)

(** The Ethernet header of the buffer at [sq_data]; the last byte of both
    addresses is shifted by the thread's index. *)
Definition prepare_packet (m : mem) (sq_data thread_index : Z) : mem :=
  let m := wrbytes m (sq_data + 6) CLIENT_ADDR in
  let m := st8 m (sq_data + 6 + 5) (rd8 m (sq_data + 6 + 5) + thread_index) in
  let m := wrbytes m sq_data SERVER_ADDR in
  let m := st8 m (sq_data + 5) (rd8 m (sq_data + 5) + thread_index) in
  st16 m (sq_data + 12) (cpu_to_be16 0x0800).

(** [get_next_send_buf] on the context of a thread. *)
Definition next_buf (q : dev_queues) : Z * dev_queues :=
  let '(buf, dt) := get_next_send_buf (dt_ctx q) LOG_WQ_DATA_ENTRY_BSIZE in
  (buf, set_dt_ctx dt q).

Definition send_ping_packet (c : client_context) (w : World F) : client_context * World F :=
  let '(sq_data, q) := next_buf (cl_q c) in
  let w := set_mem (st8 (w_mem w) (sq_data + 14) RPC_PING) w in
  let '(q, w) := send_packet finish_send_packet q sq_data (14 + sizeof_PingRPCReq) w in
  (set_cl_q q c, w).

Fixpoint fill_headers (n : nat) (thread_index : Z) (q : dev_queues) (m : mem) : dev_queues * mem :=
  match n with
  | O => (q, m)
  | S n => let '(sq_data, q) := next_buf q in
           fill_headers n thread_index q (prepare_packet m sq_data thread_index)
  end.

(** One turn of the loop over the threads. *)
Definition ping_thread (i : Z) (c : client_context) (w : World F) : client_context * World F :=
  if is_initalized (cl_q c) =? 0 then (c, w)
  else
    let '(q, m) :=
      fill_headers (Z.to_nat (LOG2VALUE LOG_SQ_RING_DEPTH)) i (cl_q c) (w_mem w) in
    send_ping_packet (set_cl_q q c) (set_mem m w).

Fixpoint ping_threads (cs : list client_context) (i : Z) (w : World F)
    : list client_context * World F :=
  match cs with
  | [] => ([], w)
  | c :: cs => let '(c, w) := ping_thread i c w in
               let '(cs, w) := ping_threads cs (i + 1) w in
               (c :: cs, w)
  end.

Definition dpa_small_bank_client_device_ping_packet (s : client) (w : World F)
    : Z * client * World F :=
  let '(cs, w) := ping_threads (cl_ctxs s) 0 w in
  (0, MkClients cs (is_stop s), w).

Definition dpa_small_bank_client_device_stop (s : client) : Z * client :=
  (0, MkClients (cl_ctxs s) 1).

(** ** Transactions *)

Definition random_user1 (w : World F) : Z * World F :=
  let '(v, w) := thread_inst_ret w in (u64 v mod NUM_ACCOUNTS, w).
Definition random_user2 (w : World F) : Z * World F :=
  let '(v, w) := thread_cycles w in (u64 v mod NUM_ACCOUNTS, w).

(** The flags [changed_*] that a branch does not name keep their value. *)
Definition init_transition (t : Transition) (index : Z) (w : World F) : Transition * World F :=
  let t := set_t_users 0 0 t in
  let t := set_t_locks 0 0 0 0 t in
  let t := set_t_req_id (u32 index) t in
  let ch1 t := set_t_changed 1 (t_changed_user1_saving t) (t_changed_user2_checking t)
                 (t_changed_user2_saving t) t in
  if index * 100 <? 15 * CONCURRENCY then
    let t := set_t_type Amalgamate t in
    let '(u1, w) := random_user1 w in
    let '(u2, w) := random_user2 w in
    let t := set_t_locks WRITE_LOCK 0 0 WRITE_LOCK (set_t_users u1 u2 t) in
    (set_t_changed 1 (t_changed_user1_saving t) (t_changed_user2_checking t) 1 t, w)
  else if index * 100 <? 30 * CONCURRENCY then
    let t := set_t_type Balance t in
    let '(u1, w) := random_user1 w in
    (set_t_users u1 u1 t, w)
  else if index * 100 <? 45 * CONCURRENCY then
    let t := set_t_type DepositChecking t in
    let '(u1, w) := random_user1 w in
    (ch1 (set_t_locks WRITE_LOCK 0 0 0 (set_t_users u1 u1 t)), w)
  else if index * 100 <? 70 * CONCURRENCY then
    let t := set_t_type SendPayment t in
    let '(u1, w) := random_user1 w in
    let '(u2, w) := random_user2 w in
    let t := set_t_locks WRITE_LOCK 0 WRITE_LOCK 0 (set_t_users u1 u2 t) in
    (set_t_changed 1 (t_changed_user1_saving t) 1 (t_changed_user2_saving t) t, w)
  else if index * 100 <? 85 * CONCURRENCY then
    let t := set_t_type TransactSavings t in
    let '(u1, w) := random_user1 w in
    let t := set_t_locks 0 WRITE_LOCK 0 0 (set_t_users u1 0 t) in
    (set_t_changed (t_changed_user1_checking t) 1 (t_changed_user2_checking t)
       (t_changed_user2_saving t) t, w)
  else
    let t := set_t_type WriteCheck t in
    let '(u1, w) := random_user1 w in
    (ch1 (set_t_locks WRITE_LOCK 0 0 0 (set_t_users u1 0 t)), w).

(** The GET_DATA request of a transaction, written field by field at [p]. *)
Definition data_req (t : Transition) : GetDataReq :=
  {| dq_type := RPC_GET_DATA; dq_req_number := t_req_id t;
     dq_user1_id := t_user1_id t; dq_user2_id := t_user2_id t;
     get_user1_checking := t_lock_user1_checking t; get_user1_saving := t_lock_user1_saving t;
     get_user2_checking := t_lock_user2_checking t; get_user2_saving := t_lock_user2_saving t |}.

Definition reload_transition (t : Transition) (m : mem) (p : Z) : mem :=
  write_GetDataReq m p (data_req t).

Fixpoint init_transitions (ts : list Transition) (i : Z) (w : World F)
    : list Transition * World F :=
  match ts with
  | [] => ([], w)
  | t :: ts => let '(t, w) := init_transition t i w in
               let '(ts, w) := init_transitions ts (i + 1) w in
               (t :: ts, w)
  end.

Fixpoint send_transitions (ts : list Transition) (q : dev_queues) (w : World F)
    : dev_queues * World F :=
  match ts with
  | [] => (q, w)
  | t :: ts =>
      let '(sq_data, q) := next_buf q in
      let w := set_mem (reload_transition t (w_mem w) (sq_data + 14)) w in
      let '(sq, w) := prepare_send_packet (sq_ctx q) sq_data (14 + sizeof_GetDataReq) w in
      send_transitions ts (set_sq_ctx sq q) w
  end.

(** ** The replies *)

Definition on_ping (c : client_context) (w : World F) : client_context * World F :=
  let '(ts, w) := init_transitions (transitions c) 0 w in
  let '(q, w) := send_transitions ts (cl_q c) w in
  let '(sq, w) := finish_send_packet_batch (sq_ctx q) CONCURRENCY w in
  (MkClient (set_sq_ctx sq q) (cl_packets_count c) (cl_req_id c) ts, w).

Definition on_get_data (rq_data : Z) (c : client_context) (w : World F)
    : client_context * World F :=
  let resp := read_GetDataResp (w_mem w) (rq_data + 14) in
  let i := trans_slot (dr_req_number resp) in
  let c := upd_trans i (set_t_balances (dr_user1_checking resp) (dr_user1_saving resp)
                          (dr_user2_checking resp) (dr_user2_saving resp)) c in
  let t := trans_at c i in
  let '(sq_data, q) := next_buf (cl_q c) in
  let p := sq_data + 14 in
  let m := st8 (w_mem w) p RPC_GET_LOCK in
  let m := st32 m (p + 4) (ld32 m (rq_data + 14 + 4)) in
  let m := st64 m (p + 8) (t_user1_id t) in
  let m := st64 m (p + 16) (t_user2_id t) in
  let m := st8 m (p + 24) (t_lock_user1_checking t) in
  let m := st8 m (p + 25) (t_lock_user1_saving t) in
  let m := st8 m (p + 26) (t_lock_user2_checking t) in
  let m := st8 m (p + 27) (t_lock_user2_saving t) in
  let '(q, w) := send_packet finish_send_packet q sq_data (14 + sizeof_GetLockReq) (set_mem m w) in
  (set_cl_q q c, w).

(** New users and the next number for the transaction that ended, and its
    GET_DATA request at [sq_data]; [finish_send_packet] follows in the caller. *)
Definition restart (req_number sq_data : Z) (i : nat) (c : client_context) (w : World F)
    : client_context * World F :=
  let '(u1, w) := random_user1 w in
  let '(u2, w) := random_user2 w in
  let c := upd_trans i (fun t => set_t_req_id (u32 (req_number + CONCURRENCY)) (set_t_users u1 u2 t)) c in
  (c, set_mem (reload_transition (trans_at c i) (w_mem w) (sq_data + 14)) w).

(** The FINISH request: the four balances of the request are not written. *)
Definition write_finish (t : Transition) (rq_data : Z) (m : mem) (p : Z) : mem :=
  let m := st8 m p RPC_FINISH in
  let m := st32 m (p + 4) (ld32 m (rq_data + 14 + 4)) in
  let m := st64 m (p + 8) (t_user1_id t) in
  let m := st64 m (p + 16) (t_user2_id t) in
  let m := st8 m (p + 60) (t_lock_user1_checking t) in
  let m := st8 m (p + 61) (t_lock_user1_saving t) in
  let m := st8 m (p + 62) (t_lock_user2_checking t) in
  let m := st8 m (p + 63) (t_lock_user2_saving t) in
  let m := st8 m (p + 56) (t_changed_user1_checking t) in
  let m := st8 m (p + 57) (t_changed_user1_saving t) in
  let m := st8 m (p + 58) (t_changed_user2_checking t) in
  st8 m (p + 59) (t_changed_user2_saving t).

Definition on_get_lock (rq_data : Z) (c : client_context) (w : World F)
    : client_context * World F :=
  let resp := read_GetLockResp (w_mem w) (rq_data + 14) in
  let i := trans_slot (lr_req_number resp) in
  let '(sq_data, q) := next_buf (cl_q c) in
  let c := set_cl_q q c in
  if truthy (lr_success resp) then
    let m := write_finish (trans_at c i) rq_data (w_mem w) (sq_data + 14) in
    let '(q, w) := send_packet finish_send_packet (cl_q c) sq_data (14 + sizeof_FinishReq)
                     (set_mem m w) in
    (set_cl_q q c, w)
  else
    let '(c, w) := restart (lr_req_number resp) sq_data i c w in
    let '(q, w) := send_packet finish_send_packet (cl_q c) sq_data (14 + sizeof_GetDataReq) w in
    (set_cl_q q c, w).

Definition on_finish (rq_data : Z) (c : client_context) (w : World F)
    : client_context * World F :=
  let resp := read_FinishResp (w_mem w) (rq_data + 14) in
  let i := trans_slot (fr_req_number resp) in
  let '(sq_data, q) := next_buf (cl_q c) in
  let '(c, w) := restart (fr_req_number resp) sq_data i (set_cl_q q c) w in
  let '(q, w) := send_packet finish_send_packet (cl_q c) sq_data (14 + sizeof_GetDataReq) w in
  (set_cl_q q c, w).

Definition process_packet (c : client_context) (w : World F) : client_context * World F :=
  let '(rq_data, data_sz) := receive_packet (rqcq_ctx (cl_q c)) (rq_ctx (cl_q c)) w in
  let type := rd8 (w_mem w) (rq_data + 14) in
  if type =? RPC_PING then on_ping c w
  else if type =? RPC_GET_DATA then on_get_data rq_data c w
  else if type =? RPC_GET_LOCK then on_get_lock rq_data c w
  else if type =? RPC_FINISH then on_finish rq_data c w
  else (c, w).

Definition client_turn (c : client_context) (w : World F) : client_context * World F :=
  let '(c, w) := process_packet c w in
  let '(q, w) := step_queues (cl_q c) w in
  (set_cl_q q c, w).

Definition dpa_small_bank_client_device_event_handler (fuel : nat)
    (env : list (Z * (World F -> World F))) (index : Z) (s : client) (w : World F)
    : handler_result client :=
  match cl_ctxs s !! Z.to_nat index with
  | None => OutOfBounds
  | Some c =>
      if is_initalized (cl_q c) =? 0 then Rescheduled s w
      else
        let put c := MkClients (<[Z.to_nat index := c]> (cl_ctxs s)) (is_stop s) in
        match poll_until (fun c => rqcq_ctx (cl_q c)) client_turn fuel env c w with
        | Some (true, (c, w)) => Returned (put c) w
        | Some (false, (c, w)) => Polling (put c) w
        | None => NoFuel
        end
  end.

End Client.

(** ** What the client sends *)

(** A transaction whose fields are in the ranges of their C types. *)
Record wf_trans (t : Transition) : Prop := MkWfTrans {
  wft_users : 0 <= t_user1_id t < 2 ^ 64 /\ 0 <= t_user2_id t < 2 ^ 64;
  wft_locks : 0 <= t_lock_user1_checking t < 2 ^ 8 /\ 0 <= t_lock_user1_saving t < 2 ^ 8 /\
              0 <= t_lock_user2_checking t < 2 ^ 8 /\ 0 <= t_lock_user2_saving t < 2 ^ 8;
  wft_changed : 0 <= t_changed_user1_checking t < 2 ^ 8 /\ 0 <= t_changed_user1_saving t < 2 ^ 8 /\
                0 <= t_changed_user2_checking t < 2 ^ 8 /\ 0 <= t_changed_user2_saving t < 2 ^ 8;
  wft_req : 0 <= t_req_id t < 2 ^ 32;
}.

Definition valid_user (u : Z) : Prop := 0 <= u < NUM_ACCOUNTS.

(** Two packet buffers of [2^LOG_WQ_DATA_ENTRY_BSIZE] bytes that do not overlap. *)
Definition disjoint_bufs (a b : Z) : Prop := a + 1024 <= b \/ b + 1024 <= a.

(** The lock request of transaction [t] with number [n]. *)
Definition lock_req (t : Transition) (n : Z) : GetLockReq :=
  {| lq_type := RPC_GET_LOCK; lq_req_number := n;
     lq_user1_id := t_user1_id t; lq_user2_id := t_user2_id t;
     lock_user1_checking := t_lock_user1_checking t; lock_user1_saving := t_lock_user1_saving t;
     lock_user2_checking := t_lock_user2_checking t; lock_user2_saving := t_lock_user2_saving t |}.

(** The finish request of [t], with the balances the buffer at [p] held before. *)
Definition finish_req (t : Transition) (n : Z) (m : mem) (p : Z) : FinishReq :=
  {| fq_type := RPC_FINISH; fq_req_number := n;
     fq_user1_id := t_user1_id t; fq_user2_id := t_user2_id t;
     fq_user1_checking := ld64 m (p + 24); fq_user1_saving := ld64 m (p + 32);
     fq_user2_checking := ld64 m (p + 40); fq_user2_saving := ld64 m (p + 48);
     changed_user1_checking := t_changed_user1_checking t;
     changed_user1_saving := t_changed_user1_saving t;
     changed_user2_checking := t_changed_user2_checking t;
     changed_user2_saving := t_changed_user2_saving t;
     unlock_user1_checking := t_lock_user1_checking t;
     unlock_user1_saving := t_lock_user1_saving t;
     unlock_user2_checking := t_lock_user2_checking t;
     unlock_user2_saving := t_lock_user2_saving t |}.

Lemma loadle_range32 m a : 0 <= loadle m a 4 < 2 ^ 32.
Proof. exact (loadle_range m a 4). Qed.

Lemma write_finish_reads t rq m p :
  wf_trans t -> disjoint_bufs rq (p - 14) ->
  read_FinishReq (write_finish t rq m p) p = finish_req t (ld32 m (rq + 14 + 4)) m p.
Proof.
  intros [[] (L1 & L2 & L3 & L4) (C1 & C2 & C3 & C4) _] Hd. unfold disjoint_bufs in Hd.
  pose proof (loadle_range32 m (rq + 14 + 4)). unfold read_FinishReq, write_finish, finish_req.
  assert (ld32 (st8 m p RPC_FINISH) (rq + 14 + 4) = ld32 m (rq + 14 + 4)) as ->.
  { unfold ld32, st8. apply loadle_storele_out. lia. }
  f_equal; msg_field.
Qed.

Lemma data_req_reads t m p :
  wf_trans t -> read_GetDataReq (reload_transition t m p) p = data_req t.
Proof.
  intros [[] (L1 & L2 & L3 & L4) _ R]. apply read_write_GetDataReq.
  by unfold wf_GetDataReq, data_req.
Qed.

Section Replies.
Context {F : FlexioDev} `{!FlexioDevLaws F}.

(** The client is about to process a packet of type [ty] found at [rq]; the
    next transmit buffer is [buf], and [n] sends happened before. *)
Record at_reply (ty rq sz buf n lk : Z) (c : client_context) (w : World F) : Prop := MkAtReply {
  ar_sq : sq_rep 7 n lk (sq_ctx (cl_q c)) w;
  ar_recv : receive_packet (rqcq_ctx (cl_q c)) (rq_ctx (cl_q c)) w = (rq, sz);
  ar_type : rd8 (w_mem w) (rq + 14) = ty;
  ar_buf : fst (next_buf (cl_q c)) = buf;
  ar_disjoint : disjoint_bufs rq buf;
}.

(** One packet of [sz] bytes left from [buf]. *)
Definition sent (buf sz n lk : Z) (c : client_context) (w w' : World F) : Prop :=
  posted w' (data_slot 7 (sq_ctx (cl_q c)) n) buf sz lk /\
  w_trace w' = w_trace w ++
    [EvMemoryWriteback;
     EvSqRingDb (u32 (sq_pi (sq_ctx (cl_q c)) + 1)) (sq_number (sq_ctx (cl_q c)))].

(** Sending from the next buffer after writing memory [m]. *)
Lemma next_buf_send buf sz n lk c (w w1 : World F) q q' w' :
  sq_rep 7 n lk (sq_ctx (cl_q c)) w -> next_buf (cl_q c) = (buf, q) ->
  w_sq w1 = w_sq w -> w_trace w1 = w_trace w ->
  send_packet finish_send_packet q buf sz w1 = (q', w') ->
  sent buf sz n lk c w w' /\ w_mem w' = w_mem w1 /\ dt_ctx q' = dt_ctx q.
Proof.
  intros R Eb Hs Ht E. unfold next_buf in Eb. destruct (get_next_send_buf _ _) as [b dt].
  injection Eb as <- <-.
  assert (sq_rep 7 n lk (sq_ctx (set_dt_ctx dt (cl_q c))) w1) as R1
    by (by eapply sq_rep_frame; [|exact R]).
  destruct (send_packet_posts 7 ltac:(lia) _ _ _ _ _ _ _ _ _ _ is_finish_dpa R1 E)
    as (Hq & _ & _ & Hm & _ & _ & _ & Hp & Htr). unfold sent.
  rewrite Ht in Htr. split; [done|]. split; [done|]. by rewrite Hq.
Qed.

Lemma trans_at_upd i g c j :
  (i < length (transitions c))%nat ->
  trans_at (upd_trans i g c) j = if decide (i = j) then g (trans_at c j) else trans_at c j.
Proof.
  intros Hi. unfold trans_at, upd_trans. cbn. case_decide as E.
  - subst. rewrite list_lookup_alter_eq.
    destruct (lookup_lt_is_Some_2 _ _ Hi) as [t ->]. done.
  - by rewrite list_lookup_alter_ne.
Qed.

Lemma trans_slot_bound n : (trans_slot n < 64)%nat.
Proof. unfold trans_slot, CONCURRENCY. mlia. Qed.

(** The number a slot moves on to selects the same slot. *)
Lemma trans_slot_next n : trans_slot (u32 (n + CONCURRENCY)) = trans_slot n.
Proof.
  unfold trans_slot, CONCURRENCY. f_equal. change 64 with (2 ^ 6) at 2 3. unfold wrapu.
  rewrite mod_pow2_mod by lia. mlia.
Qed.

Lemma random_users_range (w : World F) u1 u2 w1 w2 :
  random_user1 w = (u1, w1) -> random_user2 w1 = (u2, w2) ->
  valid_user u1 /\ valid_user u2 /\ w_mem w2 = w_mem w /\ w_sq w2 = w_sq w /\
  w_trace w2 = w_trace w.
Proof.
  unfold random_user1, random_user2, thread_inst_ret, thread_cycles, valid_user.
  intros [= <- <-] [= <- <-].
  pose proof (Z.mod_pos_bound (u64 (inst_ret_at (w_tick w))) NUM_ACCOUNTS ltac:(done)).
  pose proof (Z.mod_pos_bound (u64 (cycles_at (w_tick (tick w)))) NUM_ACCOUNTS ltac:(done)).
  done.
Qed.

(** Restarting a slot: valid new users, the next number of the slot, the locks
    of the old transaction, and the request in the buffer. *)
Lemma restart_spec rn sq_data i c (w : World F) c' w' :
  (i < length (transitions c))%nat -> wf_trans (trans_at c i) -> restart rn sq_data i c w = (c', w') ->
  exists u1 u2, valid_user u1 /\ valid_user u2 /\
    trans_at c' i = set_t_req_id (u32 (rn + CONCURRENCY)) (set_t_users u1 u2 (trans_at c i)) /\
    (forall j, j <> i -> trans_at c' j = trans_at c j) /\ cl_q c' = cl_q c /\
    read_GetDataReq (w_mem w') (sq_data + 14) = data_req (trans_at c' i) /\
    w_sq w' = w_sq w /\ w_trace w' = w_trace w.
Proof.
  intros Hi Hwf E. unfold restart in E. destruct (random_user1 w) as [u1 w1] eqn:E1.
  destruct (random_user2 w1) as [u2 w2] eqn:E2.
  destruct (random_users_range _ _ _ _ _ E1 E2) as (V1 & V2 & Hm & Hs & Ht).
  injection E as <- <-. exists u1, u2.
  assert (forall j, trans_at (upd_trans i (fun t => set_t_req_id (u32 (rn + CONCURRENCY))
    (set_t_users u1 u2 t)) c) j = if decide (i = j) then set_t_req_id (u32 (rn + CONCURRENCY))
    (set_t_users u1 u2 (trans_at c j)) else trans_at c j) as Hu by (intros; by apply trans_at_upd).
  split_and!; try done.
  - by rewrite Hu, decide_True.
  - intros j Hj. by rewrite Hu, decide_False.
  - cbn [w_mem set_mem]. apply data_req_reads. rewrite Hu, decide_True by done.
    pose proof (wrapu_range 32 (rn + CONCURRENCY) ltac:(lia)). unfold valid_user, NUM_ACCOUNTS in *.
    destruct (trans_at c i), Hwf as [[] ? ? ?]. cbn in *. split; cbn; try done; lia.
Qed.

End Replies.

(** A GET_DATA reply makes the client ask for the locks.  The balances are
    kept in the slot the reply's number selects, the request in the next
    transmit buffer carries the same number and the users and locks of that
    slot, it is posted with its exact length and one doorbell, and no other slot
    changes. *)
Lemma client_data_reply {F : FlexioDev} `{!FlexioDevLaws F} (rq sz buf n lk : Z)
    (c c' : client_context) (w w' : World F) :
  let resp := read_GetDataResp (w_mem w) (rq + 14) in
  let i := trans_slot (dr_req_number resp) in
  at_reply RPC_GET_DATA rq sz buf n lk c w ->
  length (transitions c) = 64%nat -> wf_trans (trans_at c i) ->
  process_packet c w = (c', w') ->
  read_GetLockReq (w_mem w') (buf + 14) = lock_req (trans_at c i) (dr_req_number resp) /\
  sent buf (14 + 32) n lk c w w' /\
  trans_at c' i = set_t_balances (dr_user1_checking resp) (dr_user1_saving resp)
                    (dr_user2_checking resp) (dr_user2_saving resp) (trans_at c i) /\
  (forall j, j <> i -> trans_at c' j = trans_at c j).
Proof.
  intros resp i [R Hr Hty Hb Hd] Hlen Hwf E. unfold process_packet in E. rewrite Hr, Hty in E.
  cbn [Z.eqb RPC_GET_DATA RPC_PING] in E. unfold on_get_data in E. fold resp in E. fold i in E.
  pose proof (trans_slot_bound (dr_req_number resp)) as Hi. fold i in Hi.
  set (g := set_t_balances _ _ _ _) in E.
  assert (forall j, trans_at (upd_trans i g c) j =
    if decide (i = j) then g (trans_at c j) else trans_at c j) as Hu
    by (intros; apply trans_at_upd; lia).
  rewrite Hu, decide_True in E by done. cbn [cl_q upd_trans set_transitions] in E.
  destruct (next_buf (cl_q c)) as [buf' q] eqn:Eb. cbn in Hb. subst buf'.
  destruct (send_packet _ _ _ _ _) as [q' w2] eqn:Es. injection E as <- <-.
  eapply next_buf_send in Es as (Hs & Hm & _); [|exact R|exact Eb|done|done].
  split; [|split; [exact Hs|split]].
  - rewrite Hm. cbn [w_mem set_mem]. unfold disjoint_bufs in Hd.
    pose proof (loadle_range32 (w_mem w) (rq + 14 + 4)).
    replace (ld32 (st8 (w_mem w) (buf + 14) RPC_GET_LOCK) (rq + 14 + 4))
      with (ld32 (w_mem w) (rq + 14 + 4))
      by (unfold ld32, st8; rewrite loadle_storele_out by lia; done).
    destruct Hwf as [[] (L1 & L2 & L3 & L4) _ _].
    destruct (trans_at c i) eqn:Et. cbn in L1, L2, L3, L4. cbn [g set_t_balances t_user1_id t_user2_id
      t_lock_user1_checking t_lock_user1_saving t_lock_user2_checking t_lock_user2_saving] in *.
    unfold read_GetLockReq, lock_req. cbn in *. f_equal; msg_field.
  - unfold trans_at, set_cl_q. cbn [transitions]. fold (trans_at (upd_trans i g c) i).
    by rewrite Hu, decide_True.
  - intros j Hj. unfold trans_at, set_cl_q. cbn [transitions]. fold (trans_at (upd_trans i g c) j).
    by rewrite Hu, decide_False.
Qed.

(** A granted GET_LOCK makes the client finish.  The FINISH request
    carries the number and users, releases the locks the slot asked for and
    declares the slot's changed balances, but the balance fields are the bytes
    the transmit buffer happened to hold: the code that computes them is
    commented out. *)
Lemma client_lock_granted {F : FlexioDev} `{!FlexioDevLaws F} (rq sz buf n lk : Z)
    (c c' : client_context) (w w' : World F) :
  let resp := read_GetLockResp (w_mem w) (rq + 14) in
  let i := trans_slot (lr_req_number resp) in
  at_reply RPC_GET_LOCK rq sz buf n lk c w ->
  wf_trans (trans_at c i) -> truthy (lr_success resp) = true ->
  process_packet c w = (c', w') ->
  read_FinishReq (w_mem w') (buf + 14) =
    finish_req (trans_at c i) (lr_req_number resp) (w_mem w) (buf + 14) /\
  sent buf (14 + 64) n lk c w w' /\ transitions c' = transitions c.
Proof.
  intros resp i [R Hr Hty Hb Hd] Hwf Hs E. unfold process_packet in E. rewrite Hr, Hty in E.
  cbn [Z.eqb RPC_GET_LOCK RPC_GET_DATA RPC_PING] in E. unfold on_get_lock in E.
  fold resp in E. fold i in E.
  destruct (next_buf (cl_q c)) as [buf' q] eqn:Eb. cbn in Hb. subst buf'. rewrite Hs in E.
  change (trans_at (set_cl_q q c) i) with (trans_at c i) in E.
  destruct (send_packet _ _ _ _ _) as [q' w2] eqn:Es. injection E as <- <-.
  eapply next_buf_send in Es as (Hsent & Hm & _); [|exact R|exact Eb|done|done].
  split; [|done]. rewrite Hm. cbn [w_mem set_mem].
  rewrite write_finish_reads; [done|done|]. by replace (buf + 14 - 14) with buf by lia.
Qed.

(** A refused GET_LOCK and a FINISH reply both start the slot's next
    transaction: two users inside the tables, the number advanced by the number
    of slots (so that it selects the same slot), the locks kept, and its
    GET_DATA request sent from the next buffer. *)
Theorem client_restarts {F : FlexioDev} `{!FlexioDevLaws F} (ty rq sz buf n lk : Z)
    (c c' : client_context) (w w' : World F) :
  let rn := ld32 (w_mem w) (rq + 14 + 4) in
  let i := trans_slot rn in
  at_reply ty rq sz buf n lk c w ->
  ty = RPC_FINISH \/
    (ty = RPC_GET_LOCK /\ truthy (lr_success (read_GetLockResp (w_mem w) (rq + 14))) = false) ->
  length (transitions c) = 64%nat -> wf_trans (trans_at c i) ->
  process_packet c w = (c', w') ->
  exists u1 u2, valid_user u1 /\ valid_user u2 /\
    trans_at c' i = set_t_req_id (u32 (rn + CONCURRENCY)) (set_t_users u1 u2 (trans_at c i)) /\
    trans_slot (t_req_id (trans_at c' i)) = i /\
    (forall j, j <> i -> trans_at c' j = trans_at c j) /\
    read_GetDataReq (w_mem w') (buf + 14) = data_req (trans_at c' i) /\
    sent buf (14 + 32) n lk c w w'.
Proof.
  intros rn i [R Hr Hty Hb Hd] Hcase Hlen Hwf E.
  assert ((let '(sq_data, q) := next_buf (cl_q c) in
           let '(c1, w1) := restart rn sq_data i (set_cl_q q c) w in
           let '(q2, w2) := send_packet finish_send_packet (cl_q c1) sq_data (14 + 32) w1 in
           (set_cl_q q2 c1, w2)) = (c', w')) as E'.
  { unfold process_packet in E. rewrite Hr, Hty in E. destruct Hcase as [->|[-> Hs]];
      cbn [Z.eqb RPC_GET_LOCK RPC_GET_DATA RPC_PING RPC_FINISH Pos.eqb] in E.
    - exact E.
    - unfold on_get_lock in E. destruct (next_buf (cl_q c)) as [b q]. by rewrite Hs in E. }
  clear E. destruct (next_buf (cl_q c)) as [buf' q] eqn:Eb. cbn in Hb. subst buf'.
  destruct (restart rn buf i (set_cl_q q c) w) as [c1 w1] eqn:Er.
  pose proof (trans_slot_bound rn) as Hi. fold i in Hi.
  destruct (restart_spec rn buf i (set_cl_q q c) w c1 w1 ltac:(cbn; lia) Hwf Er)
    as (u1 & u2 & V1 & V2 & Ht & Ho & Hq & Hd1 & Hs & Htr).
  rewrite Hq in E'. cbn [cl_q set_cl_q] in E'.
  destruct (send_packet _ _ _ _ _) as [q' w2] eqn:Es. injection E' as <- <-.
  destruct (next_buf_send _ _ _ _ _ _ _ _ _ _ R Eb Hs Htr Es) as (Hsent & Hm & _).
  exists u1, u2. change (trans_at (set_cl_q q' c1)) with (trans_at c1).
  change (trans_at (set_cl_q q c)) with (trans_at c) in *. rewrite Hm.
  split_and!; try done. rewrite Ht. destruct (trans_at c i). cbn [t_req_id set_t_req_id set_t_users].
  apply trans_slot_next.
Qed.

(** A client with 64 slots and a reply in the buffer at 70000. *)
Definition demo_client : client_context :=
  MkClient (MkQueues 0 1 (MkCq 3 4096 (4096, 0) 0 1 64 127) zero_cq (MkRq 5 16384 128 127)
             (MkSq 6 0 8192 256 0 511) (MkDt 90000 0 127)) 0 0
    (replicate 64 (MkTrans 7 8 2 0 2 0 1 0 1 0 5 3 0 0 0 0 0)).

Definition demo_reply (ty success : Z) : World ref_flexio :=
  MkWorld (F := ref_flexio) (wrbytes ∅ 70014 [ty; 0; 0; 0; 5; 0; 0; 0; 0; 0; 0; 0; success]) ∅
    {[ (16384, 0) := 70000 ]} ∅ 0%nat None [].

Lemma demo_client_sq_rep ty success :
  sq_rep (F := ref_flexio) 7 0 0 (sq_ctx (cl_q demo_client)) (demo_reply ty success).
Proof. split; [reflexivity|reflexivity|]. intros k _. reflexivity. Qed.

Lemma demo_trans_wf : wf_trans (trans_at demo_client 5).
Proof. split; cbn; lia. Qed.

Lemma client_restarts_witness :
  trans_slot (t_req_id (trans_at (fst (process_packet demo_client (demo_reply 3 1))) 5)) = 5%nat.
Proof.
  destruct (process_packet demo_client (demo_reply 3 1)) as [c' w'] eqn:E.
  destruct (client_restarts (F := ref_flexio) 3 70000 0 90000 0 0 demo_client c' (demo_reply 3 1) w')
    as (u1 & u2 & _ & _ & _ & H & _).
  - split; [apply demo_client_sq_rep|reflexivity|reflexivity|reflexivity|left; lia].
  - left. reflexivity.
  - reflexivity.
  - exact demo_trans_wf.
  - exact E.
  - exact H.
Defined.

(** ** The ping RPC *)

(** The fourteen header bytes of thread [i]. *)
Definition header (i : Z) : list Z :=
  [1; 1; 1; 1; 1; u8 (1 + i); 2; 1; 1; 1; 1; u8 (1 + i); 8; 0].

Lemma prepare_packet_bytes {F : FlexioDev} `{!FlexioDevLaws F} m s i b :
  rd8 (prepare_packet m s i) b =
  if decide (s <= b < s + 14) then default 0 (header i !! Z.to_nat (b - s)) else rd8 m b.
Proof.
  unfold prepare_packet, st16, st8. rewrite be16_bswap.
  repeat (rewrite rd8_storele || rewrite rd8_wrbytes).
  change (length SERVER_ADDR) with 6%nat. change (length CLIENT_ADDR) with 6%nat.
  change (bswap 2 2048) with 8.
  assert (forall a b, s + a - (s + b) = a - b) as Hsub by lia.
  destruct (decide (s <= b < s + 14)) as [H14|H14]; [|by decide_lia].
  assert (exists k, b = s + k /\ 0 <= k < 14) as (k & -> & Hk) by (exists (b - s); lia).
  rewrite <- !Z.add_assoc, !Hsub, !Z.add_simpl_l.
  assert (k = 0 \/ k = 1 \/ k = 2 \/ k = 3 \/ k = 4 \/ k = 5 \/ k = 6 \/ k = 7 \/ k = 8 \/ k = 9 \/
          k = 10 \/ k = 11 \/ k = 12 \/ k = 13) as Hc by lia.
  destruct_or! Hc; subst k; decide_lia; cbn;
    rewrite ?Z.div_1_r; done.
Qed.

Lemma next_buf_entry q base j :
  dt_ctx q = MkDt base (u32 j) 127 ->
  next_buf q = (base + (j mod 128) * 1024, set_dt_ctx (MkDt base (u32 (j + 1)) 127) q).
Proof.
  intros E. unfold next_buf. rewrite E. change 127 with (2 ^ 7 - 1).
  by rewrite (next_send_buf base 7 LOG_WQ_DATA_ENTRY_BSIZE) by done.
Qed.

(** Filling entries [j], ..., [j + n - 1]. *)
Lemma fill_headers_spec {F : FlexioDev} `{!FlexioDevLaws F} n i q m base j q' m' :
  dt_ctx q = MkDt base (u32 j) 127 -> 0 <= j -> j + Z.of_nat n <= 128 ->
  fill_headers n i q m = (q', m') ->
  q' = set_dt_ctx (MkDt base (u32 (j + Z.of_nat n)) 127) q /\
  (forall k o, j <= k < j + Z.of_nat n -> 0 <= o < 14 ->
     rd8 m' (base + k * 1024 + o) = default 0 (header i !! Z.to_nat o)) /\
  (forall b, (forall k, j <= k < j + Z.of_nat n -> b < base + k * 1024 \/ base + k * 1024 + 14 <= b) ->
     rd8 m' b = rd8 m b).
Proof.
  revert q m j. induction n as [|n IH]; intros q m j Hq Hj Hn E; cbn [fill_headers] in E.
  { injection E as <- <-. split; [|split; [lia|done]]. rewrite Z.add_0_r, <- Hq. by destruct q. }
  rewrite (next_buf_entry _ _ _ Hq), Z.mod_small in E by lia.
  apply (IH _ _ (j + 1)) in E as (-> & H1 & H2); [|done|lia|lia].
  split; [unfold set_dt_ctx; cbn [dt_ctx]; do 3 f_equal; lia|]. split.
  - intros k o Hk Ho. destruct (decide (k = j)) as [->|Hne]; [|apply H1; lia].
    rewrite H2 by (intros; nia). rewrite prepare_packet_bytes, decide_True by lia.
    do 3 f_equal. lia.
  - intros b Hb. rewrite H2 by (intros; apply Hb; lia).
    rewrite prepare_packet_bytes, decide_False; [done|]. specialize (Hb j). lia.
Qed.

#[local] Opaque fill_headers.

(** The ping RPC on an initialised thread writes the thread's Ethernet
    header into all 128 transmit buffers, marks the first buffer as a ping and
    sends it, with one doorbell; the other bytes of memory keep their value, so
    that later requests only fill in the payload. *)
Theorem ping_fills_buffers {F : FlexioDev} `{!FlexioDevLaws F} (i n lk base : Z)
    (c c' : client_context) (w w' : World F) :
  is_initalized (cl_q c) = 1 -> dt_ctx (cl_q c) = MkDt base 0 127 ->
  sq_rep 7 n lk (sq_ctx (cl_q c)) w ->
  ping_thread i c w = (c', w') ->
  (forall k o, 0 <= k < 128 -> 0 <= o < 14 ->
     rd8 (w_mem w') (base + k * 1024 + o) = default 0 (header i !! Z.to_nat o)) /\
  rd8 (w_mem w') (base + 14) = RPC_PING /\
  sent base (14 + 16) n lk c w w' /\
  dt_ctx (cl_q c') = MkDt base 129 127 /\
  (forall b, b <> base + 14 ->
     (forall k, 0 <= k < 128 -> b < base + k * 1024 \/ base + k * 1024 + 14 <= b) ->
     rd8 (w_mem w') b = rd8 (w_mem w) b).
Proof.
  intros Hi Hdt R E. unfold ping_thread in E.
  destruct (is_initalized (cl_q c) =? 0) eqn:Ez; [rewrite Hi in Ez; done|].
  set (N := Z.to_nat (LOG2VALUE LOG_SQ_RING_DEPTH)) in E.
  assert (Z.of_nat N = 128) as HN by reflexivity. clearbody N.
  destruct (fill_headers N i (cl_q c) (w_mem w)) as [q m] eqn:Ef.
  apply (fill_headers_spec _ _ _ _ base 0) in Ef as (-> & Hh & Ho); [|done|lia|lia].
  rewrite Z.add_0_l, HN in *. unfold send_ping_packet in E.
  destruct (next_buf _) as [buf q] eqn:Eb. pose proof Eb as Eb'.
  cbn [cl_q set_cl_q] in Eb'. rewrite (next_buf_entry _ base 128) in Eb' by done.
  injection Eb' as Hbuf Hq. change (128 mod 128) with 0 in Hbuf. rewrite Z.mul_0_l, Z.add_0_r in Hbuf.
  subst buf. destruct (send_packet _ _ _ _ _) as [q' w2] eqn:Es. injection E as <- <-.
  eapply (next_buf_send base (14 + 16) n lk (set_cl_q _ c) w) in Es as (Hs & Hm & Hd);
    [| |exact Eb|done|done]; [|exact R].
  rewrite Hm. cbn [w_mem set_mem]. unfold st8. split_and!.
  - intros k o Hk Hoo. rewrite rd8_storele_out by nia. apply Hh; lia.
  - by rewrite rd8_storele_hd.
  - exact Hs.
  - cbn [cl_q set_cl_q]. rewrite Hd, <- Hq. done.
  - intros b Hne Hb. rewrite rd8_storele_out by lia. by apply Ho.
Qed.

(** Thread 3 with its transmit buffers at 90000. *)
Lemma ping_fills_buffers_witness :
  rd8 (w_mem (snd (ping_thread 3 demo_client (demo_reply 0 0)))) (90000 + 127 * 1024 + 11) = 4.
Proof.
  destruct (ping_thread 3 demo_client (demo_reply 0 0)) as [c' w'] eqn:E.
  apply (ping_fills_buffers (F := ref_flexio) 3 0 0 90000 demo_client c' (demo_reply 0 0) w');
    [reflexivity|reflexivity|apply demo_client_sq_rep|exact E|lia|lia].
Defined.

(** ** Starting the transactions *)

Lemma read_GetDataReq_ext m m' p :
  (forall b, p <= b < p + 28 -> rd8 m b = rd8 m' b) -> read_GetDataReq m p = read_GetDataReq m' p.
Proof.
  intros H. unfold read_GetDataReq, ld32, ld64.
  f_equal; (apply H; lia) || (apply loadle_ext; intros; apply H; lia).
Qed.

Lemma reload_frame t m p b : b < p \/ p + 28 <= b -> rd8 (reload_transition t m p) b = rd8 m b.
Proof.
  intros H. unfold reload_transition, write_GetDataReq, st8, st32, st64.
  by rewrite !rd8_storele_out by lia.
Qed.

Section Start.
Context {F : FlexioDev} `{!FlexioDevLaws F}.

Definition entry_buf (base j : Z) : Z := base + (j mod 128) * 1024.

Lemma entry_buf_disjoint base j k :
  0 < k < 128 -> disjoint_bufs (entry_buf base j) (entry_buf base (j + k)).
Proof. unfold disjoint_bufs, entry_buf. intros H. mlia. Qed.

Lemma send_transitions_spec ts q (w : World F) base j n lk q' w' :
  dt_ctx q = MkDt base (u32 j) 127 -> sq_rep 7 n lk (sq_ctx q) w -> (length ts <= 128)%nat ->
  (forall t, t ∈ ts -> wf_GetDataReq (data_req t)) ->
  send_transitions ts q w = (q', w') ->
  sq_ring (sq_ctx q') = sq_ring (sq_ctx q) /\ sq_pi (sq_ctx q') = sq_pi (sq_ctx q) /\
  sq_number (sq_ctx q') = sq_number (sq_ctx q) /\ w_trace w' = w_trace w /\
  (forall k t, ts !! k = Some t ->
     posted w' (data_slot 7 (sq_ctx q) (n + Z.of_nat k)) (entry_buf base (j + Z.of_nat k)) 46 lk /\
     read_GetDataReq (w_mem w') (entry_buf base (j + Z.of_nat k) + 14) = data_req t) /\
  (forall p, (forall k, 0 <= k < Z.of_nat (length ts) -> p <> data_slot 7 (sq_ctx q) (n + k)) ->
     sqe_at w' p = sqe_at w p) /\
  (forall b, (forall k, 0 <= k < Z.of_nat (length ts) ->
       b < entry_buf base (j + k) + 14 \/ entry_buf base (j + k) + 42 <= b) ->
     rd8 (w_mem w') b = rd8 (w_mem w) b).
Proof.
  revert q w j n. induction ts as [|t ts IH]; intros q w j n Hdt R Hl Hwf E;
    cbn [send_transitions] in E.
  { injection E as <- <-. split_and!; done. }
  rewrite (next_buf_entry _ _ _ Hdt) in E. fold (entry_buf base j) in E.
  set (m := reload_transition t (w_mem w) (entry_buf base j + 14)) in E.
  destruct (prepare_send_packet _ _ _ _) as [sq1 w1] eqn:Ep.
  cbn [sq_ctx set_dt_ctx] in Ep.
  assert (sq_rep 7 n lk (sq_ctx q) (set_mem m w)) as R1 by (by eapply sq_rep_frame; [|exact R]).
  destruct (sq_rep_prepare 7 ltac:(lia) _ _ _ _ _ _ _ _ R1 Ep) as (R2 & -> & Pb & Pa & Pk & Pf & Hw).
  assert (w_mem w1 = m) as Hm by (rewrite Hw; done).
  assert (w_trace w1 = w_trace w) as Htr by (rewrite Hw; done).
  cbn [length] in Hl.
  apply (IH _ _ (j + 1) (n + 1)) in E as (Ering & Epi & Enum & Etr & Hk & Hp & Hb);
    [|done|exact R2|lia|set_solver].
  cbn [sq_ctx set_sq_ctx set_sq_wqe_seg_idx sq_ring sq_pi sq_number] in *.
  unfold data_slot in *. cbn [sq_ring set_sq_wqe_seg_idx sq_ctx] in *.
  assert (forall k, 0 < k < 128 -> (n + k) mod 2 ^ 7 <> n mod 2 ^ 7) as Hmod
    by (intros k Hk0; change (2 ^ 7) with 128; mlia).
  split_and!; try done; [by rewrite Etr|..].
  - intros [|k] t' Ht; cbn in Ht.
    + injection Ht as <-. rewrite Z.add_0_r, Z.add_0_r. split.
      * unfold posted. rewrite Hp; [done|]. intros k Hk0 [= Heq].
        apply (Hmod (1 + k)); [lia|]. replace (n + (1 + k)) with (n + 1 + k) by lia. lia.
      * rewrite <- (read_write_GetDataReq (w_mem w) (entry_buf base j + 14) (data_req t))
          by (apply Hwf; set_solver).
        apply read_GetDataReq_ext. intros b Hb0. rewrite Hb; [by rewrite Hm|].
        intros k Hk0. pose proof (entry_buf_disjoint base j (1 + k) ltac:(lia)) as Hd.
        unfold disjoint_bufs in Hd. replace (j + (1 + k)) with (j + 1 + k) in Hd by lia. lia.
    + replace (n + Z.of_nat (S k)) with (n + 1 + Z.of_nat k) by lia.
      replace (j + Z.of_nat (S k)) with (j + 1 + Z.of_nat k) by lia. by apply Hk.
  - intros p Hne. cbn [length] in Hne. rewrite Hp, Pf; [done| |].
    + specialize (Hne 0 ltac:(lia)). by rewrite Z.add_0_r in Hne.
    + intros k Hk0. specialize (Hne (1 + k) ltac:(lia)).
      by replace (n + (1 + k)) with (n + 1 + k) in Hne by lia.
  - intros b Hout. cbn [length] in Hout. rewrite Hb, Hm.
    + apply reload_frame. specialize (Hout 0 ltac:(lia)). rewrite Z.add_0_r in Hout. lia.
    + intros k Hk0. specialize (Hout (1 + k) ltac:(lia)).
      by replace (j + (1 + k)) with (j + 1 + k) in Hout by lia.
Qed.

End Start.

(** The mix of transactions: the type of slot [i], and the locks of each type. *)
Definition type_of (i : Z) : Z :=
  if i <? 10 then Amalgamate else if i <? 20 then Balance else if i <? 29 then DepositChecking
  else if i <? 45 then SendPayment else if i <? 55 then TransactSavings else WriteCheck.

Definition locks_of (ty : Z) : Z * Z * Z * Z :=
  if ty =? Amalgamate then (2, 0, 0, 2) else if ty =? Balance then (0, 0, 0, 0)
  else if ty =? DepositChecking then (2, 0, 0, 0) else if ty =? SendPayment then (2, 0, 2, 0)
  else if ty =? TransactSavings then (0, 2, 0, 0) else (2, 0, 0, 0).

Record started (i : Z) (t : Transition) : Prop := MkStarted {
  st_type : transmit_type t = type_of i;
  st_req : t_req_id t = i;
  st_users : valid_user (t_user1_id t) /\ valid_user (t_user2_id t);
  st_locks : (t_lock_user1_checking t, t_lock_user1_saving t,
              t_lock_user2_checking t, t_lock_user2_saving t) = locks_of (type_of i);
}.

Section StartAll.
Context {F : FlexioDev} `{!FlexioDevLaws F}.

Lemma random_user1_eq (w : World F) : exists u, random_user1 w = (u, tick w) /\ valid_user u.
Proof.
  eexists. split; [done|]. apply Z.mod_pos_bound. done.
Qed.

Lemma random_user2_eq (w : World F) : exists u, random_user2 w = (u, tick w) /\ valid_user u.
Proof.
  eexists. split; [done|]. apply Z.mod_pos_bound. done.
Qed.

Lemma init_transition_spec t i (w : World F) t' w' :
  0 <= i < 64 -> init_transition t i w = (t', w') ->
  started i t' /\ w_mem w' = w_mem w /\ w_sq w' = w_sq w /\ w_trace w' = w_trace w.
Proof.
  intros Hi E. unfold init_transition in E.
  destruct (random_user1_eq w) as (u1 & E1 & V1). rewrite E1 in E.
  destruct (random_user2_eq (tick w)) as (u2 & E2 & V2). rewrite E2 in E.
  assert (u32 i = i) as Hu by (apply wrapu_small; lia). rewrite Hu in E. unfold CONCURRENCY in E.
  assert (valid_user 0) as V0 by (by unfold valid_user). destruct t.
  destruct (Z.ltb_spec (i * 100) (15 * 64)); [|destruct (Z.ltb_spec (i * 100) (30 * 64));
    [|destruct (Z.ltb_spec (i * 100) (45 * 64)); [|destruct (Z.ltb_spec (i * 100) (70 * 64));
    [|destruct (Z.ltb_spec (i * 100) (85 * 64))]]]];
    injection E as <- <-; (split; [|done]);
    assert (type_of i = _) as Hty
      by (unfold type_of; repeat match goal with |- context [i <? ?k] =>
            destruct (Z.ltb_spec i k); try lia end; reflexivity);
    split; rewrite ?Hty; done.
Qed.

Lemma init_transitions_spec ts i (w : World F) ts' w' :
  0 <= i -> i + Z.of_nat (length ts) <= 64 -> init_transitions ts i w = (ts', w') ->
  length ts' = length ts /\ (forall k t, ts' !! k = Some t -> started (i + Z.of_nat k) t) /\
  w_mem w' = w_mem w /\ w_sq w' = w_sq w /\ w_trace w' = w_trace w.
Proof.
  revert i w ts'. induction ts as [|t ts IH]; intros i w ts' Hi Hl E; cbn [init_transitions] in E.
  { injection E as <- <-. done. }
  destruct (init_transition t i w) as [t1 w1] eqn:E1. cbn [length] in Hl.
  destruct (init_transitions ts (i + 1) w1) as [ts1 w2] eqn:E2. injection E as <- <-.
  apply init_transition_spec in E1 as (H1 & Hm & Hs & Ht); [|lia].
  apply IH in E2 as (L2 & H2 & Hm2 & Hs2 & Ht2); [|lia|lia].
  split; [cbn; lia|]. split; [|by rewrite Hm2, Hs2, Ht2].
  intros [|k] t0 Hk; cbn in Hk.
  - injection Hk as <-. by rewrite Z.add_0_r.
  - replace (i + Z.of_nat (S k)) with (i + 1 + Z.of_nat k) by lia. by apply H2.
Qed.

Lemma started_wf i t : 0 <= i < 64 -> started i t -> wf_GetDataReq (data_req t).
Proof.
  intros Hi [_ Hr [V1 V2] Hl]. unfold wf_GetDataReq, data_req. cbn.
  unfold valid_user, NUM_ACCOUNTS in *.
  assert (forall x y z u, (t_lock_user1_checking t, t_lock_user1_saving t,
    t_lock_user2_checking t, t_lock_user2_saving t) = (x, y, z, u) ->
    0 <= x <= 2 -> 0 <= y <= 2 -> 0 <= z <= 2 -> 0 <= u <= 2 ->
    0 <= t_lock_user1_checking t < 256 /\ 0 <= t_lock_user1_saving t < 256 /\
    0 <= t_lock_user2_checking t < 256 /\ 0 <= t_lock_user2_saving t < 256) as Hlk.
  { intros x y z u [= -> -> -> ->]. lia. }
  unfold RPC_GET_DATA. rewrite Hr. split_and!; try lia;
    unfold locks_of in Hl; repeat (destruct (_ =? _)); apply Hlk in Hl; lia.
Qed.

End StartAll.

(** The ping reply starts the benchmark: the 64 slots get the fixed mix of
    10 Amalgamate, 10 Balance, 9 DepositChecking, 16 SendPayment, 10
    TransactSavings and 9 WriteCheck transactions, each with users inside the
    tables and the locks of its type; the GET_DATA request of slot [i] is written
    to the [i]-th next transmit buffer and posted in the [i]-th next send entry;
    and a single doorbell announces all 64. *)
Theorem ping_reply_starts {F : FlexioDev} `{!FlexioDevLaws F} (base j n lk : Z)
    (c c' : client_context) (w w' : World F) :
  dt_ctx (cl_q c) = MkDt base (u32 j) 127 -> sq_rep 7 n lk (sq_ctx (cl_q c)) w ->
  length (transitions c) = 64%nat ->
  on_ping c w = (c', w') ->
  (forall i, 0 <= i < 64 ->
     let t := trans_at c' (Z.to_nat i) in
     started i t /\
     read_GetDataReq (w_mem w') (entry_buf base (j + i) + 14) = data_req t /\
     posted w' (data_slot 7 (sq_ctx (cl_q c)) (n + i)) (entry_buf base (j + i)) 46 lk) /\
  w_trace w' = w_trace w ++
    [EvMemoryWriteback;
     EvSqRingDb (u32 (sq_pi (sq_ctx (cl_q c)) + 64)) (sq_number (sq_ctx (cl_q c)))].
Proof.
  intros Hdt R Hlen E. unfold on_ping in E.
  destruct (init_transitions (transitions c) 0 w) as [ts w1] eqn:Ei.
  apply init_transitions_spec in Ei as (L & Hst & Hm & Hs & Ht); [|lia|lia].
  destruct (send_transitions ts (cl_q c) w1) as [q w2] eqn:Es.
  unfold finish_send_packet_batch in E. injection E as <- <-.
  assert (sq_rep 7 n lk (sq_ctx (cl_q c)) w1) as R1 by (by eapply sq_rep_frame; [|exact R]).
  eapply send_transitions_spec in Es as (_ & Epi & Enum & Etr & Hk & _ & _);
    [|exact Hdt|exact R1|lia|].
  - split.
    + intros i Hi. destruct (lookup_lt_is_Some_2 ts (Z.to_nat i)) as [t Hi2]; [lia|].
      unfold trans_at. cbn [transitions]. rewrite Hi2. cbn [default id].
      specialize (Hk _ _ Hi2) as [Hpost Hread]. specialize (Hst _ _ Hi2). rewrite Z2Nat.id in * by lia.
      split; [by rewrite Z.add_0_l in Hst|]. split; [exact Hread|exact Hpost].
    + cbn. rewrite Etr, Ht, Epi, Enum. by rewrite <- app_assoc.
  - intros t Hin. apply list_elem_of_lookup in Hin as [k Hk]. pose proof (lookup_lt_Some _ _ _ Hk).
    apply (started_wf (0 + Z.of_nat k)); [lia|by apply Hst].
Qed.

Lemma ping_reply_starts_witness :
  transmit_type (trans_at (fst (on_ping demo_client (demo_reply 0 0))) 30) = SendPayment.
Proof.
  destruct (on_ping demo_client (demo_reply 0 0)) as [c' w'] eqn:E.
  destruct (ping_reply_starts (F := ref_flexio) 90000 0 0 0 demo_client c' (demo_reply 0 0) w'
    eq_refl (demo_client_sq_rep 0 0) eq_refl E) as [H _].
  destruct (H 30 ltac:(lia)) as [[Ht _ _ _] _]. exact Ht.
Defined.
