(* ===== verification/SmallBankSystem.v ===== *)
(** * SmallBankSystem: client and server together

    One transaction as the two programs run it: the client's requests are read
    by the server from the packets the client wrote, and the server's replies are
    read by the client.  The network is the identity on packets. *)

From S2P Require Import Prelude Machine FlexioDev WrapperDevice DevCommon RingProtocol.
From S2P Require Import SmallBankCommon SmallBankServer SmallBankClient.

(** Every lock of both tables is in the same state in [b'] as in [b]. *)
Definition same_locks {SL : SpinLock} (b b' : bank) : Prop := forall q, held b' q = held b q.

(** C12.  A transaction leaves the locks as it found them.  A client that
    receives its data sends a lock request for its slot; if the server grants it
    and the client then processes the grant, the FINISH it sends makes the
    server release exactly the locks taken, so that every lock of both tables
    is again as before the request.  The FINISH carries in its balance fields
    whatever the transmit buffer held. *)
Theorem transaction_restores_locks {SL : SpinLock} `{!SpinLockLaws SL}
    {F : FlexioDev} `{!FlexioDevLaws F}
    (rq1 sz1 buf1 n1 rq2 sz2 buf2 n2 lk : Z) (c c1 c2 c3 : client_context)
    (w w1 w2 w3 : World F) (b b1 b2 : bank) (lresp : GetLockResp) (fresp : FinishResp) (fd : bool) :
  let rn := dr_req_number (read_GetDataResp (w_mem w) (rq1 + 14)) in
  let t := trans_at c (trans_slot rn) in
  (* the client processes the GET_DATA reply *)
  at_reply RPC_GET_DATA rq1 sz1 buf1 n1 lk c w -> length (transitions c) = 64%nat -> wf_trans t ->
  SmallBankClient.process_packet c w = (c1, w1) ->
  (* the server grants the request it finds in the packet *)
  serve_get_lock (read_GetLockReq (w_mem w1) (buf1 + 14)) b = (lresp, fd, b1) ->
  lr_success lresp = 1 ->
  (* the client, with the same slots, processes that reply *)
  transitions c2 = transitions c1 -> at_reply RPC_GET_LOCK rq2 sz2 buf2 n2 lk c2 w2 ->
  read_GetLockResp (w_mem w2) (rq2 + 14) = lresp ->
  SmallBankClient.process_packet c2 w2 = (c3, w3) ->
  (* and the server processes the FINISH it finds in the packet *)
  serve_finish (read_FinishReq (w_mem w3) (buf2 + 14)) b1 = (fresp, b2) ->
  read_GetLockReq (w_mem w1) (buf1 + 14) = lock_req t rn /\
  sent buf1 (14 + 32) n1 lk c w w1 /\
  read_FinishReq (w_mem w3) (buf2 + 14) = finish_req t rn (w_mem w2) (buf2 + 14) /\
  sent buf2 (14 + 64) n2 lk c2 w2 w3 /\
  same_locks b b2.
Proof.
  intros rn t A1 Hlen Hwf E1 EL Hs Ht A2 Hresp E2 EF.
  destruct (client_data_reply _ _ _ _ _ _ _ _ _ A1 Hlen Hwf E1) as (HL & S1 & T1 & _).
  fold rn in HL, T1. fold t in HL, T1. rewrite HL in EL.
  assert (lr_req_number lresp = rn) as Hn.
  { unfold serve_get_lock in EL. destruct (try_lock _ _ _ _) as [[? ?] ?].
    by injection EL as <- _ _. }
  pose proof (client_lock_granted rq2 sz2 buf2 n2 lk c2 c3 w2 w3) as G. cbv zeta in G.
  rewrite Hresp, Hn in G.
  assert (trans_at c2 (trans_slot rn) = trans_at c1 (trans_slot rn)) as E12
    by (unfold trans_at; by rewrite Ht).
  rewrite E12, T1 in G.
  assert (forall p q r s, wf_trans (set_t_balances p q r s t)) as Hwf'.
  { intros. destruct t, Hwf. by split. }
  destruct (G A2 (Hwf' _ _ _ _) ltac:(by rewrite Hs) E2) as (HF & S2 & _).
  assert (forall p q r s m a, finish_req (set_t_balances p q r s t) rn m a = finish_req t rn m a)
    as Hfin by (intros; by destruct t).
  rewrite Hfin in HF. rewrite HF in EF. split_and!; try done. intros q.
  by apply (lock_finish_restores (lock_req t rn) (finish_req t rn (w_mem w2) (buf2 + 14))
    b b1 b2 lresp fresp fd EL Hs).
Qed.

(** One payment between accounts 7 and 8 on fresh tables. *)
Definition demo_tables : bank (SL := ref_spinlock) := MkBank (SL := ref_spinlock) 0 32000000 ∅.

Lemma transaction_restores_locks_witness :
  let '(c1, w1) := SmallBankClient.process_packet demo_client (demo_reply 1 0) in
  let '(lresp, fd, b1) := serve_get_lock (read_GetLockReq (w_mem w1) (90000 + 14)) demo_tables in
  let '(c3, w3) := SmallBankClient.process_packet (set_transitions (transitions c1) demo_client)
                     (demo_reply 2 1) in
  let '(fresp, b2) := serve_finish (read_FinishReq (w_mem w3) (90000 + 14)) b1 in
  forall q, held b2 q = held demo_tables q.
Proof.
  destruct (SmallBankClient.process_packet demo_client (demo_reply 1 0)) as [c1 w1] eqn:E1.
  destruct (serve_get_lock _ demo_tables) as [[lresp fd] b1] eqn:EL.
  destruct (SmallBankClient.process_packet (set_transitions (transitions c1) demo_client)
    (demo_reply 2 1)) as [c3 w3] eqn:E2.
  destruct (serve_finish _ b1) as [fresp b2] eqn:EF.
  assert (w1 = snd (SmallBankClient.process_packet demo_client (demo_reply 1 0))) as Hw1
    by (by rewrite E1).
  assert (lresp = {| lr_type := 2; lr_req_number := 5; lr_status := 0; lr_success := 1 |}) as ->.
  { change lresp with (fst (fst (lresp, fd, b1))). rewrite <- EL, Hw1. vm_compute. reflexivity. }
  apply (transaction_restores_locks (SL := ref_spinlock) (F := ref_flexio)
    70000 0 90000 0 70000 0 90000 0 0 demo_client c1
    (set_transitions (transitions c1) demo_client) c3
    (demo_reply 1 0) w1 (demo_reply 2 1) w3 demo_tables b1 b2
    {| lr_type := 2; lr_req_number := 5; lr_status := 0; lr_success := 1 |} fresp fd).
  - split; [apply demo_client_sq_rep|reflexivity|reflexivity|reflexivity|left; lia].
  - reflexivity.
  - exact demo_trans_wf.
  - exact E1.
  - exact EL.
  - reflexivity.
  - reflexivity.
  - split; [apply demo_client_sq_rep|reflexivity|reflexivity|reflexivity|left; lia].
  - vm_compute. reflexivity.
  - exact E2.
  - exact EF.
Defined.
