(* ===== verification/KvAggregation.v ===== *)
(** * KvAggregation: in-network aggregation of key-value packets

    Translation of [flexio/dpa_kv_aggregation/device/dpa_kv_aggregation_device.c]
    and [flexio/dpa_kv_aggregation/common/dpa_kv_aggregation_common.h].  A packet
    carries a count at byte 56 and that many 16-byte elements from byte 64; the
    program adds each value to a table of 65536 32-bit counters.  Packets and
    table may live on the host, in which case an access goes through the window
    as currently configured ([via]). *)

From S2P Require Import Prelude Machine FlexioDev WrapperDevice DevCommon RingProtocol Reflector.
From S2P Require Import PacketLoop.

Definition LOG_SQ_RING_DEPTH : Z := 7.
Definition LOG_RQ_RING_DEPTH : Z := 7.
Definition LOG_CQ_RING_DEPTH : Z := 7.
Definition LOG_WQ_DATA_ENTRY_BSIZE : Z := 11.
Definition entry_size : Z := 65536.
Definition STOP_NUMBER : Z := 5000000.
Definition MAX_ELEMENT_NUM : Z := 1.
Definition MAX_THREADS : Z := 190.

Record kv_element := MkElement { key : Z; value : Z }.

(** [struct device_context]: the field [lkey] of the common sequence is
    [kv_elements_mkey] here. *)
Record kv_context := MkKv {
  kv_refl : refl_context;
  thread_id : Z;
  kv_elements : Z;
}.

Definition zero_kv : kv_context := MkKv zero_refl 0 0.
Definition kv_q (c : kv_context) : dev_queues := rc_q (kv_refl c).
Definition kv_elements_mkey (c : kv_context) : Z := lkey (kv_q c).
Definition set_kv_refl (r : refl_context) (c : kv_context) : kv_context :=
  MkKv r (thread_id c) (kv_elements c).

(** The globals. *)
Record kv_program := MkKvProgram {
  kv_ctxs : list kv_context;
  global_entry_ptr : Z;
  kv_is_stop : Z;
  begin_time : Z;
}.

Definition kv_zero : kv_program :=
  MkKvProgram (replicate (Z.to_nat MAX_THREADS) zero_kv) 0 0 0.

Section Device.
Context {F : FlexioDev}.

Definition init_cq : app_transfer_cq -> cq_ctx_t := init_cq_with LOG_CQ_RING_DEPTH.
Definition init_rq : app_transfer_wq -> rq_ctx_t := init_rq_with LOG_RQ_RING_DEPTH.
Definition init_sq : app_transfer_wq -> sq_ctx_t -> sq_ctx_t := init_sq_with LOG_SQ_RING_DEPTH.

(** ** Accesses *)

(** [elements[i]] for [elements] at address [p]. *)
Definition read_element (w : World F) (p i : Z) : kv_element :=
  MkElement (ld64 (w_mem w) (via w (p + 16 * i))) (ld64 (w_mem w) (via w (p + 16 * i + 8))).

(** [kv_elements[e.key % entry_size] += (uint32_t)e.value] *)
Definition add_element (kv : Z) (e : kv_element) (w : World F) : World F :=
  let a := via w (kv + 4 * (key e mod entry_size)) in
  set_mem (st32 (w_mem w) a (u32 (ld32 (w_mem w) a + u32 (value e)))) w.

(** [for (i = 0; i < element_num; i++) kv_elements[elements[i]...] += ...] *)
Fixpoint add_loop (n : nat) (i kv p : Z) (w : World F) : World F :=
  match n with
  | O => w
  | S n => add_loop n (i + 1) kv p (add_element kv (read_element w p i) w)
  end.

(** The copy to [tmp_element] and the loop over the copy. *)
Fixpoint stage_loop (n : nat) (i p : Z) (w : World F) : list kv_element :=
  match n with
  | O => []
  | S n => read_element w p i :: stage_loop n (i + 1) p w
  end.

Definition add_staged (kv : Z) (es : list kv_element) (w : World F) : World F :=
  fold_left (fun w e => add_element kv e w) es w.

(** ** Packets *)

Definition process_packet (c : kv_context) (w : World F) : World F :=
  let '(rq_data, data_sz) := receive_packet (rqcq_ctx (kv_q c)) (rq_ctx (kv_q c)) w in
  let element_num := ld64 (w_mem w) (via w (rq_data + 56)) in
  add_loop (Z.to_nat element_num) 0 (kv_elements c) (rq_data + 64) w.

(** [None]: the copy writes past the end of [tmp_element]. *)
Definition process_packet_host (c : kv_context) (w : World F) : option (World F) :=
  let '(rq_data, data_sz) := receive_packet (rqcq_ctx (kv_q c)) (rq_ctx (kv_q c)) w in
  let rq_data_dpa := host_rq_addr_to_dpa_addr rq_data (host_rq_ctx (kv_refl c)) in
  let w := window_mkey_config (hrq_rkey (host_rq_ctx (kv_refl c))) w in
  let element_num := ld64 (w_mem w) (via w (rq_data_dpa + 56)) in
  if truthy (sq_on_host (kv_refl c)) then
    if MAX_ELEMENT_NUM <? element_num then None
    else
      let tmp_element := stage_loop (Z.to_nat element_num) 0 (rq_data_dpa + 64) w in
      let w := window_mkey_config (kv_elements_mkey c) w in
      Some (add_staged (kv_elements c) tmp_element w)
  else Some (add_loop (Z.to_nat element_num) 0 (kv_elements c) (rq_data_dpa + 64) w).

(** ** RPCs *)

Definition dpa_kv_aggregation_device_init (shared_data : queue_config_data) (s : kv_program)
    (w : World F) : Z * kv_program :=
  if negb (thread_index shared_data <? MAX_THREADS) then (assert_failed, s)
  else
    let s := if thread_index shared_data =? 0
             then MkKvProgram (kv_ctxs s) (new_buffer_addr shared_data) 0 0 else s in
    let i := Z.to_nat (thread_index shared_data) in
    let c := default zero_kv (kv_ctxs s !! i) in
    let h := MkHostRq (wqd_mkey_id (rq_data shared_data)) (new_buffer_mkey_id shared_data)
               (wqd_daddr (rq_data shared_data)) (dpa_rx_buff (host_rq_ctx (kv_refl c))) in
    let q := MkQueues (wqd_mkey_id (sq_data shared_data)) 1
               (init_cq (rq_cq_data shared_data)) (init_cq (sq_cq_data shared_data))
               (init_rq (rq_data shared_data)) (init_sq (sq_data shared_data) (sq_ctx (kv_q c)))
               (MkDt (wqd_daddr (sq_data shared_data)) 0 (Z.shiftl 1 LOG_SQ_RING_DEPTH - 1)) in
    let r := MkRefl q h (packets_count (kv_refl c)) (daddr_on_host (rq_data shared_data))
               (daddr_on_host (sq_data shared_data)) in
    (0, MkKvProgram (<[i := MkKv r (thread_index shared_data) (kv_elements c)]> (kv_ctxs s))
          (global_entry_ptr s) (kv_is_stop s) (begin_time s)).

Definition dpa_kv_aggregation_device_stop_time (s : kv_program) : Z :=
  if truthy (kv_is_stop s) then begin_time s else 0.

(** ** The event handler *)

(** The state of the loop: the context, the two timing globals and [pkt_count]. *)
Record kv_loop := MkLoop { lp_ctx : kv_context; lp_stop : Z; lp_time : Z; pkt_count : Z }.

Definition kv_turn (index rq_on_host : Z) (l : kv_loop) (w : World F)
    : option (kv_loop * World F) :=
  let c := lp_ctx l in
  match (if truthy rq_on_host then process_packet_host c w else Some (process_packet c w)) with
  | None => None
  | Some w =>
      let w := step_rq (rq_ctx (kv_q c)) w in
      let '(cq, w) := step_cq (rqcq_ctx (kv_q c)) w in
      let c := set_kv_refl (set_q (set_rqcq cq (kv_q c)) (kv_refl c)) c in
      let n := u64 (pkt_count l + 1) in
      if (n =? STOP_NUMBER) && (index =? 0) then
        let '(t, w) := thread_cycles w in
        Some (MkLoop c 1 (u64 (t - lp_time l)) n, emit EvMemoryWriteback w)
      else Some (MkLoop c (lp_stop l) (lp_time l) n, w)
  end.

Definition dpa_kv_aggregation_device_event_handler (fuel : nat) (env : list (World F -> World F))
    (index : Z) (s : kv_program) (w : World F) : handler_result kv_program :=
  match kv_ctxs s !! Z.to_nat index with
  | None => OutOfBounds
  | Some c =>
      let dtctx := snd flexio_dev_get_thread_ctx in
      if is_initalized (kv_q c) =? 0 then Rescheduled s w
      else
        let r := kv_refl c in
        let '(h, w) := map_rx_buff (rq_on_host r) (host_rq_ctx r) w in
        let '(kv, w) :=
          if truthy (sq_on_host r)
          then get_host_buffer_with_dtctx (rq_window_id h) (kv_elements_mkey c)
                 (global_entry_ptr s) w
          else (global_entry_ptr s, w) in
        let c := MkKv (set_host_rq h r) (thread_id c) kv in
        let '(t, w) := if index =? 0 then thread_cycles w else (begin_time s, w) in
        let put (l : kv_loop) := MkKvProgram (<[Z.to_nat index := lp_ctx l]> (kv_ctxs s))
                      (global_entry_ptr s) (lp_stop l) (lp_time l) in
        let l := MkLoop c (kv_is_stop s) t 0 in
        if dtctx =? 0 then
          Rescheduled (put l) (emit (EvCqArm (cq_idx (rqcq_ctx (kv_q c)))
                                       (cq_number (rqcq_ctx (kv_q c)))) (emit EvFence w))
        else
          match poll_f (fun l => rqcq_ctx (kv_q (lp_ctx l))) (kv_turn index (rq_on_host r))
                  fuel env l w with
          | Some (Some (l, w)) => Polling (put l) w
          | Some None => Faulted
          | None => NoFuel
          end
  end.

End Device.

(** ** The table and its abstract meaning *)

(** Counter [k] of the table at [T]. *)
Definition table (m : mem) (T k : Z) : Z := ld32 m (T + 4 * k).

Definition in_table (k : Z) : Prop := 0 <= k < entry_size.

(** The total a list of elements adds to counter [k]. *)
Fixpoint total (k : Z) (es : list kv_element) : Z :=
  match es with
  | [] => 0
  | e :: es => (if key e mod entry_size =? k then value e else 0) + total k es
  end.

Lemma total_app k es es' : total k (es ++ es') = total k es + total k es'.
Proof. induction es as [|e es IH]; cbn; [lia|]. rewrite IH. lia. Qed.

(** The elements in memory: [n] of them at [E]. *)
Fixpoint elements_at (m : mem) (E : Z) (n : nat) : list kv_element :=
  match n with
  | O => []
  | S n => MkElement (ld64 m E) (ld64 m (E + 8)) :: elements_at m (E + 16) n
  end.

(** Bytes away from the table at [T]. *)
Definition off_table (T b : Z) : Prop := b < T \/ T + 4 * entry_size <= b.

Lemma elements_at_ext m m' E n :
  (forall b, E <= b < E + 16 * Z.of_nat n -> rd8 m b = rd8 m' b) ->
  elements_at m E n = elements_at m' E n.
Proof.
  revert E. induction n as [|n IH]; intros E H; cbn [elements_at]; [done|].
  unfold ld64. rewrite (loadle_ext m m' E), (loadle_ext m m' (E + 8)), (IH (E + 16));
    [done|intros b Hb; apply H; lia..].
Qed.

Section Aggregation.
Context {F : FlexioDev}.

(** The [len] bytes at address [a] are reached contiguously from [p] on. *)
Definition maps (w : World F) (a p len : Z) : Prop :=
  forall o, 0 <= o < len -> via w (a + o) = p + o.

(** [w'] is [w] with [es] added to the table at [T], nothing else changed. *)
Record aggregated (T : Z) (es : list kv_element) (w w' : World F) : Prop := MkAgg {
  agg_table : forall k, in_table k -> table (w_mem w') T k = u32 (table (w_mem w) T k + total k es);
  agg_frame : forall b, off_table T b -> rd8 (w_mem w') b = rd8 (w_mem w) b;
  agg_world : w' = set_mem (w_mem w') w;
}.

Lemma table_range m T k : 0 <= table m T k < 2 ^ 32.
Proof. exact (loadle_range m (T + 4 * k) 4). Qed.

Lemma aggregated_refl T w : aggregated T [] w w.
Proof.
  split; [|done|by destruct w]. intros k _. cbn. rewrite Z.add_0_r.
  symmetry. apply wrapu_small, table_range.
Qed.

Lemma aggregated_trans T es es' w w1 w2 :
  aggregated T es w w1 -> aggregated T es' w1 w2 -> aggregated T (es ++ es') w w2.
Proof.
  intros [T1 F1 W1] [T2 F2 W2]. split.
  - intros k Hk. rewrite T2, T1, wrapu_add_l, total_app by done. f_equal. lia.
  - intros b Hb. by rewrite F2, F1.
  - rewrite W2, W1. done.
Qed.

Lemma add_element_agg kv T e w :
  maps w kv T (4 * entry_size) -> aggregated T [e] w (add_element kv e w).
Proof.
  intros HM. unfold add_element.
  assert (0 <= key e mod entry_size < entry_size) as B by (apply Z.mod_pos_bound; done).
  rewrite HM by (unfold entry_size in *; lia). set (x := key e mod entry_size) in *.
  split; [|intros b Hb; cbn; unfold off_table, st32 in *; rewrite rd8_storele_out by (cbn; lia); done|done].
  intros k Hk. cbn [w_mem set_mem total]. fold x. clearbody x.
  unfold table, ld32, st32, in_table, entry_size in *.
  destruct (Z.eqb_spec x k) as [->|Hne].
  - rewrite loadle_storele_eq. change (256 ^ Z.of_nat 4) with (2 ^ 32).
    fold (wrapu 32 (u32 (loadle (w_mem w) (T + 4 * k) 4 + u32 (value e)))).
    rewrite wrapu_wrapu, wrapu_add_r. f_equal. lia.
  - rewrite loadle_storele_out by (cbn; lia). symmetry. rewrite !Z.add_0_r.
    apply wrapu_small. exact (loadle_range (w_mem w) (T + 4 * k) 4).
Qed.

Lemma maps_aggregated a p len T es w w' :
  aggregated T es w w' -> maps w a p len -> maps w' a p len.
Proof. intros [_ _ W] H o Ho. rewrite W. by apply H. Qed.

Lemma add_loop_agg n i kv T p E w :
  maps w kv T (4 * entry_size) -> maps w p E (16 * (i + Z.of_nat n)) -> 0 <= i ->
  E + 16 * (i + Z.of_nat n) <= T \/ T + 4 * entry_size <= E ->
  aggregated T (elements_at (w_mem w) (E + 16 * i) n) w (add_loop n i kv p w).
Proof.
  revert i w. induction n as [|n IH]; intros i w HT HE Hi Hd; cbn [add_loop elements_at].
  { apply aggregated_refl. }
  set (e := read_element w p i).
  assert (e = MkElement (ld64 (w_mem w) (E + 16 * i)) (ld64 (w_mem w) (E + 16 * i + 8))) as He.
  { unfold e, read_element. rewrite HE by lia.
    replace (p + 16 * i + 8) with (p + (16 * i + 8)) by lia. rewrite HE by lia.
    do 2 f_equal. lia. }
  rewrite <- He. pose proof (add_element_agg kv T e w HT) as A1.
  pose proof A1 as [_ Fr _].
  change (e :: ?l) with ([e] ++ l). eapply aggregated_trans; [exact A1|].
  rewrite (elements_at_ext _ (w_mem (add_element kv e w))).
  - replace (E + 16 * i + 16) with (E + 16 * (i + 1)) by lia. apply IH; try lia.
    + by eapply maps_aggregated.
    + eapply maps_aggregated; [exact A1|]. intros o Ho. apply HE. lia.
  - intros b Hb. symmetry. apply Fr. unfold off_table. lia.
Qed.

Lemma stage_loop_elements n i p E w :
  maps w p E (16 * (i + Z.of_nat n)) -> 0 <= i ->
  stage_loop n i p w = elements_at (w_mem w) (E + 16 * i) n.
Proof.
  revert i. induction n as [|n IH]; intros i HE Hi; cbn [stage_loop elements_at]; [done|].
  unfold read_element. rewrite HE by lia.
  replace (p + 16 * i + 8) with (p + (16 * i + 8)) by lia. rewrite HE by lia.
  rewrite Z.add_assoc. f_equal. replace (E + 16 * i + 16) with (E + 16 * (i + 1)) by lia.
  apply IH; [|lia]. intros o Ho. apply HE. lia.
Qed.

Lemma add_staged_agg kv T es w :
  maps w kv T (4 * entry_size) -> aggregated T es w (add_staged kv es w).
Proof.
  revert w. induction es as [|e es IH]; intros w HT; cbn; [apply aggregated_refl|].
  pose proof (add_element_agg kv T e w HT) as A1. change (e :: es) with ([e] ++ es).
  eapply aggregated_trans; [exact A1|]. apply IH. by eapply maps_aggregated.
Qed.

End Aggregation.

(** A packet on the DPA is aggregated: every counter of the table ends
    with its old value plus the sum of the values whose key falls on it, modulo
    2^32, and no byte outside the table changes.  The packet must lie outside
    the table, which must be mapped contiguously. *)
Lemma process_packet_aggregates {F : FlexioDev} (c : kv_context) (w : World F)
    (a sz P T : Z) :
  receive_packet (rqcq_ctx (kv_q c)) (rq_ctx (kv_q c)) w = (a, sz) ->
  let n := ld64 (w_mem w) (P + 56) in
  maps w a P (64 + 16 * n) -> maps w (kv_elements c) T (4 * entry_size) ->
  P + 64 + 16 * n <= T \/ T + 4 * entry_size <= P ->
  aggregated T (elements_at (w_mem w) (P + 64) (Z.to_nat n)) w (process_packet c w).
Proof.
  intros Hr n HP HT Hd. pose proof (loadle_range (w_mem w) (P + 56) 8) as Hn. fold (ld64 (w_mem w) (P + 56)) in Hn.
  fold n in Hn. unfold process_packet. rewrite Hr, HP by lia. fold n.
  rewrite <- (Z.add_0_r (P + 64)). change 0 with (16 * 0) at 1.
  apply add_loop_agg; [done| |lia|lia].
  intros o Ho. rewrite <- !Z.add_assoc. rewrite HP by lia. lia.
Qed.

(** C15.  The host path computes the same aggregation.  A packet in host memory
    is read under the receive key and the counters are updated under the table's
    key (or directly when the table is on the DPA), with the same result as the
    direct path; the one exception is a packet of more than [MAX_ELEMENT_NUM]
    elements with the table on the host, for which the copy runs past the end of
    the local array. *)
Theorem process_packet_host_aggregates {F : FlexioDev} (c : kv_context) (w : World F)
    (a sz P T : Z) :
  let r := kv_refl c in
  let on_host := truthy (sq_on_host r) in
  let w1 := window_mkey_config (hrq_rkey (host_rq_ctx r)) w in
  let w2 := if on_host then window_mkey_config (kv_elements_mkey c) w1 else w1 in
  let n := ld64 (w_mem w) (P + 56) in
  receive_packet (rqcq_ctx (kv_q c)) (rq_ctx (kv_q c)) w = (a, sz) ->
  maps w1 (host_rq_addr_to_dpa_addr a (host_rq_ctx r)) P (64 + 16 * n) ->
  maps w2 (kv_elements c) T (4 * entry_size) ->
  P + 64 + 16 * n <= T \/ T + 4 * entry_size <= P ->
  match process_packet_host c w with
  | None => on_host = true /\ MAX_ELEMENT_NUM < n
  | Some w' => (on_host = true -> n <= MAX_ELEMENT_NUM) /\
               aggregated T (elements_at (w_mem w) (P + 64) (Z.to_nat n)) w2 w'
  end.
Proof.
  intros r on_host w1 w2 n Hr HP HT Hd.
  pose proof (loadle_range (w_mem w) (P + 56) 8) as Hn.
  fold (ld64 (w_mem w) (P + 56)) in Hn. fold n in Hn.
  assert (forall k v, w_mem (window_mkey_config k v) = w_mem v) as Hm.
  { intros k v. unfold window_mkey_config. by repeat case_match. }
  assert (w_mem w1 = w_mem w) as Hm1 by apply Hm.
  unfold process_packet_host. rewrite Hr. fold r on_host w1.
  set (b := host_rq_addr_to_dpa_addr a (host_rq_ctx r)) in *. rewrite HP by lia.
  assert (ld64 (w_mem w1) (P + 56) = n) as -> by (unfold n; by rewrite Hm1).
  assert (maps w1 (b + 64) (P + 64) (16 * (0 + Z.of_nat (Z.to_nat n)))) as HE.
  { intros o Ho. rewrite <- !Z.add_assoc. rewrite HP by lia. done. }
  destruct on_host eqn:Eo.
  - destruct (Z.ltb_spec MAX_ELEMENT_NUM n) as [Hlt|Hle]; [done|]. split; [done|].
    rewrite (stage_loop_elements _ _ _ _ _ HE) by lia. rewrite Z.mul_0_r, Z.add_0_r.
    rewrite Hm1. fold w2. by apply add_staged_agg.
  - split; [done|].
    pose proof (add_loop_agg (Z.to_nat n) 0 (kv_elements c) T (b + 64) (P + 64) w1) as A.
    rewrite Z.mul_0_r, Z.add_0_r, Hm1 in A. apply A; try done; lia.
Qed.

(** ** The handler *)

(** The elements of the packets of a burst. *)
Definition burst_elements {F : FlexioDev} (addr : cqe64 -> Z) (m : mem) (es : list cqe64)
    : list kv_element :=
  concat (map (fun e => elements_at m (addr e + 64) (Z.to_nat (ld64 m (addr e + 56)))) es).

Section Burst.
Context {F : FlexioDev}.
Variables (rq : rq_ctx_t) (T : Z) (w0 : World F) (all : list cqe64).

Let addr := pkt_addr rq (w_rq w0).

(** A packet in DPA memory, away from the table. *)
Definition packet_ok (e : cqe64) : Prop :=
  let n := ld64 (w_mem w0) (addr e + 56) in
  maps w0 (addr e) (addr e) (64 + 16 * n) /\
  (addr e + 64 + 16 * n <= T \/ T + 4 * entry_size <= addr e).

Hypothesis Hall : forall e, e ∈ all -> packet_ok e.
Hypothesis HT : maps w0 T T (4 * entry_size).
Hypothesis Hshort : (length all <= 128)%nat.

(** After [dn] packets, with [pend] waiting. *)
Record kv_inv (stop time : Z) (pend : list cqe64) (l : kv_loop) (w : World F) : Prop := MkKvInv {
  ki_dn : exists dn, all = dn ++ pend /\ pkt_count l = Z.of_nat (length dn) /\
    cq_rep 7 (Z.of_nat (length dn)) pend (rqcq_ctx (kv_q (lp_ctx l))) w /\
    (forall k, in_table k -> table (w_mem w) T k =
       u32 (table (w_mem w0) T k + total k (burst_elements addr (w_mem w0) dn)));
  ki_frame : forall b, off_table T b -> rd8 (w_mem w) b = rd8 (w_mem w0) b;
  ki_ctx : rq_ctx (kv_q (lp_ctx l)) = rq /\ kv_elements (lp_ctx l) = T;
  ki_world : w_rq w = w_rq w0 /\ w_window w = w_window w0;
  ki_time : lp_stop l = stop /\ lp_time l = time;
}.

Lemma maps_window w w' a p len : w_window w' = w_window w -> maps w a p len -> maps w' a p len.
Proof. intros E H o Ho. unfold via. rewrite E. by apply H. Qed.

(** The packet of a waiting completion still reads as in the initial memory. *)
Lemma kv_packet_agg stop time e pend l w :
  kv_inv stop time (e :: pend) l w ->
  aggregated T (elements_at (w_mem w0) (addr e + 64) (Z.to_nat (ld64 (w_mem w0) (addr e + 56)))) w
    (process_packet (lp_ctx l) w).
Proof.
  intros [(dn & Ha & _ & R & _) Hf [Hrq Hkv] [Hwr Hww] _].
  destruct (Hall e) as [Hm Hd]; [rewrite Ha; set_solver|].
  set (n := ld64 (w_mem w0) (addr e + 56)) in *.
  pose proof (loadle_range (w_mem w0) (addr e + 56) 8) as Hn.
  fold (ld64 (w_mem w0) (addr e + 56)) in Hn. fold n in Hn. unfold off_table in Hf.
  assert (ld64 (w_mem w) (addr e + 56) = n) as Hw.
  { apply loadle_ext. intros b Hb. apply Hf. lia. }
  assert (elements_at (w_mem w0) (addr e + 64) (Z.to_nat n) =
          elements_at (w_mem w) (addr e + 64) (Z.to_nat n)) as ->.
  { apply elements_at_ext. intros b Hb. symmetry. apply Hf. lia. }
  rewrite <- Hw in Hm, Hd |- *.
  apply (process_packet_aggregates _ _ (addr e) (flexio_dev_cqe_get_byte_cnt e)).
  - unfold receive_packet. rewrite (cq_rep_head _ _ _ _ _ _ R). unfold rwqe_at.
    by rewrite Hrq, Hwr.
  - by eapply maps_window.
  - rewrite Hkv. by eapply maps_window.
  - exact Hd.
Qed.

Lemma kv_inv_step index stop time e pend l w :
  kv_inv stop time (e :: pend) l w ->
  exists l' w', kv_turn index 0 l w = Some (l', w') /\ kv_inv stop time pend l' w'.
Proof.
  intros HI. pose proof (kv_packet_agg _ _ _ _ _ _ HI) as [At Af Aw].
  destruct HI as [(dn & Ha & Hc & R & Ht) Hf [Hrq Hkv] [Hwr Hww] [Hs Hti]].
  unfold kv_turn. cbn [truthy Z.eqb negb]. set (w1 := process_packet (lp_ctx l) w) in *. clearbody w1.
  set (w1' := step_rq _ w1).
  assert (cq_rep 7 (Z.of_nat (length dn)) (e :: pend) (rqcq_ctx (kv_q (lp_ctx l))) w1') as R1.
  { eapply cq_rep_frame; [|exact R]. unfold w1'. cbn. by rewrite Aw. }
  destruct (step_cq (rqcq_ctx (kv_q (lp_ctx l))) w1') as [cq w2] eqn:Ec.
  pose proof (cq_rep_step 7 ltac:(lia) _ _ _ _ _ _ _ R1 Ec) as R2.
  assert (length dn < 128)%nat as Hl.
  { rewrite Ha, length_app in Hshort. cbn in Hshort. lia. }
  assert (u64 (pkt_count l + 1) = Z.of_nat (length (dn ++ [e]))) as Hn.
  { rewrite length_app, Hc. cbn. rewrite wrapu_small by lia. lia. }
  rewrite Hn. rewrite (proj2 (Z.eqb_neq _ STOP_NUMBER))
    by (rewrite length_app; cbn; unfold STOP_NUMBER; lia). cbn [andb].
  do 2 eexists. split; [done|]. unfold step_cq in Ec. injection Ec as <- <-.
  split; cbn [lp_ctx lp_stop lp_time pkt_count w_mem emit w_rq w_window].
  - exists (dn ++ [e]). split; [by rewrite Ha, <- app_assoc|]. split; [done|].
    split; [rewrite length_app; cbn; rewrite Nat2Z.inj_add; exact R2|].
    intros k Hk. cbn. rewrite At, Ht, wrapu_add_l by done. unfold burst_elements.
    rewrite map_app, concat_app, total_app. cbn. rewrite app_nil_r. f_equal. lia.
  - intros b Hb. cbn. by rewrite Af, Hf.
  - done.
  - unfold w1'. cbn. rewrite Aw. done.
  - done.
Qed.

End Burst.

(** C16.  The handler aggregates a burst.  After initialisation of a thread
    whose packets and table are in DPA memory, with at most 128 packets delivered
    and one unit of fuel per packet, the handler drains the queue without fault
    and keeps polling; every counter of the table holds its initial value plus
    the sum over all elements of all packets, modulo 2^32; no byte outside the
    table changes; and no stop is reported. *)
Theorem kv_handler_burst {F : FlexioDev} (shared : queue_config_data) (s0 s1 : kv_program)
    (w : World F) (ret : Z) (c0 : kv_context) (es : list cqe64) (fuel : nat) :
  let i := Z.to_nat (thread_index shared) in
  let T := global_entry_ptr s1 in
  let rq := init_rq (rq_data shared) in
  let addr := pkt_addr rq (w_rq w) in
  thread_index shared < MAX_THREADS -> kv_ctxs s0 !! i = Some c0 ->
  daddr_on_host (rq_data shared) = 0 -> daddr_on_host (sq_data shared) = 0 ->
  cq_prepared 7 shared w ->
  dpa_kv_aggregation_device_init shared s0 w = (ret, s1) ->
  snd flexio_dev_get_thread_ctx <> 0 ->
  (length es <= 128)%nat -> (length es <= fuel)%nat ->
  (forall e, e ∈ es -> flexio_dev_cqe_get_owner e = 0 /\ packet_ok rq T w e) ->
  maps w T T (4 * entry_size) ->
  ret = 0 /\
  exists s2 w2,
    dpa_kv_aggregation_device_event_handler fuel
      [nic_burst 7 (cq_ring_daddr (rq_cq_data shared)) 0 es] (thread_index shared) s1 w
      = Polling s2 w2 /\
    (forall k, in_table k -> table (w_mem w2) T k =
       u32 (table (w_mem w) T k + total k (burst_elements addr (w_mem w) es))) /\
    (forall b, off_table T b -> rd8 (w_mem w2) b = rd8 (w_mem w) b) /\
    kv_is_stop s2 = kv_is_stop s1 /\
    (forall j, j <> i -> kv_ctxs s2 !! j = kv_ctxs s1 !! j).
Proof.
  intros i T rq addr Hi Hc Hrh Hsh Hp E Hth Hl Hf Ho HT.
  unfold dpa_kv_aggregation_device_init in E. rewrite (proj2 (Z.ltb_lt _ _) Hi) in E.
  cbn [negb] in E. set (s' := if thread_index shared =? 0 then _ else s0) in E.
  injection E as <- E. split; [done|].
  assert (exists c1, kv_ctxs s1 !! i = Some c1 /\ is_initalized (kv_q c1) = 1 /\
    rqcq_ctx (kv_q c1) = init_cq (rq_cq_data shared) /\ rq_ctx (kv_q c1) = rq /\
    rq_on_host (kv_refl c1) = 0 /\ sq_on_host (kv_refl c1) = 0)
    as (c1 & Hc1 & Hin & Hcq & Hrq & Hr0 & Hs0).
  { subst s1. eexists. split; [cbn [kv_ctxs]; apply list_lookup_insert_eq|].
    - unfold s'. destruct (_ =? _); cbn [kv_ctxs]; by eapply lookup_lt_Some.
    - by split_and!. }
  clear E s'. unfold i in Hc1. unfold dpa_kv_aggregation_device_event_handler. rewrite Hc1, Hin. cbn [Z.eqb].
  unfold map_rx_buff. rewrite Hr0, Hs0. cbn [truthy Z.eqb negb].
  set (c := MkKv _ _ _). fold T in c.
  destruct (if thread_index shared =? 0 then thread_cycles w else (begin_time s1, w))
    as [t w1] eqn:Et.
  assert (w_mem w1 = w_mem w /\ w_cq w1 = w_cq w /\ w_rq w1 = w_rq w /\ w_window w1 = w_window w)
    as (Em & Ecq & Er & Ew) by (destruct (_ =? _); injection Et as <- <-; done). clear Et.
  rewrite (proj2 (Z.eqb_neq _ _) Hth). cbn [poll_f].
  set (wn := nic_burst 7 (cq_ring_daddr (rq_cq_data shared)) 0 es w1).
  destruct (nic_burst_frame 7 (cq_ring_daddr (rq_cq_data shared)) 0 es w1) as (Nm & Nr & _ & _ & Nw).
  fold wn in Nm, Nr, Nw.
  assert (cq_rep 7 0 es (rqcq_ctx (kv_q c)) wn) as R.
  { change (kv_q c) with (kv_q c1). rewrite Hcq. unfold wn.
    refine (cq_rep_burst 7 _ 0 [] es (init_cq (rq_cq_data shared)) w1 _ _ _); [lia|cbn; lia| |].
    - intros k e Hk. pose proof (lookup_lt_Some _ _ _ Hk). cbn [length].
      rewrite Z.div_small by lia. apply Ho, list_elem_of_lookup. eauto.
    - eapply cq_rep_frame; [exact Ecq|]. apply (cq_rep_init 7 ltac:(lia)). exact Hp. }
  destruct (drain_f_inv (fun l => rqcq_ctx (kv_q (lp_ctx l))) (kv_turn (thread_index shared) 0)
    (kv_inv rq T w es (kv_is_stop s1) t)) with (fuel := fuel) (pend := es)
    (d := MkLoop c (kv_is_stop s1) t 0) (w := wn) as (l2 & w2 & -> & HI).
  - intros pend l v [(dn & _ & _ & Rv & _) _ _ _ _]. by apply (cq_rep_ready 7 ltac:(lia) _ _ _ _ Rv).
  - intros e pend l v. apply kv_inv_step; [|done|done]. intros x Hx. by apply Ho.
  - done.
  - split; [|intros b _; by rewrite Nm, Em|done|by rewrite Nr, Er, Nw, Ew|done].
    exists []. split; [done|]. split; [done|]. split; [done|].
    intros k _. rewrite Nm, Em. cbn. rewrite Z.add_0_r. symmetry. apply wrapu_small, table_range.
  - destruct HI as [(dn & Ha & _ & _ & Htab) Hfr _ _ [Hst _]]. rewrite app_nil_r in Ha. subst dn.
    eexists _, w2. split; [done|]. split_and!; try done. cbn [kv_ctxs].
    intros j Hj. apply list_lookup_insert_ne. unfold i in Hj. congruence.
Qed.

(** With the packets on the DPA a turn never faults. *)
Lemma kv_turn_dpa_some {F : FlexioDev} index l (w : World F) :
  kv_turn index 0 l w = None -> false = true.
Proof.
  unfold kv_turn. cbn [truthy Z.eqb negb]. destruct (step_cq _ _). by destruct (_ && _).
Qed.

(** The stop RPC reports the time of five million packets.  A turn of
    thread 0 that brings its packet count to [STOP_NUMBER] sets the stop flag and
    replaces the start time by the elapsed time, so that the RPC returns it; any
    other turn leaves both, and while the flag is clear the RPC returns 0. *)
Theorem stop_time_reported {F : FlexioDev} (index on_host : Z) (l l' : kv_loop) (w w' : World F)
    (s : kv_program) :
  kv_turn index on_host l w = Some (l', w') ->
  kv_is_stop s = lp_stop l' -> begin_time s = lp_time l' ->
  pkt_count l' = u64 (pkt_count l + 1) /\
  (index = 0 /\ u64 (pkt_count l + 1) = STOP_NUMBER ->
     exists tick, dpa_kv_aggregation_device_stop_time s = u64 (cycles_at tick - lp_time l)) /\
  (~ (index = 0 /\ u64 (pkt_count l + 1) = STOP_NUMBER) ->
     lp_stop l' = lp_stop l /\ lp_time l' = lp_time l /\
     (lp_stop l = 0 -> dpa_kv_aggregation_device_stop_time s = 0)).
Proof.
  intros E Hs Hb. unfold kv_turn in E.
  destruct (if truthy on_host then _ else _) as [w1|]; [|done].
  destruct (step_cq _ _) as [cq w2]. unfold dpa_kv_aggregation_device_stop_time.
  destruct ((u64 (pkt_count l + 1) =? STOP_NUMBER) && (index =? 0)) eqn:Ec.
  - unfold thread_cycles in E. injection E as <- <-. cbn in *.
    apply andb_prop in Ec as [E1%Z.eqb_eq E2%Z.eqb_eq].
    split; [done|]. split; [|intros Hn; destruct (Hn (conj E2 E1))].
    intros _. rewrite Hs, Hb. cbn. eauto.
  - injection E as <- <-. cbn in *. split; [done|]. split.
    + intros [-> E1]. rewrite E1, !Z.eqb_refl in Ec. done.
    + intros _. rewrite Hs. split_and!; try done. by intros ->.
Qed.

(** One packet with the single element (65541, 9) in the buffer at 70000. *)
Definition demo_kv_mem : mem :=
  wrbytes ∅ 70056 [1;0;0;0;0;0;0;0; 5;0;1;0;0;0;0;0; 9;0;0;0;0;0;0;0].

Definition demo_kv_world (win : option (Z * Z)) : World ref_flexio :=
  MkWorld (F := ref_flexio) demo_kv_mem ∅ {[ (16384, 0) := 70000 ]} ∅ 0%nat win [].

Definition demo_kv_host : kv_context :=
  MkKv (MkRefl (MkQueues 77 1 (MkCq 3 4096 (4096, 0) 0 1 64 127) zero_cq (MkRq 5 16384 128 127)
                 zero_sq zero_dt)
          (MkHostRq 11 1 70000 (2 ^ 40 + 70000)) 0 1 1) 0 (2 ^ 40 + 300000).

Lemma demo_maps_host win a len : 2 ^ 40 <= a -> maps (demo_kv_world win) a (a - 2 ^ 40) len.
Proof.
  intros Ha o Ho. unfold via. cbn [window_view ref_flexio].
  destruct (Z.leb_spec (2 ^ 40) (a + o)); lia.
Qed.

Lemma demo_maps_dpa win a len : a + len <= 2 ^ 40 -> maps (demo_kv_world win) a a len.
Proof.
  intros Ha o Ho. unfold via. cbn [window_view ref_flexio].
  destruct (Z.leb_spec (2 ^ 40) (a + o)); lia.
Qed.

Lemma process_packet_host_aggregates_witness :
  match process_packet_host demo_kv_host (demo_kv_world (Some (1, 11))) with
  | None => False
  | Some w' => table (w_mem w') 300000 5 = 9
  end.
Proof.
  pose proof (process_packet_host_aggregates (F := ref_flexio) demo_kv_host
    (demo_kv_world (Some (1, 11))) 70000 0 70000 300000 ltac:(reflexivity)
    ltac:(exact (demo_maps_host _ (2 ^ 40 + 70000) _ ltac:(lia)))
    ltac:(exact (demo_maps_host _ (2 ^ 40 + 300000) _ ltac:(lia)))
    ltac:(left; vm_compute; discriminate)) as H.
  destruct (process_packet_host _ _) as [w'|].
  - destruct H as [_ [Ht _ _]]. rewrite Ht by (vm_compute; done). vm_compute. reflexivity.
  - destruct H as [_ H]. vm_compute in H. discriminate H.
Defined.

Definition demo_kv_program : kv_program :=
  MkKvProgram (replicate (Z.to_nat MAX_THREADS) zero_kv) 300000 0 0.

Lemma kv_handler_burst_witness :
  exists s2 w2,
    dpa_kv_aggregation_device_event_handler (F := ref_flexio) 1
      [nic_burst (F := ref_flexio) 7 4096 0 [RefCqe 0 0 88]] 1
      (snd (dpa_kv_aggregation_device_init (F := ref_flexio) (demo_shared 1) demo_kv_program
         (demo_kv_world None))) (demo_kv_world None) = Polling s2 w2 /\
    table (w_mem w2) 300000 5 = 9.
Proof.
  destruct (kv_handler_burst (F := ref_flexio) (demo_shared 1) demo_kv_program
    (snd (dpa_kv_aggregation_device_init (F := ref_flexio) (demo_shared 1) demo_kv_program
       (demo_kv_world None))) (demo_kv_world None) 0 zero_kv [RefCqe 0 0 88] 1)
    as (_ & s2 & w2 & E & Ht & _); try reflexivity.
  - intros j _. reflexivity.
  - discriminate.
  - apply Nat.leb_le. reflexivity.
  - intros e He. apply list_elem_of_singleton in He as ->. split; [reflexivity|].
    split; [apply (demo_maps_dpa None 70000); vm_compute; discriminate|].
    left. vm_compute. discriminate.
  - apply (demo_maps_dpa None 300000). vm_compute. discriminate.
  - exists s2, w2. split; [exact E|].
    refine (eq_trans (Ht 5 _) _); [vm_compute; done|vm_compute; reflexivity].
Defined.

Lemma stop_time_reported_witness :
  exists l' w',
    kv_turn 0 0 (MkLoop demo_kv_host 0 1000 4999999) (demo_kv_world None) = Some (l', w') /\
    exists t, dpa_kv_aggregation_device_stop_time
      (MkKvProgram [] 0 (lp_stop l') (lp_time l')) = u64 (cycles_at (FlexioDev := ref_flexio) t - 1000).
Proof.
  destruct (kv_turn 0 0 (MkLoop demo_kv_host 0 1000 4999999) (demo_kv_world None))
    as [[l' w']|] eqn:E; [|discriminate (kv_turn_dpa_some _ _ _ E)].
  exists l', w'. split; [reflexivity|].
  apply (stop_time_reported 0 0 (MkLoop demo_kv_host 0 1000 4999999) l' (demo_kv_world None) w'
    (MkKvProgram [] 0 (lp_stop l') (lp_time l')) E eq_refl eq_refl).
  split; reflexivity.
Defined.
