(* ===== verification/DpaRefactorMt.v ===== *)
(** * DpaRefactorMt: the multi-threaded L2 reflector

    Translation of [flexio/dpa_refactor_mt/device/dpa_refactor_device_mt.c] with
    its configuration ([ONLY_RECV] 0, [DISPLAY_COUNT] 1) and of
    [flexio/dpa_refactor_mt/common/dpa_refactor_common.h].  One context per thread;
    the packet functions are copies of those of [dpa_refactor]; the handler
    counts packets in a register and adds every full million to the context. *)

From S2P Require Import Prelude Machine FlexioDev WrapperDevice DevCommon RingProtocol Reflector.
From S2P Require Import PacketLoop.

Definition MAX_THREADS : Z := 190.
Definition LOG_SQ_RING_DEPTH : Z := 7.
Definition LOG_RQ_RING_DEPTH : Z := 7.
Definition LOG_CQ_RING_DEPTH : Z := 7.
Definition LOG_WQ_DATA_ENTRY_BSIZE : Z := 11.
Definition COUNT_BATCH : Z := 1000000.

Abbreviation device_context := refl_context.
Abbreviation dev_ctxs_t := (list device_context).
Definition dev_ctxs_zero : dev_ctxs_t := replicate (Z.to_nat MAX_THREADS) zero_refl.

Definition init_cq : app_transfer_cq -> cq_ctx_t := init_cq_with LOG_CQ_RING_DEPTH.
Definition init_rq : app_transfer_wq -> rq_ctx_t := init_rq_with LOG_RQ_RING_DEPTH.

Section Device.
Context {F : FlexioDev}.

Definition init_sq : app_transfer_wq -> sq_ctx_t -> sq_ctx_t := init_sq_with LOG_SQ_RING_DEPTH.

(** The receive-only variants, compiled out of the handler. *)
Definition receive_packet_on_dpa (d : device_context) (w : World F) : World F :=
  let '(rq_data, data_sz) := receive_packet (rqcq_ctx (rc_q d)) (rq_ctx (rc_q d)) w in w.
Definition receive_packet_on_host (d : device_context) (w : World F) : World F :=
  let '(rq_data, data_sz) := receive_packet (rqcq_ctx (rc_q d)) (rq_ctx (rc_q d)) w in w.

Definition process_packet (d : device_context) (w : World F) : device_context * World F :=
  let '(rq_data, data_sz) := receive_packet (rqcq_ctx (rc_q d)) (rq_ctx (rc_q d)) w in
  let sq_data := rq_data in
  let w := set_mem (swap_mac (w_mem w) sq_data) w in
  let '(q, w) := send_packet finish_send_packet (rc_q d) sq_data data_sz w in
  (set_q q d, w).

Definition process_packet_host (d : device_context) (w : World F) : device_context * World F :=
  let '(rq_data, data_sz) := receive_packet (rqcq_ctx (rc_q d)) (rq_ctx (rc_q d)) w in
  let rq_data_dpa := host_rq_addr_to_dpa_addr rq_data (host_rq_ctx d) in
  let sq_data := rq_data in
  let w := set_mem (swap_mac (w_mem w) rq_data_dpa) w in
  let '(q, w) := send_packet finish_send_packet_host (rc_q d) sq_data data_sz w in
  (set_q q d, w).

Definition dpa_refactor_mt_device_init (shared_data : queue_config_data) (ds : dev_ctxs_t)
    (w : World F) : Z * dev_ctxs_t * World F :=
  if negb (thread_index shared_data <? MAX_THREADS) then (assert_failed, ds, w)
  else
    let i := Z.to_nat (thread_index shared_data) in
    let d := default zero_refl (ds !! i) in
    let '(d, w) := init_refl LOG_CQ_RING_DEPTH LOG_RQ_RING_DEPTH LOG_SQ_RING_DEPTH shared_data d w in
    (0, <[i := d]> ds, w).

(** [pkt_count++] and the report of every million packets. *)
Definition count_packet (pkt_count : Z) (d : device_context) : Z * device_context :=
  let pkt_count := u64 (pkt_count + 1) in
  if pkt_count =? COUNT_BATCH
  then (0, set_packets_count (u32 (packets_count d + COUNT_BATCH)) d)
  else (pkt_count, d).

(** The loop's state: the context and the register [pkt_count]. *)
Abbreviation mt_loop := (device_context * Z)%type.

Definition mt_turn (on_host : Z) (l : mt_loop) (w : World F) : mt_loop * World F :=
  let '(d, n) := l in
  let '(d, w) := if truthy on_host then process_packet_host d w else process_packet d w in
  let '(q, w) := step_queues (rc_q d) w in
  let '(n, d) := count_packet n (set_q q d) in
  ((d, n), w).

Definition dpa_refactor_mt_device_event_handler (fuel : nat) (env : list (World F -> World F))
    (index : Z) (ds : dev_ctxs_t) (w : World F) : handler_result dev_ctxs_t :=
  match ds !! Z.to_nat index with
  | None => OutOfBounds
  | Some d =>
      let dtctx := snd flexio_dev_get_thread_ctx in
      if is_initalized (rc_q d) =? 0 then Rescheduled ds w
      else
        let on_host := rq_on_host d in
        let '(h, w) := map_rx_buff on_host (host_rq_ctx d) w in
        let d := set_host_rq h d in
        map_result (fun l => <[Z.to_nat index := fst l]> ds)
          (poll_or_exit (fun l => rqcq_ctx (rc_q (fst l))) (mt_turn on_host) fuel env dtctx (d, 0) w)
  end.

(** ** Lemmas *)

#[export] Instance mt_has_queues : HasQueues mt_loop.
Proof.
  refine {| dq := fun l => rc_q (fst l); set_dq := fun q l => (set_q q (fst l), snd l) |};
    by intros q [[] ?].
Defined.

Lemma count_packet_frame n d :
  rc_q (snd (count_packet n d)) = rc_q d /\ host_rq_ctx (snd (count_packet n d)) = host_rq_ctx d /\
  rq_on_host (snd (count_packet n d)) = rq_on_host d.
Proof. unfold count_packet. by destruct (_ =? _). Qed.

Definition touch_addr (d : device_context) (a : Z) : Z :=
  if truthy (rq_on_host d) then host_rq_addr_to_dpa_addr a (host_rq_ctx d) else a.
Definition writebacks (d : device_context) : list event :=
  if truthy (rq_on_host d) then [EvMemoryWriteback; EvWindowWriteback] else [EvMemoryWriteback].
Definition finish_of (d : device_context) : sq_ctx_t -> World F -> sq_ctx_t * World F :=
  if truthy (rq_on_host d) then finish_send_packet_host else finish_send_packet.

Lemma mt_finish_is_finish d : is_finish (writebacks d) (finish_of d).
Proof.
  unfold writebacks, finish_of. destruct (truthy (rq_on_host d));
    [apply is_finish_host|apply is_finish_dpa].
Qed.

Lemma mt_turn_reflects d0 l (w : World F) :
  host_rq_ctx (fst l) = host_rq_ctx d0 /\ rq_on_host (fst l) = rq_on_host d0 ->
  let l' := fst (mt_turn (rq_on_host d0) l w) in
  (host_rq_ctx (fst l') = host_rq_ctx d0 /\ rq_on_host (fst l') = rq_on_host d0) /\
  (dq l', snd (mt_turn (rq_on_host d0) l w)) =
  (let '(q, w) := reflect_packet (touch_addr d0) (finish_of d0) (dq l) w in step_queues q w).
Proof.
  destruct l as [d n]. cbn [fst dq mt_has_queues]. intros [Hh Hr].
  unfold mt_turn, process_packet_host, process_packet, reflect_packet, touch_addr, finish_of.
  rewrite <- Hh, <- Hr. destruct (receive_packet _ _ _) as [a sz].
  assert (forall q (v : World F), let r := (let '(n0, d') := count_packet n (set_q q d) in ((d', n0), v)) in
    host_rq_ctx (fst (fst r)) = host_rq_ctx d /\ rq_on_host (fst (fst r)) = rq_on_host d /\
    rc_q (fst (fst r)) = q /\ snd r = v) as Hcnt.
  { intros q v. pose proof (count_packet_frame n (set_q q d)) as (A & B & C).
    destruct (count_packet n (set_q q d)) as [n' d']. cbn in *. done. }
  destruct (truthy (rq_on_host d)); destruct (send_packet _ _ _ _ _) as [q1 w1];
    cbn [rc_q set_q]; destruct (step_queues q1 w1) as [q2 w2]; specialize (Hcnt q2 w2);
    unfold set_q in *; cbn [host_rq_ctx rq_on_host packets_count sq_on_host rc_q] in *;
    destruct (count_packet _ _) as [n' d']; cbn in *; destruct Hcnt as (? & ? & ? & ?);
    split; [done|congruence|done|congruence].
Qed.


(** The turn in the form of the packet servers. *)
Lemma mt_turn_serves d0 l (w : World F) :
  host_rq_ctx (fst l) = host_rq_ctx d0 /\ rq_on_host (fst l) = rq_on_host d0 ->
  let l' := fst (mt_turn (rq_on_host d0) l w) in
  (host_rq_ctx (fst l') = host_rq_ctx d0 /\ rq_on_host (fst l') = rq_on_host d0) /\
  (tt, dq l', snd (mt_turn (rq_on_host d0) l w)) =
  (let '(x, q, w) := serve_packet (reflect_fn (touch_addr d0)) (finish_of d0) tt (dq l) w in
   let '(q, w) := step_queues q w in (x, q, w)).
Proof.
  intros H l'. destruct (mt_turn_reflects d0 l w H) as [HP E]. split; [exact HP|].
  rewrite serve_reflect. destruct (reflect_packet _ _ _ _) as [q1 w1].
  destruct (step_queues q1 w1) as [q2 w2]. exact (f_equal (fun p => (tt, fst p, snd p)) E).
Qed.

Lemma init_refl_fresh `{!FlexioDevLaws F} shared d (w : World F) d1 w1 :
  cq_prepared 7 shared w -> init_refl 7 7 7 shared d w = (d1, w1) ->
  fresh_queues 7 7 shared (sq_pi (sq_ctx (rc_q d))) (rc_q d1) w1 /\ w_mem w1 = w_mem w /\
  rq_on_host d1 = daddr_on_host (rq_data shared).
Proof.
  intros Hp E. unfold init_refl in E.
  destruct (init_queues 7 7 7 shared (rc_q d) w) as [q w'] eqn:Eq.
  destruct (init_queues_fresh 7 7 7 ltac:(lia) ltac:(lia) _ _ _ _ _ Hp Eq) as [Hf Hw].
  injection E as <- <-. split; [exact Hf|]. split; [by rewrite Hw|done].
Qed.

Lemma fresh_frame shared pi q (w w' : World F) :
  w_cq w' = w_cq w -> w_sq w' = w_sq w ->
  fresh_queues 7 7 shared pi q w -> fresh_queues 7 7 shared pi q w'.
Proof.
  intros Hc Hs []. split; try done; [by eapply cq_rep_frame|by eapply sq_rep_frame].
Qed.


(** Packets counted so far, less the completions consumed. *)
Definition count_gap (l : mt_loop) : Z :=
  u32 (packets_count (fst l) + snd l - cq_idx (rqcq_ctx (rc_q (fst l)))).

Lemma mt_turn_count on_host l (w : World F) :
  0 <= snd l < COUNT_BATCH ->
  0 <= snd (fst (mt_turn on_host l w)) < COUNT_BATCH /\
  count_gap (fst (mt_turn on_host l w)) = count_gap l.
Proof.
  destruct l as [d n]. cbn [snd]. intros Hn. unfold mt_turn, process_packet_host, process_packet.
  assert (forall fin a sz (v : World F), exists q v', send_packet fin (rc_q d) a sz v = (q, v') /\
    rqcq_ctx q = rqcq_ctx (rc_q d) /\ rq_ctx q = rq_ctx (rc_q d)) as Hsend.
  { intros. unfold send_packet. destruct (prepare_send_packet _ _ _ _) as [s1 v1].
    destruct (fin s1 v1) as [s2 v2]. eauto. }
  destruct (receive_packet _ _ _) as [a sz].
  assert (forall q (v : World F), rqcq_ctx q = rqcq_ctx (rc_q d) ->
    let r := (let '(q', v') := step_queues (rc_q (set_q q d)) v in
              let '(n', d') := count_packet n (set_q q' (set_q q d)) in ((d', n'), v')) in
    0 <= snd (fst r) < COUNT_BATCH /\ count_gap (fst r) = count_gap (d, n)) as Hstep.
  { intros q v Hq. unfold step_queues, step_cq, count_packet, count_gap, COUNT_BATCH in *.
    cbn [rc_q set_q rqcq_ctx set_rqcq]. rewrite Hq, (wrapu_small 64) by lia.
    destruct (Z.eqb_spec (n + 1) 1000000) as [E|E]; cbn -[Z.eqb]; (split; [lia|]);
      rewrite ?wrapu_sub_r; unfold wrapu.
    - replace ((packets_count d + 1000000) mod 2 ^ 32 + 0) with
        ((packets_count d + 1000000) mod 2 ^ 32) by lia.
      rewrite Zminus_mod_idemp_l. f_equal. lia.
    - f_equal. lia. }
  destruct (truthy on_host).
  - destruct (Hsend finish_send_packet_host a sz
      (set_mem (swap_mac (w_mem w) (host_rq_addr_to_dpa_addr a (host_rq_ctx d))) w))
      as (q & v & -> & Hq & _). by apply Hstep.
  - destruct (Hsend finish_send_packet a sz (set_mem (swap_mac (w_mem w) a) w))
      as (q & v & -> & Hq & _). by apply Hstep.
Qed.

End Device.

(** The handler of a thread whose queues are fresh, on a burst. *)
Lemma mt_fresh_burst {F : FlexioDev} `{!FlexioDevLaws F} (shared : queue_config_data)
    (ds : dev_ctxs_t) (w : World F) (index : Z) (d : device_context) (es : list cqe64) (fuel : nat)
    (h : host_rq_ctx_t) (w' : World F) :
  ds !! Z.to_nat index = Some d -> fresh_queues 7 7 shared (sq_pi (sq_ctx (rc_q d))) (rc_q d) w ->
  0 <= sq_pi (sq_ctx (rc_q d)) < 2 ^ 32 -> snd flexio_dev_get_thread_ctx <> 0 ->
  (length es <= 128)%nat -> (length es <= fuel)%nat ->
  (forall e, e ∈ es -> flexio_dev_cqe_get_owner e = 0) ->
  map_rx_buff (rq_on_host d) (host_rq_ctx d) w = (h, w') ->
  exists d2 w2,
    dpa_refactor_mt_device_event_handler fuel
      [nic_burst 7 (cq_ring_daddr (rq_cq_data shared)) 0 es] index ds w
      = Polling (<[Z.to_nat index := d2]> ds) w2 /\
    (let acc e := touch_addr (set_host_rq h d) (pkt_addr (rq_ctx (rc_q d)) (w_rq w') e) in
     w_mem w2 = swap_all acc es (w_mem w)) /\
    (forall k e, es !! k = Some e ->
       posted w2 (wq_ring_daddr (sq_data shared), 4 * Z.of_nat k + 2)
         (pkt_addr (rq_ctx (rc_q d)) (w_rq w') e) (flexio_dev_cqe_get_byte_cnt e)
         (wqd_mkey_id (sq_data shared))) /\
    w_trace w2 = w_trace w' ++ burst_events (writebacks d) (rc_q d)
                                 (sq_pi (sq_ctx (rc_q d))) 0 (length es) /\
    cqe_ready (rqcq_ctx (rc_q d2)) w2 = false.
Proof.
  intros Hd Hq Hpi Hth Hl Hf Ho Em. destruct (map_rx_buff_frame _ _ _ _ _ Em) as (Fc & Fs & Fr & Fm).
  set (d' := set_host_rq h d).
  destruct (serve_burst 7 7 ltac:(lia) ltac:(lia) (reflect_fn (touch_addr d')) (finish_of d')
    (writebacks d') (fun _ => tt) (mt_turn (rq_on_host d'))
    (fun l => host_rq_ctx (fst l) = host_rq_ctx d' /\ rq_on_host (fst l) = rq_on_host d')
    (mt_finish_is_finish d') (mt_turn_serves d') fuel shared _ es (d', 0) w'
    (fresh_frame _ _ _ _ _ Fc Fs Hq) Hpi (conj eq_refl eq_refl) Hf ltac:(lia) ltac:(lia) Ho)
    as ([d2 n2] & w2 & Epoll & _ & (posts & Es & Hpost & Htr & Hrd)).
  exists d2, w2. rewrite serve_all_reflect in Es. injection Es as Hm <-.
  split; [|split; [|split; [|split]]].
  - unfold dpa_refactor_mt_device_event_handler. rewrite Hd.
    pose proof (fq_init _ _ _ _ _ _ Hq) as Hin. rewrite Hin. cbn [Z.eqb]. rewrite Em.
    unfold poll_or_exit. rewrite (proj2 (Z.eqb_neq _ _) Hth).
    change (rq_on_host d) with (rq_on_host d'). cbn [dq mt_has_queues] in Epoll.
    fold d'. rewrite Epoll. done.
  - rewrite <- Hm, Fm. done.
  - intros k e Hk. apply Hpost. by rewrite list_lookup_fmap, Hk.
  - exact Htr.
  - exact Hrd.
Qed.

(** The multi-threaded reflector.  After the initialisation of one thread,
    its handler reflects up to 128 delivered packets with one unit of fuel each:
    memory has the addresses of each packet swapped in turn, every packet is
    posted from its own buffer with its own length, the library calls are those
    of one packet after the other, and the contexts of the other threads are
    untouched. *)
Theorem mt_handler_burst {F : FlexioDev} `{!FlexioDevLaws F} (shared : queue_config_data)
    (ds0 ds1 : dev_ctxs_t) (w0 w1 : World F) (ret : Z) (d0 : device_context) (es : list cqe64)
    (fuel : nat) :
  let i := Z.to_nat (thread_index shared) in
  thread_index shared < MAX_THREADS -> ds0 !! i = Some d0 ->
  0 <= sq_pi (sq_ctx (rc_q d0)) < 2 ^ 32 -> cq_prepared 7 shared w0 ->
  dpa_refactor_mt_device_init shared ds0 w0 = (ret, ds1, w1) ->
  snd flexio_dev_get_thread_ctx <> 0 ->
  (length es <= 128)%nat -> (length es <= fuel)%nat ->
  (forall e, e ∈ es -> flexio_dev_cqe_get_owner e = 0) ->
  exists d1 h w1' d2 w2,
    ds1 !! i = Some d1 /\ map_rx_buff (rq_on_host d1) (host_rq_ctx d1) w1 = (h, w1') /\
    dpa_refactor_mt_device_event_handler fuel
      [nic_burst 7 (cq_ring_daddr (rq_cq_data shared)) 0 es] (thread_index shared) ds1 w1
      = Polling (<[i := d2]> ds1) w2 /\
    (let acc e := touch_addr (set_host_rq h d1) (pkt_addr (rq_ctx (rc_q d1)) (w_rq w1') e) in
     w_mem w2 = swap_all acc es (w_mem w1)) /\
    (forall k e, es !! k = Some e ->
       posted w2 (wq_ring_daddr (sq_data shared), 4 * Z.of_nat k + 2)
         (pkt_addr (rq_ctx (rc_q d1)) (w_rq w1') e) (flexio_dev_cqe_get_byte_cnt e)
         (wqd_mkey_id (sq_data shared))) /\
    w_trace w2 = w_trace w1' ++ burst_events (writebacks d1) (rc_q d1)
                                  (sq_pi (sq_ctx (rc_q d1))) 0 (length es) /\
    cqe_ready (rqcq_ctx (rc_q d2)) w2 = false.
Proof.
  intros i Hi Hd Hpi Hp E Hth Hl Hf Ho. unfold i in *. clear i.
  set (i := Z.to_nat (thread_index shared)) in *.
  unfold dpa_refactor_mt_device_init in E. rewrite (proj2 (Z.ltb_lt _ _) Hi) in E.
  cbn [negb] in E. cbv zeta in E. fold i in E. rewrite Hd in E. cbn [default id] in E.
  destruct (init_refl _ _ _ _ _ _) as [d1 v1] eqn:Ei. injection E as <- <- <-.
  apply init_refl_fresh in Ei as (Hq & _ & _); [|exact Hp].
  assert (<[i := d1]> ds0 !! i = Some d1) as Hd1
    by (apply list_lookup_insert_eq; by eapply lookup_lt_Some).
  pose proof (fq_pi _ _ _ _ _ _ Hq) as Hpi1. rewrite <- Hpi1 in Hq, Hpi.
  destruct (map_rx_buff (rq_on_host d1) (host_rq_ctx d1) v1) as [h w1'] eqn:Em.
  destruct (mt_fresh_burst shared _ _ (thread_index shared) d1 es fuel h w1' Hd1 Hq Hpi Hth Hl Hf Ho Em)
    as (d2 & w2 & HB). by exists d1, h, w1', d2, w2.
Qed.

(** Packets are counted exactly.  However the NIC behaves and however long
    the handler polls, the context's counter plus a register of less than one
    million has advanced, modulo 2^32, by the number of completions consumed. *)
Theorem mt_packets_counted {F : FlexioDev} (fuel : nat) (env : list (World F -> World F))
    (index : Z) (ds ds' : dev_ctxs_t) (d : device_context) (w w' : World F) :
  ds !! Z.to_nat index = Some d -> is_initalized (rc_q d) <> 0 ->
  dpa_refactor_mt_device_event_handler fuel env index ds w = Polling ds' w' ->
  exists d' n, ds' = <[Z.to_nat index := d']> ds /\ 0 <= n < COUNT_BATCH /\
    u32 (packets_count d' + n - cq_idx (rqcq_ctx (rc_q d'))) =
    u32 (packets_count d - cq_idx (rqcq_ctx (rc_q d))).
Proof.
  intros Hd Hin E. unfold dpa_refactor_mt_device_event_handler in E. rewrite Hd in E.
  rewrite (proj2 (Z.eqb_neq _ _) Hin) in E.
  destruct (map_rx_buff _ _ _) as [h w1]. unfold poll_or_exit in E.
  destruct (_ =? 0); [done|].
  destruct (poll _ _ _ _ _ _) as [[[d' n] w2]|] eqn:Ep; [|done]. cbn in E. injection E as <- <-.
  exists d', n. split; [done|].
  apply (poll_preserves _ _ (fun l => 0 <= snd l < COUNT_BATCH /\
    count_gap l = count_gap (set_host_rq h d, 0))) in Ep as [Hn Hg].
  - split; [exact Hn|]. unfold count_gap in Hg. cbn in Hg. by rewrite Hg, Z.add_0_r.
  - intros l v [Hl Hg]. destruct (mt_turn_count (rq_on_host d) l v Hl) as [H1 H2].
    by rewrite H2.
  - by unfold COUNT_BATCH.
Qed.

Definition demo_mt_init : Z * dev_ctxs_t * World ref_flexio :=
  dpa_refactor_mt_device_init (F := ref_flexio) (demo_shared 2) dev_ctxs_zero
    (MkWorld (F := ref_flexio) ∅ ∅ {[ (16384, 0) := 70000 ]} ∅ 0%nat None []).

Lemma mt_handler_burst_witness :
  exists d2 w2,
    dpa_refactor_mt_device_event_handler (F := ref_flexio) 1
      [nic_burst (F := ref_flexio) 7 4096 0 [RefCqe 0 0 60]] 2 (snd (fst demo_mt_init))
      (snd demo_mt_init) = Polling (<[2%nat := d2]> (snd (fst demo_mt_init))) w2 /\
    cqe_ready (rqcq_ctx (rc_q d2)) w2 = false.
Proof.
  unfold demo_mt_init. set (w0 := MkWorld _ _ _ _ _ _ _).
  destruct (dpa_refactor_mt_device_init (F := ref_flexio) (demo_shared 2) dev_ctxs_zero w0)
    as [[ret ds1] w1] eqn:E.
  destruct (mt_handler_burst (F := ref_flexio) (demo_shared 2) dev_ctxs_zero ds1 w0 w1 ret zero_refl
    [RefCqe 0 0 60] 1 eq_refl eq_refl (conj (Z.le_refl 0) eq_refl) (fun _ _ => eq_refl) E
    ltac:(discriminate) ltac:(apply Nat.leb_le; reflexivity) (le_n 1)
    (fun e He => ltac:(apply list_elem_of_singleton in He; rewrite He; reflexivity)))
    as (d1 & h & w1' & d2 & w2 & _ & _ & H & _ & _ & _ & Hr).
  exists d2, w2. split; [exact H|exact Hr].
Defined.

(** Thread 0 after seven million packets, with no packet waiting. *)
Definition demo_idle : device_context :=
  set_packets_count 7000000 (MkRefl (MkQueues 77 1 (MkCq 3 4096 (4096, 5) 5 1 64 127) zero_cq
    (MkRq 5 16384 128 127) zero_sq zero_dt) zero_host_rq 0 0 0).

Lemma mt_packets_counted_witness :
  exists ds' w' d' n,
    dpa_refactor_mt_device_event_handler (F := ref_flexio) 1 [fun w => w] 0 [demo_idle]
      (empty_world (F := ref_flexio)) = Polling ds' w' /\
    ds' = <[0%nat := d']> [demo_idle] /\ 0 <= n < COUNT_BATCH /\
    u32 (packets_count d' + n - cq_idx (rqcq_ctx (rc_q d'))) = u32 (7000000 - 5).
Proof.
  destruct (mt_packets_counted (F := ref_flexio) 1 [fun w => w] 0 [demo_idle] [demo_idle] demo_idle
    (empty_world (F := ref_flexio)) (empty_world (F := ref_flexio)) eq_refl ltac:(discriminate)
    eq_refl) as (d' & n & H1 & H2 & H3).
  exists [demo_idle], (empty_world (F := ref_flexio)), d', n.
  split; [reflexivity|]. split; [exact H1|]. split; [exact H2|exact H3].
Defined.
