(* ===== verification/NetworkFunction.v ===== *)
(** * NetworkFunction: hashing and header functions on reflected packets

    Translation of
    [flexio/dpa_network_function/device/dpa_network_function_device.c] and its
    common header.  The device program is a multi-threaded reflector; the header
    functions it can apply to a packet ([udp_shift_updating], [classific_hash],
    [check_ipheader]) and the two string hashes are modelled as the source defines
    them ([char] is unsigned on RISC-V). *)

From S2P Require Import Prelude Machine FlexioDev WrapperDevice PacketHdr DevCommon RingProtocol.
From S2P Require Import Reflector PacketLoop DpaRefactorMt.

Definition NF_MAX_THREADS : Z := 190.
Definition CLASSIFIC_NUMBER : Z := 1024 * 100.

(** ** Hash functions *)

(** The loop of [RSHash]: the multiplier [a] and the hash so far. *)
Fixpoint RSHash_loop (b a hash : Z) (str : list Z) : Z :=
  match str with
  | [] => hash
  | c :: str => RSHash_loop b (u32 (a * b)) (u32 (u32 (hash * a) + c)) str
  end.

Definition RSHash (str : list Z) : Z := RSHash_loop 378551 63689 0 str.

Definition JSHash_step (hash c : Z) : Z :=
  Z.lxor hash (u32 (u32 (u32 (Z.shiftl hash 5) + c) + Z.shiftr hash 2)).

Definition JSHash (str : list Z) : Z := fold_left JSHash_step str 1315423911.

(** ** Header functions *)

(** [classific_counter[10][102400]]; [None] is an access outside it. *)
Abbreviation classific_counter := (gmap (Z * Z) Z).

Definition tuple_number (m : mem) (data : Z) : Z :=
  let t := 0 in
  let t := u32 (t + ld32 m (data + o_ip_dst_addr)) in
  let t := u32 (t + ld32 m (data + o_ip_src_addr)) in
  let t := u32 (t + ld16 m (data + o_dst_port)) in
  u32 (t + ld16 m (data + o_src_port)).

Definition bytes4 (v : Z) : list Z :=
  [v mod 256; (v / 256) mod 256; (v / 65536) mod 256; (v / 16777216) mod 256].

Definition classific_hash (m : mem) (data thread_index : Z) (arr : classific_counter)
    : option classific_counter :=
  if 10 <=? thread_index then None
  else
    let hash_value := JSHash (bytes4 (tuple_number m data)) in
    let i := hash_value mod CLASSIFIC_NUMBER in
    Some (<[(thread_index, i) := u64 (default 0 (arr !! (thread_index, i)) + 1)]> arr).

Definition udp_shift_updating (m : mem) (data : Z) : mem :=
  let m := st32 m (data + o_ip_dst_addr) (u32 (ld32 m (data + o_ip_dst_addr) + 1)) in
  let m := st32 m (data + o_ip_src_addr) (u32 (ld32 m (data + o_ip_src_addr) + 1)) in
  let m := st16 m (data + o_dst_port) (u16 (ld16 m (data + o_dst_port) + 1)) in
  st16 m (data + o_src_port) (u16 (ld16 m (data + o_src_port) + 1)).

Section Device.
Context {F : FlexioDev}.

Definition check_ipheader (m : mem) (data : Z) : Z * mem :=
  let m := if negb (rd8 m (data + o_version_ihl) =? 0x45)
           then st8 m (data + o_version_ihl) 0x45 else m in
  let m := if negb (rd8 m (data + o_type_of_service) =? 0)
           then st8 m (data + o_type_of_service) 0 else m in
  let m := if ld16 m (data + o_total_length) =? cpu_to_be16 0
           then st16 m (data + o_total_length) (cpu_to_be16 1024) else m in
  let m := if negb (rd8 m (data + o_time_to_live) =? 64)
           then st8 m (data + o_time_to_live) 64 else m in
  let m := if negb (rd8 m (data + o_next_proto_id) =? 17)
           then st8 m (data + o_next_proto_id) 17 else m in
  if ld16 m (data + o_packet_id) =? 0 then (0, m)
  else if ld32 m (data + o_ip_src_addr) =? 0 then (0, m)
  else if ld32 m (data + o_ip_dst_addr) =? 0 then (0, m)
  else if ld16 m (data + o_src_port) =? 0 then (0, m)
  else if ld16 m (data + o_dst_port) =? 0 then (0, m)
  else if ld16 m (data + o_dgram_len) =? 0 then (0, m)
  else if ld16 m (data + o_dgram_len) =? 0 then (0, m)
  else (1, m).

(** ** The device program *)

Record nf_context := MkNf {
  nf_refl : refl_context;
  total_cycles : Z;
  total_cnt : Z;
  nf_thread_id : Z;
}.

Definition zero_nf : nf_context := MkNf zero_refl 0 0 0.
Definition nf_ctxs_zero : list nf_context := replicate (Z.to_nat NF_MAX_THREADS) zero_nf.
Definition set_nf_refl (r : refl_context) (c : nf_context) : nf_context :=
  MkNf r (total_cycles c) (total_cnt c) (nf_thread_id c).

Definition nf_init_cq : app_transfer_cq -> cq_ctx_t := init_cq_with 7.
Definition nf_init_rq : app_transfer_wq -> rq_ctx_t := init_rq_with 7.
Definition nf_init_sq : app_transfer_wq -> sq_ctx_t -> sq_ctx_t := init_sq_with 7.

(** The statements on the first fourteen bytes: two overlapping eight-byte loads and stores. *)
Definition nf_swap (m : mem) (sq_data : Z) : mem :=
  let src_mac := ld64 m sq_data in
  let dst_mac := ld64 m (sq_data + 6) in
  let m := st64 m sq_data dst_mac in
  st64 m (sq_data + 6) (Z.lor (Z.land src_mac 0x0000FFFFFFFFFFFF) (Z.shiftl 0x0008 48)).

Definition nf_process_packet (d : refl_context) (w : World F) : refl_context * World F :=
  let '(rq_data, data_sz) := receive_packet (rqcq_ctx (rc_q d)) (rq_ctx (rc_q d)) w in
  let sq_data := rq_data in
  let w := set_mem (nf_swap (w_mem w) sq_data) w in
  let '(q, w) := send_packet finish_send_packet (rc_q d) sq_data data_sz w in
  (set_q q d, w).

Definition nf_process_packet_host (d : refl_context) (w : World F) : refl_context * World F :=
  let '(rq_data, data_sz) := receive_packet (rqcq_ctx (rc_q d)) (rq_ctx (rc_q d)) w in
  let rq_data_dpa := host_rq_addr_to_dpa_addr rq_data (host_rq_ctx d) in
  let sq_data := rq_data in
  let sq_data_dpa := rq_data_dpa in
  let w := set_mem (nf_swap (w_mem w) sq_data_dpa) w in
  let '(q, w) := send_packet finish_send_packet_host (rc_q d) sq_data data_sz w in
  (set_q q d, w).

Definition dpa_network_function_device_init (shared_data : queue_config_data)
    (ds : list nf_context) (w : World F) : Z * list nf_context * World F :=
  if negb (thread_index shared_data <? NF_MAX_THREADS) then (assert_failed, ds, w)
  else
    let i := Z.to_nat (thread_index shared_data) in
    let c := default zero_nf (ds !! i) in
    let '(r, w) := init_refl 7 7 7 shared_data (nf_refl c) w in
    (0, <[i := MkNf r (total_cycles c) (total_cnt c) (thread_index shared_data)]> ds, w).

(** [pkt_count++], and every million packets the counter of the context. *)
Definition nf_count (pkt_count : Z) (d : refl_context) : refl_context * Z :=
  let pkt_count := u64 (pkt_count + 1) in
  if pkt_count =? 1000000
  then (set_packets_count (u32 (packets_count d + 1000000)) d, 0)
  else (d, pkt_count).

(** A turn of the inner loop; the state is the context and the register [pkt_count]. *)
Definition nf_turn (on_host : Z) (l : nf_context * Z) (w : World F)
    : (nf_context * Z) * World F :=
  let '(c, pkt_count) := l in
  let d := nf_refl c in
  let '(d, w) := if truthy on_host then nf_process_packet_host d w else nf_process_packet d w in
  let '(q, w) := step_queues (rc_q d) w in
  let '(d, pkt_count) := nf_count pkt_count (set_q q d) in
  ((set_nf_refl d c, pkt_count), w).

Definition dpa_network_function_device_event_handler (fuel : nat)
    (env : list (World F -> World F)) (index : Z) (ds : list nf_context) (w : World F)
    : handler_result (list nf_context) :=
  match ds !! Z.to_nat index with
  | None => OutOfBounds
  | Some c =>
      let dtctx := snd flexio_dev_get_thread_ctx in
      let d := nf_refl c in
      if is_initalized (rc_q d) =? 0 then Rescheduled ds w
      else
        let on_host := rq_on_host d in
        let '(h, w) := map_rx_buff on_host (host_rq_ctx d) w in
        let c := set_nf_refl (set_host_rq h d) c in
        map_result (fun l => <[Z.to_nat index := fst l]> ds)
          (poll_or_exit (fun l => rqcq_ctx (rc_q (nf_refl (fst l)))) (nf_turn on_host) fuel env dtctx (c, 0) w)
  end.

End Device.

(** ** The hashes *)

(** The product of [n] successive multipliers, from [a] on. *)
Fixpoint mult (b a : Z) (n : nat) : Z :=
  match n with O => 1 | S n => a * mult b (a * b) n end.

(** Each character weighted by the multipliers that come after it. *)
Fixpoint weighted (b a : Z) (str : list Z) : Z :=
  match str with
  | [] => 0
  | c :: str => c * mult b (a * b) (length str) + weighted b (a * b) str
  end.

Lemma u32_mul x y : u32 (x * y) = u32 (u32 x * u32 y).
Proof. apply Zmult_mod. Qed.
Lemma u32_add x y : u32 (x + y) = u32 (u32 x + u32 y).
Proof. apply Zplus_mod. Qed.

Lemma mult_cong b a a' n : u32 a = u32 a' -> u32 (mult b a n) = u32 (mult b a' n).
Proof.
  revert a a'. induction n as [|n IH]; intros a a' E; cbn [mult]; [done|].
  rewrite (u32_mul a), (u32_mul a'), E, (IH (a * b) (a' * b)); [done|].
  by rewrite (u32_mul a), (u32_mul a'), E.
Qed.

Lemma weighted_cong b a a' str : u32 a = u32 a' -> u32 (weighted b a str) = u32 (weighted b a' str).
Proof.
  revert a a'. induction str as [|c str IH]; intros a a' E; cbn [weighted]; [done|].
  assert (u32 (a * b) = u32 (a' * b)) as E' by (by rewrite (u32_mul a), (u32_mul a'), E).
  by rewrite u32_add, u32_mul, (mult_cong b _ _ _ E'), (IH _ _ E'), <- u32_mul, <- u32_add.
Qed.

Lemma RSHash_loop_eq b a h str :
  0 <= h < 2 ^ 32 ->
  RSHash_loop b a h str = u32 (h * mult b a (length str) + weighted b a str).
Proof.
  revert a h. induction str as [|c str IH]; intros a h Hh; cbn [RSHash_loop mult weighted length].
  { rewrite Z.mul_1_r, Z.add_0_r. symmetry. by apply wrapu_small. }
  rewrite IH by (apply (wrapu_range 32); lia).
  rewrite (wrapu_add_l 32 (h * a)), u32_add, u32_mul, wrapu_wrapu.
  rewrite (weighted_cong b (u32 (a * b)) (a * b)), (mult_cong b (u32 (a * b)) (a * b))
    by apply wrapu_wrapu.
  rewrite <- u32_mul, <- u32_add. f_equal. ring.
Qed.

(** [RSHash] computes, in one pass with 32-bit wrap-around, the exact
    polynomial in which character [i] is weighted by the product of the
    multipliers 63689 * 378551^j for all later positions [j], modulo 2^32. *)
Theorem RSHash_polynomial (str : list Z) :
  RSHash str = u32 (weighted 378551 63689 str).
Proof. unfold RSHash. by rewrite RSHash_loop_eq. Qed.

Lemma JSHash_step_range h c : 0 <= h < 2 ^ 32 -> 0 <= JSHash_step h c < 2 ^ 32.
Proof.
  intros Hh. unfold JSHash_step. set (x := u32 _).
  pose proof (wrapu_range 32 (u32 (u32 (Z.shiftl h 5) + c) + Z.shiftr h 2) ltac:(lia)) as Hx.
  fold x in Hx. split; [apply Z.lxor_nonneg; lia|].
  destruct (Z.eq_dec (Z.lxor h x) 0) as [->|Hne]; [lia|].
  apply Z.log2_lt_pow2; [pose proof (proj2 (Z.lxor_nonneg h x) ltac:(lia)); lia|].
  pose proof (Z.log2_lxor h x ltac:(lia) ltac:(lia)).
  assert (Z.log2 h < 32) by (destruct (Z.eq_dec h 0) as [->|]; [done|apply Z.log2_lt_pow2; lia]).
  assert (Z.log2 x < 32) by (destruct (Z.eq_dec x 0) as [->|]; [done|apply Z.log2_lt_pow2; lia]).
  lia.
Qed.

Lemma JSHash_range str : 0 <= JSHash str < 2 ^ 32.
Proof.
  unfold JSHash. assert (0 <= 1315423911 < 2 ^ 32) as H by lia. revert H.
  generalize 1315423911 as h. induction str as [|c str IH]; intros h Hh; cbn [fold_left]; [done|].
  by apply IH, JSHash_step_range.
Qed.

Lemma tuple_number_sum m data :
  tuple_number m data = u32 (ld32 m (data + o_ip_dst_addr) + ld32 m (data + o_ip_src_addr) +
                             ld16 m (data + o_dst_port) + ld16 m (data + o_src_port)).
Proof.
  unfold tuple_number. do 3 rewrite wrapu_add_l, <- ?Z.add_assoc. done.
Qed.

(** Classification counts a packet in one counter of its thread.  For the
    ten rows the array has, the counter is inside the row, it alone is
    incremented, and it is the same for a packet and for the packet of the
    opposite direction (addresses and ports exchanged); a larger row index is
    outside the array. *)
Theorem classific_counts (m m' : mem) (data data' thread : Z) (arr : classific_counter) :
  ld32 m' (data' + o_ip_src_addr) = ld32 m (data + o_ip_dst_addr) ->
  ld32 m' (data' + o_ip_dst_addr) = ld32 m (data + o_ip_src_addr) ->
  ld16 m' (data' + o_src_port) = ld16 m (data + o_dst_port) ->
  ld16 m' (data' + o_dst_port) = ld16 m (data + o_src_port) ->
  classific_hash m' data' thread arr = classific_hash m data thread arr /\
  (10 <= thread -> classific_hash m data thread arr = None) /\
  (thread < 10 -> exists i arr', classific_hash m data thread arr = Some arr' /\
     0 <= i < 102400 /\
     arr' !! (thread, i) = Some (u64 (default 0 (arr !! (thread, i)) + 1)) /\
     forall p, p <> (thread, i) -> arr' !! p = arr !! p).
Proof.
  intros H1 H2 H3 H4.
  assert (tuple_number m' data' = tuple_number m data) as Ht.
  { rewrite !tuple_number_sum, H1, H2, H3, H4. f_equal. lia. }
  unfold classific_hash. rewrite Ht. split; [done|]. split.
  - intros Hle. by rewrite (proj2 (Z.leb_le _ _) Hle).
  - intros Hlt. rewrite (proj2 (Z.leb_gt _ _) Hlt). do 2 eexists. split; [done|].
    split; [apply Z.mod_pos_bound; done|]. split; [by rewrite lookup_insert_eq|].
    intros p Hp. by rewrite lookup_insert_ne.
Qed.

Definition demo_hdr : mem := wrbytes ∅ 1026 [10;0;0;1; 10;0;0;2; 5;0; 6;0].
Definition demo_hdr_back : mem := wrbytes ∅ 1026 [10;0;0;2; 10;0;0;1; 6;0; 5;0].

Lemma classific_counts_witness :
  classific_hash demo_hdr_back 1000 0 ∅ = classific_hash demo_hdr 1000 0 ∅.
Proof.
  apply (classific_counts demo_hdr demo_hdr_back 1000 1000 0 ∅); vm_compute; reflexivity.
Defined.

(** ** Checking headers *)

(** The fields [check_ipheader] insists on, and those it only tests. *)
Definition header_normal {F : FlexioDev} (p : udp_packet) : Prop :=
  version_ihl (p_ip p) = 0x45 /\ type_of_service (p_ip p) = 0 /\
  total_length (p_ip p) <> cpu_to_be16 0 /\ time_to_live (p_ip p) = 64 /\
  next_proto_id (p_ip p) = 17.
Definition header_complete (p : udp_packet) : Prop :=
  packet_id (p_ip p) <> 0 /\ ip_src_addr (p_ip p) <> 0 /\ ip_dst_addr (p_ip p) <> 0 /\
  src_port (p_udp p) <> 0 /\ dst_port (p_udp p) <> 0 /\ dgram_len (p_udp p) <> 0.

(** A packet whose IP header is normalised. *)
Definition normalise {F : FlexioDev} (p : udp_packet) : udp_packet :=
  MkUdpPacket (p_eth p)
    (MkIp 0x45 0
       (if total_length (p_ip p) =? cpu_to_be16 0 then cpu_to_be16 1024 else total_length (p_ip p))
       (packet_id (p_ip p)) (fragment_offset (p_ip p)) 64 17 (hdr_checksum (p_ip p))
       (ip_src_addr (p_ip p)) (ip_dst_addr (p_ip p)))
    (p_udp p).

Section CheckHeader.
Context {F : FlexioDev} `{!FlexioDevLaws F}.

(** One [if (field != v) field = v] on a byte, and the repair of the length. *)
Definition fix8 (m : mem) (a v : Z) : mem := if negb (rd8 m a =? v) then st8 m a v else m.
Definition fix_length (m : mem) (a : Z) : mem :=
  if ld16 m a =? cpu_to_be16 0 then st16 m a (cpu_to_be16 1024) else m.

Definition fixed_header (m : mem) (data : Z) : mem :=
  let m := fix8 m (data + o_version_ihl) 0x45 in
  let m := fix8 m (data + o_type_of_service) 0 in
  let m := fix_length m (data + o_total_length) in
  let m := fix8 m (data + o_time_to_live) 64 in
  fix8 m (data + o_next_proto_id) 17.

Lemma rd8_fix8 m a v b : 0 <= v < 256 -> rd8 (fix8 m a v) b = if decide (b = a) then v else rd8 m b.
Proof.
  intros Hv. unfold fix8, st8. destruct (Z.eqb_spec (rd8 m a) v) as [E|E]; cbn [negb];
    case_decide as Hb; subst; try done; rewrite ?rd8_storele_hd; try (by apply Z.mod_small).
  apply rd8_storele_out. lia.
Qed.

Lemma rd8_fix_length_out m a b : b < a \/ a + 2 <= b -> rd8 (fix_length m a) b = rd8 m b.
Proof.
  intros H. unfold fix_length, st16. destruct (_ =? _); [|done]. apply rd8_storele_out. lia.
Qed.

Lemma loadle_fix8_out m a v b n :
  0 <= v < 256 -> b + Z.of_nat n <= a \/ a + 1 <= b -> loadle (fix8 m a v) b n = loadle m b n.
Proof. intros Hv H. apply loadle_ext. intros c Hc. rewrite rd8_fix8, decide_False by lia. done. Qed.

Lemma loadle_fix_length_out m a b n :
  b + Z.of_nat n <= a \/ a + 2 <= b -> loadle (fix_length m a) b n = loadle m b n.
Proof. intros H. apply loadle_ext. intros c Hc. apply rd8_fix_length_out. lia. Qed.

Lemma rdbytes_fix8_out m a v b n :
  0 <= v < 256 -> b + Z.of_nat n <= a \/ a + 1 <= b -> rdbytes (fix8 m a v) b n = rdbytes m b n.
Proof. intros Hv H. apply rdbytes_ext. intros c Hc. rewrite rd8_fix8, decide_False by lia. done. Qed.

Lemma rdbytes_fix_length_out m a b n :
  b + Z.of_nat n <= a \/ a + 2 <= b -> rdbytes (fix_length m a) b n = rdbytes m b n.
Proof. intros H. apply rdbytes_ext. intros c Hc. apply rd8_fix_length_out. lia. Qed.

Lemma loadle_fix_length m a :
  loadle (fix_length m a) a 2 =
  if loadle m a 2 =? cpu_to_be16 0 then cpu_to_be16 1024 else loadle m a 2.
Proof.
  unfold fix_length, ld16, st16. destruct (_ =? _); [|done].
  rewrite loadle_st16, be16_bswap. reflexivity.
Qed.

(** The repaired header reads as the normalised packet. *)
Lemma read_fixed_header m data :
  read_udp_packet (fixed_header m data) data = normalise (read_udp_packet m data).
Proof.
  unfold fixed_header, read_udp_packet, normalise. cbn. unfold ld16, ld32. unfold_offsets.
  repeat first
    [ rewrite rd8_fix8 by lia | rewrite loadle_fix_length
    | rewrite loadle_fix8_out by lia | rewrite loadle_fix_length_out by lia
    | rewrite rd8_fix_length_out by lia
    | rewrite rdbytes_fix8_out by lia | rewrite rdbytes_fix_length_out by lia ].
  by decide_lia.
Qed.

Lemma check_ipheader_fixed m data : snd (check_ipheader m data) = fixed_header m data.
Proof.
  unfold check_ipheader, fixed_header, fix8, fix_length. by repeat (destruct (ld16 _ (_ + _) =? 0)
    || destruct (ld32 _ (_ + _) =? 0)).
Qed.

Lemma fixed_normal m data : header_normal (read_udp_packet m data) -> fixed_header m data = m.
Proof.
  intros (H1 & H2 & H3 & H4 & H5). cbn in *. unfold fixed_header, fix8, fix_length.
  rewrite H1. cbn [Z.eqb negb Pos.eqb]. rewrite H2. cbn [Z.eqb negb].
  rewrite (proj2 (Z.eqb_neq _ _) H3), H4. cbn [Z.eqb negb Pos.eqb]. by rewrite H5.
Qed.

End CheckHeader.

(** [check_ipheader] repairs the version, type of service, lifetime and
    protocol, fills in a missing total length, and changes no other header
    field; it returns 1 exactly when the identification, the addresses, the
    ports and the UDP length are all present; and checking a second time returns
    the same and changes nothing. *)
Theorem check_ipheader_spec {F : FlexioDev} `{!FlexioDevLaws F} (m m' : mem) (data r : Z) :
  check_ipheader m data = (r, m') ->
  read_udp_packet m' data = normalise (read_udp_packet m data) /\
  (r = 1 <-> header_complete (read_udp_packet m data)) /\ (r = 0 \/ r = 1) /\
  header_normal (read_udp_packet m' data) /\
  check_ipheader m' data = (r, m').
Proof.
  intros E. pose proof (check_ipheader_fixed m data) as Hm. rewrite E in Hm. cbn in Hm.
  pose proof (read_fixed_header m data) as Hread. rewrite <- Hm in Hread.
  assert (forall x, fst (check_ipheader x data) =
    let p := read_udp_packet (fixed_header x data) data in
    if bool_decide (header_complete p) then 1 else 0) as Hres.
  { intros x. unfold check_ipheader, fixed_header, fix8, fix_length, header_complete, read_udp_packet.
    cbn [p_ip p_udp packet_id ip_src_addr ip_dst_addr src_port dst_port dgram_len].
    set (m5 := if negb (_ =? 17) then _ else _).
    clearbody m5.
    repeat match goal with |- context [if ?v =? 0 then _ else _] =>
      destruct (Z.eqb_spec v 0) as [?|?];
        [cbn [fst]; rewrite bool_decide_false; [done|intros (? & ? & ? & ? & ? & ?); done]|] end.
    cbn [fst]. by rewrite bool_decide_true. }
  pose proof (Hres m) as Hr. rewrite E, <- Hm in Hr. cbn [fst] in Hr. cbv zeta in Hr.
  rewrite Hread in Hr. cbn in Hr.
  split; [done|]. split; [|split; [|split]].
  - rewrite Hr. by case_bool_decide.
  - rewrite Hr. case_bool_decide; [by right|by left].
  - rewrite Hread. unfold header_normal, normalise. cbn. split_and!; try done.
    destruct (Z.eqb_spec (ld16 m (data + o_total_length)) (cpu_to_be16 0)); [|done].
    by rewrite !be16_bswap.
  - assert (header_normal (read_udp_packet m' data)) as Hn.
    { rewrite Hread. unfold header_normal, normalise. cbn. split_and!; try done.
      destruct (Z.eqb_spec (ld16 m (data + o_total_length)) (cpu_to_be16 0)); [|done].
      by rewrite !be16_bswap. }
    pose proof (check_ipheader_fixed m' data) as Hm'. rewrite fixed_normal in Hm' by done.
    pose proof (Hres m') as Hr'. cbv zeta in Hr'. rewrite fixed_normal, Hread in Hr' by done.
    cbn in Hr'. destruct (check_ipheader m' data) as [r' m'']. cbn in Hm', Hr'.
    by rewrite Hm', Hr', Hr.
Qed.

(** A packet with a wrong lifetime and no total length. *)
Lemma check_ipheader_spec_witness :
  header_normal (F := ref_flexio)
    (read_udp_packet (snd (check_ipheader (F := ref_flexio) demo_hdr 1000)) 1000).
Proof.
  destruct (check_ipheader (F := ref_flexio) demo_hdr 1000) as [r m'] eqn:E.
  apply (check_ipheader_spec (F := ref_flexio) demo_hdr m' 1000 r E).
Defined.

(** [udp_shift_updating] increments both addresses and both ports, each at
    its own width, and changes no other header field and no other byte. *)
Theorem udp_shift_spec (m : mem) (data : Z) :
  let p := read_udp_packet m data in
  let p' := read_udp_packet (udp_shift_updating m data) data in
  ip_dst_addr (p_ip p') = u32 (ip_dst_addr (p_ip p) + 1) /\
  ip_src_addr (p_ip p') = u32 (ip_src_addr (p_ip p) + 1) /\
  dst_port (p_udp p') = u16 (dst_port (p_udp p) + 1) /\
  src_port (p_udp p') = u16 (src_port (p_udp p) + 1) /\
  (forall b, b < data + 26 \/ data + 38 <= b -> rd8 (udp_shift_updating m data) b = rd8 m b).
Proof.
  unfold read_udp_packet, udp_shift_updating. cbn. hdr_fields. rewrite !wrapu_wrapu.
  split_and!; try done. intros b Hb. unfold_offsets. by rewrite !rd8_storele_out by lia.
Qed.

(** ** Bursts of packets *)

Section Burst.
Context {F : FlexioDev} `{!FlexioDevLaws F}.

#[local] Instance nf_has_queues : HasQueues (nf_context * Z).
Proof.
  refine {| dq := fun l => rc_q (nf_refl (fst l));
            set_dq := fun q l => (set_nf_refl (set_q q (nf_refl (fst l))) (fst l), snd l) |};
    by intros q [[[] ? ? ?] ?].
Defined.

(** What the loop does besides its queues: the packet counter and the register, and the
    swapped packet. *)
Definition nf_tally (x : Z * Z) : Z * Z :=
  if u64 (snd x + 1) =? 1000000 then (u32 (fst x + 1000000), 0) else (fst x, u64 (snd x + 1)).
Definition nf_fn (to_dpa : Z -> Z) (x : Z * Z) (m : mem) (a sz : Z) : (Z * Z) * mem * Z :=
  (nf_tally x, swap_mac m (to_dpa a), sz).
Definition nf_ext (l : nf_context * Z) : Z * Z := (packets_count (nf_refl (fst l)), snd l).

(** What a turn leaves alone. *)
Definition nf_same (c0 : nf_context) (l : nf_context * Z) : Prop :=
  host_rq_ctx (nf_refl (fst l)) = host_rq_ctx (nf_refl c0) /\
  rq_on_host (nf_refl (fst l)) = rq_on_host (nf_refl c0) /\
  total_cycles (fst l) = total_cycles c0 /\ total_cnt (fst l) = total_cnt c0 /\
  nf_thread_id (fst l) = nf_thread_id c0.

Lemma nf_turn_serves c0 l (w : World F) :
  nf_same c0 l ->
  let l' := fst (nf_turn (rq_on_host (nf_refl c0)) l w) in
  nf_same c0 l' /\
  (nf_ext l', dq l', snd (nf_turn (rq_on_host (nf_refl c0)) l w)) =
  (let '(x, q, w) := serve_packet (nf_fn (touch_addr (nf_refl c0))) (finish_of (nf_refl c0)) (nf_ext l) (dq l) w in
   let '(q, w) := step_queues q w in (x, q, w)).
Proof.
  destruct l as [[d tc tn ti] n]. unfold nf_same. cbn [fst snd nf_refl total_cycles total_cnt nf_thread_id].
  intros (Hh & Hr & Hc). unfold nf_turn, nf_process_packet_host, nf_process_packet, serve_packet, nf_fn, touch_addr, finish_of.
  rewrite <- Hh, <- Hr. cbn [nf_refl dq nf_has_queues fst]. destruct (receive_packet _ _ _) as [a sz].
  assert (forall q (v : World F),
    let r := (let '(d', n') := nf_count n (set_q q d) in ((set_nf_refl d' (MkNf d tc tn ti), n'), v)) in
    (host_rq_ctx (nf_refl (fst (fst r))) = host_rq_ctx d /\ rq_on_host (nf_refl (fst (fst r))) = rq_on_host d /\
     total_cycles (fst (fst r)) = tc /\ total_cnt (fst (fst r)) = tn /\ nf_thread_id (fst (fst r)) = ti) /\
    (nf_ext (fst r), rc_q (nf_refl (fst (fst r))), snd r) = (nf_tally (packets_count d, n), q, v)) as Hcnt.
  { intros q v. unfold nf_count, nf_tally. cbn [fst snd]. by destruct (u64 (n + 1) =? 1000000). }
  destruct Hc as (<- & <- & <-). change nf_swap with swap_mac.
  destruct (truthy (rq_on_host d)); destruct (send_packet _ _ _ _ _) as [q1 w1];
    cbn [rc_q set_q]; destruct (step_queues q1 w1) as [q2 w2]; specialize (Hcnt q2 w2);
    unfold set_q in *; cbn [host_rq_ctx rq_on_host packets_count sq_on_host rc_q] in *;
    destruct (nf_count _ _) as [d' n']; exact Hcnt.
Qed.

Lemma serve_all_nf to_dpa addr es x m :
  serve_all (nf_fn to_dpa) addr es x m =
  (Nat.iter (length es) nf_tally x, swap_all (fun e => to_dpa (addr e)) es m,
   map (fun e => (addr e, flexio_dev_cqe_get_byte_cnt e)) es).
Proof.
  revert x m. induction es as [|e es IH]; intros x m; [done|]. cbn [serve_all nf_fn length].
  rewrite IH, Nat.iter_succ_r. done.
Qed.

(** Fewer than a million packets stay in the register. *)
Lemma nf_tally_iter n p : Z.of_nat n < 1000000 -> Nat.iter n nf_tally (p, 0) = (p, Z.of_nat n).
Proof.
  induction n as [|n IH]; intros Hn; [done|]. rewrite Nat.iter_succ, IH by lia.
  unfold nf_tally. cbn [fst snd]. rewrite wrapu_small, (proj2 (Z.eqb_neq _ _)) by lia. f_equal. lia.
Qed.

(** A packet whose first fourteen bytes no other packet shares. *)
Definition apart (t : cqe64 -> Z) (es : list cqe64) (k : nat) (e : cqe64) : Prop :=
  forall j e', es !! j = Some e' -> j <> k -> t e' + 14 <= t e \/ t e + 14 <= t e'.

Lemma swap_all_bytes t es m k e :
  es !! k = Some e -> apart t es k e ->
  let m' := swap_all t es m in
  (forall b, 0 <= b < 6 -> rd8 m' (t e + b) = rd8 m (t e + 6 + b) /\ rd8 m' (t e + 6 + b) = rd8 m (t e + b)) /\
  rd8 m' (t e + 12) = 8 /\ rd8 m' (t e + 13) = 0.
Proof.
  intros Hk Ha m'. assert (forall b, 0 <= b < 14 -> rd8 m' (t e + b) = rd8 (swap_mac m (t e)) (t e + b)) as H.
  { intros b Hb. by apply (rd8_swap_all t es m k e); [|exact Ha|lia]. }
  split; [intros b Hb; split|split].
  - rewrite H, rd8_swap_mac, decide_True by lia. f_equal. lia.
  - rewrite <- Z.add_assoc, H, rd8_swap_mac, decide_False, decide_True by lia. f_equal. lia.
  - rewrite H, rd8_swap_mac, !decide_False, decide_True by lia. done.
  - rewrite H, rd8_swap_mac, !decide_False, decide_True by lia. done.
Qed.

(** The handler of a thread whose queues are fresh. *)
Lemma nf_fresh_burst (shared : queue_config_data) (ds : list nf_context) (w w' : World F) (index : Z)
    (c : nf_context) (es : list cqe64) (fuel : nat) (h : host_rq_ctx_t) :
  let d := nf_refl c in
  ds !! Z.to_nat index = Some c -> fresh_queues 7 7 shared (sq_pi (sq_ctx (rc_q d))) (rc_q d) w ->
  0 <= sq_pi (sq_ctx (rc_q d)) < 2 ^ 32 -> snd flexio_dev_get_thread_ctx <> 0 ->
  (length es <= 128)%nat -> (length es <= fuel)%nat ->
  (forall e, e ∈ es -> flexio_dev_cqe_get_owner e = 0) ->
  map_rx_buff (rq_on_host d) (host_rq_ctx d) w = (h, w') ->
  let t e := touch_addr (set_host_rq h d) (pkt_addr (rq_ctx (rc_q d)) (w_rq w') e) in
  exists c2 w2,
    dpa_network_function_device_event_handler fuel
      [nic_burst 7 (cq_ring_daddr (rq_cq_data shared)) 0 es] index ds w = Polling (<[Z.to_nat index := c2]> ds) w2 /\
    w_mem w2 = swap_all t es (w_mem w) /\
    (forall k e, es !! k = Some e ->
       posted w2 (wq_ring_daddr (sq_data shared), 4 * Z.of_nat k + 2)
         (pkt_addr (rq_ctx (rc_q d)) (w_rq w') e) (flexio_dev_cqe_get_byte_cnt e) (wqd_mkey_id (sq_data shared))) /\
    w_trace w2 = w_trace w' ++ burst_events (writebacks d) (rc_q d) (sq_pi (sq_ctx (rc_q d))) 0 (length es) /\
    cqe_ready (rqcq_ctx (rc_q (nf_refl c2))) w2 = false /\
    packets_count (nf_refl c2) = packets_count d /\ total_cycles c2 = total_cycles c /\
    total_cnt c2 = total_cnt c /\ nf_thread_id c2 = nf_thread_id c.
Proof.
  intros d Hd Hq Hpi Hth Hl Hf Ho Em t. destruct (map_rx_buff_frame _ _ _ _ _ Em) as (Fc & Fs & Fr & Fm).
  set (c' := set_nf_refl (set_host_rq h d) c).
  destruct (serve_burst 7 7 ltac:(lia) ltac:(lia) (nf_fn (touch_addr (nf_refl c'))) (finish_of (nf_refl c'))
    (writebacks (nf_refl c')) nf_ext (nf_turn (rq_on_host (nf_refl c'))) (nf_same c')
    (mt_finish_is_finish (nf_refl c')) (nf_turn_serves c') fuel shared _ es (c', 0) w'
    (fresh_frame _ _ _ _ _ Fc Fs Hq) Hpi ltac:(by repeat split) Hf ltac:(lia) ltac:(lia) Ho)
    as ([c2 n2] & w2 & Epoll & (_ & _ & S1 & S2 & S3) & (posts & Es & Hpost & Htr & Hrd)).
  exists c2, w2. rewrite serve_all_nf in Es. injection Es as Ex Hm <-. cbn [fst snd] in *.
  split; [|split; [|split; [|split; [|split; [|split]]]]].
  - unfold dpa_network_function_device_event_handler. rewrite Hd. fold d.
    pose proof (fq_init _ _ _ _ _ _ Hq) as Hin. rewrite Hin. cbn [Z.eqb]. rewrite Em.
    unfold poll_or_exit. rewrite (proj2 (Z.eqb_neq _ _) Hth).
    change (rq_on_host d) with (rq_on_host (nf_refl c')). cbn [dq nf_has_queues] in Epoll.
    fold c'. rewrite Epoll. done.
  - rewrite <- Hm, Fm. done.
  - intros k e Hk. apply Hpost. by rewrite list_lookup_fmap, Hk.
  - exact Htr.
  - exact Hrd.
  - unfold nf_ext in Ex. cbn in Ex. rewrite nf_tally_iter in Ex by lia. by injection Ex.
  - by split_and!.
Qed.
End Burst.

(** C24.  The network-function program, from the initialisation of a thread to its packets.
    The initialisation succeeds, notes the thread's number and touches no other thread's
    context; then the event handler, given up to 128 packets (a full ring) and a unit of
    fuel each, comes back to its poll with the ring empty.  Every packet whose first
    fourteen bytes no other packet of the burst shares has its two addresses exchanged byte
    by byte and the type 0x0800 behind them, in whichever memory the receive buffers are;
    no byte outside these fourteen changes; the [k]-th packet is posted in the [k]-th entry
    of the thread's own send ring, from its own buffer, with its own length and the send
    key; the doorbells and write-backs are those of one packet after the other; and the
    counters of the context and the other threads' contexts are as they were. *)
Theorem nf_handler_burst {F : FlexioDev} `{!FlexioDevLaws F} (shared : queue_config_data)
    (ds0 ds1 : list nf_context) (w0 w1 : World F) (ret : Z) (c0 : nf_context) (es : list cqe64) (fuel : nat) :
  let i := Z.to_nat (thread_index shared) in
  thread_index shared < NF_MAX_THREADS -> ds0 !! i = Some c0 ->
  0 <= sq_pi (sq_ctx (rc_q (nf_refl c0))) < 2 ^ 32 -> cq_prepared 7 shared w0 ->
  dpa_network_function_device_init shared ds0 w0 = (ret, ds1, w1) ->
  snd flexio_dev_get_thread_ctx <> 0 ->
  (length es <= 128)%nat -> (length es <= fuel)%nat ->
  (forall e, e ∈ es -> flexio_dev_cqe_get_owner e = 0) ->
  ret = 0 /\ exists c1 h w1' c2 w2,
    let d1 := nf_refl c1 in
    let buf e := pkt_addr (rq_ctx (rc_q d1)) (w_rq w1') e in
    let t e := touch_addr (set_host_rq h d1) (buf e) in
    ds1 = <[i := c1]> ds0 /\ nf_thread_id c1 = thread_index shared /\
    map_rx_buff (rq_on_host d1) (host_rq_ctx d1) w1 = (h, w1') /\
    dpa_network_function_device_event_handler fuel
      [nic_burst 7 (cq_ring_daddr (rq_cq_data shared)) 0 es] (thread_index shared) ds1 w1
      = Polling (<[i := c2]> ds1) w2 /\
    (forall k e, es !! k = Some e -> apart t es k e ->
       (forall b, 0 <= b < 6 -> rd8 (w_mem w2) (t e + b) = rd8 (w_mem w1) (t e + 6 + b) /\
                                rd8 (w_mem w2) (t e + 6 + b) = rd8 (w_mem w1) (t e + b)) /\
       rd8 (w_mem w2) (t e + 12) = 8 /\ rd8 (w_mem w2) (t e + 13) = 0) /\
    (forall b, (forall e, e ∈ es -> b < t e \/ t e + 14 <= b) -> rd8 (w_mem w2) b = rd8 (w_mem w1) b) /\
    (forall k e, es !! k = Some e ->
       posted w2 (wq_ring_daddr (sq_data shared), 4 * Z.of_nat k + 2) (buf e)
         (flexio_dev_cqe_get_byte_cnt e) (wqd_mkey_id (sq_data shared))) /\
    w_trace w2 = w_trace w1' ++ burst_events (writebacks d1) (rc_q d1) (sq_pi (sq_ctx (rc_q d1))) 0 (length es) /\
    cqe_ready (rqcq_ctx (rc_q (nf_refl c2))) w2 = false /\
    packets_count (nf_refl c2) = packets_count d1 /\ total_cycles c2 = total_cycles c1 /\
    total_cnt c2 = total_cnt c1 /\ nf_thread_id c2 = nf_thread_id c1.
Proof.
  intros i Hi Hd Hpi Hp E Hth Hl Hf Ho.
  unfold dpa_network_function_device_init in E. rewrite (proj2 (Z.ltb_lt _ _) Hi) in E.
  cbn [negb] in E. cbv zeta in E. fold i in E. rewrite Hd in E. cbn [default id] in E.
  destruct (init_refl _ _ _ _ _ _) as [d1 v1] eqn:Ei. injection E as <- <- <-. split; [done|].
  apply init_refl_fresh in Ei as (Hq & _ & _); [|exact Hp].
  set (c1 := MkNf d1 _ _ _). assert (<[i := c1]> ds0 !! i = Some c1) as Hd1
    by (apply list_lookup_insert_eq; by eapply lookup_lt_Some).
  pose proof (fq_pi _ _ _ _ _ _ Hq) as Hpi1. rewrite <- Hpi1 in Hq, Hpi.
  destruct (map_rx_buff (rq_on_host d1) (host_rq_ctx d1) v1) as [h w1'] eqn:Em.
  destruct (nf_fresh_burst shared _ _ w1' (thread_index shared) c1 es fuel h Hd1 Hq Hpi Hth Hl Hf Ho Em)
    as (c2 & w2 & H1 & H2 & H3 & H4 & H5 & H6). exists c1, h, w1', c2, w2. cbn zeta.
  split; [done|]. split; [done|]. split; [done|]. split; [exact H1|]. rewrite H2.
  split; [intros k e Hk Ha; exact (swap_all_bytes _ es (w_mem v1) k e Hk Ha)|].
  split; [intros b Hb; by apply rd8_swap_all_out|]. split; [exact H3|]. split; [exact H4|]. split; [exact H5|exact H6].
Qed.

(** Thread 2 and one packet of 60 bytes. *)
Definition demo_nf_init : Z * list nf_context * World ref_flexio :=
  dpa_network_function_device_init (F := ref_flexio) (demo_shared 2) nf_ctxs_zero
    (MkWorld (F := ref_flexio) (wrbytes ∅ 70000 [1;2;3;4;5;6; 11;12;13;14;15;16]) ∅ {[ (16384, 0) := 70000 ]} ∅ 0%nat None []).

Lemma nf_handler_burst_witness :
  exists c2 w2,
    dpa_network_function_device_event_handler (F := ref_flexio) 1
      [nic_burst (F := ref_flexio) 7 4096 0 [RefCqe 0 0 60]] 2 (snd (fst demo_nf_init))
      (snd demo_nf_init) = Polling (<[2%nat := c2]> (snd (fst demo_nf_init))) w2 /\
    cqe_ready (rqcq_ctx (rc_q (nf_refl c2))) w2 = false /\ nf_thread_id c2 = 2.
Proof.
  unfold demo_nf_init. set (w0 := MkWorld _ _ _ _ _ _ _).
  destruct (dpa_network_function_device_init (F := ref_flexio) (demo_shared 2) nf_ctxs_zero w0)
    as [[ret ds1] w1] eqn:E.
  destruct (nf_handler_burst (F := ref_flexio) (demo_shared 2) nf_ctxs_zero ds1 w0 w1 ret zero_nf
    [RefCqe 0 0 60] 1 eq_refl eq_refl (conj (Z.le_refl 0) eq_refl) (fun _ _ => eq_refl) E
    ltac:(discriminate) ltac:(apply Nat.leb_le; reflexivity) (le_n 1)
    (fun e He => ltac:(apply list_elem_of_singleton in He; rewrite He; reflexivity)))
    as (_ & c1 & h & w1' & c2 & w2 & _ & Ht & _ & H & _ & _ & _ & _ & Hr & _ & _ & _ & Ht2).
  exists c2, w2. split; [exact H|]. split; [exact Hr|]. rewrite Ht2. exact Ht.
Defined.
