(* ===== verification/Dhrystone.v ===== *)
(** * Dhrystone: the compute benchmark

    Translation of [flexio/bench/compute/dhrystone/dhrystone_cross.c] with the
    types and constants of [dhrystone.h], in the RISC-V configuration.  The
    globals are one record; records reached through pointers live in a store
    indexed by address; a procedure that assigns through a pointer parameter
    returns the value assigned.  [None] is an access outside an array, a null or
    dangling pointer, a division by zero, or a loop that has not ended within the
    fuel (the source's [while] loops have no other bound). *)

From Stdlib Require Import Ascii.
From S2P Require Import Prelude FlexioDev.
From Stdlib Require Import String.

(** ** dhrystone.h *)

Definition HZ : Z := 1800000000.
Definition Mic_secs_Per_Second : Z := 1000000.
Definition DPA_DHRYSTONE_NUMBER_OF_RUNS : Z := 500000.

Definition Ident_1 : Z := 0.
Definition Ident_2 : Z := 1.
Definition Ident_3 : Z := 2.
Definition Ident_4 : Z := 3.
Definition Ident_5 : Z := 4.
Definition Null : Z := 0.

(** The variant [var_1], the only one the program uses. *)
Record Rec_Type := MkRec {
  Ptr_Comp : Z;
  Discr : Z;
  Enum_Comp : Z;
  Int_Comp : Z;
  Str_Comp : list Z;
}.

Definition set_Ptr_Comp (v : Z) (r : Rec_Type) : Rec_Type :=
  MkRec v (Discr r) (Enum_Comp r) (Int_Comp r) (Str_Comp r).
Definition set_Enum_Comp (v : Z) (r : Rec_Type) : Rec_Type :=
  MkRec (Ptr_Comp r) (Discr r) v (Int_Comp r) (Str_Comp r).
Definition set_Int_Comp (v : Z) (r : Rec_Type) : Rec_Type :=
  MkRec (Ptr_Comp r) (Discr r) (Enum_Comp r) v (Str_Comp r).

(** C strings, without their terminator. *)
Definition chars (s : string) : list Z := map (fun a => Z.of_N (N_of_ascii a)) (list_ascii_of_string s).

(** The sign of [strcmp]. *)
Fixpoint strcmp (s t : list Z) : Z :=
  match s, t with
  | [], [] => 0
  | [], _ :: _ => -1
  | _ :: _, [] => 1
  | a :: s, b :: t => if a =? b then strcmp s t else if a <? b then -1 else 1
  end.

(** ** The globals *)

Record dhry := MkDhry {
  Ptr_Glob : Z;
  Next_Ptr_Glob : Z;
  Int_Glob : Z;
  Bool_Glob : Z;
  Ch_1_Glob : Z;
  Ch_2_Glob : Z;
  Arr_1_Glob : gmap Z Z;
  Arr_2_Glob : gmap (Z * Z) Z;
  store : gmap Z Rec_Type;
}.

Definition dhry_zero : dhry := MkDhry 0 0 0 0 0 0 ∅ ∅ ∅.

Definition set_Int_Glob (v : Z) (g : dhry) : dhry :=
  MkDhry (Ptr_Glob g) (Next_Ptr_Glob g) v (Bool_Glob g) (Ch_1_Glob g) (Ch_2_Glob g)
    (Arr_1_Glob g) (Arr_2_Glob g) (store g).
Definition set_Bool_Glob (v : Z) (g : dhry) : dhry :=
  MkDhry (Ptr_Glob g) (Next_Ptr_Glob g) (Int_Glob g) v (Ch_1_Glob g) (Ch_2_Glob g)
    (Arr_1_Glob g) (Arr_2_Glob g) (store g).
Definition set_Ch_1_Glob (v : Z) (g : dhry) : dhry :=
  MkDhry (Ptr_Glob g) (Next_Ptr_Glob g) (Int_Glob g) (Bool_Glob g) v (Ch_2_Glob g)
    (Arr_1_Glob g) (Arr_2_Glob g) (store g).
Definition set_Ch_2_Glob (v : Z) (g : dhry) : dhry :=
  MkDhry (Ptr_Glob g) (Next_Ptr_Glob g) (Int_Glob g) (Bool_Glob g) (Ch_1_Glob g) v
    (Arr_1_Glob g) (Arr_2_Glob g) (store g).
Definition set_arrays (a1 : gmap Z Z) (a2 : gmap (Z * Z) Z) (g : dhry) : dhry :=
  MkDhry (Ptr_Glob g) (Next_Ptr_Glob g) (Int_Glob g) (Bool_Glob g) (Ch_1_Glob g) (Ch_2_Glob g)
    a1 a2 (store g).
Definition set_store (s : gmap Z Rec_Type) (g : dhry) : dhry :=
  MkDhry (Ptr_Glob g) (Next_Ptr_Glob g) (Int_Glob g) (Bool_Glob g) (Ch_1_Glob g) (Ch_2_Glob g)
    (Arr_1_Glob g) (Arr_2_Glob g) s.

(** [*p] and [*p = r]. *)
Definition deref (p : Z) (g : dhry) : option Rec_Type := store g !! p.
Definition assign (p : Z) (r : Rec_Type) (g : dhry) : dhry := set_store (<[p := r]> (store g)) g.
(** [p->field = ...] *)
Definition modify (p : Z) (f : Rec_Type -> Rec_Type) (g : dhry) : option dhry :=
  match deref p g with Some r => Some (assign p (f r) g) | None => None end.

(** Elements of the arrays; the arrays are static, so they start at zero. *)
Definition in_50 (i : Z) : bool := (0 <=? i) && (i <? 50).
Definition get1 (a : gmap Z Z) (i : Z) : option Z :=
  if in_50 i then Some (default 0 (a !! i)) else None.
Definition put1 (a : gmap Z Z) (i v : Z) : option (gmap Z Z) :=
  if in_50 i then Some (<[i := v]> a) else None.
Definition get2 (a : gmap (Z * Z) Z) (i j : Z) : option Z :=
  if in_50 i && in_50 j then Some (default 0 (a !! (i, j))) else None.
Definition put2 (a : gmap (Z * Z) Z) (i j v : Z) : option (gmap (Z * Z) Z) :=
  if in_50 i && in_50 j then Some (<[(i, j) := v]> a) else None.

(** ** Functions and procedures *)

Definition Func_1 (Ch_1_Par_Val Ch_2_Par_Val : Z) (g : dhry) : Z * dhry :=
  let Ch_1_Loc := Ch_1_Par_Val in
  let Ch_2_Loc := Ch_1_Loc in
  if negb (Ch_2_Loc =? Ch_2_Par_Val) then (Ident_1, g)
  else (Ident_2, set_Ch_1_Glob Ch_1_Loc g).

(** The [while (Int_Loc <= 2)] loop: the final [Int_Loc] and [Ch_Loc]. *)
Fixpoint Func_2_loop (fuel : nat) (Int_Loc Ch_Loc : Z) (s1 s2 : list Z) (g : dhry)
    : option (Z * Z * dhry) :=
  if Int_Loc <=? 2 then
    match fuel with
    | O => None
    | S fuel =>
        let c1 := default 0 (s1 !! Z.to_nat Int_Loc) in
        let c2 := default 0 (s2 !! Z.to_nat (Int_Loc + 1)) in
        let '(r, g) := Func_1 c1 c2 g in
        if r =? Ident_1 then Func_2_loop fuel (Int_Loc + 1) 65 s1 s2 g
        else Func_2_loop fuel Int_Loc Ch_Loc s1 s2 g
    end
  else Some (Int_Loc, Ch_Loc, g).

(** [junk] is the uninitialised [Ch_Loc]. *)
Definition Func_2 (fuel : nat) (junk : Z) (s1 s2 : list Z) (g : dhry) : option (Z * dhry) :=
  match Func_2_loop fuel 2 junk s1 s2 g with
  | None => None
  | Some (Int_Loc, Ch_Loc, g) =>
      let Int_Loc := if (87 <=? Ch_Loc) && (Ch_Loc <? 90) then 7 else Int_Loc in
      if Ch_Loc =? 82 then Some (1, g)
      else if 0 <? strcmp s1 s2 then
        let Int_Loc := Int_Loc + 7 in Some (1, set_Int_Glob Int_Loc g)
      else Some (0, g)
  end.

Definition Func_3 (Enum_Par_Val : Z) : Z :=
  let Enum_Loc := Enum_Par_Val in
  if Enum_Loc =? Ident_3 then 1 else 0.

Definition Proc_7 (Int_1_Par_Val Int_2_Par_Val : Z) : Z :=
  let Int_Loc := Int_1_Par_Val + 2 in
  Int_2_Par_Val + Int_Loc.

(** [Proc_3(&p->Ptr_Comp)] *)
Definition Proc_3 (p : Z) (g : dhry) : option dhry :=
  g ← (if negb (Ptr_Glob g =? Null) then
         r ← deref (Ptr_Glob g) g; modify p (set_Ptr_Comp (Ptr_Comp r)) g
       else Some g);
  modify (Ptr_Glob g) (set_Int_Comp (Proc_7 10 (Int_Glob g))) g.

Definition Proc_6 (Enum_Val_Par : Z) (g : dhry) : Z :=
  let r := Enum_Val_Par in
  let r := if negb (truthy (Func_3 Enum_Val_Par)) then Ident_4 else r in
  if Enum_Val_Par =? Ident_1 then Ident_1
  else if Enum_Val_Par =? Ident_2 then (if 100 <? Int_Glob g then Ident_1 else Ident_4)
  else if Enum_Val_Par =? Ident_3 then Ident_2
  else if Enum_Val_Par =? Ident_4 then r
  else if Enum_Val_Par =? Ident_5 then Ident_3
  else r.

Definition Proc_1 (Ptr_Val_Par : Z) (g : dhry) : option dhry :=
  v ← deref Ptr_Val_Par g;
  let Next_Record := Ptr_Comp v in
  pg ← deref (Ptr_Glob g) g;
  g ← modify Next_Record (fun _ => pg) g;
  g ← modify Ptr_Val_Par (set_Int_Comp 5) g;
  v ← deref Ptr_Val_Par g;
  g ← modify Next_Record (set_Int_Comp (Int_Comp v)) g;
  v ← deref Ptr_Val_Par g;
  g ← modify Next_Record (set_Ptr_Comp (Ptr_Comp v)) g;
  g ← Proc_3 Next_Record g;
  n ← deref Next_Record g;
  if Discr n =? Ident_1 then
    g ← modify Next_Record (set_Int_Comp 6) g;
    v ← deref Ptr_Val_Par g;
    g ← modify Next_Record (set_Enum_Comp (Proc_6 (Enum_Comp v) g)) g;
    pg ← deref (Ptr_Glob g) g;
    g ← modify Next_Record (set_Ptr_Comp (Ptr_Comp pg)) g;
    n ← deref Next_Record g;
    modify Next_Record (set_Int_Comp (Proc_7 (Int_Comp n) 10)) g
  else
    v ← deref Ptr_Val_Par g;
    n ← deref (Ptr_Comp v) g;
    modify Ptr_Val_Par (fun _ => n) g.

(** [Proc_2(&x)] returns the new [x]; [Enum_Loc] starts uninitialised. *)
Fixpoint Proc_2_loop (fuel : nat) (Int_Loc Enum_Loc x : Z) (g : dhry) : option Z :=
  match fuel with
  | O => None
  | S fuel =>
      let '(Int_Loc, x, Enum_Loc) :=
        if Ch_1_Glob g =? 65
        then let Int_Loc := Int_Loc - 1 in (Int_Loc, Int_Loc - Int_Glob g, Ident_1)
        else (Int_Loc, x, Enum_Loc) in
      if negb (Enum_Loc =? Ident_1) then Proc_2_loop fuel Int_Loc Enum_Loc x g else Some x
  end.

Definition Proc_2 (fuel : nat) (junk x : Z) (g : dhry) : option Z :=
  Proc_2_loop fuel (x + 10) junk x g.

Definition Proc_4 (g : dhry) : dhry :=
  let Bool_Loc := c_bool (Ch_1_Glob g =? 65) in
  set_Ch_2_Glob 66 (set_Bool_Glob (Z.lor Bool_Loc (Bool_Glob g)) g).

Definition Proc_5 (g : dhry) : dhry := set_Bool_Glob 0 (set_Ch_1_Glob 65 g).

(** The loop of [Proc_8]: [for (i = Int_Loc; i <= Int_Loc + 1; ++i)]. *)
Definition Proc_8_loop (Int_Loc : Z) (a2 : gmap (Z * Z) Z) : option (gmap (Z * Z) Z) :=
  a2 ← put2 a2 Int_Loc Int_Loc Int_Loc;
  put2 a2 Int_Loc (Int_Loc + 1) Int_Loc.

Definition Proc_8 (Int_1_Par_Val Int_2_Par_Val : Z) (g : dhry) : option dhry :=
  let Int_Loc := Int_1_Par_Val + 5 in
  a1 ← put1 (Arr_1_Glob g) Int_Loc Int_2_Par_Val;
  x ← get1 a1 Int_Loc;
  a1 ← put1 a1 (Int_Loc + 1) x;
  a1 ← put1 a1 (Int_Loc + 30) Int_Loc;
  a2 ← Proc_8_loop Int_Loc (Arr_2_Glob g);
  y ← get2 a2 Int_Loc (Int_Loc - 1);
  a2 ← put2 a2 Int_Loc (Int_Loc - 1) (s32 (y + 1));
  x ← get1 a1 Int_Loc;
  a2 ← put2 a2 (Int_Loc + 20) Int_Loc x;
  Some (set_Int_Glob 5 (set_arrays a1 a2 g)).

(** ** The benchmark *)

Record locals := MkLocals {
  Int_1_Loc : Z; Int_2_Loc : Z; Int_3_Loc : Z; Enum_Loc : Z;
  Str_1_Loc : list Z; Str_2_Loc : list Z;
}.

Definition str_some : list Z := chars "DHRYSTONE PROGRAM, SOME STRING".
Definition str_1st : list Z := chars "DHRYSTONE PROGRAM, 1'ST STRING".
Definition str_2nd : list Z := chars "DHRYSTONE PROGRAM, 2'ND STRING".
Definition str_3rd : list Z := chars "DHRYSTONE PROGRAM, 3'RD STRING".

(** [while (Int_1_Loc < Int_2_Loc)] *)
Fixpoint while_loop (fuel : nat) (l : locals) : option locals :=
  if Int_1_Loc l <? Int_2_Loc l then
    match fuel with
    | O => None
    | S fuel =>
        let i3 := 5 * Int_1_Loc l - Int_2_Loc l in
        let i3 := Proc_7 (Int_1_Loc l) (Int_2_Loc l) in
        while_loop fuel (MkLocals (Int_1_Loc l + 1) (Int_2_Loc l) i3 (Enum_Loc l)
                           (Str_1_Loc l) (Str_2_Loc l))
    end
  else Some l.

(** [for (Ch_Index = 'A'; Ch_Index <= Ch_2_Glob; ++Ch_Index)] *)
Fixpoint ch_loop (fuel : nat) (Ch_Index Run_Index : Z) (l : locals) (g : dhry)
    : option (locals * dhry) :=
  if Ch_Index <=? Ch_2_Glob g then
    match fuel with
    | O => None
    | S fuel =>
        let '(r, g) := Func_1 Ch_Index 67 g in
        if Enum_Loc l =? r then
          let e := Proc_6 Ident_1 g in
          ch_loop fuel (u8 (Ch_Index + 1)) Run_Index
            (MkLocals (Int_1_Loc l) Run_Index (Int_3_Loc l) e (Str_1_Loc l) str_3rd)
            (set_Int_Glob Run_Index g)
        else ch_loop fuel (u8 (Ch_Index + 1)) Run_Index l g
    end
  else Some (l, g).

(** The body of the loop over [Run_Index]; [junk] stands for the uninitialised
    locals of the callees. *)
Definition run_once (fuel : nat) (junk Run_Index : Z) (l : locals) (g : dhry)
    : option (locals * dhry) :=
  let g := Proc_5 g in
  let g := Proc_4 g in
  let l := MkLocals 2 3 (Int_3_Loc l) Ident_2 (Str_1_Loc l) str_2nd in
  '(r, g) ← Func_2 fuel junk (Str_1_Loc l) (Str_2_Loc l) g;
  let g := set_Bool_Glob (c_bool (negb (truthy r))) g in
  l ← while_loop fuel l;
  g ← Proc_8 (Int_1_Loc l) (Int_3_Loc l) g;
  g ← Proc_1 (Ptr_Glob g) g;
  '(l, g) ← ch_loop fuel 65 Run_Index l g;
  let i2 := Int_2_Loc l * Int_1_Loc l in
  if Int_3_Loc l =? 0 then None
  else
    let i1 := Z.quot i2 (Int_3_Loc l) in
    let i2 := 7 * (i2 - Int_3_Loc l) - i1 in
    i1 ← Proc_2 fuel junk i1 g;
    Some (MkLocals i1 i2 (Int_3_Loc l) (Enum_Loc l) (Str_1_Loc l) (Str_2_Loc l), g).

Fixpoint run_loop (n : nat) (fuel : nat) (junk Run_Index : Z) (l : locals) (g : dhry)
    : option (locals * dhry) :=
  match n with
  | O => Some (l, g)
  | S n =>
      match run_once fuel junk Run_Index l g with
      | Some (l, g) => run_loop n fuel junk (Run_Index + 1) l g
      | None => None
      end
  end.

(** Initialisations: [temp0] and [temp1] are the records at addresses 1 and 2;
    [junk_rec] is the uninitialised [temp0]. *)
Definition dhry_init (junk_rec : Rec_Type) (g : dhry) : dhry :=
  let g := MkDhry 2 1 (Int_Glob g) (Bool_Glob g) (Ch_1_Glob g) (Ch_2_Glob g) (Arr_1_Glob g)
             (Arr_2_Glob g) (<[1 := junk_rec]> (store g)) in
  let g := assign (Ptr_Glob g) (MkRec (Next_Ptr_Glob g) Ident_1 Ident_3 40 str_some) g in
  set_arrays (Arr_1_Glob g) (<[(8, 7) := 10]> (Arr_2_Glob g)) g.

Record bench_result := MkBench {
  br_locals : locals;
  br_globals : dhry;
  User_Time : Z;
  Microseconds : Z;
  Dhrystones_Per_Second : Z;
}.

Definition dhrystone_bench {F : FlexioDev} (fuel : nat) (junk : Z) (junk_rec : Rec_Type)
    (l : locals) (Number_Of_Runs : Z) (g : dhry) (w : World F) : option (bench_result * World F) :=
  let g := dhry_init junk_rec g in
  let l := MkLocals (Int_1_Loc l) (Int_2_Loc l) (Int_3_Loc l) (Enum_Loc l) str_1st (Str_2_Loc l) in
  let '(Begin_Time, w) := thread_cycles w in
  '(l, g) ← run_loop (Z.to_nat Number_Of_Runs) fuel junk 1 l g;
  let '(End_Time, w) := thread_cycles w in
  let user_time := s64 (End_Time - Begin_Time) in
  if (Number_Of_Runs =? 0) || (user_time =? 0) then None
  else
    let us := Z.quot (s64 (Z.quot user_time Number_Of_Runs * Mic_secs_Per_Second)) HZ in
    let dps := s64 (u64 (HZ * Number_Of_Runs) / u64 user_time) in
    Some (MkBench l g user_time us dps, w).

(** ** Lemmas: one run *)

(** The records after a run. *)
Definition rec_glob : Rec_Type := MkRec 1 Ident_1 Ident_3 17 str_some.
Definition rec_next : Rec_Type := MkRec 1 Ident_1 Ident_2 18 str_some.

(** What the initialisation establishes and every run preserves. *)
Record dhry_inv (k : Z) (l : locals) (g : dhry) : Prop := MkDhryInv {
  di_ptrs : Ptr_Glob g = 2 /\ Next_Ptr_Glob g = 1;
  di_glob : exists v, store g !! 2 = Some (MkRec 1 Ident_1 Ident_3 v str_some);
  di_next : is_Some (store g !! 1);
  di_count : Arr_2_Glob g !! (8, 7) = Some (10 + k);
  di_str : Str_1_Loc l = str_1st;
}.

(** What every run establishes. *)
Record dhry_done (k : Z) (l : locals) (g : dhry) : Prop := MkDhryDone {
  dd_inv : dhry_inv k l g;
  dd_globals : Int_Glob g = 5 /\ Bool_Glob g = 1 /\ Ch_1_Glob g = 65 /\ Ch_2_Glob g = 66;
  dd_arr1 : Arr_1_Glob g !! 8 = Some 7;
  dd_recs : store g !! 2 = Some rec_glob /\ store g !! 1 = Some rec_next;
  dd_locals : l = MkLocals 5 13 7 1 str_1st str_2nd;
}.

Lemma dhry_init_inv junk_rec g l :
  Str_1_Loc l = str_1st -> dhry_inv 0 l (dhry_init junk_rec g).
Proof.
  intros Hl. split; [done|..]; cbn -[str_some].
  - exists 40. by rewrite lookup_insert_eq.
  - rewrite lookup_insert_ne, lookup_insert_eq by done. done.
  - by rewrite lookup_insert_eq.
  - done.
Qed.

Lemma deref_assign p q r g : deref q (assign p r g) = if decide (p = q) then Some r else deref q g.
Proof.
  unfold deref, assign. cbn. case_decide; [subst; apply lookup_insert_eq|by apply lookup_insert_ne].
Qed.

(** [Proc_1] leaves the two records in their final state. *)
Lemma Proc_1_spec g v :
  Ptr_Glob g = 2 -> Int_Glob g = 5 ->
  store g !! 2 = Some (MkRec 1 Ident_1 Ident_3 v str_some) -> is_Some (store g !! 1) ->
  exists s, Proc_1 2 g = Some (set_store s g) /\ s !! 2 = Some rec_glob /\ s !! 1 = Some rec_next.
Proof.
  unfold rec_glob, rec_next. generalize str_some as st. intros st Hp Hi H2 [r1 H1].
  destruct g as [pg ng ig bg c1 c2 a1 a2 s]. cbn in *. subst pg ig.
  assert (exists s', Proc_1 2 (MkDhry 2 ng 5 bg c1 c2 a1 a2 s) = Some (MkDhry 2 ng 5 bg c1 c2 a1 a2 s')
    /\ s' !! 1 = Some (MkRec 1 Ident_1 Ident_2 18 st) /\
       s' !! 2 = Some (MkRec 1 Ident_1 Ident_3 17 st)) as (s' & E & E1 & E2).
  { remember (Proc_1 2 (MkDhry 2 ng 5 bg c1 c2 a1 a2 s)) as r eqn:Er.
    unfold Proc_1, Proc_3, modify, deref, assign, set_store in Er. cbn in Er.
    rewrite H2 in Er. cbn in Er. rewrite H1 in Er. cbn in Er.
    repeat (first [rewrite lookup_insert_eq in Er | rewrite lookup_insert_ne in Er by done
                   | rewrite H2 in Er | rewrite H1 in Er]; cbn in Er).
    eexists. split; [exact Er|]. split.
    - by rewrite lookup_insert_eq.
    - repeat (rewrite lookup_insert_ne by done). by rewrite lookup_insert_eq. }
  exists s'. split; [exact E|]. split; [exact E2|exact E1].
Qed.

Lemma Func_2_spec f junk g : Func_2 (S f) junk str_1st str_2nd g = Some (0, g).
Proof. destruct f; reflexivity. Qed.

Lemma while_loop_spec f i3 e s1 s2 :
  while_loop (S f) (MkLocals 2 3 i3 e s1 s2) = Some (MkLocals 3 3 7 e s1 s2).
Proof. by destruct f. Qed.

Lemma Proc_8_spec g k :
  Arr_2_Glob g !! (8, 7) = Some (10 + k) -> 0 <= k < 2 ^ 31 - 11 ->
  exists a1 a2, Proc_8 3 7 g = Some (set_Int_Glob 5 (set_arrays a1 a2 g)) /\
    a1 !! 8 = Some 7 /\ a2 !! (8, 7) = Some (10 + (k + 1)).
Proof.
  intros Hk Hr. remember (Proc_8 3 7 g) as r eqn:Er. unfold Proc_8, Proc_8_loop in Er. cbn in Er.
  repeat (first [rewrite lookup_insert_eq in Er | rewrite lookup_insert_ne in Er by done
                 | rewrite Hk in Er]; cbn -[Z.add] in Er).
  do 2 eexists. split; [exact Er|]. split.
  - repeat (rewrite lookup_insert_ne by done). by rewrite lookup_insert_eq.
  - rewrite lookup_insert_ne, lookup_insert_eq by done. f_equal.
    change (3 + 5, 3 + 5 - 1) with (8, 7). rewrite !lookup_insert_ne, Hk by done.
    cbn [default id]. rewrite wraps_small by lia. lia.
Qed.

Lemma ch_loop_step f c ri l g :
  c <= Ch_2_Glob g -> c <> 67 -> Enum_Loc l = Ident_2 ->
  ch_loop (S f) c ri l g = ch_loop f (u8 (c + 1)) ri l g.
Proof.
  intros Hc Hne He. cbn [ch_loop]. rewrite (proj2 (Z.leb_le _ _) Hc). unfold Func_1.
  rewrite (proj2 (Z.eqb_neq _ _) Hne). cbn [negb]. by rewrite He.
Qed.

Lemma ch_loop_spec f ri l g :
  Ch_2_Glob g = 66 -> Enum_Loc l = Ident_2 -> ch_loop (S (S f)) 65 ri l g = Some (l, g).
Proof.
  intros H2 He. rewrite !ch_loop_step by (done || rewrite H2; done).
  destruct f; cbn [ch_loop]; by rewrite H2.
Qed.

Lemma run_once_spec f junk ri k l g :
  dhry_inv k l g -> 0 <= k < 2 ^ 31 - 11 ->
  exists l' g', run_once (S (S f)) junk ri l g = Some (l', g') /\ dhry_done (k + 1) l' g'.
Proof.
  intros [[Hp Hn] [v Hg] Hx Hk Hs] Hr. unfold run_once. cbn [Str_1_Loc Str_2_Loc]. rewrite Hs.
  set (g1 := Proc_4 (Proc_5 g)). rewrite Func_2_spec. cbn [mbind option_bind].
  rewrite while_loop_spec. cbn [mbind option_bind Int_1_Loc Int_3_Loc].
  set (g2 := set_Bool_Glob _ g1).
  assert (Arr_2_Glob g2 = Arr_2_Glob g /\ store g2 = store g /\ Ptr_Glob g2 = Ptr_Glob g /\
    Next_Ptr_Glob g2 = Next_Ptr_Glob g /\ Bool_Glob g2 = 1 /\ Ch_1_Glob g2 = 65 /\ Ch_2_Glob g2 = 66)
    as (A2 & St & Pg & Ng & Bg & C1 & C2) by done. clearbody g2. clear g1.
  destruct (Proc_8_spec g2 k) as (a1 & a2 & -> & H1 & H2); [by rewrite A2|done|].
  cbn [mbind option_bind]. set (g3 := set_Int_Glob 5 _).
  assert (Ptr_Glob g3 = 2) as -> by (cbn; by rewrite Pg).
  destruct (Proc_1_spec g3 v) as (s & -> & S2 & S1);
    [cbn; by rewrite Pg|done|cbn; by rewrite St|cbn; by rewrite St|].
  cbn [mbind option_bind]. rewrite ch_loop_spec by done. cbn [mbind option_bind].
  cbn [Int_1_Loc Int_2_Loc Int_3_Loc Enum_Loc Str_1_Loc Str_2_Loc]. cbn [Z.eqb].
  assert (Proc_2 (S (S f)) junk (Z.quot (3 * 3) 7) (set_store s g3) = Some 5) as ->.
  { unfold Proc_2. cbn [Proc_2_loop]. cbn [Ch_1_Glob Int_Glob set_store g3 set_Int_Glob set_arrays].
    by rewrite C1. }
  cbn [mbind option_bind]. do 2 eexists. split; [reflexivity|].
  split; [split|..]; try done; cbn; [by rewrite Pg, Ng|by exists 17].
Qed.

Lemma run_loop_spec f junk n ri k l g :
  dhry_inv k l g -> 0 <= k -> k + Z.of_nat (S n) < 2 ^ 31 - 10 ->
  exists l' g', run_loop (S n) (S (S f)) junk ri l g = Some (l', g') /\
    dhry_done (k + Z.of_nat (S n)) l' g'.
Proof.
  revert k ri l g. induction n as [|n IH]; intros k ri l g HI Hk Hb.
  - cbn [run_loop]. destruct (run_once_spec f junk ri k l g HI) as (l' & g' & -> & HD); [lia|].
    exists l', g'. split; [done|]. by replace (k + Z.of_nat 1) with (k + 1) by lia.
  - destruct (run_once_spec f junk ri k l g HI) as (l' & g' & E & [HI' _ _ _ _]); [lia|].
    destruct (IH (k + 1) (ri + 1) l' g' HI') as (l2 & g2 & E2 & HD); [lia|lia|].
    exists l2, g2. split.
    + change (run_loop (S (S n)) (S (S f)) junk ri l g) with
        (match run_once (S (S f)) junk ri l g with
         | Some (l, g) => run_loop (S n) (S (S f)) junk (ri + 1) l g | None => None end).
      by rewrite E.
    + by replace (k + Z.of_nat (S (S n))) with (k + 1 + Z.of_nat (S n)) by lia.
Qed.

(** C25.  Dhrystone ends with the values its report announces.  For every number
    of runs from 1 up to the range of [int], whatever the globals and the
    uninitialised variables hold before, two units of fuel per inner loop
    suffice for every loop to end, and the final globals, records, array elements
    and locals are those printed as "should be": in particular
    [Arr_2_Glob[8][7]] is the number of runs plus 10. *)
Theorem dhrystone_final_values {F : FlexioDev} (f : nat) (junk : Z) (junk_rec : Rec_Type)
    (l : locals) (n : Z) (g : dhry) (w : World F) :
  1 <= n < 2 ^ 31 - 10 ->
  s64 (cycles_at (S (w_tick w)) - cycles_at (w_tick w)) <> 0 ->
  exists r w', dhrystone_bench (S (S f)) junk junk_rec l n g w = Some (r, w') /\
    let g' := br_globals r in
    Int_Glob g' = 5 /\ Bool_Glob g' = 1 /\ Ch_1_Glob g' = 65 /\ Ch_2_Glob g' = 66 /\
    Arr_1_Glob g' !! 8 = Some 7 /\ Arr_2_Glob g' !! (8, 7) = Some (n + 10) /\
    deref (Ptr_Glob g') g' = Some (MkRec (Next_Ptr_Glob g') 0 2 17 str_some) /\
    deref (Next_Ptr_Glob g') g' = Some (MkRec (Next_Ptr_Glob g') 0 1 18 str_some) /\
    br_locals r = MkLocals 5 13 7 1 str_1st str_2nd.
Proof.
  intros Hn Ht. unfold dhrystone_bench, thread_cycles. set (g0 := dhry_init junk_rec g).
  set (l0 := MkLocals _ _ _ _ str_1st _).
  assert (dhry_inv 0 l0 g0) as HI by (by apply dhry_init_inv). clearbody g0 l0.
  destruct (Z.to_nat n) as [|m] eqn:Em; [lia|].
  destruct (run_loop_spec f junk m 1 0 l0 g0 HI) as (l1 & g1 & -> & [[[P1 P2] _ _ Hc _] [I1 [B1 [C1 C2]]] A1 [R2 R1] HL]);
    [lia|lia|].
  cbn [mbind option_bind]. cbn [w_tick tick].
  rewrite (proj2 (Z.eqb_neq n 0)), (proj2 (Z.eqb_neq _ 0) Ht) by lia. cbn [orb].
  do 2 eexists. split; [reflexivity|]. cbn [br_globals br_locals]. unfold deref.
  rewrite P1, P2, R1, R2, Hc. split_and!; try done. f_equal. lia.
Qed.

Lemma dhrystone_final_values_witness :
  exists r w', dhrystone_bench (F := ref_flexio) 2 0 (MkRec 0 0 0 0 []) (MkLocals 0 0 0 0 [] [])
    DPA_DHRYSTONE_NUMBER_OF_RUNS dhry_zero (empty_world (F := ref_flexio)) = Some (r, w') /\
    Arr_2_Glob (br_globals r) !! (8, 7) = Some 500010.
Proof.
  destruct (dhrystone_final_values (F := ref_flexio) 0 0 (MkRec 0 0 0 0 []) (MkLocals 0 0 0 0 [] [])
    DPA_DHRYSTONE_NUMBER_OF_RUNS dhry_zero (empty_world (F := ref_flexio)))
    as (r & w' & E & _ & _ & _ & _ & _ & H & _).
  - unfold DPA_DHRYSTONE_NUMBER_OF_RUNS. lia.
  - vm_compute. discriminate.
  - exists r, w'. split; [exact E|exact H].
Defined.
