(* ===== verification/Roofline.v ===== *)
(** * Roofline: the compute-intensity benchmark of [flexio/roofline]

    Translation of [flexio/roofline/device/roofline_device.c].  The 32 kernels
    [add_read_k] and [mul_read_k] differ only in their accumulators and in the
    straight-line code applied to every element, so a kernel is its initial
    accumulators and the list of its assignments, run by [call]; the switches,
    the two RPCs and the table [total_result] follow the source.

    Accumulators are [long]: [sum += tmp] is computed in [unsigned long] and
    converted back; [sum1 += sum5] wraps as the hardware does (the C standard
    leaves a signed overflow undefined). *)

From S2P Require Import Prelude Machine FlexioDev WrapperDevice.

(** ** roofline.h *)

Definition HOST_MEM : Z := 0.
Definition PRIVATE_MEM : Z := 1.

Record MemoryArg := MkMemoryArg {
  stream_id : Z;
  window_id : Z;
  mkey : Z;
  mem_type : Z;
  size : Z;
  compute_count : Z;
  loop : Z;
  haddr : Z;
  ddata : Z;
}.

(** ** Straight-line code on the accumulators [sum1 .. sum8] *)

Inductive aop := OpAdd | OpMul.
Inductive operand := Tmp | Sum (j : nat).

(** [sum_dst op= src] *)
Record stmt := St { st_op : aop; st_dst : nat; st_src : operand }.

Definition ev (o : aop) (x y : Z) : Z :=
  match o with OpAdd => x + y | OpMul => x * y end.

Definition get_sum (s : list Z) (j : nat) : Z := nth (j - 1) s 0.
Definition set_sum (s : list Z) (j : nat) (v : Z) : list Z := <[(j - 1)%nat := v]> s.

(** The code is run with a reduction [red] applied to every result: [s64] is
    the machine, the identity computes with unbounded integers. *)
Definition exec1 (red : Z -> Z) (tmp : Z) (s : list Z) (c : stmt) : list Z :=
  let src := match st_src c with Tmp => tmp | Sum j => get_sum s j end in
  set_sum s (st_dst c) (red (ev (st_op c) (get_sum s (st_dst c)) src)).

Definition exec (red : Z -> Z) (body : list stmt) (tmp : Z) (s : list Z) : list Z :=
  fold_left (exec1 red tmp) body s.

(** [sum1 op= tmp; ...; sumk op= tmp;] *)
Definition each_tmp (o : aop) (k : nat) : list stmt := map (fun j => St o j Tmp) (seq 1 k).

(** [sum1 op= sum5; sum2 op= sum6; sum3 op= sum7; sum4 op= sum8;] *)
Definition half_chain (o : aop) : list stmt :=
  [St o 1 (Sum 5); St o 2 (Sum 6); St o 3 (Sum 7); St o 4 (Sum 8)].

(** [half_chain] followed by [sum5 op= sum1; ...; sum8 op= sum4;] *)
Definition chain (o : aop) : list stmt :=
  half_chain o ++ [St o 5 (Sum 1); St o 6 (Sum 2); St o 7 (Sum 3); St o 8 (Sum 4)].

Definition REP2 (s : list stmt) : list stmt := s ++ s.
Definition REP3 (s : list stmt) : list stmt := REP2 s ++ s.
Definition REP4 (s : list stmt) : list stmt := REP2 s ++ REP2 s.
Definition REP8 (s : list stmt) : list stmt := REP4 s ++ REP4 s.
Definition REP16 (s : list stmt) : list stmt := REP8 s ++ REP8 s.
Definition REP32 (s : list stmt) : list stmt := REP16 s ++ REP16 s.
Definition REP64 (s : list stmt) : list stmt := REP32 s ++ REP32 s.
Definition REP128 (s : list stmt) : list stmt := REP64 s ++ REP64 s.
Definition REP256 (s : list stmt) : list stmt := REP128 s ++ REP128 s.

(** ** The kernels *)

Record kernel := Kernel { k_init : list Z; k_body : list stmt }.

Definition eight : list Z := [1; 2; 3; 4; 5; 6; 7; 8].

(** The element is added to [sum8] in the additive and the multiplicative variants. *)
Definition load8 : stmt := St OpAdd 8 Tmp.

Definition add_read_1 := Kernel [1] (each_tmp OpAdd 1).
Definition add_read_2 := Kernel [1; 2] (each_tmp OpAdd 2).
Definition add_read_3 := Kernel [1; 2; 3] (each_tmp OpAdd 3).
Definition add_read_4 := Kernel [1; 2; 3; 4] (each_tmp OpAdd 4).
Definition add_read_6 := Kernel [1; 2; 3; 4; 5; 6] (each_tmp OpAdd 6).
Definition add_read_8 := Kernel eight (each_tmp OpAdd 8).
Definition add_read_12 := Kernel eight (each_tmp OpAdd 8 ++ half_chain OpAdd).
Definition add_read_16 := Kernel eight (load8 :: REP2 (chain OpAdd)).
Definition add_read_24 := Kernel eight (load8 :: REP3 (chain OpAdd)).
Definition add_read_32 := Kernel eight (load8 :: REP4 (chain OpAdd)).
Definition add_read_64 := Kernel eight (load8 :: REP8 (chain OpAdd)).
Definition add_read_128 := Kernel eight (load8 :: REP16 (chain OpAdd)).
Definition add_read_256 := Kernel eight (load8 :: REP32 (chain OpAdd)).
Definition add_read_512 := Kernel eight (load8 :: REP64 (chain OpAdd)).
Definition add_read_1024 := Kernel eight (load8 :: REP128 (chain OpAdd)).
Definition add_read_2048 := Kernel eight (load8 :: REP256 (chain OpAdd)).

Definition mul_read_1 := Kernel [1] (each_tmp OpMul 1).
Definition mul_read_2 := Kernel [1; 2] (each_tmp OpMul 2).
Definition mul_read_3 := Kernel [1; 2; 3] (each_tmp OpMul 3).
Definition mul_read_4 := Kernel [1; 2; 3; 4] (each_tmp OpMul 4).
Definition mul_read_6 := Kernel [1; 2; 3; 4; 5; 6] (each_tmp OpMul 6).
Definition mul_read_8 := Kernel eight (each_tmp OpMul 8).
Definition mul_read_12 := Kernel eight (each_tmp OpMul 8 ++ half_chain OpMul).
Definition mul_read_16 := Kernel eight (load8 :: REP2 (chain OpMul)).
Definition mul_read_24 := Kernel eight (load8 :: REP3 (chain OpMul)).
Definition mul_read_32 := Kernel eight (load8 :: REP4 (chain OpMul)).
Definition mul_read_64 := Kernel eight (load8 :: REP8 (chain OpMul)).
Definition mul_read_128 := Kernel eight (load8 :: REP16 (chain OpMul)).
Definition mul_read_256 := Kernel eight (load8 :: REP32 (chain OpMul)).
Definition mul_read_512 := Kernel eight (load8 :: REP64 (chain OpMul)).
Definition mul_read_1024 := Kernel eight (load8 :: REP128 (chain OpMul)).
Definition mul_read_2048 := Kernel eight (load8 :: REP256 (chain OpMul)).

(** The kernel each [case] of the two switches calls. *)
Definition add_case (compute_count : Z) : option kernel :=
  match compute_count with
  | 1 => Some add_read_1 | 2 => Some add_read_2 | 3 => Some add_read_3 | 4 => Some add_read_4
  | 6 => Some add_read_6 | 8 => Some add_read_8 | 12 => Some add_read_12 | 16 => Some add_read_16
  | 24 => Some add_read_24 | 32 => Some add_read_32 | 64 => Some add_read_64
  | 128 => Some add_read_128 | 256 => Some add_read_256 | 512 => Some add_read_512
  | 1024 => Some add_read_1024 | 2048 => Some add_read_2048 | _ => None
  end.

Definition mul_case (compute_count : Z) : option kernel :=
  match compute_count with
  | 1 => Some mul_read_1 | 2 => Some mul_read_2 | 3 => Some mul_read_3 | 4 => Some mul_read_4
  | 6 => Some mul_read_6 | 8 => Some mul_read_8 | 12 => Some mul_read_12 | 16 => Some mul_read_16
  | 24 => Some mul_read_24 | 32 => Some mul_read_32 | 64 => Some mul_read_64
  | 128 => Some mul_read_128 | 256 => Some mul_read_256 | 512 => Some mul_read_512
  | 1024 => Some mul_read_1024 | 2048 => Some mul_read_2048 | _ => None
  end.

(** [return sum1 + sum2 + ...] *)
Definition ret_sum (red : Z -> Z) (s : list Z) : Z :=
  match s with
  | [] => 0
  | x :: s => fold_left (fun a y => red (a + y)) s x
  end.

Section Kernels.
Context {F : FlexioDev}.

(** [for (long i = 0; i < num_ele; i++) { size_t tmp = data[i]; ... }] *)
Fixpoint for_read (red : Z -> Z) (body : list stmt) (w : World F) (data i : Z) (n : nat)
    (s : list Z) : list Z :=
  match n with
  | O => s
  | S n =>
      let tmp := ld64 (w_mem w) (via w (data + 8 * i)) in
      for_read red body w data (i + 1) n (exec red body tmp s)
  end.

(** [while (loop--)] around it, and the returned value. *)
Definition run_kernel (red : Z -> Z) (k : kernel) (w : World F) (data num_ele loop : Z) : Z :=
  ret_sum red (Nat.iter (Z.to_nat loop)
    (for_read red (k_body k) w data 0 (Z.to_nat num_ele)) (k_init k)).

Definition call (k : kernel) : World F -> Z -> Z -> Z -> Z := run_kernel s64 k.

Definition roofline_sizet_add_read (w : World F) (data num_ele compute_count loop : Z) : Z :=
  let sum := 0 in
  match add_case compute_count with
  | Some k => s64 (sum + call k w data num_ele loop)
  | None => sum
  end.

Definition roofline_sizet_mul_read (w : World F) (data num_ele compute_count loop : Z) : Z :=
  let sum := 1 in
  match mul_case compute_count with
  | Some k => s64 (sum + call k w data num_ele loop)
  | None => sum
  end.

(** ** The RPCs *)

Definition NULL : Z := 0.

(** [total_result[256]] *)
Definition num_results : nat := 256.

(** Whether the kernel selected reads any element. *)
Definition reads_data (num_ele compute_count loop : Z) : bool :=
  match mul_case compute_count with Some _ => (0 <? num_ele) && (0 <? loop) | None => false end.

(** [None]: an element is read through a null or unmapped pointer, the stream
    has no slot in the table, or no cycle has elapsed and the division traps. *)
Definition bench_func (arg : MemoryArg) (total_result : list Z) (w : World F)
    : option (Z * list Z * World F) :=
  let '(data, w) :=
    if mem_type arg =? HOST_MEM then get_host_buffer (window_id arg) (mkey arg) (haddr arg) w
    else if mem_type arg =? PRIVATE_MEM then (ddata arg, w) else (NULL, w) in
  let num_ele := size arg / 8 in
  let '(cycle, w) := thread_cycles w in
  if reads_data num_ele (compute_count arg) (loop arg) && ((data =? NULL) || (data =? assert_failed))
  then None else
  let tmp := roofline_sizet_mul_read w data num_ele (compute_count arg) (loop arg) in
  let '(cycle', w) := thread_cycles w in
  let cycle := (cycle' -64 cycle)%cint in
  if cycle =? 0 then None else
  if (stream_id arg <? 0) || (Z.of_nat num_results <=? stream_id arg) then None else
  let thr := (loop arg *64 num_ele *64 compute_count arg *64 180000)%cint / cycle in
  Some (cycle, <[Z.to_nat (stream_id arg) := thr]> total_result, emit EvMemoryWriteback w).

(** [for (i = 0; i < total_threads; i++) result += total_result[i];] *)
Definition get_result (total_threads : Z) (total_result : list Z) : option Z :=
  sum_table total_result total_threads.

(** The elements a kernel reads. *)
Definition elements (w : World F) (data : Z) (n : nat) : list Z :=
  map (fun i => ld64 (w_mem w) (via w (data + 8 * Z.of_nat i))) (seq 0 n).

End Kernels.

(** ** Reduction modulo the word size *)

Lemma s64_ev o x y x' y' :
  (2 ^ 64 | x - x') -> (2 ^ 64 | y - y') -> s64 (ev o x y) = s64 (ev o x' y').
Proof.
  intros [a Ha] [b Hb]. apply wraps_cong; [lia|]. destruct o; cbn [ev].
  - exists (a + b). lia.
  - exists (a * y + b * x'). nia.
Qed.

Lemma s64_ev_red o x y : s64 (ev o (s64 x) (s64 y)) = s64 (ev o x y).
Proof.
  symmetry. apply s64_ev; apply (wraps_div 64); lia.
Qed.

Lemma s64_ev_red_l o x y : s64 (ev o (s64 x) y) = s64 (ev o x y).
Proof. symmetry. apply s64_ev; [apply (wraps_div 64); lia|]. rewrite Z.sub_diag. apply Z.divide_0_r. Qed.

Lemma get_sum_map s j : get_sum (map (wraps 64) s) j = s64 (get_sum s j).
Proof. unfold get_sum. exact (map_nth s64 s 0 (j - 1)). Qed.

Lemma set_sum_map s j v : set_sum (map (wraps 64) s) j (s64 v) = map (wraps 64) (set_sum s j v).
Proof. unfold set_sum. symmetry. apply list_fmap_insert. Qed.

Lemma exec_exact body t s : exec s64 body t (map (wraps 64) s) = map (wraps 64) (exec id body t s).
Proof.
  unfold exec. revert s. induction body as [|[o d src] body IH]; intros s; [done|].
  cbn [fold_left]. rewrite <- IH. f_equal. unfold exec1. cbn [st_op st_dst st_src].
  rewrite <- set_sum_map, get_sum_map. f_equal.
  destruct src as [|j]; [apply s64_ev_red_l|]. rewrite get_sum_map. apply s64_ev_red.
Qed.

(** ** A pass over the elements *)

Definition pass (red : Z -> Z) (body : list stmt) (xs : list Z) (s : list Z) : list Z :=
  fold_left (fun s t => exec red body t s) xs s.

Lemma pass_exact body xs s : pass s64 body xs (map (wraps 64) s) = map (wraps 64) (pass id body xs s).
Proof.
  unfold pass. revert s. induction xs as [|x xs IH]; intros s; [done|].
  cbn [fold_left]. by rewrite exec_exact, IH.
Qed.

Lemma iter_exact body xs n s :
  Nat.iter n (pass s64 body xs) (map (wraps 64) s) = map (wraps 64) (Nat.iter n (pass id body xs) s).
Proof. induction n as [|n IH]; [done|]. rewrite !Nat.iter_succ, IH. apply pass_exact. Qed.

Lemma ret_sum_exact s : ret_sum s64 (map (wraps 64) s) = s64 (ret_sum id s).
Proof.
  destruct s as [|x s]; [done|]. cbn [ret_sum map]. revert x.
  induction s as [|y s IH]; intros x; [done|]. cbn [map fold_left].
  replace (s64 (s64 x + s64 y)) with (s64 (x + y)) by (symmetry; exact (s64_ev_red OpAdd x y)).
  apply IH.
Qed.

Section Facts.
Context {F : FlexioDev}.
Implicit Types (w : World F) (k : kernel).

Lemma for_read_pass red body w data i n s :
  for_read red body w data (Z.of_nat i) n s =
  pass red body (map (fun i => ld64 (w_mem w) (via w (data + 8 * Z.of_nat i))) (seq i n)) s.
Proof.
  revert i s. induction n as [|n IH]; intros i s; [done|].
  cbn [for_read seq map]. unfold pass. cbn [fold_left].
  replace (Z.of_nat i + 1) with (Z.of_nat (S i)) by lia. rewrite IH. done.
Qed.

Lemma iter_ext {A} (f g : A -> A) n x : (forall y, f y = g y) -> Nat.iter n f x = Nat.iter n g x.
Proof. intros H. induction n as [|n IH]; [done|]. by rewrite !Nat.iter_succ, IH, H. Qed.

Lemma run_kernel_pass red k w data num_ele loop :
  run_kernel red k w data num_ele loop =
  ret_sum red (Nat.iter (Z.to_nat loop)
    (pass red (k_body k) (elements w data (Z.to_nat num_ele))) (k_init k)).
Proof.
  unfold run_kernel. f_equal. apply iter_ext. intros s.
  exact (for_read_pass red (k_body k) w data 0 (Z.to_nat num_ele) s).
Qed.

Lemma call_exact k w data num_ele loop :
  map (wraps 64) (k_init k) = k_init k ->
  call k w data num_ele loop = s64 (run_kernel id k w data num_ele loop).
Proof.
  intros Hk. unfold call. rewrite !run_kernel_pass.
  rewrite <- Hk at 1. by rewrite iter_exact, ret_sum_exact.
Qed.

Definition compute_counts : list Z := [1; 2; 3; 4; 6; 8; 12; 16; 24; 32; 64; 128; 256; 512; 1024; 2048].

Lemma case_init cc k : add_case cc = Some k \/ mul_case cc = Some k -> map (wraps 64) (k_init k) = k_init k.
Proof.
  intros H. assert (k_init k ∈ [[1]; [1; 2]; [1; 2; 3]; [1; 2; 3; 4]; [1; 2; 3; 4; 5; 6]; eight]) as Hi.
  { destruct H as [H|H]; [unfold add_case in H|unfold mul_case in H];
    repeat case_match; simplify_eq; cbn [k_init]; set_solver. }
  clear H. revert Hi. generalize (k_init k). intros l Hl.
  repeat (apply elem_of_cons in Hl as [->|Hl]; [reflexivity|]). by apply elem_of_nil in Hl.
Qed.

Lemma roofline_add_case w data num_ele cc loop k :
  add_case cc = Some k ->
  roofline_sizet_add_read w data num_ele cc loop = s64 (run_kernel id k w data num_ele loop).
Proof.
  intros E. unfold roofline_sizet_add_read. rewrite E.
  rewrite call_exact by (apply (case_init cc); by left). rewrite Z.add_0_l.
  etransitivity; [|apply f_equal, Z.add_0_r].
  rewrite <- (Z.add_0_r (s64 (run_kernel _ _ _ _ _ _))). apply (s64_ev_red_l OpAdd _ 0).
Qed.

Lemma roofline_mul_case w data num_ele cc loop k :
  mul_case cc = Some k ->
  roofline_sizet_mul_read w data num_ele cc loop = s64 (1 + run_kernel id k w data num_ele loop).
Proof.
  intros E. unfold roofline_sizet_mul_read. rewrite E.
  rewrite call_exact by (apply (case_init cc); by right).
  rewrite Z.add_comm, (Z.add_comm 1). apply (s64_ev_red_l OpAdd).
Qed.

(** ** Kernels that only combine accumulators with the element *)

Lemma exec_each_tmp o t p s :
  fold_left (exec1 id t) (map (fun j => St o j Tmp) (seq (S (length p)) (length s))) (p ++ s) =
  p ++ map (fun x => ev o x t) s.
Proof.
  revert p. induction s as [|x s IH]; intros p; [done|]. cbn [length seq map fold_left].
  assert (exec1 id t (p ++ x :: s) (St o (S (length p)) Tmp) = (p ++ [ev o x t]) ++ s) as ->.
  { unfold exec1, get_sum, set_sum. cbn [st_op st_dst st_src id].
    replace (S (length p) - 1)%nat with (length p + 0)%nat by lia.
    rewrite app_nth2_plus, insert_app_r, <- app_assoc. done. }
  specialize (IH (p ++ [ev o x t])). rewrite length_app in IH. cbn [length] in IH.
  rewrite Nat.add_1_r in IH. by rewrite IH, <- app_assoc.
Qed.

Lemma pass_each_tmp o xs s :
  pass id (each_tmp o (length s)) xs s = map (fun x => fold_left (ev o) xs x) s.
Proof.
  revert s. induction xs as [|t xs IH]; intros s; [cbn; by rewrite map_id|].
  unfold pass. cbn [fold_left]. pose proof (exec_each_tmp o t [] s) as E. cbn [app length] in E.
  unfold exec, each_tmp at 2. rewrite E.
  replace (length s) with (length (map (fun x => ev o x t) s)) by apply length_map.
  etransitivity; [apply IH|]. by rewrite map_map.
Qed.

Definition prod_list (xs : list Z) : Z := foldr Z.mul 1 xs.

(** ** The heavy multiplicative kernels *)

(** One execution of the eight assignments of [chain OpMul]. *)
Lemma round_spec t a1 a2 a3 a4 a5 a6 a7 a8 :
  exec id (chain OpMul) t [a1; a2; a3; a4; a5; a6; a7; a8] =
  [a1 * a5; a2 * a6; a3 * a7; a4 * a8; a5 * (a1 * a5); a6 * (a2 * a6); a7 * (a3 * a7); a8 * (a4 * a8)].
Proof. reflexivity. Qed.

(** [even n s]: the accumulators 2, 4, 6 and 8 are multiples of [2^n]. *)
Definition even (n : Z) (s : list Z) : Prop :=
  length s = 8%nat /\ forall j, In j [2; 4; 6; 8]%nat -> (2 ^ n | get_sum s j).

(** The same without a condition on [sum8]. *)
Definition even_but8 (n : Z) (s : list Z) : Prop :=
  length s = 8%nat /\ forall j, In j [2; 4; 6]%nat -> (2 ^ n | get_sum s j).

Definition odds (s : list Z) : list Z := map (get_sum s) [1; 3; 5; 7]%nat.

Lemma list8 {A} (s : list A) :
  length s = 8%nat -> exists a1 a2 a3 a4 a5 a6 a7 a8, s = [a1; a2; a3; a4; a5; a6; a7; a8].
Proof.
  intros H. do 8 (destruct s as [|? s]; [discriminate H|]). destruct s; [|discriminate H].
  by repeat eexists.
Qed.

Lemma even_cases n a1 a2 a3 a4 a5 a6 a7 a8 :
  even n [a1; a2; a3; a4; a5; a6; a7; a8] <-> (2 ^ n | a2) /\ (2 ^ n | a4) /\ (2 ^ n | a6) /\ (2 ^ n | a8).
Proof.
  split.
  - intros [_ H]. split_and!; [apply (H 2%nat)|apply (H 4%nat)|apply (H 6%nat)|apply (H 8%nat)]; cbn; tauto.
  - intros (H2 & H4 & H6 & H8). split; [done|]. intros j Hj. cbn in Hj.
    by destruct Hj as [<-|[<-|[<-|[<-|[]]]]].
Qed.

Lemma even_but8_cases n a1 a2 a3 a4 a5 a6 a7 a8 :
  even_but8 n [a1; a2; a3; a4; a5; a6; a7; a8] <-> (2 ^ n | a2) /\ (2 ^ n | a4) /\ (2 ^ n | a6).
Proof.
  split.
  - intros [_ H]. split_and!; [apply (H 2%nat)|apply (H 4%nat)|apply (H 6%nat)]; cbn; tauto.
  - intros (H2 & H4 & H6). split; [done|]. intros j Hj. cbn in Hj.
    by destruct Hj as [<-|[<-|[<-|[]]]].
Qed.

Lemma round_even_first n t s : even_but8 n s -> even n (exec id (chain OpMul) t s).
Proof.
  intros H. destruct (list8 s (proj1 H)) as (a1 & a2 & a3 & a4 & a5 & a6 & a7 & a8 & ->).
  rewrite round_spec, even_cases. apply even_but8_cases in H as (H2 & H4 & H6).
  split_and!; auto using Z.divide_mul_l, Z.divide_mul_r.
Qed.

Lemma mul_pow_divide n m a b : 0 <= n -> 0 <= m -> (2 ^ n | a) -> (2 ^ m | b) -> (2 ^ (n + m) | a * b).
Proof. intros Hn Hm [q ->] [r ->]. rewrite Z.pow_add_r by done. exists (q * r). ring. Qed.

Lemma round_even_double n t s : 0 <= n -> even n s -> even (2 * n) (exec id (chain OpMul) t s).
Proof.
  intros Hn H. destruct (list8 s (proj1 H)) as (a1 & a2 & a3 & a4 & a5 & a6 & a7 & a8 & ->).
  rewrite round_spec, even_cases. apply even_cases in H as (H2 & H4 & H6 & H8).
  replace (2 * n) with (n + n) by lia.
  split_and!; try (by apply mul_pow_divide); apply Z.divide_mul_r; by apply mul_pow_divide.
Qed.

Lemma even_weaken n m s : 0 <= n <= m -> even m s -> even n s.
Proof.
  intros Hn [Hl H]. split; [done|]. intros j Hj. transitivity (2 ^ m); [|by apply H].
  exists (2 ^ (m - n)). rewrite <- Z.pow_add_r by lia. f_equal. lia.
Qed.

Lemma odds_round t t' s s' :
  length s = 8%nat -> length s' = 8%nat -> odds s = odds s' ->
  odds (exec id (chain OpMul) t s) = odds (exec id (chain OpMul) t' s').
Proof.
  intros H H'. destruct (list8 s H) as (a1 & a2 & a3 & a4 & a5 & a6 & a7 & a8 & ->).
  destruct (list8 s' H') as (b1 & b2 & b3 & b4 & b5 & b6 & b7 & b8 & ->).
  rewrite !round_spec. cbn. intros E. by simplify_eq.
Qed.

Definition reps (n : nat) (c : list stmt) : list stmt := Nat.iter n (fun l => l ++ c) [].

Lemma exec_reps red n c t s : exec red (reps n c) t s = Nat.iter n (exec red c t) s.
Proof.
  induction n as [|n IH]; [done|]. unfold reps. rewrite !Nat.iter_succ. unfold exec at 1.
  rewrite fold_left_app. unfold exec, reps in IH. by rewrite IH.
Qed.

Lemma rounds_even t m s : even_but8 1 s -> even 64 (Nat.iter (m + 8) (exec id (chain OpMul) t) s).
Proof.
  intros H. rewrite Nat.iter_add. induction m as [|m IH].
  - apply (round_even_first 1 t) in H. cbn [Nat.iter nat_rect].
    do 7 (apply (round_even_double _ t) in H; [|lia]). by apply (even_weaken 64 128).
  - rewrite Nat.iter_succ. apply (round_even_double _ t) in IH; [|lia].
    by apply (even_weaken 64 (2 * 64)).
Qed.

Lemma rounds_length t n s : length (Nat.iter n (exec id (chain OpMul) t) s) = length s.
Proof.
  induction n as [|n IH]; [done|]. rewrite Nat.iter_succ, <- IH. cbn.
  unfold exec1, set_sum. by rewrite !length_insert.
Qed.

Lemma rounds_odds t t' n s s' :
  length s = 8%nat -> length s' = 8%nat -> odds s = odds s' ->
  odds (Nat.iter n (exec id (chain OpMul) t) s) = odds (Nat.iter n (exec id (chain OpMul) t') s').
Proof.
  intros H H' E. induction n as [|n IH]; [done|]. rewrite !Nat.iter_succ.
  by apply odds_round; rewrite ?rounds_length.
Qed.

Lemma load8_spec t s :
  length s = 8%nat -> (even_but8 1 s -> even_but8 1 (exec1 id t s load8)) /\
  odds (exec1 id t s load8) = odds s /\ length (exec1 id t s load8) = 8%nat.
Proof.
  intros H. destruct (list8 s H) as (a1 & a2 & a3 & a4 & a5 & a6 & a7 & a8 & ->).
  split_and!; [|done|done]. cbn. by rewrite !even_but8_cases.
Qed.

(** Accumulators that agree up to data that no longer matters. *)
Definition same_up_to_data (s s' : list Z) : Prop :=
  (s = s' /\ even_but8 1 s) \/ (odds s = odds s' /\ even 64 s /\ even 64 s').

Lemma same_weaken s s' :
  same_up_to_data s s' -> odds s = odds s' /\ even_but8 1 s /\ even_but8 1 s'.
Proof.
  assert (forall s, even 64 s -> even_but8 1 s) as H.
  { intros x Hx. apply (even_weaken 1) in Hx; [|lia]. destruct Hx as [Hl Hx].
    split; [done|]. intros j Hj. apply Hx. cbn in *. tauto. }
  intros [[-> He]|(E & H1 & H2)]; auto.
Qed.

Lemma element_same m t t' s s' :
  same_up_to_data s s' ->
  same_up_to_data (exec id (load8 :: reps (m + 8) (chain OpMul)) t s)
    (exec id (load8 :: reps (m + 8) (chain OpMul)) t' s').
Proof.
  intros (E & H1 & H2)%same_weaken. right. unfold exec. cbn [fold_left].
  change (fold_left (exec1 id ?t) ?b ?s) with (exec id b t s). rewrite !exec_reps.
  destruct (load8_spec t s (proj1 H1)) as (A & B & C).
  destruct (load8_spec t' s' (proj1 H2)) as (A' & B' & C').
  split_and!; [apply rounds_odds; [done|done|by rewrite B, B']|apply rounds_even; auto..].
Qed.

Lemma pass_same m xs xs' s s' :
  length xs = length xs' -> same_up_to_data s s' ->
  same_up_to_data (pass id (load8 :: reps (m + 8) (chain OpMul)) xs s)
    (pass id (load8 :: reps (m + 8) (chain OpMul)) xs' s').
Proof.
  revert xs' s s'. induction xs as [|x xs IH]; intros [|x' xs'] s s' Hl H; try done.
  unfold pass. cbn [fold_left]. apply IH; [by injection Hl|]. by apply element_same.
Qed.

Lemma iter_same m n xs xs' s s' :
  length xs = length xs' -> same_up_to_data s s' ->
  same_up_to_data (Nat.iter n (pass id (load8 :: reps (m + 8) (chain OpMul)) xs) s)
    (Nat.iter n (pass id (load8 :: reps (m + 8) (chain OpMul)) xs') s').
Proof. intros Hl H. induction n as [|n IH]; [done|]. rewrite !Nat.iter_succ. by apply pass_same. Qed.

Lemma ret_same s s' : same_up_to_data s s' -> (2 ^ 64 | ret_sum id s - ret_sum id s').
Proof.
  intros [[-> _]|(E & H & H')]; [rewrite Z.sub_diag; apply Z.divide_0_r|].
  destruct (list8 s (proj1 H)) as (a1 & a2 & a3 & a4 & a5 & a6 & a7 & a8 & ->).
  destruct (list8 s' (proj1 H')) as (b1 & b2 & b3 & b4 & b5 & b6 & b7 & b8 & ->).
  apply even_cases in H as ([x2 ->] & [x4 ->] & [x6 ->] & [x8 ->]).
  apply even_cases in H' as ([y2 ->] & [y4 ->] & [y6 ->] & [y8 ->]).
  change ([a1; a3; a5; a7] = [b1; b3; b5; b7]) in E. injection E as -> -> -> ->. cbn [ret_sum fold_left id]. unfold id.
  exists (x2 + x4 + x6 + x8 - y2 - y4 - y6 - y8). ring.
Qed.

Lemma heavy_case cc :
  cc ∈ [64; 128; 256; 512; 1024; 2048] ->
  exists m, mul_case cc = Some (Kernel eight (load8 :: reps (m + 8) (chain OpMul))).
Proof.
  intros H. exists (Z.to_nat (cc / 8) - 8)%nat.
  repeat (apply elem_of_cons in H as [->|H]; [vm_compute; reflexivity|]). by apply elem_of_nil in H.
Qed.

(** From 64 operations per element on, the multiplicative benchmark does not
    depend on the data it reads: whatever two buffers, worlds and windows hold,
    the results are equal.  Half of the accumulators are even and their products
    vanish modulo [2^64] within the first element; the other half never sees the
    data. *)
Theorem roofline_heavy_ignores_data w w' data data' num_ele cc loop :
  cc ∈ [64; 128; 256; 512; 1024; 2048] ->
  roofline_sizet_mul_read w data num_ele cc loop = roofline_sizet_mul_read w' data' num_ele cc loop.
Proof.
  intros [m E]%heavy_case. rewrite !(roofline_mul_case _ _ _ _ _ _ E), !run_kernel_pass.
  cbn [k_init k_body]. apply wraps_cong; [lia|].
  assert (same_up_to_data eight eight) as H.
  { left. split; [done|]. apply even_but8_cases. split_and!; [by exists 1|by exists 2|by exists 3]. }
  apply (iter_same m (Z.to_nat loop) (elements w data (Z.to_nat num_ele))
    (elements w' data' (Z.to_nat num_ele))) in H; [|unfold elements; by rewrite !length_map, !length_seq].
  apply ret_same in H as [q H]. exists q. lia.
Qed.

(** ** Closed forms of all kernels *)

(** Fibonacci numbers: [fib 0 = 0], [fib 1 = 1]. *)
Definition fibs (n : nat) : Z * Z := Nat.iter n (fun '(a, b) => (b, a + b)) (0, 1).
Definition fib (n : nat) : Z := (fibs n).1.

Lemma fibs_fib n : fibs n = (fib n, fib (S n)).
Proof. unfold fib, fibs. rewrite Nat.iter_succ. by destruct (Nat.iter n _ _). Qed.

Lemma fib_SS n : fib (S (S n)) = fib n + fib (S n).
Proof.
  pose proof (fibs_fib (S n)) as E. unfold fibs in E. rewrite Nat.iter_succ in E. fold (fibs n) in E.
  rewrite fibs_fib in E. injection E as ->. done.
Qed.

Lemma fib_pos n : 0 <= fib n /\ 0 <= fib (S n).
Proof. induction n as [|n [IH1 IH2]]; [done|]. rewrite fib_SS. lia. Qed.

Lemma fib_mono n : fib n <= fib (S n) \/ n = 1%nat.
Proof. destruct n as [|[|n]]; [by left|by right|]. left. rewrite !fib_SS. pose proof (fib_pos n). lia. Qed.

Lemma fib_add m j : fib (m + S j) = fib m * fib j + fib (S m) * fib (S j).
Proof.
  revert m. induction j as [|j IH]; intros m.
  - rewrite Nat.add_1_r. change (fib 0) with 0. change (fib 1) with 1. lia.
  - rewrite <- Nat.add_succ_comm, IH, !fib_SS. ring.
Qed.

(** The exponent before the first: [fib (2r - 1)]. *)
Definition fib_pred (r : nat) : Z := fib (2 * r + 1) - fib (2 * r).

Lemma fib_pred_pos r : 0 <= fib_pred r.
Proof. unfold fib_pred. rewrite Nat.add_1_r. destruct (fib_mono (2 * r)); lia. Qed.

Lemma fib_round r :
  fib_pred (S r) = fib (2 * r + 1) /\ fib (2 * S r) = fib (2 * r) + fib (2 * r + 1) /\
  fib (2 * S r + 1) = fib (2 * r) + 2 * fib (2 * r + 1).
Proof.
  unfold fib_pred. replace (2 * S r)%nat with (S (S (2 * r))) by lia. rewrite !Nat.add_1_r, !fib_SS. lia.
Qed.

(** [r] times [a += b; b += a] and [r] times [a *= b; b *= a]. *)
Definition add_rounds (r : nat) (a b : Z) : Z * Z :=
  (fib_pred r * a + fib (2 * r) * b, fib (2 * r) * a + fib (2 * r + 1) * b).
Definition mul_rounds (r : nat) (a b : Z) : Z * Z :=
  (a ^ fib_pred r * b ^ fib (2 * r), a ^ fib (2 * r) * b ^ fib (2 * r + 1)).

Lemma add_rounds_S r a b : add_rounds (S r) a b =
  let '(x, y) := add_rounds r a b in (x + y, y + (x + y)).
Proof. unfold add_rounds. destruct (fib_round r) as (-> & -> & ->). unfold fib_pred. f_equal; ring. Qed.

Lemma mul_rounds_S r a b : mul_rounds (S r) a b =
  let '(x, y) := mul_rounds r a b in (x * y, y * (x * y)).
Proof.
  unfold mul_rounds. destruct (fib_round r) as (-> & -> & ->). pose proof (fib_pred_pos r) as H0.
  destruct (fib_pos (2 * r)) as [H1 H2]. rewrite <- Nat.add_1_r in H2.
  assert (fib (2 * r + 1) = fib_pred r + fib (2 * r)) as E by (unfold fib_pred; lia).
  replace (2 * fib (2 * r + 1)) with (fib (2 * r + 1) + fib (2 * r + 1)) by lia.
  rewrite !Z.pow_add_r by lia. rewrite E, !Z.pow_add_r by lia. f_equal; ring.
Qed.

(** The eight accumulators as four pairs. *)
Definition lanes (f : Z -> Z -> Z * Z) (s : list Z) : list Z :=
  match s with
  | [a1; a2; a3; a4; a5; a6; a7; a8] =>
      [(f a1 a5).1; (f a2 a6).1; (f a3 a7).1; (f a4 a8).1; (f a1 a5).2; (f a2 a6).2; (f a3 a7).2; (f a4 a8).2]
  | _ => s
  end.

Definition rounds (o : aop) : nat -> Z -> Z -> Z * Z :=
  match o with OpAdd => add_rounds | OpMul => mul_rounds end.

Lemma chain_rounds o t r s : length s = 8%nat ->
  Nat.iter r (exec id (chain o) t) s = lanes (rounds o r) s.
Proof.
  intros H. destruct (list8 s H) as (a1 & a2 & a3 & a4 & a5 & a6 & a7 & a8 & ->).
  induction r as [|r IH].
  - destruct o; cbn -[Z.mul Z.add Z.pow]; unfold fib_pred;
      change (fib 0) with 0; change (fib (2 * 0 + 1)) with 1; change (fib (2 * 0)) with 0;
      change (1 - 0) with 1; rewrite ?Z.pow_0_r, ?Z.pow_1_r; repeat f_equal; ring.
  - rewrite Nat.iter_succ, IH. destruct o; cbn [rounds lanes]; rewrite ?add_rounds_S, ?mul_rounds_S.
    + repeat match goal with |- context [add_rounds r ?a ?b] => destruct (add_rounds r a b) end. reflexivity.
    + repeat match goal with |- context [mul_rounds r ?a ?b] => destruct (mul_rounds r a b) end. reflexivity.
Qed.

(** [sum8 += tmp] and [r] rounds. *)
Lemma heavy_element o t r a1 a2 a3 a4 a5 a6 a7 a8 :
  exec id (load8 :: reps r (chain o)) t [a1; a2; a3; a4; a5; a6; a7; a8] =
  lanes (rounds o r) [a1; a2; a3; a4; a5; a6; a7; a8 + t].
Proof.
  unfold exec. cbn [fold_left]. change (fold_left (exec1 id ?t) ?b ?s) with (exec id b t s).
  rewrite exec_reps. by rewrite <- (chain_rounds o t).
Qed.

(** The elements of all passes. *)
Definition repeated (loop : Z) (xs : list Z) : list Z := concat (replicate (Z.to_nat loop) xs).

Lemma iter_pass body loop xs s :
  Nat.iter (Z.to_nat loop) (pass id body xs) s = pass id body (repeated loop xs) s.
Proof.
  unfold repeated. generalize (Z.to_nat loop). intros n. induction n as [|n IH]; [done|].
  rewrite Nat.iter_succ, IH, replicate_S_end, concat_app. cbn. rewrite app_nil_r.
  unfold pass. by rewrite fold_left_app.
Qed.

(** Every element times a weight that depends on the number of elements after it. *)
Fixpoint weighted (f : nat -> Z) (ts : list Z) : Z :=
  match ts with [] => 0 | t :: ts => f (length ts) * t + weighted f ts end.
Fixpoint powered (f : nat -> Z) (ts : list Z) : Z :=
  match ts with [] => 1 | t :: ts => t ^ f (length ts) * powered f ts end.

(** [r] rounds of additions for every element. *)
Definition add_heavy_spec (r : nat) (ts : list Z) : Z :=
  10 * fib (2 * r * length ts + 1) + 26 * fib (2 * r * length ts + 2) +
  weighted (fun n => fib (2 * r * (n + 1) + 2)) ts.

(** [r] rounds of multiplications for every element, which is added to the last pair. *)
Definition mul_heavy_spec (r : nat) (ts : list Z) : Z :=
  let pair a b := fold_left (fun p _ => mul_rounds r p.1 p.2) ts (a, b) in
  let last := fold_left (fun p t => mul_rounds r p.1 (p.2 + t)) ts (4, 8) in
  zsum (map (fun p => p.1 + p.2) [pair 1 5; pair 2 6; pair 3 7; last]).

Definition add_spec (cc : Z) (ts : list Z) : Z :=
  if cc <=? 8 then cc * (cc + 1) / 2 + cc * zsum ts
  else if cc =? 12 then 10 + 26 * (Z.of_nat (length ts) + 1) + 4 * weighted (fun n => Z.of_nat n + 3) ts
  else add_heavy_spec (Z.to_nat (cc / 8)) ts.

Definition mul_spec (cc : Z) (ts : list Z) : Z :=
  if cc <=? 8 then cc * (cc + 1) / 2 * prod_list ts
  else if cc =? 12 then
    let n := Z.of_nat (length ts) in
    (5 ^ n + 2 * 6 ^ n + 3 * 7 ^ n + 4 * 8 ^ n) * powered (fun n => Z.of_nat n + 2) ts + 26 * prod_list ts
  else mul_heavy_spec (Z.to_nat (cc / 8)) ts.

(** *** The kernels with 16 operations or more per element *)

Lemma fib_shift a r :
  fib (a + 2 * r + 1) = fib (a + 1) * fib_pred r + fib (a + 2) * fib (2 * r) /\
  fib (a + 2 * r + 2) = fib (a + 1) * fib (2 * r) + fib (a + 2) * fib (2 * r + 1).
Proof.
  unfold fib_pred. replace (a + 2)%nat with (S (S a)) by lia. rewrite !Nat.add_1_r, fib_SS. split.
  - replace (S (a + 2 * r)) with (a + S (2 * r))%nat by lia. rewrite fib_add. ring.
  - replace (a + 2 * r + 2)%nat with (S a + S (2 * r))%nat by lia. rewrite fib_add, fib_SS. ring.
Qed.

Lemma pass_cons red body t ts s : pass red body (t :: ts) s = pass red body ts (exec red body t s).
Proof. reflexivity. Qed.

Lemma pass_add_heavy r ts a1 a2 a3 a4 a5 a6 a7 a8 :
  ret_sum id (pass id (load8 :: reps r (chain OpAdd)) ts [a1; a2; a3; a4; a5; a6; a7; a8]) =
  (a1 + a2 + a3 + a4) * fib (2 * r * length ts + 1) + (a5 + a6 + a7 + a8) * fib (2 * r * length ts + 2) +
  weighted (fun n => fib (2 * r * (n + 1) + 2)) ts.
Proof.
  revert a1 a2 a3 a4 a5 a6 a7 a8. induction ts as [|t ts IH]; intros.
  - cbn [length weighted]. rewrite Nat.mul_0_r. change (fib (0 + 1)) with 1. change (fib (0 + 2)) with 1.
    cbn. unfold id. ring.
  - rewrite pass_cons, heavy_element. cbn [lanes rounds add_rounds fst snd]. rewrite IH. cbn [length weighted].
    destruct (fib_shift (2 * r * length ts) r) as [E1 E2].
    replace (2 * r * S (length ts))%nat with (2 * r * length ts + 2 * r)%nat by lia.
    replace (2 * r * (length ts + 1))%nat with (2 * r * length ts + 2 * r)%nat by lia.
    rewrite E1, E2. ring.
Qed.

Lemma pass_mul_heavy r ts a1 a2 a3 a4 a5 a6 a7 a8 :
  let pair a b := fold_left (fun p _ => mul_rounds r p.1 p.2) ts (a, b) in
  let last := fold_left (fun p t => mul_rounds r p.1 (p.2 + t)) ts (a4, a8) in
  pass id (load8 :: reps r (chain OpMul)) ts [a1; a2; a3; a4; a5; a6; a7; a8] =
  [(pair a1 a5).1; (pair a2 a6).1; (pair a3 a7).1; last.1; (pair a1 a5).2; (pair a2 a6).2; (pair a3 a7).2; last.2].
Proof.
  revert a1 a2 a3 a4 a5 a6 a7 a8. induction ts as [|t ts IH]; intros; [done|].
  rewrite pass_cons, heavy_element. cbn [lanes rounds]. rewrite IH. subst pair last. cbn [fold_left fst snd].
  by rewrite <- !surjective_pairing.
Qed.

(** *** The kernels with 12 operations per element *)

Lemma pass_add_12 ts a1 a2 a3 a4 a5 a6 a7 a8 :
  ret_sum id (pass id (each_tmp OpAdd 8 ++ half_chain OpAdd) ts [a1; a2; a3; a4; a5; a6; a7; a8]) =
  (a1 + a2 + a3 + a4) + (a5 + a6 + a7 + a8) * (Z.of_nat (length ts) + 1) +
  4 * weighted (fun n => Z.of_nat n + 3) ts.
Proof.
  revert a1 a2 a3 a4 a5 a6 a7 a8. induction ts as [|t ts IH]; intros; [cbn; unfold id; lia|].
  transitivity (ret_sum id (pass id (each_tmp OpAdd 8 ++ half_chain OpAdd) ts
    [a1 + t + (a5 + t); a2 + t + (a6 + t); a3 + t + (a7 + t); a4 + t + (a8 + t); a5 + t; a6 + t; a7 + t; a8 + t])); [done|].
  rewrite IH. cbn [length weighted]. rewrite Nat2Z.inj_succ. ring.
Qed.

Lemma pass_mul_12 ts a1 a2 a3 a4 a5 a6 a7 a8 :
  let n := Z.of_nat (length ts) in
  ret_sum id (pass id (each_tmp OpMul 8 ++ half_chain OpMul) ts [a1; a2; a3; a4; a5; a6; a7; a8]) =
  (a1 * a5 ^ n + a2 * a6 ^ n + a3 * a7 ^ n + a4 * a8 ^ n) * powered (fun n => Z.of_nat n + 2) ts +
  (a5 + a6 + a7 + a8) * prod_list ts.
Proof.
  revert a1 a2 a3 a4 a5 a6 a7 a8. induction ts as [|t ts IH]; intros.
  { subst n. cbn -[Z.mul Z.add]. unfold id. rewrite !Z.mul_1_r. ring. }
  transitivity (ret_sum id (pass id (each_tmp OpMul 8 ++ half_chain OpMul) ts
    [a1 * t * (a5 * t); a2 * t * (a6 * t); a3 * t * (a7 * t); a4 * t * (a8 * t); a5 * t; a6 * t; a7 * t; a8 * t])); [done|].
  rewrite IH. subst n. cbn [length powered]. change (prod_list (t :: ts)) with (t * prod_list ts).
  rewrite Nat2Z.inj_succ, !Z.pow_succ_r, !Z.pow_mul_l, Z.pow_add_r by lia. ring.
Qed.

(** *** Kernels of accumulators that each take the element *)

Lemma fold_ev_add ts x : fold_left (ev OpAdd) ts x = x + zsum ts.
Proof. revert x. induction ts as [|y ts IH]; intros x; cbn; [lia|]. rewrite IH. unfold zsum. cbn. lia. Qed.

Lemma fold_ev_mul ts x : fold_left (ev OpMul) ts x = x * prod_list ts.
Proof. revert x. induction ts as [|y ts IH]; intros x; cbn; [lia|]. rewrite IH. unfold prod_list. cbn. lia. Qed.

Lemma light_add init ts :
  ret_sum id (pass id (each_tmp OpAdd (length init)) ts init) = ret_sum id (map (fun x => x + zsum ts) init).
Proof. rewrite pass_each_tmp. f_equal. apply map_ext. intros x. apply fold_ev_add. Qed.

Lemma light_mul init ts :
  ret_sum id (pass id (each_tmp OpMul (length init)) ts init) = ret_sum id (map (fun x => x * prod_list ts) init).
Proof. rewrite pass_each_tmp. f_equal. apply map_ext. intros x. apply fold_ev_mul. Qed.

(** ** Every case of the two switches *)

Definition heavy (o : aop) (cc : Z) : kernel := Kernel eight (load8 :: reps (Z.to_nat (cc / 8)) (chain o)).
Definition twelve (o : aop) : kernel := Kernel eight (each_tmp o 8 ++ half_chain o).
Definition light (o : aop) (cc : Z) : kernel :=
  Kernel (map Z.of_nat (seq 1 (Z.to_nat cc))) (each_tmp o (Z.to_nat cc)).

Definition kernel_of (o : aop) (cc : Z) : kernel :=
  if cc <=? 8 then light o cc else if cc =? 12 then twelve o else heavy o cc.

Lemma case_kernel cc : cc ∈ compute_counts ->
  add_case cc = Some (kernel_of OpAdd cc) /\ mul_case cc = Some (kernel_of OpMul cc).
Proof.
  intros H. repeat (apply elem_of_cons in H as [->|H]; [split; vm_compute; reflexivity|]). by apply elem_of_nil in H.
Qed.

Lemma light_counts cc : cc ∈ compute_counts -> cc <= 8 -> cc ∈ [1; 2; 3; 4; 6; 8].
Proof.
  intros H Hc. repeat (apply elem_of_cons in H as [->|H]; [first [lia|set_solver]|]). by apply elem_of_nil in H.
Qed.

(** The kernel of a small count, its accumulators written out. *)
Ltac light_count o lemma total :=
  match goal with |- context [light o ?n] =>
    let l := eval vm_compute in (map Z.of_nat (seq 1 (Z.to_nat n))) in
    change (k_init (light o n)) with l; change (k_body (light o n)) with (each_tmp o (length l)) end;
  rewrite lemma; generalize total; intros z; cbn [ret_sum map fold_left]; unfold id;
  match goal with |- context [?a / 2] => let v := eval vm_compute in (a / 2) in change (a / 2) with v end; ring.

Lemma add_kernel_spec cc ts : cc ∈ compute_counts ->
  ret_sum id (pass id (k_body (kernel_of OpAdd cc)) ts (k_init (kernel_of OpAdd cc))) = add_spec cc ts.
Proof.
  intros H. unfold kernel_of, add_spec. destruct (Z.leb_spec cc 8) as [Hc|Hc].
  - apply light_counts in H; [|done].
    repeat (apply elem_of_cons in H as [->|H]; [light_count OpAdd light_add (zsum ts)|]).
    by apply elem_of_nil in H.
  - destruct (Z.eqb_spec cc 12).
    + cbn [twelve k_body k_init]. unfold eight. rewrite pass_add_12. ring.
    + cbn [heavy k_body k_init]. unfold eight. rewrite pass_add_heavy. unfold add_heavy_spec. ring.
Qed.

Lemma mul_kernel_spec cc ts : cc ∈ compute_counts ->
  ret_sum id (pass id (k_body (kernel_of OpMul cc)) ts (k_init (kernel_of OpMul cc))) = mul_spec cc ts.
Proof.
  intros H. unfold kernel_of, mul_spec. destruct (Z.leb_spec cc 8) as [Hc|Hc].
  - apply light_counts in H; [|done].
    repeat (apply elem_of_cons in H as [->|H]; [light_count OpMul light_mul (prod_list ts)|]).
    by apply elem_of_nil in H.
  - destruct (Z.eqb_spec cc 12).
    + cbn [twelve k_body k_init]. unfold eight. rewrite pass_mul_12. ring.
    + cbn [heavy k_body k_init]. unfold eight. rewrite pass_mul_heavy. unfold mul_heavy_spec. cbn. unfold id. ring.
Qed.

Lemma not_counted cc : cc ∉ compute_counts -> add_case cc = None /\ mul_case cc = None.
Proof.
  intros H. split.
  - destruct (add_case cc) eqn:E; [|done]. destruct H. unfold add_case in E.
    repeat case_match; simplify_eq; unfold compute_counts; set_solver.
  - destruct (mul_case cc) eqn:E; [|done]. destruct H. unfold mul_case in E.
    repeat case_match; simplify_eq; unfold compute_counts; set_solver.
Qed.

(** C26.  What the two benchmark functions return, for every compute count, number of
    elements and number of passes, as closed forms over unbounded integers reduced once to a
    [long], although the code wraps after every operation.  [ts] are the elements of all
    passes in order and [n] is their number.  With up to eight operations per element the
    additive kernel returns [1 + .. + cc] and every element [cc] times, the multiplicative
    one [1 + .. + cc] times the product of the elements; with twelve the [i]-th element
    weighs [4 (n - i + 2)] in the sum, and has the power [n - i + 1] in the product; with
    sixteen and more, where the code repeats a block of eight assignments [r = cc / 8]
    times, the weights are the Fibonacci numbers [fib (2 r (n - i) + 2)], and the products
    have Fibonacci exponents.  The multiplicative function adds one, and a compute count
    without a kernel returns the initial value. *)
Theorem roofline_closed_forms w data num_ele cc loop :
  let ts := repeated loop (elements w data (Z.to_nat num_ele)) in
  roofline_sizet_add_read w data num_ele cc loop =
    (if decide (cc ∈ compute_counts) then s64 (add_spec cc ts) else 0) /\
  roofline_sizet_mul_read w data num_ele cc loop =
    (if decide (cc ∈ compute_counts) then s64 (1 + mul_spec cc ts) else 1).
Proof.
  intros ts. destruct (decide (cc ∈ compute_counts)) as [H|H].
  - destruct (case_kernel cc H) as [Ea Em]. split.
    + rewrite (roofline_add_case _ _ _ _ _ _ Ea), run_kernel_pass, iter_pass. by rewrite add_kernel_spec.
    + rewrite (roofline_mul_case _ _ _ _ _ _ Em), run_kernel_pass, iter_pass. by rewrite mul_kernel_spec.
  - destruct (not_counted cc H) as [Ea Em]. unfold roofline_sizet_add_read, roofline_sizet_mul_read. by rewrite Ea, Em.
Qed.

(** ** The table of results *)

(** The throughput a stream reports for [cycle] cycles. *)
Definition throughput (arg : MemoryArg) (cycle : Z) : Z :=
  (loop arg *64 (size arg / 8) *64 compute_count arg *64 180000)%cint / cycle.

Lemma bench_func_slot arg tr w c tr' w' :
  bench_func arg tr w = Some (c, tr', w') ->
  tr' = <[Z.to_nat (stream_id arg) := throughput arg c]> tr /\ 0 <= stream_id arg < 256 /\ c <> 0.
Proof.
  unfold bench_func, thread_cycles.
  destruct (if mem_type arg =? HOST_MEM then _ else _) as [data w1].
  cbn [w_tick tick]. intros H.
  destruct (reads_data _ _ _ && _); [discriminate H|].
  destruct (_ =? 0) eqn:Ec in H; [discriminate H|].
  destruct ((stream_id arg <? 0) || _) eqn:Es; [discriminate H|].
  apply orb_false_iff in Es as [E1 E2]. injection H as <- <- <-.
  split; [done|]. split; [apply Z.ltb_ge in E1; apply Z.leb_gt in E2; unfold num_results in E2; lia|]. by apply Z.eqb_neq.
Qed.

(** One call of [bench_func] per stream, in any order, with the cycles returned. *)
Fixpoint run_streams (args : list MemoryArg) (tr : list Z) (w : World F)
    : option (list Z * list Z * World F) :=
  match args with
  | [] => Some ([], tr, w)
  | a :: args =>
      '(c, tr, w) ← bench_func a tr w;
      '(cs, tr, w) ← run_streams args tr w;
      Some (c :: cs, tr, w)
  end.

Lemma run_streams_slots args tr w cs tr' w' :
  run_streams args tr w = Some (cs, tr', w') -> length tr = num_results ->
  NoDup (map stream_id args) ->
  length tr' = num_results /\ length cs = length args /\
  (forall a c, (a, c) ∈ zip args cs -> 0 <= stream_id a /\ tr' !! Z.to_nat (stream_id a) = Some (throughput a c)) /\
  (forall i, Z.of_nat i ∉ map stream_id args -> tr' !! i = tr !! i).
Proof.
  revert tr w cs. induction args as [|a args IH]; intros tr w cs H Hl Hnd.
  { cbn in H. injection H as <- <- <-. split_and!; [done|done| |done].
    intros a c Hac. by apply elem_of_nil in Hac. }
  cbn [run_streams] in H. destruct (bench_func a tr w) as [[[c tr1] w1]|] eqn:Eb; [|done].
  cbn [mbind option_bind] in H.
  destruct (run_streams args tr1 w1) as [[[cs1 tr2] w2]|] eqn:Er; [|done].
  cbn [mbind option_bind] in H. injection H as <- <- <-.
  apply bench_func_slot in Eb as (-> & Hs & _). cbn [map] in Hnd. apply list.NoDup_cons in Hnd as [Hn Hnd].
  apply IH in Er as (L & Lc & Hin & Hout); [|by rewrite length_insert|done].
  split_and!; [done|cbn; by rewrite Lc| |].
  - intros a' c' Hac. cbn [zip zip_with] in Hac. apply elem_of_cons in Hac as [[= -> ->]|Hac]; [|by apply Hin].
    split; [lia|]. rewrite Hout by (rewrite Z2Nat.id; [done|lia]).
    apply list_lookup_insert_eq. rewrite Hl. unfold num_results. lia.
  - intros i Hi. cbn [map] in Hi. apply not_elem_of_cons in Hi as [H1 H2]. rewrite Hout by done.
    apply list_lookup_insert_ne. intros E. apply H1. rewrite <- E. lia.
Qed.

Lemma take_default n (l : list Z) :
  (n <= length l)%nat -> take n l = map (fun i => default 0 (l !! i)) (seq 0 n).
Proof.
  revert l. induction n as [|n IH]; intros [|x l] Hl; cbn in *; [done|done|lia|].
  f_equal. rewrite IH by lia. rewrite <- seq_shift, map_map. done.
Qed.

Lemma slots_values args cs (tr : list Z) :
  length cs = length args ->
  (forall a c, (a, c) ∈ zip args cs -> 0 <= stream_id a /\ tr !! Z.to_nat (stream_id a) = Some (throughput a c)) ->
  zip_with throughput args cs = map (fun i => default 0 (tr !! i)) (map (fun a => Z.to_nat (stream_id a)) args).
Proof.
  revert cs. induction args as [|a args IH]; intros [|c cs] Hl H; try done. cbn [zip_with map].
  f_equal.
  - destruct (H a c) as [_ ->]; [cbn; left|done].
  - apply IH; [by injection Hl|]. intros a' c' Hac. apply H. cbn. by right.
Qed.

(** The aggregate of a run: when the streams [0 .. n-1], at most 256 of
    them, have each executed [bench_func] once, in any order, [get_result] returns
    the sum, modulo [2^64], of the throughputs computed from the cycles each
    stream measured; no stream overwrites the slot of another. *)
Theorem roofline_aggregate args tr w cs tr' w' :
  length tr = num_results ->
  map stream_id args ≡ₚ map Z.of_nat (seq 0 (length args)) ->
  (length args <= num_results)%nat ->
  run_streams args tr w = Some (cs, tr', w') ->
  get_result (Z.of_nat (length args)) tr' = Some (u64 (zsum (zip_with throughput args cs))).
Proof.
  intros Hl Hp Hn Hr.
  assert (NoDup (map stream_id args)) as Hnd.
  { rewrite Hp. apply NoDup_fmap_2; [apply _|apply NoDup_seq]. }
  destruct (run_streams_slots _ _ _ _ _ _ Hr Hl Hnd) as (L & Lc & Hin & _).
  rewrite (slots_values _ _ _ Lc Hin).
  assert (map (fun a => Z.to_nat (stream_id a)) args ≡ₚ seq 0 (length args)) as Hp'.
  { rewrite <- (map_map stream_id Z.to_nat), Hp, map_map.
    rewrite (map_ext _ id), map_id; [done|]. intros i. apply Nat2Z.id. }
  rewrite (zsum_permutation _ _ (fmap_Permutation _ _ _ Hp')).
  change ((fun i => default 0 (tr' !! i)) <$> seq 0 (length args))
    with (map (fun i => default 0 (tr' !! i)) (seq 0 (length args))).
  rewrite <- take_default by lia. rewrite <- (take_drop (length args) tr') at 1.
  replace (Z.of_nat (length args)) with (Z.of_nat (length (take (length args) tr')))
    by (rewrite length_take; lia).
  apply sum_table_prefix.
Qed.

End Facts.

(** ** Witnesses *)

(** Three elements at address 4096, in device memory. *)
Definition demo_roofline_world : World ref_flexio :=
  set_mem (st64 (st64 (st64 ∅ 4096 5) 4104 7) 4112 (2 ^ 64 - 1)) empty_world.

Definition demo_roofline_arg (id cc : Z) : MemoryArg := MkMemoryArg id 0 1 PRIVATE_MEM 24 cc 2 0 4096.

(** The closed forms of a light and of a heavy kernel, evaluated. *)
Example roofline_closed_forms_example :
  roofline_sizet_add_read demo_roofline_world 4096 3 4 2 = 98 /\
  s64 (add_spec 4 (repeated 2 (elements demo_roofline_world 4096 3))) = 98 /\
  roofline_sizet_add_read demo_roofline_world 4096 3 24 1 =
    s64 (add_spec 24 (repeated 1 (elements demo_roofline_world 4096 3))) /\
  roofline_sizet_mul_read demo_roofline_world 4096 2 16 1 =
    s64 (1 + mul_spec 16 (repeated 1 (elements demo_roofline_world 4096 2))).
Proof. split_and!; vm_compute; reflexivity. Qed.

Lemma roofline_heavy_ignores_data_witness :
  roofline_sizet_mul_read demo_roofline_world 4096 3 64 2 =
  roofline_sizet_mul_read (empty_world (F := ref_flexio)) 4096 3 64 2.
Proof. apply (roofline_heavy_ignores_data demo_roofline_world empty_world 4096 4096 3 64 2). set_solver. Defined.

(** Streams 1 and 0 run in this order, 1000 cycles each. *)
Lemma roofline_aggregate_witness :
  exists cs tr' w', run_streams [demo_roofline_arg 1 8; demo_roofline_arg 0 2] (replicate 256 0) demo_roofline_world
    = Some (cs, tr', w') /\
  get_result 2 tr' = Some (u64 (zsum (zip_with throughput [demo_roofline_arg 1 8; demo_roofline_arg 0 2] cs))).
Proof.
  assert (match run_streams [demo_roofline_arg 1 8; demo_roofline_arg 0 2] (replicate 256 0)
    demo_roofline_world with Some _ => true | None => false end = true) as H by (vm_compute; reflexivity).
  destruct (run_streams [demo_roofline_arg 1 8; demo_roofline_arg 0 2] (replicate 256 0) demo_roofline_world)
    as [[[cs tr'] w']|] eqn:E; [clear H|discriminate H].
  exists cs, tr', w'. split; [reflexivity|].
  apply (roofline_aggregate [demo_roofline_arg 1 8; demo_roofline_arg 0 2] (replicate 256 0)
    demo_roofline_world cs tr' w' eq_refl).
  - apply Permutation_swap.
  - apply Nat.leb_le. reflexivity.
  - exact E.
Defined.
