(* ===== verification/BenchCache.v ===== *)
(** * BenchCache: the cache benchmarks of [flexio/bench/memory]

    Translation of [bench_cache_cross.h] and [device/bench_cache_device.c] in the
    DPA configuration ([__riscv]): the table of working-set sizes, the pointer
    chase, the timer, the statistics, and the RPCs.  The arrays [sizes], [times],
    [bws] and [cycles] are allocated by the host and are maps from index to
    value; the elements of the chase live in byte memory. *)

From S2P Require Import Prelude Machine FlexioDev WrapperDevice.

(** ** Constants and data *)

Definition LOOP_TOTAL : Z := 10000000.
Definition CACHE_MIN_BITS : Z := 8.
Definition CACHE_MAX_BITS : Z := 28.
Definition PADDING_SIZE : Z := 7.
Definition REPEAT_COUNT : Z := 2.
Definition RESOLUTION : Z := 2.
Definition NUM_BUCKET : Z := 10.
Definition CACHE_MIN : Z := Z.shiftl 1 CACHE_MIN_BITS.
Definition CACHE_MAX : Z := Z.shiftl 1 CACHE_MAX_BITS.

Definition repeat_count : Z := REPEAT_COUNT.
Definition resolution : Z := RESOLUTION.
Definition timeslots : Z := RESOLUTION * (CACHE_MAX_BITS - CACHE_MIN_BITS) + 1.

(** [struct element]: a pointer and its padding. *)
Definition sizeof_element : Z := 8 + 8 * PADDING_SIZE.

Abbreviation array := (gmap Z Z).
Definition aget (a : array) (i : Z) : Z := default 0 (a !! i).

Record MemoryArg := MkMemoryArg {
  stream_id : Z;
  window_id : Z;
  mkey : Z;
  haddr : Z;
  data : Z;
  index : Z;
}.

(** ** The timer *)

(** The globals [t1] and [t2]. *)
Record timer := MkTimer { t1 : Z; t2 : Z }.

Definition timer_elapsed (t : timer) : Z :=
  let total_cycles :=
    if t1 t <? t2 t then (t2 t -64 t1 t)%cint
    else u64 (2 ^ 32 - 1 + t2 t - t1 t) in
  s64 ((total_cycles *64 10)%cint / 18).

Section Timer.
Context {F : FlexioDev}.

Definition timer_start (t : timer) (w : World F) : timer * World F :=
  let '(c, w) := thread_cycles w in (MkTimer c (t2 t), w).
Definition timer_stop (t : timer) (w : World F) : timer * World F :=
  let '(c, w) := thread_cycles w in (MkTimer (t1 t) c, w).

End Timer.

(** ** Parsing numbers

    A string is the list of its characters, without the terminator; [*str] at
    the end of the string is zero. *)

Definition deref_str (str : list Z) : Z := match str with [] => 0 | c :: _ => c end.

Definition is_space (ch : Z) : bool :=
  (ch =? 32) || (ch =? 9) || (ch =? 10) || (ch =? 13) || (ch =? 11) || (ch =? 12).
Definition is_digit (ch : Z) : bool := (48 <=? ch) && (ch <=? 57).

(** [while (is_space( *str)) ++str;] *)
Fixpoint skip_spaces (str : list Z) : list Z :=
  match str with
  | c :: str' => if is_space c then skip_spaces str' else str
  | [] => []
  end.

(** [while (is_digit( *str)) res = 10 * res + *str++ - '0';] *)
Fixpoint digits_loop (str : list Z) (res : Z) : Z :=
  match str with
  | c :: str => if is_digit c then digits_loop str (s64 (s64 (s64 (10 * res) + c) - 48)) else res
  | [] => res
  end.

Definition atol (str : list Z) : Z :=
  if negb (truthy (deref_str str)) then 0 else
  let str := skip_spaces str in
  let c := deref_str str in
  let '(sign, str) :=
    if (c =? 45) || (c =? 43) then (1 - 2 * c_bool (c =? 45), tl str) else (1, str) in
  s64 (sign * digits_loop str 0).

(** ** Working-set sizes *)

(** [for (i = 1; i < resolution; i++)] *)
Fixpoint sizes_inner (fuel : nat) (i j : Z) (sizes : array) : array :=
  match fuel with
  | O => sizes
  | S fuel =>
      if i <? resolution then
        let sizes :=
          if j + i <? timeslots then
            let sizes := <[j + i := aget sizes j + i * Z.quot (aget sizes j) resolution]> sizes in
            <[j + i := aget sizes (j + i) - Z.rem (aget sizes (j + i)) sizeof_element]> sizes
          else sizes in
        sizes_inner fuel (i + 1) j sizes
      else sizes
  end.

(** [for (j = 0; j < timeslots; j += resolution)] *)
Fixpoint sizes_outer (fuel : nat) (j : Z) (sizes : array) : array :=
  match fuel with
  | O => sizes
  | S fuel =>
      if j <? timeslots then
        let sizes := <[j := Z.shiftl 1 (CACHE_MIN_BITS + Z.quot j resolution)]> sizes in
        sizes_outer fuel (j + resolution) (sizes_inner (Z.to_nat resolution) 1 j sizes)
      else sizes
  end.

Definition initialize_sizes (sizes : array) : array := sizes_outer (Z.to_nat timeslots) 0 sizes.

(** ** The pointer chase *)

(** [&data[i]] *)
Definition elem_addr (data i : Z) : Z := data + sizeof_element * i.

(** [for (int j = 0; j < PADDING_SIZE; j++) data[i].padding[j] = 0;] *)
Fixpoint zero_padding (n : nat) (j a : Z) (m : mem) : mem :=
  match n with
  | O => m
  | S n => zero_padding n (j + 1) a (st64 m (a + 8 + 8 * j) 0)
  end.

Definition init_elem (data num_elem i : Z) (m : mem) : mem :=
  let m := st64 m (elem_addr data i) (elem_addr data (Z.rem (i + 1) num_elem)) in
  zero_padding (Z.to_nat PADDING_SIZE) 0 (elem_addr data i) m.

Fixpoint pchase_loop (n : nat) (data num_elem i : Z) (m : mem) : mem :=
  match n with
  | O => m
  | S n => pchase_loop n data num_elem (i + 1) (init_elem data num_elem i m)
  end.

Definition init_pchase (data num_elem : Z) (m : mem) : mem :=
  pchase_loop (Z.to_nat num_elem) data num_elem 0 m.

(** [p->next] *)
Definition next (m : mem) (p : Z) : Z := ld64 m p.

(** [while (loop_num < loop_total) { p = p->next; loop_num++; }], with the number
    of iterations left and the count *)
Fixpoint chase (n : nat) (m : mem) (p loop_num : Z) : Z * Z :=
  match n with
  | O => (p, loop_num)
  | S n => chase n m (next m p) (loop_num + 1)
  end.

Section Bench.
Context {F : FlexioDev}.

Definition benchmark_cache_ronly_p (loop_total data : Z) (t : timer) (w : World F)
    : (Z * Z * Z) * timer * World F :=
  let '(t, w) := timer_start t w in
  let '(p, loop_num) := chase (Z.to_nat loop_total) (w_mem w) data 0 in
  let '(t, w) := timer_stop t w in
  (p, timer_elapsed t, loop_num, t, w).

(** [compute_stat]: [None] when a division by zero traps. *)
Definition compute_stat (timeslot : Z) (times bws : array) (count nanosec : Z)
    : option (array * array) :=
  if (count =? 0) || (nanosec =? 0) then None else
  Some (<[timeslot := Z.quot (s64 (nanosec * 100)) count]> times,
        <[timeslot := s64 (u64 (u64 (count * sizeof_element) * 1000) / u64 nanosec)]> bws).

(** The [repeat_count] measurements of one size. *)
Fixpoint repeat_bench (n : nat) (loop_total data num_elem : Z) (tcount tnanosec result : Z)
    (t : timer) (w : World F) : (Z * Z * Z) * timer * World F :=
  match n with
  | O => (tcount, tnanosec, result, t, w)
  | S n =>
      let w := set_mem (init_pchase data num_elem (w_mem w)) w in
      let '(p, nanosec, count, t, w) := benchmark_cache_ronly_p loop_total data t w in
      repeat_bench n loop_total data num_elem (s64 (tcount + count)) (s64 (tnanosec + nanosec))
        (result +64 p)%cint t w
  end.

(** [for (i = 0; i < timeslots; i++)] of [do_read_only] *)
Fixpoint read_only_loop (loop_total : Z) (n : nat) (i : Z) (sizes : array) (data : Z) (times bws : array)
    (result : Z) (t : timer) (w : World F) : option (array * array * Z * timer * World F) :=
  match n with
  | O => Some (times, bws, result, t, w)
  | S n =>
      let num_elem := Z.quot (aget sizes i) sizeof_element in
      let '(tcount, tnanosec, result, t, w) :=
        repeat_bench (Z.to_nat repeat_count) loop_total data num_elem 0 0 result t w in
      '(times, bws) ← compute_stat i times bws tcount tnanosec;
      read_only_loop loop_total n (i + 1) sizes data times bws result t w
  end.

Definition do_read_only (sizes : array) (data : Z) (times bws : array) (t : timer) (w : World F)
    : option (array * array * Z * timer * World F) :=
  read_only_loop LOOP_TOTAL (Z.to_nat timeslots) 0 sizes data times bws 0 t w.

(** The RPC [average_cache_bench] with its arrays and the timer, for
    [loop_total] hops per measurement; the value is the sum of the end pointers
    it prints. *)
Definition average_cache_bench_with (loop_total : Z) (arg : MemoryArg) (sizes times bws : array)
    (t : timer) (w : World F) : option (array * array * array * Z * timer * World F) :=
  let sizes := initialize_sizes sizes in
  let num_elem := Z.quot (aget sizes (index arg)) sizeof_element in
  let '(tcount, tnanosec, result, t, w) :=
    repeat_bench (Z.to_nat repeat_count) loop_total (data arg) num_elem 0 0 0 t w in
  '(times, bws) ← compute_stat (index arg) times bws tcount tnanosec;
  Some (sizes, times, bws, result, t, w).

Definition average_cache_bench : MemoryArg -> array -> array -> array -> timer -> World F ->
    option (array * array * array * Z * timer * World F) := average_cache_bench_with LOOP_TOTAL.

(** The loop of [single_cache_bench]: one timed hop per iteration. *)
Fixpoint single_loop (n : nat) (loop_num p : Z) (cycles : array) (w : World F)
    : array * Z * World F :=
  match n with
  | O => (cycles, p, w)
  | S n =>
      let '(t1, w) := thread_cycles w in
      let p := next (w_mem w) p in
      let '(t2, w) := thread_cycles w in
      let d := if t1 <? t2 then (t2 -64 t1)%cint else u64 (2 ^ 32 - 1 + t2 - t1) in
      single_loop n (loop_num + 1) p (<[loop_num := (aget cycles loop_num +64 d)%cint]> cycles) w
  end.

End Bench.

(** The RPC [bench_func], with the eight words it prints; [None] when the buffer
    cannot be mapped. *)
Definition bench_func {F : FlexioDev} (arg : MemoryArg) (w : World F) : option (list Z * World F) :=
  let '(host_buffer, w) := get_host_buffer (window_id arg) (mkey arg) (haddr arg) w in
  if host_buffer =? assert_failed then None else
  Some (map (fun i => ld64 (w_mem w) (via w (host_buffer + 8 * Z.of_nat i))) (seq 0 8), w).

(** ** Histogram of the cycles *)

(** The scan for the extremes, from [min = 1UL << 32] and [max = 0]. *)
Fixpoint min_max (data : list Z) (min max : Z) : Z * Z :=
  match data with
  | [] => (min, max)
  | d :: data =>
      let max := if max <? d then d else max in
      let min := if d <? min then d else min in
      min_max data min max
  end.

Definition incr (buckets : list Z) (j : nat) : list Z :=
  <[j := (default 0 (buckets !! j) +64 1)%cint]> buckets.

(** [for (size_t j = 0; j < num_buckets; j++)] for one sample *)
Fixpoint bucket_inner (n : nat) (j : nat) (min step d : Z) (buckets : list Z) : list Z :=
  match n with
  | O => buckets
  | S n =>
      let buckets :=
        if (min +64 (Z.of_nat j *64 step))%cint <=? d then
          if d <? (min +64 (Z.of_nat (j + 1) *64 step))%cint then incr buckets j else buckets
        else buckets in
      bucket_inner n (S j) min step d buckets
  end.

Fixpoint bucket_samples (num_buckets : nat) (min step : Z) (data buckets : list Z) : list Z :=
  match data with
  | [] => buckets
  | d :: data =>
      let buckets := bucket_inner num_buckets 0 min step d buckets in
      let buckets :=
        if (min +64 (step *64 Z.of_nat num_buckets))%cint <=? d then incr buckets num_buckets
        else buckets in
      bucket_samples num_buckets min step data buckets
  end.

(** The width of a bucket: [range] and [step] are [int], [num_buckets] is
    [size_t], so the division is unsigned. *)
Definition bucket_step (min max : Z) (num_buckets : nat) : Z :=
  let range := s32 (u64 (max - min + 1)) in
  s32 (u64 (u64 range - u64 range mod Z.of_nat num_buckets) / Z.of_nat num_buckets).

(** The buckets and whether "Total number mismatch!" is reported; [None] when
    there is no bucket and the remainder traps. *)
Definition bucket_cycles_count (data : list Z) (num_buckets : nat) : option (list Z * bool) :=
  let buckets := replicate (num_buckets + 1) 0 in
  let '(min, max) := min_max data (2 ^ 32) 0 in
  if Nat.eqb num_buckets 0 then None else
  let step := bucket_step min max num_buckets in
  let buckets := bucket_samples num_buckets min step data buckets in
  let sum := fold_left (fun s b => (s +64 b)%cint) buckets 0 in
  Some (buckets, negb (sum =? Z.of_nat (length data))).

Definition statistics (loop_total : Z) (cycles : array) : option (list Z * bool) :=
  bucket_cycles_count (map (fun i => aget cycles (Z.of_nat i)) (seq 0 (Z.to_nat loop_total)))
    (Z.to_nat NUM_BUCKET).

(** The RPC [single_cache_bench], for [loop_total] hops, with the end pointer it
    prints and the statistics. *)
Definition single_cache_bench_with {F : FlexioDev} (loop_total : Z) (arg : MemoryArg)
    (sizes cycles : array) (w : World F) : option (array * array * Z * (list Z * bool) * World F) :=
  let sizes := initialize_sizes sizes in
  let num_elem := Z.quot (aget sizes (index arg)) sizeof_element in
  let w := set_mem (init_pchase (data arg) num_elem (w_mem w)) w in
  let '(cycles, p, w) := single_loop (Z.to_nat loop_total) 0 (data arg) cycles w in
  st ← statistics loop_total cycles;
  Some (sizes, cycles, p, st, w).

Definition single_cache_bench {F : FlexioDev} : MemoryArg -> array -> array -> World F ->
    option (array * array * Z * (list Z * bool) * World F) := single_cache_bench_with LOOP_TOTAL.

(** ** The table of sizes *)

(** Two sizes per power of two: the power and one and a half times it. *)
Definition slot_size (i : Z) : Z := if Z.even i then 2 ^ (8 + i / 2) else 3 * 2 ^ (7 + i / 2).

Lemma sizes_inner_spec j (sizes : array) :
  0 <= j -> Z.even j = true -> sizes !! j = Some (2 ^ (8 + j / 2)) -> forall i,
  sizes_inner (Z.to_nat resolution) 1 j sizes !! i =
  if decide (i = j + 1 /\ i < timeslots) then Some (slot_size i) else sizes !! i.
Proof.
  intros Hj He Hs i. change (Z.to_nat resolution) with 2%nat. cbn [sizes_inner].
  change (1 <? resolution) with true. change (1 + 1 <? resolution) with false. cbn iota.
  destruct (Z.ltb_spec (j + 1) timeslots) as [E|E]; [|rewrite decide_False by lia; done]. unfold aget. rewrite !lookup_insert_eq, Hs. cbn [default id].
  destruct (decide (i = j + 1 /\ i < timeslots)) as [[-> _]|H];
    [|rewrite !lookup_insert_ne by lia; done].
  rewrite lookup_insert_eq. f_equal. unfold slot_size.
  rewrite Z.even_add, He. change (eqb true (Z.even 1)) with false. cbn iota.
  assert ((j + 1) / 2 = j / 2) as ->.
  { apply Z.even_spec in He as [q ->]. mlia. }
  unfold resolution, RESOLUTION, sizeof_element, PADDING_SIZE. change (8 + 8 * 7) with 64.
  assert (2 ^ (8 + j / 2) = 4 * (64 * 2 ^ (j / 2))) as ->.
  { rewrite Z.pow_add_r by (try apply Z.div_pos; lia). lia. }
  assert (3 * 2 ^ (7 + j / 2) = 6 * (64 * 2 ^ (j / 2))) as ->.
  { rewrite Z.pow_add_r by (try apply Z.div_pos; lia). lia. }
  assert (0 < 2 ^ (j / 2)) by (apply Z.pow_pos_nonneg; [lia|apply Z.div_pos; lia]).
  mlia.
Qed.

Lemma sizes_outer_spec fuel j (sizes : array) :
  0 <= j -> Z.even j = true -> timeslots - j <= 2 * Z.of_nat fuel -> forall i,
  sizes_outer fuel j sizes !! i =
  if decide (j <= i < timeslots) then Some (slot_size i) else sizes !! i.
Proof.
  revert j sizes. induction fuel as [|fuel IH]; intros j sizes Hj He Hf i.
  { rewrite decide_False by lia. done. }
  cbn [sizes_outer]. destruct (Z.ltb_spec j timeslots) as [E|E]; [|rewrite decide_False by lia; done]. 
  change (j + resolution) with (j + 2). rewrite IH; [|lia| |lia].
  2:{ by rewrite Z.even_add, He. }
  rewrite Z.shiftl_1_l. change (CACHE_MIN_BITS + Z.quot j resolution) with (8 + Z.quot j 2).
  rewrite Z.quot_div_nonneg by lia. rewrite sizes_inner_spec; [|lia|done|by rewrite lookup_insert_eq].
  destruct (decide (j + 2 <= i < timeslots)); [by rewrite decide_True by lia|].
  destruct (decide (i = j + 1 /\ i < timeslots)); [by rewrite decide_True by lia|].
  destruct (decide (i = j)) as [->|Hne].
  - rewrite lookup_insert_eq, decide_True by lia. unfold slot_size. by rewrite He.
  - rewrite lookup_insert_ne by lia. rewrite decide_False by lia. done.
Qed.

Lemma initialize_sizes_spec (sizes : array) i :
  initialize_sizes sizes !! i =
  if decide (0 <= i < timeslots) then Some (slot_size i) else sizes !! i.
Proof. apply sizes_outer_spec; [lia|done|by vm_compute]. Qed.

Lemma slot_size_cases q : slot_size (2 * q) = 2 ^ (8 + q) /\ slot_size (2 * q + 1) = 3 * 2 ^ (7 + q).
Proof.
  unfold slot_size. rewrite Z.even_add, Z.even_mul. cbn [Z.even orb eqb].
  replace (2 * q / 2) with q by mlia. by replace ((2 * q + 1) / 2) with q by mlia.
Qed.

Lemma pow2_split a q : 0 <= a -> 0 <= q -> 2 ^ (a + q) = 2 ^ a * 2 ^ q.
Proof. intros. by apply Z.pow_add_r. Qed.

Lemma slot_size_ok i :
  0 <= i -> (sizeof_element | slot_size i) /\ CACHE_MIN <= slot_size i < slot_size (i + 1).
Proof.
  intros Hi. unfold CACHE_MIN, CACHE_MIN_BITS, sizeof_element, PADDING_SIZE.
  rewrite Z.shiftl_1_l. change (8 + 8 * 7) with 64.
  destruct (Z.Even_or_Odd i) as [[q ->]|[q ->]].
  - destruct (slot_size_cases q) as [-> ->]. rewrite !pow2_split by lia.
    assert (0 < 2 ^ q) by (apply Z.pow_pos_nonneg; lia). split; [exists (4 * 2 ^ q); lia|lia].
  - destruct (slot_size_cases q) as [_ ->].
    replace (2 * q + 1 + 1) with (2 * (q + 1)) by lia. destruct (slot_size_cases (q + 1)) as [-> _].
    rewrite !pow2_split by lia.
    assert (0 < 2 ^ q) by (apply Z.pow_pos_nonneg; lia). split; [exists (6 * 2 ^ q); lia|lia].
Qed.

Lemma slot_size_mono i j : 0 <= i < j -> slot_size i < slot_size j.
Proof.
  intros [Hi Hj]. replace j with (i + 1 + Z.of_nat (Z.to_nat (j - i - 1))) by lia.
  induction (Z.to_nat (j - i - 1)) as [|n IH].
  - rewrite Z.add_0_r. by apply slot_size_ok.
  - destruct (slot_size_ok (i + 1 + Z.of_nat n)) as [_ [_ H]]; [lia|].
    replace (i + 1 + Z.of_nat (S n)) with (i + 1 + Z.of_nat n + 1) by lia. lia.
Qed.

(** The table of working-set sizes: [initialize_sizes] fills all 41 slots,
    and nothing beyond them, with strictly increasing sizes from [CACHE_MIN] to
    [CACHE_MAX], each a whole number of elements; slot [2q] is [2^(8+q)] bytes and
    slot [2q+1] half as much again. *)
Theorem initialize_sizes_table (sizes : array) :
  let t := initialize_sizes sizes in
  (forall i, 0 <= i < timeslots ->
     t !! i = Some (slot_size i) /\ (sizeof_element | slot_size i) /\ CACHE_MIN <= slot_size i <= CACHE_MAX) /\
  (forall i j, 0 <= i < j -> j < timeslots -> aget t i < aget t j) /\
  (forall i, ~ 0 <= i < timeslots -> t !! i = sizes !! i) /\
  (forall q, slot_size (2 * q) = 2 ^ (8 + q) /\ slot_size (2 * q + 1) = 3 * 2 ^ (7 + q)) /\
  aget t 0 = CACHE_MIN /\ aget t (timeslots - 1) = CACHE_MAX.
Proof.
  intros t. assert (forall i, 0 <= i < timeslots -> t !! i = Some (slot_size i)) as Ht.
  { intros i Hi. unfold t. rewrite initialize_sizes_spec. by rewrite decide_True. }
  split_and!.
  - intros i Hi. destruct (slot_size_ok i) as [Hd Hm]; [lia|]. split_and!; [by apply Ht|done|lia|].
    destruct (decide (i = timeslots - 1)) as [->|]; [by vm_compute|].
    change CACHE_MAX with (slot_size (timeslots - 1)). apply Z.lt_le_incl, slot_size_mono. lia.
  - intros i j Hij Hj. unfold aget. rewrite !Ht by lia. by apply slot_size_mono.
  - intros i Hi. unfold t. rewrite initialize_sizes_spec. by rewrite decide_False.
  - apply slot_size_cases.
  - unfold aget. rewrite Ht; [by vm_compute|by vm_compute].
  - unfold aget. rewrite Ht; [by vm_compute|by vm_compute].
Qed.

(** ** The chase *)

Section Chase.
Variables (data n : Z).
Hypotheses (Hdata : 0 <= data) (Hn : 0 < n) (Hfit : data + sizeof_element * n < 2 ^ 64).

Lemma zero_padding_out k j a m b c :
  0 <= j -> b + Z.of_nat c <= a + 8 \/ a + 8 + 8 * (j + Z.of_nat k) <= b ->
  loadle (zero_padding k j a m) b c = loadle m b c.
Proof.
  revert j m. induction k as [|k IH]; intros j m Hj H; [done|]. cbn [zero_padding].
  rewrite IH by lia. unfold st64. apply loadle_storele_out. lia.
Qed.

Lemma init_elem_out i m b c :
  b + Z.of_nat c <= elem_addr data i \/ elem_addr data i + sizeof_element <= b ->
  loadle (init_elem data n i m) b c = loadle m b c.
Proof.
  intros H. unfold init_elem. unfold sizeof_element, PADDING_SIZE in H.
  rewrite zero_padding_out by (change (Z.of_nat (Z.to_nat PADDING_SIZE)) with 7; lia).
  unfold st64. apply loadle_storele_out. lia.
Qed.

Lemma elem_addr_range i : 0 <= i < n -> 0 <= elem_addr data i /\ elem_addr data i + sizeof_element < 2 ^ 64.
Proof. unfold elem_addr, sizeof_element, PADDING_SIZE in *. nia. Qed.

Lemma init_elem_next i m :
  0 <= i < n -> next (init_elem data n i m) (elem_addr data i) = elem_addr data ((i + 1) mod n).
Proof.
  intros Hi. unfold next, ld64, init_elem. rewrite zero_padding_out by lia.
  unfold st64. rewrite loadle_storele_eq. change (256 ^ Z.of_nat 8) with (2 ^ 64).
  rewrite Z.rem_mod_nonneg by lia.
  pose proof (Z.mod_pos_bound (i + 1) n Hn). apply Z.mod_small.
  pose proof (elem_addr_range ((i + 1) mod n)). unfold sizeof_element, PADDING_SIZE in *. lia.
Qed.

Lemma pchase_loop_spec k i m :
  0 <= i -> i + Z.of_nat k <= n ->
  (forall j, i <= j < i + Z.of_nat k ->
     next (pchase_loop k data n i m) (elem_addr data j) = elem_addr data ((j + 1) mod n)) /\
  (forall b c, b + Z.of_nat c <= elem_addr data i \/ elem_addr data (i + Z.of_nat k) <= b ->
     loadle (pchase_loop k data n i m) b c = loadle m b c).
Proof.
  revert i m. induction k as [|k IH]; intros i m Hi Hk; [split; [lia|done]|]. cbn [pchase_loop].
  destruct (IH (i + 1) (init_elem data n i m)) as [Hin Hout]; [lia|lia|].
  unfold elem_addr, sizeof_element, PADDING_SIZE in *. split.
  - intros j Hj. destruct (decide (j = i)) as [->|]; [|apply Hin; lia].
    unfold next, ld64. rewrite Hout by lia. apply init_elem_next. lia.
  - intros b c H. rewrite Hout by lia. apply init_elem_out. unfold elem_addr, sizeof_element, PADDING_SIZE. lia.
Qed.

Lemma init_pchase_next m i :
  0 <= i < n -> next (init_pchase data n m) (elem_addr data i) = elem_addr data ((i + 1) mod n).
Proof. intros Hi. apply (pchase_loop_spec (Z.to_nat n) 0 m); lia. Qed.

Lemma init_pchase_out m b c :
  b + Z.of_nat c <= data \/ data + sizeof_element * n <= b ->
  loadle (init_pchase data n m) b c = loadle m b c.
Proof.
  intros H. apply (pchase_loop_spec (Z.to_nat n) 0 m); [lia|lia|].
  unfold elem_addr, sizeof_element, PADDING_SIZE in *. lia.
Qed.

Lemma chase_cycle (m : mem) k i c :
  (forall j, 0 <= j < n -> next m (elem_addr data j) = elem_addr data ((j + 1) mod n)) ->
  0 <= i < n -> chase k m (elem_addr data i) c = (elem_addr data ((i + Z.of_nat k) mod n), c + Z.of_nat k).
Proof.
  intros Hm. revert i c. induction k as [|k IH]; intros i c Hi.
  { cbn [chase]. rewrite Z.add_0_r, Z.mod_small by lia. f_equal. lia. }
  cbn [chase]. rewrite Hm by done. rewrite IH by (by apply Z.mod_pos_bound).
  rewrite Zplus_mod_idemp_l. f_equal; [|lia]. do 2 f_equal. lia.
Qed.

Lemma chase_init (m : mem) k :
  chase k (init_pchase data n m) data 0 = (elem_addr data (Z.of_nat k mod n), Z.of_nat k).
Proof.
  replace data with (elem_addr data 0) at 2 by (unfold elem_addr; lia).
  rewrite chase_cycle; [by rewrite !Z.add_0_l|intros; by apply init_pchase_next|lia].
Qed.

Lemma elem_addr_inj i j : elem_addr data i = elem_addr data j -> i = j.
Proof. unfold elem_addr, sizeof_element, PADDING_SIZE. lia. Qed.

(** The chase is one cycle through all elements: after [init_pchase], the
    [k]-th hop from the start reaches element [k mod n]; the [n] elements passed
    in [n] successive hops are pairwise different; memory outside the elements is
    unchanged. *)
Theorem init_pchase_cycle (m : mem) :
  let m' := init_pchase data n m in
  (forall k, chase k m' data 0 = (elem_addr data (Z.of_nat k mod n), Z.of_nat k)) /\
  (forall k, NoDup (map (fun i => fst (chase (k + i) m' data 0)) (seq 0 (Z.to_nat n)))) /\
  (forall b c, b + Z.of_nat c <= data \/ data + sizeof_element * n <= b -> loadle m' b c = loadle m b c).
Proof.
  intros m'. split_and!; [intros k; apply chase_init| |apply init_pchase_out].
  intros k. rewrite (map_ext _ (fun i => elem_addr data (Z.of_nat (k + i) mod n)))
    by (intros i; unfold m'; by rewrite chase_init).
  apply NoDup_alt. intros i j x Hi Hj.
  apply list_lookup_fmap_Some in Hi as (i' & Ei & Hi). apply list_lookup_fmap_Some in Hj as (j' & Ej & Hj).
  apply lookup_seq in Hi as [-> Hi]. apply lookup_seq in Hj as [-> Hj].
  rewrite Ei in Ej. apply elem_addr_inj in Ej. cbn [Nat.add] in Ej.
  assert ((Z.of_nat (k + i) - Z.of_nat (k + j)) mod n = 0) as Hd.
  { rewrite Zminus_mod, Ej, Z.sub_diag. by apply Z.mod_0_l; lia. }
  apply Z.mod_divide in Hd; [|lia]. destruct Hd as [q Hq].
  assert (q = 0) by nia. lia.
Qed.

End Chase.

(** ** A measurement *)

Section Measure.
Context {F : FlexioDev}.

(** The nanoseconds the [k]-th measurement of a run computes. *)
Definition measured (w : World F) (k : nat) : Z :=
  timer_elapsed (MkTimer (cycles_at (2 * k + w_tick w)) (cycles_at (S (2 * k + w_tick w)))).

Lemma repeat_bench_two loop_total data n r t (w : World F) :
  0 <= data -> 0 < n -> data + sizeof_element * n < 2 ^ 64 -> 0 <= loop_total < 2 ^ 62 ->
  exists t' w', repeat_bench 2 loop_total data n 0 0 r t w =
    (2 * loop_total, s64 (s64 (measured w 0) + measured w 1),
     u64 (r + 2 * elem_addr data (loop_total mod n)), t', w').
Proof.
  intros Hd Hn Hf Hl. cbn [repeat_bench]. unfold benchmark_cache_ronly_p, timer_start, timer_stop, thread_cycles.
  cbn [w_mem set_mem tick]. rewrite chase_init by done. cbn [w_mem set_mem tick w_tick]. rewrite chase_init by done.
  rewrite Z2Nat.id by lia. rewrite !Z.add_0_l, (wraps_small 64 loop_total), (wraps_small 64 (_ + _)) by lia.
  rewrite wrapu_add_l. set (e := elem_addr _ _).
  replace (loop_total + loop_total) with (2 * loop_total) by lia.
  replace (r + e + e) with (r + 2 * e) by lia. do 2 eexists. reflexivity.
Qed.

Lemma average_measures loop_total arg (sizes times bws : array) t (w : World F) :
  0 < loop_total < 2 ^ 62 -> 0 <= index arg < timeslots ->
  0 <= data arg -> data arg + slot_size (index arg) < 2 ^ 64 ->
  let n := slot_size (index arg) / sizeof_element in
  let ns := s64 (s64 (measured w 0) + measured w 1) in
  ns <> 0 ->
  exists t' w', average_cache_bench_with loop_total arg sizes times bws t w =
    Some (initialize_sizes sizes,
          <[index arg := Z.quot (s64 (ns * 100)) (2 * loop_total)]> times,
          <[index arg := s64 (u64 (u64 (2 * loop_total * sizeof_element) * 1000) / u64 ns)]> bws,
          u64 (2 * elem_addr (data arg) (loop_total mod n)), t', w').
Proof.
  intros Hl Hi Hd Hf n ns Hns. unfold average_cache_bench_with.
  assert (aget (initialize_sizes sizes) (index arg) = slot_size (index arg)) as ->.
  { unfold aget. rewrite initialize_sizes_spec. by rewrite decide_True. }
  destruct (slot_size_ok (index arg)) as [[q Hq] [Hm _]]; [lia|].
  change CACHE_MIN with 256 in Hm. rewrite Z.quot_div_nonneg by (try done; lia). fold n.
  change (Z.to_nat repeat_count) with 2%nat.
  assert (sizeof_element * n = slot_size (index arg)) as Hsz.
  { unfold n. rewrite Hq, Z.div_mul by done. lia. }
  assert (0 < n).
  { unfold sizeof_element, PADDING_SIZE in *. lia. }
  destruct (repeat_bench_two loop_total (data arg) n 0 t w) as (t' & w' & ->); [done|done|lia|lia|].
  fold ns. unfold compute_stat. rewrite (proj2 (Z.eqb_neq (2 * loop_total) 0)) by lia.
  rewrite (proj2 (Z.eqb_neq ns 0)) by done. cbn [orb mbind option_bind].
  do 2 eexists. by rewrite Z.add_0_l.
Qed.

(** One measurement: for every slot of the table, [average_cache_bench]
    chases twice [LOOP_TOTAL] hops over exactly the elements of the slot's working
    set, so that the sum of the end pointers it prints is twice the address of
    element [LOOP_TOTAL mod n], and stores in the slot the time per hop, in
    hundredths of a nanosecond, and the bandwidth of the two measured intervals. *)
Theorem average_cache_bench_result arg (sizes times bws : array) t (w : World F) :
  0 <= index arg < timeslots ->
  0 <= data arg -> data arg + slot_size (index arg) < 2 ^ 64 ->
  let n := slot_size (index arg) / sizeof_element in
  let ns := s64 (s64 (measured w 0) + measured w 1) in
  ns <> 0 ->
  exists t' w', average_cache_bench arg sizes times bws t w =
    Some (initialize_sizes sizes,
          <[index arg := Z.quot (s64 (ns * 100)) (2 * LOOP_TOTAL)]> times,
          <[index arg := s64 (u64 (u64 (2 * LOOP_TOTAL * sizeof_element) * 1000) / u64 ns)]> bws,
          u64 (2 * elem_addr (data arg) (LOOP_TOTAL mod n)), t', w').
Proof. unfold average_cache_bench. apply average_measures. unfold LOOP_TOTAL. lia. Qed.

End Measure.

(** ** Decimal numbers *)

Definition decimal (ds : list Z) : Z := fold_left (fun a d => 10 * a + d) ds 0.

Lemma decimal_mono ds a : 0 <= a -> Forall (fun d => 0 <= d <= 9) ds ->
  a <= fold_left (fun a d => 10 * a + d) ds a.
Proof.
  revert a. induction ds as [|d ds IH]; intros a Ha H; [done|].
  apply list.Forall_cons in H as [Hd H]. cbn. specialize (IH (10 * a + d) ltac:(lia) H). lia.
Qed.

Lemma digits_loop_spec ds rest a :
  Forall (fun d => 0 <= d <= 9) ds -> is_digit (deref_str rest) = false -> 0 <= a ->
  fold_left (fun a d => 10 * a + d) ds a < 2 ^ 63 - 48 ->
  digits_loop (map (Z.add 48) ds ++ rest) a = fold_left (fun a d => 10 * a + d) ds a.
Proof.
  revert a. induction ds as [|d ds IH]; intros a Hds Hr Ha Hb.
  { cbn [map app fold_left]. destruct rest as [|c rest]; [done|]. cbn in *. by rewrite Hr. }
  apply list.Forall_cons in Hds as [Hd Hds]. cbn [map app digits_loop fold_left] in *.
  pose proof (decimal_mono ds (10 * a + d) ltac:(lia) Hds).
  assert (is_digit (48 + d) = true) as ->.
  { unfold is_digit. apply andb_true_iff. split; apply Z.leb_le; lia. }
  rewrite (wraps_small 64 (10 * a)), (wraps_small 64 (10 * a + _)), (wraps_small 64 (_ - 48)) by lia.
  replace (10 * a + (48 + d) - 48) with (10 * a + d) by lia. apply IH; try done; lia.
Qed.

Lemma skip_spaces_spec ws str :
  Forall (fun c => is_space c = true) ws -> is_space (deref_str str) = false ->
  skip_spaces (ws ++ str) = str.
Proof.
  intros Hw Hs. induction Hw as [|c ws Hc Hw IH]; cbn.
  - destruct str as [|c str]; [done|]. cbn in *. by rewrite Hs.
  - by rewrite Hc.
Qed.

Lemma skip_none str : is_space (deref_str str) = false -> skip_spaces str = str.
Proof. by apply (skip_spaces_spec [] str (Forall_nil _)). Qed.

Lemma atol_skip ws str :
  Forall (fun c => is_space c = true) ws -> is_space (deref_str str) = false -> deref_str str <> 0 ->
  atol (ws ++ str) = atol str.
Proof.
  intros Hw Hs H0. unfold atol. rewrite skip_spaces_spec by done.
  rewrite (skip_none str) by done.
  assert (forall s, deref_str s <> 0 -> negb (truthy (deref_str s)) = false) as Ht.
  { intros s H. unfold truthy. rewrite negb_involutive. by apply Z.eqb_neq. }
  by rewrite !Ht by (done || (destruct Hw as [|c ws Hc Hw]; [done|]; cbn; by intros ->)).
Qed.

(** [atol] reads decimal numbers: white space, an optional sign and at
    least one digit give the signed value of the digits, whatever follows the
    number, as long as it is in range. *)
Theorem atol_decimal ws sgn ds rest :
  Forall (fun c => is_space c = true) ws -> sgn ∈ [[]; [43]; [45]] ->
  Forall (fun d => 0 <= d <= 9) ds -> ds <> [] -> is_digit (deref_str rest) = false ->
  decimal ds < 2 ^ 63 - 48 ->
  atol (ws ++ sgn ++ map (Z.add 48) ds ++ rest) = (if decide (sgn = [45]) then -1 else 1) * decimal ds.
Proof.
  intros Hw Hsg Hds Hne Hr Hb. destruct ds as [|d ds]; [done|].
  pose proof (decimal_mono (d :: ds) 0 ltac:(lia) Hds) as Hpos. fold (decimal (d :: ds)) in Hpos.
  pose proof (digits_loop_spec (d :: ds) rest 0 Hds Hr ltac:(lia) Hb) as Hdig. fold (decimal (d :: ds)) in Hdig.
  apply list.Forall_cons in Hds as [Hd _].
  set (num := map (Z.add 48) (d :: ds) ++ rest) in *.
  assert (deref_str num = 48 + d) as Hnum by done.
  clearbody num. generalize dependent (decimal (d :: ds)). intros v Hb Hpos Hdig.
  assert (forall c, 48 <= c -> is_space c = false) as Hsp.
  { intros c Hc. unfold is_space. rewrite !orb_false_iff. split_and!; apply Z.eqb_neq; lia. }
  repeat (apply elem_of_cons in Hsg as [->|Hsg]); [..|by apply elem_of_nil in Hsg]; cbn [app].
  - rewrite atol_skip by (first [done | rewrite Hnum; apply Hsp; lia | rewrite Hnum; lia]). unfold atol.
    rewrite (skip_none num) by (rewrite Hnum; apply Hsp; lia).
    unfold truthy. rewrite Hnum, !(proj2 (Z.eqb_neq (48 + d) _)) by lia. cbn [negb orb].
    rewrite Hdig, decide_False by done. apply (wraps_small 64); lia.
  - rewrite atol_skip by done. unfold atol. cbn -[digits_loop wraps Z.mul].
    rewrite Hdig, decide_False by done. apply (wraps_small 64); lia.
  - rewrite atol_skip by done. unfold atol. cbn -[digits_loop wraps Z.mul].
    rewrite Hdig, decide_True by done. apply (wraps_small 64); lia.
Qed.

(** ** The histogram *)

Lemma min_max_spec data mn mx :
  let '(a, b) := min_max data mn mx in
  a <= mn /\ mx <= b /\ (forall d, d ∈ data -> a <= d <= b) /\
  (a = mn \/ a ∈ data) /\ (b = mx \/ b ∈ data).
Proof.
  revert mn mx. induction data as [|d data IH]; intros mn mx; cbn [min_max].
  { split_and!; try lia; auto. intros d Hd. by apply elem_of_nil in Hd. }
  specialize (IH (if d <? mn then d else mn) (if mx <? d then d else mx)).
  destruct (min_max data _ _) as [a b]. destruct IH as (Ha & Hb & Hin & Ca & Cb).
  destruct (Z.ltb_spec d mn), (Z.ltb_spec mx d); split_and!; try lia;
    try (intros x [->|Hx]%elem_of_cons; [lia|by apply Hin]);
    first [destruct Ca as [->|Ca]|destruct Cb as [->|Cb]]; rewrite ?elem_of_cons; tauto.
Qed.

(** The bucket of a sample: the last one takes everything beyond the others. *)
Definition bucket_of (min step : Z) (num_buckets : nat) (d : Z) : nat :=
  if decide (step = 0) then num_buckets
  else Nat.min num_buckets (Z.to_nat ((d - min) / step)).

Lemma bucket_of_iff min step nb d j :
  min <= d -> 0 <= step -> (j < nb)%nat ->
  bucket_of min step nb d = j <-> min + Z.of_nat j * step <= d < min + Z.of_nat (j + 1) * step.
Proof.
  intros Hm Hs Hj. unfold bucket_of. case_decide as E; [subst; lia|].
  pose proof (Z.div_mod (d - min) step E). pose proof (Z.mod_pos_bound (d - min) step ltac:(lia)).
  pose proof (Z.div_pos (d - min) step ltac:(lia) ltac:(lia)).
  set (q := (d - min) / step) in *. split; intros HH; [assert (q = Z.of_nat j) by lia; nia|].
  assert (q = Z.of_nat j) by nia. lia.
Qed.

Lemma bucket_of_last min step nb d :
  min <= d -> 0 <= step -> bucket_of min step nb d = nb <-> min + step * Z.of_nat nb <= d.
Proof.
  intros Hm Hs. unfold bucket_of. case_decide as E; [subst; lia|].
  pose proof (Z.div_mod (d - min) step E). pose proof (Z.mod_pos_bound (d - min) step ltac:(lia)).
  pose proof (Z.div_pos (d - min) step ltac:(lia) ltac:(lia)).
  set (q := (d - min) / step) in *. split; intros HH; [assert (Z.of_nat nb <= q) by lia; nia|].
  assert (Z.of_nat nb <= q) by nia. lia.
Qed.

Lemma bucket_of_le min step nb d : (bucket_of min step nb d <= nb)%nat.
Proof. unfold bucket_of. case_decide; lia. Qed.

Section Buckets.
Variables (min step : Z) (nb : nat).
Hypotheses (Hmin : 0 <= min) (Hstep : 0 <= step) (Hfit : min + step * Z.of_nat nb < 2 ^ 64).

Lemma bucket_bound j : (j <= nb)%nat -> (min +64 (Z.of_nat j *64 step))%cint = min + Z.of_nat j * step.
Proof. intros Hj. rewrite wrapu_add_r. apply wrapu_small. nia. Qed.

Lemma bucket_inner_spec n j d buckets :
  min <= d -> (j + n = nb)%nat ->
  bucket_inner n j min step d buckets =
  if decide (j <= bucket_of min step nb d < j + n)%nat then incr buckets (bucket_of min step nb d) else buckets.
Proof.
  intros Hd. revert j buckets. induction n as [|n IH]; intros j buckets Hj.
  { rewrite decide_False by lia. done. }
  cbn [bucket_inner]. rewrite !bucket_bound, IH by lia.
  pose proof (bucket_of_iff min step nb d j Hd Hstep ltac:(lia)) as Hiff.
  destruct (Z.leb_spec (min + Z.of_nat j * step) d), (Z.ltb_spec d (min + Z.of_nat (j + 1) * step));
    destruct (decide (S j <= bucket_of min step nb d < S j + n)%nat);
    destruct (decide (j <= bucket_of min step nb d < j + S n)%nat); try lia; try done;
    assert (bucket_of min step nb d = j) as -> by lia; done || lia.
Qed.

Lemma bucket_samples_fold data buckets :
  Forall (fun d => min <= d) data ->
  bucket_samples nb min step data buckets =
  fold_left (fun b d => incr b (bucket_of min step nb d)) data buckets.
Proof.
  intros Hd. revert buckets. induction Hd as [|d data Hd _ IH]; intros buckets; [done|].
  cbn [bucket_samples fold_left]. rewrite IH, bucket_inner_spec by (done || lia). f_equal.
  pose proof (bucket_of_le min step nb d). pose proof (bucket_of_last min step nb d Hd Hstep) as Hl.
  rewrite Z.mul_comm, bucket_bound, Z.mul_comm by lia.
  destruct (Z.leb_spec (min + step * Z.of_nat nb) d).
  - rewrite decide_False by lia. by rewrite (proj2 Hl).
  - rewrite decide_True by lia. done.
Qed.

End Buckets.

Lemma length_fold_incr (f : Z -> nat) data buckets :
  length (fold_left (fun b d => incr b (f d)) data buckets) = length buckets.
Proof.
  revert buckets. induction data as [|d data IH]; intros buckets; [done|].
  cbn. rewrite IH. apply length_insert.
Qed.

(** Every bucket counts its samples. *)
Lemma fold_incr_lookup (f : Z -> nat) data buckets i v :
  buckets !! i = Some (u64 v) ->
  fold_left (fun b d => incr b (f d)) data buckets !! i
    = Some (u64 (v + Z.of_nat (length (filter (fun d => f d = i) data)))).
Proof.
  revert buckets v. induction data as [|d data IH]; intros buckets v Hv; cbn [fold_left].
  { cbn. by rewrite Z.add_0_r. }
  rewrite filter_cons. destruct (decide (f d = i)) as [<-|Hne].
  - rewrite (IH _ (v + 1)).
    + cbn [length]. do 2 f_equal. lia.
    + unfold incr. rewrite Hv. cbn [default id]. rewrite wrapu_add_l.
      apply list_lookup_insert_eq. by apply lookup_lt_Some in Hv.
  - apply IH. unfold incr. by rewrite list_lookup_insert_ne.
Qed.

(** Every sample raises the total by one. *)
Lemma fold_incr_total (f : Z -> nat) data buckets :
  (forall d, (f d < length buckets)%nat) ->
  u64 (zsum (fold_left (fun b d => incr b (f d)) data buckets))
    = u64 (zsum buckets + Z.of_nat (length data)).
Proof.
  revert buckets. induction data as [|d data IH]; intros buckets Hf; cbn [fold_left length].
  { cbn. by rewrite Z.add_0_r. }
  rewrite IH by (intros x; unfold incr; by rewrite length_insert). unfold incr.
  destruct (lookup_lt_is_Some_2 buckets (f d) (Hf d)) as [x Hx]. rewrite Hx. cbn [default id].
  rewrite (zsum_insert _ _ _ _ Hx). rewrite <- (wrapu_add_l 64 (zsum buckets - x + _)), wrapu_add_r, wrapu_add_l.
  f_equal. lia.
Qed.

Lemma fold_sum_u64 l a : fold_left (fun s b => (s +64 b)%cint) l (u64 a) = u64 (a + zsum l).
Proof.
  revert a. induction l as [|x l IH]; intros a; cbn [fold_left]; [cbn; by rewrite Z.add_0_r|].
  rewrite wrapu_add_l, IH. cbn. f_equal. unfold zsum. lia.
Qed.

Lemma fold_sum_0 l : fold_left (fun s b => (s +64 b)%cint) l 0 = u64 (zsum l).
Proof. exact (fold_sum_u64 l 0). Qed.

Lemma bucket_step_spec mn mx nb :
  0 <= mx - mn < 2 ^ 31 - 1 -> (0 < nb)%nat -> bucket_step mn mx nb = (mx - mn + 1) / Z.of_nat nb.
Proof.
  intros Hr Hnb. unfold bucket_step. set (r := mx - mn + 1).
  rewrite (wrapu_small 64 r), (wraps_small 32 r), (wrapu_small 64 r) by lia.
  pose proof (Z.mod_pos_bound r (Z.of_nat nb) ltac:(lia)).
  pose proof (Z.div_mod r (Z.of_nat nb) ltac:(lia)) as Hdm.
  pose proof (Z.div_le_upper_bound r (Z.of_nat nb) r ltac:(lia) ltac:(nia)).
  pose proof (Z.div_pos r (Z.of_nat nb) ltac:(lia) ltac:(lia)).
  replace (r - r mod Z.of_nat nb) with (r / Z.of_nat nb * Z.of_nat nb) by lia.
  rewrite wrapu_small by lia. rewrite Z.div_mul by lia. apply (wraps_small 32); lia.
Qed.

Lemma filter_ext_in {A} (P Q : A -> Prop) `{forall x, Decision (P x)} `{forall x, Decision (Q x)} (l : list A) :
  (forall x, x ∈ l -> P x <-> Q x) -> filter P l = filter Q l.
Proof.
  induction l as [|x l IH]; intros H1; [done|]. rewrite !filter_cons.
  rewrite IH by (intros y Hy; apply H1; by right). pose proof (H1 x ltac:(left)).
  destruct (decide (P x)), (decide (Q x)); tauto || done.
Qed.

Lemma empty_histogram nb :
  (0 < nb)%nat ->
  exists min step buckets,
    bucket_cycles_count [] nb = Some (buckets, false) /\ length buckets = (nb + 1)%nat /\
    (forall d, d ∈ [] -> min <= d) /\
    (forall j, (j < nb)%nat -> buckets !! j = Some (Z.of_nat (length
       (filter (fun d => min + Z.of_nat j * step <= d < min + Z.of_nat (j + 1) * step) ([] : list Z))))) /\
    buckets !! nb = Some (Z.of_nat (length (filter (fun d => min + step * Z.of_nat nb <= d) ([] : list Z)))).
Proof.
  intros Hnb. exists 0, 0, (replicate (nb + 1) 0). split_and!.
  - unfold bucket_cycles_count. cbn [min_max]. rewrite (proj2 (Nat.eqb_neq nb 0)) by lia.
    cbn [bucket_samples length]. do 2 f_equal. 
    rewrite fold_sum_0, zsum_replicate, Z.mul_0_r. done.
  - apply length_replicate.
  - intros d Hd. by apply elem_of_nil in Hd.
  - intros j Hj. apply lookup_replicate. split; [done|lia].
  - apply lookup_replicate. split; [done|lia].
Qed.

(** The histogram loses no sample: when the samples are 32-bit cycle counts
    that differ by less than [2^31 - 1], the buckets are disjoint and cover them
    all, each bucket holds the number of samples of its interval (the last one of
    those beyond all the others), and the total matches, so that the mismatch
    message is never printed. *)
Theorem bucket_cycles_count_partition data nb :
  (0 < nb)%nat -> Forall (fun d => 0 <= d < 2 ^ 32) data ->
  (forall d d', d ∈ data -> d' ∈ data -> d - d' < 2 ^ 31 - 1) ->
  Z.of_nat (length data) < 2 ^ 64 ->
  exists min step buckets,
    bucket_cycles_count data nb = Some (buckets, false) /\ length buckets = (nb + 1)%nat /\
    (forall d, d ∈ data -> min <= d) /\
    (forall j, (j < nb)%nat -> buckets !! j = Some (Z.of_nat (length
       (filter (fun d => min + Z.of_nat j * step <= d < min + Z.of_nat (j + 1) * step) data)))) /\
    buckets !! nb = Some (Z.of_nat (length (filter (fun d => min + step * Z.of_nat nb <= d) data))).
Proof.
  intros Hnb Hd Hsp Hlen. destruct data as [|x data'] eqn:Ed; [by apply empty_histogram|].
  rewrite <- Ed in *. assert (x ∈ data) as Hx by (subst; left). clear Ed data'.
  unfold bucket_cycles_count. pose proof (min_max_spec data (2 ^ 32) 0) as Hmm.
  destruct (min_max data (2 ^ 32) 0) as [mn mx]. destruct Hmm as (H1 & H2 & Hin & Cmn & Cmx).
  rewrite (proj2 (Nat.eqb_neq nb 0)) by lia. rewrite list.Forall_forall in Hd.
  pose proof (Hd x Hx). pose proof (Hin x Hx).
  assert (0 <= mn < 2 ^ 32 /\ 0 <= mx - mn < 2 ^ 31 - 1) as [Hmn Hr].
  { assert (mn ∈ data) as Hmn by (destruct Cmn as [->|]; [lia|done]).
    destruct Cmx as [->|Hmx]; [pose proof (Hd mn Hmn); lia|].
    pose proof (Hd mn Hmn). pose proof (Hsp mx mn Hmx Hmn). lia. }
  rewrite (bucket_step_spec mn mx nb Hr Hnb). set (step := (mx - mn + 1) / Z.of_nat nb).
  assert (0 <= step /\ mn + step * Z.of_nat nb < 2 ^ 64) as [Hst Hfit].
  { pose proof (Z.div_pos (mx - mn + 1) (Z.of_nat nb) ltac:(lia) ltac:(lia)).
    pose proof (Z.mul_div_le (mx - mn + 1) (Z.of_nat nb) ltac:(lia)). unfold step. lia. }
  assert (Forall (fun d => mn <= d) data) as Hall by (apply list.Forall_forall; intros d Hd'; apply Hin, Hd').
  rewrite (bucket_samples_fold mn step nb) by (done || lia). set (f := bucket_of mn step nb).
  set (b0 := replicate (nb + 1) 0). set (b := fold_left _ data b0).
  assert (forall i, (i <= nb)%nat -> b !! i = Some (Z.of_nat (length (filter (fun d => f d = i) data)))) as Hb.
  { intros i Hi. unfold b. rewrite (fold_incr_lookup f data b0 i 0).
    - rewrite Z.add_0_l, wrapu_small; [done|]. pose proof (length_filter (fun d => f d = i) data). lia.
    - apply lookup_replicate. split; [done|lia]. }
  exists mn, step, b. split_and!.
  - do 2 f_equal. rewrite fold_sum_0. unfold b.
    rewrite fold_incr_total.
    + unfold b0. rewrite zsum_replicate, Z.mul_0_r, Z.add_0_l, wrapu_small by lia. by rewrite Z.eqb_refl.
    + intros d. unfold b0. rewrite length_replicate. pose proof (bucket_of_le mn step nb d). unfold f. lia.
  - unfold b. rewrite length_fold_incr. apply length_replicate.
  - intros d Hd'. by apply Hin.
  - intros j Hj. rewrite Hb by lia. do 3 f_equal. apply filter_ext_in. intros d Hd'.
    apply bucket_of_iff; [by apply Hin|lia|done].
  - rewrite Hb by lia. do 3 f_equal. apply filter_ext_in. intros d Hd'. apply bucket_of_last; [by apply Hin|lia].
Qed.

(** ** Witnesses *)

Lemma init_pchase_cycle_witness :
  chase 10 (init_pchase 4096 4 ∅) 4096 0 = (elem_addr 4096 (10 mod 4), 10) /\
  chase 10 (init_pchase 4096 4 ∅) 4096 0 = (4224, 10).
Proof.
  split; [|vm_compute; reflexivity].
  apply (init_pchase_cycle 4096 4 ltac:(lia) ltac:(lia) ltac:(by vm_compute) ∅).
Defined.

Definition demo_cache_arg : MemoryArg := MkMemoryArg 0 0 0 0 65536 5.

Lemma average_cache_bench_result_witness :
  exists t' w', average_cache_bench demo_cache_arg ∅ ∅ ∅ (MkTimer 0 0) (empty_world (F := ref_flexio)) =
    Some (initialize_sizes ∅,
          <[5 := Z.quot (s64 (1110 * 100)) (2 * LOOP_TOTAL)]> ∅,
          <[5 := s64 (u64 (u64 (2 * LOOP_TOTAL * sizeof_element) * 1000) / u64 1110)]> ∅,
          u64 (2 * elem_addr 65536 (LOOP_TOTAL mod (slot_size 5 / sizeof_element))), t', w').
Proof.
  apply (average_cache_bench_result demo_cache_arg ∅ ∅ ∅ (MkTimer 0 0) (empty_world (F := ref_flexio))).
  - by vm_compute.
  - by vm_compute.
  - by vm_compute.
  - by vm_compute.
Defined.

(** Two blanks, a sign, "-4096", a letter. *)
Lemma atol_decimal_witness : atol [32; 9; 45; 52; 48; 57; 54; 75] = -4096.
Proof.
  apply (atol_decimal [32; 9] [45] [4; 0; 9; 6] [75]); try done.
  - repeat constructor.
  - set_solver.
  - repeat constructor; by vm_compute.
Defined.

Lemma bucket_cycles_count_partition_witness :
  exists min step buckets,
    bucket_cycles_count [30; 45; 31; 77; 30; 58] 4 = Some (buckets, false) /\ length buckets = 5%nat /\
    (forall d, d ∈ [30; 45; 31; 77; 30; 58] -> min <= d) /\
    (forall j, (j < 4)%nat -> buckets !! j = Some (Z.of_nat (length
       (filter (fun d => min + Z.of_nat j * step <= d < min + Z.of_nat (j + 1) * step) [30; 45; 31; 77; 30; 58])))) /\
    buckets !! 4%nat = Some (Z.of_nat (length (filter (fun d => min + step * 4 <= d) [30; 45; 31; 77; 30; 58]))).
Proof.
  apply (bucket_cycles_count_partition [30; 45; 31; 77; 30; 58] 4).
  - lia.
  - repeat constructor; lia.
  - intros d d' Hd Hd'. rewrite !elem_of_cons, elem_of_nil in Hd, Hd'. lia.
  - by vm_compute.
Defined.
