(* ===== verification/MemoryBench.v ===== *)
(** * MemoryBench: the strided memory benchmarks

    Translation of [flexio/bench/mt_memory/device/mt_memory_device.c] (module
    [Mt]) and of [flexio/bench/memory/device/bench_memory_device.c] (module
    [Single]), both compiled with [EXPAND_SIZE == 1].  A loop over the words of a
    buffer advances by the stride given by the host, so it is run with fuel, and
    [None] also stands for a loop that does not end within it (a stride of zero
    never ends).  Words are reached through the thread's window ([via]). *)

From S2P Require Import Prelude Machine FlexioDev WrapperDevice.

Section Words.
Context {F : FlexioDev}.

(** [data[i]] and [data[i] = v] for an array of 64-bit words *)
Definition get_word (data i : Z) (w : World F) : Z := ld64 (w_mem w) (via w (data + 8 * i)).
Definition set_word (data i v : Z) (w : World F) : World F :=
  set_mem (st64 (w_mem w) (via w (data + 8 * i)) v) w.

(** [for (long i = ...; i < num_ele; i += stride)] with a body on the state *)
Fixpoint for_stride {S : Type} (fuel : nat) (i num_ele stride : Z) (body : Z -> S -> S) (s : S)
    : option S :=
  if i <? num_ele then
    match fuel with
    | O => None
    | Datatypes.S fuel => for_stride fuel (i + stride) num_ele stride body (body i s)
    end
  else Some s.

(** [while (loop_num < loop) { ...; loop_num++; }] *)
Fixpoint while_loop {S : Type} (n : nat) (loop_num : Z) (pass : Z -> S -> option S) (s : S)
    : option S :=
  match n with
  | O => Some s
  | Datatypes.S n => s ← pass loop_num s; while_loop n (loop_num + 1) pass s
  end.

End Words.

(** ** Loops and words *)

Section WordFacts.
Context {F : FlexioDev}.

(** A loop with a positive stride ends, and keeps an invariant of its body. *)
Lemma for_stride_inv {S : Type} (I : Z -> S -> Prop) fuel i n stride (body : Z -> S -> S) s :
  0 < stride -> n - i <= stride * Z.of_nat fuel -> I i s ->
  (forall j s, I j s -> j < n -> I (j + stride) (body j s)) ->
  exists s' j, for_stride fuel i n stride body s = Some s' /\ I j s' /\ n <= j.
Proof.
  intros Hst. revert i s. induction fuel as [|fuel IH]; intros i s Hf HI Hb; cbn [for_stride].
  { rewrite (proj2 (Z.ltb_ge i n)) by lia. exists s, i. split_and!; [done|done|lia]. }
  destruct (Z.ltb_spec i n); [|exists s, i; by split_and!].
  apply IH; [lia|by apply Hb|done].
Qed.

(** The words of the buffer are consecutive words of memory. *)
Definition linear (w : World F) (data n base : Z) : Prop :=
  forall a, data <= a < data + 8 * n -> via w a = base + (a - data).

Lemma linear_window w w' data n base :
  w_window w' = w_window w -> linear w data n base -> linear w' data n base.
Proof. intros E H a Ha. unfold via. rewrite E. by apply H. Qed.

Lemma get_set_word w data n base i j v :
  linear w data n base -> 0 <= i < n -> 0 <= j < n ->
  get_word data j (set_word data i v w) = if decide (j = i) then u64 v else get_word data j w.
Proof.
  intros Hl Hi Hj. unfold get_word, set_word, via. cbn [w_mem w_window set_mem].
  change (window_view (w_window w)) with (via w). rewrite !Hl by lia.
  case_decide as E; [subst|].
  - unfold ld64, st64. by rewrite loadle_storele_eq.
  - unfold ld64, st64. apply loadle_storele_out. lia.
Qed.

Lemma window_set_word data i v (w : World F) : w_window (set_word data i v w) = w_window w.
Proof. done. Qed.

(** Multiples of the stride are a stride apart. *)
Lemma stride_gap stride j k :
  0 < stride -> j mod stride = 0 -> k mod stride = 0 -> j < k -> j + stride <= k.
Proof.
  intros Hs Hj Hk Hlt. apply Z.mod_divide in Hj as [a ->]; [|lia]. apply Z.mod_divide in Hk as [b ->]; [|lia].
  assert (a < b) by (apply (Z.mul_lt_mono_pos_r stride); lia). nia.
Qed.

Lemma get_word_range data i (w : World F) : 0 <= get_word data i w < 2 ^ 64.
Proof. apply (loadle_range _ _ 8). Qed.

End WordFacts.

Module Mt.

Definition HOST_MEM : Z := 0.
Definition PRIVATE_MEM : Z := 1.
Definition EXPAND_SIZE : Z := 1.

Record MemoryArg := MkMemoryArg {
  stream_id : Z;
  window_id : Z;
  mkey : Z;
  mem_type : Z;
  size : Z;
  stride : Z;
  loop : Z;
  haddr : Z;
  ddata : Z;
}.

(** [dpa_mem_result[256]] and [host_mem_result[256]] *)
Record tables := MkTables { dpa_mem_result : list Z; host_mem_result : list Z }.
Definition num_results : nat := 256.

Section Mt.
Context {F : FlexioDev}.

(** [loop * num_ele * sizeof(size_t) * 1800000000UL / stride / total_cycles] *)
Definition bandwidth (loop num_ele stride total_cycles : Z) : option Z :=
  if (u64 stride =? 0) || (total_cycles =? 0) then None else
  Some ((loop *64 num_ele *64 8 *64 1800000000)%cint / u64 stride / total_cycles).

(** The counter around a timed part, and the bandwidth from it. *)
Definition timed {S : Type} (run : World F -> option (S * World F)) (loop num_ele stride : Z)
    (w : World F) : option (Z * S * World F) :=
  let '(start, w) := thread_cycles w in
  '(s, w) ← run w;
  let '(end_, w) := thread_cycles w in
  r ← bandwidth loop num_ele stride (end_ -64 start)%cint;
  Some (r, s, w).

(** [sum[0] += data[i]]; [sum[0]] starts uninitialised. *)
Definition bench_mem_read (fuel : nat) (junk : Z) (data num_ele stride loop : Z) (w : World F)
    : option (Z * Z * World F) :=
  timed (fun w =>
    s ← while_loop (Z.to_nat loop) 0
      (fun _ => for_stride fuel 0 num_ele (stride * EXPAND_SIZE)
         (fun i sum => s64 (sum + get_word data (i + 0 * stride) w))) junk;
    Some (s, w)) loop num_ele stride w.

Definition write_pass (fuel : nat) (data num_ele stride loop_num : Z) : World F -> option (World F) :=
  for_stride fuel 0 num_ele (stride * EXPAND_SIZE)
    (fun i w => set_word data (i + 0 * stride) loop_num w).

Definition bench_mem_write (fuel : nat) (data num_ele stride loop : Z) (w : World F)
    : option (Z * World F) :=
  '(r, _, w) ← timed (fun w =>
    w ← while_loop (Z.to_nat loop) 0 (write_pass fuel data num_ele stride) w;
    Some (tt, w)) loop num_ele stride w;
  Some (r, w).

Definition copy_pass (fuel : nat) (data dst num_ele stride : Z) : World F -> option (World F) :=
  for_stride fuel 0 num_ele (stride * EXPAND_SIZE) (fun i w => set_word dst i (get_word data i w) w).

Definition bench_mem_memcpy (fuel : nat) (data num_ele stride loop : Z) (w : World F)
    : option (Z * World F) :=
  let num_ele := Z.quot num_ele 2 in
  let dst := data + 8 * num_ele in
  let w := set_word data 0 0 w in
  '(r, _, w) ← timed (fun w =>
    w ← while_loop (Z.to_nat loop) 0 (fun _ => copy_pass fuel data dst num_ele stride) w;
    Some (tt, w)) loop num_ele stride w;
  Some (r, w).

Definition NULL : Z := 0.

(** The buffer [bench_func] works on. *)
Definition select_buffer (arg : MemoryArg) (w : World F) : Z * World F :=
  if mem_type arg =? HOST_MEM then get_host_buffer (window_id arg) (mkey arg) (haddr arg) w
  else if mem_type arg =? PRIVATE_MEM then (ddata arg, w) else (NULL, w).

(** [None] also when the buffer is null or not mapped and is accessed (the first
    two words of a known kind of memory are printed) or the stream has no slot. *)
Definition bench_func (fuel : nat) (arg : MemoryArg) (tb : tables) (w : World F)
    : option (Z * tables * World F) :=
  let '(data, w) := select_buffer arg w in
  let num_ele := size arg / 8 in
  let accessed := (mem_type arg =? HOST_MEM) || (mem_type arg =? PRIVATE_MEM) ||
    ((0 <? num_ele) && (0 <? loop arg)) in
  if accessed && ((data =? NULL) || (data =? assert_failed)) then None else
  if (stream_id arg <? 0) || (Z.of_nat num_results <=? stream_id arg) then None else
  '(r, w) ← bench_mem_write fuel data num_ele (stride arg) (loop arg) w;
  let id := Z.to_nat (stream_id arg) in
  let tb :=
    if mem_type arg =? HOST_MEM
    then MkTables (dpa_mem_result tb) (<[id := r]> (host_mem_result tb))
    else MkTables (<[id := r]> (dpa_mem_result tb)) (host_mem_result tb) in
  Some (0, tb, w).

Definition get_dpa_mem_result (total_threads : Z) (tb : tables) : option Z :=
  sum_table (dpa_mem_result tb) total_threads.
Definition get_host_mem_result (total_threads : Z) (tb : tables) : option Z :=
  sum_table (host_mem_result tb) total_threads.


(** *** Writing *)

(** The words of [w'] after passes that wrote [v] at every multiple of the stride. *)
Definition written (data n stride v : Z) (w w' : World F) : Prop :=
  w_window w' = w_window w /\ w_tick w' = w_tick w /\
  forall k, 0 <= k < n ->
    get_word data k w' = if decide (k mod stride = 0) then u64 v else get_word data k w.

Lemma write_pass_spec fuel data n stride v base (w : World F) :
  linear w data n base -> 0 < stride -> n <= stride * Z.of_nat fuel ->
  exists w', write_pass fuel data n stride v w = Some w' /\ written data n stride v w w'.
Proof.
  intros Hl Hs Hf. unfold write_pass, EXPAND_SIZE. rewrite Z.mul_1_r.
  destruct (for_stride_inv (fun j w' => w_window w' = w_window w /\ w_tick w' = w_tick w /\
      0 <= j /\ j mod stride = 0 /\ forall k, 0 <= k < n -> get_word data k w' =
        if decide (k mod stride = 0 /\ k < j) then u64 v else get_word data k w)
    fuel 0 n stride (fun i w => set_word data (i + 0 * stride) v w) w) as (w' & j & E & HI & Hj);
    [done|lia| | |].
  - split_and!; [done|done|lia|by apply Z.mod_0_l; lia|]. intros k Hk. by rewrite decide_False by lia.
  - intros j w1 (Hw & Ht & Hj & Hm & Hk) Hn. rewrite Z.mul_0_l, Z.add_0_r. split_and!; [done|done|lia| |].
    + replace (j + stride) with (j + 1 * stride) by lia. by rewrite Z_mod_plus_full.
    + intros k Hkr. rewrite (get_set_word w1 data n base) by (try lia; by apply (linear_window w)).
      rewrite Hk by done. destruct (decide (k = j)) as [->|Hne].
      { by rewrite decide_True by lia. }
      destruct (decide (k mod stride = 0)) as [Hkm|]; [|by rewrite !decide_False by tauto].
      pose proof (stride_gap stride j k Hs Hm Hkm) as Hgap.
      destruct (decide (k < j)); [by rewrite !decide_True by lia|by rewrite !decide_False by lia].
  - exists w'. split; [done|]. destruct HI as (Hw & Ht & _ & _ & Hk). split_and!; [done|done|].
    intros k Hkr. rewrite Hk by done. destruct (decide (k mod stride = 0)).
    + by rewrite decide_True by lia.
    + by rewrite decide_False by tauto.
Qed.

Lemma while_write_spec fuel data n stride base m loop_num (w : World F) :
  linear w data n base -> 0 < stride -> n <= stride * Z.of_nat fuel ->
  exists w', while_loop m loop_num (write_pass fuel data n stride) w = Some w' /\
    w_window w' = w_window w /\ w_tick w' = w_tick w /\
    forall k, 0 <= k < n -> get_word data k w' =
      if decide (k mod stride = 0 /\ (0 < m)%nat) then u64 (loop_num + Z.of_nat m - 1) else get_word data k w.
Proof.
  intros Hl Hs Hf. revert loop_num w Hl. induction m as [|m IH]; intros loop_num w Hl; cbn [while_loop].
  { exists w. split_and!; [done..|]. intros k Hk. by rewrite decide_False by lia. }
  destruct (write_pass_spec fuel data n stride loop_num base w Hl Hs Hf) as (w1 & -> & Hw1 & Ht1 & Hk1).
  cbn [mbind option_bind].
  destruct (IH (loop_num + 1) w1) as (w' & -> & Hw & Ht & Hk); [by apply (linear_window w)|].
  exists w'. split_and!; [done|congruence|congruence|]. intros k Hkr. rewrite Hk, Hk1 by done.
  destruct (decide (k mod stride = 0)); [|by rewrite !decide_False by tauto].
  rewrite (decide_True (P := _ /\ (0 < S m)%nat)) by lia.
  destruct (decide _) as [[_ Hm]|Hm]; [f_equal; lia|]. f_equal. assert (m = 0%nat) by lia. lia.
Qed.

(** The cycles a timed part takes when it does not read the counter itself. *)
Definition elapsed (w : World F) : Z := (cycles_at (S (w_tick w)) -64 cycles_at (w_tick w))%cint.

Lemma timed_spec {S : Type} (run : World F -> option (S * World F)) loop num_ele stride w s w1 :
  run (tick w) = Some (s, w1) -> w_tick w1 = w_tick (tick w) ->
  0 < stride < 2 ^ 31 -> elapsed w <> 0 ->
  timed run loop num_ele stride w =
  Some ((loop *64 num_ele *64 8 *64 1800000000)%cint / stride / elapsed w, s, tick w1).
Proof.
  intros Hr Ht Hs He. unfold timed, thread_cycles. rewrite Hr. cbn [mbind option_bind].
  rewrite Ht. cbn [w_tick tick]. fold (elapsed w). unfold bandwidth.
  rewrite (wrapu_small 64 stride) by lia.
  by rewrite (proj2 (Z.eqb_neq stride 0)), (proj2 (Z.eqb_neq (elapsed w) 0)) by lia.
Qed.

Lemma bench_mem_write_spec fuel data n stride loop base (w : World F) :
  linear w data n base -> 0 < stride < 2 ^ 31 -> n <= stride * Z.of_nat fuel -> 0 <= loop ->
  elapsed w <> 0 ->
  exists w', bench_mem_write fuel data n stride loop w =
      Some ((loop *64 n *64 8 *64 1800000000)%cint / stride / elapsed w, w') /\
    forall k, 0 <= k < n -> get_word data k w' =
      if decide (k mod stride = 0 /\ 0 < loop) then u64 (loop - 1) else get_word data k w.
Proof.
  intros Hl Hs Hf Hlp He. unfold bench_mem_write.
  destruct (while_write_spec fuel data n stride base (Z.to_nat loop) 0 (tick w)) as (w1 & E & Hw & Ht & Hk);
    [by apply (linear_window w)|lia|done|].
  rewrite (timed_spec _ loop n stride w tt w1) by (done || by rewrite E). cbn [mbind option_bind].
  exists (tick w1). split; [done|]. intros k Hkr.
  change (get_word data k (tick w1)) with (get_word data k w1).
  rewrite (Hk k Hkr). change (get_word data k (tick w)) with (get_word data k w).
  destruct (decide (k mod stride = 0 /\ 0 < loop)) as [[H1 H2]|H].
  - rewrite decide_True by lia. f_equal. lia.
  - rewrite decide_False; [done|]. lia.
Qed.

(** One stream of the multi-threaded memory benchmark: on a buffer whose
    words the thread's window maps consecutively, for any positive stride,
    [bench_func] terminates, leaves the number of the last pass in every word whose
    index is a multiple of the stride and every other word as it was, and puts the
    bandwidth of the run in the stream's slot of the table of its kind of memory,
    changing no other slot. *)
Theorem mt_bench_func_writes fuel arg tb (w : World F) data w1 base :
  select_buffer arg w = (data, w1) -> data <> NULL -> data <> assert_failed ->
  let n := size arg / 8 in
  linear w1 data n base -> 0 < stride arg < 2 ^ 31 -> n <= stride arg * Z.of_nat fuel ->
  0 <= loop arg -> 0 <= stream_id arg < 256 -> elapsed w1 <> 0 ->
  let r := (loop arg *64 n *64 8 *64 1800000000)%cint / stride arg / elapsed w1 in
  let id := Z.to_nat (stream_id arg) in
  exists w', bench_func fuel arg tb w = Some (0,
      if mem_type arg =? HOST_MEM
      then MkTables (dpa_mem_result tb) (<[id := r]> (host_mem_result tb))
      else MkTables (<[id := r]> (dpa_mem_result tb)) (host_mem_result tb), w') /\
    forall k, 0 <= k < n -> get_word data k w' =
      if decide (k mod stride arg = 0 /\ 0 < loop arg) then u64 (loop arg - 1) else get_word data k w1.
Proof.
  intros Hsel Hn0 Hna n Hl Hs Hf Hlp Hid He r id. unfold bench_func. rewrite Hsel.
  rewrite (proj2 (Z.eqb_neq data _) Hn0), (proj2 (Z.eqb_neq data _) Hna), andb_false_r.
  rewrite (proj2 (Z.ltb_ge (stream_id arg) 0)), (proj2 (Z.leb_gt _ (stream_id arg)))
    by (unfold num_results; lia). cbn [orb].
  destruct (bench_mem_write_spec fuel data n (stride arg) (loop arg) base w1) as (w' & E & Hk); [done..|].
  fold n. rewrite E. cbn [mbind option_bind]. exists w'. by split.
Qed.

(** *** Copying *)

(** The first half is the source; after a pass the multiples of the stride of the
    second half hold it. *)
Definition copied (data n h stride : Z) (w w' : World F) : Prop :=
  w_window w' = w_window w /\ w_tick w' = w_tick w /\
  forall k, 0 <= k < n -> get_word data k w' =
    if decide (h <= k < h + h /\ (k - h) mod stride = 0) then get_word data (k - h) w else get_word data k w.

Lemma set_word_shift data h i v (w : World F) : set_word (data + 8 * h) i v w = set_word data (h + i) v w.
Proof. unfold set_word. by replace (data + 8 * h + 8 * i) with (data + 8 * (h + i)) by lia. Qed.

(** A copy over a state that already holds some copies is a copy of the original. *)
Definition some_copied (data n h stride : Z) (w w' : World F) : Prop :=
  w_window w' = w_window w /\ w_tick w' = w_tick w /\
  forall k, 0 <= k < n -> get_word data k w' = get_word data k w \/
    (h <= k < h + h /\ (k - h) mod stride = 0 /\ get_word data k w' = get_word data (k - h) w).

Lemma copy_pass_spec fuel data n h stride base (w w0 : World F) :
  linear w data n base -> 0 < stride -> 0 <= h -> h + h <= n -> h <= stride * Z.of_nat fuel ->
  some_copied data n h stride w w0 ->
  exists w', copy_pass fuel data (data + 8 * h) h stride w0 = Some w' /\ copied data n h stride w w'.
Proof.
  intros Hl Hs Hh Hhn Hf H0. unfold copy_pass, EXPAND_SIZE. rewrite Z.mul_1_r.
  destruct (for_stride_inv (fun j w' => 0 <= j /\ j mod stride = 0 /\ some_copied data n h stride w w' /\
      forall k, h <= k < h + h -> (k - h) mod stride = 0 -> k - h < j -> get_word data k w' = get_word data (k - h) w)
    fuel 0 h stride (fun i w => set_word (data + 8 * h) i (get_word data i w) w) w0) as (w' & j & E & HI & Hj);
    [done|lia| | |].
  - split_and!; [lia|by apply Z.mod_0_l; lia|done|lia].
  - intros j w1 (Hj & Hm & (Hw & Ht & Hk) & Hdone) Hn.
    assert (linear w1 data n base) as Hl1 by (by apply (linear_window w)).
    assert (get_word data j w1 = get_word data j w) as Hsrc.
    { destruct (Hk j ltac:(lia)) as [|(? & _)]; [done|lia]. }
    rewrite set_word_shift, Hsrc. split_and!; [lia| |split_and!|].
    + replace (j + stride) with (j + 1 * stride) by lia. by rewrite Z_mod_plus_full.
    + done.
    + done.
    + intros k Hkr. rewrite (get_set_word w1 data n base) by (done || lia). case_decide as Ek.
      * right. subst k. replace (h + j - h) with j by lia. split_and!; [lia|lia|done|].
        apply wrapu_small, get_word_range.
      * by apply Hk.
    + intros k Hkr Hkm Hkj. rewrite (get_set_word w1 data n base) by (done || lia). case_decide as Ek.
      * subst k. replace (h + j - h) with j by lia. apply wrapu_small, get_word_range.
      * apply Hdone; [done|done|].
        destruct (decide (j < k - h)); [|lia]. pose proof (stride_gap stride j (k - h) Hs Hm Hkm). lia.
  - exists w'. split; [done|]. destruct HI as (_ & _ & (Hw & Ht & Hk) & Hdone). split_and!; [done|done|].
    intros k Hkr. case_decide as Hc; [apply Hdone; lia|].
    destruct (Hk k Hkr) as [|(? & ? & _)]; [done|tauto].
Qed.

Lemma copied_some data n h stride (w w' : World F) :
  copied data n h stride w w' -> some_copied data n h stride w w'.
Proof.
  intros (Hw & Ht & Hk). split_and!; [done|done|]. intros k Hkr. rewrite Hk by done.
  case_decide as Hc; [right|by left]. tauto.
Qed.

Lemma while_copy_spec fuel data n h stride base m c (w w0 : World F) :
  linear w data n base -> 0 < stride -> 0 <= h -> h + h <= n -> h <= stride * Z.of_nat fuel ->
  some_copied data n h stride w w0 ->
  exists w', while_loop m c (fun _ => copy_pass fuel data (data + 8 * h) h stride) w0 = Some w' /\
    (m = 0%nat -> w' = w0) /\ ((0 < m)%nat -> copied data n h stride w w').
Proof.
  intros Hl Hs Hh Hhn Hf. revert c w0. induction m as [|m IH]; intros c w0 H0; cbn [while_loop].
  { exists w0. split_and!; [done|done|lia]. }
  destruct (copy_pass_spec fuel data n h stride base w w0) as (w1 & -> & H1); [done..|].
  cbn [mbind option_bind]. destruct (IH (c + 1) w1) as (w' & -> & E0 & E1); [by apply copied_some|].
  exists w'. split_and!; [done|done|]. intros _. destruct m; [by rewrite E0|apply E1; lia].
Qed.

(** The copy benchmark copies: on a buffer mapped consecutively and for any
    positive stride, [bench_mem_memcpy] terminates; it clears the first word, and
    then, when at least one pass runs, the words of the second half whose offset in
    it is a multiple of the stride equal the corresponding words of the first half,
    which stays as it is, and every other word is unchanged. *)
Theorem mt_memcpy_copies fuel data n stride loop base (w : World F) :
  linear w data n base -> 0 < n -> 0 < stride < 2 ^ 31 -> n <= stride * Z.of_nat fuel -> 0 < loop ->
  elapsed w <> 0 ->
  let h := Z.quot n 2 in
  exists w', bench_mem_memcpy fuel data n stride loop w =
      Some ((loop *64 h *64 8 *64 1800000000)%cint / stride / elapsed w, w') /\
    forall k, 0 <= k < n -> get_word data k w' =
      if decide (h <= k < h + h /\ (k - h) mod stride = 0)
      then (if decide (k = h) then 0 else get_word data (k - h) w)
      else (if decide (k = 0) then 0 else get_word data k w).
Proof.
  intros Hl Hn Hs Hf Hlp He h. unfold bench_mem_memcpy. fold h.
  assert (0 <= h /\ h + h <= n) as [Hh Hhn].
  { unfold h. rewrite Z.quot_div_nonneg by lia. split; mlia. }
  set (w0 := set_word data 0 0 w).
  assert (linear (tick w0) data n base) as Hl0 by (by apply (linear_window w)).
  destruct (while_copy_spec fuel data n h stride base (Z.to_nat loop) 0 (tick w0) (tick w0))
    as (w1 & E & _ & Hc); [done|lia|done|done|lia| |].
  { split_and!; [done|done|]. intros; by left. }
  destruct (Hc ltac:(lia)) as (Hw & Ht & Hk).
  rewrite (timed_spec _ loop h stride w0 tt w1) by (done || by rewrite E). cbn [mbind option_bind].
  exists (tick w1). split; [done|]. intros k Hkr.
  change (get_word data k (tick w1)) with (get_word data k w1). rewrite (Hk k Hkr).
  change (get_word data ?x (tick w0)) with (get_word data x w0). unfold w0.
  assert (forall j, 0 <= j < n -> get_word data j (set_word data 0 0 w) =
    if decide (j = 0) then 0 else get_word data j w) as Hj.
  { intros j Hj. rewrite (get_set_word w data n base) by (done || lia). by case_decide. }
  destruct (decide (h <= k < h + h /\ (k - h) mod stride = 0)) as [Hc'|].
  - rewrite Hj by lia. destruct (decide (k = h)) as [->|]; [by rewrite decide_True by lia|].
    by rewrite decide_False by lia.
  - by apply Hj.
Qed.
End Mt.
End Mt.

Module Single.

Definition LOOPS : Z := 1.
Definition STRIDE : Z := 16.
Definition EXPAND_SIZE : Z := 1.
Definition THREAD_MEM_SIZE : Z := 1024 * 1024 * 256.

Record MemoryArg := MkMemoryArg {
  stream_id : Z;
  window_id : Z;
  mkey : Z;
  haddr : Z;
  data : Z;
}.

Section Single.
Context {F : FlexioDev}.

(** The sum printed, the words it reports and the words per second; [None] when
    the run is shorter than a millisecond and the division traps. *)
Definition bench_mem_read (fuel : nat) (junk : Z) (data num_ele : Z) (w : World F)
    : option (Z * Z * Z * World F) :=
  let '(start, w) := thread_cycles w in
  sum ← while_loop (Z.to_nat LOOPS) 0
    (fun _ => for_stride fuel 0 num_ele (STRIDE * EXPAND_SIZE)
       (fun i sum => s64 (sum + get_word data (i + 0 * STRIDE) w))) junk;
  let '(end_, w) := thread_cycles w in
  let total_cycles := (end_ -64 start)%cint in
  let nano_seconds := (total_cycles *64 10)%cint / 18 in
  let accessed_words := u64 (LOOPS * num_ele) / STRIDE in
  let time_ms := nano_seconds / 1000 / 1000 in
  if time_ms =? 0 then None else
  Some (sum, accessed_words, (accessed_words *64 1000)%cint / time_ms, w).

(** The RPC, with the sums and rates it prints. *)
Definition bench_func (fuel : nat) (junk : Z) (arg : MemoryArg) (w : World F)
    : option (Z * Z * Z * World F) :=
  let '(host_buffer, w) := get_host_buffer (window_id arg) (mkey arg) (haddr arg) w in
  if host_buffer =? assert_failed then None else
  let num_ele := THREAD_MEM_SIZE / 8 in
  bench_mem_read fuel junk (data arg) num_ele w.

End Single.
End Single.

(** ** Witnesses *)

Definition demo_mt_arg : Mt.MemoryArg := Mt.MkMemoryArg 3 0 7 Mt.HOST_MEM 80 4 3 4096 0.
Definition demo_mt_tables : Mt.tables := Mt.MkTables (replicate 256 0) (replicate 256 0).

Lemma demo_linear_host (w : World ref_flexio) : linear w (4096 + 2 ^ 40) 10 4096.
Proof.
  intros a Ha. unfold via. cbn -[Z.pow Z.leb]. rewrite (proj2 (Z.leb_le (2 ^ 40) a)) by lia. lia.
Qed.

(** Ten words of host memory, stride four, three passes. *)
Lemma mt_bench_func_writes_witness :
  exists r w', Mt.bench_func (F := ref_flexio) 10 demo_mt_arg demo_mt_tables empty_world = Some (0,
      Mt.MkTables (replicate 256 0) (<[3%nat := r]> (replicate 256 0)), w') /\
    get_word (4096 + 2 ^ 40) 8 w' = 2 /\ get_word (4096 + 2 ^ 40) 7 w' = 0.
Proof.
  destruct (Mt.mt_bench_func_writes (F := ref_flexio) 10 demo_mt_arg demo_mt_tables empty_world (4096 + 2 ^ 40)
    (snd (Mt.select_buffer demo_mt_arg empty_world)) 4096) as (w' & E & Hk).
  - reflexivity.
  - discriminate.
  - discriminate.
  - apply demo_linear_host.
  - by vm_compute.
  - by vm_compute.
  - by vm_compute.
  - by vm_compute.
  - by vm_compute.
  - eexists _, w'. split; [exact E|]. split.
    + rewrite (Hk 8) by (split; [discriminate|reflexivity]). vm_compute. reflexivity.
    + rewrite (Hk 7) by (split; [discriminate|reflexivity]). vm_compute. reflexivity.
Defined.

Lemma mt_memcpy_copies_witness :
  exists r w', Mt.bench_mem_memcpy (F := ref_flexio) 10 (4096 + 2 ^ 40) 10 2 1
      (set_word (4096 + 2 ^ 40) 4 77 empty_world) = Some (r, w') /\
    get_word (4096 + 2 ^ 40) 9 w' = 77 /\ get_word (4096 + 2 ^ 40) 4 w' = 77.
Proof.
  destruct (Mt.mt_memcpy_copies (F := ref_flexio) 10 (4096 + 2 ^ 40) 10 2 1 4096
    (set_word (4096 + 2 ^ 40) 4 77 empty_world)) as (w' & E & Hk).
  - apply demo_linear_host.
  - lia.
  - lia.
  - by vm_compute.
  - lia.
  - by vm_compute.
  - eexists _, w'. split; [exact E|]. split.
    + rewrite (Hk 9) by (split; [discriminate|reflexivity]). vm_compute. reflexivity.
    + rewrite (Hk 4) by (split; [discriminate|reflexivity]). vm_compute. reflexivity.
Defined.
