(* ===== verification/DpaSend.v ===== *)
(** * DpaSend: the two single-thread packet generators

    Translation of [flexio/dpa_send/device/dpa_send_device.c] and
    [flexio/dpa_send_ntp/device/dpa_send_ntp_device.c].  The two programs are the
    same text except for the payload: its size and the places of the time stamp
    and of the packet number in it, which are the [payload] the definitions take.
    The static [dev_ctx] is the [send_context] passed from handler to handler.

    The host variant fills a local [struct udp_packet] and copies it to the host
    buffer; the local is a scratch memory [stk] whose unassigned fields (the two
    checksums) keep what the stack held. *)

From S2P Require Import Prelude Machine FlexioDev WrapperDevice PacketHdr DevCommon RingProtocol Reflector PacketLoop.

Definition LOG_SQ_RING_DEPTH : Z := 7.
Definition LOG_RQ_RING_DEPTH : Z := 7.
Definition LOG_CQ_RING_DEPTH : Z := 7.
Definition LOG_WQ_DATA_ENTRY_BSIZE : Z := 10.
Definition SRC_ADDR : list Z := [0x02; 0x01; 0x01; 0x01; 0x01; 0x01].
Definition DST_ADDR : list Z := [0x01; 0x01; 0x01; 0x01; 0x01; 0x01].
Definition hdr_size : Z := 42.
Definition batch_size : Z := 100000.

(** ** The payloads *)

Record payload := MkPayload { data_size : Z; ts_off : Z; idx_off : Z }.

(** [dpa_send]: two words, the cycle counter and the packet number. *)
Definition send_payload : payload := MkPayload 22 0 8.

(** [dpa_send_ntp]: [struct ntp_header], four time stamps of two words each and
    the packet number; the cycle counter is [timestamp1.n_sec]. *)
Definition sizeof_time_stamp : Z := 16.
Definition o_timestamp1_n_sec : Z := 8.
Definition o_send_index : Z := 4 * sizeof_time_stamp.
Definition sizeof_ntp_header : Z := 4 * sizeof_time_stamp + 8.
Definition ntp_payload : payload := MkPayload sizeof_ntp_header o_timestamp1_n_sec o_send_index.

(** ** The device context *)

Record send_context := MkSend {
  sc_q : dev_queues;
  sc_host_rq : host_rq_ctx_t;
  sc_host_sq : host_sq_ctx_t;
  sc_packets_count : Z;
  sc_rq_on_host : Z;
  sc_sq_on_host : Z;
  total_cycles : Z;
  send_index : Z;
}.

Definition zero_send : send_context := MkSend zero_queues zero_host_rq zero_host_sq 0 0 0 0 0.

Definition set_sc_q (q : dev_queues) (d : send_context) : send_context :=
  MkSend q (sc_host_rq d) (sc_host_sq d) (sc_packets_count d) (sc_rq_on_host d) (sc_sq_on_host d)
    (total_cycles d) (send_index d).
Definition set_sc_host_rq (h : host_rq_ctx_t) (d : send_context) : send_context :=
  MkSend (sc_q d) h (sc_host_sq d) (sc_packets_count d) (sc_rq_on_host d) (sc_sq_on_host d)
    (total_cycles d) (send_index d).
Definition set_sc_host_sq (h : host_sq_ctx_t) (d : send_context) : send_context :=
  MkSend (sc_q d) (sc_host_rq d) h (sc_packets_count d) (sc_rq_on_host d) (sc_sq_on_host d)
    (total_cycles d) (send_index d).
Definition set_counters (n cyc idx : Z) (d : send_context) : send_context :=
  MkSend (sc_q d) (sc_host_rq d) (sc_host_sq d) n (sc_rq_on_host d) (sc_sq_on_host d) cyc idx.

(** The counters of a packet that took [cycle] cycles. *)
Definition count_packet (cycle : Z) (d : send_context) : send_context :=
  let idx := (send_index d +64 1)%cint in
  let n := (sc_packets_count d +32 1)%cint in
  let cyc := (total_cycles d +64 cycle)%cint in
  if n =? batch_size then set_counters 0 0 idx d else set_counters n cyc idx d.

Section Device.
Context {F : FlexioDev}.

Definition init_cq : app_transfer_cq -> cq_ctx_t := init_cq_with LOG_CQ_RING_DEPTH.
Definition init_rq : app_transfer_wq -> rq_ctx_t := init_rq_with LOG_RQ_RING_DEPTH.
Definition init_sq : app_transfer_wq -> sq_ctx_t -> sq_ctx_t := init_sq_with LOG_SQ_RING_DEPTH.

(** The headers at [sq_data], in the order of the assignments. *)
Definition prepare_packet (m : mem) (sq_data send_index : Z) : mem :=
  let m := wrbytes m (sq_data + o_eth_src) SRC_ADDR in
  let m := wrbytes m (sq_data + o_eth_dst) DST_ADDR in
  let m := st16 m (sq_data + o_ether_type) (cpu_to_be16 0x0800) in
  let m := st8 m (sq_data + o_version_ihl) 0x45 in
  let m := st8 m (sq_data + o_type_of_service) 0 in
  let m := st16 m (sq_data + o_total_length) (cpu_to_be16 (8 * 2 + sizeof_udp_hdr + sizeof_ipv4_hdr)) in
  let m := st16 m (sq_data + o_packet_id) (cpu_to_be16 send_index) in
  let m := st16 m (sq_data + o_fragment_offset) (cpu_to_be16 0) in
  let m := st8 m (sq_data + o_time_to_live) 64 in
  let m := st8 m (sq_data + o_next_proto_id) 17 in
  let m := st32 m (sq_data + o_ip_src_addr) (cpu_to_be16 1) in
  let m := st32 m (sq_data + o_ip_dst_addr) (cpu_to_be16 1) in
  let m := st16 m (sq_data + o_dgram_len) (cpu_to_be16 (8 * 2 + sizeof_udp_hdr)) in
  let m := st16 m (sq_data + o_src_port) (cpu_to_be16 1) in
  st16 m (sq_data + o_dst_port) (cpu_to_be16 1).

(** [flexio_dev_window_copy_to_host]: the bytes reach the memory the window maps
    the host address to; without a mapping only the call is visible. *)
Definition copy_to_host (haddr : Z) (bs : list Z) (w : World F) : World F :=
  let w' := emit (EvCopyToHost haddr bs) w in
  match window_ptr_acquire haddr w with
  | Some a => set_mem (wrbytes (w_mem w) a bs) w'
  | None => w'
  end.

Definition prepare_packet_host (stk : mem) (sq_data send_index : Z) (w : World F) : World F :=
  copy_to_host sq_data
    (rdbytes (prepare_packet stk 0 send_index) 0 (Z.to_nat sizeof_udp_packet)) w.

Variable pl : payload.

Definition pkt_size : Z := hdr_size + data_size pl.

(** The packet number and then the cycle counter, written into the payload. *)
Definition stamp (buf send_index : Z) (w : World F) : World F :=
  let w := set_mem (st64 (w_mem w) (buf + hdr_size + idx_off pl) send_index) w in
  let '(cycle, w) := thread_cycles w in
  set_mem (st64 (w_mem w) (buf + hdr_size + ts_off pl) cycle) w.

(** From taking the next buffer to the doorbell, in device and in host memory. *)
Definition send_on_dpa (data_sz : Z) (d : send_context) (w : World F) : send_context * World F :=
  let '(sq_data, dt) := get_next_send_buf (dt_ctx (sc_q d)) LOG_WQ_DATA_ENTRY_BSIZE in
  let w := set_mem (prepare_packet (w_mem w) sq_data (send_index d)) w in
  let '(sq, w) := prepare_send_packet (sq_ctx (sc_q d)) sq_data data_sz w in
  let w := stamp sq_data (send_index d) w in
  let '(sq, w) := finish_send_packet sq w in
  (set_sc_q (set_sq_ctx sq (set_dt_ctx dt (sc_q d))) d, w).

Definition send_on_host (stk : mem) (data_sz : Z) (d : send_context) (w : World F)
    : send_context * World F :=
  let '(sq_data, dt) := get_next_send_buf (dt_ctx (sc_q d)) LOG_WQ_DATA_ENTRY_BSIZE in
  let sq_data_dpa := host_sq_addr_to_dpa_addr sq_data (sc_host_sq d) in
  let w := prepare_packet_host stk sq_data (send_index d) w in
  let '(sq, w) := prepare_send_packet (sq_ctx (sc_q d)) sq_data data_sz w in
  let w := stamp sq_data_dpa (send_index d) w in
  let '(sq, w) := finish_send_packet_host sq w in
  (set_sc_q (set_sq_ctx sq (set_dt_ctx dt (sc_q d))) d, w).

Definition process_packet (d : send_context) (w : World F) : send_context * World F :=
  let '(cycle, w) := thread_cycles w in
  let '(rq_data, data_sz) := receive_packet (rqcq_ctx (sc_q d)) (rq_ctx (sc_q d)) w in
  let cycle := (cycle -64 ld64 (w_mem w) (rq_data + hdr_size + ts_off pl))%cint in
  if negb (data_sz =? pkt_size) then (d, w)
  else send_on_dpa data_sz (count_packet cycle d) w.

Definition process_packet_host (stk : mem) (d : send_context) (w : World F)
    : send_context * World F :=
  let '(cycle, w) := thread_cycles w in
  let '(rq_data, data_sz) := receive_packet (rqcq_ctx (sc_q d)) (rq_ctx (sc_q d)) w in
  if negb (data_sz =? pkt_size) then (d, w)
  else
    let rq_data_dpa := host_rq_addr_to_dpa_addr rq_data (sc_host_rq d) in
    let cycle := (cycle -64 ld64 (w_mem w) (rq_data_dpa + hdr_size + ts_off pl))%cint in
    send_on_host stk data_sz (count_packet cycle d) w.

Definition dpa_send_device_init (shared_data : queue_config_data) (d : send_context) (w : World F)
    : Z * send_context * World F :=
  let lk := wqd_mkey_id (sq_data shared_data) in
  let hrq := MkHostRq (wqd_mkey_id (rq_data shared_data)) (new_buffer_mkey_id shared_data)
               (wqd_daddr (rq_data shared_data)) (dpa_rx_buff (sc_host_rq d)) in
  let hsq := MkHostSq (wqd_mkey_id (sq_data shared_data)) (new_buffer_mkey_id shared_data)
               (wqd_daddr (sq_data shared_data)) (dpa_tx_buff (sc_host_sq d)) in
  let rqcq := init_cq (rq_cq_data shared_data) in
  let rq := init_rq (rq_data shared_data) in
  let sqcq := init_cq (sq_cq_data shared_data) in
  let sq := init_sq (sq_data shared_data) (sq_ctx (sc_q d)) in
  let '(sq, w) := init_send_sq sq (LOG2VALUE LOG_SQ_RING_DEPTH) lk w in
  let dt := MkDt (wqd_daddr (sq_data shared_data)) 0 (Z.shiftl 1 LOG_SQ_RING_DEPTH - 1) in
  (0, MkSend (MkQueues lk 1 rqcq sqcq rq sq dt) hrq hsq 0
        (daddr_on_host (rq_data shared_data)) (daddr_on_host (sq_data shared_data)) 0 1,
   emit EvMemoryWriteback w).

(** The choice of [dpa_tx_buff]. *)
Definition map_tx_buff (on_host : Z) (h : host_sq_ctx_t) (w : World F) : host_sq_ctx_t * World F :=
  if truthy on_host then
    let '(b, w) := get_host_buffer_with_dtctx (sq_window_id h) (hsq_rkey h) (host_tx_buff h) w in
    (set_dpa_tx_buff b h, w)
  else (set_dpa_tx_buff (host_tx_buff h) h, w).

Definition dpa_send_deivce_first_packet (stk : mem) (d : send_context) (w : World F)
    : Z * send_context * World F :=
  if truthy (sc_sq_on_host d) then
    let '(h, w) := map_tx_buff 1 (sc_host_sq d) w in
    let '(d, w) := send_on_host stk pkt_size (set_sc_host_sq h d) w in (0, d, w)
  else let '(d, w) := send_on_dpa pkt_size d w in (0, d, w).

(** One turn of the inner loop of the event handler. *)
Definition handler_turn (stk : mem) (on_host : Z) (d : send_context) (w : World F)
    : send_context * World F :=
  let '(d, w) := if truthy on_host then process_packet_host stk d w else process_packet d w in
  let '(q, w) := step_queues (sc_q d) w in
  (set_sc_q q d, w).

Definition dpa_send_device_event_handler (stk : mem) (fuel : nat) (env : list (World F -> World F))
    (d : send_context) (w : World F) : handler_result send_context :=
  let dtctx := snd flexio_dev_get_thread_ctx in
  if is_initalized (sc_q d) =? 0 then Rescheduled d w
  else
    let rq_on_host := sc_rq_on_host d in
    let sq_on_host := sc_sq_on_host d in
    let '(h, w) := map_rx_buff rq_on_host (sc_host_rq d) w in
    let d := set_sc_host_rq h d in
    let '(h, w) := map_tx_buff sq_on_host (sc_host_sq d) w in
    let d := set_sc_host_sq h d in
    poll_or_exit (fun d => rqcq_ctx (sc_q d)) (handler_turn stk sq_on_host) fuel env dtctx d w.

End Device.

(** ** The two programs *)

Module Send.
Definition pkt_size : Z := pkt_size send_payload.
Definition process_packet {F : FlexioDev} : send_context -> World F -> send_context * World F :=
  process_packet send_payload.
Definition process_packet_host {F : FlexioDev} : mem -> send_context -> World F -> send_context * World F :=
  process_packet_host send_payload.
Definition dpa_send_deivce_first_packet {F : FlexioDev}
    : mem -> send_context -> World F -> Z * send_context * World F :=
  dpa_send_deivce_first_packet send_payload.
Definition dpa_send_device_event_handler {F : FlexioDev} (stk : mem) (fuel : nat)
    : list (World F -> World F) -> send_context -> World F -> handler_result send_context :=
  dpa_send_device_event_handler send_payload stk fuel.
End Send.

Module Ntp.
Definition pkt_size : Z := pkt_size ntp_payload.
Definition device_context : Type := send_context.
Definition init_cq : app_transfer_cq -> cq_ctx_t := init_cq.
Definition init_rq : app_transfer_wq -> rq_ctx_t := init_rq.
Definition init_sq {F : FlexioDev} : app_transfer_wq -> sq_ctx_t -> sq_ctx_t := init_sq.
Definition prepare_packet {F : FlexioDev} : mem -> Z -> Z -> mem := prepare_packet.
Definition prepare_packet_host {F : FlexioDev} : mem -> Z -> Z -> World F -> World F := prepare_packet_host.
Definition process_packet {F : FlexioDev} : send_context -> World F -> send_context * World F :=
  process_packet ntp_payload.
Definition process_packet_host {F : FlexioDev} : mem -> send_context -> World F -> send_context * World F :=
  process_packet_host ntp_payload.
Definition dpa_send_ntp_device_init {F : FlexioDev}
    : queue_config_data -> send_context -> World F -> Z * send_context * World F :=
  dpa_send_device_init.
Definition dpa_send_ntp_deivce_first_packet {F : FlexioDev}
    : mem -> send_context -> World F -> Z * send_context * World F :=
  dpa_send_deivce_first_packet ntp_payload.
Definition dpa_send_ntp_device_event_handler {F : FlexioDev} (stk : mem) (fuel : nat)
    : list (World F -> World F) -> send_context -> World F -> handler_result send_context :=
  dpa_send_device_event_handler ntp_payload stk fuel.
End Ntp.

(** ** The headers *)

Section Headers.
Context {F : FlexioDev} `{!FlexioDevLaws F}.

(** What [prepare_packet] leaves at [a] in the memory [m]: the checksums are
    whatever the buffer held, and the addresses 1 are stored as the 16-bit number
    [0x0100] in a 32-bit field. *)
Definition sent_headers (m : mem) (a idx : Z) : udp_packet :=
  MkUdpPacket
    (MkEther DST_ADDR SRC_ADDR (bswap 2 0x0800))
    (MkIp 0x45 0 (bswap 2 44) (bswap 2 idx) 0 64 17 (ld16 m (a + o_hdr_checksum)) 256 256)
    (MkUdp 256 256 (bswap 2 24) (ld16 m (a + o_dgram_cksum))).

Lemma send_packet_headers m a idx :
  read_udp_packet (prepare_packet m a idx) a = sent_headers m a idx.
Proof.
  unfold read_udp_packet, prepare_packet, sent_headers, sizeof_udp_hdr, sizeof_ipv4_hdr.
  hdr_fields. rewrite !u16_be16, !u32_be16.
  repeat f_equal.
  - exact (rdbytes_wrbytes _ (a + 0) DST_ADDR ltac:(repeat constructor; lia)).
  - rewrite rdbytes_wrbytes_out by (cbn; lia).
    exact (rdbytes_wrbytes _ (a + 6) SRC_ADDR ltac:(repeat constructor; lia)).
Qed.

Lemma send_packet_out m a idx b :
  b < a \/ a + hdr_size <= b -> rd8 (prepare_packet m a idx) b = rd8 m b.
Proof. intros H. unfold hdr_size in H. unfold prepare_packet. hdr_fields. done. Qed.

(** Memories that agree on the 42 bytes hold the same headers. *)
Lemma read_udp_packet_ext m m' a :
  (forall b, a <= b < a + hdr_size -> rd8 m b = rd8 m' b) -> read_udp_packet m a = read_udp_packet m' a.
Proof.
  intros H. unfold hdr_size in H. unfold read_udp_packet. unfold_offsets. unfold ld16, ld32.
  f_equal; f_equal; first [apply H; lia | apply rdbytes_ext; intros b Hb; apply H; lia
    | apply loadle_ext; intros b Hb; apply H; lia].
Qed.

(** A payload in which the two stamps fit without overlap, in a buffer entry. *)
Record payload_ok (pl : payload) : Prop := MkPayloadOk {
  po_ts : 0 <= ts_off pl /\ ts_off pl + 8 <= data_size pl;
  po_idx : 0 <= idx_off pl /\ idx_off pl + 8 <= data_size pl;
  po_apart : ts_off pl + 8 <= idx_off pl \/ idx_off pl + 8 <= ts_off pl;
  po_fits : hdr_size + data_size pl <= 2 ^ LOG_WQ_DATA_ENTRY_BSIZE;
}.

Lemma send_payload_ok : payload_ok send_payload.
Proof. split; cbn; unfold hdr_size, LOG_WQ_DATA_ENTRY_BSIZE; lia. Qed.

Lemma ntp_payload_ok : payload_ok ntp_payload.
Proof.
  split; cbn; unfold hdr_size, sizeof_ntp_header, o_timestamp1_n_sec, o_send_index, sizeof_time_stamp,
    LOG_WQ_DATA_ENTRY_BSIZE; lia.
Qed.

Variables (pl : payload) (Hpl : payload_ok pl).

Lemma stamp_spec a idx (w : World F) :
  let w' := stamp pl a idx w in
  ld64 (w_mem w') (a + hdr_size + idx_off pl) = u64 idx /\
  ld64 (w_mem w') (a + hdr_size + ts_off pl) = u64 (cycles_at (w_tick w)) /\
  (forall b, b < a + hdr_size \/ a + hdr_size + data_size pl <= b -> rd8 (w_mem w') b = rd8 (w_mem w) b) /\
  w' = set_mem (w_mem w') (tick w).
Proof.
  destruct Hpl as [Hts Hidx Hap _]. unfold stamp, thread_cycles. cbn [w_mem set_mem tick w_tick].
  unfold ld64, st64. split_and!.
  - rewrite loadle_storele_out by lia. apply (loadle_storele_eq _ _ 8).
  - apply (loadle_storele_eq _ _ 8).
  - intros b Hb. rewrite !rd8_storele_out by lia. done.
  - done.
Qed.

(** ** Sending one packet *)

(** Memory after one packet is sent from the buffer at [a]. *)
Record packet_sent (m m' : mem) (a idx cyc : Z) : Prop := MkSent {
  ps_hdr : read_udp_packet m' a = sent_headers m a idx;
  ps_idx : ld64 m' (a + hdr_size + idx_off pl) = u64 idx;
  ps_ts : ld64 m' (a + hdr_size + ts_off pl) = u64 cyc;
  ps_out : forall b, b < a \/ a + pkt_size pl <= b -> rd8 m' b = rd8 m b;
}.

Lemma send_on_dpa_spec n lk base sz d d' (w w' : World F) :
  sq_rep LOG_SQ_RING_DEPTH n lk (sq_ctx (sc_q d)) w ->
  dt_ctx (sc_q d) = MkDt base (u32 n) (2 ^ LOG_SQ_RING_DEPTH - 1) ->
  send_on_dpa pl sz d w = (d', w') ->
  let a := base + (n mod 2 ^ LOG_SQ_RING_DEPTH) * 2 ^ LOG_WQ_DATA_ENTRY_BSIZE in
  packet_sent (w_mem w) (w_mem w') a (send_index d) (cycles_at (w_tick w)) /\
  posted w' (data_slot LOG_SQ_RING_DEPTH (sq_ctx (sc_q d)) n) a sz lk /\
  sq_rep LOG_SQ_RING_DEPTH (n + 1) lk (sq_ctx (sc_q d')) w' /\
  sc_q d' = set_sq_ctx (sq_ctx (sc_q d'))
    (set_dt_ctx (MkDt base (u32 (n + 1)) (2 ^ LOG_SQ_RING_DEPTH - 1)) (sc_q d)) /\
  d' = set_sc_q (sc_q d') d /\
  sq_pi (sq_ctx (sc_q d')) = u32 (sq_pi (sq_ctx (sc_q d)) + 1) /\
  w_cq w' = w_cq w /\ w_rq w' = w_rq w /\ w_tick w' = S (w_tick w) /\
  w_trace w' = w_trace w ++ [EvMemoryWriteback;
    EvSqRingDb (u32 (sq_pi (sq_ctx (sc_q d)) + 1)) (sq_number (sq_ctx (sc_q d)))].
Proof.
  intros Rs Hdt E a. unfold send_on_dpa in E. rewrite Hdt in E.
  rewrite next_send_buf in E by (unfold LOG_SQ_RING_DEPTH, LOG_WQ_DATA_ENTRY_BSIZE; lia). fold a in E.
  set (w1 := set_mem (prepare_packet (w_mem w) a (send_index d)) w) in E.
  destruct (prepare_send_packet (sq_ctx (sc_q d)) a sz w1) as [sq1 w2] eqn:Ep.
  assert (sq_rep LOG_SQ_RING_DEPTH n lk (sq_ctx (sc_q d)) w1) as Rs1 by (by eapply sq_rep_frame; [|exact Rs]).
  destruct (sq_rep_prepare LOG_SQ_RING_DEPTH ltac:(unfold LOG_SQ_RING_DEPTH; lia) _ _ _ _ _ _ _ _ Rs1 Ep)
    as (Rp & -> & Pb & Pa & Pk & _ & Hw2).
  destruct (stamp_spec a (send_index d) w2) as (Si & St & So & Sw).
  set (w3 := stamp pl a (send_index d) w2) in *. clearbody w3.
  rewrite is_finish_dpa in E. cbn in E. injection E as <- <-.
  assert (w_mem w2 = prepare_packet (w_mem w) a (send_index d) /\ w_tick w2 = w_tick w /\ w_cq w2 = w_cq w /\
    w_rq w2 = w_rq w /\ w_trace w2 = w_trace w) as (M2 & T2 & C2 & R2 & E2) by (by rewrite Hw2).
  assert (w_tick w3 = S (w_tick w2) /\ w_cq w3 = w_cq w2 /\ w_rq w3 = w_rq w2 /\ w_sq w3 = w_sq w2 /\
    w_trace w3 = w_trace w2) as (T3 & C3 & R3 & S3 & E3) by (by rewrite Sw).
  rewrite M2 in So. rewrite T2 in St, T3. cbn [w_mem w_sq w_cq w_rq w_tick w_trace sc_q set_sc_q sq_ctx set_sq_ctx].
  split; [split|split_and!].
  - rewrite (read_udp_packet_ext _ (prepare_packet (w_mem w) a (send_index d)));
      [apply send_packet_headers|]. intros b Hb. apply So. lia.
  - exact Si.
  - exact St.
  - intros b Hb. destruct Hpl as [Hts Hidx _ _]. unfold pkt_size, hdr_size in *.
    rewrite So by lia. apply send_packet_out. unfold hdr_size. lia.
  - unfold posted, sqe_at. cbn [w_sq]. rewrite S3. by split_and!.
  - destruct Rp as [A B C]. split; [done|done|]. intros k Hk. rewrite <- (C k Hk). unfold sqe_at. cbn [w_sq].
    by rewrite S3.
  - done.
  - by destruct d.
  - done.
  - by rewrite C3.
  - by rewrite R3.
  - by rewrite T3.
  - by rewrite E3, E2.
Qed.

End Headers.

(** ** Receiving and answering *)

Section Answer.
Context {F : FlexioDev} `{!FlexioDevLaws F}.
Variables (pl : payload) (Hpl : payload_ok pl) (ring lk base : Z).

(** [c] completions consumed with [pend] waiting, [n] packets sent; transmit
    buffers and send-ring entries advance together. *)
Record send_rep (c : Z) (pend : list cqe64) (n : Z) (d : send_context) (w : World F) : Prop := MkSendRep {
  sr_cq : cq_rep LOG_CQ_RING_DEPTH c pend (rqcq_ctx (sc_q d)) w;
  sr_ring : cq_ring (rqcq_ctx (sc_q d)) = ring;
  sr_sq : sq_rep LOG_SQ_RING_DEPTH n lk (sq_ctx (sc_q d)) w;
  sr_dt : dt_ctx (sc_q d) = MkDt base (u32 n) (2 ^ LOG_SQ_RING_DEPTH - 1);
}.

Lemma send_count_frame cyc d :
  sc_q (count_packet cyc d) = sc_q d /\ send_index (count_packet cyc d) = u64 (send_index d + 1).
Proof. unfold count_packet. by case_match. Qed.

(** The transmit buffer of the [n]-th packet. *)
Definition tx_entry (n : Z) : Z := base + (n mod 2 ^ LOG_SQ_RING_DEPTH) * 2 ^ LOG_WQ_DATA_ENTRY_BSIZE.

Lemma process_packet_step c e pend n d d' (w w' : World F) :
  send_rep c (e :: pend) n d w -> process_packet pl d w = (d', w') ->
  flexio_dev_cqe_get_byte_cnt e = pkt_size pl ->
  packet_sent pl (w_mem w) (w_mem w') (tx_entry n) (u64 (send_index d + 1)) (cycles_at (S (w_tick w))) /\
  posted w' (data_slot LOG_SQ_RING_DEPTH (sq_ctx (sc_q d)) n) (tx_entry n) (pkt_size pl) lk /\
  send_rep c (e :: pend) (n + 1) d' w' /\
  send_index d' = u64 (send_index d + 1) /\
  rq_ctx (sc_q d') = rq_ctx (sc_q d) /\
  w_trace w' = w_trace w ++ [EvMemoryWriteback;
    EvSqRingDb (u32 (sq_pi (sq_ctx (sc_q d)) + 1)) (sq_number (sq_ctx (sc_q d)))].
Proof.
  intros [Rc Hr Rs Hdt] E Hsz. unfold process_packet, thread_cycles, receive_packet in E.
  assert (cqe_at (tick w) (cqe (rqcq_ctx (sc_q d))) = e) as He by (apply (cq_rep_head _ _ _ _ _ _ Rc)).
  rewrite He, Hsz, Z.eqb_refl in E. cbn [negb] in E.
  set (cyc := u64 _) in E. destruct (send_count_frame cyc d) as [Hq Hi].
  set (d1 := count_packet cyc d) in *. clearbody d1 cyc.
  destruct (send_on_dpa_spec pl Hpl n lk base (pkt_size pl) d1 d' (tick w) w')
    as (Hsent & Hp & Rs' & Hq' & Hd' & Hpi & Hcq & _ & _ & Ht); [rewrite Hq; by eapply sq_rep_frame; [|exact Rs]|by rewrite Hq|done|].
  rewrite Hq, Hi in *. cbn [w_mem tick w_tick w_trace w_cq] in *.
  split_and!; try done.
  - split; [rewrite Hq'; by eapply cq_rep_frame; [|exact Rc]|by rewrite Hq'|done|by rewrite Hq'].
  - rewrite Hd'. done.
  - by rewrite Hq'.
Qed.

(** C37.  With the transmit buffer in device memory both packet generators answer a packet of the expected size with a fresh
    one: it is built in the next transmit buffer with the fixed headers, numbered
    with the next packet number in the IP identification and in the payload, stamped
    with the cycle counter, posted with the expected size in the next send-ring
    entry and announced with one doorbell, and nothing else in memory changes.  A
    packet of any other size is dropped: only the cycle counter has been read. *)
Theorem sender_process_packet c e pend n d d' (w w' : World F) :
  send_rep c (e :: pend) n d w -> process_packet pl d w = (d', w') ->
  if decide (flexio_dev_cqe_get_byte_cnt e = pkt_size pl) then
    let idx := u64 (send_index d + 1) in
    let a := tx_entry n in
    read_udp_packet (w_mem w') a = sent_headers (w_mem w) a idx /\
    ld64 (w_mem w') (a + hdr_size + idx_off pl) = idx /\
    ld64 (w_mem w') (a + hdr_size + ts_off pl) = u64 (cycles_at (S (w_tick w))) /\
    (forall b, b < a \/ a + pkt_size pl <= b -> rd8 (w_mem w') b = rd8 (w_mem w) b) /\
    posted w' (data_slot LOG_SQ_RING_DEPTH (sq_ctx (sc_q d)) n) a (pkt_size pl) lk /\
    send_index d' = idx /\ send_rep c (e :: pend) (n + 1) d' w' /\
    w_trace w' = w_trace w ++ [EvMemoryWriteback;
      EvSqRingDb (u32 (sq_pi (sq_ctx (sc_q d)) + 1)) (sq_number (sq_ctx (sc_q d)))]
  else d' = d /\ w' = tick w.
Proof.
  intros R E. case_decide as Hsz.
  - destruct (process_packet_step c e pend n d d' w w' R E Hsz) as ([Hh Hi Ht Ho] & Hp & R' & Hd & _ & Htr).
    cbn. rewrite Hi. split_and!; try done. apply wrapu_wrapu.
  - destruct R as [Rc _ _ _]. unfold process_packet, thread_cycles, receive_packet in E.
    assert (cqe_at (tick w) (cqe (rqcq_ctx (sc_q d))) = e) as He by (apply (cq_rep_head _ _ _ _ _ _ Rc)).
    rewrite He, (proj2 (Z.eqb_neq _ _) Hsz) in E. cbn [negb] in E. by injection E as <- <-.
Qed.

(** ** The ping-pong with a peer that returns every packet *)

Definition is_doorbell (ev : event) : bool := match ev with EvSqRingDb _ _ => true | _ => false end.
Definition doorbells (t : list event) : nat := length (List.filter is_doorbell t).

Lemma doorbells_app t t' : doorbells (t ++ t') = (doorbells t + doorbells t')%nat.
Proof. unfold doorbells. by rewrite List.filter_app, length_app. Qed.

Lemma turn_step stk c e pend n d d' (w w' : World F) :
  send_rep c (e :: pend) n d w -> handler_turn pl stk 0 d w = (d', w') ->
  flexio_dev_cqe_get_byte_cnt e = pkt_size pl ->
  send_rep (c + 1) pend (n + 1) d' w' /\ send_index d' = u64 (send_index d + 1) /\
  doorbells (w_trace w') = S (doorbells (w_trace w)).
Proof.
  intros R E Hsz. unfold handler_turn in E. change (truthy 0) with false in E. cbn iota in E.
  destruct (process_packet pl d w) as [d1 w1] eqn:E1.
  destruct (process_packet_step c e pend n d d1 w w1 R E1 Hsz) as (_ & _ & [Rc Hr Rs Hdt] & Hi & _ & Ht).
  unfold step_queues, step_rq in E. set (we := emit _ w1) in E.
  destruct (step_cq (rqcq_ctx (sc_q d1)) we) as [cq2 w2] eqn:Ec. injection E as <- <-.
  assert (cq_rep LOG_CQ_RING_DEPTH c (e :: pend) (rqcq_ctx (sc_q d1)) we) as Rc'
    by (by eapply cq_rep_frame; [|exact Rc]).
  pose proof (cq_rep_step LOG_CQ_RING_DEPTH ltac:(unfold LOG_CQ_RING_DEPTH; lia) _ _ _ _ _ _ _ Rc' Ec) as Rc2.
  unfold step_cq in Ec. injection Ec as <- <-. split_and!.
  - split; cbn; [exact Rc2|exact Hr|by eapply sq_rep_frame; [|exact Rs]|exact Hdt].
  - exact Hi.
  - unfold we, emit. cbn [w_trace]. rewrite Ht, !doorbells_app. cbn. lia.
Qed.

(** One completion per outer turn, at ring positions [c], [c+1], ... *)
Fixpoint echoes (c : Z) (es : list cqe64) : list (World F -> World F) :=
  match es with
  | [] => []
  | e :: es => nic_write LOG_CQ_RING_DEPTH ring c e :: echoes (c + 1) es
  end.

Lemma poll_echoes stk fuel c n es d (w : World F) :
  (0 < fuel)%nat -> send_rep c [] n d w -> 0 <= send_index d < 2 ^ 64 ->
  (forall k e, es !! k = Some e -> flexio_dev_cqe_get_byte_cnt e = pkt_size pl /\
     flexio_dev_cqe_get_owner e = ((c + Z.of_nat k) / 2 ^ LOG_CQ_RING_DEPTH) mod 2) ->
  exists d' w', poll (fun d => rqcq_ctx (sc_q d)) (handler_turn pl stk 0) fuel (echoes c es) d w = Some (d', w') /\
    send_rep (c + Z.of_nat (length es)) [] (n + Z.of_nat (length es)) d' w' /\
    send_index d' = u64 (send_index d + Z.of_nat (length es)) /\
    doorbells (w_trace w') = (doorbells (w_trace w) + length es)%nat.
Proof.
  intros Hf. revert c n d w. induction es as [|e es IH]; intros c n d w R Hi He.
  { exists d, w. cbn [echoes poll length]. rewrite !Z.add_0_r. split_and!; [done|done|by rewrite wrapu_small|lia]. }
  destruct (He 0%nat e eq_refl) as [Hsz Ho]. rewrite Z.add_0_r in Ho. cbn [echoes poll].
  set (w1 := nic_write LOG_CQ_RING_DEPTH ring c e w).
  assert (send_rep c [e] n d w1) as R1.
  { destruct R as [Rc Hr Rs Hdt]. unfold w1. rewrite <- Hr. split; [|done| |done].
    - refine (eq_rect _ (fun z => cq_rep _ c [e] _ (nic_write _ _ z e w)) _ c _);
        [|exact (Z.add_0_r c)].
      apply (cq_rep_deliver LOG_CQ_RING_DEPTH ltac:(unfold LOG_CQ_RING_DEPTH; lia) c [] _ _ e); [done| |done].
      cbn. by rewrite Z.add_0_r.
    - by eapply sq_rep_frame; [|exact Rs]. }
  destruct fuel as [|fuel]; [lia|]. cbn [drain].
  rewrite (cq_rep_ready LOG_CQ_RING_DEPTH ltac:(unfold LOG_CQ_RING_DEPTH; lia) _ _ _ _ (sr_cq _ _ _ _ _ R1)).
  destruct (handler_turn pl stk 0 d w1) as [d2 w2] eqn:Et.
  destruct (turn_step stk c e [] n d d2 w1 w2 R1 Et Hsz) as (R2 & Hi2 & Hd2).
  assert (drain (fun d => rqcq_ctx (sc_q d)) (handler_turn pl stk 0) fuel d2 w2 = Some (d2, w2)) as ->.
  { destruct fuel; cbn [drain];
      by rewrite (cq_rep_ready LOG_CQ_RING_DEPTH ltac:(unfold LOG_CQ_RING_DEPTH; lia) _ _ _ _ (sr_cq _ _ _ _ _ R2)). }
  destruct (IH (c + 1) (n + 1) d2 w2 R2) as (d' & w' & -> & R' & Hi' & Hd').
  { rewrite Hi2. apply wrapu_range. lia. }
  { intros k x Hk. destruct (He (S k) x Hk) as [H1 H2]. split; [done|]. rewrite H2. do 2 f_equal. lia. }
  exists d', w'. split; [done|]. cbn [length].
  replace (c + Z.of_nat (S (length es))) with (c + 1 + Z.of_nat (length es)) by lia.
  replace (n + Z.of_nat (S (length es))) with (n + 1 + Z.of_nat (length es)) by lia.
  split_and!; [done| |].
  - rewrite Hi', Hi2, wrapu_add_l. f_equal. lia.
  - rewrite Hd', Hd2. change (w_trace w1) with (w_trace w). lia.
Qed.

End Answer.

(** ** From initialisation *)

Section Run.
Context {F : FlexioDev} `{!FlexioDevLaws F}.
Variables (pl : payload) (Hpl : payload_ok pl).

Lemma init_send_rep shared d0 d1 (w0 w1 : World F) :
  cq_prepared LOG_CQ_RING_DEPTH shared w0 -> dpa_send_device_init shared d0 w0 = (0, d1, w1) ->
  send_rep (cq_ring_daddr (rq_cq_data shared)) (wqd_mkey_id (sq_data shared)) (wqd_daddr (sq_data shared))
    0 [] 0 d1 w1 /\
  send_index d1 = 1 /\ is_initalized (sc_q d1) = 1 /\ doorbells (w_trace w1) = doorbells (w_trace w0) /\
  sc_rq_on_host d1 = daddr_on_host (rq_data shared) /\ sc_sq_on_host d1 = daddr_on_host (sq_data shared).
Proof.
  intros Hp E. unfold dpa_send_device_init in E.
  destruct (init_send_sq _ _ _ _) as [sq w] eqn:Es. injection E as <- <-.
  apply (sq_rep_init LOG_SQ_RING_DEPTH ltac:(unfold LOG_SQ_RING_DEPTH; lia)) in Es as (R & _ & _ & _ & Hw).
  split_and!; [split|done|done| |done|done].
  - eapply cq_rep_frame; [|apply (cq_rep_init LOG_CQ_RING_DEPTH ltac:(unfold LOG_CQ_RING_DEPTH; lia)), Hp].
    cbn. by rewrite Hw.
  - done.
  - by eapply sq_rep_frame; [|exact R].
  - done.
  - unfold emit. cbn [w_trace]. rewrite doorbells_app. change (doorbells [EvMemoryWriteback]) with 0%nat.
    replace (w_trace w) with (w_trace w0) by (by rewrite Hw). lia.
Qed.

(** Mapping the buffers rings no doorbell. *)
Lemma get_host_buffer_doorbells id k a b (w w' : World F) :
  get_host_buffer_with_dtctx id k a w = (b, w') -> doorbells (w_trace w') = doorbells (w_trace w).
Proof.
  intros E. unfold get_host_buffer_with_dtctx, window_config, window_ptr_acquire in E.
  repeat case_match; simplify_eq; unfold emit; cbn [w_trace set_window];
    rewrite doorbells_app; apply Nat.add_0_r.
Qed.

Lemma map_rx_doorbells oh ohs h hs hd (d : host_rq_ctx_t) (w w1 w2 : World F) :
  map_tx_buff ohs hd w1 = (hs, w2) -> map_rx_buff oh d w = (h, w1) ->
  doorbells (w_trace w2) = doorbells (w_trace w).
Proof.
  intros E2 E1. transitivity (doorbells (w_trace w1)).
  - unfold map_tx_buff in E2. destruct (truthy ohs); [|by injection E2 as <- <-].
    destruct (get_host_buffer_with_dtctx _ _ _ _) as [b w'] eqn:Eb. injection E2 as <- <-.
    by eapply get_host_buffer_doorbells.
  - unfold map_rx_buff in E1. destruct (truthy oh); [|by injection E1 as <- <-].
    destruct (get_host_buffer_with_dtctx _ _ _ _) as [b w'] eqn:Eb. injection E1 as <- <-.
    by eapply get_host_buffer_doorbells.
Qed.

Lemma map_buffs_rep ring lk base c pend n oh ohs h hs (d : send_context) (w w1 w2 : World F) :
  map_rx_buff oh (sc_host_rq d) w = (h, w1) -> map_tx_buff ohs (sc_host_sq d) w1 = (hs, w2) ->
  send_rep ring lk base c pend n d w -> send_rep ring lk base c pend n (set_sc_host_sq hs (set_sc_host_rq h d)) w2.
Proof.
  intros E1 E2 [Rc Hr Rs Hdt]. apply map_rx_buff_frame in E1 as (C1 & S1 & _).
  assert (w_cq w2 = w_cq w1 /\ w_sq w2 = w_sq w1) as [C2 S2].
  { unfold map_tx_buff in E2. destruct (truthy ohs); [|by injection E2 as <- <-].
    destruct (get_host_buffer_with_dtctx _ _ _ _) as [b w'] eqn:Eb.
    apply get_host_buffer_frame in Eb as (? & ? & _). by injection E2 as <- <-. }
  split; cbn; [eapply cq_rep_frame; [|exact Rc]; congruence|done|eapply sq_rep_frame; [|exact Rs]; congruence|done].
Qed.

(** The generators keep the exchange going: after initialisation and the
    first packet, against a peer that returns a packet of the expected size for
    every packet sent, the event handler answers every one of them, for any number
    of rounds, through all wrap-arounds of the rings; after [n] returns [n + 1]
    packets have been announced and the packet number is [n + 1]. *)
Theorem sender_pingpong stk fuel shared es d0 d1 d2 (w0 w1 w2 : World F) :
  cq_prepared LOG_CQ_RING_DEPTH shared w0 -> daddr_on_host (sq_data shared) = 0 ->
  dpa_send_device_init shared d0 w0 = (0, d1, w1) ->
  dpa_send_deivce_first_packet pl stk d1 w1 = (0, d2, w2) ->
  snd flexio_dev_get_thread_ctx <> 0 -> (0 < fuel)%nat ->
  (forall k e, es !! k = Some e -> flexio_dev_cqe_get_byte_cnt e = pkt_size pl /\
     flexio_dev_cqe_get_owner e = (Z.of_nat k / 2 ^ LOG_CQ_RING_DEPTH) mod 2) ->
  exists d3 w3,
    dpa_send_device_event_handler pl stk fuel (echoes (cq_ring_daddr (rq_cq_data shared)) 0 es) d2 w2
      = Polling d3 w3 /\
    send_index d3 = u64 (1 + Z.of_nat (length es)) /\
    doorbells (w_trace w3) = (doorbells (w_trace w0) + 1 + length es)%nat.
Proof.
  intros Hp Hh E1 E2 Hctx Hf He.
  destruct (init_send_rep _ _ _ _ _ Hp E1) as ([Rc Hr Rs Hdt] & Hi & Hini & Hdb & _ & Hsh). rewrite Hh in Hsh.
  unfold dpa_send_deivce_first_packet in E2. rewrite Hsh in E2. change (truthy 0) with false in E2. cbn iota in E2.
  destruct (send_on_dpa pl (pkt_size pl) d1 w1) as [d2' w2'] eqn:Es. injection E2 as -> ->.
  destruct (send_on_dpa_spec pl Hpl 0 _ _ _ _ _ _ _ Rs Hdt Es)
    as (_ & _ & Rs2 & Hq2 & Hd2 & _ & Hcq & _ & _ & Ht).
  set (ring := cq_ring_daddr (rq_cq_data shared)) in *.
  assert (send_rep ring (wqd_mkey_id (sq_data shared)) (wqd_daddr (sq_data shared)) 0 [] 1 d2 w2) as R2.
  { split; [rewrite Hq2; by eapply cq_rep_frame; [|exact Rc]|by rewrite Hq2|exact Rs2|by rewrite Hq2]. }
  assert (send_index d2 = 1 /\ is_initalized (sc_q d2) = 1 /\ sc_sq_on_host d2 = 0) as (Hi2 & Hini2 & Hsh2).
  { split_and!; [by rewrite Hd2|by rewrite Hq2|by rewrite Hd2]. }
  unfold dpa_send_device_event_handler. rewrite Hini2, Hsh2. change (1 =? 0) with false. cbn iota.
  destruct (map_rx_buff _ _ w2) as [h w3] eqn:Em.
  destruct (map_tx_buff 0 (sc_host_sq (set_sc_host_rq h d2)) w3) as [hs w4] eqn:Em2.
  pose proof (map_buffs_rep _ _ _ _ _ _ _ _ _ _ _ _ _ _ Em Em2 R2) as R4.
  set (d4 := set_sc_host_sq hs (set_sc_host_rq h d2)) in *.
  assert (doorbells (w_trace w4) = doorbells (w_trace w2)) as Hdb4.
  { exact (map_rx_doorbells _ _ _ _ _ _ _ _ _ Em2 Em). }
  unfold poll_or_exit. rewrite (proj2 (Z.eqb_neq _ 0) Hctx).
  destruct (poll_echoes pl Hpl ring _ _ stk fuel 0 1 es d4 w4 Hf R4) as (d5 & w5 & -> & _ & Hi5 & Hd5).
  - change (send_index d4) with (send_index d2). rewrite Hi2. lia.
  - intros k e Hk. rewrite Z.add_0_l. by apply He.
  - exists d5, w5. split; [done|]. split.
    + rewrite Hi5. change (send_index d4) with (send_index d2). by rewrite Hi2.
    + rewrite Hd5, Hdb4, Ht, doorbells_app, Hdb. cbn. lia.
Qed.

End Run.

(** ** Witnesses *)

Definition demo_send_init : Z * send_context * World ref_flexio :=
  dpa_send_device_init (demo_shared 0) zero_send empty_world.
Definition demo_send_d : send_context := snd (fst demo_send_init).
Definition demo_send_w : World ref_flexio := snd demo_send_init.

Lemma demo_send_eq : dpa_send_device_init (demo_shared 0) zero_send empty_world = (0, demo_send_d, demo_send_w).
Proof. unfold demo_send_d, demo_send_w, demo_send_init, dpa_send_device_init. by destruct (init_send_sq _ _ _ _). Qed.

#[local] Opaque init_send_sq.

(** A packet of 64 bytes waits. *)
Definition demo_send_w1 : World ref_flexio :=
  nic_write (F := ref_flexio) 7 4096 0 (RefCqe 0 0 64) demo_send_w.

Lemma demo_send_rep :
  send_rep (F := ref_flexio) 4096 77 70000 0 [RefCqe 0 0 64] 0 demo_send_d demo_send_w1.
Proof.
  destruct (init_send_rep (F := ref_flexio) (demo_shared 0) zero_send demo_send_d empty_world demo_send_w)
    as ([Rc Hr Rs Hdt] & _); [intros i Hi; reflexivity|apply demo_send_eq|].
  change (cq_ring_daddr (rq_cq_data (demo_shared 0))) with 4096 in Hr.
  split; [|exact Hr| |exact Hdt].
  - pose proof (cq_rep_deliver (F := ref_flexio) 7 ltac:(lia) 0 [] (rqcq_ctx (sc_q demo_send_d)) demo_send_w
      (RefCqe 0 0 64) eq_refl eq_refl Rc) as R. rewrite Hr in R. exact R.
  - unfold demo_send_w1. eapply sq_rep_frame; [apply w_sq_nic_write|exact Rs].
Qed.

Lemma sender_process_packet_witness :
  ld64 (w_mem (snd (process_packet (F := ref_flexio) send_payload demo_send_d demo_send_w1))) (70000 + 42 + 8)
    = u64 (send_index demo_send_d + 1).
Proof.
  destruct (process_packet (F := ref_flexio) send_payload demo_send_d demo_send_w1) as [d' w'] eqn:E.
  pose proof (sender_process_packet (F := ref_flexio) send_payload send_payload_ok 4096 77 70000 0 (RefCqe 0 0 64) [] 0
    demo_send_d d' demo_send_w1 w' demo_send_rep E) as H.
  rewrite decide_True in H by reflexivity. exact (proj1 (proj2 H)).
Defined.

(** The NTP variant, two returned packets of 114 bytes. *)
Lemma sender_pingpong_witness :
  exists d2 w2 d3 w3,
    dpa_send_deivce_first_packet (F := ref_flexio) ntp_payload ∅ demo_send_d demo_send_w = (0, d2, w2) /\
    dpa_send_device_event_handler (F := ref_flexio) ntp_payload ∅ 1
      (echoes (F := ref_flexio) 4096 0 [RefCqe 0 0 114; RefCqe 0 1 114]) d2 w2 = Polling d3 w3 /\
    send_index d3 = 3.
Proof.
  destruct (dpa_send_deivce_first_packet (F := ref_flexio) ntp_payload ∅ demo_send_d demo_send_w)
    as [[r d2] w2] eqn:E.
  assert (r = 0) as ->.
  { unfold dpa_send_deivce_first_packet in E. destruct (truthy _); [destruct (map_tx_buff _ _ _)|];
      [destruct (send_on_host _ _ _ _ _)|destruct (send_on_dpa _ _ _ _)]; by injection E as <- <- <-. }
  destruct (sender_pingpong (F := ref_flexio) ntp_payload ntp_payload_ok ∅ 1 (demo_shared 0)
    [RefCqe 0 0 114; RefCqe 0 1 114] zero_send demo_send_d d2 empty_world demo_send_w w2) as (d3 & w3 & H1 & H2 & _).
  - intros i Hi. reflexivity.
  - reflexivity.
  - exact demo_send_eq.
  - exact E.
  - discriminate.
  - apply Nat.leb_le. reflexivity.
  - intros [|[|k]] e Hk; [injection Hk as <-; split; reflexivity|injection Hk as <-; split; reflexivity|discriminate Hk].
  - exists d2, w2, d3, w3. split; [reflexivity|]. split; [exact H1|exact H2].
Defined.
