(* ===== verification/DpaSendMt.v ===== *)
(** * DpaSendMt: the multi-threaded packet generator

    Translation of [flexio/dpa_send_mt/device/dpa_send_device_mt.c] with its
    configuration ([TO_DPA_DST] 0, [ONLY_SEND] 1, [DISPLAY_COUNT] 0) and of
    [flexio/dpa_send_mt/common/dpa_send_common.h].  A thread sends packet after
    packet until the stop RPC, which runs on another thread, sets [is_stop]: each
    element of [env] is one evaluation of the loop condition, with the value read
    and what the NIC did before it. *)

From S2P Require Import Prelude Machine FlexioDev WrapperDevice PacketHdr DevCommon RingProtocol Reflector PacketLoop DpaSend.

Definition MAX_THREADS : Z := 190.
Definition THREAD_CREDITS : Z := 8.
Definition TO_DPA_DST : Z := 0.
Definition ONLY_SEND : Z := 1.
Definition DISPLAY_COUNT : Z := 0.
Definition hdr_size : Z := 42.
Definition data_size : Z := 22.
Definition pkt_size : Z := hdr_size + data_size.
Definition LOG_SQ_RING_DEPTH : Z := 7.
Definition LOG_RQ_RING_DEPTH : Z := 7.
Definition LOG_CQ_RING_DEPTH : Z := 7.
Definition LOG_WQ_DATA_ENTRY_BSIZE : Z := 10.
Definition DST_ADDR : list Z := [0xA0; 0x88; 0xC2; 0x32; 0x04; 0x30].
Definition SRC_ADDR : list Z := [0x02; 0x01; 0x01; 0x01; 0x01; 0x01].

Record device_context := MkMt {
  mt_q : dev_queues;
  mt_host_rq : host_rq_ctx_t;
  mt_host_sq : host_sq_ctx_t;
  credits : Z;
  mt_thread_index : Z;
  mt_rq_on_host : Z;
  mt_sq_on_host : Z;
  mt_packets_count : Z;
  mt_send_index : Z;
}.

Definition zero_mt : device_context := MkMt zero_queues zero_host_rq zero_host_sq 0 0 0 0 0 0.
Abbreviation dev_ctxs_t := (list device_context).
Definition dev_ctxs_zero : dev_ctxs_t := replicate (Z.to_nat MAX_THREADS) zero_mt.

Definition set_mt_q (q : dev_queues) (d : device_context) : device_context :=
  MkMt q (mt_host_rq d) (mt_host_sq d) (credits d) (mt_thread_index d) (mt_rq_on_host d)
    (mt_sq_on_host d) (mt_packets_count d) (mt_send_index d).
Definition set_mt_host (hr : host_rq_ctx_t) (hs : host_sq_ctx_t) (d : device_context) : device_context :=
  MkMt (mt_q d) hr hs (credits d) (mt_thread_index d) (mt_rq_on_host d)
    (mt_sq_on_host d) (mt_packets_count d) (mt_send_index d).
Definition set_credits (c : Z) (d : device_context) : device_context :=
  MkMt (mt_q d) (mt_host_rq d) (mt_host_sq d) c (mt_thread_index d) (mt_rq_on_host d)
    (mt_sq_on_host d) (mt_packets_count d) (mt_send_index d).

Section Device.
Context {F : FlexioDev}.

Definition init_cq : app_transfer_cq -> cq_ctx_t := init_cq_with LOG_CQ_RING_DEPTH.
Definition init_rq : app_transfer_wq -> rq_ctx_t := init_rq_with LOG_RQ_RING_DEPTH.
Definition init_sq : app_transfer_wq -> sq_ctx_t -> sq_ctx_t := init_sq_with LOG_SQ_RING_DEPTH.

(** The two addresses at [a]: [addr_bytes[5] += thread_index] on the source. *)
Definition set_macs (m : mem) (a thread_index : Z) : mem :=
  let m := wrbytes m (a + o_eth_src) SRC_ADDR in
  let m := st8 m (a + o_eth_src + 5) (rd8 m (a + o_eth_src + 5) + thread_index) in
  wrbytes m (a + o_eth_dst) DST_ADDR.

Definition prepare_packet (m : mem) (sq_data thread_index : Z) : mem :=
  let m := set_macs m sq_data thread_index in
  let m := st16 m (sq_data + o_ether_type) (cpu_to_be16 0x0800) in
  let m := st8 m (sq_data + o_version_ihl) 0x45 in
  let m := st8 m (sq_data + o_type_of_service) 0 in
  let m := st16 m (sq_data + o_total_length) (cpu_to_be16 (8 * 2 + sizeof_udp_hdr + sizeof_ipv4_hdr)) in
  let m := st16 m (sq_data + o_packet_id) (cpu_to_be16 thread_index) in
  let m := st16 m (sq_data + o_fragment_offset) (cpu_to_be16 0) in
  let m := st8 m (sq_data + o_time_to_live) 64 in
  let m := st8 m (sq_data + o_next_proto_id) 17 in
  let m := st32 m (sq_data + o_ip_src_addr) (cpu_to_be16 thread_index) in
  let m := st32 m (sq_data + o_ip_dst_addr) (cpu_to_be16 thread_index) in
  let m := st16 m (sq_data + o_dgram_len) (cpu_to_be16 (8 * 2 + sizeof_udp_hdr)) in
  let m := st16 m (sq_data + o_src_port) (cpu_to_be16 thread_index) in
  st16 m (sq_data + o_dst_port) (cpu_to_be16 thread_index).

Definition prepare_packet_host (stk : mem) (sq_data thread_index : Z) (w : World F) : World F :=
  copy_to_host sq_data
    (rdbytes (prepare_packet stk 0 thread_index) 0 (Z.to_nat sizeof_udp_packet)) w.

(** The receiving halves, compiled out of the handler. *)
Definition receive_packet_on_dpa (d : device_context) (w : World F) : device_context :=
  let '(rq_data, data_sz) := receive_packet (rqcq_ctx (mt_q d)) (rq_ctx (mt_q d)) w in
  if negb (data_sz =? pkt_size) then d else set_credits (u8 (credits d + 1)) d.
Definition receive_packet_on_host (d : device_context) (w : World F) : device_context :=
  let '(rq_data, data_sz) := receive_packet (rqcq_ctx (mt_q d)) (rq_ctx (mt_q d)) w in
  if negb (data_sz =? pkt_size) then d else set_credits (u8 (credits d + 1)) d.

Definition send_packet_dpa (d : device_context) (w : World F) : device_context * World F :=
  let '(sq_data, dt) := get_next_send_buf (dt_ctx (mt_q d)) LOG_WQ_DATA_ENTRY_BSIZE in
  let w := set_mem (set_macs (w_mem w) sq_data (mt_thread_index d)) w in
  let '(sq, w) := prepare_send_packet (sq_ctx (mt_q d)) sq_data pkt_size w in
  let d := set_credits (u8 (credits d - 1)) d in
  let '(sq, w) := finish_send_packet sq w in
  (set_mt_q (set_sq_ctx sq (set_dt_ctx dt (mt_q d))) d, w).

Definition send_packet_on_host (d : device_context) (w : World F) : device_context * World F :=
  let '(sq_data, dt) := get_next_send_buf (dt_ctx (mt_q d)) LOG_WQ_DATA_ENTRY_BSIZE in
  let sq_data_dpa := host_sq_addr_to_dpa_addr sq_data (mt_host_sq d) in
  let w := set_mem (set_macs (w_mem w) sq_data_dpa (mt_thread_index d)) w in
  let '(sq, w) := prepare_send_packet (sq_ctx (mt_q d)) sq_data pkt_size w in
  let d := set_credits (u8 (credits d - 1)) d in
  let '(sq, w) := finish_send_packet_host sq w in
  (set_mt_q (set_sq_ctx sq (set_dt_ctx dt (mt_q d))) d, w).

Definition dpa_send_mt_device_init (shared_data : queue_config_data) (ds : dev_ctxs_t) (w : World F)
    : Z * dev_ctxs_t * World F :=
  if negb (thread_index shared_data <? MAX_THREADS) then (assert_failed, ds, w)
  else
    let i := Z.to_nat (thread_index shared_data) in
    let d := default zero_mt (ds !! i) in
    let lk := wqd_mkey_id (sq_data shared_data) in
    let hrq := MkHostRq (wqd_mkey_id (rq_data shared_data)) (new_buffer_mkey_id shared_data)
                 (wqd_daddr (rq_data shared_data)) (dpa_rx_buff (mt_host_rq d)) in
    let hsq := MkHostSq (wqd_mkey_id (sq_data shared_data)) (new_buffer_mkey_id shared_data)
                 (wqd_daddr (sq_data shared_data)) (dpa_tx_buff (mt_host_sq d)) in
    let rqcq := init_cq (rq_cq_data shared_data) in
    let rq := init_rq (rq_data shared_data) in
    let sqcq := init_cq (sq_cq_data shared_data) in
    let sq := init_sq (sq_data shared_data) (sq_ctx (mt_q d)) in
    let '(sq, w) := init_send_sq sq (LOG2VALUE LOG_SQ_RING_DEPTH) lk w in
    let dt := MkDt (wqd_daddr (sq_data shared_data)) 0 (Z.shiftl 1 LOG_SQ_RING_DEPTH - 1) in
    let d := MkMt (MkQueues lk 1 rqcq sqcq rq sq dt) hrq hsq THREAD_CREDITS
               (u8 (thread_index shared_data)) (daddr_on_host (rq_data shared_data))
               (daddr_on_host (sq_data shared_data)) (mt_packets_count d) 1 in
    (0, <[i := d]> ds, emit EvMemoryWriteback w).

(** The loops over the 128 entries of a thread's transmit buffer. *)
Fixpoint fill_entries (n : nat) (i : Z) (q : dev_queues) (m : mem) : dev_queues * mem :=
  match n with
  | O => (q, m)
  | S n =>
      let '(sq_data, dt) := get_next_send_buf (dt_ctx q) LOG_WQ_DATA_ENTRY_BSIZE in
      fill_entries n i (set_dt_ctx dt q) (prepare_packet m sq_data i)
  end.

Fixpoint fill_entries_host (n : nat) (stk : mem) (i : Z) (q : dev_queues) (w : World F)
    : dev_queues * World F :=
  match n with
  | O => (q, w)
  | S n =>
      let '(sq_data, dt) := get_next_send_buf (dt_ctx q) LOG_WQ_DATA_ENTRY_BSIZE in
      fill_entries_host n stk i (set_dt_ctx dt q) (prepare_packet_host stk sq_data i w)
  end.

(** One turn of the loop over the threads. *)
Definition first_packet_thread (stk : mem) (i : Z) (d : device_context) (w : World F)
    : device_context * World F :=
  if negb (truthy (is_initalized (mt_q d))) then (d, w)
  else if truthy (mt_sq_on_host d) then
    let '(hs, w) := map_tx_buff 1 (mt_host_sq d) w in
    let '(q, w) := fill_entries_host (Z.to_nat (LOG2VALUE LOG_SQ_RING_DEPTH)) stk i (mt_q d) w in
    (set_mt_q q (set_mt_host (mt_host_rq d) hs d), w)
  else
    let '(q, m) := fill_entries (Z.to_nat (LOG2VALUE LOG_SQ_RING_DEPTH)) i (mt_q d) (w_mem w) in
    (set_mt_q q d, set_mem m w).

Fixpoint first_packet_threads (stk : mem) (ds : dev_ctxs_t) (i : Z) (w : World F)
    : dev_ctxs_t * World F :=
  match ds with
  | [] => ([], w)
  | d :: ds =>
      let '(d, w) := first_packet_thread stk i d w in
      let '(ds, w) := first_packet_threads stk ds (i + 1) w in
      (d :: ds, w)
  end.

Definition dpa_send_mt_deivce_first_packet (stk : mem) (ds : dev_ctxs_t) (w : World F)
    : Z * dev_ctxs_t * World F :=
  let '(ds, w) := first_packet_threads stk ds 0 w in (0, ds, w).

(** The stop RPC: its value and the new value of [is_stop]. *)
Definition dpa_send_mt_stop : Z * Z := (0, 1).

(** [while (!is_stop) send();]: true when the loop has ended. *)
Fixpoint send_until_stop (send : device_context -> World F -> device_context * World F)
    (env : list (Z * (World F -> World F))) (d : device_context) (w : World F)
    : bool * device_context * World F :=
  match env with
  | [] => (false, d, w)
  | (is_stop, nic) :: env =>
      if truthy is_stop then (true, d, nic w)
      else let '(d, w) := send d (nic w) in send_until_stop send env d w
  end.

Definition dpa_send_mt_device_event_handler (env : list (Z * (World F -> World F)))
    (index : Z) (ds : dev_ctxs_t) (w : World F) : handler_result dev_ctxs_t :=
  match ds !! Z.to_nat index with
  | None => OutOfBounds
  | Some d =>
      if is_initalized (mt_q d) =? 0 then Rescheduled ds w
      else
        let rq_on_host := mt_rq_on_host d in
        let sq_on_host := mt_sq_on_host d in
        let '(hr, w) := map_rx_buff rq_on_host (mt_host_rq d) w in
        let '(hs, w) := map_tx_buff sq_on_host (mt_host_sq d) w in
        let d := set_mt_host hr hs d in
        let '(ended, d, w) :=
          send_until_stop (if truthy sq_on_host then send_packet_on_host else send_packet_dpa) env d w in
        let ds := <[Z.to_nat index := d]> ds in
        if ended then
          Rescheduled ds
            (emit (EvCqArm (cq_idx (rqcq_ctx (mt_q d))) (cq_number (rqcq_ctx (mt_q d)))) (emit EvFence w))
        else Polling ds w
  end.

End Device.


(** ** What the entries of the transmit buffer hold *)

Section Headers.
Context {F : FlexioDev} `{!FlexioDevLaws F}.

(** The source address of thread [t]. *)
Definition thread_src (t : Z) : list Z := [0x02; 0x01; 0x01; 0x01; 0x01; u8 (0x01 + t)].

(** The headers of thread [t]; [c1] and [c2] are the checksums the buffer held. *)
Definition mt_headers (t c1 c2 : Z) : udp_packet :=
  MkUdpPacket
    (MkEther DST_ADDR (thread_src t) (bswap 2 0x0800))
    (MkIp 0x45 0 (bswap 2 44) (bswap 2 t) 0 64 17 c1 (bswap 2 t) (bswap 2 t))
    (MkUdp (bswap 2 t) (bswap 2 t) (bswap 2 24) c2).

Lemma set_macs_out m a t b : b < a \/ a + 12 <= b -> rd8 (set_macs m a t) b = rd8 m b.
Proof. intros H. unfold set_macs. hdr_fields. done. Qed.

Lemma set_macs_dst m a t : rdbytes (set_macs m a t) a 6 = DST_ADDR.
Proof.
  unfold set_macs. unfold_offsets. rewrite Z.add_0_r.
  exact (rdbytes_wrbytes _ a DST_ADDR ltac:(repeat constructor; lia)).
Qed.

Lemma rdbytes_6 m b :
  rdbytes m b 6 = [rd8 m b; rd8 m (b + 1); rd8 m (b + 2); rd8 m (b + 3); rd8 m (b + 4); rd8 m (b + 5)].
Proof. unfold rdbytes. rewrite <- !Z.add_assoc. done. Qed.

Lemma rd8_src_addr m b k v :
  0 <= k < 6 -> SRC_ADDR !! Z.to_nat k = Some v -> rd8 (wrbytes m b SRC_ADDR) (b + k) = u8 v.
Proof.
  intros Hk Hv. rewrite rd8_wrbytes, decide_True by (cbn; lia).
  replace (b + k - b) with k by lia. by rewrite Hv.
Qed.

Lemma set_macs_src m a t : rdbytes (set_macs m a t) (a + 6) 6 = thread_src t.
Proof.
  unfold set_macs. unfold_offsets. rewrite Z.add_0_r. rewrite rdbytes_wrbytes_out by (cbn; lia).
  set (b := a + 6). rewrite (rd8_src_addr m b 5 0x01) by (lia || done). rewrite rdbytes_6. unfold st8.
  rewrite rd8_storele_hd, !rd8_storele_out by lia.
  rewrite <- (Z.add_0_r b) at 2.
  rewrite (rd8_src_addr m b 0 0x02), !(rd8_src_addr m b _ 0x01) by (lia || done). done.
Qed.

Lemma mt_packet_headers m a t :
  read_udp_packet (prepare_packet m a t) a = mt_headers t (ld16 m (a + o_hdr_checksum)) (ld16 m (a + o_dgram_cksum)).
Proof.
  unfold read_udp_packet, prepare_packet, mt_headers, sizeof_udp_hdr, sizeof_ipv4_hdr.
  set (m1 := set_macs m a t). hdr_fields. rewrite !u16_be16, !u32_be16.
  f_equal; f_equal; try (apply loadle_ext; intros b Hb; apply set_macs_out; lia).
  - rewrite Z.add_0_r. apply set_macs_dst.
  - apply set_macs_src.
Qed.

Lemma mt_packet_out m a t b :
  b < a \/ a + hdr_size <= b -> rd8 (prepare_packet m a t) b = rd8 m b.
Proof.
  intros H. unfold hdr_size in H. unfold prepare_packet. hdr_fields. apply set_macs_out. lia.
Qed.

(** Writing the addresses again keeps the headers. *)
Lemma set_macs_headers m a t c1 c2 :
  read_udp_packet m a = mt_headers t c1 c2 -> read_udp_packet (set_macs m a t) a = mt_headers t c1 c2.
Proof.
  intros H. pose proof (f_equal (fun p => eth_dst_addr (p_eth p)) H) as Hd.
  pose proof (f_equal (fun p => eth_src_addr (p_eth p)) H) as Hs. rewrite <- H.
  unfold read_udp_packet, mt_headers in *. unfold_offsets. cbn [eth_dst_addr eth_src_addr p_eth] in Hd, Hs.
  f_equal; f_equal; unfold ld16, ld32;
    try (apply loadle_ext; intros b Hb; apply set_macs_out; lia); try (apply set_macs_out; lia).
  - rewrite Hd, Z.add_0_r. apply set_macs_dst.
  - rewrite Hs. apply set_macs_src.
Qed.

(** ** The 128 entries *)

Definition entry (base p : Z) : Z := base + (p mod 2 ^ LOG_SQ_RING_DEPTH) * 2 ^ LOG_WQ_DATA_ENTRY_BSIZE.

Definition entry_ready (t a : Z) (m : mem) : Prop :=
  exists c1 c2, read_udp_packet m a = mt_headers t c1 c2.

(** Every entry of the transmit buffer holds the headers of thread [t]. *)
Definition tx_ready (t base : Z) (m : mem) : Prop := forall p, entry_ready t (entry base p) m.

Lemma entry_cases base p p' :
  entry base p = entry base p' \/
  entry base p + 1024 <= entry base p' \/ entry base p' + 1024 <= entry base p.
Proof.
  unfold entry, LOG_SQ_RING_DEPTH, LOG_WQ_DATA_ENTRY_BSIZE. change (2 ^ 10) with 1024.
  destruct (Z.lt_total (p mod 2 ^ 7) (p' mod 2 ^ 7)) as [H|[->|H]]; [|by left|]; right; lia.
Qed.

Lemma entry_ready_out t a m m' :
  (forall b, a <= b < a + 42 -> rd8 m' b = rd8 m b) -> entry_ready t a m -> entry_ready t a m'.
Proof.
  intros H (c1 & c2 & E). exists c1, c2. rewrite <- E. apply read_udp_packet_ext. exact H.
Qed.

Lemma tx_ready_set_macs t base p m :
  tx_ready t base m -> tx_ready t base (set_macs m (entry base p) t).
Proof.
  intros H p'. destruct (entry_cases base p p') as [E|E].
  - destruct (H p') as (c1 & c2 & Hc). exists c1, c2. rewrite E. by apply set_macs_headers.
  - eapply entry_ready_out; [|apply H]. intros b Hb. apply set_macs_out. lia.
Qed.

(** [first_packet]'s loop: after [n] turns the [n] entries from the cursor on are ready. *)
Lemma fill_entries_spec n t base p q q' m m' :
  dt_ctx q = MkDt base (u32 p) (2 ^ LOG_SQ_RING_DEPTH - 1) ->
  fill_entries n t q m = (q', m') ->
  q' = set_dt_ctx (MkDt base (u32 (p + Z.of_nat n)) (2 ^ LOG_SQ_RING_DEPTH - 1)) q /\
  (forall k, entry_ready t (entry base k) m \/ (exists j, 0 <= j < Z.of_nat n /\ entry base k = entry base (p + j)) ->
     entry_ready t (entry base k) m') /\
  (forall b, (forall k, b < entry base k \/ entry base k + hdr_size <= b) -> rd8 m' b = rd8 m b).
Proof.
  revert p q m. induction n as [|n IH]; intros p q m Hdt E; cbn [fill_entries] in E.
  { injection E as <- <-. split_and!; [|intros k [H|(j & Hj & _)]; [done|lia]|done].
    rewrite Z.add_0_r, <- Hdt. by destruct q. }
  rewrite Hdt, next_send_buf in E by (unfold LOG_SQ_RING_DEPTH, LOG_WQ_DATA_ENTRY_BSIZE; lia).
  fold (entry base p) in E.
  apply (IH (p + 1)) in E as (-> & Hr & Ho); [|done]. split_and!.
  - unfold set_dt_ctx. cbn. do 3 f_equal. lia.
  - intros k Hk. apply Hr. destruct (entry_cases base p k) as [Ek|Ek].
    + left. rewrite <- Ek. eexists _, _. apply mt_packet_headers.
    + destruct Hk as [Hk|(j & Hj & Hk)].
      * left. eapply entry_ready_out; [|exact Hk]. intros b Hb. apply mt_packet_out. unfold hdr_size. lia.
      * right. exists (j - 1). destruct (decide (j = 0)) as [->|]; [rewrite Z.add_0_r in Hk; lia|].
        split; [lia|]. rewrite Hk. f_equal. lia.
  - intros b Hb. rewrite Ho by done. apply mt_packet_out, Hb.
Qed.

Lemma fill_entries_ready t base q q' m m' :
  dt_ctx q = MkDt base 0 (2 ^ LOG_SQ_RING_DEPTH - 1) ->
  fill_entries (Z.to_nat (LOG2VALUE LOG_SQ_RING_DEPTH)) t q m = (q', m') ->
  q' = set_dt_ctx (MkDt base (u32 128) (2 ^ LOG_SQ_RING_DEPTH - 1)) q /\ tx_ready t base m'.
Proof.
  intros Hdt E. apply (fill_entries_spec _ t base 0) in E as (-> & Hr & _); [|done]. split; [done|].
  intros p. apply Hr. right. exists (p mod 2 ^ LOG_SQ_RING_DEPTH). change (Z.of_nat _) with 128.
  unfold entry, LOG_SQ_RING_DEPTH. rewrite Z.add_0_l, Zmod_mod. split; [mlia|done].
Qed.

(** Bytes moved from one place to another. *)
Lemma loadle_moved m m' a a' n :
  (forall k, 0 <= k < Z.of_nat n -> rd8 m' (a' + k) = rd8 m (a + k)) -> loadle m' a' n = loadle m a n.
Proof.
  revert a a'. induction n as [|n IH]; intros a a' H; [done|]; unfold loadle; fold loadle.
  pose proof (H 0 ltac:(lia)) as H0. rewrite !Z.add_0_r in H0. f_equal; [exact H0|]. f_equal. apply IH. intros k Hk. rewrite <- !Z.add_assoc. apply H. lia.
Qed.

Lemma rdbytes_moved m m' a a' n :
  (forall k, 0 <= k < Z.of_nat n -> rd8 m' (a' + k) = rd8 m (a + k)) -> rdbytes m' a' n = rdbytes m a n.
Proof.
  revert a a'. induction n as [|n IH]; intros a a' H; [done|]; unfold rdbytes; fold rdbytes.
  pose proof (H 0 ltac:(lia)) as H0. rewrite !Z.add_0_r in H0. f_equal; [exact H0|]. apply IH. intros k Hk. rewrite <- !Z.add_assoc. apply H. lia.
Qed.

Lemma read_udp_packet_moved m m' a a' :
  (forall k, 0 <= k < hdr_size -> rd8 m' (a' + k) = rd8 m (a + k)) -> read_udp_packet m' a' = read_udp_packet m a.
Proof.
  intros H. unfold hdr_size in H. unfold read_udp_packet. unfold_offsets. unfold ld16, ld32.
  f_equal; f_equal; first [apply H; lia | apply rdbytes_moved; intros k Hk; rewrite <- !Z.add_assoc; apply H; lia
    | apply loadle_moved; intros k Hk; rewrite <- !Z.add_assoc; apply H; lia].
Qed.

(** The packet [prepare_packet_host] builds on the stack and copies. *)
Definition built (stk : mem) (t : Z) : list Z :=
  rdbytes (prepare_packet stk 0 t) 0 (Z.to_nat sizeof_udp_packet).

Lemma copied_ready stk m a t : entry_ready t a (wrbytes m a (built stk t)).
Proof.
  eexists _, _. rewrite <- (mt_packet_headers stk 0 t). apply read_udp_packet_moved.
  intros k Hk. unfold hdr_size in Hk. rewrite Z.add_0_l. unfold built.
  rewrite rd8_wrbytes, length_rdbytes, decide_True by (change (Z.to_nat sizeof_udp_packet) with 42%nat; lia).
  replace (a + k - a) with k by lia. rewrite rdbytes_lookup by (change (Z.to_nat sizeof_udp_packet) with 42%nat; lia).
  cbn [default id]. rewrite Z.add_0_l, Z2Nat.id by lia. apply wrapu_small. pose proof (rd8_range (prepare_packet stk 0 t) k). lia.
Qed.

Lemma copied_out stk m a t b : b < a \/ a + hdr_size <= b -> rd8 (wrbytes m a (built stk t)) b = rd8 m b.
Proof.
  intros H. apply rd8_wrbytes_out. unfold built. rewrite length_rdbytes.
  change (Z.to_nat sizeof_udp_packet) with 42%nat. unfold hdr_size in H. lia.
Qed.
End Headers.

(** ** Threads and their transmit buffers *)

(** Bytes of a transmit buffer: 128 entries of 1024 bytes. *)
Definition TX_LEN : Z := 2 ^ LOG_SQ_RING_DEPTH * 2 ^ LOG_WQ_DATA_ENTRY_BSIZE.

(** Announcements of the send queue [num]. *)
Definition announces (num : Z) (ev : event) : bool :=
  match ev with EvSqRingDb _ n => n =? num | _ => false end.
Definition bells (num : Z) (t : list event) : nat := length (List.filter (announces num) t).

Lemma bells_app num t t' : bells num (t ++ t') = (bells num t + bells num t')%nat.
Proof. unfold bells. by rewrite List.filter_app, length_app. Qed.

Section Place.
Context {F : FlexioDev} `{!FlexioDevLaws F}.

(** Where the device finds the transmit buffer of a thread: in its own memory, or at [ptr]
    through the window, which maps the whole buffer. *)
Definition tx_mapped (s : queue_config_data) (ptr : Z) : Prop :=
  let base := wqd_daddr (sq_data s) in
  if truthy (daddr_on_host (sq_data s)) then
    let c := (u16 (new_buffer_mkey_id s), wqd_mkey_id (sq_data s)) in
    window_config_ok (fst c) (snd c) = true /\
    (forall o, 0 <= o < TX_LEN -> window_ptr (Some c) (base + o) = Some (ptr + o)) /\
    0 <= ptr /\ ptr + TX_LEN <= 2 ^ 64
  else ptr = base.

(** The context of the thread that [s] configured, its transmit cursor at [p]. *)
Record ctx_ok (s : queue_config_data) (p : Z) (d : device_context) : Prop := MkCtxOk {
  ck_init : is_initalized (mt_q d) = 1;
  ck_dt : dt_ctx (mt_q d) = MkDt (wqd_daddr (sq_data s)) (u32 p) (2 ^ LOG_SQ_RING_DEPTH - 1);
  ck_host : mt_sq_on_host d = daddr_on_host (sq_data s);
  ck_index : mt_thread_index d = thread_index s;
  ck_hsq : hsq_rkey (mt_host_sq d) = wqd_mkey_id (sq_data s) /\
    sq_window_id (mt_host_sq d) = new_buffer_mkey_id s /\ host_tx_buff (mt_host_sq d) = wqd_daddr (sq_data s);
  ck_rqcq : rqcq_ctx (mt_q d) = init_cq (rq_cq_data s);
  ck_ring : sq_ring (sq_ctx (mt_q d)) = wq_ring_daddr (sq_data s);
  ck_num : sq_number (sq_ctx (mt_q d)) = wq_num (sq_data s);
}.

Lemma entry_in base p : base <= entry base p /\ entry base p + 1024 <= base + TX_LEN.
Proof. unfold entry, TX_LEN, LOG_SQ_RING_DEPTH, LOG_WQ_DATA_ENTRY_BSIZE. mlia. Qed.

Lemma entry_shift base ptr p : entry ptr p = ptr + (entry base p - base).
Proof. unfold entry. lia. Qed.

(** Another part of the world changes, not this thread's. *)
Record apart_from (ptr : Z) (w w' : World F) : Prop := MkApart {
  ap_sq : w_sq w' = w_sq w;
  ap_mem : forall b, b < ptr \/ ptr + TX_LEN <= b -> rd8 (w_mem w') b = rd8 (w_mem w) b;
  ap_bells : forall num, bells num (w_trace w') = bells num (w_trace w);
}.

Lemma apart_trans ptr w1 w2 w3 : apart_from ptr w1 w2 -> apart_from ptr w2 w3 -> apart_from ptr w1 w3.
Proof. intros [A B C] [A' B' C']. split; [congruence|intros b Hb; by rewrite B', B|intros n; by rewrite C', C]. Qed.

(** The copies of the prepared packet into a buffer on the host. *)
Lemma fill_entries_host_spec n stk t base ptr p q q' (w w' : World F) :
  (forall o, 0 <= o < TX_LEN -> window_ptr (w_window w) (base + o) = Some (ptr + o)) ->
  dt_ctx q = MkDt base (u32 p) (2 ^ LOG_SQ_RING_DEPTH - 1) ->
  fill_entries_host n stk t q w = (q', w') ->
  q' = set_dt_ctx (MkDt base (u32 (p + Z.of_nat n)) (2 ^ LOG_SQ_RING_DEPTH - 1)) q /\
  (forall k, entry_ready t (entry ptr k) (w_mem w) \/ (exists j, 0 <= j < Z.of_nat n /\ entry ptr k = entry ptr (p + j)) ->
     entry_ready t (entry ptr k) (w_mem w')) /\ apart_from ptr w w'.
Proof.
  revert p q w. induction n as [|n IH]; intros p q w Hw Hdt E; cbn [fill_entries_host] in E.
  { injection E as <- <-. split_and!; [|intros k [H|(j & Hj & _)]; [done|lia]|done].
    rewrite Z.add_0_r, <- Hdt. by destruct q. }
  rewrite Hdt, next_send_buf in E by (unfold LOG_SQ_RING_DEPTH, LOG_WQ_DATA_ENTRY_BSIZE; lia).
  fold (entry base p) in E. unfold prepare_packet_host, copy_to_host, window_ptr_acquire in E.
  pose proof (entry_in base p) as Hin. pose proof (entry_in ptr p) as Hin'.
  assert (window_ptr (w_window w) (entry base p) = Some (entry ptr p)) as Hp.
  { replace (entry base p) with (base + (entry base p - base)) by lia. rewrite Hw by lia. by rewrite <- entry_shift. }
  rewrite Hp in E. fold (built stk t) in E. set (w1 := set_mem _ _) in E.
  apply (IH (p + 1)) in E as (-> & Hr & Ho); [|exact Hw|done]. split_and!.
  - unfold set_dt_ctx. cbn. do 3 f_equal. lia.
  - intros k Hk. apply Hr. destruct (entry_cases ptr p k) as [Ek|Ek].
    + left. rewrite <- Ek. apply copied_ready.
    + destruct Hk as [Hk|(j & Hj & Hk)].
      * left. eapply entry_ready_out; [|exact Hk]. intros b Hb. apply copied_out. unfold hdr_size. lia.
      * right. exists (j - 1). destruct (decide (j = 0)) as [->|]; [rewrite Z.add_0_r in Hk; lia|].
        split; [lia|]. rewrite Hk. f_equal. lia.
  - eapply apart_trans; [|exact Ho]. split; [done| |].
    + intros b Hb. apply copied_out. unfold hdr_size. lia.
    + intros num. cbn -[bells]. rewrite bells_app. apply Nat.add_0_r.
Qed.

(** The window is set up for the buffer of the thread. *)
Lemma map_tx_mapped s ptr d oh hs (w w' : World F) p :
  ctx_ok s p d -> tx_mapped s ptr -> truthy (daddr_on_host (sq_data s)) = true -> truthy oh = true ->
  map_tx_buff oh (mt_host_sq d) w = (hs, w') ->
  hs = set_dpa_tx_buff ptr (mt_host_sq d) /\ apart_from ptr w w' /\ w_mem w' = w_mem w /\
  (forall o, 0 <= o < TX_LEN -> window_ptr (w_window w') (wqd_daddr (sq_data s) + o) = Some (ptr + o)).
Proof.
  intros C M Hh Ho E. unfold tx_mapped in M. rewrite Hh in M. destruct M as (Mc & Mp & _).
  destruct (ck_hsq _ _ _ C) as (E1 & E2 & E3). unfold map_tx_buff in E. rewrite Ho in E.
  unfold get_host_buffer_with_dtctx, window_config, window_ptr_acquire in E. rewrite E1, E2, E3 in E. cbn in Mc. rewrite Mc in E.
  cbn [w_window set_window] in E. pose proof (Mp 0 ltac:(done)) as M0. rewrite !Z.add_0_r in M0. cbn in M0. rewrite M0 in E.
  injection E as <- <-. split; [done|]. split; [|split; [done|exact Mp]].
  split; [done|done|]. intros num. cbn -[bells]. rewrite bells_app. apply Nat.add_0_r.
Qed.

(** The turn of [first_packet] for the thread. *)
Lemma first_packet_thread_spec stk s ptr d d' (w w' : World F) :
  ctx_ok s 0 d -> tx_mapped s ptr -> first_packet_thread stk (thread_index s) d w = (d', w') ->
  ctx_ok s 128 d' /\ sq_ctx (mt_q d') = sq_ctx (mt_q d) /\ credits d' = credits d /\
  tx_ready (thread_index s) ptr (w_mem w') /\ apart_from ptr w w'.
Proof.
  intros C M E. pose proof C as [C1 C2 C3 C4 C5 C6 C7 C8]. unfold first_packet_thread in E.
  rewrite C1 in E. change (negb (truthy 1)) with false in E. cbn iota in E. rewrite C3 in E.
  assert (forall p base, 0 <= p mod 2 ^ LOG_SQ_RING_DEPTH < 128 /\ entry base p = entry base (0 + p mod 2 ^ LOG_SQ_RING_DEPTH)) as He.
  { intros p base. unfold entry, LOG_SQ_RING_DEPTH. rewrite Z.add_0_l, Zmod_mod. split; [mlia|done]. }
  destruct (truthy (daddr_on_host (sq_data s))) eqn:Hh.
  - destruct (map_tx_buff 1 (mt_host_sq d) w) as [hs w1] eqn:Em.
    destruct (map_tx_mapped _ _ _ 1 _ _ _ _ C M Hh eq_refl Em) as (Ehs & A1 & Em1 & Hw). clear Em. subst hs.
    destruct (fill_entries_host _ _ _ _ _) as [q w2] eqn:Ef. injection E as <- <-.
    destruct (fill_entries_host_spec _ _ _ _ ptr 0 _ _ _ _ Hw C2 Ef) as (-> & Hr & A2).
    split; [split; done|]. split; [done|]. split; [done|]. split; [|by eapply apart_trans].
    intros p. apply Hr. right. exists (p mod 2 ^ LOG_SQ_RING_DEPTH). change (Z.of_nat _) with 128. apply He.
  - unfold tx_mapped in M. rewrite Hh in M. subst ptr.
    destruct (fill_entries _ _ _ _) as [q m] eqn:Ef. injection E as <- <-.
    destruct (fill_entries_spec _ _ (wqd_daddr (sq_data s)) 0 _ _ _ _ C2 Ef) as (-> & Hr & Ho).
    split; [split; done|]. split; [done|]. split; [done|]. split.
    + intros p. apply Hr. right. exists (p mod 2 ^ LOG_SQ_RING_DEPTH). change (Z.of_nat _) with 128. apply He.
    + split; [done| |done]. intros b Hb. apply Ho. intros k. pose proof (entry_in (wqd_daddr (sq_data s)) k). unfold hdr_size. lia.
Qed.

(** ** All threads *)

(** The initialised contexts of a list: each belongs to a configuration of [ss], whose
    thread index is its position. *)
Definition threads_ok (ss : list queue_config_data) (i0 : Z) (ds : dev_ctxs_t) : Prop :=
  forall j d, ds !! j = Some d -> is_initalized (mt_q d) = 0 \/
    exists s, s ∈ ss /\ thread_index s = i0 + Z.of_nat j /\ ctx_ok s 0 d.

Definition far (p p' : Z) : Prop := p + TX_LEN <= p' \/ p' + TX_LEN <= p.

(** The other threads' turns leave the buffer at [lo], the send rings and the counts alone. *)
Record rest_ok (lo : Z) (w w' : World F) : Prop := MkRest {
  ro_sq : w_sq w' = w_sq w;
  ro_mem : forall b, lo <= b < lo + TX_LEN -> rd8 (w_mem w') b = rd8 (w_mem w) b;
  ro_bells : forall num, bells num (w_trace w') = bells num (w_trace w);
}.

Lemma apart_rest ptr lo w w' : far ptr lo -> apart_from ptr w w' -> rest_ok lo w w'.
Proof. intros H [A B C]. split; [done| |done]. intros b Hb. apply B. unfold far in H. lia. Qed.

Lemma rest_trans lo w1 w2 w3 : rest_ok lo w1 w2 -> rest_ok lo w2 w3 -> rest_ok lo w1 w3.
Proof. intros [A B C] [A' B' C']. split; [congruence|intros b Hb; by rewrite B', B|intros n; by rewrite C', C]. Qed.

Lemma first_packet_threads_rest stk ss place lo ds i0 ds' (w w' : World F) :
  threads_ok ss i0 ds -> (forall s, s ∈ ss -> tx_mapped s (place s)) ->
  (forall s, s ∈ ss -> i0 <= thread_index s < i0 + Z.of_nat (length ds) -> far (place s) lo) ->
  first_packet_threads stk ds i0 w = (ds', w') -> rest_ok lo w w' /\ length ds' = length ds.
Proof.
  revert i0 w ds'. induction ds as [|d ds IH]; intros i0 w ds' Ht Hm Hf E; cbn [first_packet_threads] in E.
  { by injection E as <- <-. }
  destruct (first_packet_thread stk i0 d w) as [d1 w1] eqn:E1.
  destruct (first_packet_threads stk ds (i0 + 1) w1) as [ds1 w2] eqn:E2. injection E as <- <-.
  apply IH in E2 as [R2 L2]; [| |done|].
  - split; [|cbn; by rewrite L2]. eapply rest_trans; [|exact R2].
    destruct (Ht 0%nat d eq_refl) as [H0|(s & Hs & Hi & C)].
    + unfold first_packet_thread in E1. rewrite H0 in E1. cbn in E1. by injection E1 as <- <-.
    + rewrite Z.add_0_r in Hi. rewrite <- Hi in E1. eapply apart_rest; [|by eapply (first_packet_thread_spec _ _ _ _ _ _ _ C (Hm s Hs))].
      apply Hf; [done|]. rewrite Hi. cbn [length]. lia.
  - intros j e He. destruct (Ht (S j) e He) as [|(s & Hs & Hi & C)]; [by left|]. right. exists s.
    split; [done|]. split; [lia|done].
  - intros s Hs Hi. apply Hf; [done|]. cbn [length]. lia.
Qed.

Lemma first_packet_threads_app stk ds1 ds2 i0 (w : World F) :
  first_packet_threads stk (ds1 ++ ds2) i0 w =
  (let '(a, w) := first_packet_threads stk ds1 i0 w in
   let '(b, w) := first_packet_threads stk ds2 (i0 + Z.of_nat (length ds1)) w in (a ++ b, w)).
Proof.
  revert i0 w. induction ds1 as [|d ds1 IH]; intros i0 w; cbn [app first_packet_threads length].
  { rewrite Z.add_0_r. by destruct (first_packet_threads stk ds2 i0 w). }
  destruct (first_packet_thread stk i0 d w) as [d1 w1]. rewrite IH.
  replace (i0 + 1 + Z.of_nat (length ds1)) with (i0 + Z.of_nat (S (length ds1))) by lia.
  destruct (first_packet_threads stk ds1 (i0 + 1) w1) as [a w2].
  by destruct (first_packet_threads stk ds2 _ w2) as [b w3].
Qed.

Lemma tx_ready_rest t lo (w w' : World F) : rest_ok lo w w' -> tx_ready t lo (w_mem w) -> tx_ready t lo (w_mem w').
Proof.
  intros R H p. eapply entry_ready_out; [|apply H]. intros b Hb. apply (ro_mem _ _ _ R).
  pose proof (entry_in lo p). lia.
Qed.

(** The first-packet RPC, seen from one of the threads. *)
Lemma first_packet_one stk ss place s ds ds' (w w' : World F) d :
  threads_ok ss 0 ds -> (forall s, s ∈ ss -> tx_mapped s (place s)) ->
  (forall s', s' ∈ ss -> thread_index s' <> thread_index s -> far (place s') (place s)) ->
  s ∈ ss -> 0 <= thread_index s -> ds !! Z.to_nat (thread_index s) = Some d -> ctx_ok s 0 d ->
  dpa_send_mt_deivce_first_packet stk ds w = (0, ds', w') ->
  exists d', ds' !! Z.to_nat (thread_index s) = Some d' /\ ctx_ok s 128 d' /\
    sq_ctx (mt_q d') = sq_ctx (mt_q d) /\ credits d' = credits d /\
    tx_ready (thread_index s) (place s) (w_mem w') /\ w_sq w' = w_sq w /\
    (forall num, bells num (w_trace w') = bells num (w_trace w)).
Proof.
  intros Ht Hm Hf Hs H0 Hd C E. unfold dpa_send_mt_deivce_first_packet in E.
  set (i := Z.to_nat (thread_index s)) in *. pose proof (lookup_lt_Some _ _ _ Hd) as Hl.
  rewrite <- (take_drop_middle ds i d Hd) in E, Ht. rewrite first_packet_threads_app in E.
  assert (length (take i ds) = i) as Li by (rewrite length_take; lia).
  destruct (first_packet_threads stk (take i ds) 0 w) as [a w1] eqn:E1. cbn [first_packet_threads] in E.
  rewrite Li in E. replace (0 + Z.of_nat i) with (thread_index s) in E by lia.
  destruct (first_packet_thread stk (thread_index s) d w1) as [d' w2] eqn:E2.
  destruct (first_packet_threads stk (drop (S i) ds) (thread_index s + 1) w2) as [b w3] eqn:E3. injection E as <- <-.
  apply (first_packet_threads_rest stk ss place (place s)) in E1 as [R1 L1]; [| |done|].
  2:{ intros j e He. apply (Ht j e). by apply lookup_app_l_Some. }
  2:{ intros s' Hs' Hi. apply Hf; [done|]. rewrite Li in Hi. lia. }
  destruct (first_packet_thread_spec stk s (place s) d d' w1 w2 C (Hm s Hs) E2) as (C' & Q & K & X & A).
  apply (first_packet_threads_rest stk ss place (place s)) in E3 as [R3 L3]; [| |done|].
  2:{ intros j e He. destruct (Ht (i + S j)%nat e) as [|(s' & Hs' & Hi & C2)]; [|by left|].
      - rewrite lookup_app_r by lia. rewrite Li. replace (i + S j - i)%nat with (S j) by lia. exact He.
      - right. exists s'. split; [done|]. split; [lia|done]. }
  2:{ intros s' Hs' Hi. apply Hf; [done|]. lia. }
  exists d'. split; [by rewrite lookup_app_r, L1, Li, Nat.sub_diag by lia|]. split; [done|]. split; [done|]. split; [done|].
  split; [by eapply tx_ready_rest|]. destruct R1 as [S1 _ B1], R3 as [S3 _ B3], A as [S2 _ B2].
  split; [congruence|]. intros num. by rewrite B3, B2, B1.
Qed.
End Place.

(** ** Initialisation of any number of threads *)

Section Inits.
Context {F : FlexioDev} `{!FlexioDevLaws F}.

(** The initialisation RPCs of the host program, one after the other. *)
Fixpoint init_threads (ss : list queue_config_data) (ds : dev_ctxs_t) (w : World F) : dev_ctxs_t * World F :=
  match ss with
  | [] => (ds, w)
  | s :: ss => let '(_, ds, w) := dpa_send_mt_device_init s ds w in init_threads ss ds w
  end.

Definition ring_of (s : queue_config_data) : Z := wq_ring_daddr (sq_data s).

(** What is left for the thread of [s]. *)
Definition started (s : queue_config_data) (ds : dev_ctxs_t) (w : World F) : Prop :=
  exists d, ds !! Z.to_nat (thread_index s) = Some d /\ ctx_ok s 0 d /\ credits d = THREAD_CREDITS /\
    sq_rep LOG_SQ_RING_DEPTH 0 (wqd_mkey_id (sq_data s)) (sq_ctx (mt_q d)) w.

Lemma mt_init_one s ds r ds' (w w' : World F) :
  0 <= thread_index s < MAX_THREADS -> length ds = Z.to_nat MAX_THREADS ->
  dpa_send_mt_device_init s ds w = (r, ds', w') ->
  r = 0 /\ started s ds' w' /\ length ds' = length ds /\
  (forall j, j <> Z.to_nat (thread_index s) -> ds' !! j = ds !! j) /\
  (forall b j, b <> ring_of s -> w_sq w' !! (b, j) = w_sq w !! (b, j)) /\
  (forall num, bells num (w_trace w') = bells num (w_trace w)).
Proof.
  intros Ht Hl E. unfold dpa_send_mt_device_init in E.
  rewrite (proj2 (Z.ltb_lt _ _)) in E by lia. cbn [negb] in E.
  destruct (init_send_sq _ _ _ _) as [sq w1] eqn:Es. injection E as <- <- <-.
  assert (forall b j, b <> ring_of s -> w_sq w1 !! (b, j) = w_sq w !! (b, j)) as Ho.
  { intros b j Hb. eapply init_send_sq_other; [exact Es|exact Hb]. }
  apply (sq_rep_init LOG_SQ_RING_DEPTH ltac:(unfold LOG_SQ_RING_DEPTH; lia)) in Es as (R & _ & Hn & Hr & Hw).
  split; [done|]. split; [|split; [by rewrite length_insert|split; [|split; [exact Ho|]]]].
  - eexists. split; [apply list_lookup_insert_eq; rewrite Hl; lia|].
    split; [split; try done; apply wrapu_small; unfold MAX_THREADS in Ht; lia|]. split; [done|].
    by eapply sq_rep_frame; [|exact R].
  - intros j Hj. by apply list_lookup_insert_ne.
  - intros num. cbn -[bells]. rewrite bells_app. replace (w_trace w1) with (w_trace w) by (by rewrite Hw). apply Nat.add_0_r.
Qed.

Lemma started_keep s s' r ds ds' (w w' : World F) :
  0 <= thread_index s < MAX_THREADS -> 0 <= thread_index s' < MAX_THREADS -> length ds = Z.to_nat MAX_THREADS ->
  thread_index s <> thread_index s' -> ring_of s <> ring_of s' ->
  dpa_send_mt_device_init s' ds w = (r, ds', w') -> started s ds w -> started s ds' w'.
Proof.
  intros H H' Hl Hi Hr E (d & Hd & C & K & R).
  destruct (mt_init_one s' ds r ds' w w' H' Hl E) as (_ & _ & _ & Hk & Hs & _).
  exists d. split; [rewrite Hk; [done|lia]|]. split; [done|]. split; [done|].
  eapply sq_rep_frame_at; [|exact R]. intros i. apply Hs. by rewrite (ck_ring _ _ _ C).
Qed.

Lemma init_threads_spec ss ds ds' (w w' : World F) :
  (forall s, s ∈ ss -> 0 <= thread_index s < MAX_THREADS) ->
  NoDup (thread_index <$> ss) -> NoDup (ring_of <$> ss) -> length ds = Z.to_nat MAX_THREADS ->
  init_threads ss ds w = (ds', w') ->
  length ds' = length ds /\ (forall s, s ∈ ss -> started s ds' w') /\
  (forall s, 0 <= thread_index s < MAX_THREADS -> thread_index s ∉ (thread_index <$> ss) ->
     ring_of s ∉ (ring_of <$> ss) -> started s ds w -> started s ds' w') /\
  (forall j, (forall s, s ∈ ss -> j <> Z.to_nat (thread_index s)) -> ds' !! j = ds !! j) /\
  (forall num, bells num (w_trace w') = bells num (w_trace w)).
Proof.
  revert ds w. induction ss as [|s ss IH]; intros ds w Hr Hn Hg Hl E; cbn [init_threads] in E.
  { injection E as <- <-. split_and!; try done. intros s Hs. by apply elem_of_nil in Hs. }
  destruct (dpa_send_mt_device_init s ds w) as [[r ds1] w1] eqn:E1.
  cbn [fmap list_fmap] in Hn, Hg. apply list.NoDup_cons in Hn as [Hn1 Hn], Hg as [Hg1 Hg].
  pose proof (Hr s ltac:(left)) as Hrs.
  destruct (mt_init_one s ds r ds1 w w1 Hrs Hl E1) as (_ & S1 & L1 & K1 & _ & B1).
  destruct (IH ds1 w1 ltac:(intros; apply Hr; by right) Hn Hg ltac:(congruence) E) as (L2 & S2 & P2 & K2 & B2).
  split; [congruence|]. split; [|split; [|split]].
  - intros s' Hs'. apply elem_of_cons in Hs' as [->|Hs']; [by apply P2|by apply S2].
  - intros s' Hs' Hi Hg' S0. cbn [fmap list_fmap] in Hi, Hg'. apply not_elem_of_cons in Hi as [Hi1 Hi], Hg' as [Hg2 Hg'].
    apply P2; try done. by eapply (started_keep s' s).
  - intros j Hj. rewrite K2 by (intros; apply Hj; by right). apply K1, Hj. by left.
  - intros num. by rewrite B2, B1.
Qed.

(** From the zeroed static storage: exactly the threads of [ss] are initialised. *)
Lemma init_threads_ok ss ds' (w w' : World F) :
  (forall s, s ∈ ss -> 0 <= thread_index s < MAX_THREADS) ->
  NoDup (thread_index <$> ss) -> NoDup (ring_of <$> ss) -> init_threads ss dev_ctxs_zero w = (ds', w') ->
  threads_ok ss 0 ds'.
Proof.
  intros Hr Hn Hg E j d Hd.
  destruct (init_threads_spec ss dev_ctxs_zero ds' w w' Hr Hn Hg ltac:(apply length_replicate) E) as (_ & S & _ & K & _).
  destruct (decide (Exists (fun s => j = Z.to_nat (thread_index s)) ss)) as [H|H].
  - apply list.Exists_exists in H as (s & Hs & ->). right. exists s. split; [done|].
    destruct (S s Hs) as (d' & Hd' & C & _). split; [specialize (Hr s Hs); lia|]. congruence.
  - left. rewrite K in Hd.
    + unfold dev_ctxs_zero in Hd. by apply lookup_replicate in Hd as [-> _].
    + intros s Hs Ej. apply H, list.Exists_exists. by exists s.
Qed.
End Inits.

(** ** Sending *)

Section Flood.
Context {F : FlexioDev} `{!FlexioDevLaws F}.
Variables (s : queue_config_data) (ptr : Z).
Hypothesis Hmap : tx_mapped s ptr.

Local Notation lk := (wqd_mkey_id (sq_data s)).
Local Notation base := (wqd_daddr (sq_data s)).
Local Notation num := (wq_num (sq_data s)).

(** [n] packets sent, the transmit cursor at [p]. *)
Record flood_rep (n p : Z) (d : device_context) (w : World F) : Prop := MkFlood {
  fr_sq : sq_rep LOG_SQ_RING_DEPTH n lk (sq_ctx (mt_q d)) w;
  fr_ctx : ctx_ok s p d;
  fr_dpa : truthy (daddr_on_host (sq_data s)) = true -> dpa_tx_buff (mt_host_sq d) = ptr;
  fr_tx : tx_ready (thread_index s) ptr (w_mem w);
}.

(** The body of the loop, chosen by the placement of the send buffer. *)
Definition send_turn : device_context -> World F -> device_context * World F :=
  if truthy (daddr_on_host (sq_data s)) then send_packet_on_host else send_packet_dpa.

Definition slot (n : Z) : Z * Z := (ring_of s, 4 * (n mod 128) + 2).

Lemma data_slot_slot p d n : ctx_ok s p d -> data_slot LOG_SQ_RING_DEPTH (sq_ctx (mt_q d)) n = slot n.
Proof. intros C. unfold data_slot, slot. by rewrite (ck_ring _ _ _ C). Qed.

(** Where the device writes the addresses of the packet. *)
Definition macs_at (d : device_context) (p : Z) : Z :=
  if truthy (daddr_on_host (sq_data s)) then host_sq_addr_to_dpa_addr (entry base p) (mt_host_sq d) else entry base p.

Lemma macs_at_entry n p d w : flood_rep n p d w -> macs_at d p = entry ptr p.
Proof.
  intros [_ C D _]. unfold macs_at, tx_mapped in *. destruct (truthy _); [|by rewrite Hmap].
  destruct Hmap as (_ & _ & H0 & H1). unfold host_sq_addr_to_dpa_addr.
  destruct (ck_hsq _ _ _ C) as (_ & _ & ->). rewrite (D eq_refl), (entry_shift base ptr).
  pose proof (entry_in base p). unfold TX_LEN, LOG_SQ_RING_DEPTH, LOG_WQ_DATA_ENTRY_BSIZE in *.
  rewrite (wrapu_small 64 (_ - _)) by lia. rewrite wrapu_small by lia. lia.
Qed.

Definition finish_turn : sq_ctx_t -> World F -> sq_ctx_t * World F :=
  if truthy (daddr_on_host (sq_data s)) then finish_send_packet_host else finish_send_packet.
Definition finish_events : list event :=
  if truthy (daddr_on_host (sq_data s)) then [EvMemoryWriteback; EvWindowWriteback] else [EvMemoryWriteback].

Lemma finish_turn_is : is_finish finish_events finish_turn.
Proof. unfold finish_events, finish_turn. destruct (truthy _); [apply is_finish_host|apply is_finish_dpa]. Qed.

(** Both bodies, with what depends on the placement named. *)
Lemma send_turn_eq n p d w : flood_rep n p d w ->
  send_turn d w =
    (let w1 := set_mem (set_macs (w_mem w) (entry ptr p) (mt_thread_index d)) w in
     let '(sq, w2) := prepare_send_packet (sq_ctx (mt_q d)) (entry base p) pkt_size w1 in
     let d1 := set_credits (u8 (credits d - 1)) d in
     let '(sq, w3) := finish_turn sq w2 in
     (set_mt_q (set_sq_ctx sq (set_dt_ctx (MkDt base (u32 (p + 1)) (2 ^ LOG_SQ_RING_DEPTH - 1)) (mt_q d1))) d1, w3)).
Proof.
  intros R. rewrite <- (macs_at_entry _ _ _ _ R). pose proof (ck_dt _ _ _ (fr_ctx _ _ _ _ R)) as Hdt.
  unfold send_turn, macs_at, finish_turn. destruct (truthy _);
    [unfold send_packet_on_host|unfold send_packet_dpa]; rewrite Hdt, next_send_buf
      by (unfold LOG_SQ_RING_DEPTH, LOG_WQ_DATA_ENTRY_BSIZE; lia); done.
Qed.

Lemma send_turn_spec n p d d' (w w' : World F) :
  flood_rep n p d w -> send_turn d w = (d', w') ->
  flood_rep (n + 1) (p + 1) d' w' /\ credits d' = u8 (credits d - 1) /\
  posted w' (slot n) (entry base p) pkt_size lk /\
  (forall x, x <> slot n -> sqe_at w' x = sqe_at w x) /\
  bells num (w_trace w') = S (bells num (w_trace w)).
Proof.
  intros R E. rewrite (send_turn_eq _ _ _ _ R) in E. cbv zeta in E. destruct R as [Rs C D Htx].
  set (w1 := set_mem _ w) in E.
  destruct (prepare_send_packet (sq_ctx (mt_q d)) (entry base p) pkt_size w1) as [sq1 w2] eqn:Ep.
  assert (sq_rep LOG_SQ_RING_DEPTH n lk (sq_ctx (mt_q d)) w1) as Rs1 by (by eapply sq_rep_frame; [|exact Rs]).
  destruct (sq_rep_prepare LOG_SQ_RING_DEPTH ltac:(unfold LOG_SQ_RING_DEPTH; lia) _ _ _ _ _ _ _ _ Rs1 Ep)
    as (Rp & -> & Pb & Pa & Pk & Po & Hw2). rewrite (data_slot_slot _ _ _ C) in *.
  rewrite finish_turn_is in E. cbn -[bells] in E. injection E as <- <-.
  assert (w_mem w2 = set_macs (w_mem w) (entry ptr p) (mt_thread_index d) /\ w_trace w2 = w_trace w)
    as [M2 T2] by (by rewrite Hw2).
  pose proof C as [C1 C2 C3 C4 C5 C6 C7 C8]. split; [split|split; [done|split; [by split_and!|split; [exact Po|]]]].
  - destruct Rp as [A B K]. by split.
  - by split.
  - done.
  - cbn -[tx_ready]. rewrite M2, C4. by apply tx_ready_set_macs.
  - cbn -[bells]. rewrite T2, !bells_app. cbn. rewrite C8. unfold finish_events, bells.
    destruct (truthy _); cbn; rewrite Z.eqb_refl; cbn; lia.
Qed.

(** What the NIC and the other threads may do between two packets of this one: everything
    but touch its send ring and its transmit buffer or announce its packets. *)
Definition quiet (nic : World F -> World F) : Prop :=
  forall w, (forall i, w_sq (nic w) !! (ring_of s, i) = w_sq w !! (ring_of s, i)) /\
    (forall b, ptr <= b < ptr + TX_LEN -> rd8 (w_mem (nic w)) b = rd8 (w_mem w) b) /\
    bells num (w_trace (nic w)) = bells num (w_trace w).

(** A run of the loop: [is_stop] is read as 0 before each of [nics], then as 1. *)
Definition until_stop (nics : list (World F -> World F)) (last : World F -> World F)
    : list (Z * (World F -> World F)) := map (pair 0) nics ++ [(1, last)].

Lemma slot_inj n k : 0 < k < 128 -> slot n <> slot (n + k).
Proof. intros Hk E. unfold slot in E. injection E as E. mlia. Qed.

Lemma flood_rep_quiet n p d w nic : quiet nic -> flood_rep n p d w -> flood_rep n p d (nic w).
Proof.
  intros Q [A C D T]. destruct (Q w) as (E1 & E2 & _). split; [|done|done|].
  - eapply sq_rep_frame_at; [|exact A]. by rewrite (ck_ring _ _ _ C).
  - intros k. eapply entry_ready_out; [|apply T]. intros b Hb. apply E2. pose proof (entry_in ptr k). lia.
Qed.

(** The state after [N] packets sent from [d], [w]. *)
Record flooded (N n p : Z) (d d' : device_context) (w w' : World F) : Prop := MkFlooded {
  fl_rep : flood_rep (n + N) (p + N) d' w';
  fl_credits : u8 (credits d') = u8 (credits d - N);
  fl_bells : Z.of_nat (bells num (w_trace w')) = Z.of_nat (bells num (w_trace w)) + N;
  fl_posted : forall k, 0 <= k < N -> N - 128 <= k -> posted w' (slot (n + k)) (entry base (p + k)) pkt_size lk;
  fl_others : forall i, (forall k, 0 <= k < N -> (ring_of s, i) <> slot (n + k)) ->
    sqe_at w' (ring_of s, i) = sqe_at w (ring_of s, i);
}.

Lemma flooded_step N n p d d1 d' (w w1 w' : World F) :
  0 <= N -> flood_rep n p d w -> send_turn d w = (d1, w1) ->
  flooded N (n + 1) (p + 1) d1 d' w1 w' -> flooded (1 + N) n p d d' w w'.
Proof.
  intros HN R E [Rf Cf Bf Pf Of].
  destruct (send_turn_spec n p d d1 w w1 R E) as (_ & C1 & P1 & O1 & T1). split.
  - by rewrite !Z.add_assoc.
  - rewrite Cf, C1, wrapu_sub_l. f_equal. lia.
  - rewrite Bf, T1. lia.
  - intros k Hk Hk2. destruct (decide (k = 0)) as [->|Hne].
    + rewrite !Z.add_0_r. unfold posted, slot. rewrite Of; [exact P1|].
      intros j Hj. rewrite <- Z.add_assoc. apply (slot_inj n). lia.
    + specialize (Pf (k - 1) ltac:(lia) ltac:(lia)).
      replace (n + 1 + (k - 1)) with (n + k) in Pf by lia. by replace (p + 1 + (k - 1)) with (p + k) in Pf by lia.
  - intros i Hs. rewrite Of.
    + apply O1. specialize (Hs 0 ltac:(lia)). by rewrite Z.add_0_r in Hs.
    + intros j Hj. rewrite <- Z.add_assoc. apply Hs. lia.
Qed.

Lemma send_until_stop_flooded nics last n p d (w : World F) :
  Forall quiet nics -> quiet last -> flood_rep n p d w ->
  exists d' w', send_until_stop send_turn (until_stop nics last) d w = (true, d', w') /\
    flooded (Z.of_nat (length nics)) n p d d' w w'.
Proof.
  intros Hq Hl. revert n p d w. induction Hq as [|nic nics Q _ IH]; intros n p d w R.
  - exists d, (last w). split; [done|]. destruct (Hl w) as (E1 & E2 & E3). split; rewrite ?E3; cbn -[bells].
    + rewrite !Z.add_0_r. by apply flood_rep_quiet.
    + by rewrite Z.sub_0_r.
    + lia.
    + lia.
    + intros i _. unfold sqe_at. by rewrite E1.
  - cbn [until_stop map app send_until_stop]. change (truthy 0) with false. cbn iota.
    apply (flood_rep_quiet _ _ _ _ nic Q) in R.
    destruct (send_turn d (nic w)) as [d1 w1] eqn:E1.
    destruct (send_turn_spec n p d d1 _ w1 R E1) as (R1 & _).
    destruct (IH (n + 1) (p + 1) d1 w1 R1) as (d' & w' & E & Hf).
    exists d', w'. split; [exact E|].
    apply (flooded_step _ n p d d1 d' (nic w) w1 w' (Nat2Z.is_nonneg _) R E1) in Hf.
    destruct (Q w) as (Q1 & Q2 & Q3). cbn [length]. rewrite Nat2Z.inj_succ, <- Z.add_1_l.
    destruct Hf as [A B D G H]. rewrite Q3 in D. split; [done..|].
    intros i Hi. rewrite (H i Hi). unfold sqe_at. by rewrite Q1.
Qed.
End Flood.

(** ** From initialisation *)

Section Run.
Context {F : FlexioDev} `{!FlexioDevLaws F}.

Lemma map_rx_bells oh h hr num (w w' : World F) :
  map_rx_buff oh h w = (hr, w') -> bells num (w_trace w') = bells num (w_trace w).
Proof.
  unfold map_rx_buff. destruct (truthy oh); [|by intros [= <- <-]].
  destruct (get_host_buffer_with_dtctx _ _ _ _) as [b v] eqn:E. intros [= <- <-].
  unfold get_host_buffer_with_dtctx, window_config, window_ptr_acquire in E.
  repeat case_match; simplify_eq; cbn -[bells]; rewrite bells_app; apply Nat.add_0_r.
Qed.

(** The set-up of the handler: both buffers are mapped. *)
Lemma handler_maps s ptr d hr hs (w w1 w2 : World F) :
  tx_mapped s ptr -> sq_rep LOG_SQ_RING_DEPTH 0 (wqd_mkey_id (sq_data s)) (sq_ctx (mt_q d)) w ->
  ctx_ok s 128 d -> tx_ready (thread_index s) ptr (w_mem w) ->
  map_rx_buff (mt_rq_on_host d) (mt_host_rq d) w = (hr, w1) ->
  map_tx_buff (mt_sq_on_host d) (mt_host_sq d) w1 = (hs, w2) ->
  flood_rep s ptr 0 128 (set_mt_host hr hs d) w2 /\
  bells (wq_num (sq_data s)) (w_trace w2) = bells (wq_num (sq_data s)) (w_trace w).
Proof.
  intros M A C T E1 E2. pose proof (map_rx_bells _ _ _ (wq_num (sq_data s)) _ _ E1) as B1.
  apply map_rx_buff_frame in E1 as (_ & S1 & _ & M1). pose proof C as [C1 C2 C3 C4 (C51 & C52 & C53) C6 C7 C8].
  rewrite C3 in E2. destruct (truthy (daddr_on_host (sq_data s))) eqn:Hh.
  - destruct (map_tx_mapped _ _ _ _ _ _ _ _ C M Hh Hh E2) as (-> & [S2 _ B2] & M2 & _).
    split; [|by rewrite B2]. split; [|by split|done|by rewrite M2, M1].
    eapply sq_rep_frame; [|exact A]. by rewrite S2.
  - unfold map_tx_buff in E2. rewrite Hh in E2. injection E2 as <- <-.
    split; [|done]. split; [|by split|by rewrite Hh|by rewrite M1]. by eapply sq_rep_frame; [|exact A].
Qed.

(** C39.  A thread of the multi-threaded generator floods, with its send buffer in device or
    in host memory.  Any threads with distinct numbers, distinct send rings and separate
    transmit buffers are initialised, each buffer in device memory or mapped as a whole by
    the thread's window; then the first-packet RPC runs, and the event handler of any one of
    the threads.  When the stop flag is first seen set after [N] reads, for any [N], the
    handler has announced exactly [N] packets on its queue and ends with a fence, an arm of
    the completion queue and a reschedule, whatever the NIC and the other threads do in
    between as long as they leave this thread's send ring and transmit buffer alone and do
    not ring its doorbell.  Each of the last 128 packets is described by its own entry of the
    thread's send ring, with the fixed size and the send key, pointing at the transmit buffer
    of its turn; every entry of the transmit buffer, where the device writes it, holds the
    complete headers of this thread; the credit counter has wrapped down to [8 - N] modulo
    256, since no send waits for credits. *)
Theorem mt_sender_floods (ss : list queue_config_data) (place : queue_config_data -> Z) (s : queue_config_data)
    stk nics last ds1 ds2 (w0 w1 w2 : World F) :
  (forall s, s ∈ ss -> 0 <= thread_index s < MAX_THREADS /\ tx_mapped s (place s)) ->
  NoDup (thread_index <$> ss) -> NoDup (ring_of <$> ss) ->
  (forall s s', s ∈ ss -> s' ∈ ss -> thread_index s <> thread_index s' -> far (place s) (place s')) ->
  init_threads ss dev_ctxs_zero w0 = (ds1, w1) ->
  dpa_send_mt_deivce_first_packet stk ds1 w1 = (0, ds2, w2) ->
  s ∈ ss -> Forall (quiet s (place s)) nics -> quiet s (place s) last ->
  let N := Z.of_nat (length nics) in
  exists d3 w3,
    dpa_send_mt_device_event_handler (until_stop nics last) (thread_index s) ds2 w2
      = Rescheduled (<[Z.to_nat (thread_index s) := d3]> ds2) w3 /\
    Z.of_nat (bells (wq_num (sq_data s)) (w_trace w3)) = Z.of_nat (bells (wq_num (sq_data s)) (w_trace w0)) + N /\
    (forall k, 0 <= k < N -> N - 128 <= k ->
       posted w3 (wq_ring_daddr (sq_data s), 4 * (k mod 128) + 2)
         (wqd_daddr (sq_data s) + (k mod 128) * 1024) pkt_size (wqd_mkey_id (sq_data s))) /\
    (forall k, 0 <= k < 128 -> exists c1 c2,
       read_udp_packet (w_mem w3) (place s + k * 1024) = mt_headers (thread_index s) c1 c2) /\
    u8 (credits d3) = u8 (THREAD_CREDITS - N) /\
    exists t, w_trace w3 = t ++ [EvFence; EvCqArm 0 (cq_num (rq_cq_data s))].
Proof.
  intros Hss Hn Hg Hf E1 E2 Hs Hq Hl N. assert (forall s, s ∈ ss -> 0 <= thread_index s < MAX_THREADS) as Hr by (intros; by apply Hss).
  destruct (Hss s Hs) as [Ht M].
  destruct (init_threads_spec ss dev_ctxs_zero ds1 w0 w1 Hr Hn Hg ltac:(apply length_replicate) E1) as (_ & S1 & _ & _ & B1).
  destruct (S1 s Hs) as (d & Hd & C & K & R).
  destruct (first_packet_one stk ss place s ds1 ds2 w1 w2 d (init_threads_ok _ _ _ _ Hr Hn Hg E1)
    ltac:(intros; by apply Hss) ltac:(intros; by apply Hf) Hs ltac:(lia) Hd C E2)
    as (d2 & Hd2 & C2 & Q2 & K2 & X2 & W2 & B2).
  unfold dpa_send_mt_device_event_handler. rewrite Hd2, (ck_init _ _ _ C2). change (1 =? 0) with false. cbn iota.
  destruct (map_rx_buff _ _ w2) as [hr w3] eqn:Em.
  destruct (map_tx_buff _ (mt_host_sq d2) w3) as [hs w4] eqn:Em2.
  assert (sq_rep LOG_SQ_RING_DEPTH 0 (wqd_mkey_id (sq_data s)) (sq_ctx (mt_q d2)) w2) as R2
    by (rewrite Q2; by eapply sq_rep_frame).
  destruct (handler_maps s (place s) d2 hr hs w2 w3 w4 M R2 C2 X2 Em Em2) as [R4 B4].
  replace (if truthy (mt_sq_on_host d2) then send_packet_on_host else send_packet_dpa) with (send_turn (F := F) s)
    by (unfold send_turn; by rewrite (ck_host _ _ _ C2)).
  destruct (send_until_stop_flooded s (place s) M nics last 0 128 _ w4 Hq Hl R4) as (d5 & w5 & -> & Hfl).
  destruct Hfl as [[_ C5 _ Htx] Cf Bf Pf _].
  exists d5, (emit (EvCqArm 0 (cq_num (rq_cq_data s))) (emit EvFence w5)).
  split; [by rewrite (ck_rqcq _ _ _ C5)|]. split; [|split; [|split; [|split]]].
  - unfold emit. cbn [w_trace]. rewrite !bells_app. change (bells _ [EvFence]) with 0%nat. change (bells _ [EvCqArm _ _]) with 0%nat.
    rewrite B4, B2, B1 in Bf. lia.
  - intros k Hk1 Hk2. specialize (Pf k Hk1 Hk2). unfold slot, entry, LOG_SQ_RING_DEPTH, LOG_WQ_DATA_ENTRY_BSIZE in Pf.
    change (2 ^ 7) with 128 in Pf. change (2 ^ 10) with 1024 in Pf.
    rewrite Z.add_0_l in Pf. replace ((128 + k) mod 128) with (k mod 128) in Pf by mlia. exact Pf.
  - intros k Hk. destruct (Htx k) as (c1 & c2 & E). exists c1, c2. rewrite <- E.
    unfold entry, LOG_SQ_RING_DEPTH, LOG_WQ_DATA_ENTRY_BSIZE. change (2 ^ 7) with 128. change (2 ^ 10) with 1024.
    by rewrite Z.mod_small.
  - rewrite Cf. cbn [credits set_mt_host]. by rewrite K2, K.
  - exists (w_trace w5). unfold emit. cbn [w_trace]. by rewrite <- app_assoc.
Qed.

End Run.

(** ** Witness: threads 3 (device memory) and 5 (host memory); thread 5 sends two packets *)

Definition demo_host_shared : queue_config_data :=
  {| rq_cq_data := {| cq_num := 13; log_cq_depth := 7; cq_ring_daddr := 14096; cq_dbr_daddr := 164 |};
     rq_data := {| wq_num := 15; wqd_mkey_id := 11; wq_ring_daddr := 116384; wq_dbr_daddr := 1128;
                   wqd_daddr := 270000; daddr_on_host := 1 |};
     sq_cq_data := {| cq_num := 14; log_cq_depth := 7; cq_ring_daddr := 132768; cq_dbr_daddr := 172 |};
     sq_data := {| wq_num := 16; wqd_mkey_id := 78; wq_ring_daddr := 18192; wq_dbr_daddr := 1256;
                   wqd_daddr := 270000; daddr_on_host := 1 |};
     thread_index := 5; new_buffer_addr := 0; new_buffer_mkey_id := 1 |}.

Definition demo_threads : list queue_config_data := [demo_shared 3; demo_host_shared].
Definition demo_place (s : queue_config_data) : Z := if thread_index s =? 3 then 70000 else 270000 + 2 ^ 40.

Lemma quiet_id {F : FlexioDev} s ptr : quiet s ptr (fun w : World F => w).
Proof. by intros w. Qed.

Lemma demo_threads_in s : s ∈ demo_threads -> s = demo_shared 3 \/ s = demo_host_shared.
Proof. unfold demo_threads. rewrite !elem_of_cons, elem_of_nil. naive_solver. Qed.

Lemma demo_mapped s : s ∈ demo_threads ->
  0 <= thread_index s < MAX_THREADS /\ tx_mapped (F := ref_flexio) s (demo_place s).
Proof.
  intros [-> | ->]%demo_threads_in; (split; [split; [discriminate|reflexivity]|]); [reflexivity|].
  split; [reflexivity|]. split; [|split; [discriminate|discriminate]].
  intros o _. change (demo_place demo_host_shared) with (270000 + 2 ^ 40).
  change (Some (270000 + o + 2 ^ 40) = Some (270000 + 2 ^ 40 + o)). f_equal. lia.
Qed.

Lemma demo_far s s' : s ∈ demo_threads -> s' ∈ demo_threads -> thread_index s <> thread_index s' ->
  far (demo_place s) (demo_place s').
Proof.
  intros [-> | ->]%demo_threads_in [-> | ->]%demo_threads_in H; first [by destruct H|left; discriminate|right; discriminate].
Qed.

Lemma first_packet_ret {F : FlexioDev} stk ds r ds' (w w' : World F) :
  dpa_send_mt_deivce_first_packet stk ds w = (r, ds', w') -> r = 0.
Proof. unfold dpa_send_mt_deivce_first_packet. destruct (first_packet_threads _ _ _ _). by intros [= <- _ _]. Qed.

Lemma mt_sender_floods_witness :
  exists ds1 w1 ds2 w2 d3 w3,
    init_threads (F := ref_flexio) demo_threads dev_ctxs_zero empty_world = (ds1, w1) /\
    dpa_send_mt_deivce_first_packet (F := ref_flexio) ∅ ds1 w1 = (0, ds2, w2) /\
    dpa_send_mt_device_event_handler (F := ref_flexio)
      (until_stop (F := ref_flexio) [fun w => w; fun w => w] (fun w => w)) 5 ds2 w2
      = Rescheduled (<[5%nat := d3]> ds2) w3 /\
    Z.of_nat (bells 16 (w_trace w3)) = 2.
Proof.
  destruct (init_threads (F := ref_flexio) demo_threads dev_ctxs_zero empty_world) as [ds1 w1] eqn:E1.
  destruct (dpa_send_mt_deivce_first_packet (F := ref_flexio) ∅ ds1 w1) as [[r ds2] w2] eqn:E2.
  pose proof (first_packet_ret _ _ _ _ _ _ E2) as Er. subst r.
  destruct (mt_sender_floods (F := ref_flexio) demo_threads demo_place demo_host_shared ∅ [fun w => w; fun w => w] (fun w => w)
    ds1 ds2 empty_world w1 w2) as (d3 & w3 & H1 & H2 & _).
  - exact demo_mapped.
  - apply (bool_decide_unpack _). vm_compute. exact I.
  - apply (bool_decide_unpack _). vm_compute. exact I.
  - exact demo_far.
  - exact E1.
  - exact E2.
  - right. left.
  - repeat (apply list.Forall_cons; split; [apply quiet_id|]). constructor.
  - apply quiet_id.
  - exists ds1, w1, ds2, w2, d3, w3.
    split; [reflexivity|]. split; [exact E2|]. split; [exact H1|exact H2].
Defined.
