(* ===== verification/ScanReflect.v ===== *)
(** * ScanReflect: the reflectors that scan their packets

    Translation of [flexio/dpa_refactor_random_access/device] and
    [flexio/dpa_refactor_workingset/device] (with [TEST_BANDWIDTH] 0).  Both are
    [dpa_refactor] with a loop in front: in a packet of the target size they read
    word after word until the magic number and add up, in a global, what each word
    selects.  The two differ in where the scan starts and in what a word adds,
    which are the fields of [program]; the ring depths differ too.

    The loop [for (;; tmp_ptr++)] has no bound in the code: [scan] takes fuel, and
    [None] is a scan that has not met the magic number yet. *)

From S2P Require Import Prelude Machine FlexioDev WrapperDevice PacketHdr DevCommon RingProtocol Reflector DpaRefactor PacketLoop.

Definition TARGET_PKT_SIZE : Z := 1024.
Definition MAGIC_NUMBER : Z := 0xfffffffffffffffe.

Record program := MkProgram {
  log_depth : Z;
  scan_off : Z;
  word_value : Z -> mem -> Z -> Z;
}.

(** The device context and the global sum. *)
Record scan_state := MkScan { ss_ctx : refl_context; total_dummy : Z }.
Definition zero_scan : scan_state := MkScan zero_refl 0.

Definition set_ctx_q (q : dev_queues) (s : scan_state) : scan_state :=
  MkScan (set_q q (ss_ctx s)) (total_dummy s).

Section Device.
Context {F : FlexioDev}.
Variable pg : program.

(** From [tmp_ptr] on, with the sum so far. *)
Fixpoint scan (fuel : nat) (table : Z) (m : mem) (tmp_ptr dummy : Z) : option Z :=
  match fuel with
  | O => None
  | S fuel =>
      let tmp := ld64 m tmp_ptr in
      if tmp =? MAGIC_NUMBER then Some dummy
      else scan fuel table m (tmp_ptr + 8) (dummy +64 word_value pg table m tmp)%cint
  end.

(** The block [if (data_sz == TARGET_PKT_SIZE)]: the new [total_dummy]. *)
Definition scan_packet (fuel : nat) (table : Z) (m : mem) (data data_sz total : Z) : option Z :=
  if data_sz =? TARGET_PKT_SIZE then
    match scan fuel table m (data + scan_off pg) 0 with
    | Some dummy => Some (total +64 dummy)%cint
    | None => None
    end
  else Some total.

Definition process_packet (fuel : nat) (s : scan_state) (w : World F) : option (scan_state * World F) :=
  let d := ss_ctx s in
  let '(rq_data, data_sz) := receive_packet (rqcq_ctx (rc_q d)) (rq_ctx (rc_q d)) w in
  match scan_packet fuel (sq_tx_buff (dt_ctx (rc_q d))) (w_mem w) rq_data data_sz (total_dummy s) with
  | None => None
  | Some total =>
      let sq_data := rq_data in
      let w := set_mem (swap_mac (w_mem w) sq_data) w in
      let '(sq, w) := prepare_send_packet (sq_ctx (rc_q d)) sq_data data_sz w in
      let '(sq, w) := finish_send_packet sq w in
      Some (MkScan (set_q (set_sq_ctx sq (rc_q d)) d) total, w)
  end.

Definition process_packet_host (fuel : nat) (s : scan_state) (w : World F) : option (scan_state * World F) :=
  let d := ss_ctx s in
  let '(rq_data, data_sz) := receive_packet (rqcq_ctx (rc_q d)) (rq_ctx (rc_q d)) w in
  let rq_data_dpa := host_rq_addr_to_dpa_addr rq_data (host_rq_ctx d) in
  match scan_packet fuel (dpa_rx_buff (host_rq_ctx d)) (w_mem w) rq_data_dpa data_sz (total_dummy s) with
  | None => None
  | Some total =>
      let sq_data := rq_data in
      let sq_data_dpa := rq_data_dpa in
      let w := set_mem (swap_mac (w_mem w) sq_data_dpa) w in
      let '(sq, w) := prepare_send_packet (sq_ctx (rc_q d)) sq_data data_sz w in
      let '(sq, w) := finish_send_packet_host sq w in
      Some (MkScan (set_q (set_sq_ctx sq (rc_q d)) d) total, w)
  end.

Definition device_init (shared_data : queue_config_data) (s : scan_state) (w : World F)
    : Z * scan_state * World F :=
  let d := ss_ctx s in
  let h := MkHostRq (wqd_mkey_id (rq_data shared_data)) (new_buffer_mkey_id shared_data)
             (wqd_daddr (rq_data shared_data)) (dpa_rx_buff (host_rq_ctx d)) in
  let '(q, w) := init_queues (log_depth pg) (log_depth pg) (log_depth pg) shared_data (rc_q d) w in
  (0, MkScan (MkRefl q h (packets_count d) (daddr_on_host (rq_data shared_data))
                (daddr_on_host (sq_data shared_data))) (total_dummy s), w).

(** One turn of the inner loop of the event handler. *)
Definition handler_turn (fuel : nat) (on_host : Z) (s : scan_state) (w : World F)
    : option (scan_state * World F) :=
  match (if truthy on_host then process_packet_host fuel s w else process_packet fuel s w) with
  | None => None
  | Some (s, w) =>
      let d := set_packets_count (packets_count (ss_ctx s) +32 1)%cint (ss_ctx s) in
      let '(q, w) := step_queues (rc_q d) w in
      Some (MkScan (set_q q d) (total_dummy s), w)
  end.

(** [scan_fuel] bounds each scan, [fuel] the turns of the inner loop. *)
Definition device_event_handler (scan_fuel fuel : nat) (env : list (World F -> World F))
    (s : scan_state) (w : World F) : handler_result scan_state :=
  let dtctx := snd flexio_dev_get_thread_ctx in
  let d := ss_ctx s in
  if is_initalized (rc_q d) =? 0 then Rescheduled s w
  else
    let on_host := rq_on_host d in
    let '(h, w) := map_rx_buff on_host (host_rq_ctx d) w in
    let s := MkScan (set_host_rq h d) (total_dummy s) in
    let cq_of (s : scan_state) := rqcq_ctx (rc_q (ss_ctx s)) in
    if dtctx =? 0 then
      Rescheduled s (emit (EvCqArm (cq_idx (cq_of s)) (cq_number (cq_of s))) (emit EvFence w))
    else
      match poll_f cq_of (handler_turn scan_fuel on_host) fuel env s w with
      | Some (Some (s, w)) => Polling s w
      | Some None | None => NoFuel
      end.

End Device.

(** ** The two programs *)

Module RandomAccess.
Definition LOG_SQ_RING_DEPTH : Z := 12.
Definition LOG_RQ_RING_DEPTH : Z := 12.
Definition LOG_CQ_RING_DEPTH : Z := 12.
Definition LOG_WQ_DATA_ENTRY_BSIZE : Z := 11.
Definition array_size : Z := LOG2VALUE (LOG_SQ_RING_DEPTH + LOG_WQ_DATA_ENTRY_BSIZE) / 8.

(** The address of the word [tmp] selects in the table. *)
Definition table_word (random_access_data_ptr tmp : Z) : Z :=
  random_access_data_ptr + 8 * (tmp mod array_size).

Definition prog : program :=
  MkProgram LOG_SQ_RING_DEPTH 256 (fun table m tmp => ld64 m (table_word table tmp)).

Definition dev_ctx_t : Type := refl_context.
Definition init_cq : app_transfer_cq -> cq_ctx_t := init_cq_with LOG_CQ_RING_DEPTH.
Definition init_rq : app_transfer_wq -> rq_ctx_t := init_rq_with LOG_RQ_RING_DEPTH.
Definition init_sq {F : FlexioDev} : app_transfer_wq -> sq_ctx_t -> sq_ctx_t := init_sq_with LOG_SQ_RING_DEPTH.
Definition process_packet {F : FlexioDev} : nat -> scan_state -> World F -> option (scan_state * World F) :=
  process_packet prog.
Definition process_packet_host {F : FlexioDev} : nat -> scan_state -> World F -> option (scan_state * World F) :=
  process_packet_host prog.
Definition dpa_refactor_random_access_device_init {F : FlexioDev}
    : queue_config_data -> scan_state -> World F -> Z * scan_state * World F := device_init prog.
Definition dpa_refactor_random_access_device_event_handler {F : FlexioDev} (scan_fuel fuel : nat)
    : list (World F -> World F) -> scan_state -> World F -> handler_result scan_state :=
  device_event_handler prog scan_fuel fuel.
End RandomAccess.

Module WorkingSet.
Definition LOG_SQ_RING_DEPTH : Z := 7.
Definition LOG_RQ_RING_DEPTH : Z := 7.
Definition LOG_CQ_RING_DEPTH : Z := 7.
Definition LOG_WQ_DATA_ENTRY_BSIZE : Z := 11.
Definition TEST_BANDWIDTH : Z := 0.

Definition prog : program := MkProgram LOG_SQ_RING_DEPTH 0 (fun _ _ tmp => tmp).

Definition dev_ctx_t : Type := refl_context.
Definition init_cq : app_transfer_cq -> cq_ctx_t := init_cq_with LOG_CQ_RING_DEPTH.
Definition init_rq : app_transfer_wq -> rq_ctx_t := init_rq_with LOG_RQ_RING_DEPTH.
Definition init_sq {F : FlexioDev} : app_transfer_wq -> sq_ctx_t -> sq_ctx_t := init_sq_with LOG_SQ_RING_DEPTH.
Definition process_packet {F : FlexioDev} : nat -> scan_state -> World F -> option (scan_state * World F) :=
  process_packet prog.
Definition process_packet_host {F : FlexioDev} : nat -> scan_state -> World F -> option (scan_state * World F) :=
  process_packet_host prog.
Definition dpa_refactor_workingset_device_init {F : FlexioDev}
    : queue_config_data -> scan_state -> World F -> Z * scan_state * World F := device_init prog.
Definition dpa_refactor_workingset_device_event_handler {F : FlexioDev} (scan_fuel fuel : nat)
    : list (World F -> World F) -> scan_state -> World F -> handler_result scan_state :=
  device_event_handler prog scan_fuel fuel.
End WorkingSet.

(** ** The scan *)

(** The [n] words at [p], and those before the first magic number. *)
Fixpoint words (m : mem) (p : Z) (n : nat) : list Z :=
  match n with
  | O => []
  | S n => ld64 m p :: words m (p + 8) n
  end.

Fixpoint before_magic (xs : list Z) : list Z :=
  match xs with
  | [] => []
  | x :: xs => if x =? MAGIC_NUMBER then [] else x :: before_magic xs
  end.

Lemma before_magic_app xs ys : MAGIC_NUMBER ∈ xs -> before_magic (xs ++ ys) = before_magic xs.
Proof.
  induction xs as [|x xs IH]; intros H; [by apply elem_of_nil in H|]. cbn [before_magic app].
  destruct (Z.eqb_spec x MAGIC_NUMBER) as [|Hne]; [done|]. rewrite IH; [done|].
  apply elem_of_cons in H as [H|H]; [congruence|done].
Qed.

Lemma words_app m p a b : words m p (a + b) = words m p a ++ words m (p + 8 * Z.of_nat a) b.
Proof.
  revert p. induction a as [|a IH]; intros p; cbn [words app Nat.add].
  { by replace (p + 8 * Z.of_nat 0) with p by lia. }
  f_equal. rewrite IH. do 2 f_equal. lia.
Qed.

Lemma words_lookup m p n k : (k < n)%nat -> words m p n !! k = Some (ld64 m (p + 8 * Z.of_nat k)).
Proof.
  revert p k. induction n as [|n IH]; intros p [|k] H; [lia|lia| |].
  - cbn. do 2 f_equal. lia.
  - cbn [words lookup list_lookup]. change ((ld64 m p :: words m (p + 8) n) !! S k) with (words m (p + 8) n !! k).
    rewrite IH by lia. do 2 f_equal. lia.
Qed.

Section Scan.
Variable pg : program.

(** The sum of what the words before the magic number select. *)
Definition scan_sum (table : Z) (m : mem) (p : Z) (n : nat) : Z :=
  zsum (map (word_value pg table m) (before_magic (words m p n))).

Lemma scan_finds table m fuel p acc :
  MAGIC_NUMBER ∈ words m p fuel ->
  scan pg fuel table m p (u64 acc) = Some (u64 (acc + scan_sum table m p fuel)).
Proof.
  unfold scan_sum. revert p acc. induction fuel as [|fuel IH]; intros p acc H; [by apply elem_of_nil in H|].
  cbn [words scan before_magic] in *. destruct (Z.eqb_spec (ld64 m p) MAGIC_NUMBER) as [E|E].
  - cbn. by rewrite Z.add_0_r.
  - rewrite wrapu_add_l, IH.
    + cbn [map]. unfold zsum. cbn [foldr]. do 2 f_equal. lia.
    + apply elem_of_cons in H as [H|H]; [congruence|done].
Qed.

(** Without the magic number the scan never ends. *)
Lemma scan_misses table m fuel p acc : MAGIC_NUMBER ∉ words m p fuel -> scan pg fuel table m p acc = None.
Proof.
  revert p acc. induction fuel as [|fuel IH]; intros p acc H; [done|]. cbn [words scan] in *.
  apply not_elem_of_cons in H as [H1 H2]. rewrite (proj2 (Z.eqb_neq _ _)) by congruence. by apply IH.
Qed.

(** The words of a packet of the target size. *)
Definition packet_words : nat := Z.to_nat (TARGET_PKT_SIZE / 8).

Lemma scan_enough table m fuel p acc :
  MAGIC_NUMBER ∈ words m p packet_words -> (packet_words <= fuel)%nat ->
  scan pg fuel table m p (u64 acc) = Some (u64 (acc + scan_sum table m p packet_words)).
Proof.
  intros H Hf. replace fuel with (packet_words + (fuel - packet_words))%nat by lia.
  rewrite scan_finds; unfold scan_sum; rewrite words_app; [by rewrite before_magic_app|].
  apply elem_of_app. by left.
Qed.

(** The magic number lies in the packet at [t], after its Ethernet header. *)
Definition magic_within (m : mem) (t : Z) : Prop :=
  exists k, 0 <= k /\ 14 <= scan_off pg + 8 * k /\ scan_off pg + 8 * k + 8 <= TARGET_PKT_SIZE /\
    ld64 m (t + scan_off pg + 8 * k) = MAGIC_NUMBER.

Hypothesis Hoff : 0 <= scan_off pg.

Lemma magic_within_words m t : magic_within m t -> MAGIC_NUMBER ∈ words m (t + scan_off pg) packet_words.
Proof.
  intros (k & H0 & H1 & H2 & E). apply list_elem_of_lookup. exists (Z.to_nat k).
  unfold packet_words, TARGET_PKT_SIZE in *. rewrite words_lookup by mlia. by rewrite Z2Nat.id, E by lia.
Qed.

(** Swapping the addresses of this packet or of a packet apart keeps it. *)
Lemma magic_within_swap m t t0 :
  t = t0 \/ t + TARGET_PKT_SIZE <= t0 \/ t0 + TARGET_PKT_SIZE <= t ->
  magic_within m t -> magic_within (swap_mac m t0) t.
Proof.
  intros Ha (k & H0 & H1 & H2 & E). exists k. split_and!; try done. rewrite <- E.
  unfold TARGET_PKT_SIZE in *. apply loadle_ext. intros b Hb. apply rd8_swap_mac_out. lia.
Qed.

(** What one packet does to the sum and to memory, as a total function. *)
Definition scan_fn (table : Z) (to_dpa : Z -> Z) (x : Z) (m : mem) (a sz : Z) : Z * mem * Z :=
  let t := to_dpa a in
  ((if sz =? TARGET_PKT_SIZE then u64 (x + scan_sum table m (t + scan_off pg) packet_words) else x),
   swap_mac m t, sz).

Lemma scan_packet_total fuel table m t sz total :
  (packet_words <= fuel)%nat -> (sz = TARGET_PKT_SIZE -> magic_within m t) ->
  scan_packet pg fuel table m t sz total =
    Some (if sz =? TARGET_PKT_SIZE then u64 (total + scan_sum table m (t + scan_off pg) packet_words) else total).
Proof.
  intros Hf Hm. unfold scan_packet. destruct (Z.eqb_spec sz TARGET_PKT_SIZE) as [E|E]; [|done].
  change 0 with (u64 0). rewrite scan_enough by (done || by apply magic_within_words, Hm).
  by rewrite wrapu_add_r, Z.add_0_l.
Qed.

End Scan.

(** The table of the random-access program covers every access: a word of the
    packet, whatever it is, selects one of the 2^20 words of the transmit buffer. *)
Lemma table_word_in_buffer table tmp :
  table <= RandomAccess.table_word table tmp /\
  RandomAccess.table_word table tmp + 8 <=
    table + 2 ^ (RandomAccess.LOG_SQ_RING_DEPTH + RandomAccess.LOG_WQ_DATA_ENTRY_BSIZE).
Proof.
  unfold RandomAccess.table_word. change RandomAccess.array_size with (2 ^ 20).
  change (2 ^ (RandomAccess.LOG_SQ_RING_DEPTH + RandomAccess.LOG_WQ_DATA_ENTRY_BSIZE)) with (8 * 2 ^ 20).
  pose proof (Z.mod_pos_bound tmp (2 ^ 20)). lia.
Qed.

(** ** Bursts *)

#[export] Instance scan_has_queues : HasQueues scan_state.
Proof. refine {| dq := fun s => rc_q (ss_ctx s); set_dq := set_ctx_q |}; by intros q [[] ?]. Defined.

Section Burst.
Context {F : FlexioDev} `{!FlexioDevLaws F}.
Variable pg : program.
Hypothesis Hoff : 0 <= scan_off pg.
Hypothesis Hlog : 0 <= log_depth pg <= 30.
Variables (scan_fuel : nat) (Hfuel : (packet_words <= scan_fuel)%nat).

(** The table the program uses. *)
Definition table_of (d : refl_context) : Z :=
  if truthy (rq_on_host d) then dpa_rx_buff (host_rq_ctx d) else sq_tx_buff (dt_ctx (rc_q d)).

(** What the handler does not change of the context. *)
Definition same_ctx (d0 d : refl_context) : Prop :=
  host_rq_ctx d = host_rq_ctx d0 /\ rq_on_host d = rq_on_host d0 /\ dt_ctx (rc_q d) = dt_ctx (rc_q d0).

(** While the packets carry their magic number a turn is the total function
    [scan_fn] in the common packet loop. *)
Lemma handler_turn_serves d0 s (w : World F) a sz :
  same_ctx d0 (ss_ctx s) -> current_packet (ss_ctx s) w = (a, sz) ->
  (sz = TARGET_PKT_SIZE -> magic_within pg (w_mem w) (touch_addr d0 a)) ->
  exists s' w' q1 w1, handler_turn pg scan_fuel (rq_on_host d0) s w = Some (s', w') /\
    serve_packet (scan_fn pg (table_of d0) (touch_addr d0)) (finish_of d0) (total_dummy s) (dq s) w
      = (total_dummy s', q1, w1) /\
    step_queues q1 w1 = (dq s', w') /\ same_ctx d0 (ss_ctx s').
Proof.
  intros (Hh & Hr & Hd) Hc Hm. unfold current_packet in Hc.
  unfold handler_turn, process_packet_host, process_packet, serve_packet, send_packet, touch_addr, finish_of,
    table_of, scan_fn in *.
  change (dq s) with (rc_q (ss_ctx s)). rewrite Hc.
  destruct (truthy (rq_on_host d0)); rewrite ?Hh, ?Hd;
    rewrite (scan_packet_total pg Hoff) by done; set (w0 := set_mem _ w);
    destruct (prepare_send_packet (sq_ctx (rc_q (ss_ctx s))) a sz w0) as [sq1 w1];
    [destruct (finish_send_packet_host sq1 w1) as [sq2 w2]|destruct (finish_send_packet sq1 w1) as [sq2 w2]];
    cbn [rc_q set_q set_packets_count ss_ctx packets_count total_dummy];
    destruct (step_queues (set_sq_ctx sq2 (rc_q (ss_ctx s))) w2) as [q3 w3] eqn:Es;
    (eexists _, _, _, _; split; [reflexivity|]; split; [reflexivity|]; split; [exact Es|]);
    unfold step_queues in Es; destruct (step_cq _ _); injection Es as <- _; by split_and!.
Qed.

Section Run.
Variables (d0 : refl_context) (w0 : World F) (all : list cqe64) (lk x0 : Z).
Hypothesis Hall : Z.of_nat (length all) <= 2 ^ log_depth pg.

Let addr := pkt_addr (rq_ctx (rc_q d0)) (w_rq w0).
Let acc (e : cqe64) := touch_addr d0 (addr e).

(** A packet of the target size carries its magic number. *)
Definition marked (m : mem) (e : cqe64) : Prop :=
  flexio_dev_cqe_get_byte_cnt e = TARGET_PKT_SIZE -> magic_within pg m (acc e).

Definition apart (es : list cqe64) : Prop :=
  forall e e', e ∈ es -> e' ∈ es ->
    acc e = acc e' \/ acc e + TARGET_PKT_SIZE <= acc e' \/ acc e' + TARGET_PKT_SIZE <= acc e.

Let inv := serve_inv (scan_fn pg (table_of d0) (touch_addr d0)) (log_depth pg) (log_depth pg)
  (writebacks d0) x0 (rc_q d0) w0 0 0 lk all.

Definition scan_inv (pend : list cqe64) (s : scan_state) (w : World F) : Prop :=
  same_ctx d0 (ss_ctx s) /\ Forall (marked (w_mem w)) pend /\
  exists dn, inv dn pend (total_dummy s) (dq s) w.

Lemma scan_inv_step e pend s w :
  apart all -> scan_inv (e :: pend) s w ->
  exists s' w', handler_turn pg scan_fuel (rq_on_host d0) s w = Some (s', w') /\ scan_inv pend s' w'.
Proof.
  intros Hap (Hs & [Hm Hms]%list.Forall_cons & dn & HI). pose proof HI as [Ha Rc _ _ [Hrq _ _ _ _ _] Hwrq _ _].
  assert (current_packet (ss_ctx s) w = (addr e, flexio_dev_cqe_get_byte_cnt e)) as Hc.
  { unfold current_packet, receive_packet. change (rc_q (ss_ctx s)) with (dq s).
    rewrite (cq_rep_head _ _ _ _ _ _ Rc). unfold rwqe_at. by rewrite Hrq, Hwrq. }
  destruct (handler_turn_serves d0 s w _ _ Hs Hc Hm) as (s' & w' & q1 & w1 & Et & Ev & Eq & Hs').
  assert (0 <= log_depth pg <= 31) as Hcq by lia.
  exists s', w'. split; [done|]. split; [done|].
  assert (w_mem w' = swap_mac (w_mem w) (acc e)) as Hm'.
  { unfold serve_packet in Ev. unfold current_packet in Hc. change (rc_q (ss_ctx s)) with (dq s) in Hc.
    rewrite Hc in Ev. cbn [scan_fn] in Ev.
    destruct (send_packet _ _ _ _ _) as [q2 w2] eqn:Ep. injection Ev as _ -> ->.
    by destruct (send_step_frame _ _ _ Hcq Hlog _ _ _ _ _ _ _ _ _ (finish_of_is_finish d0)
      _ _ _ _ _ _ _ _ _ _ _ _ HI Ep Eq) as (_ & _ & _ & _ & _ & M & _). }
  split.
  - rewrite Hm'. apply list.Forall_forall. intros x Hx Hsz. apply magic_within_swap.
    + apply Hap; rewrite Ha; set_solver.
    + by apply (proj1 (list.Forall_forall _ _) Hms).
  - exists (dn ++ [e]). eapply serve_step; [| |apply finish_of_is_finish| |exact HI|exact Ev|exact Eq]; [lia|done|done].
Qed.
End Run.

(** The sum after the packets [es], each scanned in the memory its predecessors
    left. *)
Fixpoint scan_total (table : Z) (acc : cqe64 -> Z) (es : list cqe64) (x : Z) (m : mem) : Z :=
  match es with
  | [] => x
  | e :: es =>
      let x := if flexio_dev_cqe_get_byte_cnt e =? TARGET_PKT_SIZE
               then u64 (x + scan_sum pg table m (acc e + scan_off pg) packet_words) else x in
      scan_total table acc es x (swap_mac m (acc e))
  end.

Lemma serve_all_scan table to_dpa addr es x m :
  serve_all (scan_fn pg table to_dpa) addr es x m =
  (scan_total table (fun e => to_dpa (addr e)) es x m, swap_all (fun e => to_dpa (addr e)) es m,
   map (fun e => (addr e, flexio_dev_cqe_get_byte_cnt e)) es).
Proof. revert x m. induction es as [|e es IH]; intros x m; cbn; [done|]. by rewrite IH. Qed.

(** Draining the queue of an initialised device. *)
Lemma scan_drain d1 (w : World F) es lk fuel x :
  Z.of_nat (length es) <= 2 ^ log_depth pg -> (length es <= fuel)%nat ->
  0 <= sq_pi (sq_ctx (rc_q d1)) < 2 ^ 32 ->
  cq_rep (log_depth pg) 0 es (rqcq_ctx (rc_q d1)) w -> sq_rep (log_depth pg) 0 lk (sq_ctx (rc_q d1)) w ->
  Forall (marked d1 w (w_mem w)) es -> apart d1 w es ->
  exists s2 w2,
    drain_f (fun s => rqcq_ctx (rc_q (ss_ctx s))) (handler_turn pg scan_fuel (rq_on_host d1)) fuel
      (MkScan d1 x) w = Some (Some (s2, w2)) /\
    serve_inv (scan_fn pg (table_of d1) (touch_addr d1)) (log_depth pg) (log_depth pg) (writebacks d1)
      x (rc_q d1) w 0 0 lk es es [] (total_dummy s2) (dq s2) w2.
Proof.
  intros Hl Hf Hpi Rc Rs Hm Hap.
  destruct (drain_f_inv (fun s => rqcq_ctx (rc_q (ss_ctx s))) (handler_turn pg scan_fuel (rq_on_host d1))
    (scan_inv d1 w es lk x)) with (fuel := fuel) (pend := es) (d := MkScan d1 x) (w := w)
    as (s2 & w2 & E & _ & _ & dn & HI).
  - intros pend s v (_ & _ & dn & HI).
    apply (cq_rep_ready (log_depth pg) ltac:(lia) _ _ _ _ (si_cq _ _ _ _ _ _ _ _ _ _ _ _ _ _ _ _ HI)).
  - intros e pend s v. by apply scan_inv_step.
  - done.
  - split; [by split_and!|]. split; [done|]. exists [].
    split; cbn; rewrite ?Z.add_0_r, ?app_nil_r; try done; [by rewrite wrapu_small|]. by exists [].
  - exists s2, w2. split; [done|]. pose proof (si_all _ _ _ _ _ _ _ _ _ _ _ _ _ _ _ _ HI) as Ha.
    rewrite app_nil_r in Ha. by rewrite <- Ha in HI.
Qed.
End Burst.

Lemma prog_params pg :
  pg = RandomAccess.prog \/ pg = WorkingSet.prog -> 0 <= scan_off pg /\ 0 <= log_depth pg <= 30.
Proof. intros [-> | ->]; cbn; unfold RandomAccess.LOG_SQ_RING_DEPTH, WorkingSet.LOG_SQ_RING_DEPTH; lia. Qed.

(** The event handlers of the two scanning reflectors end every burst of
    well-formed packets.  Start from an initialised device, let the NIC deliver up
    to a ring of packets that do not overlap, each packet of 1024 bytes carrying the
    magic number behind its Ethernet header: with 128 words of fuel per scan and a
    turn per packet the handler drains the queue.  Every packet has been reflected
    and posted with its own length, the library calls are those of the plain
    reflector, and the global sum has grown by what the words before the magic
    number of each 1024-byte packet select. *)
Theorem scan_handler_burst {F : FlexioDev} `{!FlexioDevLaws F} pg shared s0 s1 (w0 w1 : World F)
    (es : list cqe64) (scan_fuel fuel : nat) :
  pg = RandomAccess.prog \/ pg = WorkingSet.prog ->
  cq_prepared (log_depth pg) shared w0 -> 0 <= sq_pi (sq_ctx (dq s0)) < 2 ^ 32 ->
  device_init pg shared s0 w0 = (0, s1, w1) -> snd flexio_dev_get_thread_ctx <> 0 ->
  (128 <= scan_fuel)%nat -> (length es <= fuel)%nat -> Z.of_nat (length es) <= 2 ^ log_depth pg ->
  (forall e, e ∈ es -> flexio_dev_cqe_get_owner e = 0) ->
  let d1 := set_host_rq (fst (map_rx_buff (rq_on_host (ss_ctx s1)) (host_rq_ctx (ss_ctx s1)) w1)) (ss_ctx s1) in
  let addr := pkt_addr (rq_ctx (dq s1)) (w_rq w1) in
  let acc e := touch_addr d1 (addr e) in
  apart d1 w1 es -> Forall (marked pg d1 w1 (w_mem w1)) es ->
  exists s2 w2,
    device_event_handler pg scan_fuel fuel
      [nic_burst (log_depth pg) (cq_ring_daddr (rq_cq_data shared)) 0 es] s1 w1 = Polling s2 w2 /\
    cqe_ready (rqcq_ctx (dq s2)) w2 = false /\
    w_mem w2 = swap_all acc es (w_mem w1) /\
    total_dummy s2 = scan_total pg (table_of d1) acc es (total_dummy s1) (w_mem w1) /\
    (forall k e, es !! k = Some e ->
       posted w2 (wq_ring_daddr (sq_data shared), 4 * Z.of_nat k + 2) (addr e)
         (flexio_dev_cqe_get_byte_cnt e) (wqd_mkey_id (sq_data shared))) /\
    exists t, w_trace w2 =
      t ++ burst_events (writebacks d1) (dq s1) (sq_pi (sq_ctx (dq s0))) 0 (length es).
Proof.
  intros Hpg Hp Hpi E Hth Hsf Hf Hl Ho d1 addr acc Hap Hm.
  destruct (prog_params pg Hpg) as [Hoff Hlog]. clear Hpg.
  unfold device_init in E. destruct (init_queues _ _ _ _ _ _) as [q w'] eqn:Eq. injection E as Es1 ->.
  destruct (init_queues_fresh (log_depth pg) (log_depth pg) (log_depth pg) ltac:(lia) Hlog _ _ _ _ _ Hp Eq)
    as [[Hin Rc Rs Hpi1 Hring Hsr] _].
  assert (rc_q (ss_ctx s1) = q) as Hq by (by rewrite <- Es1).
  change (dq s1) with (rc_q (ss_ctx s1)) in *. change (dq s0) with (rc_q (ss_ctx s0)) in *.
  unfold device_event_handler. rewrite Hq, Hin. cbn [Z.eqb].
  revert d1 acc Hap Hm. destruct (map_rx_buff (rq_on_host (ss_ctx s1)) (host_rq_ctx (ss_ctx s1)) w1) as [h w2] eqn:Em.
  intros d1 acc Hap Hm. change (fst (h, w2)) with h in d1. fold d1.
  apply map_rx_buff_frame in Em as (Mc & Ms & Mr & Mm).
  rewrite (proj2 (Z.eqb_neq _ _) Hth). cbn [poll_f].
  set (ring := cq_ring_daddr (rq_cq_data shared)) in *. set (wn := nic_burst (log_depth pg) ring 0 es w2).
  destruct (nic_burst_frame (log_depth pg) ring 0 es w2) as (Nm & Nr & Ns & Nt & _). fold wn in Nm, Nr, Ns, Nt.
  assert (rc_q d1 = q) as Hq2 by exact Hq.
  destruct (scan_drain pg Hoff Hlog scan_fuel Hsf d1 wn es (wqd_mkey_id (sq_data shared)) fuel (total_dummy s1))
    as (s2 & w3 & Ed & HI).
  - done.
  - done.
  - by rewrite Hq2, Hpi1.
  - rewrite Hq2. unfold wn. rewrite <- Hring.
    refine (cq_rep_burst (log_depth pg) ltac:(lia) 0 [] es (rqcq_ctx q) w2 _ _ _); [cbn; lia| |by eapply cq_rep_frame].
    intros i e Hi. pose proof (lookup_lt_Some _ _ _ Hi). cbn [length].
    rewrite Z.div_small by lia. apply Ho, list_elem_of_lookup. eauto.
  - rewrite Hq2. eapply sq_rep_frame; [|exact Rs]. by rewrite Ns.
  - unfold marked. by rewrite Nm, Nr, Mm, Mr.
  - unfold apart. by rewrite Nr, Mr.
  - change (rq_on_host (ss_ctx s1)) with (rq_on_host d1). rewrite Ed. exists s2, w3.
    destruct HI as [_ Cq _ _ _ _ (posts & Es & Hps) Ht].
    rewrite serve_all_scan in Es. injection Es as Ex Emem Ep. rewrite Nm, Nr, Mm, Mr in Ex, Emem.
    split; [done|]. split_and!.
    + by rewrite (cq_rep_ready (log_depth pg) ltac:(lia) _ _ _ _ Cq).
    + symmetry. exact Emem.
    + symmetry. exact Ex.
    + intros k e Hk. specialize (Hps k (addr e) (flexio_dev_cqe_get_byte_cnt e)).
      pose proof (lookup_lt_Some _ _ _ Hk). unfold data_slot in Hps.
      rewrite Z.add_0_l, Z.mod_small, Hq2, Hsr in Hps by lia. apply Hps.
      rewrite <- Ep, Nr, Mr, list_lookup_fmap, Hk. done.
    + exists (w_trace w2). rewrite Ht, Nt, Hq2, Hpi1. done.
Qed.

(** A packet of 1024 bytes with the words 5, 0 and the magic number. *)
Definition demo_scan_w0 : World ref_flexio :=
  MkWorld (F := ref_flexio) (st64 (st64 ∅ 70000 5) (70000 + 16) MAGIC_NUMBER) ∅ {[ (16384, 0) := 70000 ]} ∅ 0%nat None [].
Definition demo_scan_init : Z * scan_state * World ref_flexio :=
  device_init (F := ref_flexio) WorkingSet.prog (demo_shared 0) zero_scan demo_scan_w0.
Definition demo_scan_s : scan_state := snd (fst demo_scan_init).
Definition demo_scan_w : World ref_flexio := snd demo_scan_init.

Lemma demo_scan_eq : device_init (F := ref_flexio) WorkingSet.prog (demo_shared 0) zero_scan demo_scan_w0 =
  (0, demo_scan_s, demo_scan_w).
Proof. unfold demo_scan_s, demo_scan_w, demo_scan_init, device_init. by destruct (init_queues _ _ _ _ _ _). Qed.

Lemma demo_scan_acc :
  touch_addr (set_host_rq (fst (map_rx_buff (F := ref_flexio) (rq_on_host (ss_ctx demo_scan_s)) (host_rq_ctx (ss_ctx demo_scan_s))
    demo_scan_w)) (ss_ctx demo_scan_s)) (pkt_addr (F := ref_flexio) (rq_ctx (dq demo_scan_s)) (w_rq demo_scan_w)
    (RefCqe 0 0 1024)) = 70000.
Proof. vm_compute. reflexivity. Qed.

Lemma demo_scan_magic : ld64 (w_mem demo_scan_w) (70000 + 0 + 8 * 2) = MAGIC_NUMBER.
Proof. vm_compute. reflexivity. Qed.

Lemma scan_handler_burst_witness :
  exists s2 w2,
    device_event_handler (F := ref_flexio) WorkingSet.prog 128 1
      [nic_burst (F := ref_flexio) 7 4096 0 [RefCqe 0 0 1024]] demo_scan_s demo_scan_w = Polling s2 w2 /\
    total_dummy s2 = 5.
Proof.
  destruct (scan_handler_burst (F := ref_flexio) WorkingSet.prog (demo_shared 0) zero_scan demo_scan_s
    demo_scan_w0 demo_scan_w [RefCqe 0 0 1024] 128 1) as (s2 & w2 & H1 & _ & _ & H2 & _).
  - right. reflexivity.
  - intros i Hi. reflexivity.
  - split; [discriminate|reflexivity].
  - exact demo_scan_eq.
  - discriminate.
  - apply Nat.leb_le. reflexivity.
  - apply Nat.leb_le. reflexivity.
  - discriminate.
  - intros e He. apply list_elem_of_singleton in He. rewrite He. reflexivity.
  - intros e e' He He'. apply list_elem_of_singleton in He, He'. left. rewrite He, He'. reflexivity.
  - apply list.Forall_singleton. intros _.
    refine (eq_rect _ (magic_within WorkingSet.prog (w_mem demo_scan_w)) _ _ (eq_sym demo_scan_acc)).
    exists 2.
    split; [discriminate|]. split; [discriminate|]. split; [discriminate|]. exact demo_scan_magic.
  - exists s2, w2. split; [exact H1|]. rewrite H2. vm_compute. reflexivity.
Defined.
