(* ===== verification/HostRoofline.v ===== *)
(** * HostRoofline: the same benchmark on the host

    Translation of [test_suite/roofline/roofline.h], the port of
    [flexio/roofline/device/roofline_device.c] to host threads: the same 32 kernels
    over a host buffer, four kernels that read no data (compute counts 511 and
    1023), the two switches and the thread body.  Kernels are written in the
    straight-line language of [Roofline]; the host reads memory directly.

    The clock is an argument; the throughput, a quotient of doubles, is left as the
    numbers it is computed from. *)

From S2P Require Import Prelude Machine FlexioDev WrapperDevice Roofline.

Module Host.

Definition add_read_1 := Kernel [1] (each_tmp OpAdd 1).
Definition add_read_2 := Kernel [1; 2] (each_tmp OpAdd 2).
Definition add_read_3 := Kernel [1; 2; 3] (each_tmp OpAdd 3).
Definition add_read_4 := Kernel [1; 2; 3; 4] (each_tmp OpAdd 4).
Definition add_read_6 := Kernel [1; 2; 3; 4; 5; 6] (each_tmp OpAdd 6).
Definition add_read_8 := Kernel eight (each_tmp OpAdd 8).
Definition add_read_12 := Kernel eight (each_tmp OpAdd 8 ++ half_chain OpAdd).
Definition add_read_16 := Kernel eight (load8 :: REP2 (chain OpAdd)).
Definition add_read_24 := Kernel eight (load8 :: REP3 (chain OpAdd)).
Definition add_read_32 := Kernel eight (load8 :: REP4 (chain OpAdd)).
Definition add_read_64 := Kernel eight (load8 :: REP8 (chain OpAdd)).
Definition add_read_128 := Kernel eight (load8 :: REP16 (chain OpAdd)).
Definition add_read_256 := Kernel eight (load8 :: REP32 (chain OpAdd)).
Definition add_read_512 := Kernel eight (load8 :: REP64 (chain OpAdd)).
Definition add_read_1024 := Kernel eight (load8 :: REP128 (chain OpAdd)).
Definition add_read_2048 := Kernel eight (load8 :: REP256 (chain OpAdd)).

(** The kernels without data. *)
Definition add_512 := Kernel eight (REP64 (chain OpAdd)).
Definition add_1024 := Kernel eight (REP128 (chain OpAdd)).

Definition mul_read_1 := Kernel [1] (each_tmp OpMul 1).
Definition mul_read_2 := Kernel [1; 2] (each_tmp OpMul 2).
Definition mul_read_3 := Kernel [1; 2; 3] (each_tmp OpMul 3).
Definition mul_read_4 := Kernel [1; 2; 3; 4] (each_tmp OpMul 4).
Definition mul_read_6 := Kernel [1; 2; 3; 4; 5; 6] (each_tmp OpMul 6).
Definition mul_read_8 := Kernel eight (each_tmp OpMul 8).
Definition mul_read_12 := Kernel eight (each_tmp OpMul 8 ++ half_chain OpMul).
Definition mul_read_16 := Kernel eight (load8 :: REP2 (chain OpMul)).
Definition mul_read_24 := Kernel eight (load8 :: REP3 (chain OpMul)).
Definition mul_read_32 := Kernel eight (load8 :: REP4 (chain OpMul)).
Definition mul_read_64 := Kernel eight (load8 :: REP8 (chain OpMul)).
Definition mul_read_128 := Kernel eight (load8 :: REP16 (chain OpMul)).
Definition mul_read_256 := Kernel eight (load8 :: REP32 (chain OpMul)).
Definition mul_read_512 := Kernel eight (load8 :: REP64 (chain OpMul)).
Definition mul_read_1024 := Kernel eight (load8 :: REP128 (chain OpMul)).
Definition mul_read_2048 := Kernel eight (load8 :: REP256 (chain OpMul)).

Definition mul_512 := Kernel eight (REP64 (chain OpMul)).
Definition mul_1024 := Kernel eight (REP128 (chain OpMul)).

(** What a [case] calls: a kernel that reads the buffer or one that does not. *)
Inductive callee := Reads (k : kernel) | Free (k : kernel).

Definition add_case (compute_count : Z) : option callee :=
  match compute_count with
  | 1 => Some (Reads add_read_1) | 2 => Some (Reads add_read_2) | 3 => Some (Reads add_read_3)
  | 4 => Some (Reads add_read_4) | 6 => Some (Reads add_read_6) | 8 => Some (Reads add_read_8)
  | 12 => Some (Reads add_read_12) | 16 => Some (Reads add_read_16) | 24 => Some (Reads add_read_24)
  | 32 => Some (Reads add_read_32) | 64 => Some (Reads add_read_64) | 128 => Some (Reads add_read_128)
  | 256 => Some (Reads add_read_256) | 512 => Some (Reads add_read_512)
  | 1024 => Some (Reads add_read_1024) | 2048 => Some (Reads add_read_2048)
  | 511 => Some (Free add_512) | 1023 => Some (Free add_1024) | _ => None
  end.

Definition mul_case (compute_count : Z) : option callee :=
  match compute_count with
  | 1 => Some (Reads mul_read_1) | 2 => Some (Reads mul_read_2) | 3 => Some (Reads mul_read_3)
  | 4 => Some (Reads mul_read_4) | 6 => Some (Reads mul_read_6) | 8 => Some (Reads mul_read_8)
  | 12 => Some (Reads mul_read_12) | 16 => Some (Reads mul_read_16) | 24 => Some (Reads mul_read_24)
  | 32 => Some (Reads mul_read_32) | 64 => Some (Reads mul_read_64) | 128 => Some (Reads mul_read_128)
  | 256 => Some (Reads mul_read_256) | 512 => Some (Reads mul_read_512)
  | 1024 => Some (Reads mul_read_1024) | 2048 => Some (Reads mul_read_2048)
  | 511 => Some (Free mul_512) | 1023 => Some (Free mul_1024) | _ => None
  end.

(** [for (long i = 0; i < num_ele; i++) { size_t tmp = data[i]; ... }] *)
Fixpoint for_read (body : list stmt) (m : mem) (data i : Z) (n : nat) (s : list Z) : list Z :=
  match n with
  | O => s
  | S n => for_read body m data (i + 1) n (exec s64 body (ld64 m (data + 8 * i)) s)
  end.

(** The loop of the kernels without data: no [tmp] occurs in their bodies. *)
Fixpoint for_free (body : list stmt) (n : nat) (s : list Z) : list Z :=
  match n with
  | O => s
  | S n => for_free body n (exec s64 body 0 s)
  end.

Definition call (c : callee) (m : mem) (data num_ele loop : Z) : Z :=
  match c with
  | Reads k => ret_sum s64 (Nat.iter (Z.to_nat loop) (for_read (k_body k) m data 0 (Z.to_nat num_ele)) (k_init k))
  | Free k => ret_sum s64 (Nat.iter (Z.to_nat loop) (for_free (k_body k) (Z.to_nat num_ele)) (k_init k))
  end.

Definition roofline_sizet_add_read (m : mem) (data num_ele compute_count loop : Z) : Z :=
  let sum := 0 in
  match add_case compute_count with
  | Some c => s64 (sum + call c m data num_ele loop)
  | None => sum
  end.

Definition roofline_sizet_mul_read (m : mem) (data num_ele compute_count loop : Z) : Z :=
  let sum := 1 in
  match mul_case compute_count with
  | Some c => s64 (sum + call c m data num_ele loop)
  | None => sum
  end.

(** The thread body after the start flag: [begin_time] and [end_time] are the two
    clock readings.  The result is the new [total_dummy] and the arguments of
    [compute_stat]: the count, the nanoseconds, the compute count, the thread. *)
Definition thread_data (data_ptr thread_id mem_size : Z) : Z := data_ptr + 8 * (thread_id * mem_size / 8).

Definition roofline_loop (mem_size loop_total : Z) (m : mem) (thread_id data_ptr compute_count : Z)
    (begin_time end_time total_dummy : Z) : Z * (Z * Z * Z * Z) :=
  let data := thread_data data_ptr thread_id mem_size in
  let dummy := u64 (roofline_sizet_add_read m data (mem_size / 8) compute_count loop_total) in
  ((total_dummy +64 dummy)%cint,
   (loop_total * mem_size / 8, (end_time -64 begin_time)%cint, compute_count, thread_id)).

End Host.

(** ** The two ports agree *)

Section Agree.
Context {F : FlexioDev}.
Implicit Types (w : World F).

Lemma host_for_read body w data i n s :
  (forall k, i <= k < i + Z.of_nat n -> via w (data + 8 * k) = data + 8 * k) ->
  Host.for_read body (w_mem w) data i n s = for_read s64 body w data i n s.
Proof.
  revert i s. induction n as [|n IH]; intros i s Hv; [done|].
  cbn [Host.for_read for_read]. rewrite (Hv i) by lia. apply IH. intros k Hk. apply Hv. lia.
Qed.

(** The buffer is reached without a window. *)
Definition direct (w : World F) (data num_ele : Z) : Prop :=
  forall k, 0 <= k < num_ele -> via w (data + 8 * k) = data + 8 * k.

Lemma host_call w k data num_ele loop :
  direct w data num_ele -> Host.call (Host.Reads k) (w_mem w) data num_ele loop = call k w data num_ele loop.
Proof.
  intros Hv. unfold Host.call, call, run_kernel. f_equal. apply iter_ext. intros s.
  apply host_for_read. intros i Hi. apply Hv. lia.
Qed.

(** Every accumulator is a [long]. *)
Definition longs (s : list Z) : Prop := Forall (fun x => - 2 ^ 63 <= x < 2 ^ 63) s.

Lemma exec_longs body t s : longs s -> longs (exec s64 body t s).
Proof.
  unfold exec. revert s. induction body as [|c body IH]; intros s H; [done|]. cbn [fold_left]. apply IH.
  unfold exec1, set_sum. apply list.Forall_insert; [done|]. apply (wraps_range 64). lia.
Qed.

(** Adding an element that is zero does nothing. *)
Lemma load_zero s : longs s -> exec1 s64 0 s load8 = s.
Proof.
  intros H. unfold exec1, set_sum, get_sum. cbn [st_src st_dst st_op load8 ev].
  change (8 - 1)%nat with 7%nat. rewrite Z.add_0_r. destruct (s !! 7%nat) as [v|] eqn:E.
  - rewrite (nth_lookup_Some s 7 0 v) by done. rewrite wraps_small; [by apply list_insert_id|lia|].
    exact (list.Forall_lookup_1 _ _ _ _ H E).
  - apply list_insert_ge. by apply lookup_ge_None.
Qed.

Lemma for_free_longs body n s : longs s -> longs (Host.for_free body n s).
Proof. revert s. induction n as [|n IH]; intros s H; [done|]. apply IH. by apply exec_longs. Qed.

(** Without data the loop is the loop over zeroes. *)
Lemma host_for_free body (m : mem) data i n s :
  longs s -> (forall k, i <= k < i + Z.of_nat n -> ld64 m (data + 8 * k) = 0) ->
  Host.for_read (load8 :: body) m data i n s = Host.for_free body n s.
Proof.
  revert i s. induction n as [|n IH]; intros i s Hs H0; [done|].
  cbn [Host.for_read Host.for_free]. rewrite (H0 i) by lia.
  assert (exec s64 (load8 :: body) 0 s = exec s64 body 0 s) as ->.
  { unfold exec. cbn [fold_left]. by rewrite load_zero. }
  apply IH; [by apply exec_longs|]. intros k Hk. apply H0. lia.
Qed.

Lemma host_call_free body (m : mem) data num_ele loop :
  (forall k, 0 <= k < num_ele -> ld64 m (data + 8 * k) = 0) ->
  Host.call (Host.Free (Kernel eight body)) m data num_ele loop =
  Host.call (Host.Reads (Kernel eight (load8 :: body))) m data num_ele loop.
Proof.
  intros H0. unfold Host.call. cbn [k_body k_init]. f_equal.
  assert (longs eight) as Hl by (unfold longs; repeat constructor; lia).
  induction (Z.to_nat loop) as [|l IH]; [done|]. rewrite !Nat.iter_succ, <- IH.
  symmetry. apply host_for_free; [|intros k Hk; apply H0; lia].
  clear IH. induction l as [|l IH]; [done|]. rewrite Nat.iter_succ. by apply for_free_longs.
Qed.

(** The host port of the roofline benchmark computes what the DPA port
    computes.  Over the same buffer, reached without a window, both functions return
    the same number for every compute count but 511 and 1023, which only the host
    knows; for these the kernels that read no data return what the 512- and
    1024-operation kernels return on a buffer of zeroes. *)
Theorem host_roofline_agrees w data num_ele cc loop :
  direct w data num_ele ->
  (cc <> 511 -> cc <> 1023 ->
     Host.roofline_sizet_add_read (w_mem w) data num_ele cc loop = roofline_sizet_add_read w data num_ele cc loop /\
     Host.roofline_sizet_mul_read (w_mem w) data num_ele cc loop = roofline_sizet_mul_read w data num_ele cc loop) /\
  ((forall k, 0 <= k < num_ele -> ld64 (w_mem w) (data + 8 * k) = 0) ->
   forall c, c = 512 \/ c = 1024 ->
     Host.roofline_sizet_add_read (w_mem w) data num_ele (c - 1) loop = roofline_sizet_add_read w data num_ele c loop /\
     Host.roofline_sizet_mul_read (w_mem w) data num_ele (c - 1) loop = roofline_sizet_mul_read w data num_ele c loop).
Proof.
  intros Hv. split.
  - intros H1 H2. unfold Host.roofline_sizet_add_read, roofline_sizet_add_read,
      Host.roofline_sizet_mul_read, roofline_sizet_mul_read. split.
    + assert (Host.add_case cc = Host.Reads <$> add_case cc) as ->
        by (unfold Host.add_case, add_case; repeat case_match; try done; lia).
      destruct (add_case cc) as [k|]; cbn -[Host.call call s64]; [by rewrite host_call|done].
    + assert (Host.mul_case cc = Host.Reads <$> mul_case cc) as ->
        by (unfold Host.mul_case, mul_case; repeat case_match; try done; lia).
      destruct (mul_case cc) as [k|]; cbn -[Host.call call s64]; [by rewrite host_call|done].
  - intros H0 c Hc. unfold Host.roofline_sizet_add_read, roofline_sizet_add_read,
      Host.roofline_sizet_mul_read, roofline_sizet_mul_read.
    destruct Hc as [-> | ->]; cbn [Host.add_case add_case Host.mul_case mul_case Z.sub Z.add Z.opp Z.pos_sub Pos.pred_double];
      rewrite <- !(host_call w) by done; split; do 2 f_equal; by apply host_call_free.
Qed.

(** The slices of the threads are disjoint parts of the buffer of [threads *
    mem_size] bytes the program allocates. *)
Lemma thread_slices data_ptr mem_size threads t :
  0 <= mem_size -> 0 <= t < threads ->
  data_ptr <= Host.thread_data data_ptr t mem_size /\
  Host.thread_data data_ptr t mem_size + 8 * (mem_size / 8) <= data_ptr + threads * mem_size /\
  Host.thread_data data_ptr t mem_size + 8 * (mem_size / 8) <= Host.thread_data data_ptr (t + 1) mem_size.
Proof.
  intros Hm Ht. unfold Host.thread_data.
  assert ((t + 1) * mem_size <= threads * mem_size) by nia. assert (0 <= t * mem_size) by nia.
  replace ((t + 1) * mem_size) with (t * mem_size + mem_size) in * by lia.
  generalize dependent (t * mem_size). intros x. intros. mlia.
Qed.

End Agree.

Lemma host_roofline_agrees_witness :
  Host.roofline_sizet_add_read ∅ 0 3 64 2 =
    roofline_sizet_add_read (F := ref_flexio) empty_world 0 3 64 2 /\
  Host.roofline_sizet_mul_read ∅ 0 3 511 2 =
    roofline_sizet_mul_read (F := ref_flexio) empty_world 0 3 512 2.
Proof.
  destruct (host_roofline_agrees (F := ref_flexio) empty_world 0 3 64 2) as [H1 H2].
  { intros k Hk. assert (k = 0 \/ k = 1 \/ k = 2) as [-> | [-> | ->]] by lia; reflexivity. }
  split; [apply H1; discriminate|].
  apply (H2 (fun k Hk => eq_refl) 512). left. reflexivity.
Defined.
