(* ===== verification/CacheProbe.v ===== *)
(** * CacheProbe: the programs that time memory accesses to received data

    Translation of [flexio/dpa_refactor_ddio/device] and of
    [flexio/dpa_refactor_test_hostrq/device].  On each probe packet both programs
    walk the cache lines of one entry of the receive buffer, time every load and
    write the time into the line's last word, answer with the packet's Ethernet
    header, drop the packets that arrived meanwhile, walk the transmit buffer, and
    ring the doorbell; after 64 probes the handler ends.  The programs differ in
    the ring depths, in the modulus of the probe position and in the translation of
    host addresses, which are the fields of [variant].

    Printing and [sleep_], a counting loop, have no effect here. *)

From S2P Require Import Prelude Machine FlexioDev WrapperDevice PacketHdr DevCommon RingProtocol Reflector PacketLoop DpaSend BenchCache.

Definition LOG_WQ_DATA_ENTRY_BSIZE : Z := 10.
Definition batch_pkg_num : Z := 64.
Definition count_size : Z := 1.
Definition rq_pre_load : Z := 0.

(** The size of the packets that only wake the thread. *)
Definition wake_size : Z := 73.

(** [LOG2VALUE(13)] rows of [LOG2VALUE(12) / 8] words of the transmit buffer. *)
Definition warm_words : Z := LOG2VALUE 13 * (LOG2VALUE 12 / 8).

Record variant := MkVariant { log_depth : Z; pos_modulus : Z; maps_host : bool }.

(** The static context and the static variables of the handler. *)
Record probe_state := MkProbe {
  pb_q : dev_queues;
  pb_host_rq : host_rq_ctx_t;
  pb_rq_on_host : Z;
  rq_buff : Z;
  dummy : Z;
  loop_pos : Z;
}.

Definition zero_probe : probe_state := MkProbe zero_queues zero_host_rq 0 0 0 0.

Definition set_pb_q (q : dev_queues) (s : probe_state) : probe_state :=
  MkProbe q (pb_host_rq s) (pb_rq_on_host s) (rq_buff s) (dummy s) (loop_pos s).
Definition set_pb_host_rq (h : host_rq_ctx_t) (s : probe_state) : probe_state :=
  MkProbe (pb_q s) h (pb_rq_on_host s) (rq_buff s) (dummy s) (loop_pos s).
Definition set_dummy (v : Z) (s : probe_state) : probe_state :=
  MkProbe (pb_q s) (pb_host_rq s) (pb_rq_on_host s) (rq_buff s) v (loop_pos s).
Definition set_loop_pos (v : Z) (s : probe_state) : probe_state :=
  MkProbe (pb_q s) (pb_host_rq s) (pb_rq_on_host s) (rq_buff s) (dummy s) v.

(** The state with the locals [pos] and [load_num]. *)
Record probe_loop := MkLoop { pl_s : probe_state; pl_pos : Z; pl_load : Z }.

(** [load_num += *tmp_ptr; tmp_ptr++;] over [n] words. *)
Fixpoint sum_words (n : nat) (m : mem) (tmp_ptr load_num : Z) : Z :=
  match n with
  | O => load_num
  | S n => sum_words n m (tmp_ptr + 8) (load_num +64 ld64 m tmp_ptr)%cint
  end.

(** [for (int byte = 0; byte < 6; byte++)]: bytes [byte] and [byte + 6] exchanged. *)
Fixpoint swap_bytes (n : nat) (byte sq_data : Z) (m : mem) : mem :=
  match n with
  | O => m
  | S n =>
      let tmp := rd8 m (sq_data + byte) in
      let m := st8 m (sq_data + byte) (rd8 m (sq_data + byte + 6)) in
      swap_bytes n (byte + 1) sq_data (st8 m (sq_data + byte + 6) tmp)
  end.

(** The cache lines of one entry. *)
Definition probe_lines : nat := Z.to_nat (LOG2VALUE LOG_WQ_DATA_ENTRY_BSIZE / 8 / 8).

Section Device.
Context {F : FlexioDev}.
Variable v : variant.

(** The timed loads of [n] lines from [tmp_ptr] on. *)
Fixpoint probe (n : nat) (tmp_ptr load_num : Z) (w : World F) : Z * World F :=
  match n with
  | O => (load_num, w)
  | S n =>
      let w := emit EvMemoryFence w in
      let '(begin_time, w) := thread_cycles w in
      let load_num := (load_num +64 ld64 (w_mem w) tmp_ptr)%cint in
      let '(now, w) := thread_cycles w in
      let begin_time := (now -64 begin_time)%cint in
      let w := emit EvMemoryFence w in
      let w := set_mem (st64 (w_mem w) (tmp_ptr + 8 * 7) begin_time) w in
      probe n (tmp_ptr + 8 * 8) load_num w
  end.

(** The entry of the receive buffer probed at position [pos]. *)
Definition probe_addr (rq_data pos now_pos : Z) : Z :=
  rq_data + (pos + now_pos) * LOG2VALUE LOG_WQ_DATA_ENTRY_BSIZE.

(** [memcpy(sq_data, rq_data, 14)] and the exchange of the addresses. *)
Definition reply_header (m : mem) (sq_data rq_data : Z) : mem :=
  swap_bytes 6 0 sq_data (wrbytes m sq_data (rdbytes m rq_data 14)).

(** From taking the next transmit buffer to [break], with the header [hdr] writes. *)
Definition reply_with (hdr : mem -> Z -> Z -> mem) (rq_data data_sz : Z) (q : dev_queues) (w : World F)
    : Z * dev_queues * World F :=
  let '(sq_data, dt) := get_next_send_buf (dt_ctx q) LOG_WQ_DATA_ENTRY_BSIZE in
  let w := set_mem (hdr (w_mem w) sq_data rq_data) w in
  let '(sq, w) := prepare_send_packet (sq_ctx q) sq_data data_sz w in
  let '(q, w) := step_queues (set_sq_ctx sq (set_dt_ctx dt q)) w in
  (sq_data, q, w).

(** A probe packet, from its reception to [break]: the answer's buffer. *)
Definition answer_with (lines : nat) (now_pos rq_data data_sz : Z) (l : probe_loop) (w : World F)
    : Z * probe_loop * World F :=
  let s := pl_s l in
  let rq_data := if maps_host v && truthy (pb_rq_on_host s)
                 then host_rq_addr_to_dpa_addr rq_data (pb_host_rq s) else rq_data in
  let '(load_num, w) := probe lines (probe_addr rq_data (pl_pos l) now_pos) (pl_load l) w in
  let d := (dummy s +64 load_num)%cint in
  let pos := (pl_pos l +64 count_size)%cint in
  let '(sq_data, q, w) := reply_with reply_header rq_data data_sz (pb_q s) w in
  (sq_data, MkLoop (set_dummy d (set_pb_q q s)) pos load_num, w).

Definition answer : Z -> Z -> Z -> probe_loop -> World F -> Z * probe_loop * World F := answer_with probe_lines.

(** The first inner loop: [sq_data] is 0, the null pointer, when no probe packet
    was found.  [None] is running out of fuel. *)
Fixpoint find_probe (fuel : nat) (now_pos : Z) (l : probe_loop) (w : World F)
    : option (Z * probe_loop * World F) :=
  if cqe_ready (rqcq_ctx (pb_q (pl_s l))) w then
    match fuel with
    | O => None
    | S fuel =>
        let '(rq_data, data_sz) := receive_packet (rqcq_ctx (pb_q (pl_s l))) (rq_ctx (pb_q (pl_s l))) w in
        if data_sz =? wake_size then
          let '(q, w) := step_queues (pb_q (pl_s l)) w in
          find_probe fuel now_pos (MkLoop (set_pb_q q (pl_s l)) (pl_pos l) (pl_load l)) w
        else Some (answer now_pos rq_data data_sz l w)
    end
  else Some (0, l, w).

(** One turn of [while (pos < batch_pkg_num)]; [warm] is the number of words of the
    transmit buffer walked. *)
Definition probe_turn (warm : nat) (fuel : nat) (now_pos : Z) (l : probe_loop) (w : World F)
    : option (probe_loop * World F) :=
  match find_probe fuel now_pos l w with
  | None => None
  | Some (sq_data, l, w) =>
      if sq_data =? 0 then Some (l, w)
      else
        match drain rqcq_ctx step_queues fuel (pb_q (pl_s l)) w with
        | None => None
        | Some (q, w) =>
            let w := emit EvMemoryFence w in
            let load_num := sum_words warm (w_mem w) (sq_tx_buff (dt_ctx q)) (pl_load l) in
            let w := emit EvMemoryFence w in
            let load_num :=
              sum_words (Z.to_nat rq_pre_load * Z.to_nat (LOG2VALUE LOG_WQ_DATA_ENTRY_BSIZE / 8))
                (w_mem w) (rq_buff (pl_s l)) load_num in
            let w := emit EvMemoryFence w in
            let '(sq, w) := finish_send_packet (sq_ctx q) w in
            Some (MkLoop (set_pb_q (set_sq_ctx sq q) (pl_s l)) (pl_pos l) load_num, w)
        end
  end.

(** One element of [env] per turn: what the NIC does before it.  True when the loop
    has ended. *)
Fixpoint probe_turns (warm fuel : nat) (now_pos : Z) (env : list (World F -> World F)) (l : probe_loop)
    (w : World F) : option (bool * probe_loop * World F) :=
  if pl_pos l <? batch_pkg_num then
    match env with
    | [] => Some (false, l, w)
    | nic :: env =>
        match probe_turn warm fuel now_pos l (nic w) with
        | Some (l, w) => probe_turns warm fuel now_pos env l w
        | None => None
        end
    end
  else Some (true, l, w).

Definition device_init (shared_data : queue_config_data) (s : probe_state) (w : World F)
    : Z * probe_state * World F :=
  let '(q, w) := init_queues (log_depth v) (log_depth v) (log_depth v) shared_data (pb_q s) w in
  let h := if maps_host v
           then MkHostRq (wqd_mkey_id (rq_data shared_data)) (new_buffer_mkey_id shared_data)
                  (wqd_daddr (rq_data shared_data)) (dpa_rx_buff (pb_host_rq s))
           else pb_host_rq s in
  let on_host := if maps_host v then daddr_on_host (rq_data shared_data) else pb_rq_on_host s in
  (0, MkProbe q h on_host (wqd_daddr (rq_data shared_data)) (dummy s) (loop_pos s), w).

Definition device_event_handler_with (warm : nat) (fuel : nat) (env : list (World F -> World F))
    (s : probe_state) (w : World F) : handler_result probe_state :=
  if is_initalized (pb_q s) =? 0 then Rescheduled s w
  else
    let '(s, w) :=
      if maps_host v then
        let '(h, w) := map_rx_buff (pb_rq_on_host s) (pb_host_rq s) w in (set_pb_host_rq h s, w)
      else (s, w) in
    match probe_turns warm fuel (loop_pos s) env (MkLoop s 0 0) w with
    | None => NoFuel
    | Some (false, l, w) => Polling (pl_s l) w
    | Some (true, l, w) =>
        let s := set_loop_pos ((loop_pos (pl_s l) +64 pl_pos l)%cint mod pos_modulus v) (pl_s l) in
        let cq := rqcq_ctx (pb_q s) in
        Rescheduled s (emit (EvCqArm (cq_idx cq) (cq_number cq)) (emit EvFence w))
    end.

Definition device_event_handler : nat -> list (World F -> World F) -> probe_state -> World F
    -> handler_result probe_state :=
  device_event_handler_with (Z.to_nat warm_words).

End Device.

(** ** The two programs *)

Module Ddio.
Definition LOG_SQ_RING_DEPTH : Z := 10.
Definition LOG_RQ_RING_DEPTH : Z := 10.
Definition LOG_CQ_RING_DEPTH : Z := 10.
Definition total_pkg_num : Z := 1024.
Definition prog : variant := MkVariant LOG_SQ_RING_DEPTH total_pkg_num true.
Definition init_cq : app_transfer_cq -> cq_ctx_t := init_cq_with LOG_CQ_RING_DEPTH.
Definition init_rq : app_transfer_wq -> rq_ctx_t := init_rq_with LOG_RQ_RING_DEPTH.
Definition init_sq {F : FlexioDev} : app_transfer_wq -> sq_ctx_t -> sq_ctx_t := init_sq_with LOG_SQ_RING_DEPTH.
Definition dpa_refactor_device_init {F : FlexioDev}
    : queue_config_data -> probe_state -> World F -> Z * probe_state * World F := device_init prog.
Definition dpa_refactor_device_event_handler {F : FlexioDev} (fuel : nat)
    : list (World F -> World F) -> probe_state -> World F -> handler_result probe_state :=
  device_event_handler prog fuel.
End Ddio.

Module HostRq.
Definition LOG_SQ_RING_DEPTH : Z := 11.
Definition LOG_RQ_RING_DEPTH : Z := 11.
Definition LOG_CQ_RING_DEPTH : Z := 11.
Definition batch_size : Z := 4096.
Definition prog : variant := MkVariant LOG_SQ_RING_DEPTH batch_size false.
Definition init_cq : app_transfer_cq -> cq_ctx_t := init_cq_with LOG_CQ_RING_DEPTH.
Definition init_rq : app_transfer_wq -> rq_ctx_t := init_rq_with LOG_RQ_RING_DEPTH.
Definition init_sq {F : FlexioDev} : app_transfer_wq -> sq_ctx_t -> sq_ctx_t := init_sq_with LOG_SQ_RING_DEPTH.

(** The global addresses and keys of the two receive buffers. *)
Record rq_bufs := MkBufs { host_rq_addr : Z; dpa_rq_addr : Z; host_rq_lkey : Z; dpa_rq_lkey : Z }.

Definition dpa_refactor_device_init {F : FlexioDev} (shared_data : queue_config_data) (s : probe_state)
    (w : World F) : Z * (probe_state * rq_bufs) * World F :=
  let '(ret, s, w) := device_init prog shared_data s w in
  (ret, (s, MkBufs (wqd_daddr (rq_data shared_data)) (new_buffer_addr shared_data)
              (wqd_mkey_id (rq_data shared_data)) (new_buffer_mkey_id shared_data)), w).

Definition dpa_refactor_device_event_handler {F : FlexioDev} (fuel : nat)
    : list (World F -> World F) -> probe_state -> World F -> handler_result probe_state :=
  device_event_handler prog fuel.

Section Extra.
Context {F : FlexioDev}.

(** [struct wqe_data_seg], 16 bytes: length, key, address, big-endian. *)
Definition sizeof_wqe : Z := 16.
Definition write_wqe (m : mem) (dseg byte_count lkey addr : Z) : mem :=
  let m := st32 m dseg (cpu_to_be32 byte_count) in
  let m := st32 m (dseg + 4) (cpu_to_be32 lkey) in
  st64 m (dseg + 8) (cpu_to_be64 addr).

(** The loop of [init_rq_ring]: even entries get the host buffer, odd ones the
    DPA buffer.  The ring is written through its memory. *)
Fixpoint rq_ring_loop (n : nat) (b : rq_bufs) (i dseg host_addr dpa_addr : Z) (m : mem) : mem :=
  match n with
  | O => m
  | S n =>
      let data_chunk_bsize := LOG2VALUE LOG_WQ_DATA_ENTRY_BSIZE in
      let m := if Z.rem i 2 =? 0 then write_wqe m dseg data_chunk_bsize (host_rq_lkey b) host_addr
               else write_wqe m dseg data_chunk_bsize (dpa_rq_lkey b) dpa_addr in
      rq_ring_loop n b (i + 1) (dseg + sizeof_wqe) (host_addr +64 data_chunk_bsize)%cint
        (dpa_addr +64 data_chunk_bsize)%cint m
  end.

Definition init_rq_ring (b : rq_bufs) (s : probe_state) (w : World F) : World F :=
  let num_of_wqes := LOG2VALUE LOG_RQ_RING_DEPTH in
  let m := rq_ring_loop (Z.to_nat num_of_wqes) b 0 (rq_ring (rq_ctx (pb_q s))) (host_rq_addr b)
             (dpa_rq_addr b) (w_mem w) in
  emit EvMemoryWriteback (emit EvSystemFence (set_mem m w)).

(** The pointer chase over the DPA buffer, with the three numbers each of the two
    measurements prints: cycles, hops, end. *)
Definition chase_measure (loop_total data : Z) (w : World F) : (Z * Z * Z) * World F :=
  let '(t1, w) := thread_cycles w in
  let '(p, loop_num) := chase (Z.to_nat loop_total) (w_mem w) data 0 in
  let '(t2, w) := thread_cycles w in
  ((u64 (t2 - t1), loop_num, p), w).

Definition num_elem : Z := 49152.
Definition begin_dpa_rq_loop_with (num_elem loop_total : Z) (b : rq_bufs) (w : World F)
    : (Z * Z * Z) * (Z * Z * Z) * World F :=
  let data := dpa_rq_addr b in
  let w := set_mem (init_pchase data num_elem (w_mem w)) w in
  let '(r1, w) := chase_measure loop_total data w in
  let '(r2, w) := chase_measure num_elem data w in
  (r1, r2, w).

Definition begin_dpa_rq_loop : rq_bufs -> World F -> (Z * Z * Z) * (Z * Z * Z) * World F :=
  begin_dpa_rq_loop_with num_elem 20000000.
End Extra.
End HostRq.

(** ** The answer's header *)

(** Bytes 0-5 and 6-11 are exchanged and nothing else changes. *)
Lemma rd8_swap_bytes n k a m b :
  0 <= k -> k + Z.of_nat n <= 6 ->
  rd8 (swap_bytes n k a m) b =
  if decide (a + k <= b < a + k + Z.of_nat n) then rd8 m (b + 6)
  else if decide (a + k + 6 <= b < a + k + 6 + Z.of_nat n) then rd8 m (b - 6)
  else rd8 m b.
Proof.
  revert k m. induction n as [|n IH]; intros k m Hk Hn; cbn [swap_bytes].
  { decide_lia. done. }
  rewrite IH by lia. unfold st8.
  assert (forall c, rd8 (storele (storele m (a + k) 1 (rd8 m (a + k + 6))) (a + k + 6) 1 (rd8 m (a + k))) c =
    if decide (c = a + k) then rd8 m (a + k + 6) else if decide (c = a + k + 6) then rd8 m (a + k) else rd8 m c) as H.
  { intros c. pose proof (rd8_range m (a + k + 6)). pose proof (rd8_range m (a + k)).
    destruct (decide (c = a + k)) as [->|]; [|destruct (decide (c = a + k + 6)) as [->|]].
    - rewrite rd8_storele_out, rd8_storele_hd by lia. by apply Z.mod_small.
    - rewrite rd8_storele_hd. by apply Z.mod_small.
    - by rewrite !rd8_storele_out by lia. }
  rewrite !H. repeat case_decide; try lia; try done; f_equal; lia.
Qed.

(** Copying the Ethernet header and exchanging the addresses. *)
Lemma answer_header m a b c :
  rd8 (reply_header m a b) c =
  if decide (a <= c < a + 6) then rd8 m (b + (c - a) + 6)
  else if decide (a + 6 <= c < a + 12) then rd8 m (b + (c - a) - 6)
  else if decide (a + 12 <= c < a + 14) then rd8 m (b + (c - a))
  else rd8 m c.
Proof.
  assert (forall d, rd8 (wrbytes m a (rdbytes m b 14)) d =
    if decide (a <= d < a + 14) then rd8 m (b + (d - a)) else rd8 m d) as H.
  { intros d. rewrite rd8_wrbytes, length_rdbytes. change (Z.of_nat 14) with 14.
    destruct (decide (a <= d < a + 14)) as [Hd|Hd]; [|done].
    rewrite rdbytes_lookup by lia. cbn. rewrite Z2Nat.id by lia.
    apply wrapu_small. apply rd8_range. }
  unfold reply_header. rewrite rd8_swap_bytes by lia. rewrite !H. repeat case_decide; try lia; try done; f_equal; lia.
Qed.

(** ** The timed loads *)

Section Probe.
Context {F : FlexioDev}.

(** Times are written in the last word of each line, values are summed, and
    nothing else changes. *)
Lemma probe_spec n p load (w w' : World F) load' :
  probe n p load w = (load', w') -> 0 <= load < 2 ^ 64 ->
  load' = u64 (load + zsum (map (fun j => ld64 (w_mem w) (p + 64 * Z.of_nat j)) (seq 0 n))) /\
  (forall j, (j < n)%nat -> ld64 (w_mem w') (p + 64 * Z.of_nat j + 56) =
     u64 (cycles_at (w_tick w + 2 * j + 1) - cycles_at (w_tick w + 2 * j))) /\
  (forall b, (forall j, (j < n)%nat -> b < p + 64 * Z.of_nat j + 56 \/ p + 64 * Z.of_nat j + 64 <= b) ->
     rd8 (w_mem w') b = rd8 (w_mem w) b) /\
  w_cq w' = w_cq w /\ w_rq w' = w_rq w /\ w_sq w' = w_sq w /\ doorbells (w_trace w') = doorbells (w_trace w).
Proof.
  revert p load w. induction n as [|n IH]; intros p load w E Hl.
  { injection E as <- <-. split_and!; try done; [cbn; rewrite Z.add_0_r; by rewrite wrapu_small|lia]. }
  cbn [probe thread_cycles] in E. cbn [w_mem emit tick w_tick] in E.
  set (m1 := st64 _ _ _) in E. set (w1 := set_mem m1 _) in E.
  assert (forall b, b < p + 56 \/ p + 64 <= b -> rd8 m1 b = rd8 (w_mem w) b) as Hm1.
  { intros b Hb. unfold m1, st64. apply rd8_storele_out. lia. }
  apply IH in E as (-> & Ht & Ho & H1 & H2 & H3 & H4); [|apply wrapu_range; lia]. clear IH.
  change (w_mem w1) with m1 in *. change (w_tick w1) with (S (S (w_tick w))) in *.
  split_and!; try done.
  - rewrite wrapu_add_l. cbn [seq map]. unfold zsum at 2. cbn [foldr]. fold (zsum (map (fun j => ld64 (w_mem w) (p + 64 * Z.of_nat j)) (seq 1 n))).
    f_equal. rewrite <- Z.add_assoc. f_equal. f_equal; [unfold ld64; f_equal; lia|].
    rewrite <- seq_shift, map_map. f_equal. apply map_ext_in. intros j Hj.
    replace (p + 64 * Z.of_nat (S j)) with (p + 8 * 8 + 64 * Z.of_nat j) by lia.
    apply loadle_ext. intros b Hb. apply Hm1. lia.
  - intros [|j] Hj.
    + transitivity (ld64 m1 (p + 56)).
      * replace (p + 64 * Z.of_nat 0 + 56) with (p + 56) by lia. apply loadle_ext. intros b Hb. apply Ho. lia.
      * unfold m1, ld64, st64. replace (p + 8 * 7) with (p + 56) by lia. rewrite loadle_storele_eq.
        change (256 ^ Z.of_nat 8) with (2 ^ 64). etransitivity; [apply wrapu_wrapu|].
        do 3 f_equal; f_equal; lia.
    + replace (p + 64 * Z.of_nat (S j) + 56) with (p + 8 * 8 + 64 * Z.of_nat j + 56) by lia.
      rewrite Ht by lia. do 3 f_equal; lia.
  - intros b Hb. rewrite Ho.
    + apply Hm1. specialize (Hb 0%nat ltac:(lia)). lia.
    + intros j Hj. specialize (Hb (S j) ltac:(lia)). lia.
  - rewrite H4. unfold w1. cbn [w_trace set_mem emit tick]. rewrite !doorbells_app.
    change (doorbells [EvMemoryFence]) with 0%nat. lia.
Qed.
End Probe.

(** ** One turn of the handler *)

Section Turn.
Context {F : FlexioDev} `{!FlexioDevLaws F}.
Variables (v : variant) (Hlog : 0 <= log_depth v <= 20) (ring lk base : Z).

(** [c] completions consumed with [pend] waiting, [n] answers prepared. *)
Record q_rep (c : Z) (pend : list cqe64) (n : Z) (q : dev_queues) (w : World F) : Prop := MkQRep {
  qr_cq : cq_rep (log_depth v) c pend (rqcq_ctx q) w;
  qr_ring : cq_ring (rqcq_ctx q) = ring;
  qr_sq : sq_rep (log_depth v) n lk (sq_ctx q) w;
  qr_dt : dt_ctx q = MkDt base (u32 n) (2 ^ log_depth v - 1);
}.

(** What consuming completions leaves alone. *)
Definition consumed (q q' : dev_queues) (w w' : World F) : Prop :=
  q' = set_rqcq (rqcq_ctx q') q /\ w_mem w' = w_mem w /\ w_sq w' = w_sq w /\ w_rq w' = w_rq w /\
  w_tick w' = w_tick w /\ doorbells (w_trace w') = doorbells (w_trace w).

Lemma consumed_refl q w : consumed q q w w.
Proof. split; [by destruct q|done]. Qed.

Lemma consumed_trans q1 q2 q3 w1 w2 w3 : consumed q1 q2 w1 w2 -> consumed q2 q3 w2 w3 -> consumed q1 q3 w1 w3.
Proof.
  intros (A1 & A2 & A3 & A4 & A5 & A6) (B1 & B2 & B3 & B4 & B5 & B6).
  split_and!; [|congruence..]. rewrite B1, A1. done.
Qed.

Lemma step_queues_rep c e pend n q q' (w w' : World F) :
  q_rep c (e :: pend) n q w -> step_queues q w = (q', w') ->
  q_rep (c + 1) pend n q' w' /\ consumed q q' w w'.
Proof.
  intros [Rc Hr Rs Hdt] E. unfold step_queues, step_rq in E. set (we := emit _ w) in E.
  destruct (step_cq (rqcq_ctx q) we) as [cq' w1] eqn:Ec. injection E as <- <-.
  assert (cq_rep (log_depth v) c (e :: pend) (rqcq_ctx q) we) as Rc' by (by eapply cq_rep_frame; [|exact Rc]).
  pose proof (cq_rep_step (log_depth v) ltac:(lia) _ _ _ _ _ _ _ Rc' Ec) as Rc2.
  unfold step_cq in Ec. injection Ec as <- <-. split; [split; try done|].
  - by eapply sq_rep_frame; [|exact Rs].
  - split_and!; try done. unfold we, emit. cbn [w_trace]. rewrite !doorbells_app.
    change (doorbells [EvRqIncPi _]) with 0%nat. change (doorbells [EvCqSetCi _ _]) with 0%nat. lia.
Qed.

(** The second inner loop drops everything that waits. *)
Lemma drain_drops fuel c pend n q (w : World F) :
  (length pend <= fuel)%nat -> q_rep c pend n q w ->
  exists q' w', drain rqcq_ctx step_queues fuel q w = Some (q', w') /\
    q_rep (c + Z.of_nat (length pend)) [] n q' w' /\ consumed q q' w w'.
Proof.
  revert fuel c q w. induction pend as [|e pend IH]; intros fuel c q w Hf R.
  - exists q, w. rewrite Z.add_0_r. split; [|split; [done|apply consumed_refl]].
    destruct fuel; cbn [drain]; by rewrite (cq_rep_ready (log_depth v) ltac:(lia) _ _ _ _ (qr_cq _ _ _ _ _ R)).
  - destruct fuel as [|fuel]; [cbn in Hf; lia|]. cbn [drain].
    rewrite (cq_rep_ready (log_depth v) ltac:(lia) _ _ _ _ (qr_cq _ _ _ _ _ R)).
    destruct (step_queues q w) as [q1 w1] eqn:E1.
    destruct (step_queues_rep _ _ _ _ _ _ _ _ R E1) as [R1 C1].
    destruct (IH fuel (c + 1) q1 w1 ltac:(cbn in Hf; lia) R1) as (q' & w' & -> & R' & C').
    exists q', w'. split; [done|]. cbn [length]. rewrite Nat2Z.inj_succ.
    replace (c + Z.succ (Z.of_nat (length pend))) with (c + 1 + Z.of_nat (length pend)) by lia.
    split; [done|]. by eapply consumed_trans.
Qed.

(** The first inner loop skips the wake packets and answers the next one. *)
Lemma find_probe_skips fuel now skips c e rest n l (w : World F) :
  (length skips < fuel)%nat ->
  Forall (fun x => flexio_dev_cqe_get_byte_cnt x = wake_size) skips ->
  flexio_dev_cqe_get_byte_cnt e <> wake_size ->
  q_rep c (skips ++ e :: rest) n (pb_q (pl_s l)) w ->
  exists q1 w1,
    find_probe v fuel now l w =
      Some (answer v now (pkt_addr (rq_ctx q1) (w_rq w1) e) (flexio_dev_cqe_get_byte_cnt e)
        (MkLoop (set_pb_q q1 (pl_s l)) (pl_pos l) (pl_load l)) w1) /\
    q_rep (c + Z.of_nat (length skips)) (e :: rest) n q1 w1 /\ consumed (pb_q (pl_s l)) q1 w w1.
Proof.
  revert fuel c l w. induction skips as [|x skips IH]; intros fuel c l w Hf Hs He R;
    (destruct fuel as [|fuel]; [cbn in Hf; lia|]); cbn [find_probe];
    rewrite (cq_rep_ready (log_depth v) ltac:(lia) _ _ _ _ (qr_cq _ _ _ _ _ R)); cbn [app];
    unfold receive_packet; rewrite (cq_rep_head _ _ _ _ _ _ (qr_cq _ _ _ _ _ R)).
  - rewrite (proj2 (Z.eqb_neq _ _) He). exists (pb_q (pl_s l)), w. split; [by destruct l as [[] ? ?]|].
    rewrite Z.add_0_r. split; [done|apply consumed_refl].
  - apply list.Forall_cons in Hs as [Hx Hs]. rewrite Hx, Z.eqb_refl.
    destruct (step_queues (pb_q (pl_s l)) w) as [q1 w1] eqn:E1.
    destruct (step_queues_rep _ _ _ _ _ _ _ _ R E1) as [R1 C1].
    destruct (IH fuel (c + 1) (MkLoop (set_pb_q q1 (pl_s l)) (pl_pos l) (pl_load l)) w1) as (q' & w' & E & R' & C').
    + cbn in Hf. lia.
    + done.
    + done.
    + exact R1.
    + exists q', w'. rewrite E. split; [by destruct l as [[] ? ?]|]. cbn [length]. rewrite Nat2Z.inj_succ.
      replace (c + Z.succ (Z.of_nat (length skips))) with (c + 1 + Z.of_nat (length skips)) by lia.
      split; [done|]. by eapply consumed_trans.
Qed.

(** The transmit buffer of answer [n] and where the packet at [a] is touched. *)
Definition tx_buf (n : Z) : Z := base + (n mod 2 ^ log_depth v) * 2 ^ LOG_WQ_DATA_ENTRY_BSIZE.
Definition touched (s : probe_state) (a : Z) : Z :=
  if maps_host v && truthy (pb_rq_on_host s) then host_rq_addr_to_dpa_addr a (pb_host_rq s) else a.

(** The words the lines at [p] start with. *)
Definition line_sum (lines : nat) (m : mem) (p : Z) : Z :=
  zsum (map (fun j => ld64 m (p + 64 * Z.of_nat j)) (seq 0 lines)).

(** Memory after the lines at [p] were timed from tick [t] on. *)
Record timed (lines : nat) (m mp : mem) (p : Z) (t : nat) : Prop := MkTimed {
  tm_times : forall j, (j < lines)%nat ->
    ld64 mp (p + 64 * Z.of_nat j + 56) = u64 (cycles_at (t + 2 * j + 1) - cycles_at (t + 2 * j));
  tm_out : forall b, (forall j, (j < lines)%nat ->
      b < p + 64 * Z.of_nat j + 56 \/ p + 64 * Z.of_nat j + 64 <= b) -> rd8 mp b = rd8 m b;
}.

(** The answer to the packet [e], found at [a] with the probe at position
    [pl_pos l + now]. *)
Record answered (lines : nat) (now n a sz : Z) (l l' : probe_loop) (w w' : World F) : Prop := MkAnswered {
  an_pos : pl_pos l' = u64 (pl_pos l + 1);
  an_mem : exists mp, timed lines (w_mem w) mp (probe_addr (touched (pl_s l) a) (pl_pos l) now) (w_tick w) /\
    w_mem w' = reply_header mp (tx_buf n) (touched (pl_s l) a);
  an_posted : posted w' (data_slot (log_depth v) (sq_ctx (pb_q (pl_s l))) n) (tx_buf n) sz lk;
  an_state : loop_pos (pl_s l') = loop_pos (pl_s l) /\ pb_host_rq (pl_s l') = pb_host_rq (pl_s l) /\
    pb_rq_on_host (pl_s l') = pb_rq_on_host (pl_s l) /\ rq_buff (pl_s l') = rq_buff (pl_s l);
  an_rq : w_rq w' = w_rq w /\ rq_ctx (pb_q (pl_s l')) = rq_ctx (pb_q (pl_s l));
}.

Lemma reply_spec hdr rq sz c e rest n q q' sq (w w' : World F) :
  q_rep c (e :: rest) n q w -> reply_with hdr rq sz q w = (sq, q', w') ->
  sq = tx_buf n /\ q_rep (c + 1) rest (n + 1) q' w' /\
  w_mem w' = hdr (w_mem w) (tx_buf n) rq /\ posted w' (data_slot (log_depth v) (sq_ctx q) n) (tx_buf n) sz lk /\
  w_rq w' = w_rq w /\ rq_ctx q' = rq_ctx q /\ sq_ring (sq_ctx q') = sq_ring (sq_ctx q) /\
  doorbells (w_trace w') = doorbells (w_trace w).
Proof.
  intros [Rc Hr Rs Hdt] E. unfold reply_with in E.
  rewrite Hdt, next_send_buf in E by (unfold LOG_WQ_DATA_ENTRY_BSIZE; lia). fold (tx_buf n) in E.
  set (w2 := set_mem _ w) in E. destruct (prepare_send_packet (sq_ctx q) (tx_buf n) sz w2) as [sq1 w3] eqn:E3.
  assert (sq_rep (log_depth v) n lk (sq_ctx q) w2) as Rs2 by (by eapply sq_rep_frame; [|exact Rs]).
  destruct (sq_rep_prepare (log_depth v) ltac:(lia) _ _ _ _ _ _ _ _ Rs2 E3) as (R3 & -> & Pb & Pa & Pk & _ & Hw3).
  set (q3 := set_sq_ctx _ _) in E. destruct (step_queues q3 w3) as [q4 w4] eqn:E4.
  assert (q_rep c (e :: rest) (n + 1) q3 w3) as R.
  { split; [|exact Hr|exact R3|done]. eapply cq_rep_frame; [|exact Rc]. by rewrite Hw3. }
  destruct (step_queues_rep _ _ _ _ _ _ _ _ R E4) as [R4 (Hq4 & M4 & S4 & Q4 & _ & D4)].
  injection E as <- <- <-.
  assert (w_mem w3 = hdr (w_mem w) (tx_buf n) rq /\ w_rq w3 = w_rq w /\ w_trace w3 = w_trace w)
    as (M3 & Q3 & T3) by (by rewrite Hw3).
  split_and!; try done.
  - by rewrite M4.
  - unfold posted, sqe_at in *. rewrite S4. done.
  - by rewrite Q4.
  - by rewrite Hq4.
  - by rewrite Hq4.
  - by rewrite D4, T3.
Qed.

Lemma answer_spec lines now a e rest c n l l' sz sq (w w' : World F) :
  q_rep c (e :: rest) n (pb_q (pl_s l)) w -> 0 <= pl_load l < 2 ^ 64 ->
  answer_with v lines now a sz l w = (sq, l', w') ->
  sq = tx_buf n /\ q_rep (c + 1) rest (n + 1) (pb_q (pl_s l')) w' /\ answered lines now n a sz l l' w w' /\
  pl_load l' = u64 (pl_load l + line_sum lines (w_mem w) (probe_addr (touched (pl_s l) a) (pl_pos l) now)) /\
  dummy (pl_s l') = u64 (dummy (pl_s l) + pl_load l') /\
  doorbells (w_trace w') = doorbells (w_trace w).
Proof.
  intros R Hl E. unfold answer_with in E. fold (touched (pl_s l) a) in E.
  set (rq := touched (pl_s l) a) in *. set (p := probe_addr rq (pl_pos l) now) in *.
  destruct (probe lines p (pl_load l) w) as [load w1] eqn:Ep.
  destruct (reply_with reply_header rq sz (pb_q (pl_s l)) w1) as [[sq' q'] w2] eqn:Er.
  injection E as -> <- ->.
  apply probe_spec in Ep as (-> & Ht & Ho & C1 & Q1 & S1 & D1); [|done].
  assert (q_rep c (e :: rest) n (pb_q (pl_s l)) w1) as R1.
  { destruct R as [Rc Hr Rs Hdt]. split; [by eapply cq_rep_frame|done|by eapply sq_rep_frame|done]. }
  apply (reply_spec _ _ _ c e rest n) in Er as (-> & R2 & M2 & P2 & Q2 & Rq2 & _ & D2); [|done].
  cbn [pl_s pl_pos pl_load dummy set_dummy set_pb_q pb_q loop_pos pb_host_rq pb_rq_on_host rq_buff].
  split; [done|]. split; [done|]. split; [split|].
  - done.
  - exists (w_mem w1). split; [by split|done].
  - exact P2.
  - done.
  - split; [by rewrite Q2|done].
  - split; [done|]. split; [done|]. by rewrite D2.
Qed.

(** A turn that finds the completions [skips], [e], [rest]. *)
Definition round (warm : nat) (now : Z) (e : cqe64) (n : Z) (l l' : probe_loop) (w w' : World F) : Prop :=
  let a := pkt_addr (rq_ctx (pb_q (pl_s l))) (w_rq w) e in
  answered probe_lines now n a (flexio_dev_cqe_get_byte_cnt e) l l' w w' /\
  pl_load l' = sum_words warm (w_mem w') base
    (u64 (pl_load l + line_sum probe_lines (w_mem w) (probe_addr (touched (pl_s l) a) (pl_pos l) now))) /\
  doorbells (w_trace w') = S (doorbells (w_trace w)).

Lemma sum_words_range k m p x : 0 <= x < 2 ^ 64 -> 0 <= sum_words k m p x < 2 ^ 64.
Proof. revert p x. induction k as [|k IH]; intros p x H; [done|]. cbn [sum_words]. apply IH, wrapu_range. lia. Qed.

Lemma answer_eq : answer (F := F) v = answer_with v probe_lines.
Proof. reflexivity. Qed.

Lemma finish_frame c c' (w w' : World F) :
  finish_send_packet c w = (c', w') ->
  c' = set_sq_pi (u32 (sq_pi c + 1)) c /\ w_mem w' = w_mem w /\ w_cq w' = w_cq w /\ w_rq w' = w_rq w /\
  w_sq w' = w_sq w /\ doorbells (w_trace w') = S (doorbells (w_trace w)).
Proof.
  intros E. unfold finish_send_packet in E. injection E as <- <-. split_and!; try done.
  unfold emit. cbn [w_trace]. rewrite !doorbells_app.
  change (doorbells [EvMemoryWriteback]) with 0%nat. change (doorbells [EvSqRingDb _ _]) with 1%nat. lia.
Qed.

Lemma doorbells_fence (w : World F) : doorbells (w_trace (emit EvMemoryFence w)) = doorbells (w_trace w).
Proof. unfold emit. cbn [w_trace]. rewrite doorbells_app. change (doorbells [EvMemoryFence]) with 0%nat. lia. Qed.

Lemma probe_turn_round warm fuel now skips e rest c n l (w : World F) :
  (length skips + length rest < fuel)%nat ->
  Forall (fun x => flexio_dev_cqe_get_byte_cnt x = wake_size) skips ->
  flexio_dev_cqe_get_byte_cnt e <> wake_size -> 0 < base ->
  0 <= pl_load l < 2 ^ 64 ->
  q_rep c (skips ++ e :: rest) n (pb_q (pl_s l)) w ->
  exists l' w', probe_turn v warm fuel now l w = Some (l', w') /\ round warm now e n l l' w w' /\
    q_rep (c + Z.of_nat (length (skips ++ e :: rest))) [] (n + 1) (pb_q (pl_s l')) w' /\
    0 <= pl_load l' < 2 ^ 64.
Proof.
  intros Hf Hs He Hb Hl R.
  destruct (find_probe_skips fuel now skips c e rest n l w ltac:(lia) Hs He R) as (q1 & w1 & E1 & R1 & C1).
  destruct C1 as (Hq1 & M1 & S1 & Q1 & T1 & D1). unfold probe_turn. rewrite E1.
  set (l1 := MkLoop (set_pb_q q1 (pl_s l)) (pl_pos l) (pl_load l)) in *.
  destruct (answer v now (pkt_addr (rq_ctx q1) (w_rq w1) e) (flexio_dev_cqe_get_byte_cnt e) l1 w1) as [[sq l2] w2] eqn:E2.
  rewrite answer_eq in E2.
  destruct (answer_spec probe_lines now _ e rest _ n l1 l2 _ sq w1 w2 R1 Hl E2) as (-> & R2 & A2 & L2 & _ & D2).
  assert (tx_buf n =? 0 = false) as ->.
  { apply Z.eqb_neq. unfold tx_buf. pose proof (Z.mod_pos_bound n (2 ^ log_depth v) ltac:(apply Z.pow_pos_nonneg; lia)).
    unfold LOG_WQ_DATA_ENTRY_BSIZE. nia. }
  destruct (drain_drops fuel _ rest _ _ _ ltac:(lia) R2) as (q3 & w3 & -> & R3 & C3).
  clear E1 E2. destruct C3 as (Hq3 & M3 & S3 & Q3 & T3 & D3).
  assert (Z.to_nat rq_pre_load * Z.to_nat (LOG2VALUE LOG_WQ_DATA_ENTRY_BSIZE / 8) = 0)%nat as -> by done.
  destruct (finish_send_packet _ _) as [sq4 w4] eqn:E4.
  apply finish_frame in E4 as (-> & M4 & C4 & Q4 & S4 & D4). rewrite !doorbells_fence in D4.
  cbn [w_mem emit] in M4 |- *. cbn [w_cq w_rq w_sq emit] in C4, Q4, S4.
  eexists _, w4. split; [reflexivity|]. unfold round. cbn [pl_load pl_s pl_pos set_pb_q pb_q sum_words].
  destruct A2 as [Pos (mp & Tm & Hm) Pst (St1 & St2 & St3 & St4) [Rq1 Rq2]].
  assert (rq_ctx q1 = rq_ctx (pb_q (pl_s l)) /\ sq_ctx q1 = sq_ctx (pb_q (pl_s l))) as [Hrq Hsq] by (by rewrite Hq1).
  change (pl_s l1) with (set_pb_q q1 (pl_s l)) in *. cbn [pl_pos pl_load l1] in *.
  change (touched (set_pb_q q1 (pl_s l))) with (touched (pl_s l)) in *.
  rewrite Hrq, Q1 in Tm, L2, Hm. rewrite M1, T1 in *.
  split; [split; [split|split]|split].
  - exact Pos.
  - exists mp. split; [exact Tm|]. by rewrite M4, M3.
  - cbn in Pst. rewrite Hsq in Pst. unfold posted, sqe_at in *. by rewrite S4, S3.
  - by split_and!.
  - cbn. split; [by rewrite Q4, Q3, Rq1|]. rewrite Hq3. cbn. by rewrite Rq2.
  - rewrite L2, M4. by rewrite (qr_dt _ _ _ _ _ R3).
  - by rewrite D4, D3, D2, D1.
  - destruct R3 as [A B C D]. split; cbn.
    + rewrite length_app. cbn [length]. eapply cq_rep_frame; [exact C4|].
      replace (c + Z.of_nat (length skips + S (length rest))) with (c + Z.of_nat (length skips) + 1 + Z.of_nat (length rest)) by lia.
      exact A.
    + exact B.
    + destruct C as [C5 C6 C7]. split; [exact C5|exact C6|]. intros k Hk. rewrite <- (C7 k Hk). unfold sqe_at. cbn. by rewrite S4.
    + exact D.
  - apply sum_words_range. rewrite L2. apply wrapu_range. lia.
Qed.

(** ** A batch of bursts *)

(** The burst written from ring position [p] on: packets that only wake the thread,
    a probe packet, and packets that come too late. *)
Record probe_burst (p : Z) (b : list cqe64) : Prop := MkBurst {
  bu_shape : exists skips e rest, b = skips ++ e :: rest /\
    Forall (fun x => flexio_dev_cqe_get_byte_cnt x = wake_size) skips /\
    flexio_dev_cqe_get_byte_cnt e <> wake_size;
  bu_len : Z.of_nat (length b) <= 2 ^ log_depth v;
  bu_owner : forall i x, b !! i = Some x ->
    flexio_dev_cqe_get_owner x = ((p + Z.of_nat i) / 2 ^ log_depth v) mod 2;
}.

Fixpoint probe_bursts (p : Z) (bs : list (list cqe64)) : Prop :=
  match bs with
  | [] => True
  | b :: bs => probe_burst p b /\ probe_bursts (p + Z.of_nat (length b)) bs
  end.

Fixpoint nic_bursts (p : Z) (bs : list (list cqe64)) : list (World F -> World F) :=
  match bs with
  | [] => []
  | b :: bs => nic_burst (log_depth v) ring p b :: nic_bursts (p + Z.of_nat (length b)) bs
  end.

(** The rounds of a batch, one per burst: [p] completions delivered, [n] answers. *)
Inductive rounds (warm : nat) (now : Z) : list (list cqe64) -> Z -> Z -> probe_loop * World F -> probe_loop * World F -> Prop :=
| rounds_nil p n lw : rounds warm now [] p n lw lw
| rounds_cons b bs p n l w skips e rest l1 w1 lw' :
    b = skips ++ e :: rest ->
    Forall (fun x => flexio_dev_cqe_get_byte_cnt x = wake_size) skips ->
    round warm now e n l l1 (nic_burst (log_depth v) ring p b w) w1 ->
    rounds warm now bs (p + Z.of_nat (length b)) (n + 1) (l1, w1) lw' ->
    rounds warm now (b :: bs) p n (l, w) lw'.

Lemma q_rep_burst c n b q (w : World F) :
  probe_burst c b -> q_rep c [] n q w -> q_rep c b n q (nic_burst (log_depth v) ring c b w).
Proof.
  intros [_ Hl Ho] [Rc Hr Rs Hdt]. destruct (nic_burst_frame (log_depth v) ring c b w) as (_ & _ & Ns & _).
  split; [|done|by eapply sq_rep_frame|done].
  pose proof (cq_rep_burst (log_depth v) ltac:(lia) c [] b (rqcq_ctx q) w) as H. cbn [app length] in H.
  rewrite Hr, Z.add_0_r in H. apply H; [cbn; lia|exact Ho|exact Rc].
Qed.

Lemma probe_turns_rounds warm fuel now bs c n l (w : World F) :
  (Z.to_nat (2 ^ log_depth v) < fuel)%nat -> 0 < base -> probe_bursts c bs ->
  0 <= pl_pos l -> pl_pos l + Z.of_nat (length bs) = batch_pkg_num -> 0 <= pl_load l < 2 ^ 64 ->
  q_rep c [] n (pb_q (pl_s l)) w ->
  exists l' w', probe_turns v warm fuel now (nic_bursts c bs) l w = Some (true, l', w') /\
    rounds warm now bs c n (l, w) (l', w') /\
    q_rep (c + Z.of_nat (length (concat bs))) [] (n + Z.of_nat (length bs)) (pb_q (pl_s l')) w' /\
    pl_pos l' = batch_pkg_num /\ loop_pos (pl_s l') = loop_pos (pl_s l) /\
    doorbells (w_trace w') = (doorbells (w_trace w) + length bs)%nat.
Proof.
  intros Hf Hb. unfold batch_pkg_num. revert c n l w. induction bs as [|b bs IH]; intros c n l w Hbs Hp0 Hp Hl R.
  - exists l, w. cbn [nic_bursts probe_turns length concat] in *. unfold batch_pkg_num.
    rewrite (proj2 (Z.ltb_ge _ _)) by lia. rewrite !Z.add_0_r.
    split_and!; [done|constructor|done|lia|done|lia].
  - destruct Hbs as [Hb1 Hbs]. pose proof Hb1 as [(skips & e & rest & Eb & Hs & He) Hlen _].
    cbn [nic_bursts probe_turns length] in *. unfold batch_pkg_num at 1. rewrite (proj2 (Z.ltb_lt _ _)) by lia.
    pose proof (q_rep_burst _ _ _ _ _ Hb1 R) as R1. rewrite Eb in R1 at 1.
    set (w0 := nic_burst (log_depth v) ring c b w) in *.
    destruct (probe_turn_round warm fuel now skips e rest c n l w0) as (l1 & w1 & -> & Hr & R2 & Hl1); try done.
    { rewrite Eb, length_app in Hlen. cbn in Hlen. lia. }
    rewrite <- Eb in R2. pose proof Hr as ([Pos _ _ (Lp & _) _] & _ & D).
    rewrite wrapu_small in Pos by lia.
    destruct (IH (c + Z.of_nat (length b)) (n + 1) l1 w1) as (l' & w' & -> & Hrs & R' & Pos' & Lp' & D'); try done; [lia|lia|].
    exists l', w'. split; [done|]. split; [by econstructor|]. cbn [concat]. rewrite length_app.
    replace (c + Z.of_nat (length b + length (concat bs))) with (c + Z.of_nat (length b) + Z.of_nat (length (concat bs))) by lia.
    replace (n + Z.of_nat (S (length bs))) with (n + 1 + Z.of_nat (length bs)) by lia.
    destruct (nic_burst_frame (log_depth v) ring c b w) as (_ & _ & _ & Nt & _). fold w0 in Nt.
    split_and!; try done; [congruence|]. rewrite D', D, Nt. lia.
Qed.
End Turn.

(** ** The handler *)

Lemma variant_params v :
  v = Ddio.prog \/ v = HostRq.prog ->
  0 <= log_depth v <= 20 /\ exists k, 0 < k /\ pos_modulus v = 64 * k /\ pos_modulus v <= 4096.
Proof.
  intros [-> | ->]; cbn; unfold Ddio.LOG_SQ_RING_DEPTH, HostRq.LOG_SQ_RING_DEPTH, Ddio.total_pkg_num, HostRq.batch_size;
    (split; [lia|]); [exists 16|exists 64]; lia.
Qed.

Section Batch.
Context {F : FlexioDev} `{!FlexioDevLaws F}.

(** What initialisation leaves. *)
Lemma probe_init_rep v shared s s1 (w w1 : World F) :
  0 <= log_depth v <= 20 -> cq_prepared (log_depth v) shared w -> device_init v shared s w = (0, s1, w1) ->
  is_initalized (pb_q s1) = 1 /\ loop_pos s1 = loop_pos s /\
  q_rep v (cq_ring_daddr (rq_cq_data shared)) (wqd_mkey_id (sq_data shared)) (wqd_daddr (sq_data shared))
    0 [] 0 (pb_q s1) w1.
Proof.
  intros Hlog Hp E. unfold device_init in E. destruct (init_queues _ _ _ _ _ _) as [q w'] eqn:Eq.
  injection E as <- <-. cbn [pb_q loop_pos].
  destruct (init_queues_fresh (log_depth v) (log_depth v) (log_depth v) ltac:(lia) ltac:(lia) _ _ _ _ _ Hp Eq)
    as [[Hin Rc Rs _ Hr _] _].
  split_and!; try done. split; try done.
  unfold init_queues in Eq. destruct (init_send_sq _ _ _ _). injection Eq as <- _. cbn.
  by rewrite Z.shiftl_mul_pow2, Z.mul_1_l by lia.
Qed.

(** The probing handlers end after 64 probes.  Between invocations the rings
    are drained and the probe position is a multiple of 64 below its modulus; let the
    NIC deliver 64 bursts, each with some packets that only wake the thread, a probe
    packet and packets that come too late.  The handler answers exactly the probe
    packets, one doorbell each, drops the others, and ends with a fence, an arm of
    the completion queue and a reschedule, leaving the same invariant with the
    position advanced by 64.  Each round times the cache lines of the entry at its
    position, writes the times into the lines, copies the packet's Ethernet header
    with the addresses exchanged into the next transmit buffer and posts it with the
    packet's length ([round]).  Every probed entry lies in the first [pos_modulus]
    entries from the packet on. *)
Theorem probe_handler_batch v warm fuel ring lk base c n bs s (w : World F) :
  v = Ddio.prog \/ v = HostRq.prog -> 0 < base ->
  is_initalized (pb_q s) = 1 -> q_rep v ring lk base c [] n (pb_q s) w ->
  0 <= loop_pos s < pos_modulus v -> (64 | loop_pos s) ->
  length bs = 64%nat -> probe_bursts v c bs -> (Z.to_nat (2 ^ log_depth v) < fuel)%nat ->
  exists s' w' l0 w0 l1 w1,
    device_event_handler_with v warm fuel (nic_bursts v ring c bs) s w = Rescheduled s' w' /\
    rounds v ring lk base warm (loop_pos s) bs c n (l0, w0) (l1, w1) /\
    w_mem w0 = w_mem w /\ w_mem w' = w_mem w1 /\
    q_rep v ring lk base (c + Z.of_nat (length (concat bs))) [] (n + 64) (pb_q s') w' /\
    loop_pos s' = (loop_pos s + 64) mod pos_modulus v /\ (64 | loop_pos s') /\
    doorbells (w_trace w') = (doorbells (w_trace w) + 64)%nat /\
    (forall a pos, 0 <= pos < 64 ->
       a <= probe_addr a pos (loop_pos s) /\ probe_addr a pos (loop_pos s) + 1024 <= a + 1024 * pos_modulus v).
Proof.
  intros Hv Hb Hin R Hlp Hdv Hn Hbs Hf. destruct (variant_params v Hv) as (Hlog & k & Hk & Hmod & Hmax). clear Hv.
  unfold device_event_handler_with. rewrite Hin. change (1 =? 0) with false. cbn iota.
  assert (exists s1 w1, (if maps_host v then
      let '(h, w0) := map_rx_buff (pb_rq_on_host s) (pb_host_rq s) w in (set_pb_host_rq h s, w0) else (s, w)) = (s1, w1) /\
    pb_q s1 = pb_q s /\ loop_pos s1 = loop_pos s /\ w_cq w1 = w_cq w /\ w_sq w1 = w_sq w /\ w_mem w1 = w_mem w /\
    doorbells (w_trace w1) = doorbells (w_trace w)) as (s1 & w1 & -> & Hq1 & Hp1 & C1 & S1 & M1 & D1).
  { destruct (maps_host v); [|by exists s, w]. destruct (map_rx_buff _ _ w) as [h w0] eqn:Em.
    pose proof (map_rx_doorbells _ 0 _ _ zero_host_sq _ w w0 w0 eq_refl Em) as D.
    apply map_rx_buff_frame in Em as (C1 & S1 & _ & M1). by exists (set_pb_host_rq h s), w0. }
  assert (q_rep v ring lk base c [] n (pb_q s1) w1) as R1.
  { rewrite Hq1. destruct R as [A B C D]. split; [by eapply cq_rep_frame|done|by eapply sq_rep_frame|done]. }
  destruct (probe_turns_rounds v Hlog ring lk base warm fuel (loop_pos s1) bs c n (MkLoop s1 0 0) w1 Hf Hb Hbs)
    as (l2 & w2 & -> & Hr & R2 & Hp2 & Hl2 & D2).
  - cbn. lia.
  - cbn. unfold batch_pkg_num. lia.
  - cbn. lia.
  - exact R1.
  - rewrite Hn in R2, D2. cbn [pl_s] in Hl2. rewrite Hp1 in *. rewrite Hp2, Hl2.
    set (s2 := set_loop_pos _ (pl_s l2)).
    assert (loop_pos s2 = (loop_pos s + 64) mod pos_modulus v) as Hs2.
    { unfold s2. cbn [loop_pos set_loop_pos]. unfold batch_pkg_num. rewrite wrapu_small by lia. done. }
    eexists s2, _, (MkLoop s1 0 0), w1, l2, w2. split; [reflexivity|].
    split; [exact Hr|]. split; [exact M1|]. split; [done|]. split_and!.
    + destruct R2 as [A B C D]. split; [by eapply cq_rep_frame; [|exact A]|exact B|by eapply sq_rep_frame; [|exact C]|exact D].
    + exact Hs2.
    + rewrite Hs2, Hmod. destruct Hdv as [z Hz]. rewrite Hz. replace (z * 64 + 64) with (64 * (z + 1)) by lia.
      rewrite Zmult_mod_distr_l. apply Z.divide_factor_l.
    + unfold emit. cbn [w_trace]. rewrite !doorbells_app. change (doorbells [EvFence]) with 0%nat.
      change (doorbells [EvCqArm _ _]) with 0%nat. lia.
    + intros a pos Hpos. destruct Hdv as [z Hz]. unfold probe_addr. change (LOG2VALUE LOG_WQ_DATA_ENTRY_BSIZE) with 1024. lia.
Qed.

(** The receive buffer of [dpa_refactor_ddio] has exactly [pos_modulus] entries; that
    of [dpa_refactor_test_hostrq] only half as many. *)
Lemma probed_area :
  1024 * pos_modulus Ddio.prog = 2 ^ (Ddio.LOG_RQ_RING_DEPTH + LOG_WQ_DATA_ENTRY_BSIZE) /\
  1024 * pos_modulus HostRq.prog = 2 * 2 ^ (HostRq.LOG_RQ_RING_DEPTH + LOG_WQ_DATA_ENTRY_BSIZE).
Proof. done. Qed.
End Batch.

(** ** The unused measurements of [dpa_refactor_test_hostrq] *)

(** The first chase ends at the element its hops select, the second visits every
    element and returns to the first. *)
Lemma begin_dpa_rq_loop_cycles {F : FlexioDev} n total b (w w' : World F) t1 n1 p1 t2 n2 p2 :
  0 < n -> 0 <= total -> 0 <= HostRq.dpa_rq_addr b -> HostRq.dpa_rq_addr b + sizeof_element * n < 2 ^ 64 ->
  HostRq.begin_dpa_rq_loop_with n total b w = ((t1, n1, p1), (t2, n2, p2), w') ->
  n1 = total /\ p1 = elem_addr (HostRq.dpa_rq_addr b) (total mod n) /\ n2 = n /\ p2 = HostRq.dpa_rq_addr b.
Proof.
  intros Hn Ht Ha Hb E. unfold HostRq.begin_dpa_rq_loop_with, HostRq.chase_measure, thread_cycles in E.
  do 2 (cbv beta iota zeta in E; cbn [w_mem set_mem tick] in E; rewrite chase_init in E by lia).
  cbv beta iota in E. injection E as _ <- <- _ <- <- _.
  rewrite !Z2Nat.id, Z_mod_same_full by lia. unfold elem_addr. rewrite Z.mul_0_r, Z.add_0_r. done.
Qed.

(** ** Witness: 64 bursts of one probe packet each *)

Definition demo_probe_init : Z * probe_state * World ref_flexio :=
  device_init (F := ref_flexio) Ddio.prog (demo_shared 0) zero_probe empty_world.
Definition demo_probe_s : probe_state := snd (fst demo_probe_init).
Definition demo_probe_w : World ref_flexio := snd demo_probe_init.
Definition demo_bursts (k : nat) : list (list ref_cqe) := replicate k [RefCqe 0 0 64].

Lemma demo_probe_eq : device_init (F := ref_flexio) Ddio.prog (demo_shared 0) zero_probe empty_world =
  (0, demo_probe_s, demo_probe_w).
Proof. unfold demo_probe_s, demo_probe_w, demo_probe_init, device_init. by destruct (init_queues _ _ _ _ _ _). Qed.

Lemma demo_bursts_ok k p :
  0 <= p -> p + Z.of_nat k <= 1024 -> probe_bursts (F := ref_flexio) Ddio.prog p (demo_bursts k).
Proof.
  unfold demo_bursts. revert p. induction k as [|k IH]; intros p Hp Hk; [done|].
  cbn [replicate probe_bursts length]. split; [|apply IH; lia].
  split; [exists [], (RefCqe 0 0 64), []; split_and!; [done|constructor|discriminate]|cbn; unfold Ddio.LOG_SQ_RING_DEPTH; lia|].
  intros [|i] x Hx; [|done]. injection Hx as <-. cbn. unfold Ddio.LOG_SQ_RING_DEPTH.
  change (Z.pow_pos 2 10) with 1024. rewrite Z.div_small by lia. done.
Qed.

Lemma probe_handler_batch_witness :
  exists s' w',
    device_event_handler_with (F := ref_flexio) Ddio.prog 4 (S (Z.to_nat (2 ^ 10)))
      (nic_bursts (F := ref_flexio) Ddio.prog 4096 0 (demo_bursts 64)) demo_probe_s demo_probe_w = Rescheduled s' w' /\
    loop_pos s' = 64.
Proof.
  destruct (probe_init_rep (F := ref_flexio) Ddio.prog (demo_shared 0) zero_probe demo_probe_s empty_world demo_probe_w)
    as (Hin & Hlp & R); [split; discriminate|intros i Hi; reflexivity|exact demo_probe_eq|].
  destruct (probe_handler_batch (F := ref_flexio) Ddio.prog 4 (S (Z.to_nat (2 ^ 10))) 4096 77 70000 0 0
    (demo_bursts 64) demo_probe_s demo_probe_w) as (s' & w' & _ & _ & _ & _ & H1 & _ & _ & _ & _ & H2 & _).
  - left. reflexivity.
  - reflexivity.
  - exact Hin.
  - exact R.
  - rewrite Hlp. split; [discriminate|reflexivity].
  - rewrite Hlp. exists 0. reflexivity.
  - reflexivity.
  - apply demo_bursts_ok; discriminate.
  - apply Nat.lt_succ_diag_r.
  - exists s', w'. split; [exact H1|]. rewrite H2, Hlp. reflexivity.
Defined.
