(* ===== verification/SpinMutex.v ===== *)
(** * SpinMutex: the spin locks of the host programs

    Translation of [utils/spinlock_mutex.h].  The methods are sequences of
    atomic operations on the members; a system is the members and, for each
    thread, the operation it does next.  A step runs one atomic operation of one
    thread, so a run is an interleaving of the methods of all threads in a single
    order of the atomic operations.  A thread releases only what it holds.

    [try_lock_read] and the other [try_] and [unlock_] functions below run a method
    without interruption, which is how the request handlers of a single server
    thread use them. *)

From S2P Require Import Prelude.

(** ** Systems of threads *)

Section Threads.
Context {shared pc : Type}.

(** What one atomic operation can do: the next operation and the members. *)
Variable atomic : pc -> shared -> list (pc * shared).

Record system := MkSystem { sys_shared : shared; sys_threads : list pc }.

Inductive sys_step : system -> system -> Prop :=
  | SysStep l ths i p p' l' :
      ths !! i = Some p -> (p', l') ∈ atomic p l ->
      sys_step (MkSystem l ths) (MkSystem l' (<[i := p']> ths)).

(** [n] threads outside the methods, and what they reach. *)
Definition sys_init (l : shared) (idle : pc) (n : nat) : system := MkSystem l (replicate n idle).

(** The number of threads at operations that [w] weighs. *)
Definition weigh (w : pc -> Z) (s : system) : Z := zsum (w <$> sys_threads s).

Lemma weigh_step (w : pc -> Z) l l' ths i p p' :
  ths !! i = Some p ->
  weigh w (MkSystem l' (<[i := p']> ths)) = weigh w (MkSystem l ths) - w p + w p'.
Proof.
  intros H. unfold weigh. cbn. rewrite list_fmap_insert. apply zsum_insert.
  by rewrite list_lookup_fmap, H.
Qed.

Lemma weigh_init w l idle n : w idle = 0 -> weigh w (sys_init l idle n) = 0.
Proof. intros H. unfold weigh. cbn. rewrite fmap_replicate, H, zsum_replicate. lia. Qed.

Lemma weigh_nonneg (w : pc -> Z) xs : (forall q, 0 <= w q) -> 0 <= zsum (w <$> xs).
Proof.
  intros Hw. unfold zsum. induction xs as [|x xs IH]; cbn; [done|]. specialize (Hw x). lia.
Qed.

Lemma weigh_one (w : pc -> Z) xs i p :
  (forall q, 0 <= w q) -> xs !! i = Some p -> w p <= zsum (w <$> xs).
Proof.
  intros Hw. revert i. induction xs as [|x xs IH]; intros [|i] H; try done; cbn in *.
  - injection H as ->. pose proof (weigh_nonneg w xs Hw). unfold zsum in *. lia.
  - specialize (IH i H). specialize (Hw x). unfold zsum in *. lia.
Qed.

(** A schedule names a thread and one of the outcomes of its next operation. *)
Fixpoint run (sched : list (nat * nat)) (s : system) : option system :=
  match sched with
  | [] => Some s
  | (i, k) :: sched =>
      p ← sys_threads s !! i;
      o ← atomic p (sys_shared s) !! k;
      run sched (MkSystem o.2 (<[i := o.1]> (sys_threads s)))
  end.

Lemma run_sound sched s s' : run sched s = Some s' -> rtc sys_step s s'.
Proof.
  revert s. induction sched as [|[i k] sched IH]; intros [l ths] H; cbn in H.
  { by simplify_eq. }
  destruct (ths !! i) as [p|] eqn:Hi; [|done]. cbn in H.
  destruct (atomic p l !! k) as [[p' l']|] eqn:Hk; [|done]. cbn in H.
  eapply rtc_l; [|by apply IH]. eapply SysStep; [done|]. by eapply list_elem_of_lookup_2.
Qed.

(** The weights of two different threads are part of the sum. *)
Lemma weigh_two (w : pc -> Z) xs i j p q :
  (forall q, 0 <= w q) -> xs !! i = Some p -> xs !! j = Some q -> i <> j ->
  w p + w q <= zsum (w <$> xs).
Proof.
  intros Hw. revert i j. induction xs as [|x xs IH]; intros [|i] [|j] Hi Hj Hne; try done; cbn in *.
  - injection Hi as ->. pose proof (weigh_one w xs j q Hw Hj). unfold zsum in *. lia.
  - injection Hj as ->. pose proof (weigh_one w xs i p Hw Hi). unfold zsum in *. lia.
  - specialize (Hw x). specialize (IH i j Hi Hj ltac:(lia)). unfold zsum in *. lia.
Qed.
End Threads.

Arguments system : clear implicits.

(** Case analysis on the outcomes of an atomic operation. *)
Ltac outcomes H :=
  repeat (apply elem_of_cons in H; destruct H as [H|H]);
  try (by apply elem_of_nil in H); simplify_eq.

(** ** The exclusive lock *)

Module Mutex.

(** The next operation of a thread: a call, [test_and_set] in the loop of [lock],
    [test_and_set] of [try_lock], and [clear] of [unlock] by the holder. *)
Inductive mutex_pc := Idle | LockTestAndSet | TryTestAndSet | Holding.

#[export] Instance mutex_pc_eq : EqDecision mutex_pc.
Proof. solve_decision. Defined.

(** The member [flag]. *)
Definition flag_init : bool := false.

Definition atomic (p : mutex_pc) (flag : bool) : list (mutex_pc * bool) :=
  match p with
  | Idle => [(LockTestAndSet, flag); (TryTestAndSet, flag)]
  | LockTestAndSet => [(if flag then LockTestAndSet else Holding, true)]
  | TryTestAndSet => [(if flag then Idle else Holding, true)]
  | Holding => [(Idle, false)]
  end.

Definition holding (p : mutex_pc) : Z := match p with Holding => 1 | _ => 0 end.

Definition mutex_inv (s : system bool mutex_pc) : Prop :=
  weigh holding s = c_bool (sys_shared s).

Lemma mutex_inv_step s s' : sys_step atomic s s' -> mutex_inv s -> mutex_inv s'.
Proof.
  intros [f ths i p p' f' Hi Hin]. unfold mutex_inv.
  rewrite (weigh_step holding f f' ths i p p' Hi). cbn [sys_shared]. intros H.
  pose proof (weigh_one holding ths i p ltac:(by intros []) Hi) as Hle.
  change (zsum (holding <$> ths)) with (weigh holding (MkSystem f ths)) in Hle.
  destruct p, f; cbn in Hin; outcomes Hin; cbn in *; lia.
Qed.

Lemma mutex_inv_reachable n s :
  rtc (sys_step atomic) (sys_init flag_init Idle n) s -> mutex_inv s.
Proof.
  intros H. assert (mutex_inv (sys_init flag_init Idle n)) as H0.
  { unfold mutex_inv. by rewrite weigh_init. }
  revert H0. induction H; eauto using mutex_inv_step.
Qed.

(** C29.  Mutual exclusion of the exclusive lock in every interleaving. *)
Theorem mutex_exclusive n s i j :
  rtc (sys_step atomic) (sys_init flag_init Idle n) s ->
  sys_threads s !! i = Some Holding ->
  sys_shared s = true /\ (sys_threads s !! j = Some Holding -> i = j).
Proof.
  intros H%mutex_inv_reachable Hi. unfold mutex_inv, weigh in H.
  pose proof (weigh_one holding (sys_threads s) i Holding ltac:(by intros []) Hi) as H1. cbn in H1.
  split; [destruct (sys_shared s); cbn in H; [done|lia]|].
  intros Hj. destruct (decide (i = j)) as [|Hne]; [done|].
  pose proof (weigh_two holding (sys_threads s) i j Holding Holding ltac:(by intros []) Hi Hj Hne) as H2.
  cbn in H2. destruct (sys_shared s); cbn in H; lia.
Qed.

Lemma mutex_exclusive_witness :
  sys_shared (MkSystem true [Holding; LockTestAndSet]) = true /\
  (sys_threads (MkSystem true [Holding; LockTestAndSet]) !! 1%nat = Some Holding -> 0%nat = 1%nat).
Proof.
  apply (mutex_exclusive 2 (MkSystem true [Holding; LockTestAndSet]) 0 1); [|reflexivity].
  apply (run_sound atomic [(1, 0); (0, 0); (0, 0); (1, 0)]%nat). reflexivity.
Defined.

End Mutex.

(** ** The readers-writer lock *)

Record spinlock_rw_mutex := MkRw { readers_count : Z; writer_lock : bool }.

#[export] Instance spinlock_rw_mutex_eq : EqDecision spinlock_rw_mutex.
Proof. solve_decision. Defined.

Definition rw_init : spinlock_rw_mutex := MkRw 0 false.

(** [readers_count.fetch_add(d)] *)
Definition fetch_add (d : Z) (l : spinlock_rw_mutex) : spinlock_rw_mutex :=
  MkRw (s32 (readers_count l + d)) (writer_lock l).

Definition set_writer (b : bool) (l : spinlock_rw_mutex) : spinlock_rw_mutex :=
  MkRw (readers_count l) b.

(** A method of a lock that no other thread uses meanwhile. *)
Definition try_lock_read (l : spinlock_rw_mutex) : bool * spinlock_rw_mutex :=
  if negb (writer_lock l) then (true, fetch_add 1 l) else (false, l).
Definition unlock_read (l : spinlock_rw_mutex) : spinlock_rw_mutex := fetch_add (-1) l.
Definition try_lock_write (l : spinlock_rw_mutex) : bool * spinlock_rw_mutex :=
  if writer_lock l then (false, l) else (true, set_writer true l).
Definition unlock_write (l : spinlock_rw_mutex) : spinlock_rw_mutex := set_writer false l.

Module Rw.

(** The next atomic operation of a thread, by method. *)
Inductive rw_pc :=
  | Idle
  | LockReadSpin      (** [while (writer_lock) {}] *)
  | LockReadAdd       (** [readers_count.fetch_add(1)] *)
  | LockReadCheck     (** [if (writer_lock)] *)
  | LockReadUndo      (** [readers_count.fetch_sub(1)] *)
  | TryReadCheck      (** [if (!writer_lock)] *)
  | TryReadAdd        (** [readers_count.fetch_add(1)] *)
  | Reading           (** holds the lock for reading; [unlock_read] is next *)
  | LockWriteReaders  (** [readers_count != 0 ||] *)
  | LockWriteWriter   (** [|| writer_lock] *)
  | LockWriteCas      (** [compare_exchange_weak] *)
  | TryWriteCas       (** [compare_exchange_strong] *)
  | Writing           (** holds the lock for writing; [unlock_write] is next *).

#[export] Instance rw_pc_eq : EqDecision rw_pc.
Proof. solve_decision. Defined.

Definition lock_read (p : rw_pc) (l : spinlock_rw_mutex) : list (rw_pc * spinlock_rw_mutex) :=
  match p with
  | LockReadSpin => [(if writer_lock l then LockReadSpin else LockReadAdd, l)]
  | LockReadAdd => [(LockReadCheck, fetch_add 1 l)]
  | LockReadCheck => [(if writer_lock l then LockReadUndo else Reading, l)]
  | LockReadUndo => [(LockReadSpin, fetch_add (-1) l)]
  | _ => []
  end.

Definition try_read (p : rw_pc) (l : spinlock_rw_mutex) : list (rw_pc * spinlock_rw_mutex) :=
  match p with
  | TryReadCheck => [(if negb (writer_lock l) then TryReadAdd else Idle, l)]
  | TryReadAdd => [(Reading, fetch_add 1 l)]
  | _ => []
  end.

(** A weak exchange may fail although the expected value was there. *)
Definition lock_write (p : rw_pc) (l : spinlock_rw_mutex) : list (rw_pc * spinlock_rw_mutex) :=
  match p with
  | LockWriteReaders =>
      [(if truthy (readers_count l) then LockWriteReaders else LockWriteWriter, l)]
  | LockWriteWriter => [(if writer_lock l then LockWriteReaders else LockWriteCas, l)]
  | LockWriteCas =>
      (LockWriteReaders, l) :: if writer_lock l then [] else [(Writing, set_writer true l)]
  | _ => []
  end.

Definition atomic (p : rw_pc) (l : spinlock_rw_mutex) : list (rw_pc * spinlock_rw_mutex) :=
  match p with
  | Idle => [(LockReadSpin, l); (TryReadCheck, l); (LockWriteReaders, l); (TryWriteCas, l)]
  | Reading => [(Idle, unlock_read l)]
  | Writing => [(Idle, unlock_write l)]
  | TryWriteCas =>
      let '(ok, l') := try_lock_write l in [(if ok then Writing else Idle, l')]
  | _ => lock_read p l ++ try_read p l ++ lock_write p l
  end.

(** The threads counted by [readers_count], and those that hold the write lock. *)
Definition counted (p : rw_pc) : Z :=
  match p with LockReadCheck | LockReadUndo | Reading => 1 | _ => 0 end.
Definition writing (p : rw_pc) : Z := match p with Writing => 1 | _ => 0 end.

Definition rw_inv (s : system spinlock_rw_mutex rw_pc) : Prop :=
  readers_count (sys_shared s) = s32 (weigh counted s) /\
  weigh writing s = c_bool (writer_lock (sys_shared s)).

Lemma s32_add x y : s32 (s32 x + y) = s32 (x + y).
Proof.
  unfold wraps. f_equal.
  replace ((x + 2 ^ (32 - 1)) mod 2 ^ 32 - 2 ^ (32 - 1) + y + 2 ^ (32 - 1))
    with ((x + 2 ^ (32 - 1)) mod 2 ^ 32 + y) by lia.
  rewrite Zplus_mod_idemp_l. f_equal. lia.
Qed.

Lemma rw_inv_step s s' : sys_step atomic s s' -> rw_inv s -> rw_inv s'.
Proof.
  intros [l ths i p p' l' Hi Hin]. unfold rw_inv.
  rewrite (weigh_step counted l l' ths i p p' Hi), (weigh_step writing l l' ths i p p' Hi).
  pose proof (weigh_one writing ths i p ltac:(by intros []) Hi) as Hle.
  change (zsum (writing <$> ths)) with (weigh writing (MkSystem l ths)) in Hle.
  cbn [sys_shared]. intros [Hr Hw]. destruct l as [rc wl]. cbn in Hr, Hw.
  destruct p, wl; cbn in Hin; outcomes Hin; cbn in *; try destruct (truthy _); cbn in *;
    rewrite ?s32_add; split; try lia; repeat (f_equal; try lia).
Qed.

Lemma rw_inv_reachable n s : rtc (sys_step atomic) (sys_init rw_init Idle n) s -> rw_inv s.
Proof.
  intros H. assert (rw_inv (sys_init rw_init Idle n)) as H0.
  { unfold rw_inv. by rewrite !weigh_init. }
  revert H0. induction H; eauto using rw_inv_step.
Qed.

(** C32.  In every interleaving [readers_count] is the number of threads that
    incremented it and at most one thread holds the lock for writing. *)
Theorem rw_accounting n s :
  rtc (sys_step atomic) (sys_init rw_init Idle n) s ->
  readers_count (sys_shared s) = s32 (weigh counted s) /\
  (forall i, sys_threads s !! i = Some Writing -> writer_lock (sys_shared s) = true) /\
  (forall i j, sys_threads s !! i = Some Writing -> sys_threads s !! j = Some Writing -> i = j).
Proof.
  intros [Hr Hw]%rw_inv_reachable. split; [done|]. unfold weigh in Hw.
  assert (forall i, sys_threads s !! i = Some Writing -> writer_lock (sys_shared s) = true) as H1.
  { intros i Hi. pose proof (weigh_one writing (sys_threads s) i Writing ltac:(by intros []) Hi) as H.
    cbn in H. destruct (writer_lock _); cbn in Hw; [done|lia]. }
  split; [done|]. intros i j Hi Hj. destruct (decide (i = j)) as [|Hne]; [done|].
  pose proof (weigh_two writing (sys_threads s) i j Writing Writing ltac:(by intros []) Hi Hj Hne) as H2.
  cbn in H2. destruct (writer_lock _); cbn in Hw; lia.
Qed.

Definition busy : system spinlock_rw_mutex rw_pc :=
  MkSystem (MkRw 2 true) [Reading; Writing; LockReadUndo].

Lemma rw_accounting_witness :
  readers_count (sys_shared busy) = s32 (weigh counted busy) /\
  (forall i, sys_threads busy !! i = Some Writing -> writer_lock (sys_shared busy) = true) /\
  (forall i j, sys_threads busy !! i = Some Writing -> sys_threads busy !! j = Some Writing -> i = j).
Proof.
  apply (rw_accounting 3 busy).
  apply (run_sound atomic [(0, 1); (0, 0); (0, 0); (2, 0); (2, 0); (2, 0); (1, 3); (1, 0); (2, 0)]%nat).
  reflexivity.
Defined.

(** The lock does not keep writers from readers: a thread that calls
    [try_lock_write] takes it whatever [readers_count] is, and the blocking
    methods alone let a reader and a writer in together, because [lock_write]
    reads [readers_count] before the exchange and not after it. *)
Theorem rw_reader_with_writer :
  (forall l ths i, ths !! i = Some Idle -> writer_lock l = false ->
     rtc (sys_step atomic) (MkSystem l ths) (MkSystem (set_writer true l) (<[i := Writing]> ths))) /\
  rtc (sys_step (fun p l => match p with Idle => [(LockReadSpin, l); (LockWriteReaders, l)]
                            | _ => atomic p l end))
    (sys_init rw_init Idle 2) (MkSystem (MkRw 1 true) [Reading; Writing]).
Proof.
  split.
  - intros l ths i Hi Hw. pose proof (lookup_lt_Some _ _ _ Hi).
    apply (run_sound atomic [(i, 3); (i, 0)]%nat). cbn. rewrite Hi. cbn.
    rewrite list_lookup_insert_eq by done. cbn. unfold try_lock_write. rewrite Hw. cbn.
    by rewrite list_insert_insert_eq.
  - apply (run_sound _ [(1, 1); (1, 0); (1, 0); (0, 0); (0, 0); (0, 0); (0, 0); (1, 1)]%nat).
    reflexivity.
Qed.

End Rw.
