(* ===== verification/XXHash.v ===== *)
(** * XXHash: the 64-bit hash of the host small bank

    Translation of [test_suite/small_bank/xxhash64.h], the streaming class
    [XXHash64], and of [init_hash_table] of [server/server.h].  A block of data is
    the list of the bytes a pointer and a length denote, [None] the null pointer;
    a pointer that moves through a block is the list of the bytes after it.  The
    multi-byte loads are little-endian.

    [XXH64] is the algorithm on a whole input, without the buffer: the streaming
    class agrees with it for every way of cutting the input into chunks. *)

From S2P Require Import Prelude.

(** ** Constants and mixing functions *)

Definition Prime1 : Z := 11400714785074694791.
Definition Prime2 : Z := 14029467366897019727.
Definition Prime3 : Z := 1609587929392839161.
Definition Prime4 : Z := 9650029242287828579.
Definition Prime5 : Z := 2870177450012600261.
Definition MaxBufferSize : Z := 31 + 1.

Definition rotateLeft (x bits : Z) : Z :=
  Z.lor (u64 (Z.shiftl x bits)) (Z.shiftr x (64 - bits)).

Definition processSingle (previous input : Z) : Z :=
  (rotateLeft (previous +64 (input *64 Prime2)) 31 *64 Prime1)%cint.

(** The little-endian number of a list of bytes, [*(uint64_t * )data]. *)
Fixpoint le_combine (bs : list Z) : Z :=
  match bs with
  | [] => 0
  | b :: bs => b + 256 * le_combine bs
  end.

Definition block (data : list Z) (i : nat) : Z := le_combine (take 8 (drop (8 * i) data)).

Record accs := MkAccs { state0 : Z; state1 : Z; state2 : Z; state3 : Z }.

Definition process (data : list Z) (s : accs) : accs :=
  MkAccs (processSingle (state0 s) (block data 0)) (processSingle (state1 s) (block data 1))
    (processSingle (state2 s) (block data 2)) (processSingle (state3 s) (block data 3)).

(** ** The class *)

Record XXHash64 := MkHash {
  state : accs;
  buffer : list Z;
  bufferSize : Z;
  totalLength : Z;
}.

(** The constructor leaves [buffer] as it was. *)
Definition new (junk : list Z) (seed : Z) : XXHash64 :=
  MkHash (MkAccs ((seed +64 Prime1) +64 Prime2)%cint (seed +64 Prime2)%cint seed
            (seed -64 Prime1)%cint) junk 0 0.

(** [while (n-- > 0) buffer[bufferSize++] = *data++;]: the buffer, its size and
    the data left. *)
Fixpoint copy_in (n : nat) (buf : list Z) (size : Z) (data : list Z) : list Z * Z * list Z :=
  match n, data with
  | S n, b :: data => copy_in n (<[Z.to_nat size := b]> buf) (size +64 1)%cint data
  | _, _ => (buf, size, data)
  end.

(** [while (data <= stopBlock) { process(data, ...); data += 32; }] *)
Fixpoint process_blocks (n : nat) (data : list Z) (s : accs) : list Z * accs :=
  match n with
  | O => (data, s)
  | S n =>
      if MaxBufferSize <=? Z.of_nat (length data)
      then process_blocks n (drop 32 data) (process data s)
      else (data, s)
  end.

Definition add (input : option (list Z)) (h : XXHash64) : bool * XXHash64 :=
  match input with
  | None => (false, h)
  | Some data =>
      let len := Z.of_nat (length data) in
      if len =? 0 then (false, h)
      else
        let total := (totalLength h +64 len)%cint in
        if (bufferSize h +64 len)%cint <? MaxBufferSize then
          let '(buf, size, _) := copy_in (Z.to_nat len) (buffer h) (bufferSize h) data in
          (true, MkHash (state h) buf size total)
        else
          let '(buf, size, data, s) :=
            if 0 <? bufferSize h then
              let '(buf, size, data) :=
                copy_in (Z.to_nat (MaxBufferSize - bufferSize h)) (buffer h) (bufferSize h) data in
              (buf, size, data, process buf (state h))
            else (buffer h, bufferSize h, data, state h) in
          let '(data, s) := process_blocks (length data) data s in
          let '(buf, _, _) := copy_in (length data) buf 0 data in
          (true, MkHash s buf (Z.of_nat (length data)) total)
  end.

(** The loops of [hash] over the bytes that are left. *)
Fixpoint eat8 (n : nat) (data : list Z) (result : Z) : list Z * Z :=
  match n with
  | O => (data, result)
  | S n =>
      if 8 <=? Z.of_nat (length data) then
        eat8 n (drop 8 data)
          (rotateLeft (Z.lxor result (processSingle 0 (le_combine (take 8 data)))) 27
             *64 Prime1 +64 Prime4)%cint
      else (data, result)
  end.

Definition eat4 (data : list Z) (result : Z) : list Z * Z :=
  if 4 <=? Z.of_nat (length data) then
    (drop 4 data,
     (rotateLeft (Z.lxor result (le_combine (take 4 data) *64 Prime1)) 23 *64 Prime2 +64 Prime3)%cint)
  else (data, result).

Fixpoint eat1 (data : list Z) (result : Z) : Z :=
  match data with
  | [] => result
  | b :: data => eat1 data (rotateLeft (Z.lxor result (b *64 Prime5)) 11 *64 Prime1)%cint
  end.

Definition avalanche (result : Z) : Z :=
  let result := Z.lxor result (Z.shiftr result 33) in
  let result := (result *64 Prime2)%cint in
  let result := Z.lxor result (Z.shiftr result 29) in
  let result := (result *64 Prime3)%cint in
  Z.lxor result (Z.shiftr result 32).

(** The four accumulators folded into one value. *)
Definition merge_state (s : accs) : Z :=
  let result := (rotateLeft (state0 s) 1 +64 rotateLeft (state1 s) 7 +64 rotateLeft (state2 s) 12
                   +64 rotateLeft (state3 s) 18)%cint in
  let fold1 result x := (Z.lxor result (processSingle 0 x) *64 Prime1 +64 Prime4)%cint in
  fold1 (fold1 (fold1 (fold1 result (state0 s)) (state1 s)) (state2 s)) (state3 s).

(** From [result += totalLength] to the end, on the bytes of the buffer. *)
Definition finish (result total : Z) (data : list Z) : Z :=
  let result := (result +64 total)%cint in
  let '(data, result) := eat8 (length data) data result in
  let '(data, result) := eat4 data result in
  avalanche (eat1 data result).

Definition hash (h : XXHash64) : Z :=
  let result :=
    if MaxBufferSize <=? totalLength h then merge_state (state h)
    else (state2 (state h) +64 Prime5)%cint in
  finish result (totalLength h) (take (Z.to_nat (bufferSize h)) (buffer h)).

(** The static function of the same name. *)
Definition hash_of (junk : list Z) (input : option (list Z)) (seed : Z) : Z :=
  hash (add input (new junk seed)).2.

(** ** The algorithm on a whole input *)

(** All full blocks of the input, and what is left. *)
Definition XXH64 (seed : Z) (data : list Z) : Z :=
  let '(rest, s) := process_blocks (length data) data (state (new [] seed)) in
  let total := u64 (Z.of_nat (length data)) in
  finish (if MaxBufferSize <=? total then merge_state s else (seed +64 Prime5)%cint) total rest.

(** Published values of XXH64. *)
Example xxh64_empty : XXH64 0 [] = 0xef46db3751d8e999.
Proof. vm_compute. reflexivity. Qed.
Example xxh64_abc : XXH64 0 [97; 98; 99] = 0x44bc2cf5ad770999.
Proof. vm_compute. reflexivity. Qed.

(** ** The blocks of an input *)

Lemma blocks_fuel n m d s :
  (length d <= n)%nat -> (length d <= m)%nat -> process_blocks n d s = process_blocks m d s.
Proof.
  revert m d s. induction n as [|n IH]; intros [|m] d s Hn Hm; cbn [process_blocks]; try done.
  - destruct d; [done|cbn in Hn; lia].
  - destruct d; [done|cbn in Hm; lia].
  - case_match eqn:E; [|done]. unfold MaxBufferSize in E. apply Z.leb_le in E.
    apply IH; rewrite length_drop; lia.
Qed.

Lemma blocks_rest n d s : (length d <= n)%nat -> (length (process_blocks n d s).1 < 32)%nat.
Proof.
  revert d s. induction n as [|n IH]; intros d s Hn; cbn [process_blocks]; [cbn; lia|].
  case_match eqn:E; unfold MaxBufferSize in E; [apply Z.leb_le in E|apply Z.leb_gt in E].
  - apply IH. rewrite length_drop. lia.
  - cbn. lia.
Qed.

(** A block of 32 bytes depends on nothing after it. *)
Lemma process_app d e s : (32 <= length d)%nat -> process (d ++ e) s = process d s.
Proof.
  intros H. unfold process, block.
  rewrite !drop_app_le by lia. by rewrite !take_app_le by (rewrite length_drop; lia).
Qed.

(** The blocks of an input that comes in two parts. *)
Lemma blocks_app n n' m d e s :
  (length d <= n)%nat -> (length (d ++ e) <= n')%nat -> (length (d ++ e) <= m)%nat ->
  process_blocks n' (d ++ e) s =
  process_blocks m ((process_blocks n d s).1 ++ e) (process_blocks n d s).2.
Proof.
  revert n' m d s. induction n as [|n IH]; intros n' m d s Hn Hn' Hm; cbn [process_blocks].
  { cbn. by apply blocks_fuel. }
  case_match eqn:E; [|cbn; by apply blocks_fuel].
  unfold MaxBufferSize in E. apply Z.leb_le in E. rewrite length_app in Hn', Hm.
  destruct n' as [|n']; [lia|]. cbn [process_blocks].
  rewrite (proj2 (Z.leb_le _ _)) by (rewrite length_app; unfold MaxBufferSize; lia).
  rewrite drop_app_le, process_app by lia.
  apply IH; rewrite ?length_app, ?length_drop; lia.
Qed.

(** One more full block in front. *)
Lemma blocks_cons n m b d s :
  length b = 32%nat -> (length (b ++ d) <= n)%nat -> (length d <= m)%nat ->
  process_blocks n (b ++ d) s = process_blocks m d (process b s).
Proof.
  intros Hb Hn Hm. rewrite length_app in Hn. destruct n as [|n]; [lia|]. cbn [process_blocks].
  rewrite (proj2 (Z.leb_le _ _)) by (rewrite length_app; unfold MaxBufferSize; lia).
  rewrite drop_app_length' by done. rewrite process_app by lia. apply blocks_fuel; lia.
Qed.

Lemma copy_in_spec n buf size data :
  length buf = 32%nat -> 0 <= size -> (n <= length data)%nat -> size + Z.of_nat n <= 32 ->
  copy_in n buf size data =
  (take (Z.to_nat size) buf ++ take n data ++ drop (Z.to_nat size + n) buf,
   size + Z.of_nat n, drop n data).
Proof.
  revert buf size data. induction n as [|n IH]; intros buf size data Hb Hs Hn Hle; cbn [copy_in].
  { rewrite take_0, Nat.add_0_r, Z.add_0_r. cbn. by rewrite take_drop. }
  destruct data as [|b data]; cbn in Hn; [lia|].
  unfold wrapu. rewrite Z.mod_small by lia.
  rewrite IH by (rewrite ?length_insert; lia).
  replace (Z.to_nat (size + 1)) with (S (Z.to_nat size)) by lia.
  rewrite (take_S_r _ _ b) by (apply list_lookup_insert_eq; lia).
  rewrite take_insert_ge by lia. rewrite drop_insert_lt by lia.
  rewrite <- app_assoc. replace (S (Z.to_nat size) + n)%nat with (Z.to_nat size + S n)%nat by lia.
  replace (size + 1 + Z.of_nat n) with (size + Z.of_nat (S n)) by lia. done.
Qed.

(** ** Streaming *)

(** The class after it was given [d], from the accumulators [s0]. *)
Definition fed (s0 : accs) (d : list Z) (h : XXHash64) : Prop :=
  let '(rest, s) := process_blocks (length d) d s0 in
  state h = s /\ bufferSize h = Z.of_nat (length rest) /\ length (buffer h) = 32%nat /\
  take (length rest) (buffer h) = rest /\ totalLength h = Z.of_nat (length d).

Lemma fed_new junk seed :
  length junk = 32%nat -> fed (state (new [] seed)) [] (new junk seed).
Proof. intros H. unfold fed. cbn. done. Qed.

(** Completing a buffer that holds [rest] with the start of [e] and processing it
    leaves the blocks of [rest ++ e] to be processed. *)
Lemma fill_buffer rest buf e s :
  (length rest < 32)%nat -> length buf = 32%nat -> take (length rest) buf = rest ->
  (32 <= length rest + length e)%nat ->
  exists buf' size data s',
    (if 0 <? Z.of_nat (length rest)
     then let '(buf, size, data) :=
            copy_in (Z.to_nat (MaxBufferSize - Z.of_nat (length rest))) buf (Z.of_nat (length rest)) e in
          (buf, size, data, process buf s)
     else (buf, Z.of_nat (length rest), e, s)) = (buf', size, data, s') /\
    length buf' = 32%nat /\ (length data <= length e)%nat /\
    forall n m, (length (rest ++ e) <= n)%nat -> (length e <= m)%nat ->
      process_blocks n (rest ++ e) s = process_blocks m data s'.
Proof.
  intros Hr Hbuf Htake Hlen. unfold MaxBufferSize.
  destruct (Z.ltb_spec 0 (Z.of_nat (length rest))) as [Hk|Hk].
  - rewrite copy_in_spec by lia. rewrite Nat2Z.id.
    rewrite (drop_ge buf) by lia. rewrite app_nil_r, Htake.
    eexists _, _, _, _. split; [done|]. rewrite length_app, length_take, length_drop.
    split; [lia|]. split; [lia|]. intros n m Hn Hm. rewrite length_app in Hn.
    rewrite <- (take_drop (Z.to_nat (31 + 1 - Z.of_nat (length rest))) e) at 1. rewrite app_assoc.
    apply blocks_cons; rewrite ?length_app, ?length_take, ?length_drop; lia.
  - eexists _, _, _, _. split; [done|]. split; [done|]. split; [lia|]. intros n m Hn Hm.
    destruct rest; [|cbn in *; lia]. by apply blocks_fuel.
Qed.

Lemma blocks_rest_le n d s : (length (process_blocks n d s).1 <= length d)%nat.
Proof.
  revert d s. induction n as [|n IH]; intros d s; cbn [process_blocks]; [done|].
  case_match; [|done]. etrans; [apply IH|]. rewrite length_drop. lia.
Qed.

Lemma fed_add s0 d e h :
  Z.of_nat (length (d ++ e)) < 2 ^ 64 -> fed s0 d h -> fed s0 (d ++ e) (add (Some e) h).2.
Proof.
  unfold fed at 1. intros Hlen Hf. rewrite length_app in Hlen.
  pose proof (blocks_rest (length d) d s0 ltac:(lia)) as Hr.
  pose proof (blocks_rest_le (length d) d s0) as Hrd.
  pose proof (blocks_app (length d) (length (d ++ e)) (length (d ++ e)) d e s0
                ltac:(lia) ltac:(lia) ltac:(lia)) as Hb.
  destruct (process_blocks (length d) d s0) as [rest s] eqn:E. cbn [fst snd] in *.
  destruct Hf as (Hs & Hsz & Hbuf & Htake & Htot).
  unfold add. case_match eqn:E0.
  { apply Z.eqb_eq in E0. destruct e; [|cbn in E0; lia]. rewrite app_nil_r. unfold fed. by rewrite E. }
  apply Z.eqb_neq in E0. rewrite Hsz, Htot, Hs. unfold fed. rewrite Hb.
  rewrite (wrapu_small 64 (Z.of_nat (length d) + _)) by lia.
  rewrite (wrapu_small 64 (Z.of_nat (length rest) + _)) by lia.
  destruct (Z.ltb_spec (Z.of_nat (length rest) + Z.of_nat (length e)) MaxBufferSize) as [Hlt|Hge];
    unfold MaxBufferSize in *.
  - rewrite copy_in_spec by lia. rewrite !Nat2Z.id. cbn [fst snd state bufferSize buffer totalLength].
    destruct (length (d ++ e)) as [|n] eqn:En; rewrite length_app in En; [lia|]. cbn [process_blocks].
    rewrite (proj2 (Z.leb_gt _ _)) by (rewrite length_app; unfold MaxBufferSize; lia).
    rewrite (take_ge e) by lia. rewrite !length_app, length_drop.
    rewrite Htake. split_and!; try done; try lia.
    rewrite app_assoc. apply take_app_length'. rewrite length_app. lia.
  - destruct (fill_buffer rest (buffer h) e s) as (buf & size & data & s' & Efill & Hbl & Hdl & Hpb);
      [lia|done|done|lia|].
    unfold MaxBufferSize in Efill. rewrite Efill.
    rewrite (Hpb _ (length e)), (blocks_fuel _ (length data)) by (rewrite ?length_app; lia).
    pose proof (blocks_rest (length data) data s' ltac:(lia)) as Hr'.
    destruct (process_blocks (length data) data s') as [rest' s2]. cbn in Hr'.
    rewrite copy_in_spec by lia. cbn [fst snd state bufferSize buffer totalLength].
    change (Z.to_nat 0) with 0%nat. rewrite take_0, (take_ge rest') by lia.
    cbn [app Nat.add]. rewrite !length_app, length_drop.
    split_and!; try done; try lia. by apply take_app_length'.
Qed.

Lemma fed_hash seed d h :
  Z.of_nat (length d) < 2 ^ 64 -> fed (state (new [] seed)) d h -> hash h = XXH64 seed d.
Proof.
  unfold fed, XXH64, hash. intros Hlen.
  assert (Z.of_nat (length d) < MaxBufferSize ->
          process_blocks (length d) d (state (new [] seed)) = (d, state (new [] seed))) as Hsmall.
  { intros H. destruct (length d) as [|n] eqn:E; [done|]. cbn [process_blocks].
    rewrite E. by rewrite (proj2 (Z.leb_gt _ _)). }
  destruct (process_blocks (length d) d _) as [rest s] eqn:E.
  intros (Hs & Hsz & Hbuf & Htake & Htot).
  rewrite Hsz, Htot, Hs, Nat2Z.id, Htake, (wrapu_small 64 (Z.of_nat (length d))) by lia.
  destruct (Z.leb_spec MaxBufferSize (Z.of_nat (length d))) as [|Hlt]; [done|].
  specialize (Hsmall Hlt). injection Hsmall as -> ->. done.
Qed.

(** Calls of [add], one per chunk. *)
Definition add_all (chunks : list (list Z)) (h : XXHash64) : XXHash64 :=
  foldl (fun h c => (add (Some c) h).2) h chunks.

Lemma fed_add_all s0 chunks d h :
  Z.of_nat (length (d ++ concat chunks)) < 2 ^ 64 ->
  fed s0 d h -> fed s0 (d ++ concat chunks) (add_all chunks h).
Proof.
  revert d h. induction chunks as [|c chunks IH]; intros d h Hlen Hf; cbn.
  { by rewrite app_nil_r. }
  cbn in Hlen. rewrite app_assoc in Hlen |- *. apply IH; [done|]. apply fed_add; [|done].
  rewrite length_app in Hlen. lia.
Qed.

(** C27.  However an input shorter than 2^64 bytes is cut into chunks, and whatever
    the buffer held at first, the class computes the hash of the whole input. *)
Theorem xxhash_streaming junk seed chunks :
  length junk = 32%nat -> Z.of_nat (length (concat chunks)) < 2 ^ 64 ->
  hash (add_all chunks (new junk seed)) = XXH64 seed (concat chunks).
Proof.
  intros Hj Hlen. apply fed_hash; [done|].
  apply (fed_add_all _ chunks [] (new junk seed)); [done|]. by apply fed_new.
Qed.

Lemma xxhash_streaming_witness :
  hash (add_all [replicate 20 7; []; replicate 50 9] (new (replicate 32 255) 3)) =
  XXH64 3 (replicate 20 7 ++ replicate 50 9).
Proof.
  apply (xxhash_streaming (replicate 32 255) 3 [replicate 20 7; []; replicate 50 9]);
    [reflexivity|cbn; lia].
Defined.

(** ** The table of hashed identifiers *)

(** The bytes of an 8-byte number in memory. *)
Definition bytes_of_u64 (x : Z) : list Z := (fun i => u8 (x / 256 ^ Z.of_nat i)) <$> seq 0 8.

Definition NUM_ENTRY : Z := 4000000 + 1.
Definition NUM_ACCOUNTS : Z := 1000000.

(** One turn of the loop of [init_hash_table]; [hash_table_global] maps an index to
    its entry. *)
Definition hash_entry (junk : list Z) (i : Z) : Z :=
  hash_of junk (Some (bytes_of_u64 i)) 0 mod NUM_ENTRY.

Fixpoint init_hash_loop (junk : list Z) (n : nat) (i : Z) (t : gmap Z Z) : gmap Z Z :=
  match n with
  | O => t
  | S n => init_hash_loop junk n (i + 1) (<[i := hash_entry junk i]> t)
  end.

Definition init_hash_table (junk : list Z) (t : gmap Z Z) : gmap Z Z :=
  init_hash_loop junk (Z.to_nat NUM_ACCOUNTS) 0 t.

Lemma hash_entry_spec junk i :
  length junk = 32%nat -> hash_entry junk i = XXH64 0 (bytes_of_u64 i) mod NUM_ENTRY.
Proof.
  intros H. unfold hash_entry, hash_of. f_equal. apply fed_hash; [done|].
  apply (fed_add _ [] (bytes_of_u64 i)); [done|]. by apply fed_new.
Qed.

Lemma init_hash_loop_lookup junk n i t k :
  init_hash_loop junk n i t !! k =
  if decide (i <= k < i + Z.of_nat n) then Some (hash_entry junk k) else t !! k.
Proof.
  revert i t. induction n as [|n IH]; intros i t; cbn [init_hash_loop]; [by decide_lia|].
  rewrite IH. destruct (decide (k = i)) as [->|Hne].
  - decide_lia. by rewrite lookup_insert_eq.
  - rewrite lookup_insert_ne by done. repeat case_decide; done || lia.
Qed.

(** After initialisation every account has an entry, the hash of its identifier
    reduced to an index of the account tables. *)
Theorem init_hash_table_spec junk t id :
  length junk = 32%nat -> 0 <= id < NUM_ACCOUNTS ->
  init_hash_table junk t !! id = Some (XXH64 0 (bytes_of_u64 id) mod NUM_ENTRY) /\
  0 <= XXH64 0 (bytes_of_u64 id) mod NUM_ENTRY < NUM_ENTRY.
Proof.
  intros Hj Hid. unfold init_hash_table. rewrite init_hash_loop_lookup.
  rewrite decide_True by (rewrite Z2Nat.id; [lia|done]).
  rewrite hash_entry_spec by done. split; [done|]. by apply Z.mod_pos_bound.
Qed.

Lemma init_hash_table_spec_witness :
  init_hash_table (replicate 32 0) ∅ !! 5 = Some (XXH64 0 (bytes_of_u64 5) mod NUM_ENTRY) /\
  0 <= XXH64 0 (bytes_of_u64 5) mod NUM_ENTRY < NUM_ENTRY.
Proof.
  apply (init_hash_table_spec (replicate 32 0) ∅ 5); [reflexivity|]. unfold NUM_ACCOUNTS. lia.
Defined.
