(* ===== verification/Binary64.v ===== *)
(** * Binary64: the C type [double]

    The balances of the host small bank are doubles.  A [double] is kept as its
    64-bit representation, which is what messages and tables copy; arithmetic goes
    through the IEEE 754 specification of the Standard Library ([SpecFloat], with
    53 bits of precision, rounding to nearest even).  A NaN that an operation
    produces is the quiet NaN with a zero payload. *)

From S2P Require Import Prelude.
From Stdlib Require Import Floats.SpecFloat.

Definition prec : Z := 53.
Definition emax : Z := 1024.

Definition double_of_bits (b : Z) : spec_float :=
  let s := Z.testbit b 63 in
  let e := (b / 2 ^ 52) mod 2 ^ 11 in
  let m := b mod 2 ^ 52 in
  if e =? 0 then match m with Zpos m => S754_finite s m (-1074) | _ => S754_zero s end
  else if e =? 2047 then (if m =? 0 then S754_infinity s else S754_nan)
  else match m + 2 ^ 52 with Zpos m => S754_finite s m (e - 1075) | _ => S754_nan end.

(** Sign, biased exponent and fraction put together. *)
Definition double_fields (s : bool) (e m : Z) : Z :=
  c_bool s * 2 ^ 63 + (e mod 2 ^ 11) * 2 ^ 52 + m mod 2 ^ 52.

Definition bits_of_double (x : spec_float) : Z :=
  match x with
  | S754_zero s => double_fields s 0 0
  | S754_infinity s => double_fields s 2047 0
  | S754_nan => double_fields false 2047 (2 ^ 51)
  | S754_finite s m e =>
      if Zpos m <? 2 ^ 52 then double_fields s 0 (Zpos m)
      else double_fields s (e + 1075) (Zpos m - 2 ^ 52)
  end.

Definition dadd (x y : Z) : Z :=
  bits_of_double (SFadd prec emax (double_of_bits x) (double_of_bits y)).
Definition dsub (x y : Z) : Z :=
  bits_of_double (SFsub prec emax (double_of_bits x) (double_of_bits y)).
Definition ddiv (x y : Z) : Z :=
  bits_of_double (SFdiv prec emax (double_of_bits x) (double_of_bits y)).

(** The conversion of an integer to [double]. *)
Definition double_of_Z (n : Z) : Z := bits_of_double (binary_normalize prec emax n 0 false).

Lemma double_fields_range s e m : 0 <= double_fields s e m < 2 ^ 64.
Proof.
  unfold double_fields, c_bool. pose proof (Z.mod_pos_bound e (2 ^ 11) ltac:(lia)).
  pose proof (Z.mod_pos_bound m (2 ^ 52) ltac:(lia)). destruct s; lia.
Qed.

Lemma bits_of_double_range x : 0 <= bits_of_double x < 2 ^ 64.
Proof. destruct x; cbn [bits_of_double]; try case_match; apply double_fields_range. Qed.

(** Every representation that is not a NaN survives decoding and encoding. *)
Lemma bits_of_double_of_bits b :
  0 <= b < 2 ^ 64 -> double_of_bits b <> S754_nan -> bits_of_double (double_of_bits b) = b.
Proof.
  intros Hb. unfold double_of_bits.
  assert (b = c_bool (Z.testbit b 63) * 2 ^ 63 + ((b / 2 ^ 52) mod 2 ^ 11) * 2 ^ 52 + b mod 2 ^ 52) as E.
  { destruct (Z.testbit b 63) eqn:T.
    - apply Z.testbit_true in T; [|lia]. cbn [c_bool]. mlia.
    - apply Z.testbit_false in T; [|lia]. cbn [c_bool]. mlia. }
  pose proof (Z.mod_pos_bound b (2 ^ 52) ltac:(lia)) as Hm.
  pose proof (Z.mod_pos_bound (b / 2 ^ 52) (2 ^ 11) ltac:(lia)) as He.
  set (e := (b / 2 ^ 52) mod 2 ^ 11) in *. set (m := b mod 2 ^ 52) in *.
  set (s := Z.testbit b 63) in *. clearbody e m s.
  assert (double_fields s e m = b) as Ef.
  { unfold double_fields. rewrite !Z.mod_small by lia. lia. }
  destruct (Z.eqb_spec e 0) as [->|He0]; [|destruct (Z.eqb_spec e 2047) as [->|He1]].
  - intros _. destruct m as [|m|m]; cbn [bits_of_double]; [done| |lia].
    by rewrite (proj2 (Z.ltb_lt _ _)) by lia.
  - destruct (Z.eqb_spec m 0) as [->|]; [|done]. intros _. done.
  - destruct (m + 2 ^ 52) as [|p|p] eqn:Ep; [lia| |lia]. intros _. cbn [bits_of_double].
    rewrite (proj2 (Z.ltb_ge _ _)) by lia. rewrite <- Ep.
    replace (e - 1075 + 1075) with e by lia. by replace (m + 2 ^ 52 - 2 ^ 52) with m by lia.
Qed.

(** The correctly rounded quotient 1/1000 is the literal [0.001]. *)
Example double_milli : ddiv (double_of_Z 1) (double_of_Z 1000) = 0x3F50624DD2F1A9FC.
Proof. vm_compute. reflexivity. Qed.
Example double_size_max_half : double_of_Z ((2 ^ 64 - 1) / 2) = 0x43E0000000000000.
Proof. vm_compute. reflexivity. Qed.
Example double_sum : dadd (double_of_Z 3) (double_of_Z (-5)) = double_of_Z (-2).
Proof. vm_compute. reflexivity. Qed.
