(* ===== verification/HostBank.v ===== *)
(** * HostBank: the SmallBank server on the host

    Translation of [test_suite/small_bank/server] and of the message types of
    [small_bank_rpc_type.h] and the constants of [small_bank_common.h].  The
    account tables are global arrays of structures with a readers-writer lock; an
    access outside an array is [OutOfBounds] and a failed [rt_assert], which throws,
    is [Thrown].

    The RPC library is not in the repository.  A message buffer is its bytes and its
    size; a request handler takes the request buffer and the preallocated response
    buffer (whatever it holds) and gives the response it enqueues.  Handlers run one
    at a time, as in the default configuration of one server thread. *)

From S2P Require Import Prelude Machine PacketHdr SpinMutex Binary64 XXHash.

(** ** Results *)

Inductive result (A : Type) :=
  | Ok (a : A)
  | Thrown
  | OutOfBounds.
Arguments Ok {A}.
Arguments Thrown {A}.
Arguments OutOfBounds {A}.

#[export] Instance result_bind : MBind result := fun A B f r =>
  match r with Ok a => f a | Thrown => Thrown | OutOfBounds => OutOfBounds end.

Definition rt_assert (c : bool) : result unit := if c then Ok tt else Thrown.

(** ** Messages *)

Inductive RPC_TYPE := RPC_PING | RPC_GET_DATA | RPC_GET_LOCK | RPC_FINISH.
Inductive TRANSMIT_TYPE :=
  | Amalgamate | Balance | DepositChecking | SendPayment | TransactSavings | WriteCheck.

#[export] Instance RPC_TYPE_eq : EqDecision RPC_TYPE.
Proof. solve_decision. Defined.
#[export] Instance TRANSMIT_TYPE_eq : EqDecision TRANSMIT_TYPE.
Proof. solve_decision. Defined.

(** The byte of an enumeration. *)
Definition rpc_code (t : RPC_TYPE) : Z :=
  match t with RPC_PING => 0 | RPC_GET_DATA => 1 | RPC_GET_LOCK => 2 | RPC_FINISH => 3 end.

Definition NO_LOCK : Z := 0.
Definition READ_LOCK : Z := 1.
Definition WRITE_LOCK : Z := 2.

Record MsgBuffer := MkMsg { buf_ : mem; data_size : Z }.

Definition resize_msg_buffer (n : Z) (m : mem) : MsgBuffer := MkMsg m n.

(** Sizes of the packed messages: 5 or 9 bytes of header and a structure padded
    to a multiple of 8. *)
Definition sizeof_PingReq : Z := 5 + 8.
Definition sizeof_PingResp : Z := 9 + 8.
Definition sizeof_GetDataReq : Z := 5 + 24.
Definition sizeof_GetDataResp : Z := 9 + 48.
Definition sizeof_GetLockReq : Z := 5 + 24.
Definition sizeof_GetLockResp : Z := 9 + 24.
Definition sizeof_FinishReq : Z := 5 + 56.
Definition sizeof_FinishResp : Z := 9 + 24.

(** [CommonReq] and [CommonResp]. *)
Definition req_type (m : mem) : Z := rd8 m 0.
Definition req_number (m : mem) : Z := ld32 m 1.
Definition put_common_req (t : RPC_TYPE) (num : Z) (m : mem) : mem :=
  st8 (st32 m 1 num) 0 (rpc_code t).
Definition resp_status (m : mem) : Z := s32 (ld32 m 5).
Definition put_common_resp (t num status : Z) (m : mem) : mem :=
  st32 (st8 (st32 m 1 num) 0 t) 5 status.

(** ** The account tables *)

Definition NUM_SCALE : Z := NUM_ENTRY / NUM_ACCOUNTS.

Record account := MkAccount { custom_id : Z; balance : Z; mutex : spinlock_rw_mutex }.

Definition account_zero : account := MkAccount 0 0 rw_init.

Inductive table := Savings | Checking.

#[export] Instance table_eq : EqDecision table.
Proof. solve_decision. Defined.

#[export] Instance table_countable : Countable table.
Proof.
  refine (inj_countable' (fun t => match t with Savings => true | Checking => false end)
            (fun b : bool => if b then Savings else Checking) _).
  by intros [].
Defined.

(** An element of an array; the arrays are zero at first. *)
Definition slot : Type := table * Z.

Record bank := MkBank {
  hash_table_global : gmap Z Z;
  accounts : gmap slot account;
}.

Definition account_at (b : bank) (k : slot) : account := default account_zero (accounts b !! k).
Definition upd_account (k : slot) (g : account -> account) (b : bank) : bank :=
  MkBank (hash_table_global b) (<[k := g (account_at b k)]> (accounts b)).

Definition set_balance (v : Z) (a : account) : account := MkAccount (custom_id a) v (mutex a).
Definition set_mutex (l : spinlock_rw_mutex) (a : account) : account :=
  MkAccount (custom_id a) (balance a) l.

(** [hash_table_global[id]] *)
Definition hash_at (b : bank) (id : Z) : result Z :=
  if id <? NUM_ACCOUNTS then Ok (default 0 (hash_table_global b !! id)) else OutOfBounds.

(** [savings_global[id * NUM_SCALE]] and [checking_global[id * NUM_SCALE]]. *)
Definition slot_of (t : table) (id : Z) : slot := (t, u64 (id * NUM_SCALE)).
Definition at_slot {A} (k : slot) (x : A) : result A :=
  if k.2 <? NUM_ENTRY then Ok x else OutOfBounds.

(** One turn of the loops of [init_saving] and [init_checking]. *)
Definition SIZE_MAX : Z := 2 ^ 64 - 1.
Definition init_account (i : Z) (a : account) : account :=
  MkAccount i (double_of_Z (SIZE_MAX / 2)) (mutex a).

Fixpoint init_loop (t : table) (n : nat) (i : Z) (b : bank) : bank :=
  match n with
  | O => b
  | S n => init_loop t n (i + 1) (upd_account (slot_of t i) (init_account i) b)
  end.

Definition init_saving (b : bank) : bank := init_loop Savings (Z.to_nat NUM_ACCOUNTS) 0 b.
Definition init_checking (b : bank) : bank := init_loop Checking (Z.to_nat NUM_ACCOUNTS) 0 b.

(** The start of [main]; [junk] is what the buffer of the hash object holds. *)
Definition main_init (junk : list Z) : bank :=
  let b := MkBank ∅ ∅ in
  let b := MkBank (init_hash_table junk (hash_table_global b)) (accounts b) in
  init_checking (init_saving b).

(** ** The server context *)

Record ServerContext := MkServer {
  server_id_ : Z;
  stat_req_ping_tot : Z;
  stat_req_get_data_tot : Z;
  stat_req_get_lock_success_tot : Z;
  stat_req_get_lock_fail_tot : Z;
  stat_req_finish_tot : Z;
  tables : bank;
}.

Definition reset_stat (c : ServerContext) : ServerContext :=
  MkServer (server_id_ c) 0 0 0 0 0 (tables c).

Definition count_ping (c : ServerContext) : ServerContext :=
  MkServer (server_id_ c) (stat_req_ping_tot c +64 1)%cint (stat_req_get_data_tot c)
    (stat_req_get_lock_success_tot c) (stat_req_get_lock_fail_tot c) (stat_req_finish_tot c) (tables c).
Definition count_get_data (c : ServerContext) : ServerContext :=
  MkServer (server_id_ c) (stat_req_ping_tot c) (stat_req_get_data_tot c +64 1)%cint
    (stat_req_get_lock_success_tot c) (stat_req_get_lock_fail_tot c) (stat_req_finish_tot c) (tables c).
Definition count_get_lock (success : bool) (c : ServerContext) : ServerContext :=
  MkServer (server_id_ c) (stat_req_ping_tot c) (stat_req_get_data_tot c)
    (stat_req_get_lock_success_tot c +64 c_bool success)%cint
    (stat_req_get_lock_fail_tot c +64 c_bool (negb success))%cint (stat_req_finish_tot c) (tables c).
Definition count_finish (c : ServerContext) : ServerContext :=
  MkServer (server_id_ c) (stat_req_ping_tot c) (stat_req_get_data_tot c)
    (stat_req_get_lock_success_tot c) (stat_req_get_lock_fail_tot c)
    (stat_req_finish_tot c +64 1)%cint (tables c).
Definition with_tables (b : bank) (c : ServerContext) : ServerContext :=
  MkServer (server_id_ c) (stat_req_ping_tot c) (stat_req_get_data_tot c)
    (stat_req_get_lock_success_tot c) (stat_req_get_lock_fail_tot c) (stat_req_finish_tot c) b.

(** ** The request handlers *)

Definition ping_handler (c : ServerContext) (req : MsgBuffer) (pre_resp : mem)
    : result (ServerContext * MsgBuffer) :=
  let c := count_ping c in
  _ ← rt_assert (data_size req =? sizeof_PingReq);
  let m := put_common_resp (req_type (buf_ req)) (req_number (buf_ req)) 0 pre_resp in
  let m := st64 m 9 (ld64 (buf_ req) 5) in
  Ok (c, resize_msg_buffer sizeof_PingResp m).

(** [if (req->req_control.get_...) resp->resp_control... = ...balance;] *)
Definition get_if (flag : Z) (b : bank) (k : slot) (off : Z) (m : mem) : result mem :=
  if truthy flag then at_slot k (st64 m off (balance (account_at b k))) else Ok m.

Definition get_data_handler (c : ServerContext) (req : MsgBuffer) (pre_resp : mem)
    : result (ServerContext * MsgBuffer) :=
  let c := count_get_data c in
  let b := tables c in
  let q := buf_ req in
  _ ← rt_assert (data_size req =? sizeof_GetDataReq);
  let user1_id := ld64 q 5 in
  let user2_id := ld64 q 13 in
  user1_id_hash ← hash_at b user1_id;
  user2_id_hash ← hash_at b user2_id;
  let m := st64 (st64 pre_resp 9 user1_id_hash) 17 user2_id_hash in
  m ← get_if (rd8 q 21) b (slot_of Checking user1_id) 25 m;
  m ← get_if (rd8 q 22) b (slot_of Savings user1_id) 33 m;
  m ← get_if (rd8 q 23) b (slot_of Checking user2_id) 41 m;
  m ← get_if (rd8 q 24) b (slot_of Savings user2_id) 49 m;
  let m := put_common_resp (req_type q) (req_number q) 0 m in
  Ok (c, resize_msg_buffer sizeof_GetDataResp m).

(** One of the four [if (!lock_failed) switch ...] blocks: what was taken, whether
    it failed, and the tables. *)
Definition lock_block (want : Z) (k : slot) (lock_failed : bool) (b : bank) : result (Z * bool * bank) :=
  if lock_failed then Ok (NO_LOCK, true, b)
  else if want =? READ_LOCK then
    at_slot k (let '(ok, l) := try_lock_read (mutex (account_at b k)) in
               if ok then (READ_LOCK, false, upd_account k (set_mutex l) b) else (NO_LOCK, true, b))
  else if want =? WRITE_LOCK then
    at_slot k (let '(ok, l) := try_lock_write (mutex (account_at b k)) in
               if ok then (WRITE_LOCK, false, upd_account k (set_mutex l) b) else (NO_LOCK, true, b))
  else Ok (NO_LOCK, false, b).

(** [if (taken != NO_LOCK) { if (taken == READ_LOCK) unlock_read else unlock_write }] *)
Definition unlock_block (taken : Z) (k : slot) (b : bank) : result bank :=
  if taken =? NO_LOCK then Ok b
  else if taken =? READ_LOCK
       then at_slot k (upd_account k (fun a => set_mutex (unlock_read (mutex a)) a) b)
       else at_slot k (upd_account k (fun a => set_mutex (unlock_write (mutex a)) a) b).

Definition get_lock_handler (c : ServerContext) (req : MsgBuffer) (pre_resp : mem)
    : result (ServerContext * MsgBuffer) :=
  let b := tables c in
  let q := buf_ req in
  _ ← rt_assert (data_size req =? sizeof_GetLockReq);
  let user1_id := ld64 q 5 in
  let user2_id := ld64 q 13 in
  user1_id_hash ← hash_at b user1_id;
  user2_id_hash ← hash_at b user2_id;
  let m := st64 (st64 pre_resp 9 user1_id_hash) 17 user2_id_hash in
  '(l1c, f, b) ← lock_block (rd8 q 21) (slot_of Checking user1_id) false b;
  '(l1s, f, b) ← lock_block (rd8 q 22) (slot_of Savings user1_id) f b;
  '(l2c, f, b) ← lock_block (rd8 q 23) (slot_of Checking user2_id) f b;
  '(l2s, f, b) ← lock_block (rd8 q 24) (slot_of Savings user2_id) f b;
  b ← (if (f : bool) then
         b ← unlock_block l1c (slot_of Checking user1_id) b;
         b ← unlock_block l1s (slot_of Savings user1_id) b;
         b ← unlock_block l2c (slot_of Checking user2_id) b;
         unlock_block l2s (slot_of Savings user2_id) b
       else Ok b);
  let m := put_common_resp (req_type q) (req_number q) 0 m in
  let m := st8 m 25 (c_bool (negb f)) in
  Ok (count_get_lock (negb f) (with_tables b c), resize_msg_buffer sizeof_GetLockResp m).

(** [if (req->req_control.changed_...) ...balance = ...;] *)
Definition store_if (flag v : Z) (k : slot) (b : bank) : result bank :=
  if truthy flag then at_slot k (upd_account k (set_balance v) b) else Ok b.

Definition finish_handler (c : ServerContext) (req : MsgBuffer) (pre_resp : mem)
    : result (ServerContext * MsgBuffer) :=
  let c := count_finish c in
  let b := tables c in
  let q := buf_ req in
  _ ← rt_assert (data_size req =? sizeof_FinishReq);
  let user1_id := ld64 q 5 in
  let user2_id := ld64 q 13 in
  user1_id_hash ← hash_at b user1_id;
  user2_id_hash ← hash_at b user2_id;
  let m := st64 (st64 pre_resp 9 user1_id_hash) 17 user2_id_hash in
  b ← store_if (rd8 q 53) (ld64 q 21) (slot_of Checking user1_id) b;
  b ← store_if (rd8 q 54) (ld64 q 29) (slot_of Savings user1_id) b;
  b ← store_if (rd8 q 55) (ld64 q 37) (slot_of Checking user2_id) b;
  b ← store_if (rd8 q 56) (ld64 q 45) (slot_of Savings user2_id) b;
  b ← unlock_block (rd8 q 57) (slot_of Checking user1_id) b;
  b ← unlock_block (rd8 q 58) (slot_of Savings user1_id) b;
  b ← unlock_block (rd8 q 59) (slot_of Checking user2_id) b;
  b ← unlock_block (rd8 q 60) (slot_of Savings user2_id) b;
  let m := put_common_resp (req_type q) (req_number q) 0 m in
  let m := st8 m 25 1 in
  Ok (with_tables b c, resize_msg_buffer sizeof_FinishResp m).

(** The handlers [leader_thread_func] registers with the library, by request type. *)
Definition handle (t : RPC_TYPE) : ServerContext -> MsgBuffer -> mem -> result (ServerContext * MsgBuffer) :=
  match t with
  | RPC_PING => ping_handler
  | RPC_GET_DATA => get_data_handler
  | RPC_GET_LOCK => get_lock_handler
  | RPC_FINISH => finish_handler
  end.

(** ** Tables up to their contents *)

#[export] Instance bank_equiv : Equiv bank := fun b b' =>
  hash_table_global b = hash_table_global b' /\ forall k, account_at b k = account_at b' k.

#[export] Instance bank_equivalence : Equivalence (≡@{bank}).
Proof.
  split.
  - done.
  - intros b b' [H1 H2]. split; [done|]. intros k. by rewrite H2.
  - intros b1 b2 b3 [H1 H2] [H3 H4]. split; [congruence|]. intros k. by rewrite H2.
Qed.

Lemma bank_account_at_upd k g b k' :
  account_at (upd_account k g b) k' = if decide (k = k') then g (account_at b k) else account_at b k'.
Proof.
  unfold account_at at 1. cbn. case_decide as E; [subst|].
  - by rewrite lookup_insert_eq.
  - by rewrite lookup_insert_ne.
Qed.

#[export] Instance upd_account_proper k g : Proper ((≡) ==> (≡)) (upd_account k g).
Proof.
  intros b b' [H1 H2]. split; [done|]. intros k'. rewrite !bank_account_at_upd, !H2. done.
Qed.

#[export] Instance account_at_proper : Proper ((≡) ==> (=) ==> (=)) account_at.
Proof. intros b b' [H1 H2] k ? <-. apply H2. Qed.

(** ** Types *)

Definition wf_account (a : account) : Prop :=
  0 <= custom_id a < 2 ^ 64 /\ 0 <= balance a < 2 ^ 64 /\
  - 2 ^ 31 <= readers_count (mutex a) < 2 ^ 31.

Definition wf_bank (b : bank) : Prop := forall k, wf_account (account_at b k).

Definition wf_server (c : ServerContext) : Prop :=
  wf_bank (tables c) /\
  Forall (fun x => 0 <= x < 2 ^ 64)
    [stat_req_ping_tot c; stat_req_get_data_tot c; stat_req_get_lock_success_tot c;
     stat_req_get_lock_fail_tot c; stat_req_finish_tot c].

Lemma wf_upd k g b :
  wf_bank b -> (forall a, wf_account a -> wf_account (g a)) -> wf_bank (upd_account k g b).
Proof. intros Hb Hg k'. rewrite bank_account_at_upd. case_decide; auto. Qed.

Lemma wf_fetch_add d a : wf_account a -> wf_account (set_mutex (fetch_add d (mutex a)) a).
Proof.
  intros (H1 & H2 & H3). split; [done|]. split; [done|]. cbn. by apply (wraps_range 32).
Qed.

Lemma wf_set_writer w a : wf_account a -> wf_account (set_mutex (set_writer w (mutex a)) a).
Proof. done. Qed.

Lemma wf_set_balance v a : 0 <= v < 2 ^ 64 -> wf_account a -> wf_account (set_balance v a).
Proof. intros Hv (H1 & H2 & H3). done. Qed.

Lemma ld64_range m a : 0 <= ld64 m a < 2 ^ 64.
Proof. apply (loadle_range m a 8). Qed.

(** A property of the value of a computation, if it has one. *)
Definition holds {A} (P : A -> Prop) (r : result A) : Prop := forall a, r = Ok a -> P a.

Lemma holds_bind {A B} (P : A -> Prop) (Q : B -> Prop) (r : result A) (f : A -> result B) :
  holds P r -> (forall a, P a -> holds Q (f a)) -> holds Q (r ≫= f).
Proof. intros Hr Hf. destruct r as [a| |]; [|done..]. cbn. apply Hf. by apply Hr. Qed.

Lemma holds_ok {A} (P : A -> Prop) a : P a -> holds P (Ok a).
Proof. by intros H ? [= <-]. Qed.

Lemma holds_any {A} (r : result A) : holds (fun _ => True) r.
Proof. done. Qed.

Lemma holds_at_slot {A} (P : A -> Prop) k x : P x -> holds P (at_slot k x).
Proof. intros H. unfold at_slot. case_match; [by apply holds_ok|done]. Qed.

Lemma wf_lock_block want k f b :
  wf_bank b -> holds (fun r => wf_bank r.2) (lock_block want k f b).
Proof.
  intros Hb. unfold lock_block.
  destruct f; [by apply holds_ok|]. unfold try_lock_read, try_lock_write.
  destruct (want =? READ_LOCK), (want =? WRITE_LOCK), (writer_lock (mutex (account_at b k)));
    cbn; (apply holds_at_slot || apply holds_ok); cbn; auto;
    intros k'; rewrite bank_account_at_upd; case_decide; auto.
  - apply (wf_fetch_add 1). auto.
  - apply (wf_fetch_add 1). auto.
  - apply (wf_set_writer true). auto.
Qed.

Lemma wf_unlock_block taken k b : wf_bank b -> holds wf_bank (unlock_block taken k b).
Proof.
  intros Hb. unfold unlock_block. case_match; [by apply holds_ok|].
  case_match; apply holds_at_slot; apply wf_upd; auto.
  intros a Ha. by apply wf_fetch_add.
Qed.

Lemma wf_store_if flag v k b : 0 <= v < 2 ^ 64 -> wf_bank b -> holds wf_bank (store_if flag v k b).
Proof.
  intros Hv Hb. unfold store_if. case_match; [|by apply holds_ok]. apply holds_at_slot.
  apply wf_upd; auto. intros a Ha. by apply wf_set_balance.
Qed.

Lemma u64_count x y : 0 <= (x +64 y)%cint < 2 ^ 64.
Proof. apply (wrapu_range 64). lia. Qed.

Create HintDb bank.
#[export] Hint Resolve ld64_range u64_count : bank.

Lemma wf_server_intro c :
  wf_bank (tables c) -> 0 <= stat_req_ping_tot c < 2 ^ 64 -> 0 <= stat_req_get_data_tot c < 2 ^ 64 ->
  0 <= stat_req_get_lock_success_tot c < 2 ^ 64 -> 0 <= stat_req_get_lock_fail_tot c < 2 ^ 64 ->
  0 <= stat_req_finish_tot c < 2 ^ 64 -> wf_server c.
Proof. intros ??????. split; [done|]. rewrite !list.Forall_cons, list.Forall_nil. done. Qed.

(** Every request, whatever its bytes, keeps the context well typed, and the
    response has the size of its type. *)
Lemma handle_well_typed t c req pre_resp :
  wf_server c ->
  holds (fun r => wf_server r.1 /\
           data_size r.2 = match t with
                           | RPC_PING => sizeof_PingResp | RPC_GET_DATA => sizeof_GetDataResp
                           | RPC_GET_LOCK => sizeof_GetLockResp | RPC_FINISH => sizeof_FinishResp end)
    (handle t c req pre_resp).
Proof.
  intros [Hb Hn]. rewrite !list.Forall_cons in Hn. destruct Hn as (N1 & N2 & N3 & N4 & N5 & _).
  destruct t; cbn [handle].
  - unfold ping_handler. eapply holds_bind; [apply holds_any|]. intros _ _. apply holds_ok.
    split; [|done]. apply wf_server_intro; cbn; auto with bank.
  - unfold get_data_handler. do 7 (eapply holds_bind; [apply holds_any|]; intros ? _). apply holds_ok.
    split; [|done]. apply wf_server_intro; cbn; auto with bank.
  - unfold get_lock_handler. do 3 (eapply holds_bind; [apply holds_any|]; intros ? _).
    do 4 (eapply holds_bind; [by apply wf_lock_block|]; intros [[??]?] ?; cbn in *).
    eapply (holds_bind wf_bank).
    { case_match; [|by apply holds_ok].
      do 3 (eapply holds_bind; [by apply wf_unlock_block|]; intros ? ?). by apply wf_unlock_block. }
    intros b' Hb'. apply holds_ok. split; [|done]. apply wf_server_intro; cbn; auto with bank.
  - unfold finish_handler. do 3 (eapply holds_bind; [apply holds_any|]; intros ? _).
    cbn [tables count_finish].
    do 4 (eapply holds_bind; [apply wf_store_if; [apply ld64_range|done]|]; intros ? ?).
    do 4 (eapply holds_bind; [by apply wf_unlock_block|]; intros ? ?).
    apply holds_ok. split; [|done]. apply wf_server_intro; cbn; auto with bank.
Qed.

(** ** Sets of locks *)

(** The lock modes of a request with the elements they are for. *)
Definition wants : Type := list (Z * slot).

Definition is_lock (mode : Z) : bool := (mode =? READ_LOCK) || (mode =? WRITE_LOCK).

Definition acquire (mode : Z) (a : account) : account :=
  set_mutex (if mode =? READ_LOCK then fetch_add 1 (mutex a) else set_writer true (mutex a)) a.
Definition release (mode : Z) (a : account) : account :=
  set_mutex (if mode =? READ_LOCK then unlock_read (mutex a) else unlock_write (mutex a)) a.

Definition acquire_one (w : Z * slot) (b : bank) : bank :=
  if is_lock w.1 then upd_account w.2 (acquire w.1) b else b.
Definition release_one (w : Z * slot) (b : bank) : bank :=
  if w.1 =? NO_LOCK then b else upd_account w.2 (release w.1) b.

Definition acquire_all (ws : wants) (b : bank) : bank := foldl (flip acquire_one) b ws.
Definition release_all (ws : wants) (b : bank) : bank := foldl (flip release_one) b ws.

(** Whether every lock can be taken, in order: none has a writer, the request's
    own earlier locks included. *)
Fixpoint grantable (ws : wants) (b : bank) : bool :=
  match ws with
  | [] => true
  | w :: ws =>
      negb (is_lock w.1 && writer_lock (mutex (account_at b w.2))) && grantable ws (acquire_one w b)
  end.

(** How often an element is locked for reading, and whether it is for writing. *)
Definition reads (ws : wants) (k : slot) : Z :=
  zsum ((fun w => c_bool (bool_decide (w.2 = k) && (w.1 =? READ_LOCK))) <$> ws).
Definition writes (ws : wants) (k : slot) : bool :=
  existsb (fun w => bool_decide (w.2 = k) && (w.1 =? WRITE_LOCK)) ws.

Definition mode_ok (mode : Z) : Prop := mode = NO_LOCK \/ mode = READ_LOCK \/ mode = WRITE_LOCK.

Lemma set_mutex_eta a : set_mutex (mutex a) a = a.
Proof. by destruct a. Qed.

Lemma set_mutex_set_mutex l l' a : set_mutex l (set_mutex l' a) = set_mutex l a.
Proof. done. Qed.

Lemma wf_acquire_one w b : wf_bank b -> wf_bank (acquire_one w b).
Proof.
  intros H. unfold acquire_one, acquire. case_match; [|done]. apply wf_upd; [done|]. intros a Ha.
  case_match; [by apply wf_fetch_add|by apply wf_set_writer].
Qed.

Lemma wf_release_one w b : wf_bank b -> wf_bank (release_one w b).
Proof.
  intros H. unfold release_one, release. case_match; [done|]. apply wf_upd; [done|]. intros a Ha.
  case_match; [by apply wf_fetch_add|by apply wf_set_writer].
Qed.

Lemma s32_readers a : wf_account a -> s32 (readers_count (mutex a)) = readers_count (mutex a).
Proof. intros (_ & _ & H). by apply wraps_small. Qed.

Lemma mutex_eta a : set_mutex (MkRw (readers_count (mutex a)) (writer_lock (mutex a))) a = a.
Proof. by destruct a as [? ? []]. Qed.

Lemma acquire_all_at ws b k :
  wf_bank b ->
  account_at (acquire_all ws b) k =
  set_mutex (MkRw (s32 (readers_count (mutex (account_at b k)) + reads ws k))
                  (writer_lock (mutex (account_at b k)) || writes ws k)) (account_at b k).
Proof.
  revert b. induction ws as [|[mode k'] ws IH]; intros b Hb.
  { cbn. unfold reads. cbn. by rewrite Z.add_0_r, s32_readers, orb_false_r, mutex_eta. }
  change (acquire_all ((mode, k') :: ws) b) with (acquire_all ws (acquire_one (mode, k') b)).
  rewrite IH by (by apply wf_acquire_one). unfold acquire_one, acquire, is_lock, reads, writes, zsum. cbn.
  destruct (Z.eqb_spec mode READ_LOCK) as [->|Hr]; cbn;
    [|destruct (Z.eqb_spec mode WRITE_LOCK) as [->|Hw]; cbn];
    rewrite ?bank_account_at_upd; try case_decide as E; subst;
    rewrite ?(bool_decide_true (k = k)) by done; rewrite ?(bool_decide_false (k' = k)) by done; cbn;
    rewrite ?andb_false_r; try done.
  - by rewrite Rw.s32_add, <- Z.add_assoc.
  - by rewrite orb_true_r.
Qed.

Lemma release_all_at ws b k :
  wf_bank b -> Forall (fun w => mode_ok w.1) ws ->
  account_at (release_all ws b) k =
  set_mutex (MkRw (s32 (readers_count (mutex (account_at b k)) - reads ws k))
                  (writer_lock (mutex (account_at b k)) && negb (writes ws k))) (account_at b k).
Proof.
  revert b. induction ws as [|[mode k'] ws IH]; intros b Hb Hm.
  { cbn. unfold reads. cbn. by rewrite Z.sub_0_r, s32_readers, andb_true_r, mutex_eta. }
  apply list.Forall_cons in Hm as [Hm1 Hm]. cbn in Hm1.
  change (release_all ((mode, k') :: ws) b) with (release_all ws (release_one (mode, k') b)).
  rewrite IH by (done || by apply wf_release_one).
  unfold release_one, release, reads, writes, zsum. cbn.
  destruct Hm1 as [-> | [-> | ->]]; cbn; rewrite ?bank_account_at_upd; try case_decide as E; subst;
    rewrite ?(bool_decide_true (k = k)) by done; rewrite ?(bool_decide_false (k' = k)) by done; cbn;
    rewrite ?andb_false_r; try done.
  match goal with |- context [foldr Z.add 0 ?l] => generalize (foldr Z.add 0 l) end. intros n.
  unfold Z.sub at 1. rewrite Rw.s32_add. set (rc := readers_count _).
  by replace (rc - (1 + n)) with (rc + -1 + - n) by lia.
Qed.

Lemma writes_in ws k : writes ws k = true -> exists i, ws !! i = Some (WRITE_LOCK, k).
Proof.
  intros H. apply existsb_exists in H as ([mode k'] & Hin & H).
  apply andb_true_iff in H as [H1%bool_decide_eq_true H2%Z.eqb_eq]. cbn in *. subst.
  apply list_elem_of_In, list_elem_of_lookup in Hin. done.
Qed.

(** A lock that can be taken has no writer before. *)
Lemma grantable_writer ws b i mode k :
  grantable ws b = true -> ws !! i = Some (mode, k) -> is_lock mode = true ->
  writer_lock (mutex (account_at b k)) = false.
Proof.
  revert b i. induction ws as [|[m k'] ws IH]; intros b i Hg Hi Hl; [done|]. cbn in Hg.
  apply andb_true_iff in Hg as [H1 Hg]. destruct i as [|i]; cbn in Hi.
  - injection Hi as -> ->. rewrite Hl in H1. cbn in H1. by apply negb_true_iff in H1.
  - specialize (IH _ i Hg Hi Hl). revert IH. unfold acquire_one. cbn. case_match; [|done].
    rewrite bank_account_at_upd. case_decide; [subst|done]. unfold acquire. by case_match.
Qed.

Lemma wf_acquire_all ws b : wf_bank b -> wf_bank (acquire_all ws b).
Proof.
  revert b. induction ws as [|w ws IH]; intros b Hb; [done|]. by apply IH, wf_acquire_one.
Qed.

Lemma hash_acquire_all ws b : hash_table_global (acquire_all ws b) = hash_table_global b.
Proof.
  revert b. induction ws as [|w ws IH]; intros b; [done|]. cbn. unfold acquire_all in IH.
  rewrite IH. unfold flip, acquire_one. by case_match.
Qed.

Lemma hash_release_all ws b : hash_table_global (release_all ws b) = hash_table_global b.
Proof.
  revert b. induction ws as [|w ws IH]; intros b; [done|]. cbn. unfold release_all in IH.
  rewrite IH. unfold flip, release_one. by case_match.
Qed.

(** Locks taken and given back around a change that leaves the locks alone. *)
Lemma release_acquire_at ws b b' k :
  wf_bank b -> wf_bank b' -> Forall (fun w => mode_ok w.1) ws -> grantable ws b = true ->
  mutex (account_at b' k) = mutex (account_at (acquire_all ws b) k) ->
  account_at (release_all ws b') k = set_mutex (mutex (account_at b k)) (account_at b' k).
Proof.
  intros Hb Hb' Hm Hg Hk. rewrite release_all_at by done. rewrite Hk, acquire_all_at by done. cbn.
  unfold Z.sub. rewrite Rw.s32_add. rewrite <- Z.add_assoc, Z.add_opp_diag_r, Z.add_0_r.
  rewrite s32_readers by done. f_equal.
  assert ((writer_lock (mutex (account_at b k)) || writes ws k) && negb (writes ws k) =
          writer_lock (mutex (account_at b k))) as ->; [|by destruct (mutex (account_at b k))].
  destruct (writes ws k) eqn:E; [|by rewrite orb_false_r, andb_true_r].
  apply writes_in in E as [i E]. rewrite (grantable_writer ws b i WRITE_LOCK k Hg E) by done.
  done.
Qed.

(** Releasing what was taken gives the tables back. *)
Lemma release_acquire_all ws b :
  wf_bank b -> Forall (fun w => mode_ok w.1) ws -> grantable ws b = true ->
  release_all ws (acquire_all ws b) ≡ b.
Proof.
  intros Hb Hm Hg. split; [by rewrite hash_release_all, hash_acquire_all|]. intros k.
  rewrite (release_acquire_at ws b) by (done || by apply wf_acquire_all).
  rewrite acquire_all_at by done. rewrite set_mutex_set_mutex. apply set_mutex_eta.
Qed.

(** ** The lock handler *)

Lemma at_slot_ok {A} t id (x : A) : 0 <= id < NUM_ACCOUNTS -> at_slot (slot_of t id) x = Ok x.
Proof.
  unfold NUM_ACCOUNTS, at_slot, slot_of. intros H. cbn [snd].
  rewrite wrapu_small by (change NUM_SCALE with 4; lia).
  by rewrite (proj2 (Z.ltb_lt _ _)) by (change NUM_SCALE with 4; unfold NUM_ENTRY; lia).
Qed.

Lemma hash_at_ok b id :
  0 <= id < NUM_ACCOUNTS -> hash_at b id = Ok (default 0 (hash_table_global b !! id)).
Proof. intros H. unfold hash_at. by rewrite (proj2 (Z.ltb_lt _ _)) by lia. Qed.

(** The locks a request asks for, and the blocks of the handler on a list. *)
Definition lock_wants (q : mem) : wants :=
  [(rd8 q 21, slot_of Checking (ld64 q 5)); (rd8 q 22, slot_of Savings (ld64 q 5));
   (rd8 q 23, slot_of Checking (ld64 q 13)); (rd8 q 24, slot_of Savings (ld64 q 13))].

Definition lock_step (w : Z * slot) (f : bool) (b : bank) : Z * bool * bank :=
  if f then (NO_LOCK, true, b)
  else if is_lock w.1 then
    if writer_lock (mutex (account_at b w.2)) then (NO_LOCK, true, b)
    else (w.1, false, acquire_one w b)
  else (NO_LOCK, false, b).

Fixpoint lock_list (ws : wants) (f : bool) (b : bank) : list Z * bool * bank :=
  match ws with
  | [] => ([], f, b)
  | w :: ws =>
      let '(t, f, b) := lock_step w f b in
      let '(ts, f, b) := lock_list ws f b in (t :: ts, f, b)
  end.

Lemma lock_block_ok want t id f b :
  0 <= id < NUM_ACCOUNTS -> lock_block want (slot_of t id) f b = Ok (lock_step (want, slot_of t id) f b).
Proof.
  intros H. unfold lock_block, lock_step, is_lock, acquire_one, is_lock, try_lock_read, try_lock_write.
  rewrite !at_slot_ok by done. cbn [fst snd].
  destruct f; [done|]. destruct (Z.eqb_spec want READ_LOCK) as [->|]; cbn.
  - by destruct (writer_lock _).
  - destruct (Z.eqb_spec want WRITE_LOCK) as [->|]; cbn; [|done].
    by destruct (writer_lock _).
Qed.

Lemma unlock_block_ok taken t id b :
  0 <= id < NUM_ACCOUNTS ->
  unlock_block taken (slot_of t id) b = Ok (release_one (taken, slot_of t id) b).
Proof.
  intros H. unfold unlock_block, release_one, release. rewrite !at_slot_ok by done. cbn [fst snd].
  by repeat case_match.
Qed.

Lemma lock_list_failed ws b : lock_list ws true b = (replicate (length ws) NO_LOCK, true, b).
Proof. induction ws as [|w ws IH]; [done|]. cbn. by rewrite IH. Qed.

(** Entries without a lock change nothing. *)
Lemma no_locks n (ks : list slot) b :
  grantable (zip (replicate n NO_LOCK) ks) b = true /\ acquire_all (zip (replicate n NO_LOCK) ks) b = b.
Proof.
  revert ks. induction n as [|n IH]; intros [|k ks]; try done. cbn.
  destruct (IH ks) as [H1 H2]. by rewrite H1.
Qed.

Lemma lock_list_spec ws b ts f b' :
  lock_list ws false b = (ts, f, b') ->
  f = negb (grantable ws b) /\ Forall mode_ok ts /\ length ts = length ws /\
  grantable (zip ts ws.*2) b = true /\ b' = acquire_all (zip ts ws.*2) b /\
  (f = false -> b' = acquire_all ws b).
Proof.
  revert b ts f b'. induction ws as [|w ws IH]; intros b ts f b' E; cbn [lock_list] in E.
  { by injection E as <- <- <-. }
  unfold lock_step in E. destruct w as [mode k]. cbn [fst snd] in E. cbn [grantable fst snd].
  unfold acquire_one at 1. cbn [fst snd].
  destruct (is_lock mode) eqn:Hl; [destruct (writer_lock _) eqn:Hw|].
  - rewrite lock_list_failed in E. injection E as <- <- <-. cbn [fmap list_fmap zip zip_with grantable fst snd].
    destruct (no_locks (length ws) ws.*2 b) as [H1 H2].
    split; [done|]. split; [constructor; [by left|apply list.Forall_replicate; by left]|].
    split; [by rewrite length_cons, length_replicate|]. cbn. by rewrite H1.
  - destruct (lock_list ws false _) as [[ts' f'] b2] eqn:E'. injection E as <- <- <-.
    apply IH in E' as (H1 & H2 & H3 & H4 & H5 & H6). unfold acquire_one in *. cbn [fst snd] in *.
    rewrite Hl in *. cbn [negb andb].
    split; [done|]. split; [constructor; [|done]|].
    { unfold is_lock in Hl. apply orb_true_iff in Hl as [Hl|Hl]; apply Z.eqb_eq in Hl; subst;
        [right; by left|right; by right]. }
    split; [cbn; congruence|]. cbn. unfold flip, acquire_one. cbn. rewrite Hl, Hw. cbn. done.
  - destruct (lock_list ws false _) as [[ts' f'] b2] eqn:E'. injection E as <- <- <-.
    apply IH in E' as (H1 & H2 & H3 & H4 & H5 & H6). cbn [negb andb].
    split; [done|]. split; [constructor; [by left|done]|].
    split; [cbn; congruence|]. cbn. unfold flip, acquire_one. cbn. rewrite Hl. done.
Qed.

(** The header and the flag of a lock or finish response. *)
Definition reply_ok (t num success : Z) (m : mem) : Prop :=
  rd8 m 0 = t /\ ld32 m 1 = num /\ resp_status m = 0 /\ rd8 m 25 = success.

Lemma reply_ok_intro q success m :
  0 <= success < 256 ->
  reply_ok (req_type q) (req_number q) success
    (st8 (put_common_resp (req_type q) (req_number q) 0 m) 25 success).
Proof.
  intros Hs. unfold reply_ok, put_common_resp, resp_status, req_type, req_number.
  pose proof (rd8_range q 0). pose proof (loadle_range q 1 4). unfold ld32 in *.
  split; [msg_field|]. split; [msg_field|]. split; [|msg_field].
  unfold st8, st32. rewrite loadle_storele_out by lia. by rewrite loadle_storele_small by (cbn; lia).
Qed.

Lemma lock_wants_split q ts f b b0 :
  lock_list (lock_wants q) false b0 = (ts, f, b) ->
  exists t1 t2 t3 t4, ts = [t1; t2; t3; t4].
Proof.
  intros E. apply lock_list_spec in E as (_ & _ & Hlen & _).
  destruct ts as [|? [|? [|? [|? [|]]]]]; try done. by eexists _, _, _, _.
Qed.

(** The handler is the list of its blocks, and gives back what it took if one
    of them failed. *)
Lemma get_lock_eq c req pre_resp ts f b :
  let q := buf_ req in
  data_size req = sizeof_GetLockReq ->
  0 <= ld64 q 5 < NUM_ACCOUNTS -> 0 <= ld64 q 13 < NUM_ACCOUNTS ->
  lock_list (lock_wants q) false (tables c) = (ts, f, b) ->
  exists m,
    get_lock_handler c req pre_resp =
      Ok (count_get_lock (negb f)
            (with_tables (if f then release_all (zip ts (lock_wants q).*2) b else b) c),
          MkMsg m sizeof_GetLockResp) /\
    reply_ok (req_type q) (req_number q) (c_bool (negb f)) m.
Proof.
  intros q Hsz H1 H2 E. unfold get_lock_handler. fold q.
  rewrite Hsz, !hash_at_ok by done. cbn [rt_assert Z.eqb mbind result_bind].
  change (sizeof_GetLockReq =? sizeof_GetLockReq) with true. cbn [rt_assert mbind result_bind].
  destruct (lock_wants_split q ts f b (tables c) E) as (t1 & t2 & t3 & t4 & ->).
  cbn [lock_list lock_wants] in E.
  rewrite lock_block_ok by done.
  destruct (lock_step (rd8 q 21, _) _ _) as [[? f1] b1]. cbn [mbind result_bind].
  rewrite lock_block_ok by done.
  destruct (lock_step (rd8 q 22, _) _ _) as [[? f2] b2]. cbn [mbind result_bind].
  rewrite lock_block_ok by done.
  destruct (lock_step (rd8 q 23, _) _ _) as [[? f3] b3]. cbn [mbind result_bind].
  rewrite lock_block_ok by done.
  destruct (lock_step (rd8 q 24, _) _ _) as [[? f4] b4]. cbn [mbind result_bind].
  injection E as -> -> -> -> -> ->.
  eexists. split; [|apply reply_ok_intro; destruct f; cbn; lia].
  destruct f; [|done]. rewrite unlock_block_ok by done. cbn [mbind result_bind].
  rewrite unlock_block_ok by done. cbn [mbind result_bind].
  rewrite unlock_block_ok by done. cbn [mbind result_bind].
  rewrite unlock_block_ok by done. cbn [mbind result_bind]. done.
Qed.

(** The lock handler takes all the locks of a request or none: it takes them and
    answers 1 when no element has a writer (the request's own locks included), and
    otherwise answers 0 and leaves every element as it was. *)
Lemma host_get_lock c req pre_resp :
  let q := buf_ req in
  let g := grantable (lock_wants q) (tables c) in
  wf_server c -> data_size req = sizeof_GetLockReq ->
  0 <= ld64 q 5 < NUM_ACCOUNTS -> 0 <= ld64 q 13 < NUM_ACCOUNTS ->
  exists b m,
    get_lock_handler c req pre_resp =
      Ok (count_get_lock g (with_tables b c), MkMsg m sizeof_GetLockResp) /\
    b ≡ (if g then acquire_all (lock_wants q) (tables c) else tables c) /\
    reply_ok (req_type q) (req_number q) (c_bool g) m.
Proof.
  intros q g [Hb _] Hsz H1 H2.
  destruct (lock_list (lock_wants q) false (tables c)) as [[ts f] b] eqn:E.
  destruct (get_lock_eq c req pre_resp ts f b Hsz H1 H2 E) as (m & Eh & Hm).
  apply lock_list_spec in E as (Hf & Hts & Hlen & Hg & Hb' & Hok). fold g in Hf.
  assert (negb f = g) as <- by (rewrite Hf; apply negb_involutive).
  eexists _, m. split; [exact Eh|]. split; [|done].
  destruct f; cbn; [|by rewrite Hok].
  rewrite Hb'. apply release_acquire_all; [done| |done].
  apply list.Forall_lookup. intros i [mode k] Hi. apply lookup_zip_with_Some in Hi as (?&?&?&Hi&_).
  simplify_eq. cbn. by eapply list.Forall_lookup in Hi.
Qed.

(** ** The data and finish handlers *)

(** A balance of a response: the one asked for, or what the buffer held. *)
Definition reply_balance (flag : Z) (b : bank) (k : slot) (off : Z) (pre m : mem) : Prop :=
  ld64 m off = if truthy flag then balance (account_at b k) else ld64 pre off.

Lemma get_if_ok flag b t id off m :
  0 <= id < NUM_ACCOUNTS ->
  get_if flag b (slot_of t id) off m =
  Ok (if truthy flag then st64 m off (balance (account_at b (slot_of t id))) else m).
Proof. intros H. unfold get_if. rewrite at_slot_ok by done. by case_match. Qed.

Lemma ld64_st64_if (flag : bool) m off v off' :
  0 <= v < 2 ^ 64 -> off = off' \/ off + 8 <= off' \/ off' + 8 <= off ->
  ld64 (if flag then st64 m off v else m) off' =
  if flag && (off =? off') then v else ld64 m off'.
Proof.
  intros Hv Ho. destruct flag; [|done]. cbn. unfold ld64, st64. destruct (Z.eqb_spec off off') as [->|].
  - by apply loadle_storele_small.
  - rewrite loadle_storele_out by lia. done.
Qed.

Lemma host_get_data c req pre_resp :
  let q := buf_ req in let b := tables c in
  wf_server c -> data_size req = sizeof_GetDataReq ->
  0 <= ld64 q 5 < NUM_ACCOUNTS -> 0 <= ld64 q 13 < NUM_ACCOUNTS ->
  exists m,
    get_data_handler c req pre_resp = Ok (count_get_data c, MkMsg m sizeof_GetDataResp) /\
    rd8 m 0 = req_type q /\ ld32 m 1 = req_number q /\ resp_status m = 0 /\
    reply_balance (rd8 q 21) b (slot_of Checking (ld64 q 5)) 25 pre_resp m /\
    reply_balance (rd8 q 22) b (slot_of Savings (ld64 q 5)) 33 pre_resp m /\
    reply_balance (rd8 q 23) b (slot_of Checking (ld64 q 13)) 41 pre_resp m /\
    reply_balance (rd8 q 24) b (slot_of Savings (ld64 q 13)) 49 pre_resp m.
Proof.
  intros q b [Hb _] Hsz H1 H2. unfold get_data_handler. fold q. rewrite Hsz.
  change (sizeof_GetDataReq =? sizeof_GetDataReq) with true.
  change (tables (count_get_data c)) with b. rewrite !hash_at_ok by done.
  cbn [rt_assert mbind result_bind]. do 4 (rewrite get_if_ok by done; cbn [mbind result_bind]).
  eexists. split; [reflexivity|].
  pose proof (rd8_range q 0). pose proof (loadle_range q 1 4).
  assert (forall k, 0 <= balance (account_at b k) < 2 ^ 64) as Hbal by (intros k; apply (Hb k)).
  unfold put_common_resp, resp_status, req_type, req_number, ld32 in *.
  split; [msg_field|]. split; [msg_field|].
  split; [unfold st8, st32; by rewrite loadle_storele_small by (cbn; lia)|].
  unfold reply_balance.
  assert (forall m off, 9 <= off ->
    ld64 (st32 (st8 (st32 m 1 (loadle q 1 4)) 0 (rd8 q 0)) 5 0) off = ld64 m off) as Hh.
  { intros m off Ho. unfold ld64, st32, st8. by rewrite !loadle_storele_out by lia. }
  rewrite !Hh by lia. rewrite !ld64_st64_if by (apply Hbal || lia). cbn [Z.eqb Pos.eqb].
  rewrite !andb_false_r, !andb_true_r. unfold st64, ld64. by rewrite !loadle_storele_out by lia.
Qed.

Definition store_one (s : Z * Z * slot) (b : bank) : bank :=
  if truthy s.1.1 then upd_account s.2 (set_balance s.1.2) b else b.
Definition store_all (ss : list (Z * Z * slot)) (b : bank) : bank := foldl (flip store_one) b ss.

(** The balance of an element after the stores. *)
Definition stored (ss : list (Z * Z * slot)) (k : slot) (v : Z) : Z :=
  foldl (fun v s => if truthy s.1.1 && bool_decide (s.2 = k) then s.1.2 else v) v ss.

Definition finish_stores (q : mem) : list (Z * Z * slot) :=
  [(rd8 q 53, ld64 q 21, slot_of Checking (ld64 q 5)); (rd8 q 54, ld64 q 29, slot_of Savings (ld64 q 5));
   (rd8 q 55, ld64 q 37, slot_of Checking (ld64 q 13)); (rd8 q 56, ld64 q 45, slot_of Savings (ld64 q 13))].
Definition finish_unlocks (q : mem) : wants :=
  [(rd8 q 57, slot_of Checking (ld64 q 5)); (rd8 q 58, slot_of Savings (ld64 q 5));
   (rd8 q 59, slot_of Checking (ld64 q 13)); (rd8 q 60, slot_of Savings (ld64 q 13))].

Lemma store_if_ok flag v t id b :
  0 <= id < NUM_ACCOUNTS -> store_if flag v (slot_of t id) b = Ok (store_one (flag, v, slot_of t id) b).
Proof. intros H. unfold store_if, store_one. rewrite at_slot_ok by done. cbn. by case_match. Qed.

Lemma store_all_at ss b k :
  account_at (store_all ss b) k =
  set_balance (stored ss k (balance (account_at b k))) (account_at b k).
Proof.
  revert b. induction ss as [|[[flag v] k'] ss IH]; intros b.
  { cbn. by destruct (account_at b k). }
  change (store_all ((flag, v, k') :: ss) b) with (store_all ss (store_one (flag, v, k') b)).
  rewrite IH. unfold store_one, stored. cbn. destruct (truthy flag); cbn; [|done].
  rewrite bank_account_at_upd. case_decide; [subst|by rewrite bool_decide_false].
  by rewrite bool_decide_true.
Qed.

Lemma wf_store_all ss b :
  Forall (fun s => 0 <= s.1.2 < 2 ^ 64) ss -> wf_bank b -> wf_bank (store_all ss b).
Proof.
  intros H. revert b. induction H as [|s ss Hs _ IH]; intros b Hb; [done|]. apply IH.
  unfold flip, store_one. case_match; [|done]. apply wf_upd; [done|]. intros a Ha.
  by apply wf_set_balance.
Qed.

(** The finish handler stores the changed balances, then releases the locks. *)
Lemma host_finish c req pre_resp :
  let q := buf_ req in
  data_size req = sizeof_FinishReq ->
  0 <= ld64 q 5 < NUM_ACCOUNTS -> 0 <= ld64 q 13 < NUM_ACCOUNTS ->
  exists m,
    finish_handler c req pre_resp =
      Ok (with_tables (release_all (finish_unlocks q) (store_all (finish_stores q) (tables c)))
            (count_finish c), MkMsg m sizeof_FinishResp) /\
    reply_ok (req_type q) (req_number q) 1 m.
Proof.
  intros q Hsz H1 H2. unfold finish_handler. fold q. rewrite Hsz.
  change (sizeof_FinishReq =? sizeof_FinishReq) with true.
  change (tables (count_finish c)) with (tables c). rewrite !hash_at_ok by done.
  cbn [rt_assert mbind result_bind]. do 4 (rewrite store_if_ok by done; cbn [mbind result_bind]).
  do 4 (rewrite unlock_block_ok by done; cbn [mbind result_bind]).
  eexists. split; [reflexivity|]. apply reply_ok_intro. lia.
Qed.

(** ** Initial tables *)

Lemma slot_of_inj t t' i j :
  0 <= i < NUM_ACCOUNTS -> 0 <= j < NUM_ACCOUNTS -> slot_of t i = slot_of t' j -> t = t' /\ i = j.
Proof.
  unfold slot_of, NUM_ACCOUNTS. change NUM_SCALE with 4. intros Hi Hj [= -> E].
  rewrite !wrapu_small in E by lia. split; [done|lia].
Qed.

Lemma init_loop_other t n i b k :
  (forall j, i <= j < i + Z.of_nat n -> slot_of t j <> k) ->
  account_at (init_loop t n i b) k = account_at b k.
Proof.
  revert i b. induction n as [|n IH]; intros i b H; [done|]. cbn [init_loop].
  rewrite IH by (intros j Hj; apply H; lia). rewrite bank_account_at_upd. rewrite decide_False; [done|].
  apply H. lia.
Qed.

Lemma bank_init_loop_in t n i b j :
  0 <= i -> i + Z.of_nat n <= NUM_ACCOUNTS -> i <= j < i + Z.of_nat n ->
  account_at (init_loop t n i b) (slot_of t j) = init_account j (account_at b (slot_of t j)).
Proof.
  revert i b. induction n as [|n IH]; intros i b Hi Hn Hj; [lia|]. cbn [init_loop].
  destruct (decide (j = i)) as [->|Hne].
  - rewrite init_loop_other, bank_account_at_upd by
      (intros j Hj' E; apply slot_of_inj in E as [_ E]; lia).
    by rewrite decide_True.
  - rewrite IH by lia. rewrite bank_account_at_upd. rewrite decide_False; [done|].
    intros E. apply slot_of_inj in E as [_ E]; lia.
Qed.

Lemma wf_init_loop t n i b :
  0 <= i -> i + Z.of_nat n <= NUM_ACCOUNTS -> wf_bank b -> wf_bank (init_loop t n i b).
Proof.
  revert i b. induction n as [|n IH]; intros i b Hi Hn Hb; [done|]. cbn [init_loop].
  apply IH; [lia..|]. apply wf_upd; [done|]. intros a (H1 & H2 & H3). unfold NUM_ACCOUNTS in Hn.
  split; [cbn; lia|]. split; [|done]. apply bits_of_double_range.
Qed.

Lemma wf_main_init junk : wf_bank (main_init junk).
Proof.
  unfold main_init, init_checking, init_saving.
  assert (0 + Z.of_nat (Z.to_nat NUM_ACCOUNTS) <= NUM_ACCOUNTS) by (rewrite Z2Nat.id; done).
  do 2 (apply wf_init_loop; [done..|]). intros k. cbn. done.
Qed.

(** Every account starts unlocked, with the same balance in both tables. *)
Theorem host_initial_accounts junk t id :
  0 <= id < NUM_ACCOUNTS ->
  account_at (main_init junk) (slot_of t id) = MkAccount id (double_of_Z (SIZE_MAX / 2)) rw_init.
Proof.
  intros Hid. unfold main_init, init_checking, init_saving.
  assert (0 + Z.of_nat (Z.to_nat NUM_ACCOUNTS) = NUM_ACCOUNTS) as En by (rewrite Z2Nat.id; done).
  destruct t.
  - rewrite init_loop_other. { by rewrite bank_init_loop_in by lia. }
    intros j Hj E. apply slot_of_inj in E as [[=] _]; lia.
  - rewrite bank_init_loop_in by lia. rewrite init_loop_other; [done|].
    intros j Hj E. apply slot_of_inj in E as [[=] _]; lia.
Qed.

(** ** Runs of the server *)

Definition request_size (t : RPC_TYPE) : Z :=
  match t with
  | RPC_PING => sizeof_PingReq | RPC_GET_DATA => sizeof_GetDataReq
  | RPC_GET_LOCK => sizeof_GetLockReq | RPC_FINISH => sizeof_FinishReq
  end.

(** A message of the right size that names accounts of the bank. *)
Definition request_ok (t : RPC_TYPE) (req : MsgBuffer) : Prop :=
  data_size req = request_size t /\
  (t <> RPC_PING -> 0 <= ld64 (buf_ req) 5 < NUM_ACCOUNTS /\ 0 <= ld64 (buf_ req) 13 < NUM_ACCOUNTS).

(** The requests the event loop hands to the handlers, in order, each with the
    response buffer it is given; [reset_stat] runs between two event loops. *)
Inductive event := Request (t : RPC_TYPE) (req : MsgBuffer) (pre_resp : mem) | ResetStat.

Fixpoint server_run (es : list event) (c : ServerContext) : result ServerContext :=
  match es with
  | [] => Ok c
  | Request t req pre_resp :: es => '(c, _) ← handle t c req pre_resp; server_run es c
  | ResetStat :: es => server_run es (reset_stat c)
  end.

Lemma handle_progress t c req pre_resp :
  wf_server c -> request_ok t req -> exists r, handle t c req pre_resp = Ok r.
Proof.
  intros Hc [Hsz Hid]. destruct t; cbn [handle request_size] in *.
  - unfold ping_handler. rewrite Hsz. by eexists.
  - destruct (Hid ltac:(done)). destruct (host_get_data c req pre_resp) as (m & E & _); eauto.
  - destruct (Hid ltac:(done)). destruct (host_get_lock c req pre_resp) as (b & m & E & _); eauto.
  - destruct (Hid ltac:(done)). destruct (host_finish c req pre_resp) as (m & E & _); eauto.
Qed.

Lemma wf_reset_stat c : wf_server c -> wf_server (reset_stat c).
Proof. intros [Hb _]. by apply wf_server_intro. Qed.

(** C9.  Type soundness of the server: from the initial tables, a run of well-formed
    requests never throws and never leaves an array, and its state is well typed. *)
Theorem host_server_sound junk sid es :
  Forall (fun e => match e with Request t req _ => request_ok t req | ResetStat => True end) es ->
  exists c, server_run es (MkServer sid 0 0 0 0 0 (main_init junk)) = Ok c /\ wf_server c.
Proof.
  intros H. assert (wf_server (MkServer sid 0 0 0 0 0 (main_init junk))) as Hc.
  { apply wf_server_intro; cbn; try lia. apply wf_main_init. }
  revert Hc. generalize (MkServer sid 0 0 0 0 0 (main_init junk)).
  induction H as [|[t req pre|] es He _ IH]; intros c Hc; cbn [server_run]; [by eexists| |].
  - destruct (handle_progress t c req pre Hc He) as [[c' resp] E]. rewrite E. cbn [mbind result_bind].
    apply IH. apply (handle_well_typed t c req pre Hc _ E).
  - by apply IH, wf_reset_stat.
Qed.

Lemma host_server_sound_witness :
  exists c, server_run [Request RPC_GET_DATA (MkMsg (st64 (st64 ∅ 5 17) 13 17) 29) ∅; ResetStat;
                        Request RPC_PING (MkMsg ∅ 13) ∅]
              (MkServer 0 0 0 0 0 0 (main_init [])) = Ok c /\ wf_server c.
Proof.
  apply (host_server_sound [] 0 [Request RPC_GET_DATA (MkMsg (st64 (st64 ∅ 5 17) 13 17) 29) ∅; ResetStat;
                        Request RPC_PING (MkMsg ∅ 13) ∅]).
  repeat constructor; vm_compute; congruence.
Defined.

(** C21.  The lock handler takes all the locks of a request or none.  It answers 1
    exactly when no element named has a writer, the request's own earlier locks
    included, and then counts each reader and marks each writer; otherwise it
    answers 0 and every element is as it was. *)
Theorem host_lock_all_or_nothing c req pre_resp k :
  let q := buf_ req in
  let g := grantable (lock_wants q) (tables c) in
  wf_server c -> request_ok RPC_GET_LOCK req ->
  exists c' m,
    get_lock_handler c req pre_resp = Ok (c', MkMsg m sizeof_GetLockResp) /\
    rd8 m 25 = c_bool g /\
    balance (account_at (tables c') k) = balance (account_at (tables c) k) /\
    let l := mutex (account_at (tables c) k) in
    mutex (account_at (tables c') k) =
      if g then MkRw (s32 (readers_count l + reads (lock_wants q) k))
                     (writer_lock l || writes (lock_wants q) k)
      else l.
Proof.
  intros q g Hc [Hsz Hid]. destruct (Hid ltac:(done)) as [H1 H2].
  destruct (host_get_lock c req pre_resp Hc Hsz H1 H2) as (b & m & E & Hb & _ & _ & _ & Hm).
  eexists _, m. split; [exact E|]. split; [done|]. cbn [tables count_get_lock with_tables].
  rewrite Hb. fold q g. destruct g; [|done]. rewrite acquire_all_at by apply Hc. done.
Qed.

(** A request for two write locks on accounts 1 and 2. *)
Definition two_locks : MsgBuffer :=
  MkMsg (st8 (st8 (st64 (st64 (put_common_req RPC_GET_LOCK 9 ∅) 5 1) 13 2) 21 WRITE_LOCK) 23 WRITE_LOCK) 29.

Lemma host_lock_all_or_nothing_witness :
  let c := MkServer 0 0 0 0 0 0 (MkBank ∅ ∅) in
  let k := slot_of Checking 2 in
  exists c' m,
    get_lock_handler c two_locks ∅ = Ok (c', MkMsg m sizeof_GetLockResp) /\
    rd8 m 25 = c_bool (grantable (lock_wants (buf_ two_locks)) (tables c)) /\
    balance (account_at (tables c') k) = balance (account_at (tables c) k) /\
    let l := mutex (account_at (tables c) k) in
    mutex (account_at (tables c') k) =
      if grantable (lock_wants (buf_ two_locks)) (tables c)
      then MkRw (s32 (readers_count l + reads (lock_wants (buf_ two_locks)) k))
                (writer_lock l || writes (lock_wants (buf_ two_locks)) k)
      else l.
Proof.
  intros c k. apply (host_lock_all_or_nothing c two_locks ∅ k).
  - apply wf_server_intro; cbn; try lia. intros k'. cbn. done.
  - split; [reflexivity|]. intros _. vm_compute. split; split; congruence.
Defined.
