(* ===== verification/HostBankClient.v ===== *)
(** * HostBankClient: the SmallBank client on the host, and its transactions

    Translation of [test_suite/small_bank/client].  The client keeps arrays of
    request and response buffers and of transactions, all indexed by the request
    number modulo [kAppMaxBuffer], and a queue of what to do next.  A handler fills
    a request buffer and gives it to the RPC library; the library answers by filling
    the response buffer and running the callback, which queues the next step.

    The library is modelled by the list of requests under way: [deliver] takes one,
    runs the server's handler on the request buffer, stores the response and runs
    the callback.  The random draws of the standard library are a stream
    [rnd]; the clock readings are a stream [now], in nanoseconds.  The latency
    histogram is the list of the values recorded. *)

From S2P Require Import Prelude Machine PacketHdr SpinMutex Binary64 XXHash HostBank.

Definition kAppMaxConcurrency : Z := 256.
Definition kAppMaxBuffer : Z := kAppMaxConcurrency * 10.

Record REQ_MSG := MkReq { req_id : Z; req_kind : RPC_TYPE }.

(** ** Transactions *)

Record Transition := MkTransition {
  tr_req_id : Z;
  transmit_type : TRANSMIT_TYPE;
  user1_id : Z;
  user2_id : Z;
  lock_user1_checking : Z;
  lock_user1_saving : Z;
  lock_user2_checking : Z;
  lock_user2_saving : Z;
  changed_user1_checking : Z;
  changed_user1_saving : Z;
  changed_user2_checking : Z;
  changed_user2_saving : Z;
  amount : Z;
  user1_checking_balance : Z;
  user1_saving_balance : Z;
  user2_checking_balance : Z;
  user2_saving_balance : Z;
}.

(** The literal [0.001]. *)
Definition AMOUNT : Z := 0x3F50624DD2F1A9FC.

(** [static_cast<TRANSMIT_TYPE>(index)] of an index of the distribution; the
    [default] case of the constructor exits. *)
Definition transmit_of (index : Z) : option TRANSMIT_TYPE :=
  match index with
  | 0 => Some Amalgamate | 1 => Some Balance | 2 => Some DepositChecking
  | 3 => Some SendPayment | 4 => Some TransactSavings | 5 => Some WriteCheck
  | _ => None
  end.

(** The lock modes and change flags of each type, in the order of the fields. *)
Definition locks_of (t : TRANSMIT_TYPE) : Z * Z * Z * Z :=
  match t with
  | Amalgamate => (WRITE_LOCK, NO_LOCK, NO_LOCK, WRITE_LOCK)
  | Balance => (READ_LOCK, READ_LOCK, NO_LOCK, NO_LOCK)
  | DepositChecking => (WRITE_LOCK, NO_LOCK, NO_LOCK, NO_LOCK)
  | SendPayment => (WRITE_LOCK, NO_LOCK, WRITE_LOCK, NO_LOCK)
  | TransactSavings => (NO_LOCK, WRITE_LOCK, NO_LOCK, NO_LOCK)
  | WriteCheck => (WRITE_LOCK, READ_LOCK, NO_LOCK, NO_LOCK)
  end.
Definition changes_of (t : TRANSMIT_TYPE) : Z * Z * Z * Z :=
  match t with
  | Amalgamate => (1, 0, 0, 1)
  | Balance => (0, 0, 0, 0)
  | DepositChecking => (1, 0, 0, 0)
  | SendPayment => (1, 0, 1, 0)
  | TransactSavings => (0, 1, 0, 0)
  | WriteCheck => (1, 0, 0, 0)
  end.

(** The types whose second user differs from the first. *)
Definition two_users (t : TRANSMIT_TYPE) : bool :=
  match t with Amalgamate | SendPayment => true | _ => false end.

Definition mk_transition (id : Z) (t : TRANSMIT_TYPE) (u1 u2 j1 j2 j3 j4 : Z) : Transition :=
  let '(l1c, l1s, l2c, l2s) := locks_of t in
  let '(c1c, c1s, c2c, c2s) := changes_of t in
  MkTransition id t u1 u2 l1c l1s l2c l2s c1c c1s c2c c2s AMOUNT j1 j2 j3 j4.

Section Client.
(** [FLAGS_concurrency], the draws, the clock and the values that uninitialised
    members and fresh response buffers hold. *)
Variables (concurrency : Z) (rnd now : nat -> Z) (junk : Z) (pre_resp : mem).

(** [while (user2_id == user1_id) user2_id = generateRandomNumber();] from draw
    [n]: the identifier and the next draw; [None] when the draws given by [fuel] all
    coincide. *)
Fixpoint draw_other (fuel n : nat) (u1 : Z) : option (Z * nat) :=
  match fuel with
  | O => None
  | S fuel => if rnd n =? u1 then draw_other fuel (S n) u1 else Some (rnd n, S n)
  end.

(** The constructor [Transition(req_id)]: its first draw is the type. *)
Definition new_transition (fuel n : nat) (id : Z) : option (Transition * nat) :=
  t ← transmit_of (rnd n);
  let u1 := rnd (S n) in
  if two_users t then
    '(u2, n') ← draw_other fuel (S (S n)) u1;
    Some (mk_transition id t u1 u2 junk junk junk junk, n')
  else Some (mk_transition id t u1 u1 junk junk junk junk, S (S n)).

(** ** The client context *)

(** A request the library has: its type, the element of the buffer arrays (none
    for the ping buffers) and the tag of the callback. *)
Record call := MkCall { call_type : RPC_TYPE; call_slot : option Z; call_tag : Z }.

Record ClientContext := MkClient {
  req_msgbuf : gmap Z MsgBuffer;
  resp_msgbuf : gmap Z MsgBuffer;
  transitions : gmap Z Transition;
  ping_msgbuf : MsgBuffer;
  ping_resp_msgbuf : MsgBuffer;
  queue_store : list REQ_MSG;
  req_id_ : Z;
  timers : gmap Z Z;
  latency : list Z;
  draws : nat;
  ticks : nat;
  calls : list call;
}.

Definition empty_msg : MsgBuffer := MkMsg ∅ 0.
Definition req_buf (c : ClientContext) (i : Z) : MsgBuffer := default empty_msg (req_msgbuf c !! i).
Definition resp_buf (c : ClientContext) (i : Z) : MsgBuffer := default empty_msg (resp_msgbuf c !! i).
Definition transition_zero : Transition := mk_transition 0 Balance 0 0 0 0 0 0.
Definition transition_at (c : ClientContext) (i : Z) : Transition :=
  default transition_zero (transitions c !! i).

(** [x % kAppMaxBuffer] *)
Definition idx (id : Z) : Z := id mod kAppMaxBuffer.

Definition with_queue (q : list REQ_MSG) (c : ClientContext) : ClientContext :=
  MkClient (req_msgbuf c) (resp_msgbuf c) (transitions c) (ping_msgbuf c) (ping_resp_msgbuf c) q
    (req_id_ c) (timers c) (latency c) (draws c) (ticks c) (calls c).
Definition push (r : REQ_MSG) (c : ClientContext) : ClientContext :=
  with_queue (queue_store c ++ [r]) c.

Definition set_transition (i : Z) (t : Transition) (n : nat) (c : ClientContext) : ClientContext :=
  MkClient (req_msgbuf c) (resp_msgbuf c) (<[i := t]> (transitions c)) (ping_msgbuf c)
    (ping_resp_msgbuf c) (queue_store c) (req_id_ c) (timers c) (latency c) n (ticks c) (calls c).

(** [enqueue_request] of an element of the request array. *)
Definition enqueue_request (t : RPC_TYPE) (i : Z) (msg : MsgBuffer) (tag : Z) (c : ClientContext)
    : ClientContext :=
  MkClient (<[i := msg]> (req_msgbuf c)) (resp_msgbuf c) (transitions c) (ping_msgbuf c)
    (ping_resp_msgbuf c) (queue_store c) (req_id_ c) (timers c) (latency c) (draws c) (ticks c)
    (calls c ++ [MkCall t (Some i) tag]).

(** [timers[...][i].tic()] *)
Definition tic (i : Z) (c : ClientContext) : ClientContext :=
  MkClient (req_msgbuf c) (resp_msgbuf c) (transitions c) (ping_msgbuf c) (ping_resp_msgbuf c)
    (queue_store c) (req_id_ c) (<[i := now (ticks c)]> (timers c)) (latency c) (draws c)
    (S (ticks c)) (calls c).

(** [hdr_record_value_atomic(latency_total_, toc() * 10)] *)
Definition toc_record (i : Z) (c : ClientContext) : ClientContext :=
  MkClient (req_msgbuf c) (resp_msgbuf c) (transitions c) (ping_msgbuf c) (ping_resp_msgbuf c)
    (queue_store c) (req_id_ c) (timers c)
    (latency c ++ [s64 (Z.quot (now (ticks c) - default 0 (timers c !! i)) 1000 * 10)]) (draws c)
    (S (ticks c)) (calls c).

(** [ctx->req_id_++] *)
Definition bump_req_id (c : ClientContext) : ClientContext :=
  MkClient (req_msgbuf c) (resp_msgbuf c) (transitions c) (ping_msgbuf c) (ping_resp_msgbuf c)
    (queue_store c) (req_id_ c +32 1)%cint (timers c) (latency c) (draws c) (ticks c) (calls c).

(** ** Handlers *)

Definition handler_ping (c : ClientContext) (r : REQ_MSG) : ClientContext :=
  let m := st64 (put_common_req RPC_PING (req_id r) (buf_ (ping_msgbuf c))) 5 0 in
  MkClient (req_msgbuf c) (resp_msgbuf c) (transitions c) (MkMsg m (data_size (ping_msgbuf c)))
    (ping_resp_msgbuf c) (queue_store c) (req_id_ c) (timers c) (latency c) (draws c) (ticks c)
    (calls c ++ [MkCall RPC_PING None 0]).

Definition get_flag (lock : Z) : Z := if lock =? NO_LOCK then 0 else 1.

(** The identifiers and four bytes of a data or lock request. *)
Definition put_four (u1 u2 x1 x2 x3 x4 : Z) (m : mem) : mem :=
  st8 (st8 (st8 (st8 (st64 (st64 m 5 u1) 13 u2) 21 x1) 22 x2) 23 x3) 24 x4.

Definition handler_get_data (fuel : nat) (c : ClientContext) (r : REQ_MSG) : option ClientContext :=
  let i := idx (req_id r) in
  '(t, n) ← new_transition fuel (draws c) (req_id r);
  let c := set_transition i t n c in
  let m := put_common_req RPC_GET_DATA (req_id r) (buf_ (req_buf c i)) in
  let m := put_four (user1_id t) (user2_id t)
             (get_flag (lock_user1_checking t)) (get_flag (lock_user1_saving t))
             (get_flag (lock_user2_checking t)) (get_flag (lock_user2_saving t)) m in
  let c := tic i c in
  Some (enqueue_request RPC_GET_DATA i (resize_msg_buffer sizeof_GetDataReq m) (req_id r) c).

Definition handler_get_lock (c : ClientContext) (r : REQ_MSG) : ClientContext :=
  let i := idx (req_id r) in
  let t := transition_at c i in
  let m := put_common_req RPC_GET_LOCK (req_id r) (buf_ (req_buf c i)) in
  let m := put_four (user1_id t) (user2_id t) (lock_user1_checking t) (lock_user1_saving t)
             (lock_user2_checking t) (lock_user2_saving t) m in
  enqueue_request RPC_GET_LOCK i (resize_msg_buffer sizeof_GetLockReq m) (req_id r) c.

(** The [switch] on the type: the balances stored in the request. *)
Definition put_balances (t : Transition) (m : mem) : mem :=
  match transmit_type t with
  | Amalgamate =>
      st64 (st64 m 45 (dadd (user1_checking_balance t) (user2_saving_balance t))) 21 (double_of_Z 0)
  | Balance => m
  | DepositChecking => st64 m 21 (dadd (user1_checking_balance t) (amount t))
  | SendPayment =>
      st64 (st64 m 21 (dsub (user1_checking_balance t) (amount t)))
        37 (dadd (user2_checking_balance t) (amount t))
  | TransactSavings => st64 m 29 (dsub (user1_saving_balance t) (amount t))
  | WriteCheck => st64 m 21 (dsub (user1_checking_balance t) (amount t))
  end.

(** The request of the finish step. *)
Definition finish_msg (t : Transition) (id : Z) (m : mem) : mem :=
  let m := put_common_req RPC_FINISH id m in
  let m := st64 (st64 m 5 (user1_id t)) 13 (user2_id t) in
  let m := st8 (st8 (st8 (st8 m 57 (lock_user1_checking t)) 58 (lock_user1_saving t))
             59 (lock_user2_checking t)) 60 (lock_user2_saving t) in
  let m := st8 (st8 (st8 (st8 m 53 (changed_user1_checking t)) 54 (changed_user1_saving t))
             55 (changed_user2_checking t)) 56 (changed_user2_saving t) in
  put_balances t m.

Definition handler_finish (c : ClientContext) (r : REQ_MSG) : ClientContext :=
  let i := idx (req_id r) in
  let m := finish_msg (transition_at c i) (req_id r) (buf_ (req_buf c i)) in
  enqueue_request RPC_FINISH i (resize_msg_buffer sizeof_FinishReq m) (req_id r) c.

(** ** Callbacks; a failed [rt_assert] throws *)

(** The three checks of a response's header. *)
Definition check_reply (t : RPC_TYPE) (id : Z) (m : mem) : bool :=
  (resp_status m =? 0) && (ld32 m 1 =? id) && (rd8 m 0 =? rpc_code t).

Definition callback_ping (c : ClientContext) : result ClientContext :=
  _ ← rt_assert (resp_status (buf_ (ping_resp_msgbuf c)) =? 0);
  Ok (push (MkReq 0 RPC_PING) c).

Definition with_balances (m : mem) (t : Transition) : Transition :=
  MkTransition (tr_req_id t) (transmit_type t) (user1_id t) (user2_id t)
    (lock_user1_checking t) (lock_user1_saving t) (lock_user2_checking t) (lock_user2_saving t)
    (changed_user1_checking t) (changed_user1_saving t) (changed_user2_checking t)
    (changed_user2_saving t) (amount t) (ld64 m 25) (ld64 m 33) (ld64 m 41) (ld64 m 49).

Definition callback_get_data (c : ClientContext) (tag : Z) : result ClientContext :=
  let id := u32 tag in
  let m := buf_ (resp_buf c (idx id)) in
  _ ← rt_assert (check_reply RPC_GET_DATA id m);
  let c := set_transition (idx id) (with_balances m (transition_at c (idx id))) (draws c) c in
  Ok (push (MkReq id RPC_GET_LOCK) c).

(** [REQ_MSG{ req_id + FLAGS_concurrency, RPC_GET_DATA }] after [req_id_++]. *)
Definition next_request (id : Z) (c : ClientContext) : ClientContext :=
  push (MkReq (id +32 concurrency)%cint RPC_GET_DATA) (bump_req_id c).

Definition callback_get_lock (c : ClientContext) (tag : Z) : result ClientContext :=
  let id := u32 tag in
  let m := buf_ (resp_buf c (idx id)) in
  _ ← rt_assert (check_reply RPC_GET_LOCK id m);
  if truthy (rd8 m 25) then Ok (push (MkReq id RPC_FINISH) c) else Ok (next_request id c).

Definition callback_finish (c : ClientContext) (tag : Z) : result ClientContext :=
  let id := u32 tag in
  let m := buf_ (resp_buf c (idx id)) in
  _ ← rt_assert (check_reply RPC_FINISH id m);
  _ ← rt_assert (rd8 m 25 =? 1);
  Ok (next_request id (toc_record (idx id) c)).

(** ** The loop of [client_thread_func] *)

(** The [handlers] map. *)
Definition dispatch (fuel : nat) (c : ClientContext) (r : REQ_MSG) : option ClientContext :=
  match req_kind r with
  | RPC_PING => Some (handler_ping c r)
  | RPC_GET_DATA => handler_get_data fuel c r
  | RPC_GET_LOCK => Some (handler_get_lock c r)
  | RPC_FINISH => Some (handler_finish c r)
  end.

(** [for (i < size) handlers[pop()](ctx, req_msg)] *)
Fixpoint pop_all (fuel size : nat) (c : ClientContext) : option ClientContext :=
  match size with
  | O => Some c
  | S size =>
      match queue_store c with
      | [] => None
      | r :: q => c ← dispatch fuel (with_queue q c) r; pop_all fuel size c
      end
  end.

Definition client_turn (fuel : nat) (c : ClientContext) : option ClientContext :=
  pop_all fuel (length (queue_store c)) c.

(** ** Client and server together *)

Definition callback (k : call) (c : ClientContext) : result ClientContext :=
  match call_type k with
  | RPC_PING => callback_ping c
  | RPC_GET_DATA => callback_get_data c (call_tag k)
  | RPC_GET_LOCK => callback_get_lock c (call_tag k)
  | RPC_FINISH => callback_finish c (call_tag k)
  end.

Definition store_response (k : call) (resp : MsgBuffer) (rest : list call) (c : ClientContext)
    : ClientContext :=
  match call_slot k with
  | None => MkClient (req_msgbuf c) (resp_msgbuf c) (transitions c) (ping_msgbuf c) resp
              (queue_store c) (req_id_ c) (timers c) (latency c) (draws c) (ticks c) rest
  | Some i => MkClient (req_msgbuf c) (<[i := resp]> (resp_msgbuf c)) (transitions c) (ping_msgbuf c)
              (ping_resp_msgbuf c) (queue_store c) (req_id_ c) (timers c) (latency c) (draws c)
              (ticks c) rest
  end.

Definition call_request (k : call) (c : ClientContext) : MsgBuffer :=
  match call_slot k with None => ping_msgbuf c | Some i => req_buf c i end.

(** The [j]-th request under way is served and its callback runs. *)
Definition deliver (j : nat) (s : ServerContext) (c : ClientContext)
    : result (ServerContext * ClientContext) :=
  match calls c !! j with
  | None => Ok (s, c)
  | Some k =>
      '(s, resp) ← handle (call_type k) s (call_request k c) pre_resp;
      c ← callback k (store_response k resp (delete j (calls c)) c);
      Ok (s, c)
  end.

(** What [leader_thread_func] queues at the start, once the ping was answered:
    [while (tmp--) push(REQ_MSG{ req_id_++, RPC_GET_DATA })]. *)
Fixpoint leader_fill (n : nat) (c : ClientContext) : ClientContext :=
  match n with
  | O => c
  | S n => leader_fill n (bump_req_id (push (MkReq (req_id_ c) RPC_GET_DATA) c))
  end.

(** [n] turns of the client's loop, the library delivering one response after
    each. *)
Fixpoint rounds (fuel n : nat) (s : ServerContext) (c : ClientContext)
    : option (result (ServerContext * ClientContext)) :=
  match n with
  | O => Some (Ok (s, c))
  | S n =>
      match client_turn fuel c with
      | None => None
      | Some c =>
          match deliver 0 s c with
          | Ok (s, c) => rounds fuel n s c
          | Thrown => Some Thrown
          | OutOfBounds => Some OutOfBounds
          end
      end
  end.
(** ** Messages of a transaction *)

Definition tx_wants (t : Transition) : wants :=
  [(lock_user1_checking t, slot_of Checking (user1_id t));
   (lock_user1_saving t, slot_of Savings (user1_id t));
   (lock_user2_checking t, slot_of Checking (user2_id t));
   (lock_user2_saving t, slot_of Savings (user2_id t))].

Definition wf_transition (t : Transition) : Prop :=
  0 <= user1_id t < NUM_ACCOUNTS /\ 0 <= user2_id t < NUM_ACCOUNTS /\
  (lock_user1_checking t, lock_user1_saving t, lock_user2_checking t, lock_user2_saving t) =
    locks_of (transmit_type t) /\
  (changed_user1_checking t, changed_user1_saving t, changed_user2_checking t,
   changed_user2_saving t) = changes_of (transmit_type t) /\ amount t = AMOUNT.

Lemma get_flag_range x : 0 <= get_flag x < 256.
Proof. unfold get_flag. case_match; lia. Qed.

Lemma wf_locks t : wf_transition t -> Forall (fun w => mode_ok w.1) (tx_wants t).
Proof.
  intros (_ & _ & H & _). unfold tx_wants, mode_ok.
  destruct (transmit_type t); cbn in H; injection H as -> -> -> ->;
    rewrite !list.Forall_cons, list.Forall_nil; cbn; tauto.
Qed.

Lemma mode_range x : mode_ok x -> 0 <= x < 256.
Proof. unfold mode_ok, NO_LOCK, READ_LOCK, WRITE_LOCK. lia. Qed.

Lemma put_four_read t id u1 u2 x1 x2 x3 x4 m0 :
  0 <= id < 2 ^ 32 -> 0 <= u1 < NUM_ACCOUNTS -> 0 <= u2 < NUM_ACCOUNTS ->
  0 <= x1 < 256 -> 0 <= x2 < 256 -> 0 <= x3 < 256 -> 0 <= x4 < 256 ->
  let m := put_four u1 u2 x1 x2 x3 x4 (put_common_req t id m0) in
  req_type m = rpc_code t /\ req_number m = id /\ ld64 m 5 = u1 /\ ld64 m 13 = u2 /\
  rd8 m 21 = x1 /\ rd8 m 22 = x2 /\ rd8 m 23 = x3 /\ rd8 m 24 = x4.
Proof.
  unfold NUM_ACCOUNTS. intros ???????. cbv zeta. unfold put_four, put_common_req, req_type, req_number.
  split_and!; msg_field. by destruct t.
Qed.

(** Reading around the balances. *)
Lemma put_balances_out t m a n :
  a + Z.of_nat n <= 21 \/ 53 <= a -> loadle (put_balances t m) a n = loadle m a n.
Proof.
  intros H. unfold put_balances, st64. destruct (transmit_type t);
    by rewrite ?loadle_storele_out by lia.
Qed.

Lemma rd8_put_balances t m a : a < 21 \/ 53 <= a -> rd8 (put_balances t m) a = rd8 m a.
Proof.
  intros H. unfold put_balances, st64. destruct (transmit_type t);
    by rewrite ?rd8_storele_out by lia.
Qed.

Lemma finish_msg_read t id m0 :
  wf_transition t -> 0 <= id < 2 ^ 32 ->
  let m := finish_msg t id m0 in
  req_type m = rpc_code RPC_FINISH /\ req_number m = id /\
  ld64 m 5 = user1_id t /\ ld64 m 13 = user2_id t /\ finish_unlocks m = tx_wants t /\
  rd8 m 53 = changed_user1_checking t /\ rd8 m 54 = changed_user1_saving t /\
  rd8 m 55 = changed_user2_checking t /\ rd8 m 56 = changed_user2_saving t.
Proof.
  intros Ht Hid m. pose proof (wf_locks t Ht) as Hl. destruct Ht as (H1 & H2 & _ & Hc & _).
  unfold tx_wants in Hl. rewrite !list.Forall_cons in Hl. destruct Hl as (L1 & L2 & L3 & L4 & _).
  apply mode_range in L1, L2, L3, L4. cbn in L1, L2, L3, L4. unfold NUM_ACCOUNTS in H1, H2.
  assert (0 <= changed_user1_checking t < 256 /\ 0 <= changed_user1_saving t < 256 /\
          0 <= changed_user2_checking t < 256 /\ 0 <= changed_user2_saving t < 256) as (C1 & C2 & C3 & C4).
  { destruct (transmit_type t); cbn in Hc; injection Hc as -> -> -> ->; lia. }
  assert (ld64 m 5 = user1_id t) as E1.
  { unfold m, finish_msg, ld64. rewrite put_balances_out by lia. unfold put_common_req. msg_field. }
  assert (ld64 m 13 = user2_id t) as E2.
  { unfold m, finish_msg, ld64. rewrite put_balances_out by lia. unfold put_common_req. msg_field. }
  unfold req_type, req_number, ld32, finish_unlocks. rewrite E1, E2. unfold tx_wants.
  unfold m, finish_msg. rewrite put_balances_out by lia. rewrite !rd8_put_balances by lia.
  unfold put_common_req.
  assert (0 <= rpc_code RPC_FINISH < 256) by (cbn; lia).
  split_and!; try done; [msg_field..| |msg_field|msg_field|msg_field|msg_field].
  repeat f_equal; msg_field.
Qed.

(** ** One transaction, round by round *)

(** The balances a transaction uses are those of the tables. *)
Definition fetched (b : bank) (t : Transition) : Prop :=
  (lock_user1_checking t <> NO_LOCK ->
     user1_checking_balance t = balance (account_at b (slot_of Checking (user1_id t)))) /\
  (lock_user1_saving t <> NO_LOCK ->
     user1_saving_balance t = balance (account_at b (slot_of Savings (user1_id t)))) /\
  (lock_user2_checking t <> NO_LOCK ->
     user2_checking_balance t = balance (account_at b (slot_of Checking (user2_id t)))) /\
  (lock_user2_saving t <> NO_LOCK ->
     user2_saving_balance t = balance (account_at b (slot_of Savings (user2_id t)))).

(** A client with nothing under way and one step queued. *)
Definition at_step (kind : RPC_TYPE) (id : Z) (c : ClientContext) : Prop :=
  queue_store c = [MkReq id kind] /\ calls c = [] /\ 0 <= id < 2 ^ 32.

Lemma idx_u32 id : 0 <= id < 2 ^ 32 -> u32 id = id.
Proof. apply wrapu_small. Qed.

Lemma check_reply_ok t id m :
  rd8 m 0 = rpc_code t -> ld32 m 1 = id -> resp_status m = 0 -> check_reply t id m = true.
Proof. intros H1 H2 H3. unfold check_reply. by rewrite H1, H2, H3, !Z.eqb_refl. Qed.

Lemma reply_get_flag lock b k off pre m :
  reply_balance (get_flag lock) b k off pre m -> lock <> NO_LOCK -> ld64 m off = balance (account_at b k).
Proof.
  unfold reply_balance, get_flag. intros H Hl. rewrite (proj2 (Z.eqb_neq _ _) Hl) in H. done.
Qed.

Lemma req_buf_enqueue k i msg tag c : req_buf (enqueue_request k i msg tag c) i = msg.
Proof. unfold req_buf. cbn. by rewrite lookup_insert_eq. Qed.

Lemma resp_buf_store k i tag resp rest c :
  resp_buf (store_response (MkCall k (Some i) tag) resp rest c) i = resp.
Proof. unfold resp_buf. cbn. by rewrite lookup_insert_eq. Qed.

Lemma transition_at_set i t n c : transition_at (set_transition i t n c) i = t.
Proof. unfold transition_at. cbn. by rewrite lookup_insert_eq. Qed.

(** The turn of a client with one step queued. *)
Lemma turn_one fuel kind id c :
  at_step kind id c -> client_turn fuel c = dispatch fuel (with_queue [] c) (MkReq id kind).
Proof.
  intros (Hq & _). unfold client_turn. rewrite Hq. cbn [length pop_all]. rewrite Hq.
  by destruct (dispatch _ _ _).
Qed.

(** The delivery of the only request under way. *)
Lemma deliver_one kind i msg tag s c :
  calls c = [] ->
  deliver 0 s (enqueue_request kind i msg tag c) =
  ('(s', resp) ← handle kind s msg pre_resp;
   c' ← callback (MkCall kind (Some i) tag)
          (store_response (MkCall kind (Some i) tag) resp [] (enqueue_request kind i msg tag c));
   Ok (s', c')).
Proof.
  intros H. unfold deliver. cbn [calls enqueue_request]. rewrite H. cbn [app lookup list_lookup call_type].
  unfold call_request. cbn [call_slot]. by rewrite req_buf_enqueue.
Qed.

Lemma round_get_data fuel s c id t n :
  at_step RPC_GET_DATA id c -> wf_server s ->
  new_transition fuel (draws c) id = Some (t, n) -> wf_transition t ->
  exists c1 c2 t2,
    client_turn fuel c = Some c1 /\ deliver 0 s c1 = Ok (count_get_data s, c2) /\
    at_step RPC_GET_LOCK id c2 /\ transition_at c2 (idx id) = t2 /\ wf_transition t2 /\
    tx_wants t2 = tx_wants t /\ transmit_type t2 = transmit_type t /\
    user1_id t2 = user1_id t /\ user2_id t2 = user2_id t /\
    fetched (tables s) t2 /\ latency c2 = latency c.
Proof.
  intros Hstep Hs Ht Hwf. rewrite (turn_one fuel _ _ c Hstep). destruct Hstep as (Hq & Hcalls & Hid).
  cbn [dispatch req_kind]. unfold handler_get_data. cbn [req_id draws with_queue].
  rewrite Ht. cbn [mbind option_bind]. 
  match goal with |- exists c1 c2 t2, Some ?x = Some c1 /\ _ => exists x end.
  rewrite deliver_one by done. destruct Hwf as (H1 & H2 & Hl & Hc & Ha).
  match goal with |- context [put_four ?a ?b ?x1 ?x2 ?x3 ?x4 (put_common_req ?k ?i ?m0)] =>
    destruct (put_four_read k i a b x1 x2 x3 x4 m0) as (M1 & M2 & M3 & M4 & M5 & M6 & M7 & M8) end;
    try done; try apply get_flag_range.
  match goal with |- context [handle _ s ?r _] =>
    destruct (host_get_data s r pre_resp Hs) as (m & E & R1 & R2 & R3 & R4 & R5 & R6 & R7) end;
    [done|cbn [buf_ resize_msg_buffer]; by rewrite ?M3, ?M4..|].
  cbn [buf_ resize_msg_buffer] in *.
  rewrite M1 in R1. rewrite M2 in R2. rewrite M3, M5 in R4. rewrite M3, M6 in R5.
  rewrite M4, M7 in R6. rewrite M4, M8 in R7.
  cbn [handle]. rewrite E. cbn [mbind result_bind].
  unfold callback, callback_get_data. cbn [call_type call_tag]. rewrite idx_u32 by done.
  rewrite resp_buf_store. cbn [buf_]. rewrite check_reply_ok by done. cbn [rt_assert mbind result_bind].
  eexists _, _. split; [reflexivity|]. split; [reflexivity|]. split; [done|]. split; [reflexivity|].
  change (transition_at (push ?r ?x)) with (transition_at x). rewrite transition_at_set.
  change (transition_at (store_response _ _ _ (enqueue_request _ _ _ _ (tic _ ?x)))) with (transition_at x).
  rewrite transition_at_set.
  split_and!; try done. unfold fetched. cbn. split_and!; eauto using reply_get_flag.
Qed.

Lemma lock_wants_tx t m :
  ld64 m 5 = user1_id t -> ld64 m 13 = user2_id t ->
  rd8 m 21 = lock_user1_checking t -> rd8 m 22 = lock_user1_saving t ->
  rd8 m 23 = lock_user2_checking t -> rd8 m 24 = lock_user2_saving t -> lock_wants m = tx_wants t.
Proof. intros H1 H2 H3 H4 H5 H6. unfold lock_wants. by rewrite H1, H2, H3, H4, H5, H6. Qed.

Lemma round_get_lock fuel s c id :
  let t := transition_at c (idx id) in
  let g := grantable (tx_wants t) (tables s) in
  at_step RPC_GET_LOCK id c -> wf_server s -> wf_transition t ->
  exists c1 c2 b,
    client_turn fuel c = Some c1 /\
    deliver 0 s c1 = Ok (count_get_lock g (with_tables b s), c2) /\
    b ≡ (if g then acquire_all (tx_wants t) (tables s) else tables s) /\
    (if g then at_step RPC_FINISH id c2 /\ transition_at c2 (idx id) = t /\ latency c2 = latency c
     else at_step RPC_GET_DATA (u32 (id + concurrency)) c2).
Proof.
  intros t g Hstep Hs Hwf. rewrite (turn_one fuel _ _ c Hstep). destruct Hstep as (Hq & Hcalls & Hid).
  cbn [dispatch req_kind]. unfold handler_get_lock. cbn [req_id].
  match goal with |- exists c1 c2 b, Some ?x = Some c1 /\ _ => exists x end.
  rewrite deliver_one by done.
  change (transition_at (with_queue [] c) (idx id)) with t.
  pose proof (wf_locks t Hwf) as Hl. destruct Hwf as (H1 & H2 & _).
  unfold tx_wants in Hl. rewrite !list.Forall_cons in Hl. destruct Hl as (L1 & L2 & L3 & L4 & _).
  apply mode_range in L1, L2, L3, L4.
  match goal with |- context [put_four ?a ?b ?x1 ?x2 ?x3 ?x4 (put_common_req ?k ?i ?m0)] =>
    destruct (put_four_read k i a b x1 x2 x3 x4 m0) as (M1 & M2 & M3 & M4 & M5 & M6 & M7 & M8) end;
    try done.
  match goal with |- context [handle _ s ?r _] =>
    destruct (host_get_lock s r pre_resp Hs) as (b & m & E & Hb & R) end;
    [done|cbn [buf_ resize_msg_buffer]; by rewrite ?M3, ?M4..|].
  cbn [buf_ resize_msg_buffer] in E, Hb, R.
  rewrite (lock_wants_tx t) in E, Hb, R by done. fold g in E, Hb, R. rewrite M1, M2 in R.
  destruct R as (R1 & R2 & R3 & R4).
  cbn [handle]. rewrite E. cbn [mbind result_bind].
  unfold callback, callback_get_lock. cbn [call_type call_tag]. rewrite idx_u32 by done.
  rewrite resp_buf_store. cbn [buf_]. rewrite check_reply_ok by done. cbn [rt_assert mbind result_bind].
  rewrite R4, c_bool_truthy.
  destruct g; cbn [mbind result_bind]; eexists _, b; (split; [reflexivity|]; split; [reflexivity|]);
    (split; [done|]).
  - done.
  - split; [done|]. split; [done|]. apply (wrapu_range 32). lia.
Qed.

Lemma round_finish fuel s c id :
  let t := transition_at c (idx id) in
  let q := finish_msg t id (buf_ (req_buf c (idx id))) in
  at_step RPC_FINISH id c -> wf_transition t ->
  exists c1 c2,
    client_turn fuel c = Some c1 /\
    deliver 0 s c1 =
      Ok (with_tables (release_all (tx_wants t) (store_all (finish_stores q) (tables s)))
            (count_finish s), c2) /\
    at_step RPC_GET_DATA (u32 (id + concurrency)) c2 /\
    length (latency c2) = S (length (latency c)).
Proof.
  intros t q Hstep Hwf. rewrite (turn_one fuel _ _ c Hstep). destruct Hstep as (Hq & Hcalls & Hid).
  cbn [dispatch req_kind]. unfold handler_finish. cbn [req_id].
  match goal with |- exists c1 c2, Some ?x = Some c1 /\ _ => exists x end.
  rewrite deliver_one by done.
  change (finish_msg (transition_at (with_queue [] c) (idx id)) id
            (buf_ (req_buf (with_queue [] c) (idx id)))) with q.
  destruct (finish_msg_read t id (buf_ (req_buf c (idx id))) Hwf Hid)
    as (M1 & M2 & M3 & M4 & M5 & _). fold q in M1, M2, M3, M4, M5.
  destruct Hwf as (H1 & H2 & _).
  destruct (host_finish s (resize_msg_buffer sizeof_FinishReq q) pre_resp) as (m & E & R);
    [done|cbn [buf_ resize_msg_buffer]; by rewrite ?M3, ?M4..|].
  cbn [buf_ resize_msg_buffer] in E, R. rewrite M5 in E. rewrite M1, M2 in R.
  destruct R as (R1 & R2 & R3 & R4).
  cbn [handle]. rewrite E. cbn [mbind result_bind].
  unfold callback, callback_finish. cbn [call_type call_tag]. rewrite idx_u32 by done.
  rewrite resp_buf_store. cbn [buf_]. rewrite check_reply_ok by done. rewrite R4.
  cbn [rt_assert mbind result_bind Z.eqb Pos.eqb].
  eexists. split; [reflexivity|]. split; [reflexivity|]. split.
  - split; [done|]. split; [done|]. apply (wrapu_range 32). lia.
  - cbn. rewrite length_app. cbn. lia.
Qed.

(** ** Transactions *)

(** What a transaction means: the balance of each element after it. *)
Definition tx_balance (t : TRANSMIT_TYPE) (u1 u2 : Z) (b : bank) (k : slot) : Z :=
  let bal k := balance (account_at b k) in
  let set1 k' v k := if bool_decide (k' = k) then v else bal k in
  let c1 := slot_of Checking u1 in let s1 := slot_of Savings u1 in
  let c2 := slot_of Checking u2 in let s2 := slot_of Savings u2 in
  match t with
  | Amalgamate => if bool_decide (s2 = k) then dadd (bal c1) (bal s2) else set1 c1 (double_of_Z 0) k
  | Balance => bal k
  | DepositChecking => set1 c1 (dadd (bal c1) AMOUNT) k
  | SendPayment => if bool_decide (c2 = k) then dadd (bal c2) AMOUNT else set1 c1 (dsub (bal c1) AMOUNT) k
  | TransactSavings => set1 s1 (dsub (bal s1) AMOUNT) k
  | WriteCheck => set1 c1 (dsub (bal c1) AMOUNT) k
  end.

Lemma draw_other_spec fuel m u1 u2 m' : draw_other fuel m u1 = Some (u2, m') -> exists i, u2 = rnd i.
Proof.
  revert m. induction fuel as [|fuel IH]; intros m H; [done|]. cbn in H.
  case_match; [by eapply IH|]. injection H as <- <-. by eexists.
Qed.

Lemma new_transition_wf fuel m id t n :
  (forall i, 0 <= rnd i < NUM_ACCOUNTS) -> new_transition fuel m id = Some (t, n) -> wf_transition t.
Proof.
  intros Hr H. unfold new_transition in H. destruct (transmit_of _) as [ty|]; [|done].
  cbn [mbind option_bind] in H. unfold mk_transition in H.
  destruct (two_users ty) eqn:E; [destruct (draw_other _ _ _) as [[u2 m']|] eqn:Ed; [|done]; cbn in H;
    apply draw_other_spec in Ed as [j ->]|]; destruct ty; try done;
    injection H as <- <-; unfold wf_transition; cbn; pose proof (Hr (S m)); auto.
Qed.

Lemma dadd_range x y : 0 <= dadd x y < 256 ^ 8.
Proof. apply bits_of_double_range. Qed.
Lemma dsub_range x y : 0 <= dsub x y < 256 ^ 8.
Proof. apply bits_of_double_range. Qed.

Lemma ld64_stored m a v : 0 <= v < 256 ^ 8 -> loadle (storele m a 8 v) a 8 = v.
Proof. exact (loadle_storele_small m a 8 v). Qed.

Lemma finish_stored t id m0 b k :
  wf_transition t -> fetched b t -> 0 <= id < 2 ^ 32 ->
  stored (finish_stores (finish_msg t id m0)) k (balance (account_at b k)) =
  tx_balance (transmit_type t) (user1_id t) (user2_id t) b k.
Proof.
  intros Hwf Hf Hid.
  destruct (finish_msg_read t id m0 Hwf Hid) as (_ & _ & M3 & M4 & _ & M5 & M6 & M7 & M8).
  unfold finish_stores. rewrite M3, M4, M5, M6, M7, M8.
  destruct Hwf as (_ & _ & Hl & Hc & Ha). unfold fetched in Hf.
  unfold stored, tx_balance, finish_msg, put_balances, ld64, st64. rewrite Ha. clear Ha M3 M4 M5 M6 M7 M8.
  destruct (transmit_type t); cbn in Hl, Hc; injection Hl as L1 L2 L3 L4;
    injection Hc as C1 C2 C3 C4; rewrite L1, L2, L3, L4 in Hf; destruct Hf as (F1 & F2 & F3 & F4);
    rewrite ?F1, ?F2, ?F3, ?F4 by done; rewrite ?C1, ?C2, ?C3, ?C4; cbn [foldl truthy Z.eqb negb andb fst snd];
    rewrite ?loadle_storele_out by lia;
    rewrite ?ld64_stored by (apply dadd_range || apply dsub_range || apply bits_of_double_range);
    rewrite ?loadle_storele_out by lia;
    rewrite ?ld64_stored by (apply dadd_range || apply dsub_range || apply bits_of_double_range); done.
Qed.

Lemma rounds_S fuel n s c c1 s2 c2 :
  client_turn fuel c = Some c1 -> deliver 0 s c1 = Ok (s2, c2) ->
  rounds fuel (S n) s c = rounds fuel n s2 c2.
Proof. intros H1 H2. cbn [rounds]. by rewrite H1, H2. Qed.

Lemma wf_with_tables (f : ServerContext -> ServerContext) s b :
  wf_server s -> wf_bank b -> (forall s, wf_server s -> wf_server (f s)) -> wf_server (f (with_tables b s)).
Proof. intros [_ H] Hb Hf. apply Hf. by split. Qed.

Lemma wf_count_get_data s : wf_server s -> wf_server (count_get_data s).
Proof.
  intros [Hb H]. rewrite !list.Forall_cons in H. destruct H as (?&?&?&?&?&_).
  apply wf_server_intro; cbn; auto with bank.
Qed.

(** The first two rounds of a transaction. *)
Lemma rounds_lock fuel s c id t n m :
  at_step RPC_GET_DATA id c -> wf_server s -> (forall i, 0 <= rnd i < NUM_ACCOUNTS) ->
  new_transition fuel (draws c) id = Some (t, n) ->
  let g := grantable (tx_wants t) (tables s) in
  exists s2 c2,
    rounds fuel (S (S m)) s c = rounds fuel m s2 c2 /\
    (tables s2) ≡ (if g then acquire_all (tx_wants t) (tables s) else tables s) /\
    if g then
      at_step RPC_FINISH id c2 /\ latency c2 = latency c /\
      let t2 := transition_at c2 (idx id) in
      wf_transition t2 /\ tx_wants t2 = tx_wants t /\ transmit_type t2 = transmit_type t /\
      user1_id t2 = user1_id t /\ user2_id t2 = user2_id t /\ fetched (tables s) t2
    else at_step RPC_GET_DATA (u32 (id + concurrency)) c2.
Proof.
  intros Hc Hs Hr Ht g. pose proof (new_transition_wf _ _ _ _ _ Hr Ht) as Hwf.
  destruct (round_get_data fuel s c id t n Hc Hs Ht Hwf)
    as (c1 & c2 & t2 & T1 & D1 & A2 & E2 & W2 & Q2 & K2 & U1 & U2 & F2 & L2).
  destruct (round_get_lock fuel (count_get_data s) c2 id A2) as (c3 & c4 & b & T3 & D3 & B3 & A4);
    [by apply wf_count_get_data|by rewrite E2|].
  change (tables (count_get_data s)) with (tables s) in *. rewrite E2, Q2 in *. fold g in D3, B3, A4.
  eexists _, c4. split; [by rewrite (rounds_S _ _ _ _ _ _ _ T1 D1), (rounds_S _ _ _ _ _ _ _ T3 D3)|].
  split; [done|]. destruct g; [|done]. destruct A4 as (A4 & -> & ->). done.
Qed.

Lemma finish_stores_range q : Forall (fun s => 0 <= s.1.2 < 2 ^ 64) (finish_stores q).
Proof. unfold finish_stores. rewrite !list.Forall_cons, list.Forall_nil. cbn. auto 6 with bank. Qed.

(** C13.  A transaction of the client against the server, when its locks can be taken:
    three rounds of request and response later each balance is the one the
    transaction means, computed from the balances before it, every lock is as it was,
    one latency is recorded and the client has queued its next request. *)
Theorem host_transaction fuel s c id t n :
  at_step RPC_GET_DATA id c -> wf_server s -> (forall i, 0 <= rnd i < NUM_ACCOUNTS) ->
  new_transition fuel (draws c) id = Some (t, n) ->
  grantable (tx_wants t) (tables s) = true ->
  exists s' c',
    rounds fuel 3 s c = Some (Ok (s', c')) /\
    (forall k, account_at (tables s') k =
       set_balance (tx_balance (transmit_type t) (user1_id t) (user2_id t) (tables s) k)
         (account_at (tables s) k)) /\
    at_step RPC_GET_DATA (u32 (id + concurrency)) c' /\
    length (latency c') = S (length (latency c)).
Proof.
  intros Hc Hs Hr Ht Hg.
  destruct (rounds_lock fuel s c id t n 1 Hc Hs Hr Ht) as (s2 & c2 & E & Hb & H). rewrite Hg in Hb, H.
  destruct H as (A2 & L2 & W2 & Q2 & K2 & U1 & U2 & F2).
  destruct (round_finish fuel s2 c2 id A2 W2) as (c3 & c4 & T & D & A4 & L4).
  eexists _, c4. split; [rewrite E, (rounds_S _ _ _ _ _ _ _ T D); reflexivity|].
  split; [|split; [done|congruence]]. intros k. cbn [tables with_tables count_finish].
  destruct A2 as (_ & _ & Hid). destruct Hs as [Hwb _].
  set (q := finish_msg _ _ _). rewrite Q2.
  assert (wf_bank (tables s2)) as Hwb2.
  { intros k'. rewrite Hb. by apply wf_acquire_all. }
  rewrite (release_acquire_at _ (tables s)); try done.
  - rewrite store_all_at, Hb, acquire_all_at by done. cbn.
    rewrite <- U1, <- U2, <- K2. unfold q. rewrite <- (finish_stored _ id (buf_ (req_buf c2 (idx id)))) by done.
    unfold set_mutex, set_balance. cbn. done.
  - apply wf_store_all; [apply finish_stores_range|done].
  - rewrite <- Q2. by apply wf_locks.
  - rewrite store_all_at, Hb. done.
Qed.

(** A transaction whose locks cannot all be taken leaves the bank as it was; the
    client drops it and queues the next one. *)
Theorem host_transaction_refused fuel s c id t n :
  at_step RPC_GET_DATA id c -> wf_server s -> (forall i, 0 <= rnd i < NUM_ACCOUNTS) ->
  new_transition fuel (draws c) id = Some (t, n) ->
  grantable (tx_wants t) (tables s) = false ->
  exists s' c',
    rounds fuel 2 s c = Some (Ok (s', c')) /\ tables s' ≡ tables s /\
    at_step RPC_GET_DATA (u32 (id + concurrency)) c'.
Proof.
  intros Hc Hs Hr Ht Hg.
  destruct (rounds_lock fuel s c id t n 0 Hc Hs Hr Ht) as (s2 & c2 & E & Hb & H). rewrite Hg in Hb, H.
  exists s2, c2. by rewrite E.
Qed.

(** ** Several requests under way

    The steps of a client whatever the server answers and in whatever order:
    the next step of the queue, and the callback of any request under way. *)

Inductive client_step (fuel : nat) : ClientContext -> ClientContext -> Prop :=
  | StepPop c r q c' :
      queue_store c = r :: q -> dispatch fuel (with_queue q c) r = Some c' -> client_step fuel c c'
  | StepReply c j k resp c' :
      calls c !! j = Some k ->
      callback k (store_response k resp (delete j (calls c)) c) = Ok c' -> client_step fuel c c'.

(** The request numbers queued or under way. *)
Definition ids (c : ClientContext) : list Z := (req_id <$> queue_store c) ++ (call_tag <$> calls c).

(** A transaction step: not a ping, with a 32-bit number and the buffer of that
    number. *)
Definition wf_queued (r : REQ_MSG) : Prop := req_kind r <> RPC_PING /\ 0 <= req_id r < 2 ^ 32.
Definition wf_call (k : call) : Prop :=
  call_type k <> RPC_PING /\ 0 <= call_tag k < 2 ^ 32 /\ call_slot k = Some (idx (call_tag k)).

Definition slots_inv (n : nat) (c : ClientContext) : Prop :=
  NoDup ((fun x => x mod concurrency) <$> ids c) /\ length (ids c) = n /\
  Forall wf_queued (queue_store c) /\ Forall wf_call (calls c).

Lemma slots_inv_perm n c c' :
  ((fun x => x mod concurrency) <$> ids c') ≡ₚ ((fun x => x mod concurrency) <$> ids c) ->
  Forall wf_queued (queue_store c') -> Forall wf_call (calls c') ->
  slots_inv n c -> slots_inv n c'.
Proof.
  intros Hp Hq Hk (H1 & H2 & _ & _). split; [by rewrite Hp|]. split; [|done].
  apply Permutation_length in Hp. rewrite !length_fmap in Hp. congruence.
Qed.

(** A handler sends its request. *)
Lemma dispatch_spec fuel c r c' :
  dispatch fuel c r = Some c' -> wf_queued r ->
  queue_store c' = queue_store c /\
  calls c' = calls c ++ [MkCall (req_kind r) (Some (idx (req_id r))) (req_id r)].
Proof.
  intros H [Hk _]. unfold dispatch in H. destruct (req_kind r); [done|..].
  - unfold handler_get_data in H. destruct (new_transition _ _ _) as [[t n]|]; [|done].
    cbn in H. by injection H as <-.
  - by injection H as <-.
  - by injection H as <-.
Qed.

(** A callback queues the next step of its request, or the request that follows. *)
Lemma callback_spec k c c' :
  callback k c = Ok c' -> wf_call k ->
  calls c' = calls c /\
  exists r, queue_store c' = queue_store c ++ [r] /\ wf_queued r /\
    (req_id r = call_tag k \/ req_id r = u32 (call_tag k + concurrency)).
Proof.
  intros H (Hk & Ht & _). pose proof (wrapu_range 32 (call_tag k + concurrency) ltac:(lia)).
  unfold callback in H. destruct (call_type k); [done|..];
    unfold callback_get_data, callback_get_lock, callback_finish in H; rewrite idx_u32 in H by done;
    destruct (check_reply _ _ _); cbn in H; try done.
  - injection H as <-. split; [done|]. eexists. split; [done|]. split; [done|]. by left.
  - case_match; injection H as <-; (split; [done|]); eexists; (split; [done|]); (split; [done|]);
      [by left|by right].
  - destruct (rd8 _ 25 =? 1); cbn in H; [|done]. injection H as <-. split; [done|]. eexists.
    split; [done|]. split; [done|]. by right.
Qed.

Lemma slots_inv_step fuel n c c' :
  0 < concurrency -> (concurrency | 2 ^ 32) -> client_step fuel c c' -> slots_inv n c -> slots_inv n c'.
Proof.
  intros Hpos Hdiv Hstep Hinv. pose proof Hinv as (_ & _ & Hq & Hk). revert Hinv.
  destruct Hstep as [c r q c' E D|c j k resp c' E D].
  - rewrite E in Hq. apply list.Forall_cons in Hq as [Hr Hq].
    destruct (dispatch_spec fuel _ r c' D Hr) as [E1 E2]. cbn in E1, E2.
    apply slots_inv_perm; unfold ids; rewrite ?E1, ?E2; [|done|].
    + rewrite E. rewrite !fmap_app. cbn. by rewrite app_assoc, Permutation_app_comm.
    + apply list.Forall_app; split; [done|]. apply list.Forall_singleton. by destruct Hr.
  - pose proof (list.Forall_lookup_1 _ _ _ _ Hk E) as Wk.
    assert (calls (store_response k resp (delete j (calls c)) c) = delete j (calls c) /\
            queue_store (store_response k resp (delete j (calls c)) c) = queue_store c) as [C1 C2].
    { unfold store_response. by case_match. }
    destruct (callback_spec k _ c' D Wk) as (E1 & r & E2 & Wr & Hid). rewrite C1 in E1. rewrite C2 in E2.
    apply slots_inv_perm; unfold ids; rewrite ?E1, ?E2.
    + rewrite (delete_Permutation (calls c) j k E) at 2. rewrite !fmap_app. cbn.
      assert (req_id r mod concurrency = call_tag k mod concurrency) as ->.
      { destruct Hid as [-> | ->]; [done|]. unfold wrapu. rewrite Z.mod_mod_divide by done.
        rewrite <- Z.add_mod_idemp_r, Z.mod_same, Z.add_0_r by lia. done. }
      rewrite <- app_assoc. cbn. done.
    + apply list.Forall_app. by rewrite list.Forall_singleton.
    + by apply list.Forall_delete.
Qed.

Lemma slots_inv_run fuel n c c' :
  0 < concurrency -> (concurrency | 2 ^ 32) -> rtc (client_step fuel) c c' -> slots_inv n c -> slots_inv n c'.
Proof. intros Hpos Hdiv. induction 1; eauto using slots_inv_step. Qed.

(** The requests of the leader. *)
Lemma leader_fill_spec n c :
  0 <= req_id_ c -> req_id_ c + Z.of_nat n < 2 ^ 32 ->
  queue_store (leader_fill n c) =
    queue_store c ++ ((fun i => MkReq i RPC_GET_DATA) <$> seqZ (req_id_ c) (Z.of_nat n)) /\
  calls (leader_fill n c) = calls c.
Proof.
  revert c. induction n as [|n IH]; intros c H0 H; cbn [leader_fill].
  { cbn. by rewrite app_nil_r. }
  destruct (IH (bump_req_id (push (MkReq (req_id_ c) RPC_GET_DATA) c))) as [-> ->];
    cbn [req_id_ bump_req_id push with_queue queue_store calls]; rewrite ?wrapu_small by lia; [lia..|].
  split; [|done]. rewrite (seqZ_cons (req_id_ c)) by lia. rewrite Nat2Z.inj_succ, Z.pred_succ.
  rewrite <- app_assoc. done.
Qed.

Lemma fmap_req_id k (l : list Z) : req_id <$> ((fun i => MkReq i k) <$> l) = l.
Proof. induction l as [|i l IH]; [done|]. cbn. by f_equal. Qed.

Lemma seqZ_mod_NoDup (m : Z) i n :
  0 < m -> Z.of_nat n <= m -> NoDup ((fun x => x mod m) <$> seqZ i (Z.of_nat n)).
Proof.
  intros Hm Hn. apply NoDup_fmap_2_strong; [|apply NoDup_seqZ].
  intros x y Hx Hy E. apply elem_of_seqZ in Hx, Hy.
  pose proof (Z.div_mod x m ltac:(lia)). pose proof (Z.div_mod y m ltac:(lia)).
  cbn beta in E. rewrite E in *. set (r := y mod m) in *. set (p := x / m) in *. set (q := y / m) in *.
  clearbody p q r. destruct (Z.lt_trichotomy p q) as [?|[?|?]]; nia.
Qed.


(** ** The ping at the start *)

Definition pinging (c : ClientContext) : Prop :=
  queue_store c = [MkReq 0 RPC_PING] /\ calls c = [] /\ data_size (ping_msgbuf c) = sizeof_PingReq.

Lemma round_ping fuel s c :
  pinging c -> exists c1 c2, client_turn fuel c = Some c1 /\ deliver 0 s c1 = Ok (count_ping s, c2) /\ pinging c2.
Proof.
  intros (Hq & Hk & Hsz). unfold client_turn. rewrite Hq. cbn [length pop_all]. rewrite Hq.
  cbn [dispatch req_kind mbind option_bind pop_all].
  match goal with |- exists c1 c2, Some ?x = Some c1 /\ _ => exists x end.
  unfold handler_ping, deliver.
  cbn [calls with_queue]. rewrite Hk. cbn [app lookup list_lookup call_type].
  unfold call_request. cbn [call_slot ping_msgbuf handle]. unfold ping_handler. cbn [data_size ping_msgbuf].
  change (ping_msgbuf (with_queue [] c)) with (ping_msgbuf c). rewrite Hsz. cbn [rt_assert mbind result_bind].
  change (sizeof_PingReq =? sizeof_PingReq) with true. cbn [rt_assert mbind result_bind].
  unfold callback, callback_ping. cbn [call_type store_response call_slot ping_resp_msgbuf buf_ resize_msg_buffer].
  assert (forall m t k x, resp_status (st64 (put_common_resp t k 0 m) 9 x) = 0) as ->.
  { intros m t k x. unfold resp_status, put_common_resp, ld32, st64, st32.
    rewrite loadle_storele_out by lia. by rewrite loadle_storele_small by (cbn; lia). }
  cbn [rt_assert mbind result_bind Z.eqb]. eexists. split; [reflexivity|]. split; [reflexivity|]. done.
Qed.

(** The reply to the ping is queued where the client itself takes its work: as
    long as no other thread takes it, the client answers every reply with a new ping. *)
Theorem host_ping_repeats fuel n s c :
  pinging c ->
  exists s' c', rounds fuel n s c = Some (Ok (s', c')) /\ pinging c' /\
    stat_req_ping_tot s' = Nat.iter n (fun x => u64 (x + 1)) (stat_req_ping_tot s).
Proof.
  revert s c. induction n as [|n IH]; intros s c Hp; [by eexists _, _|].
  destruct (round_ping fuel s c Hp) as (c1 & c2 & T & D & Hp').
  rewrite (rounds_S fuel n s c c1 _ c2 T D).
  destruct (IH (count_ping s) c2 Hp') as (s' & c' & E & P & St). exists s', c'. split; [done|].
  split; [done|]. by rewrite Nat.iter_succ_r, St.
Qed.
End Client.

(** ** Concrete runs *)

Definition sample_client (q : list REQ_MSG) : ClientContext :=
  MkClient ∅ ∅ ∅ (MkMsg ∅ sizeof_PingReq) empty_msg q 1 ∅ [] 0 0 [].
Definition sample_server : ServerContext := MkServer 0 0 0 0 0 0 (MkBank ∅ ∅).

(** A payment from account 1 to account 2. *)
Definition sample_rnd (n : nat) : Z := match n with O => 3 | 1%nat => 1 | _ => 2 end.

Lemma sample_server_wf : wf_server sample_server.
Proof. apply wf_server_intro; cbn; try lia. intros k. cbn. done. Qed.

Lemma sample_rnd_range i : 0 <= sample_rnd i < NUM_ACCOUNTS.
Proof. unfold NUM_ACCOUNTS. destruct i as [|[|i]]; cbn; lia. Qed.

Definition sample_tx : Transition := mk_transition 7 SendPayment 1 2 0 0 0 0.

Lemma host_transaction_witness :
  exists s' c',
    rounds 4 sample_rnd (fun i => Z.of_nat i * 5000) 0 ∅ 2 3 sample_server
      (sample_client [MkReq 7 RPC_GET_DATA]) = Some (Ok (s', c')) /\
    (forall k, account_at (tables s') k =
       set_balance (tx_balance SendPayment 1 2 (tables sample_server) k)
         (account_at (tables sample_server) k)) /\
    at_step RPC_GET_DATA (u32 (7 + 4)) c' /\
    length (latency c') = 1%nat.
Proof.
  apply (host_transaction 4 sample_rnd (fun i => Z.of_nat i * 5000) 0 ∅ 2 sample_server
           (sample_client [MkReq 7 RPC_GET_DATA]) 7 sample_tx 3);
    [split; [reflexivity|split; [reflexivity|lia]]|apply sample_server_wf|apply sample_rnd_range|
     reflexivity|vm_compute; reflexivity].
Defined.

(** The same payment when account 2 is locked by another client. *)
Definition locked_server : ServerContext :=
  with_tables (upd_account (slot_of Checking 2) (set_mutex (MkRw 0 true)) (MkBank ∅ ∅)) sample_server.

Lemma locked_server_wf : wf_server locked_server.
Proof.
  apply wf_server_intro; cbn; try lia. intros k. rewrite bank_account_at_upd. case_decide; cbn; done.
Qed.

Lemma host_transaction_refused_witness :
  exists s' c',
    rounds 4 sample_rnd (fun i => Z.of_nat i) 0 ∅ 2 2 locked_server
      (sample_client [MkReq 7 RPC_GET_DATA]) = Some (Ok (s', c')) /\
    tables s' ≡ tables locked_server /\ at_step RPC_GET_DATA (u32 (7 + 4)) c'.
Proof.
  apply (host_transaction_refused 4 sample_rnd (fun i => Z.of_nat i) 0 ∅ 2 locked_server
           (sample_client [MkReq 7 RPC_GET_DATA]) 7 sample_tx 3);
    [split; [reflexivity|split; [reflexivity|lia]]|apply locked_server_wf|apply sample_rnd_range|
     reflexivity|vm_compute; reflexivity].
Defined.

(** The first of two requests sent. *)
Definition one_sent : ClientContext :=
  default (sample_client [])
    (dispatch sample_rnd (fun _ => 0) 0 2 (with_queue [MkReq 2 RPC_GET_DATA] (leader_fill 2 (sample_client [])))
       (MkReq 1 RPC_GET_DATA)).


Lemma host_ping_repeats_witness :
  exists s' c',
    rounds 1 sample_rnd (fun _ => 0) 0 ∅ 2 3 sample_server (sample_client [MkReq 0 RPC_PING]) =
      Some (Ok (s', c')) /\ pinging c' /\
    stat_req_ping_tot s' = Nat.iter 3 (fun x => u64 (x + 1)) 0.
Proof.
  apply (host_ping_repeats 1 sample_rnd (fun _ => 0) 0 ∅ 2 3 sample_server (sample_client [MkReq 0 RPC_PING])).
  split; [reflexivity|split; reflexivity].
Defined.

(** ** Amounts and rounding *)

(** From the initial balance the amount is lost to rounding: no transaction but
    [Amalgamate] changes a balance of the initial tables. *)
Theorem host_amount_absorbed junk t u1 u2 k :
  t <> Amalgamate -> 0 <= u1 < NUM_ACCOUNTS -> 0 <= u2 < NUM_ACCOUNTS ->
  tx_balance t u1 u2 (main_init junk) k = balance (account_at (main_init junk) k).
Proof.
  intros Ht H1 H2.
  assert (forall tb u, 0 <= u < NUM_ACCOUNTS ->
    balance (account_at (main_init junk) (slot_of tb u)) = double_of_Z (SIZE_MAX / 2)) as Hb.
  { intros tb u Hu. by rewrite host_initial_accounts. }
  assert (dadd (double_of_Z (SIZE_MAX / 2)) AMOUNT = double_of_Z (SIZE_MAX / 2)) as Ea
    by (vm_compute; reflexivity).
  assert (dsub (double_of_Z (SIZE_MAX / 2)) AMOUNT = double_of_Z (SIZE_MAX / 2)) as Es
    by (vm_compute; reflexivity).
  unfold tx_balance. revert Hb Ea Es. generalize (main_init junk), (double_of_Z (SIZE_MAX / 2)), AMOUNT.
  intros b x a Hb Ea Es.
  destruct t; [congruence|reflexivity|..]; cbv zeta beta; repeat (case_bool_decide; subst);
    rewrite ?Hb, ?Ea, ?Es by assumption; reflexivity.
Qed.

Lemma host_amount_absorbed_witness :
  tx_balance SendPayment 3 4 (main_init []) (slot_of Checking 4) =
  balance (account_at (main_init []) (slot_of Checking 4)).
Proof.
  apply (host_amount_absorbed [] SendPayment 3 4 (slot_of Checking 4));
    [discriminate|unfold NUM_ACCOUNTS; lia|unfold NUM_ACCOUNTS; lia].
Defined.
