(* ===== verification/HostFlexio.v ===== *)
(** * HostFlexio: the host side of the FlexIO programs

    Translation of [wrapper_flexio/wrapper_flexio.cpp] and [.hpp]: the classes
    [Context], [CommandQ], [CQ], [SQ], [RQ], [flow_matcher], [dr_flow_rule] and [DR],
    which create the queues a device program works on.

    libflexio, libibverbs and mlx5dv are not in the repository.  A call of theirs is a
    value of [hcall]; [lib_result] is the library's answer to the [n]-th call, [None]
    for a failure status or a null pointer, and the calls made are recorded in order.
    The calls that move data also act on the [World] of the device: completion and
    receive rings are copied element by element.  [Assert] throws: an operation whose
    assertion fails has no result, and leaves what it did before. *)

From S2P Require Import Prelude Machine FlexioDev WrapperDevice.

(** ** The libraries *)

Inductive func_id := FnInit | FnHandler | FnFirstPacket | FnStop | FnStopTime | FnTask (n : Z).

#[export] Instance func_id_eq : EqDecision func_id.
Proof. solve_decision. Defined.

(** [struct flexio_cq_attr] and [struct flexio_wq_attr], the members that are set. *)
Record cq_attr := MkCqAttr {
  ca_log_depth : Z; ca_dpa_thread : option Z; ca_uar_id : Z; ca_dbr_daddr : Z; ca_ring_daddr : Z;
}.
Record wq_attr := MkWqAttr {
  wa_log_depth : Z; wa_uar_id : Z; wa_pd : Z; wa_allow_multi_pkt : bool; wa_dbr_daddr : option Z;
  wa_ring_daddr : Z;
}.

Section Calls.
Context {F : FlexioDev}.

(** What a copy to the device carries. *)
Inductive hdata :=
  | Dbr (rcv snd : Z)
  | CqRing (es : list cqe64)
  | RxRing (es : list rwqe)
  | Config (c : queue_config_data).

Inductive hcall :=
  | IbvGetDeviceList | IbvOpenDevice (dev : Z) | IbvFreeDeviceList | IbvCloseDevice (ctx : Z)
  | IbvAllocPd (ctx : Z) | IbvRegMr (pd addr size flag : Z) | MrLkey (mr : Z)
  | GetHugeMem (numa size : Z) | Calloc (n size : Z)
  | ProcessCreate (ctx app : Z) | ProcessGetUar (process : Z) | UarGetId (uar : Z)
  | WindowCreate (process pd : Z) | WindowGetId (window : Z)
  | MkeyCreate (process pd daddr len access : Z) | MkeyGetId (mkey : Z)
  | MsgStreamCreate (process uar index : Z) | MsgStreamGetId (stream : Z) | MsgStreamFlush (stream : Z)
  | OpenFile (index : Z)
  | EventHandlerCreate (process : Z) (f : func_id) (affinity : Z)
  | EventHandlerRun (handler arg : Z) | EventHandlerGetThread (handler : Z)
  | CopyFromHost (process : Z) (d : hdata) | BufDevAlloc (process size : Z)
  | Host2DevMemcpy (process : Z) (d : hdata) (daddr : Z)
  | CqCreate (process ctx : Z) (a : cq_attr) | CqGetNum (cq : Z)
  | SqCreate (process cq_num : Z) (a : wq_attr) | SqGetNum (sq : Z)
  | RqCreate (process cq_num : Z) (a : wq_attr) | RqGetNum (rq : Z) | RqGetTir (rq : Z)
  | CmdqCreate (process workers batch_size : Z) | CmdqTaskAdd (cmdq : Z) (f : func_id) (arg : Z)
  | CmdqStateRunning (cmdq : Z) | CmdqIsEmpty (cmdq : Z) | Usleep (us : Z) | TimerTic | TimerToc
  | DrDomainCreate (ctx type : Z) | DrTableCreate (domain level : Z)
  | DrMatcherCreate (table priority criteria : Z) (mask : mem)
  | DrActionDestTir (tir : Z) | DrActionDestTable (table : Z) | DrActionDestVport (domain vport : Z)
  | DrRuleCreate (matcher : Z) (value : mem) (actions : list Z)
  | ProcessCall (process : Z) (f : func_id) (arg : Z).
End Calls.
Arguments hdata : clear implicits.
Arguments hcall : clear implicits.

Class FlexioHost (F : FlexioDev) := {
  (** [mlx5dv.h]: elements of a ring, zeroed by [calloc], and their setters *)
  cqe64_calloc : cqe64;
  mlx5dv_set_cqe_owner : cqe64 -> Z -> cqe64;
  rwqe_calloc : rwqe;
  mlx5dv_set_data_seg : rwqe -> Z -> Z -> Z -> rwqe;
  (** [DEVX_SET] and [DEVX_GET] of a field given by its bit offset and width *)
  devx_set : Z * Z -> Z -> mem -> mem;
  devx_get : Z * Z -> mem -> Z;
  (** the names [ibv_get_device_list] gives *)
  device_names : list Z;
  (** the answer to the [n]-th call *)
  lib_result : nat -> hcall F -> option Z;
}.

(** The calls that allocate device memory. *)
Definition allocates {F : FlexioDev} (c : hcall F) : bool :=
  match c with CopyFromHost _ _ | BufDevAlloc _ _ => true | _ => false end.

Definition disjoint_fields (f g : Z * Z) : Prop := f.1 + f.2 <= g.1 \/ g.1 + g.2 <= f.1.

(** What the proofs use of the libraries' documentation. *)
Class FlexioHostLaws {F : FlexioDev} (H : FlexioHost F) : Prop := {
  owner_set e v : 0 <= v < 2 -> flexio_dev_cqe_get_owner (mlx5dv_set_cqe_owner e v) = v;
  data_seg_addr e len lkey a :
    0 <= a < 2 ^ 64 -> flexio_dev_rwqe_get_addr (mlx5dv_set_data_seg e len lkey a) = a;
  devx_get_set f v m : 0 <= f.2 -> devx_get f (devx_set f v m) = v mod 2 ^ f.2;
  devx_get_set_ne f g v m : disjoint_fields f g -> devx_get g (devx_set f v m) = devx_get g m;
  devx_get_zero f : devx_get f ∅ = 0;
  huge_range n numa size a :
    lib_result n (GetHugeMem numa size) = Some a -> 0 <= a /\ a + size <= 2 ^ 64;
  dev_range n p size a :
    lib_result n (BufDevAlloc p size) = Some a -> 0 <= a /\ a + size <= 2 ^ 64;
  alloc_fresh n n' c c' a a' :
    n <> n' -> allocates c = true -> allocates c' = true ->
    lib_result n c = Some a -> lib_result n' c' = Some a' -> a <> a';
}.

(** Chains of [keeps], and addresses handed out at an earlier state. *)
Ltac keeps_trans lem :=
  repeat apply lem;
  solve [ reflexivity | eassumption
        | etrans; [eassumption|keeps_trans lem] ].

Section Host.
Context {F : FlexioDev} {H : FlexioHost F} {D : Type}.

(** ** State and effects *)

Record Context := MkContext {
  inner_ibv_context : Z;
  pd : Z;
  process : Z;
  flexio_uar : Z;
  event_handler_vec : list Z;
  window : Z;
  mr_vec : list Z;
  default_stream : Z;
  streams : list Z;
}.

(** The host: its context, the calls made, the device's memory (rings, buffers and
    configuration blocks) and the static state of the device program. *)
Record host := MkHost {
  h_ctx : Context;
  h_calls : list (hcall F);
  h_world : World F;
  h_configs : gmap Z queue_config_data;
  h_dev : D;
}.

Definition M (A : Type) : Type := host -> option A * host.

#[export] Instance M_ret : MRet M := fun A a h => (Some a, h).
#[export] Instance M_bind : MBind M := fun A B f c h =>
  match c h with (Some a, h) => f a h | (None, h) => (None, h) end.

(** A value that must be there, an assertion, and the end of the program. *)
Definition of_option {A} (r : option A) : M A := fun h => (r, h).
Definition Assert (b : bool) : M unit := of_option (if b then Some tt else None).
Definition fail {A} : M A := of_option None.
Definition get_ctx : M Context := fun h => (Some (h_ctx h), h).
Definition put_ctx (c : Context) : M unit :=
  fun h => (Some tt, MkHost c (h_calls h) (h_world h) (h_configs h) (h_dev h)).
Definition get_config (a : Z) : M (option queue_config_data) := fun h => (Some (h_configs h !! a), h).
Definition modify_world (f : World F -> World F) : M unit :=
  fun h => (Some tt, MkHost (h_ctx h) (h_calls h) (f (h_world h)) (h_configs h) (h_dev h)).
Definition put_config (a : Z) (c : queue_config_data) : M unit :=
  fun h => (Some tt, MkHost (h_ctx h) (h_calls h) (h_world h) (<[a := c]> (h_configs h)) (h_dev h)).

(** A call, whatever its answer. *)
Definition lib_opt (c : hcall F) : M (option Z) := fun h =>
  (Some (lib_result (length (h_calls h)) c),
   MkHost (h_ctx h) (h_calls h ++ [c]) (h_world h) (h_configs h) (h_dev h)).

(** A call whose result is asserted. *)
Definition lib (c : hcall F) : M Z := r ← lib_opt c; of_option r.

(** A call whose result is not checked: a null pointer is 0. *)
Definition lib_unchecked (c : hcall F) : M Z := r ← lib_opt c; mret (default 0 r).

(** Elements of a ring at a base address. *)
Fixpoint put_ring {A} (ring : gmap (Z * Z) A) (base i : Z) (es : list A) : gmap (Z * Z) A :=
  match es with
  | [] => ring
  | e :: es => put_ring (<[(base, i) := e]> ring) base (i + 1) es
  end.

Definition set_rq (r : gmap (Z * Z) rwqe) (w : World F) : World F :=
  MkWorld (w_mem w) (w_cq w) r (w_sq w) (w_tick w) (w_window w) (w_trace w).

(** The device's memory after a copy of [d] to [a]; doorbell records are not read
    by the device program. *)
Definition land_data (d : hdata F) (a : Z) : M unit :=
  match d with
  | Dbr _ _ => mret tt
  | CqRing es => modify_world (fun w => set_cq (put_ring (w_cq w) a 0 es) w)
  | RxRing es => modify_world (fun w => set_rq (put_ring (w_rq w) a 0 es) w)
  | Config c => put_config a c
  end.

(** [flexio_copy_from_host] and [flexio_host2dev_memcpy]. *)
Definition flexio_copy_from_host (d : hdata F) : M Z :=
  c ← get_ctx;
  a ← lib (CopyFromHost (process c) d);
  _ ← land_data d a;
  mret a.
Definition flexio_host2dev_memcpy (d : hdata F) (daddr : Z) : M unit :=
  c ← get_ctx;
  _ ← lib (Host2DevMemcpy (process c) d daddr);
  land_data d daddr.
Definition flexio_buf_dev_alloc (size : Z) : M Z :=
  c ← get_ctx;
  lib (BufDevAlloc (process c) size).

(** ** Context *)

Definition zero_context : Context := MkContext 0 0 0 0 [] 0 [] 0 [].

(** [strcmp] over the device list: the index of the first device of the name. *)
Definition find_device (device_name : Z) : option Z :=
  (fun p => Z.of_nat p.1) <$> list_find (fun n => n = device_name) device_names.

(** The constructor; a name that is not found exits. *)
Definition Context_new (device_name : Z) : M unit :=
  _ ← lib IbvGetDeviceList;
  match find_device device_name with
  | None => fail
  | Some dev =>
      ctx ← lib (IbvOpenDevice dev);
      _ ← lib_opt IbvFreeDeviceList;
      put_ctx (MkContext ctx 0 0 0 [] 0 [] 0 [])
  end.

Definition Context_delete : M unit :=
  c ← get_ctx; r ← lib (IbvCloseDevice (inner_ibv_context c)); Assert (r =? 0).

Definition get_flexio_uar_id : M Z :=
  c ← get_ctx; _ ← Assert (truthy (flexio_uar c)); lib_unchecked (UarGetId (flexio_uar c)).

Definition get_event_handler (index : nat) : M Z :=
  c ← get_ctx;
  of_option (event_handler_vec c !! index).

Definition get_window_id : M Z :=
  c ← get_ctx; _ ← Assert (truthy (window c)); lib_unchecked (WindowGetId (window c)).

Definition alloc_pd : M unit :=
  c ← get_ctx;
  p ← lib (IbvAllocPd (inner_ibv_context c));
  put_ctx (MkContext (inner_ibv_context c) p (process c) (flexio_uar c) (event_handler_vec c)
             (window c) (mr_vec c) (default_stream c) (streams c)).

(** [DOCA::get_huge_mem] fails inside. *)
Definition alloc_huge (size : Z) : M Z := lib (GetHugeMem 0 size).

Definition create_process (app : Z) : M unit :=
  c ← get_ctx;
  p ← lib (ProcessCreate (inner_ibv_context c) app);
  put_ctx (MkContext (inner_ibv_context c) (pd c) p (flexio_uar c) (event_handler_vec c)
             (window c) (mr_vec c) (default_stream c) (streams c)).

Definition generate_flexio_uar : M unit :=
  c ← get_ctx;
  _ ← Assert (flexio_uar c =? 0);
  u ← lib (ProcessGetUar (process c));
  _ ← Assert (truthy u);
  put_ctx (MkContext (inner_ibv_context c) (pd c) (process c) u (event_handler_vec c)
             (window c) (mr_vec c) (default_stream c) (streams c)).

Definition create_window : M unit :=
  c ← get_ctx;
  w ← lib (WindowCreate (process c) (pd c));
  put_ctx (MkContext (inner_ibv_context c) (pd c) (process c) (flexio_uar c) (event_handler_vec c)
             w (mr_vec c) (default_stream c) (streams c)).

Definition get_mr (index : nat) : M Z :=
  c ← get_ctx; of_option (mr_vec c !! index).

Definition reg_mr (addr size flag : Z) : M Z :=
  c ← get_ctx;
  mr ← lib (IbvRegMr (pd c) addr size flag);
  _ ← put_ctx (MkContext (inner_ibv_context c) (pd c) (process c) (flexio_uar c) (event_handler_vec c)
                 (window c) (mr_vec c ++ [mr]) (default_stream c) (streams c));
  mret mr.

Definition create_mkey (daddr size access : Z) : M Z :=
  c ← get_ctx; lib (MkeyCreate (process c) (pd c) daddr size access).

(** The streams of the threads; the library numbers them from 1. *)
Fixpoint print_streams (n : nat) (i : Z) : M unit :=
  match n with
  | O => mret tt
  | S n =>
      c ← get_ctx;
      _ ← lib (OpenFile i);
      s ← lib (MsgStreamCreate (process c) (flexio_uar c) (i + 1));
      id ← lib_unchecked (MsgStreamGetId s);
      _ ← Assert (id =? i + 1);
      _ ← put_ctx (MkContext (inner_ibv_context c) (pd c) (process c) (flexio_uar c)
                     (event_handler_vec c) (window c) (mr_vec c) (default_stream c) (streams c ++ [s]));
      print_streams n (i + 1)
  end.

Definition print_init (num_threads : nat) : M unit :=
  c ← get_ctx;
  s ← lib (MsgStreamCreate (process c) (flexio_uar c) 0);
  _ ← put_ctx (MkContext (inner_ibv_context c) (pd c) (process c) (flexio_uar c) (event_handler_vec c)
                 (window c) (mr_vec c) s []);
  print_streams num_threads 0.

Fixpoint flush_streams (ss : list Z) : M unit :=
  match ss with
  | [] => mret tt
  | s :: ss => _ ← lib_opt (MsgStreamFlush s); flush_streams ss
  end.
Definition flush : M unit :=
  c ← get_ctx; _ ← lib_opt (MsgStreamFlush (default_stream c)); flush_streams (streams c).

Definition create_event_handler (f : func_id) : M Z :=
  c ← get_ctx;
  e ← lib (EventHandlerCreate (process c) f (u32 (Z.of_nat (length (event_handler_vec c)))));
  _ ← put_ctx (MkContext (inner_ibv_context c) (pd c) (process c) (flexio_uar c)
                 (event_handler_vec c ++ [e]) (window c) (mr_vec c) (default_stream c) (streams c));
  mret e.

Definition event_handler_run (ddata : Z) (index : nat) : M unit :=
  e ← get_event_handler index; _ ← lib (EventHandlerRun e ddata); mret tt.

Definition allocate_dbr : M Z := flexio_copy_from_host (Dbr 0 0).

Definition create_dpa_mkey (daddr log_buf_size flags : Z) : M Z :=
  c ← get_ctx; lib (MkeyCreate (process c) (pd c) daddr (LOG2VALUE log_buf_size) flags).

(** [move_to_dev] of a configuration block. *)
Definition move_to_dev (c : queue_config_data) : M Z := flexio_copy_from_host (Config c).

(** ** CommandQ *)

Definition CommandQ_new (num_threads batch_size : Z) : M Z :=
  c ← get_ctx; lib (CmdqCreate (process c) num_threads batch_size).
Definition add_task (cmd_q : Z) (f : func_id) (ddata : Z) : M unit :=
  _ ← lib (CmdqTaskAdd cmd_q f ddata); mret tt.
Definition run (cmd_q : Z) : M unit :=
  _ ← lib_opt TimerTic; _ ← lib (CmdqStateRunning cmd_q); mret tt.

(** The loop of [wait_run]: a turn sleeps a millisecond and asserts that the time
    waited stays below the limit; [n] bounds the turns. *)
Fixpoint wait_loop (n : nat) (cmd_q time_out_seconds useconds : Z) : M (option unit) :=
  empty ← lib_unchecked (CmdqIsEmpty cmd_q);
  if truthy empty then mret (Some tt)
  else
    match n with
    | O => mret None
    | S n =>
        _ ← lib_opt (Usleep 1000);
        let useconds := s32 (useconds + 1000) in
        _ ← Assert (useconds <? time_out_seconds * 1000000);
        wait_loop n cmd_q time_out_seconds useconds
    end.

Definition wait_run (n : nat) (cmd_q time_out_seconds : Z) : M (option Z) :=
  r ← wait_loop n cmd_q time_out_seconds 0;
  match r with
  | None => mret None
  | Some _ => d ← lib_unchecked TimerToc; mret (Some d)
  end.

(** ** Completion queues *)

Record CQ := MkCQ { inner_cq_ptr : Z; cq_transf : app_transfer_cq }.

(** The loop of [allocate_cq_memory]: every element of the ring owned by hardware. *)
Definition cq_ring_src (num_of_cqes : Z) : list cqe64 :=
  replicate (Z.to_nat num_of_cqes) (mlx5dv_set_cqe_owner cqe64_calloc 1).

(** [allocate_cq_memory]: the doorbell record and the ring. *)
Definition allocate_cq_memory (log_depth : Z) : M (Z * Z) :=
  dbr ← allocate_dbr;
  let num_of_cqes := s32 (LOG2VALUE log_depth) in
  _ ← lib (Calloc (u64 num_of_cqes) (LOG2VALUE 6));
  ring ← flexio_copy_from_host (CqRing (cq_ring_src num_of_cqes));
  mret (dbr, ring).

Definition get_cq_num (q : CQ) : M Z := lib_unchecked (CqGetNum (inner_cq_ptr q)).

Definition CQ_new (is_rq : bool) (log_depth : Z) (event_index : nat) : M CQ :=
  thread ← (if is_rq then e ← get_event_handler event_index;
                          t ← lib_unchecked (EventHandlerGetThread e); mret (Some t)
            else mret None);
  uar ← get_flexio_uar_id;
  '(dbr, ring) ← allocate_cq_memory log_depth;
  c ← get_ctx;
  cq ← lib (CqCreate (process c) (if is_rq then 0 else inner_ibv_context c)
              (MkCqAttr log_depth thread uar dbr ring));
  num ← lib_unchecked (CqGetNum cq);
  mret (MkCQ cq {| cq_num := num; log_cq_depth := log_depth; cq_ring_daddr := ring; cq_dbr_daddr := dbr |}).

(** ** Receive queues *)

Record RQ := MkRQ { inner_rq_ptr : Z; rq_transf : app_transfer_wq }.

Definition sizeof_wqe_data_seg : Z := 16.
Definition MR_FLAGS : Z := 15.

(** The host buffer of a queue: huge pages, zeroed and registered. *)
Definition host_buffer (log_size : Z) : M (Z * Z) :=
  p ← alloc_huge (Z.land (u64 (LOG2VALUE log_size + 63)) (Z.lnot 63));
  _ ← Assert (truthy p);
  _ ← modify_world (fun w => set_mem (wrbytes (w_mem w) p (replicate (Z.to_nat (LOG2VALUE log_size)) 0)) w);
  mr ← reg_mr p (LOG2VALUE log_size) MR_FLAGS;
  mret (p, mr).

(** The memory of a work queue whose ring takes [ring_bsize] bytes: data buffer, ring,
    doorbell record, and the region of a host buffer. *)
Definition allocate_dpa_memory (ring_bsize log_size : Z) : M (Z * Z * Z) :=
  wqd ← flexio_buf_dev_alloc (LOG2VALUE log_size);
  ring ← flexio_buf_dev_alloc ring_bsize;
  dbr ← allocate_dbr;
  mret (wqd, ring, dbr).
Definition allocate_host_memory (ring_bsize log_size : Z) : M (Z * Z * Z * Z) :=
  '(wqd, mr) ← host_buffer log_size;
  ring ← flexio_buf_dev_alloc ring_bsize;
  dbr ← allocate_dbr;
  mret (wqd, ring, dbr, mr).

(** The memory and the key of its data buffer. *)
Definition wq_memory (ring_bsize log_size access : Z) (on_host : bool) : M (Z * Z * Z * Z) :=
  if on_host then
    '(wqd, ring, dbr, mr) ← allocate_host_memory ring_bsize log_size;
    lkey ← lib_unchecked (MrLkey mr);
    mret (wqd, ring, dbr, lkey)
  else
    '(wqd, ring, dbr) ← allocate_dpa_memory ring_bsize log_size;
    mkey ← create_dpa_mkey wqd log_size access;
    id ← lib_unchecked (MkeyGetId mkey);
    mret (wqd, ring, dbr, id).

Definition allocate_rq_dpa_memory (log_depth log_data_size : Z) : M (Z * Z * Z) :=
  allocate_dpa_memory (u64 (LOG2VALUE log_depth * sizeof_wqe_data_seg)) (log_depth + log_data_size).
Definition allocate_rq_host_memory (log_depth log_data_size : Z) : M (Z * Z * Z * Z) :=
  allocate_host_memory (u64 (LOG2VALUE log_depth * sizeof_wqe_data_seg)) (log_depth + log_data_size).

(** The loop of [init_dpa_rq_ring]. *)
Fixpoint rx_wqes (n : nat) (data_chunk_bsize mkey_id wqd_daddr : Z) : list rwqe :=
  match n with
  | O => []
  | S n => mlx5dv_set_data_seg rwqe_calloc data_chunk_bsize mkey_id wqd_daddr
             :: rx_wqes n data_chunk_bsize mkey_id (wqd_daddr +64 data_chunk_bsize)%cint
  end.

(** The result of this [calloc] is not asserted; the loop that follows writes to it, and
    the program ends there when it is null. *)
Definition init_dpa_rq_ring (log_depth log_data_size mkey_id wqd ring : Z) : M unit :=
  let num_of_wqes := s32 (LOG2VALUE log_depth) in
  _ ← lib (Calloc (u64 num_of_wqes) sizeof_wqe_data_seg);
  flexio_host2dev_memcpy
    (RxRing (rx_wqes (Z.to_nat num_of_wqes) (LOG2VALUE log_data_size) mkey_id wqd)) ring.

Definition LOCAL_WRITE : Z := 1.
Definition REMOTE_WRITE : Z := 2.

(** The memory of the constructor, [allocate_rq_host_memory] or [allocate_rq_dpa_memory]. *)
Definition rq_memory (log_depth log_data_size : Z) (rqbuff_on_host : bool) : M (Z * Z * Z * Z) :=
  wq_memory (u64 (LOG2VALUE log_depth * sizeof_wqe_data_seg)) (log_depth + log_data_size)
    (Z.lor LOCAL_WRITE REMOTE_WRITE) rqbuff_on_host.

Definition RQ_new (log_depth log_data_size cqn : Z) (rqbuff_on_host : bool) : M RQ :=
  '(wqd, ring, dbr, mkey_id) ← rq_memory log_depth log_data_size rqbuff_on_host;
  _ ← init_dpa_rq_ring log_depth log_data_size mkey_id wqd ring;
  c ← get_ctx;
  rq ← lib (RqCreate (process c) cqn (MkWqAttr log_depth 0 (pd c) false (Some dbr) ring));
  num ← lib_unchecked (RqGetNum rq);
  _ ← flexio_host2dev_memcpy (Dbr (bswap 4 (Z.land (u32 (LOG2VALUE log_depth)) 0xffff)) (bswap 4 0)) dbr;
  mret (MkRQ rq {| wq_num := num; wqd_mkey_id := mkey_id; wq_ring_daddr := ring; wq_dbr_daddr := dbr;
                   wqd_daddr := wqd; daddr_on_host := c_bool rqbuff_on_host |}).

(** ** Send queues *)

Record SQ := MkSQ { inner_sq_ptr : Z; sq_transf : app_transfer_wq }.

Definition LOG_WQE_BSIZE : Z := 6.

Definition allocate_sq_dpa_memory (log_depth log_data_size : Z) : M (Z * Z * Z) :=
  allocate_dpa_memory (LOG2VALUE (log_depth + LOG_WQE_BSIZE)) (log_depth + log_data_size).
Definition allocate_sq_host_memory (log_depth log_data_size : Z) : M (Z * Z * Z * Z) :=
  allocate_host_memory (LOG2VALUE (log_depth + LOG_WQE_BSIZE)) (log_depth + log_data_size).

Definition create_sq (log_depth uar cqn ring : Z) : M (Z * Z) :=
  c ← get_ctx;
  sq ← lib (SqCreate (process c) cqn (MkWqAttr log_depth uar (pd c) true None ring));
  num ← lib_unchecked (SqGetNum sq);
  mret (sq, num).

(** The constructor with its own buffer. *)
Definition sq_memory (log_depth log_data_size : Z) (buff_on_host : bool) : M (Z * Z * Z * Z) :=
  wq_memory (LOG2VALUE (log_depth + LOG_WQE_BSIZE)) (log_depth + log_data_size)
    LOCAL_WRITE buff_on_host.

Definition SQ_new (log_depth log_data_size cqn : Z) (buff_on_host : bool) : M SQ :=
  uar ← get_flexio_uar_id;
  '(wqd, ring, dbr, mkey_id) ← sq_memory log_depth log_data_size buff_on_host;
  '(sq, num) ← create_sq log_depth uar cqn ring;
  mret (MkSQ sq {| wq_num := num; wqd_mkey_id := mkey_id; wq_ring_daddr := ring; wq_dbr_daddr := dbr;
                   wqd_daddr := wqd; daddr_on_host := c_bool buff_on_host |}).

(** The constructor that shares the buffer of a receive queue. *)
Definition SQ_new_shared (log_depth cqn : Z) (rq : RQ) : M SQ :=
  uar ← get_flexio_uar_id;
  let r := rq_transf rq in
  _ ← Assert (truthy (wqd_daddr r) && negb (wqd_mkey_id r =? 2 ^ 32 - 1));
  ring ← flexio_buf_dev_alloc (LOG2VALUE (log_depth + LOG_WQE_BSIZE));
  dbr ← allocate_dbr;
  '(sq, num) ← create_sq log_depth uar cqn ring;
  mret (MkSQ sq {| wq_num := num; wqd_mkey_id := wqd_mkey_id r; wq_ring_daddr := ring;
                   wq_dbr_daddr := dbr; wqd_daddr := wqd_daddr r; daddr_on_host := daddr_on_host r |}).

(** ** Flow rules *)

(** [mlx5_ifc_dr_match_spec_bits]: bit offset and width of the fields used. *)
Definition smac_47_16 : Z * Z := (0x00, 0x20).
Definition smac_15_0 : Z * Z := (0x20, 0x10).
Definition dmac_47_16 : Z * Z := (0x40, 0x20).
Definition dmac_15_0 : Z * Z := (0x60, 0x10).
Definition udp_sport : Z * Z := (0xe0, 0x10).
Definition udp_dport : Z * Z := (0xf0, 0x10).
Definition src_ip_31_0 : Z * Z := (0x160, 0x20).
Definition dst_ip_31_0 : Z * Z := (0x1e0, 0x20).

(** A [flow_matcher] is its [match_buf]. *)
Definition matcher_clear : mem := ∅.
Definition set_src_mac_mask (m : mem) : mem := devx_set smac_15_0 0xffff (devx_set smac_47_16 0xffffffff m).
Definition set_src_mac (mac : Z) (m : mem) : mem :=
  devx_set smac_15_0 (mac mod Z.shiftl 1 16) (devx_set smac_47_16 (Z.shiftr mac 16) m).
Definition set_dst_mac_mask (m : mem) : mem := devx_set dmac_15_0 0xffff (devx_set dmac_47_16 0xffffffff m).
Definition set_dst_mac (mac : Z) (m : mem) : mem :=
  devx_set dmac_15_0 (mac mod Z.shiftl 1 16) (devx_set dmac_47_16 (Z.shiftr mac 16) m).
Definition set_src_ipv4_mask (m : mem) : mem := devx_set src_ip_31_0 0xffffffff m.
Definition set_src_ipv4 (ip : Z) (m : mem) : mem := devx_set src_ip_31_0 ip m.
Definition set_dst_ipv4_mask (m : mem) : mem := devx_set dst_ip_31_0 0xffffffff m.
Definition set_dst_ipv4 (ip : Z) (m : mem) : mem := devx_set dst_ip_31_0 ip m.
Definition set_src_udp_port_mask (m : mem) : mem := devx_set udp_sport 0xffff m.
Definition set_src_udp_port (port : Z) (m : mem) : mem := devx_set udp_sport port m.
Definition set_dst_udp_port_mask (m : mem) : mem := devx_set udp_dport 0xffff m.
Definition set_dst_udp_port (port : Z) (m : mem) : mem := devx_set udp_dport port m.

Record dr_flow_table := MkTable { dr_table : Z; dr_matcher : Z }.

(** A rule under construction is the list of its actions. *)
Definition add_dest_devx_tir (rq_ptr : Z) (dr_actions : list Z) : M (list Z) :=
  tir ← lib_unchecked (RqGetTir rq_ptr);
  a ← lib (DrActionDestTir tir); mret (dr_actions ++ [a]).
Definition add_dest_table (table : Z) (dr_actions : list Z) : M (list Z) :=
  a ← lib (DrActionDestTable table); mret (dr_actions ++ [a]).
Definition add_dest_vport (domain vport : Z) (dr_actions : list Z) : M (list Z) :=
  a ← lib (DrActionDestVport domain vport); mret (dr_actions ++ [a]).
Definition create_dr_rule (t : dr_flow_table) (matcher : mem) (dr_actions : list Z) : M Z :=
  _ ← Assert (negb (bool_decide (dr_actions = [])));
  lib (DrRuleCreate (dr_matcher t) matcher dr_actions).

Definition NIC_RX : Z := 0.
Definition FDB : Z := 2.

Definition DR_new (type : Z) : M Z :=
  c ← get_ctx; lib_unchecked (DrDomainCreate (inner_ibv_context c) type).
Definition create_flow_table (domain level priority : Z) (matcher : mem) : M dr_flow_table :=
  t ← lib_unchecked (DrTableCreate domain level);
  m ← lib_unchecked (DrMatcherCreate t priority 1 matcher);
  mret (MkTable t m).

(** A function of the device program runs and may change the device's state. *)
Definition run_device (body : D -> World F -> Z * D * World F) : M Z := fun h =>
  let '(ret, d, w) := body (h_dev h) (h_world h) in
  (Some ret, MkHost (h_ctx h) (h_calls h) w (h_configs h) d).

(** [flexio_process_call] of a function that reads the block at the address it is
    given, and of one that is given no block. *)
Definition flexio_process_call (f : func_id)
    (body : queue_config_data -> D -> World F -> Z * D * World F) (arg : Z) : M Z :=
  c ← get_ctx;
  _ ← lib (ProcessCall (process c) f arg);
  cfg ← get_config arg;
  cfg ← of_option cfg;
  run_device (body cfg).
Definition flexio_process_call0 (f : func_id) (body : D -> World F -> Z * D * World F) : M Z :=
  c ← get_ctx;
  _ ← lib (ProcessCall (process c) f 0);
  run_device body.

(** ** Reasoning about an operation

    [wp m Q h]: run from [h], [m] ends in a state that satisfies [Q], and it throws only
    when a library call that was made has been refused. *)

(** The answers that the program checks later, against null or against the key that stands
    for no key ([SQ::SQ], [get_window], [generate_flexio_uar]). *)
Definition null_checked (c : hcall F) : bool :=
  match c with
  | GetHugeMem _ _ | BufDevAlloc _ _ | WindowCreate _ _ | ProcessGetUar _ => true
  | _ => false
  end.
Definition key_checked (c : hcall F) : bool := match c with MrLkey _ | MkeyGetId _ => true | _ => false end.

(** A failure, or a null pointer or no key where that is checked. *)
Definition refused (c : hcall F) (r : option Z) : Prop :=
  r = None \/ (null_checked c = true /\ r = Some 0) \/ (key_checked c = true /\ r = Some (2 ^ 32 - 1)).
Definition call_refused (h : host) : Prop :=
  exists n c, h_calls h !! n = Some c /\ refused c (lib_result n c).

Definition wp {A} (m : M A) (Q : A -> host -> Prop) (h : host) : Prop :=
  match m h with (Some a, h') => Q a h' | (None, h') => call_refused h' end.

Lemma wp_ret {A} (a : A) Q h : Q a h -> wp (mret a) Q h.
Proof. done. Qed.

Lemma wp_bind {A B} (m : M A) (f : A -> M B) Q h :
  wp m (fun a h' => wp (f a) Q h') h -> wp (m ≫= f) Q h.
Proof. unfold wp, mbind, M_bind. by destruct (m h) as [[a|] h']. Qed.

Lemma wp_mono {A} (m : M A) (Q Q' : A -> host -> Prop) h :
  wp m Q h -> (forall a h', Q a h' -> Q' a h') -> wp m Q' h.
Proof. unfold wp. intros Hw HQ. destruct (m h) as [[a|] h']; auto. Qed.

(** The state after a call. *)
Definition logged (c : hcall F) (h : host) : host :=
  MkHost (h_ctx h) (h_calls h ++ [c]) (h_world h) (h_configs h) (h_dev h).
Definition answer (c : hcall F) (h : host) : option Z := lib_result (length (h_calls h)) c.

Lemma wp_lib_opt c Q h : Q (answer c h) (logged c h) -> wp (lib_opt c) Q h.
Proof. done. Qed.

Lemma call_refused_prefix h h' :
  h_calls h `prefix_of` h_calls h' -> call_refused h -> call_refused h'.
Proof.
  intros [l Hl] (n & c & Hn & Hr). exists n, c. split; [|done]. rewrite Hl. by apply lookup_app_l_Some.
Qed.

Lemma answer_refused c h : refused c (answer c h) -> call_refused (logged c h).
Proof.
  intros Hr. exists (length (h_calls h)), c. split; [|done].
  cbn. by rewrite lookup_app_r, Nat.sub_diag by lia.
Qed.

Lemma wp_lib c Q h : (forall v, answer c h = Some v -> Q v (logged c h)) -> wp (lib c) Q h.
Proof.
  intros HQ. unfold lib, wp, mbind, M_bind, lib_opt, of_option. fold (answer c h). fold (logged c h).
  destruct (answer c h) as [v|] eqn:E; [by apply HQ|].
  apply answer_refused. by left.
Qed.

Lemma wp_lib_unchecked c Q h : Q (default 0 (answer c h)) (logged c h) -> wp (lib_unchecked c) Q h.
Proof. done. Qed.

Lemma wp_get_ctx Q h : Q (h_ctx h) h -> wp get_ctx Q h.
Proof. done. Qed.

Lemma wp_put_ctx c Q h :
  Q tt (MkHost c (h_calls h) (h_world h) (h_configs h) (h_dev h)) -> wp (put_ctx c) Q h.
Proof. done. Qed.

Lemma wp_assert b Q h : b = true -> Q tt h -> wp (Assert b) Q h.
Proof. by intros ->. Qed.

Lemma wp_assert_or b Q h : (b = false -> call_refused h) -> (b = true -> Q tt h) -> wp (Assert b) Q h.
Proof. unfold wp. destruct b; cbn; auto. Qed.

Lemma wp_of_option {A} (r : option A) v Q h : r = Some v -> Q v h -> wp (of_option r) Q h.
Proof. by intros ->. Qed.

(** ** What every operation leaves alone *)

(** Device memory the library has handed out. *)
Definition allocated (h : host) (a : Z) : Prop :=
  exists n c, h_calls h !! n = Some c /\ allocates c = true /\ lib_result n c = Some a.

(** The parts of the context queue constructors read. *)
Definition ctx_of (c : Context) : Z * Z * Z * list Z * Z * Z :=
  (inner_ibv_context c, process c, flexio_uar c, event_handler_vec c, window c, default_stream c).

(** Calls are only added, the device program does not run, and what lies at an
    address handed out before stays as it is. *)
Record keeps (h h' : host) : Prop := MkKeeps {
  keeps_calls : h_calls h `prefix_of` h_calls h';
  keeps_ctx : ctx_of (h_ctx h') = ctx_of (h_ctx h);
  keeps_dev : h_dev h' = h_dev h;
  keeps_cq a i : allocated h a -> w_cq (h_world h') !! (a, i) = w_cq (h_world h) !! (a, i);
  keeps_rq a i : allocated h a -> w_rq (h_world h') !! (a, i) = w_rq (h_world h) !! (a, i);
  keeps_cfg a : allocated h a -> h_configs h' !! a = h_configs h !! a;
  keeps_sq : w_sq (h_world h') = w_sq (h_world h);
  keeps_trace : w_trace (h_world h') = w_trace (h_world h);
}.

Lemma allocated_prefix h h' a : h_calls h `prefix_of` h_calls h' -> allocated h a -> allocated h' a.
Proof.
  intros [l Hl] (n & c & Hn & Ha & Hr). exists n, c. split_and!; [|done|done].
  rewrite Hl. by apply lookup_app_l_Some.
Qed.

Lemma keeps_allocated h h' a : keeps h h' -> allocated h a -> allocated h' a.
Proof. intros []. by apply allocated_prefix. Qed.

#[export] Instance keeps_preorder : PreOrder keeps.
Proof.
  split.
  - intros h. by split.
  - intros h1 h2 h3 K1 K2. split.
    + etrans; [apply K1|apply K2].
    + etrans; [apply K2|apply K1].
    + etrans; [apply K2|apply K1].
    + intros a i Ha. etrans; [apply K2; by eapply keeps_allocated|by apply K1].
    + intros a i Ha. etrans; [apply K2; by eapply keeps_allocated|by apply K1].
    + intros a Ha. etrans; [apply K2; by eapply keeps_allocated|by apply K1].
    + etrans; [apply K2|apply K1].
    + etrans; [apply K2|apply K1].
Qed.

Lemma keeps_logged c h : keeps h (logged c h).
Proof. split; try done. by exists [c]. Qed.

Lemma keeps_logged_r c h h' : keeps h h' -> keeps h (logged c h').
Proof. intros K. etrans; [exact K|apply keeps_logged]. Qed.

(** A call that allocates: its address is now handed out, and was not before. *)
Lemma allocated_logged c h a : answer c h = Some a -> allocates c = true -> allocated (logged c h) a.
Proof.
  intros Ha Hc. exists (length (h_calls h)), c. split_and!; [|done|done].
  cbn. by rewrite lookup_app_r, Nat.sub_diag by lia.
Qed.

Ltac keeps_solve := keeps_trans keeps_logged_r.
Ltac alloc_solve :=
  lazymatch goal with
  | Ha : allocated ?h ?a |- allocated _ ?a => refine (keeps_allocated _ _ _ _ Ha); keeps_solve
  end.

Section Laws.
Context `{!FlexioHostLaws H}.

Lemma fresh_answer c h a b :
  answer c h = Some a -> allocates c = true -> allocated h b -> b <> a.
Proof.
  intros Ha Hc (n & c' & Hn & Hc' & Hb). apply lookup_lt_Some in Hn.
  eapply (alloc_fresh n (length (h_calls h)) c' c); eauto. lia.
Qed.

(** Copies to the device. *)
Lemma put_ring_ne {A} (es : list A) ring base i b j :
  b <> base -> put_ring ring base i es !! (b, j) = ring !! (b, j).
Proof.
  intros Hb. revert ring i. induction es as [|e es IH]; intros ring i; cbn; [done|].
  rewrite IH. apply lookup_insert_ne. congruence.
Qed.

Lemma put_ring_before {A} (es : list A) ring base i j :
  j < i -> put_ring ring base i es !! (base, j) = ring !! (base, j).
Proof.
  revert ring i. induction es as [|e es IH]; intros ring i Hj; cbn; [done|].
  rewrite IH by lia. apply lookup_insert_ne. intros [=]. lia.
Qed.

Lemma put_ring_lookup {A} (es : list A) ring base i k e :
  es !! k = Some e -> put_ring ring base i es !! (base, i + Z.of_nat k) = Some e.
Proof.
  revert ring i k. induction es as [|e' es IH]; intros ring i [|k] Hk; cbn in *; try done.
  - injection Hk as ->. rewrite Z.add_0_r, put_ring_before by lia. apply lookup_insert_eq.
  - rewrite <- (IH (<[(base, i) := e']> ring) (i + 1) k Hk). do 2 f_equal. lia.
Qed.

(** What a block of data at [a] is on the device. *)
Definition lies_at (d : hdata F) (a : Z) (h : host) : Prop :=
  match d with
  | Dbr _ _ => True
  | CqRing es => forall k e, es !! k = Some e -> w_cq (h_world h) !! (a, Z.of_nat k) = Some e
  | RxRing es => forall k e, es !! k = Some e -> w_rq (h_world h) !! (a, Z.of_nat k) = Some e
  | Config c => h_configs h !! a = Some c
  end.

Lemma lies_at_keeps d a h h' : keeps h h' -> allocated h a -> lies_at d a h -> lies_at d a h'.
Proof.
  intros K Ha. destruct d; cbn; intros Hl; [done| | |].
  - intros k e Hk. rewrite (keeps_cq _ _ K) by done. auto.
  - intros k e Hk. rewrite (keeps_rq _ _ K) by done. auto.
  - by rewrite (keeps_cfg _ _ K).
Qed.

(** A block lands at an address that was not handed out in [h0]. *)
Lemma wp_land_data d a h0 h :
  keeps h0 h -> (forall b, allocated h0 b -> b <> a) ->
  wp (land_data d a) (fun _ h' => keeps h0 h' /\ h_calls h' = h_calls h /\ lies_at d a h') h.
Proof.
  intros [Kp Kc Kd Kcq Krq Kcf Ks Kt] Hf. destruct d; unfold wp; cbn.
  - done.
  - split_and!; [split; try done|done|]; cbn.
    + intros b i Hb. rewrite put_ring_ne by auto. auto.
    + intros k e Hk. by apply (put_ring_lookup _ _ _ 0 k e).
  - split_and!; [split; try done|done|]; cbn.
    + intros b i Hb. rewrite put_ring_ne by auto. auto.
    + intros k e Hk. by apply (put_ring_lookup _ _ _ 0 k e).
  - split_and!; [split; try done|done|]; cbn.
    + intros b Hb. rewrite lookup_insert_ne by (apply not_eq_sym; auto). auto.
    + apply lookup_insert_eq.
Qed.

Lemma wp_copy_from_host d h :
  wp (flexio_copy_from_host d) (fun a h' => keeps h h' /\ allocated h' a /\ lies_at d a h' /\
    forall b, allocated h b -> b <> a) h.
Proof.
  unfold flexio_copy_from_host. apply wp_bind, wp_get_ctx, wp_bind, wp_lib. intros a Ha.
  assert (forall b, allocated h b -> b <> a) as Hf by (intros b Hb; exact (fresh_answer _ _ _ _ Ha eq_refl Hb)).
  apply wp_bind. eapply wp_mono; [eapply wp_land_data; [apply keeps_logged|exact Hf]|].
  intros _ h' (K & Hc & Hl). apply wp_ret. split_and!; try done.
  eapply allocated_prefix; [|exact (allocated_logged _ _ _ Ha eq_refl)]. by rewrite Hc.
Qed.

Lemma wp_buf_dev_alloc size h :
  wp (flexio_buf_dev_alloc size) (fun a h' => keeps h h' /\ allocated h' a /\
    (forall b, allocated h b -> b <> a) /\ 0 <= a /\ a + size <= 2 ^ 64) h.
Proof.
  unfold flexio_buf_dev_alloc. apply wp_bind, wp_get_ctx, wp_lib. intros a Ha.
  split; [apply keeps_logged|]. split; [exact (allocated_logged _ _ _ Ha eq_refl)|].
  split; [intros b Hb; exact (fresh_answer _ _ _ _ Ha eq_refl Hb)|]. by apply dev_range in Ha.
Qed.

Lemma wp_host2dev_memcpy d a h0 h :
  keeps h0 h -> (forall b, allocated h0 b -> b <> a) ->
  wp (flexio_host2dev_memcpy d a) (fun _ h' => keeps h0 h' /\ lies_at d a h' /\
    h_calls h `prefix_of` h_calls h') h.
Proof.
  intros K Hf. unfold flexio_host2dev_memcpy. apply wp_bind, wp_get_ctx, wp_bind, wp_lib. intros v _.
  eapply wp_mono; [apply wp_land_data; [|exact Hf]; etrans; [exact K|apply keeps_logged]|].
  intros _ h' (K' & Hc & Hl). split_and!; [done..|]. rewrite Hc. by exists [Host2DevMemcpy (process (h_ctx h)) d a].
Qed.

(** A call that only asks keeps everything. *)
Lemma wp_lib_keeps c h0 h Q :
  keeps h0 h -> (forall v h', keeps h0 h' -> keeps h h' -> Q v h') -> wp (lib c) Q h.
Proof. intros K HQ. apply wp_lib. intros v _. apply HQ; [etrans; [exact K|]|]; apply keeps_logged. Qed.
Lemma wp_unchecked_keeps c h0 h Q :
  keeps h0 h -> (forall v h', keeps h0 h' -> keeps h h' -> Q v h') -> wp (lib_unchecked c) Q h.
Proof. intros K HQ. apply wp_lib_unchecked, HQ; [etrans; [exact K|]|]; apply keeps_logged. Qed.

(** ** The queue constructors *)

(** The context is far enough for queues of handler [index]. *)
Definition ready (index : nat) (h : host) : Prop :=
  flexio_uar (h_ctx h) <> 0 /\ (index < length (event_handler_vec (h_ctx h)))%nat.

Lemma ready_keeps index h h' : keeps h h' -> ready index h -> ready index h'.
Proof.
  intros K [Hu He]. pose proof (keeps_ctx _ _ K) as E. unfold ctx_of in E.
  injection E as ? ? ? ? ? ?. split; congruence.
Qed.

Lemma LOG2VALUE_pow l : 0 <= l < 64 -> LOG2VALUE l = 2 ^ l.
Proof.
  intros Hl. unfold LOG2VALUE. rewrite Z.shiftl_1_l. apply Z.mod_small.
  split; [lia|]. apply Z.pow_lt_mono_r; lia.
Qed.

Lemma num_entries l : 0 <= l < 31 -> s32 (LOG2VALUE l) = 2 ^ l.
Proof.
  intros Hl. rewrite LOG2VALUE_pow by lia. pose proof (Z.pow_lt_mono_r 2 l 31).
  apply wraps_small; lia.
Qed.

Lemma wp_get_flexio_uar_id index h0 h Q :
  ready index h -> keeps h0 h -> (forall v h', keeps h0 h' -> Q v h') -> wp get_flexio_uar_id Q h.
Proof.
  intros [Hu _] K HQ. unfold get_flexio_uar_id. apply wp_bind, wp_get_ctx, wp_bind, wp_assert.
  { unfold truthy. by rewrite (proj2 (Z.eqb_neq _ _) Hu). }
  eapply wp_unchecked_keeps; [exact K|auto].
Qed.

Lemma wp_allocate_dbr h0 h Q :
  keeps h0 h -> (forall v h', keeps h0 h' -> keeps h h' -> (forall b, allocated h0 b -> b <> v) -> Q v h') ->
  wp allocate_dbr Q h.
Proof.
  intros K HQ. unfold allocate_dbr. eapply wp_mono; [apply wp_copy_from_host|].
  intros a h' (K' & _ & _ & Hf). apply HQ; [by etrans|done|].
  intros b Hb. apply Hf. by eapply keeps_allocated.
Qed.

Lemma cq_thread_keeps (is_rq : bool) index h Q :
  ready index h -> (forall v h', keeps h h' -> Q v h') ->
  wp (if is_rq then e ← get_event_handler index;
                    t ← lib_unchecked (EventHandlerGetThread e); mret (Some t)
      else mret None) Q h.
Proof.
  intros [_ He] HQ. destruct is_rq; [|by apply wp_ret, HQ].
  apply lookup_lt_is_Some in He as [e Ee].
  unfold get_event_handler. apply wp_bind, wp_bind, wp_get_ctx.
  eapply wp_of_option; [exact Ee|].
  apply wp_bind, wp_lib_unchecked, wp_ret, HQ, keeps_logged.
Qed.

Lemma wp_CQ_new is_rq ld index h :
  ready index h -> 0 <= ld < 31 ->
  wp (CQ_new is_rq ld index) (fun q h' =>
    keeps h h' /\ log_cq_depth (cq_transf q) = ld /\
    let r := cq_ring_daddr (cq_transf q) in
    allocated h' r /\ (forall b, allocated h b -> b <> r) /\
    forall i, 0 <= i < 2 ^ ld ->
      w_cq (h_world h') !! (r, i) = Some (mlx5dv_set_cqe_owner cqe64_calloc 1)) h.
Proof.
  intros Hr Hld. unfold CQ_new. apply wp_bind, (cq_thread_keeps _ _ _ _ Hr). intros t h1 K1.
  apply wp_bind. eapply wp_get_flexio_uar_id; [by eapply ready_keeps|exact K1|]. intros u h2 K2.
  apply wp_bind. unfold allocate_cq_memory. apply wp_bind, (wp_allocate_dbr _ _ _ K2).
  intros dbr h3' K3' _ _. apply wp_bind, (wp_lib_keeps _ h); [done|]. intros _ h3 K3 _.
  apply wp_bind. eapply wp_mono; [apply wp_copy_from_host|].
  intros ring h4 (K4 & Ha & Hl & Hf). apply wp_ret, wp_bind, wp_get_ctx, wp_bind.
  apply (wp_lib_keeps _ h4); [done|]. intros cq h5 K5 _.
  apply wp_bind, (wp_unchecked_keeps _ h4); [done|]. intros num h6 K6 _. apply wp_ret. cbn.
  split; [by etrans; [exact K3|]; etrans|]. split; [done|].
  split; [by eapply keeps_allocated|]. split; [intros b Hb; apply Hf; by eapply keeps_allocated|].
  intros i Hi. rewrite (keeps_cq _ _ K6) by done. cbn in Hl.
  rewrite <- (Z2Nat.id i) by lia. apply Hl. unfold cq_ring_src. rewrite num_entries by done.
  apply lookup_replicate_2. lia.
Qed.

(** A data buffer of a queue: [size] bytes that do not wrap around, with its key. *)
Definition good_buffer (size a key : Z) (h : host) : Prop :=
  0 <= a /\ a + size <= 2 ^ 64 /\ (a = 0 -> call_refused h) /\ (key = 2 ^ 32 - 1 -> call_refused h).

Lemma good_buffer_keeps size a key h h' : keeps h h' -> good_buffer size a key h -> good_buffer size a key h'.
Proof.
  intros K (H0 & H1 & Hz & Hk). pose proof (call_refused_prefix h h' (keeps_calls _ _ K)).
  split_and!; auto.
Qed.

Lemma unchecked_key c h :
  key_checked c = true -> default 0 (answer c h) = 2 ^ 32 - 1 -> call_refused (logged c h).
Proof.
  intros Hc E. apply answer_refused. right. right. split; [done|].
  destruct (answer c h) as [v|]; cbn in E; [by subst|done].
Qed.

Lemma null_refused c h : null_checked c = true -> answer c h = Some 0 -> call_refused (logged c h).
Proof. intros Hc E. apply answer_refused. right. by left. Qed.

Lemma round_64 size : 0 <= size -> size + 63 < 2 ^ 64 -> size <= Z.land (u64 (size + 63)) (Z.lnot 63).
Proof.
  intros H0 H1. rewrite wrapu_small by lia. change (Z.lnot 63) with (Z.lnot (Z.ones 6)).
  rewrite <- Z.ldiff_land, Z.ldiff_ones_r, Z.shiftl_mul_pow2, Z.shiftr_div_pow2 by lia. mlia.
Qed.

Lemma wp_host_buffer l h0 h Q :
  0 <= l < 63 -> keeps h0 h ->
  (forall p mr h', keeps h0 h' -> keeps h h' -> 0 < p -> p + 2 ^ l <= 2 ^ 64 -> Q (p, mr) h') ->
  wp (host_buffer l) Q h.
Proof.
  intros Hl K HQ. unfold host_buffer, alloc_huge. apply wp_bind, wp_lib. intros p Hp.
  apply wp_bind, wp_assert_or; intros Ht.
  { apply null_refused; [done|]. rewrite Hp. f_equal. unfold truthy in Ht. destruct (Z.eqb_spec p 0); done. }
  apply huge_range in Hp as [H0 H1]. rewrite LOG2VALUE_pow in * by lia.
  assert (p <> 0) by (intros ->; done).
  assert (2 ^ l <= 2 ^ 62) by (apply Z.pow_le_mono_r; lia).
  pose proof (round_64 (2 ^ l) ltac:(lia) ltac:(lia)).
  apply wp_bind. unfold wp at 1. cbn. apply wp_bind. unfold reg_mr. apply wp_bind, wp_get_ctx, wp_bind, wp_lib.
  intros mr _. apply wp_bind, wp_put_ctx, wp_ret, wp_ret.
  apply HQ; [etrans; [exact K|]| |lia|lia]; (split; try done; cbn; rewrite <- app_assoc; by eexists).
Qed.

Lemma wp_wq_memory ring_bsize ls access on_host h :
  0 <= ls < 63 ->
  wp (wq_memory ring_bsize ls access on_host) (fun '(wqd, ring, dbr, key) h' =>
    keeps h h' /\ good_buffer (2 ^ ls) wqd key h' /\ allocated h' ring /\
    (forall b, allocated h b -> b <> ring /\ b <> dbr)) h.
Proof.
  intros Hls. unfold wq_memory. destruct on_host.
  - apply wp_bind. unfold allocate_host_memory. apply wp_bind, (wp_host_buffer _ h); [lia|done|].
    intros p mr h1 K1 _ Hp Hp'. apply wp_bind. eapply wp_mono; [apply wp_buf_dev_alloc|].
    intros ring h2 (K2 & Ha & Hf & _). apply wp_bind, (wp_allocate_dbr h2); [done|].
    intros dbr h3 K3 _ Hd. apply wp_ret, wp_bind, wp_lib_unchecked, wp_ret.
    assert (keeps h h2) as K02 by (by etrans).
    split; [keeps_solve|]. split; [split_and!; try lia; by apply unchecked_key|].
    split; [alloc_solve|]. intros b Hb. split; [apply Hf|apply Hd]; alloc_solve.
  - apply wp_bind. unfold allocate_dpa_memory. apply wp_bind. unfold flexio_buf_dev_alloc at 1.
    apply wp_bind, wp_get_ctx, wp_lib. intros p Hp.
    pose proof (dev_range _ _ _ _ Hp) as [H0 H1]. rewrite LOG2VALUE_pow in H1 by lia.
    assert (p = 0 -> call_refused (logged (BufDevAlloc (process (h_ctx h)) (LOG2VALUE ls)) h)) as Hz.
    { intros ->. by apply null_refused. }
    apply wp_bind. eapply wp_mono; [apply wp_buf_dev_alloc|].
    intros ring h2 (K2 & Ha & Hf & _). apply wp_bind, (wp_allocate_dbr h2); [done|].
    intros dbr h3 K3 _ Hd. apply wp_ret, wp_bind. unfold create_dpa_mkey.
    apply wp_bind, wp_get_ctx, wp_lib. intros mkey _. apply wp_bind, wp_lib_unchecked, wp_ret.
    assert (keeps h h2) as K02 by (etrans; [apply keeps_logged|exact K2]).
    split; [keeps_solve|].
    split; [split_and!; try lia; [|by apply unchecked_key];
      intros Hp0; refine (call_refused_prefix _ _ (keeps_calls _ _ _) (Hz Hp0)); keeps_solve|].
    split; [alloc_solve|]. intros b Hb. split; [apply Hf|apply Hd]; alloc_solve.
Qed.

Lemma rx_wqes_lookup n k size key a :
  (k < n)%nat -> 0 < size -> 0 <= a -> a + size * Z.of_nat n <= 2 ^ 64 ->
  rx_wqes n size key a !! k = Some (mlx5dv_set_data_seg rwqe_calloc size key (a + size * Z.of_nat k)).
Proof.
  revert k a. induction n as [|n IH]; intros k a Hk Hsz Ha Hs; [lia|].
  destruct k as [|k]; cbn; [do 2 f_equal; lia|].
  destruct n as [|n]; [lia|].
  rewrite wrapu_small by nia. rewrite IH by nia. do 2 f_equal. lia.
Qed.

Lemma wp_RQ_new ld ds cqn on_host h :
  0 <= ld < 31 -> 0 <= ds -> ld + ds < 63 ->
  wp (RQ_new ld ds cqn on_host) (fun q h' =>
    keeps h h' /\
    let t := rq_transf q in
    daddr_on_host t = c_bool on_host /\ good_buffer (2 ^ (ld + ds)) (wqd_daddr t) (wqd_mkey_id t) h' /\
    allocated h' (wq_ring_daddr t) /\ (forall b, allocated h b -> b <> wq_ring_daddr t) /\
    forall i, 0 <= i < 2 ^ ld -> exists e, w_rq (h_world h') !! (wq_ring_daddr t, i) = Some e /\
      flexio_dev_rwqe_get_addr e = wqd_daddr t + i * 2 ^ ds) h.
Proof.
  intros Hld Hds Hs. unfold RQ_new. apply wp_bind.
  eapply wp_mono; [apply wp_wq_memory; lia|]. intros [[[wqd ring] dbr] key] h0 (K0 & Hb0 & Ha0 & Hf).
  apply wp_bind. unfold init_dpa_rq_ring. apply wp_bind, (wp_lib_keeps _ h); [done|]. intros _ h1 K1 K01.
  pose proof (good_buffer_keeps _ _ _ _ _ K01 Hb0) as Hb. pose proof (keeps_allocated _ _ _ K01 Ha0) as Ha.
  clear h0 K0 Hb0 Ha0 K01.
  eapply wp_mono; [apply (wp_host2dev_memcpy _ _ h h1 K1); apply Hf|]. intros _ h2 (K2 & Hl & P2).
  apply wp_bind, wp_get_ctx, wp_bind, (wp_lib_keeps _ h2); [done|]. intros rq h3 K3 _.
  apply wp_bind, (wp_unchecked_keeps _ h2); [done|]. intros num h4 K4 _.
  assert (keeps h h4) as K04 by keeps_solve.
  assert (allocated h2 ring) as Ha2 by (by eapply allocated_prefix).
  assert (good_buffer (2 ^ (ld + ds)) wqd key h2) as Hb2.
  { destruct Hb as (H0 & H1 & Hz & Hk). split_and!; try done; intros; eapply call_refused_prefix; eauto. }
  apply wp_bind. unfold flexio_host2dev_memcpy. apply wp_bind, wp_get_ctx, wp_bind, wp_lib. intros v _.
  unfold wp. cbn. split; [keeps_solve|]. split; [done|].
  split; [refine (good_buffer_keeps _ _ _ _ _ _ Hb2); keeps_solve|].
  split; [alloc_solve|]. split; [apply Hf|]. intros i Hi.
  assert (0 < 2 ^ ds) as Hp by lia. destruct Hb as (H0 & H1 & _). rewrite Z.pow_add_r in H1 by lia.
  exists (mlx5dv_set_data_seg rwqe_calloc (2 ^ ds) key (wqd + 2 ^ ds * i)). split.
  - rewrite (keeps_rq _ _ K4) by done. rewrite <- (Z2Nat.id i) by lia. apply Hl.
    rewrite num_entries, LOG2VALUE_pow by lia. apply rx_wqes_lookup; nia.
  - rewrite data_seg_addr by nia. lia.
Qed.

(** The library has been told of a send queue of this depth and ring. *)
Definition sq_created (ld ring : Z) (h : host) : Prop :=
  exists p cqn uar pd, SqCreate p cqn (MkWqAttr ld uar pd true None ring) ∈ h_calls h.

Lemma sq_created_prefix ld ring h h' :
  h_calls h `prefix_of` h_calls h' -> sq_created ld ring h -> sq_created ld ring h'.
Proof. intros [l Hl] (p & cqn & uar & pd' & E). exists p, cqn, uar, pd'. rewrite Hl. set_solver. Qed.

Lemma wp_create_sq ld uar cqn ring h :
  wp (create_sq ld uar cqn ring) (fun _ h' => keeps h h' /\ sq_created ld ring h') h.
Proof.
  unfold create_sq. apply wp_bind, wp_get_ctx, wp_bind, wp_lib. intros sq _.
  apply wp_bind, wp_lib_unchecked, wp_ret. split; [keeps_solve|].
  exists (process (h_ctx h)), cqn, uar, (pd (h_ctx h)). cbn. set_solver.
Qed.

(** The keys and the buffer of a send queue that shares a receive queue's. *)
Lemma wp_SQ_new_shared ld cqn rq index h size :
  ready index h -> good_buffer size (wqd_daddr (rq_transf rq)) (wqd_mkey_id (rq_transf rq)) h ->
  wp (SQ_new_shared ld cqn rq) (fun q h' =>
    keeps h h' /\
    let t := sq_transf q in
    wqd_daddr t = wqd_daddr (rq_transf rq) /\ wqd_mkey_id t = wqd_mkey_id (rq_transf rq) /\
    daddr_on_host t = daddr_on_host (rq_transf rq) /\ allocated h' (wq_ring_daddr t) /\
    (forall b, allocated h b -> b <> wq_ring_daddr t) /\ sq_created ld (wq_ring_daddr t) h') h.
Proof.
  intros Hr Hg. unfold SQ_new_shared. apply wp_bind.
  eapply wp_get_flexio_uar_id; [exact Hr|reflexivity|]. intros uar h1 K1.
  apply (good_buffer_keeps _ _ _ _ _ K1) in Hg as (_ & _ & Hz & Hk).
  apply wp_bind, wp_assert_or; intros Hb.
  { apply andb_false_iff in Hb as [Hb|Hb]; apply negb_false_iff, Z.eqb_eq in Hb; auto. }
  apply wp_bind. eapply wp_mono; [apply wp_buf_dev_alloc|]. intros ring h2 (K2 & Ha & Hf & _).
  apply wp_bind, (wp_allocate_dbr h2); [done|]. intros dbr h3 K3 _ _.
  apply wp_bind. eapply wp_mono; [apply wp_create_sq|]. intros [sq num] h4 (K4 & Hc).
  apply wp_ret. cbn. split_and!; try done; [keeps_solve|alloc_solve|].
  intros b Hb'. apply Hf. alloc_solve.
Qed.

Lemma wp_move_to_dev c h :
  wp (move_to_dev c) (fun a h' => keeps h h' /\ allocated h' a /\ h_configs h' !! a = Some c) h.
Proof. eapply wp_mono; [apply wp_copy_from_host|]. intros a h' (K & Ha & Hl & _). done. Qed.

(** A send queue with its own buffer. *)
Lemma wp_SQ_new ld ds cqn on_host index h :
  ready index h -> 0 <= ld + ds < 63 ->
  wp (SQ_new ld ds cqn on_host) (fun q h' =>
    keeps h h' /\
    let t := sq_transf q in
    daddr_on_host t = c_bool on_host /\ good_buffer (2 ^ (ld + ds)) (wqd_daddr t) (wqd_mkey_id t) h' /\
    allocated h' (wq_ring_daddr t) /\ (forall b, allocated h b -> b <> wq_ring_daddr t) /\
    sq_created ld (wq_ring_daddr t) h') h.
Proof.
  intros Hr Hs. unfold SQ_new. apply wp_bind.
  eapply wp_get_flexio_uar_id; [exact Hr|reflexivity|]. intros uar h1 K1.
  apply wp_bind. eapply wp_mono; [by apply wp_wq_memory|].
  intros [[[wqd ring] dbr] key] h2 (K2 & Hb & Ha & Hf).
  apply wp_bind. eapply wp_mono; [apply wp_create_sq|]. intros [sq num] h4 (K4 & Hc).
  apply wp_ret. cbn. split_and!; try done; [keeps_solve| |alloc_solve|].
  { refine (good_buffer_keeps _ _ _ _ _ _ Hb). keeps_solve. }
  intros b Hb'. apply Hf. alloc_solve.
Qed.

(** ** Flow rules *)

(** The addresses a matcher compares. *)
Definition matched_dst_mac (m : mem) : Z := devx_get dmac_47_16 m * 2 ^ 16 + devx_get dmac_15_0 m.
Definition matched_src_mac (m : mem) : Z := devx_get smac_47_16 m * 2 ^ 16 + devx_get smac_15_0 m.

Ltac devx :=
  repeat first
    [ rewrite devx_get_set by (vm_compute; congruence)
    | rewrite devx_get_set_ne
        by (first [left; vm_compute; congruence | right; vm_compute; congruence]) ];
  unfold dmac_47_16, dmac_15_0, smac_47_16, smac_15_0; cbn [fst snd].

Lemma set_dst_mac_matched mac m :
  0 <= mac < 2 ^ 48 ->
  matched_dst_mac (set_dst_mac mac m) = mac /\ matched_src_mac (set_dst_mac mac m) = matched_src_mac m.
Proof.
  intros Hm. unfold matched_dst_mac, matched_src_mac, set_dst_mac. devx.
  split; [|done]. rewrite Z.shiftr_div_pow2 by lia. change (Z.shiftl 1 16) with (2 ^ 16). mlia.
Qed.

Lemma set_src_mac_matched mac m :
  0 <= mac < 2 ^ 48 ->
  matched_src_mac (set_src_mac mac m) = mac /\ matched_dst_mac (set_src_mac mac m) = matched_dst_mac m.
Proof.
  intros Hm. unfold matched_dst_mac, matched_src_mac, set_src_mac. devx.
  split; [|done]. rewrite Z.shiftr_div_pow2 by lia. change (Z.shiftl 1 16) with (2 ^ 16). mlia.
Qed.
End Laws.

(** ** Waiting for a command queue *)

(** Whether the [k]-th poll of a wait that starts in [h] finds the queue empty. *)
Definition empty_at (cmd_q : Z) (h : host) (k : nat) : bool :=
  truthy (default 0 (lib_result (length (h_calls h) + 2 * k) (CmdqIsEmpty cmd_q))).

(** The calls of [k] turns. *)
Fixpoint wait_calls (cmd_q : Z) (k : nat) : list (hcall F) :=
  match k with
  | O => [CmdqIsEmpty cmd_q]
  | S k => CmdqIsEmpty cmd_q :: Usleep 1000 :: wait_calls cmd_q k
  end.

Lemma empty_at_shift cmd_q h h' k :
  length (h_calls h') = S (S (length (h_calls h))) -> empty_at cmd_q h' k = empty_at cmd_q h (S k).
Proof.
  intros E. unfold empty_at. rewrite E.
  by replace (S (S (length (h_calls h))) + 2 * k)%nat with (length (h_calls h) + 2 * S k)%nat by lia.
Qed.

(** The loop after [us] milliseconds. *)
Lemma wait_loop_outcome n cmd_q t us h :
  1 <= t <= 2147 -> 0 <= us < 1000 * t -> 1000 * t <= us + Z.of_nat n ->
  match wait_loop n cmd_q t (1000 * us) h with
  | (Some (Some _), h') => exists k, us + Z.of_nat k < 1000 * t /\ empty_at cmd_q h k = true /\
      (forall j, (j < k)%nat -> empty_at cmd_q h j = false) /\
      h_calls h' = h_calls h ++ wait_calls cmd_q k
  | (Some None, _) => False
  | (None, _) => forall j, us + Z.of_nat j < 1000 * t -> empty_at cmd_q h j = false
  end.
Proof.
  intros Ht. revert us h. induction n as [|n IH]; intros us h Hus Hn; [lia|].
  cbn [wait_loop]. unfold lib_unchecked, lib_opt, mbind, M_bind, mret, M_ret. cbn -[wait_loop].
  assert (truthy (default 0 (lib_result (length (h_calls h)) (CmdqIsEmpty cmd_q))) =
          empty_at cmd_q h 0) as E0 by (unfold empty_at; by rewrite Nat.add_0_r).
  rewrite E0. destruct (empty_at cmd_q h 0) eqn:E; cbn -[wait_loop].
  { exists 0%nat. split_and!; [lia|done|lia|done]. }
  rewrite wraps_small by lia. unfold Assert.
  destruct (1000 * us + 1000 <? t * 1000000) eqn:Hb; cbn -[wait_loop].
  2: { apply Z.ltb_ge in Hb. intros j Hj. destruct j; [done|lia]. }
  apply Z.ltb_lt in Hb. replace (1000 * us + 1000) with (1000 * (us + 1)) by lia.
  set (h2 := MkHost _ _ _ _ _).
  assert (forall j, empty_at cmd_q h2 j = empty_at cmd_q h (S j)) as Hs.
  { intros j. apply empty_at_shift. cbn. rewrite !length_app. cbn. lia. }
  specialize (IH (us + 1) h2 ltac:(lia) ltac:(lia)).
  destruct (wait_loop n cmd_q t (1000 * (us + 1)) h2) as [[[u|]|] h']; [|done|].
  - destruct IH as (k & Hk & Hk1 & Hk2 & Hk3). exists (S k). rewrite Hs in Hk1.
    split_and!; [lia|done| |rewrite Hk3; cbn; by rewrite <- !app_assoc].
    intros [|j] Hj; [done|]. rewrite <- Hs. apply Hk2. lia.
  - intros [|j] Hj; [done|]. rewrite <- Hs. apply IH. lia.
Qed.
End Host.

(** C17.  Waiting ends.  With a limit of [t] seconds (below the range of [int]), [wait_run]
    polls the command queue at most [1000 t] times: it returns at the first poll that
    finds the queue empty, having slept a millisecond before each later poll, and throws
    exactly when none of the first [1000 t] polls does; the loop never goes on longer,
    so that [1000 t] turns of fuel are enough. *)
Theorem wait_run_terminates {F : FlexioDev} {H : FlexioHost F} {D : Type} (n : nat)
    (cmd_q t : Z) (h : host (D := D)) :
  1 <= t <= 2147 -> 1000 * t <= Z.of_nat n ->
  match wait_run n cmd_q t h with
  | (Some (Some _), h') => exists k, Z.of_nat k < 1000 * t /\ empty_at cmd_q h k = true /\
      (forall j, (j < k)%nat -> empty_at cmd_q h j = false) /\
      h_calls h' = h_calls h ++ wait_calls cmd_q k ++ [TimerToc]
  | (Some None, _) => False
  | (None, _) => forall j, Z.of_nat j < 1000 * t -> empty_at cmd_q h j = false
  end.
Proof.
  intros Ht Hn. pose proof (wait_loop_outcome n cmd_q t 0 h Ht ltac:(lia) ltac:(lia)) as HO.
  unfold wait_run, mbind, M_bind. change (1000 * 0) with 0 in HO.
  destruct (wait_loop n cmd_q t 0 h) as [[[u|]|] h']; cbn; [|done|done].
  destruct HO as (k & Hk & He & Hj & Hc). exists k. split_and!; [lia|done|done|].
  rewrite Hc. by rewrite <- app_assoc.
Qed.

(** ** A concrete library for the witnesses *)

(** A field as the bits it covers. *)
Fixpoint set_bits (n : nat) (off v : Z) (m : mem) : mem :=
  match n with
  | O => m
  | S n => set_bits n (off + 1) (v / 2) (<[off := v mod 2]> m)
  end.
Fixpoint get_bits (n : nat) (off : Z) (m : mem) : Z :=
  match n with
  | O => 0
  | S n => default 0 (m !! off) + 2 * get_bits n (off + 1) m
  end.

(** Every call succeeds; allocations are 2^20 apart and end below 2^64, streams are
    numbered by their index, and a command queue is empty after ten calls. *)
Definition ref_result (n : nat) (c : hcall ref_flexio) : option Z :=
  let a := 2 ^ 20 * (Z.of_nat n + 1) in
  match c with
  | CopyFromHost _ _ => Some a
  | BufDevAlloc _ size | GetHugeMem _ size => if a + size <=? 2 ^ 64 then Some a else None
  | MsgStreamCreate _ _ i => Some (i + 100)
  | MsgStreamGetId s => Some (s - 100)
  | CmdqIsEmpty _ => Some (c_bool (10 <=? n)%nat)
  | _ => Some 5
  end.

#[export] Instance ref_host : FlexioHost ref_flexio := {
  cqe64_calloc := RefCqe 0 0 0;
  mlx5dv_set_cqe_owner := fun e v => RefCqe v (rc_counter e) (rc_byte_cnt e);
  rwqe_calloc := 0;
  mlx5dv_set_data_seg := fun _ _ _ a => a;
  devx_set := fun f v m => set_bits (Z.to_nat f.2) f.1 v m;
  devx_get := fun f m => get_bits (Z.to_nat f.2) f.1 m;
  device_names := [3; 7];
  lib_result := ref_result;
}.

Lemma get_bits_ext n off m m' :
  (forall a, off <= a < off + Z.of_nat n -> m !! a = m' !! a) -> get_bits n off m = get_bits n off m'.
Proof.
  revert off. induction n as [|n IH]; intros off E; cbn; [done|].
  rewrite (E off) by lia. rewrite (IH (off + 1)); [done|]. intros a Ha. apply E. lia.
Qed.

Lemma set_bits_other n off v m a :
  a < off \/ off + Z.of_nat n <= a -> set_bits n off v m !! a = m !! a.
Proof.
  revert off v m. induction n as [|n IH]; intros off v m Ha; cbn; [done|].
  rewrite IH by lia. apply lookup_insert_ne. lia.
Qed.

Lemma get_set_bits n off v m : get_bits n off (set_bits n off v m) = v mod 2 ^ Z.of_nat n.
Proof.
  revert off v m. induction n as [|n IH]; intros off v m; cbn [get_bits set_bits].
  { by rewrite Z.mod_1_r. }
  rewrite set_bits_other, lookup_insert_eq, IH by lia.
  change (default 0 (Some (v mod 2))) with (v mod 2).
  rewrite Nat2Z.inj_succ, Z.pow_succ_r, Z.rem_mul_r by lia. lia.
Qed.

Lemma get_bits_empty n off : get_bits n off ∅ = 0.
Proof. revert off. induction n as [|n IH]; intros off; cbn; [done|]. by rewrite IH. Qed.

#[export] Instance ref_host_laws : FlexioHostLaws ref_host.
Proof.
  split.
  - done.
  - done.
  - intros f v m Hf. cbn. rewrite get_set_bits. by rewrite Z2Nat.id.
  - intros f g v m Hd. cbn. apply get_bits_ext. intros a Ha.
    destruct (decide (f.2 <= 0)); [by replace (Z.to_nat f.2) with 0%nat by lia|].
    apply set_bits_other. unfold disjoint_fields in Hd. lia.
  - intros f. apply get_bits_empty.
  - intros n numa size a. cbn -[Z.pow Z.mul]. case_match eqn:E; [|done]. intros [= <-]. lia.
  - intros n p size a. cbn -[Z.pow Z.mul]. case_match eqn:E; [|done]. intros [= <-]. lia.
  - intros n n' c c' a a' Hn Hc Hc' Ha Ha'.
    assert (forall k (x : hcall ref_flexio) y, allocates x = true -> ref_result k x = Some y ->
      y = 2 ^ 20 * (Z.of_nat k + 1)) as HA.
    { intros k x y Hx Hy. destruct x; try done; cbn -[Z.pow Z.mul] in Hy; [|case_match]; congruence. }
    rewrite (HA _ _ _ Hc Ha), (HA _ _ _ Hc' Ha'). lia.
Qed.

Definition demo_host : host (F := ref_flexio) (D := unit) :=
  MkHost zero_context [] empty_world ∅ tt.

(** The queue of the concrete library is empty at the sixth poll. *)
Lemma wait_run_terminates_witness :
  exists d h', wait_run (H := ref_host) 1000 9 1 demo_host = (Some (Some d), h').
Proof.
  pose proof (wait_run_terminates (H := ref_host) 1000 9 1 demo_host ltac:(lia) ltac:(lia)) as HW.
  destruct (wait_run 1000 9 1 demo_host) as [[[d|]|] h'].
  - by exists d, h'.
  - done.
  - specialize (HW 5%nat ltac:(lia)). vm_compute in HW. done.
Defined.
