(* ===== verification/HostMains.v ===== *)
(** * HostMains: the host programs that set the device programs up

    Translation of the [main] functions of the FlexIO programs: [dpa_refactor],
    [dpa_refactor_workingset], [dpa_refactor_random_access], [dpa_refactor_ddio],
    [dpa_refactor_test_hostrq], [dpa_send] and [dpa_send_ntp], which serve one handler,
    and [dpa_refactor_mt], [dpa_network_function], [dpa_send_mt],
    [dpa_kv_aggregation] and the two programs of [dpa_small_bank], which start one
    handler per thread.  The mains are copies of each other with other constants, which
    are the fields of [settings].

    Command line flags are arguments; signals, messages and the idle loop at the end of
    a main are not modelled.  The theorems compose a main with the device program it
    starts. *)

From S2P Require Import Prelude Machine FlexioDev WrapperDevice DevCommon RingProtocol Reflector DpaRefactor PacketLoop.
From S2P Require Import DpaRefactorMt NetworkFunction DpaSend DpaSendMt KvAggregation SmallBankServer SmallBankClient ScanReflect CacheProbe HostFlexio.

(** ** Settings *)

(** How the transmit queue gets its buffer: the receive queue's, or its own. *)
Inductive tx_kind := SharedTx | OwnTx (log_depth log_data : Z) (on_host : bool).

Record settings := MkSettings {
  st_app : Z;
  st_log_cq : Z; st_log_rq : Z; st_log_sq : Z; st_log_data : Z;
  rq_buffer_on_host : bool;
  st_tx : tx_kind;
  st_mac : Z;
  nic_mode : bool;
}.

Record queue_set := MkQueueSet { hq_rq_cq : CQ; hq_sq_cq : CQ; hq_rq : RQ; hq_sq : SQ }.

Section Mains.
Context {F : FlexioDev} {H : FlexioHost F} {D : Type}.
Implicit Types h : host (F := F) (D := D).

(** ** Parts the mains share *)

(** The context, up to the messages. *)
Definition main_context (s : settings) (device_name : Z) : M (D := D) unit :=
  _ ← Context_new device_name;
  _ ← alloc_pd;
  _ ← create_process (st_app s);
  _ ← create_window;
  _ ← generate_flexio_uar;
  print_init 0.

(** The queues of handler [index]. *)
Definition main_queues (s : settings) (index : nat) : M (D := D) queue_set :=
  rq_cq ← CQ_new true (st_log_cq s) index;
  sq_cq ← CQ_new false (st_log_cq s) index;
  rq_cqn ← get_cq_num rq_cq;
  rq ← RQ_new (st_log_rq s) (st_log_data s) rq_cqn (rq_buffer_on_host s);
  sq_cqn ← get_cq_num sq_cq;
  sq ← match st_tx s with
       | SharedTx => SQ_new_shared (st_log_sq s) sq_cqn rq
       | OwnTx log_depth log_data on_host => SQ_new log_depth log_data sq_cqn on_host
       end;
  mret (MkQueueSet rq_cq sq_cq rq sq).

(** [queue_config_data dev_data] *)
Definition dev_data (q : queue_set) (sq : app_transfer_wq) (thread addr mkey : Z) : queue_config_data :=
  {| rq_cq_data := cq_transf (hq_rq_cq q); rq_data := rq_transf (hq_rq q);
     sq_cq_data := cq_transf (hq_sq_cq q); sq_data := sq;
     thread_index := thread; new_buffer_addr := addr; new_buffer_mkey_id := mkey |}.

(** The rules of one MAC address: packets to it reach the receive queue, packets from
    it leave through the wire. *)
Definition rx_rule (rx_table : dr_flow_table) (matcher : mem) (rq : RQ) : M (D := D) unit :=
  rule ← add_dest_devx_tir (inner_rq_ptr rq) [];
  _ ← create_dr_rule rx_table matcher rule;
  mret tt.
Definition tx_rules (s : settings) (tx_dr : Z) (tx_root tx_table : dr_flow_table) (matcher : mem)
    : M (D := D) unit :=
  root_rule ← add_dest_table (dr_table tx_table) [];
  rule ← add_dest_vport tx_dr 0xFFFF [];
  _ ← (if nic_mode s then mret 0 else create_dr_rule tx_root matcher root_rule);
  _ ← create_dr_rule tx_table matcher rule;
  mret tt.

(** ** Mains with one handler *)

Definition single_rules (s : settings) (q : queue_set) : M (D := D) unit :=
  rx_dr ← DR_new NIC_RX;
  let matcher := set_dst_mac_mask matcher_clear in
  rx_table ← create_flow_table rx_dr 0 0 matcher;
  let matcher := set_dst_mac (st_mac s) matcher in
  _ ← rx_rule rx_table matcher (hq_rq q);
  tx_dr ← DR_new FDB;
  let matcher := set_src_mac_mask matcher_clear in
  tx_root ← create_flow_table tx_dr 0 0 matcher;
  tx_table ← create_flow_table tx_dr 1 0 matcher;
  let matcher := set_src_mac (st_mac s) matcher in
  tx_rules s tx_dr tx_root tx_table matcher.

Definition single_main (s : settings) (init : queue_config_data -> D -> World F -> Z * D * World F)
    (device_name : Z) : M (D := D) queue_set :=
  _ ← main_context s device_name;
  _ ← create_event_handler FnHandler;
  q ← main_queues s 0;
  window_id ← get_window_id;
  dev_config_data ← move_to_dev (dev_data q (sq_transf (hq_sq q)) 0 0 window_id);
  _ ← flexio_process_call FnInit init dev_config_data;
  _ ← single_rules s q;
  _ ← event_handler_run 0 0;
  mret q.

(** The senders then ask for the first packet. *)
Definition sender_main (s : settings) (init : queue_config_data -> D -> World F -> Z * D * World F)
    (first_packet : D -> World F -> Z * D * World F) (device_name : Z) : M (D := D) queue_set :=
  q ← single_main s init device_name;
  _ ← flexio_process_call0 FnFirstPacket first_packet;
  mret q.

(** [dpa_refactor_test_hostrq]: the window comes after the messages, and the block
    carries a second receive buffer on the device and its key. *)
Definition hostrq_main (s : settings) (init : queue_config_data -> D -> World F -> Z * D * World F)
    (device_name : Z) : M (D := D) queue_set :=
  _ ← Context_new device_name;
  _ ← alloc_pd;
  _ ← create_process (st_app s);
  _ ← generate_flexio_uar;
  _ ← print_init 0;
  _ ← create_window;
  _ ← create_event_handler FnHandler;
  q ← main_queues s 0;
  new_dpa_buffer ← flexio_buf_dev_alloc (LOG2VALUE (st_log_rq s + st_log_data s));
  tmp_key ← create_dpa_mkey new_dpa_buffer (st_log_rq s + st_log_data s) (Z.lor LOCAL_WRITE REMOTE_WRITE);
  key_id ← lib_unchecked (MkeyGetId tmp_key);
  dev_config_data ← move_to_dev (dev_data q (sq_transf (hq_sq q)) 0 new_dpa_buffer key_id);
  _ ← flexio_process_call FnInit init dev_config_data;
  _ ← single_rules s q;
  _ ← event_handler_run 0 0;
  mret q.

(** ** Mains with one handler per thread *)

Record tables := MkTables { t_rx : dr_flow_table; t_tx_dr : Z; t_root : dr_flow_table; t_tx : dr_flow_table }.

Definition mt_tables : M (D := D) tables :=
  rx_dr ← DR_new NIC_RX;
  tx_dr ← DR_new FDB;
  let matcher := set_dst_mac_mask matcher_clear in
  rx_table ← create_flow_table rx_dr 0 0 matcher;
  let matcher := set_src_mac_mask matcher_clear in
  tx_root ← create_flow_table tx_dr 0 0 matcher;
  tx_table ← create_flow_table tx_dr 1 0 matcher;
  mret (MkTables rx_table tx_dr tx_root tx_table).

(** One turn of the loop over the threads.  [addr] is the address of the shared
    block of the program, [key] replaces the key of the transmit queue when given. *)
Definition mt_thread (s : settings) (init : queue_config_data -> D -> World F -> Z * D * World F)
    (begin_thread addr : Z) (key : option Z) (t : tables) (i : nat) : M (D := D) queue_set :=
  _ ← create_event_handler FnHandler;
  q ← main_queues s i;
  let sq := match key with
            | None => sq_transf (hq_sq q)
            | Some k => let r := sq_transf (hq_sq q) in
                {| wq_num := wq_num r; wqd_mkey_id := k; wq_ring_daddr := wq_ring_daddr r;
                   wq_dbr_daddr := wq_dbr_daddr r; wqd_daddr := wqd_daddr r;
                   daddr_on_host := daddr_on_host r |}
            end in
  let thread := u64 (Z.of_nat i + begin_thread) in
  window_id ← get_window_id;
  dev_config_data ← move_to_dev (dev_data q sq (u32 thread) addr window_id);
  _ ← flexio_process_call FnInit init dev_config_data;
  let mac := u64 (st_mac s + thread) in
  _ ← rx_rule (t_rx t) (set_dst_mac mac matcher_clear) (hq_rq q);
  _ ← tx_rules s (t_tx_dr t) (t_root t) (t_tx t) (set_src_mac mac matcher_clear);
  _ ← event_handler_run thread i;
  mret q.

Fixpoint mt_threads (s : settings) (init : queue_config_data -> D -> World F -> Z * D * World F)
    (begin_thread addr : Z) (key : option Z) (t : tables) (n i : nat) : M (D := D) (list queue_set) :=
  match n with
  | O => mret []
  | S n =>
      q ← mt_thread s init begin_thread addr key t i;
      qs ← mt_threads s init begin_thread addr key t n (S i);
      mret (q :: qs)
  end.

(** [block] allocates what the threads share. *)
Definition mt_main (s : settings) (init : queue_config_data -> D -> World F -> Z * D * World F)
    (block : M (D := D) (Z * option Z)) (begin_thread : Z) (g_thread_num : nat) (device_name : Z)
    : M (D := D) (list queue_set) :=
  _ ← main_context s device_name;
  t ← mt_tables;
  '(addr, key) ← block;
  mt_threads s init begin_thread addr key t g_thread_num 0.

(** The shared blocks: none, the 200 MB of the small bank tables, the table of the
    key-value aggregation with its key. *)
Definition no_block : M (D := D) (Z * option Z) := mret (0, None).
Definition bank_block : M (D := D) (Z * option Z) :=
  a ← flexio_buf_dev_alloc (200 * 1024 * 1024); mret (a, None).
Definition kv_block (kv_on_host : bool) (entry_size : Z) : M (D := D) (Z * option Z) :=
  if kv_on_host then
    let size := Z.land (u64 (4 * entry_size + 63)) (Z.lnot 63) in
    tmp_addr ← alloc_huge size;
    _ ← Assert (truthy tmp_addr);
    mr ← reg_mr tmp_addr size MR_FLAGS;
    lkey ← lib_unchecked (MrLkey mr);
    mret (tmp_addr, Some lkey)
  else
    a ← flexio_buf_dev_alloc (4 * entry_size); mret (a, Some 0).
End Mains.

(** ** The programs *)

Definition SELF_MAC : Z := 0x010101010101.

Definition dpa_refactor_settings : settings :=
  MkSettings 1 DpaRefactor.LOG_CQ_RING_DEPTH DpaRefactor.LOG_RQ_RING_DEPTH DpaRefactor.LOG_SQ_RING_DEPTH
    DpaRefactor.LOG_WQ_DATA_ENTRY_BSIZE true SharedTx SELF_MAC false.
Definition workingset_settings : settings :=
  MkSettings 2 WorkingSet.LOG_CQ_RING_DEPTH WorkingSet.LOG_RQ_RING_DEPTH WorkingSet.LOG_SQ_RING_DEPTH
    WorkingSet.LOG_WQ_DATA_ENTRY_BSIZE false SharedTx SELF_MAC false.
Definition random_access_settings : settings :=
  MkSettings 3 RandomAccess.LOG_CQ_RING_DEPTH RandomAccess.LOG_RQ_RING_DEPTH
    RandomAccess.LOG_SQ_RING_DEPTH RandomAccess.LOG_WQ_DATA_ENTRY_BSIZE true SharedTx SELF_MAC false.
Definition ddio_settings : settings :=
  MkSettings 4 Ddio.LOG_CQ_RING_DEPTH Ddio.LOG_RQ_RING_DEPTH Ddio.LOG_SQ_RING_DEPTH
    CacheProbe.LOG_WQ_DATA_ENTRY_BSIZE true (OwnTx 13 12 false) 0xa088c231f7e6 false.
Definition hostrq_settings : settings :=
  MkSettings 5 HostRq.LOG_CQ_RING_DEPTH HostRq.LOG_RQ_RING_DEPTH HostRq.LOG_SQ_RING_DEPTH
    CacheProbe.LOG_WQ_DATA_ENTRY_BSIZE true (OwnTx 13 12 false) 0xa088c231f7ee false.
Definition send_settings : settings :=
  MkSettings 6 7 7 7 10 true SharedTx (addr_to_num DpaSend.SRC_ADDR) false.
Definition send_ntp_settings : settings :=
  MkSettings 7 7 7 7 10 true SharedTx (addr_to_num DpaSend.SRC_ADDR) false.
Definition refactor_mt_settings : settings :=
  MkSettings 8 DpaRefactorMt.LOG_CQ_RING_DEPTH DpaRefactorMt.LOG_RQ_RING_DEPTH
    DpaRefactorMt.LOG_SQ_RING_DEPTH DpaRefactorMt.LOG_WQ_DATA_ENTRY_BSIZE false SharedTx
    0x010101010101 false.
Definition network_function_settings : settings :=
  MkSettings 9 7 7 7 11 true SharedTx 0xa088c2320440 false.
Definition send_mt_settings : settings :=
  MkSettings 10 7 7 7 10 true SharedTx 0x020101010101 false.
Definition kv_settings : settings :=
  MkSettings 11 7 7 7 11 false (OwnTx 7 11 false) 0x010101010101 false.
Definition bank_server_settings : settings :=
  MkSettings 12 7 7 7 10 false SharedTx 0x010101010101 false.
Definition bank_client_settings : settings :=
  MkSettings 13 7 7 7 10 false (OwnTx 7 10 false) 0x020101010101 false.

Section Programs.
Context {F : FlexioDev} {H : FlexioHost F}.

Definition dpa_refactor_main : Z -> M (D := refl_context) queue_set :=
  single_main dpa_refactor_settings DpaRefactor.dpa_refactor_device_init.
Definition dpa_refactor_workingset_main : Z -> M (D := scan_state) queue_set :=
  single_main workingset_settings WorkingSet.dpa_refactor_workingset_device_init.
Definition dpa_refactor_random_access_main : Z -> M (D := scan_state) queue_set :=
  single_main random_access_settings RandomAccess.dpa_refactor_random_access_device_init.
Definition dpa_refactor_ddio_main : Z -> M (D := probe_state) queue_set :=
  single_main ddio_settings Ddio.dpa_refactor_device_init.
(** The static state: the context and the addresses of the two buffers. *)
Definition dpa_refactor_test_hostrq_main : Z -> M (D := probe_state * HostRq.rq_bufs) queue_set :=
  hostrq_main hostrq_settings (fun c d w => HostRq.dpa_refactor_device_init c (fst d) w).
Definition dpa_send_main (stk : mem) : Z -> M (D := send_context) queue_set :=
  sender_main send_settings dpa_send_device_init (dpa_send_deivce_first_packet send_payload stk).
Definition dpa_send_ntp_main (stk : mem) : Z -> M (D := send_context) queue_set :=
  sender_main send_ntp_settings Ntp.dpa_send_ntp_device_init (Ntp.dpa_send_ntp_deivce_first_packet stk).

Definition dpa_refactor_mt_main : Z -> nat -> Z -> M (D := list refl_context) (list queue_set) :=
  mt_main refactor_mt_settings dpa_refactor_mt_device_init no_block.
Definition dpa_network_function_main : Z -> nat -> Z -> M (D := list nf_context) (list queue_set) :=
  mt_main network_function_settings dpa_network_function_device_init no_block.
Definition dpa_kv_aggregation_main : Z -> nat -> Z -> M (D := kv_program) (list queue_set) :=
  mt_main kv_settings
    (fun c s w => let '(ret, s) := dpa_kv_aggregation_device_init c s w in (ret, s, w))
    (kv_block false entry_size).
Definition dpa_small_bank_server_main `{SpinLock} : nat -> Z -> M (D := server) (list queue_set) :=
  mt_main bank_server_settings dpa_small_bank_server_device_init bank_block 0.

(** Up to the idle loop: the senders have their packets prepared, the clients send
    their pings. *)
Definition dpa_send_mt_main (stk : mem) (begin_thread : Z) (g_thread_num : nat) (device_name : Z)
    : M (D := list DpaSendMt.device_context) (list queue_set) :=
  qs ← mt_main send_mt_settings dpa_send_mt_device_init no_block begin_thread g_thread_num device_name;
  _ ← flexio_process_call0 FnFirstPacket (dpa_send_mt_deivce_first_packet stk);
  mret qs.
Definition dpa_small_bank_client_main (g_thread_num : nat) (device_name : Z)
    : M (D := client) (list queue_set) :=
  qs ← mt_main bank_client_settings dpa_small_bank_client_device_init no_block 0 g_thread_num device_name;
  _ ← flexio_process_call0 FnFirstPacket dpa_small_bank_client_device_ping_packet;
  mret qs.
(** After it: the stop RPC. *)
Definition dpa_small_bank_client_stop : M (D := client) Z :=
  flexio_process_call0 FnStop (fun s w => let '(ret, s) := dpa_small_bank_client_device_stop s in (ret, s, w)).

(** A turn of the idle loop of the key-value aggregation: the time, when there is one. *)
Definition dpa_kv_aggregation_poll : M (D := kv_program) (option Z) :=
  t ← flexio_process_call0 FnStopTime (fun s w => (dpa_kv_aggregation_device_stop_time s, s, w));
  mret (if truthy t then Some t else None).
End Programs.

(** ** Lemmas *)

(** The MAC addresses, destination and source, the rules among [l] compare. *)
Definition rules {F : FlexioDev} {H : FlexioHost F} (l : list (hcall F)) : list (Z * Z) :=
  omap (fun c => match c with
                 | DrRuleCreate _ v _ => Some (matched_dst_mac v, matched_src_mac v)
                 | _ => None
                 end) l.

Section Lemmas.
Context {F : FlexioDev} {H : FlexioHost F} {D : Type} `{!FlexioHostLaws H}.
Implicit Types h : host (F := F) (D := D).

(** [h'] is [h] after the calls [l], with another context. *)
Definition asked (l : list (hcall F)) h h' : Prop :=
  h_calls h' = h_calls h ++ l /\ h_world h' = h_world h /\ h_configs h' = h_configs h /\
  h_dev h' = h_dev h.

Lemma asked_nil h : asked [] h h.
Proof. unfold asked. by rewrite app_nil_r. Qed.
Lemma asked_logged l h h' c : asked l h h' -> asked (l ++ [c]) h (logged c h').
Proof. intros (Hc & Hw & Hcf & Hd). unfold asked. cbn. by rewrite Hc, app_assoc. Qed.
Lemma asked_ctx l h h' c :
  asked l h h' -> asked l h (MkHost c (h_calls h') (h_world h') (h_configs h') (h_dev h')).
Proof. done. Qed.
Lemma asked_trans l l' h h' h'' : asked l h h' -> asked l' h' h'' -> asked (l ++ l') h h''.
Proof.
  intros (Hc & Hw & Hcf & Hd) (Hc' & Hw' & Hcf' & Hd'). unfold asked.
  rewrite Hc', Hc, <- app_assoc. split_and!; congruence.
Qed.

(** Calls that make no rule, and changes of the context. *)
Definition quiet h h' : Prop := exists l, asked l h h' /\ rules l = [].

#[export] Instance quiet_preorder : PreOrder quiet.
Proof.
  split.
  - intros h. exists []. split; [apply asked_nil|done].
  - intros h1 h2 h3 (l & Hl & Hr) (l' & Hl' & Hr'). exists (l ++ l'). split; [by eapply asked_trans|].
    unfold rules in *. by rewrite omap_app, Hr, Hr'.
Qed.

Definition no_rule (c : hcall F) : bool := match c with DrRuleCreate _ _ _ => false | _ => true end.

Lemma quiet_logged c h h' : no_rule c = true -> quiet h h' -> quiet h (logged c h').
Proof.
  intros Hc (l & Hl & Hr). exists (l ++ [c]). split; [by apply asked_logged|].
  unfold rules in *. rewrite omap_app, Hr. by destruct c.
Qed.

Lemma quiet_ctx h h' c :
  quiet h h' -> quiet h (MkHost c (h_calls h') (h_world h') (h_configs h') (h_dev h')).
Proof. intros (l & Hl & Hr). exists l. split; [by apply asked_ctx|done]. Qed.

(** The parts of the context the queues need. *)
Definition ctx_parts (c : Context) : Z * list Z * Z := (flexio_uar c, event_handler_vec c, window c).

Lemma wp_Context_new name h :
  name ∈ device_names ->
  wp (Context_new name) (fun _ h' => quiet h h' /\ ctx_parts (h_ctx h') = (0, [], 0)) h.
Proof.
  intros Hn. assert (exists dev, find_device name = Some dev) as [dev Hdev].
  { unfold find_device. apply list_elem_of_lookup in Hn as [i Hi].
    destruct (list_find (fun n => n = name) device_names) as [[j x]|] eqn:E; [by eexists|].
    apply list_find_None in E. rewrite list.Forall_lookup in E. by destruct (E i name Hi). }
  unfold Context_new. apply wp_bind, wp_lib. intros dl _. rewrite Hdev.
  apply wp_bind, wp_lib. intros ctx _. apply wp_bind, wp_lib_opt, wp_put_ctx.
  split; [|done]. by apply quiet_ctx; repeat apply quiet_logged.
Qed.

Lemma wp_alloc_pd h :
  wp alloc_pd (fun _ h' => quiet h h' /\ ctx_parts (h_ctx h') = ctx_parts (h_ctx h)) h.
Proof.
  unfold alloc_pd. apply wp_bind, wp_get_ctx, wp_bind, wp_lib. intros p _. apply wp_put_ctx.
  split; [|done]. by apply quiet_ctx; repeat apply quiet_logged.
Qed.

Lemma wp_create_process app h :
  wp (create_process app) (fun _ h' => quiet h h' /\ ctx_parts (h_ctx h') = ctx_parts (h_ctx h)) h.
Proof.
  unfold create_process. apply wp_bind, wp_get_ctx, wp_bind, wp_lib. intros p _. apply wp_put_ctx.
  split; [|done]. by apply quiet_ctx; repeat apply quiet_logged.
Qed.

Lemma wp_create_window h :
  wp create_window (fun _ h' => quiet h h' /\
    exists w, (w = 0 -> call_refused h') /\
      ctx_parts (h_ctx h') = (flexio_uar (h_ctx h), event_handler_vec (h_ctx h), w)) h.
Proof.
  unfold create_window. apply wp_bind, wp_get_ctx, wp_bind, wp_lib. intros w Hw. apply wp_put_ctx.
  split; [by apply quiet_ctx; repeat apply quiet_logged|]. exists w. split; [|done].
  intros ->. eapply call_refused_prefix; [|eapply null_refused; [|exact Hw]; done]. done.
Qed.

Lemma truthy_true v : truthy v = true -> v <> 0.
Proof. unfold truthy. by destruct (Z.eqb_spec v 0). Qed.
Lemma truthy_false v : truthy v = false -> v = 0.
Proof. unfold truthy. by destruct (Z.eqb_spec v 0). Qed.

Lemma wp_generate_flexio_uar h :
  flexio_uar (h_ctx h) = 0 ->
  wp generate_flexio_uar (fun _ h' => quiet h h' /\
    exists u, u <> 0 /\ ctx_parts (h_ctx h') = (u, event_handler_vec (h_ctx h), window (h_ctx h))) h.
Proof.
  intros Hu. unfold generate_flexio_uar. apply wp_bind, wp_get_ctx, wp_bind, wp_assert.
  { by apply Z.eqb_eq. }
  apply wp_bind, wp_lib. intros u Ha. apply wp_bind, wp_assert_or; intros Ht.
  { apply truthy_false in Ht as ->. by apply null_refused. }
  apply wp_put_ctx. split; [by apply quiet_ctx; repeat apply quiet_logged|].
  exists u. split; [by apply truthy_true|done].
Qed.

Lemma wp_print_init_0 h :
  wp (print_init 0) (fun _ h' => quiet h h' /\ ctx_parts (h_ctx h') = ctx_parts (h_ctx h)) h.
Proof.
  unfold print_init. apply wp_bind, wp_get_ctx, wp_bind, wp_lib. intros p _. apply wp_bind, wp_put_ctx, wp_ret.
  split; [|done]. by apply quiet_ctx; repeat apply quiet_logged.
Qed.

Lemma wp_create_event_handler f h :
  wp (create_event_handler f) (fun _ h' => quiet h h' /\
    exists e, ctx_parts (h_ctx h') =
      (flexio_uar (h_ctx h), event_handler_vec (h_ctx h) ++ [e], window (h_ctx h))) h.
Proof.
  unfold create_event_handler. apply wp_bind, wp_get_ctx, wp_bind, wp_lib. intros e _.
  apply wp_bind, wp_put_ctx, wp_ret.
  split; [by apply quiet_ctx; repeat apply quiet_logged|]. by exists e.
Qed.

Lemma quiet_refused h h' : quiet h h' -> call_refused h -> call_refused h'.
Proof. intros (l & (Hc & _) & _). apply call_refused_prefix. by exists l. Qed.

(** The context after a main's beginning. *)
Definition context_made (events : nat) h : Prop :=
  flexio_uar (h_ctx h) <> 0 /\ length (event_handler_vec (h_ctx h)) = events /\
  (window (h_ctx h) = 0 -> call_refused h).

Lemma context_made_ready events index h : context_made events h -> (index < events)%nat -> ready index h.
Proof. intros (Hu & He & _) Hi. split; [done|lia]. Qed.

Ltac parts E := unfold ctx_parts in E; injection E as ? ? ?.

Lemma wp_main_context s name h :
  name ∈ device_names ->
  wp (main_context s name) (fun _ h' => quiet h h' /\ context_made 0 h') h.
Proof.
  intros Hn. unfold main_context.
  apply wp_bind. eapply wp_mono; [by apply wp_Context_new|]. intros _ h1 (Q1 & E1).
  apply wp_bind. eapply wp_mono; [apply wp_alloc_pd|]. intros _ h2 (Q2 & E2).
  apply wp_bind. eapply wp_mono; [apply wp_create_process|]. intros _ h3 (Q3 & E3).
  apply wp_bind. eapply wp_mono; [apply wp_create_window|]. intros _ h4 (Q4 & win & Hwin & E4).
  parts E1. parts E2. parts E3. parts E4.
  apply wp_bind. eapply wp_mono; [apply wp_generate_flexio_uar; congruence|].
  intros _ h5 (Q5 & u & Hu & E5). eapply wp_mono; [apply wp_print_init_0|].
  intros _ h6 (Q6 & E6). parts E5. parts E6.
  assert (quiet h4 h6) as Q46 by (by etrans).
  split; [by etrans; [exact Q1|]; etrans; [exact Q2|]; etrans; [exact Q3|]; etrans|].
  split_and!; [congruence|by replace (event_handler_vec (h_ctx h6)) with (@nil Z) by congruence|].
  intros Hz. eapply quiet_refused; [exact Q46|]. apply Hwin. congruence.
Qed.

Lemma context_made_event events f h :
  context_made events h ->
  wp (create_event_handler f) (fun _ h' => quiet h h' /\ context_made (S events) h') h.
Proof.
  intros (Hu & He & Hw). eapply wp_mono; [apply wp_create_event_handler|].
  intros _ h' (Q & e & E). parts E. split; [done|]. split_and!; [congruence| |].
  - replace (event_handler_vec (h_ctx h')) with (event_handler_vec (h_ctx h) ++ [e]) by congruence.
    rewrite length_app. cbn. lia.
  - intros Hz. eapply quiet_refused; [exact Q|]. apply Hw. congruence.
Qed.

Lemma context_made_keeps events h h' : keeps h h' -> context_made events h -> context_made events h'.
Proof.
  intros K (Hu & He & Hw). pose proof (keeps_ctx _ _ K) as E. unfold ctx_of in E.
  injection E as ? ? ? ? ? ?. split_and!; [congruence..|].
  intros Hz. eapply call_refused_prefix; [apply K|]. apply Hw. congruence.
Qed.

(** ** The queues of a handler *)

(** The depths fit the types they are kept in. *)
Definition good_settings (s : settings) : Prop :=
  0 <= st_log_cq s < 31 /\ 0 <= st_log_rq s < 31 /\ 0 <= st_log_data s /\
  st_log_rq s + st_log_data s < 63 /\
  match st_tx s with SharedTx => True | OwnTx d b _ => 0 <= d + b < 63 end.

(** The depth the library is given for the send ring. *)
Definition sq_depth (s : settings) : Z :=
  match st_tx s with SharedTx => st_log_sq s | OwnTx d _ _ => d end.

(** The completion ring is owned by hardware, every receive entry points at its own
    part of the data buffer, and a shared transmit queue uses that buffer. *)
Record queues_made (s : settings) (q : queue_set) h : Prop := MkMade {
  made_cq : allocated h (cq_ring_daddr (cq_transf (hq_rq_cq q)));
  made_owner i : 0 <= i < 2 ^ st_log_cq s ->
    w_cq (h_world h) !! (cq_ring_daddr (cq_transf (hq_rq_cq q)), i) =
      Some (mlx5dv_set_cqe_owner cqe64_calloc 1);
  made_rq : allocated h (wq_ring_daddr (rq_transf (hq_rq q)));
  made_entries i : 0 <= i < 2 ^ st_log_rq s ->
    exists e, w_rq (h_world h) !! (wq_ring_daddr (rq_transf (hq_rq q)), i) = Some e /\
      flexio_dev_rwqe_get_addr e = wqd_daddr (rq_transf (hq_rq q)) + i * 2 ^ st_log_data s;
  made_buffer : 0 <= wqd_daddr (rq_transf (hq_rq q)) /\
    wqd_daddr (rq_transf (hq_rq q)) + 2 ^ (st_log_rq s + st_log_data s) <= 2 ^ 64;
  made_on_host : daddr_on_host (rq_transf (hq_rq q)) = c_bool (rq_buffer_on_host s);
  made_tx : match st_tx s with
    | SharedTx => wqd_daddr (sq_transf (hq_sq q)) = wqd_daddr (rq_transf (hq_rq q)) /\
        wqd_mkey_id (sq_transf (hq_sq q)) = wqd_mkey_id (rq_transf (hq_rq q)) /\
        daddr_on_host (sq_transf (hq_sq q)) = daddr_on_host (rq_transf (hq_rq q))
    | OwnTx _ _ on_host => daddr_on_host (sq_transf (hq_sq q)) = c_bool on_host
    end;
  made_sq : allocated h (wq_ring_daddr (sq_transf (hq_sq q)));
  made_sq_call : sq_created (sq_depth s) (wq_ring_daddr (sq_transf (hq_sq q))) h;
}.

Lemma queues_made_keeps s q h h' : keeps h h' -> queues_made s q h -> queues_made s q h'.
Proof.
  intros K []. split; try done; try (by eapply keeps_allocated).
  - intros i Hi. rewrite (keeps_cq _ _ K) by done. auto.
  - intros i Hi. rewrite (keeps_rq _ _ K) by done. auto.
  - eapply sq_created_prefix; [apply K|done].
Qed.

Lemma keeps_unchecked c h Q :
  (forall v h', keeps h h' -> Q v h') -> wp (lib_unchecked c) Q h.
Proof. intros HQ. apply wp_lib_unchecked, HQ, keeps_logged. Qed.

Lemma wp_main_queues s index h :
  ready index h -> good_settings s ->
  wp (main_queues s index) (fun q h' => keeps h h' /\ queues_made s q h' /\
    forall b, allocated h b -> b <> cq_ring_daddr (cq_transf (hq_rq_cq q)) /\
      b <> wq_ring_daddr (rq_transf (hq_rq q)) /\ b <> wq_ring_daddr (sq_transf (hq_sq q))) h.
Proof.
  intros Hr (Hcq & Hrq & Hd & Hs & Htx). unfold main_queues.
  apply wp_bind. eapply wp_mono; [by apply wp_CQ_new|]. intros rq_cq h1 (K1 & _ & A1 & N1 & O1).
  apply wp_bind. eapply wp_mono; [apply wp_CQ_new; [by eapply ready_keeps|done]|].
  intros sq_cq h2 (K2 & _). apply wp_bind, keeps_unchecked. intros cqn h3 K3.
  apply wp_bind. eapply wp_mono; [by apply wp_RQ_new|].
  intros rq h4 (K4 & On & B4 & A4 & N4 & E4). apply wp_bind, keeps_unchecked. intros sqn h5 K5.
  assert (keeps h1 h5) as K15.
  { etrans; [exact K2|]. etrans; [exact K3|]. by etrans. }
  assert (keeps h h5) as K05 by (by etrans).
  pose proof (good_buffer_keeps _ _ _ _ _ K5 B4) as B5.
  assert (wp match st_tx s with
             | SharedTx => SQ_new_shared (st_log_sq s) sqn rq
             | OwnTx d b on_host => SQ_new d b sqn on_host
             end (fun sq h' => keeps h5 h' /\ allocated h' (wq_ring_daddr (sq_transf sq)) /\
                  (forall b, allocated h5 b -> b <> wq_ring_daddr (sq_transf sq)) /\
                  sq_created (sq_depth s) (wq_ring_daddr (sq_transf sq)) h' /\
                  match st_tx s with
                  | SharedTx => wqd_daddr (sq_transf sq) = wqd_daddr (rq_transf rq) /\
                      wqd_mkey_id (sq_transf sq) = wqd_mkey_id (rq_transf rq) /\
                      daddr_on_host (sq_transf sq) = daddr_on_host (rq_transf rq)
                  | OwnTx _ _ on_host => daddr_on_host (sq_transf sq) = c_bool on_host
                  end) h5) as Hsq.
  { pose proof (ready_keeps _ _ _ K05 Hr) as Hr5. unfold sq_depth. destruct (st_tx s) as [|d b on_host].
    - eapply wp_mono; [by eapply wp_SQ_new_shared|]. intros sq h6 (K6 & ? & ? & ? & ? & ? & ?). done.
    - eapply wp_mono; [by eapply wp_SQ_new|]. intros sq h6 (K6 & ? & ? & ? & ? & ?). done. }
  apply wp_bind. eapply wp_mono; [exact Hsq|]. intros sq h6 (K6 & A6 & N6 & SC6 & T6). apply wp_ret.
  assert (keeps h1 h6) as K16 by (by etrans). assert (keeps h4 h6) as K46 by (by etrans).
  split; [by etrans|]. split.
  - split; cbn; try done; try (eapply keeps_allocated; [|eassumption]; done).
    + intros i Hi. rewrite (keeps_cq _ _ K16) by done. auto.
    + intros i Hi. rewrite (keeps_rq _ _ K46) by done. auto.
    + by destruct B4 as (? & ? & _).
  - intros b Hb. cbn. split_and!; [by apply N1|apply N4|apply N6]; eapply keeps_allocated; [|exact Hb| |exact Hb].
    + etrans; [exact K1|]. by etrans; [exact K2|].
    + done.
Qed.

(** ** Rules *)

(** [h'] is [h] after calls that made the rules [rs]. *)
Definition steers (rs : list (Z * Z)) h h' : Prop :=
  h_ctx h' = h_ctx h /\ exists l, asked l h h' /\ rules l = rs.

Lemma steers_refl h : steers [] h h.
Proof. split; [done|]. exists []. split; [apply asked_nil|done]. Qed.
Lemma steers_trans rs rs' h h' h'' : steers rs h h' -> steers rs' h' h'' -> steers (rs ++ rs') h h''.
Proof.
  intros (C & l & Hl & <-) (C' & l' & Hl' & <-). split; [congruence|]. exists (l ++ l').
  split; [by eapply asked_trans|]. unfold rules. by rewrite omap_app.
Qed.
Lemma steers_logged c h : no_rule c = true -> steers [] h (logged c h).
Proof.
  intros Hc. split; [done|]. exists [c]. split; [apply (asked_logged []), asked_nil|]. by destruct c.
Qed.
Lemma steers_ask c rs h h' : no_rule c = true -> steers rs h h' -> steers rs h (logged c h').
Proof. intros Hc S. rewrite <- (app_nil_r rs). eapply steers_trans; [exact S|by apply steers_logged]. Qed.

Lemma wp_create_dr_rule t m a h0 h rs Q :
  steers rs h0 h ->
  (forall v h', steers (rs ++ [(matched_dst_mac m, matched_src_mac m)]) h0 h' -> Q v h') ->
  wp (create_dr_rule t m [a]) Q h.
Proof.
  intros S HQ. unfold create_dr_rule. apply wp_bind, wp_assert; [done|]. apply wp_lib. intros v _.
  apply HQ. eapply steers_trans; [exact S|]. split; [done|]. eexists. split; [apply (asked_logged []), asked_nil|done].
Qed.

Lemma wp_rx_rule t m rq h :
  wp (rx_rule t m rq) (fun _ h' => steers [(matched_dst_mac m, matched_src_mac m)] h h') h.
Proof.
  unfold rx_rule. apply wp_bind. unfold add_dest_devx_tir. apply wp_bind, wp_lib_unchecked, wp_bind, wp_lib.
  intros a _. apply wp_ret, wp_bind. eapply (wp_create_dr_rule _ _ _ h _ []).
  { repeat (apply steers_ask; [done|]). apply steers_refl. }
  intros v h' S. by apply wp_ret.
Qed.

Definition tx_of (s : settings) (m : mem) : list (Z * Z) :=
  (if nic_mode s then [] else [(matched_dst_mac m, matched_src_mac m)]) ++
  [(matched_dst_mac m, matched_src_mac m)].

Lemma wp_tx_rules s tx_dr root t m h :
  wp (tx_rules s tx_dr root t m) (fun _ h' => steers (tx_of s m) h h') h.
Proof.
  unfold tx_rules. apply wp_bind. unfold add_dest_table. apply wp_bind, wp_lib. intros a _.
  apply wp_ret, wp_bind. unfold add_dest_vport. apply wp_bind, wp_lib. intros b _. apply wp_ret, wp_bind.
  set (h1 := logged _ _).
  assert (steers [] h h1) as S1 by (repeat (apply steers_ask; [done|]); apply steers_refl).
  unfold tx_of. destruct (nic_mode s); cbn [app].
  - apply wp_ret, wp_bind, (wp_create_dr_rule _ _ _ h _ [] _ S1). intros v h' S. by apply wp_ret.
  - apply (wp_create_dr_rule _ _ _ h _ [] _ S1). intros v h2 S2.
    apply wp_bind, (wp_create_dr_rule _ _ _ h _ _ _ S2). intros v' h' S. by apply wp_ret.
Qed.

(** The rules of a MAC address: packets to it are received, packets from it are sent. *)
Definition mac_rules (s : settings) (mac : Z) : list (Z * Z) :=
  (mac, 0) :: (if nic_mode s then [] else [(0, mac)]) ++ [(0, mac)].

Lemma matched_clear : matched_dst_mac matcher_clear = 0 /\ matched_src_mac matcher_clear = 0.
Proof. unfold matched_dst_mac, matched_src_mac, matcher_clear. by rewrite !devx_get_zero. Qed.

Lemma set_masks_other :
  matched_src_mac (set_dst_mac_mask matcher_clear) = 0 /\
  matched_dst_mac (set_src_mac_mask matcher_clear) = 0.
Proof.
  unfold matched_dst_mac, matched_src_mac, matcher_clear, set_dst_mac_mask, set_src_mac_mask.
  rewrite !devx_get_set_ne by (first [left; vm_compute; congruence | right; vm_compute; congruence]).
  by rewrite !devx_get_zero.
Qed.

Lemma steers_quiet h h' : steers [] h h' -> quiet h h'.
Proof. intros (_ & l & Hl & Hr). by exists l. Qed.

Lemma wp_table_keeps dr level prio m h0 h rs Q :
  steers rs h0 h -> (forall t h', steers rs h0 h' -> Q t h') -> wp (create_flow_table dr level prio m) Q h.
Proof.
  intros S HQ. unfold create_flow_table. apply wp_bind, wp_lib_unchecked, wp_bind, wp_lib_unchecked, wp_ret, HQ.
  by do 2 (apply steers_ask; [done|]).
Qed.

Lemma wp_DR_new type h0 h rs Q :
  steers rs h0 h -> (forall d h', steers rs h0 h' -> Q d h') -> wp (DR_new type) Q h.
Proof.
  intros S HQ. unfold DR_new. apply wp_bind, wp_get_ctx, wp_lib_unchecked, HQ.
  by apply steers_ask.
Qed.

Lemma wp_single_rules s q h :
  0 <= st_mac s < 2 ^ 48 ->
  wp (single_rules s q) (fun _ h' => steers (mac_rules s (st_mac s)) h h') h.
Proof.
  intros Hm. unfold single_rules.
  apply wp_bind. eapply wp_DR_new; [apply steers_refl|]. intros rx_dr h1 S1.
  apply wp_bind, (wp_table_keeps _ _ _ _ _ _ _ _ S1). intros rx_t h2 S2.
  apply wp_bind. eapply wp_mono; [apply wp_rx_rule|]. intros [] h3 S3. cbn beta in S3.
  pose proof (steers_trans _ _ _ _ _ S2 S3) as S03.
  apply wp_bind, (wp_DR_new _ _ _ _ _ S03). intros tx_dr h4 S4.
  apply wp_bind, (wp_table_keeps _ _ _ _ _ _ _ _ S4). intros root h5 S5.
  apply wp_bind, (wp_table_keeps _ _ _ _ _ _ _ _ S5). intros t h6 S6.
  eapply wp_mono; [apply wp_tx_rules|]. intros [] h7 S7. cbn beta in S7.
  pose proof (steers_trans _ _ _ _ _ S6 S7) as S. unfold tx_of, mac_rules in *.
  destruct (set_dst_mac_matched (st_mac s) (set_dst_mac_mask matcher_clear) Hm) as [E1 E2].
  destruct (set_src_mac_matched (st_mac s) (set_src_mac_mask matcher_clear) Hm) as [E3 E4].
  destruct set_masks_other as [Z1 Z2]. rewrite E1, E2, E3, E4, Z1, Z2 in S. exact S.
Qed.

(** ** A main with one handler *)

Lemma wp_get_window_id events h Q :
  context_made events h -> (forall v h', keeps h h' -> Q v h') -> wp get_window_id Q h.
Proof.
  intros (_ & _ & Hw) HQ. unfold get_window_id. apply wp_bind, wp_get_ctx, wp_bind, wp_assert_or.
  - intros Ht. by apply Hw, truthy_false.
  - intros _. by apply keeps_unchecked.
Qed.

Lemma wp_process_call f init arg cfg h :
  h_configs h !! arg = Some cfg ->
  wp (flexio_process_call f init arg) (fun ret h' =>
    h_ctx h' = h_ctx h /\ init cfg (h_dev h) (h_world h) = (ret, h_dev h', h_world h') /\
    exists p, h_calls h' = h_calls h ++ [ProcessCall p f arg]) h.
Proof.
  intros Hc. unfold flexio_process_call. apply wp_bind, wp_get_ctx, wp_bind, wp_lib. intros v _.
  apply wp_bind. unfold wp at 1, get_config. cbn -[wp]. apply wp_bind.
  eapply wp_of_option; [exact Hc|]. unfold wp, run_device. cbn.
  destruct (init cfg (h_dev h) (h_world h)) as [[ret d] w]. cbn. split_and!; [done|done|by eexists].
Qed.

Lemma wp_event_handler_run arg index h :
  (index < length (event_handler_vec (h_ctx h)))%nat ->
  wp (event_handler_run arg index) (fun _ h' => exists e, h' = logged (EventHandlerRun e arg) h) h.
Proof.
  intros Hi. apply lookup_lt_is_Some in Hi as [e He]. unfold event_handler_run, get_event_handler.
  apply wp_bind, wp_bind, wp_get_ctx. eapply wp_of_option; [exact He|].
  apply wp_bind, wp_lib. intros v _. apply wp_ret. by exists e.
Qed.

(** What a main leaves: the queues were made, the initialisation of the device program
    ran on them, then the rules were added, and the handler was started last. *)
Definition started (s : settings) (init : queue_config_data -> D -> World F -> Z * D * World F)
    (q : queue_set) h0 h1 : Prop :=
  exists hm window_id ret,
    queues_made s q hm /\ h_dev hm = h_dev h0 /\
    init (dev_data q (sq_transf (hq_sq q)) 0 0 window_id) (h_dev h0) (h_world hm) =
      (ret, h_dev h1, h_world h1) /\
    exists p arg l e, h_calls h1 = h_calls hm ++ ProcessCall p FnInit arg :: l ++ [EventHandlerRun e 0] /\
      rules l = mac_rules s (st_mac s).

Lemma quiet_keeps_dev h h' : quiet h h' -> h_dev h' = h_dev h.
Proof. by intros (l & (_ & _ & _ & Hd) & _). Qed.

Lemma wp_single_main s init name h :
  name ∈ device_names -> good_settings s -> 0 <= st_mac s < 2 ^ 48 ->
  wp (single_main s init name) (fun q h' => started s init q h h') h.
Proof.
  intros Hn Hs Hm. unfold single_main.
  apply wp_bind. eapply wp_mono; [by apply wp_main_context|]. intros _ h1 (Q1 & C1).
  apply wp_bind. eapply wp_mono; [by apply (context_made_event 0)|]. intros _ h2 (Q2 & C2).
  apply wp_bind. eapply wp_mono; [apply wp_main_queues; [apply (context_made_ready 1); [exact C2|lia]|done]|].
  intros q h3 (K3 & M3 & _). apply wp_bind.
  eapply wp_get_window_id; [by eapply context_made_keeps|]. intros window_id h4 K4.
  apply wp_bind. eapply wp_mono; [apply wp_move_to_dev|]. intros arg h5 (K5 & _ & Hcfg).
  assert (keeps h3 h5) as K35 by (by etrans). assert (keeps h2 h5) as K25 by (by etrans).
  assert (h_dev h5 = h_dev h) as Hd.
  { rewrite (keeps_dev _ _ K25), (quiet_keeps_dev _ _ Q2). by apply quiet_keeps_dev. }
  apply wp_bind. eapply wp_mono; [by apply wp_process_call|]. intros ret h6 (C6 & E6 & p & L6).
  apply wp_bind. eapply wp_mono; [by apply wp_single_rules|]. intros [] h7 (C7 & l & (L7 & W7 & _ & D7) & R7).
  pose proof (context_made_keeps _ _ _ K25 C2) as (_ & He & _).
  apply wp_bind. eapply wp_mono; [apply wp_event_handler_run; rewrite C7, C6; lia|].
  intros [] h8 [e ->]. apply wp_ret. exists h5, window_id, ret.
  split; [exact (queues_made_keeps _ _ _ _ K35 M3)|]. split; [done|]. split; [cbn; rewrite D7, W7, <- Hd; exact E6|].
  exists p, arg, l, e. split; [|done]. cbn. by rewrite L7, L6, <- !app_assoc.
Qed.
End Lemmas.

(** ** End to end *)

Section EndToEnd.
Context {F : FlexioDev} {H : FlexioHost F} `{!FlexioDevLaws F} `{!FlexioHostLaws H}.

(** The contexts the device program takes from its configuration block. *)
Lemma device_init_ctx shared d (w : World F) ret d1 w1 :
  DpaRefactor.dpa_refactor_device_init shared d w = (ret, d1, w1) ->
  rq_ctx (rc_q d1) = DpaRefactor.init_rq (rq_data shared) /\
  hrq_rkey (host_rq_ctx d1) = wqd_mkey_id (rq_data shared) /\
  rq_window_id (host_rq_ctx d1) = new_buffer_mkey_id shared /\
  host_rx_buff (host_rq_ctx d1) = wqd_daddr (rq_data shared).
Proof.
  unfold DpaRefactor.dpa_refactor_device_init. destruct (init_send_sq _ _ _ _) as [sq w'].
  by intros [= <- <- <-].
Qed.

(** The hardware owns a ring a host has made. *)
Lemma queues_made_owner {D} s q (h : host (F := F) (D := D)) i :
  queues_made s q h -> 0 <= i < 2 ^ st_log_cq s ->
  flexio_dev_cqe_get_owner (cqe_at (h_world h) (cq_ring_daddr (cq_transf (hq_rq_cq q)), i)) = 1.
Proof. intros M Hi. unfold cqe_at. rewrite (made_owner _ _ _ M) by done. cbn. apply owner_set. lia. Qed.

(** The entry of the buffer a completion's packet lies in, and its address. *)
Definition entry_of (s : settings) (e : cqe64) : Z := flexio_dev_cqe_get_wqe_counter e mod 2 ^ st_log_rq s.

Lemma queues_made_addr {D} s q (h : host (F := F) (D := D)) (rq : rq_ctx_t) rings e :
  queues_made s q h -> 0 <= st_log_rq s -> rings = w_rq (h_world h) ->
  rq_ring rq = wq_ring_daddr (rq_transf (hq_rq q)) -> rq_idx_mask rq = Z.shiftl 1 (st_log_rq s) - 1 ->
  pkt_addr rq rings e = wqd_daddr (rq_transf (hq_rq q)) + entry_of s e * 2 ^ st_log_data s.
Proof.
  intros M Hl -> Hr Hk. unfold pkt_addr, entry_of. rewrite Hr, Hk, Z.shiftl_1_l.
  rewrite Z.sub_1_r, <- Z.ones_equiv, Z.land_ones by lia.
  destruct (made_entries _ _ _ M (flexio_dev_cqe_get_wqe_counter e mod 2 ^ st_log_rq s)) as (x & -> & Hx);
    [apply Z.mod_pos_bound; lia|]. exact Hx.
Qed.

(** Where the program finds the packet of a completion: in the entry's part of the
    buffer, seen through the window. *)
Lemma refactor_touch (q : queue_set) (hm : host (F := F) (D := refl_context)) d rings base e :
  queues_made dpa_refactor_settings q hm -> rings = w_rq (h_world hm) ->
  rq_ctx (rc_q d) = DpaRefactor.init_rq (rq_transf (hq_rq q)) -> rq_on_host d = 1 ->
  host_rx_buff (host_rq_ctx d) = wqd_daddr (rq_transf (hq_rq q)) ->
  0 <= base -> base + 2 ^ 17 <= 2 ^ 64 ->
  DpaRefactor.touch_addr (set_host_rq (set_dpa_rx_buff base (host_rq_ctx d)) d)
    (pkt_addr (rq_ctx (rc_q d)) rings e) = base + entry_of dpa_refactor_settings e * 1024.
Proof.
  intros M Hrs Erq Hon Ebuf Hb0 Hb1.
  rewrite (queues_made_addr dpa_refactor_settings q hm _ _ e M);
    [|done|done|by rewrite Erq|by rewrite Erq].
  unfold DpaRefactor.touch_addr, host_rq_addr_to_dpa_addr, set_host_rq, set_dpa_rx_buff.
  cbn [rq_on_host]. rewrite Hon. change (truthy 1) with true. cbn [host_rq_ctx host_rx_buff dpa_rx_buff].
  rewrite Ebuf. change (2 ^ st_log_data dpa_refactor_settings) with 1024.
  pose proof (Z.mod_pos_bound (flexio_dev_cqe_get_wqe_counter e) (2 ^ 7) ltac:(lia)) as Hk.
  change (flexio_dev_cqe_get_wqe_counter e mod 2 ^ 7) with (entry_of dpa_refactor_settings e) in Hk.
  rewrite Z.add_simpl_l, (wrapu_small 64 (entry_of _ _ * 1024)), wrapu_small by lia. lia.
Qed.

(** Packets in different entries do not overlap. *)
Lemma entries_apart s size (es : list cqe64) i j e e' base :
  NoDup (entry_of s <$> es) -> es !! i = Some e -> es !! j = Some e' -> j <> i -> 14 <= size ->
  base + entry_of s e' * size + 14 <= base + entry_of s e * size \/
  base + entry_of s e * size + 14 <= base + entry_of s e' * size.
Proof.
  intros Hnd Hi Hj Hne Hs. assert (entry_of s e' <> entry_of s e) as Hx; [|nia].
  intros Hx. apply Hne. eapply NoDup_lookup; [exact Hnd|..]; rewrite list_lookup_fmap;
    [by rewrite Hj|rewrite Hi; cbn; by f_equal].
Qed.
End EndToEnd.

(** C4.  The reflector end to end.  Run the host program of [dpa_refactor] on a machine
    with the named device.  Either one of the library calls it made was refused, or it
    completes; then let the NIC deliver up to 128 packets, each into another entry of
    the receive queue: with one unit of fuel per packet the handler drains the queue
    and keeps polling, in every entry that received a packet the Ethernet addresses
    have been exchanged, seen through the window the host buffer is mapped at, and the
    library calls are those of one packet after the other, from producer and consumer
    index zero. *)
Theorem refactor_end_to_end {F : FlexioDev} {H : FlexioHost F} `{!FlexioDevLaws F}
    `{!FlexioHostLaws H} (name : Z) (h0 : host (F := F) (D := refl_context)) (es : list cqe64)
    (fuel : nat) :
  name ∈ device_names -> h_dev h0 = DpaRefactor.dev_ctx_zero ->
  snd flexio_dev_get_thread_ctx <> 0 ->
  (length es <= 128)%nat -> (length es <= fuel)%nat ->
  (forall e, e ∈ es -> flexio_dev_cqe_get_owner e = 0) ->
  NoDup (entry_of dpa_refactor_settings <$> es) ->
  match dpa_refactor_main name h0 with
  | (None, h1) => call_refused h1
  | (Some q, h1) =>
      exists window_id base w1 d2 w2,
        get_host_buffer_with_dtctx window_id (wqd_mkey_id (rq_transf (hq_rq q)))
          (wqd_daddr (rq_transf (hq_rq q))) (h_world h1) = (base, w1) /\
        DpaRefactor.dpa_refactor_device_event_handler fuel
          [nic_burst 7 (cq_ring_daddr (cq_transf (hq_rq_cq q))) 0 es] (h_dev h1) (h_world h1)
          = Polling d2 w2 /\
        cqe_ready (rqcq_ctx (rc_q d2)) w2 = false /\
        (0 <= base -> base + 2 ^ 17 <= 2 ^ 64 -> forall e i, e ∈ es ->
           let a := base + entry_of dpa_refactor_settings e * 1024 in
           0 <= i < 14 -> rd8 (w_mem w2) (a + i) = rd8 (swap_mac (w_mem (h_world h1)) a) (a + i)) /\
        w_trace w2 = w_trace w1 ++
          burst_events [EvMemoryWriteback; EvWindowWriteback] (rc_q (h_dev h1)) 0 0 (length es)
  end.
Proof.
  intros Hn Hd0 Hth Hl Hf Ho Hnd.
  pose proof (wp_single_main dpa_refactor_settings DpaRefactor.dpa_refactor_device_init name h0 Hn
    ltac:(vm_compute; done) ltac:(vm_compute; done)) as HW.
  unfold wp in HW. change (single_main _ _ name h0) with (dpa_refactor_main name h0) in HW.
  destruct (dpa_refactor_main name h0) as [[q|] h1]; [|exact HW].
  destruct HW as (hm & win & ret & M & Hdm & E & _). rewrite Hd0 in E.
  set (shared := dev_data q (sq_transf (hq_sq q)) 0 0 win) in *.
  assert (forall i, 0 <= i < 128 -> flexio_dev_cqe_get_owner
    (cqe_at (h_world hm) (cq_ring_daddr (rq_cq_data shared), i)) = 1) as Hown.
  { intros i Hi. exact (queues_made_owner _ _ _ i M Hi). }
  destruct (refactor_handler_burst shared DpaRefactor.dev_ctx_zero _ _ _ _ es fuel
    Hown ltac:(cbn; lia) E Hth Hl Hf Ho) as (d2 & w2 & h & w1 & Em & Ep & Hr & Ht & _ & Hs).
  destruct (device_init_ctx _ _ _ _ _ _ E) as (Erq & Ekey & Ewin & Ebuf).
  destruct (device_init_rep _ _ _ _ _ _ Hown E) as (_ & _ & _ & _ & _ & _ & Hon & Hw).
  assert (rq_on_host (h_dev h1) = 1) as Hon1.
  { rewrite Hon. cbn. exact (made_on_host _ _ _ M). }
  unfold map_rx_buff in Em. rewrite Hon1, Ekey, Ewin, Ebuf in Em. cbn [truthy negb Z.eqb] in Em.
  change (rq_data shared) with (rq_transf (hq_rq q)) in *.
  change (new_buffer_mkey_id shared) with win in *.
  destruct (get_host_buffer_with_dtctx win (wqd_mkey_id (rq_transf (hq_rq q)))
    (wqd_daddr (rq_transf (hq_rq q))) (h_world h1)) as [base w1'] eqn:Eg.
  injection Em as <- <-. exists win, base, w1', d2, w2.
  split; [exact Eg|]. split; [exact Ep|]. split; [exact Hr|].
  split; [|by rewrite Ht; unfold DpaRefactor.writebacks; rewrite Hon1].
  intros Hb0 Hb1 e i He a Hi.
  assert (forall e, DpaRefactor.touch_addr (set_host_rq (set_dpa_rx_buff base (host_rq_ctx (h_dev h1))) (h_dev h1))
    (pkt_addr (rq_ctx (rc_q (h_dev h1))) (w_rq (h_world h1)) e) =
    base + entry_of dpa_refactor_settings e * 1024) as Ha.
  { intros e'. assert (w_rq (h_world h1) = w_rq (h_world hm)) as Hrs by (by rewrite Hw).
    exact (refactor_touch q hm _ _ base e' M Hrs Erq Hon1 Ebuf Hb0 Hb1). }
  apply list_elem_of_lookup in He as [k Hk].
  pose proof (Hs k e (a + i) Hk) as HE. rewrite Ha in HE. apply HE; [|unfold a; lia].
  intros j e' Hj Hne. rewrite Ha. by eapply entries_apart.
Qed.

Definition demo_refactor_host : host (F := ref_flexio) (D := refl_context) :=
  MkHost zero_context [] empty_world ∅ DpaRefactor.dev_ctx_zero.

Lemma demo_refactor_completes : bool_decide (is_Some (fst (dpa_refactor_main 7 demo_refactor_host))) = true.
Proof. vm_compute. reflexivity. Qed.

Definition demo_burst : list ref_cqe := [RefCqe 0 0 60; RefCqe 0 1 64].
Lemma demo_burst_entries : NoDup (entry_of (F := ref_flexio) dpa_refactor_settings <$> demo_burst).
Proof. change (NoDup [0; 1]). apply (bool_decide_unpack _). exact I. Qed.
Lemma demo_burst_owner e : e ∈ demo_burst -> rc_owner e = 0.
Proof. intros He. by repeat (apply elem_of_cons in He as [->|He]; [reflexivity|]); apply elem_of_nil in He. Qed.

Lemma refactor_end_to_end_witness :
  exists q h1 d2 w2, dpa_refactor_main (H := ref_host) 7 demo_refactor_host = (Some q, h1) /\
    DpaRefactor.dpa_refactor_device_event_handler (F := ref_flexio) 5
      [nic_burst (F := ref_flexio) 7 (cq_ring_daddr (cq_transf (hq_rq_cq q))) 0 demo_burst]
      (h_dev h1) (h_world h1) = Polling d2 w2.
Proof.
  assert (7 ∈ device_names (FlexioHost := ref_host)) as Hn by (cbn; set_solver).
  pose proof (refactor_end_to_end (F := ref_flexio) (H := ref_host) 7 demo_refactor_host
    demo_burst 5 Hn eq_refl ltac:(cbn; lia) ltac:(cbn; lia) ltac:(cbn; lia)
    demo_burst_owner demo_burst_entries) as HW.
  pose proof demo_refactor_completes as HC.
  destruct (dpa_refactor_main 7 demo_refactor_host) as [[q|] h1].
  - destruct HW as (win & base & w1 & d2 & w2 & _ & E & _). by exists q, h1, d2, w2.
  - by apply bool_decide_eq_true in HC as [? ?].
Defined.

(** ** One handler per thread *)

Section MtLemmas.
Context {F : FlexioDev} {H : FlexioHost F} `{!FlexioDevLaws F} `{!FlexioHostLaws H}.
Implicit Types h : host (F := F) (D := list refl_context).

(** Rings handed out in [h] stay as they are, whatever happens to the context. *)
Record grows h h' : Prop := MkGrows {
  grows_calls : h_calls h `prefix_of` h_calls h';
  grows_cq a i : allocated h a -> w_cq (h_world h') !! (a, i) = w_cq (h_world h) !! (a, i);
  grows_rq a i : allocated h a -> w_rq (h_world h') !! (a, i) = w_rq (h_world h) !! (a, i);
}.
Definition sq_kept h h' : Prop :=
  forall a i, allocated h a -> w_sq (h_world h') !! (a, i) = w_sq (h_world h) !! (a, i).

Lemma grows_trans h1 h2 h3 : grows h1 h2 -> grows h2 h3 -> grows h1 h3.
Proof.
  intros [P Cq Rq] [P' Cq' Rq']. assert (forall a, allocated h1 a -> allocated h2 a) as A
    by (intros a; by apply allocated_prefix).
  split; [by etrans|intros; rewrite Cq'; auto|intros; rewrite Rq'; auto].
Qed.
Lemma keeps_grows h h' : keeps h h' -> grows h h'.
Proof. intros []. by split. Qed.
Lemma asked_grows l h h' : asked l h h' -> grows h h' /\ sq_kept h h'.
Proof.
  intros (Hc & Hw & _). split; [split|]; [by exists l| | |]; intros a i _; by rewrite Hw.
Qed.

Lemma queues_made_grows s q h h' : grows h h' -> queues_made s q h -> queues_made s q h'.
Proof.
  intros [P Cq Rq] []. split; try done; try (by eapply allocated_prefix).
  - intros i Hi. rewrite Cq by done. auto.
  - intros i Hi. rewrite Rq by done. auto.
  - by eapply sq_created_prefix.
Qed.

(** The context of a thread that waits for its first packet. *)
Definition thread_ready (s : settings) (q : queue_set) (d : refl_context) h : Prop :=
  queues_made s q h /\
  exists shared, rq_cq_data shared = cq_transf (hq_rq_cq q) /\ rq_data shared = rq_transf (hq_rq q) /\
    sq_data shared = sq_transf (hq_sq q) /\ fresh_queues 7 7 shared 0 (rc_q d) (h_world h) /\
    rq_ctx (rc_q d) = DpaRefactorMt.init_rq (rq_data shared) /\
    rq_on_host d = daddr_on_host (rq_data shared).

Lemma thread_ready_grows s q d h h' :
  grows h h' -> sq_kept h h' -> thread_ready s q d h -> thread_ready s q d h'.
Proof.
  intros G S (M & shared & Ec & Er & Es & [] & Hrq & Hon). split; [by eapply queues_made_grows|].
  exists shared. split_and!; try done. split; try done.
  - refine (cq_rep_frame_at _ _ _ _ _ _ _ fq_cq). intros i. rewrite fq_ring, Ec.
    apply (grows_cq _ _ G), M.
  - refine (sq_rep_frame_at _ _ _ _ _ _ _ fq_sq). intros i. rewrite fq_sqring, Es. apply S, M.
Qed.

(** The initialisation of a thread. *)
Lemma mt_init_thread shared ds (w : World F) ret ds1 w1 :
  thread_index shared < DpaRefactorMt.MAX_THREADS ->
  ds !! Z.to_nat (thread_index shared) = Some zero_refl -> cq_prepared 7 shared w ->
  dpa_refactor_mt_device_init shared ds w = (ret, ds1, w1) ->
  exists d1, ds1 = <[Z.to_nat (thread_index shared) := d1]> ds /\
    fresh_queues 7 7 shared 0 (rc_q d1) w1 /\
    rq_ctx (rc_q d1) = DpaRefactorMt.init_rq (rq_data shared) /\
    rq_on_host d1 = daddr_on_host (rq_data shared) /\
    w1 = set_sq (w_sq w1) w /\
    forall b j, b <> wq_ring_daddr (sq_data shared) -> w_sq w1 !! (b, j) = w_sq w !! (b, j).
Proof.
  intros Hi Hd Hp E. unfold dpa_refactor_mt_device_init in E.
  rewrite (proj2 (Z.ltb_lt _ _) Hi) in E. cbn [negb] in E. cbv zeta in E. rewrite Hd in E.
  cbn [default] in E. destruct (init_refl _ _ _ _ _ _) as [d1 v1] eqn:Ei. injection E as <- <- <-.
  exists d1. split; [done|]. unfold init_refl in Ei.
  destruct (init_queues _ _ _ _ _ _) as [q w'] eqn:Eq.
  destruct (init_queues_fresh 7 7 7 ltac:(lia) ltac:(lia) _ _ _ _ _ Hp Eq) as [Hf Hw].
  injection Ei as <- <-. unfold init_queues in Eq.
  destruct (init_send_sq _ _ _ _) as [sq w''] eqn:Es. injection Eq as <- <-.
  split; [exact Hf|]. split; [reflexivity|]. split; [reflexivity|]. split; [exact Hw|].
  intros b j Hb. exact (init_send_sq_other _ _ _ _ _ _ b j Es Hb).
Qed.

(** After the set-up of some threads: each is ready, the others are untouched. *)
Definition threads_ready (begin_thread : Z) (qs : list queue_set) h : Prop :=
  context_made (length qs) h /\ length (h_dev h) = 190%nat /\
  (forall j q, qs !! j = Some q ->
     exists d, h_dev h !! Z.to_nat (begin_thread + Z.of_nat j) = Some d /\
       thread_ready refactor_mt_settings q d h) /\
  (forall k, begin_thread + Z.of_nat (length qs) <= k < 190 -> h_dev h !! Z.to_nat k = Some zero_refl).

(** Later states of the machine that keep the device's contexts. *)
Lemma threads_ready_later begin_thread qs h h' :
  grows h h' -> sq_kept h h' -> h_dev h' = h_dev h -> context_made (length qs) h' ->
  threads_ready begin_thread qs h -> threads_ready begin_thread qs h'.
Proof.
  intros G S Hd Hc (_ & Hlen & Ht & Hz). split_and!; [exact Hc|by rewrite Hd| |by rewrite Hd].
  intros j q Hq. destruct (Ht j q Hq) as (d & Hl & R). exists d. rewrite Hd.
  split; [exact Hl|]. by eapply thread_ready_grows.
Qed.

(** The calls after the initialisation of a thread. *)
Lemma mt_thread_tail s t mac thread index q h :
  (index < length (event_handler_vec (h_ctx h)))%nat ->
  wp (_ ← rx_rule (t_rx t) (set_dst_mac mac matcher_clear) (hq_rq q);
      _ ← tx_rules s (t_tx_dr t) (t_root t) (t_tx t) (set_src_mac mac matcher_clear);
      _ ← event_handler_run thread index;
      mret q)
    (fun q' h' => q' = q /\ h_ctx h' = h_ctx h /\ exists l, asked l h h') h.
Proof.
  intros Hi. apply wp_bind. eapply wp_mono; [apply wp_rx_rule|]. intros [] h1 S1. cbn beta in S1.
  apply wp_bind. eapply wp_mono; [apply wp_tx_rules|]. intros [] h2 S2. cbn beta in S2.
  destruct (steers_trans _ _ _ _ _ S1 S2) as (C & l & Hl & _).
  apply wp_bind. eapply wp_mono; [apply wp_event_handler_run; by rewrite C|]. intros [] h3 [e ->].
  apply wp_ret. split_and!; [done|exact C|]. eexists. apply asked_logged. exact Hl.
Qed.

Lemma mt_index begin_thread (n : nat) :
  0 <= begin_thread -> begin_thread + Z.of_nat n < 190 ->
  u32 (u64 (Z.of_nat n + begin_thread)) = begin_thread + Z.of_nat n.
Proof. intros H0 H1. rewrite (wrapu_small 64) by lia. rewrite wrapu_small by lia. lia. Qed.

(** A thread is added to those that are ready. *)
Lemma threads_ready_snoc begin_thread qs q d h h' :
  0 <= begin_thread -> begin_thread + Z.of_nat (length qs) < 190 ->
  threads_ready begin_thread qs h -> grows h h' -> sq_kept h h' ->
  h_dev h' = <[Z.to_nat (begin_thread + Z.of_nat (length qs)) := d]> (h_dev h) ->
  context_made (S (length qs)) h' -> thread_ready refactor_mt_settings q d h' ->
  threads_ready begin_thread (qs ++ [q]) h'.
Proof.
  intros Hb0 Hb1 (_ & Hlen & Ht & Hz) G S Hd C R. unfold threads_ready.
  rewrite length_app, Nat.add_1_r, Hd. split; [exact C|]. split; [by rewrite length_insert|].
  split.
  - intros j q' Hq. apply lookup_app_Some in Hq as [Hq|[Hj Hq]].
    + destruct (Ht j q' Hq) as (d' & Hl & R'). exists d'. apply lookup_lt_Some in Hq.
      rewrite list_lookup_insert_ne by lia. split; [exact Hl|]. by eapply thread_ready_grows.
    + apply list_lookup_singleton_Some in Hq as [Hj0 <-].
      replace j with (length qs) by lia. exists d. split; [|exact R].
      apply list_lookup_insert_eq. lia.
  - intros k Hk. rewrite list_lookup_insert_ne by lia. apply Hz. lia.
Qed.

Lemma wp_mt_thread begin_thread t qs h :
  0 <= begin_thread -> begin_thread + Z.of_nat (length qs) < 190 -> threads_ready begin_thread qs h ->
  wp (mt_thread refactor_mt_settings dpa_refactor_mt_device_init begin_thread 0 None t (length qs))
    (fun q h' => threads_ready begin_thread (qs ++ [q]) h') h.
Proof.
  intros Hb0 Hb1 R. pose proof R as (C & Hlen & Ht & Hz). unfold mt_thread.
  apply wp_bind. eapply wp_mono; [by apply (context_made_event (length qs))|].
  intros _ h1 ((l1 & A1 & _) & C1). destruct (asked_grows _ _ _ A1) as [G1 S1].
  apply wp_bind. eapply wp_mono; [apply wp_main_queues;
    [eapply context_made_ready; [exact C1|lia]|vm_compute; done]|].
  intros q h2 (K2 & M2 & N2). cbv zeta.
  apply wp_bind. eapply wp_get_window_id; [exact (context_made_keeps _ _ _ K2 C1)|]. intros win h3 K3.
  apply wp_bind. eapply wp_mono; [apply wp_move_to_dev|]. intros arg h4 (K4 & _ & Hcfg).
  assert (keeps h2 h4) as K24 by (by etrans). assert (keeps h1 h4) as K14 by (by etrans).
  pose proof (queues_made_keeps _ _ _ _ K24 M2) as M4.
  pose proof (context_made_keeps _ _ _ K14 C1) as C4.
  assert (h_dev h4 = h_dev h) as Hd4.
  { rewrite (keeps_dev _ _ K14). apply A1. }
  rewrite mt_index in Hcfg by done. set (cfg := dev_data _ _ _ _ _) in Hcfg.
  apply wp_bind. eapply wp_mono; [apply (wp_process_call _ _ _ cfg); exact Hcfg|].
  intros ret h5 (C5 & E5 & p & L5). rewrite Hd4 in E5.
  destruct (mt_init_thread cfg (h_dev h) (h_world h4) ret (h_dev h5) (h_world h5)) as
    (d1 & Hds & Hf & Hrq & Hon & Hw & Hsq); [exact Hb1|apply Hz; cbn; lia| |exact E5|].
  { intros i Hi. exact (queues_made_owner _ _ _ i M4 Hi). }
  eapply wp_mono; [apply mt_thread_tail; rewrite C5; destruct C4 as (_ & -> & _); lia|].
  intros q' h6 (-> & C6 & l6 & A6). destruct (asked_grows _ _ _ A6) as [G6 S6].
  assert (h_calls h4 `prefix_of` h_calls h5) as P45 by (rewrite L5; by eexists).
  assert (grows h4 h5) as G45 by (split; [exact P45|intros; by rewrite Hw..]).
  assert (grows h1 h5) as G15 by (by eapply grows_trans; [apply keeps_grows|]).
  assert (sq_kept h1 h5) as S15.
  { intros a i Ha. rewrite Hsq by (apply N2; exact Ha). by rewrite (keeps_sq _ _ K14). }
  apply (threads_ready_snoc _ qs q d1 h); [done..|exact (grows_trans _ _ _ G1 (grows_trans _ _ _ G15 G6))| | | |].
  - intros a i Ha. assert (allocated h1 a) as Ha1 by (eapply allocated_prefix; [apply G1|exact Ha]).
    assert (allocated h5 a) as Ha5 by (eapply allocated_prefix; [apply G15|exact Ha1]).
    rewrite S6, S15, S1 by done. done.
  - transitivity (h_dev h5); [apply A6|exact Hds].
  - destruct C4 as (Cu & Ce & Cw). split_and!; [by rewrite C6, C5..|].
    rewrite C6, C5. intros Hw0. eapply call_refused_prefix; [|by apply Cw]. etrans; [exact P45|apply G6].
  - apply (thread_ready_grows _ _ _ _ _ G6 S6). split; [exact (queues_made_grows _ _ _ _ G45 M4)|].
    exists cfg. split_and!; try reflexivity; assumption.
Qed.

Lemma wp_mt_threads begin_thread t n qs h :
  0 <= begin_thread -> begin_thread + Z.of_nat (length qs) + Z.of_nat n <= 190 ->
  threads_ready begin_thread qs h ->
  wp (mt_threads refactor_mt_settings dpa_refactor_mt_device_init begin_thread 0 None t n (length qs))
    (fun qs' h' => length qs' = n /\ threads_ready begin_thread (qs ++ qs') h') h.
Proof.
  intros Hb0. revert qs h. induction n as [|n IH]; intros qs h Hb R; cbn [mt_threads].
  { apply wp_ret. by rewrite app_nil_r. }
  apply wp_bind. eapply wp_mono; [apply wp_mt_thread; [done|lia|exact R]|]. intros q h1 R1. cbn beta in R1.
  specialize (IH (qs ++ [q]) h1). rewrite length_app, Nat.add_1_r in IH.
  apply wp_bind. eapply wp_mono; [apply IH; [lia|exact R1]|]. intros qs' h2 (L & R2). apply wp_ret.
  split; [cbn; lia|]. by rewrite <- app_assoc in R2.
Qed.

Lemma wp_mt_tables h : wp mt_tables (fun _ h' => h_ctx h' = h_ctx h /\ exists l, asked l h h') h.
Proof.
  unfold mt_tables. apply wp_bind. eapply wp_DR_new; [apply steers_refl|]. intros rx h1 S1.
  apply wp_bind, (wp_DR_new _ _ _ _ _ S1). intros tx h2 S2.
  apply wp_bind, (wp_table_keeps _ _ _ _ _ _ _ _ S2). intros t1 h3 S3.
  apply wp_bind, (wp_table_keeps _ _ _ _ _ _ _ _ S3). intros t2 h4 S4.
  apply wp_bind, (wp_table_keeps _ _ _ _ _ _ _ _ S4). intros t3 h5 (C & l & A & _). apply wp_ret.
  split; [exact C|]. by exists l.
Qed.

Lemma wp_refactor_mt_main begin_thread n name h :
  name ∈ device_names -> 0 <= begin_thread -> begin_thread + Z.of_nat n <= 190 ->
  h_dev h = DpaRefactorMt.dev_ctxs_zero ->
  wp (dpa_refactor_mt_main begin_thread n name)
    (fun qs h' => length qs = n /\ threads_ready begin_thread qs h') h.
Proof.
  intros Hn Hb0 Hb1 Hd. unfold dpa_refactor_mt_main, mt_main.
  apply wp_bind. eapply wp_mono; [by apply wp_main_context|]. intros _ h1 ((l1 & A1 & _) & C1).
  apply wp_bind. eapply wp_mono; [apply wp_mt_tables|]. intros t h2 (C2 & l2 & A2).
  apply wp_bind, wp_ret. apply (wp_mt_threads _ _ _ []); [done|cbn; lia|].
  assert (h_dev h2 = DpaRefactorMt.dev_ctxs_zero) as Hd2.
  { transitivity (h_dev h1); [apply A2|]. rewrite <- Hd. apply A1. }
  split_and!.
  - destruct C1 as (Cu & Ce & Cw). split_and!; [by rewrite C2..|]. rewrite C2. intros Hz.
    eapply call_refused_prefix; [|by apply Cw]. destruct A2 as (-> & _). by eexists.
  - by rewrite Hd2.
  - done.
  - intros k Hk. rewrite Hd2. cbn [length] in Hk. apply lookup_replicate_2.
    unfold DpaRefactorMt.MAX_THREADS. lia.
Qed.
End MtLemmas.

(** C18.  The multi-threaded reflector end to end.  Run the host program of
    [dpa_refactor_mt] for [n] threads, on contexts [begin_thread] and up.  Either one of
    its library calls was refused, or it completes with [n] sets of queues, and then
    every thread is ready, whichever threads were set up after it: let the NIC deliver
    up to 128 packets to its queue, each into another entry, and run its handler.  The
    handler drains the queue and keeps polling; the Ethernet addresses in each entry
    that received a packet have been exchanged; each packet is posted, in order, in
    the thread's own send ring with its own address and length; and the contexts of
    the other threads are unchanged. *)
Theorem mt_end_to_end {F : FlexioDev} {H : FlexioHost F} `{!FlexioDevLaws F} `{!FlexioHostLaws H}
    (name begin_thread : Z) (n : nat) (h0 : host (F := F) (D := list refl_context))
    (es : list cqe64) (fuel : nat) :
  name ∈ device_names -> 0 <= begin_thread -> begin_thread + Z.of_nat n <= DpaRefactorMt.MAX_THREADS ->
  h_dev h0 = DpaRefactorMt.dev_ctxs_zero -> snd flexio_dev_get_thread_ctx <> 0 ->
  (length es <= 128)%nat -> (length es <= fuel)%nat ->
  (forall e, e ∈ es -> flexio_dev_cqe_get_owner e = 0) ->
  NoDup (entry_of refactor_mt_settings <$> es) ->
  match dpa_refactor_mt_main begin_thread n name h0 with
  | (None, h1) => call_refused h1
  | (Some qs, h1) =>
      length qs = n /\
      forall i q, qs !! i = Some q ->
        let rq := rq_transf (hq_rq q) in
        let thread := begin_thread + Z.of_nat i in
        let at_entry e := wqd_daddr rq + entry_of refactor_mt_settings e * 2048 in
        exists d2 w2,
          dpa_refactor_mt_device_event_handler fuel
            [nic_burst 7 (cq_ring_daddr (cq_transf (hq_rq_cq q))) 0 es] thread (h_dev h1) (h_world h1)
            = Polling (<[Z.to_nat thread := d2]> (h_dev h1)) w2 /\
          cqe_ready (rqcq_ctx (rc_q d2)) w2 = false /\
          (forall e k, e ∈ es -> 0 <= k < 14 ->
             rd8 (w_mem w2) (at_entry e + k) = rd8 (swap_mac (w_mem (h_world h1)) (at_entry e)) (at_entry e + k)) /\
          (forall k e, es !! k = Some e ->
             posted w2 (wq_ring_daddr (sq_transf (hq_sq q)), 4 * Z.of_nat k + 2) (at_entry e)
               (flexio_dev_cqe_get_byte_cnt e) (wqd_mkey_id rq))
  end.
Proof.
  intros Hn Hb0 Hb1 Hd Hth Hl Hf Ho Hnd.
  pose proof (wp_refactor_mt_main begin_thread n name h0 Hn Hb0 Hb1 Hd) as HW. unfold wp in HW.
  destruct (dpa_refactor_mt_main begin_thread n name h0) as [[qs|] h1]; [|exact HW].
  destruct HW as [Hlen (_ & _ & Ht & _)]. split; [exact Hlen|]. intros i q Hq rq thread at_entry.
  destruct (Ht i q Hq) as (d & Hdl & M & shared & Ec & Er & Es & Hfr & Hrq & Hon).
  pose proof (fq_pi _ _ _ _ _ _ Hfr) as Hpi.
  assert (rq_on_host d = 0) as Hon0.
  { rewrite Hon, Er, (made_on_host _ _ _ M). reflexivity. }
  assert (forall e, pkt_addr (rq_ctx (rc_q d)) (w_rq (h_world h1)) e = at_entry e) as Ha.
  { intros e. refine (queues_made_addr refactor_mt_settings q h1 _ _ e M _ eq_refl _ _);
      [done|by rewrite Hrq, Er|by rewrite Hrq]. }
  destruct (mt_fresh_burst shared (h_dev h1) (h_world h1) thread d es fuel
    (set_dpa_rx_buff (host_rx_buff (host_rq_ctx d)) (host_rq_ctx d)) (h_world h1) Hdl
    ltac:(rewrite Hpi; exact Hfr) ltac:(rewrite Hpi; lia) Hth Hl Hf Ho
    ltac:(unfold map_rx_buff; rewrite Hon0; reflexivity)) as (d2 & w2 & E & Hm & Hp & _ & Hr).
  exists d2, w2. rewrite Ec in E. rewrite Es, (proj1 (proj2 (made_tx _ _ _ M))) in Hp.
  split; [exact E|]. split; [exact Hr|]. split.
  - intros e k He Hk. apply list_elem_of_lookup in He as [j Hj]. rewrite Hm.
    match goal with |- context [swap_all ?acc es _] => assert (forall e, acc e = at_entry e) as Hacc end.
    { intros e'. unfold DpaRefactorMt.touch_addr, set_host_rq. cbn [rq_on_host]. rewrite Hon0. apply Ha. }
    rewrite (rd8_swap_all _ es (w_mem (h_world h1)) j e _ Hj);
      [by rewrite Hacc| |rewrite Hacc; lia].
    intros j' e' Hj' Hne. rewrite !Hacc. by eapply entries_apart.
  - intros k e Hk. rewrite <- Ha. by apply Hp.
Qed.

Definition demo_mt_host : host (F := ref_flexio) (D := list refl_context) :=
  MkHost zero_context [] empty_world ∅ DpaRefactorMt.dev_ctxs_zero.

Lemma demo_mt_completes : bool_decide (is_Some (fst (dpa_refactor_mt_main 2 2 7 demo_mt_host))) = true.
Proof. vm_compute. reflexivity. Qed.

Lemma demo_mt_entries : NoDup (entry_of (F := ref_flexio) refactor_mt_settings <$> demo_burst).
Proof. change (NoDup [0; 1]). apply (bool_decide_unpack _). exact I. Qed.

Lemma mt_end_to_end_witness :
  exists qs h1, dpa_refactor_mt_main (H := ref_host) 2 2 7 demo_mt_host = (Some qs, h1) /\
    exists q d2 w2, qs !! 0%nat = Some q /\
      dpa_refactor_mt_device_event_handler (F := ref_flexio) 5
        [nic_burst (F := ref_flexio) 7 (cq_ring_daddr (cq_transf (hq_rq_cq q))) 0 demo_burst]
        2 (h_dev h1) (h_world h1) = Polling d2 w2.
Proof.
  assert (7 ∈ device_names (FlexioHost := ref_host)) as Hn by (cbn; set_solver).
  pose proof (mt_end_to_end (F := ref_flexio) (H := ref_host) 7 2 2 demo_mt_host demo_burst 5 Hn
    ltac:(lia) ltac:(vm_compute; done) eq_refl ltac:(cbn; lia) ltac:(cbn; lia) ltac:(cbn; lia)
    demo_burst_owner demo_mt_entries) as HW.
  pose proof demo_mt_completes as HC.
  destruct (dpa_refactor_mt_main 2 2 7 demo_mt_host) as [[qs|] h1].
  - destruct HW as [Hlen HW]. destruct qs as [|q qs]; [done|].
    destruct (HW 0%nat q eq_refl) as (d2 & w2 & E & _).
    exists (q :: qs), h1. split; [done|]. by exists q, (<[2%nat := d2]> (h_dev h1)), w2.
  - by apply bool_decide_eq_true in HC as [? ?].
Defined.

(** ** The start of a program *)

(** The set-up order of the programs with one handler.  Whatever device program it is
    given, the host program either stops at a refused library call or goes through: the
    queues are made, with the completion ring owned by hardware and every receive entry
    pointing at its own part of the data buffer; then the device program is initialised
    with them; then rules for its MAC address are added, and no others; and starting
    the handler is the last call. *)
Theorem single_main_starts {F : FlexioDev} {H : FlexioHost F} {D : Type} `{!FlexioHostLaws H}
    (s : settings) (init : queue_config_data -> D -> World F -> Z * D * World F) (name : Z)
    (h0 : host (F := F) (D := D)) :
  name ∈ device_names ->
  s ∈ [dpa_refactor_settings; workingset_settings; random_access_settings; ddio_settings;
       send_settings; send_ntp_settings] ->
  match single_main s init name h0 with
  | (None, h1) => call_refused h1
  | (Some q, h1) => started s init q h0 h1
  end.
Proof.
  intros Hn Hs. assert (good_settings s /\ 0 <= st_mac s < 2 ^ 48) as [Hg Hm].
  { by repeat (apply elem_of_cons in Hs as [->|Hs]; [vm_compute; done|]); apply elem_of_nil in Hs. }
  pose proof (wp_single_main s init name h0 Hn Hg Hm) as HW. unfold wp in HW.
  destruct (single_main s init name h0) as [[q|] h1]; exact HW.
Qed.

(** The concrete machine completes for one of the programs. *)
Lemma demo_single_completes :
  bool_decide (is_Some (fst (single_main dpa_refactor_settings DpaRefactor.dpa_refactor_device_init 7
    demo_refactor_host))) = true.
Proof. vm_compute. reflexivity. Qed.

Lemma single_main_starts_witness :
  exists q h1, single_main (H := ref_host) dpa_refactor_settings
      DpaRefactor.dpa_refactor_device_init 7 demo_refactor_host = (Some q, h1) /\
    started dpa_refactor_settings DpaRefactor.dpa_refactor_device_init q demo_refactor_host h1.
Proof.
  assert (7 ∈ device_names (FlexioHost := ref_host)) as Hn by (cbn; set_solver).
  pose proof (single_main_starts (F := ref_flexio) (H := ref_host) dpa_refactor_settings
    DpaRefactor.dpa_refactor_device_init 7 demo_refactor_host Hn ltac:(set_solver)) as HW.
  pose proof demo_single_completes as HC.
  destruct (single_main dpa_refactor_settings DpaRefactor.dpa_refactor_device_init 7 demo_refactor_host)
    as [[q|] h1].
  - by exists q, h1.
  - by apply bool_decide_eq_true in HC as [? ?].
Defined.

(** [dpa_refactor_ddio] gives its send ring two depths.  The host creates the queue with
    2^13 entries; the device program wraps after 2^10: once 1024 packets have been
    answered it writes the data segment of entry [n] in entry [n mod 1024], which is
    another entry than the [n]-th of the ring the queue was created with. *)
Theorem ddio_send_ring_depths {F : FlexioDev} {H : FlexioHost F} `{!FlexioDevLaws F}
    `{!FlexioHostLaws H} (name : Z) (h0 : host (F := F) (D := probe_state)) :
  name ∈ device_names ->
  match dpa_refactor_ddio_main name h0 with
  | (None, h1) => call_refused h1
  | (Some q, h1) =>
      let sq := sq_ctx (pb_q (h_dev h1)) in
      sq_created 13 (sq_ring sq) h1 /\ sq_idx_mask sq = 2 ^ (10 + 2) - 1 /\
      forall n, 1024 <= n < 2 ^ 13 -> data_slot 10 sq n <> data_slot 13 sq n
  end.
Proof.
  intros Hn. pose proof (wp_single_main ddio_settings Ddio.dpa_refactor_device_init name h0 Hn
    ltac:(vm_compute; done) ltac:(vm_compute; done)) as HW. unfold wp in HW.
  change (single_main _ _ name h0) with (dpa_refactor_ddio_main name h0) in HW.
  destruct (dpa_refactor_ddio_main name h0) as [[q|] h1]; [|exact HW].
  destruct HW as (hm & win & ret & M & _ & E & p & arg & l & e & L & _).
  unfold Ddio.dpa_refactor_device_init, device_init, init_queues in E.
  destruct (init_send_sq _ _ _ _) as [sq w'] eqn:Es. injection E as _ Ed _. rewrite <- Ed. cbn -[Z.pow data_slot].
  destruct (sq_rep_init 10 ltac:(lia) _ _ _ _ _ _ Es) as ([Hm _ _] & _ & _ & Hr & _).
  rewrite Hr. split_and!; [|exact Hm|].
  - eapply sq_created_prefix; [|exact (made_sq_call _ _ _ M)]. rewrite L. by eexists.
  - intros n Hn' [= E]. rewrite (Z.mod_small n (2 ^ 13)) in E by lia.
    pose proof (Z.mod_pos_bound n (2 ^ 10) ltac:(lia)). lia.
Qed.
