(* ===== verification/HexDump.v ===== *)
(** * HexDump: the hexadecimal dump of the utilities

    Translation of [hex_dump] of [utils/utils_common.cpp].  Characters are their codes.
    The buffer is the block [malloc] returned; a store outside of it has no result.
    [snprintf] stores at most as many characters as it is given room for, the last one
    NUL. *)

From S2P Require Import Prelude.

Definition line_size : Z := 8 + 2 + 8 * 3 + 1 + 8 * 3 + 1 + 16 + 1.

(** The locals of the function. *)
Record dump := MkDump {
  buffer : list Z;
  write_head : Z;
  buffer_size : Z;
  read_index : nat;
  ascii_line : list Z;
}.

(** A store of [bs] at offset [off] of the buffer. *)
Definition store (off : Z) (bs : list Z) (s : dump) : option dump :=
  if (0 <=? off) && (off + Z.of_nat (length bs) <=? Z.of_nat (length (buffer s))) then
    Some (MkDump (take (Z.to_nat off) (buffer s) ++ bs ++ drop (Z.to_nat off + length bs) (buffer s))
            (write_head s) (buffer_size s) (read_index s) (ascii_line s))
  else None.

Definition snprintf (out : list Z) (s : dump) : option dump :=
  if buffer_size s =? 0 then Some s
  else store (write_head s) (take (Z.to_nat (buffer_size s - 1)) out ++ [0]) s.

(** [write_head += n; buffer_size -= n;] *)
Definition advance (n : Z) (s : dump) : dump :=
  MkDump (buffer s) (write_head s + n) (u64 (buffer_size s - n)) (read_index s) (ascii_line s).

Definition print (out : list Z) (n : Z) (s : dump) : option dump := advance n <$> snprintf out s.

(** [%X]: the digits of a number, at least [n] of them. *)
Definition hex_digit (d : Z) : Z := if d <? 10 then 48 + d else 55 + d.
Fixpoint hex (n : nat) (v : Z) : list Z :=
  match n with O => [] | S n => hex n (v / 16) ++ [hex_digit (v mod 16)] end.
Definition hex_min (n : nat) (v : Z) : list Z := hex (Nat.max n (Z.to_nat (Z.log2 v / 4 + 1))) v.

(** [' ' <= cur_char && cur_char <= '~'] *)
Definition printable_of (c : Z) : Z := if (32 <=? c) && (c <=? 126) then c else 46.

(** One cell: the next byte or three spaces. *)
Definition cell (data : list Z) (k : nat) (s : dump) : option dump :=
  match data !! read_index s with
  | Some c =>
      s ← snprintf (hex_min 2 c ++ [32]) s;
      Some (advance 3 (MkDump (buffer s) (write_head s) (buffer_size s) (S (read_index s))
                         (<[k := printable_of c]> (ascii_line s))))
  | None =>
      s ← snprintf [32; 32; 32] s;
      Some (advance 3 (MkDump (buffer s) (write_head s) (buffer_size s) (read_index s)
                         (<[k := 32]> (ascii_line s))))
  end.

Fixpoint cells (data : list Z) (n k : nat) (s : dump) : option dump :=
  match n with
  | O => Some s
  | S n => s ← cell data k s; cells data n (S k) s
  end.

(** The string in an array: up to its NUL. *)
Fixpoint c_string (l : list Z) : list Z :=
  match l with
  | [] => []
  | c :: l => if c =? 0 then [] else c :: c_string l
  end.

Definition set_nul (s : dump) : dump :=
  MkDump (buffer s) (write_head s) (buffer_size s) (read_index s) (<[16%nat := 0]> (ascii_line s)).

(** One line: offset, two groups of eight cells, the characters. *)
Definition line (data : list Z) (i : Z) (s : dump) : option dump :=
  s ← print (hex_min 8 (u64 (i * 16)) ++ [58; 32]) (8 + 2) s;
  s ← cells data 8 0 s;
  s ← print [32] 1 s;
  s ← cells data 8 8 s;
  s ← print [32] 1 s;
  let s := set_nul s in
  print (c_string (ascii_line s) ++ [10]) (16 + 1) s.

Fixpoint lines (data : list Z) (n : nat) (i : Z) (s : dump) : option dump :=
  match n with
  | O => Some s
  | S n => s ← line data i s; lines data n (i + 1) s
  end.

(** [malloc] gives a block of [buffer_size] bytes, or none; [junk] is what the local
    array [ascii_line] holds.  No result is a store outside of the block. *)
Definition hex_dump (malloc : Z -> option (list Z)) (junk : list Z) (data : list Z)
    : option (option (list Z)) :=
  let size := Z.of_nat (length data) in
  let num_lines := u64 (size + 16 - 1) / 16 in
  let buffer_size := u64 (num_lines * line_size + 1) in
  match malloc buffer_size with
  | None => Some None
  | Some block =>
      s ← lines data (Z.to_nat num_lines) 0 (MkDump block 0 buffer_size 0 junk);
      s ← store (write_head s - 1) [0] s;
      Some (Some (buffer s))
  end.

Example hex_dump_sample :
  match hex_dump (fun n => Some (replicate (Z.to_nat n) 255)) (replicate 17 7) [72; 105; 10] with
  | Some (Some l) => take 16 l = [48; 48; 48; 48; 48; 48; 48; 48; 58; 32; 52; 56; 32; 54; 57; 32]
  | _ => False
  end.
Proof. vm_compute. reflexivity. Qed.

(** ** The text of a dump *)

Definition cell_text (data : list Z) (k : nat) : list Z :=
  match data !! k with Some c => hex 2 c ++ [32] | None => [32; 32; 32] end.
Definition char_at (data : list Z) (k : nat) : Z :=
  match data !! k with Some c => printable_of c | None => 32 end.
Definition line_text (data : list Z) (i : nat) : list Z :=
  hex 8 (16 * Z.of_nat i) ++ [58; 32] ++
  concat (cell_text data <$> seq (16 * i) 8) ++ [32] ++
  concat (cell_text data <$> seq (16 * i + 8) 8) ++ [32] ++
  (char_at data <$> seq (16 * i) 16) ++ [10].
Definition num_lines (data : list Z) : nat := Z.to_nat ((Z.of_nat (length data) + 15) / 16).
Definition dump_text (data : list Z) : list Z := concat (line_text data <$> seq 0 (num_lines data)).

(** ** Lemmas *)

Lemma length_hex n v : length (hex n v) = n.
Proof. revert v. induction n as [|n IH]; intros v; cbn; [done|]. rewrite length_app, IH. cbn. lia. Qed.

Lemma hex_min_small n v : 0 <= v < 16 ^ Z.of_nat n -> (0 < n)%nat -> hex_min n v = hex n v.
Proof.
  intros Hv Hn. unfold hex_min. f_equal. apply Nat.max_l. destruct (decide (v = 0)) as [->|Hz].
  { change (Z.to_nat (Z.log2 0 / 4 + 1)) with 1%nat. lia. }
  assert (Z.log2 v < 4 * Z.of_nat n) as Hl.
  { apply Z.log2_lt_pow2; [lia|]. rewrite Z.pow_mul_r by lia. change (2 ^ 4) with 16. lia. }
  pose proof (Z.log2_nonneg v). mlia.
Qed.

(** [t] has been written, with a NUL behind it, and [n] more characters and a NUL fit. *)
Definition wrote (t : list Z) (n : nat) (s : dump) : Prop :=
  exists rest, buffer s = t ++ rest /\ write_head s = Z.of_nat (length t) /\
    buffer_size s = Z.of_nat (length rest) /\ length rest = S n /\ Z.of_nat (S n) < 2 ^ 64 /\
    (t <> [] -> rest !! 0%nat = Some 0).

Lemma snprintf_wrote out t n s :
  wrote t (length out + n) s ->
  exists s', snprintf out s = Some s' /\ buffer_size s' = buffer_size s /\
    read_index s' = read_index s /\ ascii_line s' = ascii_line s /\
    forall r a, wrote (t ++ out) n
      (advance (Z.of_nat (length out)) (MkDump (buffer s') (write_head s') (buffer_size s') r a)) /\
      (exists rest, buffer s' = t ++ out ++ 0 :: rest).
Proof.
  intros (rest & Eb & Ew & Es & El & Hl & _). unfold snprintf, store. rewrite Es, Ew, El.
  rewrite (proj2 (Z.eqb_neq _ _)) by lia.
  replace (Z.to_nat (Z.of_nat (S (length out + n)) - 1)) with (length out + n)%nat by lia.
  rewrite (take_ge out) by lia. rewrite length_app, Eb, length_app. cbn [length].
  rewrite (proj2 (Z.leb_le _ _)), (proj2 (Z.leb_le _ _)) by lia. cbn [andb].
  eexists. split; [reflexivity|]. cbn [buffer write_head buffer_size read_index ascii_line].
  split; [done|]. split; [done|]. split; [done|]. intros r a.
  rewrite Nat2Z.id, take_app_length, drop_app_ge by lia.
  replace (length t + (length out + 1) - length t)%nat with (S (length out)) by lia.
  split.
  - exists (0 :: drop (S (length out)) rest). unfold advance. cbn [buffer write_head buffer_size].
    split_and!.
    + by rewrite <- !app_assoc.
    + rewrite length_app. lia.
    + rewrite wrapu_small by lia. cbn [length]. rewrite length_drop. lia.
    + cbn [length]. rewrite length_drop. lia.
    + lia.
    + done.
  - exists (drop (S (length out)) rest). by rewrite <- !app_assoc.
Qed.

Lemma print_wrote out t n s k :
  k = Z.of_nat (length out) -> wrote t (length out + n) s ->
  exists s', print out k s = Some s' /\ wrote (t ++ out) n s' /\
    read_index s' = read_index s /\ ascii_line s' = ascii_line s.
Proof.
  intros -> W. destruct (snprintf_wrote out t n s W) as (s' & E & _ & Er & Ea & HW).
  unfold print. rewrite E. eexists. split; [reflexivity|].
  destruct (HW (read_index s') (ascii_line s')) as [HW1 _]. by destruct s'.
Qed.

Lemma set_nul_wrote t n s : wrote t n s -> wrote t n (set_nul s).
Proof. done. Qed.

Section Dump.
Context (data : list Z) (Hdata : Forall (fun c => 0 <= c < 256) data).

(** Cell number [k] of the dump, [j]-th of its line. *)
Lemma cell_wrote t n k j s :
  wrote t (3 + n) s -> read_index s = Nat.min k (length data) -> (j < length (ascii_line s))%nat ->
  exists s', cell data j s = Some s' /\ wrote (t ++ cell_text data k) n s' /\
    read_index s' = Nat.min (S k) (length data) /\ ascii_line s' = <[j := char_at data k]> (ascii_line s).
Proof.
  intros W Hr Hj. unfold cell, cell_text, char_at. destruct (decide (k < length data)%nat) as [Hk|Hk].
  - apply lookup_lt_is_Some in Hk as [c Hc]. pose proof (lookup_lt_Some _ _ _ Hc).
    rewrite Hr, Nat.min_l, Hc by lia.
    assert (0 <= c < 256) as Hcr by (by eapply list.Forall_lookup in Hdata).
    rewrite hex_min_small by (cbn; lia).
    destruct (snprintf_wrote (hex 2 c ++ [32]) t n s) as (s' & E & _ & Er & Ea & HW).
    { by rewrite length_app, length_hex. }
    rewrite E. cbn [mbind option_bind]. eexists. split; [reflexivity|].
    rewrite length_app, length_hex in HW. cbn [length Nat.add] in HW.
    split; [apply HW|]. cbn [advance read_index ascii_line]. rewrite Er, Ea, Hr. split; [lia|done].
  - rewrite (lookup_ge_None_2 data (read_index s)), (lookup_ge_None_2 data k) by lia.
    destruct (snprintf_wrote [32; 32; 32] t n s W) as (s' & E & _ & Er & Ea & HW).
    rewrite E. cbn [mbind option_bind]. eexists. split; [reflexivity|].
    split; [apply HW|]. cbn [advance read_index ascii_line]. rewrite Er, Ea, Hr. split; [lia|done].
Qed.

Lemma length_cell_text k : length (cell_text data k) = 3%nat.
Proof. unfold cell_text. destruct (data !! k); [by rewrite length_app, length_hex|done]. Qed.

(** The first [m] characters of the line that starts at byte [k]. *)
Definition chars_at (k m : nat) (l : list Z) : Prop :=
  forall j, (j < m)%nat -> l !! j = Some (char_at data (k + j)).

Lemma cells_wrote m t n k j s :
  wrote t (3 * m + n) s -> read_index s = Nat.min (k + j) (length data) ->
  (j + m < length (ascii_line s))%nat -> chars_at k j (ascii_line s) ->
  exists s', cells data m j s = Some s' /\
    wrote (t ++ concat (cell_text data <$> seq (k + j) m)) n s' /\
    read_index s' = Nat.min (k + (j + m)) (length data) /\
    length (ascii_line s') = length (ascii_line s) /\ chars_at k (j + m) (ascii_line s').
Proof.
  revert t j s. induction m as [|m IH]; intros t j s W Hr Hj Hc; cbn [cells].
  { exists s. cbn. rewrite app_nil_r, Nat.add_0_r. done. }
  destruct (cell_wrote t (3 * m + n) (k + j) j s) as (s1 & E1 & W1 & R1 & A1); [|done|lia|].
  { by replace (3 + (3 * m + n))%nat with (3 * S m + n)%nat by lia. }
  rewrite E1. cbn [mbind option_bind].
  destruct (IH _ (S j) s1 W1) as (s2 & E2 & W2 & R2 & L2 & C2).
  - rewrite R1. f_equal. lia.
  - rewrite A1, length_insert. lia.
  - intros i Hi. rewrite A1. destruct (decide (i = j)) as [->|Hne].
    + apply list_lookup_insert_eq. lia.
    + rewrite list_lookup_insert_ne by lia. apply Hc. lia.
  - exists s2. rewrite E2. replace (j + S m)%nat with (S j + m)%nat by lia.
    split; [done|]. split; [|split; [exact R2|split; [by rewrite L2, A1, length_insert|exact C2]]].
    cbn [seq fmap list_fmap concat]. rewrite app_assoc. replace (S (k + j)) with (k + S j)%nat by lia.
    exact W2.
Qed.

Lemma length_cells k m : length (concat (cell_text data <$> seq k m)) = (3 * m)%nat.
Proof.
  revert k. induction m as [|m IH]; intros k; cbn [seq fmap list_fmap concat]; [done|].
  rewrite length_app, length_cell_text, IH. lia.
Qed.

Lemma char_at_nonzero k : char_at data k <> 0.
Proof.
  unfold char_at, printable_of. destruct (data !! k); [|done]. destruct ((_ <=? _) && _) eqn:E; [|done].
  apply andb_true_iff in E as [E _]. apply Z.leb_le in E. lia.
Qed.

Lemma c_string_chars k (l : list Z) :
  length l = 17%nat -> chars_at k 16 l -> c_string (<[16%nat := 0]> l) = char_at data <$> seq k 16.
Proof.
  intros Hl Hc. assert (<[16%nat := 0]> l = (char_at data <$> seq k 16) ++ [0]) as ->.
  { apply list_eq. intros i. destruct (decide (i < 16)%nat) as [Hi|Hi].
    - rewrite list_lookup_insert_ne, Hc by lia. rewrite lookup_app_l, list_lookup_fmap, lookup_seq_lt by
        (rewrite ?length_fmap, ?length_seq; lia). done.
    - rewrite lookup_app_r by (rewrite length_fmap, length_seq; lia). rewrite length_fmap, length_seq.
      destruct (decide (i = 16%nat)) as [->|]; [rewrite list_lookup_insert_eq by lia; done|].
      rewrite !lookup_ge_None_2; [done|cbn; lia|rewrite length_insert; lia]. }
  generalize (seq k 16). intros ks. induction ks as [|x ks IH]; [done|]. cbn [fmap list_fmap app c_string].
  rewrite (proj2 (Z.eqb_neq _ _) (char_at_nonzero x)). by f_equal.
Qed.

Lemma length_line_text i : length (line_text data i) = 77%nat.
Proof.
  unfold line_text. rewrite !length_app, !length_cells, length_hex, length_fmap, length_seq. done.
Qed.

Lemma line_wrote t n i s :
  wrote t (77 + n) s -> read_index s = Nat.min (16 * i) (length data) -> length (ascii_line s) = 17%nat ->
  Z.of_nat i < 2 ^ 28 ->
  exists s', line data (Z.of_nat i) s = Some s' /\ wrote (t ++ line_text data i) n s' /\
    read_index s' = Nat.min (16 * S i) (length data) /\ length (ascii_line s') = 17%nat.
Proof.
  intros W Hr Ha Hi. unfold line. rewrite wrapu_small by lia.
  replace (Z.of_nat i * 16) with (16 * Z.of_nat i) by lia.
  rewrite hex_min_small by lia. change (8 + 2) with 10. change (16 + 1) with 17.
  destruct (print_wrote (hex 8 (16 * Z.of_nat i) ++ [58; 32]) t (67 + n) s 10) as (s1 & -> & W1 & R1 & A1);
    [by rewrite length_app, length_hex|by rewrite length_app, length_hex|]. cbn [mbind option_bind].
  destruct (cells_wrote 8 _ (43 + n) (16 * i) 0 s1 W1) as (s2 & -> & W2 & R2 & L2 & C2);
    [rewrite R1, Hr; f_equal; lia|rewrite A1; lia|intros j Hj; lia|]. cbn [mbind option_bind].
  destruct (print_wrote [32] _ (42 + n) s2 1 eq_refl W2) as (s3 & -> & W3 & R3 & A3). cbn [mbind option_bind].
  destruct (cells_wrote 8 _ (18 + n) (16 * i) 8 s3 W3) as (s4 & -> & W4 & R4 & L4 & C4);
    [rewrite R3, R2; f_equal; lia|rewrite A3, L2, A1; lia|by rewrite A3|]. cbn [mbind option_bind].
  destruct (print_wrote [32] _ (17 + n) s4 1 eq_refl W4) as (s5 & -> & W5 & R5 & A5). cbn [mbind option_bind].
  assert (length (ascii_line s5) = 17%nat) as L5 by (rewrite A5, L4, A3, L2, A1; exact Ha).
  cbv zeta. cbn [ascii_line set_nul]. rewrite (c_string_chars (16 * i)) by (done || by rewrite A5).
  set (tail := (char_at data <$> seq (16 * i) 16) ++ [10]).
  assert (length tail = 17%nat) as Lt by (unfold tail; by rewrite length_app, length_fmap, length_seq).
  apply set_nul_wrote in W5. replace (17 + n)%nat with (length tail + n)%nat in W5 by lia.
  destruct (print_wrote tail _ n (set_nul s5) 17 ltac:(lia) W5) as (s6 & -> & W6 & R6 & A6).
  exists s6. split; [done|]. split; [|split].
  - unfold tail in W6. unfold line_text. rewrite Nat.add_0_r in W6. by rewrite <- !app_assoc in W6.
  - rewrite R6. cbn [set_nul read_index]. rewrite R5, R4. f_equal. lia.
  - rewrite A6. cbn [set_nul ascii_line]. by rewrite length_insert.
Qed.

Lemma lines_wrote m t n i s :
  wrote t (77 * m + n) s -> read_index s = Nat.min (16 * i) (length data) ->
  length (ascii_line s) = 17%nat -> Z.of_nat (i + m) <= 2 ^ 28 ->
  exists s', lines data m (Z.of_nat i) s = Some s' /\
    wrote (t ++ concat (line_text data <$> seq i m)) n s'.
Proof.
  revert t i s. induction m as [|m IH]; intros t i s W Hr Ha Hi; cbn [lines].
  { exists s. cbn. by rewrite app_nil_r. }
  destruct (line_wrote t (77 * m + n) i s) as (s1 & E1 & W1 & R1 & A1); [|done|done|lia|].
  { by replace (77 + (77 * m + n))%nat with (77 * S m + n)%nat by lia. }
  rewrite E1. cbn [mbind option_bind].
  destruct (IH _ (S i) s1 W1 R1 A1 ltac:(lia)) as (s2 & E2 & W2). exists s2.
  replace (Z.of_nat i + 1) with (Z.of_nat (S i)) by lia. split; [exact E2|].
  cbn [seq fmap list_fmap concat]. by rewrite app_assoc.
Qed.
End Dump.

(** The value of a hexadecimal digit. *)
Definition unhex (c : Z) : Z := if c <? 65 then c - 48 else c - 55.

Lemma unhex_digit d : 0 <= d < 16 -> unhex (hex_digit d) = d.
Proof. intros Hd. unfold unhex, hex_digit.
  destruct (Z.ltb_spec d 10).
  - destruct (Z.ltb_spec (48 + d) 65); lia.
  - destruct (Z.ltb_spec (55 + d) 65); lia. Qed.

(** Where byte [k] stands in the text. *)
Definition cell_pos (k : nat) : nat :=
  77 * (k / 16) + 10 + 3 * (k mod 16) + (if (k mod 16 <? 8)%nat then 0 else 1).

Lemma concat_lookup {A} (f : nat -> list A) w n i j m :
  (forall x, length (f x) = w) -> (i < n)%nat -> (j < w)%nat ->
  concat (f <$> seq m n) !! (w * i + j)%nat = f (m + i)%nat !! j.
Proof.
  intros Hw. revert m i. induction n as [|n IH]; intros m i Hi Hj; [lia|].
  cbn [seq fmap list_fmap concat]. destruct i as [|i].
  - rewrite Nat.mul_0_r, Nat.add_0_l, Nat.add_0_r. apply lookup_app_l. by rewrite Hw.
  - rewrite lookup_app_r by (rewrite Hw; lia). rewrite Hw.
    replace (w * S i + j - w)%nat with (w * i + j)%nat by lia. rewrite IH by lia.
    by replace (S m + i)%nat with (m + S i)%nat by lia.
Qed.

Section ReadBack.
Context (data : list Z) (Hdata : Forall (fun c => 0 <= c < 256) data).

Lemma line_text_cell i r j : (r < 16)%nat -> (j < 3)%nat ->
  line_text data i !! (10 + 3 * r + (if (r <? 8)%nat then 0 else 1) + j)%nat =
  cell_text data (16 * i + r) !! j.
Proof.
  intros Hr Hj. unfold line_text.
  rewrite lookup_app_r by (rewrite length_hex; lia). rewrite length_hex.
  rewrite lookup_app_r by (cbn; lia). cbn [length].
  destruct (Nat.ltb_spec r 8) as [H8|H8].
  - rewrite lookup_app_l by (rewrite length_cells; lia).
    replace (10 + 3 * r + 0 + j - 8 - 2)%nat with (3 * r + j)%nat by lia.
    apply concat_lookup; [apply length_cell_text|lia|lia].
  - rewrite lookup_app_r by (rewrite length_cells; lia). rewrite length_cells.
    rewrite lookup_app_r by (cbn; lia). cbn [length].
    rewrite lookup_app_l by (rewrite length_cells; lia).
    replace (10 + 3 * r + 1 + j - 8 - 2 - 3 * 8 - 1)%nat with (3 * (r - 8) + j)%nat by lia.
    rewrite concat_lookup; [|apply length_cell_text|lia|lia].
    by replace (16 * i + 8 + (r - 8))%nat with (16 * i + r)%nat by lia.
Qed.

Lemma dump_text_cell k j : (k < 16 * num_lines data)%nat -> (j < 3)%nat ->
  dump_text data !! (cell_pos k + j)%nat = cell_text data k !! j.
Proof.
  intros Hk Hj. unfold dump_text, cell_pos. pose proof (Nat.div_mod_eq k 16) as E.
  pose proof (Nat.mod_upper_bound k 16 ltac:(lia)) as Hr. set (r := (k mod 16)%nat) in *.
  set (i := (k / 16)%nat) in *.
  replace (77 * i + 10 + 3 * r + (if (r <? 8)%nat then 0 else 1) + j)%nat with
    (77 * i + (10 + 3 * r + (if (r <? 8)%nat then 0 else 1) + j))%nat by lia.
  rewrite concat_lookup; [|apply length_line_text|lia|destruct (r <? 8)%nat; lia].
  rewrite line_text_cell by lia. by replace (16 * (0 + i) + r)%nat with k by lia.
Qed.

Lemma length_dump_text : length (dump_text data) = (77 * num_lines data)%nat.
Proof.
  assert (forall n m, length (concat (line_text data <$> seq m n)) = 77 * n)%nat as H; [|apply H].
  induction n as [|n IH]; intros m; cbn [seq fmap list_fmap concat]; [done|].
  rewrite length_app, length_line_text, IH. lia.
Qed.
End ReadBack.

Lemma num_lines_eq data : Z.of_nat (num_lines data) = (Z.of_nat (length data) + 15) / 16.
Proof. unfold num_lines. rewrite Z2Nat.id; [done|apply Z.div_pos; lia]. Qed.

(** The text of the layout, without its last line feed, and two NULs. *)
Lemma hex_dump_text malloc junk data block :
  Forall (fun c => 0 <= c < 256) data -> (0 < length data)%nat -> Z.of_nat (length data) <= 2 ^ 32 ->
  length junk = 17%nat ->
  malloc (77 * Z.of_nat (num_lines data) + 1) = Some block -> length block = S (77 * num_lines data) ->
  exists text,
    hex_dump malloc junk data = Some (Some (text ++ [0; 0])) /\ text ++ [10] = dump_text data.
Proof.
  intros Hd H0 H1 Hj Hm Hb. pose proof (num_lines_eq data) as En.
  assert (0 < num_lines data)%nat as Hn0 by (clear -En H0; mlia).
  assert (Z.of_nat (num_lines data) <= 2 ^ 28) as Hn1 by mlia.
  assert (exists text, dump_text data = text ++ [10]) as [text Et].
  { unfold dump_text. destruct (num_lines data) as [|n]; [lia|].
    rewrite seq_S, fmap_app, concat_app. cbn [fmap list_fmap concat]. unfold line_text at 2.
    rewrite app_nil_r. eexists. rewrite !app_assoc. reflexivity. }
  exists text. split; [|done]. unfold hex_dump. cbv zeta.
  rewrite (wrapu_small _ (_ + 16 - 1)) by lia.
  replace (Z.of_nat (length data) + 16 - 1) with (Z.of_nat (length data) + 15) by lia.
  rewrite <- En, Nat2Z.id. change line_size with 77. rewrite (Z.mul_comm _ 77), wrapu_small, Hm by lia.
  destruct (lines_wrote data Hd (num_lines data) [] 0 0
              (MkDump block 0 (77 * Z.of_nat (num_lines data) + 1) 0 junk)) as (s & E & W);
    [|done|done|lia|].
  { exists block. cbn [buffer write_head buffer_size]. split_and!; done || lia. }
  rewrite (E : lines _ _ 0 _ = _). cbn [mbind option_bind].
  change ([] ++ _) with (dump_text data) in W. rewrite Et in W.
  destruct W as (rest & Eb & Ew & _ & Er & _ & Hz). destruct rest as [|z [|]]; [done| |done].
  assert (z = 0) as ->. { assert (text ++ [10] <> []) as Hne by (by destruct text). specialize (Hz Hne). by inv Hz. }
  unfold store. rewrite Ew, Eb, !length_app. cbn [length].
  rewrite (proj2 (Z.leb_le _ _)), (proj2 (Z.leb_le _ _)) by lia. cbn [andb mbind option_bind buffer].
  replace (Z.to_nat (Z.of_nat (length text + 1) - 1)) with (length text) by lia.
  rewrite <- app_assoc, take_app_length, drop_app_ge by lia.
  by replace (length text + 1 - length text)%nat with 1%nat by lia.
Qed.

(** C36.  The dump is right.  For 1 to 2^32 bytes, given the block it asks for, [hex_dump]
    stays inside of it and returns the text of the layout its comment describes, line
    after line, with the last line feed replaced by the terminating NUL; and every byte
    can be read back from its two digits. *)
Theorem hex_dump_correct (malloc : Z -> option (list Z)) (junk data block : list Z) :
  Forall (fun c => 0 <= c < 256) data -> (0 < length data)%nat -> Z.of_nat (length data) <= 2 ^ 32 ->
  length junk = 17%nat ->
  malloc (77 * Z.of_nat (num_lines data) + 1) = Some block -> length block = S (77 * num_lines data) ->
  exists text,
    hex_dump malloc junk data = Some (Some (text ++ [0; 0])) /\
    text ++ [10] = dump_text data /\
    forall k c, data !! k = Some c -> exists h l,
      text !! cell_pos k = Some h /\ text !! S (cell_pos k) = Some l /\ c = 16 * unhex h + unhex l.
Proof.
  intros Hd H0 H1 Hj Hm Hb.
  destruct (hex_dump_text malloc junk data block Hd H0 H1 Hj Hm Hb) as (text & E & Et).
  exists text. split; [done|]. split; [done|]. intros k c Hc.
  pose proof (lookup_lt_Some _ _ _ Hc) as Hk. pose proof (num_lines_eq data) as En.
  assert (k < 16 * num_lines data)%nat as Hk' by mlia.
  assert (0 <= c < 256) as Hcr by (by eapply list.Forall_lookup in Hd).
  exists (hex_digit (c / 16 mod 16)), (hex_digit (c mod 16)).
  assert (forall j, (j < 2)%nat -> text !! (cell_pos k + j)%nat = (hex 2 c ++ [32]) !! j) as Hl.
  { intros j Hj2. pose proof (dump_text_cell data k j Hk' ltac:(lia)) as Hd1.
    pose proof (length_dump_text data) as HL. rewrite <- Et, length_app in HL. cbn [length] in HL.
    unfold cell_text in Hd1. rewrite Hc, <- Et, lookup_app_l in Hd1; [done|].
    pose proof (Nat.div_mod_eq k 16). pose proof (Nat.mod_upper_bound k 16 ltac:(lia)).
    unfold cell_pos. destruct (_ <? 8)%nat; nia. }
  split; [by rewrite <- (Nat.add_0_r (cell_pos k)), Hl by lia|].
  split; [by rewrite <- Nat.add_1_r, Hl by lia|].
  rewrite !unhex_digit by mlia. mlia.
Qed.

(** Three bytes in a block of 78. *)
Lemma hex_dump_correct_witness :
  exists text,
    hex_dump (fun n => Some (replicate (Z.to_nat n) 255)) (replicate 17 7) [72; 105; 10] =
      Some (Some (text ++ [0; 0])) /\
    text ++ [10] = dump_text [72; 105; 10] /\
    forall k c, [72; 105; 10] !! k = Some c -> exists h l,
      text !! cell_pos k = Some h /\ text !! S (cell_pos k) = Some l /\ c = 16 * unhex h + unhex l.
Proof.
  apply (hex_dump_correct (fun n => Some (replicate (Z.to_nat n) 255)) (replicate 17 7) [72; 105; 10]
           (replicate 78 255)).
  - repeat constructor; discriminate.
  - cbn. lia.
  - cbn. lia.
  - reflexivity.
  - vm_compute. reflexivity.
  - vm_compute. reflexivity.
Defined.

(** With no bytes to dump the last store, meant for the last line feed, is in front of the
    block. *)
Lemma hex_dump_empty malloc junk block : malloc 1 = Some block -> hex_dump malloc junk [] = None.
Proof.
  intros H. unfold hex_dump. cbv zeta. by replace (malloc _) with (Some block) by exact (eq_sym H).
Qed.
