(* ===== verification/Dpdk.v ===== *)
(** * Dpdk: the libraries below the DPDK utilities

    DPDK and DOCA are not in the repository.  A call of theirs is a value of
    [rte_call]; the class [DpdkLib] answers it, given the calls made before with
    their answers, and says what the calls with an output parameter store.
    [DpdkLaws] are the documented facts the proofs use.

    The utilities of [utils/dpdk] run in the monad [M]: a computation changes the
    application's configuration, its rules and the list of calls, and is done, fails
    with an error code, or is aborted by [assert].

    [live] computes from the calls which resources have been acquired and not yet been
    handed back: started ports, memory pools, the flow table, memory maps and blocks. *)

From S2P Require Import Prelude.

(** ** Values of the libraries *)

Inductive doca_error_t :=
  | DOCA_ERROR_DRIVER | DOCA_ERROR_INVALID_VALUE | DOCA_ERROR_NOT_FOUND
  | DOCA_ERROR_OTHER (code : Z).

#[export] Instance doca_error_eq : EqDecision doca_error_t.
Proof. solve_decision. Defined.

(** [struct rte_flow_action_rss] *)
Record rte_flow_action_rss := MkRss {
  rss_queue : list Z; rss_queue_num : Z; rss_types : Z; rss_key : list Z; rss_key_len : Z;
  rss_func : Z; rss_level : Z;
}.

Inductive item_type := ETH | IPV4 | IPV6 | UDP | TCP | SFT.

#[export] Instance item_type_eq : EqDecision item_type.
Proof. solve_decision. Defined.

(** What an item of a pattern asks for beyond its type: specification, last value and mask. *)
Inductive item_match :=
  | Anything
  | Ipv4Fragment (spec last mask : Z)
  | Ipv6Fragment (spec mask : Z)
  | SftState (fid_valid state : Z).

Record rte_flow_item := MkItem { it_type : item_type; it_match : item_match }.

Inductive rte_flow_action :=
  | ACTION_COUNT
  | ACTION_RSS (conf : rte_flow_action_rss)
  | ACTION_DROP
  | ACTION_SFT (zone : Z)
  | ACTION_JUMP (group : Z).

(** [struct rte_flow_attr] with [ingress] set. *)
Record rte_flow_attr := MkAttr { attr_priority : Z; attr_group : Z }.

Record rte_sft_conf := MkSftConf {
  sc_nb_queues : Z; sc_nb_max_entries : Z; sc_tcp_ct_enable : bool; sc_ipfrag_enable : bool;
  sc_reorder_enable : Z; sc_default_aging : Z; sc_nb_max_ipfrag : Z; sc_app_data_len : Z;
}.

Inductive rte_call :=
  | EalInit | EalCleanup
  | CountAvail | LcoreCount | IsValidPort (port : Z)
  | HairpinGetPeers (port direction : Z) | HairpinBind (tx rx : Z) | HairpinUnbind (tx rx : Z)
  | TxHairpinSetup (port queue desc peer_port peer_queue : Z)
  | RxHairpinSetup (port queue desc peer_port peer_queue : Z)
  | SftInit (c : rte_sft_conf) | SftFini | RssHashConfGet (port : Z)
  | PoolCreate (n : Z) | PoolFree (pool : Z)
  | DevInfoGet (port : Z) | DevConfigure (port rx tx : Z) (rss : bool) (lpbk : Z)
  | PromiscuousEnable (port : Z) | DevSocketId (port : Z) | SocketId
  | RxQueueSetup (port queue size pool : Z) | TxQueueSetup (port queue size : Z)
  | FlowIsolate (port : Z) (set : bool) | DevStart (port : Z) | MacaddrGet (port : Z)
  | DevStop (port : Z) | DevClose (port : Z) | MetadataRegister
  | FlowValidate (port : Z) (a : rte_flow_attr) (p : list rte_flow_item) (acts : list rte_flow_action)
  | FlowCreate (port : Z) (a : rte_flow_attr) (p : list rte_flow_item) (acts : list rte_flow_action)
  | FlowQuery (port rule : Z)
  | Zmalloc (size : Z) | RteFree (p : Z)
  | MmapCreate | MmapSetMemrange (mmap addr len : Z) | MmapAddDev (mmap dev : Z) | MmapStart (mmap : Z)
  | MmapDestroy (mmap : Z) | MmapGetMemrange (mmap : Z)
  | BufGetByData (inventory mmap addr len : Z).

Definition trace : Type := list (rte_call * Z).

Class DpdkLib := {
  RTE_MAX_ETHPORTS : Z;
  RTE_ETH_RSS_IP : Z;
  RTE_ETH_HASH_FUNCTION_DEFAULT : Z;
  (** the value a call returns *)
  rte : trace -> rte_call -> Z;
  (** the error a value of a DOCA call stands for; success is [None] *)
  doca_error : Z -> option doca_error_t;
  (** what calls store through their output parameters *)
  peer_ports : trace -> Z -> Z -> list Z;
  rss_conf_of : trace -> Z -> Z * list Z;
  created_mmap : trace -> Z;
  memrange_of : trace -> Z -> Z * Z;
  query_hits : trace -> Z -> Z;
  data_buf : trace -> Z;
  (** the ports of the machine, attached when the program starts *)
  port_present : Z -> bool;
  (** the chunks of a pool, address and length *)
  pool_chunks : Z -> list (Z * Z);
}.

(** ** Resources *)

Inductive resource := Port (port : Z) | Pool (pool : Z) | Sft | Mmap (mmap : Z) | Block (p : Z).

#[export] Instance resource_eq : EqDecision resource.
Proof. solve_decision. Defined.

#[export] Instance resource_countable : Countable resource.
Proof.
  refine (inj_countable'
    (fun r => match r with Port p => inl (inl p) | Pool p => inl (inr p) | Sft => inr (inl tt)
                         | Mmap m => inr (inr (inl m)) | Block p => inr (inr (inr p)) end)
    (fun c => match c with inl (inl p) => Port p | inl (inr p) => Pool p | inr (inl _) => Sft
                         | inr (inr (inl m)) => Mmap m | inr (inr (inr p)) => Block p end) _).
  by intros [].
Defined.

Section Live.
Context {L : DpdkLib}.

(** What a call acquires, when it succeeds, and what it hands back, whatever its answer. *)
Definition acquires (tr : trace) (c : rte_call) (r : Z) : gset resource :=
  match c with
  | DevStart p => if r <? 0 then ∅ else {[Port p]}
  | PoolCreate _ => if truthy r then {[Pool r]} else ∅
  | SftInit _ => if r <? 0 then ∅ else {[Sft]}
  | MmapCreate => match doca_error r with None => {[Mmap (created_mmap tr)]} | Some _ => ∅ end
  | Zmalloc _ => if truthy r then {[Block r]} else ∅
  | _ => ∅
  end.
Definition releases (c : rte_call) : gset resource :=
  match c with
  | DevClose p => {[Port p]}
  | PoolFree p => {[Pool p]}
  | SftFini => {[Sft]}
  | MmapDestroy m => {[Mmap m]}
  | RteFree p => {[Block p]}
  | _ => ∅
  end.

Fixpoint live_from (tr : trace) (l : gset resource) (rest : trace) : gset resource :=
  match rest with
  | [] => l
  | (c, r) :: rest => live_from (tr ++ [(c, r)]) ((l ∪ acquires tr c r) ∖ releases c) rest
  end.
Definition live (tr : trace) : gset resource := live_from [] ∅ tr.

Lemma live_from_app tr l a b :
  live_from tr l (a ++ b) = live_from (tr ++ a) (live_from tr l a) b.
Proof.
  revert tr l. induction a as [|[c r] a IH]; intros tr l; cbn [app live_from].
  { by rewrite app_nil_r. }
  rewrite IH. by rewrite <- app_assoc.
Qed.

Lemma live_snoc tr c r : live (tr ++ [(c, r)]) = (live tr ∪ acquires tr c r) ∖ releases c.
Proof. unfold live. rewrite live_from_app. done. Qed.
End Live.

Class DpdkLaws (L : DpdkLib) := {
  max_ports : 0 < RTE_MAX_ETHPORTS < 256;
  present_range p : port_present p = true -> 0 <= p < RTE_MAX_ETHPORTS;
  (** a port is valid until it is closed *)
  valid_port tr p : (forall r, (DevClose p, r) ∉ tr) -> truthy (rte tr (IsValidPort p)) = port_present p;
  (** a pool, map or block that is handed out is not one still in use *)
  fresh_resource tr c x :
    x ∈ acquires tr c (rte tr c) -> (forall p, x <> Port p) -> x <> Sft -> x ∉ live tr;
}.

(** ** The configuration and the rules of the application *)

Record application_port_config := MkPortConfig {
  nb_ports : Z; nb_queues : Z; nb_hairpin_q : Z;
  enable_mbuf_metadata : bool; self_hairpin : bool; rss_support : bool; lpbk_support : bool;
  isolated_mode : bool;
}.
Record application_sft_config := MkSftConfig {
  sft_enable : bool; enable_ct : bool; enable_frag : bool; enable_state_hairpin : bool;
  enable_state_drop : bool;
}.
Record application_dpdk_config := MkConfig {
  port_config : application_port_config;
  sft_config : application_sft_config;
  reserve_main_thread : bool;
  mbuf_pool : Z;
}.

Definition SFT_PORTS_NUM : Z := 2.
Definition SFT_IP_VERSIONS_NUM : Z := 2.
Definition SFT_IP_PROTOCOLS_NUM : Z := 2.
Definition SFT_POST_RULES_NUM : Z := 2.

(** The arrays of rule pointers. *)
Record application_rules := MkRules {
  set_jump_to_sft_action : list Z;
  query_hairpin : list Z;
  rss_non_state : list Z;
  hairpin_non_l4 : list Z;
  forward_fragments : list Z;
  hairpin_fragments : list Z;
}.

(** ** State and effects *)

Record dpdk := MkDpdk {
  d_calls : trace;
  d_config : application_dpdk_config;
  d_rules : application_rules;
}.

Inductive outcome (A : Type) := Done (a : A) | Failed (e : doca_error_t) | Aborted.
Arguments Done {A}.
Arguments Failed {A}.
Arguments Aborted {A}.

Definition M (A : Type) : Type := dpdk -> outcome A * dpdk.

#[export] Instance M_ret : MRet M := fun A a s => (Done a, s).
#[export] Instance M_bind : MBind M := fun A B f m s =>
  match m s with
  | (Done a, s) => f a s
  | (Failed e, s) => (Failed e, s)
  | (Aborted, s) => (Aborted, s)
  end.

Definition fail {A} (e : doca_error_t) : M A := fun s => (Failed e, s).
Definition abort {A} : M A := fun s => (Aborted, s).
(** [assert(b)] *)
Definition c_assert (b : bool) : M unit := if b then mret tt else abort.
(** [result = m;]: the error is a value. *)
Definition attempt {A} (m : M A) : M (A + doca_error_t) := fun s =>
  match m s with
  | (Done a, s) => (Done (inl a), s)
  | (Failed e, s) => (Done (inr e), s)
  | (Aborted, s) => (Aborted, s)
  end.
Definition check (b : bool) (e : doca_error_t) : M unit := if b then mret tt else fail e.
Definition when (b : bool) (m : M unit) : M unit := if b then m else mret tt.

Definition get_config : M application_dpdk_config := fun s => (Done (d_config s), s).
Definition put_config (c : application_dpdk_config) : M unit :=
  fun s => (Done tt, MkDpdk (d_calls s) c (d_rules s)).
Definition get_rules : M application_rules := fun s => (Done (d_rules s), s).
Definition put_rules (r : application_rules) : M unit :=
  fun s => (Done tt, MkDpdk (d_calls s) (d_config s) r).

(** [for (i = 0; i < n; i++) body(i);] *)
Fixpoint for_each {A} (l : list A) (body : A -> M unit) : M unit :=
  match l with
  | [] => mret tt
  | x :: l => _ ← body x; for_each l body
  end.

Section Calls.
Context {L : DpdkLib}.

(** A call and its value. *)
Definition call (c : rte_call) : M Z := fun s =>
  let r := rte (d_calls s) c in
  (Done r, MkDpdk (d_calls s ++ [(c, r)]) (d_config s) (d_rules s)).

(** The calls made so far. *)
Definition history : M trace := fun s => (Done (d_calls s), s).

(** [if (call < 0) return DOCA_ERROR_DRIVER;] *)
Definition drive (c : rte_call) : M unit := ret ← call c; check (negb (ret <? 0)) DOCA_ERROR_DRIVER.

(** A DOCA call whose error is returned. *)
Definition doca (c : rte_call) : M unit :=
  ret ← call c;
  match doca_error ret with None => mret tt | Some e => fail e end.

Definition is_valid_port (p : Z) : M bool := r ← call (IsValidPort p); mret (truthy r).
End Calls.

(** ** Reasoning about a computation

    [wp m Q E s]: from [s], [m] is done in a state that satisfies [Q] or fails in one
    that satisfies [E], and is not aborted. *)

Definition wp {A} (m : M A) (Q : A -> dpdk -> Prop) (E : doca_error_t -> dpdk -> Prop) (s : dpdk) : Prop :=
  match m s with
  | (Done a, s') => Q a s'
  | (Failed e, s') => E e s'
  | (Aborted, _) => False
  end.

Lemma dwp_ret {A} (a : A) Q E s : Q a s -> wp (mret a) Q E s.
Proof. done. Qed.

Lemma dwp_bind {A B} (m : M A) (f : A -> M B) Q E s :
  wp m (fun a s' => wp (f a) Q E s') E s -> wp (m ≫= f) Q E s.
Proof. unfold wp, mbind, M_bind. by destruct (m s) as [[a|e|] s']. Qed.

Lemma dwp_mono {A} (m : M A) (Q Q' : A -> dpdk -> Prop) (E E' : doca_error_t -> dpdk -> Prop) s :
  wp m Q E s -> (forall a s', Q a s' -> Q' a s') -> (forall e s', E e s' -> E' e s') -> wp m Q' E' s.
Proof. unfold wp. intros H HQ HE. destruct (m s) as [[a|e|] s']; auto. Qed.

Lemma wp_check b e (Q : unit -> dpdk -> Prop) (E : doca_error_t -> dpdk -> Prop) s :
  (b = true -> Q tt s) -> (b = false -> E e s) -> wp (check b e) Q E s.
Proof. intros HQ HE. destruct b; [by apply HQ|by apply HE]. Qed.

(** The state after a call. *)
Definition called `{DpdkLib} (c : rte_call) (s : dpdk) : dpdk :=
  MkDpdk (d_calls s ++ [(c, rte (d_calls s) c)]) (d_config s) (d_rules s).

Lemma wp_call `{DpdkLib} c Q E s : Q (rte (d_calls s) c) (called c s) -> wp (call c) Q E s.
Proof. done. Qed.

Lemma wp_attempt {A} (m : M A) Q E s :
  wp m (fun a s' => Q (inl a) s') (fun e s' => Q (inr e) s') s -> wp (attempt m) Q E s.
Proof. unfold wp, attempt. by destruct (m s) as [[a|e|] s']. Qed.

(** A loop whose invariant depends on the elements done. *)
Lemma wp_for_each {A} (l : list A) (body : A -> M unit) (I : list A -> dpdk -> Prop) E s :
  (forall before x after s, l = before ++ x :: after -> I before s ->
     wp (body x) (fun _ s' => I (before ++ [x]) s') E s) ->
  I [] s -> wp (for_each l body) (fun _ s' => I l s') E s.
Proof.
  intros Hb. assert (forall after before s, l = before ++ after -> I before s ->
    wp (for_each after body) (fun _ s' => I l s') E s) as H; [|by apply (H l [])].
  induction after as [|x after IH]; intros before s' El Hi; cbn [for_each].
  { apply dwp_ret. by rewrite El, app_nil_r. }
  apply dwp_bind. eapply dwp_mono; [exact (Hb before x after s' El Hi)| |done]. intros [] s2 Hi2.
  apply (IH (before ++ [x])); [|exact Hi2]. rewrite <- app_assoc. exact El.
Qed.

(** A computation that only makes calls of a kind, and leaves the configuration. *)
Definition added (P : rte_call -> Prop) (s s' : dpdk) : Prop :=
  exists tr, d_calls s' = d_calls s ++ tr /\ Forall (fun x => P x.1) tr /\
    d_config s' = d_config s.

#[export] Instance added_refl P : Reflexive (added P).
Proof. intros s. exists []. by rewrite app_nil_r. Qed.

#[export] Instance added_trans P : Transitive (added P).
Proof.
  intros s1 s2 s3 (t1 & E1 & F1 & C1) (t2 & E2 & F2 & C2). exists (t1 ++ t2).
  rewrite E2, E1, app_assoc, Forall_app, C2. done.
Qed.

Definition makes {A} (P : rte_call -> Prop) (m : M A) : Prop :=
  forall s, wp m (fun _ s' => added P s s') (fun _ s' => added P s s') s.

Create HintDb dpdk.

Lemma makes_ret {A} P (a : A) : makes P (mret a).
Proof. intros s. apply dwp_ret. reflexivity. Qed.
Lemma makes_fail {A} P e : makes P (fail (A := A) e).
Proof. intros s. unfold wp, fail. reflexivity. Qed.
Lemma makes_get_config P : makes P get_config.
Proof. intros s. unfold wp, get_config. reflexivity. Qed.
Lemma makes_get_rules P : makes P get_rules.
Proof. intros s. unfold wp, get_rules. reflexivity. Qed.
Lemma makes_put_rules P r : makes P (put_rules r).
Proof. intros s. unfold wp, put_rules. exists []. by rewrite app_nil_r. Qed.
Lemma makes_history P : makes P history.
Proof. intros s. unfold wp, history. reflexivity. Qed.
Lemma makes_check P b e : makes P (check b e).
Proof. destruct b; [apply makes_ret|apply makes_fail]. Qed.

Lemma makes_bind {A B} P (m : M A) (f : A -> M B) :
  makes P m -> (forall a, makes P (f a)) -> makes P (m ≫= f).
Proof.
  intros Hm Hf s. apply dwp_bind. eapply dwp_mono; [apply Hm| |done].
  intros a s1 H1. eapply dwp_mono; [apply Hf|..]; intros ? s2 H2; by trans s1.
Qed.

Lemma makes_ret_bind {A B} P (a : A) (f : A -> M B) : makes P (f a) -> makes P (mret a ≫= f).
Proof. done. Qed.

Lemma makes_attempt {A} P (m : M A) : makes P m -> makes P (attempt m).
Proof. intros H s. apply wp_attempt. apply H. Qed.

Lemma makes_for_each {A} P (l : list A) body : (forall x, makes P (body x)) -> makes P (for_each l body).
Proof. intros H. induction l as [|x l IH]; cbn; [apply makes_ret|]. by apply makes_bind. Qed.

Lemma makes_mono {A} (P P' : rte_call -> Prop) (m : M A) :
  (forall c, P c -> P' c) -> makes P m -> makes P' m.
Proof.
  intros HP Hm s. assert (forall s', added P s s' -> added P' s s') as H.
  { intros s' (tr & E & F & CR). exists tr. split; [done|]. split; [|done].
    apply (list.Forall_impl _ _ _ F). intros x. apply HP. }
  eapply dwp_mono; [apply Hm|..]; eauto.
Qed.

Section Makes.
Context {L : DpdkLib}.

Lemma makes_call (P : rte_call -> Prop) c : P c -> makes P (call c).
Proof.
  intros Hc s. unfold wp, call. exists [(c, rte (d_calls s) c)]. cbn.
  split; [done|]. split; [by repeat constructor|done].
Qed.

Lemma makes_drive (P : rte_call -> Prop) c : P c -> makes P (drive c).
Proof. intros Hc. apply makes_bind; [by apply makes_call|]. intros r. apply makes_check. Qed.

Lemma makes_doca (P : rte_call -> Prop) c : P c -> makes P (doca c).
Proof.
  intros Hc. apply makes_bind; [by apply makes_call|]. intros r.
  destruct (doca_error r); [apply makes_fail|apply makes_ret].
Qed.

Lemma makes_is_valid (P : rte_call -> Prop) p : P (IsValidPort p) -> makes P (is_valid_port p).
Proof. intros Hp. apply makes_bind; [by apply makes_call|]. intros r. apply makes_ret. Qed.

(** A call that neither acquires nor hands back a resource. *)
Definition neutral (c : rte_call) : Prop :=
  match c with
  | DevStart _ | DevClose _ | PoolCreate _ | PoolFree _ | SftInit _ | SftFini
  | MmapCreate | MmapDestroy _ | Zmalloc _ | RteFree _ => False
  | _ => True
  end.

Lemma live_neutral tr c r : neutral c -> live (tr ++ [(c, r)]) = live tr.
Proof. intros H. rewrite live_snoc. destruct c; cbn in *; try done; set_solver. Qed.

Lemma live_added s s' : added neutral s s' -> live (d_calls s') = live (d_calls s).
Proof.
  intros (tr & -> & H & _). revert H. induction tr as [|[c r] tr IH] using rev_ind; intros H.
  { by rewrite app_nil_r. }
  apply Forall_app in H as [H1 H2]. apply list.Forall_cons in H2 as [H2 _].
  cbn [fst] in H2. rewrite app_assoc, (live_neutral _ c r H2). by apply IH.
Qed.
End Makes.

#[export] Hint Resolve makes_ret makes_fail makes_get_config makes_get_rules makes_put_rules
  makes_history makes_check makes_bind
  makes_attempt makes_for_each makes_call makes_drive makes_doca makes_is_valid : dpdk.

(** Computations built from the ones above. *)
Ltac makes :=
  repeat match goal with
  | |- forall _, _ => intro
  | |- makes _ (_ ≫= _) => apply makes_bind
  | |- makes _ (attempt _) => apply makes_attempt
  | |- makes _ (for_each _ _) => apply makes_for_each
  | |- makes _ (match ?x with _ => _ end) => destruct x
  | |- makes _ _ => solve [auto with dpdk]
  | |- makes _ (call _) => apply makes_call; cbn; auto
  | |- makes _ (drive _) => apply makes_drive; cbn; auto
  | |- makes _ (doca _) => apply makes_doca; cbn; auto
  | |- makes _ (is_valid_port _) => apply makes_is_valid; cbn; auto
  end.

(** ** A concrete library for the witnesses

    Two ports and four cores.  Every call succeeds; a pool, block or rule is a number larger
    than every answer before, a memory map one larger than the number of calls; the chunks
    of a pool are two; a query of rule [r] finds [r] hits. *)

Definition next_id (tr : trace) : Z := foldr (fun x n => Z.max x.2 n) 0 tr + 1.
Definition closed (p : Z) (tr : trace) : bool :=
  existsb (fun x => match x.1 with DevClose q => p =? q | _ => false end) tr.

Definition ref_ports (n : Z) : DpdkLib := {|
  RTE_MAX_ETHPORTS := 32;
  RTE_ETH_RSS_IP := 0xf;
  RTE_ETH_HASH_FUNCTION_DEFAULT := 0;
  rte tr c :=
    match c with
    | IsValidPort p => c_bool ((0 <=? p) && (p <? n) && (p <? 32) && negb (closed p tr))
    | CountAvail => n
    | LcoreCount => 4
    | HairpinGetPeers _ _ => 1
    | FlowCreate _ _ _ _ | PoolCreate _ | Zmalloc _ => next_id tr
    | _ => 0
    end;
  doca_error r := if r =? 0 then None else Some (DOCA_ERROR_OTHER r);
  peer_ports _ p _ := [Z.lxor p 1];
  rss_conf_of _ _ := (0, []);
  created_mmap tr := Z.of_nat (length tr) + 1;
  memrange_of _ m := (4096 * m, 4096);
  query_hits _ r := r;
  data_buf tr := Z.of_nat (length tr) + 1;
  port_present p := (0 <=? p) && (p <? n) && (p <? 32);
  pool_chunks _ := [(4096, 4096); (16384, 8192)];
|}.

Lemma live_numbers (n : Z) tr x :
  x ∈ live (L := ref_ports n) tr ->
  match x with
  | Pool p | Block p => p < next_id tr
  | Mmap m => m <= Z.of_nat (length tr)
  | _ => True
  end.
Proof.
  induction tr as [|[c r] tr IH] using rev_ind; [set_solver|].
  rewrite live_snoc. intros [[Hx|Hx]%elem_of_union _]%elem_of_difference.
  - specialize (IH Hx). assert (next_id tr <= next_id (tr ++ [(c, r)])) as Hm.
    { unfold next_id. clear. induction tr as [|y tr IH]; cbn in *; lia. }
    rewrite length_app. destruct x; cbn; try done; lia.
  - assert (r < next_id (tr ++ [(c, r)])) as Hm.
    { unfold next_id. clear. induction tr as [|y tr IH]; cbn in *; lia. }
    destruct c; cbn in Hx; try (by apply elem_of_empty in Hx);
      repeat (case_match; try (by apply elem_of_empty in Hx)); apply elem_of_singleton in Hx;
      simplify_eq; first [exact Hm | exact I | rewrite length_app; cbn; lia].
Qed.

Lemma closed_spec p tr : closed p tr = true -> exists r, (DevClose p, r) ∈ tr.
Proof.
  unfold closed. rewrite existsb_exists. intros ([c r] & Hin & Hc). destruct c; try done.
  apply Z.eqb_eq in Hc as ->. exists r. by apply list_elem_of_In.
Qed.

#[export] Instance ref_ports_laws n : DpdkLaws (ref_ports n).
Proof.
  split.
  - cbn. lia.
  - cbn. intros p. rewrite !andb_true_iff, Z.leb_le, !Z.ltb_lt. lia.
  - cbn. intros tr p Hc. rewrite c_bool_truthy. destruct (closed p tr) eqn:E; [|by rewrite andb_true_r].
    apply closed_spec in E as [r Hr]. by destruct (Hc r).
  - intros tr c x Hx Hp Hs Hl. apply live_numbers in Hl.
    destruct c; cbn in Hx; try (by apply elem_of_empty in Hx);
      repeat (case_match; try (by apply elem_of_empty in Hx)); apply elem_of_singleton in Hx;
      simplify_eq; first [lia | by destruct (Hp port)].
Qed.

#[export] Instance ref_dpdk : DpdkLib := ref_ports 2.
