(* ===== verification/OffloadRules.v ===== *)
(** * OffloadRules: the flow rules of the stateful flow table

    Translation of [utils/dpdk/offload_rules.c] and [.h]: the rules that forward packets
    to the flow table and to the hairpin queues, and the counters read from them. *)

From S2P Require Import Prelude FlexioDev Dpdk.

Definition GROUP_POST_SFT : Z := 1001.
Definition INITIAL_GROUP : Z := 0.
Definition RULE_INDX (port_id ip_ver l4_proto : Z) : Z := port_id + 2 * (2 * ip_ver + l4_proto).

Definition SET_STATE_PRIORITY : Z := 0.
Definition SFT_TO_RSS_PRIORITY : Z := 1.
Definition FRAG_PRIORITY : Z := 0.
Definition JUMP_TO_SFT_PRIORITY : Z := 1.
Definition HAIRPIN_NON_L4_PRIORITY : Z := 3.

Definition HAIRPIN_MATCHED_FLOW : Z := 1.
Definition DROP_FLOW : Z := 2.

Definition supported_ip_versions : list item_type := [IPV4; IPV6].
Definition supported_l4_protocols : list item_type := [UDP; TCP].

(** [memset(&app_rules, 0, sizeof(app_rules))] *)
Definition zero_rules : application_rules :=
  let n := Z.to_nat (SFT_PORTS_NUM * SFT_IP_PROTOCOLS_NUM * SFT_IP_VERSIONS_NUM) in
  let p := Z.to_nat SFT_PORTS_NUM in
  MkRules (replicate n 0) (replicate (Z.to_nat (SFT_PORTS_NUM * SFT_POST_RULES_NUM)) 0)
    (replicate p 0) (replicate p 0) (replicate n 0) (replicate n 0).

(** The arrays, and the structure with one of them replaced. *)
Inductive rule_array := SetJump | QueryHairpin | RssNonState | HairpinNonL4 | ForwardFrag | HairpinFrag.

#[export] Instance rule_array_eq : EqDecision rule_array.
Proof. solve_decision. Defined.

Definition array (a : rule_array) (r : application_rules) : list Z :=
  match a with
  | SetJump => set_jump_to_sft_action r
  | QueryHairpin => query_hairpin r
  | RssNonState => rss_non_state r
  | HairpinNonL4 => hairpin_non_l4 r
  | ForwardFrag => forward_fragments r
  | HairpinFrag => hairpin_fragments r
  end.
Definition with_array (a : rule_array) (l : list Z) (r : application_rules) : application_rules :=
  let pick b := if decide (a = b) then l else array b r in
  MkRules (pick SetJump) (pick QueryHairpin) (pick RssNonState) (pick HairpinNonL4)
    (pick ForwardFrag) (pick HairpinFrag).

Section Rules.
Context {L : DpdkLib}.

(** A store through [out_rule], an element of an array; outside of it there is no result. *)
Definition store_rule (out : rule_array * Z) (rule : Z) : M unit :=
  rules ← get_rules;
  let l := array out.1 rules in
  if (0 <=? out.2) && (out.2 <? Z.of_nat (length l))
  then put_rules (with_array out.1 (<[Z.to_nat out.2 := rule]> l) rules)
  else abort.

(** The end of the functions that create a rule: validate, create, test. *)
Definition create_flow (port_id : Z) (attr : rte_flow_attr) (pattern : list rte_flow_item)
    (action : list rte_flow_action) (out_rule : rule_array * Z) : M unit :=
  ret ← call (FlowValidate port_id attr pattern action);
  _ ← check (ret =? 0) DOCA_ERROR_DRIVER;
  rule ← call (FlowCreate port_id attr pattern action);
  _ ← store_rule out_rule rule;
  check (truthy rule) DOCA_ERROR_DRIVER.

Definition create_rule_post_sft (port_id : Z) (action_rss : rte_flow_action_rss) (sft_state : Z)
    (out_rule : rule_array * Z) : M unit :=
  create_flow port_id (MkAttr SET_STATE_PRIORITY GROUP_POST_SFT)
    [MkItem SFT (SftState 1 sft_state)]
    [ACTION_COUNT; if sft_state =? DROP_FLOW then ACTION_DROP else ACTION_RSS action_rss]
    out_rule.

Definition create_rule_forward_to_sft_by_pattern (port_id : Z) (pattern : list rte_flow_item)
    (priority : Z) (out_rule : rule_array * Z) : M unit :=
  create_flow port_id (MkAttr priority INITIAL_GROUP) pattern
    [ACTION_COUNT; ACTION_SFT 0xcafe; ACTION_JUMP GROUP_POST_SFT] out_rule.

Definition create_rule_forward_l4_to_sft (port_id : Z) (l3_protocol l4_protocol : item_type)
    (out_rule : rule_array * Z) : M unit :=
  create_rule_forward_to_sft_by_pattern port_id
    [MkItem ETH Anything; MkItem l3_protocol Anything; MkItem l4_protocol Anything]
    JUMP_TO_SFT_PRIORITY out_rule.

(** The pattern of fragments: an IPv4 fragment offset between 1 and 0x3fff, or the IPv6
    fragment extension. *)
Definition ipv4_opt : rte_flow_item :=
  MkItem IPV4 (Ipv4Fragment (bswap 2 1) (bswap 2 0x3fff) (bswap 2 0x3fff)).
Definition ipv6_opt : rte_flow_item := MkItem IPV6 (Ipv6Fragment 1 1).
Definition fragments_pattern (l3_protocol l4_protocol : item_type) : list rte_flow_item :=
  [MkItem ETH Anything; if decide (l3_protocol = IPV4) then ipv4_opt else ipv6_opt;
   MkItem l4_protocol Anything].

Definition create_rule_forward_fragments_to_sft (port_id : Z) (l3_protocol l4_protocol : item_type)
    (out_rule : rule_array * Z) : M unit :=
  create_rule_forward_to_sft_by_pattern port_id (fragments_pattern l3_protocol l4_protocol)
    FRAG_PRIORITY out_rule.

Definition create_rule_action_rss (port_id : Z) (action_rss : rte_flow_action_rss)
    (attr : rte_flow_attr) (pattern : list rte_flow_item) (out_rule : rule_array * Z) : M unit :=
  create_flow port_id attr pattern [ACTION_COUNT; ACTION_RSS action_rss] out_rule.

Definition create_rule_action_eth_rss (port_id : Z) (action_rss : rte_flow_action_rss)
    (attr : rte_flow_attr) (out_rule : rule_array * Z) : M unit :=
  create_rule_action_rss port_id action_rss attr [MkItem ETH Anything] out_rule.

Definition create_rule_hairpin_fragments (port_id : Z) (l3_protocol l4_protocol : item_type)
    (action_rss : rte_flow_action_rss) (out_rule : rule_array * Z) : M unit :=
  create_rule_action_rss port_id action_rss (MkAttr FRAG_PRIORITY INITIAL_GROUP)
    (fragments_pattern l3_protocol l4_protocol) out_rule.

Definition create_rule_hairpin_non_l4 (port_id : Z) (action_rss : rte_flow_action_rss)
    (out_rule : rule_array * Z) : M unit :=
  create_rule_action_eth_rss port_id action_rss (MkAttr HAIRPIN_NON_L4_PRIORITY INITIAL_GROUP) out_rule.

Definition create_rule_rss_post_sft (port_id : Z) (action_rss : rte_flow_action_rss)
    (out_rule : rule_array * Z) : M unit :=
  create_rule_action_eth_rss port_id action_rss (MkAttr SFT_TO_RSS_PRIORITY GROUP_POST_SFT) out_rule.

(** The loops over the IP versions and the protocols above them; the body gets both with
    their indices. *)
Definition for_protocols (body : Z * item_type -> Z * item_type -> M unit) : M unit :=
  for_each (zip (seqZ 0 SFT_IP_VERSIONS_NUM) supported_ip_versions) (fun ip =>
    for_each (zip (seqZ 0 SFT_IP_PROTOCOLS_NUM) supported_l4_protocols) (fun l4 => body ip l4)).

(** The rules of one port. *)
Definition create_port_rules (c : application_sft_config) (action_rss action_rss_hairpin : rte_flow_action_rss)
    (port_id : Z) : M unit :=
  _ ← for_protocols (fun ip l4 =>
        create_rule_forward_l4_to_sft port_id ip.2 l4.2 (SetJump, RULE_INDX port_id ip.1 l4.1));
  _ ← create_rule_rss_post_sft port_id action_rss (RssNonState, port_id);
  _ ← create_rule_hairpin_non_l4 port_id action_rss_hairpin (HairpinNonL4, port_id);
  _ ← (if enable_state_hairpin c
       then create_rule_post_sft port_id action_rss_hairpin HAIRPIN_MATCHED_FLOW (QueryHairpin, port_id)
       else mret tt);
  _ ← (if enable_state_drop c
       then create_rule_post_sft port_id action_rss_hairpin DROP_FLOW (QueryHairpin, port_id + 2)
       else mret tt);
  if enable_frag c then
    for_protocols (fun ip l4 =>
      create_rule_forward_fragments_to_sft port_id ip.2 l4.2 (ForwardFrag, RULE_INDX port_id ip.1 l4.1))
  else
    for_protocols (fun ip l4 =>
      create_rule_hairpin_fragments port_id ip.2 l4.2 action_rss_hairpin
        (HairpinFrag, RULE_INDX port_id ip.1 l4.1)).

Definition create_rules_sft_offload (c : application_dpdk_config)
    (action_rss action_rss_hairpin : rte_flow_action_rss) : M unit :=
  let nb_ports := u8 (nb_ports (port_config c)) in
  _ ← check (nb_ports <=? SFT_PORTS_NUM) DOCA_ERROR_INVALID_VALUE;
  _ ← put_rules zero_rules;
  for_each (seqZ 0 nb_ports) (create_port_rules (sft_config c) action_rss action_rss_hairpin).

(** ** The counters *)

Record totals := MkTotals {
  total_ingress : Z; total_rss : Z; total_dropped : Z; total_egress : Z; total_ingress_non_l4 : Z;
  total_fragments : Z;
}.

(** The hits of a rule: none when the query fails. *)
Definition query_rule (port_id rule : Z) : M (option Z) :=
  h ← history;
  ret ← call (FlowQuery port_id rule);
  mret (if ret =? 0 then Some (query_hits h rule) else None).

(** A loop over the first elements of an array: the port of an element, whether null
    elements are passed over, and what the hits of an element are added to. *)
Fixpoint count_flows (a : rule_array) (port_of : Z -> Z) (skip_null : bool)
    (add : Z -> Z -> totals -> totals) (n : nat) (flow_i : Z) (t : totals) : M totals :=
  match n with
  | O => mret t
  | S n =>
      rules ← get_rules;
      match array a rules !! Z.to_nat flow_i with
      | None => abort
      | Some rule =>
          if skip_null && (rule =? 0) then count_flows a port_of skip_null add n (flow_i + 1) t
          else
            hits ← query_rule (port_of flow_i) rule;
            count_flows a port_of skip_null add n (flow_i + 1)
              (match hits with Some h => add flow_i h t | None => t end)
      end
  end.

Definition add_ingress (h : Z) (t : totals) : totals :=
  MkTotals (total_ingress t +64 h)%cint (total_rss t) (total_dropped t) (total_egress t)
    (total_ingress_non_l4 t) (total_fragments t).
Definition add_rss (h : Z) (t : totals) : totals :=
  MkTotals (total_ingress t) (total_rss t +64 h)%cint (total_dropped t) (total_egress t)
    (total_ingress_non_l4 t) (total_fragments t).
Definition add_dropped (h : Z) (t : totals) : totals :=
  MkTotals (total_ingress t) (total_rss t) (total_dropped t +64 h)%cint (total_egress t)
    (total_ingress_non_l4 t) (total_fragments t).
Definition add_egress (h : Z) (t : totals) : totals :=
  MkTotals (total_ingress t) (total_rss t) (total_dropped t) (total_egress t +64 h)%cint
    (total_ingress_non_l4 t) (total_fragments t).
Definition add_non_l4 (h : Z) (t : totals) : totals :=
  MkTotals (total_ingress t) (total_rss t) (total_dropped t) (total_egress t)
    (total_ingress_non_l4 t +64 h)%cint (total_fragments t).
Definition add_fragments (h : Z) (t : totals) : totals :=
  MkTotals (total_ingress t) (total_rss t) (total_dropped t) (total_egress t)
    (total_ingress_non_l4 t) (total_fragments t +64 h)%cint.

Definition port_of_flow (flow_i : Z) : Z := Z.rem flow_i 2.

(** [app_rules.x[0] != NULL] *)
Definition first_rule (a : rule_array) : M bool :=
  rules ← get_rules;
  match array a rules !! 0%nat with Some r => mret (truthy r) | None => abort end.

(** The totals that are printed. *)
Definition print_offload_rules_counter : M totals :=
  t ← count_flows SetJump port_of_flow false (fun _ h => add_ingress h) 8 0 (MkTotals 0 0 0 0 0 0);
  t ← count_flows HairpinNonL4 id false (fun _ h t => add_non_l4 h (add_ingress h t)) 2 0 t;
  t ← count_flows QueryHairpin port_of_flow true
        (fun i h => if i <? 2 then add_egress h else add_dropped h) 4 0 t;
  t ← count_flows RssNonState id false (fun _ h => add_rss h) 2 0 t;
  some ← first_rule ForwardFrag;
  t ← (if (some : bool) then
         count_flows ForwardFrag port_of_flow false (fun _ h t => add_ingress h (add_fragments h t)) 8 0 t
       else mret t);
  some ← first_rule HairpinFrag;
  if (some : bool) then
    count_flows HairpinFrag port_of_flow false (fun _ h t => add_egress h (add_fragments h t)) 8 0 t
  else mret t.
End Rules.

(** ** The rules after [create_rules_sft_offload] *)

(** A rule the library created on a port. *)
Definition created_on (tr : trace) (port rule : Z) : Prop :=
  exists a p acts, (FlowCreate port a p acts, rule) ∈ tr.

(** The arrays have their sizes, the rule of element [k] was created on port [k mod 2], and
    the array [u] is not used. *)
Definition rules_inv (u : rule_array) (s : dpdk) : Prop :=
  forall a, length (array a (d_rules s)) = length (array a zero_rules) /\
    forall k r, array a (d_rules s) !! k = Some r -> r <> 0 ->
      created_on (d_calls s) (Z.of_nat k mod 2) r /\ a <> u.

Definition filled (s : dpdk) (x : rule_array * Z) : Prop :=
  exists r, array x.1 (d_rules s) !! Z.to_nat x.2 = Some r /\ r <> 0.

(** From [s] on, calls without effect on resources were made and no rule was lost. *)
Definition later (s s' : dpdk) : Prop :=
  added neutral s s' /\ forall x, filled s x -> filled s' x.

#[export] Instance later_refl : Reflexive later.
Proof. intros s. split; [reflexivity|done]. Qed.
#[export] Instance later_trans : Transitive later.
Proof. intros s1 s2 s3 [A1 F1] [A2 F2]. split; [by trans s2|auto]. Qed.

Lemma array_with a l r b : array b (with_array a l r) = if decide (a = b) then l else array b r.
Proof. unfold with_array. by destruct b. Qed.

Section Created.
Context {L : DpdkLib} (u : rule_array).

Abbreviation kept s := (fun (_ : doca_error_t) s' => added neutral s s').

(** Sequencing with the error postcondition relative to the start. *)
Lemma wp_next {A B} (m : M A) (f : A -> M B) Q Q1 s0 s :
  added neutral s0 s -> wp m Q1 (kept s) s ->
  (forall a s', Q1 a s' -> wp (f a) Q (kept s0) s') -> wp (m ≫= f) Q (kept s0) s.
Proof.
  intros H0 Hm Hf. apply dwp_bind. eapply dwp_mono; [exact Hm|exact Hf|].
  intros e s' H. by trans s.
Qed.

Lemma created_on_mono (tr tr' : trace) port rule :
  (forall x, x ∈ tr -> x ∈ tr') -> created_on tr port rule -> created_on tr' port rule.
Proof. intros H (a & p & acts & Hin). exists a, p, acts. auto. Qed.

Lemma rules_inv_called c s : rules_inv u s -> rules_inv u (called c s).
Proof.
  intros Hi a. destruct (Hi a) as [Hl Ha]. split; [done|]. intros k r Hk Hr.
  destruct (Ha k r Hk Hr) as [Hc Hu]. split; [|done]. revert Hc. apply created_on_mono.
  intros x Hx. apply elem_of_app. by left.
Qed.

Lemma added_called (P : rte_call -> Prop) c s : P c -> added P s (called c s).
Proof. intros Hc. exists [(c, rte (d_calls s) c)]. split; [done|]. split; [by repeat constructor|done]. Qed.

Lemma wp_store_rule a k rule Q E s :
  rules_inv u s -> 0 <= k < Z.of_nat (length (array a zero_rules)) ->
  Q tt (MkDpdk (d_calls s) (d_config s)
          (with_array a (<[Z.to_nat k := rule]> (array a (d_rules s))) (d_rules s))) ->
  wp (store_rule (a, k) rule) Q E s.
Proof.
  intros Hi Hk HQ. unfold store_rule. apply dwp_bind. unfold wp, get_rules. cbn [fst snd].
  destruct (Hi a) as [-> _]. rewrite (proj2 (Z.leb_le 0 k)), (proj2 (Z.ltb_lt k _)) by lia. exact HQ.
Qed.

(** Storing a rule that was created on the port of its element. *)
Lemma rules_inv_stored a k rule s :
  rules_inv u s -> a <> u -> 0 <= k -> created_on (d_calls s) (k mod 2) rule ->
  rules_inv u (MkDpdk (d_calls s) (d_config s)
               (with_array a (<[Z.to_nat k := rule]> (array a (d_rules s))) (d_rules s))).
Proof.
  intros Hi Hu Hk Hc b. cbn [d_rules d_calls]. rewrite array_with. destruct (Hi b) as [Hl Hb].
  case_decide; subst; [|done]. rewrite length_insert. split; [done|]. intros j r Hj Hr.
  apply list_lookup_insert_Some in Hj as [(<- & <- & _) | [_ Hj]];
    [by rewrite Z2Nat.id by lia|].
  by apply (Hb j r).
Qed.

Lemma filled_stored a k rule s x :
  rule <> 0 -> 0 <= k < Z.of_nat (length (array a (d_rules s))) ->
  x = (a, k) \/ filled s x ->
  filled (MkDpdk (d_calls s) (d_config s)
            (with_array a (<[Z.to_nat k := rule]> (array a (d_rules s))) (d_rules s))) x.
Proof.
  intros Hr Hk Hx. destruct x as [b j]. unfold filled. cbn [d_rules fst snd]. rewrite array_with.
  case_decide; subst; [|by destruct Hx as [[= ? _]|Hx]].
  destruct (decide (Z.to_nat k = Z.to_nat j)) as [Ej|Ej].
  - exists rule. rewrite <- Ej, list_lookup_insert_eq by lia. done.
  - destruct Hx as [[= Ejk]|(r & Hj & Hr')]; [by subst|]. exists r.
    by rewrite list_lookup_insert_ne.
Qed.

Lemma wp_create_flow port attr pattern acts a k s :
  rules_inv u s -> a <> u -> 0 <= k < Z.of_nat (length (array a zero_rules)) -> port = k mod 2 ->
  wp (create_flow port attr pattern acts (a, k))
    (fun _ s' => rules_inv u s' /\ later s s' /\ filled s' (a, k)) (kept s) s.
Proof.
  intros Hi Hu Hk Hp. destruct (Hi a) as [Hl _]. unfold create_flow.
  apply dwp_bind, wp_call. set (s1 := called _ s).
  assert (added neutral s s1) as A1 by by apply added_called.
  apply dwp_bind, wp_check; intros _; [|exact A1]. apply dwp_bind, wp_call. set (s2 := called _ s1).
  assert (added neutral s s2) as A2 by (trans s1; [done|by apply added_called]).
  assert (rules_inv u s2) as Hi2 by (by apply rules_inv_called, rules_inv_called).
  assert (0 <= k < Z.of_nat (length (array a (d_rules s2)))) as Hk2.
  { change (d_rules s2) with (d_rules s). by rewrite Hl. }
  apply dwp_bind, wp_store_rule; [done..|]. apply wp_check; [|intros _; exact A2].
  intros Er%negb_true_iff%Z.eqb_neq. split; [|split; [split; [exact A2|]|]].
  - apply rules_inv_stored; [done|done|lia|]. exists attr, pattern, acts. apply elem_of_app. right.
    rewrite <- Hp. by apply elem_of_cons; left.
  - intros x Hx. apply filled_stored; [done|done|by right].
  - apply filled_stored; [done|done|by left].
Qed.

(** The loops over versions and protocols. *)
Lemma wp_for_protocols body a port s :
  rules_inv u s ->
  (forall ip l4 s', 0 <= ip.1 < 2 -> 0 <= l4.1 < 2 -> rules_inv u s' ->
     wp (body ip l4) (fun _ s2 => rules_inv u s2 /\ later s' s2 /\ filled s2 (a, RULE_INDX port ip.1 l4.1))
       (kept s') s') ->
  wp (for_protocols body)
    (fun _ s2 => rules_inv u s2 /\ later s s2 /\
       forall i j, 0 <= i < 2 -> 0 <= j < 2 -> filled s2 (a, RULE_INDX port i j)) (kept s) s.
Proof.
  intros Hi Hb. eapply dwp_mono.
  - apply (wp_for_each _ _ (fun ips s2 => rules_inv u s2 /\ later s s2 /\
      forall ip l4, ip ∈ ips -> 0 <= l4 < 2 -> filled s2 (a, RULE_INDX port ip.1 l4)) (kept s));
      [|split_and!; [done|done|by intros ? ? ?%elem_of_nil]].
    intros before ip after s1 El (Hi1 & L1 & F1).
    assert (0 <= ip.1 < 2) as Hip.
    { assert (ip ∈ zip (seqZ 0 SFT_IP_VERSIONS_NUM) supported_ip_versions) as Hin.
      { rewrite El. apply elem_of_app. right. by apply elem_of_cons; left. }
      cbn in Hin. repeat (apply elem_of_cons in Hin as [-> | Hin]; [done|]). by apply elem_of_nil in Hin. }
    eapply dwp_mono.
    + apply (wp_for_each _ _ (fun l4s s2 => rules_inv u s2 /\ later s s2 /\
        (forall ip l4, ip ∈ before -> 0 <= l4 < 2 -> filled s2 (a, RULE_INDX port ip.1 l4)) /\
        forall l4, l4 ∈ l4s -> filled s2 (a, RULE_INDX port ip.1 l4.1)) (kept s));
        [|split_and!; [done..|by intros ? ?%elem_of_nil]].
      intros before4 l4 after4 s2 El4 (Hi2 & L2 & F2 & G2).
      assert (0 <= l4.1 < 2) as Hl4.
      { assert (l4 ∈ zip (seqZ 0 SFT_IP_PROTOCOLS_NUM) supported_l4_protocols) as Hin.
        { rewrite El4. apply elem_of_app. right. by apply elem_of_cons; left. }
        cbn in Hin. repeat (apply elem_of_cons in Hin as [-> | Hin]; [done|]). by apply elem_of_nil in Hin. }
      eapply dwp_mono; [exact (Hb ip l4 s2 Hip Hl4 Hi2)| |intros e s3 A3; by trans s2; [apply L2|]].
      intros [] s3 (Hi3 & L3 & F3). split; [done|]. split; [by trans s2|]. split.
      * intros ip' l4' ? ?. by apply L3, F2.
      * intros l4' [Hin | ->%list_elem_of_singleton]%elem_of_app; [by apply L3, G2|done].
    + intros [] s2 (Hi2 & L2 & F2 & G2). split; [done|]. split; [done|].
      intros ip' l4 [Hin | ->%list_elem_of_singleton]%elem_of_app Hl4; [by apply F2|].
      destruct (decide (l4 = 0)) as [->|]; [apply (G2 (0, UDP)); by apply elem_of_cons; left|].
      replace l4 with 1 by lia. apply (G2 (1, TCP)). cbn. set_solver.
    + done.
  - intros [] s2 (Hi2 & L2 & F2). split; [done|]. split; [done|]. intros i j Hi' Hj.
    destruct (decide (i = 0)) as [->|]; [apply (F2 (0, IPV4)); [by apply elem_of_cons; left|done]|].
    replace i with 1 by lia. apply (F2 (1, IPV6)); [cbn; set_solver|done].
  - done.
Qed.

Lemma wp_protocol_rules a port s (make : Z * item_type -> Z * item_type -> rule_array * Z -> M unit) :
  a ∈ [SetJump; ForwardFrag; HairpinFrag] -> a <> u -> 0 <= port < 2 -> rules_inv u s ->
  (forall ip l4 out, exists attr pattern acts, make ip l4 out = create_flow port attr pattern acts out) ->
  wp (for_protocols (fun ip l4 => make ip l4 (a, RULE_INDX port ip.1 l4.1)))
    (fun _ s2 => rules_inv u s2 /\ later s s2 /\
       forall i j, 0 <= i < 2 -> 0 <= j < 2 -> filled s2 (a, RULE_INDX port i j)) (kept s) s.
Proof.
  intros Ha Hu Hp Hi Hm. apply wp_for_protocols; [done|]. intros ip l4 s' H1 H2 Hi'.
  destruct (Hm ip l4 (a, RULE_INDX port ip.1 l4.1)) as (attr & pattern & acts & ->).
  assert (length (array a zero_rules) = 8%nat) as E8.
  { repeat (apply elem_of_cons in Ha as [-> | Ha]; [done|]). by apply elem_of_nil in Ha. }
  apply wp_create_flow; unfold RULE_INDX in *; [done|done|rewrite E8; lia|].
  rewrite (Z.mul_comm 2), Z.mod_add, Z.mod_small by lia. done.
Qed.

(** All rules the configuration asks for on a port. *)
Definition port_filled (c : application_sft_config) (s : dpdk) (port : Z) : Prop :=
  (forall i j, 0 <= i < 2 -> 0 <= j < 2 ->
     filled s (SetJump, RULE_INDX port i j) /\
     filled s (if enable_frag c then ForwardFrag else HairpinFrag, RULE_INDX port i j)) /\
  filled s (RssNonState, port) /\ filled s (HairpinNonL4, port) /\
  (enable_state_hairpin c = true -> filled s (QueryHairpin, port)) /\
  (enable_state_drop c = true -> filled s (QueryHairpin, port + 2)).

Lemma wp_optional_rule (b : bool) port attr pattern acts a k s :
  rules_inv u s -> a <> u -> 0 <= k < Z.of_nat (length (array a zero_rules)) -> port = k mod 2 ->
  wp (if b then create_flow port attr pattern acts (a, k) else mret tt)
    (fun _ s' => rules_inv u s' /\ later s s' /\ (b = true -> filled s' (a, k))) (kept s) s.
Proof.
  intros Hi Hu Hk Hp. destruct b; [|by apply dwp_ret].
  eapply dwp_mono; [by apply wp_create_flow| |done]. intros [] s' (? & ? & ?). done.
Qed.

Lemma wp_create_port_rules c rss hairpin port s :
  rules_inv u s -> u = (if enable_frag c then HairpinFrag else ForwardFrag) -> 0 <= port < 2 ->
  wp (create_port_rules c rss hairpin port)
    (fun _ s' => rules_inv u s' /\ later s s' /\ port_filled c s' port) (kept s) s.
Proof.
  intros Hi Hu Hp. assert (forall a, a <> ForwardFrag -> a <> HairpinFrag -> a <> u) as Hne.
  { intros a ? ?. rewrite Hu. by destruct (enable_frag c). }
  assert (port = port mod 2) as Em by (symmetry; apply Z.mod_small; lia).
  assert (port = (port + 2) mod 2) as Em2.
  { rewrite <- (Z.mul_1_l 2) at 1. rewrite Z.mod_add by lia. exact Em. }
  unfold create_port_rules.
  eapply wp_next; [reflexivity|apply (wp_protocol_rules SetJump port s (fun ip l4 =>
    create_rule_forward_l4_to_sft port ip.2 l4.2)); [set_solver|by apply Hne|done|done|by do 3 eexists]|].
  intros [] s1 (Hi1 & L1 & F1).
  eapply wp_next; [apply L1|apply (wp_create_flow _ _ _ _ RssNonState port); [done|by apply Hne|change (Z.of_nat _) with 2; lia|done]|].
  intros [] s2 (Hi2 & L2 & F2). assert (later s s2) as K2 by by trans s1.
  eapply wp_next; [apply K2|apply (wp_create_flow _ _ _ _ HairpinNonL4 port); [done|by apply Hne|change (Z.of_nat _) with 2; lia|done]|].
  intros [] s3 (Hi3 & L3 & F3). assert (later s s3) as K3 by by trans s2.
  eapply wp_next; [apply K3|apply (wp_optional_rule _ _ _ _ _ QueryHairpin port); [done|by apply Hne|change (Z.of_nat _) with 4; lia|done]|].
  intros [] s4 (Hi4 & L4 & F4). assert (later s s4) as K4 by by trans s3.
  eapply wp_next; [apply K4|apply (wp_optional_rule _ _ _ _ _ QueryHairpin (port + 2)); [done|by apply Hne|change (Z.of_nat _) with 4; lia|done]|].
  intros [] s5 (Hi5 & L5 & F5). assert (later s s5) as K5 by by trans s4.
  assert (forall s6, later s5 s6 -> (forall i j, 0 <= i < 2 -> 0 <= j < 2 ->
    filled s6 (if enable_frag c then ForwardFrag else HairpinFrag, RULE_INDX port i j)) ->
    port_filled c s6 port) as Hend.
  { intros s6 L6 F6. split; [intros i j ? ?; split; [by apply L6, L5, L4, L3, L2, F1|by apply F6]|].
    split; [by apply L6, L5, L4, L3|]. split; [by apply L6, L5, L4|].
    split; intros Hb; [by apply L6, L5, F4|by apply L6, F5]. }
  assert (forall m : M unit,
    wp m (fun _ s6 => rules_inv u s6 /\ later s5 s6 /\ forall i j, 0 <= i < 2 -> 0 <= j < 2 ->
       filled s6 (if enable_frag c then ForwardFrag else HairpinFrag, RULE_INDX port i j)) (kept s5) s5 ->
    wp m (fun _ s' => rules_inv u s' /\ later s s' /\ port_filled c s' port) (kept s) s5) as Hlast.
  { intros m Hm. eapply dwp_mono; [exact Hm| |].
    - intros [] s6 (Hi6 & L6 & F6). split_and!; [done|by trans s5|by apply Hend].
    - intros e s6 A6. trans s5; [apply K5|exact A6]. }
  clear Hend. destruct (enable_frag c); apply Hlast.
  - apply (wp_protocol_rules ForwardFrag port s5 (fun ip l4 =>
      create_rule_forward_fragments_to_sft port ip.2 l4.2)); [set_solver|by rewrite Hu|done|done|by do 3 eexists].
  - apply (wp_protocol_rules HairpinFrag port s5 (fun ip l4 =>
      create_rule_hairpin_fragments port ip.2 l4.2 hairpin)); [set_solver|by rewrite Hu|done|done|by do 3 eexists].
Qed.

Lemma wp_create_rules c rss hairpin s :
  u = (if enable_frag (sft_config c) then HairpinFrag else ForwardFrag) ->
  wp (create_rules_sft_offload c rss hairpin)
    (fun _ s' => rules_inv u s' /\ added neutral s s' /\
       forall p, 0 <= p < u8 (nb_ports (port_config c)) -> port_filled (sft_config c) s' p) (kept s) s.
Proof.
  intros Hu. unfold create_rules_sft_offload. cbv zeta.
  apply dwp_bind, wp_check; [intros Hn%Z.leb_le|intros _; reflexivity]. apply dwp_bind.
  change (SFT_PORTS_NUM) with 2 in Hn. unfold put_rules, wp at 1. set (s1 := MkDpdk _ _ zero_rules).
  assert (added neutral s s1) as A1 by (exists []; by rewrite app_nil_r).
  assert (rules_inv u s1) as Hi1.
  { intros a. split; [done|]. intros k r Hk Hr. exfalso. apply Hr.
    destruct a; apply lookup_replicate in Hk as [-> _]; done. }
  eapply dwp_mono.
  - apply (wp_for_each _ _ (fun ps s2 => rules_inv u s2 /\ later s1 s2 /\
      forall p, p ∈ ps -> port_filled (sft_config c) s2 p) (kept s));
      [|split_and!; [done|done|by intros ? ?%elem_of_nil]].
    intros before p after s2 El (Hi2 & L2 & F2).
    assert (0 <= p < 2) as Hp.
    { assert (p ∈ seqZ 0 (u8 (nb_ports (port_config c)))) as Hin.
      { rewrite El. apply elem_of_app. right. by apply elem_of_cons; left. }
      apply elem_of_seqZ in Hin. lia. }
    eapply dwp_mono; [by apply wp_create_port_rules| |].
    + intros [] s3 (Hi3 & L3 & F3). split_and!; [done|by trans s2|].
      intros p' [Hin | ->%list_elem_of_singleton]%elem_of_app; [|done].
      destruct (F2 p' Hin) as (G1 & G2 & G3 & G4 & G5). split_and!; [|by apply L3..|auto using (proj2 L3)|].
      * intros i j ? ?. destruct (G1 i j); auto. split; by apply L3.
      * intros Hb. apply L3, G4, Hb.
      * intros Hb. apply L3, G5, Hb.
    + intros e s3 A3. trans s1; [done|]. trans s2; [apply L2|done].
  - intros [] s2 (Hi2 & L2 & F2). split_and!; [done|trans s1; [done|apply L2]|].
    intros p Hp. apply F2, elem_of_seqZ. lia.
  - done.
Qed.
End Created.

(** ** The counters *)

Section Counters.
Context {L : DpdkLib}.

(** The hits of the queries in [rest] that were answered. *)
Fixpoint hits_from (tr rest : trace) : Z :=
  match rest with
  | [] => 0
  | (c, x) :: rest =>
      match c with FlowQuery _ r => if x =? 0 then query_hits tr r else 0 | _ => 0 end +
      hits_from (tr ++ [(c, x)]) rest
  end.

Lemma hits_from_app tr a b : hits_from tr (a ++ b) = hits_from tr a + hits_from (tr ++ a) b.
Proof.
  revert tr. induction a as [|[c x] a IH]; intros tr; cbn [app hits_from]; [by rewrite app_nil_r|].
  rewrite IH, <- app_assoc. cbn [app]. lia.
Qed.

Definition grand (t : totals) : Z := total_ingress t + total_rss t + total_dropped t + total_egress t.

(** A query of element [k] of an array goes to port [k mod 2]. *)
Definition good_query (rules : application_rules) (x : rte_call * Z) : Prop :=
  exists a k r, x.1 = FlowQuery (Z.of_nat k mod 2) r /\ array a rules !! k = Some r /\
    (a = QueryHairpin -> r <> 0) /\
    (a = ForwardFrag \/ a = HairpinFrag -> exists r0, array a rules !! 0%nat = Some r0 /\ r0 <> 0).

(** The rules are kept, only good queries are made, and their hits are in the totals. *)
Definition counted (s : dpdk) (t : totals) (t' : totals) (s' : dpdk) : Prop :=
  exists tr, d_calls s' = d_calls s ++ tr /\ d_rules s' = d_rules s /\ d_config s' = d_config s /\
    Forall (good_query (d_rules s)) tr /\ u64 (grand t') = u64 (grand t + hits_from (d_calls s) tr).

Lemma counted_refl s t : counted s t t s.
Proof. exists []. rewrite app_nil_r. cbn. by rewrite Z.add_0_r. Qed.

Lemma counted_trans s1 t1 s2 t2 s3 t3 :
  counted s1 t1 t2 s2 -> counted s2 t2 t3 s3 -> counted s1 t1 t3 s3.
Proof.
  intros (a & Ea & Ra & Ca & Fa & Ga) (b & Eb & Rb & Cb & Fb & Gb). exists (a ++ b).
  rewrite Eb, Ea, Rb, Ra, Cb, Ca, app_assoc. split_and!; [done..| |].
  - apply Forall_app. rewrite Ra in Fb. done.
  - rewrite Gb, <- wrapu_add_l, Ga, wrapu_add_l, hits_from_app, Ea. f_equal. lia.
Qed.

Lemma wp_count_flows a port_of skip add n i t s :
  0 <= i -> (Z.to_nat i + n <= length (array a (d_rules s)))%nat ->
  (forall k, 0 <= k < i + Z.of_nat n -> port_of k = k mod 2) ->
  (a = QueryHairpin -> skip = true) ->
  (a = ForwardFrag \/ a = HairpinFrag -> exists r0, array a (d_rules s) !! 0%nat = Some r0 /\ r0 <> 0) ->
  (forall k h t, u64 (grand (add k h t)) = u64 (grand t + h)) ->
  wp (count_flows a port_of skip add n i t) (counted s t) (fun _ _ => False) s.
Proof.
  intros Hi Hn Hp Hs Hf Ha. revert i t s Hi Hn Hp Hf.
  induction n as [|n IH]; intros i t s Hi Hn Hp Hf; cbn [count_flows].
  { apply dwp_ret, counted_refl. }
  apply dwp_bind. unfold wp at 1, get_rules.
  destruct (lookup_lt_is_Some_2 (array a (d_rules s)) (Z.to_nat i) ltac:(lia)) as [r Hr]. rewrite Hr.
  destruct (skip && (r =? 0)) eqn:Esk; [apply IH; [lia..|intros k Hk; apply Hp; lia|done]|].
  apply dwp_bind. unfold query_rule. apply dwp_bind. unfold wp at 1, history. apply dwp_bind, wp_call, dwp_ret.
  set (s1 := called _ s). set (x := rte _ _).
  assert (counted s t (match (if x =? 0 then Some (query_hits (d_calls s) r) else None) with
    | Some h => add i h t | None => t end) s1) as C1.
  { exists [(FlowQuery (port_of i) r, x)]. split_and!; [done|done|done| |].
    - constructor; [|constructor]. exists a, (Z.to_nat i), r. rewrite Z2Nat.id, Hp by lia.
      split_and!; [done|done| |done].
      intros Hq. rewrite (Hs Hq) in Esk. apply Z.eqb_neq in Esk. done.
    - cbn. destruct (x =? 0); [rewrite Ha|]; f_equal; lia. }
  assert (d_rules s1 = d_rules s) as Rs by done.
  eapply dwp_mono; [apply IH; rewrite ?Rs; [lia..|intros k Hk; apply Hp; lia|exact Hf]| |done].
  intros t' s' C'. by eapply counted_trans.
Qed.

Lemma u64_inner a x b : u64 (a + u64 x + b) = u64 (a + x + b).
Proof.
  replace (a + u64 x + b) with (u64 x + (a + b)) by lia. rewrite wrapu_add_l. f_equal. lia.
Qed.

Lemma grand_adds h t :
  u64 (grand (add_ingress h t)) = u64 (grand t + h) /\ u64 (grand (add_rss h t)) = u64 (grand t + h) /\
  u64 (grand (add_dropped h t)) = u64 (grand t + h) /\ u64 (grand (add_egress h t)) = u64 (grand t + h) /\
  grand (add_non_l4 h t) = grand t /\ grand (add_fragments h t) = grand t.
Proof.
  destruct t as [i r d e n f]. unfold grand. cbn. split_and!; [..|done|done].
  - pose proof (u64_inner 0 (i + h) (r + d + e)) as E. rewrite Z.add_0_l in E.
    replace (u64 (i + h) + r + d + e) with (u64 (i + h) + (r + d + e)) by lia. rewrite E. f_equal. lia.
  - replace (i + u64 (r + h) + d + e) with (i + u64 (r + h) + (d + e)) by lia. rewrite u64_inner. f_equal. lia.
  - rewrite u64_inner. f_equal. lia.
  - rewrite <- (Z.add_0_r (i + r + d + u64 (e + h))), u64_inner. f_equal. lia.
Qed.

(** Elements of the arrays by port and rule. *)
Lemma rule_index k : 0 <= k < 8 -> k = RULE_INDX (k mod 2) (k / 4) (k / 2 mod 2).
Proof. intros Hk. unfold RULE_INDX. mlia. Qed.

Lemma counted_added s t t' s' : counted s t t' s' -> added neutral s s'.
Proof.
  intros (tr & E & _ & C & F & _). exists tr. split; [done|]. split; [|done].
  apply (list.Forall_impl _ _ _ F). intros x (a & k & r & -> & _). done.
Qed.

(** A loop over an array, after others. *)
Lemma wp_count u a port_of skip add t0 s0 t s :
  let n := length (array a zero_rules) in
  rules_inv u s0 -> counted s0 t0 t s ->
  (forall k, 0 <= k < Z.of_nat n -> port_of k = k mod 2) -> (a = QueryHairpin -> skip = true) ->
  (a = ForwardFrag \/ a = HairpinFrag -> exists r0, array a (d_rules s0) !! 0%nat = Some r0 /\ r0 <> 0) ->
  (forall k h t, u64 (grand (add k h t)) = u64 (grand t + h)) ->
  wp (count_flows a port_of skip add n 0 t) (counted s0 t0) (fun _ _ => False) s.
Proof.
  intros n Hi C Hp Hs Hf Ha. assert (d_rules s = d_rules s0) as R by (by destruct C as (? & ? & ? & _)).
  eapply dwp_mono; [apply wp_count_flows; rewrite ?R; try done|..].
  - destruct (Hi a) as [-> _]. subst n. lia.
  - intros t' s' C'. by eapply counted_trans.
  - done.
Qed.

Lemma wp_counted {B} (m : M totals) (f : totals -> M B) t0 s0 Q E s :
  wp m (counted s0 t0) (fun _ _ => False) s ->
  (forall t' s', counted s0 t0 t' s' -> wp (f t') Q E s') -> wp (m ≫= f) Q E s.
Proof. intros Hm Hf. apply dwp_bind. eapply dwp_mono; [exact Hm|exact Hf|done]. Qed.

Lemma wp_first_rule {B} u a t0 s0 t s (f : bool -> M B) Q E :
  rules_inv u s0 -> counted s0 t0 t s ->
  (forall b, (b = true -> exists r0, array a (d_rules s0) !! 0%nat = Some r0 /\ r0 <> 0) -> wp (f b) Q E s) ->
  wp (first_rule a ≫= f) Q E s.
Proof.
  intros Hi C Hnext. assert (d_rules s = d_rules s0) as R by (by destruct C as (? & ? & ? & _)).
  apply dwp_bind. unfold first_rule. apply dwp_bind. unfold wp at 1, get_rules. rewrite R.
  destruct (array a (d_rules s0) !! 0%nat) as [r|] eqn:E0.
  - apply dwp_ret, Hnext. intros Hr%negb_true_iff%Z.eqb_neq. by exists r.
  - exfalso. apply lookup_ge_None in E0. destruct (Hi a) as [El _]. rewrite El in E0.
    destruct a; vm_compute in E0; lia.
Qed.

Lemma port_of_flow_mod n k : 0 <= k < n -> port_of_flow k = k mod 2.
Proof. intros Hk. apply Z.rem_mod_nonneg; lia. Qed.
Lemma id_mod k : 0 <= k < 2 -> id k = k mod 2.
Proof. intros Hk. symmetry. by apply Z.mod_small. Qed.

Lemma wp_print_counter u s :
  rules_inv u s ->
  wp print_offload_rules_counter (fun t s' => counted s (MkTotals 0 0 0 0 0 0) t s')
    (fun _ _ => False) s.
Proof.
  intros Hi. unfold print_offload_rules_counter. set (t0 := MkTotals 0 0 0 0 0 0).
  apply (wp_counted _ _ t0 s); [apply (wp_count u SetJump); [done|apply counted_refl
    |by apply port_of_flow_mod|done|by intros []|intros _ h t; apply grand_adds]|]. intros t1 s1 C1.
  apply (wp_counted _ _ t0 s); [apply (wp_count u HairpinNonL4); [done|done|apply id_mod|done|by intros []|]|].
  { intros _ h t. destruct (grand_adds h (add_ingress h t)) as (_ & _ & _ & _ & -> & _). apply grand_adds. }
  intros t2 s2 C2.
  apply (wp_counted _ _ t0 s); [apply (wp_count u QueryHairpin); [done|done|by apply port_of_flow_mod|done
    |by intros []|intros k h t; destruct (k <? 2); apply grand_adds]|]. intros t3 s3 C3.
  apply (wp_counted _ _ t0 s); [apply (wp_count u RssNonState); [done|done|apply id_mod|done|by intros []
    |intros _ h t; apply grand_adds]|]. intros t4 s4 C4.
  apply (wp_first_rule u ForwardFrag t0 s t4); [done|done|]. intros b Hb.
  apply (wp_counted _ _ t0 s).
  { destruct b; [|by apply dwp_ret].
    apply (wp_count u ForwardFrag); [done|done|by apply port_of_flow_mod|done|intros _; by apply Hb|].
    intros _ h t. destruct (grand_adds h t) as (_ & _ & _ & _ & _ & <-). apply grand_adds. }
  intros t5 s5 C5. apply (wp_first_rule u HairpinFrag t0 s t5); [done|done|]. intros b' Hb'.
  destruct b'; [|by apply dwp_ret].
  apply (wp_count u HairpinFrag); [done|done|by apply port_of_flow_mod|done|intros _; by apply Hb'|].
  intros _ h t. destruct (grand_adds h t) as (_ & _ & _ & _ & _ & <-). apply grand_adds.
Qed.

(** C19.  The rules and their counters.  When [create_rules_sft_offload] succeeds, the counters
    can be read: every query that [print_offload_rules_counter] makes names a rule that was
    created on the port it asks, or no rule at all, and that only for a port beyond the
    configured ones; and the hits of the queries that are answered are all in the totals of
    ingress, egress, distributed and dropped traffic, each of them once. *)
Theorem offload_rules_counted c rss hairpin s s1 :
  create_rules_sft_offload c rss hairpin s = (Done tt, s1) ->
  exists t s2 tr,
    print_offload_rules_counter s1 = (Done t, s2) /\ d_rules s2 = d_rules s1 /\
    d_calls s2 = d_calls s1 ++ tr /\
    (forall x, x ∈ tr -> exists port rule, x.1 = FlowQuery port rule /\
       (created_on (d_calls s1) port rule \/ rule = 0 /\ u8 (nb_ports (port_config c)) <= port)) /\
    u64 (total_ingress t + total_rss t + total_dropped t + total_egress t) =
      u64 (hits_from (d_calls s1) tr).
Proof.
  intros Ec. set (u := if enable_frag (sft_config c) then HairpinFrag else ForwardFrag).
  pose proof (wp_create_rules u c rss hairpin s eq_refl) as W. unfold wp in W. rewrite Ec in W.
  destruct W as (Hi & _ & Hfill). pose proof (wp_print_counter u s1 Hi) as W. unfold wp in W.
  destruct (print_offload_rules_counter s1) as [[t|e|] s2]; [|done|done].
  destruct W as (tr & Et & Er & _ & Fq & Hg). exists t, s2, tr. split_and!; [done..| |].
  - intros x Hx. rewrite list.Forall_forall in Fq.
    destruct (Fq x Hx) as (a & k & r & Ex & Hk & Hq & Hf). exists (Z.of_nat k mod 2), r. split; [done|].
    destruct (decide (r = 0)) as [->|Hr]; [|left; by apply (Hi a)].
    right. split; [done|]. apply Z.nlt_ge. intros Hp.
    assert (filled s1 (a, Z.of_nat k)) as (r & Hr & Hr0); [|cbn in Hr; rewrite Nat2Z.id in Hr; congruence].
    destruct (Hfill (Z.of_nat k mod 2) ltac:(mlia)) as (G1 & G2 & G3 & _).
    pose proof (lookup_lt_Some _ _ _ Hk) as Hlen. destruct (Hi a) as [El Hau]. rewrite El in Hlen.
    assert (Z.of_nat k < 8 -> filled s1 (SetJump, Z.of_nat k) /\
      filled s1 (if enable_frag (sft_config c) then ForwardFrag else HairpinFrag, Z.of_nat k)) as G8.
    { intros Hk8. rewrite (rule_index (Z.of_nat k)) by lia. apply G1; mlia. }
    assert (forall r0, array a (d_rules s1) !! 0%nat = Some r0 -> r0 <> 0 -> a <> u) as Hu.
    { intros r0 H0 Hr0. by apply (Hau 0%nat r0). }
    destruct a; vm_compute in Hlen; try (rewrite Z.mod_small in G2, G3 by lia; assumption).
    + apply G8. lia.
    + by destruct (Hq eq_refl).
    + destruct (Hf ltac:(by left)) as (r0 & H0 & Hr0). specialize (Hu r0 H0 Hr0). subst u.
      destruct (enable_frag _); [apply G8; lia|done].
    + destruct (Hf ltac:(by right)) as (r0 & H0 & Hr0). specialize (Hu r0 H0 Hr0). subst u.
      destruct (enable_frag _); [done|apply G8; lia].
  - exact Hg.
Qed.
End Counters.

Definition sample_config : application_dpdk_config :=
  MkConfig (MkPortConfig 2 2 2 true false true false false) (MkSftConfig true true false true true) false 0.
Definition sample_rss : rte_flow_action_rss := MkRss [0; 1] 2 0 [] 40 0 0.
Definition sample_dpdk : dpdk := MkDpdk [] sample_config zero_rules.

Lemma offload_rules_counted_witness :
  exists t s2 tr,
    let s1 := (create_rules_sft_offload sample_config sample_rss sample_rss sample_dpdk).2 in
    print_offload_rules_counter s1 = (Done t, s2) /\ d_rules s2 = d_rules s1 /\
    d_calls s2 = d_calls s1 ++ tr /\
    (forall x, x ∈ tr -> exists port rule, x.1 = FlowQuery port rule /\
       (created_on (d_calls s1) port rule \/ rule = 0 /\ u8 (nb_ports (port_config sample_config)) <= port)) /\
    u64 (total_ingress t + total_rss t + total_dropped t + total_egress t) =
      u64 (hits_from (d_calls s1) tr).
Proof.
  apply (offload_rules_counted sample_config sample_rss sample_rss sample_dpdk). vm_compute. reflexivity.
Defined.
