(* ===== verification/DpdkUtils.v ===== *)
(** * DpdkUtils: ports, queues and memory of DPDK

    Translation of the first half of [utils/dpdk/dpdk_utils.c]: hairpin queues, and the
    set-up and release of the ports ([MempoolShadow] has the rest).  The code that
    [GPU_SUPPORT] adds is not compiled, and printing of packets has no effect. *)

From S2P Require Import Prelude FlexioDev Dpdk OffloadRules.

Definition RX_RING_SIZE : Z := 1024.
Definition TX_RING_SIZE : Z := 1024.
Definition NUM_MBUFS : Z := 8 * 1024.
Definition RSS_KEY_LEN : Z := 40.

Section Utils.
Context {L : DpdkLib}.

(** ** Hairpin queues *)

(** The peers of a port in one direction; an error when they cannot be had. *)
Definition hairpin_peers (port_id direction : Z) : M (list Z) :=
  h ← history;
  peer_ports_len ← call (HairpinGetPeers port_id direction);
  _ ← check (negb (peer_ports_len <? 0)) DOCA_ERROR_DRIVER;
  mret (take (Z.to_nat peer_ports_len) (peer_ports h port_id direction)).

Definition bind_hairpin_queues (port_id : Z) : M unit :=
  peers ← hairpin_peers port_id 1;
  _ ← for_each peers (fun peer => drive (HairpinBind port_id peer));
  peers ← hairpin_peers port_id 0;
  for_each peers (fun peer => drive (HairpinBind peer port_id)).

Definition unbind_hairpin_queues (port_id : Z) : M unit :=
  peers ← hairpin_peers port_id 1;
  _ ← for_each peers (fun peer => drive (HairpinUnbind port_id peer));
  peers ← hairpin_peers port_id 0;
  for_each peers (fun peer => drive (HairpinUnbind peer port_id)).

Definition setup_hairpin_queues (port_id peer_port_id : Z) (reserved_hairpin_q_list : list Z) : M unit :=
  for_each reserved_hairpin_q_list (fun q =>
    _ ← drive (TxHairpinSetup port_id q 2048 peer_port_id q);
    drive (RxHairpinSetup port_id q 2048 peer_port_id q)).

Definition disable_hairpin_queues (nb_ports : Z) : M unit :=
  for_each (seqZ 0 (u16 nb_ports)) (fun port_id =>
    valid ← is_valid_port port_id;
    if (valid : bool) then _ ← attempt (unbind_hairpin_queues port_id); mret tt else mret tt).

(** [for (port_id = 0, n = 0; port_id < RTE_MAX_ETHPORTS; port_id++)]: the valid ports, until
    [++n >= nb_ports]. *)
Fixpoint port_loop (body : Z -> M unit) (nb_ports : Z) (fuel : nat) (port_id n : Z) : M unit :=
  match fuel with
  | O => mret tt
  | S fuel =>
      valid ← is_valid_port port_id;
      if (valid : bool) then
        _ ← body port_id;
        if nb_ports <=? u16 (n + 1) then mret tt
        else port_loop body nb_ports fuel (port_id + 1) (u16 (n + 1))
      else port_loop body nb_ports fuel (port_id + 1) n
  end.
Definition for_ports (nb_ports : Z) (body : Z -> M unit) : M unit :=
  port_loop body nb_ports (Z.to_nat RTE_MAX_ETHPORTS) 0 0.

Definition enable_hairpin_queues (nb_ports : Z) : M unit :=
  for_ports (u8 nb_ports) (fun port_id =>
    result ← attempt (bind_hairpin_queues port_id);
    match result with
    | inl _ => mret tt
    | inr e => _ ← disable_hairpin_queues port_id; fail e
    end).

(** ** The stateful flow table *)

Definition update_flow_action_rss (queue_list : list Z) (nb_queues types : Z) (key : list Z)
    (key_len hash_func level : Z) : rte_flow_action_rss :=
  MkRss queue_list nb_queues types key key_len hash_func level.

Definition dpdk_sft_init : M unit :=
  c ← get_config;
  let nb_queues := u8 (nb_queues (port_config c)) in
  let nb_hairpin_q := u8 (nb_hairpin_q (port_config c)) in
  _ ← drive (SftInit (MkSftConf nb_queues (Z.shiftl 1 20) (enable_ct (sft_config c))
               (enable_frag (sft_config c)) 1 60 4096 1));
  h ← history;
  ret ← call (RssHashConfGet 0);
  if ret <? 0 then _ ← call SftFini; fail DOCA_ERROR_DRIVER
  else
    let '(hf, key) := rss_conf_of h 0 in
    let rss_hf := if enable_frag (sft_config c) then RTE_ETH_RSS_IP else hf in
    let action_rss := update_flow_action_rss (seqZ 0 nb_queues) nb_queues rss_hf key RSS_KEY_LEN
                        RTE_ETH_HASH_FUNCTION_DEFAULT 0 in
    let hairpin_queue_list := (fun i => u16 (nb_queues + i)) <$> seqZ 0 nb_hairpin_q in
    let action_rss_hairpin := update_flow_action_rss hairpin_queue_list nb_hairpin_q rss_hf key
                                RSS_KEY_LEN RTE_ETH_HASH_FUNCTION_DEFAULT 0 in
    create_rules_sft_offload c action_rss action_rss_hairpin.

(** ** Ports *)

Definition with_pool (pool : Z) (c : application_dpdk_config) : application_dpdk_config :=
  MkConfig (port_config c) (sft_config c) (reserve_main_thread c) pool.
Definition with_queues (n : Z) (c : application_dpdk_config) : application_dpdk_config :=
  let p := port_config c in
  MkConfig (MkPortConfig (nb_ports p) n (nb_hairpin_q p) (enable_mbuf_metadata p) (self_hairpin p)
              (rss_support p) (lpbk_support p) (isolated_mode p))
    (sft_config c) (reserve_main_thread c) (mbuf_pool c).

Definition allocate_mempool (total_nb_mbufs : Z) : M unit :=
  _ ← call SocketId;
  pool ← call (PoolCreate total_nb_mbufs);
  c ← get_config;
  _ ← put_config (with_pool pool c);
  check (truthy pool) DOCA_ERROR_DRIVER.

(** The queue indices of the hairpin queues: every [step]-th from [first] on. *)
Definition rss_queue_list (nb_queues first step n : Z) : list Z :=
  (fun i => u16 (nb_queues + i * step + first)) <$> seqZ 0 n.

(** The hairpin queues of a port: to itself and to its peer, or to one of them. *)
Definition port_hairpins (p : application_port_config) (port : Z) : M unit :=
  let nb_hairpin_queues := u16 (nb_hairpin_q p) in
  let peer := Z.lxor port 1 in
  both ← (if truthy nb_hairpin_queues && self_hairpin p then is_valid_port peer else mret false);
  if (both : bool) then
    _ ← c_assert (Z.rem nb_hairpin_queues 2 =? 0);
    _ ← setup_hairpin_queues port port (rss_queue_list (nb_queues p) 0 2 (nb_hairpin_queues / 2));
    setup_hairpin_queues port peer (rss_queue_list (nb_queues p) 1 2 (nb_hairpin_queues / 2))
  else if truthy nb_hairpin_queues then
    valid ← is_valid_port peer;
    setup_hairpin_queues port (if (valid : bool) then peer else port)
      (rss_queue_list (nb_queues p) 0 1 nb_hairpin_queues)
  else mret tt.

(** Everything up to the start of the port. *)
Definition port_configure (mbuf_pool port : Z) (p : application_port_config) : M unit :=
  let nb_hairpin_queues := u16 (nb_hairpin_q p) in
  let rings := u16 (nb_queues p) in
  _ ← drive (DevInfoGet port);
  _ ← drive (DevConfigure port (u16 (rings + nb_hairpin_queues)) (u16 (rings + nb_hairpin_queues))
               (rss_support p && (1 <? nb_queues p)) (c_bool (lpbk_support p)));
  _ ← drive (PromiscuousEnable port);
  _ ← for_each (seqZ 0 rings) (fun q =>
        _ ← call (DevSocketId port); drive (RxQueueSetup port q RX_RING_SIZE mbuf_pool));
  _ ← for_each (seqZ 0 rings) (fun q =>
        _ ← call (DevSocketId port); drive (TxQueueSetup port q TX_RING_SIZE));
  _ ← port_hairpins p port;
  drive (FlowIsolate port (isolated_mode p)).

Definition port_init (mbuf_pool port : Z) : M unit :=
  c ← get_config;
  _ ← port_configure mbuf_pool port (port_config c);
  _ ← drive (DevStart port);
  _ ← call (MacaddrGet port);
  node ← call (DevSocketId port);
  if 0 <? node then _ ← call (DevSocketId port); _ ← call SocketId; mret tt else mret tt.

(** [for (port_id = nb_ports, n = 0; port_id >= 0; port_id--)], [k] ports below. *)
Fixpoint fini_loop (nb_ports : Z) (k : nat) (n : Z) : M unit :=
  match k with
  | O => mret tt
  | S k =>
      let port_id := Z.of_nat k in
      valid ← is_valid_port port_id;
      if (valid : bool) then
        _ ← call (DevStop port_id);
        _ ← call (DevClose port_id);
        if nb_ports <=? u16 (n + 1) then mret tt else fini_loop nb_ports k (u16 (n + 1))
      else fini_loop nb_ports k n
  end.

Definition dpdk_ports_fini (nb_ports_ : Z) : M unit :=
  c ← get_config;
  _ ← fini_loop (nb_ports (port_config c)) (Z.to_nat (u16 nb_ports_ + 1)) 0;
  if truthy (mbuf_pool c) then _ ← call (PoolFree (mbuf_pool c)); mret tt else mret tt.

Definition dpdk_ports_init : M unit :=
  c ← get_config;
  let p := port_config c in
  let nb_ports := u16 (nb_ports p) in
  _ ← allocate_mempool (u32 (nb_queues p * nb_ports * NUM_MBUFS));
  _ ← (if enable_mbuf_metadata p || sft_enable (sft_config c) then drive MetadataRegister else mret tt);
  for_ports nb_ports (fun port_id =>
    c ← get_config;
    result ← attempt (port_init (mbuf_pool c) (u8 port_id));
    match result with
    | inl _ => mret tt
    | inr e => _ ← dpdk_ports_fini port_id; fail e
    end).

(** The checks and the number of queues. *)
Definition dpdk_count_queues : M unit :=
  c ← get_config;
  let p := port_config c in
  ret ← call CountAvail;
  _ ← check (negb ((0 <? nb_ports p) && (ret <? nb_ports p))) DOCA_ERROR_DRIVER;
  ret ← call LcoreCount;
  let ret := s32 ret in
  _ ← check (negb ((0 <? nb_queues p) && (ret <? nb_queues p))) DOCA_ERROR_DRIVER;
  put_config (with_queues (if reserve_main_thread c then s32 (ret - 1) else ret) c).

(** A step of the set-up, with the clean-up that its label stands for. *)
Definition or_cleanup (m cleanup : M unit) : M unit :=
  result ← attempt m;
  match result with
  | inl _ => mret tt
  | inr e => _ ← cleanup; fail e
  end.

Definition dpdk_queues_and_ports_init : M unit :=
  _ ← dpdk_count_queues;
  c ← get_config;
  let p := port_config c in
  _ ← (if 0 <? nb_ports p then dpdk_ports_init else mret tt);
  _ ← (if 0 <? nb_hairpin_q p then
         or_cleanup (enable_hairpin_queues (nb_ports p)) (dpdk_ports_fini RTE_MAX_ETHPORTS)
       else mret tt);
  if sft_enable (sft_config c) then
    or_cleanup dpdk_sft_init
      (_ ← disable_hairpin_queues RTE_MAX_ETHPORTS; dpdk_ports_fini RTE_MAX_ETHPORTS)
  else mret tt.

Definition dpdk_queues_and_ports_fini : M unit :=
  c ← get_config;
  _ ← (if sft_enable (sft_config c) then
         _ ← print_offload_rules_counter; _ ← call SftFini; mret tt
       else mret tt);
  _ ← disable_hairpin_queues RTE_MAX_ETHPORTS;
  dpdk_ports_fini RTE_MAX_ETHPORTS.

Definition dpdk_init : M unit := drive EalInit.
Definition dpdk_fini : M unit := _ ← call EalCleanup; mret tt.

End Utils.

(** ** What the steps of the set-up call *)

Section Neutral.
Context {L : DpdkLib}.

Lemma makes_bind_hairpin p : makes neutral (bind_hairpin_queues p).
Proof. unfold bind_hairpin_queues, hairpin_peers. makes. Qed.
Lemma makes_unbind_hairpin p : makes neutral (unbind_hairpin_queues p).
Proof. unfold unbind_hairpin_queues, hairpin_peers. makes. Qed.
Lemma makes_disable_hairpin n : makes neutral (disable_hairpin_queues n).
Proof. unfold disable_hairpin_queues, unbind_hairpin_queues, hairpin_peers. makes. Qed.
Lemma makes_setup_hairpin p q l : makes neutral (setup_hairpin_queues p q l).
Proof. unfold setup_hairpin_queues. makes. Qed.

Lemma makes_port_loop P body nb fuel p n :
  (forall p, P (IsValidPort p)) -> (forall p, makes P (body p)) -> makes P (port_loop body nb fuel p n).
Proof.
  intros Hv Hb. revert p n. induction fuel as [|fuel IH]; intros p n; cbn [port_loop]; makes; auto.
Qed.

Lemma makes_enable_hairpin n : makes neutral (enable_hairpin_queues n).
Proof.
  unfold enable_hairpin_queues, for_ports. apply makes_port_loop; [done|]. intros p.
  apply makes_bind; [apply makes_attempt, makes_bind_hairpin|]. intros [u|e]; [apply makes_ret|].
  apply makes_bind; [apply makes_disable_hairpin|]. intros u. apply makes_fail.
Qed.

(** It never fails. *)
Lemma wp_disable_hairpin n s :
  wp (disable_hairpin_queues n) (fun _ s' => added neutral s s') (fun _ _ => False) s.
Proof.
  apply (wp_for_each _ _ (fun _ s' => added neutral s s') (fun _ _ => False)); [|reflexivity].
  intros _ p _ s1 _ A1. apply dwp_bind. unfold is_valid_port. apply dwp_bind, wp_call, dwp_ret.
  assert (added neutral s (called (IsValidPort p) s1)) as A2 by (trans s1; [done|by apply added_called]).
  destruct (truthy _); [|by apply dwp_ret]. apply dwp_bind, wp_attempt.
  eapply dwp_mono; [apply makes_unbind_hairpin|..]; intros x s2 A3; apply dwp_ret; by etrans.
Qed.

(** The assertion on the number of hairpin queues holds. *)
Definition hairpins_ok (p : application_port_config) : Prop :=
  self_hairpin p = true -> Z.rem (u16 (nb_hairpin_q p)) 2 = 0.

Lemma makes_port_hairpins p port : hairpins_ok p -> makes neutral (port_hairpins p port).
Proof.
  intros Hok. unfold port_hairpins. destruct (truthy (u16 (nb_hairpin_q p)) && self_hairpin p) eqn:E.
  - apply andb_true_iff in E as [_ E]. rewrite (Hok E).
    apply makes_bind; [by apply makes_is_valid|]. intros []; [|makes; apply makes_setup_hairpin].
    apply makes_ret_bind. makes; apply makes_setup_hairpin.
  - apply makes_ret_bind. makes; apply makes_setup_hairpin.
Qed.

Lemma makes_port_configure pool port p : hairpins_ok p -> makes neutral (port_configure pool port p).
Proof. intros Hok. unfold port_configure. makes. by apply makes_port_hairpins. Qed.
End Neutral.

(** ** Loops over the ports *)

Section Ports.
Context {L : DpdkLib} `{!DpdkLaws L}.

(** The ports of the machine with a number below [n]. *)
Definition ports_below (n : Z) : list Z := filter (fun p => port_present p = true) (seqZ 0 n).

Definition no_close (s : dpdk) : Prop := forall p r, (DevClose p, r) ∉ d_calls s.

Lemma ports_below_succ n : 0 <= n ->
  ports_below (n + 1) = ports_below n ++ (if port_present n then [n] else []).
Proof.
  intros Hn. unfold ports_below. rewrite (seqZ_app 0 n 1), list.filter_app by lia. f_equal.
  rewrite Z.add_0_l. change (seqZ n 1) with [n].
  destruct (port_present n) eqn:E; [by rewrite filter_cons_True|].
  by rewrite filter_cons_False by congruence.
Qed.

Lemma ports_below_prefix n m : 0 <= n <= m -> exists rest, ports_below m = ports_below n ++ rest.
Proof.
  intros Hnm. unfold ports_below. replace m with (n + (m - n)) by lia.
  rewrite seqZ_app, list.filter_app by lia. by eexists.
Qed.

Lemma elem_of_ports_below p n : p ∈ ports_below n <-> port_present p = true /\ p < n.
Proof.
  unfold ports_below. rewrite list_elem_of_filter, elem_of_seqZ.
  split; [tauto|]. intros [H ?]. pose proof (present_range p H). split; [done|lia].
Qed.

Lemma length_ports_below n : 0 <= n -> Z.of_nat (length (ports_below n)) <= n.
Proof.
  intros Hn. unfold ports_below. pose proof (length_filter (fun p => port_present p = true) (seqZ 0 n)).
  rewrite length_seqZ in *. lia.
Qed.

Lemma no_close_called c s : (forall p, c <> DevClose p) -> no_close s -> no_close (called c s).
Proof.
  intros Hc Hs p r [Hin | [= E _]%list_elem_of_singleton]%elem_of_app; [by apply (Hs p r)|].
  by apply (Hc p).
Qed.

Lemma no_close_added (P : rte_call -> Prop) s s' :
  (forall p, ~ P (DevClose p)) -> added P s s' -> no_close s -> no_close s'.
Proof.
  intros HP (tr & E & F & _) Hs p r. rewrite E. intros [Hin|Hin]%elem_of_app; [by apply (Hs p r)|].
  rewrite list.Forall_forall in F. by apply (HP p), (F _ Hin).
Qed.

Lemma wp_is_valid p (Q : bool -> dpdk -> Prop) E s :
  (forall r, (DevClose p, r) ∉ d_calls s) -> Q (port_present p) (called (IsValidPort p) s) ->
  wp (is_valid_port p) Q E s.
Proof.
  intros Hc HQ. unfold is_valid_port. apply dwp_bind, wp_call, dwp_ret. by rewrite (valid_port _ _ Hc).
Qed.

(** The loop visits the first ports; [I] is its invariant, over the ports visited. *)
Lemma wp_port_loop body nb (I : list Z -> dpdk -> Prop) E fuel k s :
  (forall ps s, I ps s -> no_close s) ->
  (forall ps p s, I ps s -> I ps (called (IsValidPort p) s)) ->
  (forall p s, port_present p = true -> let ps := ports_below p in
     Z.of_nat (length ps) < Z.max 1 nb -> I ps s -> wp (body p) (fun _ s' => I (ps ++ [p]) s') E s) ->
  0 <= k -> k + Z.of_nat fuel < 2 ^ 16 -> Z.of_nat (length (ports_below k)) < Z.max 1 nb ->
  I (ports_below k) s ->
  wp (port_loop body nb fuel k (Z.of_nat (length (ports_below k))))
    (fun _ s' => I (take (Z.to_nat (Z.max 1 nb)) (ports_below (k + Z.of_nat fuel))) s') E s.
Proof.
  intros Hno Hv Hb. revert k s. induction fuel as [|fuel IH]; intros k s Hk Hf Hn Hi; cbn [port_loop].
  { apply dwp_ret. rewrite Z.add_0_r, take_ge by lia. done. }
  apply dwp_bind, wp_is_valid; [apply (Hno _ _ Hi)|]. pose proof (length_ports_below k Hk) as Hl.
  pose proof (ports_below_succ k Hk) as Es. replace (k + Z.of_nat (S fuel)) with (k + 1 + Z.of_nat fuel) by lia.
  destruct (port_present k) eqn:Ek.
  - apply dwp_bind. eapply dwp_mono; [apply Hb; [done|done|by apply Hv]| |done]. intros [] s2 Hi2.
    rewrite <- Es in Hi2. rewrite wrapu_small by lia.
    assert (length (ports_below (k + 1)) = S (length (ports_below k))) as El.
    { rewrite Es, length_app. cbn. lia. }
    replace (Z.of_nat (length (ports_below k)) + 1) with (Z.of_nat (length (ports_below (k + 1)))) by lia.
    destruct (Z.leb_spec nb (Z.of_nat (length (ports_below (k + 1))))) as [Hle|Hlt].
    + apply dwp_ret. destruct (ports_below_prefix (k + 1) (k + 1 + Z.of_nat fuel)) as [rest ->]; [lia|].
      rewrite take_app_le, take_ge by lia. done.
    + apply IH; [lia..|done].
  - rewrite app_nil_r in Es. rewrite <- Es. apply IH; rewrite ?Es; [lia..|by apply Hv].
Qed.

Lemma wp_for_ports body nb (I : list Z -> dpdk -> Prop) E s :
  (forall ps s, I ps s -> no_close s) ->
  (forall ps p s, I ps s -> I ps (called (IsValidPort p) s)) ->
  (forall p s, port_present p = true -> let ps := ports_below p in
     Z.of_nat (length ps) < Z.max 1 nb -> I ps s -> wp (body p) (fun _ s' => I (ps ++ [p]) s') E s) ->
  I [] s ->
  wp (for_ports nb body)
    (fun _ s' => I (take (Z.to_nat (Z.max 1 nb)) (ports_below RTE_MAX_ETHPORTS)) s') E s.
Proof.
  intros Hno Hv Hb Hi. pose proof max_ports as Hm. unfold for_ports.
  pose proof (wp_port_loop body nb I E (Z.to_nat RTE_MAX_ETHPORTS) 0 s Hno Hv Hb) as H.
  rewrite Z2Nat.id, Z.add_0_l in H by lia.
  apply H; [lia|lia|change (length (ports_below 0)) with 0%nat; lia|done].
Qed.

(** The loop that closes ports, from the highest down. *)
Lemma wp_fini_loop nb k n s :
  (forall p r, p < Z.of_nat k -> (DevClose p, r) ∉ d_calls s) -> 0 <= n -> n + Z.of_nat k < 2 ^ 16 ->
  wp (fini_loop nb k n)
    (fun _ s' => d_config s' = d_config s /\ live (d_calls s') = live (d_calls s) ∖
       list_to_set (Port <$> take (Z.to_nat (Z.max 1 (nb - n))) (reverse (ports_below (Z.of_nat k)))))
    (fun _ _ => False) s.
Proof.
  revert n s. induction k as [|k IH]; intros n s Hc Hn Hk; cbn [fini_loop].
  { apply dwp_ret. split; [done|]. change (reverse (ports_below (Z.of_nat 0))) with (@nil Z).
    rewrite take_nil. set_solver. }
  apply dwp_bind, wp_is_valid; [intros r; apply Hc; lia|].
  replace (Z.of_nat (S k)) with (Z.of_nat k + 1) in * by lia. rewrite ports_below_succ by lia.
  set (s1 := called _ s). assert (live (d_calls s1) = live (d_calls s)) as L1 by by apply live_neutral.
  assert (forall p r, p < Z.of_nat k -> (DevClose p, r) ∉ d_calls s1) as Hc1.
  { intros p r Hp [Hin | [=]%list_elem_of_singleton]%elem_of_app. apply (Hc p r); [lia|done]. }
  destruct (port_present (Z.of_nat k)).
  - apply dwp_bind, wp_call. set (s2 := called _ s1). apply dwp_bind, wp_call. set (s3 := called _ s2).
    assert (live (d_calls s3) = live (d_calls s) ∖ {[Port (Z.of_nat k)]}) as L3.
    { unfold s3. cbn [called d_calls]. rewrite live_snoc. cbn [acquires releases].
      unfold s2. cbn [called d_calls]. rewrite live_neutral by done. rewrite L1. set_solver. }
    assert (forall p r, p < Z.of_nat k -> (DevClose p, r) ∉ d_calls s3) as Hc3.
    { intros p r Hp [Hin | [= ->]%list_elem_of_singleton]%elem_of_app; [|lia].
      apply elem_of_app in Hin as [Hin | [=]%list_elem_of_singleton]. by apply (Hc1 p r). }
    rewrite reverse_app, wrapu_small by lia. change (reverse [Z.of_nat k]) with [Z.of_nat k]. cbn [app].
    destruct (Z.leb_spec nb (n + 1)) as [Hle|Hlt].
    + apply dwp_ret. split; [done|]. replace (Z.to_nat (Z.max 1 (nb - n))) with 1%nat by lia.
      rewrite L3. cbn [take]. rewrite take_0. cbn. set_solver.
    + eapply dwp_mono; [apply IH; [done|lia|lia]| |done]. intros [] s' [E' L']. split; [done|].
      rewrite L', L3. replace (Z.to_nat (Z.max 1 (nb - n))) with (S (Z.to_nat (Z.max 1 (nb - (n + 1))))) by lia.
      cbn [take fmap list_fmap list_to_set]. set_solver.
  - rewrite app_nil_r. eapply dwp_mono; [apply IH; [done|lia|lia]| |done].
    intros [] s' [E' L']. split; [done|]. by rewrite L', L1.
Qed.
End Ports.

(** ** Set-up and release *)

Section Release.
Context {L : DpdkLib} `{!DpdkLaws L}.

Lemma neutral_no_close p : ~ neutral (DevClose p).
Proof. intros []. Qed.

Lemma wp_drive c (Q : unit -> dpdk -> Prop) (E : doca_error_t -> dpdk -> Prop) s :
  (0 <= rte (d_calls s) c -> Q tt (called c s)) ->
  (rte (d_calls s) c < 0 -> E DOCA_ERROR_DRIVER (called c s)) -> wp (drive c) Q E s.
Proof.
  intros HQ HE. unfold drive. apply dwp_bind, wp_call, wp_check.
  - intros Hb%negb_true_iff%Z.ltb_ge. auto.
  - intros Hb%negb_false_iff%Z.ltb_lt. auto.
Qed.

(** What a set-up step leaves: the resources, the configuration, and no closed port. *)
Definition leaves (l : gset resource) (c : application_dpdk_config) (s : dpdk) : Prop :=
  live (d_calls s) = l /\ d_config s = c /\ no_close s.

Lemma leaves_added l c s s' : added neutral s s' -> leaves l c s -> leaves l c s'.
Proof.
  intros Ha (El & Ec & Hn). split; [by rewrite (live_added _ _ Ha)|].
  split; [by destruct Ha as (? & _ & _ & ->)|]. by eapply no_close_added; [apply neutral_no_close|..].
Qed.

Lemma leaves_called c0 l c s : neutral c0 -> leaves l c s -> leaves l c (called c0 s).
Proof. intros Hc. apply leaves_added. by apply added_called. Qed.

Lemma wp_leaves {A} (m : M A) l c s :
  makes neutral m -> leaves l c s ->
  wp m (fun _ s' => leaves l c s') (fun _ s' => leaves l c s') s.
Proof. intros Hm Hs. eapply dwp_mono; [apply Hm|..]; intros ? s' Ha; exact (leaves_added l c s s' Ha Hs). Qed.

Lemma wp_port_init pool port l c s :
  hairpins_ok (port_config c) -> leaves l c s ->
  wp (port_init pool port) (fun _ s' => leaves (l ∪ {[Port port]}) c s') (fun _ s' => leaves l c s') s.
Proof.
  intros Hok Hs. pose proof Hs as (El & Ec & Hn). unfold port_init. apply dwp_bind.
  unfold get_config, wp at 1. rewrite Ec. apply dwp_bind.
  eapply dwp_mono; [apply (wp_leaves _ l c); [by apply makes_port_configure|done]| |done].
  intros [] s1 L1. apply dwp_bind, wp_drive; intros Hr.
  - set (s2 := called _ s1). assert (leaves (l ∪ {[Port port]}) c s2) as L2.
    { destruct L1 as (El1 & Ec1 & Hn1). split; [|split; [done|by apply no_close_called]].
      unfold s2. cbn [called d_calls]. rewrite live_snoc. cbn [acquires releases].
      rewrite (proj2 (Z.ltb_ge _ _) Hr), El1. set_solver. }
    apply dwp_bind, wp_call. apply dwp_bind, wp_call.
    destruct (0 <? _); [|apply dwp_ret; by do 2 (apply leaves_called; [done|])].
    apply dwp_bind, wp_call, dwp_bind, wp_call, dwp_ret. by do 4 (apply leaves_called; [done|]).
  - destruct L1 as (El1 & Ec1 & Hn1). split; [|split; [done|by apply no_close_called]].
    cbn [called d_calls]. rewrite live_snoc. cbn [acquires releases].
    rewrite (proj2 (Z.ltb_lt _ _) Hr), El1. set_solver.
Qed.

Lemma wp_ports_fini n l c s :
  0 <= n < 2 ^ 16 - 1 -> leaves l c s ->
  wp (dpdk_ports_fini n)
    (fun _ s' => d_config s' = c /\ live (d_calls s') =
       (l ∖ list_to_set (Port <$> take (Z.to_nat (Z.max 1 (nb_ports (port_config c))))
                                    (reverse (ports_below (n + 1)))))
         ∖ (if truthy (mbuf_pool c) then {[Pool (mbuf_pool c)]} else ∅)) (fun _ _ => False) s.
Proof.
  intros Hn (El & Ec & Hc). unfold dpdk_ports_fini. apply dwp_bind. unfold get_config, wp at 1.
  rewrite Ec, wrapu_small by lia. apply dwp_bind.
  eapply dwp_mono; [apply wp_fini_loop; [intros p r _; apply Hc|lia|lia]| |done].
  intros [] s1 [Ec1 El1]. rewrite Z2Nat.id, Z.sub_0_r, El in El1 by lia.
  destruct (truthy (mbuf_pool c)).
  - apply dwp_bind, wp_call, dwp_ret. split; [cbn; congruence|]. cbn [called d_calls].
    rewrite live_snoc, El1. cbn [acquires releases]. set_solver.
  - apply dwp_ret. split; [congruence|]. rewrite El1. set_solver.
Qed.

(** Nothing is left when every port that may be open is closed. *)
Lemma wp_ports_fini_all n ps l c s :
  0 <= n < 2 ^ 16 - 1 -> (forall p, p ∈ ps -> p <= n /\ port_present p = true) ->
  Z.of_nat (length (ports_below (n + 1))) <= Z.max 1 (nb_ports (port_config c)) ->
  mbuf_pool c <> 0 -> leaves (l ∪ ({[Pool (mbuf_pool c)]} ∪ list_to_set (Port <$> ps))) c s ->
  wp (dpdk_ports_fini n)
    (fun _ s' => d_config s' = c /\ forall x, x ∈ live (d_calls s') -> x ∈ l) (fun _ _ => False) s.
Proof.
  intros Hn Hps Hlen Hp Hs. eapply dwp_mono; [by apply wp_ports_fini| |done].
  intros [] s' [Ec El]. split; [done|]. intros x. rewrite El, take_ge by (rewrite length_reverse; lia).
  assert (truthy (mbuf_pool c) = true) as -> by (by apply negb_true_iff, Z.eqb_neq).
  intros [[Hx Hnp]%elem_of_difference Hnq]%elem_of_difference.
  apply elem_of_union in Hx as [Hx|[Hx|Hx]%elem_of_union]; [done|done|]. exfalso. apply Hnp.
  rewrite elem_of_list_to_set, list_elem_of_fmap in Hx |- *. destruct Hx as (p & -> & Hin).
  exists p. split; [done|]. destruct (Hps p Hin) as [Hpn Hpp].
  rewrite elem_of_reverse, elem_of_ports_below. split; [done|lia].
Qed.

(** The pool and the ports that are running. *)
Definition running (pool : Z) (ps : list Z) : gset resource :=
  {[Pool pool]} ∪ list_to_set (Port <$> ps).

Lemma leaves_eq l l' c s : l = l' -> leaves l c s -> leaves l' c s.
Proof. by intros ->. Qed.

Lemma running_snoc l pool ps p : l ∪ running pool ps ∪ {[Port p]} = l ∪ running pool (ps ++ [p]).
Proof. unfold running. rewrite fmap_app. cbn. set_solver. Qed.

(** What a failure of [dpdk_ports_init] leaves: nothing, or the pool when the metadata could
    not be registered. *)
Definition ports_failed (s : dpdk) : Prop :=
  live (d_calls s) = ∅ \/ exists pool r, r < 0 /\ (MetadataRegister, r) ∈ d_calls s /\
    live (d_calls s) = {[Pool pool]}.

Lemma wp_allocate_mempool n c s :
  leaves ∅ c s ->
  wp (allocate_mempool n)
    (fun _ s' => exists pool, pool <> 0 /\ leaves (∅ ∪ running pool []) (with_pool pool c) s')
    (fun _ s' => ports_failed s') s.
Proof.
  intros Hs. unfold allocate_mempool. apply dwp_bind, wp_call.
  apply (leaves_called SocketId _ _ _ I) in Hs as (El & Ec & Hn). revert El Ec Hn.
  generalize (called SocketId s). clear s. intros s El Ec Hn.
  apply dwp_bind, wp_call. set (s1 := called _ s).
  set (pool := rte _ _). apply dwp_bind. unfold get_config at 1, wp at 1. apply dwp_bind.
  unfold put_config, wp at 1. change (d_config s1) with (d_config s). rewrite Ec.
  assert (live (d_calls s1) = if truthy pool then {[Pool pool]} else ∅) as E1.
  { unfold s1. cbn [called d_calls]. rewrite live_snoc. cbn [acquires releases]. fold pool.
    rewrite El. destruct (truthy pool); set_solver. }
  apply wp_check; intros Hp; rewrite Hp in E1; [|by left].
  exists pool. split; [by apply Z.eqb_neq, negb_true_iff|]. split; [|split; [done|by apply (no_close_called _ s)]].
  cbn [d_calls]. rewrite E1. unfold running. cbn. set_solver.
Qed.

(** One turn of the loop of [dpdk_ports_init]. *)
Lemma wp_init_port pool c p s :
  pool <> 0 -> hairpins_ok (port_config c) -> port_present p = true ->
  Z.of_nat (length (ports_below p)) < Z.max 1 (nb_ports (port_config c)) ->
  leaves (∅ ∪ running pool (ports_below p)) (with_pool pool c) s ->
  wp (c ← get_config;
      result ← attempt (port_init (mbuf_pool c) (u8 p));
      match result with inl _ => mret tt | inr e => _ ← dpdk_ports_fini p; fail e end)
    (fun _ s' => leaves (∅ ∪ running pool (ports_below p ++ [p])) (with_pool pool c) s')
    (fun _ s' => ports_failed s') s.
Proof.
  intros Hp Hok Hpp Hlen Hs. pose proof Hs as (_ & Ec & _). apply dwp_bind.
  unfold get_config at 1, wp at 1. rewrite Ec. pose proof (present_range p Hpp) as Hpr. pose proof max_ports.
  rewrite (wrapu_small 8) by lia. apply dwp_bind, wp_attempt.
  eapply dwp_mono; [by apply (wp_port_init _ _ _ (with_pool pool c) _ Hok Hs)| |].
  - intros [] s' L'. apply dwp_ret. by rewrite running_snoc in L'.
  - intros e s' L'. apply dwp_bind.
    eapply dwp_mono; [apply (wp_ports_fini_all p (ports_below p) ∅ (with_pool pool c))| |done].
    + lia.
    + intros q [? ?]%elem_of_ports_below. split; [lia|done].
    + rewrite ports_below_succ, Hpp, length_app by lia. cbn in *. lia.
    + done.
    + done.
    + intros [] s6 [_ Hl6]. unfold wp, fail. left. apply set_eq. intros x.
      split; [intros Hx; by apply Hl6|set_solver].
Qed.

Lemma wp_ports_init c s :
  hairpins_ok (port_config c) -> 0 < nb_ports (port_config c) < 2 ^ 16 -> leaves ∅ c s ->
  wp dpdk_ports_init
    (fun _ s' => exists pool, pool <> 0 /\
       leaves (∅ ∪ running pool (take (Z.to_nat (nb_ports (port_config c))) (ports_below RTE_MAX_ETHPORTS)))
         (with_pool pool c) s')
    (fun _ s' => ports_failed s') s.
Proof.
  intros Hok Hnb Hs. pose proof Hs as (El & Ec & Hn). unfold dpdk_ports_init. apply dwp_bind.
  unfold get_config at 1, wp at 1. rewrite Ec. rewrite (wrapu_small 16) by lia.
  apply dwp_bind. eapply dwp_mono; [by apply wp_allocate_mempool| |done]. intros [] s1 (pool & Hp & L1).
  apply dwp_bind. eapply (dwp_mono _ (fun _ s2 => leaves (∅ ∪ running pool []) (with_pool pool c) s2) _
    (fun _ s2 => ports_failed s2)); [|intros [] s2 L2|done].
  { destruct (_ || _); [|by apply dwp_ret]. apply wp_drive; intros Hr; [by apply leaves_called|].
    right. exists pool, (rte (d_calls s1) MetadataRegister). split; [done|]. cbn [called d_calls].
    split; [apply elem_of_app; right; by apply elem_of_cons; left|].
    rewrite live_neutral by done. destruct L1 as (-> & _). unfold running. cbn. set_solver. }
  eapply dwp_mono; [apply (wp_for_ports _ _
    (fun ps s' => leaves (∅ ∪ running pool ps) (with_pool pool c) s') (fun _ s' => ports_failed s'))|..].
  - by intros ps s' (_ & _ & ?).
  - intros ps p s' L'. by apply leaves_called.
  - intros p s3 Hpp ps Hlen L3. by apply wp_init_port.
  - done.
  - intros [] s3 L3. exists pool. split; [done|]. by rewrite Z.max_r in L3 by lia.
  - done.
Qed.

Lemma wp_sft_init l c s :
  Sft ∉ l -> leaves l c s ->
  wp dpdk_sft_init (fun _ s' => leaves (l ∪ {[Sft]}) c s' /\ exists u, rules_inv u s')
    (fun _ s' => leaves l c s' \/ leaves (l ∪ {[Sft]}) c s') s.
Proof.
  intros Hl Hs. pose proof Hs as (El & Ec & Hn). unfold dpdk_sft_init. apply dwp_bind.
  unfold get_config at 1, wp at 1. rewrite Ec. apply dwp_bind, wp_drive; intros Hr.
  2: { left. split; [|split; [done|by apply no_close_called]]. cbn [called d_calls]. rewrite live_snoc.
       cbn [acquires releases]. rewrite (proj2 (Z.ltb_lt _ _) Hr), El. set_solver. }
  set (s1 := called _ s). assert (leaves (l ∪ {[Sft]}) c s1) as L1.
  { split; [|split; [done|by apply no_close_called]]. unfold s1. cbn [called d_calls]. rewrite live_snoc.
    cbn [acquires releases]. rewrite (proj2 (Z.ltb_ge _ _) Hr), El. set_solver. }
  apply dwp_bind. unfold history, wp at 1. apply dwp_bind, wp_call. set (s2 := called _ s1).
  assert (leaves (l ∪ {[Sft]}) c s2) as L2 by by apply leaves_called.
  destruct (_ <? 0).
  - apply dwp_bind, wp_call. left. pose proof L2 as (El2 & Ec2 & Hn2).
    split; [|split; [done|by apply no_close_called]]. cbn [called d_calls]. rewrite live_snoc.
    cbn [acquires releases]. rewrite El2. set_solver.
  - destruct (rss_conf_of (d_calls s1) 0) as [hf key].
    eapply dwp_mono; [apply (wp_create_rules _ c _ _ s2 eq_refl)| |].
    + intros [] s3 (Hi & Ha & _). split; [exact (leaves_added _ _ _ _ Ha L2)|by eexists].
    + intros e s3 Ha. right. exact (leaves_added _ _ _ _ Ha L2).
Qed.

Lemma wp_count_queues l c s :
  leaves l c s ->
  wp dpdk_count_queues (fun _ s' => exists n, leaves l (with_queues n c) s') (fun _ s' => leaves l c s') s.
Proof.
  intros Hs. pose proof Hs as (_ & Ec & _). unfold dpdk_count_queues. apply dwp_bind.
  unfold get_config at 1, wp at 1. rewrite Ec. apply dwp_bind, wp_call.
  assert (leaves l c (called CountAvail s)) as L1 by by apply leaves_called.
  apply dwp_bind, wp_check; intros _; [|done]. apply dwp_bind, wp_call.
  assert (leaves l c (called LcoreCount (called CountAvail s))) as L2 by by apply leaves_called.
  apply dwp_bind, wp_check; intros _; [|done]. destruct L2 as (E2 & C2 & N2). by eexists.
Qed.

Lemma ports_below_max : ports_below (RTE_MAX_ETHPORTS + 1) = ports_below RTE_MAX_ETHPORTS.
Proof.
  pose proof max_ports. rewrite ports_below_succ by lia.
  destruct (port_present RTE_MAX_ETHPORTS) eqn:E; [|by rewrite app_nil_r].
  apply present_range in E. lia.
Qed.

(** Closing everything after the ports were started. *)
Lemma wp_release_all l c pool s :
  Z.of_nat (length (ports_below RTE_MAX_ETHPORTS)) <= nb_ports (port_config c) ->
  pool <> 0 -> leaves (l ∪ running pool (ports_below RTE_MAX_ETHPORTS)) (with_pool pool c) s ->
  wp (dpdk_ports_fini RTE_MAX_ETHPORTS)
    (fun _ s' => forall x, x ∈ live (d_calls s') -> x ∈ l) (fun _ _ => False) s.
Proof.
  intros Hlen Hp Hs. pose proof max_ports.
  eapply dwp_mono; [apply (wp_ports_fini_all _ (ports_below RTE_MAX_ETHPORTS) l (with_pool pool c))| |done].
  - lia.
  - intros p [? ?]%elem_of_ports_below. split; [lia|done].
  - rewrite ports_below_max. cbn. lia.
  - done.
  - done.
  - intros [] s' [_ Hl]. done.
Qed.

(** A step whose failure leads to a clean-up. *)
Lemma wp_or_cleanup (m cleanup : M unit) (Q : unit -> dpdk -> Prop) (E E1 : doca_error_t -> dpdk -> Prop) s :
  wp m Q E1 s -> (forall e s', E1 e s' -> wp cleanup (fun _ s2 => E e s2) E s') -> wp (or_cleanup m cleanup) Q E s.
Proof.
  intros Hm Hc. unfold or_cleanup. apply dwp_bind, wp_attempt.
  eapply dwp_mono; [exact Hm|intros [] s' HQ; by apply dwp_ret|]. intros e s' HE. apply dwp_bind.
  eapply dwp_mono; [by apply Hc|done|done].
Qed.

(** What is held after a successful set-up. *)
Definition set_up (c : application_dpdk_config) (s : dpdk) : Prop :=
  exists pool n, pool <> 0 /\
    leaves ((if sft_enable (sft_config c) then {[Sft]} else ∅) ∪ running pool (ports_below RTE_MAX_ETHPORTS))
      (with_pool pool (with_queues n c)) s /\
    (sft_enable (sft_config c) = true -> exists u, rules_inv u s).
Definition set_up_failed (c : application_dpdk_config) (s : dpdk) : Prop :=
  live (d_calls s) ⊆ (if sft_enable (sft_config c) then {[Sft]} else ∅) \/
  exists pool r, r < 0 /\ (MetadataRegister, r) ∈ d_calls s /\ live (d_calls s) = {[Pool pool]}.

Lemma wp_queues_and_ports_init c s :
  hairpins_ok (port_config c) -> 0 < nb_ports (port_config c) < 2 ^ 16 ->
  Z.of_nat (length (ports_below RTE_MAX_ETHPORTS)) <= nb_ports (port_config c) -> leaves ∅ c s ->
  wp dpdk_queues_and_ports_init (fun _ s' => set_up c s') (fun _ s' => set_up_failed c s') s.
Proof.
  intros Hok Hnb Hlen Hs. unfold dpdk_queues_and_ports_init. apply dwp_bind.
  eapply dwp_mono; [by apply wp_count_queues| |intros e s' (E0 & _); left; rewrite E0; set_solver].
  intros [] s1 [n L1]. pose proof L1 as (_ & Ec1 & _). apply dwp_bind. unfold get_config at 1, wp at 1.
  rewrite Ec1. set (c1 := with_queues n c) in *. change (sft_config c1) with (sft_config c).
  change (nb_ports (port_config c1)) with (nb_ports (port_config c)).
  rewrite (proj2 (Z.ltb_lt 0 (nb_ports (port_config c)))) by lia. apply dwp_bind.
  eapply dwp_mono; [by apply (wp_ports_init c1)| |].
  2: { intros e s' [E|E]; [left; rewrite E; set_solver|by right]. }
  intros [] s2 (pool & Hp & L2).
  assert (Z.of_nat (length (ports_below RTE_MAX_ETHPORTS)) <= nb_ports (port_config c1)) as Hlen1 by exact Hlen.
  rewrite take_ge in L2 by lia. set (P := ports_below RTE_MAX_ETHPORTS) in *.
  assert (forall l s', leaves (l ∪ running pool P) (with_pool pool c1) s' ->
    l ⊆ (if sft_enable (sft_config c) then {[Sft]} else ∅) ->
    wp (dpdk_ports_fini RTE_MAX_ETHPORTS) (fun _ s2 => set_up_failed c s2) (fun _ s2 => set_up_failed c s2) s') as Hfini.
  { intros l s' L' Hsub. eapply dwp_mono; [by apply (wp_release_all l c1 pool)| |done].
    intros [] s3 Hl. left. intros x Hx. by apply Hsub, Hl. }
  apply dwp_bind. eapply (dwp_mono _ (fun _ s3 => leaves (∅ ∪ running pool P) (with_pool pool c1) s3) _
    (fun _ s3 => set_up_failed c s3)); [|intros [] s3 L3|done].
  { destruct (_ <? _); [|by apply dwp_ret]. eapply wp_or_cleanup;
      [apply (wp_leaves _ _ _ _ (makes_enable_hairpin _) L2)|].
    intros e s3 L3. apply (Hfini ∅); [done|set_solver]. }
  destruct (sft_enable (sft_config c)) eqn:Es.
  2: { apply dwp_ret. exists pool, n. rewrite Es. done. }
  assert (Sft ∉ ∅ ∪ running pool P) as Hsft by (unfold running; set_solver).
  eapply wp_or_cleanup.
  - eapply dwp_mono; [apply (wp_sft_init _ _ _ Hsft L3)| |intros e s4 L4; exact L4].
    intros [] s4 [L4 Hi]. exists pool, n. rewrite Es. split; [done|]. split; [|done].
    revert L4. apply leaves_eq. set_solver.
  - intros e s4 L4. apply dwp_bind.
    assert (exists l, l ⊆ {[Sft]} /\ leaves (l ∪ running pool P) (with_pool pool c1) s4) as (l & Hsub & Hl).
    { destruct L4 as [L4|L4]; [by exists ∅; split; [set_solver|]|]. exists {[Sft]}. split; [done|].
      revert L4. apply leaves_eq. set_solver. }
    eapply dwp_mono; [apply wp_disable_hairpin| |done].
    intros [] s5 A5. apply (Hfini l); [exact (leaves_added _ _ _ _ A5 Hl)|exact Hsub].
Qed.

(** C14.  Set-up of ports and queues, with every outcome of every library call, on a machine
    that has no more ports than are asked for (1 to 65535), when the number of
    self-hairpin queues asked for is even, as the code asserts: success leaves the pool, all ports
    started, and the flow table if it is enabled; and after a failure at any step no port
    is open and the pool is freed, but for two cases: the pool is left when it was the
    metadata that could not be registered, and the flow table may be left when it was
    initialised. *)
Theorem dpdk_set_up s :
  d_calls s = [] -> hairpins_ok (port_config (d_config s)) ->
  0 < nb_ports (port_config (d_config s)) < 2 ^ 16 ->
  Z.of_nat (length (ports_below RTE_MAX_ETHPORTS)) <= nb_ports (port_config (d_config s)) ->
  let sft := if sft_enable (sft_config (d_config s)) then {[Sft]} else ∅ in
  match dpdk_queues_and_ports_init s with
  | (Done _, s') =>
      live (d_calls s') = sft ∪ {[Pool (mbuf_pool (d_config s'))]} ∪
        list_to_set (Port <$> ports_below RTE_MAX_ETHPORTS)
  | (Failed _, s') =>
      live (d_calls s') ⊆ sft \/
      exists pool r, r < 0 /\ (MetadataRegister, r) ∈ d_calls s' /\ live (d_calls s') = {[Pool pool]}
  | (Aborted, _) => False
  end.
Proof.
  intros Hs Hok Hnb Hlen sft. assert (leaves ∅ (d_config s) s) as L0.
  { split; [by rewrite Hs|]. split; [done|]. intros p r. rewrite Hs. apply not_elem_of_nil. }
  pose proof (wp_queues_and_ports_init _ s Hok Hnb Hlen L0) as W. unfold wp in W.
  destruct (dpdk_queues_and_ports_init s) as [[u|e|] s']; [|exact W|exact W].
  destruct W as (pool & n & _ & (El & Ec & _) & _). rewrite El, Ec. unfold running. subst sft. set_solver.
Qed.

(** C11.  Release after set-up: on a machine with no more ports than are asked for, nothing is
    left of what a successful set-up acquired. *)
Theorem dpdk_release s s1 :
  d_calls s = [] -> hairpins_ok (port_config (d_config s)) ->
  0 < nb_ports (port_config (d_config s)) < 2 ^ 16 ->
  Z.of_nat (length (ports_below RTE_MAX_ETHPORTS)) <= nb_ports (port_config (d_config s)) ->
  dpdk_queues_and_ports_init s = (Done tt, s1) ->
  exists s2, dpdk_queues_and_ports_fini s1 = (Done tt, s2) /\ live (d_calls s2) = ∅.
Proof.
  intros Hs Hok Hnb Hlen Ei. assert (leaves ∅ (d_config s) s) as L0.
  { split; [by rewrite Hs|]. split; [done|]. intros p r. rewrite Hs. apply not_elem_of_nil. }
  pose proof (wp_queues_and_ports_init _ s Hok Hnb Hlen L0) as W. unfold wp in W. rewrite Ei in W.
  destruct W as (pool & n & Hp & L1 & Hi). set (c := with_queues n (d_config s)) in *.
  assert (wp dpdk_queues_and_ports_fini (fun _ s2 => live (d_calls s2) = ∅) (fun _ _ => False) s1) as W.
  2: { unfold wp in W. destruct (dpdk_queues_and_ports_fini s1) as [[[]|e|] s2]; [|done|done]. by exists s2. }
  unfold dpdk_queues_and_ports_fini. apply dwp_bind. unfold get_config, wp at 1.
  rewrite (proj1 (proj2 L1)). change (sft_config (with_pool pool c)) with (sft_config (d_config s)).
  apply dwp_bind. eapply (dwp_mono _ (fun _ s2 => leaves (∅ ∪ running pool (ports_below RTE_MAX_ETHPORTS))
    (with_pool pool c) s2) _ (fun _ _ => False)); [|intros [] s2 L2|done].
  { destruct (sft_enable (sft_config (d_config s))); [|by apply dwp_ret]. destruct (Hi eq_refl) as [u Hu].
    apply dwp_bind. eapply dwp_mono; [apply (wp_print_counter u s1 Hu)| |done].
    intros t s2 Hc%counted_added. apply (leaves_added _ _ _ _ Hc) in L1.
    apply dwp_bind, wp_call, dwp_ret. destruct L1 as (E1 & C1 & N1).
    split; [|split; [done|by apply no_close_called]]. cbn [called d_calls]. rewrite live_snoc, E1.
    cbn [acquires releases]. unfold running. set_solver. }
  apply dwp_bind. eapply dwp_mono; [apply wp_disable_hairpin| |done]. intros [] s3 A3.
  eapply dwp_mono; [apply (wp_release_all ∅ c pool); [done|done|exact (leaves_added _ _ _ _ A3 L2)]| |done].
  intros [] s4 Hl. apply set_eq. intros x. split; [by intros Hx%Hl|set_solver].
Qed.
End Release.

(** ** Two ports, and three *)

Lemma dpdk_set_up_witness :
  let s := MkDpdk [] sample_config zero_rules in
  match dpdk_queues_and_ports_init s with
  | (Done _, s') =>
      live (d_calls s') = {[Sft]} ∪ {[Pool (mbuf_pool (d_config s'))]} ∪
        list_to_set (Port <$> ports_below RTE_MAX_ETHPORTS)
  | (Failed _, s') =>
      live (d_calls s') ⊆ {[Sft]} \/
      exists pool r, r < 0 /\ (MetadataRegister, r) ∈ d_calls s' /\ live (d_calls s') = {[Pool pool]}
  | (Aborted, _) => False
  end.
Proof.
  apply (dpdk_set_up (L := ref_dpdk) (MkDpdk [] sample_config zero_rules)).
  - reflexivity.
  - intros H. discriminate H.
  - cbn. lia.
  - vm_compute. discriminate.
Defined.

Lemma dpdk_release_witness :
  exists s2, dpdk_queues_and_ports_fini (dpdk_queues_and_ports_init (MkDpdk [] sample_config zero_rules)).2
    = (Done tt, s2) /\ live (d_calls s2) = ∅.
Proof.
  apply (dpdk_release (L := ref_dpdk) (MkDpdk [] sample_config zero_rules)).
  - reflexivity.
  - intros H. discriminate H.
  - cbn. lia.
  - vm_compute. discriminate.
  - vm_compute. reflexivity.
Defined.

(** With more ports than are asked for, the release counts its ports from the other end:
    of three ports, 0 and 1 are started, 2 and 1 are closed, and port 0 keeps running. *)
Lemma dpdk_release_other_ports :
  let L := ref_ports 3 in
  let s1 := (dpdk_queues_and_ports_init (MkDpdk [] sample_config zero_rules)).2 in
  let s2 := (dpdk_queues_and_ports_fini s1).2 in
  live (d_calls s2) = {[Port 0]} /\
  existsb (fun '(c, _) => match c with DevClose p => p =? 2 | _ => false end) (d_calls s2) = true /\
  existsb (fun '(c, _) => match c with DevStart p => p =? 2 | _ => false end) (d_calls s2) = false.
Proof.
  cbv zeta. split; [|vm_compute; done].
  match goal with |- ?P => assert (bool_decide P = true) as H by (vm_compute; reflexivity) end.
  by apply bool_decide_eq_true_1 in H.
Qed.
