(* ===== verification/MempoolShadow.v ===== *)
(** * MempoolShadow: DOCA memory maps over the chunks of a memory pool

    Translation of the second half of [utils/dpdk/dpdk_utils.c]: a shadow holds a memory map
    per chunk of a pool (or of external memory), and finds the buffer of a range in it. *)

From S2P Require Import Prelude FlexioDev Dpdk OffloadRules DpdkUtils.

Section Shadow.
Context {L : DpdkLib}.

(** [nb_mmaps] elements of [mmap_arr] are set. *)
Record dpdk_mempool_shadow := MkShadow {
  sh_self : Z; sh_device : Z; sh_mmap_arr : Z; sh_mmaps : list Z;
}.

(** One memory map over a chunk; it is destroyed again when a step fails. *)
Definition mmap_step (m : Z) (c : rte_call) : M unit :=
  or_cleanup (doca c) (_ ← call (MmapDestroy m); mret tt).
Definition dpdk_ext_chunk_to_mmap (device chunk len : Z) : M Z :=
  h ← history;
  _ ← doca MmapCreate;
  let new_mmap := created_mmap h in
  _ ← mmap_step new_mmap (MmapSetMemrange new_mmap chunk len);
  _ ← mmap_step new_mmap (MmapAddDev new_mmap device);
  _ ← mmap_step new_mmap (MmapStart new_mmap);
  mret new_mmap.

(** The same as a callback: an error is only printed. *)
Definition dpdk_chunk_to_mmap_cb (device : Z) (memhdr : Z * Z) (mmaps : list Z) : M (list Z) :=
  result ← attempt (dpdk_ext_chunk_to_mmap device memhdr.1 memhdr.2);
  mret (match result with inl m => mmaps ++ [m] | inr _ => mmaps end).

(** [rte_mempool_mem_iter] calls it for every chunk. *)
Fixpoint mem_iter (device : Z) (chunks : list (Z * Z)) (mmaps : list Z) : M (list Z) :=
  match chunks with
  | [] => mret mmaps
  | memhdr :: chunks =>
      mmaps ← dpdk_chunk_to_mmap_cb device memhdr mmaps;
      mem_iter device chunks mmaps
  end.

Definition dpdk_mempool_shadow_destroy (sh : dpdk_mempool_shadow) : M unit :=
  _ ← (if truthy (sh_mmap_arr sh) then
         _ ← for_each (sh_mmaps sh) (fun m => _ ← call (MmapDestroy m); mret tt);
         _ ← call (RteFree (sh_mmap_arr sh)); mret tt
       else mret tt);
  _ ← call (RteFree (sh_self sh)); mret tt.

Definition dpdk_mempool_shadow_create (mbuf_pool device : Z) : M (option dpdk_mempool_shadow) :=
  let chunks := pool_chunks mbuf_pool in
  self ← call (Zmalloc 24);
  if self =? 0 then mret None
  else
    arr ← call (Zmalloc (u64 (8 * Z.of_nat (length chunks))));
    if arr =? 0 then _ ← dpdk_mempool_shadow_destroy (MkShadow self device 0 []); mret None
    else
      mmaps ← mem_iter device chunks [];
      let sh := MkShadow self device arr mmaps in
      if (length chunks =? length mmaps)%nat then mret (Some sh)
      else _ ← dpdk_mempool_shadow_destroy sh; mret None.

Fixpoint ext_iter (device : Z) (ext_mem : list (Z * Z)) (mmaps : list Z) : M (list Z * bool) :=
  match ext_mem with
  | [] => mret (mmaps, true)
  | chunk :: ext_mem =>
      result ← attempt (dpdk_ext_chunk_to_mmap device chunk.1 chunk.2);
      match result with
      | inl m => ext_iter device ext_mem (mmaps ++ [m])
      | inr _ => mret (mmaps, false)
      end
  end.

Definition dpdk_mempool_shadow_create_extbuf (ext_mem : list (Z * Z)) (device : Z)
    : M (option dpdk_mempool_shadow) :=
  self ← call (Zmalloc 24);
  if self =? 0 then mret None
  else
    arr ← call (Zmalloc (u64 (8 * Z.of_nat (length ext_mem))));
    if arr =? 0 then _ ← dpdk_mempool_shadow_destroy (MkShadow self device 0 []); mret None
    else
      '(mmaps, ok) ← ext_iter device ext_mem [];
      let sh := MkShadow self device arr mmaps in
      if (ok : bool) then mret (Some sh) else _ ← dpdk_mempool_shadow_destroy sh; mret None.

(** The range lies inside of a map. *)
Definition in_mmap (range : Z * Z) (mem_range_start mem_range_size : Z) : bool :=
  let '(mmap_begin, mmap_len) := range in
  (mmap_begin <=? mem_range_start) &&
  (mem_range_start <? (mmap_begin +64 mmap_len)%cint) &&
  (mem_range_size <=? ((mmap_begin +64 mmap_len) -64 mem_range_start)%cint).

Fixpoint find_buf (inventory mem_range_start mem_range_size : Z) (mmaps : list Z) : M Z :=
  match mmaps with
  | [] => fail DOCA_ERROR_NOT_FOUND
  | m :: mmaps =>
      h ← history;
      _ ← call (MmapGetMemrange m);
      if in_mmap (memrange_of h m) mem_range_start mem_range_size then
        h ← history;
        _ ← doca (BufGetByData inventory m mem_range_start mem_range_size);
        mret (data_buf h)
      else find_buf inventory mem_range_start mem_range_size mmaps
  end.
Definition dpdk_mempool_shadow_find_buf_by_data (sh : dpdk_mempool_shadow) (inventory start size : Z) : M Z :=
  find_buf inventory start size (sh_mmaps sh).
End Shadow.

(** ** One memory map *)

Section Maps.
Context {L : DpdkLib} `{!DpdkLaws L}.

(** The map is over the chunk, for the device, and started. *)
Definition mapped (device : Z) (tr : trace) (chunk : Z * Z) (m : Z) : Prop :=
  Forall (fun c => exists r, doca_error r = None /\ (c, r) ∈ tr)
    [MmapSetMemrange m chunk.1 chunk.2; MmapAddDev m device; MmapStart m].

(** The calls of [s'] continue those of [s]. *)
Definition extends (s s' : dpdk) : Prop := exists tr, d_calls s' = d_calls s ++ tr.

#[export] Instance extends_refl : Reflexive extends.
Proof. intros s. exists []. by rewrite app_nil_r. Qed.
#[export] Instance extends_trans : Transitive extends.
Proof. intros s1 s2 s3 [t1 E1] [t2 E2]. exists (t1 ++ t2). by rewrite E2, E1, app_assoc. Qed.

Lemma extends_called c s : extends s (called c s).
Proof. by eexists. Qed.

Lemma mapped_extends device s s' chunk m :
  extends s s' -> mapped device (d_calls s) chunk m -> mapped device (d_calls s') chunk m.
Proof.
  intros [tr ->] H. refine (list.Forall_impl _ _ _ H _). intros c (r & Hr & Hin). exists r. split; [done|].
  apply elem_of_app. by left.
Qed.

Lemma called_last c s : (c, rte (d_calls s) c) ∈ d_calls (called c s).
Proof. cbn. apply elem_of_app. right. by apply list_elem_of_singleton. Qed.

Lemma wp_doca c (Q : unit -> dpdk -> Prop) (E : doca_error_t -> dpdk -> Prop) s :
  (doca_error (rte (d_calls s) c) = None -> Q tt (called c s)) ->
  (forall e, doca_error (rte (d_calls s) c) = Some e -> E e (called c s)) -> wp (doca c) Q E s.
Proof.
  intros HQ HE. unfold doca. apply dwp_bind, wp_call.
  destruct (doca_error _) as [e|] eqn:Ed; [by apply HE|by apply HQ].
Qed.

(** A step on a map: done, or the map is gone. *)
Lemma wp_mmap_step {A} m c (k : M A) (base : gset resource) Q E s :
  neutral c -> Mmap m ∉ base -> live (d_calls s) = base ∪ {[Mmap m]} ->
  (forall s', extends s s' -> live (d_calls s') = base ∪ {[Mmap m]} ->
     (exists r, doca_error r = None /\ (c, r) ∈ d_calls s') -> wp k Q E s') ->
  (forall e s', extends s s' -> live (d_calls s') = base -> E e s') ->
  wp (_ ← mmap_step m c; k) Q E s.
Proof.
  intros Hc Hm El HQ HE. unfold mmap_step, or_cleanup. apply dwp_bind, dwp_bind, wp_attempt, wp_doca.
  - intros Hr. apply dwp_ret, HQ; [apply extends_called| |].
    + cbn [called d_calls]. by rewrite live_neutral.
    + eexists. split; [exact Hr|apply called_last].
  - intros e _. apply dwp_bind, dwp_bind, wp_call, dwp_ret. unfold wp, fail.
    apply HE; [trans (called c s); apply extends_called|]. cbn [called d_calls].
    rewrite live_snoc, live_neutral, El by done. cbn [acquires releases]. set_solver.
Qed.

Lemma wp_chunk_to_mmap device chunk len s :
  wp (dpdk_ext_chunk_to_mmap device chunk len)
    (fun m s' => extends s s' /\ Mmap m ∉ live (d_calls s) /\ mapped device (d_calls s') (chunk, len) m /\
       live (d_calls s') = live (d_calls s) ∪ {[Mmap m]})
    (fun _ s' => extends s s' /\ live (d_calls s') = live (d_calls s)) s.
Proof.
  unfold dpdk_ext_chunk_to_mmap. apply dwp_bind. unfold history, wp at 1.
  set (m := created_mmap (d_calls s)). apply dwp_bind, wp_doca.
  2: { intros e He. split; [apply extends_called|]. cbn [called d_calls]. rewrite live_snoc.
       cbn [acquires releases]. rewrite He. set_solver. }
  intros Hr. assert (acquires (d_calls s) MmapCreate (rte (d_calls s) MmapCreate) = {[Mmap m]}) as Ha
    by (cbn; by rewrite Hr).
  assert (Mmap m ∉ live (d_calls s)) as Hm
    by (apply (fresh_resource _ MmapCreate); [rewrite Ha; set_solver|done|done]).
  apply (wp_mmap_step _ _ _ (live (d_calls s))); [done|done| |intros s2 X2 E2 H2|].
  { cbn [called d_calls]. rewrite live_snoc, Ha. cbn. set_solver. }
  2: { intros e s' X E. split; [|done]. trans (called MmapCreate s); [apply extends_called|done]. }
  assert (extends s s2) as Y2 by (trans (called MmapCreate s); [apply extends_called|done]).
  apply (wp_mmap_step _ _ _ (live (d_calls s))); [done|done|done|intros s3 X3 E3 H3|].
  2: { intros e s' X E. split; [by trans s2|done]. }
  apply (wp_mmap_step _ _ _ (live (d_calls s))); [done|done|done|intros s4 X4 E4 H4|].
  2: { intros e s' X E. split; [trans s2; [done|by trans s3]|done]. }
  apply dwp_ret. split; [trans s2; [done|by trans s3]|]. split; [done|]. split; [|done].
  destruct X3 as [t3 Et3], X4 as [t4 Et4]. destruct H2 as (r2 & Hr2 & H2), H3 as (r3 & Hr3 & H3).
  unfold mapped. rewrite !list.Forall_cons. split; [exists r2|split; [exists r3|by split]];
    (split; [done|]); apply (elem_of_prefix (d_calls s3)); [|by eexists| |by eexists]; [|done].
  apply (elem_of_prefix (d_calls s2)); [done|by eexists].
Qed.

(** ** All the maps *)

(** From [s] to [s'], the maps [new] over the chunks [done] have been made. *)
Definition grown (device : Z) (s s' : dpdk) (done : list (Z * Z)) (new : list Z) : Prop :=
  extends s s' /\ Forall2 (mapped device (d_calls s')) done new /\
  live (d_calls s') = live (d_calls s) ∪ list_to_set (Mmap <$> new) /\
  forall m, m ∈ new -> Mmap m ∉ live (d_calls s).

Lemma grown_nil device s : grown device s s [] [].
Proof. split; [reflexivity|]. split; [constructor|]. split; [cbn; set_solver|set_solver]. Qed.

Lemma grown_same device s s1 s2 done new :
  grown device s s1 done new -> extends s1 s2 -> live (d_calls s2) = live (d_calls s1) ->
  grown device s s2 done new.
Proof.
  intros (X & F & El & Hn) X2 E2. split; [by trans s1|]. split; [|by rewrite E2].
  eapply list.Forall2_impl; [exact F|]. intros chunk m. by apply mapped_extends.
Qed.

Lemma grown_snoc device s s1 s2 done new chunk m :
  grown device s s1 done new -> extends s1 s2 -> Mmap m ∉ live (d_calls s1) ->
  mapped device (d_calls s2) chunk m -> live (d_calls s2) = live (d_calls s1) ∪ {[Mmap m]} ->
  grown device s s2 (done ++ [chunk]) (new ++ [m]).
Proof.
  intros (X & F & El & Hn) X2 Hm M2 E2. split; [by trans s1|]. split; [|split].
  - apply Forall2_app; [|by apply list.Forall2_cons]. eapply list.Forall2_impl; [exact F|].
    intros c' m'. by apply mapped_extends.
  - rewrite E2, El, fmap_app. cbn. set_solver.
  - intros m' [Hi|Hi%list_elem_of_singleton]%elem_of_app; [by apply Hn|]. rewrite El in Hm. set_solver.
Qed.

Lemma wp_mem_iter device chunks seen done new s s1 :
  done `sublist_of` seen -> grown device s s1 done new ->
  wp (mem_iter device chunks new)
    (fun ms s' => exists done', done' `sublist_of` seen ++ chunks /\ grown device s s' done' ms)
    (fun _ _ => False) s1.
Proof.
  revert seen done new s1. induction chunks as [|[a n] chunks IH]; intros seen done new s1 Hs Hg; cbn [mem_iter].
  { apply dwp_ret. exists done. by rewrite app_nil_r. }
  apply dwp_bind. unfold dpdk_chunk_to_mmap_cb. apply dwp_bind, wp_attempt. cbn [fst snd].
  rewrite cons_middle, app_assoc. eapply dwp_mono; [apply wp_chunk_to_mmap|..].
  - intros m s2 (X2 & Hm & M2 & E2). apply dwp_ret, (IH _ (done ++ [(a, n)])).
    + by apply sublist_app.
    + by apply (grown_snoc _ _ s1).
  - intros e s2 (X2 & E2). apply dwp_ret, (IH _ done).
    + by apply sublist_inserts_r.
    + by apply (grown_same _ _ s1).
Qed.

Lemma wp_ext_iter device chunks done new s s1 :
  grown device s s1 done new ->
  wp (ext_iter device chunks new)
    (fun '(ms, ok) s' => exists done', grown device s s' done' ms /\ (ok = true -> done' = done ++ chunks))
    (fun _ _ => False) s1.
Proof.
  revert done new s1. induction chunks as [|[a n] chunks IH]; intros done new s1 Hg; cbn [ext_iter].
  { apply dwp_ret. exists done. by rewrite app_nil_r. }
  apply dwp_bind, wp_attempt. cbn [fst snd]. rewrite cons_middle, app_assoc.
  eapply dwp_mono; [apply wp_chunk_to_mmap|..].
  - intros m s2 (X2 & Hm & M2 & E2). apply IH. by apply (grown_snoc _ _ s1).
  - intros e s2 (X2 & E2). apply dwp_ret. exists done. split; [by apply (grown_same _ _ s1)|done].
Qed.

Lemma truthy_nonzero z : z <> 0 -> truthy z = true.
Proof. intros H. by apply negb_true_iff, Z.eqb_neq. Qed.

(** The blocks and maps of a shadow. *)
Definition owned (sh : dpdk_mempool_shadow) : gset resource :=
  {[Block (sh_self sh)]} ∪ (if truthy (sh_mmap_arr sh) then
    {[Block (sh_mmap_arr sh)]} ∪ list_to_set (Mmap <$> sh_mmaps sh) else ∅).

Lemma wp_shadow_destroy sh s :
  wp (dpdk_mempool_shadow_destroy sh) (fun _ s' => live (d_calls s') = live (d_calls s) ∖ owned sh)
    (fun _ _ => False) s.
Proof.
  unfold dpdk_mempool_shadow_destroy, owned. apply dwp_bind. destruct (truthy (sh_mmap_arr sh)).
  2: { apply dwp_ret, dwp_bind, wp_call, dwp_ret. cbn [called d_calls]. rewrite live_snoc.
       cbn [acquires releases]. set_solver. }
  apply dwp_bind. eapply (dwp_mono _ (fun _ s' => live (d_calls s') =
    live (d_calls s) ∖ list_to_set (Mmap <$> sh_mmaps sh)) _ (fun _ _ => False)); [| |done].
  - apply (wp_for_each _ _ (fun ms s' => live (d_calls s') = live (d_calls s) ∖ list_to_set (Mmap <$> ms)));
      [|cbn; set_solver].
    intros before m after s1 _ El. apply dwp_bind, wp_call, dwp_ret. cbn [called d_calls].
    rewrite live_snoc, El, fmap_app. cbn. set_solver.
  - intros [] s1 El. apply dwp_bind, wp_call, dwp_ret, dwp_bind, wp_call, dwp_ret. cbn [called d_calls].
    rewrite !live_snoc, El. cbn [acquires releases]. set_solver.
Qed.

Lemma sublist_same_length {A} (l k : list A) : l `sublist_of` k -> length l = length k -> l = k.
Proof.
  induction 1 as [|x l k H IH|x l k H IH]; cbn; intros E; [done|f_equal; apply IH; lia|].
  apply sublist_length in H. lia.
Qed.

(** What the shadow owns was not in use before it was made. *)
Lemma grown_owned device s s1 s2 self arr done new :
  self <> 0 -> arr <> 0 -> Block self ∉ live (d_calls s) -> Block arr ∉ live (d_calls s) ->
  live (d_calls s1) = live (d_calls s) ∪ {[Block self]} ∪ {[Block arr]} ->
  grown device s1 s2 done new ->
  live (d_calls s2) ∖ owned (MkShadow self device arr new) = live (d_calls s).
Proof.
  intros Hs Ha Fs Fa E1 (_ & _ & E2 & Hn). unfold owned. cbn. rewrite truthy_nonzero, E2, E1 by done.
  assert (forall x, x ∈ live (d_calls s) -> x ∉ (list_to_set (Mmap <$> new) : gset resource)) as Hd.
  { intros x Hx Hi. rewrite elem_of_list_to_set, list_elem_of_fmap in Hi. destruct Hi as (m & -> & Hm).
    apply (Hn m Hm). rewrite E1. set_solver. }
  set_solver.
Qed.

(** The two blocks of a shadow, with the memory maps still to be made. *)
Definition allocated (device n : Z) (k : Z -> Z -> M (option dpdk_mempool_shadow)) :
    M (option dpdk_mempool_shadow) :=
  self ← call (Zmalloc 24);
  if self =? 0 then mret None
  else
    arr ← call (Zmalloc n);
    if arr =? 0 then _ ← dpdk_mempool_shadow_destroy (MkShadow self device 0 []); mret None
    else k self arr.

Lemma live_zmalloc n s :
  let p := rte (d_calls s) (Zmalloc n) in
  live (d_calls (called (Zmalloc n) s)) = live (d_calls s) ∪ (if truthy p then {[Block p]} else ∅) /\
  (p <> 0 -> Block p ∉ live (d_calls s)).
Proof.
  cbn zeta. split.
  - cbn [called d_calls]. rewrite live_snoc. cbn [acquires releases]. set_solver.
  - intros Hp. apply (fresh_resource _ (Zmalloc n)); [|done|done]. cbn. rewrite truthy_nonzero by done.
    set_solver.
Qed.

Lemma wp_allocated device n k Q E s :
  (forall self arr s1, self <> 0 -> arr <> 0 -> Block self ∉ live (d_calls s) -> Block arr ∉ live (d_calls s) ->
     live (d_calls s1) = live (d_calls s) ∪ {[Block self]} ∪ {[Block arr]} -> wp (k self arr) Q E s1) ->
  (forall s1, live (d_calls s1) = live (d_calls s) -> Q None s1) ->
  wp (allocated device n k) Q E s.
Proof.
  intros Hk HN. unfold allocated. destruct (live_zmalloc 24 s) as [E1 F1].
  apply dwp_bind, wp_call. set (self := rte _ _) in *. set (s1 := called _ s) in *.
  destruct (Z.eqb_spec self 0) as [E0|N0].
  { apply dwp_ret, HN. rewrite E1, E0. cbn. set_solver. }
  rewrite truthy_nonzero in E1 by done. destruct (live_zmalloc n s1) as [E2 F2].
  apply dwp_bind, wp_call. set (arr := rte (d_calls s1) _) in *. set (s2 := called _ s1) in *.
  destruct (Z.eqb_spec arr 0) as [E0|N2].
  - apply dwp_bind. eapply dwp_mono; [apply wp_shadow_destroy| |done]. intros [] s3 E3. apply dwp_ret, HN.
    rewrite E3, E2, E0, E1. unfold owned. cbn. specialize (F1 N0). set_solver.
  - rewrite truthy_nonzero, E1 in E2 by done. specialize (F2 N2). rewrite E1 in F2.
    apply Hk; [done|done|by apply F1|set_solver|done].
Qed.

(** A shadow is made, with a map per chunk, and can be destroyed; or nothing is left of it. *)
Definition shadow_made (device : Z) (chunks : list (Z * Z)) (s : dpdk)
    (sh : option dpdk_mempool_shadow) (s1 : dpdk) : Prop :=
  match sh with
  | None => live (d_calls s1) = live (d_calls s)
  | Some sh =>
      Forall2 (mapped device (d_calls s1)) chunks (sh_mmaps sh) /\
      exists s2, dpdk_mempool_shadow_destroy sh s1 = (Done tt, s2) /\ live (d_calls s2) = live (d_calls s)
  end.

Lemma wp_done {A} (m : M A) (Q : A -> dpdk -> Prop) s :
  wp m Q (fun _ _ => False) s -> exists a s', m s = (Done a, s') /\ Q a s'.
Proof. unfold wp. destruct (m s) as [[a|e|] s']; [|done|done]. by exists a, s'. Qed.

Lemma shadow_kept device chunks s sh s1 :
  Forall2 (mapped device (d_calls s1)) chunks (sh_mmaps sh) ->
  live (d_calls s1) ∖ owned sh = live (d_calls s) -> shadow_made device chunks s (Some sh) s1.
Proof.
  intros F El. split; [done|]. destruct (wp_done _ _ _ (wp_shadow_destroy sh s1)) as ([] & s2 & Ed & E2).
  exists s2. split; [done|]. by rewrite E2.
Qed.

Lemma wp_shadow_dropped device chunks s sh s1 :
  live (d_calls s1) ∖ owned sh = live (d_calls s) ->
  wp (_ ← dpdk_mempool_shadow_destroy sh; mret None) (shadow_made device chunks s) (fun _ _ => False) s1.
Proof.
  intros El. apply dwp_bind. eapply dwp_mono; [apply wp_shadow_destroy| |done]. intros [] s2 E2.
  apply dwp_ret. cbn. by rewrite E2.
Qed.

(** C22.  A shadow has a started memory map for the device over every chunk of the pool or of
    the external memory, in their order, and its destruction gives back exactly what its
    creation took.  When any step of the creation fails, [NULL] is returned and the maps and
    blocks in use are those of before: nothing is leaked and nothing of others is freed. *)
Theorem shadow_round_trip (device : Z) :
  (forall pool s, exists sh s1, dpdk_mempool_shadow_create pool device s = (Done sh, s1) /\
     shadow_made device (pool_chunks pool) s sh s1) /\
  (forall ext_mem s, exists sh s1, dpdk_mempool_shadow_create_extbuf ext_mem device s = (Done sh, s1) /\
     shadow_made device ext_mem s sh s1).
Proof.
  split; intros x s; (apply wp_done, (wp_allocated device); [intros self arr s1 Ns Na Fs Fa E1|done]).
  - apply dwp_bind. eapply dwp_mono; [apply (wp_mem_iter device _ [] []), grown_nil; reflexivity| |done].
    intros ms s2 (done' & Hsub & Hg). pose proof Hg as (_ & F & _).
    apply (grown_owned _ s s1 s2 self arr) in Hg; [|done..]. destruct (Nat.eqb_spec (length (pool_chunks x)) (length ms)) as [El|].
    + apply dwp_ret, shadow_kept; [|done]. apply list.Forall2_length in F as El2.
      by rewrite (sublist_same_length done' (pool_chunks x)) in F by (done || lia).
    + by apply wp_shadow_dropped.
  - apply dwp_bind. eapply dwp_mono; [apply (wp_ext_iter device _ []), grown_nil| |done].
    intros [ms ok] s2 (done' & Hg & Hok). pose proof Hg as (_ & F & _).
    apply (grown_owned _ s s1 s2 self arr) in Hg; [|done..]. destruct ok; [|by apply wp_shadow_dropped].
    apply dwp_ret, shadow_kept; [|done]. by rewrite Hok in F.
Qed.
End Maps.

Lemma shadow_round_trip_witness :
  exists sh s1,
    dpdk_mempool_shadow_create 7 3 (MkDpdk [] sample_config zero_rules) = (Done sh, s1) /\
    shadow_made 3 [(4096, 4096); (16384, 8192)] (MkDpdk [] sample_config zero_rules) sh s1.
Proof. apply (shadow_round_trip (L := ref_dpdk) 3). Defined.

(** ** Finding a buffer *)

(** The bytes from [start] on lie in the range; its end may be the end of the memory. *)
Definition inside (range : Z * Z) (start size : Z) : Prop :=
  range.1 <= start < range.1 + range.2 /\ start + size <= range.1 + range.2.

Definition in_memory (range : Z * Z) : Prop :=
  0 <= range.1 /\ 0 <= range.2 /\ range.1 + range.2 < 2 ^ 64.

Lemma in_mmap_inside range start size :
  in_memory range -> 0 <= start < 2 ^ 64 -> in_mmap range start size = true <-> inside range start size.
Proof.
  destruct range as [b n]. unfold in_memory, inside, in_mmap. cbn [fst snd]. intros Hr Hs.
  rewrite !andb_true_iff, !Z.leb_le, Z.ltb_lt. rewrite (wrapu_small 64 (b + n)) by lia.
  split; [intros [[H1 H2] H3]|intros [[H1 H2] H3]].
  - rewrite wrapu_small in H3 by lia. lia.
  - rewrite wrapu_small by lia. lia.
Qed.

Section Find.
Context {L : DpdkLib}.

Lemma doca_run c s :
  doca c s = (match doca_error (rte (d_calls s) c) with None => Done tt | Some e => Failed e end, called c s).
Proof. unfold doca, mbind, M_bind, call. by destruct (doca_error _). Qed.

(** C35.  The search returns the buffer that the inventory makes of the first map that holds
    the whole range, or its error, and [DOCA_ERROR_NOT_FOUND] when no map holds it; the
    comparison is free of overflow, for every start and size, as its comment says. *)
Theorem find_buf_first (sh : dpdk_mempool_shadow) (inventory start size : Z) (ranges : Z -> Z * Z) (s : dpdk) :
  (forall h m, m ∈ sh_mmaps sh -> memrange_of h m = ranges m) ->
  (forall m, m ∈ sh_mmaps sh -> in_memory (ranges m)) -> 0 <= start < 2 ^ 64 ->
  let '(r, s') := dpdk_mempool_shadow_find_buf_by_data sh inventory start size s in
  (r = Failed DOCA_ERROR_NOT_FOUND /\ forall m, m ∈ sh_mmaps sh -> ~ inside (ranges m) start size) \/
  exists before m after h ret,
    sh_mmaps sh = before ++ m :: after /\ inside (ranges m) start size /\
    (forall m', m' ∈ before -> ~ inside (ranges m') start size) /\
    d_calls s' = h ++ [(BufGetByData inventory m start size, ret)] /\
    r = match doca_error ret with None => Done (data_buf h) | Some e => Failed e end.
Proof.
  unfold dpdk_mempool_shadow_find_buf_by_data. revert s.
  induction (sh_mmaps sh) as [|m ms IH]; intros s Hr Hm Hs; cbn [find_buf].
  { left. split; [done|]. intros m Hin. by apply not_elem_of_nil in Hin. }
  unfold mbind at 1, M_bind at 1, history at 1. unfold mbind at 1, M_bind at 1, call at 1.
  rewrite (Hr _ m) by (by left). set (s1 := MkDpdk _ _ _).
  pose proof (in_mmap_inside (ranges m) start size (Hm m ltac:(by left)) Hs) as Hin.
  destruct (in_mmap (ranges m) start size).
  - unfold mbind, M_bind, history. rewrite doca_run.
    destruct (doca_error _) as [e|] eqn:Ed; unfold mret, M_ret; right; exists [], m, ms, (d_calls s1);
      (eexists; split; [done|]); (split; [by apply Hin|]); (split; [set_solver|]);
      (split; [done|by rewrite Ed]).
  - specialize (IH s1 (fun h m' H => Hr h m' (list_elem_of_further _ _ _ H))
      (fun m' H => Hm m' (list_elem_of_further _ _ _ H)) Hs).
    assert (~ inside (ranges m) start size) as Hno by (by intros ?%Hin).
    destruct (find_buf inventory start size ms s1) as [r s'].
    destruct IH as [[Er Hn]|(before & m1 & after & h & ret & El & Hi & Hb & Rest)].
    + left. split; [done|]. by intros m' [->|Hx]%elem_of_cons; [|apply Hn].
    + right. exists (m :: before), m1, after, h, ret. split; [by rewrite El|]. split; [done|].
      split; [|done]. by intros m' [->|Hx]%elem_of_cons; [|apply Hb].
Qed.
End Find.

Lemma find_buf_first_witness :
  let sh := MkShadow 1 3 2 [1; 4] in
  let '(r, s') := dpdk_mempool_shadow_find_buf_by_data sh 9 16400 100 (MkDpdk [] sample_config zero_rules) in
  (r = Failed DOCA_ERROR_NOT_FOUND /\ forall m, m ∈ sh_mmaps sh -> ~ inside (4096 * m, 4096) 16400 100) \/
  exists before m after h ret,
    sh_mmaps sh = before ++ m :: after /\ inside (4096 * m, 4096) 16400 100 /\
    (forall m', m' ∈ before -> ~ inside (4096 * m', 4096) 16400 100) /\
    d_calls s' = h ++ [(BufGetByData 9 m 16400 100, ret)] /\
    r = match doca_error ret with None => Done (data_buf h) | Some e => Failed e end.
Proof.
  apply (find_buf_first (L := ref_dpdk) (MkShadow 1 3 2 [1; 4]) 9 16400 100 (fun m => (4096 * m, 4096))).
  - intros h m _. reflexivity.
  - intros m Hm. cbn in Hm. assert (m = 1 \/ m = 4) as [->| ->] by set_solver; unfold in_memory; cbn; lia.
  - lia.
Defined.
