(* ===== verification/ReceiveControl.v ===== *)
(** * ReceiveControl: the receiver of queue measurements

    Translation of the working parts of [test_suite/rdma_bench/receive_control.cpp]: the
    reception of packets that carry queue depths and 18-bit time stamps, the statistics,
    the check of the links and the merge of the results ([ReceiveMain] has [main]).

    A packet is the list of its bytes with the number of its mbuf; a burst is the list of
    packets one call of [rte_eth_rx_burst] returns.  [force_quit] is seen set when the
    given turns are used up. *)

From stdpp Require Import sorting.
From S2P Require Import Prelude FlexioDev.
#[local] Open Scope Z_scope.

Definition MAX_PKT_BURST : Z := 64.
Definition TX_RX_QUEUE : Z := 1.
Definition l2fwd_enabled_port_mask : Z := 1.

Record timestamps_acc_number := MkTs { timestamp : Z; acc_number : Z }.

#[export] Instance timestamps_eq_dec : EqDecision timestamps_acc_number.
Proof. solve_decision. Defined.

(** [operator <], [operator >] and [operator ==] *)
Definition ts_lt (a b : timestamps_acc_number) : bool := timestamp a <? timestamp b.
Definition ts_gt (a b : timestamps_acc_number) : bool := timestamp b <? timestamp a.
Definition ts_eqb (a b : timestamps_acc_number) : bool :=
  (timestamp a =? timestamp b) && (acc_number a =? acc_number b).

(** ** Statistics *)

Record l2fwd_port_statistics := MkStat { tx : list Z; rx : list Z; tx_dropped : list Z }.
Definition zero_stat : l2fwd_port_statistics :=
  let q := replicate (Z.to_nat TX_RX_QUEUE) 0 in MkStat q q q.

(** The global variables of the receiver. *)
Record l2fwd := MkL2 {
  port_statistics : list l2fwd_port_statistics;
  port_statistics_period : list l2fwd_port_statistics;
  total_inqueue_timestamp_acc : list (list timestamps_acc_number);
  total_dequeue_timestamp_acc : list (list timestamps_acc_number);
}.

(** An element of an array is changed; there is no result outside of it. *)
Definition upd {A} (i : Z) (f : A -> A) (l : list A) : option (list A) :=
  if i <? 0 then None
  else match l !! Z.to_nat i with Some x => Some (<[Z.to_nat i := f x]> l) | None => None end.

(** What [print_stats] shows of a port: per queue, in total, and per second of the period. *)
Record port_report := MkReport {
  pr_port : Z; pr_queues : list (Z * Z * Z); pr_total : Z * Z * Z; pr_period : Z * Z * Z;
}.

Definition add3 (a b : Z * Z * Z) : Z * Z * Z :=
  let '(x, y, z) := a in let '(x', y', z') := b in ((x +64 x')%cint, (y +64 y')%cint, (z +64 z')%cint).
Definition sub3 (a b : Z * Z * Z) : Z * Z * Z :=
  let '(x, y, z) := a in let '(x', y', z') := b in ((x -64 x')%cint, (y -64 y')%cint, (z -64 z')%cint).

(** Packets sent, received and dropped, per queue. *)
Definition queue_counts (s : l2fwd_port_statistics) : list (Z * Z * Z) :=
  zip (zip (tx s) (rx s)) (tx_dropped s).

Definition report_port (portid period : Z) (s p : l2fwd_port_statistics) : port_report :=
  let now := queue_counts s in
  let '(a, b, c) := foldl add3 (0, 0, 0) (zip_with sub3 now (queue_counts p)) in
  MkReport portid now (foldl add3 (0, 0, 0) now) (a / period, b / period, c / period).

(** The loop of [print_stats] leaves at the first port that is not enabled. *)
Fixpoint print_ports (period : Z) (n : nat) (portid : Z) (now last : list l2fwd_port_statistics) :
    list port_report * list l2fwd_port_statistics :=
  match n, now, last with
  | S n, s :: now, p :: last =>
      if Z.land l2fwd_enabled_port_mask (Z.shiftl 1 portid) =? 0 then ([], p :: last)
      else
        let '(rows, last) := print_ports period n (portid + 1) now last in
        (report_port portid period s p :: rows, s :: last)
  | _, _, _ => ([], last)
  end.

Definition print_stats (timer_period hz : Z) (s : l2fwd) : option (list port_report * l2fwd) :=
  if hz =? 0 then None
  else
    let period := timer_period / hz in
    if period =? 0 then None
    else
      let '(rows, last) := print_ports period (length (port_statistics s)) 0
                             (port_statistics s) (port_statistics_period s) in
      Some (rows, MkL2 (port_statistics s) last (total_inqueue_timestamp_acc s)
                    (total_dequeue_timestamp_acc s)).

(** [l2fwd_main_lcore_show_status], a time stamp counter per turn and what the other cores
    have made of the statistics by then; the reports, in order. *)
Fixpoint show_status_loop (timer_period hz prev_tsc timer_tsc : Z) (env : list (Z * (l2fwd -> l2fwd)))
    (s : l2fwd) : option (list (list port_report) * l2fwd) :=
  match env with
  | [] => Some ([], s)
  | (cur_tsc, others) :: env =>
      let s := others s in
      let timer_tsc := (timer_tsc +64 (cur_tsc -64 prev_tsc))%cint in
      if timer_period <=? timer_tsc then
        match print_stats timer_period hz s with
        | None => None
        | Some (rows, s) =>
            match show_status_loop timer_period hz cur_tsc 0 env s with
            | None => None
            | Some (more, s) => Some (rows :: more, s)
            end
        end
      else show_status_loop timer_period hz cur_tsc timer_tsc env s
  end.
Definition l2fwd_main_lcore_show_status (timer_period hz lcore_id main_lcore : Z)
    (env : list (Z * (l2fwd -> l2fwd))) (s : l2fwd) : option (list (list port_report) * l2fwd) :=
  if lcore_id =? main_lcore then show_status_loop timer_period hz 0 0 env s else Some ([], s).

(** ** Reception *)

Record mbuf := MkMbuf { mb_id : Z; mb_data : list Z }.

Definition target_length : Z := 1082.

(** [ntohl(data[i])], the words after the headers. *)
Definition le_word (bs : list Z) : Z := foldr (fun b v => b + 256 * v) 0 bs.
Definition data_word (p : mbuf) (i : nat) : Z :=
  bswap 4 (le_word (take 4 (drop (54 + 4 * i) (mb_data p)))).

(** The local variables of the loop, and the mbufs that were freed. *)
Record rx_locals := MkRx {
  out_timestamp_last : Z; out_timestamp_acc : Z; last_seq_num : Z; freed : list Z;
}.
Definition rx_start : rx_locals := MkRx 0 0 0 [].

Definition free_mbuf (p : mbuf) (r : rx_locals) : rx_locals :=
  MkRx (out_timestamp_last r) (out_timestamp_acc r) (last_seq_num r) (freed r ++ [mb_id p]).

Definition count_rx (queueid : Z) (s : l2fwd_port_statistics) : option l2fwd_port_statistics :=
  l ← upd queueid (fun n => (n +64 1)%cint) (rx s); Some (MkStat (tx s) l (tx_dropped s)).
Definition count_dropped (queueid : Z) (s : l2fwd_port_statistics) : option l2fwd_port_statistics :=
  l ← upd queueid (fun n => (n +64 1)%cint) (tx_dropped s); Some (MkStat (tx s) (rx s) l).

Definition on_port (port_id : Z) (f : l2fwd_port_statistics -> option l2fwd_port_statistics) (s : l2fwd) :
    option l2fwd :=
  if port_id <? 0 then None
  else
    st ← port_statistics s !! Z.to_nat port_id;
    st ← f st;
    Some (MkL2 (<[Z.to_nat port_id := st]> (port_statistics s)) (port_statistics_period s)
            (total_inqueue_timestamp_acc s) (total_dequeue_timestamp_acc s)).

(** The two [push_back]. *)
Definition push_result (queueid : Z) (a b : timestamps_acc_number) (s : l2fwd) : option l2fwd :=
  ins ← upd queueid (fun v => v ++ [a]) (total_inqueue_timestamp_acc s);
  outs ← upd queueid (fun v => v ++ [b]) (total_dequeue_timestamp_acc s);
  Some (MkL2 (port_statistics s) (port_statistics_period s) ins outs).

(** The time stamp, extended by the number of times its 18 bits have wrapped. *)
Definition unwrap (out_timestamp : Z) (r : rx_locals) : Z :=
  if (out_timestamp <? out_timestamp_last r) && (out_timestamp <? 100000)
  then (out_timestamp_acc r +64 Z.shiftl 1 18)%cint else out_timestamp_acc r.

Definition rx_packet (port_id queueid : Z) (p : mbuf) (sr : l2fwd * rx_locals) : option (l2fwd * rx_locals) :=
  let '(s, r) := sr in
  if u32 (Z.of_nat (length (mb_data p))) =? target_length then
    s ← on_port port_id (count_rx queueid) s;
    let in_depth := data_word p 0 in
    let out_depth := data_word p 2 in
    let in_timestamp := data_word p 1 in
    let out_timestamp := data_word p 3 in
    let seq_num := data_word p 4 in
    if (seq_num <? last_seq_num r) && (10000000 <? seq_num) then Some (s, free_mbuf p r)
    else
      let acc := unwrap out_timestamp r in
      let r := MkRx out_timestamp acc seq_num (freed r) in
      if 19 <? out_depth then
        s ← push_result queueid
              (MkTs (acc +64 out_timestamp -64 in_timestamp)%cint in_depth)
              (MkTs (acc +64 out_timestamp)%cint out_depth) s;
        Some (s, free_mbuf p r)
      else Some (s, free_mbuf p r)
  else
    s ← on_port port_id (count_dropped queueid) s;
    Some (s, free_mbuf p r).

Fixpoint rx_burst (port_id queueid : Z) (pkts : list mbuf) (sr : l2fwd * rx_locals) :
    option (l2fwd * rx_locals) :=
  match pkts with
  | [] => Some sr
  | p :: pkts => sr ← rx_packet port_id queueid p sr; rx_burst port_id queueid pkts sr
  end.

(** [struct server_queue_conf] *)
Record server_queue_conf := MkQconf {
  n_tx_rx_queue : Z; tx_rx_queue_list : list Z; portid : Z;
}.

(** One turn: a burst from each queue of the core. *)
Fixpoint rx_queues (port_id : Z) (queues : list Z) (bursts : Z -> list mbuf) (sr : l2fwd * rx_locals) :
    option (l2fwd * rx_locals) :=
  match queues with
  | [] => Some sr
  | q :: queues => sr ← rx_burst port_id q (bursts q) sr; rx_queues port_id queues bursts sr
  end.
Fixpoint rx_turns (port_id : Z) (queues : list Z) (env : list (Z -> list mbuf)) (sr : l2fwd * rx_locals) :
    option (l2fwd * rx_locals) :=
  match env with
  | [] => Some sr
  | bursts :: env => sr ← rx_queues port_id queues bursts sr; rx_turns port_id queues env sr
  end.

Definition l2fwd_main_loop (qconf : server_queue_conf) (env : list (Z -> list mbuf)) (s : l2fwd) :
    option (l2fwd * rx_locals) :=
  if n_tx_rx_queue qconf =? 0 then Some (s, rx_start)
  else if Z.of_nat (length (tx_rx_queue_list qconf)) <? n_tx_rx_queue qconf then None
  else rx_turns (portid qconf) (take (Z.to_nat (n_tx_rx_queue qconf)) (tx_rx_queue_list qconf)) env
         (s, rx_start).

(** ** The merge of the results *)

(** [std::priority_queue] with [std::greater]: the elements, and which of the least ones is
    on top. *)
Class PriorityQueue := {
  pq_top : list timestamps_acc_number -> option timestamps_acc_number;
}.
Class PriorityQueueLaws (P : PriorityQueue) := {
  pq_top_nil : pq_top [] = None;
  pq_top_some q : q <> [] -> exists x, pq_top q = Some x /\ x ∈ q /\
    forall y, y ∈ q -> ts_gt x y = false;
}.

Section Merge.
Context {P : PriorityQueue}.

(** The first array whose current element is the one taken; 0 when there is none. *)
Fixpoint find_array (arrs : list (list timestamps_acc_number)) (arr_pos : list nat)
    (top : timestamps_acc_number) (i : nat) : nat :=
  match arrs, arr_pos with
  | a :: arrs, pos :: arr_pos =>
      match a !! pos with
      | Some x => if ts_eqb x top then i else find_array arrs arr_pos top (S i)
      | None => find_array arrs arr_pos top (S i)
      end
  | _, _ => 0%nat
  end.

Fixpoint remove_one (x : timestamps_acc_number) (q : list timestamps_acc_number) : list timestamps_acc_number :=
  match q with
  | [] => []
  | y :: q => if decide (x = y) then q else y :: remove_one x q
  end.

Fixpoint merge_loop (fuel : nat) (arrs : list (list timestamps_acc_number)) (arr_pos : list nat)
    (pq res : list timestamps_acc_number) : option (list timestamps_acc_number) :=
  match pq_top pq with
  | None => Some res
  | Some top =>
      match fuel with
      | O => None
      | S fuel =>
          let pq := remove_one top pq in
          let arr_index := find_array arrs arr_pos top 0 in
          pos ← arr_pos !! arr_index;
          a ← arrs !! arr_index;
          let arr_pos := <[arr_index := S pos]> arr_pos in
          let pq := match a !! S pos with Some x => pq ++ [x] | None => pq end in
          merge_loop fuel arrs arr_pos pq (res ++ [top])
      end
  end.

(** [arrs[i][0]] of every array; there is no result when one is empty. *)
Fixpoint heads (arrs : list (list timestamps_acc_number)) : option (list timestamps_acc_number) :=
  match arrs with
  | [] => Some []
  | a :: arrs => x ← head a; xs ← heads arrs; Some (x :: xs)
  end.

Definition MergeResult (arrs : list (list timestamps_acc_number)) : option (list timestamps_acc_number) :=
  match arrs with
  | [a] => Some a
  | _ =>
      pq ← heads arrs;
      merge_loop (length (concat arrs)) arrs (replicate (length arrs) 0%nat) pq []
  end.
End Merge.

(** ** Correctness of the merge *)

Definition ts_le (a b : timestamps_acc_number) : Prop := timestamp a <= timestamp b.

Lemma ts_eqb_eq a b : ts_eqb a b = true <-> a = b.
Proof.
  unfold ts_eqb. rewrite andb_true_iff, !Z.eqb_eq. destruct a, b; cbn.
  split; [intros [-> ->]; done|intros [=]; done].
Qed.

(** What is left of the arrays. *)
Definition rests (arrs : list (list timestamps_acc_number)) (arr_pos : list nat) :
    list (list timestamps_acc_number) :=
  zip_with (fun a pos => drop pos a) arrs arr_pos.

Lemma head_drop {A} (a : list A) pos : head (drop pos a) = a !! pos.
Proof. rewrite head_lookup, lookup_drop. by rewrite Nat.add_0_r. Qed.

Lemma find_array_spec arrs arr_pos top i0 :
  length arr_pos = length arrs -> top ∈ omap head (rests arrs arr_pos) ->
  exists i a pos, find_array arrs arr_pos top i0 = (i0 + i)%nat /\
    arrs !! i = Some a /\ arr_pos !! i = Some pos /\ a !! pos = Some top.
Proof.
  revert arr_pos i0. induction arrs as [|a arrs IH]; intros [|pos arr_pos] i0 Hl Ht; try done.
  { cbn in Ht. set_solver. }
  cbn [find_array]. cbn in Ht. rewrite head_drop in Ht. injection Hl as Hl.
  assert (top ∈ omap head (rests arrs arr_pos) ->
    exists i b pos', find_array arrs arr_pos top (S i0) = (i0 + i)%nat /\
      (a :: arrs) !! i = Some b /\ (pos :: arr_pos) !! i = Some pos' /\ b !! pos' = Some top) as Hrec.
  { intros H. destruct (IH arr_pos (S i0) Hl H) as (i & b & pos' & Ei & H1 & H2 & H3).
    exists (S i), b, pos'. split; [lia|done]. }
  destruct (a !! pos) as [x|] eqn:Ex; [|by apply Hrec].
  destruct (ts_eqb x top) eqn:Et.
  - apply ts_eqb_eq in Et as ->. exists 0%nat, a, pos. split; [lia|done].
  - apply elem_of_cons in Ht as [->|Ht]; [|by apply Hrec].
    by rewrite (proj2 (ts_eqb_eq x x) eq_refl) in Et.
Qed.

Lemma remove_one_perm x q : x ∈ q -> q ≡ₚ x :: remove_one x q.
Proof.
  induction q as [|y q IH]; intros Hx; [by apply not_elem_of_nil in Hx|]. cbn.
  case_decide as E; [by subst|]. apply elem_of_cons in Hx as [Hx|Hx]; [done|].
  rewrite (IH Hx) at 1. apply Permutation_swap.
Qed.

Lemma concat_take_head (rs : list (list timestamps_acc_number)) (i : nat) x l :
  rs !! i = Some (x :: l) -> concat rs ≡ₚ x :: concat (<[i := l]> rs).
Proof.
  intros Hi. assert (i < length rs)%nat by by apply lookup_lt_Some in Hi.
  rewrite insert_take_drop by done. rewrite <- (take_drop_middle rs i _ Hi) at 1.
  rewrite !concat_app. cbn. symmetry. apply Permutation_middle.
Qed.

Lemma heads_take_head (rs : list (list timestamps_acc_number)) (i : nat) x l :
  rs !! i = Some (x :: l) ->
  exists hs, omap head rs ≡ₚ x :: hs /\ omap head (<[i := l]> rs) ≡ₚ hs ++ option_list (head l).
Proof.
  intros Hi. assert (i < length rs)%nat by by apply lookup_lt_Some in Hi.
  exists (omap head (take i rs) ++ omap head (drop (S i) rs)).
  rewrite insert_take_drop by done. rewrite <- (take_drop_middle rs i _ Hi) at 1.
  rewrite !omap_app. cbn. split; [symmetry; apply Permutation_middle|].
  destruct l as [|y l]; cbn; [by rewrite app_nil_r|].
  rewrite <- Permutation_middle. apply Permutation_cons_append.
Qed.

Lemma rests_step arrs arr_pos i a pos :
  arrs !! i = Some a -> arr_pos !! i = Some pos ->
  rests arrs (<[i := S pos]> arr_pos) = <[i := drop (S pos) a]> (rests arrs arr_pos).
Proof.
  intros Ha Hp. unfold rests. rewrite <- (list_insert_id arrs i a Ha) at 1. by rewrite <- insert_zip_with.
Qed.

Lemma rests_lookup arrs arr_pos i a pos :
  arrs !! i = Some a -> arr_pos !! i = Some pos -> rests arrs arr_pos !! i = Some (drop pos a).
Proof. intros Ha Hp. unfold rests. rewrite lookup_zip_with, Ha. cbn. by rewrite Hp. Qed.

Section MergeCorrect.
Context {P : PriorityQueue} `{!PriorityQueueLaws P}.

Lemma pq_top_spec q x : pq_top q = Some x -> x ∈ q /\ forall y, y ∈ q -> ts_le x y.
Proof.
  intros Hx. destruct (decide (q = [])) as [->|Hq]; [by rewrite pq_top_nil in Hx|].
  destruct (pq_top_some q Hq) as (x' & Hx' & Hin & Hle). rewrite Hx in Hx'. injection Hx' as <-.
  split; [done|]. intros y Hy. specialize (Hle y Hy). unfold ts_gt in Hle. unfold ts_le. lia.
Qed.

Lemma heads_nil (rs : list (list timestamps_acc_number)) : omap head rs = [] -> concat rs = [].
Proof. induction rs as [|[|x l] rs IH]; cbn; [done|exact IH|done]. Qed.

(** The least head is least of all. *)
Lemma head_least rs x y :
  Forall (StronglySorted ts_le) rs -> (forall h, h ∈ omap head rs -> ts_le x h) -> y ∈ concat rs -> ts_le x y.
Proof.
  intros Hs Hh Hy. apply list_elem_of_In, in_concat in Hy as (l & Hl%list_elem_of_In & Hy%list_elem_of_In).
  rewrite list.Forall_forall in Hs. specialize (Hs l Hl). destruct l as [|h l]; [by apply not_elem_of_nil in Hy|].
  assert (ts_le x h) as Hxh by (apply Hh, list_elem_of_omap; by exists (h :: l)).
  apply elem_of_cons in Hy as [->|Hy]; [done|]. apply StronglySorted_inv in Hs as [_ Hf].
  rewrite list.Forall_forall in Hf. specialize (Hf y Hy). unfold ts_le in *. lia.
Qed.

Lemma merge_loop_spec fuel arrs arr_pos pq res :
  length arr_pos = length arrs -> pq ≡ₚ omap head (rests arrs arr_pos) ->
  (length (concat (rests arrs arr_pos)) <= fuel)%nat ->
  exists out, merge_loop fuel arrs arr_pos pq res = Some (res ++ out) /\
    out ≡ₚ concat (rests arrs arr_pos) /\
    (Forall (StronglySorted ts_le) (rests arrs arr_pos) -> StronglySorted ts_le out).
Proof.
  revert arr_pos pq res. induction fuel as [|fuel IH]; intros arr_pos pq res Hl Hp Hf;
    cbn [merge_loop]; destruct (pq_top pq) as [top|] eqn:Et.
  2,4: exists []; rewrite app_nil_r; split; [done|]; destruct pq as [|z pq];
    [apply Permutation_nil in Hp; rewrite (heads_nil _ Hp); split; [done|constructor]
    |by destruct (pq_top_some (z :: pq)) as (? & Hx & _); [|rewrite Hx in Et]].
  all: apply pq_top_spec in Et as [Hin Hle]; setoid_rewrite Hp in Hle; pose proof Hin as Hin'; rewrite Hp in Hin';
    destruct (find_array_spec arrs arr_pos top 0 Hl Hin') as (i & a & pos & Ei & Ha & Hpos & Hx);
    assert (rests arrs arr_pos !! i = Some (top :: drop (S pos) a)) as Hr
      by (rewrite (rests_lookup _ _ _ _ _ Ha Hpos); f_equal; by apply drop_S);
    pose proof (concat_take_head _ _ _ _ Hr) as Hc.
  { apply Permutation_length in Hc. cbn in Hc. lia. }
  rewrite Ei, Nat.add_0_l. rewrite Hpos. cbn [mbind option_bind]. rewrite Ha. cbn [mbind option_bind].
  pose proof (rests_step _ _ _ _ _ Ha Hpos) as Hstep.
  destruct (heads_take_head _ _ _ _ Hr) as (hs & H1 & H2).
  edestruct (IH (<[i := S pos]> arr_pos) (match a !! S pos with Some x => remove_one top pq ++ [x] | None => remove_one top pq end)
    (res ++ [top])) as (out & Eo & Po & So).
  - by rewrite length_insert.
  - rewrite Hstep, H2, head_drop. assert (remove_one top pq ≡ₚ hs) as Hq.
    { apply (Permutation_cons_inv (a := top)). by rewrite <- remove_one_perm, <- H1, Hp. }
    destruct (a !! S pos); cbn; rewrite Hq; [done|]. by rewrite app_nil_r.
  - rewrite Hstep. apply Permutation_length in Hc. cbn in Hc. lia.
  - exists (top :: out). rewrite Eo, <- app_assoc. split; [done|].
    split; [by rewrite Hc, Po, Hstep|].
    intros Hs. constructor.
    + apply So. rewrite Hstep. apply Forall_insert; [done|].
      rewrite list.Forall_forall in Hs. specialize (Hs _ (list_elem_of_lookup_2 _ _ _ Hr)).
      by apply StronglySorted_inv in Hs as [? _].
    + apply list.Forall_forall. intros y Hy. rewrite Po, Hstep in Hy.
      apply (head_least (rests arrs arr_pos)); [done|done|]. rewrite Hc. by right.
Qed.

Lemma heads_spec arrs : Forall (fun a => a <> []) arrs -> heads arrs = Some (omap head arrs).
Proof.
  induction 1 as [|a arrs Ha H IH]; [done|]. destruct a as [|x a]; [done|]. cbn. by rewrite IH.
Qed.

Lemma rests_zero arrs : rests arrs (replicate (length arrs) 0%nat) = arrs.
Proof. induction arrs as [|a arrs IH]; [done|]. unfold rests in *. cbn. by rewrite IH, drop_0. Qed.

Lemma heads_empty arrs : [] ∈ arrs -> heads arrs = None.
Proof.
  induction arrs as [|c arrs IH]; [by intros ?%not_elem_of_nil|]. intros [<-|Hl]%elem_of_cons; [done|].
  cbn. rewrite (IH Hl). by destruct (head c).
Qed.

(** C31.  The merge of the measurements of the queues.  When there is one queue, with or
    without measurements, or every queue has a measurement, the merge ends, keeps every
    measurement once and, when those of each queue are in order of time, has them all in
    order of time; however the priority queue chooses among equal times.  With several
    queues, one of which has no measurement, it reads out of the range of that queue's. *)
Theorem merge_result_sorted (arrs : list (list timestamps_acc_number)) :
  (length arrs = 1%nat \/ [] ∉ arrs ->
   exists out, MergeResult arrs = Some out /\ out ≡ₚ concat arrs /\
     (Forall (StronglySorted ts_le) arrs -> StronglySorted ts_le out)) /\
  (length arrs <> 1%nat -> [] ∈ arrs -> MergeResult arrs = None).
Proof.
  split.
  - intros Hor. destruct (decide (length arrs = 1%nat)) as [H1|H1].
    { destruct arrs as [|a [|b arrs]]; [done| |done].
      exists a. cbn. rewrite app_nil_r. split; [done|]. split; [done|]. by intros [? _]%list.Forall_cons. }
    assert (Forall (fun a => a <> []) arrs) as Hne.
    { apply list.Forall_forall. intros a Ha ->. destruct Hor; done. }
    assert (exists out, merge_loop (length (concat arrs)) arrs (replicate (length arrs) 0%nat)
      (omap head arrs) [] = Some out /\ out ≡ₚ concat arrs /\
      (Forall (StronglySorted ts_le) arrs -> StronglySorted ts_le out)) as Hm.
    { pose proof (merge_loop_spec (length (concat arrs)) arrs (replicate (length arrs) 0%nat) (omap head arrs) [])
        as H. rewrite rests_zero in H. apply H; [by rewrite length_replicate|done|done]. }
    unfold MergeResult. rewrite heads_spec by done. by destruct arrs as [|a [|b arrs]].
  - intros H1 He. unfold MergeResult. rewrite (heads_empty _ He). by destruct arrs as [|a [|b arrs]].
Qed.
End MergeCorrect.

(** A priority queue that keeps the first of the least elements on top. *)
Definition least (x : timestamps_acc_number) (q : list timestamps_acc_number) : timestamps_acc_number :=
  foldl (fun x y => if ts_lt y x then y else x) x q.

#[export] Instance first_least : PriorityQueue := {|
  pq_top q := match q with [] => None | x :: q => Some (least x q) end;
|}.

Lemma least_spec x q : least x q ∈ x :: q /\ forall z, z ∈ x :: q -> timestamp (least x q) <= timestamp z.
Proof.
  revert x. induction q as [|y q IH]; intros x.
  { split; [by left|]. intros z Hz%list_elem_of_singleton. by subst. }
  change (least x (y :: q)) with (least (if ts_lt y x then y else x) q).
  destruct (IH (if ts_lt y x then y else x)) as [Hin Hle]. split.
  - apply elem_of_cons in Hin as [->|Hin]; [destruct (ts_lt y x); set_solver|set_solver].
  - intros z Hz. destruct (decide (z ∈ q)) as [Hzq|Hzq]; [apply Hle; by right|].
    specialize (Hle _ (list_elem_of_here _ _)). unfold ts_lt in *.
    assert (z = x \/ z = y) as [->| ->] by set_solver; destruct (timestamp y <? timestamp x) eqn:E; lia.
Qed.

#[export] Instance first_least_laws : PriorityQueueLaws first_least.
Proof.
  split; [done|]. intros [|x q] Hq; [done|]. exists (least x q). destruct (least_spec x q) as [Hin Hle].
  split; [done|]. split; [done|]. intros z Hz. apply Z.ltb_ge. by apply Hle.
Qed.

Lemma merge_result_sorted_witness :
  (exists out,
    MergeResult [[MkTs 1 20; MkTs 4 21]; [MkTs 2 30; MkTs 2 31; MkTs 9 32]; [MkTs 4 40]] = Some out /\
    out ≡ₚ concat [[MkTs 1 20; MkTs 4 21]; [MkTs 2 30; MkTs 2 31; MkTs 9 32]; [MkTs 4 40]] /\
    (Forall (StronglySorted ts_le) [[MkTs 1 20; MkTs 4 21]; [MkTs 2 30; MkTs 2 31; MkTs 9 32]; [MkTs 4 40]] ->
     StronglySorted ts_le out)) /\
  (exists out, MergeResult [[]] = Some out /\ out ≡ₚ [] /\ StronglySorted ts_le out) /\
  MergeResult [[MkTs 1 20]; []] = None.
Proof.
  split; [|split].
  - apply merge_result_sorted. right. apply (bool_decide_unpack _). vm_compute. exact I.
  - destruct (proj1 (merge_result_sorted [[]])) as (out & E & Pm & So); [by left|].
    exists out. split; [exact E|]. split; [exact Pm|]. apply So. repeat constructor.
  - apply (proj2 (merge_result_sorted [[MkTs 1 20]; []])); [done|]. right. by left.
Defined.

(** ** The time stamps *)

(** A measurement as the switch took it: its clock has no end, the packet has 18 bits of it. *)
Record sample := MkSample {
  sm_in_depth : Z; sm_in_timestamp : Z; sm_out_depth : Z; sm_time : Z; sm_seq : Z;
}.

(** The packet carries the measurement, or is of another length. *)
Definition carries (p : mbuf) (x : option sample) : Prop :=
  match x with
  | None => u32 (Z.of_nat (length (mb_data p))) <> target_length
  | Some x =>
      u32 (Z.of_nat (length (mb_data p))) = target_length /\
      data_word p 0 = sm_in_depth x /\ data_word p 1 = sm_in_timestamp x /\
      data_word p 2 = sm_out_depth x /\ data_word p 3 = sm_time x mod 2 ^ 18 /\ data_word p 4 = sm_seq x
  end.

(** Measurements arrive in order, less than one turn of the clock apart; the first one of
    a turn comes in its first 100000 ticks; no packet is older than the one before. *)
Fixpoint steady (t seq : Z) (xs : list sample) : Prop :=
  match xs with
  | [] => True
  | x :: xs =>
      t <= sm_time x < t + 2 ^ 18 /\ sm_time x < 2 ^ 64 /\
      (sm_time x / 2 ^ 18 <> t / 2 ^ 18 -> sm_time x mod 2 ^ 18 < 100000) /\
      seq <= sm_seq x /\ steady (sm_time x) (sm_seq x) xs
  end.

(** What is kept: packets that found the queue deeper than 19. *)
Definition deep (xs : list sample) : list sample := filter (fun x => 19 < sm_out_depth x) xs.
Definition dequeued (xs : list sample) : list timestamps_acc_number :=
  (fun x => MkTs (sm_time x) (sm_out_depth x)) <$> deep xs.
Definition enqueued (xs : list sample) : list timestamps_acc_number :=
  (fun x => MkTs (u64 (sm_time x - sm_in_timestamp x)) (sm_in_depth x)) <$> deep xs.

Lemma unwrap_step t r x :
  out_timestamp_last r = t mod 2 ^ 18 -> out_timestamp_acc r = t / 2 ^ 18 * 2 ^ 18 -> 0 <= t ->
  t <= x < t + 2 ^ 18 -> x < 2 ^ 64 -> (x / 2 ^ 18 <> t / 2 ^ 18 -> x mod 2 ^ 18 < 100000) ->
  unwrap (x mod 2 ^ 18) r = x / 2 ^ 18 * 2 ^ 18.
Proof.
  intros El Ea Ht Hx H64 Hw. unfold unwrap. rewrite El, Ea. change (Z.shiftl 1 18) with (2 ^ 18).
  pose proof (Z.div_mod t (2 ^ 18)) as D1. pose proof (Z.div_mod x (2 ^ 18)) as D2.
  pose proof (Z.mod_pos_bound t (2 ^ 18)). pose proof (Z.mod_pos_bound x (2 ^ 18)).
  destruct (decide (x / 2 ^ 18 = t / 2 ^ 18)) as [E|E].
  - rewrite E in *. rewrite (proj2 (Z.ltb_ge (x mod 2 ^ 18) (t mod 2 ^ 18))) by lia. done.
  - assert (x / 2 ^ 18 = t / 2 ^ 18 + 1) as E1 by lia. rewrite E1 in *.
    rewrite (proj2 (Z.ltb_lt (x mod 2 ^ 18) (t mod 2 ^ 18))), (proj2 (Z.ltb_lt (x mod 2 ^ 18) 100000)) by lia.
    cbn [andb]. rewrite wrapu_small by lia. lia.
Qed.

(** The counters and the results of one queue of a port. *)
Definition shows (port_id queueid : Z) (s : l2fwd) (received dropped : Z)
    (ins outs : list timestamps_acc_number) : Prop :=
  0 <= port_id /\ 0 <= queueid /\
  (exists st, port_statistics s !! Z.to_nat port_id = Some st /\
     rx st !! Z.to_nat queueid = Some received /\ tx_dropped st !! Z.to_nat queueid = Some dropped) /\
  total_inqueue_timestamp_acc s !! Z.to_nat queueid = Some ins /\
  total_dequeue_timestamp_acc s !! Z.to_nat queueid = Some outs.

Lemma upd_some {A} i (f : A -> A) l x :
  0 <= i -> l !! Z.to_nat i = Some x -> upd i f l = Some (<[Z.to_nat i := f x]> l).
Proof. intros Hi Hl. unfold upd. rewrite (proj2 (Z.ltb_ge i 0)) by lia. by rewrite Hl. Qed.

Lemma count_rx_shows p q s n d ins outs :
  shows p q s n d ins outs ->
  exists s', on_port p (count_rx q) s = Some s' /\ shows p q s' (u64 (n + 1)) d ins outs.
Proof.
  intros (Hp & Hq & (st & Hst & Hn & Hd) & Hi & Ho). unfold on_port, count_rx.
  rewrite (proj2 (Z.ltb_ge p 0)), Hst by lia. cbn. rewrite (upd_some _ _ _ _ Hq Hn). cbn. eexists. split; [done|].
  split; [done|]. split; [done|]. cbn. split; [|done]. eexists.
  rewrite list_lookup_insert_eq by (by eapply lookup_lt_Some). split; [done|]. cbn.
  rewrite list_lookup_insert_eq by (by eapply lookup_lt_Some). done.
Qed.

Lemma count_dropped_shows p q s n d ins outs :
  shows p q s n d ins outs ->
  exists s', on_port p (count_dropped q) s = Some s' /\ shows p q s' n (u64 (d + 1)) ins outs.
Proof.
  intros (Hp & Hq & (st & Hst & Hn & Hd) & Hi & Ho). unfold on_port, count_dropped.
  rewrite (proj2 (Z.ltb_ge p 0)), Hst by lia. cbn. rewrite (upd_some _ _ _ _ Hq Hd). cbn. eexists. split; [done|].
  split; [done|]. split; [done|]. cbn. split; [|done]. eexists.
  rewrite list_lookup_insert_eq by (by eapply lookup_lt_Some). split; [done|]. cbn.
  rewrite list_lookup_insert_eq by (by eapply lookup_lt_Some). done.
Qed.

Lemma push_result_shows p q a b s n d ins outs :
  shows p q s n d ins outs ->
  exists s', push_result q a b s = Some s' /\ shows p q s' n d (ins ++ [a]) (outs ++ [b]).
Proof.
  intros (Hp & Hq & Hst & Hi & Ho). unfold push_result.
  rewrite (upd_some _ _ _ _ Hq Hi). cbn. rewrite (upd_some _ _ _ _ Hq Ho). cbn. eexists. split; [done|].
  split; [done|]. split; [done|]. cbn. split; [done|].
  rewrite !list_lookup_insert_eq by (by eapply lookup_lt_Some). done.
Qed.

(** The local variables after the measurement at time [t] with number [seq]. *)
Definition tracks (t seq : Z) (r : rx_locals) : Prop :=
  0 <= t /\ out_timestamp_last r = t mod 2 ^ 18 /\ out_timestamp_acc r = t / 2 ^ 18 * 2 ^ 18 /\
  last_seq_num r = seq.

Definition lost (xs : list (option sample)) : Z := Z.of_nat (length xs - length (omap id xs)).

Lemma omap_length_le {A} (xs : list (option A)) : (length (omap id xs) <= length xs)%nat.
Proof. induction xs as [|[x|] xs IH]; cbn in *; lia. Qed.

Lemma rx_packet_kept p q pkt x s r t seq n d ins outs :
  shows p q s n d ins outs -> tracks t seq r -> carries pkt (Some x) -> steady t seq [x] ->
  exists s' r', rx_packet p q pkt (s, r) = Some (s', r') /\ tracks (sm_time x) (sm_seq x) r' /\
    freed r' = freed r ++ [mb_id pkt] /\
    shows p q s' (u64 (n + 1)) d (ins ++ enqueued [x]) (outs ++ dequeued [x]).
Proof.
  intros Hs (Ht & El & Ea & Eq) (Hlen & W0 & W1 & W2 & W3 & W4) (Hx & H64 & Hw & Hseq & _).
  unfold rx_packet. rewrite Hlen, Z.eqb_refl, W0, W1, W2, W3, W4, Eq.
  destruct (count_rx_shows _ _ _ _ _ _ _ Hs) as (s1 & E1 & Hs1). rewrite E1. cbn [mbind option_bind].
  rewrite (proj2 (Z.ltb_ge (sm_seq x) seq)) by lia. cbn [andb].
  rewrite (unwrap_step t r (sm_time x) El Ea Ht Hx H64 Hw).
  assert (sm_time x / 2 ^ 18 * 2 ^ 18 + sm_time x mod 2 ^ 18 = sm_time x) as Et by mlia. rewrite Et.
  rewrite (wrapu_small 64 (sm_time x)) by lia.
  assert (tracks (sm_time x) (sm_seq x) (free_mbuf pkt (MkRx (sm_time x mod 2 ^ 18)
    (sm_time x / 2 ^ 18 * 2 ^ 18) (sm_seq x) (freed r)))) as Htr by (split; [lia|done]).
  unfold enqueued, dequeued, deep. destruct (Z.ltb_spec 19 (sm_out_depth x)) as [Hd|Hd].
  - rewrite filter_cons_True by done.
    edestruct (push_result_shows p q) as (s2 & E2 & Hs2); [exact Hs1|]. rewrite E2. cbn [mbind option_bind].
    eexists _, _. split; [done|]. split; [exact Htr|]. split; [done|]. exact Hs2.
  - rewrite filter_cons_False by lia. eexists _, _. split; [done|]. split; [exact Htr|]. split; [done|].
    cbn. by rewrite !app_nil_r.
Qed.

Lemma rx_packet_other p q pkt s r n d ins outs :
  shows p q s n d ins outs -> carries pkt None ->
  exists s', rx_packet p q pkt (s, r) = Some (s', free_mbuf pkt r) /\ shows p q s' n (u64 (d + 1)) ins outs.
Proof.
  intros Hs Hc. unfold rx_packet. rewrite (proj2 (Z.eqb_neq _ _) Hc).
  destruct (count_dropped_shows _ _ _ _ _ _ _ Hs) as (s1 & E1 & Hs1). rewrite E1. cbn. by eexists.
Qed.

Lemma dequeued_app a b : dequeued (a ++ b) = dequeued a ++ dequeued b.
Proof. unfold dequeued, deep. by rewrite list.filter_app, fmap_app. Qed.
Lemma enqueued_app a b : enqueued (a ++ b) = enqueued a ++ enqueued b.
Proof. unfold enqueued, deep. by rewrite list.filter_app, fmap_app. Qed.

Lemma rx_burst_spec p q pkts xs s r t seq n d ins outs :
  shows p q s n d ins outs -> tracks t seq r -> Forall2 carries pkts xs -> steady t seq (omap id xs) ->
  exists s' r', rx_burst p q pkts (s, r) = Some (s', r') /\ freed r' = freed r ++ (mb_id <$> pkts) /\
    (exists n' d', shows p q s' n' d' (ins ++ enqueued (omap id xs)) (outs ++ dequeued (omap id xs)) /\
      u64 n' = u64 (n + Z.of_nat (length (omap id xs))) /\ u64 d' = u64 (d + lost xs)).
Proof.
  intros Hs Ht HF. revert s r t seq n d ins outs Hs Ht.
  induction HF as [|pkt [x|] pkts xs Hc HF IH]; intros s r t seq n d ins outs Hs Ht Hst; cbn [rx_burst].
  - exists s, r. split; [done|]. cbn. rewrite !app_nil_r. split; [done|]. exists n, d.
    unfold lost. cbn. by rewrite !Z.add_0_r.
  - destruct Hst as (H1 & H2 & H3 & H4 & Hst).
    destruct (rx_packet_kept p q pkt x s r t seq n d ins outs Hs Ht Hc) as (s1 & r1 & E1 & Ht1 & F1 & Hs1); [done|].
    rewrite E1. cbn [mbind option_bind].
    destruct (IH s1 r1 _ _ _ _ _ _ Hs1 Ht1 Hst) as (s2 & r2 & E2 & F2 & n2 & d2 & Hs2 & En & Ed).
    exists s2, r2. split; [done|]. rewrite F2, F1, <- app_assoc. split; [done|]. exists n2, d2.
    change (omap id (Some x :: xs)) with ([x] ++ omap id xs). rewrite enqueued_app, dequeued_app, !app_assoc.
    split; [done|]. rewrite En, Ed, wrapu_add_l. split; [f_equal; cbn; lia|]. done.
  - change (omap id (None :: xs)) with (omap (@id (option sample)) xs) in *.
    destruct (rx_packet_other p q pkt s r n d ins outs Hs Hc) as (s1 & E1 & Hs1). rewrite E1. cbn [mbind option_bind].
    destruct (IH s1 (free_mbuf pkt r) t seq _ _ _ _ Hs1 Ht Hst) as (s2 & r2 & E2 & F2 & n2 & d2 & Hs2 & En & Ed).
    exists s2, r2. split; [done|]. rewrite F2. cbn [freed free_mbuf]. rewrite <- app_assoc. split; [done|].
    exists n2, d2. split; [done|]. split; [done|]. rewrite Ed, wrapu_add_l. f_equal. unfold lost. cbn.
    pose proof (omap_length_le xs). lia.
Qed.

Lemma rx_turns_one p q env sr : rx_turns p [q] env sr = rx_burst p q (concat ((fun b => b q) <$> env)) sr.
Proof.
  assert (forall a b sr, rx_burst p q (a ++ b) sr = rx_burst p q a sr ≫= rx_burst p q b) as Happ.
  { induction a as [|x a IH]; intros b sr0; cbn; [done|]. destruct (rx_packet p q x sr0); [apply IH|done]. }
  revert sr. induction env as [|b env IH]; intros sr; cbn; [done|]. rewrite Happ.
  destruct (rx_burst p q (b q) sr); cbn; [apply IH|done].
Qed.

Lemma steady_sorted t seq xs :
  steady t seq xs -> StronglySorted ts_le (dequeued xs) /\ Forall (fun y => t <= timestamp y) (dequeued xs).
Proof.
  revert t seq. induction xs as [|x xs IH]; intros t seq; [by repeat constructor|].
  intros (Hx & _ & _ & _ & Hs). destruct (IH _ _ Hs) as [Hso Hge]. unfold dequeued, deep in *.
  assert (Forall (fun y => t <= timestamp y) ((fun x => MkTs (sm_time x) (sm_out_depth x)) <$>
    filter (fun x => 19 < sm_out_depth x) xs)) by (apply (list.Forall_impl _ _ _ Hge); lia).
  destruct (decide (19 < sm_out_depth x)).
  - rewrite filter_cons_True by done. cbn. split; constructor; [done|exact Hge|cbn; lia|done].
  - rewrite filter_cons_False by done. done.
Qed.

(** The number of result vectors never changes. *)
Definition same_queues (s s' : l2fwd) : Prop :=
  length (total_inqueue_timestamp_acc s') = length (total_inqueue_timestamp_acc s) /\
  length (total_dequeue_timestamp_acc s') = length (total_dequeue_timestamp_acc s).

Lemma upd_length {A} i (f : A -> A) l l' : upd i f l = Some l' -> length l' = length l.
Proof.
  unfold upd. destruct (i <? 0); [done|]. destruct (l !! _); [|done]. intros [= <-]. apply length_insert.
Qed.

Lemma on_port_queues p f s s' : on_port p f s = Some s' -> same_queues s s'.
Proof.
  unfold on_port. destruct (p <? 0); [done|]. destruct (_ !! _) as [st|]; [|done]. cbn.
  destruct (f st); [|done]. cbn. by intros [= <-].
Qed.

Lemma rx_packet_queues p q pkt s r s' r' : rx_packet p q pkt (s, r) = Some (s', r') -> same_queues s s'.
Proof.
  unfold rx_packet. destruct (_ =? _).
  - destruct (on_port _ _ _) as [s1|] eqn:E1; [|done]. apply on_port_queues in E1 as [A B]. cbn [mbind option_bind].
    destruct (_ && _); [by intros [= <- _]|]. destruct (19 <? _); [|by intros [= <- _]].
    unfold push_result. destruct (upd q _ (total_inqueue_timestamp_acc s1)) as [ins|] eqn:E2; [|done]. cbn.
    destruct (upd q _ (total_dequeue_timestamp_acc s1)) as [outs|] eqn:E3; [|done]. cbn. intros [= <- _].
    apply upd_length in E2, E3. split; cbn; congruence.
  - destruct (on_port _ _ _) as [s1|] eqn:E1; [|done]. apply on_port_queues in E1. cbn. by intros [= <- _].
Qed.

Lemma rx_burst_queues p q pkts s r s' r' : rx_burst p q pkts (s, r) = Some (s', r') -> same_queues s s'.
Proof.
  revert s r. induction pkts as [|x pkts IH]; intros s r; cbn [rx_burst]; [by intros [= <- _]|].
  destruct (rx_packet p q x (s, r)) as [[s1 r1]|] eqn:E1; [|done]. cbn [mbind option_bind].
  intros [A B]%IH. apply rx_packet_queues in E1 as [C D]. split; congruence.
Qed.

Lemma main_loop_measures (qconf : server_queue_conf) (q : Z) (env : list (Z -> list mbuf))
    (xs : list (option sample)) (s : l2fwd) (n d : Z) :
  n_tx_rx_queue qconf = 1 -> tx_rx_queue_list qconf = [q] -> shows (portid qconf) q s n d [] [] ->
  Forall2 carries (concat ((fun b => b q) <$> env)) xs -> steady 0 0 (omap id xs) ->
  exists s' r n' d', l2fwd_main_loop qconf env s = Some (s', r) /\
    shows (portid qconf) q s' n' d' (enqueued (omap id xs)) (dequeued (omap id xs)) /\
    same_queues s s' /\
    u64 n' = u64 (n + Z.of_nat (length (omap id xs))) /\ u64 d' = u64 (d + lost xs) /\
    freed r = mb_id <$> concat ((fun b => b q) <$> env).
Proof.
  intros Hn Hq Hs HF Hst. unfold l2fwd_main_loop. rewrite Hn, Hq. cbn [Z.eqb length Z.of_nat Z.ltb take].
  change (Z.to_nat 1) with 1%nat. cbn [take]. rewrite rx_turns_one.
  destruct (rx_burst_spec (portid qconf) q (concat ((fun b => b q) <$> env)) xs s rx_start 0 0 n d [] []) as
    (s' & r & E & Fr & n' & d' & Hs' & En & Ed); [done| |done|done|].
  { split; [lia|done]. }
  exists s', r, n', d'. split; [done|]. split; [done|].
  split; [exact (rx_burst_queues _ _ _ _ _ _ _ E)|].
  split; [done|]. split; [done|]. exact Fr.
Qed.

(** C34.  The time stamps of the measurements are recovered.  When a core has one queue, and
    its measurements arrive in order of time and of their sequence numbers, less than one turn
    of the 18-bit clock ([2 ^ 18] ticks) apart, the first one of each turn before tick 100000
    of the turn, the times all below [2 ^ 64], then the receiver stores, for every packet that found the queue
    deeper than 19, the full time at which it left and entered the queue, in order of the
    departures; packets of another length are only counted, and every mbuf is freed once. *)
Theorem timestamps_unwrapped (qconf : server_queue_conf) (q : Z) (env : list (Z -> list mbuf))
    (xs : list (option sample)) (s : l2fwd) (n d : Z) :
  n_tx_rx_queue qconf = 1 -> tx_rx_queue_list qconf = [q] -> shows (portid qconf) q s n d [] [] ->
  Forall2 carries (concat ((fun b => b q) <$> env)) xs -> steady 0 0 (omap id xs) ->
  exists s' r n' d', l2fwd_main_loop qconf env s = Some (s', r) /\
    shows (portid qconf) q s' n' d' (enqueued (omap id xs)) (dequeued (omap id xs)) /\
    StronglySorted ts_le (dequeued (omap id xs)) /\
    u64 n' = u64 (n + Z.of_nat (length (omap id xs))) /\ u64 d' = u64 (d + lost xs) /\
    freed r = mb_id <$> concat ((fun b => b q) <$> env).
Proof.
  intros Hn Hq Hs HF Hst. destruct (main_loop_measures qconf q env xs s n d Hn Hq Hs HF Hst) as
    (s' & r & n' & d' & E & Hs' & _ & H). exists s', r, n', d'. split; [done|]. split; [done|].
  split; [by destruct (steady_sorted _ _ _ Hst)|exact H].
Qed.

(** Three packets: at time 262000, after the clock has turned, and one of another length. *)
Definition word_bytes (v : Z) : list Z :=
  [v / 2 ^ 24 mod 256; v / 2 ^ 16 mod 256; v / 2 ^ 8 mod 256; v mod 256].
Definition sample_packet (id : Z) (ws : list Z) : mbuf :=
  MkMbuf id (replicate 54 0 ++ (ws ≫= word_bytes) ++ replicate 1008 0).
Definition sample_bursts (q : Z) : list mbuf :=
  [sample_packet 1 [7; 30; 25; 262000; 1]; MkMbuf 2 [1; 2; 3]; sample_packet 3 [8; 40; 26; 500; 2]].

Lemma timestamps_unwrapped_witness :
  exists s' r n' d',
    l2fwd_main_loop (MkQconf 1 [0] 0) [sample_bursts] (MkL2 [zero_stat] [zero_stat] [[]] [[]]) = Some (s', r) /\
    shows 0 0 s' n' d' [MkTs 261970 7; MkTs 262604 8] [MkTs 262000 25; MkTs 262644 26] /\
    StronglySorted ts_le [MkTs 262000 25; MkTs 262644 26] /\ u64 n' = 2 /\ u64 d' = 1 /\ freed r = [1; 2; 3].
Proof.
  apply (timestamps_unwrapped (MkQconf 1 [0] 0) 0 [sample_bursts]
    [Some (MkSample 7 30 25 262000 1); None; Some (MkSample 8 40 26 (2 ^ 18 + 500) 2)]
    (MkL2 [zero_stat] [zero_stat] [[]] [[]]) 0 0).
  - reflexivity.
  - reflexivity.
  - split; [done|]. split; [done|]. split; [by exists zero_stat|done].
  - apply list.Forall2_cons; split; [vm_compute; repeat split|].
    apply list.Forall2_cons; split; [vm_compute; discriminate|].
    apply list.Forall2_cons; split; [vm_compute; repeat split|constructor].
  - vm_compute. repeat split; intros; (reflexivity || discriminate || (exfalso; auto)).
Defined.

(** ** The check of the links *)

Definition CHECK_INTERVAL : Z := 100.
Definition MAX_CHECK_TIME : nat := 90.

Inductive link_event := Dot | DelayMs (ms : Z) | DoneMsg | LinkFailed (port : Z) | LinkText (port : Z).

(** One pass over the ports: [link] is the state of a port, [None] when it cannot be had;
    [quit] says what the [n]-th read of [force_quit] sees. *)
Fixpoint link_ports (port_mask : Z) (print_flag : bool) (link : Z -> option bool) (quit : nat -> bool)
    (ports : list Z) (reads : nat) (all_ports_up : bool) : option bool * nat * list link_event :=
  match ports with
  | [] => (Some all_ports_up, reads, [])
  | portid :: ports =>
      if quit reads then (None, S reads, [])
      else if Z.land port_mask (Z.shiftl 1 portid) =? 0 then
        link_ports port_mask print_flag link quit ports (S reads) all_ports_up
      else
        match link portid with
        | None =>
            let '(r, n, ev) := link_ports port_mask print_flag link quit ports (S reads) false in
            (r, n, (if print_flag then [LinkFailed portid] else []) ++ ev)
        | Some up =>
            if print_flag then
              let '(r, n, ev) := link_ports port_mask print_flag link quit ports (S reads) all_ports_up in
              (r, n, LinkText portid :: ev)
            else if (up : bool) then link_ports port_mask print_flag link quit ports (S reads) all_ports_up
            else (Some false, S reads, [])
        end
  end.

Fixpoint link_rounds (port_mask : Z) (links : nat -> Z -> option bool) (quit : nat -> bool) (ports : list Z)
    (fuel count reads : nat) (print_flag : bool) : list link_event :=
  match fuel with
  | O => []
  | S fuel =>
      if quit reads then []
      else
        let '(r, reads, ev) := link_ports port_mask print_flag (links count) quit ports (S reads) true in
        match r with
        | None => ev
        | Some all_ports_up =>
            ev ++
            if print_flag then []
            else
              (if all_ports_up then [] else [Dot; DelayMs CHECK_INTERVAL]) ++
              let print_flag := all_ports_up || (count =? MAX_CHECK_TIME - 1)%nat in
              (if print_flag then [DoneMsg] else []) ++
              link_rounds port_mask links quit ports fuel (S count) reads print_flag
        end
  end.

Definition check_all_ports_link_status (port_mask : Z) (links : nat -> Z -> option bool)
    (quit : nat -> bool) (ports : list Z) : list link_event :=
  link_rounds port_mask links quit ports (S MAX_CHECK_TIME) 0 0 false.

(** The ports of the mask, whether all of them are up, and the line printed of each. *)
Definition enabled (port_mask : Z) (ports : list Z) : list Z :=
  filter (fun p => Z.land port_mask (Z.shiftl 1 p) <> 0) ports.
Definition all_up (port_mask : Z) (link : Z -> option bool) (ports : list Z) : bool :=
  forallb (fun p => bool_decide (link p = Some true)) (enabled port_mask ports).
Definition port_lines (port_mask : Z) (link : Z -> option bool) (ports : list Z) : list link_event :=
  (fun p => match link p with None => LinkFailed p | Some _ => LinkText p end) <$> enabled port_mask ports.

Lemma enabled_cons mask p ports :
  enabled mask (p :: ports) =
    (if Z.land mask (Z.shiftl 1 p) =? 0 then [] else [p]) ++ enabled mask ports.
Proof.
  unfold enabled. destruct (Z.eqb_spec (Z.land mask (Z.shiftl 1 p)) 0) as [E|E].
  - by rewrite filter_cons_False by tauto.
  - by rewrite filter_cons_True.
Qed.

Section Links.
Context (port_mask : Z) (ports : list Z).

Lemma link_ports_silent link ports' n up :
  exists n', link_ports port_mask false link (fun _ => false) ports' n up =
    (Some (up && all_up port_mask link ports'), n', []).
Proof.
  revert n up. induction ports' as [|p ports' IH]; intros n up; cbn [link_ports].
  { exists n. cbn. by rewrite andb_true_r. }
  unfold all_up. rewrite enabled_cons. destruct (_ =? 0); [apply IH|]. cbn [app forallb].
  destruct (link p) as [[]|] eqn:E.
  - destruct (IH (S n) up) as (n' & ->). exists n'. by rewrite bool_decide_eq_true_2.
  - exists (S n). rewrite bool_decide_eq_false_2 by done. by rewrite andb_false_r.
  - destruct (IH (S n) false) as (n' & ->). exists n'. rewrite bool_decide_eq_false_2 by done.
    by rewrite andb_false_r.
Qed.

Lemma link_ports_printing link ports' n up :
  exists b n', link_ports port_mask true link (fun _ => false) ports' n up =
    (Some b, n', port_lines port_mask link ports').
Proof.
  revert n up. induction ports' as [|p ports' IH]; intros n up; cbn [link_ports]; [by exists up, n|].
  unfold port_lines. rewrite enabled_cons. destruct (_ =? 0); [apply IH|].
  destruct (link p) as [up'|] eqn:E.
  - destruct (IH (S n) up) as (b & n' & ->). exists b, n'. cbn. by rewrite E.
  - destruct (IH (S n) false) as (b & n' & ->). exists b, n'. cbn. by rewrite E.
Qed.

Lemma link_rounds_print links fuel count reads :
  link_rounds port_mask links (fun _ => false) ports (S fuel) count reads true =
    port_lines port_mask (links count) ports.
Proof.
  cbn [link_rounds]. destruct (link_ports_printing (links count) ports (S reads) true) as (b & n & ->).
  by rewrite app_nil_r.
Qed.

Definition waiting (k : nat) : list link_event := concat (replicate k [Dot; DelayMs CHECK_INTERVAL]).

Lemma link_rounds_wait links fuel count reads :
  (count < MAX_CHECK_TIME)%nat -> (fuel = S MAX_CHECK_TIME - count)%nat ->
  exists k, (count + k <= MAX_CHECK_TIME)%nat /\
    (forall c, (count <= c < count + k)%nat -> all_up port_mask (links c) ports = false) /\
    ((count + k < MAX_CHECK_TIME)%nat -> all_up port_mask (links (count + k)%nat) ports = true) /\
    link_rounds port_mask links (fun _ => false) ports fuel count reads false =
      waiting k ++ DoneMsg :: port_lines port_mask (links (Nat.min (count + k + 1) MAX_CHECK_TIME)) ports.
Proof.
  unfold MAX_CHECK_TIME. revert count reads. induction fuel as [|fuel IH]; intros count reads Hc Hf; [lia|].
  cbn [link_rounds]. destruct (link_ports_silent (links count) ports (S reads) true) as (n & ->).
  cbn [andb app]. destruct (all_up port_mask (links count) ports) eqn:Eu; cbn [orb].
  - exists 0%nat. split; [lia|]. split; [lia|]. rewrite Nat.add_0_r, Nat.min_l by lia. split; [done|].
    destruct fuel as [|fuel]; [lia|]. rewrite link_rounds_print. cbn. by rewrite Nat.add_1_r.
  - unfold MAX_CHECK_TIME. destruct (Nat.eqb_spec count (90 - 1)) as [E|E].
    + exists 1%nat. split; [lia|]. split; [intros c Hcc; by replace c with count by lia|]. split; [lia|].
      destruct fuel as [|fuel]; [lia|]. rewrite link_rounds_print. cbn.
      by replace (count + 1 + 1)%nat with 91%nat by lia; replace (S count) with 90%nat by lia.
    + destruct (IH (S count) n) as (k & Hk & Hdown & Hup & Ev); [lia..|]. exists (S k).
      split; [lia|]. split; [|split].
      * intros c Hcc. destruct (decide (c = count)) as [->|]; [done|]. apply Hdown. lia.
      * intros Hlt. replace (count + S k)%nat with (S count + k)%nat by lia. apply Hup. lia.
      * rewrite Ev. replace (count + S k + 1)%nat with (S count + k + 1)%nat by lia. done.
Qed.

(** The check of the links ends: after [k] waits of 100 ms, at most 90 of them, it says
    that it is done, and then prints the state of every enabled port once.  It stops waiting
    at the first round that finds all of them up, or after the 90th that does not. *)
Theorem link_check_reports (links : nat -> Z -> option bool) :
  exists k, (k <= MAX_CHECK_TIME)%nat /\
    (forall c, (c < k)%nat -> all_up port_mask (links c) ports = false) /\
    ((k < MAX_CHECK_TIME)%nat -> all_up port_mask (links k) ports = true) /\
    check_all_ports_link_status port_mask links (fun _ => false) ports =
      waiting k ++ DoneMsg :: port_lines port_mask (links (Nat.min (k + 1) MAX_CHECK_TIME)) ports.
Proof.
  destruct (link_rounds_wait links (S MAX_CHECK_TIME) 0 0) as (k & Hk & Hd & Hu & Ev); [unfold MAX_CHECK_TIME; lia..|].
  exists k. split; [done|]. split; [intros c Hc; apply Hd; lia|]. split; [done|exact Ev].
Qed.
End Links.
