(* ===== verification/ReceiveMain.v ===== *)
(** * ReceiveMain: the program around the reception of queue measurements

    Translation of [main] of [test_suite/rdma_bench/receive_control.cpp]: the assignment of
    queues to cores, the set-up of the ports, the run and the result file.  A call of DPDK is
    a value of [l2_call], answered by the class [L2Lib]; [rte_exit], a failed [assert] and
    a [reserve] that throws [std::bad_alloc] end the program.  The cores are run one after the other: a worker writes the statistics and
    results of its own queues only, and the main core reads the statistics and copies them. *)

From S2P Require Import Prelude FlexioDev ReceiveControl.

Definition MEMPOOL_CACHE_SIZE : Z := 256.
Definition MAX_QUEUE_PER_LCORE : Z := 1.
(** The elements, of 16 bytes, that each vector of results makes room for. *)
Definition RESULT_RESERVE : Z := 1000000000.

Inductive l2_call :=
  | EalInit | CountAvail | MacaddrGet (p : Z) | NameByPort (p : Z) | SocketId
  | PoolCreate (n : Z) | Reserve (q n : Z) (* the [reserve] of a vector *) | DevInfoGet (p : Z) | DevConfigure (p rxq txq tx_offloads rss_hf : Z)
  | AdjustDesc (p rxd txd : Z) | PromiscuousDisable (p : Z) | DevSocketId (p : Z)
  | RxQueueSetup (p q desc pool : Z) | TxQueueSetup (p q desc tx_offloads : Z) | SetPtypes (p : Z)
  | DevStart (p : Z) | RemoteLaunch | WaitLcore (lcore : Z) | DevStop (p : Z) | DevClose (p : Z)
  | EalCleanup.

Class L2Lib := {
  RTE_MAX_ETHPORTS : Z;
  RTE_MAX_LCORE : Z;
  RTE_ETH_TX_OFFLOADS : Z;
  RTE_ETH_TX_OFFLOAD_MBUF_FAST_FREE : Z;
  RTE_ETH_RSS_UDP : Z;
  (** the value a call returns, after the calls made before; for [Reserve] whether it returns *)
  l2_answer : list (l2_call * Z) -> l2_call -> Z;
  (** the ports [RTE_ETH_FOREACH_DEV] goes through, and what is known of them *)
  dev_ports : list Z;
  tx_offload_capa : Z -> Z;
  flow_type_rss_offloads : Z -> Z;
  adjusted : Z -> Z * Z -> Z * Z;
  rte_lcore_is_enabled : Z -> bool;
  rte_get_main_lcore : Z;
  links : nat -> Z -> option bool;
  rte_get_timer_hz : Z;
  (** [1 << n] for [n] not below the width of an [int], which C++ leaves undefined *)
  shift_undefined : Z -> Z;
}.

Record prog := MkProg {
  p_calls : list (l2_call * Z);
  nb_rxd : Z; nb_txd : Z; tx_offloads : Z; rss_hf : Z; timer_period : Z;
  queue_conf : list server_queue_conf;
  p_data : l2fwd;
  p_log : list link_event;
}.

(** The program, as long as it has not ended. *)
Definition R (A : Type) : Type := prog -> option A * prog.

#[export] Instance R_ret : MRet R := fun A a s => (Some a, s).
#[export] Instance R_bind : MBind R := fun A B f m s =>
  match m s with (Some a, s) => f a s | (None, s) => (None, s) end.

Definition rte_exit {A} : R A := fun s => (None, s).
Definition read {A} (f : prog -> A) : R A := fun s => (Some (f s), s).
Definition ensure (b : bool) : R unit := if b then mret tt else rte_exit.

Definition set_desc (d : Z * Z) : R unit := fun s =>
  (Some tt, MkProg (p_calls s) d.1 d.2 (tx_offloads s) (rss_hf s) (timer_period s) (queue_conf s) (p_data s) (p_log s)).
Definition set_conf (tx rss : Z) : R unit := fun s =>
  (Some tt, MkProg (p_calls s) (nb_rxd s) (nb_txd s) tx rss (timer_period s) (queue_conf s) (p_data s) (p_log s)).
Definition set_period (t : Z) : R unit := fun s =>
  (Some tt, MkProg (p_calls s) (nb_rxd s) (nb_txd s) (tx_offloads s) (rss_hf s) t (queue_conf s) (p_data s) (p_log s)).
Definition set_qconf (q : list server_queue_conf) : R unit := fun s =>
  (Some tt, MkProg (p_calls s) (nb_rxd s) (nb_txd s) (tx_offloads s) (rss_hf s) (timer_period s) q (p_data s) (p_log s)).
Definition set_data (d : l2fwd) : R unit := fun s =>
  (Some tt, MkProg (p_calls s) (nb_rxd s) (nb_txd s) (tx_offloads s) (rss_hf s) (timer_period s) (queue_conf s) d (p_log s)).
Definition print_log (l : list link_event) : R unit := fun s =>
  (Some tt, MkProg (p_calls s) (nb_rxd s) (nb_txd s) (tx_offloads s) (rss_hf s) (timer_period s) (queue_conf s)
              (p_data s) (p_log s ++ l)).

Fixpoint each {A} (l : list A) (body : A -> R unit) : R unit :=
  match l with
  | [] => mret tt
  | x :: l => _ ← body x; each l body
  end.

Section Main.
Context {L : L2Lib}.

Definition rcall (c : l2_call) : R Z := fun s =>
  let r := l2_answer (p_calls s) c in
  (Some r, MkProg (p_calls s ++ [(c, r)]) (nb_rxd s) (nb_txd s) (tx_offloads s) (rss_hf s) (timer_period s)
             (queue_conf s) (p_data s) (p_log s)).

(** [if (call < 0) rte_exit(...)] *)
Definition must (c : l2_call) : R unit := ret ← rcall c; ensure (negb (ret <? 0)).

(** [1 << n], an [int] *)
Definition int_bit (n : Z) : Z := if n <? 32 then s32 (Z.shiftl 1 n) else s32 (shift_undefined n).

Definition port_enabled (portid : Z) : bool := negb (Z.land l2fwd_enabled_port_mask (u32 (int_bit portid)) =? 0).

(** [l2fwd_enabled_port_mask & ~((1 << nb_ports) - 1)]; for 31 ports the subtraction of the
    [int]s overflows, which is taken to wrap around. *)
Definition impossible_ports (nb_ports : Z) : Z :=
  Z.land l2fwd_enabled_port_mask (u32 (Z.lnot (s32 (int_bit nb_ports - 1)))).

(** ** Queues and cores *)

(** The next core that can take a queue, from [rx_lcore_id] on. *)
Fixpoint find_lcore (fuel : nat) (rx_lcore_id : Z) : R Z :=
  match fuel with
  | O => rte_exit
  | S fuel =>
      confs ← read queue_conf;
      match confs !! Z.to_nat rx_lcore_id with
      | None => rte_exit
      | Some c =>
          if negb (rte_lcore_is_enabled rx_lcore_id) || (rx_lcore_id =? rte_get_main_lcore) ||
             (n_tx_rx_queue c =? MAX_QUEUE_PER_LCORE)
          then
            let rx_lcore_id := rx_lcore_id + 1 in
            if RTE_MAX_LCORE <=? rx_lcore_id then rte_exit else find_lcore fuel rx_lcore_id
          else mret rx_lcore_id
      end
  end.

(** [for (int i = 0; tx_rx_queue_count < TX_RX_QUEUE && i < MAX_QUEUE_PER_LCORE; i++)] *)
Fixpoint fill_queues (n : nat) (i tx_rx_queue_count : Z) (c : server_queue_conf) : server_queue_conf * Z :=
  match n with
  | O => (c, tx_rx_queue_count)
  | S n =>
      if tx_rx_queue_count <? TX_RX_QUEUE then
        fill_queues n (i + 1) (tx_rx_queue_count + 1)
          (MkQconf (u32 (n_tx_rx_queue c + 1)) (<[Z.to_nat i := tx_rx_queue_count]> (tx_rx_queue_list c)) (portid c))
      else (c, tx_rx_queue_count)
  end.

(** The queues of one port; the core looked at last, the core of [qconf] and their number. *)
Fixpoint assign_queues (fuel : nat) (port tx_rx_queue_count rx_lcore_id : Z) (qconf : option Z) (nb_lcores : Z) :
    R (Z * option Z * Z) :=
  match fuel with
  | O => mret (rx_lcore_id, qconf, nb_lcores)
  | S fuel =>
      if tx_rx_queue_count <? TX_RX_QUEUE then
        rx_lcore_id ← find_lcore (Z.to_nat RTE_MAX_LCORE) rx_lcore_id;
        let nb_lcores := if decide (qconf = Some rx_lcore_id) then nb_lcores else nb_lcores + 1 in
        confs ← read queue_conf;
        match confs !! Z.to_nat rx_lcore_id with
        | None => rte_exit
        | Some c =>
            let '(c, count) := fill_queues (Z.to_nat MAX_QUEUE_PER_LCORE) 0 tx_rx_queue_count c in
            let c := MkQconf (n_tx_rx_queue c) (tx_rx_queue_list c) port in
            _ ← set_qconf (<[Z.to_nat rx_lcore_id := c]> confs);
            assign_queues fuel port count rx_lcore_id (Some rx_lcore_id) nb_lcores
        end
      else mret (rx_lcore_id, qconf, nb_lcores)
  end.

Fixpoint assign_ports (ports : list Z) (rx_lcore_id : Z) (qconf : option Z) (nb_lcores nb_ports_available : Z) :
    R (Z * Z) :=
  match ports with
  | [] => mret (nb_lcores, nb_ports_available)
  | port :: ports =>
      _ ← must (MacaddrGet port);
      _ ← must (NameByPort port);
      if port_enabled port then
        '(rx_lcore_id, qconf, nb_lcores) ← assign_queues (Z.to_nat TX_RX_QUEUE) port 0 rx_lcore_id qconf nb_lcores;
        assign_ports ports rx_lcore_id qconf nb_lcores (u16 (nb_ports_available + 1))
      else assign_ports ports rx_lcore_id qconf nb_lcores nb_ports_available
  end.

(** ** Ports *)

Definition init_port (pool port : Z) : R unit :=
  if port_enabled port then
    ret ← rcall (DevInfoGet port);
    _ ← ensure (ret =? 0);
    tx ← read tx_offloads;
    let tx := if truthy (Z.land (tx_offload_capa port) RTE_ETH_TX_OFFLOAD_MBUF_FAST_FREE)
              then Z.lor tx RTE_ETH_TX_OFFLOAD_MBUF_FAST_FREE else tx in
    rss ← read rss_hf;
    let rss := Z.land rss (flow_type_rss_offloads port) in
    _ ← set_conf tx rss;
    _ ← must (DevConfigure port TX_RX_QUEUE TX_RX_QUEUE tx rss);
    rxd ← read nb_rxd;
    txd ← read nb_txd;
    ret ← rcall (AdjustDesc port rxd txd);
    _ ← set_desc (adjusted port (rxd, txd));
    _ ← ensure (negb (ret <? 0));
    _ ← must (PromiscuousDisable port);
    rxd ← read nb_rxd;
    _ ← each (seqZ 0 TX_RX_QUEUE) (fun i => _ ← rcall (DevSocketId port); must (RxQueueSetup port i rxd pool));
    _ ← each (seqZ 0 TX_RX_QUEUE) (fun i => _ ← rcall (DevSocketId port); must (TxQueueSetup port i rxd tx));
    _ ← rcall (SetPtypes port);
    must (DevStart port)
  else mret tt.

Definition close_port (port : Z) (ret : Z) : R Z :=
  if port_enabled port then
    ret ← rcall (DevStop port);
    _ ← rcall (DevClose port);
    mret ret
  else mret ret.
Fixpoint close_ports (ports : list Z) (ret : Z) : R Z :=
  match ports with
  | [] => mret ret
  | port :: ports => ret ← close_port port ret; close_ports ports ret
  end.

(** ** The run *)

(** [ticks] are the values of the time stamp counter that the main core reads. *)
Definition l2fwd_launch_one_lcore (lcore : Z) (env : Z -> list (Z -> list mbuf)) (ticks : list Z) : R unit :=
  s ← read p_data;
  if lcore =? rte_get_main_lcore then
    period ← read timer_period;
    match l2fwd_main_lcore_show_status period rte_get_timer_hz lcore rte_get_main_lcore
            ((fun t => (t, id)) <$> ticks) s with
    | None => rte_exit
    | Some (_, s) => set_data s
    end
  else
    confs ← read queue_conf;
    match confs !! Z.to_nat lcore with
    | None => rte_exit
    | Some c =>
        match l2fwd_main_loop c (env lcore) s with
        | None => rte_exit
        | Some (s, _) => set_data s
        end
    end.

(** [RTE_LCORE_FOREACH_WORKER] *)
Definition worker_lcores : list Z :=
  filter (fun l => rte_lcore_is_enabled l = true /\ l <> rte_get_main_lcore) (seqZ 0 RTE_MAX_LCORE).

Fixpoint wait_lcores (lcores : list Z) : R Z :=
  match lcores with
  | [] => mret 0
  | l :: lcores => ret ← rcall (WaitLcore l); if ret <? 0 then mret (-1) else wait_lcores lcores
  end.

Definition zero_conf : server_queue_conf := MkQconf 0 (replicate (Z.to_nat MAX_QUEUE_PER_LCORE) 0) 0.

(** The static variables before [main]. *)
Definition prog_start : prog :=
  MkProg [] 2048 2048 RTE_ETH_TX_OFFLOADS RTE_ETH_RSS_UDP 1
    (replicate (Z.to_nat RTE_MAX_LCORE) zero_conf)
    (MkL2 (replicate (Z.to_nat RTE_MAX_ETHPORTS) zero_stat) (replicate (Z.to_nat RTE_MAX_ETHPORTS) zero_stat) [] [])
    [].

Definition setup : R unit :=
  _ ← must EalInit;
  period ← read timer_period;
  _ ← set_period (period *64 rte_get_timer_hz)%cint;
  nb_ports ← rcall CountAvail;
  let nb_ports := u16 nb_ports in
  _ ← ensure (negb (nb_ports =? 0));
  _ ← ensure (impossible_ports nb_ports =? 0);
  '(nb_lcores, nb_ports_available) ← assign_ports dev_ports 0 None 0 0;
  rxd ← read nb_rxd;
  txd ← read nb_txd;
  _ ← rcall SocketId;
  pool ← rcall (PoolCreate (Z.min 300000 (u32 ((rxd + txd) * nb_lcores + MEMPOOL_CACHE_SIZE * 2 * nb_lcores))));
  _ ← ensure (truthy pool);
  let vectors := replicate (Z.to_nat TX_RX_QUEUE) [] in
  d ← read p_data;
  _ ← set_data (MkL2 (port_statistics d) (port_statistics_period d) vectors vectors);
  _ ← each (seqZ 0 TX_RX_QUEUE) (fun i => _ ← must (Reserve i RESULT_RESERVE); must (Reserve i RESULT_RESERVE));
  _ ← each dev_ports (init_port pool);
  let stats := replicate (Z.to_nat RTE_MAX_ETHPORTS) zero_stat in
  _ ← set_data (MkL2 stats stats vectors vectors);
  _ ← ensure (negb (nb_ports_available =? 0));
  print_log (check_all_ports_link_status l2fwd_enabled_port_mask links (fun _ => false) dev_ports).

Context {P : PriorityQueue}.

(** The rows of the result file, and the exit status. *)
Definition main (env : Z -> list (Z -> list mbuf)) (ticks : list Z) :
    R (list (timestamps_acc_number * timestamps_acc_number) * Z) :=
  _ ← setup;
  _ ← rcall RemoteLaunch;
  _ ← each worker_lcores (fun l => l2fwd_launch_one_lcore l env ticks);
  _ ← l2fwd_launch_one_lcore rte_get_main_lcore env ticks;
  ret ← wait_lcores worker_lcores;
  ret ← close_ports dev_ports ret;
  _ ← rcall EalCleanup;
  d ← read p_data;
  match MergeResult (total_inqueue_timestamp_acc d), MergeResult (total_dequeue_timestamp_acc d) with
  | Some inqueue_result, Some dequeue_result =>
      _ ← ensure (length inqueue_result =? length dequeue_result)%nat;
      mret (take (Z.to_nat 1000000) (zip inqueue_result dequeue_result), ret)
  | _, _ => rte_exit
  end.
End Main.

Class L2Laws (L : L2Lib) := {
  ports_unique : NoDup dev_ports;
  ports_range p : p ∈ dev_ports -> 0 <= p < RTE_MAX_ETHPORTS;
  (** the default configuration of DPDK *)
  max_ethports : RTE_MAX_ETHPORTS <= 32;
  timer_hz_range : 0 < rte_get_timer_hz < 2 ^ 64;
}.

(** ** Reasoning about the program

    [wpr m Q E s]: from [s], [m] gives a result with [Q], or ends the program with [E]. *)

Definition wpr {A} (m : R A) (Q : A -> prog -> Prop) (E : prog -> Prop) (s : prog) : Prop :=
  match m s with (Some a, s') => Q a s' | (None, s') => E s' end.

Lemma wpr_ret {A} (a : A) (Q : A -> prog -> Prop) E s : Q a s -> wpr (mret a) Q E s.
Proof. done. Qed.
Lemma wpr_bind {A B} (m : R A) (f : A -> R B) Q E s :
  wpr m (fun a s' => wpr (f a) Q E s') E s -> wpr (m ≫= f) Q E s.
Proof. unfold wpr, mbind, R_bind. by destruct (m s) as [[a|] s']. Qed.
Lemma wpr_mono {A} (m : R A) (Q Q' : A -> prog -> Prop) (E : prog -> Prop) s :
  wpr m Q E s -> (forall a s', Q a s' -> Q' a s') -> wpr m Q' E s.
Proof. unfold wpr. intros H HQ. destruct (m s) as [[a|] s']; auto. Qed.
Lemma wpr_read {A} (f : prog -> A) (Q : A -> prog -> Prop) E s : Q (f s) s -> wpr (read f) Q E s.
Proof. done. Qed.
Lemma wpr_ensure b (Q : unit -> prog -> Prop) (E : prog -> Prop) s :
  (b = true -> Q tt s) -> (b = false -> E s) -> wpr (ensure b) Q E s.
Proof. intros HQ HE. destruct b; [by apply HQ|by apply HE]. Qed.

Lemma wpr_each {A} (l : list A) (body : A -> R unit) (I : prog -> Prop) E s :
  (forall x s, x ∈ l -> I s -> wpr (body x) (fun _ s' => I s') E s) -> I s ->
  wpr (each l body) (fun _ s' => I s') E s.
Proof.
  revert s. induction l as [|x l IH]; intros s Hb Hi; cbn [each]; [by apply wpr_ret|].
  apply wpr_bind. eapply wpr_mono; [apply Hb; [by left|done]|]. intros [] s' Hi'.
  apply IH; [|done]. intros y s2 Hy. apply Hb. by right.
Qed.

(** The variables that the calls themselves do not change. *)
Definition keeps (s s' : prog) : Prop :=
  queue_conf s' = queue_conf s /\ p_data s' = p_data s /\ timer_period s' = timer_period s.

#[export] Instance keeps_refl : Reflexive keeps.
Proof. by intros s. Qed.
#[export] Instance keeps_trans : Transitive keeps.
Proof. intros s1 s2 s3 (A & B & C) (D & E & F). repeat split; congruence. Qed.

Section Run.
Context {L : L2Lib} `{!L2Laws L}.

(** The answer ends the program. *)
Definition refused (c : l2_call) (r : Z) : Prop :=
  match c with
  | EalInit | MacaddrGet _ | NameByPort _ | DevConfigure _ _ _ _ _ | AdjustDesc _ _ _
  | PromiscuousDisable _ | RxQueueSetup _ _ _ _ | TxQueueSetup _ _ _ _ | DevStart _ | Reserve _ _ => r < 0
  | DevInfoGet _ => r <> 0
  | CountAvail => u16 r = 0 \/ 32 <= u16 r (* then [1 << nb_ports] is undefined *)
  | PoolCreate _ => r = 0
  | _ => False
  end.

(** Why the program has ended. *)
Definition ended (s : prog) : Prop :=
  (exists c r, (c, r) ∈ p_calls s /\ refused c r) \/ worker_lcores = [] \/ 0 ∉ dev_ports.

Lemma wpr_rcall c (Q : Z -> prog -> Prop) E s :
  (forall r s', keeps s s' -> p_calls s' = p_calls s ++ [(c, r)] -> nb_rxd s' = nb_rxd s ->
     nb_txd s' = nb_txd s -> tx_offloads s' = tx_offloads s -> rss_hf s' = rss_hf s -> Q r s') ->
  wpr (rcall c) Q E s.
Proof. intros H. by apply H. Qed.

Lemma wpr_must c (Q : unit -> prog -> Prop) s :
  (forall r, r < 0 -> refused c r) -> (forall s', keeps s s' -> Q tt s') -> wpr (must c) Q ended s.
Proof.
  intros Hc HQ. unfold must. apply wpr_bind, wpr_rcall. intros r s' Hk Hs _ _ _ _.
  apply wpr_ensure; intros Hr; [by apply HQ|]. left. exists c, r. split.
  - rewrite Hs. apply elem_of_app. right. by apply list_elem_of_singleton.
  - apply Hc. apply Z.ltb_lt. by destruct (r <? 0).
Qed.

(** The answers for the numbers of ports below the width of an [int] are computed. *)
Lemma below_32 (P : Z -> bool) n : forallb P (seqZ 0 32) = true -> 0 <= n < 32 -> P n = true.
Proof. rewrite forallb_forall. intros H Hn. apply H, list_elem_of_In, elem_of_seqZ. lia. Qed.

Lemma port_enabled_0 p : 0 <= p < 32 -> port_enabled p = bool_decide (p = 0).
Proof.
  intros Hp. assert (int_bit p = s32 (Z.shiftl 1 p)) as E.
  { unfold int_bit. by rewrite (proj2 (Z.ltb_lt p 32)) by lia. }
  assert (bool_decide (p = 0) = (p =? 0)) as -> by (case_bool_decide; lia).
  unfold port_enabled. rewrite E. apply eqb_prop.
  apply (below_32 (fun q => eqb (negb (Z.land l2fwd_enabled_port_mask (u32 (s32 (Z.shiftl 1 q))) =? 0)) (q =? 0)));
    [by vm_compute|done].
Qed.

Lemma keeps_init_port pool port s :
  wpr (init_port pool port) (fun _ s' => keeps s s') ended s.
Proof.
  unfold init_port. destruct (port_enabled port); [|by apply wpr_ret].
  apply wpr_bind, wpr_rcall. intros r s1 K1 Hs1 _ _ _ _. apply wpr_bind, wpr_ensure; intros Hr.
  2: { left. exists (DevInfoGet port), r. split; [rewrite Hs1; apply elem_of_app; right; by left|].
       by apply Z.eqb_neq in Hr. }
  apply wpr_bind, wpr_read, wpr_bind, wpr_read, wpr_bind. unfold set_conf at 1, wpr at 1.
  set (s2 := MkProg _ _ _ _ _ _ _ _ _). assert (keeps s s2) as K2 by (by trans s1).
  apply wpr_bind, wpr_must; [done|]. intros s3 K3. apply wpr_bind, wpr_read, wpr_bind, wpr_read.
  apply wpr_bind, wpr_rcall. intros r4 s4 K4 Hs4 _ _ _ _. apply wpr_bind. unfold set_desc at 1, wpr at 1.
  set (s5 := MkProg _ _ _ _ _ _ _ _ _). assert (keeps s4 s5) as K5 by done.
  apply wpr_bind, wpr_ensure; intros Hr4.
  2: { left. eexists _, r4. split; [cbn; rewrite Hs4; apply elem_of_app; right; by left|].
       apply negb_false_iff, Z.ltb_lt in Hr4. exact Hr4. }
  apply wpr_bind, wpr_must; [done|]. intros s6 K6. apply wpr_bind, wpr_read.
  assert (keeps s s6) as K by (repeat (etrans; [eassumption|]); reflexivity).
  apply wpr_bind. eapply wpr_mono; [apply (wpr_each _ _ (fun s' => keeps s s')); [|exact K]|].
  { intros q s7 _ K7. apply wpr_bind, wpr_rcall. intros r8 s8 K8 _ _ _ _ _. apply wpr_must; [done|].
    intros s9 K9. by trans s7; [|trans s8]. }
  intros [] s7 K7. apply wpr_bind.
  eapply wpr_mono; [apply (wpr_each _ _ (fun s' => keeps s s')); [|exact K7]|].
  { intros q s8 _ K8. apply wpr_bind, wpr_rcall. intros r9 s9 K9 _ _ _ _ _. apply wpr_must; [done|].
    intros s10 K10. by trans s8; [|trans s9]. }
  intros [] s8 K8. apply wpr_bind, wpr_rcall. intros r9 s9 K9 _ _ _ _ _. apply wpr_must; [done|].
  intros s10 K10. by trans s8; [|trans s9].
Qed.

(** ** The core of the queue *)

Definition idle_confs : list server_queue_conf := replicate (Z.to_nat RTE_MAX_LCORE) zero_conf.
Definition is_worker (l : Z) : Prop := rte_lcore_is_enabled l = true /\ l <> rte_get_main_lcore.

#[local] Instance is_worker_dec l : Decision (is_worker l).
Proof. unfold is_worker. apply _. Defined.

Lemma wpr_find_lcore n l s :
  queue_conf s = idle_confs -> 0 <= l -> Z.of_nat n = Z.max 0 (RTE_MAX_LCORE - l) ->
  wpr (find_lcore n l) (fun w s' => s' = s /\ head (filter is_worker (seqZ l (Z.of_nat n))) = Some w)
    (fun _ => filter is_worker (seqZ l (Z.of_nat n)) = []) s.
Proof.
  revert l. induction n as [|n IH]; intros l Hq Hl Hn; cbn [find_lcore]; [done|].
  apply wpr_bind, wpr_read. rewrite Hq. unfold idle_confs. rewrite lookup_replicate_2 by lia.
  rewrite seqZ_cons by lia. replace (Z.pred (Z.of_nat (S n))) with (Z.of_nat n) by lia.
  change (n_tx_rx_queue zero_conf =? MAX_QUEUE_PER_LCORE) with false. rewrite orb_false_r.
  destruct (negb (rte_lcore_is_enabled l) || (l =? rte_get_main_lcore)) eqn:E.
  - rewrite filter_cons_False.
    2: { unfold is_worker. destruct (rte_lcore_is_enabled l); [|by intros [? _]].
         cbn in E. apply Z.eqb_eq in E. tauto. }
    destruct (Z.leb_spec RTE_MAX_LCORE (l + 1)).
    + assert (n = 0%nat) as -> by lia. done.
    + rewrite <- Z.add_1_r. apply (IH (l + 1)); [done|lia|lia].
  - rewrite filter_cons_True.
    2: { unfold is_worker. apply orb_false_iff in E as [E1 E2]. apply negb_false_iff in E1.
         apply Z.eqb_neq in E2. done. }
    by apply wpr_ret.
Qed.

Lemma workers_eq : worker_lcores = filter is_worker (seqZ 0 RTE_MAX_LCORE).
Proof. apply list_filter_iff. intros l. done. Qed.

(** The first worker has the queue of port 0. *)
Definition assigned (w : Z) (s : prog) : Prop :=
  head worker_lcores = Some w /\ queue_conf s = <[Z.to_nat w := MkQconf 1 [0] 0]> idle_confs.

Lemma wpr_assign_queues qconf nb s :
  queue_conf s = idle_confs ->
  wpr (assign_queues (Z.to_nat TX_RX_QUEUE) 0 0 0 qconf nb)
    (fun _ s' => p_data s' = p_data s /\ timer_period s' = timer_period s /\ exists w, assigned w s') ended s.
Proof.
  intros Hq. change (Z.to_nat TX_RX_QUEUE) with 1%nat. cbn [assign_queues]. change (0 <? TX_RX_QUEUE) with true.
  cbn iota. assert (seqZ 0 (Z.of_nat (Z.to_nat RTE_MAX_LCORE)) = seqZ 0 RTE_MAX_LCORE) as Es.
  { destruct (decide (0 <= RTE_MAX_LCORE)); [by rewrite Z2Nat.id|]. unfold seqZ. by rewrite Nat2Z.id. }
  pose proof (wpr_find_lcore (Z.to_nat RTE_MAX_LCORE) 0 s Hq) as W. rewrite Es, <- workers_eq in W.
  apply wpr_bind. unfold wpr in *. specialize (W ltac:(lia) ltac:(lia)).
  destruct (find_lcore _ 0 s) as [[w|] s1]; [|right; by left]. destruct W as [-> Hw].
  unfold mbind, R_bind, read. rewrite Hq. unfold idle_confs.
  assert (w ∈ worker_lcores) as Hin by (destruct worker_lcores; [done|injection Hw as ->; by left]).
  rewrite workers_eq, list_elem_of_filter, elem_of_seqZ in Hin. rewrite lookup_replicate_2 by lia.
  cbn. split; [done|]. split; [done|]. exists w. done.
Qed.

Lemma wpr_assign_ports_other ports l qconf nb avail s :
  0 ∉ ports -> (forall p, p ∈ ports -> 0 <= p < 32) ->
  wpr (assign_ports ports l qconf nb avail) (fun r s' => r = (nb, avail) /\ keeps s s') ended s.
Proof.
  revert s. induction ports as [|p ports IH]; intros s H0 Hp; cbn [assign_ports]; [by apply wpr_ret|].
  apply wpr_bind, wpr_must; [done|]. intros s1 K1. apply wpr_bind, wpr_must; [done|]. intros s2 K2.
  rewrite port_enabled_0 by (apply Hp; by left). rewrite bool_decide_eq_false_2 by set_solver.
  eapply wpr_mono; [apply IH; [set_solver|intros q Hq; apply Hp; by right]|].
  intros r s3 [-> K3]. split; [done|]. by trans s1; [|trans s2].
Qed.

Lemma wpr_assign_ports ports s :
  NoDup ports -> (forall p, p ∈ ports -> 0 <= p < 32) -> queue_conf s = idle_confs ->
  wpr (assign_ports ports 0 None 0 0)
    (fun r s' => p_data s' = p_data s /\ timer_period s' = timer_period s /\
       (0 ∈ ports /\ r.2 = 1 /\ (exists w, assigned w s') \/ 0 ∉ ports /\ r.2 = 0)) ended s.
Proof.
  revert s. induction ports as [|p ports IH]; intros s Hnd Hp Hq; cbn [assign_ports].
  { apply wpr_ret. split; [done|]. split; [done|]. right. set_solver. }
  apply list.NoDup_cons in Hnd as [Hni Hnd].
  apply wpr_bind, wpr_must; [done|]. intros s1 K1. apply wpr_bind, wpr_must; [done|]. intros s2 K2.
  assert (keeps s s2) as (Kq & Kd & Kt) by (by trans s1).
  rewrite port_enabled_0 by (apply Hp; by left). destruct (decide (p = 0)) as [->|Hn].
  - rewrite bool_decide_eq_true_2 by done. apply wpr_bind.
    eapply wpr_mono; [apply wpr_assign_queues; congruence|]. intros [[l q] nb] s3 (Hd & Ht & w & Hw & Hc).
    eapply wpr_mono; [apply wpr_assign_ports_other; [done|intros r Hr; apply Hp; by right]|].
    intros r s4 [-> (Kq4 & Kd4 & Kt4)]. split; [congruence|]. split; [congruence|]. left.
    split; [by left|]. split; [done|]. exists w. split; [done|congruence].
  - rewrite bool_decide_eq_false_2 by done.
    eapply wpr_mono; [apply IH; [done|intros r Hr; apply Hp; by right|congruence]|].
    intros r s3 (Hd & Ht & H). split; [congruence|]. split; [congruence|].
    destruct H as [(H0 & H)|(H0 & H)]; [left|right]; (split; [set_solver|done]).
Qed.

Definition no_results : l2fwd :=
  let stats := replicate (Z.to_nat RTE_MAX_ETHPORTS) zero_stat in MkL2 stats stats [[]] [[]].

Lemma odd_mask n : 0 < n < 32 -> impossible_ports n = 0.
Proof.
  intros Hn. assert (int_bit n = s32 (Z.shiftl 1 n)) as E.
  { unfold int_bit. by rewrite (proj2 (Z.ltb_lt n 32)) by lia. }
  unfold impossible_ports. rewrite E. apply Z.eqb_eq.
  assert (((n =? 0) || (Z.land l2fwd_enabled_port_mask (u32 (Z.lnot (s32 (s32 (Z.shiftl 1 n) - 1)))) =? 0)) = true)
    as H.
  { apply (below_32 (fun n => (n =? 0) ||
      (Z.land l2fwd_enabled_port_mask (u32 (Z.lnot (s32 (s32 (Z.shiftl 1 n) - 1)))) =? 0))); [by vm_compute|lia]. }
  by rewrite (proj2 (Z.eqb_neq n 0)) in H by lia.
Qed.

Lemma wpr_setup s :
  queue_conf s = idle_confs -> timer_period s = 1 ->
  wpr setup (fun _ s' => 0 ∈ dev_ports /\ p_data s' = no_results /\ timer_period s' = rte_get_timer_hz /\
    exists w, assigned w s') ended s.
Proof.
  intros Hq Ht. pose proof timer_hz_range as Hz. unfold setup. apply wpr_bind, wpr_must; [done|].
  intros s1 (Kq1 & Kd1 & Kt1). apply wpr_bind, wpr_read, wpr_bind. unfold set_period at 1, wpr at 1.
  rewrite Kt1, Ht, Z.mul_1_l, wrapu_small by lia. set (s2 := MkProg _ _ _ _ _ _ _ _ _).
  apply wpr_bind, wpr_rcall. intros nb s3 (Kq3 & Kd3 & Kt3) Hs3 _ _ _ _. apply wpr_bind, wpr_ensure; intros Hnb.
  2: { left. exists CountAvail, nb. split; [rewrite Hs3; apply elem_of_app; right; by left|].
       left. by apply negb_false_iff, Z.eqb_eq in Hnb. }
  apply negb_true_iff, Z.eqb_neq in Hnb. pose proof (wrapu_range 16 nb).
  apply wpr_bind, wpr_ensure; [intros _|intros Hm].
  2: { left. exists CountAvail, nb. split; [rewrite Hs3; apply elem_of_app; right; by left|]. right.
       destruct (Z.le_gt_cases 32 (u16 nb)); [done|]. by rewrite odd_mask in Hm by lia. }
  apply wpr_bind. eapply wpr_mono; [apply wpr_assign_ports; [apply ports_unique| |]|].
  { intros p Hp. pose proof (ports_range p Hp). pose proof max_ethports. lia. }
  { rewrite Kq3. cbn. congruence. }
  intros [nl na] s4 (Kd4 & Kt4 & Ha). cbn [snd] in Ha.
  apply wpr_bind, wpr_read, wpr_bind, wpr_read, wpr_bind, wpr_rcall. intros _ s5 (Kq5 & Kd5 & Kt5) _ _ _ _ _.
  apply wpr_bind, wpr_rcall. intros pool s6 (Kq6 & Kd6 & Kt6) Hs6 _ _ _ _. apply wpr_bind, wpr_ensure; intros Hpool.
  2: { left. eexists _, pool. split; [rewrite Hs6; apply elem_of_app; right; by left|].
       by apply negb_false_iff, Z.eqb_eq in Hpool. }
  apply wpr_bind, wpr_read, wpr_bind. unfold set_data at 1, wpr at 1. set (s7 := MkProg _ _ _ _ _ _ _ _ _).
  apply wpr_bind. eapply wpr_mono; [apply (wpr_each _ _ (fun s' => keeps s7 s')); [|reflexivity]|].
  { intros q sa _ Ka. apply wpr_bind, wpr_must; [done|]. intros sb Kb. apply wpr_must; [done|].
    intros sc Kc. by trans sa; [|trans sb]. }
  intros [] sr Kr. apply wpr_bind. eapply wpr_mono; [apply (wpr_each _ _ (fun s' => keeps s7 s')); [|exact Kr]|].
  { intros p s8 _ K8. eapply wpr_mono; [apply keeps_init_port|]. intros [] s9 K9. by trans s8. }
  intros [] s8 (Kq8 & _ & Kt8). apply wpr_bind. unfold set_data at 1, wpr at 1. set (s9 := MkProg _ _ _ _ _ _ _ _ _).
  apply wpr_bind, wpr_ensure; intros Hav; [|destruct Ha as [(_ & -> & _)|[H0 _]]; [done|right; by right]].
  destruct Ha as [(H0 & _ & w & Hw & Hc)|[_ ->]]; [|done].
  unfold print_log, wpr. split; [done|]. cbn. split; [done|]. split; [rewrite Kt8; cbn; rewrite Kt6, Kt5, Kt4, Kt3; done|].
  exists w. split; [done|]. cbn. rewrite Kq8. cbn. congruence.
Qed.

(** ** The results *)

Lemma print_stats_results hz s :
  0 < hz -> exists rows s', print_stats hz hz s = Some (rows, s') /\
    total_inqueue_timestamp_acc s' = total_inqueue_timestamp_acc s /\
    total_dequeue_timestamp_acc s' = total_dequeue_timestamp_acc s.
Proof.
  intros Hz. unfold print_stats. rewrite (proj2 (Z.eqb_neq hz 0)), Z.div_same by lia. cbn [Z.eqb].
  destruct (print_ports _ _ _ _ _) as [rows last]. by eexists _, _.
Qed.

Lemma show_status_results hz ticks prev timer s :
  0 < hz -> exists out s', show_status_loop hz hz prev timer ((fun t => (t, id)) <$> ticks) s = Some (out, s') /\
    total_inqueue_timestamp_acc s' = total_inqueue_timestamp_acc s /\
    total_dequeue_timestamp_acc s' = total_dequeue_timestamp_acc s.
Proof.
  intros Hz. revert prev timer s. induction ticks as [|t ticks IH]; intros prev timer s; cbn; [by eexists _, _|].
  destruct (hz <=? _); [|apply IH].
  destruct (print_stats_results hz s Hz) as (rows & s1 & E1 & I1 & O1). change (id s) with s. rewrite E1.
  destruct (IH t 0 s1) as (out & s2 & E2 & I2 & O2). rewrite E2. eexists _, _. split; [done|]. split; congruence.
Qed.

Lemma wpr_close_ports ports ret s : wpr (close_ports ports ret) (fun _ s' => keeps s s') ended s.
Proof.
  revert ret s. induction ports as [|p ports IH]; intros ret s; cbn [close_ports]; [by apply wpr_ret|].
  apply wpr_bind. unfold close_port. destruct (port_enabled p); [|apply wpr_ret, IH].
  apply wpr_bind, wpr_rcall. intros r s1 K1 _ _ _ _ _. apply wpr_bind, wpr_rcall. intros _ s2 K2 _ _ _ _ _.
  apply wpr_ret. eapply wpr_mono; [apply IH|]. intros r' s3 K3. by trans s1; [|trans s2].
Qed.

Lemma wpr_wait_lcores lcores s : wpr (wait_lcores lcores) (fun _ s' => keeps s s') ended s.
Proof.
  revert s. induction lcores as [|l lcores IH]; intros s; cbn [wait_lcores]; [by apply wpr_ret|].
  apply wpr_bind, wpr_rcall. intros r s1 K1 _ _ _ _ _. destruct (r <? 0); [by apply wpr_ret|].
  eapply wpr_mono; [apply IH|]. intros r' s2 K2. by trans s1.
Qed.

Lemma idle_lcore l env ticks s w :
  l <> rte_get_main_lcore -> 0 <= l < RTE_MAX_LCORE -> l <> w -> 0 <= w -> assigned w s ->
  wpr (l2fwd_launch_one_lcore l env ticks) (fun _ s' => keeps s s') ended s.
Proof.
  intros Hm Hl Hw Hw0 [_ Hq]. unfold l2fwd_launch_one_lcore. apply wpr_bind, wpr_read.
  rewrite (proj2 (Z.eqb_neq _ _) Hm). apply wpr_bind, wpr_read.
  rewrite Hq, list_lookup_insert_ne by lia. unfold idle_confs. rewrite lookup_replicate_2 by lia.
  unfold set_data, wpr. done.
Qed.

Lemma workers_first w : head worker_lcores = Some w ->
  exists rest, worker_lcores = w :: rest /\ w ∉ rest /\
    forall l, l ∈ w :: rest -> is_worker l /\ 0 <= l < RTE_MAX_LCORE.
Proof.
  intros Hw. pose proof (list.NoDup_filter is_worker (seqZ 0 RTE_MAX_LCORE) (NoDup_seqZ _ _)) as Hnd.
  rewrite <- workers_eq in Hnd.
  assert (forall l, l ∈ worker_lcores -> is_worker l /\ 0 <= l < RTE_MAX_LCORE) as Hin.
  { intros l. rewrite workers_eq, list_elem_of_filter, elem_of_seqZ. intros [? ?]. split; [done|lia]. }
  destruct worker_lcores as [|w' rest]; [done|]. injection Hw as ->. exists rest.
  by apply list.NoDup_cons in Hnd as [? _].
Qed.

(** The results that are there when the cores have stopped. *)
Definition measured (xs : list sample) (s : prog) : Prop :=
  total_inqueue_timestamp_acc (p_data s) = [enqueued xs] /\
  total_dequeue_timestamp_acc (p_data s) = [dequeued xs] /\ timer_period s = rte_get_timer_hz.

Lemma singleton_lookup {A} (l : list A) x : length l = 1%nat -> l !! 0%nat = Some x -> l = [x].
Proof. destruct l as [|y [|z l]]; cbn; intros; simplify_eq; done. Qed.

Lemma wpr_workers env ticks xs w s :
  0 ∈ dev_ports -> p_data s = no_results -> timer_period s = rte_get_timer_hz -> assigned w s ->
  Forall2 carries (concat ((fun b => b 0) <$> env w)) xs -> steady 0 0 (omap id xs) ->
  wpr (each worker_lcores (fun l => l2fwd_launch_one_lcore l env ticks))
    (fun _ s' => measured (omap id xs) s') ended s.
Proof.
  intros H0 Hd Ht [Hw Hq] HF Hst. destruct (workers_first w Hw) as (rest & Er & Hni & Hin).
  destruct (Hin w) as [[Hen Hnm] Hwr]; [by left|]. pose proof (ports_range 0 H0) as Hr0.
  destruct (main_loop_measures (MkQconf 1 [0] 0) 0 (env w) xs no_results 0 0) as
    (d & r & n & dr & E & (_ & _ & _ & Hi & Ho) & (Li & Lo) & _); [done|done| |done|done|].
  { split; [done|]. split; [done|]. split; [|done]. exists zero_stat. split; [|done].
    cbn. rewrite lookup_replicate_2 by lia. done. }
  rewrite Er. cbn [each]. apply wpr_bind. unfold l2fwd_launch_one_lcore at 1. apply wpr_bind, wpr_read.
  rewrite (proj2 (Z.eqb_neq _ _) Hnm). apply wpr_bind, wpr_read.
  rewrite Hq, list_lookup_insert_eq by (unfold idle_confs; rewrite length_replicate; lia).
  rewrite Hd, E. unfold set_data at 1, wpr at 1. set (s1 := MkProg _ _ _ _ _ _ _ _ _).
  eapply wpr_mono; [apply (wpr_each _ _ (fun s' => keeps s1 s')); [|reflexivity]|].
  - intros l s2 Hl K2. destruct (Hin l) as [[_ Hm] Hlr]; [by right|].
    eapply wpr_mono; [apply (idle_lcore l env ticks s2 w); [done|done|set_solver|lia|]|].
    + split; [done|]. destruct K2 as (-> & _). cbn. done.
    + intros [] s3 K3. by trans s2.
  - intros [] s2 (_ & Kd & Kt). unfold measured. rewrite Kd, Kt. cbn.
    split; [by apply singleton_lookup|]. split; [by apply singleton_lookup|done].
Qed.

Lemma wpr_main_core env ticks xs s :
  measured xs s ->
  wpr (l2fwd_launch_one_lcore rte_get_main_lcore env ticks) (fun _ s' => measured xs s') ended s.
Proof.
  intros (Hi & Ho & Ht). unfold l2fwd_launch_one_lcore. apply wpr_bind, wpr_read. rewrite Z.eqb_refl.
  apply wpr_bind, wpr_read. unfold l2fwd_main_lcore_show_status. rewrite Z.eqb_refl, Ht.
  destruct (show_status_results rte_get_timer_hz ticks 0 0 (p_data s)) as (out & d & E & Ei & Eo);
    [apply timer_hz_range|]. rewrite E. unfold set_data, wpr, measured. cbn. split; [congruence|].
  split; [congruence|done].
Qed.

Lemma measured_keeps xs s s' : keeps s s' -> measured xs s -> measured xs s'.
Proof. intros (_ & Kd & Kt) H. unfold measured. by rewrite Kd, Kt. Qed.

Context {P : PriorityQueue}.

(** C23.  The whole program.  Whatever DPDK and the allocation of the vectors answer, the
    program ends before the result file only because a call was refused (one of the two
    reservations of 16 GB among them), DPDK counts no port or more ports than an [int] has
    bits, no core is left for the queue, or port 0 is missing.  Otherwise the first worker
    core has the queue, and the result file has a row (when it entered, when it left) for
    each of the first million measurements that found the queue deeper than 19, in the order
    in which they arrived, which is the order of the departures.  This takes DPDK to be built
    for at most 32 ports, and the measurements of a core to arrive in the order of the
    departures, less than [2 ^ 18] ticks apart, the first of each turn of the 18-bit counter
    before tick 100000, with sequence numbers that do not decrease ([steady]). *)
Theorem receive_control_main (env : Z -> list (Z -> list mbuf)) (ticks : list Z)
    (xs : Z -> list (option sample)) :
  (forall w, w ∈ worker_lcores -> Forall2 carries (concat ((fun b => b 0) <$> env w)) (xs w)) ->
  (forall w, w ∈ worker_lcores -> steady 0 0 (omap id (xs w))) ->
  match main env ticks prog_start with
  | (Some (rows, _), _) =>
      exists w, head worker_lcores = Some w /\
        rows = take (Z.to_nat 1000000) (zip (enqueued (omap id (xs w))) (dequeued (omap id (xs w))))
  | (None, s') => ended s'
  end.
Proof.
  intros HF Hst. enough (wpr (main env ticks) (fun r _ => exists w, head worker_lcores = Some w /\
    r.1 = take (Z.to_nat 1000000) (zip (enqueued (omap id (xs w))) (dequeued (omap id (xs w)))))
    ended prog_start) as H.
  { unfold wpr in H. destruct (main env ticks prog_start) as [[[rows ret]|] s']; exact H. }
  unfold main. apply wpr_bind. eapply wpr_mono; [apply wpr_setup; done|].
  intros [] s1 (H0 & Hd1 & Ht1 & w & Hw & Hq1). apply wpr_bind, wpr_rcall. intros _ s2 (Kq2 & Kd2 & Kt2) _ _ _ _ _.
  assert (w ∈ worker_lcores) as Hww by (destruct worker_lcores; [done|injection Hw as ->; by left]).
  apply wpr_bind. eapply wpr_mono; [apply (wpr_workers env ticks (xs w) w s2); [done|congruence|congruence| |auto..]|].
  { split; [done|congruence]. }
  intros [] s3 M3. apply wpr_bind. eapply wpr_mono; [by apply wpr_main_core|]. intros [] s4 M4.
  apply wpr_bind. eapply wpr_mono; [apply wpr_wait_lcores|]. intros ret5 s5 K5.
  apply wpr_bind. eapply wpr_mono; [apply wpr_close_ports|]. intros ret6 s6 K6.
  apply wpr_bind, wpr_rcall. intros _ s7 K7 _ _ _ _ _. apply wpr_bind, wpr_read.
  destruct (measured_keeps _ _ _ K7 (measured_keeps _ _ _ K6 (measured_keeps _ _ _ K5 M4))) as (-> & -> & _).
  cbn [MergeResult]. apply wpr_bind, wpr_ensure.
  - intros _. apply wpr_ret. by exists w.
  - unfold enqueued, dequeued. by rewrite !length_fmap, Nat.eqb_refl.
Qed.
End Run.

(** ** One port and three cores, of which core 0 is the main one *)

Definition ref_l2 : L2Lib := {|
  RTE_MAX_ETHPORTS := 4; RTE_MAX_LCORE := 4; RTE_ETH_TX_OFFLOADS := 6;
  RTE_ETH_TX_OFFLOAD_MBUF_FAST_FREE := 16; RTE_ETH_RSS_UDP := 32;
  l2_answer _ c := match c with CountAvail | PoolCreate _ => 1 | _ => 0 end;
  dev_ports := [1; 0];
  tx_offload_capa _ := 16; flow_type_rss_offloads _ := 32; adjusted _ d := d;
  rte_lcore_is_enabled l := l <? 3; rte_get_main_lcore := 0;
  links _ _ := Some true; rte_get_timer_hz := 1000; shift_undefined _ := 0;
|}.

#[export] Instance ref_l2_laws : L2Laws ref_l2.
Proof.
  split.
  - apply (bool_decide_unpack _). vm_compute. exact I.
  - cbn. intros p Hp. assert (p = 1 \/ p = 0) as [->| ->] by set_solver; lia.
  - cbn. lia.
  - cbn. lia.
Qed.

Definition sample_samples (w : Z) : list (option sample) :=
  if w =? 1 then [Some (MkSample 7 30 25 262000 1); None; Some (MkSample 8 40 26 (2 ^ 18 + 500) 2)] else [].

Lemma receive_control_main_witness :
  let env w := if w =? 1 then [sample_bursts] else [] in
  match main (L := ref_l2) env [500; 1500] (prog_start (L := ref_l2)) with
  | (Some (rows, _), _) =>
      exists w, head (worker_lcores (L := ref_l2)) = Some w /\
        rows = take (Z.to_nat 1000000)
          (zip (enqueued (omap id (sample_samples w))) (dequeued (omap id (sample_samples w))))
  | (None, s') => ended (L := ref_l2) s'
  end.
Proof.
  assert (worker_lcores (L := ref_l2) = [1; 2]) as Ew by (vm_compute; reflexivity).
  apply (receive_control_main (L := ref_l2) _ _ sample_samples); rewrite Ew; intros w Hw;
    (assert (w = 1 \/ w = 2) as [->| ->] by set_solver).
  - apply list.Forall2_cons; split; [vm_compute; repeat split|].
    apply list.Forall2_cons; split; [vm_compute; discriminate|].
    apply list.Forall2_cons; split; [vm_compute; repeat split|constructor].
  - constructor.
  - vm_compute. repeat split; intros; (reflexivity || discriminate || (exfalso; auto)).
  - constructor.
Defined.

(** On it the program runs to its end and writes two rows. *)
Lemma receive_control_rows :
  let env w := if w =? 1 then [sample_bursts] else [] in
  fst <$> (main (L := ref_l2) env [500; 1500] (prog_start (L := ref_l2))).1 =
    Some [(MkTs 261970 7, MkTs 262000 25); (MkTs 262604 8, MkTs 262644 26)].
Proof. vm_compute. reflexivity. Qed.
