(* ===== verification/SyncEvent.v ===== *)
(** * SyncEvent: two processes that alternate through synchronisation events

    Translation of the loops of [test_suite/channel_bench/sync_event.cpp].  The sender and
    the receiver share two counters (DOCA sync events, a library not in the repository): the
    one the sender publishes and the receiver subscribes to, and the other way round.  A job
    (get, add, set) takes effect at one moment between its submission and its completion,
    and each job is waited for before the next, so that a job is one step.  The two
    processes interleave in any order; the measured times and [usleep] have no effect.

    The library may refuse a submission, and a completion may be polled with an error; the
    answer is an argument of the step.  [sync_event_job_submit_sync] throws in both cases,
    and the [catch] around the loop ends it ([Thrown]).  The result of
    [sync_event_job_submit_async] is ignored: after a refused submission there is no job in
    the queue, and the process polls for its completion ([Stuck]), [DOCA_ERROR_AGAIN] being
    the answer of an empty queue, until a poll fails and throws.  A job whose completion was
    polled with an error may have taken effect or not. *)

From S2P Require Import Prelude.

(** The next job of the loop; [Stuck]: polling for a job that was not queued; [Thrown]: the
    loop was left by an exception. *)
Inductive pc := GetPub | GetSub | AddAsync | AddSync | SetSync | SetAsync | Finished | Stuck | Thrown.

#[export] Instance pc_eq : EqDecision pc.
Proof. solve_decision. Defined.

(** Of the library: the job was accepted and completed, its submission was refused, or its
    completion was polled with an error. *)
Inductive answer := Done | Refused | Broken (applied : bool).

(** [wait_index], and the operations that were counted by [finish_one_op]. *)
Record actor := MkActor { a_pc : pc; wait_index : Z; num_ops_finished : Z }.

Definition LAST : Z := 100000.

Definition goto (p : pc) (a : actor) : actor := MkActor p (wait_index a) (num_ops_finished a).

(** A job that turns the event from [pub] into [pub'], after which the process is [next]. *)
Definition sync_event_job_submit_sync (ans : answer) (a next : actor) (pub pub' : Z) : actor * Z :=
  match ans with
  | Done => (next, pub')
  | Refused => (goto Thrown a, pub)
  | Broken applied => (goto Thrown a, if applied : bool then pub' else pub)
  end.

(** The same without a look at the result of the submission, then the loop that polls. *)
Definition sync_event_job_submit_async (ans : answer) (a next : actor) (pub pub' : Z) : actor * Z :=
  match ans with
  | Done => (next, pub')
  | Refused => (goto Stuck a, pub)
  | Broken applied => (goto Thrown a, if applied : bool then pub' else pub)
  end.

(** [while ((result = poll_completion(&event)) == DOCA_ERROR_AGAIN)] on an empty queue. *)
Definition poll_nothing (ans : answer) (a : actor) : actor :=
  match ans with Broken _ => goto Thrown a | _ => a end.

(** The four updates of [publish]; the last one ends the turn. *)
Definition publish_step (ans : answer) (a : actor) (pub : Z) : actor * Z :=
  match a_pc a with
  | AddAsync => sync_event_job_submit_async ans a (goto AddSync a) pub (pub +64 1)%cint
  | AddSync => sync_event_job_submit_sync ans a (goto SetSync a) pub (pub +64 1)%cint
  | SetSync => sync_event_job_submit_sync ans a (goto SetAsync a) pub (wait_index a +64 3)%cint
  | SetAsync =>
      sync_event_job_submit_async ans a
        (MkActor GetPub (wait_index a +64 4)%cint (num_ops_finished a +64 1)%cint) pub
        (wait_index a +64 4)%cint
  | Stuck => (poll_nothing ans a, pub)
  | _ => (a, pub)
  end.

(** One job of [handle_sync_sender]. *)
Definition handle_sync_sender (ans : answer) (a : actor) (pub sub : Z) : actor * Z :=
  match a_pc a with
  | GetPub => sync_event_job_submit_sync ans a (goto GetSub a) pub pub
  | GetSub =>
      sync_event_job_submit_sync ans a
        (if sub =? wait_index a then
           if wait_index a =? LAST then goto Finished a else goto AddAsync a
         else goto GetPub a) pub pub
  | Finished | Thrown => (a, pub)
  | _ => publish_step ans a pub
  end.

(** One job of [handle_sync_receiver]. *)
Definition handle_sync_receiver (ans : answer) (a : actor) (pub sub : Z) : actor * Z :=
  match a_pc a with
  | GetPub => sync_event_job_submit_sync ans a (goto GetSub a) pub pub
  | GetSub =>
      sync_event_job_submit_sync ans a
        (if wait_index a =? LAST then goto Finished a
         else if sub =? (wait_index a +64 4)%cint then goto AddAsync a else goto GetPub a) pub pub
  | Finished | Thrown => (a, pub)
  | _ => publish_step ans a pub
  end.

(** Both processes and the two events. *)
Record sys := MkSys { sender : actor; receiver : actor; se_sender : Z; se_receiver : Z }.

Inductive who := TheSender | TheReceiver.

#[export] Instance who_eq : EqDecision who.
Proof. solve_decision. Defined.

Definition step (w : who) (ans : answer) (s : sys) : sys :=
  match w with
  | TheSender =>
      let '(a, pub) := handle_sync_sender ans (sender s) (se_sender s) (se_receiver s) in
      MkSys a (receiver s) pub (se_receiver s)
  | TheReceiver =>
      let '(a, pub) := handle_sync_receiver ans (receiver s) (se_receiver s) (se_sender s) in
      MkSys (sender s) a (se_sender s) pub
  end.

Definition start : sys := MkSys (MkActor GetPub 0 0) (MkActor GetPub 0 0) 0 0.

(** The state after the first [n] steps of a schedule, which gives for every step the
    process and the answer of the library. *)
Fixpoint exec (sch : nat -> who * answer) (n : nat) : sys :=
  match n with
  | O => start
  | S n => step (sch n).1 (sch n).2 (exec sch n)
  end.

(** ** Every interleaving, whatever the library answers *)

Definition stopped (p : pc) : bool := match p with Stuck | Thrown => true | _ => false end.
Definition publishing (p : pc) : bool :=
  match p with AddAsync | AddSync | SetSync | SetAsync | Stuck => true | _ => false end.

(** How far the process has moved its event in this turn. *)
Definition progress (p : pc) : Z :=
  match p with AddSync => 1 | SetSync => 2 | SetAsync => 3 | _ => 0 end.

(** The index of a process and its event. *)
Record actor_ok (a : actor) (e : Z) : Prop := {
  ok_index : 0 <= wait_index a <= LAST /\ wait_index a mod 4 = 0;
  ok_count : num_ops_finished a = wait_index a / 4;
  ok_event : wait_index a <= e <= wait_index a + 4 /\ e <= LAST;
  ok_loop : a_pc a <> Thrown -> e <= wait_index a + 3;
  ok_exact : stopped (a_pc a) = false -> e = wait_index a + progress (a_pc a);
  ok_more : publishing (a_pc a) = true -> wait_index a < LAST;
  ok_last : a_pc a = Finished -> wait_index a = LAST;
}.

(** The pace they keep: an event only moves when the other one has arrived. *)
Record pace (s : sys) : Prop := {
  pace_sender : actor_ok (sender s) (se_sender s);
  pace_receiver : actor_ok (receiver s) (se_receiver s);
  pace_turns : se_receiver s / 4 <= se_sender s / 4 <= se_receiver s / 4 + 1;
  pace_s : a_pc (sender s) <> Thrown -> se_receiver s <= wait_index (sender s);
  pace_r : a_pc (receiver s) <> Thrown -> se_sender s <= wait_index (receiver s) + 4;
  pace_s_seen : publishing (a_pc (sender s)) = true \/ a_pc (sender s) = Finished ->
    se_receiver s = wait_index (sender s);
  pace_r_seen : publishing (a_pc (receiver s)) = true ->
    se_sender s = wait_index (receiver s) + 4;
}.

Lemma pace_start : pace start.
Proof. repeat split; cbn; done. Qed.

(** The sender's event stays, or it moves within a turn the sender has been given. *)
Lemma pace_sender_stays a r x y a' :
  pace (MkSys a r x y) -> actor_ok a' x -> wait_index a' = wait_index a -> a_pc a <> Thrown ->
  (publishing (a_pc a') = true \/ a_pc a' = Finished -> y = wait_index a) -> pace (MkSys a' r x y).
Proof.
  intros [Hs Hr T Ps Pr Ss Sr] Ha Ew Hp H. cbn in *. split; cbn; try done; rewrite Ew; auto.
Qed.

Lemma pace_sender_moves a r x y a' x' :
  pace (MkSys a r x y) -> actor_ok a' x' -> publishing (a_pc a) = true ->
  wait_index a <= wait_index a' -> wait_index a <= x' <= wait_index a + 4 ->
  (publishing (a_pc a') = true -> wait_index a' = wait_index a) -> a_pc a' <> Finished ->
  pace (MkSys a' r x' y).
Proof.
  intros [Hs Hr T Ps Pr Ss Sr] Ha Hp Hw Hx Hp' Hf. cbn in *.
  assert (y = wait_index a) as Ey by auto. assert (x <= wait_index a + 3) as Hx3.
  { apply (ok_loop _ _ Hs). by destruct (a_pc a). }
  pose proof (ok_index _ _ Hs) as [_ Ms]. pose proof (ok_index _ _ Hr) as [_ Mr]. pose proof (ok_loop _ _ Hr) as Lr.
  split; cbn; try done.
  - mlia.
  - lia.
  - intros Hq. specialize (Lr Hq). mlia.
  - intros [H|H]; [|done]. rewrite (Hp' H). done.
  - intros Hq. specialize (Sr Hq). assert (a_pc (receiver (MkSys a r x y)) <> Thrown) as Hq' by (cbn; by destruct (a_pc r)).
    specialize (Lr Hq'). mlia.
Qed.

Lemma pace_receiver_stays a r x y r' :
  pace (MkSys a r x y) -> actor_ok r' y -> wait_index r' = wait_index r -> a_pc r <> Thrown ->
  (publishing (a_pc r') = true -> x = wait_index r + 4) -> pace (MkSys a r' x y).
Proof.
  intros [Hs Hr T Ps Pr Ss Sr] Ha Ew Hp H. cbn in *. split; cbn; try done; rewrite Ew; auto.
Qed.

Lemma pace_receiver_moves a r x y r' y' :
  pace (MkSys a r x y) -> actor_ok r' y' -> publishing (a_pc r) = true ->
  wait_index r <= wait_index r' -> wait_index r <= y' <= wait_index r + 4 ->
  (publishing (a_pc r') = true -> wait_index r' = wait_index r) -> pace (MkSys a r' x y').
Proof.
  intros [Hs Hr T Ps Pr Ss Sr] Ha Hp Hw Hy Hp'. cbn in *.
  specialize (Sr Hp) as Ex. assert (y <= wait_index r + 3) as Hy3.
  { apply (ok_loop _ _ Hr). by destruct (a_pc r). }
  pose proof (ok_index _ _ Hs) as [Is Ms]. pose proof (ok_index _ _ Hr) as [_ Mr]. pose proof (ok_loop _ _ Hs) as Ls.
  split; cbn; try done.
  - mlia.
  - intros Hq. specialize (Ls Hq). mlia.
  - lia.
  - intros H. specialize (Ss H). assert (a_pc a <> Thrown) as Hq by (destruct H as [H|H]; by destruct (a_pc a)).
    specialize (Ls Hq). mlia.
  - intros H. rewrite (Hp' H). done.
Qed.

(** The actor that a job leaves behind. *)
Ltac actor_cases := constructor; cbn in *; (done || (intros; (done || (unfold LAST in *; mlia)))).

Lemma publish_step_ok ans a x a' x' :
  actor_ok a x -> publishing (a_pc a) = true -> publish_step ans a x = (a', x') ->
  actor_ok a' x' /\ wait_index a <= wait_index a' /\ wait_index a <= x' <= wait_index a + 4 /\
  (publishing (a_pc a') = true -> wait_index a' = wait_index a) /\ a_pc a' <> Finished.
Proof.
  intros [I C E L X M F] Hp. destruct a as [p w o]. cbn in *. specialize (M Hp).
  unfold publish_step, poll_nothing, sync_event_job_submit_sync, sync_event_job_submit_async, goto. cbn.
  rewrite !(wrapu_small 64 (_ + _)) by (unfold LAST in *; mlia).
  destruct p; try done; destruct ans as [| |[]]; intros [= <- <-]; cbn in *;
    try (specialize (X eq_refl); subst x);
    (split; [actor_cases|split; [lia|split; [lia|by split]]]).
Qed.

(** A job of the two gets leaves the index and the event alone. *)
Lemma pace_step_sender ans s : pace s -> pace (step TheSender ans s).
Proof.
  destruct s as [a r x y]. intros H. pose proof (pace_sender _ H) as Ha. cbn in Ha. cbn [step sender receiver se_sender se_receiver].
  destruct (publishing (a_pc a)) eqn:Hp.
  - assert (handle_sync_sender ans a x y = publish_step ans a x) as -> by (unfold handle_sync_sender; by destruct (a_pc a)).
    destruct (publish_step ans a x) as [a' x'] eqn:E.
    destruct (publish_step_ok _ _ _ _ _ Ha Hp E) as (H1 & H2 & H3 & H4 & H5). by eapply pace_sender_moves.
  - destruct a as [p w o], Ha as [I C E L X M F]. cbn in *.
    unfold handle_sync_sender, sync_event_job_submit_sync, goto. cbn.
    destruct p; try done; specialize (X eq_refl); destruct ans as [| |[]]; try (destruct (Z.eqb_spec y w) as [Ey|Ey], (Z.eqb_spec w LAST) as [El|El]);
      (eapply pace_sender_stays; [exact H|actor_cases|done|done|cbn; by intros [?|?]]).
Qed.

Lemma pace_step_receiver ans s : pace s -> pace (step TheReceiver ans s).
Proof.
  destruct s as [a r x y]. intros H. pose proof (pace_receiver _ H) as Hr. cbn in Hr. cbn [step sender receiver se_sender se_receiver].
  destruct (publishing (a_pc r)) eqn:Hp.
  - assert (handle_sync_receiver ans r y x = publish_step ans r y) as -> by (unfold handle_sync_receiver; by destruct (a_pc r)).
    destruct (publish_step ans r y) as [r' y'] eqn:E.
    destruct (publish_step_ok _ _ _ _ _ Hr Hp E) as (H1 & H2 & H3 & H4 & _). by eapply pace_receiver_moves.
  - destruct r as [p w o], Hr as [I C E L X M F]. cbn in *.
    unfold handle_sync_receiver, sync_event_job_submit_sync, goto. cbn.
    rewrite (wrapu_small 64 (w + 4)) by (unfold LAST in *; lia).
    destruct p; try done; specialize (X eq_refl); destruct ans as [| |[]]; try (destruct (Z.eqb_spec w LAST) as [El|El], (Z.eqb_spec x (w + 4)) as [Ex|Ex]);
      (eapply pace_receiver_stays; [exact H|actor_cases|done|done|by cbn]).
Qed.

Lemma pace_exec sch n : pace (exec sch n).
Proof.
  induction n as [|n IH]; [apply pace_start|]. cbn. destruct (sch n) as [[] ans]; [by apply pace_step_sender|by apply pace_step_receiver].
Qed.

(** A process that has stopped does not move its event again. *)
Lemma sender_stopped sch n m :
  (n <= m)%nat -> stopped (a_pc (sender (exec sch n))) = true ->
  stopped (a_pc (sender (exec sch m))) = true /\ se_sender (exec sch m) = se_sender (exec sch n).
Proof.
  intros Hm Hs. induction Hm as [|m Hm [IH1 IH2]]; [done|]. rewrite <- IH2. cbn.
  destruct (exec sch m) as [[p w o] r x y], (sch m) as [[] ans]; cbn in *; [|by destruct (handle_sync_receiver _ _ _ _)].
  destruct p; try done; by destruct ans.
Qed.

Lemma receiver_stopped sch n m :
  (n <= m)%nat -> stopped (a_pc (receiver (exec sch n))) = true ->
  stopped (a_pc (receiver (exec sch m))) = true /\ se_receiver (exec sch m) = se_receiver (exec sch n).
Proof.
  intros Hm Hs. induction Hm as [|m Hm [IH1 IH2]]; [done|]. rewrite <- IH2. cbn.
  destruct (exec sch m) as [a [p w o] x y], (sch m) as [[] ans]; cbn in *; [by destruct (handle_sync_sender _ _ _ _)|].
  destruct p; try done; by destruct ans.
Qed.

(** A process that is at its last index has seen the other event there. *)
Lemma pace_finished s : pace s ->
  (a_pc (sender s) = Finished -> num_ops_finished (sender s) = 25000 /\ se_receiver s = LAST) /\
  (a_pc (receiver s) = Finished -> num_ops_finished (receiver s) = 25000 /\ LAST <= se_sender s).
Proof.
  intros [[I C E L X M F] [Ir Cr Er Lr Xr Mr Fr] T Ps Pr Ss Sr]. split; intros H.
  - specialize (F H). rewrite C, F. split; [done|]. rewrite Ss by auto. done.
  - specialize (Fr H). rewrite Cr, Fr. split; [done|]. rewrite Fr in Er. unfold LAST in *. mlia.
Qed.

(** While neither has left its loop by an exception, the sender is at the receiver's index
    or one turn ahead. *)
Lemma pace_indices s : pace s -> a_pc (sender s) <> Thrown -> a_pc (receiver s) <> Thrown ->
  wait_index (sender s) = wait_index (receiver s) \/
  wait_index (sender s) = wait_index (receiver s) + 4 /\ se_receiver s < wait_index (sender s).
Proof.
  intros [[[_ I] _ E L _ _ _] [[_ Ir] _ Er Lr _ _ _] T _ _ _ _] Hs Hr. specialize (L Hs). specialize (Lr Hr). mlia.
Qed.

(** ** Turns, when every job succeeds *)

Definition polling (p : pc) : Prop := p = GetPub \/ p = GetSub.

(** Still in its loop, and not stopped. *)
Definition running (p : pc) : bool := match p with Finished | Stuck | Thrown => false | _ => true end.

(** At the index [w] the event of the process is its index plus the progress of its turn. *)
Definition at_index (w : Z) (a : actor) (event : Z) : Prop :=
  wait_index a = w /\ num_ops_finished a = w / 4 /\ event = w + progress (a_pc a).

(** It is the sender's turn, the receiver's turn, or the last index has been reached. *)
Inductive turn (s : sys) : Prop :=
  | SenderTurn w : 0 <= w < LAST -> w mod 4 = 0 ->
      at_index w (sender s) (se_sender s) -> running (a_pc (sender s)) = true ->
      at_index w (receiver s) (se_receiver s) -> polling (a_pc (receiver s)) -> turn s
  | ReceiverTurn w : 0 <= w < LAST -> w mod 4 = 0 ->
      at_index (w + 4) (sender s) (se_sender s) -> polling (a_pc (sender s)) ->
      at_index w (receiver s) (se_receiver s) -> running (a_pc (receiver s)) = true -> turn s
  | LastTurn :
      at_index LAST (sender s) (se_sender s) -> polling (a_pc (sender s)) \/ a_pc (sender s) = Finished ->
      at_index LAST (receiver s) (se_receiver s) ->
      polling (a_pc (receiver s)) \/ a_pc (receiver s) = Finished -> turn s.

Lemma turn_start : turn start.
Proof. apply (SenderTurn _ 0); cbn; (done || lia || by left). Qed.

(** ** Steps that are left *)

Definition cost (p : pc) : Z :=
  match p with
  | GetPub => 6 | GetSub => 5 | AddAsync => 4 | AddSync => 3 | SetSync => 2 | SetAsync => 1 | _ => 0
  end.
Definition last_cost (p : pc) : Z := match p with GetPub => 2 | GetSub => 1 | _ => 0 end.

Definition left_over (s : sys) : Z :=
  let ws := wait_index (sender s) in
  let wr := wait_index (receiver s) in
  if ws =? wr then
    if ws =? LAST then last_cost (a_pc (sender s)) + last_cost (a_pc (receiver s))
    else 4 + 12 * ((LAST - ws) / 4 - 1) + 6 + cost (a_pc (sender s))
  else 4 + 12 * ((LAST - wr) / 4 - 1) + cost (a_pc (receiver s)).

(** Whose steps bring the system forward. *)
Definition active (w : who) (s : sys) : Prop :=
  let ws := wait_index (sender s) in
  let wr := wait_index (receiver s) in
  match w with
  | TheSender => ws = wr /\ a_pc (sender s) <> Finished
  | TheReceiver => ws <> wr \/ wr = LAST /\ a_pc (receiver s) <> Finished
  end.

Lemma active_exists s : turn s -> left_over s <> 0 -> exists w, active w s.
Proof.
  intros [w Hw Hm (A & _) Hp (B & _) _|w Hw Hm (A & _) _ (B & _) _|(A & _) Ha (B & _) Hb] Hl; unfold active.
  - exists TheSender. split; [congruence|]. intros E. by rewrite E in Hp.
  - exists TheReceiver. left. lia.
  - unfold left_over in Hl. rewrite A, B, !Z.eqb_refl in Hl.
    destruct Ha as [Ha|Ha]; [exists TheSender|]. { split; [congruence|]. by destruct Ha as [->| ->]. }
    destruct Hb as [Hb|Hb]; [exists TheReceiver; right; split; [done|by destruct Hb as [->| ->]]|].
    by rewrite Ha, Hb in Hl.
Qed.

(** A step keeps the turns; what is left never grows, it shrinks with an active step, and a
    step of the other process leaves an active process active, or brings the system forward. *)
Definition moves (s s' : sys) (w : who) : Prop :=
  turn s' /\ left_over s' <= left_over s /\ (active w s -> left_over s' < left_over s) /\
  forall v, v <> w -> active v s -> left_over s' < left_over s \/ active v s'.

(** What the sender does at an index. *)
Lemma sender_acts w p sub s' :
  0 <= w < LAST -> w mod 4 = 0 -> running p = true ->
  step TheSender Done (MkSys (MkActor p w (w / 4)) sub (w + progress p) w) = s' ->
  (exists p', running p' = true /\ cost p' = cost p - 1 /\
     s' = MkSys (MkActor p' w (w / 4)) sub (w + progress p') w) \/
  (cost p = 1 /\ s' = MkSys (MkActor GetPub (w + 4) ((w + 4) / 4)) sub (w + 4) w).
Proof.
  intros Hw Hm Hp <-. cbn [step sender receiver se_sender se_receiver].
  unfold handle_sync_sender, publish_step, sync_event_job_submit_sync, sync_event_job_submit_async, goto. cbn [a_pc wait_index num_ops_finished].
  rewrite Z.eqb_refl, (proj2 (Z.eqb_neq w LAST)) by lia.
  destruct p; try done; cbn [progress].
  6: { right. split; [done|]. rewrite !wrapu_small by (unfold LAST in *; mlia).
       replace ((w + 4) / 4) with (w / 4 + 1) by mlia. done. }
  all: left.
  - exists GetSub. done.
  - exists AddAsync. done.
  - exists AddSync. rewrite Z.add_0_r, wrapu_small by (unfold LAST in *; lia). done.
  - exists SetSync. rewrite wrapu_small by (unfold LAST in *; lia). rewrite <- Z.add_assoc. done.
  - exists SetAsync. rewrite wrapu_small by (unfold LAST in *; lia). done.
Qed.

Lemma receiver_acts w p snd s' :
  0 <= w < LAST -> w mod 4 = 0 -> running p = true ->
  step TheReceiver Done (MkSys snd (MkActor p w (w / 4)) (w + 4) (w + progress p)) = s' ->
  (exists p', running p' = true /\ cost p' = cost p - 1 /\
     s' = MkSys snd (MkActor p' w (w / 4)) (w + 4) (w + progress p')) \/
  (cost p = 1 /\ s' = MkSys snd (MkActor GetPub (w + 4) ((w + 4) / 4)) (w + 4) (w + 4)).
Proof.
  intros Hw Hm Hp <-. cbn [step sender receiver se_sender se_receiver].
  unfold handle_sync_receiver, publish_step, sync_event_job_submit_sync, sync_event_job_submit_async, goto. cbn [a_pc wait_index num_ops_finished].
  rewrite (wrapu_small 64 (w + 4)), Z.eqb_refl, (proj2 (Z.eqb_neq w LAST)) by (unfold LAST in *; lia).
  destruct p; try done; cbn [progress].
  6: { right. split; [done|]. rewrite !wrapu_small by (unfold LAST in *; mlia).
       replace ((w + 4) / 4) with (w / 4 + 1) by mlia. done. }
  all: left.
  - exists GetSub. done.
  - exists AddAsync. done.
  - exists AddSync. rewrite Z.add_0_r, wrapu_small by (unfold LAST in *; lia). done.
  - exists SetSync. rewrite wrapu_small by (unfold LAST in *; lia). rewrite <- Z.add_assoc. done.
  - exists SetAsync. rewrite wrapu_small by (unfold LAST in *; lia). done.
Qed.

(** A process that waits for its turn goes on polling. *)
Lemma sender_waits p w o r x y :
  polling p -> y <> w -> exists p', polling p' /\
    step TheSender Done (MkSys (MkActor p w o) r x y) = MkSys (MkActor p' w o) r x y.
Proof.
  intros [->| ->] Hy; cbn; [exists GetSub; split; [by right|done]|].
  rewrite (proj2 (Z.eqb_neq y w)) by done. exists GetPub. split; [by left|done].
Qed.

Lemma receiver_waits p w o a x y :
  polling p -> 0 <= w < LAST -> x <> w + 4 -> exists p', polling p' /\
    step TheReceiver Done (MkSys a (MkActor p w o) x y) = MkSys a (MkActor p' w o) x y.
Proof.
  intros [->| ->] Hw Hx; cbn; [exists GetSub; split; [by right|done]|].
  rewrite wrapu_small, (proj2 (Z.eqb_neq w LAST)), (proj2 (Z.eqb_neq x (w + 4))) by (unfold LAST in *; lia).
  exists GetPub. split; [by left|done].
Qed.

Lemma polling_progress p : polling p -> progress p = 0 /\ running p = true /\ 5 <= cost p <= 6.
Proof. by intros [->| ->]. Qed.

Lemma progress_bound p : 0 <= progress p <= 3.
Proof. destruct p; cbn; lia. Qed.

Lemma at_index_make w p e : e = w + progress p -> at_index w (MkActor p w (w / 4)) e.
Proof. by intros ->. Qed.

Lemma sender_turn_moves w ps pr v :
  let s := MkSys (MkActor ps w (w / 4)) (MkActor pr w (w / 4)) (w + progress ps) w in
  0 <= w < LAST -> w mod 4 = 0 -> running ps = true -> polling pr -> moves s (step v Done s) v.
Proof.
  intros s Hw Hm Hp Hr. pose proof (polling_progress pr Hr) as (Hr0 & _ & Hrc).
  assert (left_over s = 4 + 12 * ((LAST - w) / 4 - 1) + 6 + cost ps) as El.
  { unfold left_over. cbn. rewrite Z.eqb_refl, (proj2 (Z.eqb_neq w LAST)) by lia. done. }
  destruct v.
  - destruct (sender_acts w ps (MkActor pr w (w / 4)) _ Hw Hm Hp eq_refl) as [(p' & Hp' & Hc & E)|[Hc E]];
      fold s in E; rewrite E.
    + assert (left_over (MkSys (MkActor p' w (w / 4)) (MkActor pr w (w / 4)) (w + progress p') w) < left_over s) as Hlt.
      { rewrite El. unfold left_over. cbn. rewrite Z.eqb_refl, (proj2 (Z.eqb_neq w LAST)) by lia. lia. }
      split; [|split; [lia|split; [done|by left]]].
      apply (SenderTurn _ w); [done|done|by apply at_index_make|done|by apply at_index_make; cbn; lia|done].
    + assert (left_over (MkSys (MkActor GetPub (w + 4) ((w + 4) / 4)) (MkActor pr w (w / 4)) (w + 4) w) < left_over s) as Hlt.
      { rewrite El. unfold left_over. cbn. rewrite (proj2 (Z.eqb_neq (w + 4) w)) by lia. lia. }
      split; [|split; [lia|split; [done|by left]]].
      apply (ReceiverTurn _ w); [done|done|by apply at_index_make; cbn; lia|by left| |by apply polling_progress].
      apply at_index_make. cbn. lia.
  - destruct (receiver_waits pr w (w / 4) (MkActor ps w (w / 4)) (w + progress ps) w Hr Hw) as (p' & Hp' & E).
    { pose proof (progress_bound ps). lia. }
    pose proof (polling_progress p' Hp') as (Hp0 & _). fold s in E. rewrite E.
    assert (left_over (MkSys (MkActor ps w (w / 4)) (MkActor p' w (w / 4)) (w + progress ps) w) = left_over s) as Eq.
    { rewrite El. unfold left_over. cbn. rewrite Z.eqb_refl, (proj2 (Z.eqb_neq w LAST)) by lia. done. }
    split; [|split; [lia|split]].
    + apply (SenderTurn _ w); [done|done|by apply at_index_make|done|by apply at_index_make; cbn; lia|done].
    + intros [H|[H _]]; cbn in H; lia.
    + intros [] Hv _; [right; split; [done|]; intros E2; cbn in E2; by subst ps|done].
Qed.

Lemma receiver_turn_moves w ps pr v :
  let s := MkSys (MkActor ps (w + 4) ((w + 4) / 4)) (MkActor pr w (w / 4)) (w + 4) (w + progress pr) in
  0 <= w < LAST -> w mod 4 = 0 -> polling ps -> running pr = true -> moves s (step v Done s) v.
Proof.
  intros s Hw Hm Hp Hr. pose proof (polling_progress ps Hp) as (Hp0 & _ & Hpc).
  assert (left_over s = 4 + 12 * ((LAST - w) / 4 - 1) + cost pr) as El.
  { unfold left_over. cbn. rewrite (proj2 (Z.eqb_neq (w + 4) w)) by lia. done. }
  destruct v.
  - destruct (sender_waits ps (w + 4) ((w + 4) / 4) (MkActor pr w (w / 4)) (w + 4) (w + progress pr) Hp) as (p' & Hp' & E).
    { pose proof (progress_bound pr). lia. }
    pose proof (polling_progress p' Hp') as (Hp0' & _). fold s in E. rewrite E.
    assert (left_over (MkSys (MkActor p' (w + 4) ((w + 4) / 4)) (MkActor pr w (w / 4)) (w + 4) (w + progress pr))
      = left_over s) as Eq.
    { rewrite El. unfold left_over. cbn. rewrite (proj2 (Z.eqb_neq (w + 4) w)) by lia. done. }
    split; [|split; [lia|split]].
    + apply (ReceiverTurn _ w); [done|done|by apply at_index_make; cbn; lia|done|by apply at_index_make|done].
    + intros [H _]. cbn in H. lia.
    + intros [] Hv _; [done|right; left; cbn; lia].
  - destruct (receiver_acts w pr (MkActor ps (w + 4) ((w + 4) / 4)) _ Hw Hm Hr eq_refl) as [(p' & Hp' & Hc & E)|[Hc E]];
      fold s in E; rewrite E.
    + assert (left_over (MkSys (MkActor ps (w + 4) ((w + 4) / 4)) (MkActor p' w (w / 4)) (w + 4) (w + progress p'))
        < left_over s) as Hlt.
      { rewrite El. unfold left_over. cbn. rewrite (proj2 (Z.eqb_neq (w + 4) w)) by lia. lia. }
      split; [|split; [lia|split; [done|by left]]].
      apply (ReceiverTurn _ w); [done|done|by apply at_index_make; cbn; lia|done|by apply at_index_make|done].
    + assert (left_over (MkSys (MkActor ps (w + 4) ((w + 4) / 4)) (MkActor GetPub (w + 4) ((w + 4) / 4)) (w + 4) (w + 4))
        < left_over s) as Hlt.
      { rewrite El. unfold left_over. cbn. rewrite Z.eqb_refl. destruct (Z.eqb_spec (w + 4) LAST).
        - destruct Hp as [->| ->]; cbn; unfold LAST in *; mlia.
        - unfold LAST in *. mlia. }
      split; [|split; [lia|split; [done|by left]]]. destruct (decide (w + 4 = LAST)) as [El4|El4].
      * rewrite El4. apply LastTurn; [apply at_index_make; cbn; lia|by left|by apply at_index_make|left; by left].
      * apply (SenderTurn _ (w + 4)); [unfold LAST in *; mlia|mlia|apply at_index_make; cbn; lia| |by apply at_index_make; cbn; lia|by left].
        by apply polling_progress.
Qed.

Definition ending (p : pc) : Prop := polling p \/ p = Finished.
Definition next_ending (p : pc) : pc := match p with GetPub => GetSub | _ => Finished end.

Lemma ending_next p : ending p -> ending (next_ending p) /\ progress p = 0 /\
  (p <> Finished -> last_cost (next_ending p) < last_cost p) /\ last_cost (next_ending p) <= last_cost p.
Proof. unfold ending, polling. intros [[->| ->]| ->]; cbn; (split; [auto|split; [done|split; [done||lia|lia]]]). Qed.

Lemma last_turn_moves ps pr v :
  let s := MkSys (MkActor ps LAST (LAST / 4)) (MkActor pr LAST (LAST / 4)) LAST LAST in
  ending ps -> ending pr -> moves s (step v Done s) v.
Proof.
  intros s Hp Hr. destruct (ending_next ps Hp) as (Hp1 & Hp0 & Hpc & Hpl), (ending_next pr Hr) as (Hr1 & Hr0 & Hrc & Hrl).
  assert (step v Done s = match v with
    | TheSender => MkSys (MkActor (next_ending ps) LAST (LAST / 4)) (MkActor pr LAST (LAST / 4)) LAST LAST
    | TheReceiver => MkSys (MkActor ps LAST (LAST / 4)) (MkActor (next_ending pr) LAST (LAST / 4)) LAST LAST
    end) as ->.
  { destruct v; [destruct Hp as [[->| ->]| ->]|destruct Hr as [[->| ->]| ->]]; done. }
  destruct (ending_next _ Hp1) as (_ & Hp10 & _), (ending_next _ Hr1) as (_ & Hr10 & _). destruct v.
  - split; [|split; [unfold left_over; cbn; lia|split]].
    + apply LastTurn; [apply at_index_make; cbn; lia|done|apply at_index_make; cbn; lia|done].
    + intros [_ H]. unfold left_over. cbn in *. specialize (Hpc H). lia.
    + intros [] Hv Ha; [done|]. right. destruct Ha as [Ha|Ha]; [done|]. by right.
  - split; [|split; [unfold left_over; cbn; lia|split]].
    + apply LastTurn; [apply at_index_make; cbn; lia|done|apply at_index_make; cbn; lia|done].
    + intros [H|[_ H]]; [done|]. unfold left_over. cbn in *. specialize (Hrc H). lia.
    + intros [] Hv Ha; [|done]. right. destruct Ha as [_ Ha]. by split.
Qed.

Lemma turn_moves s v : turn s -> moves s (step v Done s) v.
Proof.
  destruct s as [[ps ws os] [pr wr or] x y].
  intros [w Hw Hm (A1 & A2 & A3) Hp (B1 & B2 & B3) Hr|w Hw Hm (A1 & A2 & A3) Hp (B1 & B2 & B3) Hr
         |(A1 & A2 & A3) Hp (B1 & B2 & B3) Hr]; cbn in *; subst.
  - pose proof (polling_progress pr Hr) as (-> & _). rewrite Z.add_0_r. by apply sender_turn_moves.
  - pose proof (polling_progress ps Hp) as (-> & _). rewrite (Z.add_0_r (w + 4)). by apply receiver_turn_moves.
  - destruct (ending_next ps Hp) as (_ & -> & _), (ending_next pr Hr) as (_ & -> & _). rewrite Z.add_0_r.
    by apply last_turn_moves.
Qed.

Lemma turn_exec sch n : (forall k, (sch k).2 = Done) -> turn (exec sch n).
Proof. intros Hd. induction n as [|n IH]; [apply turn_start|]. cbn. rewrite Hd. by apply turn_moves. Qed.

Lemma left_over_pos s : turn s -> 0 <= left_over s.
Proof.
  intros [w Hw Hm (A & _) _ (B & _) _|w Hw Hm (A & _) _ (B & _) _|(A & _) _ (B & _) _];
    unfold left_over; rewrite A, B.
  - rewrite Z.eqb_refl, (proj2 (Z.eqb_neq w LAST)) by lia. unfold LAST in *. destruct (a_pc _); cbn; mlia.
  - rewrite (proj2 (Z.eqb_neq (w + 4) w)) by lia. unfold LAST in *. destruct (a_pc _); cbn; mlia.
  - rewrite !Z.eqb_refl. destruct (a_pc (sender s)), (a_pc (receiver s)); cbn; lia.
Qed.

(** Both processes have a step again and again. *)
Definition fair (sch : nat -> who * answer) : Prop := forall w n, exists m, (n <= m)%nat /\ (sch m).1 = w.

(** An active process that is given a step sooner or later brings the system forward. *)
Lemma eventually_forward sch v m n :
  (forall k, (sch k).2 = Done) -> (n <= m)%nat -> (sch m).1 = v -> active v (exec sch n) ->
  exists k, left_over (exec sch k) < left_over (exec sch n).
Proof.
  intros Hd Hnm Hm. remember (m - n)%nat as d eqn:Ed. revert n Hnm Ed.
  induction d as [|d IH]; intros n Hnm Ed Ha.
  - assert (n = m) as -> by lia. exists (S m). cbn. rewrite Hm, Hd.
    destruct (turn_moves _ v (turn_exec sch m Hd)) as (_ & _ & H & _). by apply H.
  - destruct (turn_moves _ (sch n).1 (turn_exec sch n Hd)) as (_ & Hle & Hact & Hoth).
    destruct (decide (v = (sch n).1)) as [->|Hne]; [exists (S n); cbn; rewrite Hd; by apply Hact|].
    destruct (Hoth v Hne Ha) as [H|H]; [exists (S n); cbn; by rewrite Hd|].
    destruct (IH (S n)) as (k & Hk); [lia|lia|cbn; by rewrite Hd|]. exists k. cbn in Hk. rewrite Hd in Hk. lia.
Qed.

(** Nothing is left at some time. *)
Lemma eventually_done sch : (forall k, (sch k).2 = Done) -> fair sch -> exists n, left_over (exec sch n) = 0.
Proof.
  intros Hd Hf.
  assert (forall b n, left_over (exec sch n) < Z.of_nat b -> exists n', left_over (exec sch n') = 0) as H.
  { induction b as [|b IH]; intros n Hlt; [pose proof (left_over_pos _ (turn_exec sch n Hd)); lia|].
    destruct (decide (left_over (exec sch n) = 0)) as [|Hn0]; [by exists n|].
    destruct (active_exists _ (turn_exec sch n Hd) Hn0) as [v Ha]. destruct (Hf v n) as (m & Hnm & Hm).
    destruct (eventually_forward sch v m n Hd Hnm Hm Ha) as [k Hk]. apply (IH k). lia. }
  apply (H (S (Z.to_nat (left_over (exec sch 0)))) 0%nat). pose proof (left_over_pos _ (turn_exec sch 0 Hd)). lia.
Qed.

(** Nothing is left: both have finished. *)
Lemma nothing_left s : turn s -> left_over s = 0 -> a_pc (sender s) = Finished /\ a_pc (receiver s) = Finished.
Proof.
  intros T Hn. destruct T as [w Hw Hm (A & _) Hp (B & _) _|w Hw Hm (A & _) _ (B & _) Hr|(A & A2 & _) Ha (B & B2 & _) Hb];
    unfold left_over in Hn; rewrite A, B in Hn.
  - rewrite Z.eqb_refl, (proj2 (Z.eqb_neq w LAST)) in Hn by lia. unfold LAST in *.
    destruct (a_pc (sender s)); cbn in Hn; mlia.
  - rewrite (proj2 (Z.eqb_neq (w + 4) w)) in Hn by lia. unfold LAST in *.
    destruct (a_pc (receiver s)); cbn in Hn; mlia.
  - rewrite !Z.eqb_refl in Hn.
    destruct Ha as [[Ha|Ha]|Ha], Hb as [[Hb|Hb]|Hb]; rewrite Ha, Hb in *; cbn in Hn; try lia. done.
Qed.

(** C38.  The two processes alternate, and they finish unless the library fails one of them.
    A schedule gives for every step the process and what the library answers: success, a
    refused submission, or a completion polled with an error, with or without its effect.
    In every interleaving and with any answers the turns published by the sender are those
    published by the receiver or one more; while neither process has thrown, their indices
    agree or the sender is one turn (four) ahead and the receiver's event has not arrived
    there; and a process that leaves its loop by the [break] has counted 25000 turns.  A
    process that has thrown, or polls for a job whose refused submission it did not look at,
    with its event short of the last index, keeps the other one from ever finishing.  When
    no job fails, in every interleaving that gives both processes steps again and again both
    of them leave their loops by the [break], with 25000 turns counted each. *)
Theorem sync_ping_pong (sch : nat -> who * answer) :
  (forall n, let s := exec sch n in
     se_receiver s / 4 <= se_sender s / 4 <= se_receiver s / 4 + 1 /\
     (a_pc (sender s) <> Thrown -> a_pc (receiver s) <> Thrown ->
        wait_index (sender s) = wait_index (receiver s) \/
        wait_index (sender s) = wait_index (receiver s) + 4 /\ se_receiver s < wait_index (sender s)) /\
     (a_pc (sender s) = Finished -> num_ops_finished (sender s) = 25000) /\
     (a_pc (receiver s) = Finished -> num_ops_finished (receiver s) = 25000)) /\
  (forall n m, (n <= m)%nat ->
     (stopped (a_pc (sender (exec sch n))) = true -> se_sender (exec sch n) < LAST ->
        a_pc (receiver (exec sch m)) <> Finished) /\
     (stopped (a_pc (receiver (exec sch n))) = true -> se_receiver (exec sch n) < LAST ->
        a_pc (sender (exec sch m)) <> Finished)) /\
  (fair sch -> (forall n, (sch n).2 = Done) -> exists n, let s := exec sch n in
     a_pc (sender s) = Finished /\ a_pc (receiver s) = Finished /\
     num_ops_finished (sender s) = 25000 /\ num_ops_finished (receiver s) = 25000).
Proof.
  split; [|split].
  - intros n. cbn zeta. pose proof (pace_exec sch n) as P. pose proof (pace_finished _ P) as [Fs Fr].
    split; [apply P|]. split; [by apply pace_indices|]. split; intros H; [by apply Fs|by apply Fr].
  - intros n m Hm. pose proof (pace_finished _ (pace_exec sch m)) as [Fs Fr]. split; intros Hs Hl Hf.
    + pose proof (sender_stopped sch n m Hm Hs) as [_ E]. destruct (Fr Hf) as [_ H]. lia.
    + pose proof (receiver_stopped sch n m Hm Hs) as [_ E]. destruct (Fs Hf) as [_ H]. lia.
  - intros Hf Hd. destruct (eventually_done sch Hd Hf) as [n Hn]. exists n.
    destruct (nothing_left _ (turn_exec sch n Hd) Hn) as [Es Er].
    pose proof (pace_finished _ (pace_exec sch n)) as [Fs Fr]. cbn zeta.
    split; [done|]. split; [done|]. split; [by apply Fs|by apply Fr].
Qed.

Definition alternate (n : nat) : who * answer := (if Nat.even n then TheSender else TheReceiver, Done).

(** A schedule in which the sender's first addition is refused. *)
Definition refused_once (n : nat) : who * answer :=
  if (n =? 2)%nat then (TheSender, Refused) else if (n <? 2)%nat then (TheSender, Done) else (TheReceiver, Done).

Lemma sync_ping_pong_witness :
  (exists n, a_pc (sender (exec alternate n)) = Finished /\ a_pc (receiver (exec alternate n)) = Finished /\
    num_ops_finished (sender (exec alternate n)) = 25000 /\ num_ops_finished (receiver (exec alternate n)) = 25000) /\
  a_pc (sender (exec refused_once 3)) = Stuck /\
  (forall m, (3 <= m)%nat -> a_pc (receiver (exec refused_once m)) <> Finished).
Proof.
  split; [|split; [reflexivity|]].
  - apply (proj2 (proj2 (sync_ping_pong alternate))); [|done]. intros w n. destruct (Nat.even n) eqn:E.
    + destruct w; [exists n|exists (S n)]; (split; [lia|]); unfold alternate.
      * by rewrite E.
      * by rewrite Nat.even_succ, <- Nat.negb_even, E.
    + destruct w; [exists (S n)|exists n]; (split; [lia|]); unfold alternate.
      * by rewrite Nat.even_succ, <- Nat.negb_even, E.
      * by rewrite E.
  - intros m Hm. apply (proj1 (proj1 (proj2 (sync_ping_pong refused_once)) 3%nat m Hm)); reflexivity.
Defined.
