(* ===== verification/ChannelDma.v ===== *)
(** * ChannelDma: DMA requests over a communication channel

    Translation of [send_dma_reqs] and [receive_dma_reqs] of
    [test_suite/channel_bench/channel_bench.cpp].  One process sends descriptors over the
    channel, the other submits a DMA job for each and counts the completed ones in a sync
    event that the first process reads.  The DOCA channel, DMA queue and sync event are not
    in the repository: the channel delivers messages in order; a job is completed some time
    after its submission, in any order, and its completion is seen by a later poll; an
    addition to the event takes effect some time after its submission, and is completed
    some time after that.

    A queue accepts no more jobs than its depth.  The result of [workq->submit] is ignored
    by the receiver: a refused copy is counted as under way all the same ([dma_lost]).  A
    refused addition to the event throws.  With [faulty] the library may also refuse when
    there is room, and polls may answer with an error: the sender catches an exception in
    its loop and goes on to the end message, the receiver is left by it ([RThrown]), except
    that the wait for the event takes any answer but success for "again", so that a failed
    addition is never counted ([se_lost]).  The channel's operations give up when the
    process has been told to stop: a request of the sender's loop that could not be sent
    ends the loop, one of the first batch, the end message and the reply are just not sent. *)

From S2P Require Import Prelude.

Record channel_config := MkChannelConfig {
  payload : Z; batch_size : Z; mmap_length : Z; is_read : bool;
}.

Definition CACHE_LINE_SZ : Z := 64.

Definition round_up (num factor : Z) : Z :=
  let n := (num +64 factor -64 1)%cint in (n -64 n mod factor)%cint.

Record dma_descriptor := MkDesc {
  local_offset : Z; local_payload : Z; remote_offset : Z; remote_payload : Z;
}.

Inductive msg := Desc (d : dma_descriptor) | Success.
(** [sizeof(dma_descriptor)] and the length of the end message, by which they are told apart. *)
Definition msg_len (m : msg) : Z := match m with Desc _ => 32 | Success => 7 end.

(** A descriptor for the next slot of the batch and a random place in the large buffer. *)
Definition make_descriptor (c : channel_config) (rand start : Z) : dma_descriptor :=
  let rand_offset := round_up rand CACHE_LINE_SZ mod (mmap_length c -32 payload c)%cint in
  if is_read c then MkDesc rand_offset (payload c) start (payload c)
  else MkDesc start (payload c) rand_offset (payload c).

(** ** The sender *)

Inductive sender_pc :=
  | Filling (i : Z) | Getting | Sending (need : Z) | Closing | Waiting | SenderEnded | SenderThrown.

Record sender := MkSender {
  s_pc : sender_pc; start : Z; send_num : Z; s_wait_index : Z; s_inflight_num : Z;
  num_ops_finished : Z;
}.

Definition sender_start : sender := MkSender (Filling 0) 0 0 0 0 0.

(** The first batch. *)
Definition send_first (c : channel_config) (rand i : Z) (s : sender) : dma_descriptor * sender :=
  (make_descriptor c rand (start s),
   MkSender (Filling (i + 1)) (start s +64 payload c)%cint (send_num s) (s_wait_index s) (s_inflight_num s)
     (num_ops_finished s)).
Definition first_sent (c : channel_config) (s : sender) : sender :=
  MkSender Getting 0 (batch_size c) 0 (batch_size c) (num_ops_finished s).

(** The value of the event: so many requests have been completed, and so many can be sent. *)
Definition got_event (c : channel_config) (wait_index : Z) (s : sender) : sender :=
  let need_to_send := (wait_index +64 batch_size c -64 send_num s)%cint in
  MkSender (Sending need_to_send) (start s) (send_num s) wait_index (s_inflight_num s -64 need_to_send)%cint
    (num_ops_finished s +64 need_to_send)%cint.

Definition send_next (c : channel_config) (rand need : Z) (s : sender) : dma_descriptor * sender :=
  let send_num := (send_num s +64 1)%cint in
  let next := (start s +64 payload c)%cint in
  (make_descriptor c rand (start s),
   MkSender (Sending (need - 1)) (if send_num mod batch_size c =? 0 then 0 else next) send_num
     (s_wait_index s) (s_inflight_num s +64 1)%cint (num_ops_finished s)).

Definition s_goto (p : sender_pc) (s : sender) : sender :=
  MkSender p (start s) (send_num s) (s_wait_index s) (s_inflight_num s) (num_ops_finished s).

(** [runner->running()] is false, or an exception was caught: the requests under way are
    counted. *)
Definition stop_sending (s : sender) : sender :=
  MkSender Closing (start s) (send_num s) (s_wait_index s) (s_inflight_num s)
    (num_ops_finished s +64 s_inflight_num s)%cint.

(** ** The receiver *)

Inductive receiver_pc :=
  | RFilling (i : Z) | Polling | Receiving | EventWait | DrainDma | DrainEvent | Replying | ReceiverEnded
  | RThrown.

Record receiver := MkReceiver {
  r_pc : receiver_pc; r_inflight_num : Z; r_wait_index : Z; se_workq_num : Z;
}.

Definition receiver_start : receiver := MkReceiver (RFilling 0) 0 0 0.

Definition r_goto (p : receiver_pc) (r : receiver) : receiver :=
  MkReceiver p (r_inflight_num r) (r_wait_index r) (se_workq_num r).

Inductive buffer := LocalBuf | RemoteBuf.
Definition buffer_len (c : channel_config) (b : buffer) : Z :=
  match b with LocalBuf => (batch_size c *32 payload c)%cint | RemoteBuf => mmap_length c end.

(** A copy; for reading the two buffers are swapped. *)
Record dma_job := MkJob { j_src : buffer; j_src_off : Z; j_dst : buffer; j_dst_off : Z; j_len : Z }.
Definition make_job (c : channel_config) (d : dma_descriptor) : dma_job :=
  let '(src, dst) := if is_read c then (RemoteBuf, LocalBuf) else (LocalBuf, RemoteBuf) in
  MkJob src (local_offset d) dst (remote_offset d) (local_payload d).

Definition after_completion (r : receiver) : receiver :=
  MkReceiver Receiving (r_inflight_num r -64 1)%cint (r_wait_index r +64 1)%cint (se_workq_num r +64 1)%cint.
Definition after_request (r : receiver) : receiver :=
  MkReceiver EventWait (r_inflight_num r +64 1)%cint (r_wait_index r) (se_workq_num r).
Definition after_event (p : receiver_pc) (r : receiver) : receiver :=
  MkReceiver p (r_inflight_num r) (r_wait_index r) (se_workq_num r -64 1)%cint.
Definition after_drained (r : receiver) : receiver :=
  MkReceiver DrainDma (r_inflight_num r -64 1)%cint (r_wait_index r) (se_workq_num r).

(** ** Both processes and the libraries *)

Definition MAX_QUEUE_SIZE : Z := 128.

(** Copies that are running, completed ones that were not polled yet, refused ones; additions
    to the event before and after their effect, completed ones, ones that were polled with
    an error; and the event. *)
Record lib := MkLib {
  dma_running : list dma_job; dma_done : nat; dma_lost : nat;
  se_running : nat; se_acked : nat; se_done : nat; se_lost : nat; event : Z;
}.

Record sys := MkSys { snd_p : sender; rcv_p : receiver; chan : list msg; back : list msg; lib_p : lib }.

Definition sys_start : sys := MkSys sender_start receiver_start [] [] (MkLib [] 0 0 0 0 0 0 0).

Definition in_dma (l : lib) : Z := Z.of_nat (length (dma_running l) + dma_done l).
Definition in_event (l : lib) : Z := Z.of_nat (se_running l + se_acked l + se_done l).

Section Steps.
Context (c : channel_config) (faulty : bool).

(** [workq->submit(&dma_job)], its result not looked at. *)
Inductive submit (j : dma_job) : lib -> lib -> Prop :=
  | Accepted run dn dl a b e el v :
      Z.of_nat (length run + dn) < MAX_QUEUE_SIZE ->
      submit j (MkLib run dn dl a b e el v) (MkLib (run ++ [j]) dn dl a b e el v)
  | NotAccepted run dn dl a b e el v :
      faulty = true \/ MAX_QUEUE_SIZE <= Z.of_nat (length run + dn) ->
      submit j (MkLib run dn dl a b e el v) (MkLib run dn (S dl) a b e el v).

(** What the libraries do by themselves. *)
Inductive lib_step : lib -> lib -> Prop :=
  | DmaCompletes run1 j run2 dn dl a b e el v :
      lib_step (MkLib (run1 ++ j :: run2) dn dl a b e el v) (MkLib (run1 ++ run2) (S dn) dl a b e el v)
  | EventAdds run dn dl a b e el v :
      lib_step (MkLib run dn dl (S a) b e el v) (MkLib run dn dl a (S b) e el (v + 1))
  | EventAcks run dn dl a b e el v :
      lib_step (MkLib run dn dl a (S b) e el v) (MkLib run dn dl a b (S e) el v).

(** An addition to the event is polled with an error, without or with its effect. *)
Inductive event_fails : lib -> lib -> Prop :=
  | FailsBefore run dn dl a b e el v :
      event_fails (MkLib run dn dl (S a) b e el v) (MkLib run dn dl a b e (S el) v)
  | FailsAfter run dn dl a b e el v :
      event_fails (MkLib run dn dl a (S b) e el v) (MkLib run dn dl a b e (S el) v).

Inductive step : sys -> sys -> Prop :=
  (** the sender *)
  | SendFirst i rand s r ch bk l d s' :
      s_pc s = Filling i -> i < batch_size c -> 0 <= rand -> send_first c rand i s = (d, s') ->
      step (MkSys s r ch bk l) (MkSys s' r (ch ++ [Desc d]) bk l)
  | SendFirstStopped i rand s r ch bk l d s' :
      s_pc s = Filling i -> i < batch_size c -> 0 <= rand -> send_first c rand i s = (d, s') ->
      step (MkSys s r ch bk l) (MkSys s' r ch bk l)
  | SendFirstThrows i s r ch bk l :
      s_pc s = Filling i -> i < batch_size c -> faulty = true ->
      step (MkSys s r ch bk l) (MkSys (s_goto SenderThrown s) r ch bk l)
  | FirstSent s r ch bk l :
      s_pc s = Filling (batch_size c) ->
      step (MkSys s r ch bk l) (MkSys (first_sent c s) r ch bk l)
  | GetEvent s r ch bk l :
      s_pc s = Getting ->
      step (MkSys s r ch bk l) (MkSys (got_event c (u64 (event l)) s) r ch bk l)
  | GetThrows s r ch bk l :
      s_pc s = Getting -> faulty = true ->
      step (MkSys s r ch bk l) (MkSys (stop_sending s) r ch bk l)
  | SendNext need rand s r ch bk l d s' :
      s_pc s = Sending need -> 0 < need -> 0 <= rand -> send_next c rand need s = (d, s') ->
      step (MkSys s r ch bk l) (MkSys s' r (ch ++ [Desc d]) bk l)
  | SendStopped need s r ch bk l :
      s_pc s = Sending need -> 0 < need ->
      step (MkSys s r ch bk l) (MkSys (s_goto Closing s) r ch bk l)
  | SendThrows need s r ch bk l :
      s_pc s = Sending need -> 0 < need -> faulty = true ->
      step (MkSys s r ch bk l) (MkSys (stop_sending s) r ch bk l)
  | SentAll s r ch bk l :
      s_pc s = Sending 0 ->
      step (MkSys s r ch bk l) (MkSys (s_goto Getting s) r ch bk l)
  | StopSending s r ch bk l :
      s_pc s = Getting ->
      step (MkSys s r ch bk l) (MkSys (stop_sending s) r ch bk l)
  | SendEnd s r ch bk l :
      s_pc s = Closing ->
      step (MkSys s r ch bk l) (MkSys (s_goto Waiting s) r (ch ++ [Success]) bk l)
  | SendEndStopped s r ch bk l :
      s_pc s = Closing ->
      step (MkSys s r ch bk l) (MkSys (s_goto Waiting s) r ch bk l)
  | GetEnd s r ch bk l :
      s_pc s = Waiting ->
      step (MkSys s r ch (Success :: bk) l) (MkSys (s_goto SenderEnded s) r ch bk l)
  | EndThrows s r ch bk l :
      s_pc s = Closing \/ s_pc s = Waiting ->
      step (MkSys s r ch bk l) (MkSys (s_goto SenderThrown s) r ch bk l)
  (** the receiver *)
  | ReceiveFirst i s r d ch bk l l' :
      r_pc r = RFilling i -> i < batch_size c -> submit (make_job c d) l l' ->
      step (MkSys s r (Desc d :: ch) bk l) (MkSys s (r_goto (RFilling (i + 1)) r) ch bk l')
  | ReceiveFirstThrows i s r ch bk l :
      r_pc r = RFilling i -> i < batch_size c ->
      step (MkSys s r ch bk l) (MkSys s (r_goto RThrown r) (match ch with Success :: ch' => ch' | _ => ch end) bk l)
  | FirstReceived s r ch bk l :
      r_pc r = RFilling (batch_size c) ->
      step (MkSys s r ch bk l) (MkSys s (MkReceiver Polling (batch_size c) 0 0) ch bk l)
  | PollCompletion s r ch bk run dn dl a b e el v :
      r_pc r = Polling -> Z.of_nat (a + b + e) < batch_size c ->
      step (MkSys s r ch bk (MkLib run (S dn) dl a b e el v))
           (MkSys s (after_completion r) ch bk (MkLib run dn dl (S a) b e el v))
  | EventRefused s r ch bk run dn dl a b e el v :
      r_pc r = Polling -> faulty = true \/ batch_size c <= Z.of_nat (a + b + e) ->
      step (MkSys s r ch bk (MkLib run (S dn) dl a b e el v))
           (MkSys s (r_goto RThrown r) ch bk (MkLib run dn dl a b e el v))
  | PollAgain s r ch bk l :
      r_pc r = Polling -> dma_done l = 0%nat ->
      step (MkSys s r ch bk l) (MkSys s (r_goto Receiving r) ch bk l)
  | ReceiveNext s r d ch bk l l' :
      r_pc r = Receiving -> submit (make_job c d) l l' ->
      step (MkSys s r (Desc d :: ch) bk l) (MkSys s (after_request r) ch bk l')
  | ReceiveAgain s r bk l :
      r_pc r = Receiving ->
      step (MkSys s r [] bk l) (MkSys s (r_goto Polling r) [] bk l)
  | ReceiveEnd s r ch bk l :
      r_pc r = Receiving ->
      step (MkSys s r (Success :: ch) bk l) (MkSys s (r_goto DrainDma r) ch bk l)
  | EventDone s r ch bk run dn dl a b e el v :
      r_pc r = EventWait ->
      step (MkSys s r ch bk (MkLib run dn dl a b (S e) el v))
           (MkSys s (after_event Polling r) ch bk (MkLib run dn dl a b e el v))
  | EventFailed s r ch bk l l' :
      r_pc r = EventWait -> faulty = true -> event_fails l l' ->
      step (MkSys s r ch bk l) (MkSys s r ch bk l')
  | DrainOne s r ch bk run dn dl a b e el v :
      r_pc r = DrainDma -> r_inflight_num r <> 0 ->
      step (MkSys s r ch bk (MkLib run (S dn) dl a b e el v))
           (MkSys s (after_drained r) ch bk (MkLib run dn dl a b e el v))
  | Drained s r ch bk l :
      r_pc r = DrainDma -> r_inflight_num r = 0 ->
      step (MkSys s r ch bk l) (MkSys s (r_goto DrainEvent r) ch bk l)
  | DrainEventOne s r ch bk run dn dl a b e el v :
      r_pc r = DrainEvent -> se_workq_num r <> 0 ->
      step (MkSys s r ch bk (MkLib run dn dl a b (S e) el v))
           (MkSys s (after_event DrainEvent r) ch bk (MkLib run dn dl a b e el v))
  | DrainedEvent s r ch bk l :
      r_pc r = DrainEvent -> se_workq_num r = 0 ->
      step (MkSys s r ch bk l) (MkSys s (r_goto Replying r) ch bk l)
  | Reply s r ch bk l :
      r_pc r = Replying ->
      step (MkSys s r ch bk l) (MkSys s (r_goto ReceiverEnded r) ch (bk ++ [Success]) l)
  | ReplyStopped s r ch bk l :
      r_pc r = Replying ->
      step (MkSys s r ch bk l) (MkSys s (r_goto ReceiverEnded r) ch bk l)
  | ReceiverThrows s r ch bk l :
      r_pc r ∈ [Polling; Receiving; DrainDma; DrainEvent; Replying] -> faulty = true ->
      step (MkSys s r ch bk l) (MkSys s (r_goto RThrown r) ch bk l)
  (** the libraries *)
  | LibStep s r ch bk l l' : lib_step l l' -> step (MkSys s r ch bk l) (MkSys s r ch bk l').

Definition reachable (s : sys) : Prop := rtc step sys_start s.
End Steps.

(** ** The invariant *)

Section Invariant.
Context (c : channel_config) (faulty : bool).
Context (Hpayload : 0 < payload c) (Hmmap : payload c < mmap_length c < 2 ^ 32)
  (Hbatch : 0 < batch_size c) (Hlocal : batch_size c * payload c < 2 ^ 32).

(** Source and destination of a job lie in their buffers. *)
Definition job_in (j : dma_job) : Prop :=
  0 <= j_src_off j /\ j_src_off j + j_len j <= buffer_len c (j_src j) /\
  0 <= j_dst_off j /\ j_dst_off j + j_len j <= buffer_len c (j_dst j).

(** Requests sent (or given up) and received, the value of the event the sender last saw,
    completions seen by the receiver, additions to the event submitted and their completions
    seen, and whether the end message is in the channel. *)
Record counts := MkCounts {
  g_sent : Z; g_seen : Z; g_recv : Z; g_polled : Z; g_adds : Z; g_pops : Z; g_ending : bool;
}.

Definition sender_inv (s : sender) (g : counts) : Prop :=
  match s_pc s with
  | Filling i => g_sent g = i /\ g_seen g = 0 /\ 0 <= i <= batch_size c /\ start s = i * payload c /\
      num_ops_finished s = 0
  | Getting => g_sent g = g_seen g + batch_size c /\ send_num s = u64 (g_sent g) /\
      s_inflight_num s = batch_size c /\ start s = send_num s mod batch_size c * payload c /\
      num_ops_finished s = u64 (g_seen g)
  | Sending k => g_sent g + k = g_seen g + batch_size c /\ 0 <= k <= batch_size c /\
      send_num s = u64 (g_sent g) /\ s_inflight_num s = batch_size c - k /\
      start s = send_num s mod batch_size c * payload c /\ num_ops_finished s = u64 (g_seen g)
  | _ => g_sent g <= g_seen g + batch_size c
  end.

(** The receiver is past the first batch, and was not left by an exception. *)
Definition counting (r : receiver) : bool := match r_pc r with RFilling _ | RThrown => false | _ => true end.
Definition sent_all (s : sender) : bool :=
  match s_pc s with Waiting | SenderEnded | SenderThrown => true | _ => false end.
Definition end_received (r : receiver) : bool :=
  match r_pc r with DrainDma | DrainEvent | Replying | ReceiverEnded => true | _ => false end.

Definition receiver_inv (r : receiver) (g : counts) : Prop :=
  match r_pc r with
  | RFilling i => g_recv g = i /\ 0 <= i <= batch_size c /\ g_polled g = 0 /\ g_adds g = 0 /\ g_pops g = 0
  | Polling | Receiving => g_polled g = g_adds g /\ g_recv g = batch_size c + g_pops g
  | EventWait => g_polled g = g_adds g /\ g_recv g = batch_size c + g_pops g + 1
  | DrainDma | RThrown => True
  | DrainEvent => r_inflight_num r = 0
  | Replying | ReceiverEnded => r_inflight_num r = 0 /\ se_workq_num r = 0
  end.

(** The libraries against the counts. *)
Record lib_inv (g : counts) (l : lib) : Prop := MkLibInv {
  inv_seen : 0 <= g_seen g <= event l;
  inv_recv : in_dma l + g_polled g + Z.of_nat (dma_lost l) <= g_recv g;
  inv_adds : g_adds g = in_event l + g_pops g + Z.of_nat (se_lost l);
  inv_event : Z.of_nat (se_acked l + se_done l) + g_pops g <= event l <=
    Z.of_nat (se_acked l + se_done l) + g_pops g + Z.of_nat (se_lost l);
  inv_order : 0 <= g_pops g /\ g_adds g <= g_polled g;
  inv_small : g_adds g - g_pops g <= batch_size c;
  inv_depth : in_dma l <= MAX_QUEUE_SIZE;
  inv_clean : faulty = false -> se_lost l = 0%nat /\ (batch_size c <= MAX_QUEUE_SIZE -> dma_lost l = 0%nat);
  inv_jobs : Forall job_in (dma_running l);
}.

Record inv (g : counts) (ds : list dma_descriptor) (s : sys) : Prop := MkInv {
  inv_sender : sender_inv (snd_p s) g;
  inv_receiver : receiver_inv (rcv_p s) g;
  inv_lib : lib_inv g (lib_p s);
  inv_vars : counting (rcv_p s) = true ->
    r_inflight_num (rcv_p s) = in_dma (lib_p s) + Z.of_nat (dma_lost (lib_p s)) /\
    se_workq_num (rcv_p s) = in_event (lib_p s) + Z.of_nat (se_lost (lib_p s));
  inv_first : r_pc (rcv_p s) <> RThrown ->
    g_recv g = in_dma (lib_p s) + g_polled g + Z.of_nat (dma_lost (lib_p s));
  inv_chan : chan s = (Desc <$> ds) ++ (if g_ending g then [Success] else []);
  inv_length : Z.of_nat (length ds) + g_recv g <= g_sent g;
  inv_ending : g_ending g = true -> sent_all (snd_p s) = true;
  inv_end : end_received (rcv_p s) = true -> sent_all (snd_p s) = true /\ ds = [] /\ g_ending g = false;
  inv_descs : Forall (fun d => job_in (make_job c d)) ds;
}.

Lemma batch_small : batch_size c < 2 ^ 32.
Proof. nia. Qed.

Lemma inv_start : inv (MkCounts 0 0 0 0 0 0 false) [] sys_start.
Proof. split; cbn; try done; try lia. split; cbn; unfold in_dma, in_event; cbn; try done; lia. Qed.

Lemma sender_window s g : sender_inv s g -> g_sent g <= g_seen g + batch_size c.
Proof. unfold sender_inv. destruct (s_pc s); lia. Qed.

(** The bounds that keep the counters from wrapping. *)
Lemma inv_bounds g ds s : inv g ds s ->
  event (lib_p s) <= g_seen g + batch_size c /\
  in_dma (lib_p s) + Z.of_nat (dma_lost (lib_p s)) + Z.of_nat (length ds) <= batch_size c /\
  in_event (lib_p s) + Z.of_nat (se_lost (lib_p s)) <= batch_size c /\ batch_size c < 2 ^ 32.
Proof.
  intros I. pose proof batch_small. pose proof (sender_window _ _ (inv_sender _ _ _ I)).
  pose proof (inv_length _ _ _ I). destruct (inv_lib _ _ _ I). unfold in_dma, in_event in *. lia.
Qed.

Lemma in_dma_pos l : 0 <= in_dma l.
Proof. unfold in_dma. lia. Qed.
Lemma in_event_pos l : 0 <= in_event l.
Proof. unfold in_event. lia. Qed.

Lemma make_descriptor_in rand k :
  0 <= k < batch_size c -> job_in (make_job c (make_descriptor c rand (k * payload c))).
Proof.
  intros Hk. unfold make_descriptor, job_in, make_job, buffer_len.
  rewrite (wrapu_small 32 (mmap_length c - payload c)), (wrapu_small 32 (_ * _)) by nia.
  pose proof (Z.mod_pos_bound (round_up rand CACHE_LINE_SZ) (mmap_length c - payload c)).
  destruct (is_read c); cbn; nia.
Qed.

Lemma next_slot n :
  0 <= n < 2 ^ 64 ->
  (if u64 (n + 1) mod batch_size c =? 0 then 0 else u64 (n mod batch_size c * payload c + payload c)) =
    u64 (n + 1) mod batch_size c * payload c.
Proof.
  intros Hn. pose proof (Z.mod_pos_bound n (batch_size c)). rewrite (wrapu_small 64 (_ * _ + _)) by nia.
  destruct (decide (n + 1 = 2 ^ 64)) as [->|]; [done|]. rewrite wrapu_small by lia.
  rewrite <- (Zplus_mod_idemp_l n 1). destruct (decide (n mod batch_size c + 1 = batch_size c)) as [->|].
  - by rewrite Z.mod_same by lia.
  - rewrite (Z.mod_small (n mod batch_size c + 1)) by lia.
    rewrite (proj2 (Z.eqb_neq _ 0)) by lia. lia.
Qed.

Lemma job_in_app l j : Forall job_in l -> job_in j -> Forall job_in (l ++ [j]).
Proof. intros H Hj. apply Forall_app. split; [done|]. by constructor. Qed.

(** ** Steps of the sender *)

(** A descriptor of the next slot is sent, or given up. *)
Lemma inv_sent g ds s s' r ch bk l d (b : bool) :
  inv g ds (MkSys s r ch bk l) -> sent_all s = false -> job_in (make_job c d) ->
  let g' := MkCounts (g_sent g + 1) (g_seen g) (g_recv g) (g_polled g) (g_adds g) (g_pops g) (g_ending g) in
  sender_inv s' g' ->
  inv g' (ds ++ (if b then [d] else [])) (MkSys s' r (ch ++ (if b then [Desc d] else [])) bk l).
Proof.
  intros [Is Ir Il Iv If Ic In Ig Ie Id] Hs Hj g' Hs'. cbn in *.
  assert (g_ending g = false) as Eg. { destruct (g_ending g); [|done]. rewrite Ig in Hs by done. done. }
  rewrite Eg, app_nil_r in Ic. split; cbn; try done.
  - destruct Il; by split.
  - rewrite Eg, app_nil_r, fmap_app, Ic. by destruct b.
  - rewrite length_app. destruct b; cbn; lia.
  - by rewrite Eg.
  - intros H. destruct (Ie H) as (H1 & _). by rewrite H1 in Hs.
  - apply Forall_app. split; [done|]. destruct b; [by constructor; [done|constructor]|constructor].
Qed.

Lemma inv_send_first g ds i rand s r ch bk l d s' (b : bool) :
  inv g ds (MkSys s r ch bk l) -> s_pc s = Filling i -> i < batch_size c -> send_first c rand i s = (d, s') ->
  exists g', inv g' (ds ++ (if b then [d] else [])) (MkSys s' r (ch ++ (if b then [Desc d] else [])) bk l).
Proof.
  intros I Hp Hi [= <- <-]. pose proof (inv_sender _ _ _ I) as Is. cbn in Is. unfold sender_inv in Is. rewrite Hp in Is.
  destruct Is as (E1 & E2 & E3 & E4 & E5). eexists. eapply inv_sent; [exact I|by unfold sent_all; rewrite Hp| |].
  - rewrite E4. apply make_descriptor_in. lia.
  - unfold sender_inv. cbn. rewrite E4, wrapu_small by nia. repeat split; try done; lia.
Qed.

Lemma inv_send_next g ds need rand s r ch bk l d s' :
  inv g ds (MkSys s r ch bk l) -> s_pc s = Sending need -> 0 < need -> send_next c rand need s = (d, s') ->
  exists g', inv g' (ds ++ [d]) (MkSys s' r (ch ++ [Desc d]) bk l).
Proof.
  intros I Hp Hi [= <- <-]. pose proof batch_small. pose proof (inv_sender _ _ _ I) as Is. cbn in Is. unfold sender_inv in Is. rewrite Hp in Is.
  destruct Is as (E1 & E2 & E3 & E4 & E5 & E6).
  pose proof (wrapu_range 64 (g_sent g)). pose proof (Z.mod_pos_bound (send_num s) (batch_size c)).
  eexists. eapply (inv_sent _ _ s _ _ _ _ _ _ true); [exact I|by unfold sent_all; rewrite Hp| |].
  - rewrite E5. apply make_descriptor_in. lia.
  - unfold sender_inv. cbn. rewrite E5, next_slot by lia. rewrite E4, (wrapu_small 64 (batch_size c - need + 1)) by lia.
    rewrite E3, wrapu_add_l. repeat split; try done; lia.
Qed.

(** A step of the sender that sends no request; it may see the event. *)
Definition saw (v : Z) (g : counts) : counts :=
  MkCounts (g_sent g) v (g_recv g) (g_polled g) (g_adds g) (g_pops g) (g_ending g).

Lemma inv_sender_moves g v ds s s' r ch bk bk' l :
  inv g ds (MkSys s r ch bk l) -> sender_inv s' (saw v g) -> 0 <= v <= event l ->
  (sent_all s = true -> sent_all s' = true) -> inv (saw v g) ds (MkSys s' r ch bk' l).
Proof.
  intros [Is Ir Il Iv If Ic In Ig Ie Id] Hs Hv Ha. cbn in *. split; cbn; try done.
  - destruct Il; by split.
  - auto.
  - intros H. destruct (Ie H) as (H1 & H2). split; [by apply Ha|done].
Qed.

(** The end of the loop, or of the process. *)
Lemma inv_sender_leaves g ds s s' r ch bk bk' l :
  inv g ds (MkSys s r ch bk l) -> s_pc s' ∈ [Closing; Waiting; SenderEnded; SenderThrown] ->
  (sent_all s = true -> sent_all s' = true) -> inv g ds (MkSys s' r ch bk' l).
Proof.
  intros I Hp Ha. pose proof (sender_window _ _ (inv_sender _ _ _ I)) as Hw. cbn in Hw.
  destruct (inv_seen _ _ (inv_lib _ _ _ I)). replace g with (saw (g_seen g) g) by by destruct g.
  eapply inv_sender_moves; [exact I| |done|done].
  unfold sender_inv. rewrite !elem_of_cons in Hp. destruct Hp as [->|[->|[->|[->|Hp]]]]; try done. by apply elem_of_nil in Hp.
Qed.

Lemma inv_send_end g ds s r ch bk l :
  inv g ds (MkSys s r ch bk l) -> s_pc s = Closing ->
  exists g', inv g' ds (MkSys (s_goto Waiting s) r (ch ++ [Success]) bk l).
Proof.
  intros [Is Ir Il Iv If Ic In Ig Ie Id] Hp. cbn in *. unfold sender_inv, sent_all in *. rewrite Hp in *.
  assert (g_ending g = false) as Eg by (destruct (g_ending g); [by rewrite Ig|done]).
  exists (MkCounts (g_sent g) (g_seen g) (g_recv g) (g_polled g) (g_adds g) (g_pops g) true).
  split; cbn; try done.
  - destruct Il; by split.
  - by rewrite Ic, Eg, app_nil_r.
  - intros H. destruct (Ie H) as (H1 & _). done.
Qed.

Lemma got_event_inv g ds s r ch bk l :
  inv g ds (MkSys s r ch bk l) -> s_pc s = Getting ->
  inv (saw (event l) g) ds (MkSys (got_event c (u64 (event l)) s) r ch bk l).
Proof.
  intros I Hp. pose proof (inv_bounds _ _ _ I) as Hb. pose proof (inv_seen _ _ (inv_lib _ _ _ I)) as Hv.
  pose proof (inv_sender _ _ _ I) as Is. cbn in *.
  unfold sender_inv in Is. rewrite Hp in Is. destruct Is as (E1 & E2 & E3 & E4 & E5).
  eapply inv_sender_moves; [exact I| |lia|unfold sent_all; by rewrite Hp].
  unfold sender_inv, got_event. cbn [s_pc g_sent g_seen saw send_num s_inflight_num start num_ops_finished].
  set (v := event l) in *. assert (u64 (u64 (u64 v + batch_size c) - send_num s) = v - g_seen g) as ->.
  { rewrite E2, wrapu_sub_l, wrapu_sub_r, <- (wrapu_sub_l 64 (u64 v + _)), wrapu_add_l, wrapu_sub_l, wrapu_small; lia. }
  rewrite E3, E5, (wrapu_small 64 (batch_size c - _)), wrapu_add_l by lia.
  repeat split; try done; try lia. f_equal. lia.
Qed.

(** ** Steps of the receiver and of the libraries *)

Lemma next_desc ds (b : bool) d ch :
  Desc d :: ch = (Desc <$> ds) ++ (if b then [Success] else []) ->
  exists ds', ds = d :: ds' /\ ch = (Desc <$> ds') ++ (if b then [Success] else []).
Proof. destruct ds as [|d' ds]; cbn; [by destruct b|]. intros [= -> ->]. by exists ds. Qed.

Lemma next_end ds (b : bool) ch :
  Success :: ch = (Desc <$> ds) ++ (if b then [Success] else []) -> ds = [] /\ b = true /\ ch = [].
Proof. destruct ds as [|d' ds]; cbn; [|done]. destruct b; [|done]. by intros [= ->]. Qed.

(** A job for the next request, accepted or not. *)
Lemma submit_inv g l l' j :
  lib_inv g l -> submit faulty j l l' -> job_in j -> in_dma l + Z.of_nat (dma_lost l) < batch_size c ->
  lib_inv (MkCounts (g_sent g) (g_seen g) (g_recv g + 1) (g_polled g) (g_adds g) (g_pops g) (g_ending g)) l' /\
  in_dma l' + Z.of_nat (dma_lost l') = in_dma l + Z.of_nat (dma_lost l) + 1 /\
  in_event l' + Z.of_nat (se_lost l') = in_event l + Z.of_nat (se_lost l).
Proof.
  intros [A B C D E F G H J] Hs Hj Hb. destruct Hs as [run dn dl a b e el v Hq|run dn dl a b e el v Hq];
    unfold in_dma, in_event in *; cbn in *; rewrite ?length_app; cbn; (split; [|lia]); split;
    unfold in_dma, in_event in *; cbn; rewrite ?length_app; cbn; try done; try lia.
  - apply Forall_app. split; [done|]. by constructor.
  - intros Hf. destruct (H Hf) as [H1 H2]. split; [done|]. intros Hm. specialize (H2 Hm). subst dl.
    destruct Hq as [Hq|Hq]; [congruence|lia].
Qed.

Lemma lib_step_inv g l l' :
  lib_inv g l -> lib_step l l' ->
  lib_inv g l' /\ in_dma l' = in_dma l /\ dma_lost l' = dma_lost l /\ in_event l' = in_event l /\ se_lost l' = se_lost l.
Proof.
  intros [A B C D E F G H J] Hs. destruct Hs; unfold in_dma, in_event in *; cbn in *; rewrite ?length_app in *; cbn in *;
    (split; [|lia]); split; unfold in_dma, in_event in *; cbn; rewrite ?length_app in *; cbn; try done; try lia.
  apply Forall_app in J as [J1 J2]. apply list.Forall_cons in J2 as [_ J2]. by apply Forall_app.
Qed.

Lemma event_fails_inv g l l' :
  lib_inv g l -> faulty = true -> event_fails l l' ->
  lib_inv g l' /\ in_dma l' = in_dma l /\ dma_lost l' = dma_lost l /\
  in_event l' + Z.of_nat (se_lost l') = in_event l + Z.of_nat (se_lost l).
Proof.
  intros [A B C D E F G H J] Hf Hs. destruct Hs; unfold in_dma, in_event in *; cbn in *;
    (split; [|lia]); split; unfold in_dma, in_event in *; cbn; try done; try lia; congruence.
Qed.

(** A step of the receiver that takes no message. *)
Lemma inv_receiver_moves g g' ds s r r' ch bk bk' l l' :
  inv g ds (MkSys s r ch bk l) -> receiver_inv r' g' -> lib_inv g' l' ->
  g_sent g' = g_sent g -> g_seen g' = g_seen g -> g_recv g' = g_recv g -> g_ending g' = g_ending g ->
  (counting r' = true -> r_inflight_num r' = in_dma l' + Z.of_nat (dma_lost l') /\
     se_workq_num r' = in_event l' + Z.of_nat (se_lost l')) ->
  (r_pc r' <> RThrown -> g_recv g = in_dma l' + g_polled g' + Z.of_nat (dma_lost l')) ->
  (end_received r' = true -> end_received r = true) ->
  inv g' ds (MkSys s r' ch bk' l').
Proof.
  intros [Is Ir Il Iv If Ic In Ig Ie Id] Hr Hl E1 E2 E3 E4 Hv Hf He. cbn in *. split; cbn; try done.
  - unfold sender_inv in *. by rewrite E1, E2.
  - intros H. rewrite E3. by apply Hf.
  - by rewrite E4.
  - by rewrite E1, E3.
  - by rewrite E4.
  - intros H. rewrite E4. by apply Ie, He.
Qed.

(** The same when neither the counts nor the libraries change. *)
Lemma inv_receiver_goes g ds s r p ch bk bk' l :
  inv g ds (MkSys s r ch bk l) -> receiver_inv (r_goto p r) g ->
  (counting (r_goto p r) = true -> counting r = true) -> (p <> RThrown -> r_pc r <> RThrown) ->
  (end_received (r_goto p r) = true -> end_received r = true) ->
  inv g ds (MkSys s (r_goto p r) ch bk' l).
Proof.
  intros I Hr Hc Ht He. pose proof I as [Is Ir Il Iv If Ic In Ig Ie Id]. cbn in *.
  eapply inv_receiver_moves; [exact I|done..| | |done]; cbn; [by intros H; apply Iv, Hc|by intros H; apply If, Ht].
Qed.

Lemma inv_receive g d ds s r r' ch bk l l' :
  inv g ds (MkSys s r (Desc d :: ch) bk l) -> submit faulty (make_job c d) l l' ->
  end_received r' = false -> r_pc r <> RThrown ->
  let g' := MkCounts (g_sent g) (g_seen g) (g_recv g + 1) (g_polled g) (g_adds g) (g_pops g) (g_ending g) in
  receiver_inv r' g' ->
  (counting r' = true -> r_inflight_num r' = in_dma l + Z.of_nat (dma_lost l) + 1 /\
     se_workq_num r' = in_event l + Z.of_nat (se_lost l)) ->
  exists ds', inv g' ds' (MkSys s r' ch bk l').
Proof.
  intros I Hs He Ht g' Hr Hv. pose proof (inv_bounds _ _ _ I) as Hb. destruct I as [Is Ir Il Iv If Ic In Ig Ie Id]. cbn in *.
  destruct (next_desc _ _ _ _ Ic) as (ds' & -> & Ech). apply list.Forall_cons in Id as [Hd Id]. cbn in *.
  destruct (submit_inv _ _ _ _ Il Hs Hd) as (Hl & E1 & E2); [lia|]. exists ds'. split; cbn; try done.
  - intros H. destruct (Hv H). lia.
  - intros _. specialize (If Ht). lia.
  - lia.
  - by rewrite He.
Qed.

Lemma inv_receive_end g ds s r p ch bk l :
  inv g ds (MkSys s r (Success :: ch) bk l) -> end_received r = false -> r_pc r <> RThrown ->
  p = DrainDma /\ counting r = true \/ p = RThrown ->
  exists g', inv g' [] (MkSys s (r_goto p r) ch bk l).
Proof.
  intros [Is Ir Il Iv If Ic In Ig Ie Id] He Ht Hp. cbn in *. destruct (next_end _ _ _ Ic) as (-> & Eg & ->).
  exists (MkCounts (g_sent g) (g_seen g) (g_recv g) (g_polled g) (g_adds g) (g_pops g) false).
  split; cbn; try done.
  - unfold receiver_inv. cbn. destruct Hp as [[-> _]| ->]; done.
  - destruct Il; by split.
  - intros H. apply Iv. destruct Hp as [[-> ?]| ->]; done.
  - intros H. by apply If.
  - intros _. split; [by apply Ig|done].
Qed.

(** The sender's variables do not matter to the end of its loop. *)
Ltac sender_leaves I Hp :=
  eexists _, _; eapply inv_sender_leaves; [exact I|cbn; set_solver|cbn; unfold sent_all; cbn; try rewrite Hp; done].

Lemma inv_first_sent g ds s r ch bk l :
  inv g ds (MkSys s r ch bk l) -> s_pc s = Filling (batch_size c) -> inv g ds (MkSys (first_sent c s) r ch bk l).
Proof.
  intros I Hp. pose proof batch_small. pose proof (inv_sender _ _ _ I) as Is. cbn in Is. unfold sender_inv in Is. rewrite Hp in Is.
  destruct Is as (E1 & E2 & E3 & E4 & E5). pose proof (inv_seen _ _ (inv_lib _ _ _ I)).
  replace g with (saw (g_seen g) g) by by destruct g.
  eapply inv_sender_moves; [exact I| |done|unfold sent_all; by rewrite Hp].
  unfold sender_inv. cbn. rewrite Z.mod_same, wrapu_small by lia. rewrite E2, E5. repeat split; lia.
Qed.

Lemma inv_sent_all g ds s r ch bk l :
  inv g ds (MkSys s r ch bk l) -> s_pc s = Sending 0 -> inv g ds (MkSys (s_goto Getting s) r ch bk l).
Proof.
  intros I Hp. pose proof (inv_sender _ _ _ I) as Is. cbn in Is. unfold sender_inv in Is. rewrite Hp in Is.
  destruct Is as (E1 & E2 & E3 & E4 & E5 & E6). pose proof (inv_seen _ _ (inv_lib _ _ _ I)).
  replace g with (saw (g_seen g) g) by by destruct g.
  eapply inv_sender_moves; [exact I| |done|unfold sent_all; by rewrite Hp].
  unfold sender_inv. cbn. repeat split; try done; lia.
Qed.

(** Completions that the receiver polls. *)
Ltac receiver_facts I Hp :=
  pose proof (inv_bounds _ _ _ I) as Hb; pose proof I as [Is Ir Il Iv If Ic In Ig Ie Id];
  cbn [snd_p rcv_p chan back lib_p] in *; pose proof Il as [A B C D E F G H J];
  unfold receiver_inv, counting in *; rewrite Hp in *;
  try (destruct Iv as [Iv1 Iv2]; [done|]); specialize (If ltac:(done));
  unfold in_dma, in_event in *; cbn in *.

Ltac solve_receiver I :=
  eapply inv_receiver_moves; [exact I| |split| | | | | | |]; unfold receiver_inv, counting, end_received, in_dma, in_event in *; cbn in *;
  try done; try lia; try (intros _; rewrite ?wrapu_small by lia; lia).

Lemma inv_poll_completion g ds s r ch bk run dn dl a b e el v :
  inv g ds (MkSys s r ch bk (MkLib run (S dn) dl a b e el v)) -> r_pc r = Polling ->
  inv (MkCounts (g_sent g) (g_seen g) (g_recv g) (g_polled g + 1) (g_adds g + 1) (g_pops g) (g_ending g)) ds
    (MkSys s (after_completion r) ch bk (MkLib run dn dl (S a) b e el v)).
Proof. intros I Hp. receiver_facts I Hp. solve_receiver I. Qed.

Lemma inv_event_refused g ds s r ch bk run dn dl a b e el v :
  inv g ds (MkSys s r ch bk (MkLib run (S dn) dl a b e el v)) -> r_pc r = Polling ->
  inv g ds (MkSys s (r_goto RThrown r) ch bk (MkLib run dn dl a b e el v)).
Proof. intros I Hp. receiver_facts I Hp. solve_receiver I. Qed.

Lemma inv_event_done g ds s r p ch bk run dn dl a b e el v :
  inv g ds (MkSys s r ch bk (MkLib run dn dl a b (S e) el v)) ->
  r_pc r = EventWait /\ p = Polling \/ r_pc r = DrainEvent /\ p = DrainEvent ->
  inv (MkCounts (g_sent g) (g_seen g) (g_recv g) (g_polled g) (g_adds g) (g_pops g + 1) (g_ending g)) ds
    (MkSys s (after_event p r) ch bk (MkLib run dn dl a b e el v)).
Proof. intros I [[Hp ->]|[Hp ->]]; receiver_facts I Hp; solve_receiver I. by rewrite Hp. Qed.

Lemma inv_drain_one g ds s r ch bk run dn dl a b e el v :
  inv g ds (MkSys s r ch bk (MkLib run (S dn) dl a b e el v)) -> r_pc r = DrainDma ->
  inv (MkCounts (g_sent g) (g_seen g) (g_recv g) (g_polled g + 1) (g_adds g) (g_pops g) (g_ending g)) ds
    (MkSys s (after_drained r) ch bk (MkLib run dn dl a b e el v)).
Proof. intros I Hp. receiver_facts I Hp. solve_receiver I. by rewrite Hp. Qed.

Lemma inv_lib_moves g ds s r ch bk l l' :
  inv g ds (MkSys s r ch bk l) -> lib_inv g l' -> in_dma l' = in_dma l -> dma_lost l' = dma_lost l ->
  in_event l' + Z.of_nat (se_lost l') = in_event l + Z.of_nat (se_lost l) -> inv g ds (MkSys s r ch bk l').
Proof.
  intros I Hl E1 E2 E3. pose proof I as [Is Ir Il Iv If Ic In Ig Ie Id]. cbn in *.
  eapply inv_receiver_moves; [exact I|done..| | |done].
  - intros H. rewrite E1, E2, E3. by apply Iv.
  - intros H. rewrite E1, E2. by apply If.
Qed.

Ltac receiver_goes I Hp :=
  eexists _, _; eapply inv_receiver_goes; [exact I| | | |];
  pose proof (inv_receiver _ _ _ I) as Ir; cbn in Ir; unfold receiver_inv, counting, end_received in *; cbn in *; rewrite Hp in *; try done.

Lemma inv_step g ds s s' : inv g ds s -> step c faulty s s' -> exists g' ds', inv g' ds' s'.
Proof.
  intros I Hs. destruct Hs as [i rand s r ch bk l d s' Hp Hi Hr E|i rand s r ch bk l d s' Hp Hi Hr E|i s r ch bk l Hp Hi Hf
    |s r ch bk l Hp|s r ch bk l Hp|s r ch bk l Hp Hf|need rand s r ch bk l d s' Hp Hn Hr E|need s r ch bk l Hp Hn
    |need s r ch bk l Hp Hn Hf|s r ch bk l Hp|s r ch bk l Hp|s r ch bk l Hp|s r ch bk l Hp|s r ch bk l Hp|s r ch bk l Hp
    |i s r d ch bk l l' Hp Hi Hs|i s r ch bk l Hp Hi|s r ch bk l Hp|s r ch bk run dn dl a b e el v Hp Hq
    |s r ch bk run dn dl a b e el v Hp Hq|s r ch bk l Hp Hd|s r d ch bk l l' Hp Hs|s r bk l Hp|s r ch bk l Hp
    |s r ch bk run dn dl a b e el v Hp|s r ch bk l l' Hp Hf He|s r ch bk run dn dl a b e el v Hp Hn|s r ch bk l Hp Hn
    |s r ch bk run dn dl a b e el v Hp Hn|s r ch bk l Hp Hn|s r ch bk l Hp|s r ch bk l Hp|s r ch bk l Hp Hf|s r ch bk l l' Hs].
  - destruct (inv_send_first _ _ _ _ _ _ _ _ _ _ _ true I Hp Hi E) as [g' I']. by eexists _, _.
  - destruct (inv_send_first _ _ _ _ _ _ _ _ _ _ _ false I Hp Hi E) as [g' I']. rewrite !app_nil_r in I'. by eexists _, _.
  - sender_leaves I Hp.
  - eexists _, _. by apply inv_first_sent.
  - eexists _, _. by apply got_event_inv.
  - sender_leaves I Hp.
  - destruct (inv_send_next _ _ _ _ _ _ _ _ _ _ _ I Hp Hn E) as [g' I']. by eexists _, _.
  - sender_leaves I Hp.
  - sender_leaves I Hp.
  - eexists _, _. by apply inv_sent_all.
  - sender_leaves I Hp.
  - destruct (inv_send_end _ _ _ _ _ _ _ I Hp) as [g' I']. by eexists _, _.
  - sender_leaves I Hp.
  - sender_leaves I Hp.
  - sender_leaves I Hp.
  - pose proof (inv_receiver _ _ _ I) as Ir. cbn in Ir. unfold receiver_inv in Ir. rewrite Hp in Ir.
    eexists. eapply inv_receive; [exact I|exact Hs|done|by rewrite Hp| |done]. unfold receiver_inv. cbn. lia.
  - destruct ch as [|[d|] ch].
    + receiver_goes I Hp.
    + receiver_goes I Hp.
    + destruct (inv_receive_end _ _ _ _ RThrown _ _ _ I) as [g' I']; [by unfold end_received; rewrite Hp|by rewrite Hp|by right|].
      by eexists _, _.
  - pose proof I as I'. receiver_facts I Hp. eexists _, _. solve_receiver I'.
  - eexists _, _. by apply inv_poll_completion.
  - eexists _, _. by eapply inv_event_refused.
  - receiver_goes I Hp.
  - pose proof (inv_bounds _ _ _ I) as Hb. pose proof (inv_receiver _ _ _ I) as Ir. pose proof (inv_vars _ _ _ I) as Iv. cbn in Hb, Ir, Iv.
    unfold receiver_inv, counting in Ir, Iv. rewrite Hp in Ir, Iv. destruct Iv as [Iv1 Iv2]; [done|].
    eexists. eapply inv_receive; [exact I|exact Hs|done|by rewrite Hp| |].
    + unfold receiver_inv. cbn. lia.
    + intros _. cbn. pose proof (in_dma_pos l). rewrite wrapu_small by lia. lia.
  - receiver_goes I Hp.
  - destruct (inv_receive_end _ _ _ _ DrainDma _ _ _ I) as [g' I'];
      [by unfold end_received; rewrite Hp|by rewrite Hp|left; by unfold counting; rewrite Hp|]. by eexists _, _.
  - eexists _, _. eapply inv_event_done; [exact I|by left].
  - destruct (event_fails_inv _ _ _ (inv_lib _ _ _ I) Hf He) as (Hl & E1 & E2 & E3). eexists _, _. by eapply inv_lib_moves.
  - eexists _, _. by apply inv_drain_one.
  - receiver_goes I Hp.
  - eexists _, _. eapply inv_event_done; [exact I|by right].
  - receiver_goes I Hp.
  - receiver_goes I Hp.
  - receiver_goes I Hp.
  - eexists _, _. by eapply (inv_receiver_goes _ _ _ _ RThrown); [exact I|..].
  - destruct (lib_step_inv _ _ _ (inv_lib _ _ _ I) Hs) as (Hl & E1 & E2 & E3 & E4). eexists _, _. eapply inv_lib_moves; [exact I|done..|]. by rewrite E3, E4.
Qed.
End Invariant.

(** ** Flow control *)

Definition is_desc (m : msg) : bool := match m with Desc _ => true | Success => false end.

Lemma reachable_inv c faulty s :
  0 < payload c -> payload c < mmap_length c < 2 ^ 32 -> 0 < batch_size c ->
  batch_size c * payload c < 2 ^ 32 -> reachable c faulty s -> exists g ds, inv c faulty g ds s.
Proof.
  intros Hp Hm Hb Hl Hr. unfold reachable in Hr. assert (exists g ds, inv c faulty g ds sys_start) as H0.
  { eexists _, _. by apply inv_start. }
  revert H0. induction Hr as [s|s1 s2 s3 Hs _ IH]; [done|]. intros (g & ds & I). apply IH. by eapply inv_step.
Qed.

Lemma chan_descs ds (b : bool) :
  filter is_desc ((Desc <$> ds) ++ (if b then [Success] else [])) = Desc <$> ds.
Proof.
  rewrite list.filter_app. replace (filter is_desc (if b then [Success] else [])) with (@nil msg) by by destruct b.
  rewrite app_nil_r. induction ds as [|d ds IH]; [done|]. rewrite fmap_cons. by rewrite filter_cons_True, IH.
Qed.

(** A refused copy is not forgotten. *)
Lemma submit_lost faulty j l l' : submit faulty j l l' -> (dma_lost l <= dma_lost l')%nat.
Proof. destruct 1; cbn; lia. Qed.

Lemma step_lost c faulty s s' : step c faulty s s' -> (dma_lost (lib_p s) <= dma_lost (lib_p s'))%nat.
Proof.
  destruct 1; cbn; try lia; try (by eapply submit_lost).
  - match goal with H : event_fails _ _ |- _ => by destruct H end.
  - match goal with H : lib_step _ _ |- _ => by destruct H end.
Qed.

Lemma rtc_lost c faulty s s' : rtc (step c faulty) s s' -> (dma_lost (lib_p s) <= dma_lost (lib_p s'))%nat.
Proof. induction 1 as [|s1 s2 s3 H _ IH]; [done|]. pose proof (step_lost _ _ _ _ H). lia. Qed.

(** ** Batches that are larger than the queue *)

Lemma send_some c (n : nat) : Z.of_nat n <= batch_size c ->
  exists s ds, length ds = n /\ s_pc s = Filling (Z.of_nat n) /\
    rtc (step c false) sys_start (MkSys s receiver_start (Desc <$> ds) [] (lib_p sys_start)).
Proof.
  induction n as [|n IH]; intros Hn; [by exists sender_start, []|].
  destruct IH as (s & ds & Hl & Hp & Hr); [lia|]. destruct (send_first c 0 (Z.of_nat n) s) as [d s'] eqn:E.
  exists s', (ds ++ [d]). split; [rewrite length_app; cbn; lia|]. split.
  - injection E as _ <-. cbn. f_equal. lia.
  - eapply rtc_r; [exact Hr|]. rewrite fmap_app. eapply SendFirst; [exact Hp|lia|reflexivity|exact E].
Qed.

(** So many copies of the first batch fit in the queue when none is completed. *)
Lemma receive_some c s ds (n : nat) : (n <= length ds)%nat -> Z.of_nat n <= batch_size c -> Z.of_nat n <= MAX_QUEUE_SIZE ->
  exists r run, r_pc r = RFilling (Z.of_nat n) /\ length run = n /\
    rtc (step c false) (MkSys s receiver_start (Desc <$> ds) [] (lib_p sys_start))
      (MkSys s r (Desc <$> drop n ds) [] (MkLib run 0 0 0 0 0 0 0)).
Proof.
  induction n as [|n IH]; intros Hl Hb Hq; [by exists receiver_start, []|].
  destruct IH as (r & run & Hp & Hn & Hr); [lia..|]. destruct (lookup_lt_is_Some_2 ds n) as [d Hd]; [lia|].
  exists (r_goto (RFilling (Z.of_nat n + 1)) r), (run ++ [make_job c d]). split; [cbn; f_equal; lia|].
  split; [rewrite length_app; cbn; lia|]. eapply rtc_r; [exact Hr|]. rewrite (drop_S _ _ _ Hd), fmap_cons.
  eapply ReceiveFirst; [exact Hp|lia|]. apply Accepted. lia.
Qed.

Lemma overfull c : MAX_QUEUE_SIZE < batch_size c -> exists s, reachable c false s /\ (0 < dma_lost (lib_p s))%nat.
Proof.
  intros Hb. unfold MAX_QUEUE_SIZE in *. destruct (send_some c 129) as (s & ds & Hl & _ & Hr); [lia|].
  destruct (receive_some c s ds 128) as (r & run & Hp & Hn & Hr'); [lia..|done|].
  destruct (lookup_lt_is_Some_2 ds 128) as [d Hd]; [lia|]. rewrite (drop_S _ _ _ Hd), fmap_cons in Hr'.
  eexists. split; [|shelve]. unfold reachable. eapply rtc_r; [etrans; [exact Hr|exact Hr']|].
  eapply ReceiveFirst; [exact Hp|lia|]. apply NotAccepted. right. unfold MAX_QUEUE_SIZE. lia.
  Unshelve. cbn. lia.
Qed.

(** ** What the invariant says of a state *)

Section States.
Context (c : channel_config) (faulty : bool).
Context (Hpayload : 0 < payload c) (Hmmap : payload c < mmap_length c < 2 ^ 32)
  (Hbatch : 0 < batch_size c) (Hlocal : batch_size c * payload c < 2 ^ 32).

Lemma lost_never_ends s s' :
  reachable c faulty s -> (0 < dma_lost (lib_p s))%nat -> rtc (step c faulty) s s' ->
  r_pc (rcv_p s') <> DrainEvent /\ r_pc (rcv_p s') <> Replying /\ r_pc (rcv_p s') <> ReceiverEnded.
Proof.
  intros Hr Hd Hs. pose proof (rtc_lost _ _ _ _ Hs). destruct (reachable_inv c faulty s') as (g & ds & I); [done..|unfold reachable in *; by etrans|].
  destruct I as [_ Ir _ Iv _ _ _ _ _ _]. pose proof (in_dma_pos (lib_p s')).
  unfold receiver_inv, counting in *. destruct (r_pc (rcv_p s')); try done; destruct Iv; try done; lia.
Qed.

Lemma event_room g ds s : inv c faulty g ds s ->
  r_pc (rcv_p s) = Polling -> (0 < dma_done (lib_p s))%nat -> in_event (lib_p s) < batch_size c.
Proof.
  intros [_ Ir Il _ If _ _ _ _ _] Hp Hd. unfold receiver_inv in Ir. rewrite Hp in *. specialize (If ltac:(done)).
  destruct Il. unfold in_dma, in_event in *. lia.
Qed.

(** With nothing refused and no error, the receiver does not wait in vain. *)
Lemma waits_end g ds s : inv c faulty g ds s -> dma_lost (lib_p s) = 0%nat -> se_lost (lib_p s) = 0%nat ->
  match r_pc (rcv_p s) with
  | EventWait => (0 < se_acked (lib_p s) + se_done (lib_p s))%nat
  | DrainDma => r_inflight_num (rcv_p s) <> 0 -> 0 < in_dma (lib_p s)
  | DrainEvent => se_workq_num (rcv_p s) <> 0 -> 0 < in_event (lib_p s)
  | ReceiverEnded => chan s = [] /\ in_dma (lib_p s) = 0 /\ in_event (lib_p s) = 0
  | _ => True
  end.
Proof.
  intros I Hd He. pose proof (sender_window _ Hpayload _ _ (inv_sender _ _ _ _ _ I)) as Hw.
  pose proof (in_dma_pos (lib_p s)). pose proof (in_event_pos (lib_p s)).
  destruct I as [_ Ir Il Iv If Ic In _ Ie _]. destruct Il as [A B C D E F G H' J]. rewrite Hd, He in *.
  unfold receiver_inv, counting, end_received in *. destruct (r_pc (rcv_p s)); try done.
  - lia.
  - destruct Iv; [done|]. lia.
  - destruct Iv; [done|]. lia.
  - destruct Iv; [done|]. destruct Ie as (_ & -> & Eg); [done|]. rewrite Eg in Ic. split; [done|]. lia.
Qed.
End States.


(** A run up to the first wait for the event. *)
Definition sample_channel : channel_config := MkChannelConfig 64 1 4096 false.
Definition sample_wait : sys :=
  let d := make_descriptor sample_channel 0 0 in
  MkSys (MkSender (Sending 0) 0 2 1 1 1) (MkReceiver EventWait 1 1 1) [] []
    (MkLib [make_job sample_channel d] 0 0 0 1 0 0 1).

Lemma sample_wait_reachable : reachable sample_channel false sample_wait.
Proof.
  unfold reachable, sys_start, sample_wait.
  eapply rtc_l; [eapply (SendFirst _ _ 0 0); done|]. eapply rtc_l; [by eapply FirstSent|].
  eapply rtc_l; [eapply (ReceiveFirst _ _ 0); [done|done|by apply Accepted]|]. eapply rtc_l; [by eapply FirstReceived|].
  eapply rtc_l; [eapply LibStep; apply (DmaCompletes [])|]. eapply rtc_l; [by eapply PollCompletion|].
  eapply rtc_l; [eapply LibStep; apply EventAdds|]. eapply rtc_l; [by eapply GetEvent|].
  eapply rtc_l; [eapply (SendNext _ _ 1 0); done|]. eapply rtc_l; [eapply ReceiveNext; [done|by apply Accepted]|].
  reflexivity.
Qed.

