(* ===== verification/Doca.v ===== *)
(** * Doca: the DOCA library and its C++ wrappers

    The first part is the library, which is not in the repository: a call is a value of
    [doca_call], the class [DocaLib] gives its answer from the calls made before, and an
    [event] is a call with its answer and the value it stored through its output parameter.
    From the events follow the resources in use ([live]), the tasks under way ([in_flight])
    and the user data of a task ([task_data]); [DocaLaws] are the documented facts the
    proofs use.  [doca_pe_progress] handles at most one completed task: its event stores
    that task (0 for none), and its answer is the task's status.

    The second part translates [wrapper/*.h] and [wrapper/*.cpp]: devices, memory maps,
    buffers, contexts, progress engines, DMA and RDMA engines and tasks, and the
    communication channel.  An operation runs in the monad [M], whose state is the events
    and the variables [U] of the program; it is done, throws, exits, or still waits when the
    environment given to a waiting loop is used up.  An object that changes is returned. *)

From stdpp Require Import strings.
From S2P Require Import Prelude.

(** ** The library *)

Inductive doca_error :=
  | DOCA_SUCCESS | DOCA_ERROR_AGAIN | DOCA_ERROR_IN_PROGRESS | DOCA_ERROR_NOT_FOUND
  | DOCA_ERROR_BAD_STATE | DOCA_ERROR_UNEXPECTED | DOCA_ERROR_CONNECTION_INPROGRESS
  | DOCA_ERROR_INVALID_VALUE | DOCA_ERROR_CODE (code : Z).

#[export] Instance doca_error_eq : EqDecision doca_error.
Proof. solve_decision. Defined.

Inductive doca_call :=
  | DevinfoCreateList | DevinfoDestroyList (l : Z) | DevinfoIsEqualPci (d : Z) (pci : string)
  | DevinfoGetIbdevName (d : Z) | DevinfoSupports (d job : Z) | DevOpen (d : Z) | DevClose (d : Z)
  | RepCreateList (dev filter : Z) | RepDestroyList (l : Z) | RepGetPciAddr (d : Z) | RepOpen (d : Z)
  | RepClose (d : Z)
  | MmapCreate | MmapDestroy (m : Z) | MmapSetMemrange (m addr len : Z) | MmapAddDev (m dev : Z)
  | MmapStart (m : Z) | MmapSetPermissions (m flags : Z) | MmapExportPci (m dev : Z)
  | MmapCreateFromExport (desc : string) (dev : Z)
  | InvCreate (n : Z) | InvStart (i : Z) | InvDestroy (i : Z)
  | BufByAddr (inv m addr len : Z) | BufByData (inv m addr len : Z) | BufDecRefcount (b : Z)
  | BufGetData (b : Z) | BufGetDataLen (b : Z) | BufSetData (b addr len : Z) | BufChain (b c : Z)
  | CtxSetUserData (c : Z) | CtxStart (c : Z) | CtxStop (c : Z)
  | PeCreate | PeDestroy (p : Z) | PeConnectCtx (p c : Z) | PeProgress (p : Z) | PeNumInflight (p : Z)
  | TaskSubmit (t : Z) | TaskFree (t : Z)
  | DmaCreate (dev : Z) | DmaDestroy (d : Z) | DmaSetConf (d n : Z) | DmaTaskAlloc (d src dst data : Z)
  | DmaTaskSetSrc (t src : Z) | DmaTaskSetDst (t dst : Z)
  | RdmaCreate (dev : Z) | RdmaDestroy (r : Z) | RdmaSetPermissions (r flags : Z) | RdmaSetGidIndex (r i : Z)
  | RdmaSetSendQueueSize (r n : Z) | RdmaSetRecvQueueSize (r n : Z) | RdmaSendSetConf (r n : Z) | RdmaRecvSetConf (r n : Z)
  | RdmaExport (r : Z) | RdmaConnect (r : Z) (desc : string)
  | RdmaSendAlloc (r src data : Z) | RdmaRecvAlloc (r src data : Z)
  | EpCreate | EpDestroy (e : Z) | EpSetDevice (e dev : Z) | EpSetDeviceRep (e rep : Z)
  | EpSetProperty (e i v : Z) | EpGetProperty (e i : Z) | EpListen (e : Z) (name : string)
  | EpConnect (e : Z) (name : string) | AddrUpdateInfo (a : Z) | EpDisconnect (e a : Z)
  | EpRecvfrom (e : Z) | EpSendto (e a : Z) (msg : string).

Record event := Ev { ev_call : doca_call; ev_err : doca_error; ev_out : Z }.
Definition trace : Type := list event.

Class DocaLib := {
  (** the result of a call, what it stores through its output parameter, and as text *)
  answer : trace -> doca_call -> doca_error;
  stored : trace -> doca_call -> Z;
  text : trace -> doca_call -> string;
  (** the elements of the list the next [..CreateList] makes *)
  listed : trace -> doca_call -> list Z;
  (** the context of an engine *)
  as_ctx : Z -> Z;
}.

(** *** Resources *)

Inductive kind := KList | KDev | KRepList | KRep | KMmap | KInv | KBuf | KPe | KTask | KDma | KRdma | KEp | KAddr.

#[export] Instance kind_eq : EqDecision kind.
Proof. solve_decision. Defined.

Definition kind_index (k : kind) : nat :=
  match k with
  | KList => 0 | KDev => 1 | KRepList => 2 | KRep => 3 | KMmap => 4 | KInv => 5 | KBuf => 6 | KPe => 7
  | KTask => 8 | KDma => 9 | KRdma => 10 | KEp => 11 | KAddr => 12
  end.

#[export] Instance kind_countable : Countable kind.
Proof.
  refine (inj_countable kind_index
    (fun n => [KList; KDev; KRepList; KRep; KMmap; KInv; KBuf; KPe; KTask; KDma; KRdma; KEp; KAddr] !! n) _).
  by intros [].
Defined.

Definition resource : Type := kind * Z.

(** The kind of what a call makes. *)
Definition makes (c : doca_call) : option kind :=
  match c with
  | DevinfoCreateList => Some KList
  | DevOpen _ => Some KDev
  | RepCreateList _ _ => Some KRepList
  | RepOpen _ => Some KRep
  | MmapCreate | MmapCreateFromExport _ _ => Some KMmap
  | InvCreate _ => Some KInv
  | BufByAddr _ _ _ _ | BufByData _ _ _ _ => Some KBuf
  | PeCreate => Some KPe
  | DmaTaskAlloc _ _ _ _ | RdmaSendAlloc _ _ _ | RdmaRecvAlloc _ _ _ => Some KTask
  | DmaCreate _ => Some KDma
  | RdmaCreate _ => Some KRdma
  | EpCreate => Some KEp
  | EpConnect _ _ => Some KAddr
  | _ => None
  end.

(** What a call hands back, whatever its answer. *)
Definition frees (c : doca_call) : option resource :=
  match c with
  | DevinfoDestroyList l => Some (KList, l)
  | DevClose d => Some (KDev, d)
  | RepDestroyList l => Some (KRepList, l)
  | RepClose d => Some (KRep, d)
  | MmapDestroy m => Some (KMmap, m)
  | InvDestroy i => Some (KInv, i)
  | BufDecRefcount b => Some (KBuf, b)
  | PeDestroy p => Some (KPe, p)
  | TaskFree t => Some (KTask, t)
  | DmaDestroy d => Some (KDma, d)
  | RdmaDestroy r => Some (KRdma, r)
  | EpDestroy e => Some (KEp, e)
  | EpDisconnect _ a => Some (KAddr, a)
  | _ => None
  end.

Definition opt_set {A} `{Countable A} (x : option A) : gset A := match x with Some x => {[x]} | None => ∅ end.

Definition acquired (e : event) : gset resource :=
  match ev_err e, makes (ev_call e) with DOCA_SUCCESS, Some k => {[(k, ev_out e)]} | _, _ => ∅ end.

Definition live_step (l : gset resource) (e : event) : gset resource :=
  (l ∪ acquired e) ∖ opt_set (frees (ev_call e)).
Definition live (tr : trace) : gset resource := foldl live_step ∅ tr.

(** *** Tasks *)

(** The tasks under way, in the order of their submission. *)
Definition flight_step (l : list Z) (e : event) : list Z :=
  match ev_call e with
  | TaskSubmit t => if decide (ev_err e = DOCA_SUCCESS) then l ++ [t] else l
  | PeProgress _ => filter (fun t => t <> ev_out e) l
  | _ => l
  end.
Definition in_flight (tr : trace) : list Z := foldl flight_step [] tr.

(** The number of tasks completed with success. *)
Definition completes (e : event) : bool :=
  match ev_call e, ev_err e with PeProgress _, DOCA_SUCCESS => truthy (ev_out e) | _, _ => false end.
Definition done_step (n : Z) (e : event) : Z := if completes e then n + 1 else n.
Definition completed (tr : trace) : Z := foldl done_step 0 tr.

(** The user data given when the task was made last. *)
Definition data_step (m : gmap Z Z) (e : event) : gmap Z Z :=
  match ev_call e, ev_err e with
  | (DmaTaskAlloc _ _ _ data | RdmaSendAlloc _ _ data | RdmaRecvAlloc _ _ data), DOCA_SUCCESS =>
      <[ev_out e := data]> m
  | _, _ => m
  end.
Definition task_datas (tr : trace) : gmap Z Z := foldl data_step ∅ tr.
Definition task_data (tr : trace) (t : Z) : Z := default 0 (task_datas tr !! t).

Class DocaLaws (L : DocaLib) := {
  (** what a call makes is not null and not in use *)
  made_fresh tr c k :
    answer tr c = DOCA_SUCCESS -> makes c = Some k -> stored tr c <> 0 /\ (k, stored tr c) ∉ live tr;
  (** a completed task was under way *)
  progress_task tr p : stored tr (PeProgress p) <> 0 -> stored tr (PeProgress p) ∈ in_flight tr;
  num_inflight tr p : answer tr (PeNumInflight p) = DOCA_SUCCESS ->
    stored tr (PeNumInflight p) = Z.of_nat (length (in_flight tr));
}.

(** The polls that found nothing. *)
Definition is_idle (e : event) : bool := match ev_call e with PeProgress _ => ev_out e =? 0 | _ => false end.
Definition idle (tr : list event) : nat := length (filter is_idle tr).

Definition is_poll (c : doca_call) : bool := match c with PeProgress _ => true | _ => false end.
Definition polls (tr : list event) : nat := length (filter (fun e => is_poll (ev_call e)) tr).

Lemma idle_app a b : idle (a ++ b) = (idle a + idle b)%nat.
Proof. unfold idle. by rewrite list.filter_app, length_app. Qed.
Lemma polls_app a b : polls (a ++ b) = (polls a + polls b)%nat.
Proof. unfold polls. by rewrite list.filter_app, length_app. Qed.

Lemma no_polls (tr : list event) : Forall (fun e => is_poll (ev_call e) = false) tr -> polls tr = 0%nat /\ idle tr = 0%nat.
Proof.
  unfold polls, idle. induction 1 as [|e tr He _ [IH1 IH2]]; [done|].
  rewrite (filter_cons_False (fun e => is_poll (ev_call e))) by (rewrite He; by intros []). split; [done|].
  rewrite filter_cons_False; [done|]. unfold is_idle. destruct (ev_call e); try done; by intros [].
Qed.
Lemma idle_poll p x : polls [Ev (PeProgress p) x 0] = 1%nat /\ idle [Ev (PeProgress p) x 0] = 1%nat.
Proof. done. Qed.
Lemma busy_poll p x t : t <> 0 -> polls [Ev (PeProgress p) x t] = 1%nat /\ idle [Ev (PeProgress p) x t] = 0%nat.
Proof.
  intros Ht. split; [done|]. unfold idle. rewrite filter_cons_False; [done|]. cbn. rewrite (proj2 (Z.eqb_neq _ _)) by done. by intros [].
Qed.

(** ** Effects *)

Inductive exn := DOCAException (e : doca_error) | RuntimeError.
(** [Crashes] is an index beyond a vector. *)
Inductive ending := Throws (x : exn) | Exits | Waits | Crashes.
Inductive outcome (A : Type) := Done (a : A) | Ended (e : ending).
Arguments Done {A}.
Arguments Ended {A}.

Record doca (U : Type) := MkDoca { calls : trace; vars : U }.
Arguments MkDoca {U}.
Arguments calls {U}.
Arguments vars {U}.

Definition M (U A : Type) : Type := doca U -> outcome A * doca U.

#[export] Instance M_ret {U} : MRet (M U) := fun A a s => (Done a, s).
#[export] Instance M_bind {U} : MBind (M U) := fun A B f m s =>
  match m s with
  | (Done a, s) => f a s
  | (Ended e, s) => (Ended e, s)
  end.

Definition endwith {U A} (e : ending) : M U A := fun s => (Ended e, s).
Definition throw {U A} (x : exn) : M U A := endwith (Throws x).
(** [catch (DOCAException &e)] *)
Definition try_doca {U A} (m : M U A) (handler : doca_error -> M U A) : M U A := fun s =>
  match m s with
  | (Ended (Throws (DOCAException e)), s) => handler e s
  | r => r
  end.
Definition history {U} : M U trace := fun s => (Done (calls s), s).
Definition get {U} : M U U := fun s => (Done (vars s), s).
Definition put {U} (u : U) : M U unit := fun s => (Done tt, MkDoca (calls s) u).
Definition rt_assert {U} (b : bool) : M U unit := if b then mret tt else throw RuntimeError.

(** A loop over a list. *)
Fixpoint each {U A} (l : list A) (body : A -> M U unit) : M U unit :=
  match l with
  | [] => mret tt
  | x :: l => _ ← body x; each l body
  end.

(** The element of [0, 1, ..., n - 1] after [before]. *)
Lemma seq_middle n before (k : nat) after :
  seq 0 n = before ++ k :: after -> k = length before /\ (k < n)%nat.
Proof.
  intros E. pose proof (f_equal length E) as Hl. rewrite length_seq, length_app in Hl. cbn in Hl.
  assert (seq 0 n !! length before = Some k) as Hn by (rewrite E; by apply list_lookup_middle).
  apply lookup_seq in Hn. lia.
Qed.

Section Calls.
Context {L : DocaLib} {U : Type}.

Definition event_of (tr : trace) (c : doca_call) : event := Ev c (answer tr c) (stored tr c).

Definition call (c : doca_call) : M U event := fun s =>
  let e := event_of (calls s) c in (Done e, MkDoca (calls s ++ [e]) (vars s)).

Definition ok (e : event) : bool := bool_decide (ev_err e = DOCA_SUCCESS).

(** [if (result != DOCA_SUCCESS) throw DOCAException(result);] *)
Definition expect (c : doca_call) : M U Z :=
  e ← call c;
  if ok e then mret (ev_out e) else throw (DOCAException (ev_err e)).
(** [rt_assert(result == DOCA_SUCCESS);] *)
Definition insist (c : doca_call) : M U Z := e ← call c; _ ← rt_assert (ok e); mret (ev_out e).
(** The result is not looked at. *)
Definition ignore (c : doca_call) : M U unit := _ ← call c; mret tt.
End Calls.

(** ** Devices *)

Section Wrappers.
Context {L : DocaLib} {U : Type}.

(** [wrapper_device.cpp].  A [devinfo], a [dev] and a [device_list] are their inner pointers;
    the elements of a list are kept beside it. *)
Definition devinfo_is_equal (d : Z) (pci_addr : string) : M U bool :=
  r ← expect (DevinfoIsEqualPci d pci_addr); mret (truthy r).
Definition devinfo_get_ibv_name (d : Z) : M U string :=
  h ← history;
  _ ← insist (DevinfoGetIbdevName d);
  mret (text h (DevinfoGetIbdevName d)).
Definition dev_open (d : Z) : M U Z :=
  dev ← insist (DevOpen d);
  _ ← rt_assert (truthy dev);
  mret dev.
Definition dev_delete (dev : Z) : M U unit := ignore (DevClose dev).

Definition get_device_list : M U (Z * list Z) :=
  h ← history;
  e ← call DevinfoCreateList;
  let dev_list := listed h DevinfoCreateList in
  _ ← rt_assert (truthy (ev_out e) || (length dev_list =? 0)%nat);
  mret (ev_out e, dev_list).
Definition device_list_delete (l : Z) : M U unit := ignore (DevinfoDestroyList l).

(** The loop of both [open_doca_device_with_...]: the first device that [matches] and that
    [func] accepts; [func] asks whether the device supports a job. *)
Fixpoint open_loop (matches : Z -> M U bool) (func : option Z) (device_list : Z) (devs : list Z) : M U Z :=
  match devs with
  | [] =>
      _ ← device_list_delete device_list;
      throw (DOCAException DOCA_ERROR_NOT_FOUND)
  | d :: devs =>
      _ ← rt_assert (truthy d);
      eq ← matches d;
      supported ← (if (eq : bool) then
                     match func with
                     | None => mret true
                     | Some job => e ← call (DevinfoSupports d job); mret (ok e)
                     end
                   else mret false);
      if (supported : bool) then
        res ← dev_open d;
        _ ← device_list_delete device_list;
        mret res
      else open_loop matches func device_list devs
  end.
Definition open_doca_device_with_pci (value : string) (func : option Z) : M U Z :=
  '(device_list, devs) ← get_device_list;
  open_loop (fun d => devinfo_is_equal d value) func device_list devs.
Definition open_doca_device_with_ibdev_name (value : string) (func : option Z) : M U Z :=
  '(device_list, devs) ← get_device_list;
  open_loop (fun d => name ← devinfo_get_ibv_name d; mret (bool_decide (name = value))) func device_list devs.

(** [wrapper_device_rep.cpp] *)
Definition devinfo_rep_get_name (d : Z) : M U string :=
  h ← history;
  _ ← insist (RepGetPciAddr d);
  mret (text h (RepGetPciAddr d)).
Definition devinfo_rep_is_equal (d : Z) (pci_addr : string) : M U bool :=
  h ← history;
  _ ← expect (RepGetPciAddr d);
  mret (bool_decide (text h (RepGetPciAddr d) = pci_addr)).
Definition dev_rep_open (d : Z) : M U Z :=
  rep ← insist (RepOpen d);
  _ ← rt_assert (truthy rep);
  mret rep.
Definition dev_rep_delete (rep : Z) : M U unit := ignore (RepClose rep).

(** The elements before the first null pointer. *)
Fixpoint before_null (l : list Z) : list Z :=
  match l with
  | [] => []
  | d :: l => if truthy d then d :: before_null l else []
  end.
Definition get_device_rep_list (local filter : Z) : M U (Z * list Z) :=
  h ← history;
  e ← call (RepCreateList local filter);
  let dev_rep_list := listed h (RepCreateList local filter) in
  _ ← rt_assert (truthy (ev_out e) || (length dev_rep_list =? 0)%nat);
  mret (ev_out e, before_null dev_rep_list).
Definition device_rep_list_delete (l : Z) : M U unit := ignore (RepDestroyList l).

Fixpoint open_rep_loop (value : string) (device_rep_list : Z) (reps : list Z) : M U Z :=
  match reps with
  | [] =>
      _ ← device_rep_list_delete device_rep_list;
      throw (DOCAException DOCA_ERROR_NOT_FOUND)
  | d :: reps =>
      _ ← rt_assert (truthy d);
      _ ← devinfo_rep_get_name d;
      eq ← devinfo_rep_is_equal d value;
      if (eq : bool) then
        res ← dev_rep_open d;
        _ ← device_rep_list_delete device_rep_list;
        mret res
      else open_rep_loop value device_rep_list reps
  end.
Definition open_doca_device_rep_with_pci (local filter : Z) (value : string) : M U Z :=
  '(device_rep_list, reps) ← get_device_rep_list local filter;
  open_rep_loop value device_rep_list reps.

(** ** Memory maps and buffers *)

Record mmap := MkMmap { inner_mmap : Z; added_devs : list Z }.

Definition mmap_new : M U mmap := m ← insist MmapCreate; mret (MkMmap m []).
Definition mmap_delete (m : mmap) : M U unit := _ ← expect (MmapDestroy (inner_mmap m)); mret tt.
Definition mmap_set_memrange (m : mmap) (memptr num : Z) : M U unit :=
  _ ← expect (MmapSetMemrange (inner_mmap m) memptr num); mret tt.
Definition mmap_start (m : mmap) : M U unit := _ ← expect (MmapStart (inner_mmap m)); mret tt.
Definition set_memrange_and_start (m : mmap) (memptr num : Z) : M U unit :=
  _ ← mmap_set_memrange m memptr num; mmap_start m.
Definition add_device (dev : Z) (m : mmap) : M U mmap :=
  _ ← expect (MmapAddDev (inner_mmap m) dev);
  mret (MkMmap (inner_mmap m) (added_devs m ++ [dev])).
Definition set_permissions (m : mmap) (permission : Z) : M U unit :=
  _ ← expect (MmapSetPermissions (inner_mmap m) permission); mret tt.
Definition export_dpu (m : mmap) (dev_index : nat) : M U string :=
  match added_devs m !! dev_index with
  | None => throw (DOCAException DOCA_ERROR_BAD_STATE)
  | Some dev =>
      h ← history;
      _ ← expect (MmapExportPci (inner_mmap m) dev);
      mret (text h (MmapExportPci (inner_mmap m) dev))
  end.
Fixpoint export_from (m : mmap) (idx : list nat) (res : list string) : M U (list string) :=
  match idx with
  | [] => mret res
  | i :: idx => s ← export_dpu m i; export_from m idx (res ++ [s])
  end.
Definition export_dpus (m : mmap) : M U (list string) := export_from m (seq 0 (length (added_devs m))) [].
Definition new_from_exported_dpu (exporter : string) (dev : Z) : M U mmap :=
  m ← expect (MmapCreateFromExport exporter dev); mret (MkMmap m [dev]).

Definition buf_inventory_new (max_buf : Z) : M U Z :=
  i ← expect (InvCreate max_buf);
  _ ← expect (InvStart i);
  mret i.
Definition buf_inventory_delete (i : Z) : M U unit := _ ← expect (InvDestroy i); mret tt.

Record buf := MkBuf { inner_buf : Z; raw_pointer : Z; raw_size : Z }.

Definition buf_inventory_buf_by_addr (inv : Z) (m : mmap) (addr len : Z) : M U buf :=
  b ← expect (BufByAddr inv (inner_mmap m) addr len); mret (MkBuf b addr len).
Definition buf_inventory_buf_by_data (inv : Z) (m : mmap) (addr len : Z) : M U buf :=
  b ← expect (BufByData inv (inner_mmap m) addr len); mret (MkBuf b addr len).
Definition buf_delete (b : buf) : M U unit := _ ← expect (BufDecRefcount (inner_buf b)); mret tt.
Definition buf_get_data (b : buf) : M U Z := expect (BufGetData (inner_buf b)).
Definition buf_get_length (b : buf) : M U Z := expect (BufGetDataLen (inner_buf b)).
Definition set_data (b : buf) (offset data_size : Z) : M U unit :=
  _ ← expect (BufSetData (inner_buf b) (raw_pointer b +64 offset)%cint data_size); mret tt.
Definition buf_append (b list_append : buf) : M U unit :=
  _ ← expect (BufChain (inner_buf b) (inner_buf list_append)); mret tt.

(** ** Contexts, progress engines and tasks *)

(** A [ctx] is the context of its engine.  Its destructor exits when stopping throws. *)
Definition in_progress_ok (e : event) : bool :=
  bool_decide (ev_err e = DOCA_SUCCESS \/ ev_err e = DOCA_ERROR_IN_PROGRESS).
Definition ctx_new (engine : Z) : M U Z := mret (as_ctx engine).
Definition ctx_set_data (c : Z) : M U unit := _ ← expect (CtxSetUserData c); mret tt.
Definition ctx_start (c : Z) : M U unit :=
  e ← call (CtxStart c);
  if in_progress_ok e then mret tt else throw (DOCAException (ev_err e)).
Definition ctx_stop (c : Z) : M U unit :=
  e ← call (CtxStop c);
  if in_progress_ok e then mret tt else throw (DOCAException (ev_err e)).
Definition ctx_delete (c : Z) : M U unit := try_doca (ctx_stop c) (fun _ => endwith Exits).

Record pe := MkPe { inner_pe : Z; inner_ctxs : list Z }.

Definition pe_new : M U pe := p ← expect PeCreate; mret (MkPe p []).
Definition pe_delete (p : pe) : M U unit := _ ← expect (PeDestroy (inner_pe p)); mret tt.
Definition connect_ctx (ctx : Z) (p : pe) : M U pe :=
  _ ← expect (PeConnectCtx (inner_pe p) ctx);
  mret (MkPe (inner_pe p) (inner_ctxs p ++ [ctx])).
Definition start_ctx (p : pe) : M U unit := each (inner_ctxs p) ctx_start.
Definition submit (task : Z) : M U doca_error := e ← call (TaskSubmit task); mret (ev_err e).
Definition get_num_inflight (p : pe) : M U Z := expect (PeNumInflight (inner_pe p)).
(** A completed task is given to the callback for its status, with its user data. *)
Definition poll_progress (p : pe) (completion_cb : Z -> M U unit) (error_cb : Z -> doca_error -> M U unit) : M U unit :=
  e ← call (PeProgress (inner_pe p));
  if truthy (ev_out e) then
    h ← history;
    if ok e then completion_cb (task_data h (ev_out e)) else error_cb (task_data h (ev_out e)) (ev_err e)
  else mret tt.

(** [wrapper_dma.h], [wrapper_dma.cpp] *)
Definition dma_new (dev : Z) : M U Z := expect (DmaCreate dev).
Definition dma_delete (d : Z) : M U unit := _ ← expect (DmaDestroy d); mret tt.
Definition dma_set_task_conf (d num_tasks : Z) : M U doca_error := e ← call (DmaSetConf d num_tasks); mret (ev_err e).
Definition dma_task_memcpy_new (dma : Z) (src_buf dst_buf : buf) (task_user_data : Z) : M U Z :=
  expect (DmaTaskAlloc dma (inner_buf src_buf) (inner_buf dst_buf) task_user_data).
Definition task_delete (t : Z) : M U unit := ignore (TaskFree t).
Definition dma_task_set_src (t : Z) (src : buf) : M U unit := ignore (DmaTaskSetSrc t (inner_buf src)).
Definition dma_task_set_dst (t : Z) (dst : buf) : M U unit := ignore (DmaTaskSetDst t (inner_buf dst)).

(** [wrapper_rdma.h], [wrapper_rdma.cpp] *)
Definition rdma_new (dev gid_index rdma_permissions : Z) : M U Z :=
  r ← expect (RdmaCreate dev);
  _ ← expect (RdmaSetPermissions r rdma_permissions);
  _ ← expect (RdmaSetGidIndex r gid_index);
  mret r.
Definition rdma_delete (r : Z) : M U unit := _ ← expect (RdmaDestroy r); mret tt.
Definition set_task_send_conf (r num_tasks : Z) : M U doca_error :=
  e ← call (RdmaSendSetConf r num_tasks); mret (ev_err e).
Definition set_task_receive_conf (r num_tasks : Z) : M U doca_error :=
  e ← call (RdmaRecvSetConf r num_tasks); mret (ev_err e).
Definition export_rdma (r : Z) : M U string :=
  h ← history; _ ← expect (RdmaExport r); mret (text h (RdmaExport r)).
Definition connect_rdma (r : Z) (exporter : string) : M U unit := _ ← expect (RdmaConnect r exporter); mret tt.
Definition rdma_task_send_new (rdma : Z) (src_buf : buf) (task_user_data : Z) : M U Z :=
  expect (RdmaSendAlloc rdma (inner_buf src_buf) task_user_data).
Definition rdma_task_receive_new (rdma : Z) (src_buf : buf) (task_user_data : Z) : M U Z :=
  expect (RdmaRecvAlloc rdma (inner_buf src_buf) task_user_data).

(** ** The communication channel *)

(** [wrapper_comm_channel.cpp].  [stops] are the values of [stop_flag] that the waiting loop
    reads; the text is the message received. *)
Record comm_channel_ep := MkEp { inner_ep : Z; server_name : string }.

Definition comm_channel_ep_new (dev : Z) (dev_rep : option Z) (name : string) : M U comm_channel_ep :=
  _ ← rt_assert (truthy dev);
  ep ← expect EpCreate;
  _ ← expect (EpSetDevice ep dev);
  _ ← match dev_rep with
      | None => mret tt
      | Some rep => _ ← expect (EpSetDeviceRep ep rep); mret tt
      end;
  mret (MkEp ep name).
Definition comm_channel_ep_delete (ep : comm_channel_ep) : M U unit := _ ← expect (EpDestroy (inner_ep ep)); mret tt.

(** A property that is 0 is left as it is; a refusal is only logged. *)
Definition set_property (ep : comm_channel_ep) (property : list Z) : M U unit :=
  _ ← rt_assert (length property =? 3)%nat;
  each (imap (fun i v => (Z.of_nat i, v)) property)
    (fun '(i, v) => if 0 <? v then ignore (EpSetProperty (inner_ep ep) i v) else mret tt).
Fixpoint get_properties (ep : comm_channel_ep) (idx : list Z) (res : list Z) : M U (list Z) :=
  match idx with
  | [] => mret res
  | i :: idx =>
      e ← call (EpGetProperty (inner_ep ep) i);
      get_properties ep idx (res ++ [if ok e then u16 (ev_out e) else 0])
  end.
Definition get_property (ep : comm_channel_ep) : M U (list Z) := get_properties ep [0; 1; 2] [].
Definition start_listen (ep : comm_channel_ep) : M U unit :=
  _ ← expect (EpListen (inner_ep ep) (server_name ep)); mret tt.

(** Repeats a call while it is [busy]; [None] when the stop flag ended the loop. *)
Fixpoint wait_ready (c : doca_call) (busy : doca_error) (stops : list bool) : M U (option (event * string)) :=
  h ← history;
  e ← call c;
  if decide (ev_err e = busy) then
    match stops with
    | [] => endwith Waits
    | true :: _ => mret None
    | false :: stops => wait_ready c busy stops
    end
  else mret (Some (e, text h c)).

Definition comm_channel_addr_new (addr : Z) : M U Z := _ ← rt_assert (truthy addr); mret addr.
Definition comm_channel_addr_delete (ep : comm_channel_ep) (addr : Z) : M U unit :=
  _ ← expect (EpDisconnect (inner_ep ep) addr); mret tt.

Definition ep_connect (ep : comm_channel_ep) (stops : list bool) : M U Z :=
  peer_addr ← expect (EpConnect (inner_ep ep) (server_name ep));
  r ← wait_ready (AddrUpdateInfo peer_addr) DOCA_ERROR_CONNECTION_INPROGRESS stops;
  match r with
  | None => throw (DOCAException DOCA_ERROR_UNEXPECTED)
  | Some (e, _) => if ok e then comm_channel_addr_new peer_addr else throw (DOCAException (ev_err e))
  end.
(** The first message, with the address of the peer. *)
Definition ep_recvfrom_first (ep : comm_channel_ep) (stops : list bool) : M U (string * Z) :=
  r ← wait_ready (EpRecvfrom (inner_ep ep)) DOCA_ERROR_AGAIN stops;
  match r with
  | None => throw (DOCAException DOCA_ERROR_UNEXPECTED)
  | Some (e, msg) =>
      if ok e then addr ← comm_channel_addr_new (ev_out e); mret (msg, addr)
      else throw (DOCAException (ev_err e))
  end.

(** [None] is the result [false]: stopped, or the library answered [DOCA_ERROR_UNEXPECTED]. *)
Definition sent_or_stopped (r : option (event * string)) : M U (option string) :=
  match r with
  | None => mret None
  | Some (e, msg) =>
      if ok e then mret (Some msg)
      else if decide (ev_err e = DOCA_ERROR_UNEXPECTED) then mret None
      else throw (DOCAException (ev_err e))
  end.
Definition ep_recvfrom (ep : comm_channel_ep) (stops : list bool) : M U (option string) :=
  r ← wait_ready (EpRecvfrom (inner_ep ep)) DOCA_ERROR_AGAIN stops; sent_or_stopped r.
Definition ep_sendto (ep : comm_channel_ep) (addr : Z) (msg : string) (stops : list bool) : M U bool :=
  r ← wait_ready (EpSendto (inner_ep ep) addr msg) DOCA_ERROR_AGAIN stops;
  x ← sent_or_stopped r;
  mret (match x with Some _ => true | None => false end).
Definition ep_recvfrom_async (ep : comm_channel_ep) : M U (doca_error * string) :=
  h ← history;
  e ← call (EpRecvfrom (inner_ep ep));
  mret (ev_err e, text h (EpRecvfrom (inner_ep ep))).
End Wrappers.

(** ** Reasoning *)

Definition wp {U A} (m : M U A) (Q : A -> doca U -> Prop) (E : ending -> doca U -> Prop) (s : doca U) : Prop :=
  match m s with
  | (Done a, s') => Q a s'
  | (Ended e, s') => E e s'
  end.

Lemma cwp_ret {U A} (a : A) (Q : A -> doca U -> Prop) E s : Q a s -> wp (mret a) Q E s.
Proof. done. Qed.

Lemma cwp_bind {U A B} (m : M U A) (f : A -> M U B) Q E s :
  wp m (fun a s' => wp (f a) Q E s') E s -> wp (m ≫= f) Q E s.
Proof. unfold wp, mbind, M_bind. by destruct (m s) as [[a|e] s']. Qed.

Lemma cwp_mono {U A} (m : M U A) (Q Q' : A -> doca U -> Prop) (E E' : ending -> doca U -> Prop) s :
  wp m Q E s -> (forall a s', Q a s' -> Q' a s') -> (forall e s', E e s' -> E' e s') -> wp m Q' E' s.
Proof. unfold wp. intros H HQ HE. destruct (m s) as [[a|e] s']; auto. Qed.

(** A statement about the outcome is one about both ways to end. *)
Lemma wp_outcome {U A} (m : M U A) (R : outcome A -> doca U -> Prop) s :
  wp m (fun a s' => R (Done a) s') (fun x s' => R (Ended x) s') s -> let '(r, s') := m s in R r s'.
Proof. unfold wp. by destruct (m s) as [[a|e] s']. Qed.

Lemma cwp_end {U A} (x : ending) (Q : A -> doca U -> Prop) E s : E x s -> wp (endwith x) Q E s.
Proof. done. Qed.

Lemma cwp_get {U} (Q : U -> doca U -> Prop) E s : Q (vars s) s -> wp get Q E s.
Proof. done. Qed.
Lemma cwp_put {U} u (Q : unit -> doca U -> Prop) E s : Q tt (MkDoca (calls s) u) -> wp (put u) Q E s.
Proof. done. Qed.
Lemma cwp_history {U} (Q : trace -> doca U -> Prop) E s : Q (calls s) s -> wp history Q E s.
Proof. done. Qed.

Lemma cwp_assert {U} b (Q : unit -> doca U -> Prop) (E : ending -> doca U -> Prop) s :
  (b = true -> Q tt s) -> (b = false -> E (Throws RuntimeError) s) -> wp (rt_assert b) Q E s.
Proof. intros HQ HE. destruct b; [by apply HQ|by apply HE]. Qed.

Lemma resources_snoc tr e : live (tr ++ [e]) = (live tr ∪ acquired e) ∖ opt_set (frees (ev_call e)).
Proof. unfold live. by rewrite foldl_snoc. Qed.
Lemma flight_snoc tr e : in_flight (tr ++ [e]) = flight_step (in_flight tr) e.
Proof. unfold in_flight. by rewrite foldl_snoc. Qed.
Lemma completed_snoc tr e : completed (tr ++ [e]) = done_step (completed tr) e.
Proof. unfold completed. by rewrite foldl_snoc. Qed.
Lemma datas_snoc tr e : task_datas (tr ++ [e]) = data_step (task_datas tr) e.
Proof. unfold task_datas. by rewrite foldl_snoc. Qed.

Section Rules.
Context {L : DocaLib} {U : Type}.

(** The state after a call. *)
Definition called (c : doca_call) (s : doca U) : doca U := MkDoca (calls s ++ [event_of (calls s) c]) (vars s).

Lemma cwp_call c (Q : event -> doca U -> Prop) E s : Q (event_of (calls s) c) (called c s) -> wp (call c) Q E s.
Proof. done. Qed.

Lemma ok_true e : ok e = true <-> ev_err e = DOCA_SUCCESS.
Proof. unfold ok. apply bool_decide_eq_true. Qed.
Lemma ok_false e : ok e = false <-> ev_err e <> DOCA_SUCCESS.
Proof. unfold ok. apply bool_decide_eq_false. Qed.

Lemma cwp_expect c (Q : Z -> doca U -> Prop) E s :
  (answer (calls s) c = DOCA_SUCCESS -> Q (stored (calls s) c) (called c s)) ->
  (answer (calls s) c <> DOCA_SUCCESS -> E (Throws (DOCAException (answer (calls s) c))) (called c s)) ->
  wp (expect c) Q E s.
Proof.
  intros HQ HE. unfold expect. apply cwp_bind, cwp_call. destruct (ok _) eqn:Ho.
  - apply cwp_ret, HQ. by apply ok_true in Ho.
  - apply cwp_end, HE. by apply ok_false in Ho.
Qed.

Lemma cwp_insist c (Q : Z -> doca U -> Prop) E s :
  (answer (calls s) c = DOCA_SUCCESS -> Q (stored (calls s) c) (called c s)) ->
  (answer (calls s) c <> DOCA_SUCCESS -> E (Throws RuntimeError) (called c s)) ->
  wp (insist c) Q E s.
Proof.
  intros HQ HE. unfold insist. apply cwp_bind, cwp_call, cwp_bind, cwp_assert.
  - intros Ho. apply cwp_ret, HQ. by apply ok_true in Ho.
  - intros Ho. apply HE. by apply ok_false in Ho.
Qed.

Lemma cwp_ignore c (Q : unit -> doca U -> Prop) E s : Q tt (called c s) -> wp (ignore c) Q E s.
Proof. done. Qed.

Lemma cwp_each {A} (l : list A) (body : A -> M U unit) (I : list A -> doca U -> Prop) E s :
  (forall before x after s, l = before ++ x :: after -> I before s ->
     wp (body x) (fun _ s' => I (before ++ [x]) s') E s) ->
  I [] s -> wp (each l body) (fun _ s' => I l s') E s.
Proof.
  intros Hb. assert (forall after before s, l = before ++ after -> I before s ->
    wp (each after body) (fun _ s' => I l s') E s) as H; [|by apply (H l [])].
  induction after as [|x after IH]; intros before s' El Hi; cbn [each].
  { apply cwp_ret. by rewrite El, app_nil_r. }
  apply cwp_bind. eapply cwp_mono; [exact (Hb before x after s' El Hi)| |done]. intros [] s2 Hi2.
  apply (IH (before ++ [x])); [|exact Hi2]. rewrite <- app_assoc. exact El.
Qed.
End Rules.

(** ** Opening a device *)

Lemma live_called {L : DocaLib} {U} (c : doca_call) (s : doca U) :
  makes c = None -> frees c = None -> live (calls (called c s)) = live (calls s).
Proof.
  intros Hm Hf. cbn. rewrite resources_snoc. unfold acquired. cbn. rewrite Hm, Hf.
  cbn. rewrite difference_empty_L. by destruct (answer _ _); rewrite union_empty_r_L.
Qed.

Lemma live_made {L : DocaLib} {U} (c : doca_call) (s : doca U) k :
  makes c = Some k -> frees c = None -> answer (calls s) c = DOCA_SUCCESS ->
  live (calls (called c s)) = live (calls s) ∪ {[(k, stored (calls s) c)]}.
Proof.
  intros Hm Hf Ha. cbn. rewrite resources_snoc. unfold acquired, event_of. cbn [ev_err ev_call ev_out].
  rewrite Hm, Hf, Ha. apply difference_empty_L.
Qed.

Lemma live_not_made {L : DocaLib} {U} (c : doca_call) (s : doca U) :
  frees c = None -> answer (calls s) c <> DOCA_SUCCESS -> live (calls (called c s)) = live (calls s).
Proof.
  intros Hf Ha. cbn. rewrite resources_snoc. unfold acquired, event_of. cbn [ev_err ev_call ev_out].
  rewrite Hf. cbn. rewrite difference_empty_L. destruct (answer _ _); [done|by rewrite union_empty_r_L..].
Qed.

Lemma live_freed {L : DocaLib} {U} (c : doca_call) (s : doca U) r :
  frees c = Some r -> live (calls (called c s)) = live (calls s) ∖ {[r]}.
Proof.
  intros Hf. cbn. rewrite resources_snoc. unfold acquired, event_of. cbn [ev_err ev_call ev_out]. rewrite Hf.
  assert (makes c = None) as -> by (by destruct c). by destruct (answer _ _); rewrite union_empty_r_L.
Qed.

(** What is handed back was the only thing made, or others have been made since. *)
Lemma made_freed (l : gset resource) r : r ∉ l -> (l ∪ {[r]}) ∖ {[r]} = l.
Proof. intros H. apply set_eq. intros x. rewrite elem_of_difference, elem_of_union, elem_of_singleton. naive_solver. Qed.

Lemma made_two_freed (l : gset resource) r x : r ∉ l -> r <> x -> (l ∪ {[r]} ∪ {[x]}) ∖ {[r]} = l ∪ {[x]}.
Proof.
  intros H Hx. apply set_eq. intros y.
  rewrite elem_of_difference, !elem_of_union, !elem_of_singleton. naive_solver.
Qed.

(** The program stops because of the answer of the last call. *)
Definition refused {U} (s' : doca U) : Prop := exists e, list.last (calls s') = Some e /\ ev_err e <> DOCA_SUCCESS.

Lemma refused_called {L : DocaLib} {U} c (s : doca U) :
  answer (calls s) c <> DOCA_SUCCESS -> refused (called c s).
Proof. intros H. exists (event_of (calls s) c). cbn. by rewrite last_snoc. Qed.

Lemma prefix_called {L : DocaLib} {U} c (s : doca U) : calls s `prefix_of` calls (called c s).
Proof. by eexists. Qed.

Lemma called_in {L : DocaLib} {U} c (s : doca U) : event_of (calls s) c ∈ calls (called c s).
Proof. cbn. set_solver. Qed.

Section Open.
Context {L : DocaLib} `{!DocaLaws L} {U : Type}.
Context (matches : Z -> M U bool) (func : option Z) (is_match : bool -> Z -> trace -> Prop).
Context (is_match_mono : forall b d tr tr', tr `prefix_of` tr' -> is_match b d tr -> is_match b d tr').
Context (Hmatches : forall d s, wp (matches d)
  (fun b s' => calls s `prefix_of` calls s' /\ live (calls s') = live (calls s) /\ is_match b d (calls s'))
  (fun x s' => (exists y, x = Throws y) /\ live (calls s') = live (calls s) /\ refused s') s).

Definition accepted (tr : trace) (d : Z) : Prop :=
  is_match true d tr /\
  match func with None => True | Some job => exists z, Ev (DevinfoSupports d job) DOCA_SUCCESS z ∈ tr end.
Definition rejected (tr : trace) (d : Z) : Prop :=
  is_match false d tr \/
  exists job e z, func = Some job /\ e <> DOCA_SUCCESS /\ Ev (DevinfoSupports d job) e z ∈ tr.

(** The first accepted device is open and the list is gone; when there is none,
    [DOCA_ERROR_NOT_FOUND]; a refused call (or a null pointer in the list) leaves the list. *)
Definition opened (s : doca U) (l : Z) (devs : list Z) (r : outcome Z) (s' : doca U) : Prop :=
  match r with
  | Done dev => exists before d after, devs = before ++ d :: after /\ Forall (rejected (calls s')) before /\
      accepted (calls s') d /\ Ev (DevOpen d) DOCA_SUCCESS dev ∈ calls s' /\
      live (calls s') = live (calls s) ∪ {[(KDev, dev)]}
  | Ended x =>
      x = Throws (DOCAException DOCA_ERROR_NOT_FOUND) /\ Forall (rejected (calls s')) devs /\
        live (calls s') = live (calls s) \/
      (exists y, x = Throws y) /\ live (calls s') = live (calls s) ∪ {[(KList, l)]} /\ (0 ∈ devs \/ refused s')
  end.

Lemma rejected_mono tr tr' d : tr `prefix_of` tr' -> rejected tr d -> rejected tr' d.
Proof.
  intros Hp [H|(job & e & z & -> & He & Hin)]; [left; eauto|]. right. exists job, e, z. split_and!; [done..|].
  by eapply elem_of_prefix.
Qed.

(** The last two calls: the device is opened, then the list destroyed. *)
Lemma wp_open_last (s : doca U) l d (s1 : doca U) :
  (KList, l) ∉ live (calls s) -> live (calls s1) = live (calls s) ∪ {[(KList, l)]} ->
  wp (res ← dev_open d; _ ← device_list_delete l; mret res)
    (fun dev s' => calls s1 `prefix_of` calls s' /\ Ev (DevOpen d) DOCA_SUCCESS dev ∈ calls s' /\
       live (calls s') = live (calls s) ∪ {[(KDev, dev)]})
    (fun x s' => (exists y, x = Throws y) /\ live (calls s') = live (calls s) ∪ {[(KList, l)]} /\ refused s') s1.
Proof.
  intros Hl E1. unfold dev_open, device_list_delete. apply cwp_bind, cwp_bind, cwp_insist.
  - intros Ha. destruct (made_fresh (calls s1) (DevOpen d) KDev Ha) as [Hn Hf]; [done|].
    apply cwp_bind. unfold truthy. rewrite (proj2 (Z.eqb_neq _ 0)) by done. cbn [rt_assert negb].
    apply cwp_ret, cwp_ret, cwp_bind, cwp_ignore, cwp_ret. set (dev := stored _ _) in *. split_and!.
    + by etrans; apply prefix_called.
    + eapply elem_of_prefix; [|apply prefix_called]. replace (Ev (DevOpen d) DOCA_SUCCESS dev)
        with (event_of (calls s1) (DevOpen d)) by (unfold event_of; by rewrite Ha). apply called_in.
    + rewrite (live_freed _ _ (KList, l)), (live_made _ _ KDev), E1 by done. by apply made_two_freed.
  - intros Ha. split; [by eexists|]. split; [by rewrite live_not_made|by apply refused_called].
Qed.

Lemma wp_open_loop (s : doca U) l devs before all (s1 : doca U) :
  (KList, l) ∉ live (calls s) -> live (calls s1) = live (calls s) ∪ {[(KList, l)]} ->
  all = before ++ devs -> Forall (rejected (calls s1)) before ->
  wp (open_loop matches func l devs) (fun dev s' => opened s l all (Done dev) s')
    (fun x s' => opened s l all (Ended x) s') s1.
Proof.
  intros Hl. revert before s1. induction devs as [|d devs IH]; intros before s1 E1 Eall Hb; cbn [open_loop].
  { apply cwp_bind, cwp_ignore, cwp_end. left. split; [done|]. rewrite app_nil_r in Eall. subst all. split.
    - eapply list.Forall_impl; [exact Hb|]. intros d. apply rejected_mono, prefix_called.
    - rewrite (live_freed _ _ (KList, l)), E1 by done. by apply made_freed. }
  apply cwp_bind, cwp_assert.
  2: { intros Hd. right. split; [by eexists|]. split; [done|]. left. unfold truthy in Hd.
       apply negb_false_iff, Z.eqb_eq in Hd as ->. subst all. set_solver. }
  intros _. apply cwp_bind. eapply cwp_mono; [apply Hmatches| |].
  2: { intros x s2 (Hx & E2 & Hr). right. split; [done|]. rewrite E2. auto. }
  cbn beta. intros b s2 (P2 & E2 & M2). apply cwp_bind.
  set (Q := fun (r : bool) (s3 : doca U) => calls s2 `prefix_of` calls s3 /\ live (calls s3) = live (calls s2) /\
    if r then accepted (calls s3) d else rejected (calls s3) d).
  eapply (cwp_mono _ Q _ (fun _ _ => False)); [| |done].
  { unfold Q. destruct b; [|apply cwp_ret; split_and!; [done..|by left]].
    unfold accepted, rejected. destruct func as [job|]; [|by apply cwp_ret].
    apply cwp_bind, cwp_call, cwp_ret. split; [apply prefix_called|]. split; [by apply live_called|].
    pose proof (called_in (DevinfoSupports d job) s2) as Hin. destruct (ok _) eqn:Ho.
    - apply ok_true in Ho. split; [eapply is_match_mono; [apply prefix_called|done]|].
      eexists. unfold event_of in *. cbn in Ho. rewrite Ho in Hin. exact Hin.
    - apply ok_false in Ho. right. eexists job, _, _. split; [done|]. split; [exact Ho|exact Hin]. }
  unfold Q. intros [] s3 (P3 & E3 & V3).
  - eapply cwp_mono; [apply (wp_open_last s l d s3); [done|congruence]| |].
    + intros dev s4 (P4 & Hin & E4). exists before, d, devs. split_and!; [done| | |done|done].
      * eapply list.Forall_impl; [exact Hb|]. intros x. apply rejected_mono. etrans; [exact P2|]. by etrans.
      * destruct V3 as [V1 V2]. split; [by eapply is_match_mono|]. destruct func as [job|]; [|done].
        destruct V2 as [z Hz]. exists z. by eapply elem_of_prefix.
    + intros x s4 (Hx & E4 & Hr). right. auto.
  - apply (IH (before ++ [d])); [congruence|by rewrite <- app_assoc|]. apply Forall_app. split; [|by constructor].
    eapply list.Forall_impl; [exact Hb|]. intros x. apply rejected_mono. by etrans.
Qed.

(** The list is made, then the loop runs. *)
Lemma opened_list (s : doca U) :
  answer (calls s) DevinfoCreateList = DOCA_SUCCESS ->
  let '(r, s') := ('(device_list, devs) ← get_device_list; open_loop matches func device_list devs) s in
  opened s (stored (calls s) DevinfoCreateList) (listed (calls s) DevinfoCreateList) r s'.
Proof.
  intros Ha. set (l := stored (calls s) DevinfoCreateList). set (devs := listed _ _).
  destruct (made_fresh (calls s) DevinfoCreateList KList Ha) as [Hn Hf]; [done|].
  apply wp_outcome, cwp_bind. unfold get_device_list. apply cwp_bind, cwp_history, cwp_bind, cwp_call, cwp_bind, cwp_assert.
  - intros _. apply cwp_ret. apply (wp_open_loop s l devs []); [done| |done|constructor].
    by rewrite (live_made _ _ KList).
  - cbn. unfold truthy. rewrite (proj2 (Z.eqb_neq _ 0)) by done. done.
Qed.
End Open.

(** What the library said about a device. *)
Definition pci_match (value : string) (b : bool) (d : Z) (tr : trace) : Prop :=
  exists z, truthy z = b /\ Ev (DevinfoIsEqualPci d value) DOCA_SUCCESS z ∈ tr.
Definition name_match {L : DocaLib} (value : string) (b : bool) (d : Z) (tr : trace) : Prop :=
  exists h z, bool_decide (text h (DevinfoGetIbdevName d) = value) = b /\
    h ++ [Ev (DevinfoGetIbdevName d) DOCA_SUCCESS z] `prefix_of` tr.

(** C20.  Opening a device, by PCI address or by name: the first device of the list that
    matches and supports the job is opened and the list is destroyed; when there is none,
    the list is destroyed and [DOCA_ERROR_NOT_FOUND] is thrown.  Only when a call is refused
    half-way (or the list has a null pointer) the exception leaves the list in use. *)
Theorem open_device_first `{DocaLaws} {U} (value : string) (func : option Z) (s : doca U) :
  answer (calls s) DevinfoCreateList = DOCA_SUCCESS ->
  let l := stored (calls s) DevinfoCreateList in
  let devs := listed (calls s) DevinfoCreateList in
  (let '(r, s') := open_doca_device_with_pci value func s in opened func (pci_match value) s l devs r s') /\
  (let '(r, s') := open_doca_device_with_ibdev_name value func s in opened func (name_match value) s l devs r s').
Proof.
  intros Ha. split; [refine (opened_list (fun d => devinfo_is_equal d value) func (pci_match value) _ _ s Ha)
    |refine (opened_list (fun d => name ← devinfo_get_ibv_name d; mret (bool_decide (name = value))) func
       (name_match value) _ _ s Ha)].
  - intros b d tr tr' Hp (z & Hz & Hin). exists z. split; [done|]. by eapply elem_of_prefix.
  - intros d s1. unfold devinfo_is_equal. apply cwp_bind, cwp_expect.
    + intros Hs. apply cwp_ret. split_and!; [apply prefix_called|by apply live_called|].
      eexists. split; [done|]. rewrite <- Hs. apply called_in.
    + intros Hs. split; [by eexists|]. split; [by apply live_called|by apply refused_called].
  - intros b d tr tr' Hp (h & z & Hz & Hin). exists h, z. split; [done|]. by etrans.
  - intros d s1. unfold devinfo_get_ibv_name. apply cwp_bind, cwp_bind, cwp_history, cwp_bind, cwp_insist.
    + intros Hs. apply cwp_ret, cwp_ret. split_and!; [apply prefix_called|by apply live_called|].
      exists (calls s1), (stored (calls s1) (DevinfoGetIbdevName d)). split; [done|]. rewrite <- Hs. reflexivity.
    + intros Hs. split; [by eexists|]. split; [by apply live_called|by apply refused_called].
Qed.

(** ** Ownership

    The resources in use are those of before and the ones listed, which are all different. *)

Record owns (base : gset resource) (rs : list resource) (l : gset resource) : Prop := MkOwns {
  own_live : l = base ∪ list_to_set rs;
  own_nodup : NoDup rs;
  own_new r : r ∈ rs -> r ∉ base;
}.

Lemma owns_nil base : owns base [] base.
Proof. split; [symmetry; apply union_empty_r_L|constructor|]. by intros r ?%not_elem_of_nil. Qed.

Lemma owns_none base l : owns base [] l -> l = base.
Proof. intros [-> _ _]. apply union_empty_r_L. Qed.

Lemma owns_in base rs l r : owns base rs l -> r ∈ rs -> r ∈ l.
Proof. intros [-> _ _] H. apply elem_of_union. right. by apply elem_of_list_to_set. Qed.

Lemma owns_add base rs l r : r ∉ l -> owns base rs l -> owns base (r :: rs) (l ∪ {[r]}).
Proof.
  intros Hr [-> Hn Hb]. rewrite not_elem_of_union, not_elem_of_list_to_set in Hr. destruct Hr as [H1 H2]. split.
  - cbn. set_solver.
  - by apply list.NoDup_cons.
  - by intros r' [->|Hr]%elem_of_cons; [|apply Hb].
Qed.

Lemma owns_remove base rs l r : owns base (r :: rs) l -> owns base rs (l ∖ {[r]}).
Proof.
  intros [-> [Hr Hn]%list.NoDup_cons Hb]. split; [|done|].
  - assert (r ∉ base) as H by (apply Hb; by left). apply set_eq. intros x.
    rewrite elem_of_difference, !elem_of_union, !elem_of_list_to_set, elem_of_cons, elem_of_singleton.
    destruct (decide (x = r)) as [->|]; tauto.
  - intros r' Hr'. apply Hb. by right.
Qed.

Lemma owns_perm base rs rs' l : rs ≡ₚ rs' -> owns base rs l -> owns base rs' l.
Proof.
  intros Hp [-> Hn Hb]. split.
  - apply set_eq. intros x. by rewrite !elem_of_union, !elem_of_list_to_set, Hp.
  - by rewrite <- Hp.
  - intros r. rewrite <- Hp. apply Hb.
Qed.

(** *** Taking a task off the list of those under way *)

Lemma filter_absent (t : Z) (f : list Z) : t ∉ f -> filter (fun t' => t' <> t) f = f.
Proof.
  induction f as [|t' f IH]; [done|]. intros [H1 H2]%not_elem_of_cons.
  rewrite filter_cons_True by (by intros ->). f_equal. by apply IH.
Qed.

Lemma nodup_filter_head (t : Z) f : NoDup (t :: f) -> filter (fun t' => t' <> t) (t :: f) = f.
Proof.
  intros [Ht _]%list.NoDup_cons. rewrite filter_cons_False by (intros H; by apply H). by apply filter_absent.
Qed.

Lemma nodup_filter_perm (t : Z) (f : list Z) : NoDup f -> t ∈ f -> t :: filter (fun t' => t' <> t) f ≡ₚ f.
Proof.
  intros Hn [a [b ->]]%list_elem_of_split. rewrite list.NoDup_app, list.NoDup_cons in Hn. destruct Hn as (_ & Hab & Hb & _).
  rewrite list.filter_app, filter_cons_False by (intros H; by apply H).
  rewrite !filter_absent; [by rewrite Permutation_middle|done|]. intros Ha. apply (Hab t Ha). by left.
Qed.

(** ** What a program sees of the library

    The resources in use, the tasks under way, the number of completed ones, the user data of
    the tasks, and its variables. *)

Record view (U : Type) := MkView {
  v_live : gset resource; v_flight : list Z; v_done : Z; v_data : gmap Z Z; v_vars : U;
}.
Arguments MkView {U}.
Arguments v_live {U}.
Arguments v_flight {U}.
Arguments v_done {U}.
Arguments v_data {U}.
Arguments v_vars {U}.

Definition view_of {U} (s : doca U) : view U :=
  MkView (live (calls s)) (in_flight (calls s)) (completed (calls s)) (task_datas (calls s)) (vars s).

(** A call that changes none of it. *)
Definition plain (c : doca_call) : bool :=
  match makes c, frees c, c with
  | _, _, (TaskSubmit _ | PeProgress _) => false
  | None, None, _ => true
  | _, _, _ => false
  end.

Section Views.
Context {L : DocaLib} {U : Type}.

Lemma view_plain c (s : doca U) : plain c = true -> view_of (called c s) = view_of s.
Proof.
  intros Hp. unfold view_of. rewrite live_called by (by destruct c). cbn [called calls vars].
  rewrite flight_snoc, completed_snoc, datas_snoc. unfold flight_step, done_step, completes, data_step. by destruct c.
Qed.

Lemma view_refused c (s : doca U) :
  frees c = None -> answer (calls s) c <> DOCA_SUCCESS -> (forall p, c <> PeProgress p) ->
  view_of (called c s) = view_of s.
Proof.
  intros Hf Ha Hp. unfold view_of. rewrite live_not_made by done. cbn [called calls vars].
  rewrite flight_snoc, completed_snoc, datas_snoc. unfold flight_step, done_step, completes, data_step, event_of. cbn [ev_call ev_err ev_out].
  destruct c; try done; try (by destruct (answer _ _)); try (by rewrite decide_False); by edestruct Hp.
Qed.

(** What is made is a task only for the calls that make tasks. *)
Lemma view_made c (s : doca U) k :
  makes c = Some k -> k <> KTask -> answer (calls s) c = DOCA_SUCCESS ->
  view_of (called c s) = MkView (live (calls s) ∪ {[(k, stored (calls s) c)]}) (in_flight (calls s))
    (completed (calls s)) (task_datas (calls s)) (vars s).
Proof.
  intros Hm Hk Ha. unfold view_of. rewrite (live_made _ _ k) by (done || by destruct c). cbn [called calls vars].
  rewrite flight_snoc, completed_snoc, datas_snoc. unfold flight_step, done_step, completes, data_step, event_of. cbn [ev_call ev_err ev_out].
  f_equal; destruct c; try done; by injection Hm as <-.
Qed.

Lemma view_freed c (s : doca U) r :
  frees c = Some r -> view_of (called c s) = MkView (live (calls s) ∖ {[r]}) (in_flight (calls s))
    (completed (calls s)) (task_datas (calls s)) (vars s).
Proof.
  intros Hf. unfold view_of. rewrite (live_freed _ _ r) by done. cbn [called calls vars].
  rewrite flight_snoc, completed_snoc, datas_snoc. unfold flight_step, done_step, completes, data_step, event_of. cbn [ev_call ev_err ev_out].
  f_equal; by destruct c.
Qed.

(** The user data of a call that makes a task. *)
Definition task_of (c : doca_call) : option Z :=
  match c with
  | DmaTaskAlloc _ _ _ data | RdmaSendAlloc _ _ data | RdmaRecvAlloc _ _ data => Some data
  | _ => None
  end.

Lemma view_task c data (s : doca U) :
  task_of c = Some data -> answer (calls s) c = DOCA_SUCCESS ->
  let t := stored (calls s) c in
  view_of (called c s) = MkView (live (calls s) ∪ {[(KTask, t)]}) (in_flight (calls s))
    (completed (calls s)) (<[t := data]> (task_datas (calls s))) (vars s).
Proof.
  intros Ht Ha. cbn zeta. unfold view_of. rewrite (live_made _ _ KTask) by (done || by destruct c).
  cbn [called calls vars]. rewrite flight_snoc, completed_snoc, datas_snoc. unfold flight_step, done_step, completes, data_step, event_of.
  cbn [ev_call ev_err ev_out]. rewrite Ha. destruct c; try done; by injection Ht as ->.
Qed.

Lemma view_submit t (s : doca U) : answer (calls s) (TaskSubmit t) = DOCA_SUCCESS ->
  view_of (called (TaskSubmit t) s) = MkView (live (calls s)) (in_flight (calls s) ++ [t])
    (completed (calls s)) (task_datas (calls s)) (vars s).
Proof.
  intros Ha. unfold view_of. rewrite live_called by done. cbn [called calls vars].
  rewrite flight_snoc, completed_snoc, datas_snoc. unfold flight_step, event_of. cbn [ev_call ev_err ev_out].
  by rewrite decide_True.
Qed.

Lemma view_progress p (s : doca U) :
  view_of (called (PeProgress p) s) =
    MkView (live (calls s)) (filter (fun t => t <> stored (calls s) (PeProgress p)) (in_flight (calls s)))
      (done_step (completed (calls s)) (event_of (calls s) (PeProgress p))) (task_datas (calls s)) (vars s).
Proof. unfold view_of. rewrite live_called by done. cbn [called calls vars]. by rewrite flight_snoc, completed_snoc, datas_snoc. Qed.

(** ** Runs

    [runs P W m R s]: from [s], [m] makes only calls that satisfy [P] after the events before
    them; it ends in a result and state that satisfy [R], or it throws or exits at a refused call, or it still waits in
    a state that satisfies [W]; it does not crash. *)

Inductive steps (P : trace -> doca_call -> Prop) (tr : trace) : trace -> Prop :=
  | steps_nil : steps P tr tr
  | steps_snoc tr' e : steps P tr tr' -> P tr' (ev_call e) -> steps P tr (tr' ++ [e]).

Definition grows (P : trace -> doca_call -> Prop) (s s' : doca U) : Prop := steps P (calls s) (calls s').

Definition failed (P : trace -> doca_call -> Prop) (W : doca U -> Prop) (s : doca U) (x : ending) (s' : doca U) : Prop :=
  grows P s s' /\
  match x with
  | Throws _ | Exits => refused s'
  | Waits => W s'
  | Crashes => False
  end.

Definition runs {A} (P : trace -> doca_call -> Prop) (W : doca U -> Prop) (m : M U A) (R : A -> doca U -> Prop)
    (s : doca U) : Prop :=
  wp m (fun a s' => grows P s s' /\ R a s') (failed P W s) s.

Lemma grows_refl P s : grows P s s.
Proof. constructor. Qed.

Lemma growth_trans P s1 s2 s3 : grows P s1 s2 -> grows P s2 s3 -> grows P s1 s3.
Proof.
  unfold grows. intros H1 H2. induction H2 as [|tr' e _ IH He]; [done|]. by apply steps_snoc.
Qed.

Lemma grows_called (P : trace -> doca_call -> Prop) c s : P (calls s) c -> grows P s (called c s).
Proof. intros Hc. apply steps_snoc; [constructor|done]. Qed.

Lemma steps_app P tr tr' :
  steps P tr tr' -> exists new, tr' = tr ++ new /\ Forall (fun e => exists h, P h (ev_call e)) new.
Proof.
  induction 1 as [|tr' e _ (new & -> & Hn) He]; [exists []; by rewrite app_nil_r|].
  exists (new ++ [e]). rewrite app_assoc. split; [done|]. apply Forall_app. split; [done|]. constructor; [by eexists|done].
Qed.

(** Waiting has used up its [fuel]: of the last [fuel] polls, all but one per slot were idle. *)
Definition still_waiting (slots fuel : nat) (s : doca U) : Prop :=
  in_flight (calls s) <> [] /\
  exists tr new, calls s = tr ++ new /\ polls new = fuel /\ (fuel <= slots + idle new)%nat.

Lemma runs_refine {A} (P P' : trace -> doca_call -> Prop) (W : doca U -> Prop) (m : M U A) (R : A -> doca U -> Prop) s :
  (forall tr c, P' tr c -> P tr c) -> runs P' W m R s ->
  runs P W m (fun a s' => R a s' /\ grows P' s s') s.
Proof.
  intros HP H. assert (forall s', grows P' s s' -> grows P s s') as Hg.
  { intros s' G. unfold grows in *. induction G; [constructor|]. apply steps_snoc; auto. }
  eapply cwp_mono; [exact H|..]; cbn.
  - intros a s' [G Ha]. auto.
  - intros x s' [G Hx]. split; auto.
Qed.

Context (P : trace -> doca_call -> Prop) (W : doca U -> Prop).

Lemma runs_grows {A} (m : M U A) (R : A -> doca U -> Prop) s :
  runs P W m R s -> runs P W m (fun a s' => R a s' /\ grows P s s') s.
Proof. by apply runs_refine. Qed.

Lemma runs_ret {A} (a : A) (R : A -> doca U -> Prop) s : R a s -> runs P W (mret a) R s.
Proof. intros H. split; [apply grows_refl|done]. Qed.

Lemma runs_bind {A B} (m : M U A) (f : A -> M U B) (R : A -> doca U -> Prop) (R' : B -> doca U -> Prop) s :
  runs P W m R s -> (forall a s', R a s' -> runs P W (f a) R' s') -> runs P W (m ≫= f) R' s.
Proof.
  intros Hm Hf. apply cwp_bind. eapply cwp_mono; [exact Hm| |done]. intros a s1 [G1 H1].
  eapply cwp_mono; [apply (Hf a s1 H1)|..]; cbn.
  - intros b s2 [G2 H2]. split; [by eapply growth_trans|done].
  - intros x s2 [G2 H2]. split; [by eapply growth_trans|done].
Qed.

Lemma runs_mono {A} (m : M U A) (R R' : A -> doca U -> Prop) s :
  runs P W m R s -> (forall a s', R a s' -> R' a s') -> runs P W m R' s.
Proof. intros H HR. eapply cwp_mono; [exact H| |done]. intros a s' [G H']. auto. Qed.

Lemma runs_get {A} (f : U -> M U A) R s : runs P W (f (vars s)) R s -> runs P W (u ← get; f u) R s.
Proof. done. Qed.

Lemma runs_put {A} u (m : M U A) (R : A -> doca U -> Prop) s :
  runs P W m R (MkDoca (calls s) u) -> runs P W (_ ← put u; m) R s.
Proof. done. Qed.

Lemma runs_put_last u (R : unit -> doca U -> Prop) s : R tt (MkDoca (calls s) u) -> runs P W (put u) R s.
Proof. intros H. split; [constructor|done]. Qed.

Lemma runs_history {A} (f : trace -> M U A) R s : runs P W (f (calls s)) R s -> runs P W (h ← history; f h) R s.
Proof. done. Qed.

Lemma runs_call {A} c (f : event -> M U A) R s :
  P (calls s) c -> runs P W (f (event_of (calls s) c)) R (called c s) -> runs P W (e ← call c; f e) R s.
Proof.
  intros Hc H. apply cwp_bind, cwp_call. eapply cwp_mono; [exact H|..]; cbn; intros ? s' [G H']; (split; [|done]);
    (eapply growth_trans; [by apply grows_called|done]).
Qed.

Lemma runs_refused {A} x (R : A -> doca U -> Prop) s :
  refused s -> (exists y, x = Throws y) \/ x = Exits -> runs P W (endwith x) R s.
Proof. intros Hr [[y ->]| ->]; apply cwp_end; split; by try apply grows_refl. Qed.

Lemma runs_expect c (R : Z -> doca U -> Prop) s :
  P (calls s) c -> (answer (calls s) c = DOCA_SUCCESS -> R (stored (calls s) c) (called c s)) -> runs P W (expect c) R s.
Proof.
  intros Hc H. unfold expect. apply runs_call; [done|]. destruct (ok _) eqn:Ho.
  - apply ok_true in Ho. by apply runs_ret, H.
  - apply ok_false in Ho. apply runs_refused; [by apply refused_called|]. left. by eexists.
Qed.

Lemma runs_insist c (R : Z -> doca U -> Prop) s :
  P (calls s) c -> (answer (calls s) c = DOCA_SUCCESS -> R (stored (calls s) c) (called c s)) -> runs P W (insist c) R s.
Proof.
  intros Hc H. unfold insist. apply runs_call; [done|]. destruct (ok _) eqn:Ho.
  - apply ok_true in Ho. by apply (runs_ret _ R), H.
  - apply ok_false in Ho. apply runs_refused; [by apply refused_called|]. left. by eexists.
Qed.

Lemma runs_ignore c (R : unit -> doca U -> Prop) s : P (calls s) c -> R tt (called c s) -> runs P W (ignore c) R s.
Proof. intros Hc H. unfold ignore. by apply runs_call, runs_ret. Qed.

(** A call that is only looked at for its success. *)
Lemma runs_plain c (R : unit -> doca U -> Prop) s :
  P (calls s) c -> plain c = true -> (forall s', view_of s' = view_of s -> R tt s') ->
  runs P W (_ ← expect c; mret tt) R s.
Proof.
  intros Hc Hp H. eapply runs_bind; [apply (runs_expect _ (fun _ s' => view_of s' = view_of s)); [done|]|].
  - intros _. by apply view_plain.
  - intros a s' E. by apply runs_ret, H.
Qed.

Lemma runs_each {A} (l : list A) (body : A -> M U unit) (I : list A -> doca U -> Prop) s :
  (forall before x after s, l = before ++ x :: after -> I before s ->
     runs P W (body x) (fun _ s' => I (before ++ [x]) s') s) ->
  I [] s -> runs P W (each l body) (fun _ s' => I l s') s.
Proof.
  intros Hb. assert (forall after before s, l = before ++ after -> I before s ->
    runs P W (each after body) (fun _ s' => I l s') s) as H; [|by apply (H l [])].
  induction after as [|x after IH]; intros before s' El Hi; cbn [each].
  { apply runs_ret. by rewrite El, app_nil_r. }
  eapply runs_bind; [exact (Hb before x after s' El Hi)|]. intros [] s2 Hi2.
  apply (IH (before ++ [x])); [|exact Hi2]. rewrite <- app_assoc. exact El.
Qed.
End Views.

(** *** Rules for the kinds of calls, in terms of the view *)

Section ViewRules.
Context {L : DocaLib} `{!DocaLaws L} {U : Type} (P : trace -> doca_call -> Prop) (W : doca U -> Prop).
Context (s : doca U) (l : gset resource) (f : list Z) (n : Z) (d : gmap Z Z) (v : U).
Context (Hs : view_of s = MkView l f n d v).

Lemma vars_view : vars s = v.
Proof. by injection Hs. Qed.
Lemma flight_view : in_flight (calls s) = f.
Proof. by injection Hs. Qed.

Lemma view_put (u : U) : view_of (MkDoca (calls s) u) = MkView l f n d u.
Proof. injection Hs as <- <- <- <- _. done. Qed.

Lemma runs_made c k (R : Z -> doca U -> Prop) :
  P (calls s) c -> makes c = Some k -> k <> KTask ->
  (forall h s', h <> 0 -> (k, h) ∉ l -> view_of s' = MkView (l ∪ {[(k, h)]}) f n d v -> R h s') ->
  runs P W (expect c) R s.
Proof.
  intros Hc Hm Hk H. apply runs_expect; [done|]. intros Ha. destruct (made_fresh (calls s) c k Ha Hm) as [Hn Hf].
  injection Hs as <- <- <- <- <-. apply H; [done|done|]. by apply view_made.
Qed.

Lemma runs_made_insist c k (R : Z -> doca U -> Prop) :
  P (calls s) c -> makes c = Some k -> k <> KTask ->
  (forall h s', h <> 0 -> (k, h) ∉ l -> view_of s' = MkView (l ∪ {[(k, h)]}) f n d v -> R h s') ->
  runs P W (insist c) R s.
Proof.
  intros Hc Hm Hk H. apply runs_insist; [done|]. intros Ha. destruct (made_fresh (calls s) c k Ha Hm) as [Hn Hf].
  injection Hs as <- <- <- <- <-. apply H; [done|done|]. by apply view_made.
Qed.

Lemma runs_task c data (R : Z -> doca U -> Prop) :
  P (calls s) c -> task_of c = Some data ->
  (forall t s', t <> 0 -> (KTask, t) ∉ l ->
     view_of s' = MkView (l ∪ {[(KTask, t)]}) f n (<[t := data]> d) v -> R t s') ->
  runs P W (expect c) R s.
Proof.
  intros Hc Ht H. apply runs_expect; [done|]. intros Ha. destruct (made_fresh (calls s) c KTask Ha) as [Hn Hf].
  { by destruct c. }
  injection Hs as <- <- <- <- <-. apply H; [done|done|]. by apply view_task.
Qed.

Lemma runs_freed c r (R : unit -> doca U -> Prop) :
  P (calls s) c -> frees c = Some r ->
  (forall s', view_of s' = MkView (l ∖ {[r]}) f n d v -> R tt s') ->
  runs P W (_ ← expect c; mret tt) R s.
Proof.
  intros Hc Hf H. eapply runs_bind.
  - apply (runs_expect _ _ _ (fun _ s' => view_of s' = MkView (l ∖ {[r]}) f n d v)); [done|]. intros _.
    injection Hs as <- <- <- <- <-. by apply view_freed.
  - intros a s' E. by apply runs_ret, H.
Qed.

Lemma runs_freed_ignore c r (R : unit -> doca U -> Prop) :
  P (calls s) c -> frees c = Some r ->
  (forall s', view_of s' = MkView (l ∖ {[r]}) f n d v -> R tt s') -> runs P W (ignore c) R s.
Proof.
  intros Hc Hf H. apply runs_ignore; [done|]. apply H. injection Hs as <- <- <- <- <-. by apply view_freed.
Qed.

(** A submission; when it is refused nothing has changed. *)
Lemma runs_submit t (R : doca_error -> doca U -> Prop) :
  P (calls s) (TaskSubmit t) ->
  (forall s', view_of s' = MkView l (f ++ [t]) n d v -> R DOCA_SUCCESS s') ->
  (forall e s', e <> DOCA_SUCCESS -> refused s' -> view_of s' = MkView l f n d v -> R e s') ->
  runs P W (submit t) R s.
Proof.
  intros Hc H1 H2. unfold submit. apply runs_call; [done|]. apply runs_ret. unfold event_of. cbn [ev_err].
  destruct (decide (answer (calls s) (TaskSubmit t) = DOCA_SUCCESS)) as [Ha|Ha].
  - rewrite Ha. apply H1. injection Hs as <- <- <- <- <-. by apply view_submit.
  - apply H2; [done|by apply refused_called|]. rewrite <- Hs. by apply view_refused.
Qed.

(** A poll: nothing is completed, or a task that was under way is, with success or not. *)
Lemma runs_poll p cb ecb (R : unit -> doca U -> Prop) :
  P (calls s) (PeProgress (inner_pe p)) ->
  (forall e s', calls s' = calls s ++ [Ev (PeProgress (inner_pe p)) e 0] ->
     view_of s' = MkView l (filter (fun t => t <> 0) f) n d v -> R tt s') ->
  (forall t s', t = stored (calls s) (PeProgress (inner_pe p)) -> t <> 0 -> t ∈ f ->
     calls s' = calls s ++ [Ev (PeProgress (inner_pe p)) DOCA_SUCCESS t] ->
     view_of s' = MkView l (filter (fun t' => t' <> t) f) (n + 1) d v ->
     runs P W (cb (default 0 (d !! t))) R s') ->
  (forall t e s', t ∈ f -> e <> DOCA_SUCCESS -> refused s' -> runs P W (ecb (default 0 (d !! t)) e) R s') ->
  runs P W (poll_progress p cb ecb) R s.
Proof.
  intros Hc H0 H1 H2. unfold poll_progress. apply runs_call; [done|]. set (c := PeProgress (inner_pe p)) in *.
  pose proof (view_progress (inner_pe p) s) as Hv. pose proof (progress_task (calls s) (inner_pe p)) as Ht.
  fold c in Hv, Ht. unfold event_of in *. cbn [ev_out ev_err] in *. injection Hs as El Ef En Ed Ev.
  rewrite El, Ef, En, Ed, Ev in Hv. rewrite Ef in Ht.
  destruct (truthy (stored (calls s) c)) eqn:Htr.
  - unfold truthy in Htr. apply negb_true_iff, Z.eqb_neq in Htr. apply runs_history. cbn [called calls].
    unfold task_data. rewrite datas_snoc. cbn [data_step ev_call event_of c]. fold c. rewrite Ed.
    destruct (ok _) eqn:Ho; cbn in Hv.
    + apply ok_true in Ho. cbn in Ho. apply (H1 (stored (calls s) c)); [done|done|by apply Ht|cbn; unfold event_of; by rewrite Ho|].
      rewrite Hv. unfold done_step, completes.
      cbn. rewrite Ho. unfold truthy. by rewrite (proj2 (Z.eqb_neq _ 0)).
    + apply ok_false in Ho. apply H2; [by apply Ht|done|by apply refused_called].
  - unfold truthy in Htr. apply negb_false_iff, Z.eqb_eq in Htr. apply runs_ret, (H0 (answer (calls s) c)).
    + cbn. unfold event_of. by rewrite Htr.
    + rewrite Hv, Htr. unfold done_step, completes. cbn. by destruct (answer _ _).
Qed.

Lemma runs_num_inflight p (R : Z -> doca U -> Prop) :
  P (calls s) (PeNumInflight (inner_pe p)) ->
  (forall s', view_of s' = MkView l f n d v -> calls s' = calls s ++ [Ev (PeNumInflight (inner_pe p)) DOCA_SUCCESS (Z.of_nat (length f))] ->
     R (Z.of_nat (length f)) s') ->
  runs P W (get_num_inflight p) R s.
Proof.
  intros Hc H. apply runs_expect; [done|]. intros Ha. pose proof (num_inflight _ _ Ha) as E. rewrite flight_view in E.
  rewrite E. apply H; [by rewrite view_plain|]. cbn. unfold event_of. by rewrite Ha, E.
Qed.
End ViewRules.

(** *** Objects: made, used and given back *)

Section ObjectRules.
Context {L : DocaLib} `{!DocaLaws L} {U : Type} (P : trace -> doca_call -> Prop) (W : doca U -> Prop).
Context (s : doca U) (l : gset resource) (f : list Z) (n : Z) (d : gmap Z Z) (v : U).
Context (Hs : view_of s = MkView l f n d v).

(** A new resource, and nothing else. *)
Definition made (k : kind) (h : Z) (s' : doca U) : Prop :=
  (k, h) ∉ l /\ view_of s' = MkView (l ∪ {[(k, h)]}) f n d v.
(** A resource less. *)
Definition gone (r : resource) (s' : doca U) : Prop := view_of s' = MkView (l ∖ {[r]}) f n d v.
Definition unchanged (s' : doca U) : Prop := view_of s' = MkView l f n d v.

Lemma runs_made_by c k :
  P (calls s) c -> makes c = Some k -> k <> KTask -> runs P W (expect c) (fun h s' => h <> 0 /\ made k h s') s.
Proof. intros Hc Hm Hk. apply (runs_made _ _ _ _ _ _ _ _ Hs _ k); [done|done|done|]. by intros. Qed.

Lemma runs_gone c r :
  P (calls s) c -> frees c = Some r -> runs P W (_ ← expect c; mret tt) (fun _ s' => gone r s') s.
Proof. intros Hc Hf. by apply (runs_freed _ _ _ _ _ _ _ _ Hs _ r). Qed.

Lemma runs_unchanged c :
  P (calls s) c -> plain c = true -> runs P W (_ ← expect c; mret tt) (fun _ s' => unchanged s') s.
Proof. intros Hc Hp. apply runs_plain; [done|done|]. intros s' E. unfold unchanged. by rewrite E. Qed.

Lemma runs_mmap_new :
  P (calls s) MmapCreate -> runs P W mmap_new (fun m s' => made KMmap (inner_mmap m) s') s.
Proof.
  intros Hc. eapply runs_bind; [apply (runs_made_insist _ _ _ _ _ _ _ _ Hs _ KMmap (fun h s' => made KMmap h s')); try done|].
  intros h s' H. by apply runs_ret.
Qed.

Lemma runs_new_from_exported desc dev :
  P (calls s) (MmapCreateFromExport desc dev) ->
  runs P W (new_from_exported_dpu desc dev) (fun m s' => made KMmap (inner_mmap m) s') s.
Proof. intros Hc. eapply runs_bind; [by apply (runs_made_by _ KMmap)|]. intros h s' [_ H]. by apply runs_ret. Qed.

Lemma runs_dma_new dev : P (calls s) (DmaCreate dev) -> runs P W (dma_new dev) (fun h s' => made KDma h s') s.
Proof. intros Hc. eapply runs_mono; [by apply (runs_made_by _ KDma)|]. by intros h s' [_ H]. Qed.

Lemma runs_pe_new : P (calls s) PeCreate -> runs P W pe_new (fun p s' => made KPe (inner_pe p) s') s.
Proof. intros Hc. eapply runs_bind; [by apply (runs_made_by _ KPe)|]. intros h s' [_ H]. by apply runs_ret. Qed.

Lemma runs_add_device dev m :
  P (calls s) (MmapAddDev (inner_mmap m) dev) ->
  runs P W (add_device dev m) (fun m' s' => inner_mmap m' = inner_mmap m /\ unchanged s') s.
Proof.
  intros Hc. eapply runs_bind; [apply (runs_expect _ _ _ (fun _ s' => unchanged s')); [done|]|].
  - intros _. unfold unchanged. by rewrite view_plain.
  - intros a s' H. by apply runs_ret.
Qed.

Lemma runs_connect_ctx c p :
  P (calls s) (PeConnectCtx (inner_pe p) c) ->
  runs P W (connect_ctx c p) (fun p' s' => inner_pe p' = inner_pe p /\ unchanged s') s.
Proof.
  intros Hc. eapply runs_bind; [apply (runs_expect _ _ _ (fun _ s' => unchanged s')); [done|]|].
  - intros _. unfold unchanged. by rewrite view_plain.
  - intros a s' H. by apply runs_ret.
Qed.
End ObjectRules.

(** The two objects that are made in two steps. *)
Section TwoStepRules.
Context {L : DocaLib} `{!DocaLaws L} {U : Type} (P : trace -> doca_call -> Prop) (W : doca U -> Prop).
Context (s : doca U) (l : gset resource) (f : list Z) (n : Z) (d : gmap Z Z) (v : U).
Context (Hs : view_of s = MkView l f n d v).

Lemma runs_memrange m a len :
  (forall tr c, c = MmapSetMemrange (inner_mmap m) a len \/ c = MmapStart (inner_mmap m) -> P tr c) ->
  runs P W (set_memrange_and_start m a len) (fun _ s' => unchanged l f n d v s') s.
Proof.
  intros Hc. eapply runs_bind; [eapply (runs_unchanged _ _ _ _ _ _ _ _ Hs); [apply Hc; by left|done]|].
  intros [] s' V'. eapply (runs_unchanged _ _ _ _ _ _ _ _ V'); [apply Hc; by right|done].
Qed.

Lemma runs_inventory_new k :
  (forall tr, P tr (InvCreate k)) -> (forall tr i, P tr (InvStart i)) ->
  runs P W (buf_inventory_new k) (fun i s' => made l f n d v KInv i s') s.
Proof.
  intros H1 H2. eapply runs_bind; [apply (runs_made_by _ _ _ _ _ _ _ _ Hs _ KInv); done|]. intros i s' [_ [Hf V']].
  eapply runs_bind; [apply (runs_expect _ _ _ (fun _ s2 => made l f n d v KInv i s2)); [done|]|].
  - intros _. split; [done|]. by rewrite view_plain.
  - intros a s2 H. by apply runs_ret.
Qed.

Lemma runs_rdma_new dev gid perm :
  (forall tr r c, c = RdmaCreate dev \/ c = RdmaSetPermissions r perm \/ c = RdmaSetGidIndex r gid -> P tr c) ->
  runs P W (rdma_new dev gid perm) (fun r s' => made l f n d v KRdma r s') s.
Proof.
  intros H. eapply runs_bind; [apply (runs_made_by _ _ _ _ _ _ _ _ Hs _ KRdma); [apply (H _ 0); auto|done|done]|].
  intros r s1 [_ [Hf V1]].
  eapply runs_bind; [apply (runs_expect _ _ _ (fun _ s2 => made l f n d v KRdma r s2)); [apply (H _ r); auto|]|].
  { intros _. split; [done|]. by rewrite view_plain. }
  intros a2 s2 [_ V2].
  eapply runs_bind; [apply (runs_expect _ _ _ (fun _ s2 => made l f n d v KRdma r s2)); [apply (H _ r); auto|]|].
  { intros _. split; [done|]. by rewrite view_plain. }
  intros a3 s3 M3. by apply runs_ret.
Qed.
End TwoStepRules.

(** The objects of a program, made in order; all of them are given back. *)
Lemma objects_given_back (l : gset resource) (a b c d e : resource) :
  a ∉ l -> b ∉ l ∪ {[a]} -> c ∉ l ∪ {[a]} ∪ {[b]} -> d ∉ l ∪ {[a]} ∪ {[b]} ∪ {[c]} ->
  e ∉ l ∪ {[a]} ∪ {[b]} ∪ {[c]} ∪ {[d]} ->
  (l ∪ {[a]} ∪ {[b]} ∪ {[c]} ∪ {[d]} ∪ {[e]}) ∖ {[e]} ∖ {[b]} ∖ {[c]} ∖ {[a]} ∖ {[d]} = l.
Proof.
  rewrite !not_elem_of_union, !not_elem_of_singleton. intros Ha Hb Hc Hd He. apply set_eq. intros x.
  assert (x ∈ l -> x <> a /\ x <> b /\ x <> c /\ x <> d /\ x <> e) as H
    by (intros Hx; split_and!; intros ->; tauto).
  rewrite !elem_of_difference, !elem_of_union, !elem_of_singleton. tauto.
Qed.

(** Giving back [r] while no task is under way. *)
Ltac give_back V r :=
  eapply runs_bind; [apply (runs_gone _ _ _ _ _ _ _ _ V _ r); [by apply (flight_view _ _ _ _ _ _ V)|done]|].

(** *** Contexts *)

Section CtxRules.
Context {L : DocaLib} {U : Type} (P : trace -> doca_call -> Prop) (W : doca U -> Prop).

Lemma runs_ctx_start c (v : view U) s :
  P (calls s) (CtxStart c) -> view_of s = v -> runs P W (ctx_start c) (fun _ s' => view_of s' = v) s.
Proof.
  intros Hc Hv. unfold ctx_start. apply runs_call; [done|]. unfold in_progress_ok. case_bool_decide as Ho.
  - apply runs_ret. by rewrite view_plain.
  - apply runs_refused; [|left; by eexists]. apply refused_called. cbn in Ho. tauto.
Qed.

Lemma runs_ctx_delete c (v : view U) s :
  P (calls s) (CtxStop c) -> view_of s = v -> runs P W (ctx_delete c) (fun _ s' => view_of s' = v) s.
Proof.
  intros Hc Hv. unfold ctx_delete, ctx_stop, runs, wp, try_doca, mbind, M_bind, call.
  pose proof (view_plain (CtxStop c) s eq_refl) as Hp. pose proof (grows_called P (CtxStop c) s Hc) as Hg.
  unfold in_progress_ok. case_bool_decide as Ho; cbn [throw endwith].
  - split; [done|]. by rewrite <- Hv.
  - split; [done|]. apply refused_called. cbn in Ho. tauto.
Qed.

(** A call whose result is not looked at, and one whose result is only returned. *)
Lemma runs_ignore_plain c (v : view U) s :
  P (calls s) c -> plain c = true -> view_of s = v -> runs P W (ignore c) (fun _ s' => view_of s' = v) s.
Proof. intros HP Hc Hs. apply runs_ignore; [done|]. by rewrite view_plain. Qed.

Lemma runs_conf c (v : view U) s :
  P (calls s) c -> plain c = true -> view_of s = v ->
  runs P W (e ← call c; mret (ev_err e)) (fun _ s' => view_of s' = v) s.
Proof. intros HP Hc Hs. apply runs_call; [done|]. apply (runs_ret _ _ _ (fun _ s' => view_of s' = v)). by rewrite view_plain. Qed.

Lemma runs_export_rdma r (v : view U) s :
  P (calls s) (RdmaExport r) -> view_of s = v -> runs P W (export_rdma r) (fun _ s' => view_of s' = v) s.
Proof.
  intros HP Hs. unfold export_rdma. apply runs_history. eapply runs_bind.
  - apply (runs_expect _ _ _ (fun _ s' => view_of s' = v)); [done|]. intros _. by rewrite view_plain.
  - intros a s3 V3. by apply (runs_ret _ _ _ (fun _ s' => view_of s' = v)).
Qed.

(** A poll with no task under way. *)
Lemma runs_poll_none `{!DocaLaws L} p cb ecb s l n d (u : U) :
  view_of s = MkView l [] n d u -> P (calls s) (PeProgress (inner_pe p)) ->
  runs P W (poll_progress p cb ecb) (fun _ s' => view_of s' = MkView l [] n d u) s.
Proof.
  intros Hs HP. apply (runs_poll _ _ _ _ _ _ _ _ Hs); [done|..].
  - by intros e s' _ V.
  - by intros t s' _ _ H%not_elem_of_nil.
  - by intros t e s' H%not_elem_of_nil.
Qed.

Lemma runs_start_ctx p (v : view U) s :
  (forall tr c, P tr (CtxStart c)) -> view_of s = v -> runs P W (start_ctx p) (fun _ s' => view_of s' = v) s.
Proof.
  intros Hc Hv. apply (runs_each _ _ _ _ (fun _ s' => view_of s' = v)); [|done].
  intros _ c _ s' _ Hv'. by apply runs_ctx_start.
Qed.
End CtxRules.

Lemma flight_called {L : DocaLib} {U} c (s : doca U) :
  in_flight (calls (called c s)) = flight_step (in_flight (calls s)) (event_of (calls s) c).
Proof. apply flight_snoc. Qed.

(** ** Calls that touch neither the variables nor the tasks *)

(** The exceptions of the program. *)
Definition raised (x : ending) : Prop := match x with Throws _ | Exits => True | Waits | Crashes => False end.

Definition calm (c : doca_call) : bool := match c with TaskSubmit _ | PeProgress _ => false | _ => true end.

Definition same_state {U} (s s' : doca U) : Prop := vars s' = vars s /\ in_flight (calls s') = in_flight (calls s).

Section Calm.
Context {L : DocaLib} {U : Type}.

(** The variables and the tasks under way stay as they are; exceptions are possible. *)
Definition undisturbed {A} (m : M U A) : Prop :=
  forall s, wp m (fun _ s' => same_state s s') (fun x s' => raised x /\ same_state s s') s.

Lemma same_state_trans (s1 s2 s3 : doca U) : same_state s1 s2 -> same_state s2 s3 -> same_state s1 s3.
Proof. intros [E1 E2] [E3 E4]. split; congruence. Qed.

Lemma calm_ret {A} (a : A) : undisturbed (mret (M := M U) a).
Proof. by intros s. Qed.
Lemma calm_end {A} x : raised x -> undisturbed (endwith (U := U) (A := A) x).
Proof. intros H s. by apply cwp_end. Qed.
Lemma calm_bind {A B} (m : M U A) (f : A -> M U B) : undisturbed m -> (forall a, undisturbed (f a)) -> undisturbed (m ≫= f).
Proof.
  intros Hm Hf s. apply cwp_bind. eapply cwp_mono; [apply Hm| |done]. cbn. intros a s1 E1.
  eapply cwp_mono; [apply Hf|..]; cbn.
  - intros b s2 E2. by eapply same_state_trans.
  - intros x s2 [Hx E2]. split; [done|]. by eapply same_state_trans.
Qed.
Lemma calm_call c : calm c = true -> undisturbed (call (U := U) c).
Proof. intros Hc s. apply cwp_call. split; [done|]. cbn. rewrite flight_snoc. unfold flight_step. by destruct c. Qed.
Lemma calm_assert b : undisturbed (rt_assert (U := U) b).
Proof. intros s. by apply cwp_assert. Qed.
Lemma calm_history : undisturbed (history (U := U)).
Proof. by intros s. Qed.
Lemma calm_try {A} (m : M U A) h : undisturbed m -> (forall e, undisturbed (h e)) -> undisturbed (try_doca m h).
Proof.
  intros Hm Hh s. specialize (Hm s). unfold wp, try_doca in *.
  destruct (m s) as [[a|[[e| ]| | | ]] s1] eqn:Em; try done. destruct Hm as [_ E1]. specialize (Hh e s1). unfold wp in Hh.
  destruct (h e s1) as [[b|x] s2].
  - by eapply same_state_trans.
  - destruct Hh as [Hx E2]. split; [done|]. by eapply same_state_trans.
Qed.

End Calm.

(** Decomposes a program into such calls. *)
Ltac calm :=
  repeat first
    [ apply calm_ret | apply calm_assert | apply calm_history | apply calm_call; reflexivity | apply calm_end; exact I
    | apply calm_try; [|intros ?] | apply calm_bind; [|intros ?]
    | progress unfold ignore, expect, insist, throw | case_match | assumption ].

Section CalmPrograms.
Context {L : DocaLib} {U : Type}.

Lemma calm_each {A} (l : list A) (body : A -> M U unit) : (forall x, undisturbed (body x)) -> undisturbed (each l body).
Proof. intros H. induction l as [|x l IH]; cbn [each]; [apply calm_ret|]. apply calm_bind; [apply H|by intros []]. Qed.

Lemma calm_open_loop (matches : Z -> M U bool) func l devs : (forall d, undisturbed (matches d)) -> undisturbed (open_loop matches func l devs).
Proof.
  intros Hm. induction devs as [|d devs IH]; cbn [open_loop]; unfold device_list_delete, dev_open, ignore, insist, throw.
  - calm.
  - apply calm_bind; [calm|intros []]. apply calm_bind; [apply Hm|intros eq]. calm.
Qed.

Lemma calm_open pci func : undisturbed (open_doca_device_with_pci (U := U) pci func).
Proof.
  unfold open_doca_device_with_pci, get_device_list. apply calm_bind; [calm|]. intros [l devs].
  apply calm_open_loop. intros d. unfold devinfo_is_equal, expect, throw. calm.
Qed.
End CalmPrograms.

(** ** A library that always succeeds, with two devices *)

Definition fresh_handle (tr : trace) : Z := 1 + foldr (fun e m => Z.max (ev_out e) m) 0 tr.

Definition ref_doca : DocaLib := {|
  answer _ _ := DOCA_SUCCESS;
  stored tr c :=
    match c with
    | PeProgress _ => match in_flight tr with t :: _ => t | [] => 0 end
    | PeNumInflight _ => Z.of_nat (length (in_flight tr))
    | DevinfoIsEqualPci d pci => c_bool (bool_decide (d = 8 /\ pci = "03:00.1"%string))
    | _ => fresh_handle tr
    end;
  text _ _ := "mlx5_1"%string;
  listed _ _ := [7; 8];
  as_ctx engine := engine;
|}.

Lemma live_handles tr k h : (k, h) ∈ live tr -> exists e, e ∈ tr /\ ev_out e = h.
Proof.
  induction tr as [|e tr IH] using rev_ind; [by intros H%elem_of_empty|].
  rewrite resources_snoc. intros [[H|H]%elem_of_union _]%elem_of_difference.
  - destruct (IH H) as (e' & He & <-). exists e'. split; [set_solver|done].
  - exists e. split; [set_solver|]. unfold acquired in H. destruct (makes (ev_call e)) as [k'|], (ev_err e); set_solver.
Qed.

Lemma fresh_handle_spec tr : 0 < fresh_handle tr /\ forall e, e ∈ tr -> ev_out e < fresh_handle tr.
Proof.
  unfold fresh_handle. induction tr as [|e tr [IH1 IH2]]; cbn; [split; [lia|by intros e H%not_elem_of_nil]|].
  split; [lia|]. intros e' [->|H]%elem_of_cons; [lia|]. specialize (IH2 _ H). lia.
Qed.

#[export] Instance ref_doca_laws : DocaLaws ref_doca.
Proof.
  split.
  - intros tr c k _ Hm. assert (stored (DocaLib := ref_doca) tr c = fresh_handle tr) as -> by (by destruct c).
    destruct (fresh_handle_spec tr) as [H1 H2]. split; [lia|]. intros (e & He & Ee)%live_handles.
    specialize (H2 _ He). lia.
  - intros tr p. cbn. destruct (in_flight tr) as [|t l]; [done|]. intros _. by left.
  - done.
Qed.

Lemma open_device_first_witness :
  let s := MkDoca [] tt in
  answer (DocaLib := ref_doca) (calls s) DevinfoCreateList = DOCA_SUCCESS /\
  (let '(r, s') := open_doca_device_with_pci (L := ref_doca) "03:00.1" None s in
   r = Done 2 /\ opened None (pci_match "03:00.1") s 1 [7; 8] r s') /\
  (let '(r, s') := open_doca_device_with_ibdev_name (L := ref_doca) "mlx5_1" None s in
   opened None (name_match (L := ref_doca) "mlx5_1") s 1 [7; 8] r s').
Proof.
  split; [reflexivity|].
  pose proof (open_device_first (L := ref_doca) "03:00.1" None (MkDoca [] tt) eq_refl) as [H _].
  pose proof (open_device_first (L := ref_doca) "mlx5_1" None (MkDoca [] tt) eq_refl) as [_ H'].
  split; [|exact H'].
  split; [vm_compute; reflexivity|exact H].
Defined.
