(* ===== verification/DmaCopy.v ===== *)
(** * DmaCopy: the DMA benchmarks between a host and its DPU

    Translation of the importer of [test_suite/dma_copy_bench]: a thread keeps a batch of DMA
    tasks under way, and the completion callback submits its task again.

    A turn of the loop [while (runner->running())] is an element of [turns], the value of
    [stop_flag] that the callback reads in that turn; the loop that waits for the last tasks
    takes [fuel] turns, and then still [Waits].  The flag is set before the runner stops. *)

From stdpp Require Import strings.
From S2P Require Import Prelude Doca.

Record dma_config := MkDmaConfig {
  is_read : bool; payload : Z; batch_size : Z; dev : Z;
  remote_mmap_export_string : string; remote_mmap_addr : Z;
}.

(** The part of [task_config] that changes; the rest are arguments. *)
Record task_config := MkTaskConfig {
  num_ops_finished : Z; task_buffers : list Z; task_src_buf : list buf; task_dst_buf : list buf;
}.

Definition null_buf : buf := MkBuf 0 0 0.

Section Importer.
Context {L : DocaLib} (config : dma_config).

(** [stat->finish_one_op_without_time()] *)
Definition finish_one_op : M task_config unit :=
  t ← get;
  put (MkTaskConfig (num_ops_finished t +64 1)%cint (task_buffers t) (task_src_buf t) (task_dst_buf t)).

Definition complete_callback (stop_flag : bool) (task_index : Z) : M task_config unit :=
  _ ← finish_one_op;
  if stop_flag then mret tt
  else
    t ← get;
    match task_dst_buf t !! Z.to_nat task_index, task_src_buf t !! Z.to_nat task_index,
          task_buffers t !! Z.to_nat task_index with
    | Some dst, Some src, Some task =>
        _ ← set_data dst (task_index *64 payload config)%cint 0;
        _ ← set_data src (task_index *64 payload config)%cint (payload config);
        _ ← submit task;
        mret tt
    | _, _, _ => endwith Crashes
    end.
Definition error_callback (task_index : Z) (status : doca_error) : M task_config unit :=
  throw (DOCAException status).

(** The slots [index] of the three vectors. *)
Definition set_slot (index : nat) (src dst : buf) (task : Z) (t : task_config) : task_config :=
  MkTaskConfig (num_ops_finished t) (<[index := task]> (task_buffers t)) (<[index := src]> (task_src_buf t))
    (<[index := dst]> (task_dst_buf t)).

Definition region : Z := (payload config *32 batch_size config)%cint.

(** The first submission of the task [index]. *)
Definition post_first (dma inv local_addr : Z) (local_mmap remote_mmap : mmap) (index : nat) : M task_config unit :=
  let offset := (Z.of_nat index *64 payload config)%cint in
  let '(src_mmap, src_addr, dst_mmap, dst_addr) :=
    if is_read config then (remote_mmap, remote_mmap_addr config, local_mmap, local_addr)
    else (local_mmap, local_addr, remote_mmap, remote_mmap_addr config) in
  src ← buf_inventory_buf_by_data inv src_mmap src_addr region;
  _ ← set_data src offset (payload config);
  dst ← buf_inventory_buf_by_addr inv dst_mmap dst_addr region;
  _ ← set_data dst offset 0;
  task ← dma_task_memcpy_new dma src dst (Z.of_nat index);
  t ← get;
  _ ← put (set_slot index src dst task t);
  e ← submit task;
  if decide (e = DOCA_SUCCESS) then mret tt else endwith Exits.

Definition poll (p : pe) (stop_flag : bool) : M task_config unit :=
  poll_progress p (complete_callback stop_flag) error_callback.

Fixpoint drain (p : pe) (fuel : nat) : M task_config unit :=
  n ← get_num_inflight p;
  if 0 <? n then
    match fuel with
    | O => endwith Waits
    | S fuel => _ ← poll p true; drain p fuel
    end
  else mret tt.

Definition delete_slot (index : nat) : M task_config unit :=
  t ← get;
  match task_buffers t !! index, task_src_buf t !! index, task_dst_buf t !! index with
  | Some task, Some src, Some dst => _ ← task_delete task; _ ← buf_delete src; buf_delete dst
  | _, _, _ => endwith Crashes
  end.

Definition resize_slots (n : nat) : M task_config unit :=
  t ← get;
  put (MkTaskConfig (num_ops_finished t) (replicate n 0) (replicate n null_buf) (replicate n null_buf)).

Definition post_dma_reqs (p : pe) (dma inv local_addr : Z) (local_mmap remote_mmap : mmap)
    (turns : list bool) (fuel : nat) : M task_config unit :=
  let n := Z.to_nat (batch_size config) in
  _ ← resize_slots n;
  _ ← dma_set_task_conf dma (batch_size config);
  _ ← start_ctx p;
  _ ← each (seq 0 n) (post_first dma inv local_addr local_mmap remote_mmap);
  _ ← each turns (poll p);
  _ ← drain p fuel;
  each (seq 0 n) delete_slot.

Definition perform_importer_routine (local_buffer : Z) (turns : list bool) (fuel : nat) : M task_config unit :=
  local_mmap ← mmap_new;
  local_mmap ← add_device (dev config) local_mmap;
  _ ← set_memrange_and_start local_mmap local_buffer (batch_size config *32 payload config)%cint;
  dma ← dma_new (dev config);
  ctx ← ctx_new dma;
  p ← pe_new;
  p ← connect_ctx ctx p;
  remote_mmap ← new_from_exported_dpu (remote_mmap_export_string config) (dev config);
  inv ← buf_inventory_new (batch_size config *32 2)%cint;
  _ ← ctx_set_data ctx;
  _ ← post_dma_reqs p dma inv local_buffer local_mmap remote_mmap turns fuel;
  _ ← buf_inventory_delete inv;
  _ ← ctx_delete ctx;
  _ ← dma_delete dma;
  _ ← pe_delete p;
  _ ← mmap_delete local_mmap;
  mmap_delete remote_mmap.
End Importer.

(** ** Slots

    A task with its source and destination buffer. *)

Definition slot : Type := Z * buf * buf.
Definition slot_task (x : slot) : Z := x.1.1.
Definition slot_src (x : slot) : buf := x.1.2.
Definition slot_dst (x : slot) : buf := x.2.

Definition slot_res (x : slot) : list resource :=
  [(KTask, slot_task x); (KBuf, inner_buf (slot_src x)); (KBuf, inner_buf (slot_dst x))].
Definition slots_res (sl : list slot) : list resource := concat (slot_res <$> sl).

Lemma slots_res_app a b : slots_res (a ++ b) = slots_res a ++ slots_res b.
Proof. unfold slots_res. by rewrite fmap_app, concat_app. Qed.

Lemma task_in_slots sl i x : sl !! i = Some x -> (KTask, slot_task x) ∈ slots_res sl.
Proof.
  intros Hx. apply list_elem_of_split_length in Hx as (a & b & -> & _). rewrite slots_res_app.
  apply elem_of_app. right. by left.
Qed.

Lemma owns_snoc base sl l t src dst :
  owns base (slots_res sl) l -> (KBuf, inner_buf src) ∉ l -> (KBuf, inner_buf dst) ∉ l ∪ {[(KBuf, inner_buf src)]} ->
  (KTask, t) ∉ l ∪ {[(KBuf, inner_buf src)]} ∪ {[(KBuf, inner_buf dst)]} ->
  owns base (slots_res (sl ++ [(t, src, dst)]))
    (l ∪ {[(KBuf, inner_buf src)]} ∪ {[(KBuf, inner_buf dst)]} ∪ {[(KTask, t)]}).
Proof.
  intros O H1 H2 H3. apply (owns_add _ _ _ _ H1), (owns_add _ _ _ _ H2), (owns_add _ _ _ _ H3) in O.
  eapply owns_perm; [|exact O]. rewrite slots_res_app. cbn. solve_Permutation.
Qed.

Lemma owns_cons base x sl l :
  owns base (slots_res (x :: sl)) l ->
  owns base (slots_res sl) (l ∖ {[(KTask, slot_task x)]} ∖ {[(KBuf, inner_buf (slot_src x))]}
                  ∖ {[(KBuf, inner_buf (slot_dst x))]}).
Proof. intros O. by do 3 apply owns_remove. Qed.

(** ** Correctness of the importer *)

Section Correct.
Context {L : DocaLib} `{!DocaLaws L} (config : dma_config) (local : Z).
Context (Hpayload : 0 <= payload config) (Hbatch : 0 <= batch_size config)
  (Hregion : payload config * batch_size config < 2 ^ 32) (Hpayload32 : payload config < 2 ^ 32).

Definition nslots : nat := Z.to_nat (batch_size config).
Definition is_base (a : Z) : Prop := a = local \/ a = remote_mmap_addr config.

(** Every copy is of one slot of one of the two regions; no task is freed while it is under
    way, and nothing else is destroyed while any task is. *)
Definition copy_call (tr : trace) (c : doca_call) : Prop :=
  match c with
  | BufSetData _ addr len =>
      exists base i, is_base base /\ 0 <= i < batch_size config /\ addr = u64 (base + i * payload config) /\
        (len = 0 \/ len = payload config)
  | BufByAddr _ _ addr len | BufByData _ _ addr len => is_base addr /\ len = payload config * batch_size config
  | TaskFree _ | BufDecRefcount _ | InvDestroy _ | DmaDestroy _ | PeDestroy _ | MmapDestroy _ => in_flight tr = []
  | _ => True
  end.

Context (base : gset resource) (ops0 done0 : Z) (W : doca task_config -> Prop).

(** [k] slots are made. *)
Record slots_inv (k : nat) (sl : list slot) (v : view task_config) : Prop := MkSlots {
  si_length : length sl = k;
  si_owns : owns base (slots_res sl) (v_live v);
  si_tasks : task_buffers (v_vars v) = (slot_task <$> sl) ++ replicate (nslots - k) 0;
  si_srcs : task_src_buf (v_vars v) = (slot_src <$> sl) ++ replicate (nslots - k) null_buf;
  si_dsts : task_dst_buf (v_vars v) = (slot_dst <$> sl) ++ replicate (nslots - k) null_buf;
  si_data i x : sl !! i = Some x -> v_data v !! slot_task x = Some (Z.of_nat i);
  si_flight t : t ∈ v_flight v -> exists i x, sl !! i = Some x /\ slot_task x = t;
  si_few : (length (v_flight v) <= k)%nat;
  si_bufs x : x ∈ sl -> is_base (raw_pointer (slot_src x)) /\ is_base (raw_pointer (slot_dst x));
  si_ops : num_ops_finished (v_vars v) = u64 (ops0 + (v_done v - done0));
}.

Lemma lookup_slots {A} (sl : list slot) (g : slot -> A) rest i x :
  sl !! i = Some x -> ((g <$> sl) ++ rest) !! i = Some (g x).
Proof. intros H. rewrite lookup_app_l by (rewrite length_fmap; by eapply lookup_lt_Some). by rewrite list_lookup_fmap, H. Qed.

Lemma insert_slot {A} (sl : list slot) (g : slot -> A) (z : A) k x :
  length sl = k -> (k < nslots)%nat ->
  <[k := g x]> ((g <$> sl) ++ replicate (nslots - k) z) = (g <$> (sl ++ [x])) ++ replicate (nslots - S k) z.
Proof.
  intros Hl Hk. rewrite <- (length_fmap g) in Hl. rewrite insert_app_r_alt, Hl, Nat.sub_diag by lia.
  replace (nslots - k)%nat with (S (nslots - S k)) by lia. cbn. rewrite fmap_app, <- app_assoc. done.
Qed.

(** Setting the data of a buffer to slot [i]. *)
Lemma runs_set_data b i len s v :
  view_of s = v -> is_base (raw_pointer b) -> 0 <= i < batch_size config -> len = 0 \/ len = payload config ->
  runs copy_call W (set_data b (i *64 payload config)%cint len) (fun _ s' => view_of s' = v) s.
Proof.
  intros Hv Hb Hi Hl. apply runs_plain; [|done|].
  - exists (raw_pointer b), i. split; [done|]. split; [done|]. split; [by rewrite wrapu_add_r|done].
  - intros s' E. by rewrite E.
Qed.

(** A new buffer over one of the two regions. *)
Lemma runs_new_buf (by_data : bool) inv m addr (R : buf -> doca task_config -> Prop) s lv f n d v :
  view_of s = MkView lv f n d v -> is_base addr ->
  (forall b s', raw_pointer b = addr -> (KBuf, inner_buf b) ∉ lv ->
     view_of s' = MkView (lv ∪ {[(KBuf, inner_buf b)]}) f n d v -> R b s') ->
  runs copy_call W ((if by_data then buf_inventory_buf_by_data else buf_inventory_buf_by_addr) inv m addr (region config)) R s.
Proof.
  intros Hs Ha HR. assert (region config = payload config * batch_size config) as ->
    by (unfold region; rewrite wrapu_small; [done|nia]).
  set (Q := fun h s' => (KBuf, h) ∉ lv /\ view_of s' = MkView (lv ∪ {[(KBuf, h)]}) f n d v).
  destruct by_data; (eapply runs_bind; [apply (runs_made _ _ _ _ _ _ _ _ Hs _ KBuf Q); unfold Q; cbn; try done; auto|]);
    intros h s' [Hf Hv]; apply runs_ret, HR; done.
Qed.

(** One more slot. *)
Lemma slots_inv_snoc k sl lv f n d v f' t src dst :
  (k < nslots)%nat -> slots_inv k sl (MkView lv f n d v) ->
  is_base (raw_pointer src) -> is_base (raw_pointer dst) ->
  (KBuf, inner_buf src) ∉ lv -> (KBuf, inner_buf dst) ∉ lv ∪ {[(KBuf, inner_buf src)]} ->
  (KTask, t) ∉ lv ∪ {[(KBuf, inner_buf src)]} ∪ {[(KBuf, inner_buf dst)]} ->
  (length f' <= S k)%nat -> (forall t', t' ∈ f' -> t' ∈ f \/ t' = t) ->
  slots_inv (S k) (sl ++ [(t, src, dst)])
    (MkView (lv ∪ {[(KBuf, inner_buf src)]} ∪ {[(KBuf, inner_buf dst)]} ∪ {[(KTask, t)]}) f' n
       (<[t := Z.of_nat k]> d) (set_slot k src dst t v)).
Proof.
  intros Hk [I1 I2 I3 I4 I5 I6 I7 I8 I9 I10] Ps Pd F1 F3 F5 Hf' Hin. cbn in *. split; cbn.
  - rewrite length_app. cbn. lia.
  - by apply owns_snoc.
  - rewrite I3. by apply (insert_slot sl slot_task 0 k (t, src, dst)).
  - rewrite I4. by apply (insert_slot sl slot_src null_buf k (t, src, dst)).
  - rewrite I5. by apply (insert_slot sl slot_dst null_buf k (t, src, dst)).
  - intros i x [Hx|[Hge Hx]]%lookup_app_Some.
    + rewrite lookup_insert_ne; [by apply I6|]. intros ->. apply F5. do 2 (apply elem_of_union; left). eapply owns_in; [done|].
      by eapply task_in_slots.
    + apply list_lookup_singleton_Some in Hx as [Hi0 <-]. cbn. rewrite lookup_insert_eq. f_equal. lia.
  - intros t' Ht'. destruct (Hin t' Ht') as [Hf| ->].
    + destruct (I7 t' Hf) as (i & x & Hx & Ex). exists i, x. split; [|done]. by apply lookup_app_l_Some.
    + exists (length sl), (t, src, dst). split; [|done]. by rewrite lookup_app_r, Nat.sub_diag.
  - exact Hf'.
  - intros x [Hx| ->%list_elem_of_singleton]%elem_of_app; [by apply I9|done].
  - exact I10.
Qed.

Lemma post_first_inv p_dma inv lm rm k s :
  (k < nslots)%nat -> (exists sl, slots_inv k sl (view_of s)) ->
  runs copy_call W (post_first config p_dma inv local lm rm k) (fun _ s' => exists sl, slots_inv (S k) sl (view_of s')) s.
Proof.
  intros Hk (sl & I). unfold post_first. set (l := if is_read config then _ else _).
  assert (exists sm sa dm da, l = (sm, sa, dm, da) /\ is_base sa /\ is_base da) as (sm & sa & dm & da & -> & Hsa & Hda).
  { unfold l, is_base. destruct (is_read config); eexists _, _, _, _; split_and!; eauto. }
  assert (0 <= Z.of_nat k < batch_size config) as Hi by (unfold nslots in Hk; lia).
  destruct (view_of s) as [lv f n d v] eqn:Hs.
  eapply runs_bind; [eapply (runs_new_buf true _ _ _ (fun b s' => raw_pointer b = sa /\ (KBuf, inner_buf b) ∉ lv /\
    view_of s' = MkView (lv ∪ {[(KBuf, inner_buf b)]}) f n d v)); [exact Hs|done|intros; split_and!; assumption]|].
  intros src s1 (P1 & F1 & V1). eapply runs_bind.
  { apply (runs_set_data _ _ _ _ _ V1); [congruence|done|by right]. }
  intros [] s2 V2. eapply runs_bind; [eapply (runs_new_buf false _ _ _ (fun b s' => raw_pointer b = da /\
    (KBuf, inner_buf b) ∉ lv ∪ {[(KBuf, inner_buf src)]} /\
    view_of s' = MkView (lv ∪ {[(KBuf, inner_buf src)]} ∪ {[(KBuf, inner_buf b)]}) f n d v)); [exact V2|done|intros; split_and!; assumption]|].
  intros dst s3 (P3 & F3 & V3). eapply runs_bind.
  { apply (runs_set_data _ _ _ _ _ V3); [congruence|done|by left]. }
  intros [] s4 V4. eapply runs_bind.
  { apply (runs_task _ _ _ _ _ _ _ _ V4 _ (Z.of_nat k) (fun t s' =>
      (KTask, t) ∉ lv ∪ {[(KBuf, inner_buf src)]} ∪ {[(KBuf, inner_buf dst)]} /\
      view_of s' = MkView (lv ∪ {[(KBuf, inner_buf src)]} ∪ {[(KBuf, inner_buf dst)]} ∪ {[(KTask, t)]}) f n
        (<[t := Z.of_nat k]> d) v)); [done|done|intros; split_and!; assumption]. }
  intros t s5 [F5 V5]. apply runs_get, runs_put. rewrite (vars_view _ _ _ _ _ _ V5). eapply runs_bind.
  { eapply (runs_submit _ _ _ _ _ _ _ _ (view_put _ _ _ _ _ _ V5 (set_slot k src dst t v)) _ (fun e s' =>
      e = DOCA_SUCCESS /\ (exists sl, slots_inv (S k) sl (view_of s')) \/ e <> DOCA_SUCCESS /\ refused s')); [done| |].
    - intros s6 V6. left. split; [done|]. eexists. rewrite V6. eapply slots_inv_snoc; try done; [by rewrite P1|by rewrite P3| |].
      + rewrite length_app. pose proof (si_few _ _ _ I). cbn in *. lia.
      + intros t' [?| ->%list_elem_of_singleton]%elem_of_app; auto.
    - intros e s6 He Hr V6. right. done. }
  intros e s6 [[-> H6]|[He Hr]].
  - rewrite decide_True by done. by apply runs_ret.
  - rewrite decide_False by done. apply runs_refused; [done|by right].
Qed.

(** A completed task is counted, and submitted again unless the flag is set. *)
Lemma callback_inv (stop : bool) t s sl lv f n d v :
  t ∈ f -> slots_inv nslots sl (MkView lv f n d v) ->
  view_of s = MkView lv (filter (fun t' => t' <> t) f) (n + 1) d v ->
  runs copy_call W (complete_callback config stop (default 0 (d !! t)))
    (fun _ s' => slots_inv nslots sl (view_of s') /\ (stop = true -> calls s' = calls s)) s.
Proof.
  intros Ht I Hs. destruct (si_flight _ _ _ I t Ht) as (i & x & Hx & <-). pose proof (si_data _ _ _ I i x Hx) as Hd. cbn in Hd. rewrite Hd. cbn [default id].
  pose proof (lookup_lt_Some _ _ _ Hx) as Hi. rewrite (si_length _ _ _ I) in Hi.
  assert (length (filter (fun t' => t' <> slot_task x) f) < length f)%nat as Hlt.
  { apply (length_filter_lt _ _ (slot_task x)); [done|]. naive_solver. }
  unfold complete_callback, finish_one_op.
  eapply runs_bind; [apply runs_get, (runs_put_last _ _ _ (fun _ s' => calls s' = calls s /\ view_of s' = MkView lv
    (filter (fun t' => t' <> slot_task x) f) (n + 1) d (MkTaskConfig (num_ops_finished v +64 1)%cint
       (task_buffers v) (task_src_buf v) (task_dst_buf v))))|].
  { split; [done|]. rewrite (vars_view _ _ _ _ _ _ Hs). apply (view_put _ _ _ _ _ _ Hs). }
  intros [] s1 [C1 V1]. set (v1 := MkTaskConfig _ _ _ _) in *.
  assert (forall f', (length f' <= nslots)%nat -> (forall t', t' ∈ f' -> t' ∈ f) ->
    slots_inv nslots sl (MkView lv f' (n + 1) d v1)) as I'.
  { intros f' Hl Hin. destruct I as [I1 I2 I3 I4 I5 I6 I7 I8 I9 I10]. cbn in *. split; try done; cbn; [by auto|].
    rewrite I10, wrapu_add_l. f_equal. lia. }
  pose proof (si_few _ _ _ I) as Hfew. cbn in Hfew. destruct stop.
  { apply runs_ret. split; [|done]. rewrite V1. apply I'; [lia|]. intros t' Hf%list_elem_of_filter. naive_solver. }
  apply runs_get. rewrite (vars_view _ _ _ _ _ _ V1). cbn [v1 task_dst_buf task_src_buf task_buffers].
  pose proof (si_tasks _ _ _ I) as E1. pose proof (si_srcs _ _ _ I) as E2. pose proof (si_dsts _ _ _ I) as E3. cbn in E1, E2, E3.
  rewrite Nat2Z.id, E1, E2, E3, !(lookup_slots _ _ _ i x) by done.
  destruct (si_bufs _ _ _ I x ltac:(by eapply list_elem_of_lookup_2)) as [Bs Bd].
  assert (0 <= Z.of_nat i < batch_size config) as Hi' by (unfold nslots in Hi; lia).
  eapply runs_bind; [apply (runs_set_data _ _ _ _ _ V1); [done|done|by left]|]. intros [] s2 V2.
  eapply runs_bind; [apply (runs_set_data _ _ _ _ _ V2); [done|done|by right]|]. intros [] s3 V3.
  eapply runs_bind; [apply (runs_submit _ _ _ _ _ _ _ _ V3 _ (fun _ s' => slots_inv nslots sl (view_of s'))); [done|..]|].
  - intros s4 V4. rewrite V4. apply I'; [rewrite length_app; cbn; lia|].
    intros t' [Hf%list_elem_of_filter| ->%list_elem_of_singleton]%elem_of_app; naive_solver.
  - intros e s4 _ _ V4. rewrite V4. apply I'; [lia|]. intros t' Hf%list_elem_of_filter. naive_solver.
  - intros e s4 I4. apply runs_ret. done.
Qed.

Lemma poll_inv p (stop : bool) s sl :
  slots_inv nslots sl (view_of s) ->
  runs copy_call W (poll config p stop) (fun _ s' => slots_inv nslots sl (view_of s') /\
    (stop = true -> exists e, calls s' = calls s ++ [e] /\ polls [e] = 1%nat /\
       (length (in_flight (calls s')) + 1 <= length (in_flight (calls s)) + idle [e])%nat)) s.
Proof.
  intros I. destruct (view_of s) as [lv f n d v] eqn:Hs. rewrite (flight_view _ _ _ _ _ _ Hs).
  apply (runs_poll _ _ _ _ _ _ _ _ Hs); [done|..].
  - intros e s' Ec Hv. rewrite Hv, (flight_view _ _ _ _ _ _ Hv).
    pose proof (length_filter (fun t => t <> 0) f) as Hle. split.
    + destruct I as [I1 I2 I3 I4 I5 I6 I7 I8 I9 I10]. cbn in *. split; try done; cbn; [|lia].
      intros t Ht%list_elem_of_filter. naive_solver.
    + intros _. eexists. split; [exact Ec|]. destruct (idle_poll (inner_pe p) e) as [-> ->]. split; [done|lia].
  - intros t s' _ Hn Ht Ec Hv. eapply runs_mono; [by eapply callback_inv|]. intros [] s2 [I2 H2]. split; [done|].
    intros Est. specialize (H2 Est). eexists. rewrite H2. split; [exact Ec|].
    destruct (busy_poll (inner_pe p) DOCA_SUCCESS t Hn) as [-> ->]. split; [done|].
    rewrite (flight_view _ _ _ _ _ _ Hv).
    assert (length (filter (fun t' => t' <> t) f) < length f)%nat by (apply (length_filter_lt _ _ t); naive_solver). lia.
  - intros t e s' _ He Hr. apply runs_refused; [done|]. left. by eexists.
Qed.

Lemma copy_drain p sl fuel s :
  (forall s', still_waiting nslots fuel s' -> W s') ->
  slots_inv nslots sl (view_of s) ->
  runs copy_call W (drain config p fuel)
    (fun _ s' => slots_inv nslots sl (view_of s') /\ in_flight (calls s') = []) s.
Proof.
  intros HW I. assert (forall rest used s', used + rest = fuel -> slots_inv nslots sl (view_of s') ->
    (exists tr new, calls s' = tr ++ new /\ polls new = used /\ used + length (in_flight (calls s')) <= nslots + idle new) ->
    runs copy_call W (drain config p rest)
      (fun _ s' => slots_inv nslots sl (view_of s') /\ in_flight (calls s') = []) s')%nat as H.
  { induction rest as [|rest IH]; intros used s1 Eu I1 (tr & new & Ec & Hp & Hle); cbn [drain];
      destruct (view_of s1) as [lv f n d v] eqn:Hs; pose proof (flight_view _ _ _ _ _ _ Hs) as Hf;
      (eapply runs_bind; [apply (runs_num_inflight _ _ _ _ _ _ _ _ Hs _ (fun k s' => k = Z.of_nat (length f) /\
         view_of s' = MkView lv f n d v /\ exists e, polls [e] = 0%nat /\ idle [e] = 0%nat /\ calls s' = calls s1 ++ [e]));
         [done|intros s' V' C'; split_and!; [done|done|eexists; split_and!; [| |exact C']; done]]|]);
      intros k s2 (-> & V2 & e & He1 & He2 & C2); pose proof (flight_view _ _ _ _ _ _ V2) as Hf2;
      destruct (Z.ltb_spec 0 (Z.of_nat (length f))) as [Hpos|Hz].
    all: try (apply runs_ret; rewrite V2; split; [done|]; rewrite Hf2; apply nil_length_inv; lia).
    - apply cwp_end. split; [apply grows_refl|]. apply HW. split; [rewrite Hf2; by intros ->|].
      exists tr, (new ++ [e]). split; [by rewrite C2, Ec, app_assoc|]. rewrite idle_app, polls_app. lia.
    - rewrite <- V2 in I1. eapply runs_bind; [by apply poll_inv|]. intros [] s3 [I3 H3].
      destruct (H3 eq_refl) as (e' & C3 & Hpoll & Hm). rewrite Hf2 in Hm. apply (IH (S used)); [lia|done|].
      exists tr, ((new ++ [e]) ++ [e']). split; [by rewrite C3, C2, Ec, <- !app_assoc|]. rewrite !idle_app, !polls_app.
      rewrite Hf in Hle. lia. }
  apply (H fuel 0%nat); [done|done|]. exists (calls s), []. rewrite app_nil_r. split_and!; [done|done|].
  pose proof (si_few _ _ _ I) as Hfew. cbn in *. lia.
Qed.

(** The slots from [k] on are left. *)
Definition slots_left (sl : list slot) (n : Z) (d : gmap Z Z) (v : task_config) (k : nat) (s : doca task_config) : Prop :=
  exists lv, view_of s = MkView lv [] n d v /\ owns base (slots_res (drop k sl)) lv.

Lemma delete_slots_left sl lv n d v s :
  view_of s = MkView lv [] n d v -> slots_inv nslots sl (MkView lv [] n d v) ->
  runs copy_call W (each (seq 0 nslots) delete_slot) (fun _ s' => view_of s' = MkView base [] n d v) s.
Proof.
  intros Hs I. pose proof (si_length _ _ _ I) as El. pose proof (si_tasks _ _ _ I) as E1.
  pose proof (si_srcs _ _ _ I) as E2. pose proof (si_dsts _ _ _ I) as E3. cbn in E1, E2, E3.
  eapply runs_mono.
  { apply (runs_each _ _ _ _ (fun before s' => slots_left sl n d v (length before) s')).
    - intros before k after s1 Eseq (lv1 & V1 & O1).
      apply seq_middle in Eseq as [-> Hk].
      rewrite <- El in Hk. destruct (lookup_lt_is_Some_2 _ _ Hk) as [x Hx]. unfold delete_slot. apply runs_get.
      rewrite (vars_view _ _ _ _ _ _ V1), E1, E2, E3, !(lookup_slots _ _ _ _ x) by done.
      rewrite (drop_S _ x) in O1 by done. apply owns_cons in O1.
      eapply runs_bind; [eapply (runs_freed_ignore _ _ _ _ _ _ _ _ V1 _ _ (fun _ s' => view_of s' =
        MkView (lv1 ∖ {[(KTask, slot_task x)]}) [] n d v)); [by apply (flight_view _ _ _ _ _ _ V1)|done|done]|]. intros [] s2 V2.
      eapply runs_bind; [eapply (runs_freed _ _ _ _ _ _ _ _ V2 _ _ (fun _ s' => view_of s' =
        MkView (lv1 ∖ {[(KTask, slot_task x)]} ∖ {[(KBuf, inner_buf (slot_src x))]}) [] n d v));
        [by apply (flight_view _ _ _ _ _ _ V2)|done|done]|]. intros [] s3 V3.
      eapply (runs_freed _ _ _ _ _ _ _ _ V3); [by apply (flight_view _ _ _ _ _ _ V3)|done|].
      intros s4 V4. rewrite length_app, Nat.add_1_r. eexists. split; [exact V4|exact O1].
    - exists lv. split; [done|]. rewrite drop_0. apply (si_owns _ _ _ I). }
  intros [] s1 (lv1 & V1 & O1). rewrite length_seq, drop_ge in O1 by lia.
  by rewrite V1, (owns_none _ _ O1).
Qed.

Lemma post_dma_reqs_inv p dma inv lm rm turns fuel s d v :
  (forall s', still_waiting nslots fuel s' -> W s') -> view_of s = MkView base [] done0 d v -> num_ops_finished v = u64 ops0 ->
  runs copy_call W (post_dma_reqs config p dma inv local lm rm turns fuel)
    (fun _ s' => exists n d' v', view_of s' = MkView base [] n d' v' /\
       num_ops_finished v' = u64 (ops0 + (n - done0))) s.
Proof.
  intros HW Hs Hv. unfold post_dma_reqs, resize_slots. fold nslots.
  set (v0 := MkTaskConfig (num_ops_finished v) (replicate nslots 0) (replicate nslots null_buf) (replicate nslots null_buf)).
  eapply runs_bind; [apply runs_get, (runs_put_last _ _ _ (fun _ s' => view_of s' = MkView base [] done0 d v0))|].
  { rewrite (vars_view _ _ _ _ _ _ Hs). apply (view_put _ _ _ _ _ _ Hs). }
  intros [] s1 V1. eapply runs_bind; [by apply (runs_conf _ _ _ (MkView base [] done0 d v0))|].
  intros e s2 V2. eapply runs_bind; [by apply (runs_start_ctx _ _ _ (MkView base [] done0 d v0))|]. intros [] s3 V3.
  eapply runs_bind.
  { apply (runs_each _ _ _ _ (fun before s' => exists sl, slots_inv (length before) sl (view_of s'))).
    - intros before k after s' Eseq I. apply seq_middle in Eseq as [-> Hk].
      rewrite length_app, Nat.add_1_r. by apply post_first_inv.
    - exists []. rewrite V3. split; cbn; try done; try (by rewrite Nat.sub_0_r); [apply owns_nil|by intros t ?%not_elem_of_nil|by intros t ?%not_elem_of_nil|].
      rewrite Hv. f_equal. lia. }
  intros [] s4 [sl I4]. rewrite length_seq in I4. eapply runs_bind.
  { apply (runs_each _ _ _ _ (fun _ s' => slots_inv nslots sl (view_of s'))); [|exact I4].
    intros _ stop _ s' _ I'. eapply runs_mono; [by apply poll_inv|]. by intros [] s'' [? _]. }
  intros [] s5 I5. eapply runs_bind; [by apply copy_drain|]. intros [] s6 [I6 F6].
  destruct (view_of s6) as [lv f n d' v'] eqn:Hs6. rewrite (flight_view _ _ _ _ _ _ Hs6) in F6. subst f.
  eapply runs_mono; [by eapply delete_slots_left|]. intros [] s7 V7. exists n, d', v'. split; [done|].
  by apply (si_ops _ _ _ I6).
Qed.
End Correct.

Section Routine.
Context {L : DocaLib} `{!DocaLaws L} (config : dma_config) (local_buffer : Z).

(** C6.  The importer, for every behaviour of the library.  It copies slot to slot inside of
    the two regions, never frees a task that is under way and destroys nothing else while
    one is.  When it returns it has given back everything it made, no task is left, and it
    has counted every completed task once.  It ends early only at a call that was refused,
    and it still waits after [fuel] polls for its last tasks only when all but at most a batch
    of these polls have found nothing. *)
Theorem dma_copy_routine (turns : list bool) (fuel : nat) (s : doca task_config) :
  0 <= payload config < 2 ^ 32 -> 0 <= batch_size config -> payload config * batch_size config < 2 ^ 32 ->
  in_flight (calls s) = [] -> num_ops_finished (vars s) = 0 ->
  let '(r, s') := perform_importer_routine config local_buffer turns fuel s in
  steps (copy_call config local_buffer) (calls s) (calls s') /\
  match r with
  | Done _ => live (calls s') = live (calls s) /\ in_flight (calls s') = [] /\
      num_ops_finished (vars s') = u64 (completed (calls s') - completed (calls s))
  | Ended Waits => still_waiting (nslots config) fuel s'
  | Ended Crashes => False
  | Ended _ => refused s'
  end.
Proof.
  intros Hp Hb Hr Hf Hv. apply wp_outcome. set (P := copy_call config local_buffer).
  set (W := still_waiting (nslots config) fuel). set (n0 := completed (calls s)).
  enough (runs P W (perform_importer_routine config local_buffer turns fuel) (fun _ s' => exists n d v,
    view_of s' = MkView (live (calls s)) [] n d v /\ num_ops_finished v = u64 (n - n0)) s) as H.
  { eapply cwp_mono; [exact H|..].
    - intros [] s' (G & n & d & v & [= E1 E2 E3 E4 E5] & Hn). split; [exact G|]. by rewrite E5, Hn, E3.
    - intros x s' (G & Hx). split; [exact G|]. by destruct x. }
  unfold perform_importer_routine. destruct (view_of s) as [l f nn d v] eqn:Hs.
  rewrite (flight_view _ _ _ _ _ _ Hs) in Hf. subst f.
  assert (live (calls s) = l) as -> by (by injection Hs). assert (nn = n0) as -> by (by injection Hs).
  rewrite (vars_view _ _ _ _ _ _ Hs) in Hv.
  eapply runs_bind; [by apply (runs_mmap_new _ _ _ _ _ _ _ _ Hs)|]. intros lm0 s1 [F1 V1].
  eapply runs_bind; [by apply (runs_add_device _ _ _ _ _ _ _ _ V1)|]. intros lm s2 [E2 V2]. rewrite <- E2 in F1, V1, V2.
  eapply runs_bind; [apply (runs_memrange _ _ _ _ _ _ _ _ V2); by intros tr c [->| ->]|]. intros [] s3 V3.
  eapply runs_bind; [by apply (runs_dma_new _ _ _ _ _ _ _ _ V3)|]. intros dma s4 [F4 V4].
  eapply runs_bind; [by apply (runs_ret _ _ _ (fun c s' => s' = s4))|]. intros ctx s5 ->.
  eapply runs_bind; [by apply (runs_pe_new _ _ _ _ _ _ _ _ V4)|]. intros p0 s5 [F5 V5].
  eapply runs_bind; [by apply (runs_connect_ctx _ _ _ _ _ _ _ _ V5)|]. intros p s6 [E6 V6]. rewrite <- E6 in F5, V5, V6.
  eapply runs_bind; [by apply (runs_new_from_exported _ _ _ _ _ _ _ _ V6)|]. intros rm s7 [F7 V7].
  eapply runs_bind; [by apply (runs_inventory_new _ _ _ _ _ _ _ _ V7)|]. intros inv s8 [F8 V8].
  eapply runs_bind; [by apply (runs_unchanged _ _ _ _ _ _ _ _ V8)|]. intros [] s9 V9.
  eapply runs_bind; [by eapply (post_dma_reqs_inv config local_buffer) with (ops0 := 0) (done0 := n0); try exact V9; try tauto|].
  intros [] s10 (n & d' & v' & V10 & Hn).
  give_back V10 (KInv, inv). intros [] s11 V11. eapply runs_bind; [exact (runs_ctx_delete P W ctx _ s11 I V11)|]. intros [] s12 V12.
  give_back V12 (KDma, dma). intros [] s13 V13.
  give_back V13 (KPe, inner_pe p). intros [] s14 V14.
  give_back V14 (KMmap, inner_mmap lm). intros [] s15 V15.
  eapply runs_mono; [apply (runs_gone _ _ _ _ _ _ _ _ V15 _ (KMmap, inner_mmap rm)); [by apply (flight_view _ _ _ _ _ _ V15)|done]|].
  intros [] s16 V16. unfold gone in V16. rewrite objects_given_back in V16 by done. by exists n, d', v'.
Qed.
End Routine.

(** Two tasks on a library that always succeeds; three polls, then the flag is set. *)
Lemma dma_copy_routine_witness :
  let config := MkDmaConfig true 64 2 5 "export" 8192 in
  let s := MkDoca [] (MkTaskConfig 0 [] [] []) in
  let '(r, s') := perform_importer_routine (L := ref_doca) config 4096 [false; false; false] 9 s in
  r = Done tt /\ num_ops_finished (vars s') = 5 /\
  steps (copy_call config 4096) (calls s) (calls s') /\
  live (calls s') = live (calls s) /\ in_flight (calls s') = [] /\
  num_ops_finished (vars s') = u64 (completed (calls s') - completed (calls s)).
Proof.
  pose proof (dma_copy_routine (L := ref_doca) (MkDmaConfig true 64 2 5 "export" 8192) 4096 [false; false; false] 9
    (MkDoca [] (MkTaskConfig 0 [] [] []))) as H.
  specialize (H ltac:(cbn; lia) ltac:(cbn; lia) ltac:(cbn; lia) eq_refl eq_refl).
  cbn zeta in *. destruct (perform_importer_routine _ _ _ _ _) as [r s'] eqn:E.
  assert (r = Done tt /\ num_ops_finished (vars s') = 5) as [-> E5].
  { vm_compute in E. injection E as <- <-. split; reflexivity. }
  destruct H as (H1 & H2 & H3 & H4). split_and!; assumption || reflexivity.
Defined.
