(* ===== verification/TaskWindow.v ===== *)
(** * TaskWindow: a sliding window of tasks

    The importer of [test_suite/gdr_bench] and the sender of [test_suite/rdma_bench] keep up to
    [batch_size] tasks under way, in slots that are used in turn: [now_index] counts the
    tasks submitted and [finish_index] those completed, and the completion callback frees the
    buffers and the task of its slot.  The two loops differ in what they do when the next
    slot is still in use: the first leaves the inner loop, the second tries again without
    polling in between ([spins]). *)

From stdpp Require Import strings.
From S2P Require Import Prelude Doca.

(** A task with its buffers, in the order of their deletion; [None] is a task that is
    [nullptr], whose buffers are not read again. *)
Definition wslot : Type := Z * list buf.

Record window := MkWindow {
  w_ops : Z; now_index : Z; finish_index : Z; w_slots : list (option wslot);
}.

Definition window_start (batch_size : Z) : window := MkWindow 0 0 0 (replicate (Z.to_nat batch_size) None).

Section Window.
Context {L : DocaLib} (spins : bool) (batch_size : Z) (make_slot : Z -> M window wslot)
  (busy : M window bool) (p : pe) (error_callback : Z -> doca_error -> M window unit).

Definition put_slot (index : Z) (x : option wslot) (w : window) : window :=
  MkWindow (w_ops w) (now_index w) (finish_index w) (<[Z.to_nat index := x]> (w_slots w)).

Definition complete_callback (task_index : Z) : M window unit :=
  w ← get;
  _ ← put (MkWindow (w_ops w +64 1)%cint (now_index w) (finish_index w) (w_slots w));
  match w_slots w !! Z.to_nat task_index with
  | Some (Some (task, bufs)) =>
      _ ← each bufs buf_delete;
      _ ← task_delete task;
      w ← get;
      put (put_slot task_index None (MkWindow (w_ops w) (now_index w) (finish_index w +64 1)%cint (w_slots w)))
  | _ => endwith Crashes
  end.

(** [while (now_index - finish_index < batch_size)] *)
Fixpoint fill (fuel : nat) : M window unit :=
  w ← get;
  if (now_index w -64 finish_index w)%cint <? batch_size then
    match fuel with
    | O => endwith Waits
    | S fuel =>
        let index := now_index w mod batch_size in
        match w_slots w !! Z.to_nat index with
        | None => endwith Crashes
        | Some (Some _) => if spins then fill fuel else mret tt
        | Some None =>
            _ ← put (MkWindow (w_ops w) (now_index w +64 1)%cint (finish_index w) (w_slots w));
            x ← make_slot index;
            w ← get;
            _ ← put (put_slot index (Some x) w);
            e ← submit x.1;
            if decide (e = DOCA_SUCCESS) then fill fuel else endwith Exits
        end
    end
  else mret tt.

Definition poll_window : M window unit := poll_progress p complete_callback error_callback.

(** [while (runner->running())] *)
Fixpoint run_turns (turns : nat) : M window unit :=
  match turns with
  | O => mret tt
  | S turns => _ ← fill (Z.to_nat batch_size); _ ← poll_window; run_turns turns
  end.

(** The loop that waits for the last tasks. *)
Fixpoint drain (fuel : nat) : M window unit :=
  b ← busy;
  if (b : bool) then
    match fuel with
    | O => endwith Waits
    | S fuel => _ ← poll_window; drain fuel
    end
  else mret tt.

Definition run_window (turns fuel : nat) : M window unit := _ ← run_turns turns; drain fuel.
End Window.

(** ** The two programs *)

Record gdr_config := MkGdrConfig {
  is_read : bool; payload : Z; batch_size : Z; dev : Z;
  remote_mmap_export_string : string; remote_mmap_addr : Z;
}.

Section Gdr.
Context {L : DocaLib} (config : gdr_config).

Definition gdr_make_slot (dma inv local_addr : Z) (local_mmap remote_mmap : mmap) (index : Z) : M window wslot :=
  let offset := (index *64 payload config)%cint in
  let '(src_mmap, src_addr, dst_mmap, dst_addr) :=
    if is_read config then (remote_mmap, remote_mmap_addr config, local_mmap, local_addr)
    else (local_mmap, local_addr, remote_mmap, remote_mmap_addr config) in
  src ← buf_inventory_buf_by_data inv src_mmap (src_addr +64 offset)%cint (payload config);
  dst ← buf_inventory_buf_by_addr inv dst_mmap (dst_addr +64 offset)%cint (payload config);
  task ← dma_task_memcpy_new dma src dst index;
  mret (task, [src; dst]).

Definition gdr_busy (p : pe) : M window bool := n ← get_num_inflight p; mret (0 <? n).
Definition gdr_error (task_index : Z) (status : doca_error) : M window unit := throw (DOCAException status).

Definition gdr_post_dma_reqs (p : pe) (dma inv local_addr : Z) (local_mmap remote_mmap : mmap) (turns fuel : nat) :
    M window unit :=
  _ ← dma_set_task_conf dma (batch_size config);
  _ ← start_ctx p;
  run_window false (batch_size config) (gdr_make_slot dma inv local_addr local_mmap remote_mmap) (gdr_busy p) p
    gdr_error turns fuel.

Definition gdr_importer_routine (local_buffer : Z) (turns fuel : nat) : M window unit :=
  local_mmap ← mmap_new;
  local_mmap ← add_device (dev config) local_mmap;
  _ ← set_memrange_and_start local_mmap local_buffer (batch_size config *32 payload config)%cint;
  dma ← dma_new (dev config);
  ctx ← ctx_new dma;
  p ← pe_new;
  p ← connect_ctx ctx p;
  remote_mmap ← new_from_exported_dpu (remote_mmap_export_string config) (dev config);
  inv ← buf_inventory_new (batch_size config *32 2)%cint;
  _ ← ctx_set_data ctx;
  _ ← gdr_post_dma_reqs p dma inv local_buffer local_mmap remote_mmap turns fuel;
  _ ← buf_inventory_delete inv;
  _ ← ctx_delete ctx;
  _ ← dma_delete dma;
  _ ← pe_delete p;
  _ ← mmap_delete local_mmap;
  mmap_delete remote_mmap.
End Gdr.

Record rdma_config := MkRdmaConfig {
  r_payload : Z; r_batch_size : Z; r_gid_index : Z; r_dev : Z;
}.

Section Sender.
Context {L : DocaLib} (config : rdma_config).

(** [DOCA_ACCESS_FLAG_RDMA_READ | ..._WRITE | ..._ATOMIC], the default permissions. *)
Context (rdma_permissions : Z).
(** What the peer sent when the parameters were exchanged, from what was sent to it. *)
Context (receive_and_send_rdma_param : string -> string).

Definition send_make_slot (rdma inv local_buffer : Z) (local_mmap : mmap) (index : Z) : M window wslot :=
  b ← buf_inventory_buf_by_data inv local_mmap (local_buffer +64 (index *64 r_payload config))%cint (r_payload config);
  task ← rdma_task_send_new rdma b index;
  mret (task, [b]).

Definition send_busy : M window bool := w ← get; mret (negb (now_index w =? finish_index w)).
Definition send_error (task_index : Z) (status : doca_error) : M window unit := endwith Exits.

(** The poll that moves the engine to its running state completes no task: none is submitted. *)
Definition do_rdma_send (p : pe) (rdma inv local_buffer : Z) (local_mmap : mmap) (turns fuel : nat) : M window unit :=
  _ ← ignore (RdmaSetSendQueueSize rdma 512);
  _ ← ignore (RdmaSetRecvQueueSize rdma 512);
  _ ← set_task_send_conf rdma (r_batch_size config);
  _ ← start_ctx p;
  param ← export_rdma rdma;
  _ ← connect_rdma rdma (receive_and_send_rdma_param param);
  _ ← poll_window p send_error;
  run_window true (r_batch_size config) (send_make_slot rdma inv local_buffer local_mmap) send_busy p send_error
    turns fuel.

Definition perform_sender_routine (local_buffer : Z) (turns fuel : nat) : M window unit :=
  local_mmap ← mmap_new;
  local_mmap ← add_device (r_dev config) local_mmap;
  _ ← set_memrange_and_start local_mmap local_buffer (r_batch_size config *32 r_payload config)%cint;
  rdma ← rdma_new (r_dev config) (r_gid_index config) rdma_permissions;
  ctx ← ctx_new rdma;
  p ← pe_new;
  p ← connect_ctx ctx p;
  inv ← buf_inventory_new 1024;
  _ ← ctx_set_data ctx;
  _ ← do_rdma_send p rdma inv local_buffer local_mmap turns fuel;
  _ ← buf_inventory_delete inv;
  _ ← ctx_delete ctx;
  _ ← rdma_delete rdma;
  _ ← pe_delete p;
  mmap_delete local_mmap.
End Sender.

(** ** Slots in use *)

Definition wslot_res (x : wslot) : list resource := ((fun b => (KBuf, inner_buf b)) <$> x.2) ++ [(KTask, x.1)].
Definition used (slots : list (option wslot)) : list wslot := omap id slots.
Definition used_res (slots : list (option wslot)) : list resource := concat (wslot_res <$> used slots).

Lemma used_split (slots : list (option wslot)) i (o : option wslot) :
  slots !! i = Some o -> exists a b, slots = a ++ o :: b /\ length a = i /\ forall o' : option wslot, <[i := o']> slots = a ++ o' :: b.
Proof.
  intros H. apply list_elem_of_split_length in H as (a & b & -> & Hl). exists a, b. split_and!; [done|done|].
  intros o'. rewrite insert_app_r_alt, Hl, Nat.sub_diag by lia. done.
Qed.

(** A slot is taken, or becomes free. *)
Lemma used_put slots i x : slots !! i = Some None -> used (<[i := Some x]> slots) ≡ₚ x :: used slots.
Proof.
  intros (a & b & -> & _ & ->)%used_split. unfold used. rewrite !omap_app. cbn. by rewrite Permutation_middle.
Qed.
Lemma used_clear slots i x : slots !! i = Some (Some x) -> used slots ≡ₚ x :: used (<[i := None]> slots).
Proof.
  intros (a & b & -> & _ & ->)%used_split. unfold used. rewrite !omap_app. cbn. by rewrite Permutation_middle.
Qed.

Lemma used_res_clear slots i x :
  slots !! i = Some (Some x) -> used_res slots ≡ₚ wslot_res x ++ used_res (<[i := None]> slots).
Proof. intros H. unfold used_res. by rewrite (used_clear _ _ _ H). Qed.

Lemma used_in slots x : x ∈ used slots <-> exists i, slots !! i = Some (Some x).
Proof.
  unfold used. rewrite list_elem_of_omap. split.
  - intros (o & Ho & Eo). apply list_elem_of_lookup in Ho as [i Hi]. exists i. cbn in Eo. by subst o.
  - intros [i Hi]. exists (Some x). split; [by eapply list_elem_of_lookup_2|done].
Qed.

Lemma tasks_nodup (xs : list wslot) : NoDup (concat (wslot_res <$> xs)) -> NoDup (fst <$> xs).
Proof.
  induction xs as [|x xs IH]; cbn; [constructor|]. intros (_ & Hd & Hn)%list.NoDup_app. constructor; [|by apply IH].
  intros (y & Ey & Hy)%list_elem_of_fmap. apply (Hd (KTask, x.1)); [apply elem_of_app; right; by left|].
  apply list_elem_of_In, in_concat. exists (wslot_res y). split; [apply list_elem_of_In, list_elem_of_fmap; by exists y|].
  apply list_elem_of_In, elem_of_app. right. rewrite Ey. by left.
Qed.

Lemma used_none n : used (replicate n None) = [].
Proof. unfold used. by induction n. Qed.

Lemma length_used (slots : list (option wslot)) : (length (used slots) <= length slots)%nat.
Proof. unfold used. induction slots as [|[x|] slots IH]; cbn; lia. Qed.

(** ** The window *)

(** An engine completes its tasks in the order of their submission. *)
Definition in_order (L : DocaLib) : Prop := forall tr e,
  stored tr (PeProgress e) = 0 \/ head (in_flight tr) = Some (stored tr (PeProgress e)).

Section Correct.
Context {L : DocaLib} `{!DocaLaws L} (spins : bool) (batch : Z) (base : gset resource) (ops0 done0 : Z).

(** What is made is in the slots in use, whose tasks are those under way. *)
Record window_inv (v : view window) : Prop := MkWindowInv {
  wi_length : length (w_slots (v_vars v)) = Z.to_nat batch;
  wi_owns : owns base (used_res (w_slots (v_vars v))) (v_live v);
  wi_data i x : w_slots (v_vars v) !! i = Some (Some x) -> v_data v !! x.1 = Some (Z.of_nat i);
  wi_flight : v_flight v ≡ₚ fst <$> used (w_slots (v_vars v));
  wi_nonzero : 0 ∉ v_flight v;
  wi_count : (now_index (v_vars v) -64 finish_index (v_vars v))%cint = Z.of_nat (length (v_flight v));
  wi_ops : w_ops (v_vars v) = u64 (ops0 + (v_done v - done0));
}.

(** When the tasks are completed in order, the slots in use are those from [finish_index] on;
    [m] bounds the number of completed tasks. *)
Definition window_ordered (m : Z) (v : view window) : Prop :=
  let F := finish_index (v_vars v) in
  0 <= F <= m /\ now_index (v_vars v) = F + Z.of_nat (length (v_flight v)) /\
  forall i x, w_slots (v_vars v) !! i = Some (Some x) ->
    exists k, v_flight v !! k = Some x.1 /\ Z.of_nat i = (F + Z.of_nat k) mod batch.

Definition in_window (m : Z) (v : view window) : Prop :=
  window_inv v /\ (spins = true -> window_ordered m v).

Context (Hbatch : 0 <= batch < 2 ^ 32).

Lemma flight_nodup v : window_inv v -> NoDup (v_flight v).
Proof. intros I. rewrite (wi_flight _ I). apply tasks_nodup, (own_nodup _ _ _ (wi_owns _ I)). Qed.

Lemma flight_length v : window_inv v -> (length (v_flight v) <= Z.to_nat batch)%nat.
Proof. intros I. rewrite (wi_flight _ I), length_fmap, <- (wi_length _ I). apply length_used. Qed.

(** A task under way is in the slot of its user data. *)
Lemma flight_slot v t : window_inv v -> t ∈ v_flight v ->
  exists i x, w_slots (v_vars v) !! i = Some (Some x) /\ x.1 = t /\ v_data v !! t = Some (Z.of_nat i).
Proof.
  intros I Ht. rewrite (wi_flight _ I) in Ht. apply list_elem_of_fmap in Ht as (x & -> & [i Hi]%used_in).
  exists i, x. split_and!; [done|done|]. by apply (wi_data _ I).
Qed.

Definition window_cleared (i : nat) (w : window) : window :=
  MkWindow (w_ops w +64 1)%cint (now_index w) (finish_index w +64 1)%cint (<[i := None]> (w_slots w)).

Lemma inv_clear l l' f n d w i x :
  window_inv (MkView l f n d w) -> w_slots w !! i = Some (Some x) -> owns base (used_res (<[i := None]> (w_slots w))) l' ->
  window_inv (MkView l' (filter (fun t => t <> x.1) f) (n + 1) d (window_cleared i w)).
Proof.
  intros I Hx O. pose proof (flight_nodup _ I) as Hn. pose proof (flight_length _ I) as Hl. cbn in Hn, Hl.
  destruct I as [I1 I2 I3 I4 I5 I6 I7]. cbn in *. rewrite (used_clear _ _ _ Hx) in I4. cbn in I4.
  assert (filter (fun t => t <> x.1) f ≡ₚ fst <$> used (<[i := None]> (w_slots w))) as E.
  { rewrite I4 at 1. rewrite nodup_filter_head; [done|]. by rewrite <- I4. }
  pose proof (Permutation_length I4) as L4. pose proof (Permutation_length E) as L5. cbn in L4. split; cbn.
  - by rewrite length_insert.
  - exact O.
  - intros j y [(-> & Hy & _)|(_ & Hy)]%list_lookup_insert_Some; [done|]. by apply I3.
  - exact E.
  - intros [_ H]%list_elem_of_filter. done.
  - rewrite wrapu_sub_r, L5. replace (now_index w - (finish_index w + 1)) with (now_index w - finish_index w - 1) by lia.
    rewrite <- wrapu_sub_l, I6, wrapu_small by lia. lia.
  - rewrite I7, wrapu_add_l. f_equal. lia.
Qed.

Lemma ordered_clear m l l' f n d w i x :
  m + 1 < 2 ^ 64 -> window_inv (MkView l f n d w) -> window_ordered m (MkView l f n d w) ->
  w_slots w !! i = Some (Some x) -> head f = Some x.1 ->
  window_ordered (m + 1) (MkView l' (filter (fun t => t <> x.1) f) (n + 1) d (window_cleared i w)).
Proof.
  intros Hm I (HF & HN & Ho) Hx Hh. pose proof (flight_nodup _ I) as Hn. cbn in *.
  destruct f as [|t f]; [done|]. injection Hh as ->. rewrite nodup_filter_head by done. unfold window_ordered. cbn.
  rewrite (wrapu_small 64) by lia. split_and!; [lia|lia|cbn in HN; lia|].
  intros j y [(-> & Hy & _)|(Hij & Hy)]%list_lookup_insert_Some; [done|].
  destruct (Ho j y Hy) as ([|k] & Hk & Ek); cbn in Hk.
  - injection Hk as Hk. pose proof (wi_data _ I j y Hy) as D1. pose proof (wi_data _ I i x Hx) as D2. cbn in D1, D2.
    rewrite <- Hk, D2 in D1. injection D1 as D1. lia.
  - exists k. split; [done|]. rewrite Ek. f_equal. lia.
Qed.

Definition window_taken (i : nat) (x : wslot) (w : window) : window :=
  MkWindow (w_ops w) (now_index w +64 1)%cint (finish_index w) (<[i := Some x]> (w_slots w)).

Lemma inv_take l l' f n d w i x :
  window_inv (MkView l f n d w) -> w_slots w !! i = Some None -> x.1 <> 0 -> (KTask, x.1) ∉ l ->
  owns base (wslot_res x ++ used_res (w_slots w)) l' ->
  window_inv (MkView l' (f ++ [x.1]) n (<[x.1 := Z.of_nat i]> d) (window_taken i x w)).
Proof.
  intros I Hx H0 Hf O. pose proof (flight_length _ I) as Hl. destruct I as [I1 I2 I3 I4 I5 I6 I7]. cbn in *.
  pose proof (lookup_lt_Some _ _ _ Hx) as Hi. rewrite I1 in Hi.
  assert (length (used (w_slots w)) < Z.to_nat batch)%nat as Hlt.
  { pose proof (length_used (<[i := Some x]> (w_slots w))) as H. rewrite (used_put _ _ _ Hx), length_insert, I1 in H. cbn in H. lia. }
  rewrite (Permutation_length I4), length_fmap in *. split; cbn.
  - by rewrite length_insert.
  - eapply owns_perm; [|exact O]. unfold used_res. rewrite (used_put _ _ _ Hx). done.
  - intros j y [(-> & [= ->] & _)|(_ & Hy)]%list_lookup_insert_Some; [apply lookup_insert_eq|].
    rewrite lookup_insert_ne; [by apply I3|]. intros E. apply Hf. rewrite E. eapply owns_in; [exact I2|].
    apply list_elem_of_In, in_concat. exists (wslot_res y). split; apply list_elem_of_In.
    + apply list_elem_of_fmap. exists y. split; [done|]. apply used_in. by exists j.
    + apply elem_of_app. right. by left.
  - rewrite I4, (used_put _ _ _ Hx). cbn. by rewrite Permutation_app_comm.
  - intros [H|H%list_elem_of_singleton]%elem_of_app; [done|]. by apply H0.
  - rewrite wrapu_sub_l. replace (now_index w + 1 - finish_index w) with (now_index w - finish_index w + 1) by lia.
    rewrite <- wrapu_add_l, I6, length_app, (Permutation_length I4), length_fmap, wrapu_small; cbn; lia.
  - exact I7.
Qed.

Lemma ordered_take m l l' f n d w x :
  m + batch < 2 ^ 64 -> Z.of_nat (length f) < batch -> window_ordered m (MkView l f n d w) ->
  w_slots w !! Z.to_nat (now_index w mod batch) = Some None ->
  window_ordered m (MkView l' (f ++ [x.1]) n (<[x.1 := now_index w mod batch]> d)
    (window_taken (Z.to_nat (now_index w mod batch)) x w)).
Proof.
  intros Hm Hl (HF & HN & Ho) Hx. cbn in *. unfold window_ordered. cbn.
  rewrite (wrapu_small 64) by lia. rewrite length_app. cbn. split_and!; [lia|lia|lia|].
  intros j y [(<- & [= ->] & _)|(Hij & Hy)]%list_lookup_insert_Some.
  - exists (length f). rewrite lookup_app_r, Nat.sub_diag by lia. split; [done|].
    rewrite Z2Nat.id, HN; [done|]. apply Z.mod_pos_bound. lia.
  - destruct (Ho j y Hy) as (k & Hk & Ek). exists k. split; [|done]. by apply lookup_app_l_Some.
Qed.

(** In order, the next slot is free while there is room. *)
Lemma ordered_free m v x :
  Z.of_nat (length (v_flight v)) < batch -> window_ordered m v ->
  w_slots (v_vars v) !! Z.to_nat (now_index (v_vars v) mod batch) <> Some (Some x).
Proof.
  intros Hl (HF & HN & Ho) Hx. destruct (Ho _ _ Hx) as (k & Hk & Ek). apply lookup_lt_Some in Hk.
  rewrite Z2Nat.id in Ek by (apply Z.mod_pos_bound; lia). rewrite HN in Ek.
  set (F := finish_index _) in *. set (len := length _) in *.
  pose proof (Z.div_mod (F + Z.of_nat len) batch ltac:(lia)) as D1.
  pose proof (Z.div_mod (F + Z.of_nat k) batch ltac:(lia)) as D2. rewrite Ek in D1.
  set (q1 := (F + Z.of_nat len) / batch) in *. set (q2 := (F + Z.of_nat k) / batch) in *.
  set (r := (F + Z.of_nat k) mod batch) in *. clearbody r q1 q2 F len. clear -Hl Hk D1 D2.
  assert (batch * (q1 - q2) = Z.of_nat len - Z.of_nat k) by lia.
  destruct (Z.le_gt_cases (q1 - q2) 0); nia.
Qed.

(** *** The operations keep the window *)

Context (make_slot : Z -> M window wslot) (busy : M window bool) (p : pe)
  (error_callback : Z -> doca_error -> M window unit).
Context (P : trace -> doca_call -> Prop) (W : doca window -> Prop).

Context (Hmake : forall index s l f n d v,
  view_of s = MkView l f n d v -> 0 <= index < batch ->
  runs P W (make_slot index) (fun x s' => x.1 <> 0 /\ (KTask, x.1) ∉ l /\ exists l',
    view_of s' = MkView l' f n (<[x.1 := index]> d) v /\
    forall b rs, owns b rs l -> owns b (wslot_res x ++ rs) l') s).
Context (Hcalls : forall tr c, match c with
  | TaskSubmit _ | PeProgress _ | BufDecRefcount _ => True | TaskFree t => t ∉ in_flight tr | _ => False end -> P tr c).
Context (Herror : forall i e s (R : unit -> doca window -> Prop), refused s -> runs P W (error_callback i e) R s).
Context (Horder : spins = true -> in_order L).

(** The calls between two polls. *)
Definition quiet (tr : trace) (c : doca_call) : Prop := P tr c /\ is_poll c = false.

Lemma quiet_grows (s s' : doca window) : grows quiet s s' -> exists new, calls s' = calls s ++ new /\ polls new = 0%nat /\ idle new = 0%nat.
Proof.
  intros (new & E & H)%steps_app. exists new. split; [done|]. apply no_polls.
  eapply list.Forall_impl; [exact H|]. by intros e [h [_ He]].
Qed.

(** The buffers of a slot are deleted, and nothing else changes. *)
Lemma delete_bufs bufs rest s l f n d v :
  view_of s = MkView l f n d v -> owns base (((fun b => (KBuf, inner_buf b)) <$> bufs) ++ rest) l ->
  runs quiet W (each bufs buf_delete) (fun _ s' => exists l', view_of s' = MkView l' f n d v /\ owns base rest l') s.
Proof.
  revert s l. induction bufs as [|b bufs IH]; intros s l Hs O; cbn [each fmap list_fmap app] in *.
  { apply runs_ret. by exists l. }
  eapply runs_bind; [apply (runs_gone _ _ _ _ _ _ _ _ Hs _ (KBuf, inner_buf b)); [split; [by apply Hcalls|done]|done]|].
  intros [] s1 V1. apply (IH _ _ V1). by apply owns_remove.
Qed.

Lemma window_callback m t s l f n d w :
  (spins = true -> m + 1 < 2 ^ 64) -> (spins = true -> head f = Some t) -> t ∈ f -> in_window m (MkView l f n d w) ->
  view_of s = MkView l (filter (fun t' => t' <> t) f) (n + 1) d w ->
  runs quiet W (complete_callback (default 0 (d !! t)))
    (fun _ s' => in_window (m + 1) (view_of s') /\ in_flight (calls s') = filter (fun t' => t' <> t) f) s.
Proof.
  intros Hm Hh Ht [I Io] Hs. destruct (flight_slot _ t I Ht) as (i & x & Hx & <- & Hd). cbn in Hx, Hd.
  rewrite Hd. cbn [default id]. unfold complete_callback. apply runs_get, runs_put.
  rewrite (vars_view _ _ _ _ _ _ Hs), Nat2Z.id, Hx. destruct x as [t bufs]. cbn [fst] in *.
  pose proof (wi_owns _ I) as O. cbn in O. eapply owns_perm in O; [|apply (used_res_clear _ _ _ Hx)].
  unfold wslot_res in O. cbn [fst snd] in O. rewrite <- app_assoc in O.
  eapply runs_bind; [apply (delete_bufs _ _ _ _ _ _ _ _ (view_put _ _ _ _ _ _ Hs _) O)|]. intros [] s1 (l1 & V1 & O1).
  eapply runs_bind; [eapply (runs_freed_ignore _ _ _ _ _ _ _ _ V1 _ (KTask, t) (fun _ s' => gone _ _ _ _ _ _ s')); [|done|done]|].
  { split; [|done]. apply Hcalls. rewrite (flight_view _ _ _ _ _ _ V1). intros [H _]%list_elem_of_filter. by apply H. }
  intros [] s2 V2. apply runs_get, runs_put_last. rewrite (vars_view _ _ _ _ _ _ V2).
  rewrite (view_put _ _ _ _ _ _ V2). cbn [calls]. rewrite (flight_view _ _ _ _ _ _ V2). split; [|done].
  unfold put_slot. cbn. rewrite Nat2Z.id. fold (window_cleared i w). split.
  - apply (inv_clear l _ f n d w i (t, bufs) I Hx). by apply owns_remove.
  - intros E. apply (ordered_clear m l _ f n d w i (t, bufs)); auto.
Qed.

(** A poll: an idle one, or one task less. *)
Lemma window_poll m s :
  (spins = true -> m + 1 < 2 ^ 64) -> in_window m (view_of s) ->
  runs P W (poll_window p error_callback) (fun _ s' => in_window (m + 1) (view_of s') /\
    exists new, calls s' = calls s ++ new /\ polls new = 1%nat /\
      (length (in_flight (calls s')) + 1 <= length (in_flight (calls s)) + idle new)%nat) s.
Proof.
  intros Hm I. destruct (view_of s) as [l f n d w] eqn:Hs. rewrite (flight_view _ _ _ _ _ _ Hs).
  apply (runs_poll _ _ _ _ _ _ _ _ Hs); [by apply Hcalls|..].
  - intros e s' Ec Hv. rewrite Hv, (flight_view _ _ _ _ _ _ Hv). rewrite filter_absent by apply (wi_nonzero _ (proj1 I)). split.
    + destruct I as [I Io]. split; [done|]. intros E. destruct (Io E) as (H1 & H2 & H3). split_and!; [cbn in *; lia..|done].
    + eexists. split; [exact Ec|]. destruct (idle_poll (inner_pe p) e) as [-> ->]. split; [done|lia].
  - intros t s' Et Hn Ht Ec Hv. eapply runs_mono.
    { apply runs_refine with (P' := quiet); [by intros tr c []|]. eapply window_callback; [exact Hm| |exact Ht|exact I|exact Hv].
      intros E. destruct (Horder E (calls s) (inner_pe p)) as [H|H]; [congruence|].
      by rewrite (flight_view _ _ _ _ _ _ Hs), <- Et in H. }
    intros [] s2 [[I2 F2] (new & C2 & Hp & Hi)%quiet_grows]. split; [done|]. exists ([Ev (PeProgress (inner_pe p)) DOCA_SUCCESS t] ++ new).
    split; [by rewrite C2, Ec, app_assoc|]. rewrite polls_app, idle_app.
    destruct (busy_poll (inner_pe p) DOCA_SUCCESS t Hn) as [-> ->]. split; [lia|].
    assert (length (filter (fun t' => t' <> t) f) < length f)%nat by (apply (length_filter_lt _ _ t); naive_solver).
    rewrite F2. lia.
  - intros t e s' _ He Hr. by apply Herror.
Qed.

Lemma fill_inv m fuel s :
  (spins = true -> m + batch < 2 ^ 64) -> in_window m (view_of s) ->
  (Z.to_nat batch <= fuel + length (in_flight (calls s)))%nat ->
  runs P W (fill spins batch make_slot fuel) (fun _ s' => in_window m (view_of s')) s.
Proof.
  intros Hm. revert s. induction fuel as [|fuel IH]; intros s I Hfuel; cbn [fill]; apply runs_get;
    destruct (view_of s) as [l f n d w] eqn:Hs; rewrite (vars_view _ _ _ _ _ _ Hs);
    rewrite (flight_view _ _ _ _ _ _ Hs) in Hfuel; pose proof (wi_count _ (proj1 I)) as Ec; cbn in Ec; rewrite Ec;
    (destruct (Z.ltb_spec (Z.of_nat (length f)) batch) as [Hlt|Hge]; [|by apply runs_ret; rewrite Hs]).
  { lia. }
  pose proof (Z.mod_pos_bound (now_index w) batch ltac:(lia)) as Hi. set (index := now_index w mod batch) in *.
  pose proof (wi_length _ (proj1 I)) as El. cbn in El.
  destruct (lookup_lt_is_Some_2 (w_slots w) (Z.to_nat index)) as [o Ho]; [lia|]. rewrite Ho. destruct o as [x|].
  { destruct spins eqn:Es; [|by apply runs_ret; rewrite Hs].
    edestruct (ordered_free m (MkView l f n d w)); [exact Hlt|exact (proj2 I Es)|exact Ho]. }
  apply runs_put. eapply runs_bind; [apply (Hmake _ _ _ _ _ _ _ (view_put _ _ _ _ _ _ Hs _) Hi)|].
  intros x s1 (Hx & Hf & l' & V1 & HO). apply runs_get, runs_put. rewrite (vars_view _ _ _ _ _ _ V1). eapply runs_bind.
  { eapply (runs_submit _ _ _ _ _ _ _ _ (view_put _ _ _ _ _ _ V1 _) _ (fun e s' =>
      e = DOCA_SUCCESS /\ in_window m (view_of s') /\ in_flight (calls s') = f ++ [x.1] \/ e <> DOCA_SUCCESS /\ refused s')); [by apply Hcalls| |].
    - intros s2 V2. left. split; [done|]. rewrite V2, (flight_view _ _ _ _ _ _ V2). split; [|done].
      change (put_slot _ _ _) with (window_taken (Z.to_nat index) x w). split.
      + rewrite <- (Z2Nat.id index) at 1 by lia. eapply inv_take; [exact (proj1 I)|done|done|done|].
        apply HO, (wi_owns _ (proj1 I)).
      + intros E. eapply ordered_take; [by apply Hm|exact Hlt|exact (proj2 I E)|exact Ho].
    - intros e s2 He Hr _. by right. }
  intros e s2 [(-> & I2 & F2)|[He Hr]].
  - rewrite decide_True by done. apply IH; [done|]. rewrite F2, length_app. cbn. lia.
  - rewrite decide_False by done. apply runs_refused; [done|by right].
Qed.

Lemma run_turns_inv m turns s :
  (spins = true -> m + Z.of_nat turns + batch < 2 ^ 64) -> in_window m (view_of s) ->
  runs P W (run_turns spins batch make_slot p error_callback turns)
    (fun _ s' => in_window (m + Z.of_nat turns) (view_of s')) s.
Proof.
  revert m s. induction turns as [|turns IH]; intros m s Hm I; cbn [run_turns].
  { apply runs_ret. by rewrite Z.add_0_r. }
  eapply runs_bind; [apply (fill_inv m); [intros E; specialize (Hm E); lia|done|lia]|]. intros [] s1 I1.
  eapply runs_bind; [apply (window_poll m); [intros E; specialize (Hm E); lia|done]|]. intros [] s2 [I2 _].
  replace (m + Z.of_nat (S turns)) with (m + 1 + Z.of_nat turns) by lia. apply IH; [|done].
  intros E. specialize (Hm E). lia.
Qed.

Context (Hbusy : forall m s, in_window m (view_of s) ->
  runs quiet W busy (fun b s' => view_of s' = view_of s /\ b = negb (bool_decide (in_flight (calls s) = []))) s).

Lemma window_drain m fuel s :
  (spins = true -> m + Z.of_nat fuel + 1 < 2 ^ 64) -> (forall s', still_waiting (Z.to_nat batch) fuel s' -> W s') ->
  in_window m (view_of s) ->
  runs P W (drain busy p error_callback fuel)
    (fun _ s' => window_inv (view_of s') /\ in_flight (calls s') = []) s.
Proof.
  intros Hm HW I. assert (forall rest used s', used + rest = fuel -> in_window (m + Z.of_nat used) (view_of s') ->
    (exists tr new, calls s' = tr ++ new /\ polls new = used /\
       used + length (in_flight (calls s')) <= Z.to_nat batch + idle new) ->
    runs P W (drain busy p error_callback rest)
      (fun _ s' => window_inv (view_of s') /\ in_flight (calls s') = []) s')%nat as H.
  { induction rest as [|rest IH]; intros used s1 Eu I1 (tr & new & Ec & Hp & Hle); cbn [drain];
      (eapply runs_bind; [apply runs_refine with (P' := quiet); [by intros ?? []|by eapply Hbusy]|]);
      intros b s2 [[V2 ->] (new2 & C2 & Hp2 & Hi2)%quiet_grows]; pose proof (f_equal v_flight V2) as F2; cbn in F2;
      (case_bool_decide as Hb; cbn [negb]; [apply runs_ret; rewrite V2; split; [by apply I1|congruence]|]).
    - apply cwp_end. split; [apply grows_refl|]. apply HW. split; [by rewrite F2|].
      exists tr, (new ++ new2). split; [by rewrite C2, Ec, app_assoc|]. rewrite idle_app, polls_app. lia.
    - rewrite <- V2 in I1. eapply runs_bind; [apply (window_poll (m + Z.of_nat used)); [intros E; specialize (Hm E); lia|done]|].
      intros [] s3 [I3 (new3 & C3 & Hp3 & Hi3)]. rewrite F2 in Hi3. apply (IH (S used)); [lia| |].
      + by replace (m + Z.of_nat (S used)) with (m + Z.of_nat used + 1) by lia.
      + exists tr, ((new ++ new2) ++ new3). split; [by rewrite C3, C2, Ec, <- !app_assoc|]. rewrite !idle_app, !polls_app. lia. }
  apply (H fuel 0%nat); [done|by rewrite Z.add_0_r|]. exists (calls s), []. rewrite app_nil_r. split_and!; [done|done|].
  pose proof (flight_length _ (proj1 I)) as Hl. cbn in *. lia.
Qed.

(** The window is empty at the end, and what was made is given back. *)
Lemma run_window_inv turns fuel s d w :
  (spins = true -> Z.of_nat turns + Z.of_nat fuel + batch + 1 < 2 ^ 64) ->
  (forall s', still_waiting (Z.to_nat batch) fuel s' -> W s') ->
  view_of s = MkView base [] done0 d w -> w = MkWindow (u64 ops0) 0 0 (replicate (Z.to_nat batch) None) ->
  runs P W (run_window spins batch make_slot busy p error_callback turns fuel)
    (fun _ s' => exists n d' w', view_of s' = MkView base [] n d' w' /\ w_ops w' = u64 (ops0 + (n - done0))) s.
Proof.
  intros Hm HW Hs ->. unfold run_window.
  pose proof (used_none (Z.to_nat batch)) as E0.
  eapply runs_bind; [apply (run_turns_inv 0 turns)|].
  - intros E. specialize (Hm E). lia.
  - rewrite Hs. split.
    + split; cbn [v_vars v_live v_flight v_done w_slots w_ops now_index finish_index].
      * apply length_replicate.
      * unfold used_res. rewrite E0. apply owns_nil.
      * intros i x [H _]%lookup_replicate. done.
      * by rewrite E0.
      * by apply not_elem_of_nil.
      * done.
      * f_equal. lia.
    + intros _. split_and!; cbn; [lia|lia|done|]. intros i x [H _]%lookup_replicate. done.
  - intros [] s1 I1. eapply runs_mono; [apply (window_drain (0 + Z.of_nat turns) fuel s1); [intros E; specialize (Hm E); lia|exact HW|exact I1]|].
    intros [] s2 [I2 F2]. destruct (view_of s2) as [l f n d' w'] eqn:Hs2. rewrite (flight_view _ _ _ _ _ _ Hs2) in F2. subst f.
    pose proof (wi_flight _ I2) as Hf. cbn in Hf. apply Permutation_nil_l in Hf. symmetry in Hf. apply fmap_nil_inv in Hf.
    pose proof (wi_owns _ I2) as O. cbn in O. unfold used_res in O. rewrite Hf in O. apply owns_none in O as ->.
    exists n, d', w'. split; [done|]. by apply (wi_ops _ I2).
Qed.
End Correct.

(** ** The programs *)

Section Programs.
Context {L : DocaLib} `{!DocaLaws L}.

(** A new buffer. *)
Lemma runs_buf_new (P : trace -> doca_call -> Prop) (W : doca window -> Prop) (by_data : bool) inv m addr len s l f n d v :
  view_of s = MkView l f n d v ->
  P (calls s) ((if by_data then BufByData else BufByAddr) inv (inner_mmap m) addr len) ->
  runs P W ((if by_data then buf_inventory_buf_by_data else buf_inventory_buf_by_addr) inv m addr len)
    (fun b s' => made l f n d v KBuf (inner_buf b) s') s.
Proof.
  intros Hs Hc. destruct by_data; (eapply runs_bind; [by apply (runs_made_by _ _ _ _ _ _ _ _ Hs _ KBuf)|]);
    intros h s' [_ H]; by apply runs_ret.
Qed.

(** Every copy or message is one slot of a region; no task is freed while it is under way, and
    nothing but tasks and buffers is destroyed while any task is. *)
Definition window_call (bases : list Z) (payload batch : Z) (tr : trace) (c : doca_call) : Prop :=
  match c with
  | BufByAddr _ _ addr len | BufByData _ _ addr len =>
      exists base i, base ∈ bases /\ 0 <= i < batch /\ addr = u64 (base + i * payload) /\ len = payload
  | MmapSetMemrange _ addr len => addr ∈ bases /\ len = batch * payload
  | TaskFree t => t ∉ in_flight tr
  | InvDestroy _ | DmaDestroy _ | RdmaDestroy _ | PeDestroy _ | MmapDestroy _ => in_flight tr = []
  | _ => True
  end.

Lemma window_calls bases payload batch tr c :
  match c with
  | TaskSubmit _ | PeProgress _ | BufDecRefcount _ => True | TaskFree t => t ∉ in_flight tr | _ => False end ->
  window_call bases payload batch tr c.
Proof. by destruct c. Qed.

(** What a program is promised to do, from the calls and its variables at the start. *)
Definition window_outcome (bases : list Z) (payload batch : Z) (fuel : nat) (s : doca window)
    (r : outcome unit) (s' : doca window) : Prop :=
  steps (window_call bases payload batch) (calls s) (calls s') /\
  match r with
  | Done _ => live (calls s') = live (calls s) /\ in_flight (calls s') = [] /\
      w_ops (vars s') = u64 (completed (calls s') - completed (calls s))
  | Ended Waits => still_waiting (Z.to_nat batch) fuel s'
  | Ended Crashes => False
  | Ended _ => refused s'
  end.

Lemma outcome_of_runs bases payload batch fuel (m : M window unit) s :
  runs (window_call bases payload batch) (still_waiting (Z.to_nat batch) fuel) m (fun _ s' => exists n d v,
    view_of s' = MkView (live (calls s)) [] n d v /\ w_ops v = u64 (n - completed (calls s))) s ->
  let '(r, s') := m s in window_outcome bases payload batch fuel s r s'.
Proof.
  intros H. apply wp_outcome. eapply cwp_mono; [exact H|..].
  - intros [] s' (G & n & d & v & [= E1 E2 E3 E4 E5] & Hn). split; [exact G|]. by rewrite E5, Hn, E3.
  - intros x s' (G & Hx). split; [exact G|]. by destruct x.
Qed.

Lemma gdr_make_slot_runs W config dma inv local lm rm index s l f n d v :
  view_of s = MkView l f n d v -> 0 <= index < batch_size config ->
  runs (window_call [local; remote_mmap_addr config] (payload config) (batch_size config)) W
    (gdr_make_slot config dma inv local lm rm index)
    (fun x s' => x.1 <> 0 /\ (KTask, x.1) ∉ l /\ exists l',
       view_of s' = MkView l' f n (<[x.1 := index]> d) v /\
       forall b rs, owns b rs l -> owns b (wslot_res x ++ rs) l') s.
Proof.
  intros Hs Hi. unfold gdr_make_slot. set (c := if is_read config then _ else _).
  assert (exists sm sa dm da, c = (sm, sa, dm, da) /\ sa ∈ [local; remote_mmap_addr config] /\ da ∈ [local; remote_mmap_addr config])
    as (sm & sa & dm & da & -> & Hsa & Hda).
  { unfold c. destruct (is_read config); eexists _, _, _, _; split_and!; try done; set_solver. }
  eapply runs_bind; [apply (runs_buf_new _ _ true _ _ _ _ _ _ _ _ _ _ Hs)|].
  { exists sa, index. rewrite wrapu_add_r. done. }
  intros src s1 [F1 V1]. eapply runs_bind; [apply (runs_buf_new _ _ false _ _ _ _ _ _ _ _ _ _ V1)|].
  { exists da, index. rewrite wrapu_add_r. done. }
  intros dst s2 [F2 V2]. eapply runs_bind.
  { apply (runs_task _ _ _ _ _ _ _ _ V2 _ index (fun t s' => t <> 0 /\ (KTask, t) ∉ l ∪ {[(KBuf, inner_buf src)]} ∪ {[(KBuf, inner_buf dst)]} /\
      view_of s' = MkView (l ∪ {[(KBuf, inner_buf src)]} ∪ {[(KBuf, inner_buf dst)]} ∪ {[(KTask, t)]}) f n (<[t := index]> d) v));
      [done|done|]. by intros. }
  intros t s3 (H0 & F3 & V3). apply runs_ret. cbn [fst]. split_and!; [done| |].
  - intros H. apply F3. do 2 (apply elem_of_union; left). done.
  - eexists. split; [exact V3|]. intros b rs O.
    apply (owns_add _ _ _ _ F1), (owns_add _ _ _ _ F2), (owns_add _ _ _ _ F3) in O.
    eapply owns_perm; [|exact O]. cbn. solve_Permutation.
Qed.

Lemma send_make_slot_runs W config rdma inv local lm index s l f n d v :
  view_of s = MkView l f n d v -> 0 <= index < r_batch_size config ->
  runs (window_call [local] (r_payload config) (r_batch_size config)) W (send_make_slot config rdma inv local lm index)
    (fun x s' => x.1 <> 0 /\ (KTask, x.1) ∉ l /\ exists l',
       view_of s' = MkView l' f n (<[x.1 := index]> d) v /\
       forall b rs, owns b rs l -> owns b (wslot_res x ++ rs) l') s.
Proof.
  intros Hs Hi. unfold send_make_slot. eapply runs_bind; [apply (runs_buf_new _ _ true _ _ _ _ _ _ _ _ _ _ Hs)|].
  { exists local, index. rewrite wrapu_add_r. split; [by left|done]. }
  intros src s1 [F1 V1]. eapply runs_bind.
  { apply (runs_task _ _ _ _ _ _ _ _ V1 _ index (fun t s' => t <> 0 /\ (KTask, t) ∉ l ∪ {[(KBuf, inner_buf src)]} /\
      view_of s' = MkView (l ∪ {[(KBuf, inner_buf src)]} ∪ {[(KTask, t)]}) f n (<[t := index]> d) v));
      [done|done|]. by intros. }
  intros t s2 (H0 & F2 & V2). apply runs_ret. cbn [fst]. split_and!; [done| |].
  - intros H. apply F2. by apply elem_of_union_l.
  - eexists. split; [exact V2|]. intros b rs O. apply (owns_add _ _ _ _ F1), (owns_add _ _ _ _ F2) in O.
    eapply owns_perm; [|exact O]. cbn. solve_Permutation.
Qed.

Lemma gdr_busy_runs P W p m s ops0 done0 base batch :
  (forall tr, P tr (PeNumInflight (inner_pe p))) -> in_window false batch base ops0 done0 m (view_of s) ->
  runs (quiet P) W (gdr_busy p)
    (fun b s' => view_of s' = view_of s /\ b = negb (bool_decide (in_flight (calls s) = []))) s.
Proof.
  intros HP _. destruct (view_of s) as [l f n d w] eqn:Hs. rewrite (flight_view _ _ _ _ _ _ Hs).
  eapply runs_bind; [by apply (runs_num_inflight _ _ _ _ _ _ _ _ Hs _ (fun k s' => k = Z.of_nat (length f) /\
    view_of s' = MkView l f n d w))|].
  intros k s' [-> V']. apply runs_ret. split; [done|]. by destruct f.
Qed.

Lemma send_busy_runs P W m s ops0 done0 base batch :
  in_window true batch base ops0 done0 m (view_of s) ->
  runs (quiet P) W send_busy
    (fun b s' => view_of s' = view_of s /\ b = negb (bool_decide (in_flight (calls s) = []))) s.
Proof.
  intros [_ Ho]. apply runs_get, runs_ret. split; [done|]. destruct (Ho eq_refl) as (HF & HN & _). cbn in HF, HN. rewrite HN.
  f_equal. apply eq_true_iff_eq. rewrite Z.eqb_eq, bool_decide_eq_true, <- length_zero_iff_nil. lia.
Qed.

Lemma gdr_post_runs config p dma inv local lm rm turns fuel s l n0 d v :
  let batch := batch_size config in
  let W := still_waiting (Z.to_nat batch) fuel in
  0 <= batch < 2 ^ 32 -> view_of s = MkView l [] n0 d v -> v = window_start batch ->
  runs (window_call [local; remote_mmap_addr config] (payload config) batch) W
    (gdr_post_dma_reqs config p dma inv local lm rm turns fuel)
    (fun _ s' => exists n d' w', view_of s' = MkView l [] n d' w' /\ w_ops w' = u64 (n - n0)) s.
Proof.
  cbn zeta. intros Hb Hs Hv. set (batch := batch_size config) in *. set (W := still_waiting _ _). set (V := MkView l [] n0 d v) in *.
  unfold gdr_post_dma_reqs. eapply runs_bind; [by apply (runs_conf _ _ _ V)|].
  intros e s1 V1. eapply runs_bind; [by apply (runs_start_ctx _ _ _ V)|]. intros [] s2 V2.
  eapply (run_window_inv false batch _ 0 n0); [exact Hb|..|exact V2|by rewrite Hv].
  - intros. by apply gdr_make_slot_runs.
  - apply window_calls.
  - intros i e' s' R Hr'. apply runs_refused; [done|]. left. by eexists.
  - done.
  - intros m s'. by apply gdr_busy_runs.
  - done.
  - done.
Qed.

(** The importer of the GPU-direct benchmark, for every behaviour of the library (the
    tasks may be completed in any order).  It copies slot to slot, frees no task that is under
    way, and when it returns it has given back everything it made, no task is left, and every
    completed task has been counted once.  It ends early only at a refused call, and still
    waits for its last tasks only when nearly all of its polls have found nothing. *)
Theorem gdr_window_routine (config : gdr_config) (local_buffer : Z) (turns fuel : nat) (s : doca window) :
  0 <= batch_size config < 2 ^ 32 -> 0 <= payload config -> batch_size config * payload config < 2 ^ 32 ->
  in_flight (calls s) = [] -> vars s = window_start (batch_size config) ->
  let '(r, s') := gdr_importer_routine config local_buffer turns fuel s in
  window_outcome [local_buffer; remote_mmap_addr config] (payload config) (batch_size config) fuel s r s'.
Proof.
  intros Hb Hp Hr Hf Hv. apply outcome_of_runs. set (P := window_call _ _ _). set (W := still_waiting _ _).
  unfold gdr_importer_routine. destruct (view_of s) as [l f n0 d v] eqn:Hs.
  rewrite (flight_view _ _ _ _ _ _ Hs) in Hf. subst f.
  assert (live (calls s) = l) as -> by (by injection Hs). assert (completed (calls s) = n0) as -> by (by injection Hs).
  rewrite (vars_view _ _ _ _ _ _ Hs) in Hv.
  eapply runs_bind; [by apply (runs_mmap_new _ _ _ _ _ _ _ _ Hs)|]. intros lm0 s1 [F1 V1].
  eapply runs_bind; [by apply (runs_add_device _ _ _ _ _ _ _ _ V1)|]. intros lm s2 [E2 V2]. rewrite <- E2 in F1, V1, V2.
  eapply runs_bind; [apply (runs_memrange _ _ _ _ _ _ _ _ V2); intros tr c [->| ->]; [|done]; rewrite (wrapu_small 32) by nia; split; [by left|done]|].
  intros [] s3 V3.
  eapply runs_bind; [by apply (runs_dma_new _ _ _ _ _ _ _ _ V3)|]. intros dma s4 [F4 V4].
  eapply runs_bind; [by apply (runs_ret _ _ _ (fun c s' => s' = s4))|]. intros ctx s5 ->.
  eapply runs_bind; [by apply (runs_pe_new _ _ _ _ _ _ _ _ V4)|]. intros p0 s5 [F5 V5].
  eapply runs_bind; [by apply (runs_connect_ctx _ _ _ _ _ _ _ _ V5)|]. intros p s6 [E6 V6]. rewrite <- E6 in F5, V5, V6.
  eapply runs_bind; [by apply (runs_new_from_exported _ _ _ _ _ _ _ _ V6)|]. intros rm s7 [F7 V7].
  eapply runs_bind; [by apply (runs_inventory_new _ _ _ _ _ _ _ _ V7)|]. intros inv s8 [F8 V8].
  eapply runs_bind; [by apply (runs_unchanged _ _ _ _ _ _ _ _ V8)|]. intros [] s9 V9. unfold unchanged in V9.
  eapply runs_bind; [by apply (gdr_post_runs config p dma inv local_buffer lm rm turns fuel _ _ _ _ _ Hb V9)|].
  intros [] s12 (n & d' & w' & V12 & Hn).
  give_back V12 (KInv, inv). intros [] s13 V13. eapply runs_bind; [exact (runs_ctx_delete P W ctx _ s13 I V13)|]. intros [] s14 V14.
  give_back V14 (KDma, dma). intros [] s15 V15.
  give_back V15 (KPe, inner_pe p). intros [] s16 V16.
  give_back V16 (KMmap, inner_mmap lm). intros [] s17 V17.
  eapply runs_mono; [apply (runs_gone _ _ _ _ _ _ _ _ V17 _ (KMmap, inner_mmap rm)); [by apply (flight_view _ _ _ _ _ _ V17)|done]|].
  intros [] s18 V18. unfold gone in V18. rewrite objects_given_back in V18 by done. by exists n, d', w'.
Qed.

Lemma do_rdma_send_runs config exchange p rdma inv local lm turns fuel s l n0 d v :
  let batch := r_batch_size config in
  let W := still_waiting (Z.to_nat batch) fuel in
  in_order L -> 0 <= batch < 2 ^ 32 -> Z.of_nat turns + Z.of_nat fuel + batch + 1 < 2 ^ 64 ->
  view_of s = MkView l [] n0 d v -> v = window_start batch ->
  runs (window_call [local] (r_payload config) batch) W (do_rdma_send config exchange p rdma inv local lm turns fuel)
    (fun _ s' => exists n d' w', view_of s' = MkView l [] n d' w' /\ w_ops w' = u64 (n - n0)) s.
Proof.
  cbn zeta. intros Ho Hb Hm Hs Hv. set (batch := r_batch_size config) in *. set (W := still_waiting _ _).
  set (V := MkView l [] n0 d v) in *. unfold do_rdma_send.
  do 2 (eapply runs_bind; [by apply (runs_ignore_plain _ _ _ V)|]; clear s Hs; intros [] s Hs).
  eapply runs_bind; [by apply (runs_conf _ _ _ V)|]. intros e s1 V1.
  eapply runs_bind; [by apply (runs_start_ctx _ _ _ V)|]. intros [] s2 V2.
  eapply runs_bind; [by apply (runs_export_rdma _ _ _ V)|]. intros param s3 V3. eapply runs_bind; [by apply (runs_unchanged _ _ _ _ _ _ _ _ V3)|]. intros [] s4 V4.
  eapply runs_bind; [by apply (runs_poll_none _ _ _ _ _ _ _ _ _ _ V4)|]. intros [] s5 V5.
  eapply (run_window_inv true batch _ 0 n0); [exact Hb|..|exact V5|by rewrite Hv].
  - intros. by apply send_make_slot_runs.
  - apply window_calls.
  - intros i e' s' R Hr'. apply runs_refused; [done|by right].
  - done.
  - intros m s'. by apply send_busy_runs.
  - done.
  - done.
Qed.

Lemma four_given_back (l : gset resource) (a b c d : resource) :
  a ∉ l -> b ∉ l ∪ {[a]} -> c ∉ l ∪ {[a]} ∪ {[b]} -> d ∉ l ∪ {[a]} ∪ {[b]} ∪ {[c]} ->
  (l ∪ {[a]} ∪ {[b]} ∪ {[c]} ∪ {[d]}) ∖ {[d]} ∖ {[b]} ∖ {[c]} ∖ {[a]} = l.
Proof.
  intros Ha Hb Hc Hd. apply owns_none. pose proof (owns_nil l) as O.
  apply (owns_add _ _ _ _ Ha), (owns_add _ _ _ _ Hb), (owns_add _ _ _ _ Hc), (owns_add _ _ _ _ Hd) in O.
  do 4 apply owns_remove. eapply owns_perm; [|exact O]. solve_Permutation.
Qed.

(** C40.  The sender of the RDMA benchmark, when the library completes the messages in the order
    of their submission: it sends slot by slot, always finds its next slot free (so the
    [continue] of its loop is never taken), frees no task that is under way, gives back
    everything it made, and counts every completed message once.  It ends early only at a
    refused call, and still waits for its last messages only when nearly all of its polls
    have found nothing. *)
Theorem send_window_routine (config : rdma_config) (rdma_permissions : Z) (exchange : string -> string)
    (local_buffer : Z) (turns fuel : nat) (s : doca window) :
  in_order L ->
  0 <= r_batch_size config < 2 ^ 32 -> 0 <= r_payload config -> r_batch_size config * r_payload config < 2 ^ 32 ->
  Z.of_nat turns + Z.of_nat fuel + r_batch_size config + 1 < 2 ^ 64 ->
  in_flight (calls s) = [] -> vars s = window_start (r_batch_size config) ->
  let '(r, s') := perform_sender_routine config rdma_permissions exchange local_buffer turns fuel s in
  window_outcome [local_buffer] (r_payload config) (r_batch_size config) fuel s r s'.
Proof.
  intros Ho Hb Hp Hr Hm Hf Hv. apply outcome_of_runs. set (P := window_call _ _ _). set (W := still_waiting _ _).
  unfold perform_sender_routine. destruct (view_of s) as [l f n0 d v] eqn:Hs.
  rewrite (flight_view _ _ _ _ _ _ Hs) in Hf. subst f.
  assert (live (calls s) = l) as -> by (by injection Hs). assert (completed (calls s) = n0) as -> by (by injection Hs).
  rewrite (vars_view _ _ _ _ _ _ Hs) in Hv.
  eapply runs_bind; [by apply (runs_mmap_new _ _ _ _ _ _ _ _ Hs)|]. intros lm0 s1 [F1 V1].
  eapply runs_bind; [by apply (runs_add_device _ _ _ _ _ _ _ _ V1)|]. intros lm s2 [E2 V2]. rewrite <- E2 in F1, V1, V2.
  eapply runs_bind; [apply (runs_memrange _ _ _ _ _ _ _ _ V2); intros tr c [->| ->]; [|done]; rewrite (wrapu_small 32) by nia; split; [by left|done]|].
  intros [] s3 V3.
  eapply runs_bind; [apply (runs_rdma_new _ _ _ _ _ _ _ _ V3); by intros tr r c [->|[->| ->]]|]. intros rdma s4 [F4 V4].
  eapply runs_bind; [by apply (runs_ret _ _ _ (fun c s' => s' = s4))|]. intros ctx s5 ->.
  eapply runs_bind; [by apply (runs_pe_new _ _ _ _ _ _ _ _ V4)|]. intros p0 s5 [F5 V5].
  eapply runs_bind; [by apply (runs_connect_ctx _ _ _ _ _ _ _ _ V5)|]. intros p s6 [E6 V6]. rewrite <- E6 in F5, V5, V6.
  eapply runs_bind; [by apply (runs_inventory_new _ _ _ _ _ _ _ _ V6)|]. intros inv s7 [F7 V7].
  eapply runs_bind; [by apply (runs_unchanged _ _ _ _ _ _ _ _ V7)|]. intros [] s8 V8.
  eapply runs_bind; [by apply (do_rdma_send_runs config exchange p rdma inv local_buffer lm turns fuel _ _ _ _ _ Ho Hb Hm V8)|].
  intros [] s9 (n & d' & w' & V9 & Hn).
  give_back V9 (KInv, inv). intros [] s10 V10. eapply runs_bind; [exact (runs_ctx_delete P W ctx _ s10 I V10)|]. intros [] s11 V11.
  give_back V11 (KRdma, rdma). intros [] s12 V12.
  give_back V12 (KPe, inner_pe p). intros [] s13 V13.
  eapply runs_mono; [apply (runs_gone _ _ _ _ _ _ _ _ V13 _ (KMmap, inner_mmap lm)); [by apply (flight_view _ _ _ _ _ _ V13)|done]|].
  intros [] s14 V14. unfold gone in V14. rewrite four_given_back in V14 by done. by exists n, d', w'.
Qed.
End Programs.

(** ** Completion out of order

    When the next slot is still in use, the sender's loop tries it again and does not poll,
    which alone could free it. *)

Lemma fill_blocked {L : DocaLib} batch make_slot s x :
  let w := vars s in
  (now_index w -64 finish_index w)%cint < batch ->
  w_slots w !! Z.to_nat (now_index w mod batch) = Some (Some x) ->
  forall fuel, fill true batch make_slot fuel s = (Ended Waits, s).
Proof.
  cbn zeta. intros Hlt Hx fuel. apply Z.ltb_lt in Hlt.
  induction fuel as [|fuel IH]; cbn [fill]; unfold mbind, M_bind, get; rewrite Hlt; [done|]. by rewrite Hx.
Qed.

(** A library that completes the last task first. *)
Definition last_first : DocaLib := {|
  answer := answer (DocaLib := ref_doca);
  stored tr c := match c with PeProgress _ => default 0 (list.last (in_flight tr)) | _ => stored (DocaLib := ref_doca) tr c end;
  text := text (DocaLib := ref_doca);
  listed := listed (DocaLib := ref_doca);
  as_ctx := as_ctx (DocaLib := ref_doca);
|}.

#[export] Instance last_first_laws : DocaLaws last_first.
Proof.
  split.
  - intros tr c k Ha Hm. assert (stored (DocaLib := last_first) tr c = stored (DocaLib := ref_doca) tr c) as -> by (by destruct c).
    by apply (made_fresh (L := ref_doca)).
  - intros tr p. cbn. destruct (list.last (in_flight tr)) as [t|] eqn:E; [|done]. cbn. intros _.
    apply last_Some in E as [l' ->]. apply elem_of_app. right. by left.
  - done.
Qed.

(** Two slots; after one turn the second message is completed and the first is not: the next
    turn never ends. *)
Lemma send_spins :
  let config := MkRdmaConfig 64 2 3 5 in
  let make_slot := send_make_slot (L := last_first) config 1 2 4096 (MkMmap 3 []) in
  let '(r, s) := run_turns (L := last_first) true 2 make_slot (MkPe 4 []) send_error 1 (MkDoca [] (window_start 2)) in
  r = Done tt /\ w_ops (vars s) = 1 /\ forall fuel, fill (L := last_first) true 2 make_slot fuel s = (Ended Waits, s).
Proof.
  cbn zeta. destruct (run_turns _ _ _ _ _ _ _) as [r s] eqn:E. vm_compute in E. injection E as <- <-.
  split_and!; [reflexivity|reflexivity|]. apply (fill_blocked (L := last_first) _ _ _ (2, [MkBuf 1 4096 64])); reflexivity.
Qed.

(** ** Examples *)

Lemma ref_in_order : in_order ref_doca.
Proof. intros tr e. cbn. destruct (in_flight tr); auto. Qed.

Lemma gdr_window_routine_witness :
  let config := MkGdrConfig true 64 2 5 "export" 8192 in
  let s := MkDoca [] (window_start 2) in
  let '(r, s') := gdr_importer_routine (L := last_first) config 4096 3 9 s in
  r = Done tt /\ w_ops (vars s') = 4 /\ window_outcome [4096; 8192] 64 2 9 s r s'.
Proof.
  pose proof (gdr_window_routine (L := last_first) (MkGdrConfig true 64 2 5 "export" 8192) 4096 3 9
    (MkDoca [] (window_start 2))) as H.
  specialize (H ltac:(cbn; lia) ltac:(cbn; lia) ltac:(cbn; lia) eq_refl eq_refl).
  cbn zeta in *. destruct (gdr_importer_routine _ _ _ _ _) as [r s'] eqn:E.
  split; [|split; [|exact H]]; clear H; vm_compute in E; injection E as <- <-; reflexivity.
Defined.

Lemma send_window_routine_witness :
  let config := MkRdmaConfig 64 2 3 5 in
  let s := MkDoca [] (window_start 2) in
  let '(r, s') := perform_sender_routine (L := ref_doca) config 7 (fun x => x) 4096 3 9 s in
  r = Done tt /\ w_ops (vars s') = 4 /\ window_outcome [4096] 64 2 9 s r s'.
Proof.
  pose proof (send_window_routine (L := ref_doca) (MkRdmaConfig 64 2 3 5) 7 (fun x => x) 4096 3 9
    (MkDoca [] (window_start 2)) ref_in_order) as H.
  specialize (H ltac:(cbn; lia) ltac:(cbn; lia) ltac:(cbn; lia) ltac:(cbn; lia) eq_refl eq_refl).
  cbn zeta in *. destruct (perform_sender_routine _ _ _ _ _ _ _) as [r s'] eqn:E.
  split; [|split; [|exact H]]; clear H; vm_compute in E; injection E as <- <-; reflexivity.
Defined.
