(* ===== verification/RdmaReceive.v ===== *)
(** * RdmaReceive: the receiver of the RDMA benchmark

    Translation of [test_suite/rdma_bench/receiver.cpp]: a batch of receive tasks is
    submitted, the completion callback empties the buffer of its task and submits it again,
    and when the runner stops, the buffers and the tasks are deleted.

    [turns] is the number of turns of the loop [while (runner->running())]. *)

From stdpp Require Import strings.
From S2P Require Import Prelude Doca.

(** A task with its buffer; [None] is a pair of null pointers. *)
Notation rslot := (Z * buf)%type.

Record receive_config := MkReceiveConfig {
  payload : Z; batch_size : Z; gid_index : Z; dev : Z;
}.

Section Receiver.
Context {L : DocaLib} (config : receive_config).
(** [DOCA_ACCESS_FLAG_RDMA_READ | ..._WRITE | ..._ATOMIC], the default permissions. *)
Context (rdma_permissions : Z).
(** What the peer sent when the parameters were exchanged, from what was sent to it. *)
Context (receive_and_send_rdma_param : string -> string).

Notation slots := (list (option rslot)).

Definition complete_callback (task_index : Z) : M slots unit :=
  sl ← get;
  match sl !! Z.to_nat task_index with
  | Some (Some (task, b)) =>
      _ ← set_data b 0 0;
      _ ← submit task;
      mret tt
  | _ => endwith Crashes
  end.
Definition error_callback (task_index : Z) (status : doca_error) : M slots unit := endwith Exits.

Definition post_receive (rdma inv local_buffer : Z) (local_mmap : mmap) (i : nat) : M slots unit :=
  b ← buf_inventory_buf_by_addr inv local_mmap (local_buffer +64 (Z.of_nat i *64 payload config))%cint (payload config);
  task ← rdma_task_receive_new rdma b (Z.of_nat i);
  sl ← get;
  _ ← put (<[i := Some (task, b)]> sl);
  e ← submit task;
  if decide (e = DOCA_SUCCESS) then mret tt else endwith Exits.

Definition poll (p : pe) : M slots unit := poll_progress p complete_callback error_callback.

Definition delete_slot (i : nat) : M slots unit :=
  sl ← get;
  match sl !! i with
  | Some (Some (task, b)) => _ ← buf_delete b; task_delete task
  | _ => endwith Crashes
  end.

Definition do_rdma_receive (p : pe) (rdma inv local_buffer : Z) (local_mmap : mmap) (turns : nat) : M slots unit :=
  let n := Z.to_nat (batch_size config) in
  _ ← put (replicate n None);
  _ ← ignore (RdmaSetSendQueueSize rdma 512);
  _ ← ignore (RdmaSetRecvQueueSize rdma 512);
  _ ← set_task_receive_conf rdma (batch_size config);
  _ ← start_ctx p;
  param ← export_rdma rdma;
  _ ← connect_rdma rdma (receive_and_send_rdma_param param);
  _ ← poll p;
  _ ← each (seq 0 n) (post_receive rdma inv local_buffer local_mmap);
  _ ← each (replicate turns tt) (fun _ => poll p);
  each (seq 0 n) delete_slot.

(** The engine, its context, the inventory and the map are not deleted. *)
Definition perform_receiver_routine (local_buffer : Z) (turns : nat) : M slots unit :=
  local_mmap ← mmap_new;
  local_mmap ← add_device (dev config) local_mmap;
  _ ← set_memrange_and_start local_mmap local_buffer (batch_size config *32 payload config)%cint;
  rdma ← rdma_new (dev config) (gid_index config) rdma_permissions;
  ctx ← ctx_new rdma;
  p ← pe_new;
  p ← connect_ctx ctx p;
  inv ← buf_inventory_new 1024;
  _ ← ctx_set_data ctx;
  do_rdma_receive p rdma inv local_buffer local_mmap turns.
End Receiver.

(** ** The slots *)

Definition rslot_res (x : rslot) : list resource := [(KBuf, inner_buf x.2); (KTask, x.1)].
Definition rslots_res (sl : list rslot) : list resource := concat (rslot_res <$> sl).

Lemma rslots_res_app a b : rslots_res (a ++ b) = rslots_res a ++ rslots_res b.
Proof. unfold rslots_res. by rewrite fmap_app, concat_app. Qed.

Lemma rtask_in sl x : x ∈ sl -> (KTask, x.1) ∈ rslots_res sl.
Proof.
  intros [a [b ->]]%list_elem_of_split. rewrite rslots_res_app. apply elem_of_app. right. right. by left.
Qed.

Lemma rtasks_nodup sl : NoDup (rslots_res sl) -> NoDup (fst <$> sl).
Proof.
  induction sl as [|x sl IH]; cbn; [constructor|]. intros (_ & [Hx Hn]%list.NoDup_cons)%list.NoDup_cons.
  constructor; [|by apply IH]. intros (y & Ey & Hy)%list_elem_of_fmap. apply Hx. rewrite Ey. by apply rtask_in.
Qed.

(** Some call was refused. *)
Definition some_refused {U} (s : doca U) : Prop := exists e, e ∈ calls s /\ ev_err e <> DOCA_SUCCESS.

Lemma some_refused_last {U} (s : doca U) : refused s -> some_refused s.
Proof. intros (e & [l E]%last_Some & He). exists e. split; [|done]. rewrite E. apply elem_of_app. right. by left. Qed.

Lemma some_refused_grows {U} P (s s' : doca U) : grows P s s' -> some_refused s -> some_refused s'.
Proof. intros (new & E & _)%steps_app (e & H & He). exists e. split; [|done]. rewrite E. apply elem_of_app. by left. Qed.

Section Correct.
Context {L : DocaLib} `{!DocaLaws L} (config : receive_config) (local : Z).
Context (Hbatch : 0 <= batch_size config).

Definition nslots : nat := Z.to_nat (batch_size config).

(** Messages are received slot by slot inside of the region, and no task is submitted while it
    is under way. *)
Definition receive_call (tr : trace) (c : doca_call) : Prop :=
  match c with
  | BufByAddr _ _ addr len =>
      exists i, 0 <= i < batch_size config /\ addr = u64 (local + i * payload config) /\ len = payload config
  | BufSetData _ addr len =>
      exists i, 0 <= i < batch_size config /\ addr = u64 (local + i * payload config) /\ len = 0
  | MmapSetMemrange _ addr len => addr = local /\ len = batch_size config * payload config
  | TaskSubmit t => t ∉ in_flight tr
  | _ => True
  end.

Context (base : gset resource) (W : doca (list (option rslot)) -> Prop).

(** [k] slots are made. *)
Record recv_view (k : nat) (sl : list rslot) (v : view (list (option rslot))) : Prop := MkRecv {
  rv_length : length sl = k;
  rv_slots : v_vars v = (Some <$> sl) ++ replicate (nslots - k) None;
  rv_owns : owns base (rslots_res sl) (v_live v);
  rv_data i x : sl !! i = Some x -> v_data v !! x.1 = Some (Z.of_nat i);
  rv_flight t : t ∈ v_flight v -> t ∈ fst <$> sl;
  rv_nodup : NoDup (v_flight v);
  rv_nonzero : 0 ∉ fst <$> sl;
  rv_ptr i x : sl !! i = Some x -> raw_pointer x.2 = u64 (local + Z.of_nat i * payload config);
}.

Definition all_under_way (sl : list rslot) (s : doca (list (option rslot))) : Prop :=
  some_refused s \/ in_flight (calls s) ≡ₚ fst <$> sl.

Lemma recv_view_snoc k sl lv f n d v x :
  (k < nslots)%nat -> recv_view k sl (MkView lv f n d v) ->
  raw_pointer x.2 = u64 (local + Z.of_nat k * payload config) -> x.1 <> 0 -> (KBuf, inner_buf x.2) ∉ lv ->
  (KTask, x.1) ∉ lv ∪ {[(KBuf, inner_buf x.2)]} ->
  recv_view (S k) (sl ++ [x]) (MkView (lv ∪ {[(KBuf, inner_buf x.2)]} ∪ {[(KTask, x.1)]}) (f ++ [x.1]) n
    (<[x.1 := Z.of_nat k]> d) (<[k := Some x]> v)).
Proof.
  intros Hk [R1 R2 R3 R4 R5 R6 R8 R7] Hp H0 F1 F2. cbn in *.
  assert (x.1 ∉ fst <$> sl) as Hnew.
  { intros (y & Ey & Hy)%list_elem_of_fmap. apply F2. apply elem_of_union_l. rewrite Ey. eapply owns_in; [done|]. by apply rtask_in. }
  split; cbn.
  - rewrite length_app. cbn. lia.
  - rewrite R2, insert_app_r_alt by (rewrite length_fmap; lia). rewrite length_fmap, R1, Nat.sub_diag.
    replace (nslots - k)%nat with (S (nslots - S k)) by lia. cbn. rewrite fmap_app, <- app_assoc. done.
  - apply (owns_add _ _ _ _ F1), (owns_add _ _ _ _ F2) in R3. eapply owns_perm; [|exact R3].
    rewrite rslots_res_app. cbn. solve_Permutation.
  - intros i y [Hy|[Hge Hy]]%lookup_app_Some.
    + rewrite lookup_insert_ne; [by apply R4|]. intros E. apply Hnew. rewrite E. apply list_elem_of_fmap. exists y.
      split; [done|]. by eapply list_elem_of_lookup_2.
    + apply list_lookup_singleton_Some in Hy as [Hi <-]. rewrite lookup_insert_eq. f_equal. lia.
  - intros t. rewrite fmap_app, !elem_of_app. intros [Ht|Ht]; [left; by apply R5|by right].
  - apply list.NoDup_app. split_and!; [done| |apply NoDup_singleton]. intros t Ht ->%list_elem_of_singleton. by apply Hnew, R5.
  - rewrite fmap_app, elem_of_app. intros [H|H%list_elem_of_singleton]; [done|]. by apply H0.
  - intros i y [Hy|[Hge Hy]]%lookup_app_Some; [by apply R7|].
    apply list_lookup_singleton_Some in Hy as [Hi <-]. by replace i with k by lia.
Qed.

Lemma post_receive_inv rdma inv lm k s :
  (k < nslots)%nat -> (exists sl, recv_view k sl (view_of s) /\ all_under_way sl s) ->
  runs receive_call W (post_receive config rdma inv local lm k)
    (fun _ s' => exists sl, recv_view (S k) sl (view_of s') /\ all_under_way sl s') s.
Proof.
  intros Hk (sl & I & A). destruct (view_of s) as [lv f n d v] eqn:Hs.
  assert (runs receive_call W (post_receive config rdma inv local lm k) (fun _ s' => exists x,
    recv_view (S k) (sl ++ [x]) (view_of s') /\ in_flight (calls s') = f ++ [x.1]) s) as H.
  { unfold post_receive. eapply runs_bind.
    { eapply runs_bind; [apply (runs_made _ _ _ _ _ _ _ _ Hs _ KBuf (fun h s' => (KBuf, h) ∉ lv /\
        view_of s' = MkView (lv ∪ {[(KBuf, h)]}) f n d v)); try done|].
      - exists (Z.of_nat k). unfold nslots in Hk. split; [lia|]. split; [by rewrite wrapu_add_r|done].
      - intros h s1 H1. by apply (runs_ret _ _ _ (fun b s' => ((KBuf, inner_buf b) ∉ lv /\
          view_of s' = MkView (lv ∪ {[(KBuf, inner_buf b)]}) f n d v) /\
          raw_pointer b = u64 (local + Z.of_nat k * payload config))); split; [|cbn; rewrite wrapu_add_r]. }
    intros b s1 ((F1 & V1) & Hp). eapply runs_bind.
    { apply (runs_task _ _ _ _ _ _ _ _ V1 _ (Z.of_nat k) (fun t s' => t <> 0 /\ (KTask, t) ∉ lv ∪ {[(KBuf, inner_buf b)]} /\
        view_of s' = MkView (lv ∪ {[(KBuf, inner_buf b)]} ∪ {[(KTask, t)]}) f n (<[t := Z.of_nat k]> d) v)); [done|done|].
      by intros. }
    intros t s2 (H0 & F2 & V2). apply runs_get, runs_put. rewrite (vars_view _ _ _ _ _ _ V2).
    pose proof (recv_view_snoc k sl lv f n d v (t, b) Hk I Hp H0 F1 F2) as I'. cbn [fst snd] in I'.
    set (v' := MkView _ (f ++ [t]) _ _ _) in I'.
    eapply runs_bind.
    { eapply (runs_submit _ _ _ _ _ _ _ _ (view_put _ _ _ _ _ _ V2 _) _ (fun e s' =>
        e = DOCA_SUCCESS /\ view_of s' = v' \/ e <> DOCA_SUCCESS /\ refused s')); [|by left|by right].
      cbn [receive_call calls]. rewrite (flight_view _ _ _ _ _ _ V2). pose proof (rv_nodup _ _ _ I') as Hn. cbn in Hn.
      apply list.NoDup_app in Hn as (_ & Hd & _). intros Ht. apply (Hd t Ht). by left. }
    intros e s3 [[-> V3]|[He Hr]].
    - rewrite decide_True by done. apply runs_ret. exists (t, b). rewrite V3. split; [exact I'|]. by injection V3.
    - rewrite decide_False by done. apply runs_refused; [done|by right]. }
  eapply runs_mono; [apply runs_grows, H|]. intros [] s' ((x & I' & F') & G). exists (sl ++ [x]). split; [done|].
  destruct A as [A|A]; [left; by eapply some_refused_grows|right].
  rewrite F', fmap_app. rewrite (flight_view _ _ _ _ _ _ Hs) in A. by rewrite A.
Qed.

Lemma recv_tasks_nodup k sl v : recv_view k sl v -> NoDup (fst <$> sl).
Proof. intros I. apply rtasks_nodup, (own_nodup _ _ _ (rv_owns _ _ _ I)). Qed.

(** Other tasks under way. *)
Lemma recv_view_flight k sl lv f n d v f' n' :
  recv_view k sl (MkView lv f n d v) -> NoDup f' -> (forall t, t ∈ f' -> t ∈ fst <$> sl) ->
  recv_view k sl (MkView lv f' n' d v).
Proof. intros [R1 R2 R3 R4 R5 R6 R7 R8] Hn Hf. by split. Qed.

Lemma lookup_slot k sl lv f n d v i x :
  recv_view k sl (MkView lv f n d v) -> sl !! i = Some x -> v !! i = Some (Some x).
Proof.
  intros I Hx. pose proof (rv_slots _ _ _ I) as E. cbn in E. rewrite E, lookup_app_l by (rewrite length_fmap; by eapply lookup_lt_Some).
  by rewrite list_lookup_fmap, Hx.
Qed.

(** A completed task is submitted again. *)
Lemma receive_callback t s sl lv f n d v :
  t ∈ f -> recv_view nslots sl (MkView lv f n d v) ->
  view_of s = MkView lv (filter (fun t' => t' <> t) f) (n + 1) d v ->
  runs receive_call W (complete_callback (default 0 (d !! t)))
    (fun _ s' => recv_view nslots sl (view_of s') /\
       (in_flight (calls s') = filter (fun t' => t' <> t) f ++ [t] \/ some_refused s')) s.
Proof.
  intros Ht I Hs. destruct (list_elem_of_fmap_1 _ _ _ (rv_flight _ _ _ I t Ht)) as ([t' b] & -> & [i Hx]%list_elem_of_lookup_1).
  cbn [fst] in *. pose proof (rv_data _ _ _ I i _ Hx) as Hd. cbn in Hd. rewrite Hd. cbn [default id].
  pose proof (rv_nodup _ _ _ I) as Hn. cbn in Hn. pose proof (lookup_lt_Some _ _ _ Hx) as Hi. rewrite (rv_length _ _ _ I) in Hi.
  set (f' := filter (fun t => t <> t') f) in *.
  assert (forall u, u ∈ f' -> u <> t' /\ u ∈ f) as Hin by (by intros u [H1 H2]%list_elem_of_filter).
  unfold complete_callback. apply runs_get. rewrite (vars_view _ _ _ _ _ _ Hs), Nat2Z.id, (lookup_slot _ _ _ _ _ _ _ _ _ I Hx).
  eapply runs_bind; [apply (runs_unchanged _ _ _ _ _ _ _ _ Hs); [|done]|].
  { exists (Z.of_nat i). unfold nslots in Hi. split; [lia|]. split; [|done].
    pose proof (rv_ptr _ _ _ I i _ Hx) as Ep. cbn in Ep. by rewrite Ep, Z.add_0_r, wrapu_wrapu. }
  intros [] s1 V1. eapply runs_bind; [apply (runs_submit _ _ _ _ _ _ _ _ V1 _ (fun _ s' => recv_view nslots sl (view_of s') /\
       (in_flight (calls s') = f' ++ [t'] \/ some_refused s')))|intros e s2 H2; by apply runs_ret].
  - cbn [receive_call]. rewrite (flight_view _ _ _ _ _ _ V1). intros H. by destruct (Hin _ H).
  - intros s2 V2. rewrite V2, (flight_view _ _ _ _ _ _ V2). split; [|by left]. eapply recv_view_flight; [exact I|..].
    + apply list.NoDup_app. split_and!; [by apply list.NoDup_filter| |apply NoDup_singleton].
      intros u Hu ->%list_elem_of_singleton. by destruct (Hin _ Hu).
    + intros u [Hu| ->%list_elem_of_singleton]%elem_of_app; apply (rv_flight _ _ _ I); [by apply Hin|done].
  - intros e s2 _ Hr V2. split; [|right; by apply some_refused_last]. rewrite V2. eapply recv_view_flight; [exact I|by apply list.NoDup_filter|].
    intros u Hu. apply (rv_flight _ _ _ I). by apply Hin.
Qed.

Lemma receive_poll p s sl :
  recv_view nslots sl (view_of s) -> all_under_way sl s ->
  runs receive_call W (poll p) (fun _ s' => recv_view nslots sl (view_of s') /\ all_under_way sl s') s.
Proof.
  intros I A. destruct (view_of s) as [lv f n d v] eqn:Hs.
  assert (runs receive_call W (poll p) (fun _ s' => recv_view nslots sl (view_of s') /\
    (in_flight (calls s') ≡ₚ f \/ some_refused s')) s) as H.
  { apply (runs_poll _ _ _ _ _ _ _ _ Hs); [done|..].
    - intros e s' _ V. rewrite filter_absent in V; [by rewrite V, (flight_view _ _ _ _ _ _ V); auto|].
      intros H0. by apply (rv_nonzero _ _ _ I), (rv_flight _ _ _ I).
    - intros t s' _ _ Ht _ V. eapply runs_mono; [by eapply receive_callback|]. intros [] s2 [I2 [F2|R2]]; [|by auto].
      split; [done|]. left. rewrite F2, Permutation_app_comm. cbn. apply nodup_filter_perm; [|done].
      apply (rv_nodup _ _ _ I).
    - intros t e s' _ _ Hr. apply runs_refused; [done|by right]. }
  eapply runs_mono; [apply runs_grows, H|]. intros [] s' ((I' & F') & G). split; [done|].
  destruct A as [A|A]; [left; by eapply some_refused_grows|]. destruct F' as [F'|R']; [right|by left].
  rewrite F'. by rewrite (flight_view _ _ _ _ _ _ Hs) in A.
Qed.

(** The buffers and the tasks are deleted, whatever is under way. *)
Lemma receive_delete sl lv f n d v s :
  view_of s = MkView lv f n d v -> recv_view nslots sl (MkView lv f n d v) ->
  runs receive_call W (each (seq 0 nslots) delete_slot) (fun _ s' => view_of s' = MkView base f n d v) s.
Proof.
  intros Hs I. pose proof (rv_length _ _ _ I) as El. eapply runs_mono.
  { apply (runs_each _ _ _ _ (fun before s' => exists lv', view_of s' = MkView lv' f n d v /\
      owns base (rslots_res (drop (length before) sl)) lv')).
    - intros before k after s1 Eseq (lv1 & V1 & O1). apply seq_middle in Eseq as [-> Hk]. rewrite <- El in Hk.
      destruct (lookup_lt_is_Some_2 _ _ Hk) as [[t b] Hx]. unfold delete_slot. apply runs_get.
      rewrite (vars_view _ _ _ _ _ _ V1), (lookup_slot _ _ _ _ _ _ _ _ _ I Hx).
      rewrite (drop_S _ _ _ Hx) in O1. do 2 apply owns_remove in O1.
      eapply runs_bind; [by apply (runs_gone _ _ _ _ _ _ _ _ V1 _ (KBuf, inner_buf b))|]. intros [] s2 V2.
      eapply (runs_freed_ignore _ _ _ _ _ _ _ _ V2 _ (KTask, t)); [done|done|].
      intros s3 V3. rewrite length_app, Nat.add_1_r. eexists. split; [exact V3|exact O1].
    - exists lv. split; [done|]. rewrite drop_0. apply (rv_owns _ _ _ I). }
  intros [] s1 (lv1 & V1 & O1). rewrite length_seq, drop_ge in O1 by lia. by rewrite V1, (owns_none _ _ O1).
Qed.
End Correct.

(** ** The program *)

Section Routine.
Context {L : DocaLib} `{!DocaLaws L} (config : receive_config) (rdma_permissions : Z) (exchange : string -> string) (local : Z).
Context (Hbatch : 0 <= batch_size config).

Lemma do_rdma_receive_runs W p rdma inv lm turns s l n d v :
  view_of s = MkView l [] n d v ->
  runs (receive_call config local) W (do_rdma_receive config exchange p rdma inv local lm turns)
    (fun _ s' => exists tasks, NoDup tasks /\ Z.of_nat (length tasks) = batch_size config /\
       (forall t, t ∈ tasks -> (KTask, t) ∉ l) /\ live (calls s') = l /\
       (some_refused s' \/ in_flight (calls s') ≡ₚ tasks)) s.
Proof.
  intros Hs. unfold do_rdma_receive. fold (nslots config). apply runs_put.
  apply (view_put _ _ _ _ _ _) with (u := replicate (nslots config) None) in Hs. set (V := MkView l [] n d _) in Hs.
  set (s0 := MkDoca _ _) in *. clearbody s0. clear s v. rename s0 into s.
  do 2 (eapply runs_bind; [by apply (runs_ignore_plain _ _ _ V)|]; clear s Hs; intros [] s Hs).
  eapply runs_bind; [by apply (runs_conf _ _ _ V)|]. intros e s1 V1.
  eapply runs_bind; [by apply (runs_start_ctx _ _ _ V)|]. intros [] s2 V2.
  eapply runs_bind; [by apply (runs_export_rdma _ _ _ V)|]. intros param s3 V3.
  eapply runs_bind; [by apply (runs_unchanged _ _ _ _ _ _ _ _ V3)|]. intros [] s4 V4.
  eapply runs_bind; [by apply (runs_poll_none _ _ _ _ _ _ _ _ _ _ V4)|]. intros [] s5 V5.
  eapply runs_bind.
  { apply (runs_each _ _ _ _ (fun before s' => exists sl, recv_view config local l (length before) sl (view_of s') /\ all_under_way sl s')).
    - intros before k after s' Eseq I. apply seq_middle in Eseq as [-> Hk]. rewrite length_app, Nat.add_1_r. by apply post_receive_inv.
    - exists []. split; [|right; by rewrite (flight_view _ _ _ _ _ _ V5)]. rewrite V5.
      split; cbn; try done; [by rewrite Nat.sub_0_r|apply owns_nil|constructor|by apply not_elem_of_nil]. }
  intros [] s6 (sl & I6 & A6). rewrite length_seq in I6. eapply runs_bind.
  { apply (runs_each _ _ _ _ (fun _ s' => recv_view config local l (nslots config) sl (view_of s') /\ all_under_way sl s')); [|done].
    intros _ _ _ s' _ [I' A']. by apply receive_poll. }
  intros [] s7 [I7 A7]. destruct (view_of s7) as [lv f n' d' v'] eqn:Hs7.
  eapply runs_mono; [apply runs_grows; by eapply receive_delete|]. intros [] s8 [V8 G8]. exists (fst <$> sl). split_and!.
  - by eapply recv_tasks_nodup.
  - rewrite length_fmap, (rv_length _ _ _ _ _ _ I7). unfold nslots. lia.
  - intros t (x & -> & Hx)%list_elem_of_fmap. eapply (own_new _ _ _ (rv_owns _ _ _ _ _ _ I7)). by apply rtask_in.
  - by injection V8.
  - destruct A7 as [A7|A7]; [left; by eapply some_refused_grows|right]. rewrite (flight_view _ _ _ _ _ _ V8).
    by rewrite (flight_view _ _ _ _ _ _ Hs7) in A7.
Qed.

(** The receiver, for every behaviour of the library: it receives slot by slot inside of its
    region and submits no task that is under way.  But when it returns, all of its tasks are
    freed, and unless a call was refused, all of them are still under way; and the map, the
    engine, the progress engine and the inventory are left. *)
Theorem receiver_releases_under_way (turns : nat) (s : doca (list (option rslot))) :
  0 <= payload config -> batch_size config * payload config < 2 ^ 32 -> in_flight (calls s) = [] ->
  let '(r, s') := perform_receiver_routine config rdma_permissions exchange local turns s in
  steps (receive_call config local) (calls s) (calls s') /\
  match r with
  | Done _ => exists m rdma p inv tasks,
      live (calls s') = live (calls s) ∪ {[(KMmap, m)]} ∪ {[(KRdma, rdma)]} ∪ {[(KPe, p)]} ∪ {[(KInv, inv)]} /\
      NoDup tasks /\ Z.of_nat (length tasks) = batch_size config /\ (forall t, t ∈ tasks -> (KTask, t) ∉ live (calls s')) /\
      (some_refused s' \/ in_flight (calls s') ≡ₚ tasks)
  | Ended (Throws _ | Exits) => refused s'
  | Ended _ => False
  end.
Proof.
  intros Hp Hr Hf. apply wp_outcome. set (P := receive_call config local). set (W := fun _ : doca (list (option rslot)) => False).
  enough (runs P W (perform_receiver_routine config rdma_permissions exchange local turns) (fun _ s' => exists m rdma p inv tasks,
      live (calls s') = live (calls s) ∪ {[(KMmap, m)]} ∪ {[(KRdma, rdma)]} ∪ {[(KPe, p)]} ∪ {[(KInv, inv)]} /\
      NoDup tasks /\ Z.of_nat (length tasks) = batch_size config /\ (forall t, t ∈ tasks -> (KTask, t) ∉ live (calls s')) /\
      (some_refused s' \/ in_flight (calls s') ≡ₚ tasks)) s) as H.
  { eapply cwp_mono; [exact H|..]; cbn; [by intros [] s' [G Hx]|]. intros x s' (G & Hx). split; [exact G|]. by destruct x. }
  unfold perform_receiver_routine. destruct (view_of s) as [l f n d v] eqn:Hs.
  rewrite (flight_view _ _ _ _ _ _ Hs) in Hf. subst f. assert (live (calls s) = l) as -> by (by injection Hs).
  eapply runs_bind; [by apply (runs_mmap_new _ _ _ _ _ _ _ _ Hs)|]. intros lm0 s1 [F1 V1].
  eapply runs_bind; [by apply (runs_add_device _ _ _ _ _ _ _ _ V1)|]. intros lm s2 [E2 V2]. rewrite <- E2 in F1, V1, V2.
  eapply runs_bind; [apply (runs_memrange _ _ _ _ _ _ _ _ V2); intros tr c [->| ->]; [|done]; rewrite (wrapu_small 32) by nia; done|].
  intros [] s3 V3.
  eapply runs_bind; [apply (runs_rdma_new _ _ _ _ _ _ _ _ V3); by intros tr r c [->|[->| ->]]|]. intros rdma s4 [F4 V4].
  eapply runs_bind; [by apply (runs_ret _ _ _ (fun c s' => s' = s4))|]. intros ctx s5 ->.
  eapply runs_bind; [by apply (runs_pe_new _ _ _ _ _ _ _ _ V4)|]. intros p0 s5 [F5 V5].
  eapply runs_bind; [by apply (runs_connect_ctx _ _ _ _ _ _ _ _ V5)|]. intros p s6 [E6 V6]. rewrite <- E6 in F5, V5, V6.
  eapply runs_bind; [by apply (runs_inventory_new _ _ _ _ _ _ _ _ V6)|]. intros inv s7 [F7 V7].
  eapply runs_bind; [by apply (runs_unchanged _ _ _ _ _ _ _ _ V7)|]. intros [] s8 V8.
  eapply runs_mono; [by apply (do_rdma_receive_runs _ _ _ _ _ _ _ _ _ _ _ V8)|].
  intros [] s9 (tasks & Hn & Hlen & Hnew & Hlive & Hfl). exists (inner_mmap lm), rdma, (inner_pe p), inv, tasks.
  rewrite Hlive. done.
Qed.
End Routine.

Lemma receiver_releases_under_way_witness :
  let config := MkReceiveConfig 64 2 3 5 in
  let '(r, s') := perform_receiver_routine (L := ref_doca) config 7 (fun x => x) 4096 3 (MkDoca [] []) in
  r = Done tt /\ length (in_flight (calls s')) = 2%nat /\ steps (receive_call config 4096) [] (calls s').
Proof.
  pose proof (receiver_releases_under_way (L := ref_doca) (MkReceiveConfig 64 2 3 5) 7 (fun x => x) 4096) as H.
  specialize (H ltac:(cbn; lia) 3%nat (MkDoca [] []) ltac:(cbn; lia) ltac:(cbn; lia) eq_refl).
  cbn zeta in *. destruct (perform_receiver_routine _ _ _ _ _ _) as [r s'] eqn:E. destruct H as [H _].
  split; [|split; [|exact H]]; clear H; vm_compute in E; injection E as <- <-; reflexivity.
Defined.
