(* ===== verification/DmaLocal.v ===== *)
(** * DmaLocal: the local DMA copy

    Translation of [test_suite/dma_local_to_local_sample/dma_local_sample.cpp] and of the class
    [program_core_objects] of [utils/utils_common.cpp]: a buffer is copied by the DMA engine
    from a chain of two halves, and the result is compared with the source.

    The variables of the program are the memory.  What the engine writes is the class
    [DmaEngine]: a completed task has written the bytes of its source chain, one buffer after
    the other, to its destination. *)

From stdpp Require Import strings.
From S2P Require Import Prelude Machine PacketHdr Doca.

Class DmaEngine := {
  (** the chain of (address, length) pairs, and the destination *)
  dma_memcpy : list (Z * Z) -> Z -> mem -> mem;
}.

(** The bytes of a chain. *)
Definition chain_bytes (m : mem) (chain : list (Z * Z)) : list Z :=
  concat ((fun x => rdbytes m x.1 (Z.to_nat x.2)) <$> chain).

Class DmaEngineLaws (E : DmaEngine) := {
  dma_memcpy_bytes chain dst m a : rd8 (dma_memcpy chain dst m) a = rd8 (wrbytes m dst (chain_bytes m chain)) a;
}.

Record program_core_objects := MkCore {
  core_dev : Z; src_mmap : mmap; dst_mmap : mmap; buf_inv : Z; core_ctx : Z; core_pe : pe;
}.

Definition WORKQ_DEPTH : Z := 32.

Section Local.
Context {L : DocaLib} {E : DmaEngine}.

(** A refusal is caught and returned: [inl]. *)
Definition init_core_objects (dev ctx max_bufs : Z) : M mem (doca_error + program_core_objects) :=
  try_doca
    (src ← mmap_new;
     src ← add_device dev src;
     dst ← mmap_new;
     dst ← add_device dev dst;
     inv ← buf_inventory_new max_bufs;
     p ← pe_new;
     p ← connect_ctx ctx p;
     mret (inr (MkCore dev src dst inv ctx p)))
    (fun e => mret (inl e)).

Definition clean_all (st : program_core_objects) : M mem unit :=
  _ ← buf_inventory_delete (buf_inv st);
  _ ← pe_delete (core_pe st);
  _ ← mmap_delete (src_mmap st);
  _ ← mmap_delete (dst_mmap st);
  dev_delete (core_dev st).

Definition memory_ranges_overlap (dst_buffer src_buffer length : Z) : doca_error :=
  let dst_range_end := (dst_buffer +64 length)%cint in
  let src_range_end := (src_buffer +64 length)%cint in
  if ((src_buffer <=? dst_buffer) && (dst_buffer <? src_range_end)) ||
     ((dst_buffer <=? src_buffer) && (src_buffer <? dst_range_end))
  then DOCA_ERROR_INVALID_VALUE else DOCA_SUCCESS.

(** [memset(dst_buffer, 0, length)] *)
Definition clear (dst_buffer length : Z) : M mem unit :=
  m ← get; put (wrbytes m dst_buffer (replicate (Z.to_nat length) 0)).

(** The engine has copied when the task is completed; the callback frees the task. *)
Definition complete_callback (chain : list (Z * Z)) (dst task : Z) (task_user_data : Z) : M mem unit :=
  m ← get;
  _ ← put (dma_memcpy chain dst m);
  task_delete task.
Definition error_callback (task_user_data : Z) (status : doca_error) : M mem unit :=
  throw (DOCAException DOCA_ERROR_BAD_STATE).

Fixpoint wait_done (p : pe) (callback : Z -> M mem unit) (fuel : nat) : M mem unit :=
  n ← get_num_inflight p;
  if 0 <? n then
    match fuel with
    | O => endwith Waits
    | S fuel => _ ← poll_progress p callback error_callback; wait_done p callback fuel
    end
  else mret tt.

(** The comparison of the two buffers. *)
Fixpoint verify (dst_buffer src_buffer : Z) (idx : list nat) : M mem bool :=
  match idx with
  | [] => mret true
  | i :: idx =>
      m ← get;
      if negb (rd8 m (dst_buffer + Z.of_nat i) =? rd8 m (src_buffer + Z.of_nat i)) then mret false
      else verify dst_buffer src_buffer idx
  end.

Definition dma_local_copy (dma_job : Z) (pci_addr : string) (dst_buffer src_buffer length : Z) (fuel : nat) :
    M mem doca_error :=
  if (dst_buffer =? 0) || (src_buffer =? 0) || (length =? 0) then mret DOCA_ERROR_INVALID_VALUE
  else if decide (memory_ranges_overlap dst_buffer src_buffer length <> DOCA_SUCCESS)
  then mret (memory_ranges_overlap dst_buffer src_buffer length)
  else
    dev ← open_doca_device_with_pci pci_addr (Some dma_job);
    dma_ctx ← dma_new dev;
    ctx ← ctx_new dma_ctx;
    r ← init_core_objects dev ctx 3;
    match r with
    | inl _ => endwith Exits
    | inr st =>
        _ ← set_memrange_and_start (dst_mmap st) dst_buffer length;
        _ ← set_memrange_and_start (src_mmap st) src_buffer length;
        _ ← clear dst_buffer length;
        let half := length / 2 in
        src1 ← buf_inventory_buf_by_data (buf_inv st) (src_mmap st) src_buffer half;
        src2 ← buf_inventory_buf_by_data (buf_inv st) (src_mmap st) (src_buffer +64 half)%cint half;
        _ ← buf_append src1 src2;
        dst ← buf_inventory_buf_by_addr (buf_inv st) (dst_mmap st) dst_buffer length;
        _ ← dma_set_task_conf dma_ctx WORKQ_DEPTH;
        _ ← start_ctx (core_pe st);
        task ← dma_task_memcpy_new dma_ctx src1 dst 0;
        _ ← dma_task_set_src task src1;
        _ ← dma_task_set_dst task dst;
        e ← submit task;
        if decide (e = DOCA_SUCCESS) then
          let chain := [(raw_pointer src1, raw_size src1); (raw_pointer src2, raw_size src2)] in
          _ ← wait_done (core_pe st) (complete_callback chain (raw_pointer dst) task) fuel;
          same ← verify dst_buffer src_buffer (seq 0 (Z.to_nat length));
          if (same : bool) then
            _ ← buf_delete src1;
            _ ← buf_delete dst;
            _ ← ctx_delete ctx;
            _ ← dma_delete dma_ctx;
            _ ← clean_all st;
            mret DOCA_SUCCESS
          else mret DOCA_ERROR_INVALID_VALUE
        else endwith Exits
    end.
End Local.

(** ** The copy *)

Lemma calm_init {L : DocaLib} dev ctx n : undisturbed (init_core_objects dev ctx n).
Proof.
  unfold init_core_objects, mmap_new, add_device, buf_inventory_new, pe_new, connect_ctx, expect, insist, throw. calm.
Qed.

Lemma rdbytes_app m a n k : rdbytes m a (n + k) = rdbytes m a n ++ rdbytes m (a + Z.of_nat n) k.
Proof.
  revert a. induction n as [|n IH]; intros a; [by rewrite Z.add_0_r|].
  change (rd8 m a :: rdbytes m (a + 1) (n + k) = rd8 m a :: (rdbytes m (a + 1) n ++ rdbytes m (a + Z.of_nat (S n)) k)).
  rewrite IH. replace (a + Z.of_nat (S n)) with (a + 1 + Z.of_nat n) by lia. done.
Qed.

Section Copy.
Context {L : DocaLib} `{!DocaLaws L} {E : DmaEngine} `{!DmaEngineLaws E}.

(** How the program may end without a result. *)
Definition interrupted (x : ending) (s : doca mem) : Prop :=
  raised x \/ x = Waits /\ in_flight (calls s) <> [].

Lemma wp_calm {A B} (m : M mem A) (f : A -> M mem B) Q s :
  undisturbed m -> (forall a s1, same_state s s1 -> wp (f a) Q interrupted s1) -> wp (m ≫= f) Q interrupted s.
Proof.
  intros Hm Hf. apply cwp_bind. eapply cwp_mono; [apply Hm|..]; cbn; [auto|]. intros x s' [Hx _]. by left.
Qed.

Lemma wp_buf {B} (by_data : bool) inv m addr len (f : buf -> M mem B) Q s :
  (forall b s1, raw_pointer b = addr -> raw_size b = len -> same_state s s1 -> wp (f b) Q interrupted s1) ->
  wp (b ← (if by_data then buf_inventory_buf_by_data else buf_inventory_buf_by_addr) inv m addr len; f b) Q interrupted s.
Proof.
  intros Hf. apply cwp_bind. destruct by_data; apply cwp_bind, cwp_expect; intros _; try (by left);
    apply cwp_ret; apply Hf; try done; (split; [done|]); cbn; by rewrite flight_snoc.
Qed.

Lemma wp_wait_done p chain dst t fuel s :
  t <> 0 -> in_flight (calls s) = [t] ->
  wp (wait_done p (complete_callback chain dst t) fuel)
    (fun _ s' => vars s' = dma_memcpy chain dst (vars s)) interrupted s.
Proof.
  intros Ht. revert s. induction fuel as [|fuel IH]; intros s Hf; cbn [wait_done]; apply cwp_bind, cwp_expect; intros Ha;
    try (by left); pose proof (num_inflight _ _ Ha) as En; rewrite Hf in En; rewrite En; cbn [length].
  - apply cwp_end. right. split; [done|]. by rewrite flight_called, Hf.
  - cbn [Z.ltb Z.compare Z.of_nat Pos.of_succ_nat]. set (s1 := called _ s).
    assert (in_flight (calls s1) = [t]) as F1 by (unfold s1; by rewrite flight_called, Hf).
    apply cwp_bind. unfold poll_progress. apply cwp_bind, cwp_call. set (c := PeProgress (inner_pe p)).
    set (s2 := called c s1). assert (in_flight (calls s2) = filter (fun t' => t' <> stored (calls s1) c) [t]) as F2
      by (unfold s2; by rewrite flight_called, F1).
    pose proof (progress_task (calls s1) (inner_pe p)) as Hp. fold c in Hp. rewrite F1 in Hp. cbn [ev_out ev_err event_of].
    destruct (truthy _) eqn:Hz; unfold truthy in Hz.
    + apply negb_true_iff, Z.eqb_neq in Hz. specialize (Hp Hz). apply list_elem_of_singleton in Hp. rewrite Hp in F2.
      rewrite filter_cons_False in F2 by (intros H; by apply H). apply cwp_bind, cwp_history. destruct (ok _); [|by apply cwp_end; left].
      unfold complete_callback. apply cwp_bind, cwp_get, cwp_bind, cwp_put.
      unfold task_delete, ignore. apply cwp_bind, cwp_call, cwp_ret.
      set (s3 := called _ _). assert (in_flight (calls s3) = []) as F3 by (unfold s3; rewrite flight_called; exact F2).
      destruct fuel; cbn [wait_done]; apply cwp_bind, cwp_expect; intros Ha3; try (by left);
        pose proof (num_inflight _ _ Ha3) as En3; rewrite F3 in En3; rewrite En3; by apply cwp_ret.
    + apply negb_false_iff, Z.eqb_eq in Hz. rewrite Hz, filter_cons_True in F2 by done. apply cwp_ret.
      eapply cwp_mono; [by apply IH| |done]. done.
Qed.

Lemma verify_spec dst src idx s :
  verify dst src idx s =
    (Done (forallb (fun i => rd8 (vars s) (dst + Z.of_nat i) =? rd8 (vars s) (src + Z.of_nat i)) idx), s).
Proof.
  induction idx as [|i idx IH]; cbn [verify forallb]; [done|]. unfold mbind, M_bind, get.
  destruct (_ =? _); cbn [negb andb]; [exact IH|done].
Qed.

(** The destination after the copy of two halves: all bytes but the last one of an odd length,
    which is zero; other addresses are untouched. *)
Lemma copied_bytes m dst src len a :
  0 <= len -> dst + len <= src \/ src + len <= dst ->
  let half := len / 2 in
  rd8 (dma_memcpy [(src, half); (src + half, half)] dst (wrbytes m dst (replicate (Z.to_nat len) 0))) a =
    if decide (dst <= a < dst + 2 * half) then rd8 m (src + (a - dst))
    else if decide (dst <= a < dst + len) then 0 else rd8 m a.
Proof.
  cbn zeta. intros Hl Hd. set (half := len / 2). assert (0 <= half /\ len - 1 <= 2 * half <= len) as Hh by (unfold half; mlia).
  set (m0 := wrbytes m dst _).
  assert (forall b, rd8 m0 b = if decide (dst <= b < dst + len) then 0 else rd8 m b) as E0.
  { intros b. unfold m0. rewrite rd8_wrbytes, length_replicate, Z2Nat.id by lia. case_decide; [|done].
    rewrite lookup_replicate_2 by lia. done. }
  assert (chain_bytes m0 [(src, half); (src + half, half)] = rdbytes m src (Z.to_nat (2 * half))) as Ec.
  { unfold chain_bytes. cbn. rewrite app_nil_r, !(rdbytes_ext m0 m) by (intros b Hb; rewrite E0; by rewrite decide_False by lia).
    rewrite <- (Z2Nat.id half) at 2 by lia. rewrite <- rdbytes_app. f_equal. lia. }
  rewrite dma_memcpy_bytes, Ec, rd8_wrbytes, length_rdbytes, Z2Nat.id, E0 by lia. case_decide; [|done].
  rewrite rdbytes_lookup by lia. cbn. rewrite Z2Nat.id by lia. apply wrapu_small, rd8_range.
Qed.

(** The test for overlap. *)
Lemma overlap_spec dst src len :
  0 <= dst -> 0 <= src -> 0 < len -> dst + len < 2 ^ 64 -> src + len < 2 ^ 64 ->
  memory_ranges_overlap dst src len = DOCA_SUCCESS <-> dst + len <= src \/ src + len <= dst.
Proof.
  intros. unfold memory_ranges_overlap. rewrite !wrapu_small by lia.
  destruct (_ || _) eqn:Eo; (split; [|]); intros H'; try done.
  - exfalso. rewrite orb_true_iff, !andb_true_iff, !Z.leb_le, !Z.ltb_lt in Eo. lia.
  - rewrite orb_false_iff, !andb_false_iff, !Z.leb_gt, !Z.ltb_ge in Eo. lia.
Qed.

Lemma wp_verify {B} dst src len (f : bool -> M mem B) Q s :
  wp (f (forallb (fun i => rd8 (vars s) (dst + Z.of_nat i) =? rd8 (vars s) (src + Z.of_nat i)) (seq 0 len))) Q interrupted s ->
  wp (same ← verify dst src (seq 0 len); f same) Q interrupted s.
Proof. intros H. apply cwp_bind. unfold wp at 1. by rewrite verify_spec. Qed.

(** What a result says about the memory before and after. *)
Definition local_copied (dst src len : Z) (e : doca_error) (m m' : mem) : Prop :=
  e = DOCA_SUCCESS /\ rdbytes m' dst (Z.to_nat len) = rdbytes m src (Z.to_nat len) /\
    (forall a, ~ dst <= a < dst + len -> rd8 m' a = rd8 m a) \/
  e = DOCA_ERROR_INVALID_VALUE /\ len mod 2 = 1 /\ rd8 m (src + len - 1) <> 0.

Lemma copied_result dst src len m :
  0 < len -> dst + len <= src \/ src + len <= dst ->
  let half := len / 2 in
  let m' := dma_memcpy [(src, half); (src + half, half)] dst (wrbytes m dst (replicate (Z.to_nat len) 0)) in
  let same := forallb (fun i => rd8 m' (dst + Z.of_nat i) =? rd8 m' (src + Z.of_nat i)) (seq 0 (Z.to_nat len)) in
  local_copied dst src len (if same then DOCA_SUCCESS else DOCA_ERROR_INVALID_VALUE) m m'.
Proof.
  cbn zeta. intros Hl Hd. set (half := len / 2). set (m' := dma_memcpy _ _ _). set (same := forallb _ _).
  assert (0 <= half /\ len = 2 * half + len mod 2 /\ 0 <= len mod 2 < 2) as (Hh & Eh & Hm) by (unfold half; mlia).
  pose proof (fun a => copied_bytes m dst src len a ltac:(lia) Hd) as Hc. cbn zeta in Hc. fold half m' in Hc.
  destruct same eqn:Es; unfold same in Es.
  - left. split; [done|]. rewrite forallb_forall in Es. split.
    + apply list_eq_same_length with (n := Z.to_nat len); rewrite ?length_rdbytes; try done.
      intros i x y Hi. rewrite !rdbytes_lookup by done. intros [= <-] [= <-].
      specialize (Es i). rewrite in_seq, Z.eqb_eq in Es. rewrite Es by lia. rewrite (Hc (src + Z.of_nat i)).
      rewrite !decide_False by lia. done.
    + intros a Ha. rewrite Hc. rewrite !decide_False by lia. done.
  - right. split; [done|]. apply not_true_iff_false in Es. rewrite forallb_forall in Es.
    destruct (decide (len mod 2 = 1 /\ rd8 m (src + len - 1) <> 0)) as [|Hno]; [done|]. exfalso. apply Es.
    intros i [_ Hi]%in_seq. apply Z.eqb_eq. rewrite !Hc.
    rewrite (decide_False (P := dst <= src + Z.of_nat i < dst + 2 * half)), (decide_False (P := dst <= src + Z.of_nat i < dst + len)) by lia.
    destruct (decide (dst <= dst + Z.of_nat i < dst + 2 * half)); [f_equal; lia|]. rewrite decide_True by lia.
    assert (len mod 2 = 1 /\ Z.of_nat i = len - 1) as [H1 H2] by lia.
    destruct (decide (rd8 m (src + len - 1) = 0)) as [H0|]; [|tauto]. rewrite <- H0. f_equal. lia.
Qed.

(** The part after the objects are made. *)
Lemma wp_submit_and_verify dst src len dma ctx st src1 src2 dstb fuel (s : doca mem) (m : mem) :
  0 < len -> dst + len <= src \/ src + len <= dst -> in_flight (calls s) = [] ->
  vars s = wrbytes m dst (replicate (Z.to_nat len) 0) ->
  raw_pointer src1 = src -> raw_size src1 = len / 2 -> raw_pointer src2 = src + len / 2 -> raw_size src2 = len / 2 ->
  raw_pointer dstb = dst ->
  wp (task ← dma_task_memcpy_new dma src1 dstb 0;
      _ ← dma_task_set_src task src1;
      _ ← dma_task_set_dst task dstb;
      e ← submit task;
      if decide (e = DOCA_SUCCESS) then
        _ ← wait_done (core_pe st) (complete_callback [(raw_pointer src1, raw_size src1); (raw_pointer src2, raw_size src2)]
              (raw_pointer dstb) task) fuel;
        same ← verify dst src (seq 0 (Z.to_nat len));
        if (same : bool) then
          _ ← buf_delete src1; _ ← buf_delete dstb; _ ← ctx_delete ctx; _ ← dma_delete dma; _ ← clean_all st; mret DOCA_SUCCESS
        else mret DOCA_ERROR_INVALID_VALUE
      else endwith Exits) (fun e s' => local_copied dst src len e m (vars s')) interrupted s.
Proof.
  intros Hl Hd Hf Hm P1 S1 P2 S2 P3. rewrite P1, S1, P2, S2, P3.
  unfold dma_task_memcpy_new. apply cwp_bind, cwp_expect; intros Ha; [|by left].
  destruct (made_fresh _ _ KTask Ha eq_refl) as [Ht _]. set (t := stored _ _) in *. set (s1 := called _ s).
  assert (in_flight (calls s1) = [] /\ vars s1 = vars s) as [F1 E1] by (unfold s1; by rewrite flight_called, Hf).
  apply wp_calm; [unfold dma_task_set_src, ignore; calm|]. intros _ s2 [E2 F2].
  apply wp_calm; [unfold dma_task_set_dst, ignore; calm|]. intros _ s3 [E3 F3].
  unfold submit. apply cwp_bind, cwp_bind, cwp_call, cwp_ret. cbn [ev_err event_of].
  destruct (decide _) as [Ea|Ea]; [|by apply cwp_end; left]. set (s4 := called _ s3).
  assert (in_flight (calls s4) = [t]) as F4.
  { unfold s4. rewrite flight_called. unfold flight_step. cbn. by rewrite decide_True, F3, F2, F1. }
  apply cwp_bind. eapply cwp_mono; [by apply wp_wait_done| |done]. cbn. intros _ s5 E5.
  change (vars s4) with (vars s3) in E5. rewrite E3, E2, E1, Hm in E5. apply wp_verify. rewrite E5.
  pose proof (copied_result dst src len m Hl Hd) as Hr. cbn zeta in Hr. destruct (forallb _ _).
  - destruct Hr as [Hr|[? _]]; [|done].
    do 5 (apply wp_calm; [unfold buf_delete, ctx_delete, ctx_stop, dma_delete, clean_all, buf_inventory_delete, pe_delete,
      mmap_delete, dev_delete; calm|intros ? ? [? _]]).
    apply cwp_ret. left. rewrite <- E5 in Hr. match goal with |- context [vars ?x] => by replace (vars x) with (vars s5) by congruence end.
  - apply cwp_ret. by rewrite E5.
Qed.

(** C28.  The local copy, for every behaviour of the library.  Null pointers, a zero length and
    overlapping buffers are refused before any call.  Otherwise success means that the whole
    source is in the destination and nothing else has changed; the other result occurs only
    for an odd length, of which the two halves leave the last byte out, unless that byte is
    zero.  No result means an exception, or that the task is still under way. *)
Theorem local_copy_verified (dma_job : Z) (pci : string) (dst src len : Z) (fuel : nat) (s : doca mem) :
  0 <= dst -> 0 <= src -> 0 <= len -> dst + len < 2 ^ 64 -> src + len < 2 ^ 64 -> in_flight (calls s) = [] ->
  let '(r, s') := dma_local_copy dma_job pci dst src len fuel s in
  match r with
  | Done e =>
      if decide (dst = 0 \/ src = 0 \/ len = 0 \/ ~ (dst + len <= src \/ src + len <= dst))
      then e = DOCA_ERROR_INVALID_VALUE /\ s' = s
      else local_copied dst src len e (vars s) (vars s')
  | Ended x => interrupted x s'
  end.
Proof.
  intros Hd Hs Hl Bd Bs Hf. apply (wp_outcome _ (fun r s' => match r with Done e => _ | Ended x => interrupted x s' end)).
  change (wp (dma_local_copy dma_job pci dst src len fuel) (fun e s' =>
    if decide (dst = 0 \/ src = 0 \/ len = 0 \/ ~ (dst + len <= src \/ src + len <= dst))
    then e = DOCA_ERROR_INVALID_VALUE /\ s' = s else local_copied dst src len e (vars s) (vars s')) interrupted s).
  unfold dma_local_copy. destruct (_ || _ || _) eqn:E0.
  { apply cwp_ret. rewrite decide_True; [done|]. rewrite !orb_true_iff, !Z.eqb_eq in E0. tauto. }
  rewrite !orb_false_iff, !Z.eqb_neq in E0. destruct E0 as [[H1 H2] H3].
  pose proof (overlap_spec dst src len Hd Hs ltac:(lia) Bd Bs) as Ho.
  destruct (decide (memory_ranges_overlap dst src len <> DOCA_SUCCESS)) as [Hov|Hov].
  { apply cwp_ret. rewrite decide_True by tauto. split; [|done]. unfold memory_ranges_overlap in *. by destruct (_ || _). }
  assert (dst + len <= src \/ src + len <= dst) as Hdis by (apply Ho; destruct (decide (memory_ranges_overlap dst src len = DOCA_SUCCESS)); tauto).
  eapply (cwp_mono _ (fun e s' => local_copied dst src len e (vars s) (vars s'))); [|intros e s'; by rewrite decide_False by tauto|done].
  apply wp_calm; [apply calm_open|]. intros dev s1 [E1 F1].
  apply wp_calm; [unfold dma_new; calm|]. intros dma s2 [E2 F2].
  apply wp_calm; [unfold ctx_new; calm|]. intros ctx s3 [E3 F3].
  apply wp_calm; [apply calm_init|]. intros [e|st] s4 [E4 F4]; [by apply cwp_end; left|].
  do 2 (apply wp_calm; [unfold set_memrange_and_start, mmap_set_memrange, mmap_start; calm|intros ? ? [? ?]]).
  unfold clear. apply cwp_bind, cwp_bind, cwp_get, cwp_put.
  apply (wp_buf true). intros src1 s7 P1 S1 [E7 F7]. apply (wp_buf true). intros src2 s8 P2 S2 [E8 F8].
  apply wp_calm; [unfold buf_append; calm|]. intros _ s9 [E9 F9].
  apply (wp_buf false). intros dstb s10 P3 _ [E10 F10].
  apply wp_calm; [unfold dma_set_task_conf; calm|]. intros _ s11 [E11 F11].
  apply wp_calm; [apply calm_each; intros c; unfold ctx_start; calm|]. intros _ s12 [E12 F12].
  rewrite wrapu_small in P2 by mlia. cbn [vars calls] in *.
  apply wp_submit_and_verify; try done; [lia|congruence|]. congruence.
Qed.
End Copy.

(** The engine that does just this. *)
#[export] Instance ref_dma : DmaEngine := {| dma_memcpy chain dst m := wrbytes m dst (chain_bytes m chain) |}.
#[export] Instance ref_dma_laws : DmaEngineLaws ref_dma.
Proof. by split. Qed.

(** Three bytes, of which the last one is not copied. *)
Lemma local_copy_verified_witness :
  let m := wrbytes ∅ 200 [1; 2; 3] in
  let '(r, s') := dma_local_copy (L := ref_doca) 0 "03:00.1" 100 200 3 5 (MkDoca [] m) in
  r = Done DOCA_ERROR_INVALID_VALUE /\ rdbytes (vars s') 100 3 = [1; 2; 0] /\
  local_copied 100 200 3 DOCA_ERROR_INVALID_VALUE m (vars s').
Proof.
  cbn zeta. pose proof (local_copy_verified (L := ref_doca) 0 "03:00.1" 100 200 3 5 (MkDoca [] (wrbytes ∅ 200 [1; 2; 3]))) as H.
  specialize (H ltac:(lia) ltac:(lia) ltac:(lia) ltac:(lia) ltac:(lia) eq_refl).
  destruct (dma_local_copy _ _ _ _ _ _ _) as [r s'] eqn:E.
  assert (r = Done DOCA_ERROR_INVALID_VALUE /\ rdbytes (vars s') 100 3 = [1; 2; 0]) as [-> E2].
  { vm_compute in E. injection E as <- <-. split; reflexivity. }
  split; [reflexivity|]. split; [exact E2|]. rewrite decide_False in H by lia. exact H.
Defined.
