(* ===== verification/DmaExport.v ===== *)
(** * DmaExport: the exporter of the DMA benchmark and what it sends

    Translation of [test_suite/dma_copy_bench/exporter.cpp], of the class [doca_conn_info] of
    [utils/utils_common.h] and of the part of the importer that reads the message.  The
    message [conn_proto] is that of [utils/proto/dma_connect.proto]; its encoding and the UDP
    socket are not modelled: the variables of the exporter are the messages it has sent. *)

From stdpp Require Import strings.
From S2P Require Import Prelude Doca.

Record doca_conn_info := MkConnInfo { exports : list string; buffers : list (Z * Z) }.

(** [dma_connect::doca_conn_info] *)
Record conn_proto := MkProto { p_exports : list string; p_buffers_ptr : list Z; p_buffers_size : list Z }.

Definition to_protobuf (info : doca_conn_info) : conn_proto :=
  let m := foldl (fun m e => MkProto (p_exports m ++ [e]) (p_buffers_ptr m) (p_buffers_size m))
             (MkProto [] [] []) (exports info) in
  foldl (fun m p => MkProto (p_exports m) (p_buffers_ptr m ++ [p.1]) (p_buffers_size m ++ [p.2])) m (buffers info).

(** [None] is a read beyond [buffers_size]. *)
Fixpoint read_buffers (ptrs sizes : list Z) : option (list (Z * Z)) :=
  match ptrs, sizes with
  | [], _ => Some []
  | p :: ptrs, n :: sizes => l ← read_buffers ptrs sizes; mret ((p, n) :: l)
  | _ :: _, [] => None
  end.
Definition from_protobuf (m : conn_proto) : option doca_conn_info :=
  l ← read_buffers (p_buffers_ptr m) (p_buffers_size m); mret (MkConnInfo (p_exports m) l).

(** [info.exports[0]] and [info.buffers[0]] of [bootstrap_importer]. *)
Definition import_config (info : doca_conn_info) : option (string * (Z * Z)) :=
  e ← exports info !! 0%nat; b ← buffers info !! 0%nat; mret (e, b).

Section Exporter.
Context {L : DocaLib}.

(** [DOCA_ACCESS_FLAG_PCI_READ_WRITE] *)
Context (pci_read_write : Z).

(** [src_buffer] is the memory [get_huge_mem] gave. *)
Definition perform_exporter_routine (thread_id : Z) (pci_address : string) (src_buffer mmap_length : Z) :
    M (list conn_proto) unit :=
  if 0 <? thread_id then mret tt
  else
    dev ← open_doca_device_with_pci pci_address None;
    src_mmap ← mmap_new;
    src_mmap ← add_device dev src_mmap;
    _ ← set_permissions src_mmap pci_read_write;
    _ ← set_memrange_and_start src_mmap src_buffer mmap_length;
    es ← export_dpus src_mmap;
    sent ← get;
    _ ← put (sent ++ [to_protobuf (MkConnInfo es [(src_buffer, mmap_length)])]);
    _ ← mmap_delete src_mmap;
    dev_delete dev.
End Exporter.

(** ** The message *)

Lemma to_protobuf_spec info :
  to_protobuf info = MkProto (exports info) (fst <$> buffers info) (snd <$> buffers info).
Proof.
  unfold to_protobuf. destruct info as [es bs]. cbn [exports buffers].
  assert (forall es m, foldl (fun m e => MkProto (p_exports m ++ [e]) (p_buffers_ptr m) (p_buffers_size m)) m es =
    MkProto (p_exports m ++ es) (p_buffers_ptr m) (p_buffers_size m)) as H1.
  { clear. induction es as [|e es IH]; intros [a b c]; cbn; [by rewrite app_nil_r|]. rewrite IH. cbn. by rewrite <- app_assoc. }
  rewrite H1. cbn.
  assert (forall bs m, foldl (fun m p => MkProto (p_exports m) (p_buffers_ptr m ++ [p.1]) (p_buffers_size m ++ [p.2])) m bs =
    MkProto (p_exports m) (p_buffers_ptr m ++ (fst <$> bs)) (p_buffers_size m ++ (snd <$> bs))) as H2.
  { clear. induction bs as [|p bs IH]; intros [a b c]; cbn; [by rewrite !app_nil_r|]. rewrite IH. cbn. by rewrite <- !app_assoc. }
  by rewrite H2.
Qed.

(** What is sent is what is received. *)
Theorem conn_info_round_trip (info : doca_conn_info) : from_protobuf (to_protobuf info) = Some info.
Proof.
  rewrite to_protobuf_spec. destruct info as [es bs]. unfold from_protobuf. cbn.
  assert (read_buffers (fst <$> bs) (snd <$> bs) = Some bs) as ->; [|done].
  induction bs as [|[p n] bs IH]; [done|]. cbn. by rewrite IH.
Qed.

(** ** The exporter *)

(** One message more, which reads as the buffer and the export of its started map. *)
Definition handed_over {L : DocaLib} (src_buffer mmap_length : Z) (s s' : doca (list conn_proto)) : Prop :=
  exists m dev h msg, vars s' = vars s ++ [msg] /\
    (info ← from_protobuf msg; import_config info) =
      Some (text h (MmapExportPci m dev), (src_buffer, mmap_length)) /\
    h `prefix_of` calls s' /\ (exists z, Ev (MmapSetMemrange m src_buffer mmap_length) DOCA_SUCCESS z ∈ h) /\
    (exists z, Ev (MmapStart m) DOCA_SUCCESS z ∈ h).

(** The exporting thread sends one message, and the importer that reads it gets the address and
    the length of the buffer with the export of a map that covers just this buffer and is
    started.  The other threads send nothing. *)
Theorem export_reaches_importer {L : DocaLib} (pci_read_write thread_id : Z) (pci : string) (src_buffer mmap_length : Z)
    (s : doca (list conn_proto)) :
  let '(r, s') := perform_exporter_routine pci_read_write thread_id pci src_buffer mmap_length s in
  match r with
  | Done _ =>
      if 0 <? thread_id then s' = s
      else handed_over src_buffer mmap_length s s'
  | Ended x => raised x
  end.
Proof.
  apply (wp_outcome _ (fun r s' => match r with
    | Done _ => if 0 <? thread_id then s' = s else handed_over src_buffer mmap_length s s' | Ended x => raised x end)).
  unfold perform_exporter_routine. destruct (0 <? thread_id); [by apply cwp_ret|]. apply cwp_bind.
  eapply cwp_mono; [apply calm_open| |by intros x s' [H _]]. cbn beta. intros dev s1 [E1 _].
  unfold mmap_new. apply cwp_bind, cwp_bind, cwp_insist; intros A2; [|done]. apply cwp_ret. set (m := stored _ _). set (s2 := called _ s1).
  unfold add_device. apply cwp_bind, cwp_bind, cwp_expect; intros A3; [|done]. apply cwp_ret. set (s3 := called _ s2).
  unfold set_permissions. apply cwp_bind, cwp_bind, cwp_expect; intros A4; [|done]. apply cwp_ret. set (s4 := called _ s3).
  unfold set_memrange_and_start, mmap_set_memrange, mmap_start. cbn [inner_mmap added_devs app].
  apply cwp_bind, cwp_bind, cwp_bind, cwp_expect; intros A5; [|done]. apply cwp_ret. set (c5 := MmapSetMemrange _ _ _) in *. set (s5 := called c5 s4).
  apply cwp_bind, cwp_expect; intros A6; [|done]. apply cwp_ret. set (c6 := MmapStart m) in *. set (s6 := called c6 s5).
  unfold export_dpus. cbn [added_devs length seq export_from]. unfold export_dpu. cbn [added_devs lookup list_lookup inner_mmap].
  apply cwp_bind, cwp_bind, cwp_bind, cwp_history, cwp_bind, cwp_expect; intros A7; [|done]. apply cwp_ret, cwp_ret.
  set (s7 := called _ s6). cbn [app]. apply cwp_bind, cwp_get, cwp_bind, cwp_put. set (msg := to_protobuf _). set (s8 := MkDoca _ _).
  unfold mmap_delete. apply cwp_bind, cwp_bind, cwp_expect; intros A8; [|done]. apply cwp_ret.
  unfold dev_delete, ignore. apply cwp_bind, cwp_call, cwp_ret. exists m, dev, (calls s6), msg. split_and!.
  - cbn. by rewrite E1.
  - unfold msg. by rewrite conn_info_round_trip.
  - etrans; [apply (prefix_called (MmapExportPci m dev) s6)|]. etrans; [|apply prefix_called]. apply (prefix_called _ s8).
  - exists (stored (calls s4) c5). rewrite <- A5. eapply elem_of_prefix; [apply (called_in c5 s4)|apply prefix_called].
  - exists (stored (calls s5) c6). rewrite <- A6. apply (called_in c6 s5).
Qed.

Example export_example :
  let '(r, s') := perform_exporter_routine (L := ref_doca) 3 0 "03:00.1" 4096 128 (MkDoca [] []) in
  r = Done tt /\ vars s' = [MkProto ["mlx5_1"%string] [4096] [128]].
Proof. vm_compute. split; reflexivity. Qed.
