(* ===== verification/BenchRunner.v ===== *)
(** * BenchRunner: threads, counters and reports of the host benchmarks

    Translation of [utils/hs_clock.h] ([Timer]), [utils/bench/reporter.h] ([bench_stat],
    [collected_bench_stat]), [simple_reporter.h], the aggregation of
    [coordinated_reporter.h], [bench.h] ([bench_runner]) and the functions of
    [utils/numautil.cpp] that choose cores and allocate huge pages.

    The clocks are arguments: an operation that reads a clock takes the nanoseconds since the
    epoch.  A worker's operations on its counters are a list of [stat_op].  What libnuma and
    the kernel answer is the class [NumaLib] and, for the loop of [get_huge_mem], the list of
    answers of [shmget]. *)

From S2P Require Import Prelude Binary64.

(** ** Timers *)

(** The durations are 64-bit signed counts of nanoseconds.  C++ leaves their overflow
    undefined; it is modelled as the wrap-around of the machine's addition, which is what the
    sums of clock readings below rely on: the sum over many operations exceeds [2 ^ 63]. *)
Record Timer := MkTimer { t1 : Z; t2 : Z; time_point : Z }.

Definition Timer_new : Timer := MkTimer 0 0 0.
Definition Timer_at (p : Z) : Timer := MkTimer 0 0 p.
Definition Timer_plus (l r : Timer) : Timer := Timer_at (s64 (time_point l + time_point r)).
Definition Timer_minus (l r : Timer) : Timer := Timer_at (s64 (time_point l - time_point r)).
Definition tic (now : Z) (t : Timer) : Timer := MkTimer now (t2 t) (time_point t).
Definition toc (now : Z) (t : Timer) : Z * Timer :=
  (Z.quot (s64 (now - t1 t)) 1000, MkTimer (t1 t) now (time_point t)).
Definition toc_ns (now : Z) (t : Timer) : Z * Timer := (s64 (now - t1 t), MkTimer (t1 t) now (time_point t)).
(** [count()] is signed, [num_ops] is not: the product is unsigned. *)
Definition clock_ops (now num_ops : Z) : Z := s64 (u64 (now * num_ops)).
Definition minus_now_time (now num_ops : Z) (t : Timer) : Timer :=
  MkTimer (t1 t) (t2 t) (s64 (time_point t - clock_ops now num_ops)).
Definition add_now_time (now num_ops : Z) (t : Timer) : Timer :=
  MkTimer (t1 t) (t2 t) (s64 (time_point t + clock_ops now num_ops)).
Definition Timer_reset (now now' : Z) : Timer := MkTimer now now' 0.

(** ** The counters of a worker *)

Record bench_stat := MkStat { num_ops_finished : Z; timer : Timer }.

Definition stat_new : bench_stat := MkStat 0 Timer_new.
Definition stat_plus (l r : bench_stat) : bench_stat :=
  MkStat (num_ops_finished l +64 num_ops_finished r)%cint (Timer_plus (timer l) (timer r)).
Definition stat_minus (l r : bench_stat) : bench_stat :=
  MkStat (num_ops_finished l -64 num_ops_finished r)%cint (Timer_minus (timer l) (timer r)).
Definition stat_reset (now now' : Z) : bench_stat := MkStat 0 (Timer_reset now now').
Definition start_batch_op (now num_ops : Z) (s : bench_stat) : bench_stat :=
  MkStat (num_ops_finished s) (minus_now_time now num_ops (timer s)).
Definition start_one_op (now : Z) (s : bench_stat) : bench_stat :=
  MkStat (num_ops_finished s) (minus_now_time now 1 (timer s)).
Definition finish_one_op_without_time (s : bench_stat) : bench_stat :=
  MkStat (num_ops_finished s +64 1)%cint (timer s).
Definition finish_one_op (now : Z) (s : bench_stat) : bench_stat :=
  MkStat (num_ops_finished s +64 1)%cint (add_now_time now 1 (timer s)).
Definition finish_batch_op (now num_ops : Z) (s : bench_stat) : bench_stat :=
  MkStat (num_ops_finished s +64 num_ops)%cint (add_now_time now num_ops (timer s)).

(** ** Reports *)

(** Doubles are their 64 bits. *)
Record collected_bench_stat := MkCollected { throughtput : Z; avg_latency : Z; stat_id : Z }.

Definition collected_add (l r : collected_bench_stat) : collected_bench_stat :=
  MkCollected (dadd (throughtput l) (throughtput r))
    (ddiv (dadd (avg_latency l) (avg_latency r)) (double_of_Z 2)) (stat_id l).

Record simple_reporter := MkReporter { last_stat : bench_stat; last_record_time : Z; reporter_id : Z }.

Definition simple_reporter_new (now : Z) : simple_reporter := MkReporter stat_new now 0.

(** [for (auto &stat: stats) new_stat = new_stat + *stat;] *)
Definition collect (stats : list bench_stat) : bench_stat := foldl stat_plus stat_new stats.

(** The product of [gap_time] with 1.0 is [gap_time]. *)
Definition report_collect (stats : list bench_stat) (now_point : Z) (r : simple_reporter) :
    collected_bench_stat * simple_reporter :=
  let new_stat := collect stats in
  let gap_stat := stat_minus new_stat (last_stat r) in
  let gap_time := double_of_Z (Z.quot (s64 (now_point - last_record_time r)) 1000) in
  let throughput := ddiv (double_of_Z (num_ops_finished gap_stat)) gap_time in
  let avg_latency := ddiv (double_of_Z (time_point (timer gap_stat))) (double_of_Z (num_ops_finished gap_stat)) in
  (MkCollected throughput avg_latency 0, MkReporter new_stat now_point (reporter_id r)).

(** The aggregation over the workers that have reported in the last 1.5 seconds.  The result
    starts from the variable [res], which is not initialised. *)
Fixpoint arggregrate_stats (cur_time : Z) (last_stats : list collected_bench_stat) (last_records : list Z)
    (res : collected_bench_stat) : option collected_bench_stat :=
  match last_stats, last_records with
  | [], _ => Some res
  | s :: last_stats, t :: last_records =>
      arggregrate_stats cur_time last_stats last_records
        (if cur_time - t <? 1500 * 1000000 then collected_add res s else res)
  | _ :: _, [] => None
  end.

(** A received report; [None] is a write outside of the vectors. *)
Definition record_report (receive_stat : collected_bench_stat) (current_time : Z)
    (last_stats : list collected_bench_stat) (last_records : list Z) :
    option (list collected_bench_stat * list Z) :=
  let id := Z.to_nat (stat_id receive_stat) in
  if (id <? length last_stats)%nat && (id <? length last_records)%nat then
    Some (<[id := receive_stat]> last_stats, <[id := current_time]> last_records)
  else None.

(** ** NUMA nodes *)

Class NumaLib := {
  numa_max_node : Z;
  numa_num_configured_cpus : Z;
  numa_num_configured_nodes : Z;
  numa_node_of_cpu : Z -> Z;
}.

Section Numa.
Context {N : NumaLib}.

Definition num_lcores_per_numa_node : Z := Z.quot numa_num_configured_cpus numa_num_configured_nodes.

(** [None] is the failed assertion. *)
Definition get_lcores_for_numa_node (numa_node : Z) : option (list Z) :=
  if numa_node <=? u64 numa_max_node then
    Some (filter (fun i => numa_node = u64 (numa_node_of_cpu i))
            (seqZ 0 (u64 numa_num_configured_cpus)))
  else None.

Inductive binding := Bound (cpu : Z) | Ignored | BindThrows.

(** [affinity_ok cpu] says that [pthread_setaffinity_np] accepts it. *)
Definition bind_to_core (affinity_ok : Z -> bool) (numa_node numa_local_index : Z) : binding :=
  match get_lcores_for_numa_node numa_node with
  | None => BindThrows
  | Some lcore_vec =>
      if Z.of_nat (length lcore_vec) <=? numa_local_index then Ignored
      else
        match lcore_vec !! Z.to_nat numa_local_index with
        | None => BindThrows
        | Some global_index => if affinity_ok global_index then Bound global_index else BindThrows
        end
  end.

(** An answer of [shmget]. *)
Inductive shm_answer := Shm (shm_id : Z) | EEXIST | EACCES | EINVAL | ENOMEM | OtherErrno.
Inductive huge_result := HugeMem (shm_buf size nodemask : Z) | HugeExits | HugeThrows | HugeTries.

Definition round_up (num factor : Z) : Z := u64 (u64 (num + factor - 1) - u64 (num + factor - 1) mod factor).

(** The answers of [shmget] are given one by one; [shmat] gives the buffer of an identifier. *)
Fixpoint get_huge_mem (shmat : Z -> Z) (mbind_ok : Z -> bool) (numa_node size : Z) (answers : list shm_answer) :
    huge_result :=
  match answers with
  | [] => HugeTries
  | EEXIST :: answers => get_huge_mem shmat mbind_ok numa_node size answers
  | Shm shm_id :: _ =>
      let shm_buf := shmat shm_id in
      if shm_buf =? 0 then HugeThrows
      else if mbind_ok shm_buf then
        HugeMem shm_buf (round_up size (2 * 1024 * 1024)) (u64 (Z.shiftl 1 (numa_node mod 64)))
      else HugeExits
  | _ => HugeExits
  end.

(** ** The runner *)

Record thread := MkThread { th_index : Z; th_stat : nat; th_binding : binding; th_joined : bool }.

Record bench_runner := MkRunner {
  handlers : list thread; worker_stats : list bench_stat;
  num_workers : Z; is_running : bool; bind_offset : Z; bind_numa : Z;
}.

Definition bench_runner_new (nw offset numa_node : Z) : bench_runner := MkRunner [] [] nw false offset numa_node.

Inductive run_result := Running (r : bench_runner) | RunThrows (r : bench_runner).

(** The body of the loop of [run]: the new thread gets the stat at index [i], and the thread
    at index [i] is bound. *)
Definition start_worker (affinity_ok : Z -> bool) (i : nat) (r : bench_runner) : run_result :=
  let index := (Z.of_nat i +64 bind_offset r)%cint in
  let stats := worker_stats r ++ [stat_new] in
  let threads := handlers r ++ [MkThread index i Ignored false] in
  let bound b := MkRunner (alter (fun t => MkThread (th_index t) (th_stat t) b (th_joined t)) i threads)
                   stats (num_workers r) (is_running r) (bind_offset r) (bind_numa r) in
  match bind_to_core affinity_ok (bind_numa r) index with
  | BindThrows => RunThrows (bound Ignored)
  | b => Running (bound b)
  end.

Fixpoint start_workers (affinity_ok : Z -> bool) (idx : list nat) (r : bench_runner) : run_result :=
  match idx with
  | [] => Running r
  | i :: idx =>
      match start_worker affinity_ok i r with
      | Running r => start_workers affinity_ok idx r
      | x => x
      end
  end.

Definition set_running (b : bool) (r : bench_runner) : bench_runner :=
  MkRunner (handlers r) (worker_stats r) (num_workers r) b (bind_offset r) (bind_numa r).

Definition run (affinity_ok : Z -> bool) (r : bench_runner) : run_result :=
  if is_running r then RunThrows r
  else
    match start_workers affinity_ok (seq 0 (Z.to_nat (num_workers r))) r with
    | Running r => Running (set_running true r)
    | x => x
    end.

(** Joining a thread that was joined throws. *)
Fixpoint join_all (ts : list thread) : option (list thread) :=
  match ts with
  | [] => Some []
  | t :: ts => if th_joined t then None
               else ts ← join_all ts; mret (MkThread (th_index t) (th_stat t) (th_binding t) true :: ts)
  end.
Definition stop (r : bench_runner) : option bench_runner :=
  ts ← join_all (handlers r);
  mret (MkRunner ts (worker_stats r) (num_workers r) false (bind_offset r) (bind_numa r)).

Definition report (r : bench_runner) (now_point : Z) (reporter : simple_reporter) :
    collected_bench_stat * simple_reporter := report_collect (worker_stats r) now_point reporter.
End Numa.

(** ** What a worker does to its counters *)

Inductive stat_op := Start (now num_ops : Z) | Finish (now num_ops : Z) | Count.

Definition stat_step (s : bench_stat) (op : stat_op) : bench_stat :=
  match op with
  | Start now n => start_batch_op now n s
  | Finish now n => finish_batch_op now n s
  | Count => finish_one_op_without_time s
  end.
Definition run_ops (ops : list stat_op) (s : bench_stat) : bench_stat := foldl stat_step s ops.

Definition op_count (op : stat_op) : Z := match op with Start _ _ => 0 | Finish _ n => n | Count => 1 end.
Definition op_time (op : stat_op) : Z := match op with Start now n => - (now * n) | Finish now n => now * n | Count => 0 end.

(** Equal as 64-bit words. *)
Definition eq64 (x y : Z) : Prop := (2 ^ 64 | x - y).

#[local] Instance eq64_equiv : Equivalence eq64.
Proof.
  unfold eq64. split.
  - intros x. exists 0. lia.
  - intros x y [q H]. exists (- q). lia.
  - intros x y z [p H1] [q H2]. exists (p + q). lia.
Qed.
#[local] Instance eq64_add : Proper (eq64 ==> eq64 ==> eq64) Z.add.
Proof. intros x x' [p H1] y y' [q H2]. exists (p + q). lia. Qed.
#[local] Instance eq64_sub : Proper (eq64 ==> eq64 ==> eq64) Z.sub.
Proof. intros x x' [p H1] y y' [q H2]. exists (p - q). lia. Qed.
#[local] Instance s64_proper : Proper (eq64 ==> eq) s64.
Proof. intros x y H. by apply wraps_cong. Qed.
#[local] Instance u64_proper : Proper (eq64 ==> eq) u64.
Proof. intros x y [q H]. unfold wrapu. replace x with (y + q * 2 ^ 64) by lia. apply Z_mod_plus_full. Qed.

Lemma eq64_s64 x : eq64 (s64 x) x.
Proof. symmetry. by apply wraps_div. Qed.
Lemma eq64_u64 x : eq64 (u64 x) x.
Proof. unfold eq64, wrapu. exists (- (x / 2 ^ 64)). pose proof (Z_div_mod_eq_full x (2 ^ 64)). lia. Qed.

Lemma clock_ops_spec now n : eq64 (clock_ops now n) (now * n).
Proof. unfold clock_ops. by rewrite eq64_s64, eq64_u64. Qed.

Lemma stat_step_spec s op :
  eq64 (num_ops_finished (stat_step s op)) (num_ops_finished s + op_count op) /\
  eq64 (time_point (timer (stat_step s op))) (time_point (timer s) + op_time op).
Proof.
  destruct op as [now n|now n|]; cbn; unfold clock_ops; rewrite ?eq64_s64, ?eq64_u64, ?Z.add_0_r; split; try done;
    rewrite ?eq64_s64, ?eq64_u64; done.
Qed.

Lemma run_ops_spec ops s :
  eq64 (num_ops_finished (run_ops ops s)) (num_ops_finished s + zsum (op_count <$> ops)) /\
  eq64 (time_point (timer (run_ops ops s))) (time_point (timer s) + zsum (op_time <$> ops)).
Proof.
  revert s. induction ops as [|op ops IH]; intros s; cbn; [by rewrite !Z.add_0_r|].
  destruct (IH (stat_step s op)) as [H1 H2]. destruct (stat_step_spec s op) as [E1 E2].
  change (foldl stat_step (stat_step s op) ops) with (run_ops ops (stat_step s op)).
  rewrite H1, H2, E1, E2, !Z.add_assoc. done.
Qed.

Lemma zsum_app xs ys : zsum (xs ++ ys) = zsum xs + zsum ys.
Proof. unfold zsum. induction xs as [|x xs IH]; cbn; lia. Qed.

Lemma collect_spec stats :
  eq64 (num_ops_finished (collect stats)) (zsum (num_ops_finished <$> stats)) /\
  eq64 (time_point (timer (collect stats))) (zsum ((fun s => time_point (timer s)) <$> stats)).
Proof.
  unfold collect. induction stats as [|s stats [IH1 IH2]] using rev_ind; [done|].
  rewrite foldl_snoc, !fmap_app, !zsum_app. cbn. rewrite eq64_s64, eq64_u64, IH1, IH2, !Z.add_0_r. done.
Qed.

(** What all workers do between two reports. *)
Lemma collect_gap opss stats :
  length opss = length stats ->
  let new := zip_with run_ops opss stats in
  eq64 (zsum (num_ops_finished <$> new) - zsum (num_ops_finished <$> stats)) (zsum (op_count <$> concat opss)) /\
  eq64 (zsum ((fun s => time_point (timer s)) <$> new) - zsum ((fun s => time_point (timer s)) <$> stats))
    (zsum (op_time <$> concat opss)).
Proof.
  cbn zeta. revert stats. induction opss as [|ops opss IH]; intros [|s stats] Hl; cbn; try done.
  destruct (IH stats ltac:(cbn in Hl; lia)) as [H1 H2]. destruct (run_ops_spec ops s) as [E1 E2].
  rewrite !fmap_app, !zsum_app, <- H1, <- H2. change (foldr Z.add 0) with zsum. rewrite E1, E2. split.
  - match goal with |- eq64 ?x ?y => replace x with y by (change (foldr Z.add 0) with zsum; lia) end. done.
  - match goal with |- eq64 ?x ?y => replace x with y by (change (foldr Z.add 0) with zsum; lia) end. done.
Qed.

(** An operation, or a batch of operations, with the times at which it started and finished. *)
Record interval := MkInterval { i_start : Z; i_finish : Z; i_ops : Z }.

Definition latency (i : interval) : Z := (i_finish i - i_start i) * i_ops i.
Definition start_op (i : interval) : stat_op := Start (i_start i) (i_ops i).
Definition finish_op (i : interval) : stat_op := Finish (i_finish i) (i_ops i).
Definition started_at (i : interval) : Z := i_start i * i_ops i.

(** The operations of a period: [inside] start and finish in it, [before] only finish in it,
    and [after] only start in it. *)
Definition period_ops (before inside after : list interval) : list stat_op :=
  (finish_op <$> before) ++ (start_op <$> inside) ++ (finish_op <$> inside) ++ (start_op <$> after).

Lemma period_count before inside after :
  zsum (op_count <$> period_ops before inside after) = zsum (i_ops <$> before ++ inside).
Proof.
  unfold period_ops. rewrite !fmap_app, !zsum_app, <- !list_fmap_compose.
  assert (forall l, zsum (op_count ∘ start_op <$> l) = 0) as Hs by (intros l; unfold zsum; induction l; cbn in *; lia).
  assert (forall l, zsum (op_count ∘ finish_op <$> l) = zsum (i_ops <$> l)) as Hf
    by (intros l; unfold zsum; induction l; cbn in *; lia).
  rewrite !Hs, (Hf before), (Hf inside). lia.
Qed.

Lemma period_time before inside after :
  zsum (op_time <$> period_ops before inside after) =
    zsum (latency <$> before ++ inside) + zsum (started_at <$> before) - zsum (started_at <$> after).
Proof.
  unfold period_ops. rewrite !fmap_app, !zsum_app, <- !list_fmap_compose.
  assert (forall l, zsum (op_time ∘ start_op <$> l) = - zsum (started_at <$> l)) as Hs
    by (intros l; unfold zsum, started_at; induction l; cbn in *; lia).
  assert (forall l, zsum (op_time ∘ finish_op <$> l) = zsum (latency <$> l) + zsum (started_at <$> l)) as Hf
    by (intros l; unfold zsum, started_at, latency; induction l; cbn in *; lia).
  rewrite !Hs, (Hf before), (Hf inside). lia.
Qed.

(** C8.  A report covers exactly the period since the last one, however the counters wrap
    around and in whatever order the workers' operations came: the throughput is the number
    of operations finished in it by its length in microseconds, and the latency is the mean
    over these operations of their latencies, in nanoseconds, off by the starting times of
    the operations under way at the two reports: right when none are. *)
Theorem report_period (stats : list bench_stat) (opss : list (list stat_op)) (before inside after : list interval)
    (time1 time2 : Z) (r : simple_reporter) :
  length opss = length stats -> concat opss ≡ₚ period_ops before inside after ->
  let ops := zsum (i_ops <$> before ++ inside) in
  let total := zsum (latency <$> before ++ inside) + zsum (started_at <$> before) - zsum (started_at <$> after) in
  0 <= ops < 2 ^ 64 -> - 2 ^ 63 <= total < 2 ^ 63 -> 0 <= time2 - time1 < 2 ^ 63 ->
  let '(_, r1) := report_collect stats time1 r in
  let '(c, _) := report_collect (zip_with run_ops opss stats) time2 r1 in
  c = MkCollected (ddiv (double_of_Z ops) (double_of_Z ((time2 - time1) / 1000)))
        (ddiv (double_of_Z total) (double_of_Z ops)) 0.
Proof.
  cbn zeta. intros Hl Hp Ho Ht Hm. unfold report_collect. cbn.
  destruct (collect_spec stats) as [C1 C2]. destruct (collect_spec (zip_with run_ops opss stats)) as [D1 D2].
  destruct (collect_gap opss stats Hl) as [G1 G2].
  rewrite (zsum_permutation _ _ (fmap_Permutation op_count _ _ Hp)), period_count in G1.
  rewrite (zsum_permutation _ _ (fmap_Permutation op_time _ _ Hp)), period_time in G2.
  rewrite D1, D2, C1, C2, G1, G2, wrapu_small, !wraps_small by lia.
  by rewrite Z.quot_div_nonneg by lia.
Qed.

(** Two workers; the second has a batch of two under way at both reports. *)
Lemma report_period_witness :
  let stats := [stat_new; run_ops [Start 1000 2] stat_new] in
  let opss := [[Start 1000 1; Finish 1050 1]; [Finish 1100 2; Start 1080 2]] in
  concat opss ≡ₚ period_ops [MkInterval 1000 1100 2] [MkInterval 1000 1050 1] [MkInterval 1080 1200 2] /\
  let '(_, r1) := report_collect stats 0 (simple_reporter_new 0) in
  let '(c, _) := report_collect (zip_with run_ops opss stats) 3000 r1 in
  c = MkCollected (ddiv (double_of_Z 3) (double_of_Z 3)) (ddiv (double_of_Z 90) (double_of_Z 3)) 0.
Proof.
  cbn zeta. assert (concat [[Start 1000 1; Finish 1050 1]; [Finish 1100 2; Start 1080 2]] ≡ₚ
    period_ops [MkInterval 1000 1100 2] [MkInterval 1000 1050 1] [MkInterval 1080 1200 2]) as Hp by (cbn; solve_Permutation).
  split; [exact Hp|].
  apply (report_period [stat_new; run_ops [Start 1000 2] stat_new] [[Start 1000 1; Finish 1050 1]; [Finish 1100 2; Start 1080 2]]
    [MkInterval 1000 1100 2] [MkInterval 1000 1050 1] [MkInterval 1080 1200 2] 0 3000 (simple_reporter_new 0));
    [reflexivity|exact Hp|vm_compute; split; congruence..].
Defined.

(** One operation is always under way, each takes 10 ns, and the report says 0. *)
Lemma report_pipelined :
  let stats := [run_ops [Start 100 1] stat_new] in
  let opss := [[Finish 110 1; Start 110 1; Finish 120 1; Start 120 1]] in
  let '(_, r1) := report_collect stats 0 (simple_reporter_new 0) in
  let '(c, _) := report_collect (zip_with run_ops opss stats) 20000 r1 in
  avg_latency c = double_of_Z 0.
Proof.
  cbn zeta. destruct (report_collect _ _ _) as [c0 r1] eqn:E1. destruct (report_collect (zip_with _ _ _) _ _) as [c r2] eqn:E2.
  vm_compute in E1. injection E1 as <- <-. vm_compute in E2. injection E2 as <- <-. reflexivity.
Qed.

(** ** Cores and threads *)

Section NumaTheorems.
Context {N : NumaLib}.

Lemma lcores_spec node l :
  get_lcores_for_numa_node node = Some l ->
  NoDup l /\ forall c, c ∈ l <-> 0 <= c < u64 numa_num_configured_cpus /\ u64 (numa_node_of_cpu c) = node.
Proof.
  unfold get_lcores_for_numa_node. case_match; [|done]. intros [= <-]. split.
  - apply list.NoDup_filter, NoDup_seqZ.
  - intros c. rewrite list_elem_of_filter, elem_of_seqZ. naive_solver lia.
Qed.

(** The binding of worker [i]. *)
Definition core_of (l : list Z) (off : Z) (i : nat) : binding :=
  match l !! Z.to_nat (Z.of_nat i + off) with Some c => Bound c | None => Ignored end.
Definition worker_thread (l : list Z) (off : Z) (i : nat) : thread :=
  MkThread (Z.of_nat i + off) i (core_of l off i) false.

Lemma bind_to_core_spec ok node l i :
  get_lcores_for_numa_node node = Some l -> (forall c, c ∈ l -> ok c = true) -> 0 <= i ->
  bind_to_core ok node i = match l !! Z.to_nat i with Some c => Bound c | None => Ignored end.
Proof.
  intros Hl Hok Hi. unfold bind_to_core. rewrite Hl. destruct (Z.leb_spec (Z.of_nat (length l)) i) as [Hge|Hlt].
  - by rewrite lookup_ge_None_2 by lia.
  - destruct (lookup_lt_is_Some_2 l (Z.to_nat i)) as [c Hc]; [lia|]. rewrite Hc.
    by rewrite Hok by (by eapply list_elem_of_lookup_2).
Qed.

Lemma start_workers_spec ok nw off node l n k :
  get_lcores_for_numa_node node = Some l -> (forall c, c ∈ l -> ok c = true) ->
  0 <= off -> off + Z.of_nat (k + n) < 2 ^ 64 ->
  let state j := MkRunner (worker_thread l off <$> seq 0 j) (replicate j stat_new) nw false off node in
  start_workers ok (seq k n) (state k) = Running (state (k + n)%nat).
Proof.
  intros Hl Hok Hoff. cbn zeta. revert k. induction n as [|n IH]; intros k Hb; cbn [seq start_workers].
  { by rewrite Nat.add_0_r. }
  unfold start_worker. cbn [bind_offset bind_numa worker_stats handlers num_workers is_running].
  rewrite wrapu_small, (bind_to_core_spec _ _ l) by (done || lia).
  assert (forall b, alter (fun t => MkThread (th_index t) (th_stat t) b (th_joined t)) k
    ((worker_thread l off <$> seq 0 k) ++ [MkThread (Z.of_nat k + off) k Ignored false]) =
    (worker_thread l off <$> seq 0 k) ++ [MkThread (Z.of_nat k + off) k b false]) as E.
  { intros b. rewrite alter_app_r_alt by (rewrite length_fmap, length_seq; lia).
    by rewrite length_fmap, length_seq, Nat.sub_diag. }
  specialize (IH (S k) ltac:(lia)). replace (k + S n)%nat with (S k + n)%nat by lia. rewrite <- IH.
  assert (replicate (S k) stat_new = replicate k stat_new ++ [stat_new]) as ->.
  { by rewrite <- Nat.add_1_r, replicate_add. }
  rewrite seq_S, fmap_app. cbn [fmap list_fmap Nat.add].
  assert (worker_thread l off k = MkThread (Z.of_nat k + off) k (core_of l off k) false) as -> by done. unfold core_of.
  destruct (l !! Z.to_nat (Z.of_nat k + off)) as [c|]; by rewrite E.
Qed.

(** A new runner starts its workers with a counter each, worker [i] on the core number
    [i + bind_offset] of the node, or on any core when the node has no such core; no two
    workers are bound to the same core. *)
Theorem runner_binds_workers ok nw off node l :
  get_lcores_for_numa_node node = Some l -> (forall c, c ∈ l -> ok c = true) ->
  0 <= nw -> 0 <= off -> off + nw < 2 ^ 64 ->
  exists r, run ok (bench_runner_new nw off node) = Running r /\ is_running r = true /\
    handlers r = worker_thread l off <$> seq 0 (Z.to_nat nw) /\ worker_stats r = replicate (Z.to_nat nw) stat_new /\
    (forall i j c, core_of l off i = Bound c -> core_of l off j = Bound c -> i = j) /\
    (forall i c, core_of l off i = Bound c -> 0 <= c < u64 numa_num_configured_cpus /\ u64 (numa_node_of_cpu c) = node).
Proof.
  intros Hl Hok Hn Hoff Hb. destruct (lcores_spec _ _ Hl) as [Hd Hin].
  assert (forall i c, core_of l off i = Bound c -> l !! Z.to_nat (Z.of_nat i + off) = Some c) as Hc.
  { intros i c. unfold core_of. case_match; [by intros [= ->]|done]. }
  eexists. split; [|split_and!].
  - unfold run. cbn [is_running bench_runner_new num_workers].
    pose proof (start_workers_spec ok nw off node l (Z.to_nat nw) 0 Hl Hok Hoff ltac:(lia)) as E. cbn zeta in E.
    cbn [seq fmap list_fmap replicate Nat.add] in E. unfold bench_runner_new. rewrite E. reflexivity.
  - done.
  - done.
  - done.
  - intros i j c H1%Hc H2%Hc. pose proof (NoDup_lookup _ _ _ _ Hd H1 H2). lia.
  - intros i c H%Hc%list_elem_of_lookup_2. by apply Hin.
Qed.

(** The allocation of huge pages tries again while the key exists; what it gives is a whole
    number of pages, the fewest that hold [size] bytes. *)
Theorem huge_mem_pages shmat mbind_ok node size n id rest :
  0 <= size -> size + 2 ^ 21 <= 2 ^ 64 -> shmat id <> 0 -> mbind_ok (shmat id) = true ->
  exists pages, get_huge_mem shmat mbind_ok node size (replicate n EEXIST ++ Shm id :: rest) =
    HugeMem (shmat id) (pages * 2 ^ 21) (u64 (Z.shiftl 1 (node mod 64))) /\
    size <= pages * 2 ^ 21 < size + 2 ^ 21.
Proof.
  intros Hs Hb H0 Hm. exists ((size + 2 ^ 21 - 1) / 2 ^ 21).
  pose proof (Z_div_mod_eq_full (size + 2 ^ 21 - 1) (2 ^ 21)). pose proof (Z.mod_pos_bound (size + 2 ^ 21 - 1) (2 ^ 21)).
  split; [|lia]. induction n as [|n IH]; cbn [replicate app get_huge_mem]; [|exact IH].
  rewrite (proj2 (Z.eqb_neq _ _)) by done. rewrite Hm. f_equal. unfold round_up.
  rewrite (wrapu_small 64 (size + _ - 1)) by lia. rewrite wrapu_small; change (2 * 1024 * 1024) with (2 ^ 21); lia.
Qed.
End NumaTheorems.

(** Two nodes of two cores each. *)
#[local] Instance small_numa : NumaLib := {|
  numa_max_node := 1; numa_num_configured_cpus := 4; numa_num_configured_nodes := 2;
  numa_node_of_cpu c := c mod 2;
|}.

(** A runner that is started again binds its old threads, which were joined, and cannot be
    stopped again. *)
Lemma runner_not_restartable :
  exists r1 r2 r3, run (fun _ => true) (bench_runner_new 2 0 1) = Running r1 /\ stop r1 = Some r2 /\
    run (fun _ => true) r2 = Running r3 /\ (th_binding <$> handlers r3) = [Bound 1; Bound 3; Ignored; Ignored] /\
    stop r3 = None.
Proof. do 3 eexists. split_and!; [vm_compute; reflexivity..]. Qed.
